(* ===== verification/_CoqProject ===== *)
-Q . S2P
Prelude.v
MachineInt.v
StrUtil.v
Address.v
AddressProps.v
ByteArray.v
ByteArrayCodec.v
ByteArrayProps.v
Timer.v
TimerProps.v
Fiber.v
Scheduler.v
SchedulerProps.v
IOManager.v
IOManagerProps.v
Hook.v
HookProps.v
Socket.v
SslSocket.v
TcpServer.v
Stream.v
StreamProps.v
Zlib.v
Http.v
HttpProps.v
Servlet.v
HttpSession.v
HttpSessionProps.v
HttpText.v
Ragel.v
HttpClientFsm.v
Http11Fsm.v
UriFsm.v
Automata.v
Uri.v
UriProps.v
Http11Parser.v
Http11Props.v
HttpClient.v
HttpClientParser.v
HttpClientProps.v
HttpBuffer.v
HttpPool.v
Log.v
Config.v
Redis.v
FoxThread.v
FoxRedis.v
RedisPool.v
OtaHttp.v
OtaHttpProps.v
Mqtt.v
OtaMqtt.v
OtaMqttProps.v
OtaSystem.v
OtaResponder.v
Thread.v
