(* ===== verification/Prelude.v ===== *)
(** * The OTA service and its network library, verified

    The program is an over-the-air update service on top of a small network
    library ("sherry").  Its parts, from the bottom up, and the files of this
    development that model them:

    - [Prelude], [MachineInt]: what all files share.  Programs with state and
      errors are [prog St A = St -> outcome A * St], where an outcome is a
      returned value, a C++ exception or an abort (failed assertion, null
      dereference, access out of range); [wrap w] is unsigned arithmetic at
      width [w]; the database [sherry] holds the hints used throughout.
    - [ByteArray], [ByteArrayCodec], [ByteArrayProps]: [sherry/bytearray.cc],
      the chained byte buffer (nodes, position, size, capacity) and its typed
      reads and writes (fixed width in both byte orders, zigzag, varint,
      floats as bit patterns, length-prefixed strings, files, iovecs).
    - [StrUtil]: [sherry/util/hash_util.cc], the [replace] functions.
    - [Thread]: [sherry/thread.h], [thread.cc], the locks and their guards,
      the semaphore, a thread and its creator.
    - [Timer], [TimerProps]: [sherry/timer.cc], the ordered set of timers.
    - [Fiber]: [sherry/fiber.cc], the fibers of one thread and the contexts
      they switch between.
    - [Scheduler], [SchedulerProps]: [sherry/scheduler.h], [scheduler.cc] and
      the states of [fiber.cc], the task queue and the loop of the workers.
    - [IOManager], [IOManagerProps]: [sherry/iomanager.cc], epoll events and
      the idle loop, on top of the timers.
    - [Hook], [HookProps]: [sherry/fd_manager.cc] and [hook.cc], the table of
      descriptors and the system calls that suspend a fiber, on top of the
      timers and the events.
    - [Address], [AddressProps]: [sherry/address.cc], socket addresses, their
      order, texts and prefixes, and how a host name is resolved.
    - [Socket], [SslSocket], [TcpServer]: [sherry/socket.cc] and
      [tcp_server.cc], with the ownership of every descriptor; the second is
      the OpenSSL variant.
    - [Stream], [StreamProps], [Zlib]: [sherry/stream.cc],
      [socket_stream.cc], [streams/zlib_stream.cc], the fixed-size transfers,
      the transfers from and to a [ByteArray], and compression.
    - [Http], [HttpProps], [HttpText], [Servlet]: [sherry/http/http.cc], the
      messages and their printing, and [servlet.cc], dispatch by path.
    - [Ragel], and the tables [UriFsm], [Http11Fsm], [HttpClientFsm] with
      [Automata]: the automata that Ragel generated into [uri.rl.cc],
      [http11_parser.rl.cc] and [httpclient_parser.rl.cc], state by state.
    - [Uri], [UriProps]; [Http11Parser], [Http11Props]; [HttpClientParser],
      [HttpClientProps]: the actions, the drivers and the callbacks around
      those automata, down to the objects they fill.
    - [HttpSession], [HttpSessionProps]: [sherry/http/http_parser.cc] (the
      request), [http_session.cc] and [http_server.cc], the loop over a
      connection, over an interface to the parser.
    - [HttpClient], [HttpPool]: [sherry/http/http_connection.cc], the response
      over the same kind of interface, the requests of the client and its
      connection pool.
    - [HttpBuffer]: [sherry/http/http_buffer.cc], the ring buffer.
    - [Log], [Config]: [sherry/log.cc] and [config.cc] with [config.h], log
      patterns and delivery, and the registry of configuration variables.
    - [Redis], [RedisPool], [FoxThread], [FoxRedis]: [sherry/db]: the helpers
      and the keys of the service, the synchronous connections and their
      pools, the event threads, and the asynchronous connections on them.
    - [OtaHttp], [OtaHttpProps]: [sherry/ota_http_manager.cc], the HTTP side
      of the service (notify, stop, query, download, file upload parts).
    - [Mqtt], [OtaMqtt], [OtaMqttProps]: [mqtt_client.cc],
      [ota_notifier.cc], [ota/ota_device.cc], [ota_mqtt_manager.cc],
      [ota_command_dispatcher.cc], the device side.
    - [OtaResponder]: [ota_query_responder.cc], [ota_subscribe_download.cc],
      [ota/ota_servlet.cc], queries to devices and what becomes of the answers.
    - [OtaSystem]: the two sides together over Redis.

    ** How the model corresponds to the code

    Each operation of the source is one definition with the same name (an
    overloaded one gets a suffix), its guards and early returns in the same
    order.  Objects shared by pointer live in a heap indexed by address;
    containers keep the source's order.  Integers keep their width: an
    addition that may wrap is written with [wrap].  A mutex-protected region
    is one step; where the code works without a lock between two regions the
    model has a step in between (the workers of [Scheduler], the device
    removal of [OtaMqtt], the two halves of [FoxThread]'s [dispatch]).

    A generated automaton is a table: for each state the ranges of characters,
    where they lead and which actions they run, as the [switch] of the
    generated code has them; [Ragel] runs such a table over a buffer with
    offsets into it, as the code runs pointers.

    System calls, OpenSSL, zlib, Redis (hiredis), MQTT (Paho), libevent, the
    YAML tree, JSON and the clock are classes or arguments of the definitions;
    what the code relies on is a named hypothesis or a class of laws
    ([RedisLaws], [PahoLaws], [LockLaws], ...), and each theorem that uses one
    has a witness with a concrete instance.

    ** What the theorems show

    - Buffers: every sequence of operations on the chained buffer behaves as
      on one flat array with a cursor; what was written is read back, for
      every type, byte order and node size; the chain grows by the fewest
      nodes.
    - Threads and fibers: guards of a lock exclude each other as they should,
      in every interleaving; a thread object and its thread come to their end
      without touching a deleted object; fibers used as the scheduler uses
      them are coroutines.
    - Timers, events, tasks: the invariants of each manager hold in every
      reachable state and no operation on one aborts; due timers fire exactly
      once and in order; an event is delivered or withdrawn exactly once; the
      queue of the scheduler loses and doubles nothing, and a fiber runs on
      one thread at a time.
    - System calls: a hooked call that would block registers its event and
      its timeout, and is resumed by one of them; every descriptor a server
      opens is closed at most once and owned by one object.
    - Transfers: a fixed-size read or write moves exactly that many bytes, in
      order, over a stream that delivers some each time; what a failing read
      does to it instead; a write over SSL sends a prefix; what is compressed
      is decompressed to the same bytes.
    - Parsers: a run of a generated automaton stays in its table; the request
      parser never leaves its buffer, whatever comes; a printed URI is parsed
      to the same URI, a printed request to the same request, and a response
      with correct line ends to the same response, when the head comes with
      the first read.
    - A connection: a request is framed by its head and its content length;
      the loop answers each request once and in order.  The ring buffer is a
      bounded queue.  A pooled connection is idle or held by one client.
    - Redis: a pool hands each synchronous connection to one client at a
      time; no command of an asynchronous connection is lost or resumed twice;
      an event thread runs what is dispatched, in order.
    - Support: [replace] ends and replaces every occurrence; a log pattern
      prints what it says and an event reaches each appender that admits it;
      a document sets the variables it names and tells their listeners.
    - HTTP: header maps are maps up to letter case; the framing of a printed
      message; which servlet answers; what each request of the service does
      on every branch; a download never leaves its directory.
    - Devices: a notify accepted over HTTP reaches the device's timer and
      publishes the announced version; a reported state is what a later
      query returns; a query is published once; the managers keep their
      invariants.

    An [Example] is a concrete run; most of them show an input the code does
    not treat as it means to.

    ** Bounds and fuel

    Loops of the source that are not structural run on fuel, computed from
    their input or given, and a theorem states how much is enough (the varint
    and copy loops of [ByteArray], the send loop of [OtaHttp], the loops of
    [StrUtil], [Stream], [Zlib], [HttpSession] and [HttpClient]).  The automata
    run on the input itself.  Runs of interleaved threads are lists of turns
    of any length; where a theorem says that something ends, it says how to
    get there from every reachable state.  Widths are those of the 64-bit
    build.

    ** Not modelled

    The memory of the stacks of fibers and the reference counts of shared
    pointers to fibers; the root fiber of a scheduler built with [use_caller]
    inside the loop of [Scheduler], and the joins at the end of [stop]; the
    pipe that wakes the idle loop; the registry of names of the event threads;
    the JSON header (a copy of a third-party library, an interface here); the
    files, the [printf] form and the YAML configuration of the loggers; the
    conversions between text and configuration values; [SafeQueue], which
    does not compile; and the parts of an earlier design of the service that
    are not in the build ([ota_http_command_dispatcher.cc],
    [ota_http_response_builder.cc], [http/http_send_buffer.cc] and others).
*)

From stdpp Require Import base list gmap strings pretty.
From Stdlib Require Import ZArith Lia.

(** * Outcomes of C++ code

    A call returns normally, throws a C++ exception, or runs into one of the
    faults below.  A fault is what the C++ text gives no meaning to or aborts
    on; no theorem that promises a result can be met by it. *)

Inductive fault : Type :=
| NullDeref      (* a null pointer is dereferenced *)
| OutOfRange     (* memory outside an allocation is accessed *)
| AssertFail     (* SYLAR_ASSERT aborts the process *)
| EndIterator    (* an end() iterator is dereferenced or erased *)
| BadArith       (* arithmetic the language leaves undefined: an overflow of [int], a shift by its width *)
| NoFuel.        (* a modelled loop used up its fuel: the loop did not end *)

Inductive outcome (A : Type) : Type :=
| Ret (a : A)
| Throw (what : string)
| Crash (f : fault).
Arguments Ret {A} a.
Arguments Throw {A} what.
Arguments Crash {A} f.

#[export] Instance fault_eq_dec : EqDecision fault.
Proof. solve_decision. Defined.

#[export] Instance outcome_eq_dec {A} `{EqDecision A} : EqDecision (outcome A).
Proof. solve_decision. Defined.

#[export] Instance outcome_ret : MRet outcome := fun A a => Ret a.
#[export] Instance outcome_bind : MBind outcome := fun A B k m =>
  match m with Ret a => k a | Throw e => Throw e | Crash f => Crash f end.

(** ** Stateful code

    [prog S A] is code over a state [S].  The state survives an exception:
    what was changed before the throw stays changed. *)

Definition prog (S A : Type) : Type := S -> outcome A * S.

#[export] Instance prog_ret S : MRet (prog S) := fun A a s => (Ret a, s).
#[export] Instance prog_bind S : MBind (prog S) := fun A B k m s =>
  match m s with
  | (Ret a, s') => k a s'
  | (Throw e, s') => (Throw e, s')
  | (Crash f, s') => (Crash f, s')
  end.

Definition gets {S A} (f : S -> A) : prog S A := fun s => (Ret (f s), s).
Definition modify {S} (f : S -> S) : prog S unit := fun s => (Ret tt, f s).
Definition throw {S A} (e : string) : prog S A := fun s => (Throw e, s).
Definition crash {S A} (f : fault) : prog S A := fun s => (Crash f, s).
Definition of_option {S A} (f : fault) (o : option A) : prog S A :=
  match o with Some a => mret a | None => crash f end.

Definition lift {S A} (o : outcome A) : prog S A := fun s => (o, s).

(** The outcome a [prog] gives and the state it leaves. *)
Definition out {S A} (m : prog S A) (s : S) : outcome A := fst (m s).
Definition post {S A} (m : prog S A) (s : S) : S := snd (m s).

(** ** Laws used to run a [prog] symbolically *)

Section prog_laws.
Context {S : Type}.

Lemma bind_ret {A B} (m : prog S A) (k : A -> prog S B) s a s' :
  m s = (Ret a, s') -> (m ≫= k) s = k a s'.
Proof. intros H. unfold mbind, prog_bind. by rewrite H. Qed.

Lemma bind_throw {A B} (m : prog S A) (k : A -> prog S B) s e s' :
  m s = (Throw e, s') -> (m ≫= k) s = (Throw e, s').
Proof. intros H. unfold mbind, prog_bind. by rewrite H. Qed.

Lemma bind_crash {A B} (m : prog S A) (k : A -> prog S B) s f s' :
  m s = (Crash f, s') -> (m ≫= k) s = (Crash f, s').
Proof. intros H. unfold mbind, prog_bind. by rewrite H. Qed.

Lemma bind_assoc {A B C} (m : prog S A) (k : A -> prog S B) (h : B -> prog S C) s :
  ((m ≫= k) ≫= h) s = (m ≫= fun a => k a ≫= h) s.
Proof. unfold mbind, prog_bind. by destruct (m s) as [[] ?]. Qed.
End prog_laws.

(** [run H] replaces the head call of a [prog] by its known result [H];
    [run_pure] steps through reads and writes of the state. *)
Ltac run H := erewrite bind_ret; [| apply H]; cbv beta.
Ltac run_pure :=
  repeat (unfold gets, modify, mret, prog_ret;
          erewrite bind_ret; [| reflexivity]; cbv beta).

(** [operator<<] of an unsigned number. *)
Definition dec (n : Z) : string := pretty (Z.to_N n).

Lemma append_nil_r (a : string) : String.append a EmptyString = a.
Proof. induction a as [|x a IH]; [done|]. exact (f_equal (String x) IH). Qed.
Lemma append_assoc (a b c : string) : String.append (String.append a b) c = String.append a (String.append b c).
Proof. induction a as [|x a IH]; [done|]. exact (f_equal (String x) IH). Qed.

(** * Hints shared by the components *)

Create HintDb sherry discriminated.
Create Rewrite HintDb sherry.
#[export] Hint Resolve Nat.lt_0_succ Nat.le_refl : sherry.

(** * Generic lemmas on lists: a block of memory as a list of cells *)

Section memory.
Context {A : Type}.
Implicit Types l k src : list A.

(** [slice off len l] is the [len] cells from offset [off]: the source of a
    [memcpy]. [blit off src l] is [l] after [memcpy(l + off, src, |src|)]. *)
Definition slice (off len : nat) (l : list A) : list A := take len (drop off l).
Definition blit (off : nat) (src l : list A) : list A :=
  take off l ++ src ++ drop (off + length src) l.

Lemma length_slice off len l :
  off + len <= length l -> length (slice off len l) = len.
Proof. intros H. unfold slice. rewrite length_take, length_drop. lia. Qed.

Lemma length_blit off src l :
  off + length src <= length l -> length (blit off src l) = length l.
Proof.
  intros H. unfold blit. rewrite !length_app, length_take, length_drop. lia.
Qed.

Lemma slice_0 off l : slice off 0 l = [].
Proof. done. Qed.

Lemma blit_nil off l : blit off [] l = l.
Proof. unfold blit. simpl. rewrite Nat.add_0_r. apply take_drop. Qed.

Lemma slice_blit off src l :
  off + length src <= length l -> slice off (length src) (blit off src l) = src.
Proof.
  intros H. unfold slice, blit.
  rewrite drop_app_length' by (rewrite length_take; lia).
  by rewrite take_app_length.
Qed.

Lemma slice_split off n m l :
  slice off (n + m) l = slice off n l ++ slice (off + n) m l.
Proof.
  unfold slice. rewrite <- (take_drop n (take (n + m) _)), take_take.
  rewrite Nat.min_l by lia. f_equal.
  by rewrite <- take_drop_commute, drop_drop.
Qed.

Lemma slice_cut off n m l : n <= m -> slice off m l = slice off n l ++ slice (off + n) (m - n) l.
Proof. intros H. rewrite <- slice_split. f_equal. lia. Qed.

Lemma slice_app_l off len l k :
  off + len <= length l -> slice off len (l ++ k) = slice off len l.
Proof.
  intros H. unfold slice. rewrite drop_app_le by lia.
  rewrite take_app_le by (rewrite length_drop; lia). done.
Qed.

Lemma slice_app_r off len l k :
  length l <= off -> slice off len (l ++ k) = slice (off - length l) len k.
Proof. intros H. unfold slice. by rewrite drop_app_ge. Qed.

Lemma slice_take off len n l :
  off + len <= n -> slice off len (take n l) = slice off len l.
Proof.
  intros H. unfold slice. rewrite skipn_firstn_comm, take_take.
  by rewrite Nat.min_l by lia.
Qed.

Lemma slice_full l : slice 0 (length l) l = l.
Proof. unfold slice. by rewrite drop_0, take_ge. Qed.

Lemma blit_app_l off src l k :
  off + length src <= length l -> blit off src (l ++ k) = blit off src l ++ k.
Proof.
  intros H. unfold blit. rewrite take_app_le, drop_app_le by lia.
  by rewrite <- !app_assoc.
Qed.

Lemma blit_app_r off src l k :
  length l <= off -> blit off src (l ++ k) = l ++ blit (off - length l) src k.
Proof.
  intros H. unfold blit. rewrite take_app_ge, drop_app_ge by lia.
  rewrite <- !app_assoc. do 4 f_equal. lia.
Qed.

(** Two copies one after the other are one copy. *)
Lemma blit_blit off s1 s2 l :
  off <= length l ->
  blit (off + length s1) s2 (blit off s1 l) = blit off (s1 ++ s2) l.
Proof.
  intros H. unfold blit at 2. rewrite app_assoc.
  rewrite blit_app_r by (rewrite length_app, length_take; lia).
  rewrite length_app, length_take.
  replace (off + length s1 - (off `min` length l + length s1)) with 0 by lia.
  unfold blit. rewrite take_0, drop_drop, length_app, <- !app_assoc. simpl.
  do 3 f_equal. f_equal. lia.
Qed.
End memory.

#[export] Hint Rewrite @blit_nil @slice_0 : sherry.

(** A vector indexed by block: [concat] and the blocks it is made of. *)
Section blocks.
Context {A : Type} (b : nat).
Implicit Types ls : list (list A).

Definition blocks_of (ls : list (list A)) : Prop :=
  Forall (fun l => length l = b) ls.

Lemma blocks_of_lookup ls i l :
  blocks_of ls -> ls !! i = Some l -> length l = b.
Proof. intros H Hi. exact (Forall_lookup_1 _ _ _ _ H Hi). Qed.

Lemma length_concat_blocks ls : blocks_of ls -> length (concat ls) = length ls * b.
Proof.
  induction 1 as [|l ls Hl _ IH]; [done|]. simpl. rewrite length_app. lia.
Qed.

(** Offset [o] of block [i] is offset [i * b + o] of the whole. *)
Lemma slice_concat ls i l o n :
  blocks_of ls -> ls !! i = Some l -> o + n <= b ->
  slice (i * b + o) n (concat ls) = slice o n l.
Proof.
  intros H. revert i. induction H as [|l' ls Hl _ IH]; intros [|i] Hi Hn; try done.
  - injection Hi as <-. simpl. apply slice_app_l. lia.
  - simpl in Hi |- *. rewrite slice_app_r by lia.
    rewrite <- (IH i Hi Hn). f_equal. lia.
Qed.

Lemma blit_concat ls i l o src :
  blocks_of ls -> ls !! i = Some l -> o + length src <= b ->
  concat (<[i := blit o src l]> ls) = blit (i * b + o) src (concat ls).
Proof.
  intros H. revert i. induction H as [|l' ls Hl _ IH]; intros [|i] Hi Hn; try done.
  - injection Hi as <-. simpl. rewrite blit_app_l by lia. done.
  - simpl in Hi |- *. rewrite (IH i Hi Hn), blit_app_r by lia.
    f_equal. f_equal. lia.
Qed.

Lemma blocks_of_insert ls i l o src :
  blocks_of ls -> ls !! i = Some l -> o + length src <= b ->
  blocks_of (<[i := blit o src l]> ls).
Proof.
  intros H Hi Hn. apply Forall_insert; [done|].
  pose proof (blocks_of_lookup _ _ _ H Hi). rewrite length_blit; lia.
Qed.
End blocks.

(** A copy into the first [n] cells of a block, which may grow them. *)
Lemma take_blit {A} off n (src l : list A) :
  off <= n -> n <= length l -> off + length src <= length l ->
  take (n `max` (off + length src)) (blit off src l) = blit off src (take n l).
Proof.
  intros H1 H2 H3. unfold blit. rewrite take_app, take_take, length_take.
  rewrite (Nat.min_r _ off), (Nat.min_l off (length l)) by lia.
  rewrite take_take, Nat.min_l by lia. f_equal.
  rewrite take_app, take_ge by lia. f_equal.
  rewrite skipn_firstn_comm. f_equal. lia.
Qed.

(** ** Filters of a list whose matching elements form a prefix *)
Section filters.
Context {A : Type} (P : A -> Prop) `{!forall x, Decision (P x)}.

Lemma filter_all (l : list A) : Forall P l -> filter P l = l.
Proof. induction 1 as [|x l Hx _ IH]; [done|]. rewrite filter_cons_True by done. by rewrite IH. Qed.

Lemma filter_none (l : list A) : Forall (fun x => ~ P x) l -> filter P l = [].
Proof. induction 1 as [|x l Hx _ IH]; [done|]. by rewrite filter_cons_False. Qed.
End filters.

Lemma filter_prefix {A} (P : A -> Prop) `{!forall x, Decision (P x)} (l1 l2 : list A) :
  Forall P l1 -> Forall (fun x => ~ P x) l2 ->
  filter P (l1 ++ l2) = l1 /\ filter (fun x => ~ P x) (l1 ++ l2) = l2.
Proof.
  intros H1 H2. rewrite !filter_app. split.
  - by rewrite (filter_all P l1), (filter_none P l2), app_nil_r.
  - rewrite (filter_all _ l2) by done. rewrite filter_none; [done|].
    eapply Forall_impl; [exact H1|]. naive_solver.
Qed.

(** ** Sums over a list that is updated at one place *)
Lemma sum_list_with_insert {A} (f : A -> nat) (l : list A) i x y : l !! i = Some y ->
  sum_list_with f (<[i := x]> l) + f y = sum_list_with f l + f x.
Proof.
  revert i. induction l as [|z l IH]; intros [|i] Hi; simpl in *; try done.
  - simplify_eq. lia.
  - specialize (IH i Hi). lia.
Qed.

Lemma sum_list_with_zero {A} (f : A -> nat) (l : list A) :
  Forall (fun x => f x = 0) l -> sum_list_with f l = 0.
Proof. induction 1; simpl; lia. Qed.

Lemma omap_id_fmap {A B} (f : A -> option B) (l : list A) : omap id (f <$> l) = omap f l.
Proof.
  induction l as [|x l IH]; [done|]. cbn. unfold id at 1. destruct (f x) as [y|]; [|exact IH].
  f_equal. exact IH.
Qed.
