(* ===== verification/MachineInt.v ===== *)
(** Fixed-width integers of the C++ code: wrap-around, two's complement, the
    object representation on the little-endian hosts the project builds for,
    and the byte-order helpers of [sherry/endian.h]. *)

From stdpp Require Import base list numbers.
From coqutil Require Import Byte Word.LittleEndianList.
From S2P Require Import Prelude.
From Stdlib Require Import ZArith Lia.
Local Open Scope Z_scope.

(** [wrap w z]: [z] stored in a [w]-bit unsigned integer; [sint w z]: the
    [w]-bit two's complement value with the bits of [z]. *)
Definition wrap (w z : Z) : Z := z mod 2 ^ w.
Definition sint (w z : Z) : Z := (z + 2 ^ (w - 1)) mod 2 ^ w - 2 ^ (w - 1).

Definition in_uint (w z : Z) : Prop := 0 <= z < 2 ^ w.
Definition in_sint (w z : Z) : Prop := - 2 ^ (w - 1) <= z < 2 ^ (w - 1).

#[export] Instance in_uint_dec w z : Decision (in_uint w z).
Proof. unfold in_uint. apply _. Defined.
#[export] Instance in_sint_dec w z : Decision (in_sint w z).
Proof. unfold in_sint. apply _. Defined.

Lemma pow2_half w : 0 < w -> 2 ^ w = 2 * 2 ^ (w - 1).
Proof.
  intros H. replace w with (Z.succ (w - 1)) at 1 by lia. by rewrite Z.pow_succ_r by lia.
Qed.

Lemma pow2_pos w : 0 <= w -> 0 < 2 ^ w.
Proof. apply Z.pow_pos_nonneg. lia. Qed.

Lemma wrap_id w z : in_uint w z -> wrap w z = z.
Proof. apply Z.mod_small. Qed.

Lemma wrap_range w z : 0 <= w -> in_uint w (wrap w z).
Proof. intros H. apply Z.mod_pos_bound, pow2_pos, H. Qed.

Lemma sint_id w z : 0 < w -> in_sint w z -> sint w z = z.
Proof.
  intros Hw [H1 H2]. unfold sint. pose proof (pow2_half w Hw).
  rewrite Z.mod_small; lia.
Qed.

Lemma sint_wrap w z : 0 < w -> sint w (wrap w z) = sint w z.
Proof.
  intros Hw. unfold sint, wrap. f_equal.
  rewrite Z.add_mod_idemp_l; [done|]. pose proof (pow2_pos w). lia.
Qed.

(** ** Object representation

    The bytes an [n]-byte integer object holds, lowest address first. *)

Definition repr (n : nat) (v : Z) : list byte := le_split n v.
Definition uint_of (bs : list byte) : Z := le_combine bs.
Definition sint_of (n : nat) (bs : list byte) : Z := sint (8 * Z.of_nat n) (le_combine bs).

Lemma length_repr n v : length (repr n v) = n.
Proof. apply length_le_split. Qed.

Lemma uint_of_repr n v : uint_of (repr n v) = wrap (8 * Z.of_nat n) v.
Proof. unfold uint_of, repr, wrap. by rewrite le_combine_split, Z.mul_comm. Qed.

Lemma sint_of_repr n v :
  (0 < n)%nat -> in_sint (8 * Z.of_nat n) v -> sint_of n (repr n v) = v.
Proof.
  intros Hn Hv. unfold sint_of, repr. rewrite le_combine_split.
  rewrite (Z.mul_comm _ 8). fold (wrap (8 * Z.of_nat n) v).
  rewrite sint_wrap by lia. apply sint_id; [lia | done].
Qed.

(** ** [sherry/endian.h]

    [bswap n] is glibc's [bswap_16/32/64] on [n]-byte words.  The template
    [byteswap] converts to the unsigned type, swaps, and converts back. *)

Definition bswap (n : nat) (v : Z) : Z := le_combine (rev (le_split n v)).
Definition byteswap_unsigned (n : nat) (value : Z) : Z := bswap n value.
Definition byteswap_signed (n : nat) (value : Z) : Z := sint (8 * Z.of_nat n) (bswap n value).

(** The little-endian branch of [endian.h]. *)
Definition byteswapOnLittleEndian (n : nat) (t : Z) : Z := byteswap_unsigned n t.
Definition byteswapOnBigEndian (t : Z) : Z := t.

Inductive endianness : Type := SYLAR_LITTLE_ENDIAN | SYLAR_BIG_ENDIAN.
#[export] Instance endianness_eq_dec : EqDecision endianness.
Proof. solve_decision. Defined.

Definition SYLAR_BYTE_ORDER : endianness := SYLAR_LITTLE_ENDIAN.

Lemma repr_bswap n v : repr n (bswap n v) = rev (repr n v).
Proof.
  unfold repr, bswap. apply split_le_combine'. rewrite length_rev. apply length_le_split.
Qed.

Lemma repr_mod n v : repr n (wrap (8 * Z.of_nat n) v) = repr n v.
Proof. unfold repr, wrap. rewrite Z.mul_comm. symmetry. apply le_split_mod. Qed.

Lemma repr_sint n v : (0 < n)%nat -> repr n (sint (8 * Z.of_nat n) v) = repr n v.
Proof.
  intros Hn. rewrite <- (repr_mod n (sint _ v)), <- (repr_mod n v). f_equal.
  unfold wrap, sint. rewrite Zminus_mod_idemp_l. f_equal. lia.
Qed.

Lemma repr_byteswap_signed n v :
  (0 < n)%nat -> repr n (byteswap_signed n v) = rev (repr n v).
Proof. intros Hn. unfold byteswap_signed. by rewrite repr_sint, repr_bswap. Qed.

Lemma bswap_uint_of bs : bswap (length bs) (uint_of bs) = uint_of (rev bs).
Proof. unfold bswap, uint_of. by rewrite split_le_combine. Qed.

(** Swapping twice gives the value back. *)
Lemma bswap_bswap n v : in_uint (8 * Z.of_nat n) v -> bswap n (bswap n v) = v.
Proof.
  intros Hv. unfold bswap at 1. fold (repr n (bswap n v)).
  rewrite repr_bswap, rev_involutive. fold (uint_of (repr n v)).
  rewrite uint_of_repr. by apply wrap_id.
Qed.

(** Bits above the width are clear. *)
Lemma uint_testbit_high w a i : 0 <= w -> in_uint w a -> w <= i -> Z.testbit a i = false.
Proof.
  intros Hw [Ha1 Ha2] Hi. destruct (Z.eq_dec a 0) as [->|]; [apply Z.bits_0|].
  apply Z.bits_above_log2; [lia|]. apply Z.log2_lt_pow2; [lia|].
  eapply Z.lt_le_trans; [eassumption|]. apply Z.pow_le_mono_r; lia.
Qed.

(** Complement against an all-ones mask. *)
Lemma lxor_ones_sub w a : 0 <= w -> in_uint w a -> Z.lxor a (2 ^ w - 1) = 2 ^ w - 1 - a.
Proof.
  intros Hw Ha. replace (2 ^ w - 1) with (Z.ones w) by (rewrite Z.ones_equiv; lia).
  assert (Z.lxor a (Z.ones w) = Z.ldiff (Z.ones w) a) as ->.
  { apply Z.bits_inj'. intros i Hi. rewrite Z.lxor_spec, Z.ldiff_spec.
    destruct (Z.lt_ge_cases i w).
    - rewrite Z.ones_spec_low by lia. by destruct (Z.testbit a i).
    - rewrite Z.ones_spec_high by lia. by rewrite (uint_testbit_high w a i). }
  symmetry. apply Z.sub_nocarry_ldiff. apply Z.bits_inj'. intros i Hi.
  rewrite Z.ldiff_spec, Z.bits_0. destruct (Z.lt_ge_cases i w).
  - rewrite Z.ones_spec_low by lia. by rewrite andb_false_r.
  - rewrite Z.ones_spec_high by lia. by rewrite (uint_testbit_high w a i).
Qed.
