(* ===== verification/StrUtil.v ===== *)
(** [sherry/util/hash_util.cc]: the three [replace] functions (the rest of the
    file is commented out), and what they compute.

    A [std::string] is the list of its characters; [find] gives the first
    position from an offset on, [npos] is [None]. *)

From Stdlib Require Import Ascii.
From stdpp Require Import base list strings.
From S2P Require Import Prelude.
From Stdlib Require Import Lia.

Definition str : Type := list ascii.
Implicit Types (s r : str) (c : ascii).

(** [std::string::find(char, from)] and [find(string, from)]. *)
Fixpoint search_char c s : option nat :=
  match s with [] => None | a :: s' => if Ascii.eqb a c then Some 0 else S <$> search_char c s' end.
Definition find_char_from c s (from : nat) : option nat := (fun k => from + k) <$> search_char c (drop from s).

Fixpoint is_prefix (f s : str) : bool :=
  match f, s with
  | [], _ => true
  | a :: f', b :: s' => Ascii.eqb a b && is_prefix f' s'
  | _ :: _, [] => false
  end.
Fixpoint search f s : option nat :=
  if is_prefix f s then Some 0 else match s with [] => None | _ :: s' => S <$> search f s' end.
Definition find_from f s (from : nat) : option nat :=
  if from <=? length s then (fun k => from + k) <$> search f (drop from s) else None.

(** [replace(str, char find, char replaceWith)] *)
Fixpoint replace_cc_loop (fuel : nat) (find replaceWith : ascii) s (index : option nat) : outcome str :=
  match index with
  | None => Ret s
  | Some i =>
      match fuel with
      | O => Crash NoFuel
      | S fuel' =>
          let s1 := <[i := replaceWith]> s in
          replace_cc_loop fuel' find replaceWith s1 (find_char_from find s1 (i + 1))
      end
  end.
Definition replace_cc (fuel : nat) (str1 : str) (find replaceWith : ascii) : outcome str :=
  replace_cc_loop fuel find replaceWith str1 (find_char_from find str1 0).

(** [replace(str, char find, string replaceWith)] *)
Fixpoint replace_cs_loop (fuel : nat) (find : ascii) (replaceWith : str) s (index : option nat) : outcome str :=
  match index with
  | None => Ret s
  | Some i =>
      match fuel with
      | O => Crash NoFuel
      | S fuel' =>
          let s1 := take i s ++ replaceWith ++ drop (i + 1) s in
          replace_cs_loop fuel' find replaceWith s1 (find_char_from find s1 (i + length replaceWith))
      end
  end.
Definition replace_cs (fuel : nat) (str1 : str) (find : ascii) (replaceWith : str) : outcome str :=
  replace_cs_loop fuel find replaceWith str1 (find_char_from find str1 0).

(** [replace(str, string find, string replaceWith)] *)
Fixpoint replace_ss_loop (fuel : nat) (find replaceWith : str) s (index : option nat) : outcome str :=
  match index with
  | None => Ret s
  | Some i =>
      match fuel with
      | O => Crash NoFuel
      | S fuel' =>
          let s1 := take i s ++ replaceWith ++ drop (i + length find) s in
          replace_ss_loop fuel' find replaceWith s1 (find_from find s1 (i + length replaceWith))
      end
  end.
Definition replace_ss (fuel : nat) (str1 find replaceWith : str) : outcome str :=
  replace_ss_loop fuel find replaceWith str1 (find_from find str1 0).

(** * What they compute *)

Lemma search_char_none c s : search_char c s = None -> forall a, a ∈ s -> a <> c.
Proof.
  induction s as [|b s IH]; simpl; [by intros _ a Ha%elem_of_nil|].
  destruct (Ascii.eqb_spec b c) as [|Hne]; [done|]. destruct (search_char c s); [done|]. intros _ a.
  rewrite elem_of_cons. intros [->|Ha]; [done|]. by apply IH.
Qed.
Lemma search_char_some c s k : search_char c s = Some k ->
  exists s1 s2, s = s1 ++ c :: s2 /\ length s1 = k /\ forall a, a ∈ s1 -> a <> c.
Proof.
  revert k. induction s as [|b s IH]; simpl; [done|]. intros k. destruct (Ascii.eqb_spec b c) as [->|Hne].
  - intros [= <-]. exists [], s. split_and!; try done. by intros a Ha%elem_of_nil.
  - destruct (search_char c s) as [k'|]; [|done]. intros [= <-]. destruct (IH k' eq_refl) as (s1 & s2 & -> & <- & H).
    exists (b :: s1), s2. split_and!; try done. intros a. rewrite elem_of_cons. intros [->|Ha]; [done|]. by apply H.
Qed.

Lemma find_char_from_app c d s : find_char_from c (d ++ s) (length d) = (fun k => length d + k) <$> search_char c s.
Proof. unfold find_char_from. by rewrite drop_app_length. Qed.

(** One character for another, and a string for a character: each occurrence
    in place. *)
Definition sub_cc (find w : ascii) s : str := (fun a => if Ascii.eqb a find then w else a) <$> s.
Definition sub_cs (find : ascii) (w : str) s : str := s ≫= fun a => if Ascii.eqb a find then w else [a].

Lemma sub_cs_none find w s : (forall a, a ∈ s -> a <> find) -> sub_cs find w s = s.
Proof.
  unfold sub_cs. induction s as [|a s IH]; [done|]. intros H. rewrite bind_cons.
  destruct (Ascii.eqb_spec a find) as [->|]; [by destruct (H find); [left|]|]. rewrite IH; [done|]. intros b Hb. apply H. by right.
Qed.
Lemma sub_cs_app find w s1 s2 : sub_cs find w (s1 ++ s2) = sub_cs find w s1 ++ sub_cs find w s2.
Proof. apply bind_app. Qed.

Lemma sub_cc_cs find w s : sub_cc find w s = sub_cs find [w] s.
Proof.
  unfold sub_cc, sub_cs. induction s as [|a s IH]; [done|]. rewrite bind_cons, fmap_cons, IH. by destruct (Ascii.eqb a find).
Qed.

Lemma replace_cs_loop_run fuel find w d s : length s < fuel ->
  replace_cs_loop fuel find w (d ++ s) (find_char_from find (d ++ s) (length d)) = Ret (d ++ sub_cs find w s).
Proof.
  revert d s. induction fuel as [|fuel IH]; intros d s Hf; [lia|]. rewrite find_char_from_app.
  destruct (search_char find s) as [k|] eqn:E; cbn [fmap option_fmap option_map replace_cs_loop].
  - destruct (search_char_some _ _ _ E) as (s1 & s2 & -> & <- & H).
    rewrite length_app in Hf. simpl in Hf.
    replace (take (length d + length s1) (d ++ s1 ++ find :: s2)) with (d ++ s1)
      by (rewrite app_assoc, <- length_app; by rewrite take_app_length).
    replace (drop (length d + length s1 + 1) (d ++ s1 ++ find :: s2)) with s2.
    2: { rewrite app_assoc, <- length_app, drop_app_ge by lia.
         replace (length (d ++ s1) + 1 - length (d ++ s1)) with 1 by lia. done. }
    rewrite app_assoc, <- !length_app, (IH ((d ++ s1) ++ w) s2) by lia.
    rewrite sub_cs_app, (sub_cs_none find w s1 H). unfold sub_cs at 2. rewrite bind_cons, Ascii.eqb_refl.
    by rewrite <- !app_assoc.
  - by rewrite sub_cs_none by (by apply search_char_none).
Qed.

Lemma replace_cc_loop_cs fuel find w s i :
  (forall k, i = Some k -> k < length s) -> replace_cc_loop fuel find w s i = replace_cs_loop fuel find [w] s i.
Proof.
  revert s i. induction fuel as [|fuel IH]; intros s [i|] Hi; try done. cbn [replace_cc_loop replace_cs_loop].
  specialize (Hi i eq_refl). rewrite (insert_take_drop s i) by done. rewrite Nat.add_1_r. cbn [app length]. rewrite Nat.add_1_r.
  apply IH. intros k Hk. unfold find_char_from in Hk. destruct (search_char find _) as [j|] eqn:E; [|done].
  injection Hk as <-. destruct (search_char_some _ _ _ E) as (s1 & s2 & Es & <- & _).
  apply (f_equal length) in Es. rewrite length_drop in Es. rewrite (length_app s1) in Es. simpl in Es. lia.
Qed.

(** A string for a string, leftmost first and without overlap. *)
Inductive replaced (f w : str) : str -> str -> Prop :=
| replaced_end : replaced f w [] []
| replaced_hit s r : replaced f w s r -> replaced f w (f ++ s) (w ++ r)
| replaced_skip a s r : is_prefix f (a :: s) = false -> replaced f w s r -> replaced f w (a :: s) (a :: r).

Lemma is_prefix_spec f s : is_prefix f s = true <-> exists t, s = f ++ t.
Proof.
  revert s. induction f as [|a f IH]; intros s; simpl; [naive_solver|]. destruct s as [|b s]; [naive_solver|].
  rewrite andb_true_iff, Ascii.eqb_eq, IH. naive_solver.
Qed.

Lemma search_none_replaced f w s : f <> [] -> search f s = None -> replaced f w s s.
Proof.
  intros Hf. induction s as [|a s IH]; cbn [search]; [constructor|].
  destruct (is_prefix f (a :: s)) eqn:E; [done|]. destruct (search f s); [done|]. intros _. constructor; [done|]. by apply IH.
Qed.
Lemma search_some f s k : search f s = Some k -> exists s1 s2, s = s1 ++ f ++ s2 /\ length s1 = k /\
  forall w r, replaced f w s2 r -> replaced f w s (s1 ++ w ++ r).
Proof.
  revert k. induction s as [|a s IH]; intros k; cbn [search].
  - destruct (is_prefix f []) eqn:E; [|done]. intros [= <-]. apply is_prefix_spec in E as [t E].
    symmetry in E. apply app_eq_nil in E as [-> ->]. exists [], []. split_and!; try done. intros w r Hr.
    by apply (replaced_hit [] w []).
  - destruct (is_prefix f (a :: s)) eqn:E.
    + intros [= <-]. apply is_prefix_spec in E as [t E]. exists [], t. split_and!; try done. intros w r Hr. rewrite E.
      by apply (replaced_hit f w t).
    + destruct (search f s) as [k'|]; [|done]. intros [= <-]. destruct (IH k' eq_refl) as (s1 & s2 & -> & <- & H).
      exists (a :: s1), s2. split_and!; try done. intros w r Hr. apply replaced_skip; [done|]. by apply H.
Qed.

Lemma find_app f d s : find_from f (d ++ s) (length d) = (fun k => length d + k) <$> search f s.
Proof. unfold find_from. rewrite (proj2 (Nat.leb_le _ _)) by (rewrite length_app; lia). by rewrite drop_app_length. Qed.

Lemma replace_ss_loop_run fuel f w d s : f <> [] -> length s < fuel ->
  exists r, replace_ss_loop fuel f w (d ++ s) (find_from f (d ++ s) (length d)) = Ret (d ++ r) /\ replaced f w s r.
Proof.
  intros Hf. revert d s. induction fuel as [|fuel IH]; intros d s Hl; [lia|]. rewrite find_app.
  destruct (search f s) as [k|] eqn:E; cbn [fmap option_fmap option_map replace_ss_loop].
  - destruct (search_some _ _ _ E) as (s1 & s2 & -> & <- & H). assert (0 < length f) by (destruct f; [done|simpl; lia]).
    rewrite !length_app in Hl.
    replace (take (length d + length s1) (d ++ s1 ++ f ++ s2)) with (d ++ s1)
      by (rewrite app_assoc, <- length_app; by rewrite take_app_length).
    replace (drop (length d + length s1 + length f) (d ++ s1 ++ f ++ s2)) with s2
      by (rewrite !app_assoc, <- !length_app; by rewrite drop_app_length).
    destruct (IH ((d ++ s1) ++ w) s2 ltac:(lia)) as (r & Er & Hr). rewrite app_assoc, <- !length_app, Er.
    exists (s1 ++ w ++ r). split; [by rewrite <- !app_assoc|by apply H].
  - exists s. split; [done|]. by apply search_none_replaced.
Qed.

(** C26: Each [replace] ends after at most one turn per character and replaces
    every occurrence: a character by a character or a string, in place, and a
    non-empty string by a string, from the left and without overlap. With an
    empty string to find the loop of the last one never ends. *)
Theorem replace_functions fuel s (find w : ascii) (f ws : str) : length s < fuel ->
  replace_cc fuel s find w = Ret (sub_cc find w s) /\
  replace_cs fuel s find ws = Ret (sub_cs find ws s) /\
  (f <> [] -> exists r, replace_ss fuel s f ws = Ret r /\ replaced f ws s r) /\
  (forall n, replace_ss n s [] ws = Crash NoFuel).
Proof.
  intros H. pose proof (fun w => replace_cs_loop_run fuel find w [] s H) as Hcs. split_and!.
  - unfold replace_cc. rewrite replace_cc_loop_cs; [rewrite sub_cc_cs; apply Hcs|].
    intros k Hk. unfold find_char_from in Hk. destruct (search_char find _) as [j|] eqn:E; [|done].
    injection Hk as <-. destruct (search_char_some _ _ _ E) as (s1 & s2 & Es & <- & _). rewrite drop_0 in Es.
    rewrite Es, length_app. simpl. lia.
  - apply Hcs.
  - intros Hf. destruct (replace_ss_loop_run fuel f ws [] s Hf H) as (r & E & Hr). by exists r.
  - assert (forall n s0 i, i <= length s0 -> replace_ss_loop n [] ws s0 (Some i) = Crash NoFuel) as Hloop.
    { induction n as [|n IH]; intros s0 i Hi; [done|]. cbn [replace_ss_loop length]. rewrite Nat.add_0_r.
      assert (i + length ws <= length (take i s0 ++ ws ++ drop i s0)) by (rewrite !length_app, length_take, length_drop; lia).
      unfold find_from. rewrite (proj2 (Nat.leb_le _ _)) by done.
      assert (forall t : str, search [] t = Some 0) as -> by (by intros []). cbn [fmap option_fmap option_map].
      rewrite Nat.add_0_r. by apply IH. }
    intros n. unfold replace_ss, find_from. simpl (0 <=? _). cbv match.
    assert (forall t : str, search [] t = Some 0) as -> by (by intros []). apply Hloop. simpl. lia.
Qed.

Lemma replace_functions_witness :
  replace_cs 9 ["a"; "b"; "a"]%char "a"%char ["x"; "a"]%char = Ret ["x"; "a"; "b"; "x"; "a"]%char.
Proof.
  destruct (replace_functions 9 ["a"; "b"; "a"]%char "a"%char "c"%char [] ["x"; "a"]%char) as (_ & H & _); [simpl; lia|].
  exact H.
Defined.
