(* ===== verification/Address.v ===== *)
(** [sherry/address.h] and [sherry/address.cc]: socket addresses.

    An address object is the [sockaddr_*] structure it holds, field by field;
    [getAddr] is that structure's object representation (the layout of Linux
    on x86-64).  The resolver, the list of interfaces and [inet_pton] are
    arguments.  [MqttAddress] of the same file is modelled in [Mqtt]. *)

From Stdlib Require Import ZArith Lia Ascii String.
From stdpp Require Import base list strings pretty.
From coqutil Require Import Byte.
From S2P Require Import Prelude MachineInt.
Local Open Scope Z_scope.

(** * Masks and bit counts *)

(** [CreateMask<T>(bits)], [T] of [n] bytes: the shift and the subtraction are
    those of [int]. *)
Definition CreateMask (n : nat) (bits : Z) : outcome Z :=
  let s := wrap 64 (8 * Z.of_nat n - bits) in
  if s <? 31 then Ret (wrap (8 * Z.of_nat n) (Z.shiftl 1 s - 1)) else Crash BadArith.

(** [CountBytes<T>(value)]; it counts bits. *)
Fixpoint CountBytes_loop (fuel : nat) (value result : Z) : outcome Z :=
  match fuel with
  | O => Crash NoFuel
  | S fuel' =>
      if value =? 0 then Ret result
      else CountBytes_loop fuel' (Z.land value (value - 1)) (wrap 32 (result + 1))
  end.
Definition CountBytes (n : nat) (value : Z) : outcome Z := CountBytes_loop (S (8 * n)) value 0.

(** * The structures *)

Definition AF_UNSPEC : Z := 0.
Definition AF_UNIX : Z := 1.
Definition AF_INET : Z := 2.
Definition AF_INET6 : Z := 10.

Record sockaddr_in : Type := mkSin { sin_family : Z; sin_port : Z; s_addr : Z; sin_zero : list byte }.
Record sockaddr_in6 : Type :=
  mkSin6 { sin6_family : Z; sin6_port : Z; sin6_flowinfo : Z; s6_addr : list byte; sin6_scope_id : Z }.
Record sockaddr_un : Type := mkSun { sun_family : Z; sun_path : list byte }.
Record sockaddr : Type := mkSa { sa_family : Z; sa_data : list byte }.

Inductive Address : Type :=
| IPv4Address (m_addr : sockaddr_in)
| IPv6Address (m_addr : sockaddr_in6)
| UnixAddress (m_addr : sockaddr_un) (m_length : Z)
| UnknownAddress (m_addr : sockaddr).

(** The bytes of an object, lowest address first, and the object of bytes. *)
Definition sin_bytes (a : sockaddr_in) : list byte :=
  repr 2 (sin_family a) ++ repr 2 (sin_port a) ++ repr 4 (s_addr a) ++ sin_zero a.
Definition sin6_bytes (a : sockaddr_in6) : list byte :=
  repr 2 (sin6_family a) ++ repr 2 (sin6_port a) ++ repr 4 (sin6_flowinfo a) ++ s6_addr a ++ repr 4 (sin6_scope_id a).
Definition sun_bytes (a : sockaddr_un) : list byte := repr 2 (sun_family a) ++ sun_path a.
Definition sa_bytes (a : sockaddr) : list byte := repr 2 (sa_family a) ++ sa_data a.

Definition field (off n : nat) (bs : list byte) : Z := uint_of (slice off n bs).
Definition sin_of (bs : list byte) : sockaddr_in := mkSin (field 0 2 bs) (field 2 2 bs) (field 4 4 bs) (slice 8 8 bs).
Definition sin6_of (bs : list byte) : sockaddr_in6 :=
  mkSin6 (field 0 2 bs) (field 2 2 bs) (field 4 4 bs) (slice 8 16 bs) (field 24 4 bs).
Definition sa_of (bs : list byte) : sockaddr := mkSa (field 0 2 bs) (slice 2 14 bs).

Definition getAddr (a : Address) : list byte :=
  match a with
  | IPv4Address m => sin_bytes m
  | IPv6Address m => sin6_bytes m
  | UnixAddress m _ => sun_bytes m
  | UnknownAddress m => sa_bytes m
  end.
Definition getAddrLen (a : Address) : Z :=
  match a with IPv4Address _ => 16 | IPv6Address _ => 28 | UnixAddress _ l => l | UnknownAddress _ => 16 end.
Definition getFamily (a : Address) : Z := field 0 2 (getAddr a).

(** [Address::Create] on what the pointer points to. *)
Definition Create (addr : option (list byte)) : outcome (option Address) :=
  match addr with
  | None => Ret None
  | Some bs =>
      if (length bs <? 16)%nat then Crash OutOfRange else
      if field 0 2 bs =? AF_INET then Ret (Some (IPv4Address (sin_of bs))) else
      if field 0 2 bs =? AF_INET6 then
        if (length bs <? 28)%nat then Crash OutOfRange else Ret (Some (IPv6Address (sin6_of bs)))
      else Ret (Some (UnknownAddress (sa_of bs)))
  end.

(** * Order and equality *)

Fixpoint bytes_compare (a b : list byte) : comparison :=
  match a, b with
  | x :: a', y :: b' =>
      match byte.unsigned x ?= byte.unsigned y with Eq => bytes_compare a' b' | c => c end
  | _, _ => Eq
  end.
Definition memcmp (a b : list byte) (n : Z) : outcome comparison :=
  if (Z.of_nat (length a) <? n) || (Z.of_nat (length b) <? n) then Crash OutOfRange
  else Ret (bytes_compare (take (Z.to_nat n) a) (take (Z.to_nat n) b)).

(** [operator<], [operator==], [operator!=] *)
Definition addr_lt (lhs rhs : Address) : outcome bool :=
  let minlen := getAddrLen lhs `min` getAddrLen rhs in
  result ← memcmp (getAddr lhs) (getAddr rhs) minlen;
  match result with
  | Lt => Ret true
  | Gt => Ret false
  | Eq => Ret (getAddrLen lhs <? getAddrLen rhs)
  end.
Definition addr_eq (lhs rhs : Address) : outcome bool :=
  if negb (getAddrLen lhs =? getAddrLen rhs) then Ret false else
  result ← memcmp (getAddr lhs) (getAddr rhs) (getAddrLen lhs);
  Ret (match result with Eq => true | _ => false end).
Definition addr_ne (lhs rhs : Address) : outcome bool := b ← addr_eq lhs rhs; Ret (negb b).

(** * IPv4 *)

Definition zeros (n : nat) : list byte := replicate n Byte.x00.

Definition new_IPv4Address (address port : Z) : sockaddr_in :=
  mkSin AF_INET (wrap 16 (byteswapOnLittleEndian 4 port)) (byteswapOnLittleEndian 4 address) (zeros 8).
Definition IPv4_Create (inet_pton : string -> option Z) (address : string) (port : Z) : option sockaddr_in :=
  let rt := new_IPv4Address 0 0 in
  match inet_pton address with
  | None => None
  | Some v => Some (mkSin (sin_family rt) (wrap 16 (byteswapOnLittleEndian 4 port)) v (sin_zero rt))
  end.
Definition with_s_addr (v : Z) (a : sockaddr_in) : sockaddr_in := mkSin (sin_family a) (sin_port a) v (sin_zero a).

Definition IPv4_broadcastAddress (this : sockaddr_in) (prefix_len : Z) : outcome (option sockaddr_in) :=
  if 32 <? prefix_len then Ret None else
  mask ← CreateMask 4 prefix_len;
  Ret (Some (with_s_addr (Z.lor (s_addr this) (byteswapOnLittleEndian 4 mask)) this)).
Definition IPv4_networkAddress (this : sockaddr_in) (prefix_len : Z) : outcome (option sockaddr_in) :=
  if 32 <? prefix_len then Ret None else
  mask ← CreateMask 4 prefix_len;
  Ret (Some (with_s_addr (Z.land (s_addr this) (byteswapOnLittleEndian 4 mask)) this)).
(** [~] of a 32-bit value. *)
Definition IPv4_subnetMask (prefix_len : Z) : outcome sockaddr_in :=
  mask ← CreateMask 4 prefix_len;
  Ret (mkSin AF_INET 0 (wrap 32 (Z.lnot (byteswapOnLittleEndian 4 mask))) (zeros 8)).

Definition IPv4_getPort (this : sockaddr_in) : Z := byteswapOnLittleEndian 2 (sin_port this).
Definition IPv4_setPort (v : Z) (this : sockaddr_in) : sockaddr_in :=
  mkSin (sin_family this) (byteswapOnLittleEndian 2 v) (s_addr this) (sin_zero this).

Definition IPv4_insert (this : sockaddr_in) : string :=
  let addr := byteswapOnLittleEndian 4 (s_addr this) in
  dec (Z.land (Z.shiftr addr 24) 0xff) +:+ "." +:+ dec (Z.land (Z.shiftr addr 16) 0xff) +:+ "." +:+
  dec (Z.land (Z.shiftr addr 8) 0xff) +:+ "." +:+ dec (Z.land addr 0xff) +:+
  ":" +:+ dec (byteswapOnLittleEndian 2 (sin_port this)).

(** * IPv6 *)

Definition new_IPv6Address_default : sockaddr_in6 := mkSin6 AF_INET6 0 0 (zeros 16) 0.
Definition new_IPv6Address (address : list byte) (port : Z) : sockaddr_in6 :=
  mkSin6 AF_INET6 (wrap 16 (byteswapOnLittleEndian 4 port)) 0 (take 16 address) 0.
Definition IPv6_Create (inet_pton : string -> option (list byte)) (address : string) (port : Z) : option sockaddr_in6 :=
  match inet_pton address with
  | None => None
  | Some v => Some (mkSin6 AF_INET6 (wrap 16 (byteswapOnLittleEndian 4 port)) 0 v 0)
  end.
Definition with_s6_addr (v : list byte) (a : sockaddr_in6) : sockaddr_in6 :=
  mkSin6 (sin6_family a) (sin6_port a) (sin6_flowinfo a) v (sin6_scope_id a).

(** [s6_addr[i] = f(s6_addr[i])] *)
Definition byte_update (i : Z) (f : Z -> Z) (bs : list byte) : outcome (list byte) :=
  match bs !! Z.to_nat i with
  | Some b => Ret (<[Z.to_nat i := byte.of_Z (f (byte.unsigned b))]> bs)
  | None => Crash OutOfRange
  end.
Definition fill_ff (from to : nat) (bs : list byte) : list byte :=
  imap (fun j b => if ((from <=? j) && (j <? to))%nat then Byte.xff else b) bs.

Definition IPv6_broadcastAddress (this : sockaddr_in6) (prefix_len : Z) : outcome sockaddr_in6 :=
  mask ← CreateMask 1 (prefix_len mod 8);
  bs ← byte_update (prefix_len / 8) (fun b => Z.lor b mask) (s6_addr this);
  Ret (with_s6_addr (fill_ff (Z.to_nat (prefix_len / 8 + 1)) 16 bs) this).
Definition IPv6_networkAddress (this : sockaddr_in6) (prefix_len : Z) : outcome sockaddr_in6 :=
  mask ← CreateMask 1 (prefix_len mod 8);
  bs ← byte_update (prefix_len / 8) (fun b => Z.land b mask) (s6_addr this);
  Ret (with_s6_addr bs this).
Definition IPv6_subnetMask (prefix_len : Z) : outcome sockaddr_in6 :=
  mask ← CreateMask 1 (prefix_len mod 8);
  bs ← byte_update (prefix_len / 8) (fun _ => Z.lnot mask) (zeros 16);
  Ret (mkSin6 AF_INET6 0 0 (fill_ff 0 (Z.to_nat (prefix_len / 8)) bs) 0).

Definition IPv6_getPort (this : sockaddr_in6) : Z := byteswapOnLittleEndian 2 (sin6_port this).
Definition IPv6_setPort (v : Z) (this : sockaddr_in6) : sockaddr_in6 :=
  mkSin6 (sin6_family this) (byteswapOnLittleEndian 2 v) (sin6_flowinfo this) (s6_addr this) (sin6_scope_id this).

(** [os << std::hex << n], [n] below [2 ^ 32]. *)
Definition hex_char (d : Z) : Ascii.ascii := Ascii.ascii_of_nat (Z.to_nat (if d <? 10 then 48 + d else 87 + d)).
Fixpoint hex_go (fuel : nat) (n : Z) (acc : string) : string :=
  match fuel with
  | O => acc
  | S fuel' =>
      let acc' := String (hex_char (n mod 16)) acc in
      if n / 16 =? 0 then acc' else hex_go fuel' (n / 16) acc'
  end.
Definition hex (n : Z) : string := hex_go 8 n "".

(** The address as an array of [uint16_t]. *)
Definition groups (bs : list byte) : list Z := (fun i => field (2 * i) 2 bs) <$> seq 0 8.

(** The loop of [IPv6Address::insert]; [prev] is [addr[i - 1]]. *)
Fixpoint insert_loop (prev : option Z) (addr : list Z) (used_zeros : bool) : string * bool :=
  match addr with
  | [] => ("", used_zeros)
  | g :: addr' =>
      if (g =? 0) && negb used_zeros then insert_loop (Some g) addr' used_zeros else
      let '(c1, used) :=
        match prev with
        | Some p => if (p =? 0) && negb used_zeros then (":", true) else ("", used_zeros)
        | None => ("", used_zeros)
        end in
      let c2 := match prev with Some _ => ":" | None => "" end in
      let '(rest, u) := insert_loop (Some g) addr' used in
      (c1 +:+ c2 +:+ hex (byteswapOnLittleEndian 2 g) +:+ rest, u)
  end.
Definition IPv6_insert (this : sockaddr_in6) : string :=
  let addr := groups (s6_addr this) in
  let '(text, used_zeros) := insert_loop None addr false in
  let tail := if negb used_zeros && (default 0 (addr !! 7%nat) =? 0) then "::" else "" in
  "[" +:+ text +:+ tail +:+ "]:" +:+ dec (byteswapOnLittleEndian 2 (sin6_port this)).

(** * Unix domain and unknown addresses *)

Definition bytes_of (s : string) : list byte := String.list_byte_of_string s.
Definition string_of (bs : list byte) : string := String.string_of_list_byte bs.

Definition SUN_PATH : nat := 108.               (* sizeof(sun_path) *)
Definition OFF_PATH : Z := 2.                   (* offsetof(sockaddr_un, sun_path) *)
Definition MAX_PATH_LEN : Z := Z.of_nat SUN_PATH - 1.

Definition new_UnixAddress_default : Address :=
  UnixAddress (mkSun AF_UNIX (zeros SUN_PATH)) (OFF_PATH + MAX_PATH_LEN).
Definition new_UnixAddress (path : string) : outcome Address :=
  let bs := bytes_of path in
  let l := wrap 32 (Z.of_nat (length bs) + 1) in
  let l := match bs with Byte.x00 :: _ => wrap 32 (l - 1) | _ => l end in
  if Z.of_nat SUN_PATH <? l then Throw "path too long" else
  Ret (UnixAddress (mkSun AF_UNIX (blit 0 (take (Z.to_nat l) (bs ++ [Byte.x00])) (zeros SUN_PATH))) (wrap 32 (l + OFF_PATH))).
Definition setAddrLen (v : Z) (a : Address) : Address :=
  match a with UnixAddress m _ => UnixAddress m v | _ => a end.

(** A C string in an array: up to the first zero byte. *)
Fixpoint c_bytes (bs : list byte) : outcome (list byte) :=
  match bs with
  | [] => Crash OutOfRange
  | Byte.x00 :: _ => Ret []
  | b :: bs' => r ← c_bytes bs'; Ret (b :: r)
  end.
Definition Unix_insert (m : sockaddr_un) (m_length : Z) : outcome string :=
  match sun_path m with
  | Byte.x00 :: path' =>
      if OFF_PATH <? m_length then
        if Z.of_nat (length path') <? m_length - OFF_PATH - 1 then Crash OutOfRange
        else Ret ("\0" +:+ string_of (take (Z.to_nat (m_length - OFF_PATH - 1)) path'))
      else Ret ""
  | path => bs ← c_bytes path; Ret (string_of bs)
  end.

Definition new_UnknownAddress (family : Z) : Address := UnknownAddress (mkSa (wrap 16 family) (zeros 14)).
Definition Unknown_insert (m : sockaddr) : string := "[UnknowAddress family=" +:+ dec (sa_family m) +:+ "]".

(** [toString] through the virtual [insert]. *)
Definition toString (a : Address) : outcome string :=
  match a with
  | IPv4Address m => Ret (IPv4_insert m)
  | IPv6Address m => Ret (IPv6_insert m)
  | UnixAddress m l => Unix_insert m l
  | UnknownAddress m => Ret (Unknown_insert m)
  end.

Definition setPort (v : Z) (a : Address) : Address :=
  match a with
  | IPv4Address m => IPv4Address (IPv4_setPort v m)
  | IPv6Address m => IPv6Address (IPv6_setPort v m)
  | _ => a
  end.
(** [dynamic_pointer_cast<IPAddress>] *)
Definition is_ip (a : Address) : bool := match a with IPv4Address _ | IPv6Address _ => true | _ => false end.

(** * Lookup *)

Record hints : Type := mkHints { ai_flags : Z; ai_family : Z; ai_socktype : Z; ai_protocol : Z }.

Fixpoint find_char (c : Ascii.ascii) (s : string) : option nat :=
  match s with
  | EmptyString => None
  | String a s' => if Ascii.eqb a c then Some O else S <$> find_char c s'
  end.
Fixpoint sdrop (n : nat) (s : string) : string :=
  match n, s with S n', String _ s' => sdrop n' s' | _, _ => s end.
Fixpoint stake (n : nat) (s : string) : string :=
  match n, s with S n', String a s' => String a (stake n' s') | _, _ => "" end.

(** The brackets of an IPv6 address: the node and the service. *)
Definition host_brackets (host : string) : string * option string :=
  match host with
  | String "["%char rest =>
      match find_char "]"%char rest with
      | Some e =>                                     (* endipv6 is at [e + 1] *)
          (stake e rest,
           match sdrop (S e) rest with String ":"%char service => Some service | _ => None end)
      | None => ("", None)
      end
  | _ => ("", None)
  end.
(** [host:service] with one colon.  With a second colon the pointer stays at
    the first. *)
Definition host_colon (host : string) : string * option string :=
  match find_char ":"%char host with
  | None => ("", None)
  | Some i =>
      match find_char ":"%char (sdrop (S i) host) with
      | None => (stake i host, Some (sdrop (S i) host))
      | Some _ => ("", Some (sdrop i host))
      end
  end.
Definition split_host (host : string) : string * option string :=
  let '(node, service) := host_brackets host in
  let '(node, service) := if (node =? "")%string then host_colon host else (node, service) in
  (if (node =? "")%string then host else node, service).

Section lookup.
(** [getaddrinfo]: [None] is an error, else the structures of the result list. *)
Context (getaddrinfo : string -> option string -> hints -> option (list (list byte))).

Fixpoint create_all (l : list (list byte)) : outcome (list (option Address)) :=
  match l with
  | [] => Ret []
  | bs :: l' => a ← Create (Some bs); r ← create_all l'; Ret (a :: r)
  end.

Definition Lookup (host : string) (family type protocol : Z) : outcome (option (list (option Address))) :=
  let '(node, service) := split_host host in
  match getaddrinfo node service (mkHints 0 family type protocol) with
  | None => Ret None
  | Some results => r ← create_all results; Ret (Some r)
  end.

Definition LookupAny (host : string) (family type protocol : Z) : outcome (option Address) :=
  r ← Lookup host family type protocol;
  match r with
  | None => Ret None
  | Some [] => Crash OutOfRange
  | Some (a :: _) => Ret a
  end.

Fixpoint first_ip (l : list (option Address)) : option Address :=
  match l with
  | [] => None
  | Some a :: l' => if is_ip a then Some a else first_ip l'
  | None :: l' => first_ip l'
  end.
Definition LookupAnyIPAddress (host : string) (family type protocol : Z) : outcome (option Address) :=
  r ← Lookup host family type protocol;
  match r with None => Ret None | Some l => Ret (first_ip l) end.

Definition AI_NUMERICHOST : Z := 4.
Definition IPAddress_Create (address : string) (port : Z) : outcome (option Address) :=
  match getaddrinfo address None (mkHints AI_NUMERICHOST AF_UNSPEC 0 0) with
  | None => Ret None
  | Some [] => Crash NullDeref
  | Some (bs :: _) =>
      a ← Create (Some bs);
      match a with
      | Some a => Ret (if is_ip a then Some (setPort (wrap 16 port) a) else None)
      | None => Ret None
      end
  end.
End lookup.

(** * Interfaces *)

Record ifaddr : Type := mkIfa { ifa_name : string; ifa_addr : option (list byte); ifa_netmask : option (list byte) }.
Definition multimap : Type := list (string * (Address * Z)).

(** [multimap::insert]: behind the elements with the same key. *)
Fixpoint mm_insert (k : string) (v : Address * Z) (m : multimap) : multimap :=
  match m with
  | [] => [(k, v)]
  | (k', v') :: m' => if String.ltb k k' then (k, v) :: m else (k', v') :: mm_insert k v m'
  end.

Fixpoint count_bytes6 (bs : list byte) (prefix_len : Z) : outcome Z :=
  match bs with
  | [] => Ret prefix_len
  | b :: bs' => n ← CountBytes 1 (byte.unsigned b); count_bytes6 bs' (wrap 32 (prefix_len + n))
  end.

Definition netmask_of (o : option (list byte)) (n : nat) : outcome (list byte) :=
  match o with
  | None => Crash NullDeref
  | Some bs => if (length bs <? n)%nat then Crash OutOfRange else Ret bs
  end.

(** One turn of the loop over the list [getifaddrs] made. *)
Definition interface_step (family : Z) (next : ifaddr) (result : multimap) : outcome multimap :=
  match ifa_addr next with
  | None => Crash NullDeref
  | Some bs =>
      let fam := field 0 2 bs in
      if negb (family =? AF_UNSPEC) && negb (family =? fam) then Ret result else
      if fam =? AF_INET then
        addr ← Create (Some bs);
        nm ← netmask_of (ifa_netmask next) 16;
        prefix_len ← CountBytes 4 (field 4 4 nm);
        Ret (match addr with Some a => mm_insert (ifa_name next) (a, prefix_len) result | None => result end)
      else if fam =? AF_INET6 then
        addr ← Create (Some bs);
        nm ← netmask_of (ifa_netmask next) 28;
        prefix_len ← count_bytes6 (slice 8 16 nm) 0;
        Ret (match addr with Some a => mm_insert (ifa_name next) (a, prefix_len) result | None => result end)
      else Ret result
  end.
Fixpoint interface_loop (family : Z) (l : list ifaddr) (result : multimap) : outcome multimap :=
  match l with
  | [] => Ret result
  | next :: l' => r ← interface_step family next result; interface_loop family l' r
  end.

Section interfaces.
(** [getifaddrs]; [None] is an error. *)
Context (getifaddrs : option (list ifaddr)).

Definition GetInterfaceAddresses_all (family : Z) (result : multimap) : outcome (bool * multimap) :=
  match getifaddrs with
  | None => Ret (false, result)
  | Some results =>
      r ← interface_loop family results result;
      Ret (match r with [] => false | _ => true end, r)
  end.

Definition GetInterfaceAddresses (result : list (Address * Z)) (iface : string) (family : Z)
    : outcome (bool * list (Address * Z)) :=
  if (iface =? "")%string || (iface =? "*")%string then
    let r1 := if (family =? AF_INET) || (family =? AF_UNSPEC)
              then result ++ [(IPv4Address (new_IPv4Address 0 0), 0)] else result in
    let r2 := if (family =? AF_INET6) || (family =? AF_UNSPEC)
              then r1 ++ [(IPv6Address new_IPv6Address_default, 0)] else r1 in
    Ret (true, r2)
  else
    r ← GetInterfaceAddresses_all family [];
    let '(ok, results) := r in
    if negb ok then Ret (false, result) else
    Ret (true, result ++ (snd <$> filter (fun e => e.1 = iface) results)).
End interfaces.
