(* ===== verification/AddressProps.v ===== *)
(** Socket addresses: their order, the prefix arithmetic, ports, texts, and
    how a host name is split. *)

From Stdlib Require Import ZArith Lia Ascii String.
From stdpp Require Import base list strings pretty.
From coqutil Require Import Byte Word.LittleEndianList.
From S2P Require Import Prelude MachineInt Address.
Local Open Scope Z_scope.

(** * Order *)

(** Lexicographic order on whole byte strings, a proper prefix first. *)
Fixpoint lex (a b : list byte) : comparison :=
  match a, b with
  | [], [] => Eq
  | [], _ => Lt
  | _, [] => Gt
  | x :: a', y :: b' =>
      match byte.unsigned x ?= byte.unsigned y with Eq => lex a' b' | c => c end
  end.

Lemma byte_compare_eq x y : (byte.unsigned x ?= byte.unsigned y) = Eq <-> x = y.
Proof. rewrite Z.compare_eq_iff. split; [apply byte.unsigned_inj|by intros ->]. Qed.

Lemma lex_eq a b : lex a b = Eq <-> a = b.
Proof.
  revert b. induction a as [|x a IH]; intros [|y b]; simpl; try done.
  destruct (byte.unsigned x ?= byte.unsigned y) eqn:E.
  - apply byte_compare_eq in E as ->. rewrite IH. split; [by intros ->|by intros [= ->]].
  - split; [done|]. intros [= -> ->]. by rewrite Z.compare_refl in E.
  - split; [done|]. intros [= -> ->]. by rewrite Z.compare_refl in E.
Qed.

Lemma lex_opp a b : lex b a = CompOpp (lex a b).
Proof.
  revert b. induction a as [|x a IH]; intros [|y b]; simpl; try done.
  rewrite (Z.compare_antisym (byte.unsigned x)), IH. by destruct (byte.unsigned x ?= byte.unsigned y).
Qed.

Lemma lex_trans a b c : lex a b = Lt -> lex b c = Lt -> lex a c = Lt.
Proof.
  revert b c. induction a as [|x a IH]; intros [|y b] [|z c]; simpl; try done.
  destruct (Z.compare_spec (byte.unsigned x) (byte.unsigned y)),
    (Z.compare_spec (byte.unsigned y) (byte.unsigned z)),
    (Z.compare_spec (byte.unsigned x) (byte.unsigned z)); try done; try lia. apply IH.
Qed.

(** Comparing the common length and then the lengths. *)
Lemma lex_by_prefix a b n : (n = length a `min` length b)%nat ->
  lex a b = match bytes_compare (take n a) (take n b) with Eq => (length a ?= length b)%nat | c => c end.
Proof.
  intros ->. revert b. induction a as [|x a IH]; intros [|y b]; simpl; try done.
  rewrite IH. by destruct (byte.unsigned x ?= byte.unsigned y).
Qed.

(** An address whose structure has the sizes of its type. *)
Definition wf (a : Address) : Prop :=
  match a with
  | IPv4Address m => in_uint 16 (sin_family m) /\ in_uint 16 (sin_port m) /\ in_uint 32 (s_addr m) /\ length (sin_zero m) = 8%nat
  | IPv6Address m => in_uint 16 (sin6_family m) /\ in_uint 16 (sin6_port m) /\ in_uint 32 (sin6_flowinfo m) /\
      length (s6_addr m) = 16%nat /\ in_uint 32 (sin6_scope_id m)
  | UnixAddress m l => in_uint 16 (sun_family m) /\ length (sun_path m) = SUN_PATH /\ 0 <= l <= 110
  | UnknownAddress m => in_uint 16 (sa_family m) /\ length (sa_data m) = 14%nat
  end.
(** The bytes that count. *)
Definition key (a : Address) : list byte := take (Z.to_nat (getAddrLen a)) (getAddr a).

Lemma getAddr_fits a : wf a -> 0 <= getAddrLen a <= Z.of_nat (length (getAddr a)).
Proof.
  destruct a as [m|m|m l|m]; cbn [wf getAddr getAddrLen]; intros H;
    unfold sin_bytes, sin6_bytes, sun_bytes, sa_bytes; rewrite ?length_app, ?length_repr; unfold SUN_PATH in *; lia.
Qed.

Lemma length_key a : wf a -> Z.of_nat (length (key a)) = getAddrLen a.
Proof. intros H. pose proof (getAddr_fits a H). unfold key. rewrite length_take. lia. Qed.

Lemma memcmp_keys a b n : wf a -> wf b -> 0 <= n <= getAddrLen a -> n <= getAddrLen b ->
  memcmp (getAddr a) (getAddr b) n = Ret (bytes_compare (take (Z.to_nat n) (key a)) (take (Z.to_nat n) (key b))).
Proof.
  intros Ha Hb H1 H2. pose proof (getAddr_fits a Ha). pose proof (getAddr_fits b Hb). unfold memcmp, key.
  rewrite (proj2 (Z.ltb_ge (Z.of_nat (length (getAddr a))) n)), (proj2 (Z.ltb_ge (Z.of_nat (length (getAddr b))) n)) by lia.
  simpl. rewrite !take_take, !Nat.min_l by lia. done.
Qed.

Lemma addr_lt_lex a b : wf a -> wf b ->
  addr_lt a b = Ret (match lex (key a) (key b) with Lt => true | _ => false end).
Proof.
  intros Ha Hb. pose proof (length_key a Ha). pose proof (length_key b Hb).
  pose proof (getAddr_fits a Ha). pose proof (getAddr_fits b Hb). unfold addr_lt.
  rewrite memcmp_keys by (done || lia). simpl.
  rewrite (lex_by_prefix (key a) (key b) (Z.to_nat (getAddrLen a `min` getAddrLen b))) by lia.
  destruct (bytes_compare _ _); try done. f_equal.
  destruct (Z.ltb_spec (getAddrLen a) (getAddrLen b)), (Nat.compare_spec (length (key a)) (length (key b))); done || lia.
Qed.

Lemma bytes_compare_full a b : length a = length b -> bytes_compare a b = lex a b.
Proof.
  revert b. induction a as [|x a IH]; intros [|y b] H; simpl in *; try done.
  rewrite IH by lia. done.
Qed.

Lemma addr_eq_lex a b : wf a -> wf b ->
  addr_eq a b = Ret (match lex (key a) (key b) with Eq => true | _ => false end).
Proof.
  intros Ha Hb. pose proof (length_key a Ha). pose proof (length_key b Hb). unfold addr_eq.
  destruct (Z.eqb_spec (getAddrLen a) (getAddrLen b)) as [E|E]; simpl.
  - pose proof (getAddr_fits a Ha). rewrite memcmp_keys by (done || lia). simpl.
    rewrite !take_ge by lia. rewrite bytes_compare_full by lia. done.
  - destruct (lex (key a) (key b)) eqn:El; try done. apply lex_eq in El. congruence.
Qed.

(** [operator<] and [operator==] on addresses of any mix of families are a
    strict total order and its equality, so addresses can be keys of a
    [std::map] or [std::set]: no comparison reads out of bounds, [<] is
    irreflexive and transitive, of two addresses exactly one of [a < b],
    [a == b], [b < a] holds, and [==] holds exactly for equal bytes. *)
Theorem address_order a b c : wf a -> wf b -> wf c ->
  addr_lt a a = Ret false /\
  (addr_lt a b = Ret true -> addr_lt b c = Ret true -> addr_lt a c = Ret true) /\
  (addr_lt a b, addr_eq a b, addr_lt b a) ∈
    [(Ret true, Ret false, Ret false); (Ret false, Ret true, Ret false); (Ret false, Ret false, Ret true)] /\
  (addr_eq a b = Ret true <-> key a = key b) /\
  addr_ne a b = Ret (negb (bool_decide (addr_eq a b = Ret true))).
Proof.
  intros Ha Hb Hc. unfold addr_ne. rewrite !addr_lt_lex, !addr_eq_lex by done. rewrite (lex_opp (key a) (key b)).
  pose proof (lex_eq (key a) (key b)) as He. pose proof (lex_trans (key a) (key b) (key c)) as Ht. split_and!.
  - by rewrite (proj2 (lex_eq (key a) (key a))).
  - destruct (lex (key a) (key b)), (lex (key b) (key c)); try done. by rewrite Ht.
  - destruct (lex (key a) (key b)); simpl; rewrite !elem_of_cons; auto.
  - rewrite <- He. by destruct (lex (key a) (key b)).
  - simpl. by destruct (lex (key a) (key b)).
Qed.

Lemma address_order_witness :
  addr_lt (IPv4Address (new_IPv4Address 1 80)) (IPv6Address new_IPv6Address_default) = Ret true /\
  addr_eq (IPv4Address (new_IPv4Address 1 80)) (IPv4Address (new_IPv4Address 1 80)) = Ret true.
Proof.
  assert (wf (IPv4Address (new_IPv4Address 1 80))) as H1 by (vm_compute; repeat split; discriminate).
  split; [vm_compute; reflexivity|].
  apply (address_order (IPv4Address (new_IPv4Address 1 80)) (IPv4Address (new_IPv4Address 1 80)) (IPv4Address (new_IPv4Address 1 80)) H1 H1 H1).
  reflexivity.
Defined.

(** * Bits of bytes *)

Lemma testbit_of_Z z j : 0 <= j < 8 -> Z.testbit (byte.unsigned (byte.of_Z z)) j = Z.testbit z j.
Proof. intros H. rewrite byte.unsigned_of_Z. unfold byte.wrap. by rewrite Z.mod_pow2_bits_low by lia. Qed.

Lemma testbit_byte_high b j : 8 <= j -> Z.testbit (byte.unsigned b) j = false.
Proof. intros H. apply (uint_testbit_high 8); [lia| |lia]. pose proof (byte.unsigned_range b). split; lia. Qed.

Lemma testbit_le_combine bs i : 0 <= i ->
  Z.testbit (le_combine bs) i =
    match bs !! Z.to_nat (i / 8) with Some b => Z.testbit (byte.unsigned b) (i mod 8) | None => false end.
Proof.
  revert i. induction bs as [|b bs IH]; intros i Hi; [by rewrite Z.bits_0|].
  change (le_combine (b :: bs)) with (Z.lor (byte.unsigned b) (Z.shiftl (le_combine bs) 8)).
  rewrite Z.lor_spec, Z.shiftl_spec by done. destruct (Z.lt_ge_cases i 8) as [H|H].
  - rewrite (Z.testbit_neg_r _ (i - 8)) by lia. rewrite Z.div_small, Z.mod_small by lia. simpl. apply orb_false_r.
  - rewrite testbit_byte_high by done. rewrite IH by lia. simpl.
    replace (i - 8) with (i + (-1) * 8) by lia. rewrite Z.div_add, Z.mod_add by lia.
    assert (1 <= i / 8) by (apply Z.div_le_lower_bound; lia).
    replace (Z.to_nat (i / 8)) with (S (Z.to_nat (i / 8 + -1))) by lia. done.
Qed.

Lemma repr_lookup n v k : (k < n)%nat -> repr n v !! k = Some (byte.of_Z (Z.shiftr v (8 * Z.of_nat k))).
Proof.
  unfold repr. revert v k. induction n as [|n IH]; intros v [|k] H; try lia; [done|].
  etransitivity; [apply (IH (Z.shiftr v 8) k); lia|]. rewrite Z.shiftr_shiftr by lia. do 3 f_equal. lia.
Qed.

Lemma rev_lookup {A} (l : list A) i : (i < length l)%nat -> rev l !! i = l !! (length l - S i)%nat.
Proof. intros H. rewrite rev_alt. change (rev_append l []) with (reverse l). by apply reverse_lookup. Qed.

Lemma bswap_range n v : in_uint (8 * Z.of_nat n) (bswap n v).
Proof.
  unfold bswap. pose proof (le_combine_bound (rev (le_split n v))) as H.
  rewrite length_rev, length_le_split in H. exact H.
Qed.

Lemma testbit_bswap n v i : 0 <= i < 8 * Z.of_nat n ->
  Z.testbit (bswap n v) i = Z.testbit v (8 * (Z.of_nat n - 1 - i / 8) + i mod 8).
Proof.
  intros H. unfold bswap. rewrite testbit_le_combine by lia.
  pose proof (Z.div_pos i 8 ltac:(lia) ltac:(lia)). pose proof (Z.div_lt_upper_bound i 8 (Z.of_nat n) ltac:(lia) ltac:(lia)).
  pose proof (Z.mod_pos_bound i 8 ltac:(lia)).
  rewrite rev_lookup by (rewrite length_le_split; lia). rewrite length_le_split.
  fold (repr n v). rewrite repr_lookup by lia. rewrite testbit_of_Z, Z.shiftr_spec by lia. f_equal. lia.
Qed.

(** A swap of a bitwise operation with a swapped value. *)
Lemma bswap_bitwise n (op : Z -> Z -> Z) (f : bool -> bool -> bool) a m :
  (forall x y i, 0 <= i -> Z.testbit (op x y) i = f (Z.testbit x i) (Z.testbit y i)) -> f false false = false ->
  in_uint (8 * Z.of_nat n) m -> bswap n (op a (bswap n m)) = op (bswap n a) m.
Proof.
  intros Hop Hf Hm. apply Z.bits_inj'. intros i Hi. rewrite Hop by done.
  destruct (Z.lt_ge_cases i (8 * Z.of_nat n)) as [H|H].
  - rewrite testbit_bswap by lia. pose proof (Z.mod_pos_bound i 8 ltac:(lia)).
    pose proof (Z.div_lt_upper_bound i 8 (Z.of_nat n) ltac:(lia) ltac:(lia)). pose proof (Z.div_pos i 8 ltac:(lia) ltac:(lia)).
    rewrite Hop, <- testbit_bswap by lia. f_equal. rewrite testbit_bswap by lia.
    set (k := Z.of_nat n - 1 - i / 8). replace (8 * k + i mod 8) with (i mod 8 + k * 8) by lia.
    rewrite Z.div_add, Z.mod_add, Z.div_small, Z.mod_mod, Z.add_0_l by lia. f_equal.
    pose proof (Z_div_mod_eq_full i 8). unfold k. lia.
  - pose proof (fun z => uint_testbit_high (8 * Z.of_nat n) z i ltac:(lia)) as Hh.
    rewrite !Hh; [done|done|done|apply bswap_range|done|apply bswap_range|done].
Qed.

Lemma uint_of_bits w a : 0 <= w -> (forall i, w <= i -> Z.testbit a i = false) -> in_uint w a.
Proof.
  intros Hw H. assert (a = wrap w a) as ->; [|by apply wrap_range]. unfold wrap. apply Z.bits_inj'. intros i Hi.
  destruct (Z.lt_ge_cases i w); [by rewrite Z.mod_pow2_bits_low|]. rewrite Z.mod_pow2_bits_high by lia. by apply H.
Qed.
Lemma uint_lor w a b : 0 <= w -> in_uint w a -> in_uint w b -> in_uint w (Z.lor a b).
Proof.
  intros Hw Ha Hb. apply uint_of_bits; [done|]. intros i Hi.
  by rewrite Z.lor_spec, (uint_testbit_high w a i), (uint_testbit_high w b i).
Qed.
Lemma uint_land w a b : 0 <= w -> in_uint w a -> in_uint w b -> in_uint w (Z.land a b).
Proof.
  intros Hw Ha Hb. apply uint_of_bits; [done|]. intros i Hi.
  by rewrite Z.land_spec, (uint_testbit_high w a i), (uint_testbit_high w b i).
Qed.

(** * IPv4 prefixes *)

Lemma CreateMask_4 p : 2 <= p <= 32 -> CreateMask 4 p = Ret (2 ^ (32 - p) - 1).
Proof.
  intros H. unfold CreateMask. change (8 * Z.of_nat 4) with 32.
  rewrite (wrap_id 64) by (split; lia). rewrite (proj2 (Z.ltb_lt _ _)) by lia.
  rewrite Z.shiftl_1_l. f_equal. apply wrap_id. pose proof (pow2_pos (32 - p)).
  pose proof (Z.pow_le_mono_r 2 (32 - p) 30). unfold in_uint. lia.
Qed.

Lemma CreateMask_4_undefined p : in_uint 32 p -> p < 2 \/ 32 < p -> CreateMask 4 p = Crash BadArith.
Proof.
  intros [H1 H2] H. unfold CreateMask. change (8 * Z.of_nat 4) with 32.
  rewrite (proj2 (Z.ltb_ge _ _)); [done|]. destruct H as [H|H].
  - rewrite (wrap_id 64) by (split; lia). lia.
  - unfold wrap. rewrite <- (Z.mod_add _ 1) by lia. rewrite Z.mod_small; lia.
Qed.

(** The address in host order. *)
Definition host4 (a : sockaddr_in) : Z := bswap 4 (s_addr a).

Lemma mask_range w p : 0 <= p <= w -> in_uint w (2 ^ (w - p) - 1).
Proof. intros H. pose proof (pow2_pos (w - p)). pose proof (Z.pow_le_mono_r 2 (w - p) w). unfold in_uint. lia. Qed.

Lemma bswap_not m : in_uint 32 m -> bswap 4 (wrap 32 (Z.lnot (bswap 4 m))) = 2 ^ 32 - 1 - m.
Proof.
  intros Hm. rewrite <- (lxor_ones_sub 32 m) by (done || lia).
  change (2 ^ 32 - 1) with (Z.ones 32).
  assert (wrap 32 (Z.lnot (bswap 4 m)) = Z.lxor (Z.ones 32) (bswap 4 m)) as ->.
  { apply Z.bits_inj'. intros i Hi. rewrite Z.lxor_spec. unfold wrap.
    destruct (Z.lt_ge_cases i 32).
    - rewrite Z.mod_pow2_bits_low, Z.lnot_spec, Z.ones_spec_low by lia. by destruct (Z.testbit _ i).
    - rewrite Z.mod_pow2_bits_high, Z.ones_spec_high by lia.
      by rewrite (uint_testbit_high 32 _ i ltac:(lia) (bswap_range 4 m)). }
  rewrite (bswap_bitwise 4 Z.lxor xorb); [|intros; apply Z.lxor_spec|done|done].
  rewrite Z.lxor_comm. done.
Qed.

(** Prefix arithmetic of IPv4, in host byte order. For a prefix of 2 to 32
    bits: [broadcastAddress] sets the host bits of the address,
    [networkAddress] keeps exactly the host bits, [subnetMask] is the mask of
    the prefix; the rest of the address is unchanged. A longer prefix gives no
    address from the first two and undefined arithmetic in the third; the
    prefixes 0 and 1 are undefined arithmetic in all three. *)
Theorem ipv4_prefix_ops a p : wf (IPv4Address a) -> in_uint 32 p ->
  (2 <= p <= 32 ->
    (exists b, IPv4_broadcastAddress a p = Ret (Some b) /\ host4 b = Z.lor (host4 a) (2 ^ (32 - p) - 1) /\
       sin_family b = sin_family a /\ sin_port b = sin_port a /\ wf (IPv4Address b)) /\
    (exists b, IPv4_networkAddress a p = Ret (Some b) /\ host4 b = Z.land (host4 a) (2 ^ (32 - p) - 1) /\
       sin_family b = sin_family a /\ sin_port b = sin_port a /\ wf (IPv4Address b)) /\
    (exists b, IPv4_subnetMask p = Ret b /\ host4 b = 2 ^ 32 - 2 ^ (32 - p) /\ wf (IPv4Address b))) /\
  (32 < p -> IPv4_broadcastAddress a p = Ret None /\ IPv4_networkAddress a p = Ret None /\
     IPv4_subnetMask p = Crash BadArith) /\
  (p < 2 -> IPv4_broadcastAddress a p = Crash BadArith /\ IPv4_networkAddress a p = Crash BadArith /\
     IPv4_subnetMask p = Crash BadArith).
Proof.
  intros (H1 & H2 & H3 & H4) Hp. unfold IPv4_broadcastAddress, IPv4_networkAddress, IPv4_subnetMask. split_and!; intros H.
  - rewrite (proj2 (Z.ltb_ge 32 p)) by lia. rewrite CreateMask_4 by done.
    pose proof (mask_range 32 p ltac:(lia)) as Hm. pose proof (bswap_range 4 (2 ^ (32 - p) - 1)) as Hb.
    split_and!; (eexists; split; [reflexivity|]); unfold host4; simpl; unfold byteswapOnLittleEndian, byteswap_unsigned.
    + rewrite (bswap_bitwise 4 Z.lor orb) by (done || (intros; apply Z.lor_spec)). split_and!; try done.
      apply uint_lor; done.
    + rewrite (bswap_bitwise 4 Z.land andb) by (done || (intros; apply Z.land_spec)). split_and!; try done.
      apply uint_land; done.
    + rewrite bswap_not by done. split; [lia|]. split_and!; try done. apply wrap_range. lia.
  - rewrite (proj2 (Z.ltb_lt 32 p)) by lia. by rewrite CreateMask_4_undefined by auto.
  - rewrite (proj2 (Z.ltb_ge 32 p)) by lia. by rewrite CreateMask_4_undefined by auto.
Qed.

Lemma ipv4_prefix_ops_witness : exists b c,
  IPv4_broadcastAddress (new_IPv4Address 0xC0A8014D 0) 24 = Ret (Some b) /\ host4 b = 0xC0A801FF /\
  IPv4_subnetMask 24 = Ret c /\ host4 c = 0xFFFFFF00.
Proof.
  destruct (ipv4_prefix_ops (new_IPv4Address 0xC0A8014D 0) 24) as [H _];
    [vm_compute; repeat split; discriminate|vm_compute; repeat split; discriminate|].
  destruct (H ltac:(lia)) as ((b & E & Hb & _) & _ & (c & E' & Hc & _)). exists b, c.
  rewrite Hb, Hc. split; [exact E|]. split; [vm_compute; reflexivity|]. split; [exact E'|vm_compute; reflexivity].
Defined.

(** 192.168.1.77/24: the network address computed is 0.0.0.77. *)
Lemma network_address_is_host_part :
  host4 <$> match IPv4_networkAddress (new_IPv4Address 0xC0A8014D 0) 24 with Ret o => o | _ => None end = Some 77.
Proof. vm_compute. reflexivity. Qed.

(** * IPv6 prefixes *)

(** The 16 bytes as one number, network order. *)
Definition be (bs : list byte) : Z := le_combine (rev bs).

Lemma be_bits bs k b j : length bs = 16%nat -> bs !! k = Some b -> 0 <= j < 8 ->
  Z.testbit (be bs) (8 * (15 - Z.of_nat k) + j) = Z.testbit (byte.unsigned b) j.
Proof.
  intros Hl Hk Hj. pose proof (lookup_lt_Some _ _ _ Hk) as Hlt. unfold be. rewrite testbit_le_combine by lia.
  replace (8 * (15 - Z.of_nat k) + j) with (j + (15 - Z.of_nat k) * 8) by lia.
  rewrite Z.div_add, Z.mod_add, Z.div_small, Z.mod_small by lia.
  rewrite rev_lookup by lia. replace (length bs - S (Z.to_nat (0 + (15 - Z.of_nat k))))%nat with k by lia. by rewrite Hk.
Qed.

Lemma be_range bs : length bs = 16%nat -> in_uint 128 (be bs).
Proof. intros Hl. unfold be. pose proof (le_combine_bound (rev bs)) as H. rewrite length_rev, Hl in H. exact H. Qed.

Lemma be_ext bs v : length bs = 16%nat -> in_uint 128 v ->
  (forall k b j, bs !! k = Some b -> 0 <= j < 8 ->
     Z.testbit (byte.unsigned b) j = Z.testbit v (8 * (15 - Z.of_nat k) + j)) -> be bs = v.
Proof.
  intros Hl Hv H. apply Z.bits_inj'. intros i Hi. destruct (Z.lt_ge_cases i 128) as [Hlt|Hge].
  - pose proof (Z.mod_pos_bound i 8 ltac:(lia)). pose proof (Z_div_mod_eq_full i 8) as Hd.
    pose proof (Z.div_pos i 8 ltac:(lia) ltac:(lia)). pose proof (Z.div_lt_upper_bound i 8 16 ltac:(lia) ltac:(lia)).
    destruct (lookup_lt_is_Some_2 bs (Z.to_nat (15 - i / 8)) ltac:(lia)) as [b Hb].
    replace i with (8 * (15 - Z.of_nat (Z.to_nat (15 - i / 8))) + i mod 8) by lia.
    rewrite (be_bits _ _ b) by done. by apply H.
  - by rewrite (uint_testbit_high 128 (be bs) i ltac:(lia) (be_range bs Hl)), (uint_testbit_high 128 v i ltac:(lia) Hv).
Qed.

Lemma CreateMask_1 r : 0 <= r < 8 -> CreateMask 1 r = Ret (Z.ones (8 - r)).
Proof.
  intros H. unfold CreateMask. change (8 * Z.of_nat 1) with 8. rewrite (wrap_id 64) by (split; lia).
  rewrite (proj2 (Z.ltb_lt _ _)) by lia. rewrite Z.shiftl_1_l. f_equal. rewrite Z.ones_equiv.
  rewrite Z.sub_1_r. apply wrap_id. pose proof (pow2_pos (8 - r)). pose proof (Z.pow_le_mono_r 2 (8 - r) 8). unfold in_uint. lia.
Qed.

Lemma byte_update_run q f bs : (q < length bs)%nat ->
  exists b, bs !! q = Some b /\ byte_update (Z.of_nat q) f bs = Ret (<[q := byte.of_Z (f (byte.unsigned b))]> bs).
Proof.
  intros H. destruct (lookup_lt_is_Some_2 bs q H) as [b Hb]. exists b. split; [done|].
  unfold byte_update. by rewrite Nat2Z.id, Hb.
Qed.

(** Bit [j] of byte [k] is below the prefix [8 q + r]. *)
Lemma below_prefix k j q r : 0 <= j < 8 -> 0 <= r < 8 -> 0 <= k < 16 -> 0 <= q < 16 ->
  (8 * (15 - k) + j <? 128 - (8 * q + r)) = (q <? k) || (k =? q) && (j <? 8 - r).
Proof.
  intros. destruct (Z.ltb_spec (8 * (15 - k) + j) (128 - (8 * q + r))), (Z.ltb_spec q k), (Z.eqb_spec k q), (Z.ltb_spec j (8 - r));
    simpl; try done; lia.
Qed.

Lemma testbit_ff j : 0 <= j < 8 -> Z.testbit (byte.unsigned Byte.xff) j = true.
Proof. intros H. change (byte.unsigned Byte.xff) with (Z.ones 8). apply Z.ones_spec_low. lia. Qed.
Lemma testbit_0 j : Z.testbit (byte.unsigned Byte.x00) j = false.
Proof. apply Z.bits_0. Qed.

Lemma zeros_lookup n k b : zeros n !! k = Some b -> b = Byte.x00.
Proof. unfold zeros. rewrite lookup_replicate. by intros [-> _]. Qed.

Lemma fill_ff_lookup a b bs k x : fill_ff a b bs !! k = Some x ->
  exists y, bs !! k = Some y /\ x = if ((a <=? k) && (k <? b))%nat then Byte.xff else y.
Proof. unfold fill_ff. rewrite list_lookup_imap. destruct (bs !! k) as [y|]; simpl; [|done]. intros [= <-]. eauto. Qed.

Section ipv6_prefix.
Context (q : nat) (r : Z).
Hypothesis Hq : (q < 16)%nat.
Hypothesis Hr : 0 <= r < 8.
Let p : Z := 8 * Z.of_nat q + r.

Lemma prefix_div : p / 8 = Z.of_nat q.
Proof. unfold p. rewrite Z.add_comm, Z.mul_comm, Z.div_add, Z.div_small; lia. Qed.
Lemma prefix_mod : p mod 8 = r.
Proof. unfold p. rewrite Z.add_comm, Z.mul_comm, Z.mod_add, Z.mod_small; lia. Qed.

Lemma below_prefix_nat k j : 0 <= j < 8 -> (k < 16)%nat ->
  Z.testbit (Z.ones (128 - p)) (8 * (15 - Z.of_nat k) + j) = ((q <? k)%nat || (k =? q)%nat && (j <? 8 - r)).
Proof.
  intros Hj Hk. rewrite Z.testbit_ones by (unfold p; lia). unfold p.
  rewrite below_prefix by lia. rewrite (proj2 (Z.leb_le _ _)) by lia. simpl.
  destruct (Z.ltb_spec (Z.of_nat q) (Z.of_nat k)), (Z.eqb_spec (Z.of_nat k) (Z.of_nat q)), (Nat.ltb_spec q k), (Nat.eqb_spec k q);
    simpl; try done; lia.
Qed.

Lemma mask_bit j : 0 <= j < 8 -> Z.testbit (Z.ones (8 - r)) j = (j <? 8 - r).
Proof. intros Hj. rewrite Z.testbit_ones by lia. by rewrite (proj2 (Z.leb_le 0 j)) by lia. Qed.

Lemma ones_128 : in_uint 128 (Z.ones (128 - p)).
Proof. rewrite Z.ones_equiv, <- Z.sub_1_r. apply mask_range. unfold p. lia. Qed.

Lemma ipv6_broadcast a : length (s6_addr a) = 16%nat ->
  exists b, IPv6_broadcastAddress a p = Ret b /\ length (s6_addr b) = 16%nat /\
    be (s6_addr b) = Z.lor (be (s6_addr a)) (Z.ones (128 - p)) /\ b = with_s6_addr (s6_addr b) a.
Proof.
  intros Hl. unfold IPv6_broadcastAddress. rewrite prefix_div, prefix_mod, CreateMask_1 by done.
  destruct (byte_update_run q (fun b => Z.lor b (Z.ones (8 - r))) (s6_addr a)) as (b & Hb & E); [lia|]. simpl. rewrite E. simpl.
  eexists. split; [reflexivity|]. simpl. split_and!; [unfold fill_ff; by rewrite length_imap, length_insert| |done].
  apply be_ext; [unfold fill_ff; by rewrite length_imap, length_insert|apply uint_lor; [lia|by apply be_range|apply ones_128]|].
  intros k x j Hk Hj. destruct (fill_ff_lookup _ _ _ _ _ Hk) as (y & Hy & ->).
  assert (k < 16)%nat as Hk' by (apply lookup_lt_Some in Hy; rewrite length_insert in Hy; lia).
  rewrite Z.lor_spec, below_prefix_nat by done. replace (Z.to_nat (Z.of_nat q + 1)) with (S q) by lia.
  destruct (decide (k = q)) as [->|Hne].
  - rewrite list_lookup_insert_eq in Hy by lia. injection Hy as <-. rewrite (be_bits _ _ b) by done.
    rewrite (proj2 (Nat.leb_gt (S q) q)), Nat.ltb_irrefl, Nat.eqb_refl by lia. simpl.
    rewrite testbit_of_Z, Z.lor_spec, mask_bit by done. done.
  - rewrite list_lookup_insert_ne in Hy by done. rewrite (be_bits _ _ y) by done.
    rewrite (proj2 (Nat.eqb_neq k q)), (proj2 (Nat.ltb_lt k 16)), andb_true_r, andb_false_l, orb_false_r by done.
    change (S q <=? k)%nat with (q <? k)%nat. destruct (q <? k)%nat; [|by rewrite orb_false_r].
    rewrite testbit_ff by done. by rewrite orb_true_r.
Qed.

Lemma ipv6_subnet :
  exists b, IPv6_subnetMask p = Ret b /\ length (s6_addr b) = 16%nat /\
    be (s6_addr b) = 2 ^ 128 - 2 ^ (128 - p) /\ sin6_family b = AF_INET6.
Proof.
  unfold IPv6_subnetMask. rewrite prefix_div, prefix_mod, CreateMask_1 by done.
  destruct (byte_update_run q (fun _ => Z.lnot (Z.ones (8 - r))) (zeros 16)) as (b & Hb & E); [done|]. simpl. rewrite E. simpl.
  eexists. split; [reflexivity|]. simpl. split_and!; [unfold fill_ff; by rewrite length_imap, length_insert| |done].
  replace (2 ^ 128 - 2 ^ (128 - p)) with (Z.lxor (Z.ones (128 - p)) (2 ^ 128 - 1)).
  2: { rewrite lxor_ones_sub by (lia || apply ones_128). rewrite Z.ones_equiv. lia. }
  change (2 ^ 128 - 1) with (Z.ones 128).
  apply be_ext; [unfold fill_ff; by rewrite length_imap, length_insert| |].
  { apply uint_of_bits; [lia|]. intros i Hi. rewrite Z.lxor_spec, (uint_testbit_high 128 _ i ltac:(lia) ones_128) by done.
    by rewrite Z.ones_spec_high by lia. }
  intros k x j Hk Hj. destruct (fill_ff_lookup _ _ _ _ _ Hk) as (y & Hy & ->).
  assert (k < 16)%nat as Hk' by (apply lookup_lt_Some in Hy; rewrite length_insert in Hy; exact Hy).
  rewrite Z.lxor_spec, below_prefix_nat, (Z.ones_spec_low 128) by (done || lia). rewrite Nat2Z.id. simpl.
  destruct (decide (k = q)) as [->|Hne].
  - rewrite list_lookup_insert_eq in Hy by done. injection Hy as <-.
    rewrite Nat.ltb_irrefl, Nat.eqb_refl. simpl. rewrite testbit_of_Z, Z.lnot_spec, mask_bit by (done || lia).
    by destruct (j <? 8 - r).
  - rewrite list_lookup_insert_ne in Hy by done. apply zeros_lookup in Hy as ->. rewrite (proj2 (Nat.eqb_neq k q)) by done. simpl.
    rewrite orb_false_r. destruct (Nat.ltb_spec k q), (Nat.ltb_spec q k); try lia; [by rewrite testbit_ff|by rewrite testbit_0].
Qed.

Lemma ipv6_network a : length (s6_addr a) = 16%nat ->
  exists b, IPv6_networkAddress a p = Ret b /\ length (s6_addr b) = 16%nat /\
    be (s6_addr b) = Z.ldiff (be (s6_addr a)) (Z.shiftl (Z.ones r) (128 - p)) /\ b = with_s6_addr (s6_addr b) a.
Proof.
  intros Hl. unfold IPv6_networkAddress. rewrite prefix_div, prefix_mod, CreateMask_1 by done.
  destruct (byte_update_run q (fun b => Z.land b (Z.ones (8 - r))) (s6_addr a)) as (b & Hb & E); [lia|]. simpl. rewrite E. simpl.
  eexists. split; [reflexivity|]. simpl. split_and!; [by rewrite length_insert| |done].
  apply be_ext; [by rewrite length_insert| |].
  { apply uint_of_bits; [lia|]. intros i Hi.
    by rewrite Z.ldiff_spec, (uint_testbit_high 128 (be (s6_addr a)) i ltac:(lia) (be_range _ Hl)). }
  intros k y j Hy Hj. assert (k < 16)%nat as Hk' by (apply lookup_lt_Some in Hy; rewrite length_insert in Hy; lia).
  rewrite Z.ldiff_spec, Z.shiftl_spec, Z.testbit_ones by lia.
  destruct (decide (k = q)) as [->|Hne].
  - rewrite list_lookup_insert_eq in Hy by lia. injection Hy as <-. rewrite (be_bits _ _ b) by done.
    rewrite testbit_of_Z, Z.land_spec, mask_bit by done. f_equal. unfold p.
    destruct (Z.ltb_spec j (8 - r)), (Z.leb_spec 0 (8 * (15 - Z.of_nat q) + j - (128 - (8 * Z.of_nat q + r)))),
      (Z.ltb_spec (8 * (15 - Z.of_nat q) + j - (128 - (8 * Z.of_nat q + r))) r); simpl; try done; lia.
  - rewrite list_lookup_insert_ne in Hy by done. rewrite (be_bits _ _ y) by done. unfold p.
    destruct (Z.leb_spec 0 (8 * (15 - Z.of_nat k) + j - (128 - (8 * Z.of_nat q + r)))),
      (Z.ltb_spec (8 * (15 - Z.of_nat k) + j - (128 - (8 * Z.of_nat q + r))) r); simpl; rewrite ?andb_true_r; try done; lia.
Qed.
End ipv6_prefix.

(** C27: Prefix arithmetic of IPv6, on the address as a 128-bit number. For a
    prefix of 0 to 127 bits: [broadcastAddress] sets the bits behind the
    prefix, [subnetMask] is the mask of the prefix, and [networkAddress]
    clears exactly the prefix bits of the byte the prefix ends in; nothing
    else of the address changes. The prefix 128 and longer ones access memory
    behind the address in all three. *)
Theorem ipv6_prefix_ops a p : wf (IPv6Address a) -> in_uint 32 p ->
  (p < 128 ->
    (exists b, IPv6_broadcastAddress a p = Ret b /\ be (s6_addr b) = Z.lor (be (s6_addr a)) (2 ^ (128 - p) - 1) /\
       b = with_s6_addr (s6_addr b) a /\ length (s6_addr b) = 16%nat) /\
    (exists b, IPv6_subnetMask p = Ret b /\ be (s6_addr b) = 2 ^ 128 - 2 ^ (128 - p) /\ length (s6_addr b) = 16%nat) /\
    (exists b, IPv6_networkAddress a p = Ret b /\
       be (s6_addr b) = Z.ldiff (be (s6_addr a)) (Z.shiftl (Z.ones (p mod 8)) (128 - p)) /\
       b = with_s6_addr (s6_addr b) a /\ length (s6_addr b) = 16%nat)) /\
  (128 <= p -> IPv6_broadcastAddress a p = Crash OutOfRange /\ IPv6_networkAddress a p = Crash OutOfRange /\
     IPv6_subnetMask p = Crash OutOfRange).
Proof.
  intros (_ & _ & _ & Hl & _) [Hp1 Hp2]. pose proof (Z.mod_pos_bound p 8 ltac:(lia)) as Hr.
  pose proof (Z_div_mod_eq_full p 8) as Hd. pose proof (Z.div_pos p 8 ltac:(lia) ltac:(lia)). split; intros H1.
  - assert (Z.to_nat (p / 8) < 16)%nat as Hq by lia.
    assert (p = 8 * Z.of_nat (Z.to_nat (p / 8)) + p mod 8) as Ep by lia.
    pose proof (ipv6_broadcast _ _ Hq Hr a Hl) as (b1 & E1 & L1 & V1 & F1).
    pose proof (ipv6_subnet _ _ Hq Hr) as (b2 & E2 & L2 & V2 & _).
    pose proof (ipv6_network _ _ Hq Hr a Hl) as (b3 & E3 & L3 & V3 & F3).
    rewrite <- Ep in E1, V1, E2, V2, E3, V3. rewrite Z.ones_equiv, <- Z.sub_1_r in V1.
    split_and!; [by exists b1|by exists b2|by exists b3].
  - assert (16 <= Z.to_nat (p / 8))%nat as Hq by lia.
    unfold IPv6_broadcastAddress, IPv6_networkAddress, IPv6_subnetMask, byte_update. rewrite CreateMask_1 by done. simpl.
    rewrite (lookup_ge_None_2 (s6_addr a)) by lia. rewrite (lookup_ge_None_2 (zeros 16)) by (simpl; lia). done.
Qed.

Lemma ipv6_prefix_ops_witness : exists b c,
  IPv6_broadcastAddress new_IPv6Address_default 64 = Ret b /\ be (s6_addr b) = 2 ^ 64 - 1 /\
  IPv6_subnetMask 10 = Ret c /\ be (s6_addr c) = 2 ^ 128 - 2 ^ 118.
Proof.
  assert (wf (IPv6Address new_IPv6Address_default)) as Hw by (vm_compute; repeat split; discriminate).
  destruct (ipv6_prefix_ops new_IPv6Address_default 64 Hw ltac:(vm_compute; repeat split; discriminate)) as [H _].
  destruct (ipv6_prefix_ops new_IPv6Address_default 10 Hw ltac:(vm_compute; repeat split; discriminate)) as [H' _].
  destruct (H ltac:(lia)) as ((b & E & Hb & _) & _). destruct (H' ltac:(lia)) as (_ & (c & E' & Hc & _) & _).
  exists b, c. rewrite Hb, Hc. split; [exact E|]. split; [vm_compute; reflexivity|]. split; [exact E'|reflexivity].
Defined.

(** * Counting bits *)

Fixpoint popcount (p : positive) : nat :=
  match p with xH => 1%nat | xO p' => popcount p' | xI p' => S (popcount p') end.
Definition bits_set (v : Z) : nat := match v with Zpos p => popcount p | _ => O end.

Lemma bits_set_double v : 0 <= v -> bits_set (2 * v) = bits_set v.
Proof. by destruct v. Qed.
Lemma bits_set_succ_double v : 0 <= v -> bits_set (2 * v + 1) = S (bits_set v).
Proof. by destruct v. Qed.

Lemma land_double a b : Z.land (2 * a) (2 * b + 1) = 2 * Z.land a b.
Proof.
  apply Z.bits_inj'. intros i Hi. destruct (Z.eq_dec i 0) as [->|Hne].
  - by rewrite Z.land_spec, !Z.testbit_even_0.
  - replace i with (Z.succ (i - 1)) by lia.
    rewrite Z.land_spec, Z.testbit_odd_succ, !Z.testbit_even_succ, Z.land_spec by lia. done.
Qed.
Lemma land_succ_double a : Z.land (2 * a + 1) (2 * a) = 2 * a.
Proof.
  apply Z.bits_inj'. intros i Hi. destruct (Z.eq_dec i 0) as [->|Hne].
  - by rewrite Z.land_spec, !Z.testbit_even_0, andb_false_r.
  - replace i with (Z.succ (i - 1)) by lia.
    rewrite Z.land_spec, Z.testbit_odd_succ, !Z.testbit_even_succ by lia. apply andb_diag.
Qed.

(** [value & (value - 1)] has one bit less. *)
Lemma clear_lowest p : 0 <= Z.land (Zpos p) (Zpos p - 1) /\ S (bits_set (Z.land (Zpos p) (Zpos p - 1))) = popcount p.
Proof.
  induction p as [p [IH1 IH2]|p [IH1 IH2]|]; [| |done].
  - replace (Zpos p~1 - 1) with (2 * Zpos p) by lia. change (Zpos p~1) with (2 * Zpos p + 1). rewrite land_succ_double.
    split; [lia|]. rewrite bits_set_double by lia. done.
  - replace (Zpos p~0 - 1) with (2 * (Zpos p - 1) + 1) by lia. change (Zpos p~0) with (2 * Zpos p). rewrite land_double.
    split; [lia|]. rewrite bits_set_double by lia. done.
Qed.

Lemma CountBytes_loop_run fuel v r : 0 <= v -> (bits_set v < fuel)%nat -> 0 <= r -> r + Z.of_nat (bits_set v) < 2 ^ 32 ->
  CountBytes_loop fuel v r = Ret (r + Z.of_nat (bits_set v)).
Proof.
  revert v r. induction fuel as [|fuel IH]; intros v r Hv Hf Hr Hb; [lia|]. simpl.
  destruct v as [|p|p]; [simpl; by rewrite Z.add_0_r| |lia]. simpl (Zpos p =? 0).
  destruct (clear_lowest p) as [H1 H2]. cbn [bits_set] in *. rewrite wrap_id by (split; lia). rewrite IH; try lia. f_equal. lia.
Qed.

Lemma popcount_bound p n : Zpos p < 2 ^ Z.of_nat n -> (popcount p <= n)%nat.
Proof.
  revert p. induction n as [|n IH]; intros p; [change (2 ^ Z.of_nat 0) with 1; lia|].
  rewrite Nat2Z.inj_succ, Z.pow_succ_r by lia. destruct p as [p|p|]; simpl; intros H; [| |lia].
  - specialize (IH p ltac:(lia)). lia.
  - specialize (IH p ltac:(lia)). lia.
Qed.

Lemma bits_set_bound v n : in_uint (Z.of_nat n) v -> (bits_set v <= n)%nat.
Proof. intros [H1 H2]. destruct v as [|p|p]; simpl; [lia|by apply popcount_bound|lia]. Qed.

Lemma CountBytes_bits n v : (n <= 8)%nat -> in_uint (8 * Z.of_nat n) v -> CountBytes n v = Ret (Z.of_nat (bits_set v)).
Proof.
  intros Hn Hv. pose proof (bits_set_bound v (8 * n)%nat) as Hb.
  replace (Z.of_nat (8 * n)) with (8 * Z.of_nat n) in Hb by lia. specialize (Hb Hv).
  unfold CountBytes. rewrite CountBytes_loop_run; [done|apply Hv|lia|lia|]. lia.
Qed.

(** [CountBytes] ends after one turn per set bit and returns their number;
    on the netmask of an interface with an IPv4 prefix that is the length of
    the prefix. *)
Theorem count_bits n v : (n <= 8)%nat -> in_uint (8 * Z.of_nat n) v ->
  CountBytes n v = Ret (Z.of_nat (bits_set v)) /\
  forall p b, 2 <= p <= 32 -> IPv4_subnetMask p = Ret b -> CountBytes 4 (s_addr b) = Ret p.
Proof.
  intros Hn Hv. split; [by apply CountBytes_bits|]. intros p b Hp Hb.
  assert (forall k, In k (seq 2 31) -> forall b, IPv4_subnetMask (Z.of_nat k) = Ret b -> CountBytes 4 (s_addr b) = Ret (Z.of_nat k)) as H.
  { assert (Forall (fun k => match IPv4_subnetMask (Z.of_nat k) with
      | Ret b => CountBytes 4 (s_addr b) = Ret (Z.of_nat k) | _ => False end) (seq 2 31)) as F
      by (repeat (constructor; [vm_compute; reflexivity|]); constructor).
    rewrite List.Forall_forall in F. intros k Hk b' E. specialize (F k Hk). by rewrite E in F. }
  rewrite <- (Z2Nat.id p) by lia. apply (H (Z.to_nat p)); [apply in_seq; lia|]. by rewrite Z2Nat.id by lia.
Qed.

Lemma count_bits_witness : CountBytes 4 0xF0F00001 = Ret 9.
Proof. destruct (count_bits 4 0xF0F00001) as [H _]; [lia|vm_compute; repeat split; discriminate|]. exact H. Defined.

(** * Texts *)

Section text.
Implicit Types gs pre post : list Z.

Definition group_text (g : Z) : string := hex (byteswapOnLittleEndian 2 g).
Fixpoint colons gs : string := match gs with [] => "" | g :: gs' => ":" +:+ group_text g +:+ colons gs' end.
Definition join gs : string := match gs with [] => "" | g :: gs' => group_text g +:+ colons gs' end.

Lemma loop_used p gs : insert_loop (Some p) gs true = (colons gs, true).
Proof.
  revert p. induction gs as [|g gs IH]; intros p; [done|]. cbn [insert_loop]. rewrite andb_false_r. simpl (negb true).
  rewrite andb_false_r, IH. done.
Qed.

Lemma loop_zeros n g post : g <> 0 ->
  insert_loop (Some 0) (replicate n 0 ++ g :: post) false = ("::" +:+ join (g :: post), true).
Proof.
  intros Hg. induction n as [|n IH]; cbn [replicate app insert_loop].
  - rewrite (proj2 (Z.eqb_neq g 0)) by done. simpl (_ && _). cbn [andb negb Z.eqb]. rewrite loop_used. done.
  - exact IH.
Qed.
Lemma loop_zeros_end n : insert_loop (Some 0) (replicate n 0) false = ("", false).
Proof. induction n as [|n IH]; [done|]. exact IH. Qed.

(** What the loop prints from a group that is not zero, or from the start. *)
Lemma loop_start prev g gs : g <> 0 -> prev <> Some 0 ->
  insert_loop prev (g :: gs) false =
    (match prev with Some _ => ":" | None => "" end +:+ group_text g +:+ fst (insert_loop (Some g) gs false),
     snd (insert_loop (Some g) gs false)).
Proof.
  intros Hg Hp. cbn [insert_loop]. rewrite (proj2 (Z.eqb_neq g 0)) by done. cbn [andb].
  destruct prev as [p|]; cbn [andb negb]; [rewrite (proj2 (Z.eqb_neq p 0)) by congruence; cbn [andb]|];
    by destruct (insert_loop (Some g) gs false).
Qed.

Lemma loop_pre p pre gs : p <> 0 -> Forall (fun g => g <> 0) pre ->
  exists q, q <> 0 /\ insert_loop (Some p) (pre ++ gs) false =
    (colons pre +:+ fst (insert_loop (Some q) gs false), snd (insert_loop (Some q) gs false)).
Proof.
  intros Hp H. revert p Hp. induction H as [|g pre Hg _ IH]; intros p Hp; cbn [app].
  - exists p. split; [done|]. by destruct (insert_loop (Some p) gs false).
  - rewrite loop_start by (done || congruence). destruct (IH g Hg) as (q & Hq & E). exists q. split; [done|].
    rewrite E. simpl. by rewrite !append_assoc.
Qed.

(** Behind a group that is not zero, zeros and the rest. *)
Lemma loop_run prev n post : (n <> 0)%nat -> prev <> Some 0 -> (forall g, head post = Some g -> g <> 0) ->
  insert_loop prev (replicate n 0 ++ post) false =
    match post with [] => ("", false) | _ => ("::" +:+ join post, true) end.
Proof.
  intros Hn Hp Hpost. destruct n as [|n]; [done|]. cbn [replicate app insert_loop Z.eqb andb negb].
  destruct post as [|g post]; [rewrite app_nil_r; apply loop_zeros_end|]. apply loop_zeros. by apply Hpost.
Qed.

(** The first run of zeros. *)
Lemma split_zeros gs : exists pre n post, gs = pre ++ replicate n 0 ++ post /\
  Forall (fun g => g <> 0) pre /\ (n = O -> post = []) /\ (forall g, head post = Some g -> g <> 0).
Proof.
  induction gs as [|g gs (pre & n & post & -> & H1 & H2 & H3)]; [by exists [], 0%nat, []|].
  destruct (decide (g = 0)) as [->|Hg].
  - destruct pre as [|x pre].
    + exists [], (S n), post. split_and!; try done.
    + exists [], 1%nat, ((x :: pre) ++ replicate n 0 ++ post). split_and!; try done.
      intros y [= <-]. by inversion H1.
  - exists (g :: pre), n, post. split_and!; try done. by constructor.
Qed.

(** The text of an IPv6 address: the groups before the first run of zeros,
    a double colon for the run, the groups behind it, each group without
    leading zeros and separated by colons; without a zero group all eight; the
    port behind the brackets. *)
Theorem ipv6_text a : wf (IPv6Address a) ->
  exists pre n post, groups (s6_addr a) = pre ++ replicate n 0 ++ post /\ length (pre ++ replicate n 0 ++ post) = 8%nat /\
    Forall (fun g => g <> 0) pre /\ (n = O -> post = []) /\ (forall g, head post = Some g -> g <> 0) /\
    IPv6_insert a = "[" +:+ join pre +:+ (if decide (n = O) then "" else "::" +:+ join post) +:+
      "]:" +:+ dec (IPv6_getPort a).
Proof.
  intros _. destruct (split_zeros (groups (s6_addr a))) as (pre & n & post & E & H1 & H2 & H3).
  exists pre, n, post. assert (length (pre ++ replicate n 0 ++ post) = 8%nat) as Hl by (by rewrite <- E).
  split_and!; try done. unfold IPv6_insert. rewrite E. fold (IPv6_getPort a).
  assert (exists u, insert_loop None (pre ++ replicate n 0 ++ post) false =
    (join pre +:+ (if decide (n = O) then "" else match post with [] => "" | _ => "::" +:+ join post end), u) /\
    (u = true <-> n <> O /\ post <> [])) as (u & Eu & Hu).
  { assert (forall prev, prev <> Some 0 -> exists u, insert_loop prev (replicate n 0 ++ post) false =
      ((if decide (n = O) then "" else match post with [] => "" | _ => "::" +:+ join post end), u) /\
      (u = true <-> n <> O /\ post <> [])) as Hrest.
    { intros prev Hp. case_decide as Hn.
      - rewrite Hn, H2 by done. exists false. split; [done|]. naive_solver.
      - rewrite loop_run by done. destruct post; eexists; (split; [reflexivity|naive_solver]). }
    destruct H1 as [|g pre Hg Hpre]; [by apply Hrest|]. cbn [app]. rewrite loop_start by done.
    destruct (loop_pre g pre (replicate n 0 ++ post) Hg Hpre) as (q & Hq & ->).
    destruct (Hrest (Some q) ltac:(congruence)) as (u & -> & Hu). exists u. simpl. by rewrite append_assoc. }
  rewrite Eu. f_equal. rewrite append_assoc. f_equal. rewrite <- (append_assoc _ _ ("]:" +:+ _)). f_equal.
  destruct u; simpl.
  - destruct (proj1 Hu eq_refl) as [Hn Hpo]. rewrite append_nil_r. case_decide; [done|]. by destruct post.
  - assert (n = O \/ post = []) as [Hn|Hpo].
    { destruct (decide (n = O)); [by left|]. right. destruct post; [done|]. exfalso. by assert (false = true) by (apply Hu; done). }
    + rewrite !decide_True by done. rewrite Hn, (H2 Hn) in Hl |- *. rewrite !app_nil_r in Hl |- *.
      destruct (lookup_lt_is_Some_2 pre 7%nat ltac:(lia)) as [g Hg]. rewrite Hg. simpl.
      pose proof (Forall_lookup_1 _ _ _ _ H1 Hg). by rewrite (proj2 (Z.eqb_neq g 0)).
    + subst post. rewrite app_nil_r in Hl |- *. case_decide as Hn.
      * subst n. simpl in *. rewrite app_nil_r in Hl |- *.
        destruct (lookup_lt_is_Some_2 pre 7%nat ltac:(lia)) as [g Hg]. rewrite Hg. simpl.
        pose proof (Forall_lookup_1 _ _ _ _ H1 Hg). by rewrite (proj2 (Z.eqb_neq g 0)).
      * rewrite length_app, length_replicate in Hl. rewrite lookup_app_r by lia.
        rewrite lookup_replicate_2 by lia. done.
Qed.

Lemma ipv6_text_witness : IPv6_insert new_IPv6Address_default = "[::]:0" /\ exists pre n post,
  IPv6_insert new_IPv6Address_default =
    "[" +:+ join pre +:+ (if decide (n = O) then "" else "::" +:+ join post) +:+ "]:" +:+ dec 0.
Proof.
  split; [vm_compute; reflexivity|].
  destruct (ipv6_text new_IPv6Address_default ltac:(vm_compute; repeat split; discriminate))
    as (pre & n & post & _ & _ & _ & _ & _ & E).
  exists pre, n, post. exact E.
Defined.
End text.

Example ipv6_text_mixed :
  IPv6_insert (new_IPv6Address (bytes_of (String "032" (String "001" (String "013" (String "184"
    (String "000" (String "000" (String "000" (String "000" (String "000" (String "001" (String "000" (String "000"
    (String "000" (String "000" (String "000" (String "042" ""))))))))))))))))) 0) = "[2001:db8::1:0:0:2a]:0".
Proof. vm_compute. reflexivity. Qed.

(** ** Ports *)

(** A port set with [setPort] is read back by [getPort]; a port below
    65536 given to a constructor or to [Create] is lost: the address has port
    0, because the 32-bit argument is swapped before it is cut to 16 bits. *)
Theorem ports a6 a v w : in_uint 16 v ->
  IPv4_getPort (IPv4_setPort v a) = v /\ IPv6_getPort (IPv6_setPort v a6) = v /\
  IPv4_getPort (new_IPv4Address w v) = 0 /\ IPv6_getPort (new_IPv6Address (s6_addr a6) v) = 0 /\
  (forall pton s x, IPv4_Create pton s v = Some x -> IPv4_getPort x = 0) /\
  (forall pton s x, IPv6_Create pton s v = Some x -> IPv6_getPort x = 0).
Proof.
  intros Hv. assert (wrap 16 (byteswapOnLittleEndian 4 v) = 0) as E.
  { unfold wrap, byteswapOnLittleEndian, byteswap_unsigned. apply Z.bits_inj'. intros i Hi. rewrite Z.bits_0.
    destruct (Z.lt_ge_cases i 16); [|by rewrite Z.mod_pow2_bits_high by lia].
    rewrite Z.mod_pow2_bits_low by lia. rewrite (testbit_bswap 4) by lia.
    apply (uint_testbit_high 16); [lia|done|]. pose proof (Z.mod_pos_bound i 8 ltac:(lia)).
    assert (i / 8 < 2) by (apply Z.div_lt_upper_bound; lia). lia. }
  unfold IPv4_getPort, IPv6_getPort, IPv4_setPort, IPv6_setPort, new_IPv4Address, new_IPv6Address, IPv4_Create, IPv6_Create.
  cbn [sin_port sin6_port]. rewrite E. split_and!.
  - by apply (bswap_bswap 2).
  - by apply (bswap_bswap 2).
  - done.
  - done.
  - intros pton s x. destruct (pton s); [|done]. by intros [= <-].
  - intros pton s x. destruct (pton s); [|done]. by intros [= <-].
Qed.

Lemma ports_witness : IPv4_getPort (IPv4_setPort 8080 (new_IPv4Address 0 0)) = 8080 /\
  IPv4_getPort (new_IPv4Address 0x7F000001 8080) = 0.
Proof.
  destruct (ports new_IPv6Address_default (new_IPv4Address 0 0) 8080 0x7F000001 ltac:(vm_compute; repeat split; discriminate))
    as (H1 & _ & H3 & _).
  split; [exact H1|exact H3].
Defined.

(** ** Structures from the system *)

Lemma field_repr off n v pre post : length pre = off -> in_uint (8 * Z.of_nat n) v ->
  field off n (pre ++ repr n v ++ post) = v.
Proof.
  intros Hl Hv. unfold field. rewrite slice_app_r by lia. rewrite Hl, Nat.sub_diag.
  rewrite slice_app_l by (rewrite length_repr; lia). rewrite <- (length_repr n v) at 1. rewrite slice_full.
  rewrite uint_of_repr. by apply wrap_id.
Qed.

Lemma field_head n v post : in_uint (8 * Z.of_nat n) v -> field 0 n (repr n v ++ post) = v.
Proof. by apply (field_repr 0 n v []). Qed.

Lemma slice_at off n (l pre post : list byte) : length pre = off -> length l = n -> slice off n (pre ++ l ++ post) = l.
Proof.
  intros Hl <-. rewrite slice_app_r by lia. rewrite Hl, Nat.sub_diag, slice_app_l by lia. apply slice_full.
Qed.
Lemma slice_end off n (l pre : list byte) : length pre = off -> length l = n -> slice off n (pre ++ l) = l.
Proof. intros Hl Hn. rewrite <- (app_nil_r l) at 1. by apply slice_at. Qed.

(** [Address::Create] on the bytes of an IPv4, IPv6 or unknown address of
    matching family gives that address back; a Unix domain address comes back
    as an unknown one. *)
Theorem create_roundtrip a : wf a -> match a with
  | IPv4Address m => sin_family m = AF_INET
  | IPv6Address m => sin6_family m = AF_INET6
  | UnixAddress m _ => sun_family m = AF_UNIX
  | UnknownAddress m => sa_family m <> AF_INET /\ sa_family m <> AF_INET6
  end ->
  exists b, Create (Some (getAddr a)) = Ret (Some b) /\
    match a with UnixAddress m _ => b = UnknownAddress (mkSa AF_UNIX (take 14 (sun_path m))) | _ => b = a end.
Proof.
  destruct a as [m|m|m l|m]; cbn [wf getAddr]; unfold Create.
  - intros (H1 & H2 & H3 & H4) Hf. destruct m as [fam port addr z]. cbn [sin_family sin_port s_addr sin_zero] in *. subst fam. unfold sin_bytes. cbn [sin_family sin_port s_addr sin_zero].
    rewrite !length_app, !length_repr, H4. cbn [Nat.add Nat.ltb Nat.leb].
    rewrite field_head by done. cbn [Z.eqb Pos.eqb AF_INET].
    eexists. split; [reflexivity|]. unfold sin_of. f_equal. f_equal.
    + apply (field_repr 2 2 port (repr 2 _)); done.
    + rewrite app_assoc. apply (field_repr 4 4 addr (repr 2 _ ++ repr 2 port)); done.
    + rewrite !app_assoc. by apply slice_end.
  - intros (H1 & H2 & H3 & H4 & H5) Hf. destruct m as [fam port flow ad sc]. cbn [sin6_family sin6_port sin6_flowinfo s6_addr sin6_scope_id] in *. subst fam. unfold sin6_bytes.
    cbn [sin6_family sin6_port sin6_flowinfo s6_addr sin6_scope_id].
    rewrite !length_app, !length_repr, H4. cbn [Nat.add Nat.ltb Nat.leb].
    rewrite field_head by done. cbn [Z.eqb Pos.eqb AF_INET AF_INET6].
    eexists. split; [reflexivity|]. unfold sin6_of. f_equal. f_equal.
    + apply (field_repr 2 2 port (repr 2 _)); done.
    + rewrite app_assoc. apply (field_repr 4 4 flow (repr 2 _ ++ repr 2 port)); done.
    + rewrite !app_assoc, <- app_assoc. by apply slice_at.
    + rewrite !app_assoc, <- (app_nil_r (repr 4 sc)).
      apply (field_repr 24 4 sc); [by rewrite !length_app, !length_repr, H4|done].
  - intros (H1 & H2 & _) Hf. destruct m as [fam path]. cbn [sun_family sun_path] in *. subst fam. unfold sun_bytes. cbn [sun_family sun_path].
    rewrite length_app, length_repr, H2. cbn [Nat.add Nat.ltb Nat.leb SUN_PATH].
    rewrite field_head by done. cbn [Z.eqb Pos.eqb AF_INET AF_INET6 AF_UNIX].
    eexists. split; [reflexivity|]. unfold sa_of. by rewrite field_head.
  - intros (H1 & H2) [Hf1 Hf2]. destruct m as [fam data]. cbn [sa_family sa_data] in *. unfold sa_bytes. cbn [sa_family sa_data].
    rewrite length_app, length_repr, H2. cbn [Nat.add Nat.ltb Nat.leb].
    rewrite (field_head 2 fam) by done. rewrite (proj2 (Z.eqb_neq fam AF_INET)), (proj2 (Z.eqb_neq fam AF_INET6)) by done.
    eexists. split; [reflexivity|]. unfold sa_of. rewrite (field_head 2 fam) by done. do 2 f_equal.
    by apply slice_end.
Qed.

Lemma create_roundtrip_witness : Create (Some (getAddr (IPv4Address (new_IPv4Address 0x7F000001 80)))) =
  Ret (Some (IPv4Address (new_IPv4Address 0x7F000001 80))).
Proof.
  destruct (create_roundtrip (IPv4Address (new_IPv4Address 0x7F000001 80)) ltac:(vm_compute; repeat split; discriminate) eq_refl)
    as (b & E & ->). exact E.
Defined.

(** ** Unix domain paths *)

Lemma c_bytes_app bs rest : Forall (fun b => b <> Byte.x00) bs -> c_bytes (bs ++ Byte.x00 :: rest) = Ret bs.
Proof.
  induction 1 as [|b bs Hb _ IH]; [done|]. cbn [app c_bytes]. destruct b; try done; rewrite IH; done.
Qed.

Lemma string_bytes s : string_of (bytes_of s) = s.
Proof. apply String.string_of_list_byte_of_string. Qed.

Lemma unix_plain path : Forall (fun b => b <> Byte.x00) (bytes_of path) -> (0 < length (bytes_of path) <= 107)%nat ->
  exists a, new_UnixAddress path = Ret a /\ wf a /\ toString a = Ret path /\ getAddrLen a = Z.of_nat (length (bytes_of path)) + 3.
Proof.
  intros Hb Hl. pose proof (string_bytes path) as Hs. unfold new_UnixAddress.
  remember (bytes_of path) as bs eqn:Ebs. clear Ebs.
  rewrite (wrap_id 32) by (split; lia).
  assert (match bs with Byte.x00 :: _ => wrap 32 (Z.of_nat (length bs) + 1 - 1) | _ => Z.of_nat (length bs) + 1 end =
    Z.of_nat (length bs) + 1) as ->.
  { destruct bs as [|[] ?]; try done. by inversion Hb. }
  rewrite (proj2 (Z.ltb_ge _ _)) by (unfold SUN_PATH; lia). rewrite (wrap_id 32) by (unfold OFF_PATH; split; lia).
  eexists. split; [reflexivity|]. rewrite (take_ge (bs ++ [Byte.x00])) by (rewrite length_app; simpl; lia).
  cbn [wf getAddrLen toString sun_family sun_path]. split_and!; try (done || (unfold OFF_PATH; lia)).
  - rewrite length_blit; [done|]. rewrite length_app. change (length (zeros SUN_PATH)) with 108%nat. simpl. lia.
  - unfold Unix_insert. cbn [sun_path]. unfold blit. rewrite take_0. cbn [app]. rewrite <- app_assoc. cbn [app].
    set (rest := drop _ _). pose proof (c_bytes_app bs rest Hb) as E. destruct bs as [|b bs]; [simpl in Hl; lia|].
    cbn [app] in *. assert (b <> Byte.x00) by (by inversion Hb). destruct b; try done; rewrite E; simpl; by rewrite Hs.
Qed.

Lemma unix_abstract path rest : bytes_of path = Byte.x00 :: rest -> (length rest <= 107)%nat ->
  exists a, new_UnixAddress path = Ret a /\ wf a /\ toString a = Ret ("\0" +:+ string_of rest) /\
    getAddrLen a = Z.of_nat (length rest) + 3.
Proof.
  intros E Hl. unfold new_UnixAddress. rewrite E. cbn [length]. rewrite (wrap_id 32 (Z.of_nat _ + 1)) by (split; lia).
  rewrite (wrap_id 32) by (split; lia). rewrite (proj2 (Z.ltb_ge _ _)) by (unfold SUN_PATH; lia).
  rewrite (wrap_id 32) by (unfold OFF_PATH; split; lia). eexists. split; [reflexivity|].
  replace (Z.to_nat (Z.of_nat (S (length rest)) + 1 - 1)) with (S (length rest)) by lia.
  cbn [app take]. rewrite take_app_length. cbn [wf getAddrLen toString sun_family sun_path].
  split_and!; try (done || (unfold OFF_PATH; lia)).
  - rewrite length_blit; [done|]. change (length (zeros SUN_PATH)) with 108%nat. simpl. lia.
  - unfold Unix_insert. cbn [sun_path]. unfold blit. rewrite take_0. cbn [app].
    rewrite (proj2 (Z.ltb_lt _ _)) by (unfold OFF_PATH; lia).
    rewrite (proj2 (Z.ltb_ge _ _)) by (unfold OFF_PATH; rewrite length_app; lia).
    do 3 f_equal. replace (Z.to_nat _) with (length rest) by (unfold OFF_PATH; lia). apply take_app_length.
Qed.

(** A Unix domain address prints the path it was made from: a plain path
    as it is, an abstract one (first byte zero) with the zero byte written as
    backslash 0, and its length counts exactly the path; a path that does not
    fit is refused with an exception. *)
Theorem unix_paths path :
  ((0 < length (bytes_of path) <= 107)%nat -> Forall (fun b => b <> Byte.x00) (bytes_of path) ->
     exists a, new_UnixAddress path = Ret a /\ wf a /\ toString a = Ret path /\
       getAddrLen a = Z.of_nat (length (bytes_of path)) + 3) /\
  (forall rest, bytes_of path = Byte.x00 :: rest -> (length rest <= 107)%nat ->
     exists a, new_UnixAddress path = Ret a /\ wf a /\ toString a = Ret ("\0" +:+ string_of rest) /\
       getAddrLen a = Z.of_nat (length rest) + 3) /\
  ((108 < length (bytes_of path))%nat -> Z.of_nat (length (bytes_of path)) < 2 ^ 31 ->
     new_UnixAddress path = Throw "path too long").
Proof.
  split_and!.
  - intros H1 H2. by apply unix_plain.
  - intros rest H1 H2. by apply unix_abstract.
  - intros H1 H2. unfold new_UnixAddress. rewrite (wrap_id 32 (_ + 1)) by (split; lia).
    destruct (bytes_of path) as [|[] rest]; cbn [length] in *; rewrite ?(wrap_id 32) by (split; lia);
      by rewrite (proj2 (Z.ltb_lt _ _)) by (unfold SUN_PATH; lia).
Qed.

Lemma unix_paths_witness : exists a, new_UnixAddress "/tmp/ota.sock" = Ret a /\ toString a = Ret "/tmp/ota.sock".
Proof.
  destruct (unix_paths "/tmp/ota.sock") as [H _].
  destruct H as (a & E & _ & Ht & _); [vm_compute; lia|vm_compute; repeat constructor; discriminate|].
  exists a. split; [exact E|exact Ht].
Defined.

(** * Host names *)

Lemma append_cons x a b : String x a +:+ b = String x (a +:+ b).
Proof. done. Qed.
Lemma append_nil_l b : "" +:+ b = b.
Proof. done. Qed.

Lemma find_char_app c a b : find_char c a = None -> find_char c (a +:+ String c b) = Some (String.length a).
Proof.
  induction a as [|x a IH]; rewrite ?append_cons, ?append_nil_l; cbn [find_char String.length].
  - by rewrite Ascii.eqb_refl.
  - destruct (Ascii.eqb x c); [done|]. destruct (find_char c a); [done|]. intros _. by rewrite IH.
Qed.
Lemma sdrop_app a b : sdrop (String.length a) (a +:+ b) = b.
Proof. induction a as [|x a IH]; [by destruct b|exact IH]. Qed.
Lemma sdrop_S_app a c b : sdrop (S (String.length a)) (a +:+ String c b) = b.
Proof. induction a as [|x a IH]; [by destruct b|exact IH]. Qed.
Lemma stake_app a b : stake (String.length a) (a +:+ b) = a.
Proof. induction a as [|x a IH]; [by destruct b|]. rewrite append_cons. cbn [String.length stake]. by rewrite IH. Qed.

Lemma no_brackets host : String.get 0 host <> Some "["%char -> host_brackets host = ("", None).
Proof. destruct host as [|c host]; [done|]. simpl. intros H. destruct c as [[] [] [] [] [] [] [] []]; try done. Qed.

Lemma eqb_empty s : s <> "" -> (s =? "")%string = false.
Proof. by destruct s. Qed.

(** How [Lookup] splits its argument into node and service: one colon
    separates them; an address in brackets is the node, with the service
    behind the colon that follows if there is one; a name without a colon is
    the node alone. A bare IPv6 address (two colons or more, no brackets) is
    the node, but its text from the first colon on is passed as the service. *)
Theorem host_splitting node service :
  node <> "" ->
  (find_char ":"%char node = None -> find_char ":"%char service = None -> String.get 0 node <> Some "["%char ->
     split_host (node +:+ String ":" service) = (node, Some service) /\ split_host node = (node, None)) /\
  (find_char "]"%char node = None ->
     split_host (String "[" (node +:+ String "]" (String ":" service))) = (node, Some service) /\
     split_host (String "[" (node +:+ "]")) = (node, None)) /\
  (find_char ":"%char node = None -> String.get 0 node <> Some "["%char -> find_char ":"%char service <> None ->
     split_host (node +:+ String ":" service) = (node +:+ String ":" service, Some (String ":" service))).
Proof.
  intros Hn. assert (forall t, String.get 0 node <> Some "["%char -> host_brackets (node +:+ t) = ("", None)) as Hb.
  { intros t H. apply no_brackets. by destruct node. }
  split_and!.
  - intros H1 H2 H3. unfold split_host. rewrite (Hb _ H3), (no_brackets node H3).
    simpl ("" =? "")%string. unfold host_colon. rewrite find_char_app by done. rewrite sdrop_S_app, H2, stake_app, H1.
    by rewrite eqb_empty.
  - intros H1. unfold split_host, host_brackets. rewrite !find_char_app by done. rewrite !sdrop_S_app, !stake_app.
    by rewrite !eqb_empty.
  - intros H1 H2 H3. unfold split_host. rewrite (Hb _ H2). simpl ("" =? "")%string. unfold host_colon.
    rewrite find_char_app by done. rewrite sdrop_S_app, sdrop_app. by destruct (find_char ":"%char service).
Qed.

Lemma host_splitting_witness : split_host "ota.example:8080" = ("ota.example", Some "8080") /\
  split_host "[::1]:80" = ("::1", Some "80") /\ split_host "fe80::1" = ("fe80::1", Some "::1").
Proof.
  destruct (host_splitting "ota.example" "8080" ltac:(discriminate)) as (H1 & _ & _).
  destruct (host_splitting "::1" "80" ltac:(discriminate)) as (_ & H2 & _).
  destruct (host_splitting "fe80" ":1" ltac:(discriminate)) as (_ & _ & H3).
  split; [apply H1; (reflexivity || discriminate)|]. split; [apply H2; reflexivity|apply H3; (reflexivity || discriminate)].
Defined.

(** An interface without an address, which [getifaddrs] may report. *)
Lemma interface_without_address family name nm result :
  interface_step family (mkIfa name None nm) result = Crash NullDeref.
Proof. done. Qed.
