(* ===== verification/ByteArray.v ===== *)
(** [sherry/bytearray.h], [sherry/bytearray.cc]: the chained byte buffer.

    The chain [m_root -> next -> ...] is the list [m_nodes] of the memory
    blocks (a block's [size] is its length); the pointer [m_cur] is an index
    into it, and the index one past the last block is the null pointer.  What
    [new char[n]] holds before it is written is the parameter [alloc]: byte
    [o] of the [k]-th block of the chain.  Sizes are [nat]; the one place
    where a [size_t] subtraction can wrap is written out in [Z]. *)

From stdpp Require Import base list numbers strings.
From coqutil Require Import Byte Word.LittleEndianList.
From S2P Require Import Prelude MachineInt.
From Stdlib Require Import ZArith Lia.

Record ByteArray : Type := mkByteArray {
  m_baseSize : nat;
  m_position : nat;
  m_capacity : nat;
  m_size : nat;
  m_endian : endianness;
  m_nodes : list (list byte);
  m_cur : nat
}.

Definition set_pos (v : nat) (ba : ByteArray) : ByteArray :=
  mkByteArray (m_baseSize ba) v (m_capacity ba) (m_size ba) (m_endian ba) (m_nodes ba) (m_cur ba).
Definition set_size (v : nat) (ba : ByteArray) : ByteArray :=
  mkByteArray (m_baseSize ba) (m_position ba) (m_capacity ba) v (m_endian ba) (m_nodes ba) (m_cur ba).
Definition set_cur (v : nat) (ba : ByteArray) : ByteArray :=
  mkByteArray (m_baseSize ba) (m_position ba) (m_capacity ba) (m_size ba) (m_endian ba) (m_nodes ba) v.
Definition set_nodes (v : list (list byte)) (ba : ByteArray) : ByteArray :=
  mkByteArray (m_baseSize ba) (m_position ba) (m_capacity ba) (m_size ba) (m_endian ba) v (m_cur ba).

Definition getReadSize (ba : ByteArray) : nat := m_size ba - m_position ba.
Definition getCapacity (ba : ByteArray) : nat := m_capacity ba - m_position ba.

Definition isLittleEndian (ba : ByteArray) : bool :=
  bool_decide (m_endian ba = SYLAR_LITTLE_ENDIAN).

Definition setIsLittleEndian (val : bool) (ba : ByteArray) : ByteArray :=
  mkByteArray (m_baseSize ba) (m_position ba) (m_capacity ba) (m_size ba)
    (if val then SYLAR_LITTLE_ENDIAN else SYLAR_BIG_ENDIAN) (m_nodes ba) (m_cur ba).

(** The block at [m_cur], or a null dereference. *)
Definition deref (c : nat) : prog ByteArray (list byte) :=
  fun ba => of_option NullDeref (m_nodes ba !! c) ba.

(** [memcpy(node + off, src, |src|)], checked against the block's size. *)
Definition store (c off : nat) (src : list byte) : prog ByteArray unit :=
  node ← deref c;
  if off + length src <=? length node
  then modify (fun ba => set_nodes (<[c := blit off src node]> (m_nodes ba)) ba)
  else crash OutOfRange.

Section ops.
Variable alloc : nat -> nat -> byte.

(** [new Node(s)] for the [k]-th block of the chain. *)
Definition new_Node (k s : nat) : list byte := alloc k <$> seq 0 s.

Definition new_ByteArray (base_size : nat) : ByteArray :=
  mkByteArray base_size 0 base_size 0 SYLAR_BIG_ENDIAN [new_Node 0 base_size] 0.

(** [ceil(1.0 * size / m_baseSize)]: the double is exact for the sizes a
    process can allocate (below [2^53]). *)
Definition node_count (size base : nat) : nat := (size + base - 1) / base.

Definition addCapacity (size : nat) (ba : ByteArray) : ByteArray :=
  if size =? 0 then ba else
  let old_cap := getCapacity ba in
  if size <=? old_cap then ba else
  let count := node_count (size - old_cap) (m_baseSize ba) in
  let n := length (m_nodes ba) in
  let fresh := (fun k => new_Node k (m_baseSize ba)) <$> seq n count in
  mkByteArray (m_baseSize ba) (m_position ba)
    (m_capacity ba + count * m_baseSize ba) (m_size ba) (m_endian ba)
    (m_nodes ba ++ fresh)
    (if old_cap =? 0 then n else m_cur ba).

(** The [while(size > 0)] loop of [write]; [rest] is [buf + bpos], [size] its
    length.  Every turn consumes a byte, so [|buf|] turns are enough. *)
Fixpoint write_loop (fuel : nat) (rest : list byte) (npos ncap : nat) : prog ByteArray unit :=
  match rest with
  | [] => mret tt
  | _ :: _ =>
    match fuel with
    | O => crash NoFuel
    | S fuel' =>
      ba ← gets id;
      node ← deref (m_cur ba);
      let size := length rest in
      if size <=? ncap then
        store (m_cur ba) npos rest;;
        modify (fun ba' => if length node =? npos + size then set_cur (S (m_cur ba')) ba' else ba');;
        modify (fun ba' => set_pos (m_position ba' + size) ba');;
        write_loop fuel' [] npos ncap
      else
        store (m_cur ba) npos (take ncap rest);;
        modify (fun ba' => set_pos (m_position ba' + ncap) ba');;
        modify (fun ba' => set_cur (S (m_cur ba')) ba');;
        next ← deref (S (m_cur ba));
        write_loop fuel' (drop ncap rest) 0 (length next)
    end
  end.

Definition write (buf : list byte) : prog ByteArray unit :=
  if length buf =? 0 then mret tt else
  modify (addCapacity (length buf));;
  ba ← gets id;
  node ← deref (m_cur ba);
  let npos := m_position ba mod m_baseSize ba in
  let ncap := length node - npos in
  write_loop (length buf) buf npos ncap;;
  modify (fun ba' => if m_size ba' <? m_position ba' then set_size (m_position ba') ba' else ba').

(** The copying loop shared by the two [read]s: from block [cur], [size]
    bytes; gives the bytes and the block the loop stops at. *)
Fixpoint read_loop (fuel : nat) (nodes : list (list byte)) (cur size npos ncap : nat)
    : outcome (list byte * nat) :=
  match size with
  | O => Ret ([], cur)
  | S _ =>
    match fuel with
    | O => Crash NoFuel
    | S fuel' =>
      match nodes !! cur with
      | None => Crash NullDeref
      | Some node =>
        if size <=? ncap then
          if npos + size <=? length node then
            Ret (slice npos size node, if length node =? npos + size then S cur else cur)
          else Crash OutOfRange
        else
          if npos + ncap <=? length node then
            match nodes !! S cur with
            | None => Crash NullDeref
            | Some next =>
              match read_loop fuel' nodes (S cur) (size - ncap) 0 (length next) with
              | Ret (bs, c) => Ret (slice npos ncap node ++ bs, c)
              | r => r
              end
            end
          else Crash OutOfRange
      end
    end
  end.

(** [read(void* buf, size_t size)]: moves the position. *)
Definition read (size : nat) : prog ByteArray (list byte) :=
  ba ← gets id;
  if getReadSize ba <? size then throw "not enough len" else
  node ← deref (m_cur ba);
  let npos := m_position ba mod m_baseSize ba in
  let ncap := length node - npos in
  match read_loop size (m_nodes ba) (m_cur ba) size npos ncap with
  | Ret (bs, c) =>
      modify (fun ba' => set_cur c (set_pos (m_position ba' + size) ba'));;
      mret bs
  | Throw e => throw e
  | Crash f => crash f
  end.

(** [read(void* buf, size_t size, size_t position) const]: the check is a
    [size_t] subtraction that wraps, and the walk starts at [m_cur]. *)
Definition read_at (size position : nat) (ba : ByteArray) : outcome (list byte) :=
  if (wrap 64 (Z.of_nat (m_size ba) - Z.of_nat position) <? Z.of_nat size)%Z
  then Throw "not enough len" else
  match m_nodes ba !! m_cur ba with
  | None => Crash NullDeref
  | Some node =>
    let npos := position mod m_baseSize ba in
    let ncap := length node - npos in
    match read_loop size (m_nodes ba) (m_cur ba) size npos ncap with
    | Ret (bs, _) => Ret bs
    | Throw e => Throw e
    | Crash f => Crash f
    end
  end.

(** The walk of [setPosition]: [while(v > m_cur->size)], then the step past a
    block that is exactly full. *)
Fixpoint seek_loop (nodes : list (list byte)) (cur v : nat) : outcome nat :=
  match nodes with
  | [] => Crash NullDeref
  | node :: rest =>
    if length node <? v then seek_loop rest (S cur) (v - length node)
    else Ret (if v =? length node then S cur else cur)
  end.

Definition setPosition (v : nat) : prog ByteArray unit :=
  ba ← gets id;
  if m_capacity ba <? v then throw "set_position out of range" else
  modify (set_pos v);;
  modify (fun ba' => if m_size ba' <? m_position ba' then set_size (m_position ba') ba' else ba');;
  match seek_loop (m_nodes ba) 0 v with
  | Ret c => modify (set_cur c)
  | Throw e => throw e
  | Crash f => crash f
  end.

Definition clear (ba : ByteArray) : ByteArray :=
  mkByteArray (m_baseSize ba) 0 (m_baseSize ba) 0 (m_endian ba) (take 1 (m_nodes ba)) 0.

(** [toString]: the unread bytes, position unchanged. *)
Definition toString (ba : ByteArray) : outcome (list byte) :=
  if getReadSize ba =? 0 then Ret [] else read_at (getReadSize ba) (m_position ba) ba.

(** [toHexString]: two digits and a space for each byte, a line break before
    every 32nd. *)
Definition hex_digit (d : Z) : byte := byte.of_Z (if (d <? 10)%Z then 48 + d else 87 + d).
Definition hex_byte (i : nat) (b : byte) : list byte :=
  (if (0 <? i) && (i mod 32 =? 0) then [Byte.x0a] else []) ++
  [hex_digit (Z.shiftr (byte.unsigned b) 4); hex_digit (Z.land (byte.unsigned b) 15); Byte.x20].
Definition toHexString (ba : ByteArray) : outcome (list byte) :=
  match toString ba with
  | Ret str => Ret (concat (imap hex_byte str))
  | r => r
  end.

(** ** Scatter/gather views: an [iovec] is (block, offset, length) *)

Record iovec : Type := mkIovec { iov_node : nat; iov_off : nat; iov_len : nat }.

(** The loop of the three buffer calls. *)
Fixpoint iov_loop (fuel : nat) (nodes : list (list byte)) (cur len npos ncap : nat)
    : outcome (list iovec) :=
  match len with
  | O => Ret []
  | S _ =>
    match fuel with
    | O => Crash NoFuel
    | S fuel' =>
      match nodes !! cur with
      | None => Crash NullDeref
      | Some _ =>
        if len <=? ncap then Ret [mkIovec cur npos len]
        else match nodes !! S cur with
             | None => Crash NullDeref
             | Some next =>
               match iov_loop fuel' nodes (S cur) (len - ncap) 0 (length next) with
               | Ret l => Ret (mkIovec cur npos ncap :: l)
               | r => r
               end
             end
      end
    end
  end.

Definition iov_from (ba : ByteArray) (cur len npos : nat) : outcome (list iovec * nat) :=
  match m_nodes ba !! cur with
  | None => Crash NullDeref
  | Some node =>
    match iov_loop len (m_nodes ba) cur len npos (length node - npos) with
    | Ret l => Ret (l, len)
    | Throw e => Throw e
    | Crash f => Crash f
    end
  end.

(** [getReadBuffers(buffers, len)]: at most [len] unread bytes, and how many. *)
Definition getReadBuffers (len : nat) (ba : ByteArray) : outcome (list iovec * nat) :=
  let len := if getReadSize ba <? len then getReadSize ba else len in
  if len =? 0 then Ret ([], 0) else
  iov_from ba (m_cur ba) len (m_position ba mod m_baseSize ba).

(** [getReadBuffers(buffers, len, position)]: starts at [position], but is
    still bounded by the bytes left after [m_position]. *)
Definition getReadBuffers_at (len position : nat) (ba : ByteArray) : outcome (list iovec * nat) :=
  let len := if getReadSize ba <? len then getReadSize ba else len in
  if len =? 0 then Ret ([], 0) else
  iov_from ba (position / m_baseSize ba) len (position mod m_baseSize ba).

Definition getWriteBuffers (len : nat) : prog ByteArray (list iovec * nat) :=
  if len =? 0 then mret ([], 0) else
  modify (addCapacity len);;
  ba ← gets id;
  match iov_from ba (m_cur ba) len (m_position ba mod m_baseSize ba) with
  | Ret r => mret r
  | Throw e => throw e
  | Crash f => crash f
  end.

(** The bytes an [iovec] list denotes. *)
Definition iov_bytes (nodes : list (list byte)) (v : iovec) : list byte :=
  match nodes !! iov_node v with
  | Some node => slice (iov_off v) (iov_len v) node
  | None => []
  end.
Definition gather (nodes : list (list byte)) (l : list iovec) : list byte :=
  concat (iov_bytes nodes <$> l).

(** ** Files

    [writeToFile] once the file is open: the bytes put into it.  [len] is
    computed in [size_t] and stored in an [int64_t], as the source does. *)
Fixpoint file_loop (fuel : nat) (ba : ByteArray) (read_size pos : Z) (cur : nat)
    : outcome (list byte) :=
  if (read_size <=? 0)%Z then Ret [] else
  match fuel with
  | O => Crash NoFuel
  | S fuel' =>
    let base := Z.of_nat (m_baseSize ba) in
    let diff := sint 32 (pos mod base) in
    let len := sint 64 (wrap 64 ((if (base <? read_size)%Z then base else read_size) - diff)) in
    match m_nodes ba !! cur with
    | None => Crash NullDeref
    | Some node =>
      if ((0 <=? diff) && (0 <=? len) && (diff + len <=? Z.of_nat (length node)))%Z then
        match file_loop fuel' ba (read_size - len) (pos + len) (S cur) with
        | Ret bs => Ret (slice (Z.to_nat diff) (Z.to_nat len) node ++ bs)
        | r => r
        end
      else Crash OutOfRange
    end
  end.

Definition writeToFile (opened : bool) (ba : ByteArray) : outcome (bool * list byte) :=
  if negb opened then Ret (false, []) else
  match file_loop (S (length (m_nodes ba))) ba
          (Z.of_nat (getReadSize ba)) (Z.of_nat (m_position ba)) (m_cur ba) with
  | Ret bs => Ret (true, bs)
  | Throw e => Throw e
  | Crash f => Crash f
  end.

(** [while(!ifs.eof())]: a read that finds fewer than [m_baseSize] bytes sets
    the end-of-file flag. *)
Fixpoint readFromFile_loop (fuel : nat) (content : list byte) : prog ByteArray unit :=
  match fuel with
  | O => crash NoFuel
  | S fuel' =>
    ba ← gets id;
    let chunk := take (m_baseSize ba) content in
    write chunk;;
    if length chunk <? m_baseSize ba then mret tt
    else readFromFile_loop fuel' (drop (m_baseSize ba) content)
  end.

Definition readFromFile (file : option (list byte)) : prog ByteArray bool :=
  match file with
  | None => mret false
  | Some content => readFromFile_loop (S (length content)) content;; mret true
  end.

End ops.

(** * The invariant and the abstract view *)

Record wf (ba : ByteArray) : Prop := mkWf {
  wf_base : 0 < m_baseSize ba;
  wf_nodes : m_nodes ba <> [];
  wf_blocks : blocks_of (m_baseSize ba) (m_nodes ba);
  wf_capacity : m_capacity ba = length (m_nodes ba) * m_baseSize ba;
  wf_position : m_position ba <= m_size ba;
  wf_size : m_size ba <= m_capacity ba;
  wf_cur : m_cur ba = m_position ba / m_baseSize ba
}.

(** The bytes of the buffer, read or not. *)
Definition contents (ba : ByteArray) : list byte := take (m_size ba) (concat (m_nodes ba)).

(** What stays fixed while data moves. *)
Definition same_frame (ba ba' : ByteArray) : Prop :=
  m_baseSize ba' = m_baseSize ba /\ m_endian ba' = m_endian ba.

Lemma same_frame_refl ba : same_frame ba ba.
Proof. done. Qed.
Lemma same_frame_trans a b c : same_frame a b -> same_frame b c -> same_frame a c.
Proof. unfold same_frame. intuition congruence. Qed.
#[export] Hint Resolve same_frame_refl : sherry.

Lemma wf_length ba : wf ba -> length (concat (m_nodes ba)) = m_capacity ba.
Proof. intros []. by rewrite (length_concat_blocks (m_baseSize ba)). Qed.

Lemma length_contents ba : wf ba -> length (contents ba) = m_size ba.
Proof.
  intros H. unfold contents. rewrite length_take, (wf_length _ H).
  destruct H. lia.
Qed.

(** Positions inside the capacity are inside a block. *)
Lemma wf_div ba n : wf ba -> n < m_capacity ba -> n / m_baseSize ba < length (m_nodes ba).
Proof.
  intros [] Hn. apply Nat.Div0.div_lt_upper_bound. lia.
Qed.

Lemma wf_lookup ba c : wf ba -> c < length (m_nodes ba) ->
  exists node, m_nodes ba !! c = Some node /\ length node = m_baseSize ba.
Proof.
  intros [] Hc. destruct (lookup_lt_is_Some_2 _ _ Hc) as [node Hnode].
  exists node. split; [done|]. by eapply blocks_of_lookup.
Qed.

Lemma wf_cur_node ba : wf ba -> m_position ba < m_capacity ba ->
  exists node, m_nodes ba !! m_cur ba = Some node /\ length node = m_baseSize ba.
Proof.
  intros H Hp. apply (wf_lookup _ _ H). rewrite (wf_cur _ H). by apply wf_div.
Qed.

Lemma pos_split ba : wf ba ->
  m_position ba = m_cur ba * m_baseSize ba + m_position ba mod m_baseSize ba.
Proof.
  intros []. rewrite wf_cur0, Nat.mul_comm. apply Nat.div_mod_eq.
Qed.

Lemma div_add_block q b o : 0 < b -> o < b -> (q * b + o) / b = q.
Proof. intros. rewrite Nat.div_add_l, Nat.div_small by lia. lia. Qed.

Lemma div_next_block q b : 0 < b -> (q * b + b) / b = S q.
Proof.
  intros. replace (q * b + b) with (S q * b + 0) by lia. apply div_add_block; lia.
Qed.

(** ** Growing *)

Lemma node_count_enough size base : 0 < base -> size <= node_count size base * base.
Proof.
  intros Hb. unfold node_count.
  pose proof (Nat.div_mod_eq (size + base - 1) base).
  pose proof (Nat.mod_upper_bound (size + base - 1) base). nia.
Qed.

(** No block is allocated that the request does not need. *)
Lemma node_count_least size base k : 0 < base ->
  size <= k * base -> node_count size base <= k.
Proof.
  intros Hb Hk. unfold node_count. apply Nat.lt_succ_r.
  apply Nat.Div0.div_lt_upper_bound. nia.
Qed.

Lemma blocks_of_fresh alloc b ks :
  blocks_of b ((fun k => new_Node alloc k b) <$> ks).
Proof.
  apply Forall_fmap, Forall_true. intros k. unfold new_Node. simpl.
  by rewrite length_fmap, length_seq.
Qed.

Lemma addCapacity_spec alloc n ba : wf ba ->
  let ba' := addCapacity alloc n ba in
  wf ba' /\ contents ba' = contents ba /\ m_position ba' = m_position ba /\
  m_size ba' = m_size ba /\ same_frame ba ba' /\ m_position ba + n <= m_capacity ba' /\
  m_capacity ba <= m_capacity ba'.
Proof.
  intros H. unfold addCapacity, getCapacity.
  pose proof (wf_length _ H) as Hlen. destruct H.
  destruct (Nat.eqb_spec n 0) as [->|Hn]; [repeat split; auto; lia|].
  destruct (Nat.leb_spec n (m_capacity ba - m_position ba)) as [Hle|Hgt];
    [repeat split; auto; lia|].
  simpl. pose proof (node_count_enough (n - (m_capacity ba - m_position ba)) _ wf_base0).
  repeat split; simpl; auto; try lia.
  - by destruct (m_nodes ba).
  - apply Forall_app. split; [done | apply blocks_of_fresh].
  - rewrite length_app, length_fmap, length_seq. lia.
  - destruct (Nat.eqb_spec (m_capacity ba - m_position ba) 0); [|done].
    replace (m_position ba) with (length (m_nodes ba) * m_baseSize ba) by lia.
    by rewrite Nat.div_mul by lia.
  - unfold contents. simpl. rewrite concat_app, take_app_le by lia. done.
Qed.

(** ** Writing *)

Lemma deref_spec c ba node : m_nodes ba !! c = Some node -> deref c ba = (Ret node, ba).
Proof. intros H. unfold deref. by rewrite H. Qed.

Lemma store_spec c off src ba node : m_nodes ba !! c = Some node ->
  off + length src <= length node ->
  store c off src ba = (Ret tt, set_nodes (<[c := blit off src node]> (m_nodes ba)) ba).
Proof.
  intros Hc Hoff. unfold store. run (deref_spec c ba node Hc).
  by rewrite (proj2 (Nat.leb_le _ _) Hoff).
Qed.

Lemma write_loop_nil fuel npos ncap ba : write_loop fuel [] npos ncap ba = (Ret tt, ba).
Proof. by destruct fuel. Qed.

(** The last turn of the loop. *)
Lemma write_loop_last fuel rest npos ba node :
  rest <> [] -> m_nodes ba !! m_cur ba = Some node -> npos + length rest <= length node ->
  write_loop (S fuel) rest npos (length node - npos) ba =
    (Ret tt, mkByteArray (m_baseSize ba) (m_position ba + length rest) (m_capacity ba)
               (m_size ba) (m_endian ba) (<[m_cur ba := blit npos rest node]> (m_nodes ba))
               (if length node =? npos + length rest then S (m_cur ba) else m_cur ba)).
Proof.
  intros Hne Hnode Hfit. destruct rest as [|b rest0]; [done|].
  cbn [write_loop]. run_pure. unfold id. run (deref_spec _ _ _ Hnode).
  rewrite (proj2 (Nat.leb_le _ _)) by lia.
  run (store_spec (m_cur ba) npos (b :: rest0) ba node Hnode Hfit). run_pure.
  rewrite write_loop_nil. by destruct (_ =? _).
Qed.

(** A turn that fills the block. *)
Lemma write_loop_next fuel rest npos ba node next :
  m_nodes ba !! m_cur ba = Some node -> m_nodes ba !! S (m_cur ba) = Some next ->
  npos <= length node -> length node < npos + length rest ->
  write_loop (S fuel) rest npos (length node - npos) ba =
    write_loop fuel (drop (length node - npos) rest) 0 (length next)
      (mkByteArray (m_baseSize ba) (m_position ba + (length node - npos)) (m_capacity ba)
         (m_size ba) (m_endian ba)
         (<[m_cur ba := blit npos (take (length node - npos) rest) node]> (m_nodes ba))
         (S (m_cur ba))).
Proof.
  intros Hnode Hnext Hn Hgt. destruct rest as [|b rest0]; [simpl in Hgt; lia|].
  cbn [write_loop]. run_pure. unfold id. run (deref_spec _ _ _ Hnode).
  rewrite (proj2 (Nat.leb_gt _ _)) by lia.
  run (store_spec (m_cur ba) npos (take (length node - npos) (b :: rest0)) ba node Hnode
         ltac:(rewrite length_take; lia)).
  run_pure. set (ba2 := set_cur _ _).
  assert (m_nodes ba2 !! S (m_cur ba) = Some next) as Hnext2
    by (simpl; rewrite list_lookup_insert_ne by lia; done).
  by run (deref_spec _ _ _ Hnext2).
Qed.

(** The loop copies [rest] at the position and stops at the block that holds
    the new position. *)
Lemma write_loop_spec fuel rest npos ba :
  blocks_of (m_baseSize ba) (m_nodes ba) ->
  m_position ba = m_cur ba * m_baseSize ba + npos -> npos < m_baseSize ba ->
  rest <> [] -> length rest <= fuel ->
  m_position ba + length rest <= length (m_nodes ba) * m_baseSize ba ->
  exists nodes',
    write_loop fuel rest npos (m_baseSize ba - npos) ba =
      (Ret tt, mkByteArray (m_baseSize ba) (m_position ba + length rest) (m_capacity ba)
                 (m_size ba) (m_endian ba) nodes'
                 ((m_position ba + length rest) / m_baseSize ba)) /\
    concat nodes' = blit (m_position ba) rest (concat (m_nodes ba)) /\
    blocks_of (m_baseSize ba) nodes' /\ length nodes' = length (m_nodes ba).
Proof.
  revert rest npos ba. induction fuel as [|fuel IH]; intros rest npos ba Hbl Hpos Hnpos Hne Hfuel Hfit.
  { destruct rest; [done | simpl in Hfuel; lia]. }
  assert (0 < length rest) by (destruct rest; [done|simpl; lia]).
  assert (m_cur ba < length (m_nodes ba)) as Hcur by nia.
  destruct (lookup_lt_is_Some_2 _ _ Hcur) as [node Hnode].
  pose proof (blocks_of_lookup _ _ _ _ Hbl Hnode) as Hlen.
  destruct (Nat.leb_spec (npos + length rest) (m_baseSize ba)) as [Hle|Hgt].
  - exists (<[m_cur ba := blit npos rest node]> (m_nodes ba)). split_and!.
    + rewrite <- Hlen at 1. rewrite write_loop_last by (done || lia). do 2 f_equal.
      rewrite Hlen, Hpos, <- Nat.add_assoc. destruct (Nat.eqb_spec (m_baseSize ba) (npos + length rest)) as [<-|].
      * symmetry. apply div_next_block. lia.
      * symmetry. apply div_add_block; lia.
    + rewrite (blit_concat (m_baseSize ba)) by (done || lia). by rewrite Hpos.
    + apply blocks_of_insert; done || lia.
    + apply length_insert.
  - set (k := m_baseSize ba - npos).
    assert (length (take k rest) = k) as Hk by (rewrite length_take; lia).
    assert (S (m_cur ba) < length (m_nodes ba)) as Hcur' by nia.
    destruct (lookup_lt_is_Some_2 _ _ Hcur') as [next Hnext].
    pose proof (blocks_of_lookup _ _ _ _ Hbl Hnext) as Hlen'.
    pose proof (write_loop_next fuel rest npos ba node next Hnode Hnext) as Hstep.
    rewrite Hlen', Hlen in Hstep. fold k in Hstep. rewrite Hstep by lia. clear Hstep.
    set (ba2 := mkByteArray _ _ _ _ _ _ _).
    destruct (IH (drop k rest) 0 ba2) as (nodes' & Hrun & Hcat & Hb' & Hl');
      simpl; rewrite ?length_drop, ?length_insert; try (unfold k in *; lia).
    { apply blocks_of_insert; [done|done|unfold k in *; lia]. }
    { intros E. apply (f_equal length) in E. rewrite length_drop in E. simpl in E. lia. }
    simpl in *. rewrite Nat.sub_0_r in Hrun. rewrite Hrun. exists nodes'. split_and!; [| |done|].
    + do 2 f_equal; rewrite length_drop; [lia | f_equal; lia].
    + rewrite Hcat, (blit_concat (m_baseSize ba)) by (done || lia).
      rewrite <- Hpos. rewrite <- Hk at 1. rewrite blit_blit; [by rewrite take_drop|].
      rewrite (length_concat_blocks _ _ Hbl). lia.
    + rewrite Hl'. apply length_insert.
Qed.

Lemma write_nil alloc ba : write alloc [] ba = (Ret tt, ba).
Proof. done. Qed.

(** [write] always succeeds; it overwrites at the position, growing the data
    when it runs past the end, and moves the position behind what it wrote. *)
Lemma write_spec alloc buf ba : wf ba ->
  exists ba', write alloc buf ba = (Ret tt, ba') /\ wf ba' /\ same_frame ba ba' /\
    contents ba' = blit (m_position ba) buf (contents ba) /\
    m_position ba' = m_position ba + length buf.
Proof.
  intros H. destruct (decide (buf = [])) as [->|Hne].
  { exists ba. rewrite write_nil, blit_nil. split_and!; auto with sherry. }
  assert (0 < length buf) by (destruct buf; [done|simpl; lia]).
  unfold write. rewrite (proj2 (Nat.eqb_neq _ _)) by lia.
  destruct (addCapacity_spec alloc (length buf) ba H) as (H1 & Hc1 & Hp1 & Hs1 & [Hb1 He1] & Hcap & _).
  unfold modify at 1. erewrite bind_ret by reflexivity. cbv beta.
  set (ba1 := addCapacity alloc (length buf) ba) in *. run_pure. unfold id.
  destruct (wf_cur_node ba1 H1) as (node & Hnode & Hlen); [lia|].
  run (deref_spec _ _ _ Hnode). rewrite Hlen.
  destruct (write_loop_spec (length buf) buf (m_position ba1 mod m_baseSize ba1) ba1)
    as (nodes' & Hrun & Hcat & Hbl & Hl); auto using wf_blocks, pos_split.
  { apply Nat.mod_upper_bound. pose proof (wf_base _ H1). lia. }
  { rewrite <- (wf_capacity _ H1). lia. }
  run Hrun. unfold modify. simpl. eexists. split; [reflexivity|].
  pose proof (wf_length _ H1) as Hlen1. destruct H1.
  assert (m_size ba1 `max` (m_position ba1 + length buf) =
    (if m_size ba1 <? m_position ba1 + length buf then m_position ba1 + length buf else m_size ba1)) as Hmax
    by (destruct (Nat.ltb_spec (m_size ba1) (m_position ba1 + length buf)); lia).
  pose proof (take_blit (m_position ba1) (m_size ba1) buf (concat (m_nodes ba1))) as Htake.
  rewrite Hmax, <- Hcat in Htake. rewrite Hp1 in *.
  destruct (Nat.ltb_spec (m_size ba1) (m_position ba + length buf)); simpl;
    (split_and!; [split; simpl; try lia; try done | done | | done]).
  all: try (by intros ->; destruct (m_nodes ba1)).
  all: rewrite <- Hc1; apply Htake; lia.
Qed.

(** ** Reading *)

Lemma read_loop_spec b fuel nodes cur size npos :
  blocks_of b nodes -> npos < b -> size <= fuel -> 0 < size ->
  cur * b + npos + size <= length nodes * b ->
  read_loop fuel nodes cur size npos (b - npos) =
    Ret (slice (cur * b + npos) size (concat nodes), (cur * b + npos + size) / b).
Proof.
  intros Hbl. revert cur size npos.
  induction fuel as [|fuel IH]; intros cur size npos Hn Hf Hs Hfit; [lia|].
  assert (cur < length nodes) as Hcur by nia.
  destruct (lookup_lt_is_Some_2 _ _ Hcur) as [node Hnode].
  pose proof (blocks_of_lookup _ _ _ _ Hbl Hnode) as Hlen.
  destruct size as [|size']; [lia|]. cbn [read_loop]. rewrite Hnode, Hlen.
  set (size := S size') in *.
  destruct (Nat.leb_spec size (b - npos)) as [Hle|Hgt].
  - rewrite (proj2 (Nat.leb_le _ _)) by lia. rewrite (slice_concat b _ _ node) by (done || lia).
    do 2 f_equal. rewrite <- Nat.add_assoc. destruct (Nat.eqb_spec b (npos + size)) as [E|E].
    + rewrite <- E. symmetry. apply div_next_block. lia.
    + symmetry. apply div_add_block; lia.
  - rewrite (proj2 (Nat.leb_le _ _)) by lia.
    assert (S cur < length nodes) as Hcur' by nia.
    destruct (lookup_lt_is_Some_2 _ _ Hcur') as [next Hnext].
    rewrite Hnext, (blocks_of_lookup _ _ _ _ Hbl Hnext).
    pose proof (IH (S cur) (size - (b - npos)) 0) as Hrec. rewrite Nat.sub_0_r in Hrec.
    rewrite Hrec by lia.
    assert (slice (cur * b + npos) size (concat nodes) =
      slice npos (b - npos) node ++ slice (S cur * b + 0) (size - (b - npos)) (concat nodes)) as ->.
    { rewrite <- (slice_concat b nodes cur node) by (done || lia).
      replace (S cur * b + 0) with (cur * b + npos + (b - npos)) by lia.
      rewrite <- slice_split. f_equal. lia. }
    do 3 f_equal. lia.
Qed.

Lemma slice_contents ba off n : wf ba -> off + n <= m_size ba ->
  slice off n (concat (m_nodes ba)) = slice off n (contents ba).
Proof. intros H Hn. unfold contents. by rewrite slice_take. Qed.

(** The walk that starts at the current block reads the unread bytes. *)
Lemma read_walk_spec ba n : wf ba -> 0 < n -> n <= getReadSize ba ->
  read_loop n (m_nodes ba) (m_cur ba) n (m_position ba mod m_baseSize ba)
    (m_baseSize ba - m_position ba mod m_baseSize ba) =
  Ret (slice (m_position ba) n (contents ba), (m_position ba + n) / m_baseSize ba).
Proof.
  intros H Hn Hle. unfold getReadSize in Hle. pose proof (pos_split _ H) as Hp.
  rewrite read_loop_spec; try lia; try apply H.
  - rewrite <- Hp, (slice_contents _ _ _ H) by lia. done.
  - apply Nat.mod_upper_bound. pose proof (wf_base _ H). lia.
  - rewrite <- Hp, <- (wf_capacity _ H). pose proof (wf_size _ H). lia.
Qed.

Definition moved (ba : ByteArray) (n : nat) : ByteArray :=
  set_cur ((m_position ba + n) / m_baseSize ba) (set_pos (m_position ba + n) ba).

Lemma wf_moved ba n : wf ba -> n <= getReadSize ba -> wf (moved ba n).
Proof.
  unfold getReadSize. intros [] Hn. split; simpl; auto; lia.
Qed.

Lemma read_ok ba n : wf ba -> n <= getReadSize ba -> m_position ba < m_capacity ba ->
  read n ba = (Ret (slice (m_position ba) n (contents ba)), moved ba n).
Proof.
  intros H Hle Hcap. unfold read. run_pure. unfold id.
  rewrite (proj2 (Nat.ltb_ge _ _)) by done.
  destruct (wf_cur_node ba H Hcap) as (node & Hnode & Hlen).
  run (deref_spec _ _ _ Hnode). rewrite Hlen.
  destruct (decide (n = 0)) as [->|Hn].
  - destruct (_ - _) eqn:?; simpl; run_pure; unfold moved; by rewrite Nat.add_0_r, <- (wf_cur _ H).
  - rewrite read_walk_spec by (done || lia). done.
Qed.

Lemma read_short ba n : getReadSize ba < n -> read n ba = (Throw "not enough len", ba).
Proof.
  intros Hn. unfold read. run_pure. unfold id. by rewrite (proj2 (Nat.ltb_lt _ _) Hn).
Qed.

Lemma read_null ba : wf ba -> m_position ba = m_capacity ba -> read 0 ba = (Crash NullDeref, ba).
Proof.
  intros H Hp. unfold read. run_pure. unfold id. simpl.
  unfold mbind, prog_bind, deref. rewrite lookup_ge_None_2; [done|].
  destruct H. rewrite wf_cur0, Hp, wf_capacity0, Nat.div_mul by lia. lia.
Qed.

(** ** Moving, rewinding, resetting *)

Lemma seek_loop_spec b nodes cur v : 0 < b -> blocks_of b nodes -> nodes <> [] ->
  v <= length nodes * b -> seek_loop nodes cur v = Ret (cur + v / b).
Proof.
  intros Hb H. revert cur v. induction H as [|l ls Hl Hls IH]; intros cur v Hne Hv; [done|].
  simpl. rewrite Hl. destruct (Nat.ltb_spec b v) as [Hlt|Hge].
  - destruct (decide (ls = [])) as [->|]; [simpl in Hv; lia|].
    rewrite IH by (simpl in Hv; lia || done). f_equal.
    replace v with (1 * b + (v - b)) at 2 by lia. rewrite Nat.div_add_l by lia. lia.
  - f_equal. destruct (Nat.eqb_spec v b) as [->|].
    + rewrite Nat.div_same by lia. lia.
    + rewrite Nat.div_small by lia. lia.
Qed.

Lemma setPosition_ok ba v : wf ba -> v <= m_size ba ->
  setPosition v ba = (Ret tt, set_cur (v / m_baseSize ba) (set_pos v ba)).
Proof.
  intros H Hv. unfold setPosition. run_pure. unfold id.
  pose proof (wf_size _ H). rewrite (proj2 (Nat.ltb_ge _ _)) by lia. run_pure. simpl.
  rewrite (proj2 (Nat.ltb_ge _ _)) by done.
  rewrite (seek_loop_spec (m_baseSize ba)); try apply H; [done|].
  rewrite <- (wf_capacity _ H). lia.
Qed.

Lemma wf_setPosition ba v : wf ba -> v <= m_size ba ->
  wf (set_cur (v / m_baseSize ba) (set_pos v ba)).
Proof. intros [] Hv. by split. Qed.

(** Beyond the data but inside the capacity: the data is extended by whatever
    the blocks hold there. *)
Lemma setPosition_extend ba v : wf ba -> m_size ba < v -> v <= m_capacity ba ->
  exists ba', setPosition v ba = (Ret tt, ba') /\ wf ba' /\ same_frame ba ba' /\
    m_position ba' = v /\ m_size ba' = v /\ take (m_size ba) (contents ba') = contents ba.
Proof.
  intros H Hv Hc. unfold setPosition. run_pure. unfold id.
  rewrite (proj2 (Nat.ltb_ge _ _)) by done. run_pure. simpl.
  rewrite (proj2 (Nat.ltb_lt _ _)) by done.
  rewrite (seek_loop_spec (m_baseSize ba)); try apply H.
  2: { rewrite <- (wf_capacity _ H). lia. }
  eexists. split; [reflexivity|]. split; [|split_and!; try done].
  - destruct H. by split.
  - unfold contents. simpl. rewrite take_take. f_equal. lia.
Qed.

Lemma setPosition_out_of_range ba v : m_capacity ba < v ->
  setPosition v ba = (Throw "set_position out of range", ba).
Proof.
  intros Hv. unfold setPosition. run_pure. unfold id. by rewrite (proj2 (Nat.ltb_lt _ _) Hv).
Qed.

Lemma wf_new alloc base : 0 < base -> wf (new_ByteArray alloc base).
Proof.
  intros Hb. split; simpl; try done; try lia.
  - repeat constructor. unfold new_Node. by rewrite length_fmap, length_seq.
  - by rewrite Nat.Div0.div_0_l.
Qed.

Lemma clear_spec ba : wf ba ->
  wf (clear ba) /\ contents (clear ba) = [] /\ m_position (clear ba) = 0 /\ same_frame ba (clear ba).
Proof.
  intros []. split_and!; try done. split; simpl; try done; try lia.
  - by destruct (m_nodes ba).
  - by apply Forall_take.
  - rewrite length_take. destruct (m_nodes ba); simpl in *; [done|lia].
  - by rewrite Nat.Div0.div_0_l.
Qed.

(** ** Reading at a given place *)

Lemma read_at_position ba n : wf ba -> 0 < n -> n <= getReadSize ba ->
  (Z.of_nat (m_size ba) < 2 ^ 64)%Z ->
  read_at n (m_position ba) ba = Ret (slice (m_position ba) n (contents ba)).
Proof.
  intros H Hn Hle H64. unfold read_at. pose proof (wf_position _ H) as Hp.
  unfold getReadSize in Hle. rewrite wrap_id by (split; lia).
  rewrite (proj2 (Z.ltb_ge _ _)) by lia.
  destruct (wf_cur_node ba H) as (node & Hnode & Hlen); [pose proof (wf_size _ H); lia|].
  rewrite Hnode, Hlen, read_walk_spec by (done || lia || unfold getReadSize; lia). done.
Qed.

Lemma toString_spec ba : wf ba -> (Z.of_nat (m_size ba) < 2 ^ 64)%Z ->
  toString ba = Ret (drop (m_position ba) (contents ba)).
Proof.
  intros H H64. unfold toString. destruct (Nat.eqb_spec (getReadSize ba) 0) as [E|E].
  - rewrite drop_ge; [done|]. rewrite (length_contents _ H). unfold getReadSize in E. lia.
  - rewrite read_at_position by (done || lia). f_equal. unfold slice. apply take_ge.
    by rewrite length_drop, (length_contents _ H).
Qed.

(** ** Buffers *)

Lemma gather_cons nodes v l : gather nodes (v :: l) = iov_bytes nodes v ++ gather nodes l.
Proof. done. Qed.

Lemma iov_loop_spec b fuel nodes cur len npos :
  blocks_of b nodes -> npos < b -> len <= fuel ->
  cur * b + npos + len <= length nodes * b ->
  exists l, iov_loop fuel nodes cur len npos (b - npos) = Ret l /\
    (forall nodes', blocks_of b nodes' -> length nodes' = length nodes ->
       gather nodes' l = slice (cur * b + npos) len (concat nodes')) /\
    sum_list (iov_len <$> l) = len.
Proof.
  intros Hbl. revert cur len npos.
  induction fuel as [|fuel IH]; intros cur len npos Hn Hf Hfit.
  { assert (len = 0) as -> by lia. by exists []. }
  destruct len as [|len']; [by exists []|]. cbn [iov_loop]. set (len := S len') in *.
  assert (cur < length nodes) as Hcur by nia.
  destruct (lookup_lt_is_Some_2 _ _ Hcur) as [node Hnode]. rewrite Hnode.
  destruct (Nat.leb_spec len (b - npos)) as [Hle|Hgt].
  - exists [mkIovec cur npos len]. split_and!; [done| |simpl; lia].
    intros nodes' Hbl' Hl'. destruct (lookup_lt_is_Some_2 nodes' cur) as [nd Hnd]; [lia|].
    unfold gather, iov_bytes. simpl. rewrite Hnd, app_nil_r.
    symmetry. apply slice_concat; done || lia.
  - assert (S cur < length nodes) as Hcur' by nia.
    destruct (lookup_lt_is_Some_2 _ _ Hcur') as [next Hnext].
    rewrite Hnext, (blocks_of_lookup _ _ _ _ Hbl Hnext).
    destruct (IH (S cur) (len - (b - npos)) 0) as (l & Hl & Hg & Hsum); try lia.
    rewrite Nat.sub_0_r in Hl. rewrite Hl. eexists. split_and!;
      [done| |rewrite fmap_cons; cbn; rewrite Hsum; lia].
    intros nodes' Hbl' Hl'. destruct (lookup_lt_is_Some_2 nodes' cur) as [nd Hnd]; [lia|].
    rewrite gather_cons, (Hg nodes' Hbl' Hl'). unfold iov_bytes.
    cbn [iov_node iov_off iov_len]. rewrite Hnd.
    rewrite <- (slice_concat b nodes' cur nd) by (done || lia).
    replace (S cur * b + 0) with (cur * b + npos + (b - npos)) by lia.
    rewrite <- slice_split. f_equal. unfold len. lia.
Qed.

Lemma iov_from_spec ba len : wf ba -> 0 < len -> m_position ba + len <= m_capacity ba ->
  exists l, iov_from ba (m_cur ba) len (m_position ba mod m_baseSize ba) = Ret (l, len) /\
    (forall nodes', blocks_of (m_baseSize ba) nodes' -> length nodes' = length (m_nodes ba) ->
       gather nodes' l = slice (m_position ba) len (concat nodes')) /\
    sum_list (iov_len <$> l) = len.
Proof.
  intros H Hlen Hcap. unfold iov_from.
  destruct (wf_cur_node ba H) as (node & Hnode & Hl); [lia|]. rewrite Hnode, Hl.
  pose proof (pos_split _ H) as Hp.
  destruct (iov_loop_spec (m_baseSize ba) len (m_nodes ba) (m_cur ba) len
              (m_position ba mod m_baseSize ba)) as (l & -> & Hg & Hsum); try done.
  - apply H.
  - apply Nat.mod_upper_bound. pose proof (wf_base _ H). lia.
  - rewrite <- Hp, <- (wf_capacity _ H). lia.
  - exists l. rewrite <- Hp in Hg. done.
Qed.
