(* ===== verification/ByteArrayCodec.v ===== *)
(** [sherry/bytearray.cc]: the typed operations on top of [write] and [read]
    (fixed-width and variable-length integers, floats, strings), the codec
    interface they implement, and the theorems about the whole component. *)

From stdpp Require Import base list numbers strings.
From coqutil Require Import Byte Word.LittleEndianList.
From S2P Require Import Prelude MachineInt ByteArray.
From Stdlib Require Import ZArith Lia.

Section typed.
Variable alloc : nat -> nat -> byte.

(** ** Fixed-width integers

    [if(m_endian != SYLAR_BYTE_ORDER) value = byteswap(value)], then the
    object's bytes; reading is the macro [XX]. *)

Definition writeFixed_signed (n : nat) (value : Z) : prog ByteArray unit :=
  ba ← gets id;
  write alloc (repr n (if decide (m_endian ba = SYLAR_BYTE_ORDER) then value
                       else byteswap_signed n value)).

Definition writeFixed_unsigned (n : nat) (value : Z) : prog ByteArray unit :=
  ba ← gets id;
  write alloc (repr n (if decide (m_endian ba = SYLAR_BYTE_ORDER) then value
                       else byteswap_unsigned n value)).

(** [if(m_endian == SYLAR_BYTE_ORDER) return v; else return byteswap(v);] *)
Definition decode_signed (n : nat) (e : endianness) (bs : list byte) : Z :=
  if decide (e = SYLAR_BYTE_ORDER) then sint_of n bs else byteswap_signed n (sint_of n bs).
Definition decode_unsigned (n : nat) (e : endianness) (bs : list byte) : Z :=
  if decide (e = SYLAR_BYTE_ORDER) then uint_of bs else byteswap_unsigned n (uint_of bs).

Definition readFixed_signed (n : nat) : prog ByteArray Z :=
  bs ← read n; ba ← gets id; mret (decode_signed n (m_endian ba) bs).
Definition readFixed_unsigned (n : nat) : prog ByteArray Z :=
  bs ← read n; ba ← gets id; mret (decode_unsigned n (m_endian ba) bs).

Definition writeFint8 (value : Z) : prog ByteArray unit := write alloc (repr 1 value).
Definition writeFuint8 (value : Z) : prog ByteArray unit := write alloc (repr 1 value).
Definition writeFint16 := writeFixed_signed 2.
Definition writeFuint16 := writeFixed_unsigned 2.
Definition writeFint32 := writeFixed_signed 4.
Definition writeFuint32 := writeFixed_unsigned 4.
Definition writeFint64 := writeFixed_signed 8.
Definition writeFuint64 := writeFixed_unsigned 8.

Definition readFint8 : prog ByteArray Z := bs ← read 1; mret (sint_of 1 bs).
Definition readFuint8 : prog ByteArray Z := bs ← read 1; mret (uint_of bs).
Definition readFint16 := readFixed_signed 2.
Definition readFuint16 := readFixed_unsigned 2.
Definition readFint32 := readFixed_signed 4.
Definition readFuint32 := readFixed_unsigned 4.
Definition readFint64 := readFixed_signed 8.
Definition readFuint64 := readFixed_unsigned 8.

(** ** Zigzag and variable-length integers

    Signed arithmetic is the wrapping arithmetic the project is compiled to;
    [zigzag_overflows] says where C++ leaves it undefined. *)

Definition EncodeZigzag (w v : Z) : Z :=
  if (v <? 0)%Z then wrap w (wrap w (sint w (- v)) * 2 - 1) else wrap w (sint w (v * 2)).
Definition EncodeZigzag32 := EncodeZigzag 32.
Definition EncodeZigzag64 := EncodeZigzag 64.

Definition DecodeZigzag (w v : Z) : Z :=
  sint w (Z.lxor (Z.shiftr v 1) (wrap w (- Z.land v 1))).
Definition DecodeZigzag32 := DecodeZigzag 32.
Definition DecodeZigzag64 := DecodeZigzag 64.

Definition zigzag_overflows (w v : Z) : bool :=
  if (v <? 0)%Z then bool_decide (~ in_sint w (- v)) else bool_decide (~ in_sint w (v * 2)).

(** The bytes put into [tmp], which has room for [room] of them. *)
Fixpoint varint_tmp (room : nat) (value : Z) : outcome (list byte) :=
  match room with
  | O => Crash OutOfRange
  | S room' =>
    if (0x80 <=? value)%Z then
      match varint_tmp room' (Z.shiftr value 7) with
      | Ret t => Ret (byte.of_Z (Z.lor (Z.land value 0x7F) 0x80) :: t)
      | r => r
      end
    else Ret [byte.of_Z value]
  end.

Definition write_tmp (t : outcome (list byte)) : prog ByteArray unit :=
  match t with
  | Ret bs => write alloc bs
  | Throw e => throw e
  | Crash f => crash f
  end.

Definition writeUint32 (value : Z) : prog ByteArray unit := write_tmp (varint_tmp 5 value).
Definition writeUint64 (value : Z) : prog ByteArray unit := write_tmp (varint_tmp 10 value).
Definition writeInt32 (value : Z) : prog ByteArray unit := writeUint32 (EncodeZigzag32 value).
Definition writeInt64 (value : Z) : prog ByteArray unit := writeUint64 (EncodeZigzag64 value).

(** [for(int i = 0; i < w; i += 7)]; [w] turns are more than enough. *)
Fixpoint readVarint_loop (fuel : nat) (w i result : Z) : prog ByteArray Z :=
  match fuel with
  | O => crash NoFuel
  | S fuel' =>
    if (i <? w)%Z then
      b ← readFuint8;
      if (b <? 0x80)%Z then mret (Z.lor result (wrap w (Z.shiftl b i)))
      else readVarint_loop fuel' w (i + 7) (Z.lor result (wrap w (Z.shiftl (Z.land b 0x7f) i)))
    else mret result
  end.

Definition readUint32 : prog ByteArray Z := readVarint_loop 32 32 0 0.
Definition readUint64 : prog ByteArray Z := readVarint_loop 64 64 0 0.
Definition readInt32 : prog ByteArray Z := v ← readUint32; mret (DecodeZigzag32 v).
Definition readInt64 : prog ByteArray Z := v ← readUint64; mret (DecodeZigzag64 v).

(** ** Floats: a [float] or [double] is its bit pattern *)

Definition writeFloat (bits : Z) : prog ByteArray unit := writeFuint32 bits.
Definition writeDouble (bits : Z) : prog ByteArray unit := writeFuint64 bits.
Definition readFloat : prog ByteArray Z := readFuint32.
Definition readDouble : prog ByteArray Z := readFuint64.

(** ** Strings: a length prefix, then the bytes

    [value.size()] is converted to the prefix's width. *)

Definition writeStringF16 (value : list byte) : prog ByteArray unit :=
  writeFuint16 (wrap 16 (Z.of_nat (length value)));; write alloc value.
Definition writeStringF32 (value : list byte) : prog ByteArray unit :=
  writeFuint32 (wrap 32 (Z.of_nat (length value)));; write alloc value.
Definition writeStringF64 (value : list byte) : prog ByteArray unit :=
  writeFuint64 (Z.of_nat (length value));; write alloc value.
Definition writeStringVint (value : list byte) : prog ByteArray unit :=
  writeUint64 (Z.of_nat (length value));; write alloc value.
Definition writeStringWithoutLength (value : list byte) : prog ByteArray unit :=
  write alloc value.

(** [buff.resize(len); read(&buff[0], len)]; the length is compared before it
    becomes a [nat], so that a huge prefix is only ever a number. *)
Definition readString_of (len : Z) : prog ByteArray (list byte) :=
  ba ← gets id;
  if (Z.of_nat (getReadSize ba) <? len)%Z then throw "not enough len"
  else read (Z.to_nat len).

Definition readStringF16 : prog ByteArray (list byte) := len ← readFuint16; readString_of len.
Definition readStringF32 : prog ByteArray (list byte) := len ← readFuint32; readString_of len.
Definition readStringF64 : prog ByteArray (list byte) := len ← readFuint64; readString_of len.
Definition readStringVint : prog ByteArray (list byte) := len ← readUint64; readString_of len.

(** * The codec interface *)

(** The bytes not read yet. *)
Definition unread (ba : ByteArray) : list byte := drop (m_position ba) (contents ba).

(** [w] overwrites at the position with [enc], which may depend on the byte
    order; [r] reads back [a] where [enc] lies unread. *)
Definition emits (w : prog ByteArray unit) (enc : endianness -> list byte) : Prop :=
  forall ba, wf ba -> exists ba', w ba = (Ret tt, ba') /\ wf ba' /\ same_frame ba ba' /\
    contents ba' = blit (m_position ba) (enc (m_endian ba)) (contents ba) /\
    m_position ba' = m_position ba + length (enc (m_endian ba)).

Definition consumes {A} (r : prog ByteArray A) (enc : endianness -> list byte) (a : A) : Prop :=
  forall ba rest, wf ba -> unread ba = enc (m_endian ba) ++ rest ->
    exists ba', r ba = (Ret a, ba') /\ wf ba' /\ same_frame ba ba' /\
      contents ba' = contents ba /\ unread ba' = rest /\
      m_position ba' = m_position ba + length (enc (m_endian ba)).

Record codec (A : Type) : Type := mkCodec {
  put : A -> prog ByteArray unit;
  get : prog ByteArray A;
  valid : A -> Prop;
  encoding : A -> endianness -> list byte;
  put_emits : forall a, valid a -> emits (put a) (encoding a);
  get_consumes : forall a, valid a -> consumes get (encoding a) a
}.

Lemma length_unread ba : wf ba -> length (unread ba) = getReadSize ba.
Proof. intros H. unfold unread. by rewrite length_drop, (length_contents _ H). Qed.

Lemma emits_write bs : emits (write alloc bs) (fun _ => bs).
Proof. intros ba H. exact (write_spec alloc bs ba H). Qed.

Lemma emits_seq w1 w2 e1 e2 :
  emits w1 e1 -> emits w2 e2 -> emits (w1;; w2) (fun e => e1 e ++ e2 e).
Proof.
  intros H1 H2 ba H.
  destruct (H1 ba H) as (ba1 & R1 & W1 & F1 & C1 & P1).
  destruct (H2 ba1 W1) as (ba2 & R2 & W2 & F2 & C2 & P2).
  exists ba2. run R1. pose proof F1 as [_ He]. rewrite He in *.
  split_and!; [done|done|by eapply same_frame_trans| |cbv beta; rewrite P2, P1, length_app; lia].
  rewrite C2, P1, C1. apply blit_blit. rewrite (length_contents _ H). apply (wf_position _ H).
Qed.

Lemma read_consumes bs : bs <> [] -> consumes (read (length bs)) (fun _ => bs) bs.
Proof.
  intros Hne ba rest H Hu. assert (0 < length bs) by (destruct bs; [done|simpl; lia]).
  assert (length bs <= getReadSize ba) as Hle
    by (rewrite <- (length_unread _ H), Hu, length_app; lia).
  exists (moved ba (length bs)). split_and!; try done.
  - rewrite (read_ok ba (length bs) H Hle) by (unfold getReadSize in Hle; pose proof (wf_size _ H); lia).
    unfold slice. fold (unread ba). by rewrite Hu, take_app_length.
  - by apply wf_moved.
  - unfold unread in *. simpl. change (contents (moved ba (length bs))) with (contents ba).
    by rewrite <- drop_drop, Hu, drop_app_length.
Qed.

Lemma consumes_ext {A} (r : prog ByteArray A) e e' a :
  (forall x, e x = e' x) -> consumes r e a -> consumes r e' a.
Proof.
  intros He H ba rest Hw Hu. destruct (H ba rest Hw) as (ba' & ?); [by rewrite He|].
  exists ba'. rewrite <- He. naive_solver.
Qed.

Lemma consumes_bind {A B} (r : prog ByteArray A) (k : A -> prog ByteArray B) e1 e2 a b :
  consumes r e1 a -> consumes (k a) e2 b -> consumes (r ≫= k) (fun e => e1 e ++ e2 e) b.
Proof.
  intros H1 H2 ba rest H Hu. rewrite <- app_assoc in Hu.
  destruct (H1 ba _ H Hu) as (ba1 & R1 & W1 & F1 & C1 & U1 & P1).
  pose proof F1 as [_ He]. rewrite <- He in U1.
  destruct (H2 ba1 rest W1 U1) as (ba2 & R2 & W2 & F2 & C2 & U2 & P2).
  exists ba2. run R1. split_and!; try done; [by eapply same_frame_trans|congruence|].
  rewrite P2, P1, He, length_app. lia.
Qed.

Lemma consumes_map {A B} (r : prog ByteArray A) e a (f : ByteArray -> A -> B) b :
  consumes r e a -> (forall ba, f ba a = b) ->
  consumes (x ← r; ba ← gets id; mret (f ba x)) e b.
Proof.
  intros H1 Hf ba rest H Hu. destruct (H1 ba rest H Hu) as (ba1 & R1 & Hrest).
  exists ba1. run R1. run_pure. unfold id. by rewrite Hf.
Qed.

Lemma consumes_fmap {A B} (r : prog ByteArray A) e a (f : A -> B) :
  consumes r e a -> consumes (x ← r; mret (f x)) e (f a).
Proof.
  intros H1 ba rest H Hu. destruct (H1 ba rest H Hu) as (ba1 & R1 & Hrest).
  exists ba1. by run R1.
Qed.
(** ** Fixed-width codecs *)

Definition fixed_encoding (n : nat) (v : Z) (e : endianness) : list byte :=
  if decide (e = SYLAR_BYTE_ORDER) then repr n v else rev (repr n v).

Lemma length_fixed_encoding n v e : length (fixed_encoding n v e) = n.
Proof. unfold fixed_encoding. case_decide; rewrite ?length_rev; apply length_repr. Qed.

Lemma fixed_encoding_cons n v e : 0 < n -> fixed_encoding n v e <> [].
Proof.
  intros Hn E. apply (f_equal length) in E. rewrite length_fixed_encoding in E. simpl in E. lia.
Qed.

Lemma emits_signed n v : 0 < n -> emits (writeFixed_signed n v) (fixed_encoding n v).
Proof.
  intros Hn ba H. unfold writeFixed_signed. run_pure. unfold id.
  destruct (write_spec alloc (fixed_encoding n v (m_endian ba)) ba H) as (ba' & Hrun & Hr).
  exists ba'. split; [|done]. rewrite <- Hrun. unfold fixed_encoding. case_decide; [done|].
  by rewrite repr_byteswap_signed.
Qed.

Lemma emits_unsigned n v : emits (writeFixed_unsigned n v) (fixed_encoding n v).
Proof.
  intros ba H. unfold writeFixed_unsigned. run_pure. unfold id.
  destruct (write_spec alloc (fixed_encoding n v (m_endian ba)) ba H) as (ba' & Hrun & Hr).
  exists ba'. split; [|done]. rewrite <- Hrun. unfold fixed_encoding. case_decide; [done|].
  unfold byteswap_unsigned. by rewrite repr_bswap.
Qed.

(** Reading back an object of [n] bytes, decoded by [f] in the byte order of
    the buffer. *)
Lemma consumes_fixed n v (f : endianness -> list byte -> Z) : 0 < n ->
  (forall e, f e (fixed_encoding n v e) = v) ->
  consumes (bs ← read n; ba ← gets id; mret (f (m_endian ba) bs)) (fixed_encoding n v) v.
Proof.
  intros Hn Hf ba rest H Hu.
  destruct (read_consumes (fixed_encoding n v (m_endian ba)) (fixed_encoding_cons _ _ _ Hn) ba rest H Hu)
    as (ba1 & R1 & W1 & F1 & Hr).
  rewrite length_fixed_encoding in R1. exists ba1. run R1. run_pure. unfold id.
  destruct F1 as [Fb Fe]. rewrite Fe, Hf. done.
Qed.

Lemma consumes_signed n v : 0 < n -> in_sint (8 * Z.of_nat n) v ->
  consumes (readFixed_signed n) (fixed_encoding n v) v.
Proof.
  intros Hn Hv. apply (consumes_fixed n v (decode_signed n)); [done|].
  intros e. unfold fixed_encoding, decode_signed. case_decide; [by apply sint_of_repr|].
  unfold byteswap_signed, sint_of, bswap. fold (repr n (sint (8 * Z.of_nat n) (le_combine (rev (repr n v))))).
  rewrite repr_sint by done. unfold repr at 1.
  rewrite (split_le_combine' (rev (repr n v)) n) by (rewrite length_rev; apply length_repr).
  rewrite rev_involutive. by apply sint_of_repr.
Qed.

Lemma consumes_unsigned n v : 0 < n -> in_uint (8 * Z.of_nat n) v ->
  consumes (readFixed_unsigned n) (fixed_encoding n v) v.
Proof.
  intros Hn Hv. apply (consumes_fixed n v (decode_unsigned n)); [done|].
  intros e. unfold fixed_encoding, decode_unsigned. case_decide; [by rewrite uint_of_repr, wrap_id|].
  unfold byteswap_unsigned, bswap, uint_of.
  rewrite (split_le_combine' (rev (repr n v)) n) by (rewrite length_rev; apply length_repr).
  rewrite rev_involutive. fold (uint_of (repr n v)). by rewrite uint_of_repr, wrap_id.
Qed.

Lemma consumes_uint8 (b : byte) : consumes readFuint8 (fun _ => [b]) (byte.unsigned b).
Proof.
  unfold readFuint8. rewrite <- (le_combine_1 b).
  apply (consumes_fmap (read 1) (fun _ => [b]) [b] uint_of). by apply (read_consumes [b]).
Qed.

Lemma consumes_sint8 v : in_sint 8 v -> consumes readFint8 (fun _ => repr 1 v) v.
Proof.
  intros Hv. pose proof (sint_of_repr 1 v ltac:(lia) Hv) as E.
  pose proof (consumes_fmap (read 1) (fun _ => repr 1 v) (repr 1 v) (sint_of 1)) as Hc.
  rewrite E in Hc. apply Hc. apply (read_consumes (repr 1 v)). done.
Qed.

Definition signed_codec (n : nat) (Hn : 0 < n) : codec Z :=
  mkCodec Z (writeFixed_signed n) (readFixed_signed n) (in_sint (8 * Z.of_nat n))
    (fixed_encoding n) (fun v _ => emits_signed n v Hn) (fun v Hv => consumes_signed n v Hn Hv).
Definition unsigned_codec (n : nat) (Hn : 0 < n) : codec Z :=
  mkCodec Z (writeFixed_unsigned n) (readFixed_unsigned n) (in_uint (8 * Z.of_nat n))
    (fixed_encoding n) (fun v _ => emits_unsigned n v) (fun v Hv => consumes_unsigned n v Hn Hv).

(** ** Variable-length codecs *)

Lemma lor_groups v i : (0 <= i)%Z ->
  Z.lor (Z.shiftl (Z.land v 127) i) (Z.shiftl (Z.shiftr v 7) (i + 7)) = Z.shiftl v i.
Proof.
  intros Hi. rewrite (Z.add_comm i 7), <- Z.shiftl_shiftl, <- Z.shiftl_lor by lia. f_equal.
  change 127%Z with (Z.ones 7). apply Z.bits_inj'. intros k Hk.
  rewrite Z.lor_spec, Z.land_spec. destruct (Z.lt_ge_cases k 7).
  - rewrite Z.ones_spec_low, Z.shiftl_spec_low by lia. by rewrite andb_true_r, orb_false_r.
  - rewrite Z.ones_spec_high, Z.shiftl_spec_high, Z.shiftr_spec by lia.
    rewrite andb_false_r. simpl. f_equal. lia.
Qed.

Lemma group_byte v : (0 <= v)%Z ->
  byte.unsigned (byte.of_Z (Z.lor (Z.land v 0x7F) 0x80)) = (Z.land v 0x7F + 0x80)%Z.
Proof.
  intros Hv. rewrite byte.unsigned_of_Z. unfold byte.wrap.
  assert (Z.lor (Z.land v 127) 128 = Z.land v 127 + 128)%Z as ->.
  { rewrite <- Z.lxor_lor, <- Z.add_nocarry_lxor; [done| |];
    apply Z.bits_inj'; intros k Hk; rewrite !Z.land_spec, Z.bits_0;
    change 127%Z with (Z.ones 7); change 128%Z with (2 ^ 7)%Z; rewrite Z.pow2_bits_eqb by lia;
    destruct (Z.eqb_spec 7 k) as [<-|]; rewrite ?andb_false_r; try done;
    rewrite Z.ones_spec_high by lia; by rewrite andb_false_r. }
  change 127%Z with (Z.ones 7). rewrite Z.land_ones by lia.
  pose proof (Z.mod_pos_bound v (2 ^ 7) ltac:(lia)). apply Z.mod_small. lia.
Qed.

Lemma group_payload v : Z.land (Z.land v 0x7F + 0x80) 0x7f = Z.land v 0x7F.
Proof.
  change 127%Z with (Z.ones 7). rewrite !Z.land_ones by lia.
  change 128%Z with (1 * 2 ^ 7)%Z. rewrite Z.mod_add by lia. by rewrite Z.mod_mod by lia.
Qed.

Lemma wrap_shiftl w i x : (0 <= i < w)%Z -> (0 <= x < 2 ^ (w - i))%Z ->
  wrap w (Z.shiftl x i) = Z.shiftl x i.
Proof.
  intros Hi Hx. apply wrap_id. rewrite Z.shiftl_mul_pow2 by lia. split; [nia|].
  replace w with ((w - i) + i)%Z at 1 by lia. rewrite Z.pow_add_r by lia.
  pose proof (pow2_pos i). nia.
Qed.

Lemma land_127_range v : (0 <= Z.land v 127 < 128)%Z.
Proof. change 127%Z with (Z.ones 7). rewrite Z.land_ones by lia. apply Z.mod_pos_bound. lia. Qed.

(** One turn of the reading loop: a byte with the continuation bit ... *)
Lemma consumes_group fuel w i r v bs a : (0 <= v)%Z -> (0 <= i)%Z -> (7 < w - i)%Z ->
  consumes (readVarint_loop fuel w (i + 7) (Z.lor r (Z.shiftl (Z.land v 127) i))) (fun _ => bs) a ->
  consumes (readVarint_loop (S fuel) w i r)
    (fun _ => byte.of_Z (Z.lor (Z.land v 0x7F) 0x80) :: bs) a.
Proof.
  intros Hv Hi Hw Hnext. cbn [readVarint_loop]. rewrite (proj2 (Z.ltb_lt _ _)) by lia.
  apply (consumes_bind _ _ (fun _ => [_]) (fun _ => bs) _ _ (consumes_uint8 _)).
  rewrite group_byte by lia. cbv beta. rewrite group_payload.
  pose proof (land_127_range v). rewrite (proj2 (Z.ltb_ge _ _)) by lia.
  rewrite wrap_shiftl; [done|lia|]. split; [lia|].
  apply Z.lt_le_trans with (2 ^ 7)%Z; [lia|]. apply Z.pow_le_mono_r; lia.
Qed.

(** ... and the last byte. *)
Lemma consumes_last_group fuel w i r v : (0 <= v < 128)%Z -> (0 <= i < w)%Z -> (v < 2 ^ (w - i))%Z ->
  consumes (readVarint_loop (S fuel) w i r) (fun _ => [byte.of_Z v]) (Z.lor r (Z.shiftl v i)).
Proof.
  intros Hv Hi Hvw. cbn [readVarint_loop]. rewrite (proj2 (Z.ltb_lt _ _)) by lia.
  apply (consumes_bind _ _ (fun _ => [_]) (fun _ => []) _ _ (consumes_uint8 _)). cbv beta.
  rewrite byte.unsigned_of_Z. unfold byte.wrap. rewrite Z.mod_small by lia.
  rewrite (proj2 (Z.ltb_lt _ _)) by lia. rewrite wrap_shiftl by lia.
  intros ba rest H Hu. exists ba. split_and!; auto with sherry.
Qed.

(** The bytes the encoder makes are decoded by the reading loop, whatever was
    accumulated so far. *)
Lemma varint_tmp_spec room v : 0 < room -> (0 <= v < 2 ^ (7 * Z.of_nat room))%Z ->
  exists bs, varint_tmp room v = Ret bs /\ 0 < length bs <= room /\
    forall fuel w i r, (0 <= i < w)%Z -> (v < 2 ^ (w - i))%Z -> (w - i <= Z.of_nat fuel)%Z ->
      consumes (readVarint_loop fuel w i r) (fun _ => bs) (Z.lor r (Z.shiftl v i)).
Proof.
  revert v. induction room as [|room IH]; intros v Hr Hv; [lia|]. cbn [varint_tmp].
  destruct (Z.leb_spec 0x80 v) as [Hbig|Hsmall].
  - assert (0 < room) by (destruct room; [change (2 ^ (7 * Z.of_nat 1))%Z with 128%Z in Hv; lia|lia]).
    destruct (IH (Z.shiftr v 7)) as (bs & -> & Hlen & Hcons); [done| |].
    { rewrite Z.shiftr_div_pow2 by lia. split; [apply Z.div_pos; lia|].
      apply Z.div_lt_upper_bound; [lia|]. rewrite <- Z.pow_add_r by lia.
      replace (7 + 7 * Z.of_nat room)%Z with (7 * Z.of_nat (S room))%Z by lia. lia. }
    eexists. split_and!; [done|simpl; lia|simpl; lia|]. intros [|fuel] w i r Hi Hvw Hf; [lia|].
    assert (7 < w - i)%Z.
    { destruct (Z.lt_ge_cases 7 (w - i)); [done|].
      assert (2 ^ (w - i) <= 2 ^ 7)%Z by (apply Z.pow_le_mono_r; lia). lia. }
    apply consumes_group; [lia..|].
    rewrite <- (lor_groups v i), Z.lor_assoc by lia. apply Hcons; [lia| |lia].
    rewrite Z.shiftr_div_pow2 by lia. apply Z.div_lt_upper_bound; [lia|].
    rewrite <- Z.pow_add_r by lia. by replace (7 + (w - (i + 7)))%Z with (w - i)%Z by lia.
  - eexists. split_and!; [done|simpl; lia|simpl; lia|]. intros [|fuel] w i r Hi Hvw Hf; [lia|].
    apply consumes_last_group; lia.
Qed.

Definition varint_encoding (room : nat) (v : Z) : list byte :=
  match varint_tmp room v with Ret bs => bs | _ => [] end.

Lemma varint_fits w room v : in_uint w v -> (w <= 7 * Z.of_nat room)%Z ->
  (0 <= v < 2 ^ (7 * Z.of_nat room))%Z.
Proof.
  intros [H1 H2] Hw. split; [done|]. eapply Z.lt_le_trans; [exact H2|].
  apply Z.pow_le_mono_r; lia.
Qed.

Lemma emits_varint w room v : 0 < room -> in_uint w v -> (w <= 7 * Z.of_nat room)%Z ->
  emits (write_tmp (varint_tmp room v)) (fun _ => varint_encoding room v).
Proof.
  intros Hr Hv Hw. destruct (varint_tmp_spec room v Hr (varint_fits _ _ _ Hv Hw)) as (bs & E & _).
  unfold varint_encoding. rewrite E. apply emits_write.
Qed.

Lemma consumes_varint fuel w room v : 0 < room -> (0 < w)%Z -> in_uint w v ->
  (w <= 7 * Z.of_nat room)%Z -> (w <= Z.of_nat fuel)%Z ->
  consumes (readVarint_loop fuel w 0 0) (fun _ => varint_encoding room v) v.
Proof.
  intros Hr Hw0 Hv Hw Hf.
  destruct (varint_tmp_spec room v Hr (varint_fits _ _ _ Hv Hw)) as (bs & E & _ & Hc).
  unfold varint_encoding. rewrite E. pose proof (Hc fuel w 0%Z 0%Z) as Hc0.
  rewrite Z.shiftl_0_r, Z.lor_0_l in Hc0. apply Hc0; [lia| |lia].
  rewrite Z.sub_0_r. by destruct Hv.
Qed.

Lemma EncodeZigzag_range w v : (0 < w)%Z -> in_uint w (EncodeZigzag w v).
Proof. intros Hw. unfold EncodeZigzag. destruct (_ <? _)%Z; apply wrap_range; lia. Qed.

Lemma EncodeZigzag_eq w v : (0 < w)%Z -> in_sint w v ->
  EncodeZigzag w v = (if (v <? 0)%Z then - 2 * v - 1 else 2 * v)%Z.
Proof.
  intros Hw [H1 H2]. unfold EncodeZigzag. pose proof (pow2_half w Hw). pose proof (pow2_pos w).
  assert (forall z, wrap w (sint w z) = wrap w z) as Hws.
  { intros z. unfold wrap, sint. rewrite Zminus_mod_idemp_l. f_equal. lia. }
  destruct (Z.ltb_spec v 0).
  - rewrite Hws, (wrap_id w (- v)) by (split; lia). rewrite wrap_id by (split; lia). lia.
  - rewrite Hws, wrap_id by (split; lia). lia.
Qed.

Lemma shiftr_land_1 q b : (0 <= b < 2)%Z ->
  Z.shiftr (2 * q + b) 1 = q /\ Z.land (2 * q + b) 1 = b.
Proof.
  intros Hb. rewrite Z.shiftr_div_pow2 by lia. change (2 ^ 1)%Z with 2%Z. split.
  - symmetry. apply (Z.div_unique _ 2 _ b); lia.
  - change 1%Z with (Z.ones 1). rewrite Z.land_ones by lia. change (2 ^ 1)%Z with 2%Z.
    symmetry. apply (Z.mod_unique _ 2 q); lia.
Qed.

Lemma wrap_minus_1 w : (0 < w)%Z -> wrap w (- (1)) = (2 ^ w - 1)%Z.
Proof.
  intros Hw. pose proof (pow2_pos w). unfold wrap. rewrite <- (Z.mod_add _ 1) by lia.
  rewrite Z.mod_small; lia.
Qed.

Lemma zigzag_roundtrip w v : (0 < w)%Z -> in_sint w v -> DecodeZigzag w (EncodeZigzag w v) = v.
Proof.
  intros Hw Hv. rewrite EncodeZigzag_eq by done. unfold DecodeZigzag.
  pose proof (pow2_half w Hw). pose proof (pow2_pos w). pose proof Hv as [H1 H2].
  destruct (Z.ltb_spec v 0).
  - replace (-2 * v - 1)%Z with (2 * (- v - 1) + 1)%Z by lia.
    destruct (shiftr_land_1 (- v - 1) 1) as [-> ->]; [lia|]. rewrite wrap_minus_1 by done.
    rewrite lxor_ones_sub by (lia || split; lia).
    replace (2 ^ w - 1 - (- v - 1))%Z with (v + 1 * 2 ^ w)%Z by lia.
    rewrite <- sint_wrap by lia. unfold wrap. rewrite Z.mod_add by lia. fold (wrap w v).
    rewrite sint_wrap by lia. by apply sint_id.
  - replace (2 * v)%Z with (2 * v + 0)%Z by lia.
    destruct (shiftr_land_1 v 0) as [-> ->]; [lia|].
    unfold wrap. rewrite Z.mod_0_l by lia. rewrite Z.lxor_0_r. by apply sint_id.
Qed.

(** ** Strings *)

Lemma consumes_payload bs : bs <> [] -> (Z.of_nat (length bs) < 2 ^ 64)%Z ->
  consumes (readString_of (Z.of_nat (length bs))) (fun _ => bs) bs.
Proof.
  intros Hne H64 ba rest H Hu. unfold readString_of. run_pure. unfold id.
  rewrite Nat2Z.id, (proj2 (Z.ltb_ge _ _)).
  - by apply (read_consumes bs Hne ba rest).
  - rewrite <- (length_unread _ H), Hu, length_app. lia.
Qed.

(** The general law of a length-prefixed string. *)
Lemma string_codec_laws (wlen : Z -> prog ByteArray unit) (rlen : prog ByteArray Z)
    (enc : Z -> endianness -> list byte) bs :
  let len := Z.of_nat (length bs) in
  bs <> [] -> (len < 2 ^ 64)%Z -> emits (wlen len) (enc len) -> consumes rlen (enc len) len ->
  emits (wlen len;; write alloc bs) (fun e => enc len e ++ bs) /\
  consumes (l ← rlen; readString_of l) (fun e => enc len e ++ bs) bs.
Proof.
  intros len Hne H64 He Hc. split.
  - apply emits_seq; [done | apply emits_write].
  - eapply consumes_bind; [exact Hc|]. by apply consumes_payload.
Qed.

(** * Round trips

    Write, go back to where the write began, read. *)
Definition roundtrip {A} (w : prog ByteArray unit) (r : prog ByteArray A) (a : A)
    (ba : ByteArray) : Prop :=
  exists ba', (w;; setPosition (m_position ba);; r) ba = (Ret a, ba') /\ wf ba' /\
    same_frame ba ba'.

Lemma emits_consumes_roundtrip {A} w (r : prog ByteArray A) enc a ba :
  wf ba -> emits w enc -> consumes r enc a -> roundtrip w r a ba.
Proof.
  intros H He Hc. destruct (He ba H) as (ba1 & R1 & W1 & F1 & C1 & P1).
  assert (m_position ba <= m_size ba1) by (pose proof (wf_position _ W1); lia).
  pose proof (setPosition_ok ba1 (m_position ba) W1 ltac:(done)) as R2.
  pose proof (wf_setPosition ba1 (m_position ba) W1 ltac:(done)) as W2.
  set (ba2 := set_cur _ _) in *. pose proof F1 as [Fb Fe].
  destruct (Hc ba2 (drop (m_position ba + length (enc (m_endian ba))) (contents ba)) W2) as (ba3 & R3 & W3 & F3 & _).
  { unfold unread. change (m_position ba2) with (m_position ba).
    change (contents ba2) with (contents ba1). change (m_endian ba2) with (m_endian ba1).
    rewrite Fe, C1. unfold blit. apply drop_app_length'.
    rewrite length_take, (length_contents _ H). pose proof (wf_position _ H). lia. }
  exists ba3. unfold roundtrip. split_and!; [|done|].
  - run R1. run R2. exact R3.
  - eapply same_frame_trans; [exact F1|exact F3].
Qed.

Lemma codec_roundtrip {A} (c : codec A) a ba : wf ba -> valid A c a -> roundtrip (put A c a) (get A c) a ba.
Proof.
  intros H Hv. eapply emits_consumes_roundtrip; [done|by apply put_emits|by apply get_consumes].
Qed.

End typed.
