(* ===== verification/ByteArrayProps.v ===== *)
(** What [ByteArray] promises: a refinement of a plain byte buffer with a
    cursor, round trips of every typed operation, the buffer views, and the
    file operations. *)

From stdpp Require Import base list numbers strings.
From coqutil Require Import Byte Word.LittleEndianList.
From S2P Require Import Prelude MachineInt ByteArray ByteArrayCodec.
From Stdlib Require Import ZArith Lia.

(** * The abstract buffer: bytes and a cursor *)

Record buffer : Type := mkBuffer { b_data : list byte; b_pos : nat }.

Definition abs (ba : ByteArray) : buffer := mkBuffer (contents ba) (m_position ba).

Inductive op : Type :=
| OpWrite (bs : list byte)
| OpRead (n : nat)
| OpSeek (v : nat)
| OpClear
| OpEndian (little : bool).

(** [None] where the buffer promises nothing: seeking past the data, and
    reading nothing at the very end. *)
Definition spec_op (o : op) (b : buffer) : option (outcome (list byte) * buffer) :=
  match o with
  | OpWrite bs => Some (Ret [], mkBuffer (blit (b_pos b) bs (b_data b)) (b_pos b + length bs))
  | OpRead n =>
      if length (b_data b) - b_pos b <? n then Some (Throw "not enough len", b)
      else if b_pos b <? length (b_data b)
      then Some (Ret (slice (b_pos b) n (b_data b)), mkBuffer (b_data b) (b_pos b + n))
      else None
  | OpSeek v => if v <=? length (b_data b) then Some (Ret [], mkBuffer (b_data b) v) else None
  | OpClear => Some (Ret [], mkBuffer [] 0)
  | OpEndian _ => Some (Ret [], b)
  end.

Definition impl_op (alloc : nat -> nat -> byte) (o : op) : prog ByteArray (list byte) :=
  match o with
  | OpWrite bs => write alloc bs;; mret []
  | OpRead n => read n
  | OpSeek v => setPosition v;; mret []
  | OpClear => modify clear;; mret []
  | OpEndian l => modify (setIsLittleEndian l);; mret []
  end.

Fixpoint spec_run (os : list op) (b : buffer) : option (list (outcome (list byte)) * buffer) :=
  match os with
  | [] => Some ([], b)
  | o :: os' =>
    '(r, b') ← spec_op o b;
    '(rs, b'') ← spec_run os' b';
    Some (r :: rs, b'')
  end.

Fixpoint impl_run (alloc : nat -> nat -> byte) (os : list op) (ba : ByteArray)
    : list (outcome (list byte)) * ByteArray :=
  match os with
  | [] => ([], ba)
  | o :: os' =>
    let '(r, ba') := impl_op alloc o ba in
    let '(rs, ba'') := impl_run alloc os' ba' in (r :: rs, ba'')
  end.

Lemma op_simulation alloc o ba r b' : wf ba -> spec_op o (abs ba) = Some (r, b') ->
  exists ba', impl_op alloc o ba = (r, ba') /\ wf ba' /\ abs ba' = b'.
Proof.
  intros H Hs. unfold abs in Hs. destruct o; simpl in Hs.
  - simplify_eq. destruct (write_spec alloc bs ba H) as (ba' & R & W & _ & C & P).
    exists ba'. simpl. run R. unfold abs. by rewrite C, P.
  - rewrite (length_contents _ H) in Hs. destruct (Nat.ltb_spec (m_size ba - m_position ba) n).
    + simplify_eq. exists ba. simpl. by rewrite read_short.
    + destruct (Nat.ltb_spec (m_position ba) (m_size ba)); [|done]. simplify_eq.
      exists (moved ba n). simpl. rewrite read_ok; [|done|done|pose proof (wf_size _ H); lia].
      split_and!; [done|by apply wf_moved|done].
  - destruct (Nat.leb_spec v (length (contents ba))) as [Hv|]; [|done]. simplify_eq.
    rewrite (length_contents _ H) in Hv. eexists. simpl. run (setPosition_ok ba v H Hv).
    split_and!; [done|by apply wf_setPosition|done].
  - simplify_eq. destruct (clear_spec ba H) as (W & C & P & _). exists (clear ba). simpl.
    run_pure. unfold abs. by rewrite C, P.
  - simplify_eq. eexists. simpl. run_pure. split_and!; [done| |done]. by destruct H.
Qed.

(** C1: Any sequence of writes, reads, seeks, clears and byte-order changes on
    a [ByteArray] that satisfies its invariant gives, call by call, the
    results a plain byte buffer with a cursor gives (including the exception
    of a read past the end), ends in the state that buffer ends in, and keeps
    the invariant: the chain of blocks, [m_cur] and the growth of the
    capacity are invisible. *)
Theorem bytearray_refines_buffer alloc os ba rs b' :
  wf ba -> spec_run os (abs ba) = Some (rs, b') ->
  exists ba', impl_run alloc os ba = (rs, ba') /\ wf ba' /\ abs ba' = b'.
Proof.
  revert ba rs. induction os as [|o os IH]; intros ba rs H Hs; simpl in *.
  { simplify_eq. by exists ba. }
  destruct (spec_op o (abs ba)) as [[r b1]|] eqn:E; simplify_option_eq.
  destruct (op_simulation alloc o ba r b1 H E) as (ba1 & R & W & A). rewrite R.
  destruct (spec_run os b1) as [[rs1 b2]|] eqn:E2; simplify_option_eq.
  destruct (IH ba1 rs1 W E2) as (ba2 & R2 & ?). rewrite R2. by exists ba2.
Qed.

(** A block size of two, so that every call crosses blocks. *)
Definition ops_example : list op :=
  [OpWrite [Byte.x01; Byte.x02; Byte.x03]; OpSeek 1; OpWrite [Byte.x09]; OpSeek 0; OpRead 3; OpRead 1; OpClear].

Lemma bytearray_refines_buffer_witness :
  exists ba', impl_run (fun _ _ => Byte.x00) ops_example (new_ByteArray (fun _ _ => Byte.x00) 2) =
    ([Ret []; Ret []; Ret []; Ret []; Ret [Byte.x01; Byte.x09; Byte.x03]; Throw "not enough len"; Ret []], ba')
    /\ wf ba' /\ abs ba' = mkBuffer [] 0.
Proof.
  apply (bytearray_refines_buffer (fun _ _ => Byte.x00) ops_example).
  - apply wf_new. lia.
  - vm_compute. reflexivity.
Defined.

(** [read] on every branch. A request for more than the unread bytes
    throws and changes nothing; otherwise the bytes at the position come back
    and the position moves behind them; except that at a position equal to
    the capacity, where no block is current, even an empty request
    dereferences the null [m_cur]. *)
Theorem read_branches n ba : wf ba ->
  read n ba =
    if getReadSize ba <? n then (Throw "not enough len", ba)
    else if m_position ba =? m_capacity ba then (Crash NullDeref, ba)
    else (Ret (slice (m_position ba) n (contents ba)), moved ba n).
Proof.
  intros H. destruct (Nat.ltb_spec (getReadSize ba) n) as [|Hn]; [by apply read_short|].
  destruct (Nat.eqb_spec (m_position ba) (m_capacity ba)) as [Hp|Hp].
  - assert (n = 0) as ->; [|by apply read_null].
    unfold getReadSize in Hn. pose proof (wf_size _ H). lia.
  - apply read_ok; [done|done|]. pose proof (wf_position _ H). pose proof (wf_size _ H). lia.
Qed.

Lemma read_branches_witness :
  read 1 (new_ByteArray (fun _ _ => Byte.x00) 4) =
    (Throw "not enough len", new_ByteArray (fun _ _ => Byte.x00) 4).
Proof. rewrite (read_branches 1); [reflexivity|]. apply wf_new. lia. Defined.

(** [write] grows the chain by exactly the blocks it needs: the capacity
    becomes the least multiple of the block size, not below the old capacity,
    that holds the position plus the bytes. *)
Theorem write_grows_minimally alloc (buf : list byte) ba k : wf ba ->
  m_position ba + length buf <= m_capacity (addCapacity alloc (length buf) ba) /\
  (m_capacity ba <= k * m_baseSize ba -> m_position ba + length buf <= k * m_baseSize ba ->
   m_capacity (addCapacity alloc (length buf) ba) <= k * m_baseSize ba) /\
  (m_position ba + length buf <= m_capacity ba -> addCapacity alloc (length buf) ba = ba).
Proof.
  intros H. split_and!.
  - by destruct (addCapacity_spec alloc (length buf) ba H) as (_ & _ & _ & _ & _ & ? & _).
  - intros H1 H2. unfold addCapacity, getCapacity.
    destruct (_ =? 0); [done|]. destruct (Nat.leb_spec (length buf) (m_capacity ba - m_position ba)); [done|].
    simpl. pose proof (wf_capacity _ H) as Hcap.
    pose proof (node_count_least (length buf - (m_capacity ba - m_position ba)) (m_baseSize ba)
      (k - length (m_nodes ba)) (wf_base _ H)) as Hl.
    pose proof (wf_base _ H). pose proof (wf_position _ H). pose proof (wf_size _ H).
    assert (length (m_nodes ba) <= k) by nia. specialize (Hl ltac:(nia)). nia.
  - intros H1. unfold addCapacity, getCapacity. destruct (_ =? 0); [done|].
    by rewrite (proj2 (Nat.leb_le _ _)) by lia.
Qed.

Lemma write_grows_minimally_witness :
  m_capacity (addCapacity (fun _ _ => Byte.x00) 5 (new_ByteArray (fun _ _ => Byte.x00) 4)) <= 2 * 4.
Proof.
  apply (write_grows_minimally (fun _ _ => Byte.x00) (repeat Byte.x01 5) (new_ByteArray (fun _ _ => Byte.x00) 4) 2);
    [apply wf_new; lia | simpl; lia | simpl; lia].
Defined.

(** * Round trips of the typed operations *)

Lemma uint8_roundtrip alloc v ba : wf ba -> in_uint 8 v ->
  roundtrip (writeFuint8 alloc v) readFuint8 v ba.
Proof.
  intros H Hv. apply (emits_consumes_roundtrip _ _ (fun _ => repr 1 v)); [done|apply emits_write|].
  pose proof (consumes_uint8 (byte.of_Z v)) as Hc.
  rewrite byte.unsigned_of_Z in Hc. unfold byte.wrap in Hc.
  rewrite Z.mod_small in Hc by (destruct Hv; lia). exact Hc.
Qed.

Lemma sint8_roundtrip alloc v ba : wf ba -> in_sint 8 v ->
  roundtrip (writeFint8 alloc v) readFint8 v ba.
Proof.
  intros H Hv. apply (emits_consumes_roundtrip _ _ (fun _ => repr 1 v));
    [done|apply emits_write|by apply consumes_sint8].
Qed.

Lemma signed_roundtrip alloc n v ba : 0 < n -> wf ba -> in_sint (8 * Z.of_nat n) v ->
  roundtrip (writeFixed_signed alloc n v) (readFixed_signed n) v ba.
Proof. intros Hn H Hv. exact (codec_roundtrip (signed_codec alloc n Hn) v ba H Hv). Qed.

Lemma unsigned_roundtrip alloc n v ba : 0 < n -> wf ba -> in_uint (8 * Z.of_nat n) v ->
  roundtrip (writeFixed_unsigned alloc n v) (readFixed_unsigned n) v ba.
Proof. intros Hn H Hv. exact (codec_roundtrip (unsigned_codec alloc n Hn) v ba H Hv). Qed.

(** C11: Every fixed-width write, at any position and in either byte order,
    is read back by the matching read: all eight integer widths and signs,
    and the bit patterns of [float] and [double]. *)
Theorem fixed_width_roundtrip alloc v ba : wf ba ->
  (in_sint 8 v -> roundtrip (writeFint8 alloc v) readFint8 v ba) /\
  (in_uint 8 v -> roundtrip (writeFuint8 alloc v) readFuint8 v ba) /\
  (in_sint 16 v -> roundtrip (writeFint16 alloc v) readFint16 v ba) /\
  (in_uint 16 v -> roundtrip (writeFuint16 alloc v) readFuint16 v ba) /\
  (in_sint 32 v -> roundtrip (writeFint32 alloc v) readFint32 v ba) /\
  (in_uint 32 v -> roundtrip (writeFuint32 alloc v) readFuint32 v ba) /\
  (in_sint 64 v -> roundtrip (writeFint64 alloc v) readFint64 v ba) /\
  (in_uint 64 v -> roundtrip (writeFuint64 alloc v) readFuint64 v ba) /\
  (in_uint 32 v -> roundtrip (writeFloat alloc v) readFloat v ba) /\
  (in_uint 64 v -> roundtrip (writeDouble alloc v) readDouble v ba).
Proof.
  intros H. split_and!; intros Hv.
  - by apply sint8_roundtrip.
  - by apply uint8_roundtrip.
  - exact (signed_roundtrip alloc 2 v ba ltac:(lia) H Hv).
  - exact (unsigned_roundtrip alloc 2 v ba ltac:(lia) H Hv).
  - exact (signed_roundtrip alloc 4 v ba ltac:(lia) H Hv).
  - exact (unsigned_roundtrip alloc 4 v ba ltac:(lia) H Hv).
  - exact (signed_roundtrip alloc 8 v ba ltac:(lia) H Hv).
  - exact (unsigned_roundtrip alloc 8 v ba ltac:(lia) H Hv).
  - exact (unsigned_roundtrip alloc 4 v ba ltac:(lia) H Hv).
  - exact (unsigned_roundtrip alloc 8 v ba ltac:(lia) H Hv).
Qed.

Lemma fixed_width_roundtrip_witness :
  roundtrip (writeFint32 (fun _ _ => Byte.x00) (-2)%Z) readFint32 (-2)%Z
    (new_ByteArray (fun _ _ => Byte.x00) 3).
Proof.
  destruct (fixed_width_roundtrip (fun _ _ => Byte.x00) (-2)%Z (new_ByteArray (fun _ _ => Byte.x00) 3))
    as (_ & _ & _ & _ & H & _); [apply wf_new; lia|].
  apply H. vm_compute. split; congruence.
Defined.

Lemma varint_roundtrip_gen alloc w room fuel v ba : wf ba -> 0 < room -> (0 < w)%Z -> in_uint w v ->
  (w <= 7 * Z.of_nat room)%Z -> (w <= Z.of_nat fuel)%Z ->
  roundtrip (write_tmp alloc (varint_tmp room v)) (readVarint_loop fuel w 0 0) v ba.
Proof.
  intros H Hr Hw Hv Hwr Hf.
  eapply emits_consumes_roundtrip; [done|by eapply emits_varint|by apply consumes_varint].
Qed.

Lemma zigzag_roundtrip_gen alloc w room fuel v ba : wf ba -> 0 < room -> (0 < w)%Z -> in_sint w v ->
  (w <= 7 * Z.of_nat room)%Z -> (w <= Z.of_nat fuel)%Z ->
  roundtrip (write_tmp alloc (varint_tmp room (EncodeZigzag w v)))
    (u ← readVarint_loop fuel w 0 0; mret (DecodeZigzag w u)) v ba.
Proof.
  intros H Hr Hw Hv Hwr Hf.
  eapply emits_consumes_roundtrip; [done|eapply emits_varint; [done|by apply EncodeZigzag_range|done]|].
  pose proof (consumes_fmap (readVarint_loop fuel w 0 0) (fun _ => varint_encoding room (EncodeZigzag w v))
    (EncodeZigzag w v) (DecodeZigzag w)) as Hc.
  rewrite zigzag_roundtrip in Hc by done. apply Hc.
  apply consumes_varint; auto using EncodeZigzag_range.
Qed.



Lemma string_roundtrip_gen alloc wlen rlen enc bs ba : wf ba -> bs <> [] ->
  (Z.of_nat (length bs) < 2 ^ 64)%Z ->
  emits (wlen (Z.of_nat (length bs))) (enc (Z.of_nat (length bs))) ->
  consumes rlen (enc (Z.of_nat (length bs))) (Z.of_nat (length bs)) ->
  roundtrip (wlen (Z.of_nat (length bs));; write alloc bs) (l ← rlen; readString_of l) bs ba.
Proof.
  intros H Hne H64 He Hc. destruct (string_codec_laws alloc wlen rlen enc bs) as [He' Hc']; try done.
  by eapply emits_consumes_roundtrip.
Qed.

(** Length-prefixed strings round-trip in all four prefix formats, for a
    non-empty string whose length the prefix can hold; only the 16-bit
    prefix is so narrow that this excludes strings that fit into memory. *)
Theorem string_roundtrip alloc bs ba : wf ba -> bs <> [] ->
  let len := Z.of_nat (length bs) in
  ((len < 2 ^ 16)%Z -> roundtrip (writeStringF16 alloc bs) readStringF16 bs ba) /\
  ((len < 2 ^ 32)%Z -> roundtrip (writeStringF32 alloc bs) readStringF32 bs ba) /\
  ((len < 2 ^ 64)%Z -> roundtrip (writeStringF64 alloc bs) readStringF64 bs ba) /\
  ((len < 2 ^ 64)%Z -> roundtrip (writeStringVint alloc bs) readStringVint bs ba).
Proof.
  intros H Hne len. split_and!; intros Hl.
  - unfold writeStringF16. rewrite wrap_id by (split; lia).
    apply (string_roundtrip_gen alloc _ _ (fixed_encoding 2));
      [done|done|lia|apply emits_unsigned|apply consumes_unsigned; [lia|split; lia]].
  - unfold writeStringF32. rewrite wrap_id by (split; lia).
    apply (string_roundtrip_gen alloc _ _ (fixed_encoding 4));
      [done|done|lia|apply emits_unsigned|apply consumes_unsigned; [lia|split; lia]].
  - apply (string_roundtrip_gen alloc _ _ (fixed_encoding 8));
      [done|done|lia|apply emits_unsigned|apply consumes_unsigned; [lia|split; lia]].
  - apply (string_roundtrip_gen alloc _ _ (fun v _ => varint_encoding 10 v)); [done|done|lia| |].
    + apply (emits_varint _ 64); [lia|split; lia|lia].
    + apply consumes_varint; try lia. split; lia.
Qed.

Lemma string_roundtrip_witness :
  roundtrip (writeStringVint (fun _ _ => Byte.x00) [Byte.x01; Byte.x02]) readStringVint
    [Byte.x01; Byte.x02] (new_ByteArray (fun _ _ => Byte.x00) 2).
Proof.
  apply (string_roundtrip (fun _ _ => Byte.x00) [Byte.x01; Byte.x02] (new_ByteArray (fun _ _ => Byte.x00) 2));
    [apply wf_new; lia|done|simpl; lia].
Defined.

(** * Views and files *)

(** The scatter/gather views are exact. [getReadBuffers] describes the
    first [min(len, unread)] unread bytes, in order, without moving the
    position; [getWriteBuffers] grows the chain first and then describes
    exactly the [len] cells behind the position, so that whatever is put
    there through the view is what the chain holds there. *)
Theorem buffers_exact alloc len ba : wf ba -> 0 < len ->
  (exists l, getReadBuffers len ba = Ret (l, len `min` getReadSize ba) /\
     gather (m_nodes ba) l = slice (m_position ba) (len `min` getReadSize ba) (contents ba)) /\
  (exists l ba', getWriteBuffers alloc len ba = (Ret (l, len), ba') /\ wf ba' /\
     contents ba' = contents ba /\ m_position ba' = m_position ba /\
     m_position ba' + len <= m_capacity ba' /\
     forall nodes', blocks_of (m_baseSize ba') nodes' -> length nodes' = length (m_nodes ba') ->
       gather nodes' l = slice (m_position ba) len (concat nodes')).
Proof.
  intros H Hlen. split.
  - unfold getReadBuffers. set (n := if getReadSize ba <? len then _ else _).
    assert (n = len `min` getReadSize ba) as Hn
      by (unfold n; destruct (Nat.ltb_spec (getReadSize ba) len); lia).
    rewrite <- Hn. destruct (Nat.eqb_spec n 0) as [->|Hn0]; [by exists []|].
    assert (m_position ba + n <= m_size ba) as Hs
      by (unfold getReadSize in *; pose proof (wf_position _ H); lia).
    destruct (iov_from_spec ba n H) as (l & -> & Hg & _); [lia|pose proof (wf_size _ H); lia|].
    exists l. split; [done|]. rewrite Hg by (done || apply H). by apply slice_contents.
  - unfold getWriteBuffers. rewrite (proj2 (Nat.eqb_neq _ _)) by lia. run_pure. unfold id.
    destruct (addCapacity_spec alloc len ba H) as (H1 & Hc & Hp & _ & _ & Hcap & _).
    set (ba' := addCapacity alloc len ba) in *.
    destruct (iov_from_spec ba' len H1) as (l & -> & Hg & _); [lia|lia|].
    exists l, ba'. split_and!; [done|done|done|done|lia|]. by rewrite <- Hp.
Qed.

Lemma buffers_exact_witness :
  exists l, getReadBuffers 3 (new_ByteArray (fun _ _ => Byte.x00) 2) = Ret (l, 0) /\
    gather (m_nodes (new_ByteArray (fun _ _ => Byte.x00) 2)) l = [].
Proof.
  destruct (buffers_exact (fun _ _ => Byte.x00) 3 (new_ByteArray (fun _ _ => Byte.x00) 2)) as [H _];
    [apply wf_new; lia|lia|exact H].
Defined.

Lemma file_loop_aligned fuel ba rs cur : wf ba -> (Z.of_nat (m_baseSize ba) < 2 ^ 31)%Z ->
  (Z.of_nat (m_size ba) < 2 ^ 63)%Z -> cur * m_baseSize ba + rs <= m_size ba ->
  rs <= fuel * m_baseSize ba ->
  file_loop fuel ba (Z.of_nat rs) (Z.of_nat (cur * m_baseSize ba)) cur =
    Ret (slice (cur * m_baseSize ba) rs (contents ba)).
Proof.
  intros H Hb31 Hs63. pose proof (wf_base _ H) as Hb. revert rs cur.
  induction fuel as [|fuel IH]; intros rs cur Hfit Hf; cbn [file_loop];
    (destruct (Z.leb_spec (Z.of_nat rs) 0) as [|Hrs]; [by replace rs with 0 by lia|]); [lia|].
  assert (Z.of_nat (cur * m_baseSize ba) mod Z.of_nat (m_baseSize ba) = 0)%Z as ->
    by (rewrite Nat2Z.inj_mul; apply Z.mod_mul; lia).
  rewrite (sint_id 32 0) by (lia || split; lia). rewrite Z.sub_0_r.
  set (len := rs `min` m_baseSize ba).
  assert ((if (Z.of_nat (m_baseSize ba) <? Z.of_nat rs)%Z then Z.of_nat (m_baseSize ba) else Z.of_nat rs)
     = Z.of_nat len) as -> by (destruct (Z.ltb_spec (Z.of_nat (m_baseSize ba)) (Z.of_nat rs)); lia).
  rewrite wrap_id, sint_id by (lia || split; lia).
  pose proof (wf_capacity _ H) as Hcap. pose proof (wf_size _ H) as Hsz.
  destruct (lookup_lt_is_Some_2 (m_nodes ba) cur) as [node Hnode]; [nia|].
  pose proof (blocks_of_lookup _ _ _ _ (wf_blocks _ H) Hnode) as Hl. rewrite Hnode, Hl.
  rewrite !(proj2 (Z.leb_le _ _)) by lia. simpl. rewrite Nat2Z.id.
  replace (Z.of_nat rs - Z.of_nat len)%Z with (Z.of_nat (rs - len)) by lia.
  rewrite <- (slice_concat (m_baseSize ba) (m_nodes ba) cur) by (done || lia || apply H).
  rewrite Nat.add_0_r, (slice_contents _ _ _ H) by lia.
  rewrite (slice_cut _ len rs) by lia.
  destruct (decide (rs - len = 0)) as [E|E].
  - rewrite E. destruct fuel; simpl; done.
  - assert (len = m_baseSize ba) as El by lia.
    replace (Z.of_nat (cur * m_baseSize ba) + Z.of_nat len)%Z
      with (Z.of_nat (S cur * m_baseSize ba)) by lia.
    rewrite (IH (rs - len) (S cur)) by lia. do 3 f_equal. lia.
Qed.

(** [writeToFile] writes exactly the unread bytes to the file it opened,
    when the position starts a block or at least a block of bytes is unread,
    for blocks below 2^31 bytes and data below 2^63; it leaves the position
    alone, and reports failure when the file does not open. *)
Theorem writeToFile_unread ba : wf ba ->
  (Z.of_nat (m_baseSize ba) < 2 ^ 31)%Z -> (Z.of_nat (m_size ba) < 2 ^ 63)%Z ->
  m_position ba mod m_baseSize ba = 0 \/ m_baseSize ba <= getReadSize ba ->
  writeToFile false ba = Ret (false, []) /\
  writeToFile true ba = Ret (true, unread ba).
Proof.
  intros H Hb31 Hs63 Hor. split; [done|]. unfold writeToFile. simpl negb. cbv iota.
  pose proof (wf_base _ H) as Hb. pose proof (wf_position _ H). pose proof (wf_size _ H).
  pose proof (wf_capacity _ H). pose proof (pos_split _ H) as Hp.
  assert (unread ba = slice (m_position ba) (getReadSize ba) (contents ba)) as ->.
  { unfold slice. fold (unread ba). by rewrite take_ge by (by rewrite (length_unread _ H)). }
  assert (m_position ba + getReadSize ba = m_size ba) as Hsum by (unfold getReadSize; lia).
  destruct (decide (m_position ba mod m_baseSize ba = 0)) as [E|E].
  { rewrite E, Nat.add_0_r in Hp. rewrite Hp. rewrite file_loop_aligned; [done|done|done|done|lia|lia]. }
  destruct Hor as [|Hge]; [done|]. set (r := m_position ba mod m_baseSize ba) in *.
  assert (r < m_baseSize ba) by (apply Nat.mod_upper_bound; lia).
  set (len := m_baseSize ba - r). cbn [file_loop].
  rewrite (proj2 (Z.leb_gt _ _)) by lia.
  assert (Z.of_nat (m_position ba) mod Z.of_nat (m_baseSize ba) = Z.of_nat r)%Z as ->
    by (unfold r; by rewrite Nat2Z.inj_mod).
  rewrite (sint_id 32) by (lia || split; lia).
  assert ((if (Z.of_nat (m_baseSize ba) <? Z.of_nat (getReadSize ba))%Z
    then Z.of_nat (m_baseSize ba) else Z.of_nat (getReadSize ba)) - Z.of_nat r = Z.of_nat len)%Z as ->
    by (destruct (Z.ltb_spec (Z.of_nat (m_baseSize ba)) (Z.of_nat (getReadSize ba))); lia).
  rewrite wrap_id, sint_id by (lia || split; lia).
  destruct (wf_cur_node ba H) as (node & Hnode & Hl); [lia|]. rewrite Hnode, Hl.
  rewrite !(proj2 (Z.leb_le _ _)) by lia. simpl. rewrite !Nat2Z.id.
  rewrite <- (slice_concat (m_baseSize ba) (m_nodes ba) (m_cur ba)) by (done || lia || apply H).
  rewrite <- Hp, (slice_contents _ _ _ H) by lia.
  replace (Z.of_nat (getReadSize ba) - Z.of_nat len)%Z with (Z.of_nat (getReadSize ba - len)) by lia.
  replace (Z.of_nat (m_position ba) + Z.of_nat len)%Z
    with (Z.of_nat (S (m_cur ba) * m_baseSize ba)) by lia.
  rewrite file_loop_aligned by (done || nia).
  rewrite (slice_cut _ len (getReadSize ba)) by lia. do 4 f_equal. lia.
Qed.

(** A buffer with block size two, three bytes and the position on one. *)
Definition ba_example (pos : nat) : ByteArray :=
  post (write (fun _ _ => Byte.x00) [Byte.x01; Byte.x02; Byte.x03];; setPosition pos)
    (new_ByteArray (fun _ _ => Byte.x00) 2).

Lemma wf_ba_example pos : pos <= 3 -> wf (ba_example pos).
Proof.
  intros Hp. unfold ba_example, post.
  destruct (write_spec (fun _ _ => Byte.x00) [Byte.x01; Byte.x02; Byte.x03]
    (new_ByteArray (fun _ _ => Byte.x00) 2)) as (ba & R & W & _ & C & P); [apply wf_new; lia|].
  assert (pos <= m_size ba) as Hs by (rewrite <- (length_contents _ W), C; simpl; lia).
  run R. rewrite (setPosition_ok ba pos W Hs). by apply wf_setPosition.
Qed.

Lemma writeToFile_unread_witness :
  writeToFile true (ba_example 1) = Ret (true, [Byte.x02; Byte.x03]).
Proof.
  apply (writeToFile_unread (ba_example 1)); [apply wf_ba_example; lia|vm_compute; done|vm_compute; done|].
  right. vm_compute. lia.
Defined.

Lemma readFromFile_loop_spec alloc fuel content ba : wf ba -> length content < fuel ->
  exists ba', readFromFile_loop alloc fuel content ba = (Ret tt, ba') /\ wf ba' /\ same_frame ba ba' /\
    contents ba' = blit (m_position ba) content (contents ba) /\
    m_position ba' = m_position ba + length content.
Proof.
  revert content ba. induction fuel as [|fuel IH]; intros content ba H Hf; [lia|].
  cbn [readFromFile_loop]. run_pure. unfold id. set (b := m_baseSize ba).
  destruct (write_spec alloc (take b content) ba H) as (ba1 & R & W & F & C & P). run R.
  pose proof F as [Fb Fe]. pose proof (wf_base _ H). rewrite length_take in *.
  destruct (Nat.ltb_spec (b `min` length content) b).
  - exists ba1. rewrite take_ge in C by lia. rewrite C, P. split_and!; done || lia.
  - destruct (IH (drop b content) ba1 W) as (ba2 & R2 & W2 & F2 & C2 & P2).
    { rewrite length_drop. unfold b in *. lia. }
    exists ba2. split_and!; [done|done|by eapply same_frame_trans| |rewrite P2, P, length_drop; lia].
    rewrite C2, P, C, <- length_take.
    rewrite blit_blit by (rewrite (length_contents _ H); apply (wf_position _ H)).
    by rewrite take_drop.
Qed.

(** [readFromFile] terminates and is one [write] of the whole file, for
    any file length (also a multiple of the block size, where the last read
    finds nothing); a file that does not open changes nothing. *)
Theorem readFromFile_is_write alloc content ba : wf ba ->
  readFromFile alloc None ba = (Ret false, ba) /\
  exists ba', readFromFile alloc (Some content) ba = (Ret true, ba') /\ wf ba' /\
    abs ba' = abs (post (write alloc content) ba).
Proof.
  intros H. split; [done|]. unfold readFromFile, post, abs.
  destruct (readFromFile_loop_spec alloc (S (length content)) content ba H) as (ba1 & R & W & _ & C & P); [lia|].
  destruct (write_spec alloc content ba H) as (ba2 & R2 & _ & _ & C2 & P2).
  exists ba1. run R. rewrite R2. simpl. rewrite C, C2, P, P2. done.
Qed.

Lemma readFromFile_is_write_witness :
  exists ba', readFromFile (fun _ _ => Byte.x00) (Some [Byte.x07; Byte.x08]) (ba_example 3) = (Ret true, ba') /\
    wf ba' /\ abs ba' = mkBuffer [Byte.x01; Byte.x02; Byte.x03; Byte.x07; Byte.x08] 5.
Proof.
  destruct (readFromFile_is_write (fun _ _ => Byte.x00) [Byte.x07; Byte.x08] (ba_example 3)) as [_ H];
    [apply wf_ba_example; lia|exact H].
Defined.

(** * Where the code does not do what it means to *)

(** An empty string whose prefix ends at the capacity: written, but reading
    it back dereferences the null [m_cur]. *)
Lemma empty_string_at_capacity :
  let ba := new_ByteArray (fun _ _ => Byte.x00) 2 in
  out (writeStringF16 (fun _ _ => Byte.x00) [];; setPosition 0;; readStringF16) ba = Crash NullDeref.
Proof. vm_compute. reflexivity. Qed.

(** Fewer unread bytes than a block, from the middle of a block: the length
    of the first piece is short by the offset, and the walk for the rest runs
    off the chain. *)
Lemma writeToFile_unaligned :
  let ba := post (write (fun _ _ => Byte.x00) [Byte.x01; Byte.x02; Byte.x03];; setPosition 1)
              (new_ByteArray (fun _ _ => Byte.x00) 4) in
  unread ba = [Byte.x02; Byte.x03] /\ writeToFile true ba = Crash NullDeref.
Proof. vm_compute. auto. Qed.

(** Reading at another position than the current one starts at the current
    block: the byte at 0 is asked for, with the position on 2. *)
Lemma read_at_wrong_block : read_at 1 0 (ba_example 2) = Ret [Byte.x03].
Proof. vm_compute. reflexivity. Qed.

(** A position beyond the data is not refused: the subtraction wraps. *)
Lemma read_at_beyond_size : read_at 1 5 (ba_example 0) = Ret [Byte.x02].
Proof. vm_compute. reflexivity. Qed.

(** The upper half of the non-negative [int32_t] range, and the most negative
    value, are encoded through signed overflow. *)
Lemma zigzag_overflows_example :
  zigzag_overflows 32 (2 ^ 30) = true /\ zigzag_overflows 32 (- 2 ^ 31) = true /\
  zigzag_overflows 32 (2 ^ 30 - 1) = false.
Proof. vm_compute. auto. Qed.
