(* ===== verification/Timer.v ===== *)
(** [sherry/timer.h], [sherry/timer.cc]: timers and the timer manager.

    Timers are shared objects: a manager's state holds the heap of the timers
    by address, and the [std::set<Timer::ptr, Comparator>] as the list of
    addresses in the set's order.  A handle that was reset is an address
    without an object, a null pointer.  The clock ([GetCurrentMS]) is an
    argument [now] of the operations; the address a [new Timer] gets is an
    argument too.  Each operation is one critical section of [m_mutex]. *)

From stdpp Require Import base list gmap sorting strings.
From S2P Require Import Prelude MachineInt.
From Stdlib Require Import ZArith Lia.

(** A [std::function<void()>]: a plain one, or what [addConditionTimer] binds
    ([OnTimer] with a weak pointer). [F] is the user's functions. *)
Inductive callback (F : Type) : Type :=
| Plain (f : F)
| OnTimer (weak_cond : nat) (f : F).
Arguments Plain {F} f.
Arguments OnTimer {F} weak_cond f.

(** What calling it calls: [OnTimer] locks the weak pointer first. *)
Definition invoke {F} (alive : nat -> bool) (c : callback F) : list F :=
  match c with
  | Plain f => [f]
  | OnTimer w f => if alive w then [f] else []
  end.

Record Timer (F : Type) : Type := mkTimer {
  m_recurring : bool;
  m_ms : Z;
  m_next : Z;
  m_cb : option (callback F)
}.
Arguments mkTimer {F} m_recurring m_ms m_next m_cb.
Arguments m_recurring {F} t.
Arguments m_ms {F} t.
Arguments m_next {F} t.
Arguments m_cb {F} t.

(** [m_front_calls] counts the calls of the virtual [onTimerInsertedAtFront]. *)
Record TimerManager (F : Type) : Type := mkTimerManager {
  m_heap : gmap nat (Timer F);
  m_timers : list nat;
  m_tickled : bool;
  m_previouseTime : Z;
  m_front_calls : nat
}.
Arguments mkTimerManager {F} m_heap m_timers m_tickled m_previouseTime m_front_calls.
Arguments m_heap {F} t.
Arguments m_timers {F} t.
Arguments m_tickled {F} t.
Arguments m_previouseTime {F} t.
Arguments m_front_calls {F} t.

Section timer.
Context {F : Type}.
Abbreviation heap := (gmap nat (Timer F)).
Abbreviation mgr := (TimerManager F).

Definition with_heap (h : heap) (s : mgr) : mgr :=
  mkTimerManager h (m_timers s) (m_tickled s) (m_previouseTime s) (m_front_calls s).
Definition with_timers (l : list nat) (s : mgr) : mgr :=
  mkTimerManager (m_heap s) l (m_tickled s) (m_previouseTime s) (m_front_calls s).
Definition with_tickled (b : bool) (s : mgr) : mgr :=
  mkTimerManager (m_heap s) (m_timers s) b (m_previouseTime s) (m_front_calls s).

(** ** The set *)

Definition Comparator (h : heap) (lhs rhs : nat) : bool :=
  match h !! lhs, h !! rhs with
  | None, None => false
  | None, Some _ => true
  | Some _, None => false
  | Some tl, Some tr =>
      if (m_next tl <? m_next tr)%Z then true
      else if (m_next tr <? m_next tl)%Z then false
      else lhs <? rhs
  end.

(** [std::set::find], [lower_bound] (the index of the element, or the length
    for [end()]) and [insert] (with the index [.first] points to). *)
Fixpoint set_find (h : heap) (a : nat) (l : list nat) : nat :=
  match l with
  | [] => 0
  | x :: l' => if negb (Comparator h x a) && negb (Comparator h a x) then 0 else S (set_find h a l')
  end.

Fixpoint set_lower_bound (h : heap) (a : nat) (l : list nat) : nat :=
  match l with
  | [] => 0
  | x :: l' => if Comparator h x a then S (set_lower_bound h a l') else 0
  end.

Fixpoint set_insert (h : heap) (a : nat) (l : list nat) : list nat * nat :=
  match l with
  | [] => ([a], 0)
  | x :: l' =>
    if Comparator h a x then (a :: l, 0)
    else if Comparator h x a then let '(r, i) := set_insert h a l' in (x :: r, S i)
    else (l, 0)
  end.

(** [m_timers.erase(it)]: [erase(end())] is undefined. *)
Definition set_erase (i : nat) : prog mgr unit := fun s =>
  if i <? length (m_timers s) then (Ret tt, with_timers (delete i (m_timers s)) s)
  else (Crash EndIterator, s).

Definition obj (a : nat) : prog mgr (Timer F) := fun s => of_option NullDeref (m_heap s !! a) s.
Definition put_obj (a : nat) (t : Timer F) : prog mgr unit :=
  modify (fun s => with_heap (<[a := t]> (m_heap s)) s).

(** ** The manager *)

Definition new_TimerManager (now : Z) : mgr := mkTimerManager ∅ [] false now 0.

(** [TimerManager::addTimer(Timer::ptr val, WriteLock& lock)] *)
Definition addTimer_locked (val : nat) : prog mgr unit :=
  s ← gets id;
  let '(l, i) := set_insert (m_heap s) val (m_timers s) in
  modify (with_timers l);;
  let at_front := (i =? 0) && negb (m_tickled s) in
  if at_front then
    modify (with_tickled true);;
    modify (fun s' => mkTimerManager (m_heap s') (m_timers s') (m_tickled s')
                        (m_previouseTime s') (S (m_front_calls s')))
  else mret tt.

(** [Timer(ms, cb, recurring, manager)] *)
Definition new_Timer (now ms : Z) (cb : option (callback F)) (recurring : bool) : Timer F :=
  mkTimer recurring ms (wrap 64 (now + ms)) cb.

(** [Timer(next)]: [m_recurring = false], [m_ms = 0], no callback. *)
Definition new_Timer_next (next : Z) : Timer F := mkTimer false 0 next None.

Definition addTimer (addr : nat) (now ms : Z) (cb : option (callback F)) (recurring : bool)
    : prog mgr nat :=
  put_obj addr (new_Timer now ms cb recurring);;
  addTimer_locked addr;;
  mret addr.

Definition addConditionTimer (addr : nat) (now ms : Z) (f : F) (weak_cond : nat) (recurring : bool)
    : prog mgr nat :=
  addTimer addr now ms (Some (OnTimer weak_cond f)) recurring.

Definition Timer_cancel (this : nat) : prog mgr bool :=
  t ← obj this;
  match m_cb t with
  | Some _ =>
      put_obj this (mkTimer (m_recurring t) (m_ms t) (m_next t) None);;
      s ← gets id;
      set_erase (set_find (m_heap s) this (m_timers s));;
      mret true
  | None => mret false
  end.

Definition Timer_refresh (now : Z) (this : nat) : prog mgr bool :=
  t ← obj this;
  match m_cb t with
  | None => mret false
  | Some _ =>
      s ← gets id;
      let it := set_find (m_heap s) this (m_timers s) in
      if it =? length (m_timers s) then mret false else
      set_erase it;;
      put_obj this (mkTimer (m_recurring t) (m_ms t) (wrap 64 (now + m_ms t)) (m_cb t));;
      modify (fun s' => with_timers (fst (set_insert (m_heap s') this (m_timers s'))) s');;
      mret true
  end.

Definition Timer_reset (now : Z) (this : nat) (ms : Z) (from_now : bool) : prog mgr bool :=
  t ← obj this;
  if (ms =? m_ms t)%Z && negb from_now then mret true else
  match m_cb t with
  | None => mret false
  | Some _ =>
      s ← gets id;
      let it := set_find (m_heap s) this (m_timers s) in
      if it =? length (m_timers s) then mret false else
      set_erase it;;
      let start := if from_now then now else wrap 64 (m_next t - m_ms t) in
      put_obj this (mkTimer (m_recurring t) ms (wrap 64 (start + ms)) (m_cb t));;
      addTimer_locked this;;
      mret true
  end.

(** [~0ull] when there is no timer. *)
Definition getNextTimer (now_ms : Z) : prog mgr Z :=
  modify (with_tickled false);;
  s ← gets id;
  match m_timers s with
  | [] => mret (2 ^ 64 - 1)%Z
  | next :: _ =>
      t ← obj next;
      if (m_next t <=? now_ms)%Z then mret 0%Z else mret (m_next t - now_ms)%Z
  end.

Definition hasTimer (s : mgr) : bool := negb (bool_decide (m_timers s = [])).

Definition detectClockRollover (now_ms : Z) : prog mgr bool :=
  s ← gets id;
  let rollover := (now_ms <? m_previouseTime s)%Z &&
                  (now_ms <? wrap 64 (m_previouseTime s - 60 * 60 * 1000))%Z in
  modify (fun s' => mkTimerManager (m_heap s') (m_timers s') (m_tickled s') now_ms (m_front_calls s'));;
  mret rollover.

(** [while(it != end && it->m_next == now_ms) ++it;] *)
Fixpoint skip_equal (h : heap) (now_ms : Z) (l : list nat) : nat :=
  match l with
  | [] => 0
  | x :: l' =>
    match h !! x with
    | Some t => if (m_next t =? now_ms)%Z then S (skip_equal h now_ms l') else 0
    | None => 0
    end
  end.

(** The loop over the expired timers: the callbacks pushed to [cbs]. *)
Fixpoint expire_loop (now_ms : Z) (expired : list nat) : prog mgr (list (option (callback F))) :=
  match expired with
  | [] => mret []
  | timer :: rest =>
    t ← obj timer;
    (if m_recurring t then
       put_obj timer (mkTimer true (m_ms t) (wrap 64 (now_ms + m_ms t)) (m_cb t));;
       modify (fun s => with_timers (fst (set_insert (m_heap s) timer (m_timers s))) s)
     else
       put_obj timer (mkTimer (m_recurring t) (m_ms t) (m_next t) None));;
    cbs ← expire_loop now_ms rest;
    mret (m_cb t :: cbs)
  end.

(** [addr] is where [now_timer] is allocated until the function returns. *)
Definition listExpiredCb (addr : nat) (now_ms : Z) : prog mgr (list (option (callback F))) :=
  s ← gets id;
  match m_timers s with
  | [] => mret []
  | first :: _ =>
    rollover ← detectClockRollover now_ms;
    t ← obj first;
    if negb rollover && (now_ms <? m_next t)%Z then mret [] else
    put_obj addr (new_Timer_next now_ms);;
    s ← gets id;
    let l := m_timers s in
    let it0 := if (rollover : bool) then length l else set_lower_bound (m_heap s) addr l in
    let it := it0 + skip_equal (m_heap s) now_ms (drop it0 l) in
    modify (with_timers (drop it l));;
    cbs ← expire_loop now_ms (take it l);
    modify (fun s' => with_heap (delete addr (m_heap s')) s');;
    mret cbs
  end.

End timer.

(** * The set's invariant *)

Section set_facts.
Context {F : Type}.
Implicit Types (h : gmap nat (Timer F)) (l : list nat) (a b : nat) (t : Timer F).

Definition before h a b : Prop := Comparator h a b = true.
Definition live h l : Prop := forall a, a ∈ l -> is_Some (h !! a).

(** What a [std::set] guarantees as long as its elements' keys do not change. *)
Definition set_ok h l : Prop := StronglySorted (before h) l /\ live h l.

Lemma before_spec h a b ta tb : h !! a = Some ta -> h !! b = Some tb ->
  before h a b <-> (m_next ta < m_next tb \/ m_next ta = m_next tb /\ (a < b)%nat)%Z.
Proof.
  intros Ha Hb. unfold before, Comparator. rewrite Ha, Hb.
  destruct (Z.ltb_spec (m_next ta) (m_next tb)); [split; [intros; left; lia|done]|].
  destruct (Z.ltb_spec (m_next tb) (m_next ta)); [split; [done|lia]|].
  rewrite Nat.ltb_lt. lia.
Qed.

Lemma before_irrefl h a : ~ before h a a.
Proof.
  unfold before, Comparator. destruct (h !! a) as [t|]; [|done].
  by rewrite !Z.ltb_irrefl, Nat.ltb_irrefl.
Qed.

Lemma before_trans h a b c : is_Some (h !! a) -> is_Some (h !! b) -> is_Some (h !! c) ->
  before h a b -> before h b c -> before h a c.
Proof.
  intros [ta Ha] [tb Hb] [tc Hc]. rewrite (before_spec h a b ta tb), (before_spec h b c tb tc),
    (before_spec h a c ta tc) by done. lia.
Qed.

Lemma before_total h a b : is_Some (h !! a) -> is_Some (h !! b) -> a <> b ->
  before h a b \/ before h b a.
Proof.
  intros [ta Ha] [tb Hb] Hne. rewrite (before_spec h a b ta tb), (before_spec h b a tb ta) by done. lia.
Qed.

Lemma not_before h a b : Comparator h a b = false -> ~ before h a b.
Proof. unfold before. by intros ->. Qed.

(** Changing an object that is not in the set leaves the set in order. *)
Lemma before_insert h a b c t : b <> a -> c <> a -> before (<[a:=t]> h) b c <-> before h b c.
Proof. intros Hb Hc. unfold before, Comparator. by rewrite !lookup_insert_ne by done. Qed.

Lemma set_ok_insert_heap h l a t : a ∉ l -> set_ok h l -> set_ok (<[a:=t]> h) l.
Proof.
  intros Ha [Hs Hl]. split.
  - clear Hl. induction Hs as [|x l Hs IH Hall]; [constructor|]. apply not_elem_of_cons in Ha as [Hx Ha].
    constructor; [by apply IH|]. rewrite Forall_forall in *. intros y Hy.
    apply before_insert; [done|set_solver|by apply Hall].
  - intros b Hb. rewrite lookup_insert_ne by set_solver. by apply Hl.
Qed.

(** Only the key of an object matters to the set. *)
Lemma before_same_next h a t t' : h !! a = Some t -> m_next t' = m_next t ->
  forall b c, before (<[a:=t']> h) b c <-> before h b c.
Proof.
  intros Ha Hn b c. unfold before, Comparator.
  destruct (decide (b = a)) as [->|Hb], (decide (c = a)) as [->|Hc];
    rewrite ?lookup_insert_eq, ?lookup_insert_ne, ?Ha, ?Hn by done; done.
Qed.

Lemma set_ok_same_next h l a t t' : h !! a = Some t -> m_next t' = m_next t ->
  set_ok h l -> set_ok (<[a:=t']> h) l.
Proof.
  intros Ha Hn [Hs Hl]. split.
  - clear Hl. induction Hs as [|x l Hs IH Hall]; constructor; [done|].
    eapply Forall_impl; [exact Hall|]. intros y. by apply before_same_next with t.
  - intros b Hb. destruct (decide (b = a)) as [->|];
      [by rewrite lookup_insert_eq|rewrite lookup_insert_ne by done; auto].
Qed.

Lemma set_ok_nodup h l : set_ok h l -> NoDup l.
Proof.
  intros [Hs _]. induction Hs as [|x l Hs IH Hall]; constructor; [|done].
  intros Hx. rewrite Forall_forall in Hall. exact (before_irrefl h x (Hall x Hx)).
Qed.

Lemma set_ok_app_l h l1 l2 : set_ok h (l1 ++ l2) -> set_ok h l1.
Proof.
  intros [Hs Hl]. split; [|intros a Ha; apply Hl; set_solver]. clear Hl.
  induction l1 as [|x l1 IH]; [constructor|]. simpl in Hs. inversion Hs as [|? ? Hs' Hall]; subst.
  constructor; [by apply IH|]. rewrite Forall_app in Hall. apply Hall.
Qed.

Lemma set_ok_app_r h l1 l2 : set_ok h (l1 ++ l2) -> set_ok h l2.
Proof.
  intros [Hs Hl]. split; [|intros a Ha; apply Hl; set_solver]. clear Hl.
  induction l1 as [|x l1 IH]; [done|]. simpl in Hs. by inversion Hs; auto.
Qed.

Lemma set_ok_delete h l1 a l2 : set_ok h (l1 ++ a :: l2) -> set_ok h (l1 ++ l2).
Proof.
  intros [Hs Hl]. split; [|intros b Hb; apply Hl; set_solver]. clear Hl.
  induction l1 as [|x l1 IH]; simpl in *; inversion Hs as [|? ? Hs' Hall]; subst; [done|].
  constructor; [by apply IH|]. rewrite Forall_app, Forall_cons in *. naive_solver.
Qed.

(** ** Operations of the set *)

Lemma set_find_hit h l1 a l2 : set_ok h (l1 ++ a :: l2) -> set_find h a (l1 ++ a :: l2) = length l1.
Proof.
  induction l1 as [|x l1 IH]; intros H; simpl.
  - unfold Comparator. destruct (h !! a); [|done]. by rewrite !Z.ltb_irrefl, Nat.ltb_irrefl.
  - pose proof H as [Hs Hl]. simpl in Hs. inversion Hs as [|? ? _ Hall]; subst.
    rewrite Forall_forall in Hall. specialize (Hall a ltac:(set_solver)).
    unfold before in Hall. rewrite Hall. simpl. f_equal. apply IH. exact (set_ok_app_r h [x] _ H).
Qed.

Lemma set_find_miss h a l : is_Some (h !! a) -> live h l -> a ∉ l -> set_find h a l = length l.
Proof.
  intros Ha. induction l as [|x l IH]; intros Hl Hn; [done|]. simpl.
  apply not_elem_of_cons in Hn as [Hx Hn].
  destruct (before_total h a x Ha ltac:(apply Hl; set_solver) Hx) as [E|E]; unfold before in E;
    rewrite E; rewrite ?andb_false_r; simpl; (f_equal; apply IH; [intros b Hb; apply Hl; set_solver|done]).
Qed.

Lemma Forall_before_weaken h a x l : is_Some (h !! a) -> live h (x :: l) -> before h a x ->
  Forall (before h x) l -> Forall (before h a) (x :: l).
Proof.
  intros Ha Hl Hax Hall. constructor; [done|]. rewrite Forall_forall in *. intros y Hy.
  apply (before_trans h a x y); auto; apply Hl; set_solver.
Qed.

Lemma set_insert_spec h a l : set_ok h l -> is_Some (h !! a) -> a ∉ l ->
  exists l1 l2, l = l1 ++ l2 /\ set_insert h a l = (l1 ++ a :: l2, length l1) /\
    set_ok h (l1 ++ a :: l2).
Proof.
  intros [Hs Hl] Ha. induction Hs as [|x l Hs IH Hall]; intros Hn.
  { exists [], []. split_and!; [done|done|split; [repeat constructor|]]. intros b Hb; set_solver. }
  apply not_elem_of_cons in Hn as [Hx Hn]. simpl. destruct (Comparator h a x) eqn:E.
  - exists [], (x :: l). split_and!; [done|done|]. split; [|intros b Hb; set_solver].
    constructor; [by constructor|]. by apply Forall_before_weaken.
  - destruct (before_total h a x Ha ltac:(apply Hl; set_solver) Hx) as [E'|E'];
      [by apply not_before in E|]. unfold before in E'. rewrite E'.
    destruct IH as (l1 & l2 & -> & -> & Hs' & Hl'); [intros b Hb; apply Hl; set_solver|done|].
    exists (x :: l1), l2. split_and!; [done|done|]. split; [|intros b Hb; set_solver].
    simpl. constructor; [done|]. rewrite Forall_app, Forall_cons in *. naive_solver.
Qed.

(** [lower_bound] and the loop behind it stop at the first deadline after [now]. *)
Definition due h (now : Z) a : Prop := exists t, h !! a = Some t /\ (m_next t <= now)%Z.

Lemma not_due h now a t : h !! a = Some t -> (now < m_next t)%Z -> ~ due h now a.
Proof. intros Ha Hn (t' & Ht' & Hle). simplify_eq. lia. Qed.

Lemma later_than_head h x l t : set_ok h (x :: l) -> h !! x = Some t ->
  Forall (fun y => exists ty, h !! y = Some ty /\ (m_next t <= m_next ty)%Z) l.
Proof.
  intros [Hs Hl] Ht. inversion Hs as [|? ? _ Hall]; subst. rewrite Forall_forall in *.
  intros y Hy. destruct (Hl y ltac:(set_solver)) as [ty Hty]. exists ty. split; [done|].
  pose proof (proj1 (before_spec h x y t ty Ht Hty) (Hall y Hy)). lia.
Qed.

Lemma skip_equal_spec h now l : set_ok h l ->
  Forall (fun y => exists ty, h !! y = Some ty /\ (now <= m_next ty)%Z) l ->
  Forall (due h now) (take (skip_equal h now l) l) /\
  Forall (fun a => ~ due h now a) (drop (skip_equal h now l) l).
Proof.
  induction l as [|x l IH]; intros H Hge; [done|]. apply Forall_cons in Hge as [(t & Ht & Hle) Hge].
  simpl. rewrite Ht. destruct (Z.eqb_spec (m_next t) now) as [E|E]; simpl.
  - destruct (IH (set_ok_app_r h [x] l H) Hge) as [H1 H2]. split; [|done].
    constructor; [exists t; split; [done|lia]|done].
  - split; [done|]. constructor; [apply (not_due h now x t); [done|lia]|].
    eapply Forall_impl; [exact (later_than_head h x l t H Ht)|].
    intros y (ty & Hty & ?). apply (not_due h now y ty); [done|lia].
Qed.

Lemma expired_prefix h addr now l : set_ok h l -> h !! addr = Some (new_Timer_next now) ->
  let it0 := set_lower_bound h addr l in
  let it := it0 + skip_equal h now (drop it0 l) in
  Forall (due h now) (take it l) /\ Forall (fun a => ~ due h now a) (drop it l).
Proof.
  intros H Haddr it0 it. subst it it0. induction l as [|x l IH]; [done|].
  destruct (proj2 H x ltac:(set_solver)) as [t Ht]. simpl.
  pose proof (before_spec h x addr t _ Ht Haddr) as Hb. simpl in Hb. unfold before in Hb.
  destruct (Comparator h x addr) eqn:E; simpl.
  - destruct (IH (set_ok_app_r h [x] l H)) as [H1 H2]. split; [|done]. constructor; [|done].
    exists t. split; [done|]. destruct Hb as [Hb _]. specialize (Hb eq_refl). lia.
  - assert (now <= m_next t)%Z as Hge
      by (destruct (Z.le_gt_cases now (m_next t)); [done|discriminate (proj2 Hb ltac:(lia))]).
    apply (skip_equal_spec h now (x :: l) H). constructor; [by exists t|].
    eapply Forall_impl; [exact (later_than_head h x l t H Ht)|].
    intros y (ty & Hty & ?). exists ty. split; [done|lia].
Qed.
End set_facts.
