(* ===== verification/TimerProps.v ===== *)
(** What the timers promise: the set and the heap stay consistent under every
    operation, no operation fails, expired timers are exactly the due ones,
    and the next wake-up is the earliest deadline. *)

From stdpp Require Import base list gmap sorting strings.
From S2P Require Import Prelude MachineInt Timer.
From Stdlib Require Import ZArith Lia.

(** Between two operations: the set is in order and a timer that still has
    its callback is in it, so that [cancel] finds what it erases. *)
Record timers_wf {F} (s : TimerManager F) : Prop := {
  wf_set : set_ok (m_heap s) (m_timers s);
  wf_armed : forall a t, m_heap s !! a = Some t -> m_cb t <> None -> a ∈ m_timers s
}.

Section lemmas.
Context {F : Type}.
Implicit Types (s : TimerManager F) (t : Timer F) (a : nat).

Lemma obj_spec s a t : m_heap s !! a = Some t -> obj a s = (Ret t, s).
Proof. intros H. unfold obj. by rewrite H. Qed.

Lemma in_set_split s a : timers_wf s -> a ∈ m_timers s ->
  exists l1 l2, m_timers s = l1 ++ a :: l2 /\ a ∉ l1 ++ l2.
Proof.
  intros [H _] (l1 & l2 & E)%list_elem_of_split. exists l1, l2. split; [done|].
  pose proof (set_ok_nodup _ _ H) as Hn. rewrite E, <- Permutation_middle in Hn.
  by apply NoDup_cons in Hn as [? _].
Qed.

Lemma set_erase_mid s l1 a l2 : m_timers s = l1 ++ a :: l2 ->
  set_erase (length l1) s = (Ret tt, with_timers (l1 ++ l2) s).
Proof.
  intros E. unfold set_erase. rewrite E, (proj2 (Nat.ltb_lt _ _)) by (rewrite length_app; simpl; lia).
  by rewrite delete_middle.
Qed.

(** The first place: [it == m_timers.begin()]. *)
Definition at_front s (l1 : list nat) : bool := (length l1 =? 0) && negb (m_tickled s).

Lemma addTimer_locked_spec s a : set_ok (m_heap s) (m_timers s) -> is_Some (m_heap s !! a) ->
  a ∉ m_timers s ->
  exists l1 l2, m_timers s = l1 ++ l2 /\ set_ok (m_heap s) (l1 ++ a :: l2) /\
    addTimer_locked a s = (Ret tt, mkTimerManager (m_heap s) (l1 ++ a :: l2)
      (m_tickled s || at_front s l1) (m_previouseTime s)
      (m_front_calls s + (if at_front s l1 then 1 else 0))).
Proof.
  intros H Ha Hn. destruct (set_insert_spec (m_heap s) a (m_timers s) H Ha Hn) as (l1 & l2 & E & Hi & Hok).
  exists l1, l2. split_and!; [done|done|]. unfold addTimer_locked. run_pure. unfold id. rewrite Hi.
  run_pure. unfold at_front. destruct (length l1 =? 0), (m_tickled s) eqn:Et; simpl; run_pure;
    unfold with_timers, with_tickled; simpl; rewrite ?Et, ?Nat.add_0_r, ?Nat.add_1_r; done.
Qed.

(** What the expiry does to a timer. *)
Definition rearm (now : Z) t : Timer F :=
  if m_recurring t then mkTimer true (m_ms t) (wrap 64 (now + m_ms t)) (m_cb t)
  else mkTimer (m_recurring t) (m_ms t) (m_next t) None.

Definition recurs (h : gmap nat (Timer F)) a : Prop :=
  match h !! a with Some t => m_recurring t = true | None => False end.
#[global] Instance recurs_dec h a : Decision (recurs h a).
Proof. unfold recurs. destruct (h !! a); apply _. Defined.

Definition callback_of (h : gmap nat (Timer F)) a : option (callback F) := h !! a ≫= m_cb.

Definition rearm_all (now : Z) (exp : list nat) (h : gmap nat (Timer F)) : gmap nat (Timer F) :=
  foldl (fun h a => alter (rearm now) a h) h exp.

Lemma rearm_all_other now exp h a : a ∉ exp -> rearm_all now exp h !! a = h !! a.
Proof.
  revert h. induction exp as [|x exp IH]; intros h Ha; [done|]. simpl.
  rewrite IH by set_solver. by rewrite lookup_alter_ne by set_solver.
Qed.

Lemma rearm_all_in now exp h a : NoDup exp -> a ∈ exp -> rearm_all now exp h !! a = rearm now <$> h !! a.
Proof.
  revert h. induction exp as [|x exp IH]; intros h Hn Ha; [set_solver|]. simpl.
  apply NoDup_cons in Hn as [Hx Hn]. destruct (decide (a = x)) as [->|Hne].
  - rewrite (rearm_all_other now exp _ x) by done. apply lookup_alter_eq.
  - rewrite IH by (done || set_solver). by rewrite lookup_alter_ne by done.
Qed.

Lemma rearm_all_dom now (exp : list nat) h a : is_Some (rearm_all now exp h !! a) <-> is_Some (h !! a).
Proof.
  revert h. induction exp as [|x exp IH]; intros h; [done|]. simpl. rewrite IH.
  destruct (decide (a = x)) as [->|]; [by rewrite lookup_alter_eq, fmap_is_Some|by rewrite lookup_alter_ne].
Qed.

Lemma filter_recurs_ext h h' (l : list nat) : (forall a, a ∈ l -> h' !! a = h !! a) ->
  filter (recurs h') l = filter (recurs h) l.
Proof.
  induction l as [|a l IH]; intros Hext; [done|]. rewrite !filter_cons.
  rewrite IH by (intros; apply Hext; set_solver).
  assert (recurs h' a <-> recurs h a) by (unfold recurs; by rewrite Hext by set_solver).
  destruct (decide (recurs h' a)), (decide (recurs h a)); naive_solver.
Qed.

Lemma expire_step s now a t : m_heap s !! a = Some t -> set_ok (m_heap s) (m_timers s) ->
  a ∉ m_timers s ->
  exists l, (if m_recurring t then
       put_obj a (mkTimer true (m_ms t) (wrap 64 (now + m_ms t)) (m_cb t));;
       modify (fun s => with_timers (fst (set_insert (m_heap s) a (m_timers s))) s)
     else put_obj a (mkTimer (m_recurring t) (m_ms t) (m_next t) None)) s
    = (Ret tt, with_timers l (with_heap (alter (rearm now) a (m_heap s)) s)) /\
    set_ok (alter (rearm now) a (m_heap s)) l /\
    l ≡ₚ m_timers s ++ (if m_recurring t then [a] else []).
Proof.
  intros Ht Hok Hn.
  assert (alter (rearm now) a (m_heap s) = <[a := rearm now t]> (m_heap s)) as ->
    by (rewrite <- (insert_id (m_heap s) a t Ht) at 1; by rewrite alter_insert_eq).
  pose proof (set_ok_insert_heap (m_heap s) (m_timers s) a (rearm now t) Hn Hok) as Hok'.
  unfold rearm in *. destruct (m_recurring t) eqn:Er.
  - destruct (set_insert_spec _ a _ Hok' ltac:(by rewrite lookup_insert_eq) Hn) as (l1 & l2 & E & Hi & Hok2).
    exists (l1 ++ a :: l2). unfold put_obj. run_pure. simpl. rewrite Hi. split_and!; [done|done|].
    rewrite E, <- Permutation_middle. apply Permutation_cons_append.
  - exists (m_timers s). split_and!; [by destruct s|done|by rewrite app_nil_r].
Qed.

Lemma expire_loop_spec now exp s : set_ok (m_heap s) (m_timers s) -> NoDup exp ->
  (forall a, a ∈ exp -> a ∉ m_timers s) -> live (m_heap s) exp ->
  exists l, expire_loop now exp s =
      (Ret (callback_of (m_heap s) <$> exp),
       with_timers l (with_heap (rearm_all now exp (m_heap s)) s)) /\
    set_ok (rearm_all now exp (m_heap s)) l /\
    l ≡ₚ m_timers s ++ filter (recurs (m_heap s)) exp.
Proof.
  revert s. induction exp as [|a exp IH]; intros s Hok Hnd Hdis Hl; simpl.
  { exists (m_timers s). rewrite app_nil_r. split_and!; [by destruct s|done|done]. }
  apply NoDup_cons in Hnd as [Ha Hnd]. destruct (Hl a ltac:(set_solver)) as [t Ht].
  run (obj_spec s a t Ht).
  destruct (expire_step s now a t Ht Hok ltac:(apply Hdis; set_solver)) as (l & R & Hok' & Hp).
  run R. set (s1 := with_timers l _).
  assert (forall b, b ∈ exp -> m_heap s1 !! b = m_heap s !! b) as Hsame.
  { intros b Hb. simpl. rewrite lookup_alter_ne; [done|set_solver]. }
  destruct (IH s1) as (l' & R' & Hok2 & Hp'); [done|done| | |].
  { intros b Hb. simpl. rewrite Hp, elem_of_app. intros [Hb'|Hb'].
    - by apply (Hdis b ltac:(set_solver)).
    - destruct (m_recurring t); set_solver. }
  { intros b Hb. rewrite Hsame by done. apply Hl. set_solver. }
  run R'. exists l'. split_and!.
  - unfold mret, prog_ret. f_equal. f_equal. f_equal.
    + unfold callback_of. by rewrite Ht.
    + apply list_fmap_ext. intros i b Hb%list_elem_of_lookup_2. unfold callback_of. by rewrite Hsame.
  - done.
  - rewrite (filter_recurs_ext (m_heap s) (m_heap s1) exp Hsame) in Hp'.
    etrans; [exact Hp'|]. etrans; [apply Permutation_app_tail; exact Hp|].
    rewrite filter_cons. assert (recurs (m_heap s) a <-> m_recurring t = true) as Hr
      by (unfold recurs; by rewrite Ht).
    destruct (decide _) as [Hd|Hd]; rewrite Hr in Hd; destruct (m_recurring t);
      try done; by rewrite <- app_assoc.
Qed.
End lemmas.

(** * The expiry of timers *)

Section expiry.
Context {F : Type}.
Implicit Types (s : TimerManager F) (h : gmap nat (Timer F)) (a : nat).

#[global] Instance due_dec h now a : Decision (due h now a).
Proof.
  unfold due. destruct (h !! a) as [t|] eqn:E.
  - destruct (decide (m_next t <= now)%Z); [left; eauto|right; intros (t' & ? & ?); simplify_eq; lia].
  - right. intros (t' & ? & ?). done.
Defined.

(** The clock went back by more than an hour since the last check. *)
Definition rolled_over s (now : Z) : bool :=
  (now <? m_previouseTime s)%Z && (now <? wrap 64 (m_previouseTime s - 60 * 60 * 1000))%Z.

Definition expires s (now : Z) a : Prop := rolled_over s now = true \/ due (m_heap s) now a.
#[global] Instance expires_dec s now a : Decision (expires s now a).
Proof. unfold expires. apply _. Defined.

Definition expiring s (now : Z) : list nat := filter (expires s now) (m_timers s).
Definition staying s (now : Z) : list nat := filter (fun a => ~ expires s now a) (m_timers s).

Lemma set_ok_delete_heap h (l : list nat) a : a ∉ l -> set_ok h l -> set_ok (delete a h) l.
Proof.
  intros Ha [Hs Hl]. split.
  - clear Hl. induction Hs as [|x l Hs IH Hall]; [constructor|]. apply not_elem_of_cons in Ha as [Hx Ha].
    constructor; [by apply IH|]. rewrite Forall_forall in *. intros y Hy.
    unfold before, Comparator. rewrite !lookup_delete_ne by set_solver. by apply Hall.
  - intros b Hb. rewrite lookup_delete_ne by set_solver. by apply Hl.
Qed.

Lemma rearm_all_scratch now (exp : list nat) h addr t : NoDup exp -> addr ∉ exp -> h !! addr = None ->
  delete addr (rearm_all now exp (<[addr := t]> h)) = rearm_all now exp h.
Proof.
  intros Hnd Hn Ha. apply map_eq. intros b. destruct (decide (b = addr)) as [->|Hne].
  { by rewrite lookup_delete_eq, rearm_all_other. }
  rewrite lookup_delete_ne by done. destruct (decide (b ∈ exp)).
  - rewrite !rearm_all_in by done. by rewrite lookup_insert_ne by done.
  - rewrite !rearm_all_other by done. by rewrite lookup_insert_ne by done.
Qed.

Lemma detectClockRollover_spec s now : detectClockRollover now s =
  (Ret (rolled_over s now),
   mkTimerManager (m_heap s) (m_timers s) (m_tickled s) now (m_front_calls s)).
Proof. done. Qed.

(** The scan gives the expiring timers: all of them when the clock rolled
    over, else the ones that are due. *)
Lemma scan_spec s now addr : set_ok (m_heap s) (m_timers s) -> m_heap s !! addr = None ->
  let h := <[addr := new_Timer_next now]> (m_heap s) in
  let it0 := if rolled_over s now then length (m_timers s) else set_lower_bound h addr (m_timers s) in
  let it := it0 + skip_equal h now (drop it0 (m_timers s)) in
  take it (m_timers s) = expiring s now /\ drop it (m_timers s) = staying s now /\
  m_timers s = expiring s now ++ staying s now.
Proof.
  intros Hok Haddr h it0 it.
  assert (addr ∉ m_timers s) as Hn.
  { intros Hin. destruct (proj2 Hok addr Hin) as [t Ht]. congruence. }
  assert (Forall (expires s now) (take it (m_timers s)) /\
          Forall (fun a => ~ expires s now a) (drop it (m_timers s))) as [H1 H2].
  { unfold it, it0. destruct (rolled_over s now) eqn:Er.
    - rewrite drop_all. simpl. rewrite Nat.add_0_r, drop_all, take_ge by lia. split; [|done].
      apply Forall_forall. intros a _. by left.
    - destruct (expired_prefix h addr now (m_timers s)) as [H1 H2];
        [by apply set_ok_insert_heap|apply lookup_insert_eq|].
      assert (forall a, a ∈ m_timers s -> due h now a <-> expires s now a) as Hd.
      { intros a Ha. unfold expires, due, h. rewrite Er, lookup_insert_ne by set_solver. naive_solver. }
      split; rewrite Forall_forall in *; intros a Ha.
      + apply Hd; [exact (subseteq_take _ _ _ Ha)|by apply H1].
      + rewrite <- Hd; [by apply H2|exact (subseteq_drop _ _ _ Ha)]. }
  destruct (filter_prefix (expires s now) _ _ H1 H2) as [E1 E2]. rewrite take_drop in E1, E2.
  unfold expiring, staying. by rewrite E1, E2, take_drop.
Qed.

Lemma listExpiredCb_spec s addr now : timers_wf s -> m_heap s !! addr = None ->
  exists l, listExpiredCb addr now s =
    (Ret (callback_of (m_heap s) <$> expiring s now),
     mkTimerManager (rearm_all now (expiring s now) (m_heap s)) l (m_tickled s)
       (if decide (m_timers s = []) then m_previouseTime s else now) (m_front_calls s)) /\
    set_ok (rearm_all now (expiring s now) (m_heap s)) l /\
    l ≡ₚ staying s now ++ filter (recurs (m_heap s)) (expiring s now).
Proof.
  intros [Hok Harm] Haddr. unfold listExpiredCb. run_pure. unfold id.
  destruct (m_timers s) as [|first rest] eqn:El.
  { exists []. unfold expiring, staying. rewrite El. simpl. split_and!; [destruct s; simpl in *; by subst| |done].
    split; [constructor|]. intros a Ha. set_solver. }
  run (detectClockRollover_spec s now).
  destruct (proj2 Hok first ltac:(set_solver)) as [t Ht]. rewrite <- El in Hok.
  run (obj_spec (mkTimerManager (m_heap s) (m_timers s) (m_tickled s) now (m_front_calls s)) first t Ht).
  destruct (negb (rolled_over s now) && (now <? m_next t)%Z) eqn:Eearly.
  - apply andb_true_iff in Eearly as [Er%negb_true_iff Hlt%Z.ltb_lt].
    assert (Forall (fun a => ~ expires s now a) (m_timers s)) as Hnone.
    { rewrite El in *. constructor; [intros [?|Hd]; [congruence|by apply (not_due _ now first t) in Hd]|].
      eapply Forall_impl; [exact (later_than_head _ _ _ _ Hok Ht)|].
      intros y (ty & Hty & Hle) [?|Hd]; [congruence|]. revert Hd. apply (not_due _ now y ty); [done|lia]. }
    unfold expiring, staying. rewrite (filter_none _ _ Hnone), (filter_all _ _ Hnone).
    exists (m_timers s). simpl. rewrite app_nil_r. by split_and!.
  - unfold put_obj. run_pure. simpl.
    destruct (scan_spec s now addr Hok Haddr) as (-> & -> & Esplit). clear Eearly.
    assert (NoDup (expiring s now)) as Hnd by (apply NoDup_filter; by eapply set_ok_nodup).
    assert (addr ∉ m_timers s) as Hna.
    { intros Hin. destruct (proj2 Hok addr Hin). congruence. }
    set (s1 := with_timers _ _).
    destruct (expire_loop_spec now (expiring s now) s1) as (l & R & Hok' & Hp); simpl.
    { apply set_ok_insert_heap; [|rewrite Esplit in Hok; by eapply set_ok_app_r].
      intros [_ Hin]%list_elem_of_filter. done. }
    { done. }
    { intros a Ha Hs. unfold expiring, staying in *. apply list_elem_of_filter in Ha, Hs. naive_solver. }
    { intros a Ha. apply list_elem_of_filter in Ha as [_ Ha]. rewrite lookup_insert_ne by set_solver.
      by apply (proj2 Hok). }
    run R. run_pure. exists l. simpl in *.
    assert (addr ∉ expiring s now) as Hne by (intros [_ Hin]%list_elem_of_filter; done).
    assert (filter (recurs (<[addr := new_Timer_next now]> (m_heap s))) (expiring s now) =
            filter (recurs (m_heap s)) (expiring s now)) as Ef.
    { apply filter_recurs_ext. intros a Ha. apply lookup_insert_ne. set_solver. }
    assert (addr ∉ l) as Hnl.
    { rewrite Hp. intros [Hin|Hin]%elem_of_app; apply list_elem_of_filter in Hin as [_ Hin]; done. }
    apply (set_ok_delete_heap _ _ addr Hnl) in Hok'.
    rewrite (rearm_all_scratch now _ _ addr) in Hok' |- * by done. rewrite Ef in Hp.
    split_and!; [|done|done]. do 2 f_equal.
    apply list_fmap_ext. intros i a Ha%list_elem_of_lookup_2. unfold callback_of.
    rewrite lookup_insert_ne; [done|set_solver].
Qed.
End expiry.

(** * Every operation, and sequences of them *)

Inductive timer_op (F : Type) : Type :=
| AddTimer (addr : nat) (ms : Z) (cb : option (callback F)) (recurring : bool)
| AddConditionTimer (addr : nat) (ms : Z) (f : F) (weak_cond : nat) (recurring : bool)
| Cancel (a : nat)
| Refresh (a : nat)
| Reset (a : nat) (ms : Z) (from_now : bool)
| GetNextTimer
| ListExpiredCb (addr : nat).
Arguments AddTimer {F}. Arguments AddConditionTimer {F}. Arguments Cancel {F}. Arguments Refresh {F}.
Arguments Reset {F}. Arguments GetNextTimer {F}. Arguments ListExpiredCb {F}.

Section ops.
Context {F : Type}.
Implicit Types (s : TimerManager F) (o : timer_op F).

Definition exec (now : Z) o : prog (TimerManager F) unit :=
  match o with
  | AddTimer addr ms cb recurring => addTimer addr now ms cb recurring;; mret tt
  | AddConditionTimer addr ms f w recurring => addConditionTimer addr now ms f w recurring;; mret tt
  | Cancel a => Timer_cancel a;; mret tt
  | Refresh a => Timer_refresh now a;; mret tt
  | Reset a ms from_now => Timer_reset now a ms from_now;; mret tt
  | GetNextTimer => getNextTimer now;; mret tt
  | ListExpiredCb addr => listExpiredCb addr now;; mret tt
  end.

(** A new object gets an unused address; a method is called on an object. *)
Definition op_ok s o : Prop :=
  match o with
  | AddTimer addr _ _ _ | AddConditionTimer addr _ _ _ _ | ListExpiredCb addr => m_heap s !! addr = None
  | Cancel a | Refresh a | Reset a _ _ => is_Some (m_heap s !! a)
  | GetNextTimer => True
  end.

Inductive reachable : TimerManager F -> Prop :=
| reach_new now : reachable (new_TimerManager now)
| reach_step s now o r s' : reachable s -> op_ok s o -> exec now o s = (r, s') -> reachable s'.

Lemma fresh_not_in s addr : timers_wf s -> m_heap s !! addr = None -> addr ∉ m_timers s.
Proof. intros [[_ Hl] _] Ha Hin. destruct (Hl addr Hin). congruence. Qed.

Lemma addTimer_spec s addr now ms cb recurring : timers_wf s -> m_heap s !! addr = None ->
  let t := new_Timer now ms cb recurring in
  exists l1 l2, m_timers s = l1 ++ l2 /\
    addTimer addr now ms cb recurring s =
      (Ret addr, mkTimerManager (<[addr := t]> (m_heap s)) (l1 ++ addr :: l2)
         (m_tickled s || at_front s l1) (m_previouseTime s)
         (m_front_calls s + (if at_front s l1 then 1 else 0))) /\
    timers_wf (post (addTimer addr now ms cb recurring) s).
Proof.
  intros H Ha t. pose proof (fresh_not_in s addr H Ha) as Hn. unfold addTimer, post, put_obj. run_pure.
  fold t. set (s1 := with_heap _ s).
  destruct (addTimer_locked_spec s1 addr) as (l1 & l2 & E & Hok & R).
  - apply set_ok_insert_heap; [done|apply H].
  - simpl. by rewrite lookup_insert_eq.
  - done.
  - exists l1, l2. split; [done|]. run R. split; [done|]. split; [done|]. simpl.
    intros a t' [[<- <-]|[Hne Ha']]%lookup_insert_Some Hcb; [set_solver|].
    pose proof (wf_armed s H a t' Ha' Hcb) as Hin. simpl in E. rewrite E in Hin. set_solver.
Qed.

(** [cancel], [refresh] and [reset] take a timer that has its callback out of
    the set; they never miss it. *)
Lemma armed_split s a t : timers_wf s -> m_heap s !! a = Some t -> m_cb t <> None ->
  exists l1 l2, m_timers s = l1 ++ a :: l2 /\ a ∉ l1 ++ l2 /\
    set_ok (m_heap s) (l1 ++ l2) /\ set_find (m_heap s) a (m_timers s) = length l1.
Proof.
  intros H Ha Hcb. destruct (in_set_split s a H (wf_armed s H a t Ha Hcb)) as (l1 & l2 & E & Hn).
  pose proof (wf_set s H) as Hok. rewrite E in Hok.
  exists l1, l2. split_and!; [done|done|by eapply set_ok_delete|]. rewrite E. by apply set_find_hit.
Qed.

Definition disarm (t : Timer F) : Timer F := mkTimer (m_recurring t) (m_ms t) (m_next t) None.

Lemma cancel_spec s a t : timers_wf s -> m_heap s !! a = Some t ->
  Timer_cancel a s = match m_cb t with
    | None => (Ret false, s)
    | Some _ => (Ret true, mkTimerManager (<[a := disarm t]> (m_heap s)) (filter (.≠ a) (m_timers s))
                  (m_tickled s) (m_previouseTime s) (m_front_calls s))
    end /\ timers_wf (post (Timer_cancel a) s).
Proof.
  intros H Ha. unfold Timer_cancel, post. run (obj_spec s a t Ha). destruct (m_cb t) as [c|] eqn:Ec; [|done].
  destruct (armed_split s a t H Ha) as (l1 & l2 & E & Hn & Hok & Hf); [congruence|].
  unfold put_obj. run_pure. unfold id. fold (disarm t). simpl.
  assert (set_find (<[a := disarm t]> (m_heap s)) a (m_timers s) = length l1) as Hf'.
  { rewrite E. apply set_find_hit. rewrite <- E. by apply set_ok_same_next with t; [| |apply H]. }
  rewrite Hf'.
  run (set_erase_mid (with_heap (<[a:=disarm t]> (m_heap s)) s) l1 a l2 E).
  assert (filter (.≠ a) (m_timers s) = l1 ++ l2) as Hfl.
  { rewrite E, filter_app, filter_cons_False by naive_solver. rewrite <- filter_app. apply filter_all.
    apply Forall_forall. intros x Hx ->. done. }
  rewrite Hfl. split; [done|]. split; simpl.
  - by apply set_ok_same_next with t.
  - intros b t' [[<- <-]|[Hne Hb]]%lookup_insert_Some Hcb; [done|].
    pose proof (wf_armed s H b t' Hb Hcb) as Hin. rewrite E in Hin. set_solver.
Qed.

(** The new deadline of a refreshed or reset timer, put back into the set. *)
Lemma requeue s a t l1 l2 : timers_wf s -> m_heap s !! a = Some t ->
  m_timers s = l1 ++ a :: l2 -> a ∉ l1 ++ l2 -> set_ok (m_heap s) (l1 ++ l2) -> forall t' k1 k2,
  l1 ++ l2 = k1 ++ k2 -> set_ok (<[a := t']> (m_heap s)) (k1 ++ a :: k2) ->
  forall tk pv fc, timers_wf (mkTimerManager (<[a := t']> (m_heap s)) (k1 ++ a :: k2) tk pv fc).
Proof.
  intros H Ha E Hn Hok t' k1 k2 Ek Hok' tk pv fc. split; [done|]. simpl.
  intros b u [[<- <-]|[Hne Hb]]%lookup_insert_Some Hcb; [set_solver|].
  pose proof (wf_armed s H b u Hb Hcb) as Hin.
  assert (b ∈ l1 ++ l2) as Hin' by (rewrite E in Hin; set_solver). rewrite Ek in Hin'. set_solver.
Qed.

Lemma refresh_spec s now a t : timers_wf s -> m_heap s !! a = Some t ->
  match m_cb t with
  | None => Timer_refresh now a s = (Ret false, s)
  | Some _ => exists l, l ≡ₚ m_timers s /\ Timer_refresh now a s =
      (Ret true, mkTimerManager
        (<[a := mkTimer (m_recurring t) (m_ms t) (wrap 64 (now + m_ms t)) (m_cb t)]> (m_heap s)) l
        (m_tickled s) (m_previouseTime s) (m_front_calls s))
  end /\ timers_wf (post (Timer_refresh now a) s).
Proof.
  intros H Ha. unfold Timer_refresh, post. run (obj_spec s a t Ha). destruct (m_cb t) as [c|] eqn:Ec; [|done].
  destruct (armed_split s a t H Ha) as (l1 & l2 & E & Hn & Hok & Hf); [congruence|].
  run_pure. unfold id. rewrite Hf, (proj2 (Nat.eqb_neq _ _)) by (rewrite E, length_app; simpl; lia).
  run (set_erase_mid s l1 a l2 E). unfold put_obj. run_pure. set (t' := mkTimer _ _ _ _). simpl.
  destruct (set_insert_spec (<[a := t']> (m_heap s)) a (l1 ++ l2)) as (k1 & k2 & Ek & Hi & Hok');
    [by apply set_ok_insert_heap|by rewrite lookup_insert_eq|done|]. rewrite Hi. simpl. split.
  - exists (k1 ++ a :: k2). split; [|done]. by rewrite E, <- !Permutation_middle, Ek.
  - by apply (requeue s a t l1 l2).
Qed.

Lemma reset_spec s now a t ms (from_now : bool) : timers_wf s -> m_heap s !! a = Some t ->
  let start := if from_now then now else wrap 64 (m_next t - m_ms t) in
  let t' := mkTimer (m_recurring t) ms (wrap 64 (start + ms)) (m_cb t) in
  (if (ms =? m_ms t)%Z && negb from_now then Timer_reset now a ms from_now s = (Ret true, s)
   else match m_cb t with
   | None => Timer_reset now a ms from_now s = (Ret false, s)
   | Some _ => exists k1 k2, k1 ++ a :: k2 ≡ₚ m_timers s /\ Timer_reset now a ms from_now s =
       (Ret true, mkTimerManager (<[a := t']> (m_heap s)) (k1 ++ a :: k2)
         (m_tickled s || at_front s k1) (m_previouseTime s)
         (m_front_calls s + (if at_front s k1 then 1 else 0)))
   end) /\ timers_wf (post (Timer_reset now a ms from_now) s).
Proof.
  intros H Ha start t'. unfold Timer_reset, post. run (obj_spec s a t Ha).
  destruct (_ && _); [done|]. destruct (m_cb t) as [c|] eqn:Ec; [|done].
  destruct (armed_split s a t H Ha) as (l1 & l2 & E & Hn & Hok & Hf); [congruence|].
  run_pure. unfold id. rewrite Hf, (proj2 (Nat.eqb_neq _ _)) by (rewrite E, length_app; simpl; lia).
  run (set_erase_mid s l1 a l2 E). unfold put_obj. run_pure. fold start t'. set (s1 := with_heap _ _).
  destruct (addTimer_locked_spec s1 a) as (k1 & k2 & Ek & Hok' & R);
    [by apply set_ok_insert_heap|by simpl; rewrite lookup_insert_eq|done|]. run R. split.
  - exists k1, k2. split; [|done]. simpl in Ek. by rewrite E, <- !Permutation_middle, Ek.
  - by apply (requeue s a t l1 l2).
Qed.

Lemma getNextTimer_spec s now : timers_wf s ->
  getNextTimer now s = (Ret match m_timers s with
    | [] => (2 ^ 64 - 1)%Z
    | a :: _ => match m_heap s !! a with
                | Some t => if (m_next t <=? now)%Z then 0%Z else (m_next t - now)%Z
                | None => 0%Z end
    end, with_tickled false s).
Proof.
  intros [[_ Hl] _]. unfold getNextTimer. run_pure. unfold id. simpl.
  destruct (m_timers s) as [|a l] eqn:E; [done|]. destruct (Hl a ltac:(set_solver)) as [t Ht].
  run (obj_spec (with_tickled false s) a t Ht). rewrite Ht. by destruct (_ <=? _)%Z.
Qed.

Lemma wf_listExpired s addr now : timers_wf s -> m_heap s !! addr = None ->
  timers_wf (post (listExpiredCb addr now) s).
Proof.
  intros H Ha. destruct (listExpiredCb_spec s addr now H Ha) as (l & R & Hok & Hp). unfold post. rewrite R.
  split; [done|]. simpl. intros a t Hat Hcb. rewrite Hp, elem_of_app.
  assert (NoDup (expiring s now)) as Hnd by (apply NoDup_filter; eapply set_ok_nodup; apply H).
  destruct (decide (a ∈ expiring s now)) as [Hin|Hin].
  - right. rewrite rearm_all_in in Hat by done. apply fmap_Some in Hat as (t0 & Ht0 & ->).
    apply list_elem_of_filter. split; [|done]. unfold recurs. rewrite Ht0.
    unfold rearm in Hcb. by destruct (m_recurring t0).
  - left. rewrite rearm_all_other in Hat by done. pose proof (wf_armed s H a t Hat Hcb) as Hs.
    unfold expiring, staying in *. rewrite list_elem_of_filter in Hin |- *. naive_solver.
Qed.
End ops.

Section properties.
Context {F : Type}.
Implicit Types (s : TimerManager F) (o : timer_op F).

Lemma exec_ok now o s : timers_wf s -> op_ok s o ->
  exists s', exec now o s = (Ret tt, s') /\ timers_wf s'.
Proof.
  intros H Ho. destruct o as [addr ms cb rec|addr ms f w rec|a|a|a ms fn| |addr]; simpl in *.
  - destruct (addTimer_spec s addr now ms cb rec H Ho) as (l1 & l2 & _ & R & W).
    unfold post in W. rewrite R in W. eexists. run R. by split.
  - destruct (addTimer_spec s addr now ms (Some (OnTimer w f)) rec H Ho) as (l1 & l2 & _ & R & W).
    unfold post in W. rewrite R in W. unfold addConditionTimer. eexists. run R. by split.
  - destruct Ho as [t Ht]. destruct (cancel_spec s a t H Ht) as [R W]. unfold post in W. rewrite R in W.
    destruct (m_cb t); eexists; run R; by split.
  - destruct Ho as [t Ht]. destruct (refresh_spec s now a t H Ht) as [R W]. unfold post in W.
    destruct (m_cb t); [destruct R as (l & _ & R)|]; rewrite R in W; eexists; run R; by split.
  - destruct Ho as [t Ht]. destruct (reset_spec s now a t ms fn H Ht) as [R W]. unfold post in W.
    destruct (_ && _); [|destruct (m_cb t); [destruct R as (k1 & k2 & _ & R)|]];
      rewrite R in W; eexists; run R; by split.
  - eexists. run (getNextTimer_spec s now H). split; [done|]. by destruct H.
  - destruct (listExpiredCb_spec s addr now H Ho) as (l & R & _).
    pose proof (wf_listExpired s addr now H Ho) as W. unfold post in W. rewrite R in W.
    eexists. run R. by split.
Qed.

Lemma reachable_wf s : reachable s -> timers_wf s.
Proof.
  induction 1 as [now|s now o r s' Hr IH Ho Hx].
  - split; [|set_solver]. split; [constructor|]. intros a Ha. set_solver.
  - destruct (exec_ok now o s IH Ho) as (s1 & E & W). congruence.
Qed.

(** C3: However timers are added, cancelled, refreshed, reset and expired,
    the manager stays consistent (the set is strictly ordered by deadline and
    address, every element is a live timer, every timer that still has its
    callback is in the set) and no operation fails: in particular [cancel]
    never erases [end()]. *)
Theorem timers_always_consistent s : reachable s ->
  timers_wf s /\ forall now o, op_ok s o -> exists s', exec now o s = (Ret tt, s') /\ timers_wf s'.
Proof.
  intros H. pose proof (reachable_wf s H) as W. split; [done|]. intros now o Ho. by apply exec_ok.
Qed.

(** C7: [listExpiredCb] hands out exactly the callbacks of the timers whose
    deadline is not after [now] (of all timers when the clock rolled over),
    earliest deadline first; of those the recurring ones are re-armed one
    period after [now] and the others leave the set and lose their callback;
    every other timer keeps its place and its deadline. *)
Theorem listExpiredCb_exact s addr now : timers_wf s -> m_heap s !! addr = None ->
  exists s', listExpiredCb addr now s = (Ret (callback_of (m_heap s) <$> expiring s now), s') /\
    timers_wf s' /\
    m_timers s = expiring s now ++ staying s now /\
    m_timers s' ≡ₚ staying s now ++ filter (recurs (m_heap s)) (expiring s now) /\
    (forall a, m_heap s' !! a =
       if decide (a ∈ expiring s now) then rearm now <$> m_heap s !! a else m_heap s !! a) /\
    m_front_calls s' = m_front_calls s.
Proof.
  intros H Ha. destruct (listExpiredCb_spec s addr now H Ha) as (l & R & Hok & Hp).
  pose proof (wf_listExpired s addr now H Ha) as W. unfold post in W. rewrite R in W.
  eexists. split_and!; [exact R|exact W| |exact Hp| |done].
  - apply (scan_spec s now addr (wf_set s H) Ha).
  - intros a. simpl. destruct (decide (a ∈ expiring s now)).
    + apply rearm_all_in; [|done]. apply NoDup_filter. eapply set_ok_nodup. apply H.
    + by apply rearm_all_other.
Qed.

(** [getNextTimer] is the time to the earliest deadline: all ones when
    there is no timer, 0 when one is due, and otherwise a wait after which
    some timer, but before which no timer, is due. *)
Theorem getNextTimer_earliest s now : timers_wf s ->
  exists w, getNextTimer now s = (Ret w, with_tickled false s) /\
    (m_timers s = [] -> w = 2 ^ 64 - 1)%Z /\
    (m_timers s <> [] ->
       (exists a, a ∈ m_timers s /\ due (m_heap s) (now + w) a) /\ (0 <= w)%Z /\
       forall a later, a ∈ m_timers s -> (now <= later < now + w)%Z -> ~ due (m_heap s) later a).
Proof.
  intros H. eexists. split; [by apply getNextTimer_spec|]. pose proof (wf_set s H) as Hok.
  destruct (m_timers s) as [|a l] eqn:E; [done|]. split; [done|]. intros _.
  destruct (proj2 Hok a ltac:(set_solver)) as [t Ht]. rewrite Ht.
  pose proof (later_than_head _ _ _ _ Hok Ht) as Hall. rewrite Forall_forall in Hall.
  destruct (Z.leb_spec (m_next t) now) as [Hle|Hlt]; split_and!; try lia.
  - exists a. split; [set_solver|]. exists t. split; [done|lia].
  - exists a. split; [set_solver|]. exists t. split; [done|lia].
  - intros b later [->|Hb]%elem_of_cons Hr.
    + apply (not_due _ later a t); [done|lia].
    + destruct (Hall b Hb) as (tb & Htb & Hge). apply (not_due _ later b tb); [done|lia].
Qed.

(** A cancelled timer, and that nothing brings it back. *)
Definition dead s a : Prop := a ∉ m_timers s /\ exists t, m_heap s !! a = Some t /\ m_cb t = None.

Lemma dead_step now o s r s' a : timers_wf s -> op_ok s o -> exec now o s = (r, s') -> dead s a -> dead s' a.
Proof.
  intros H Ho Hx [Hn (t & Ht & Hcb)].
  assert (forall b u, m_heap s !! b = None -> <[b := u]> (m_heap s) !! a = Some t) as Hfresh.
  { intros b u Hb. rewrite lookup_insert_ne; [done|congruence]. }
  destruct o as [addr ms cb rec|addr ms f w rec|b|b|b ms fn| |addr]; simpl in *.
  1: destruct (addTimer_spec s addr now ms cb rec H Ho) as (l1 & l2 & E & R & _).
  2: destruct (addTimer_spec s addr now ms (Some (OnTimer w f)) rec H Ho) as (l1 & l2 & E & R & _);
       unfold addConditionTimer in Hx.
  1, 2: revert Hx; run R; intros [= <- <-]; (split; simpl;
    [assert (a <> addr) by congruence; rewrite E in Hn; set_solver|exists t; auto]).
  - destruct Ho as [u Hu]. destruct (cancel_spec s b u H Hu) as [R _].
    destruct (m_cb u) eqn:Eu; revert Hx; run R; intros [= <- <-]; [|by split; eauto].
    assert (b <> a) by congruence. split; simpl; [rewrite list_elem_of_filter; naive_solver|].
    exists t. by rewrite lookup_insert_ne.
  - destruct Ho as [u Hu]. destruct (refresh_spec s now b u H Hu) as [R _].
    destruct (m_cb u) eqn:Eu; [destruct R as (l & Hl & R)|]; revert Hx; run R; intros [= <- <-]; [|by split; eauto].
    assert (b <> a) by congruence. split; simpl; [by rewrite Hl|]. exists t. by rewrite lookup_insert_ne.
  - destruct Ho as [u Hu]. destruct (reset_spec s now b u ms fn H Hu) as [R _].
    destruct (_ && _); [revert Hx; run R; intros [= <- <-]; by split; eauto|].
    destruct (m_cb u) eqn:Eu; [destruct R as (k1 & k2 & Hl & R)|]; revert Hx; run R; intros [= <- <-]; [|by split; eauto].
    assert (b <> a) by congruence. split; simpl; [by rewrite Hl|]. exists t. by rewrite lookup_insert_ne.
  - revert Hx. run (getNextTimer_spec s now H). intros [= <- <-]. by split; eauto.
  - destruct (listExpiredCb_spec s addr now H Ho) as (l & R & _ & Hp).
    revert Hx. run R. intros [= <- <-].
    assert (a ∉ expiring s now) as Hne by (intros [_ ?]%list_elem_of_filter; done).
    split; simpl; [|exists t; by rewrite rearm_all_other].
    rewrite Hp. intros [Hin|Hin]%elem_of_app; apply list_elem_of_filter in Hin as [_ ?]; done.
Qed.

(** A run of operations from a state. *)
Inductive steps : TimerManager F -> TimerManager F -> Prop :=
| steps_refl s : steps s s
| steps_cons s now o r s' s'' : op_ok s o -> exec now o s = (r, s') -> steps s' s'' -> steps s s''.

(** A successful [cancel] is final: whatever operations follow
    (including [refresh] and [reset] of that very timer), the timer never is
    in the set again and no later [listExpiredCb] hands out its callback. *)
Theorem cancel_is_final s a s' : timers_wf s -> Timer_cancel a s = (Ret true, s') ->
  forall s'', steps s' s'' -> a ∉ m_timers s'' /\ forall now, a ∉ expiring s'' now.
Proof.
  intros H Hc. assert (exists t, m_heap s !! a = Some t) as [t Ht].
  { unfold Timer_cancel, mbind, prog_bind, obj in Hc. destruct (m_heap s !! a); [eauto|done]. }
  destruct (cancel_spec s a t H Ht) as [R W]. unfold post in W. rewrite Hc in R, W. simpl in W.
  assert (dead s' a) as Hd.
  { destruct (m_cb t); simplify_eq. split; simpl; [rewrite list_elem_of_filter; naive_solver|].
    exists (disarm t). by rewrite lookup_insert_eq. }
  intros s'' Hs. clear Hc R H Ht. induction Hs as [s2|s2 now o r s3 s4 Ho Hx Hs IH].
  - destruct Hd as [Hn _]. split; [done|]. intros now [_ ?]%list_elem_of_filter. done.
  - apply IH; [|by eapply dead_step]. destruct (exec_ok now o s2 W Ho) as (s5 & E & W'). congruence.
Qed.

(** [addTimer] returns the new timer, armed one period from now, with
    every other timer untouched; the front hook runs exactly when the new
    timer is ordered before all others and no hook ran since the last
    [getNextTimer]. *)
Theorem addTimer_wakes_front s addr now ms cb recurring : timers_wf s -> m_heap s !! addr = None ->
  exists s', addTimer addr now ms cb recurring s = (Ret addr, s') /\
    m_heap s' = <[addr := new_Timer now ms cb recurring]> (m_heap s) /\
    m_timers s' ≡ₚ addr :: m_timers s /\
    (m_front_calls s' = S (m_front_calls s) <->
       m_tickled s = false /\ Forall (before (m_heap s') addr) (m_timers s)) /\
    (m_front_calls s' <> m_front_calls s -> m_tickled s' = true).
Proof.
  intros H Ha. destruct (addTimer_spec s addr now ms cb recurring H Ha) as (l1 & l2 & E & R & W).
  unfold post in W. rewrite R in W. eexists. split; [exact R|]. simpl.
  split_and!; [done|by rewrite E, <- Permutation_middle| |].
  - destruct (wf_set _ W) as [Hs _]. simpl in Hs. rewrite E. clear R W E Ha. unfold at_front.
    destruct l1 as [|x l1]; simpl in *.
    + inversion Hs as [|? ? _ Hall]; subst. destruct (m_tickled s); simpl; split; (lia || naive_solver lia).
    + split; [lia|]. intros [_ Hall]. exfalso. inversion Hs as [|? ? _ Hx]; subst.
      apply Forall_cons in Hall as [Hax _]. rewrite Forall_app, Forall_cons in Hx. destruct Hx as (_ & Hxa & _).
      revert Hax Hxa. unfold before, Comparator. destruct (_ !! addr), (_ !! x); try done.
      destruct (Z.ltb_spec (m_next t) (m_next t0)), (Z.ltb_spec (m_next t0) (m_next t)); try done; try lia.
      rewrite !Nat.ltb_lt. lia.
  - unfold at_front. destruct (_ && _); [by rewrite orb_true_r|lia].
Qed.

(** [detectClockRollover] on every input: it remembers [now]; with at
    least an hour on the clock it reports a jump back of more than an hour;
    with less, the subtraction wraps and any step back counts. *)
Theorem rollover_detection s now : in_uint 64 now -> in_uint 64 (m_previouseTime s) ->
  exists b, detectClockRollover now s =
      (Ret b, mkTimerManager (m_heap s) (m_timers s) (m_tickled s) now (m_front_calls s)) /\
    ((3600000 <= m_previouseTime s)%Z -> (b = true <-> (now < m_previouseTime s - 3600000)%Z)) /\
    ((m_previouseTime s < 3600000)%Z -> (b = true <-> (now < m_previouseTime s)%Z)).
Proof.
  intros Hn Hp. exists (rolled_over s now). split; [apply detectClockRollover_spec|]. unfold rolled_over.
  rewrite andb_true_iff, !Z.ltb_lt. unfold in_uint in *. split; intros Hh.
  - rewrite wrap_id by (split; lia). lia.
  - assert (wrap 64 (m_previouseTime s - 60 * 60 * 1000) = m_previouseTime s - 3600000 + 2 ^ 64)%Z as ->.
    { unfold wrap. rewrite <- (Z.mod_add _ 1) by lia. rewrite Z.mod_small; lia. }
    lia.
Qed.
End properties.

(** * Concrete instances *)

(** At time 100: a one-shot timer (address 7) in 10 ms and a recurring one
    (address 3) every 20 ms. *)
Definition example_ops : list (timer_op nat) :=
  [AddTimer 7 10 (Some (Plain 1)) false; AddTimer 3 20 (Some (Plain 2)) true].

Definition example_mgr : TimerManager nat :=
  foldl (fun s o => post (exec 100 o) s) (new_TimerManager 100) example_ops.

Lemma example_reachable : reachable example_mgr.
Proof.
  pose (o := AddTimer 7 10 (Some (Plain 1)) false).
  apply (reach_step (post (exec 100 o) (new_TimerManager 100)) 100%Z (AddTimer 3 20 (Some (Plain 2)) true) (Ret tt)); [|reflexivity|reflexivity].
  apply (reach_step (new_TimerManager 100) 100%Z o (Ret tt)); [|reflexivity|reflexivity].
  apply reach_new.
Qed.

Lemma timers_always_consistent_witness :
  exists s', exec 105 (Cancel 7) example_mgr = (Ret tt, s') /\ timers_wf s'.
Proof.
  apply (timers_always_consistent example_mgr); [apply example_reachable|].
  exists (new_Timer 100 10 (Some (Plain 1)) false). reflexivity.
Defined.

Lemma listExpiredCb_exact_witness :
  exists s', listExpiredCb 9 120 example_mgr = (Ret [Some (Plain 1); Some (Plain 2)], s') /\
    timers_wf s' /\ m_timers s' ≡ₚ [3].
Proof.
  destruct (listExpiredCb_exact example_mgr 9 120) as (s' & R & W & _ & P & _);
    [apply reachable_wf, example_reachable|reflexivity|].
  exists s'. split; [exact R|]. split; [exact W|exact P].
Defined.

Lemma getNextTimer_earliest_witness :
  exists w, getNextTimer 104 example_mgr = (Ret w, with_tickled false example_mgr) /\ (0 <= w)%Z.
Proof.
  destruct (getNextTimer_earliest example_mgr 104) as (w & R & _ & H);
    [apply reachable_wf, example_reachable|].
  exists w. split; [exact R|]. apply H. vm_compute. discriminate.
Defined.

Lemma cancel_is_final_witness :
  3 ∉ m_timers (post (Timer_cancel 3) example_mgr).
Proof.
  apply (cancel_is_final example_mgr 3 (post (Timer_cancel 3) example_mgr));
    [apply reachable_wf, example_reachable|reflexivity|apply steps_refl].
Defined.

Lemma addTimer_wakes_front_witness :
  exists s', addTimer 8 100 1 (Some (Plain 3)) false (with_tickled false example_mgr) = (Ret 8, s') /\
    m_timers s' ≡ₚ [8; 7; 3].
Proof.
  destruct (addTimer_wakes_front (with_tickled false example_mgr) 8 100 1 (Some (Plain 3)) false)
    as (s' & R & _ & P & _); [split; apply (reachable_wf _ example_reachable)|reflexivity|].
  exists s'. split; [exact R|exact P].
Defined.

Lemma rollover_detection_witness :
  out (detectClockRollover 5) (new_TimerManager (F := nat) 4000000) = Ret true.
Proof.
  destruct (rollover_detection (new_TimerManager (F := nat) 4000000) 5) as (b & R & H & _);
    [split; lia|split; simpl; lia|]. unfold out. rewrite R. simpl. f_equal.
  apply H; simpl; lia.
Defined.
