(* ===== verification/Fiber.v ===== *)
(** [sherry/fiber.cc]: the fibers of one thread with their contexts - the
    thread's own fiber, the fiber the scheduler runs on, and the tasks.

    A callback is a number, [body] its code: a list of what it does with
    fibers, and [Do n] for the rest.  A context is where it continues: at the
    entry function that [makecontext] was given, in the code of a fiber, or
    behind the last [swapOut] of an entry function.  [swapcontext] stores the
    running code in one context and goes on with another.  Reference counts
    are left out: [Drop] is the last owner letting go.  The states alone, for
    any number of threads, are in [Scheduler]. *)

From stdpp Require Import base list gmap strings.
From S2P Require Import Prelude.
From Stdlib Require Import ZArith Lia.

Inductive State : Type := INIT | HOLD | EXEC | TERM | READY | EXCEPT.
#[export] Instance fiber_State_eq_dec : EqDecision State.
Proof. solve_decision. Defined.
Definition ended (s : State) : bool := match s with TERM | EXCEPT => true | _ => false end.
(** [m_state == TERM || m_state == EXCEPT || m_state == INIT] *)
Definition resettable (s : State) : bool := match s with TERM | EXCEPT | INIT => true | _ => false end.

Inductive fop : Type :=
| Do (n : nat)
| SwapIn (f : nat)
| Call (f : nat)
| YieldToReady
| YieldToHold
| Raise
| New (cb : nat) (use_caller : bool)
| Reset (f : nat) (cb : option nat)
| Drop (f : nat).

(** [Entry true] is [CallerMainFunc], [Entry false] is [MainFunc].  [Code]
    carries whose code it is (the [cur] of the entry function) and under which
    entry function it runs, if under any.  [Over]: behind the last switch.
    [Stale]: what [getcontext] stored in the constructor, whose frame is gone. *)
Inductive ctx : Type :=
| Entry (use_caller : bool)
| Code (owner : nat) (entry : option bool) (rest : list fop)
| Over
| Stale.

Record Fiber : Type := mkFiber { m_id : Z; m_state : State; m_stack : bool; m_cb : option nat; m_ctx : ctx }.

(** [w_cur], [w_thr]: [t_fiber] and [t_threadFiber] of [fiber.cc]; [w_main]:
    [Scheduler::GetMainFiber]; [w_count], [w_ids]: [s_fiber_count] and
    [s_fiber_id]; [w_log]: what [Do] did - whose code it is and which fiber
    [GetThis] gives it. *)
Record world : Type := mkWorld {
  w_heap : gmap nat Fiber; w_alloc : nat;
  w_cur : option nat; w_thr : option nat; w_main : option nat;
  w_running : ctx; w_count : Z; w_ids : Z;
  w_log : list (nat * option nat * nat)
}.

Section fiber.
Variable body : nat -> list fop.

Definition set_heap (h : gmap nat Fiber) (w : world) : world :=
  mkWorld h (w_alloc w) (w_cur w) (w_thr w) (w_main w) (w_running w) (w_count w) (w_ids w) (w_log w).
Definition set_thr (t : option nat) (w : world) : world :=
  mkWorld (w_heap w) (w_alloc w) (w_cur w) t (w_main w) (w_running w) (w_count w) (w_ids w) (w_log w).
Definition set_running (c : ctx) (w : world) : world :=
  mkWorld (w_heap w) (w_alloc w) (w_cur w) (w_thr w) (w_main w) c (w_count w) (w_ids w) (w_log w).
Definition add_fiber (v : Fiber) (id : Z) (w : world) : world :=
  mkWorld (<[w_alloc w := v]> (w_heap w)) (S (w_alloc w)) (w_cur w) (w_thr w) (w_main w) (w_running w) (w_count w + 1) id (w_log w).
Definition do_log (o n : nat) (w : world) : world :=
  mkWorld (w_heap w) (w_alloc w) (w_cur w) (w_thr w) (w_main w) (w_running w) (w_count w) (w_ids w) (w_log w ++ [(o, w_cur w, n)]).
Definition del_fiber (f : nat) (w : world) : world :=
  mkWorld (delete f (w_heap w)) (w_alloc w) (w_cur w) (w_thr w) (w_main w) (w_running w) (w_count w - 1) (w_ids w) (w_log w).

Definition SetThis (f : option nat) : prog world unit :=
  modify (fun w => mkWorld (w_heap w) (w_alloc w) f (w_thr w) (w_main w) (w_running w) (w_count w) (w_ids w) (w_log w)).
Definition fiber_at (f : nat) : prog world Fiber := fun w => of_option OutOfRange (w_heap w !! f) w.
Definition put_fiber (f : nat) (v : Fiber) : prog world unit := modify (fun w => set_heap (<[f := v]> (w_heap w)) w).
Definition with_state (s : State) (v : Fiber) : Fiber := mkFiber (m_id v) s (m_stack v) (m_cb v) (m_ctx v).
Definition with_cb (cb : option nat) (v : Fiber) : Fiber := mkFiber (m_id v) (m_state v) (m_stack v) cb (m_ctx v).
Definition with_ctx (c : ctx) (v : Fiber) : Fiber := mkFiber (m_id v) (m_state v) (m_stack v) (m_cb v) c.
Definition set_state (f : nat) (s : State) : prog world unit := v ← fiber_at f; put_fiber f (with_state s v).
Definition assert (b : bool) : prog world unit := if b then mret tt else crash AssertFail.

(** The constructors. *)
Definition new_thread_Fiber : prog world nat :=
  f ← gets w_alloc;
  ids ← gets w_ids;
  modify (add_fiber (mkFiber 0 EXEC false None Stale) ids);; SetThis (Some f);; mret f.
Definition new_Fiber (cb : option nat) (use_caller : bool) : prog world nat :=
  f ← gets w_alloc;
  ids ← gets w_ids;
  modify (add_fiber (mkFiber (ids + 1) INIT true cb (Entry use_caller)) (ids + 1));; mret f.
Definition delete_Fiber (f : nat) : prog world unit :=
  v ← fiber_at f;
  (if m_stack v then assert (resettable (m_state v))
   else
     assert (bool_decide (m_cb v = None));;
     assert (bool_decide (m_state v = EXEC));;
     c ← gets w_cur;
     if bool_decide (c = Some f) then SetThis None else mret tt);;
  modify (del_fiber f).

Definition GetThis : prog world nat :=
  c ← gets w_cur;
  match c with
  | Some f => mret f
  | None => f ← new_thread_Fiber; modify (set_thr (Some f));; mret f
  end.
Definition GetFiberId : prog world Z :=
  c ← gets w_cur;
  match c with Some f => v ← fiber_at f; mret (m_id v) | None => mret 0%Z end.

(** [swapcontext(&from->m_ctx, &to->m_ctx)].  The entry functions call the
    callback of [GetThis]; an empty one throws inside their [try]. *)
Definition resume (c : ctx) : prog world unit :=
  match c with
  | Entry u =>
      f ← GetThis;
      v ← fiber_at f;
      modify (set_running (Code f (Some u) (match m_cb v with Some cb => body cb | None => [Raise] end)))
  | Code o u rest => modify (set_running c)
  | Over => crash AssertFail
  | Stale => crash OutOfRange
  end.
Definition swapcontext (from to : option nat) : prog world unit :=
  from ← of_option NullDeref from;
  to ← of_option NullDeref to;
  c ← gets w_running;
  v ← fiber_at from;
  put_fiber from (with_ctx c v);;
  v ← fiber_at to;
  resume (m_ctx v).

Definition swapIn (this : nat) : prog world unit :=
  SetThis (Some this);;
  v ← fiber_at this;
  assert (negb (bool_decide (m_state v = EXEC)));;
  set_state this EXEC;;
  main ← gets w_main;
  swapcontext main (Some this).
Definition swapOut (this : nat) : prog world unit :=
  main ← gets w_main;
  SetThis main;;
  swapcontext (Some this) main.
Definition call (this : nat) : prog world unit :=
  SetThis (Some this);;
  set_state this EXEC;;
  thr ← gets w_thr;
  swapcontext thr (Some this).
Definition back (this : nat) : prog world unit :=
  thr ← gets w_thr;
  SetThis thr;;
  swapcontext (Some this) thr.
Definition yield (s : State) : prog world unit :=
  cur ← GetThis;
  set_state cur s;;
  swapOut cur.
Definition reset (f : nat) (cb : option nat) : prog world unit :=
  v ← fiber_at f;
  assert (m_stack v);;
  assert (resettable (m_state v));;
  put_fiber f (mkFiber (m_id v) INIT true cb (Entry false)).

(** The end of [MainFunc] and [CallerMainFunc]. *)
Definition leave (cur : nat) (use_caller : bool) : prog world unit :=
  modify (set_running Over);;
  if use_caller then back cur else swapOut cur.
Definition returned (cur : nat) (use_caller : bool) : prog world unit :=
  v ← fiber_at cur;
  put_fiber cur (with_state TERM (with_cb None v));;
  leave cur use_caller.
Definition raised (cur : nat) (use_caller : bool) : prog world unit := set_state cur EXCEPT;; leave cur use_caller.

Definition exec (o : nat) (entry : option bool) (op : fop) : prog world unit :=
  match op with
  | Do n => modify (do_log o n)
  | SwapIn f => swapIn f
  | Call f => call f
  | YieldToReady => yield READY
  | YieldToHold => yield HOLD
  | Raise => match entry with Some u => raised o u | None => throw "uncaught"%string end
  | New cb u => new_Fiber (Some cb) u;; mret tt
  | Reset f cb => reset f cb
  | Drop f => delete_Fiber f
  end.
(** The next thing the running code does; the thread's own code may end. *)
Definition fstep : prog world unit := fun w =>
  match w_running w with
  | Code o entry [] => match entry with Some u => returned o u w | None => (Ret tt, w) end
  | Code o entry (op :: rest) => exec o entry op (set_running (Code o entry rest) w)
  | _ => (Ret tt, w)
  end.
Fixpoint run (n : nat) : prog world unit := match n with O => mret tt | S n => fstep;; run n end.

(** * Coroutines *)

(** What the contexts are for: every fiber has the code it has not run yet;
    one of them is running.  Switching changes which one, and nothing else. *)
Record coroutines : Type := mkCoroutines { c_code : gmap nat (list fop); c_cur : nat; c_alloc : nat; c_log : list (nat * nat) }.
Definition code_of (cb : option nat) : list fop := match cb with Some cb => body cb | None => [Raise] end.

Variables thr main : nat.
Definition up (o : nat) : nat := if decide (o = main) then thr else main.
Definition cstep (c : coroutines) : coroutines :=
  let o := c_cur c in
  match c_code c !! o with
  | None => c
  | Some [] => if decide (o = thr) then c else mkCoroutines (c_code c) (up o) (c_alloc c) (c_log c)
  | Some (op :: rest) =>
      let code := <[o := rest]> (c_code c) in
      match op with
      | Do n => mkCoroutines code o (c_alloc c) (c_log c ++ [(o, n)])
      | SwapIn f | Call f => mkCoroutines code f (c_alloc c) (c_log c)
      | YieldToReady | YieldToHold => mkCoroutines code main (c_alloc c) (c_log c)
      | Raise => mkCoroutines (<[o := []]> code) (up o) (c_alloc c) (c_log c)
      | New cb _ => mkCoroutines (<[c_alloc c := body cb]> code) o (S (c_alloc c)) (c_log c)
      | Reset f cb => mkCoroutines (<[f := code_of cb]> code) o (c_alloc c) (c_log c)
      | Drop f => mkCoroutines (delete f code) o (c_alloc c) (c_log c)
      end
  end.

(** The discipline of the callers: tasks are swapped in by the fiber the
    scheduler runs on, when they neither run nor ended; only tasks yield; the
    thread's own fiber calls that fiber, once, if it is another; no fiber is
    reset or dropped that runs, waits or is one of the two. *)
Definition task (o f : nat) : bool := negb (bool_decide (f = o)) && negb (bool_decide (f = thr)) && negb (bool_decide (f = main)).
Definition allowed (w : world) : bool :=
  match w_running w with
  | Code o _ (op :: _) =>
      match op with
      | Do _ | New _ _ => true
      | SwapIn f => bool_decide (o = main) && task o f &&
          match w_heap w !! f with
          | Some v => negb (ended (m_state v)) && negb (bool_decide (m_state v = EXEC)) && match m_ctx v with Entry true => false | _ => true end
          | None => false
          end
      | Call f => bool_decide (o = thr) && bool_decide (f = main) && negb (bool_decide (main = thr)) &&
          match w_heap w !! f with Some v => match m_ctx v with Entry true => true | _ => false end | None => false end
      | YieldToReady | YieldToHold => negb (bool_decide (o = main)) && negb (bool_decide (o = thr))
      | Raise => negb (bool_decide (o = thr))
      | Reset f _ | Drop f => task o f && match w_heap w !! f with Some v => resettable (m_state v) | None => false end
      end
  | _ => true
  end.
Fixpoint disciplined (n : nat) (w : world) : bool :=
  match n with O => true | S n => allowed w && disciplined n (post fstep w) end.

(** ** The invariant *)

Definition entry_of (o : nat) : option bool := if decide (o = thr) then None else if decide (o = main) then Some true else Some false.
Definition parked (f : nat) (v : Fiber) : Prop :=
  (exists u, m_ctx v = Entry u) \/ (exists r, m_ctx v = Code f (Some false) r) \/ m_ctx v = Over /\ ended (m_state v) = true.
Record inv (w : world) (o : nat) (rest : list fop) : Prop := mkInv {
  inv_running : w_running w = Code o (entry_of o) rest;
  inv_cur : w_cur w = Some o;
  inv_thr : w_thr w = Some thr;
  inv_main : w_main w = Some main;
  inv_here : is_Some (w_heap w !! o);
  inv_main_here : is_Some (w_heap w !! main);
  inv_fresh : forall f, is_Some (w_heap w !! f) -> f < w_alloc w;
  inv_main_ctx : o <> main -> o <> thr -> exists v r, w_heap w !! main = Some v /\ m_ctx v = Code main (entry_of main) r;
  inv_thr_ctx : o <> thr -> exists v r, w_heap w !! thr = Some v /\ m_ctx v = Code thr None r;
  inv_tasks : forall f v, f <> thr -> f <> main -> w_heap w !! f = Some v -> m_stack v = true /\ (f <> o -> parked f v);
  inv_log : Forall (fun e => e.1.2 = Some e.1.1) (w_log w)
}.
Definition code_at (w : world) (o : nat) (rest : list fop) (f : nat) : option (list fop) :=
  v ← w_heap w !! f;
  Some (if decide (f = o) then rest else match m_ctx v with Code _ _ r => r | Entry _ => code_of (m_cb v) | _ => [] end).
Definition refines_code (w : world) (o : nat) (rest : list fop) (c : coroutines) : Prop :=
  c_cur c = o /\ c_alloc c = w_alloc w /\ (forall f, c_code c !! f = code_at w o rest f) /\
  w_log w = (fun e => (e.1, Some e.1, e.2)) <$> c_log c.
Definition refines (w : world) (c : coroutines) : Prop := exists o rest, inv w o rest /\ refines_code w o rest c.

(** A switch to a fiber that is the current one already. *)
Definition entered (to : nat) (v : Fiber) : option ctx :=
  match m_ctx v with Code o u r => Some (Code o u r) | Entry u => Some (Code to (Some u) (code_of (m_cb v))) | _ => None end.
Lemma swapcontext_run from to w v vt c : w_heap w !! from = Some v -> w_heap w !! to = Some vt -> from <> to ->
  w_cur w = Some to -> entered to vt = Some c ->
  swapcontext (Some from) (Some to) w = (Ret tt, set_running c (set_heap (<[from := with_ctx (w_running w) v]> (w_heap w)) w)).
Proof.
  intros Hv Ht Hne Hc He. unfold swapcontext, fiber_at, put_fiber. unfold mbind, prog_bind, gets, modify, of_option, mret, prog_ret. simpl.
  rewrite Hv. simpl. rewrite lookup_insert_ne by done. rewrite Ht. simpl. unfold entered in He.
  destruct (m_ctx vt) as [u|o u r| |]; simplify_eq/=; [|done]. unfold resume, GetThis, fiber_at, mbind, prog_bind, gets, of_option, modify, mret, prog_ret. simpl.
  rewrite Hc. simpl. rewrite lookup_insert_ne by done. by rewrite Ht.
Qed.

(** After a switch from [o], whose context is [vo'] now, to [f]. *)
Lemma switch_refines w c o rest f vo vf vo' vf' ro rf code w' : inv w o rest -> refines_code w o rest c ->
  o <> f -> w_heap w !! o = Some vo -> w_heap w !! f = Some vf -> m_stack vo' = m_stack vo -> m_stack vf' = m_stack vf ->
  m_ctx vo' = Code o (entry_of o) ro \/ m_ctx vo' = Over /\ ended (m_state vo') = true /\ ro = [] /\ o <> thr /\ (f = thr \/ f = main) ->
  (f = thr \/ f = main \/ o = main) -> code_at w o rest f = Some rf -> (forall g, code !! g = <[o := ro]> (c_code c) !! g) ->
  w_heap w' = <[o := vo']> (<[f := vf']> (w_heap w)) -> w_alloc w' = w_alloc w -> w_cur w' = Some f -> w_thr w' = w_thr w ->
  w_main w' = w_main w -> w_running w' = Code f (entry_of f) rf -> w_log w' = w_log w ->
  refines w' (mkCoroutines code f (c_alloc c) (c_log c)).
Proof.
  intros [Hrun Hcur Hthr Hmain Hhere Hmhere Hfresh Hmc Htc Htasks Hlog] (Hc1 & Hc2 & Hc3 & Hc4) Hne Ho Hf Hso Hsf Hctx Hside Hrf Hcode E1 E2 E3 E4 E5 E6 E7.
  assert (forall g, g <> o -> g <> f -> w_heap w' !! g = w_heap w !! g) as Hother by (intros g ? ?; by rewrite E1, !lookup_insert_ne by done).
  assert (w_heap w' !! o = Some vo') as Ho' by (by rewrite E1, lookup_insert_eq).
  assert (w_heap w' !! f = Some vf') as Hf' by (by rewrite E1, lookup_insert_ne, lookup_insert_eq by done).
  exists f, rf. split; [|unfold refines_code; simpl; split_and!; [done|congruence| |congruence]].
  - split; try congruence; rewrite ?E7; try done; try by eexists.
    + destruct (decide (main = o)) as [->|]; [by eexists|]. destruct (decide (main = f)) as [->|]; [by eexists|]. by rewrite Hother.
    + intros g. rewrite E2. destruct (decide (g = o)) as [->|]; [intros _; apply Hfresh; by eexists|].
      destruct (decide (g = f)) as [->|]; [intros _; apply Hfresh; by eexists|]. rewrite Hother by done. apply Hfresh.
    + intros H1 H2. destruct Hside as [?|[?| ->]]; [done..|]. exists vo', ro. split; [done|].
      by destruct Hctx as [?|(_ & _ & _ & _ & [?|?])].
    + intros H1. destruct (decide (o = thr)) as [->|Hot].
      * exists vo', ro. split; [done|]. destruct Hctx as [->|(_ & _ & _ & ? & _)]; [|done]. unfold entry_of. by rewrite decide_True.
      * rewrite Hother by done. by apply Htc.
    + intros g v Hg1 Hg2 Hg. destruct (decide (g = o)) as [->|]; [|destruct (decide (g = f)) as [->|]].
      * rewrite Ho' in Hg. injection Hg as <-. rewrite Hso. split; [by apply (Htasks o)|]. intros _.
        destruct Hctx as [Hctx|(Hctx & He & _)]; [right; left|by right; right]. exists ro. rewrite Hctx. unfold entry_of. by rewrite !decide_False.
      * rewrite Hf' in Hg. injection Hg as <-. rewrite Hsf. split; [by apply (Htasks f)|done].
      * rewrite Hother in Hg by done. destruct (Htasks g v) as [? Hp]; [done..|]. split; [done|auto].
  - intros g. rewrite Hcode. unfold code_at. destruct (decide (g = o)) as [->|Hgo]; [|destruct (decide (g = f)) as [->|Hgf]].
    + rewrite lookup_insert_eq, Ho'. simpl. rewrite decide_False by done. by destruct Hctx as [->|(-> & _ & -> & _)].
    + rewrite lookup_insert_ne by done. by rewrite Hc3, Hrf, Hf'.
    + rewrite lookup_insert_ne by done. rewrite Hc3, Hother by done. unfold code_at. destruct (w_heap w !! g); [|done]. simpl. by rewrite ?decide_False by done.
Qed.

(** What the fiber above has stored. *)
Lemma up_entered w o rest : inv w o rest -> o <> thr -> exists vf rf, o <> up o /\ w_heap w !! up o = Some vf /\
  entered (up o) vf = Some (Code (up o) (entry_of (up o)) rf) /\ code_at w o rest (up o) = Some rf.
Proof.
  intros H Ho. unfold up. destruct (decide (o = main)) as [->|Hm].
  - destruct (inv_thr_ctx _ _ _ H Ho) as (v & r & Hv & Hc). exists v, r. split_and!; [done|done| |].
    + unfold entered, entry_of. by rewrite Hc, decide_True.
    + unfold code_at. rewrite Hv. simpl. by rewrite decide_False, Hc by done.
  - destruct (inv_main_ctx _ _ _ H Hm Ho) as (v & r & Hv & Hc). exists v, r. split_and!; [done|done| |].
    + unfold entered. by rewrite Hc.
    + unfold code_at. rewrite Hv. simpl. by rewrite decide_False, Hc by done.
Qed.
Lemma up_side o : up o = thr \/ up o = main.
Proof. unfold up. case_decide; auto. Qed.

(** A switch of [o] to the fiber above; [v1] is the fiber then. *)
Lemma up_refines w c o rest v v1 c1 w1 code ro : inv w o rest -> refines_code w o rest c -> o <> thr -> w_heap w !! o = Some v -> m_stack v1 = m_stack v ->
  c1 = Code o (entry_of o) ro \/ c1 = Over /\ ended (m_state v1) = true /\ ro = [] ->
  (forall g, code !! g = <[o := ro]> (c_code c) !! g) ->
  w_heap w1 = <[o := v1]> (w_heap w) -> w_alloc w1 = w_alloc w -> w_cur w1 = Some (up o) -> w_thr w1 = w_thr w -> w_main w1 = w_main w ->
  w_running w1 = c1 -> w_log w1 = w_log w ->
  exists w', swapcontext (Some o) (Some (up o)) w1 = (Ret tt, w') /\ refines w' (mkCoroutines code (up o) (c_alloc c) (c_log c)).
Proof.
  intros Hinv Hcode Ho Hv Hs Hc1 Hg E1 E2 E3 E4 E5 E6 E7. destruct (up_entered w o rest Hinv Ho) as (vf & rf & Hne & Hvf & He & Hrf).
  assert (w_heap w1 !! up o = Some vf) as Hvf1 by (by rewrite E1, lookup_insert_ne).
  eexists. split; [apply (swapcontext_run o (up o) w1 v1 vf); [by rewrite E1, lookup_insert_eq|done..]|].
  eapply (switch_refines w c o rest (up o) v vf (with_ctx c1 v1) vf ro rf); try done; simpl; rewrite ?E1; try done.
  - destruct Hc1 as [->|(-> & He1 & ->)]; [by left|right]. split_and!; try done. apply up_side.
  - destruct (up_side o); auto.
  - rewrite E6, insert_insert_eq. by rewrite (insert_id (w_heap w) (up o)).
Qed.

Lemma leave_refines w c o rest v v1 w1 code : inv w o rest -> refines_code w o rest c -> o <> thr -> w_heap w !! o = Some v -> m_stack v1 = m_stack v ->
  ended (m_state v1) = true -> (forall g, code !! g = <[o := []]> (c_code c) !! g) ->
  w_heap w1 = <[o := v1]> (w_heap w) -> w_alloc w1 = w_alloc w -> w_thr w1 = w_thr w -> w_main w1 = w_main w -> w_log w1 = w_log w ->
  exists w', leave o (if decide (o = main) then true else false) w1 = (Ret tt, w') /\ refines w' (mkCoroutines code (up o) (c_alloc c) (c_log c)).
Proof.
  intros Hinv Hcode Ho Hv Hs He Hg E1 E2 E4 E5 E7.
  destruct (up_refines w c o rest v v1 Over (mkWorld (w_heap w1) (w_alloc w1) (Some (up o)) (w_thr w1) (w_main w1) Over (w_count w1) (w_ids w1) (w_log w1)) code [])
    as (w' & E & H); auto. exists w'. split; [|done]. rewrite <- E. unfold leave, back, swapOut, SetThis, up.
  pose proof (inv_thr _ _ _ Hinv) as Ht. pose proof (inv_main _ _ _ Hinv) as Hm.
  case_decide; run_pure; simpl; rewrite ?E4, ?E5, ?Ht, ?Hm; reflexivity.
Qed.

(** A switch to a fiber below, which is EXEC then. *)
Lemma down_refines w c o op rest f vo vf rf w1 code : inv w o (op :: rest) -> refines_code w o (op :: rest) c -> o <> f ->
  w_heap w !! o = Some vo -> w_heap w !! f = Some vf -> entered f vf = Some (Code f (entry_of f) rf) -> code_at w o (op :: rest) f = Some rf ->
  f = main \/ o = main -> (forall g, code !! g = <[o := rest]> (c_code c) !! g) ->
  w_heap w1 = <[f := with_state EXEC vf]> (w_heap w) -> w_alloc w1 = w_alloc w -> w_cur w1 = Some f -> w_thr w1 = w_thr w -> w_main w1 = w_main w ->
  w_running w1 = Code o (entry_of o) rest -> w_log w1 = w_log w ->
  exists w', swapcontext (Some o) (Some f) w1 = (Ret tt, w') /\ refines w' (mkCoroutines code f (c_alloc c) (c_log c)).
Proof.
  intros Hinv Hcode Hne Hvo Hvf He Hrf Hside Hg E1 E2 E3 E4 E5 E6 E7. eexists. split.
  - apply (swapcontext_run o f w1 vo (with_state EXEC vf)); [by rewrite E1, lookup_insert_ne|by rewrite E1, lookup_insert_eq|done..|exact He].
  - eapply (switch_refines w c o (op :: rest) f vo vf (with_ctx (Code o (entry_of o) rest) vo) (with_state EXEC vf) rest rf); try done; simpl.
    + by left.
    + destruct Hside; auto.
    + by rewrite E1, E6.
Qed.

Lemma task_entered w o rest f v : inv w o rest -> f <> o -> f <> thr -> f <> main -> w_heap w !! f = Some v -> ended (m_state v) = false ->
  match m_ctx v with Entry true => False | _ => True end ->
  exists rf, entered f v = Some (Code f (entry_of f) rf) /\ code_at w o rest f = Some rf.
Proof.
  intros Hinv H1 H2 H3 Hv He Hc. destruct (inv_tasks _ _ _ Hinv f v H2 H3 Hv) as [_ Hp]. specialize (Hp H1).
  unfold entered, code_at, entry_of. rewrite Hv. simpl. rewrite !decide_False by done.
  destruct Hp as [[u Hp]|[[r Hp]|[_ Hp]]]; [| |congruence]; rewrite Hp in Hc |- *; [destruct u; [done|]|]; eauto.
Qed.

(** Nothing is switched; only tasks change. *)
Lemma stay_refines w c o op rest w' code al lg : inv w o (op :: rest) -> refines_code w o (op :: rest) c ->
  w_running w' = Code o (entry_of o) rest -> w_cur w' = w_cur w -> w_thr w' = w_thr w -> w_main w' = w_main w ->
  (forall g, g = o \/ g = thr \/ g = main -> w_heap w' !! g = w_heap w !! g) ->
  (forall g v, g <> thr -> g <> main -> g <> o -> w_heap w' !! g = Some v -> m_stack v = true /\ parked g v) ->
  (forall g, is_Some (w_heap w' !! g) -> g < w_alloc w') -> al = w_alloc w' -> (forall g, code !! g = code_at w' o rest g) ->
  w_log w' = (fun e => (e.1, Some e.1, e.2)) <$> lg -> refines w' (mkCoroutines code o al lg).
Proof.
  intros [Hrun Hcur Hthr Hmain Hhere Hmhere Hfresh Hmc Htc Htasks Hlog] _ E1 E2 E3 E4 Hsame Hother Hf -> Hcode Hlg. exists o, rest. split; [|by split_and!].
  split; try congruence.
  - rewrite Hsame by auto. done.
  - rewrite Hsame by auto. done.
  - exact Hf.
  - intros H1 H2. destruct (Hmc H1 H2) as (v & r & Hv & Hc). exists v, r. by rewrite Hsame by auto.
  - intros H1. destruct (Htc H1) as (v & r & Hv & Hc). exists v, r. by rewrite Hsame by auto.
  - intros g v H1 H2. destruct (decide (g = o)) as [->|H3]; [rewrite Hsame by auto; intros Hg; split; [by apply (Htasks o)|done]|].
    intros Hg. by destruct (Hother g v).
  - rewrite Hlg, Forall_fmap. by apply Forall_true.
Qed.

Lemma run_state f st v w : w_heap w !! f = Some v -> set_state f st w = (Ret tt, set_heap (<[f := with_state st v]> (w_heap w)) w).
Proof. intros H. unfold set_state, fiber_at, put_fiber, mbind, prog_bind, of_option, modify, mret, prog_ret. by rewrite H. Qed.
Lemma run_at f v w : w_heap w !! f = Some v -> fiber_at f w = (Ret v, w).
Proof. intros H. unfold fiber_at. by rewrite H. Qed.

Lemma code_here w c o rest : inv w o rest -> refines_code w o rest c -> c_code c !! c_cur c = Some rest.
Proof.
  intros Hinv (-> & _ & Hc & _). rewrite Hc. unfold code_at. destruct (inv_here _ _ _ Hinv) as [v ->]. simpl. by rewrite decide_True.
Qed.

Lemma end_refines w c o : inv w o [] -> refines_code w o [] c -> exists w', fstep w = (Ret tt, w') /\ refines w' (cstep c).
Proof.
  intros Hinv Hcode. pose proof (code_here w c o [] Hinv Hcode) as Hh. unfold cstep, fstep. rewrite Hh, (inv_running _ _ _ Hinv).
  pose proof Hcode as (Ho & _). rewrite Ho in *. unfold entry_of. destruct (decide (o = thr)) as [E|Hne]; [by exists w; split; [|exists o, []]|].
  destruct (inv_here _ _ _ Hinv) as [v Hv].
  destruct (leave_refines w c o [] v (with_state TERM (with_cb None v)) (set_heap (<[o := with_state TERM (with_cb None v)]> (w_heap w)) w) (c_code c))
    as (w' & E & H); try done.
  { intros g. destruct (decide (g = o)) as [->|]; [by rewrite lookup_insert_eq|by rewrite lookup_insert_ne]. }
  exists w'. split; [|done]. revert E. destruct (decide (o = main)); intros <-; unfold returned; run (run_at o v w Hv); unfold put_fiber; by run_pure.
Qed.

(** The cases of [exec]; [w1] is the world behind the fetch. *)
Abbreviation fetched o rest w := (set_running (Code o (entry_of o) rest) w).

Lemma yield_refines w c o op rest st code : inv w o (op :: rest) -> refines_code w o (op :: rest) c -> o <> main -> o <> thr ->
  (forall g, code !! g = <[o := rest]> (c_code c) !! g) ->
  exists w', yield st (fetched o rest w) = (Ret tt, w') /\ refines w' (mkCoroutines code main (c_alloc c) (c_log c)).
Proof.
  intros Hinv Hcode Hm Ht Hg. destruct (inv_here _ _ _ Hinv) as [v Hv].
  assert (up o = main) as Hup by (unfold up; by rewrite decide_False).
  destruct (up_refines w c o (op :: rest) v (with_state st v) (Code o (entry_of o) rest)
    (mkWorld (<[o := with_state st v]> (w_heap w)) (w_alloc w) (Some (up o)) (w_thr w) (w_main w) (Code o (entry_of o) rest) (w_count w) (w_ids w) (w_log w))
    code rest) as (w' & E & H); auto. rewrite Hup in *. exists w'. split; [|done]. rewrite <- E.
  unfold yield, GetThis. assert (gets w_cur (fetched o rest w) = (Ret (Some o), fetched o rest w)) as E1 by (unfold gets; simpl; by rewrite (inv_cur _ _ _ Hinv)).
  rewrite bind_assoc. run E1. run_pure. run (run_state o st v (fetched o rest w) Hv). unfold swapOut, SetThis. run_pure. simpl.
  by rewrite (inv_main _ _ _ Hinv).
Qed.

Lemma swapIn_refines w c op rest f v : inv w main (op :: rest) -> refines_code w main (op :: rest) c -> f <> main -> f <> thr -> w_heap w !! f = Some v ->
  ended (m_state v) = false -> m_state v <> EXEC -> match m_ctx v with Entry true => False | _ => True end ->
  exists w', swapIn f (fetched main rest w) = (Ret tt, w') /\ refines w' (mkCoroutines (<[main := rest]> (c_code c)) f (c_alloc c) (c_log c)).
Proof.
  intros Hinv Hcode Hm Ht Hv He Hx Hc. destruct (inv_here _ _ _ Hinv) as [vo Hvo].
  destruct (task_entered w main (op :: rest) f v Hinv) as (rf & He' & Hrf); [done..|].
  destruct (down_refines w c main op rest f vo v rf
    (mkWorld (<[f := with_state EXEC v]> (w_heap w)) (w_alloc w) (Some f) (w_thr w) (w_main w) (Code main (entry_of main) rest) (w_count w) (w_ids w) (w_log w))
    (<[main := rest]> (c_code c))) as (w' & E & H); auto. exists w'. split; [|done]. rewrite <- E.
  unfold swapIn, SetThis. run_pure. erewrite bind_ret by (by apply run_at). cbv beta. rewrite bool_decide_eq_false_2 by done. unfold assert. simpl negb. cbv iota. run_pure.
  erewrite bind_ret by (by apply run_state). cbv beta. run_pure. simpl. by rewrite (inv_main _ _ _ Hinv).
Qed.

Lemma call_refines w c op rest v : inv w thr (op :: rest) -> refines_code w thr (op :: rest) c -> main <> thr -> w_heap w !! main = Some v ->
  m_ctx v = Entry true ->
  exists w', call main (fetched thr rest w) = (Ret tt, w') /\ refines w' (mkCoroutines (<[thr := rest]> (c_code c)) main (c_alloc c) (c_log c)).
Proof.
  intros Hinv Hcode Hm Hv Hc. destruct (inv_here _ _ _ Hinv) as [vo Hvo].
  destruct (down_refines w c thr op rest main vo v (code_of (m_cb v))
    (mkWorld (<[main := with_state EXEC v]> (w_heap w)) (w_alloc w) (Some main) (w_thr w) (w_main w) (Code thr (entry_of thr) rest) (w_count w) (w_ids w) (w_log w))
    (<[thr := rest]> (c_code c))) as (w' & E & H); auto.
  - unfold entered, entry_of. by rewrite Hc, decide_False, decide_True.
  - unfold code_at. rewrite Hv. simpl. by rewrite decide_False, Hc by done.
  - exists w'. split; [|done]. rewrite <- E. unfold call, SetThis. run_pure. erewrite bind_ret by (by apply run_state). cbv beta. run_pure. simpl.
    by rewrite (inv_thr _ _ _ Hinv).
Qed.

Lemma fetched_code w c o op rest h g : inv w o (op :: rest) -> refines_code w o (op :: rest) c -> h = w_heap w !! g ->
  <[o := rest]> (c_code c) !! g = (v ← h; Some (if decide (g = o) then rest else match m_ctx v with Code _ _ r => r | Entry _ => code_of (m_cb v) | _ => [] end)).
Proof.
  intros Hinv (_ & _ & Hc & _) ->. destruct (decide (g = o)) as [->|Hne].
  - rewrite lookup_insert_eq. by destruct (inv_here _ _ _ Hinv) as [v ->].
  - rewrite lookup_insert_ne, Hc by done. unfold code_at. destruct (w_heap w !! g); [|done]. simpl. by rewrite ?decide_False by done.
Qed.
Lemma tasks_of w o rest g v : inv w o rest -> g <> thr -> g <> main -> g <> o -> w_heap w !! g = Some v -> m_stack v = true /\ parked g v.
Proof. intros H H1 H2 H3 Hg. destruct (inv_tasks _ _ _ H g v H1 H2 Hg) as [? Hp]. split; [done|by apply Hp]. Qed.
Lemma thr_here w o rest : inv w o rest -> is_Some (w_heap w !! thr).
Proof.
  intros H. destruct (decide (o = thr)) as [<-|Hne]; [exact (inv_here _ _ _ H)|]. destruct (inv_thr_ctx _ _ _ H Hne) as (v & _ & Hv & _). by exists v.
Qed.
Lemma here_old w o rest g : inv w o rest -> g = o \/ g = thr \/ g = main -> g <> w_alloc w.
Proof.
  intros H Hg ->. assert (is_Some (w_heap w !! w_alloc w)) as Hs.
  { destruct Hg as [->|[->| ->]]; [exact (inv_here _ _ _ H)|by eapply thr_here|exact (inv_main_here _ _ _ H)]. }
  apply (inv_fresh _ _ _ H) in Hs. lia.
Qed.

Lemma do_refines w c o n rest : inv w o (Do n :: rest) -> refines_code w o (Do n :: rest) c ->
  refines (do_log o n (fetched o rest w)) (mkCoroutines (<[o := rest]> (c_code c)) o (c_alloc c) (c_log c ++ [(o, n)])).
Proof.
  intros Hinv Hcode. pose proof Hcode as (_ & Ha & _ & Hl). eapply stay_refines; try done.
  - intros g v H1 H2 H3 Hg. by eapply tasks_of.
  - apply (inv_fresh _ _ _ Hinv).
  - intros g. by eapply fetched_code.
  - simpl. rewrite Hl, fmap_app. simpl. by rewrite (inv_cur _ _ _ Hinv).
Qed.

Lemma new_refines w c o cb u rest : inv w o (New cb u :: rest) -> refines_code w o (New cb u :: rest) c ->
  exists w', new_Fiber (Some cb) u (fetched o rest w) = (Ret (w_alloc w), w') /\
    refines w' (mkCoroutines (<[c_alloc c := body cb]> (<[o := rest]> (c_code c))) o (S (c_alloc c)) (c_log c)).
Proof.
  intros Hinv Hcode. pose proof Hcode as (_ & Ha & _ & Hl). eexists. split; [reflexivity|]. rewrite Ha. eapply stay_refines; try done; simpl.
  - intros g Hg. rewrite lookup_insert_ne; [done|]. apply not_eq_sym. by eapply here_old.
  - intros g v H1 H2 H3. destruct (decide (g = w_alloc w)) as [->|]; [rewrite lookup_insert_eq|rewrite lookup_insert_ne by done; intros; by eapply tasks_of].
    intros [= <-]. split; [done|]. left. by exists u.
  - intros g. destruct (decide (g = w_alloc w)) as [->|]; [lia|]. rewrite lookup_insert_ne by done. intros Hg. apply (inv_fresh _ _ _ Hinv) in Hg. lia.
  - intros g. unfold code_at. simpl. destruct (decide (g = w_alloc w)) as [->|Hg].
    + rewrite !lookup_insert_eq. simpl. rewrite decide_False; [done|]. apply not_eq_sym. eapply here_old; [done|auto].
    + rewrite !(lookup_insert_ne _ (w_alloc w)) by done. by eapply fetched_code.
Qed.

Lemma reset_refines w c o f cb rest v : inv w o (Reset f cb :: rest) -> refines_code w o (Reset f cb :: rest) c ->
  f <> o -> f <> thr -> f <> main -> w_heap w !! f = Some v -> resettable (m_state v) = true ->
  exists w', reset f cb (fetched o rest w) = (Ret tt, w') /\
    refines w' (mkCoroutines (<[f := code_of cb]> (<[o := rest]> (c_code c))) o (c_alloc c) (c_log c)).
Proof.
  intros Hinv Hcode H1 H2 H3 Hv Hr. pose proof Hcode as (_ & Ha & _ & Hl). destruct (tasks_of w o _ f v Hinv) as [Hs _]; [done..|].
  eexists. split.
  - unfold reset. erewrite bind_ret by (by apply run_at). cbv beta. rewrite Hs, Hr. unfold assert. run_pure. reflexivity.
  - eapply stay_refines; try done; simpl.
    + intros g Hg. rewrite lookup_insert_ne; [done|]. intros <-. by destruct Hg as [?|[?|?]].
    + intros g v' G1 G2 G3. destruct (decide (g = f)) as [->|]; [rewrite lookup_insert_eq|rewrite lookup_insert_ne by done; intros; by eapply tasks_of].
      intros [= <-]. split; [done|]. left. by exists false.
    + intros g. destruct (decide (g = f)) as [->|]; [intros _; apply (inv_fresh _ _ _ Hinv); by eexists|]. rewrite lookup_insert_ne by done. apply (inv_fresh _ _ _ Hinv).
    + intros g. unfold code_at. simpl. destruct (decide (g = f)) as [->|Hg].
      * rewrite !lookup_insert_eq. simpl. by rewrite decide_False.
      * rewrite !(lookup_insert_ne _ f) by done. by eapply fetched_code.
Qed.

Lemma drop_refines w c o f rest v : inv w o (Drop f :: rest) -> refines_code w o (Drop f :: rest) c ->
  f <> o -> f <> thr -> f <> main -> w_heap w !! f = Some v -> resettable (m_state v) = true ->
  exists w', delete_Fiber f (fetched o rest w) = (Ret tt, w') /\
    refines w' (mkCoroutines (delete f (<[o := rest]> (c_code c))) o (c_alloc c) (c_log c)).
Proof.
  intros Hinv Hcode H1 H2 H3 Hv Hr. pose proof Hcode as (_ & Ha & _ & Hl). destruct (tasks_of w o _ f v Hinv) as [Hs _]; [done..|].
  eexists. split.
  - unfold delete_Fiber. erewrite bind_ret by (by apply run_at). cbv beta. rewrite Hs, Hr. unfold assert. run_pure. reflexivity.
  - eapply stay_refines; try done; simpl.
    + intros g Hg. rewrite lookup_delete_ne; [done|]. intros <-. by destruct Hg as [?|[?|?]].
    + intros g v' G1 G2 G3. destruct (decide (g = f)) as [->|]; [by rewrite lookup_delete_eq|rewrite lookup_delete_ne by done; intros; by eapply tasks_of].
    + intros g. destruct (decide (g = f)) as [->|]; [rewrite lookup_delete_eq; by intros []|]. rewrite lookup_delete_ne by done. apply (inv_fresh _ _ _ Hinv).
    + intros g. unfold code_at. simpl. destruct (decide (g = f)) as [->|Hg].
      * by rewrite !lookup_delete_eq.
      * rewrite !(lookup_delete_ne _ f) by done. by eapply fetched_code.
Qed.

Ltac allow := repeat match goal with
  | H : _ && _ = true |- _ => apply andb_prop in H as [? ?]
  | H : negb _ = true |- _ => apply negb_true_iff in H
  | H : bool_decide _ = true |- _ => apply bool_decide_eq_true in H
  | H : bool_decide _ = false |- _ => apply bool_decide_eq_false in H
  | H : task _ _ = true |- _ => unfold task in H
  end.

(** A step the discipline allows is a step of the coroutines. *)
Lemma step_refines w c : refines w c -> allowed w = true -> exists w', fstep w = (Ret tt, w') /\ refines w' (cstep c).
Proof.
  intros (o & rest & Hinv & Hcode) Hal. destruct rest as [|op rest]; [by eapply end_refines|].
  pose proof (code_here w c o _ Hinv Hcode) as Hh. pose proof Hcode as (Ho & _ & _ & _). unfold cstep. rewrite Hh, Ho.
  unfold allowed in Hal. unfold fstep. rewrite (inv_running _ _ _ Hinv) in Hal |- *.
  destruct op as [n|f|f| | | |cb u|f cb|f]; simpl exec.
  - eexists. split; [reflexivity|]. by apply do_refines.
  - destruct (w_heap w !! f) as [v|] eqn:Hv; [|by rewrite andb_false_r in Hal]. allow. subst o.
    eapply swapIn_refines; try done. by destruct (m_ctx v) as [[]| | |].
  - destruct (w_heap w !! f) as [v|] eqn:Hv; [|by rewrite andb_false_r in Hal]. allow. subst o f.
    eapply call_refines; try done. by destruct (m_ctx v) as [[]| | |].
  - allow. by eapply yield_refines.
  - allow. by eapply yield_refines.
  - allow. destruct (inv_here _ _ _ Hinv) as [v Hv].
    destruct (leave_refines w c o (Raise :: rest) v (with_state EXCEPT v) (set_heap (<[o := with_state EXCEPT v]> (w_heap w)) (fetched o rest w))
      (<[o := []]> (<[o := rest]> (c_code c)))) as (w' & E & H); try done.
    { intros g. by rewrite insert_insert_eq. }
    exists w'. split; [|done]. revert E. unfold entry_of. rewrite (decide_False (P := o = thr)) by done.
    destruct (decide (o = main)); intros <-; unfold raised; by erewrite bind_ret by (by apply run_state).
  - destruct (new_refines w c o cb u rest Hinv Hcode) as (w' & E & H). exists w'. split; [|done]. by run E.
  - destruct (w_heap w !! f) as [v|] eqn:Hv; [|by rewrite andb_false_r in Hal]. allow. by eapply reset_refines.
  - destruct (w_heap w !! f) as [v|] eqn:Hv; [|by rewrite andb_false_r in Hal]. allow. by eapply drop_refines.
Qed.
Lemma run_refines n : forall w c, refines w c -> disciplined n w = true -> exists w', run n w = (Ret tt, w') /\ refines w' (Nat.iter n cstep c).
Proof.
  induction n as [|n IH]; intros w c H Hd; [by exists w|]. simpl in Hd. apply andb_prop in Hd as [Hal Hd].
  destruct (step_refines w c H) as (w1 & E & H1); [done|]. unfold post in *. rewrite E in *.
  destruct (IH w1 (cstep c) H1) as (w' & E' & H'); [done|]. exists w'. split; [simpl; by run E|]. by rewrite Nat.iter_succ_r.
Qed.
End fiber.

(** ** From the start of a thread *)

Section start.
Variable body : nat -> list fop.

(** The thread's own fiber, which [GetThis] makes; with [use_caller] the
    scheduler also makes its root fiber.  [own] is the thread's code. *)
Definition start_world (use_caller : option nat) (own : list fop) : world :=
  let w := mkWorld ∅ 0 None None None (Code 0 None own) 0 0 [] in
  let w := post GetThis w in
  match use_caller with
  | None => mkWorld (w_heap w) (w_alloc w) (w_cur w) (w_thr w) (Some 0) (w_running w) (w_count w) (w_ids w) (w_log w)
  | Some cb =>
      let w := post (new_Fiber (Some cb) true) w in
      mkWorld (w_heap w) (w_alloc w) (w_cur w) (w_thr w) (Some 1) (w_running w) (w_count w) (w_ids w) (w_log w)
  end.
Definition main_of (use_caller : option nat) : nat := match use_caller with None => 0 | Some _ => 1 end.
Definition start_coroutines (use_caller : option nat) (own : list fop) : coroutines :=
  match use_caller with
  | None => mkCoroutines {[0 := own]} 0 1 []
  | Some cb => mkCoroutines (<[1 := body cb]> {[0 := own]}) 0 2 []
  end.

Lemma start_refines use_caller own : refines body 0 (main_of use_caller) (start_world use_caller own) (start_coroutines use_caller own).
Proof.
  exists 0, own. destruct use_caller as [cb|]; (split; [split|unfold refines_code; split_and!]); simpl; try done; try by eexists.
  - intros f. destruct (decide (f = 1)) as [->|]; [lia|]. rewrite lookup_insert_ne by done. destruct (decide (f = 0)) as [->|]; [lia|].
    rewrite lookup_insert_ne by done. rewrite lookup_empty. by intros [].
  - intros f v H0 H1. by rewrite !lookup_insert_ne, lookup_empty by done.
  - intros f. unfold code_at. simpl. destruct (decide (f = 1)) as [->|H1]; [by rewrite !lookup_insert_eq|].
    rewrite !(lookup_insert_ne _ 1) by done. destruct (decide (f = 0)) as [->|H0]; [done|].
    by rewrite lookup_singleton_ne, lookup_insert_ne, lookup_empty by done.
  - intros f. destruct (decide (f = 0)) as [->|]; [lia|]. rewrite lookup_insert_ne by done. rewrite lookup_empty. by intros [].
  - intros f v H0 H1. by rewrite lookup_insert_ne, lookup_empty by done.
  - intros f. unfold code_at. simpl. destruct (decide (f = 0)) as [->|H0]; [done|].
    by rewrite lookup_singleton_ne, lookup_insert_ne, lookup_empty by done.
Qed.

(** C23: fibers are coroutines. A thread whose fibers are used as the scheduler
    uses them - tasks swapped in by the fiber it runs on, yielding to it -
    never fails, however long it runs, and does what coroutines do that only
    keep the code each has left: the same actions in the same order, and
    in each of them [GetThis] is the fiber whose code it is. *)
Theorem fibers_are_coroutines use_caller own n : disciplined body 0 (main_of use_caller) n (start_world use_caller own) = true ->
  let c := Nat.iter n (cstep body 0 (main_of use_caller)) (start_coroutines use_caller own) in
  exists w, run body n (start_world use_caller own) = (Ret tt, w) /\ w_log w = (fun e => (e.1, Some e.1, e.2)) <$> c_log c /\
    w_cur w = Some (c_cur c).
Proof.
  intros Hd c. destruct (run_refines body 0 (main_of use_caller) n _ _ (start_refines use_caller own) Hd) as (w & E & o & rest & Hinv & Hc & _ & _ & Hl).
  exists w. split_and!; [done|done|]. unfold c. rewrite Hc. exact (inv_cur _ _ _ _ _ Hinv).
Qed.
End start.

(** ** Concrete threads *)

(** 0: a task that yields twice; 1: one that raises; 2: the root fiber's code;
    3: one that swaps in the task at address 1; 4: a root that ends at once. *)
Definition demo (cb : nat) : list fop := match cb with
  | 0 => [Do 10; YieldToHold; Do 11; YieldToReady; Do 12]
  | 1 => [Do 20; Raise; Do 21]
  | 2 => [Do 30; New 0 false; New 1 false; SwapIn 2; SwapIn 3; Do 31; SwapIn 2; SwapIn 2; Drop 3; Do 32]
  | 3 => [Do 40; SwapIn 1; Do 41]
  | _ => []
  end.
Lemma fibers_are_coroutines_witness : exists w, run demo 40 (start_world (Some 2) [Do 1; Call 1; Do 2]) = (Ret tt, w) /\
  (fun e => (e.1.1, e.2)) <$> w_log w = [(0, 1); (1, 30); (2, 10); (3, 20); (1, 31); (2, 11); (2, 12); (1, 32); (0, 2)].
Proof.
  destruct (fibers_are_coroutines demo (Some 2) [Do 1; Call 1; Do 2] 40) as (w & E & Hl & _); [vm_compute; reflexivity|].
  exists w. split; [exact E|]. rewrite Hl. vm_compute. reflexivity.
Defined.

(** A task swaps in another task: the scheduler's context is overwritten, and
    the outer task's code goes on as if it were the scheduler's fiber - again
    at each of its ends; the scheduler never comes back. *)
Example nested_swap_in : take 5 (w_log (post (run demo 20) (start_world None [New 0 false; New 3 false; SwapIn 2; Do 5]))) =
  [(2, Some 2, 40); (1, Some 1, 10); (2, Some 0, 41); (2, Some 0, 41); (2, Some 0, 41)].
Proof. by vm_compute. Qed.
(** A thread without a scheduler: a yield uses the null main fiber. *)
Example yield_without_scheduler : out (GetThis;; yield demo HOLD) (mkWorld ∅ 0 None None None (Code 0 None []) 0 0 []) = Crash NullDeref.
Proof. done. Qed.
(** The scheduler's own fiber yields: it goes on at once, no longer EXEC, and
    the destructor of the thread's fiber aborts. *)
Example main_yields : let w := post (run demo 2) (start_world None [YieldToReady; Do 5]) in
  w_log w = [(0, Some 0, 5)] /\ out (delete_Fiber 0) w = Crash AssertFail.
Proof. by vm_compute. Qed.
(** [reset] always gives [MainFunc]: a root fiber that was reset switches to
    itself at its end, and aborts. *)
Example reset_root : out (run demo 20) (start_world (Some 4) [Call 1; Reset 1 (Some 4); Call 1]) = Crash AssertFail.
Proof. by vm_compute. Qed.
(** A fiber that is dropped while it waits aborts in the destructor. *)
Example dropped_while_waiting : out (run demo 20) (start_world None [New 0 false; SwapIn 1; Drop 1]) = Crash AssertFail.
Proof. by vm_compute. Qed.
(** An ended fiber that is swapped in again runs behind its last switch. *)
Example swapped_in_again : out (run demo 20) (start_world None [New 1 false; SwapIn 1; SwapIn 1]) = Crash AssertFail.
Proof. by vm_compute. Qed.
