(* ===== verification/Scheduler.v ===== *)
(** [sherry/scheduler.h], [sherry/scheduler.cc] and the states of
    [sherry/fiber.cc]: fibers and the scheduler's worker threads.

    [C] is the type of callbacks ([std::function<void()>]).  Fibers are held
    by address in [s_fibers].  A worker thread is in one of the places of
    [run] that are separated by a critical section, a context switch or an
    atomic counter ([pc]); [thread_step] is what it does from there to the
    next place.  What the body of a fiber does until it gives up control is
    the argument of [body_step]: setting the state and switching back are one
    step.  A context switch itself is the change of place
    (the contexts of one thread are in [Fiber]). *)

From stdpp Require Import base list gmap strings.
From S2P Require Import Prelude MachineInt.
From Stdlib Require Import ZArith Lia.

(** * Fibers *)

Inductive State : Type := INIT | HOLD | EXEC | TERM | READY | EXCEPT.

#[export] Instance State_eq_dec : EqDecision State.
Proof. solve_decision. Defined.

Record Fiber (C : Type) : Type := mkFiber { f_state : State; f_cb : option C }.
Arguments mkFiber {C} f_state f_cb.
Arguments f_state {C} f.
Arguments f_cb {C} f.

(** [state == TERM || state == EXCEPT] *)
Definition ended (s : State) : bool := match s with TERM | EXCEPT => true | _ => false end.

Record FiberAndThread (C : Type) : Type := mkFT {
  ft_fiber : option nat;
  ft_cb : option C;
  ft_thread : Z
}.
Arguments mkFT {C} ft_fiber ft_cb ft_thread.
Arguments ft_fiber {C} f.
Arguments ft_cb {C} f.
Arguments ft_thread {C} f.

(** * Threads *)

Inductive pc (C : Type) : Type :=
| Top                                              (* before the critical section *)
| Got (ft : FiberAndThread C) (tickle_me is_active : bool)  (* behind it *)
| InTask (f : nat)                                 (* in [ft.fiber->swapIn()] *)
| OutTask (f : nat)                                (* behind it *)
| AfterTask (f : nat)                              (* behind [--m_activeThreadCount] *)
| InCb (f : nat)                                   (* in [cb_fiber->swapIn()] *)
| OutCb (f : nat)
| AfterCb (f : nat)
| InIdle                                           (* in [idle_fiber->swapIn()] *)
| OutIdle
| Done.                                            (* [run] has returned *)
Arguments Top {C}. Arguments Got {C}. Arguments InTask {C}. Arguments OutTask {C}. Arguments InCb {C}.
Arguments OutCb {C}. Arguments AfterTask {C}. Arguments AfterCb {C}. Arguments InIdle {C}. Arguments OutIdle {C}. Arguments Done {C}.

Record thread (C : Type) : Type := mkThread {
  t_id : Z;
  t_pc : pc C;
  t_cb_fiber : option nat;
  t_idle_fiber : nat
}.
Arguments mkThread {C} t_id t_pc t_cb_fiber t_idle_fiber.
Arguments t_id {C} t.
Arguments t_pc {C} t.
Arguments t_cb_fiber {C} t.
Arguments t_idle_fiber {C} t.

Record sched (C : Type) : Type := mkSched {
  m_fibers : list (FiberAndThread C);
  s_fibers : gmap nat (Fiber C);
  s_alloc : nat;                      (* the next unused address *)
  m_activeThreadCount : Z;
  m_idleThreadCount : Z;
  m_stopping : bool;
  m_autoStop : bool;
  s_threads : list (thread C);
  s_tickles : nat                     (* calls of the virtual [tickle] *)
}.
Arguments mkSched {C}.
Arguments m_fibers {C} s. Arguments s_fibers {C} s. Arguments s_alloc {C} s.
Arguments m_activeThreadCount {C} s. Arguments m_idleThreadCount {C} s.
Arguments m_stopping {C} s. Arguments m_autoStop {C} s.
Arguments s_threads {C} s. Arguments s_tickles {C} s.

Section scheduler.
Context {C : Type}.
Abbreviation S := (sched C).
Abbreviation sprog := (prog (sched C)).

Definition set_queue (q : list (FiberAndThread C)) (s : S) : S :=
  mkSched q (s_fibers s) (s_alloc s) (m_activeThreadCount s) (m_idleThreadCount s) (m_stopping s) (m_autoStop s)
    (s_threads s) (s_tickles s).
Definition set_fibers (h : gmap nat (Fiber C)) (s : S) : S :=
  mkSched (m_fibers s) h (s_alloc s) (m_activeThreadCount s) (m_idleThreadCount s) (m_stopping s) (m_autoStop s)
    (s_threads s) (s_tickles s).
Definition set_active (n : Z) (s : S) : S :=
  mkSched (m_fibers s) (s_fibers s) (s_alloc s) n (m_idleThreadCount s) (m_stopping s) (m_autoStop s)
    (s_threads s) (s_tickles s).
Definition set_idle (n : Z) (s : S) : S :=
  mkSched (m_fibers s) (s_fibers s) (s_alloc s) (m_activeThreadCount s) n (m_stopping s) (m_autoStop s)
    (s_threads s) (s_tickles s).
Definition set_threads (l : list (thread C)) (s : S) : S :=
  mkSched (m_fibers s) (s_fibers s) (s_alloc s) (m_activeThreadCount s) (m_idleThreadCount s) (m_stopping s)
    (m_autoStop s) l (s_tickles s).

Definition tickle : sprog unit :=
  modify (fun s => mkSched (m_fibers s) (s_fibers s) (s_alloc s) (m_activeThreadCount s) (m_idleThreadCount s)
    (m_stopping s) (m_autoStop s) (s_threads s) (Datatypes.S (s_tickles s))).
Definition active_inc : sprog unit := modify (fun s => set_active (wrap 64 (m_activeThreadCount s + 1)) s).
Definition active_dec : sprog unit := modify (fun s => set_active (wrap 64 (m_activeThreadCount s - 1)) s).
Definition idle_inc : sprog unit := modify (fun s => set_idle (wrap 64 (m_idleThreadCount s + 1)) s).
Definition idle_dec : sprog unit := modify (fun s => set_idle (wrap 64 (m_idleThreadCount s - 1)) s).

Definition fiber_at (f : nat) : sprog (Fiber C) := fun s => of_option NullDeref (s_fibers s !! f) s.
Definition put_fiber (f : nat) (v : Fiber C) : sprog unit := modify (fun s => set_fibers (<[f := v]> (s_fibers s)) s).
Definition set_state (f : nat) (st : State) : sprog unit :=
  v ← fiber_at f; put_fiber f (mkFiber st (f_cb v)).

(** [new Fiber(cb)] *)
Definition new_Fiber (cb : C) : sprog nat := fun s =>
  (Ret (s_alloc s),
   mkSched (m_fibers s) (<[s_alloc s := mkFiber INIT (Some cb)]> (s_fibers s)) (Datatypes.S (s_alloc s))
     (m_activeThreadCount s) (m_idleThreadCount s) (m_stopping s) (m_autoStop s) (s_threads s) (s_tickles s)).

(** [Fiber::reset] *)
Definition Fiber_reset (f : nat) (cb : option C) : sprog unit :=
  v ← fiber_at f;
  if bool_decide (f_state v = TERM \/ f_state v = INIT \/ f_state v = EXCEPT)
  then put_fiber f (mkFiber INIT cb)
  else crash AssertFail.

(** [Fiber::swapIn], up to the context switch. *)
Definition swapIn (f : nat) : sprog unit :=
  v ← fiber_at f;
  if bool_decide (f_state v = EXEC) then crash AssertFail else put_fiber f (mkFiber EXEC (f_cb v)).

(** ** Scheduling *)

(** Whether [tickle] is needed. *)
Definition scheduleNoLock (ft : FiberAndThread C) : sprog bool :=
  s ← gets id;
  let need_tickle := bool_decide (m_fibers s = []) in
  (match ft_fiber ft, ft_cb ft with
   | None, None => mret tt
   | _, _ => modify (fun s => set_queue (m_fibers s ++ [ft]) s)
   end);;
  mret need_tickle.

Definition schedule (ft : FiberAndThread C) : sprog unit :=
  need_tickle ← scheduleNoLock ft;
  if (need_tickle : bool) then tickle else mret tt.

Fixpoint schedule_range_loop (fts : list (FiberAndThread C)) (need_tickle : bool) : sprog bool :=
  match fts with
  | [] => mret need_tickle
  | ft :: fts' => b ← scheduleNoLock ft; schedule_range_loop fts' (b || need_tickle)
  end.
(** [schedule(begin, end)]; the range's tasks are for any thread. *)
Definition schedule_range (fts : list (FiberAndThread C)) : sprog unit :=
  need_tickle ← schedule_range_loop fts false;
  if (need_tickle : bool) then tickle else mret tt.

(** [Scheduler::stopping] *)
Definition stopping (s : S) : bool :=
  m_autoStop s && m_stopping s && bool_decide (m_fibers s = []) && (m_activeThreadCount s =? 0)%Z.

(** [Scheduler::stop] of a scheduler without a root fiber, up to the joins:
    the flags, and one [tickle] for each worker. *)
Definition request_stop : sprog unit :=
  modify (fun s => mkSched (m_fibers s) (s_fibers s) (s_alloc s) (m_activeThreadCount s) (m_idleThreadCount s)
    true true (s_threads s) (length (s_threads s) + s_tickles s)).

(** [Scheduler::start]: one thread per id, each at the beginning of its loop
    with its idle fiber made; [idle_cb] is what the idle fiber runs. *)
Definition start_thread (idle_cb : C) (id : Z) : sprog unit :=
  f ← new_Fiber idle_cb;
  modify (fun s => set_threads (s_threads s ++ [mkThread id Top None f]) s).
Fixpoint start_threads (idle_cb : C) (ids : list Z) : sprog unit :=
  match ids with [] => mret tt | id :: ids' => start_thread idle_cb id;; start_threads idle_cb ids' end.
Definition start (idle_cb : C) (ids : list Z) : sprog unit :=
  s ← gets id;
  if negb (m_stopping s) then mret tt else
  modify (fun s => mkSched (m_fibers s) (s_fibers s) (s_alloc s) (m_activeThreadCount s) (m_idleThreadCount s)
    false (m_autoStop s) (s_threads s) (s_tickles s));;
  if bool_decide (s_threads s = []) then start_threads idle_cb ids else crash AssertFail.

(** A scheduler without a root fiber, as it is constructed. *)
Definition new_Scheduler : S := mkSched [] ∅ 0 0 0 true false [] 0.

(** ** The loop of [run] *)

(** The scan of the critical section: the task taken with the tasks left, and
    whether one for another thread was passed. *)
Fixpoint take_task (tid : Z) (h : gmap nat (Fiber C)) (q : list (FiberAndThread C))
    : outcome (option (FiberAndThread C * list (FiberAndThread C)) * bool) :=
  match q with
  | [] => Ret (None, false)
  | it :: q' =>
      let skip (tickle : bool) :=
        match take_task tid h q' with
        | Ret (Some (ft, rest), t) => Ret (Some (ft, it :: rest), tickle || t)
        | Ret (None, t) => Ret (None, tickle || t)
        | r => r
        end in
      if negb (ft_thread it =? -1)%Z && negb (ft_thread it =? tid)%Z then skip true else
      match ft_fiber it, ft_cb it with
      | None, None => Crash AssertFail
      | Some f, _ =>
          match h !! f with
          | None => Crash NullDeref
          | Some v => if bool_decide (f_state v = EXEC) then skip false else Ret (Some (it, q'), false)
          end
      | None, Some _ => Ret (Some (it, q'), false)
      end
  end.

Definition reset_ft : FiberAndThread C := mkFT None None (-1).

Definition go (i : nat) (t : thread C) (p : pc C) (cbf : option nat) : sprog unit :=
  modify (fun s => set_threads (<[i := mkThread (t_id t) p cbf (t_idle_fiber t)]> (s_threads s)) s).

Definition step_top (i : nat) (t : thread C) : sprog unit :=
  s ← gets id;
  r ← (fun s' => (take_task (t_id t) (s_fibers s) (m_fibers s), s'));
  let '(taken, tickle_me) := r in
  match taken with
  | Some (ft, rest) =>
      modify (set_queue rest);; active_inc;; go i t (Got ft tickle_me true) (t_cb_fiber t)
  | None => go i t (Got reset_ft tickle_me false) (t_cb_fiber t)
  end.

(** [ft.fiber && ft.fiber->getState() != TERM && ... != EXCEPT] *)
Definition runnable (ft : FiberAndThread C) : sprog (option nat) :=
  match ft_fiber ft with
  | None => mret None
  | Some f => v ← fiber_at f; mret (if ended (f_state v) then None else Some f)
  end.

Definition step_got (i : nat) (t : thread C) (ft : FiberAndThread C) (tickle_me is_active : bool) : sprog unit :=
  (if tickle_me then tickle else mret tt);;
  r ← runnable ft;
  match r, ft_cb ft with
  | Some f, _ => swapIn f;; go i t (InTask f) (t_cb_fiber t)
  | None, Some cb =>
      f ← match t_cb_fiber t with
          | Some f => Fiber_reset f (Some cb);; mret f
          | None => new_Fiber cb
          end;
      swapIn f;; go i t (InCb f) (Some f)
  | None, None =>
      if is_active then active_dec;; go i t Top (t_cb_fiber t) else
      v ← fiber_at (t_idle_fiber t);
      if bool_decide (f_state v = TERM) then go i t Done (t_cb_fiber t) else
      idle_inc;; swapIn (t_idle_fiber t);; go i t InIdle (t_cb_fiber t)
  end.

Definition step_out_task (i : nat) (t : thread C) (f : nat) : sprog unit :=
  active_dec;; go i t (AfterTask f) (t_cb_fiber t).
Definition step_after_task (i : nat) (t : thread C) (f : nat) : sprog unit :=
  v ← fiber_at f;
  (match f_state v with
   | READY => schedule (mkFT (Some f) None (-1))
   | TERM | EXCEPT => mret tt
   | _ => set_state f HOLD
   end);;
  go i t Top (t_cb_fiber t).

Definition step_out_cb (i : nat) (t : thread C) (f : nat) : sprog unit :=
  active_dec;; go i t (AfterCb f) (t_cb_fiber t).
Definition step_after_cb (i : nat) (t : thread C) (f : nat) : sprog unit :=
  v ← fiber_at f;
  match f_state v with
  | READY => schedule (mkFT (Some f) None (-1));; go i t Top None
  | EXCEPT | TERM => Fiber_reset f None;; go i t Top (t_cb_fiber t)
  | _ => set_state f HOLD;; go i t Top None
  end.

(** The idle fiber's loop, from one [YieldToHold] to the next. *)
Definition step_in_idle (i : nat) (t : thread C) : sprog unit :=
  s ← gets id;
  set_state (t_idle_fiber t) (if stopping s then TERM else HOLD);;
  go i t OutIdle (t_cb_fiber t).

Definition step_out_idle (i : nat) (t : thread C) : sprog unit :=
  idle_dec;;
  v ← fiber_at (t_idle_fiber t);
  (if ended (f_state v) then mret tt else set_state (t_idle_fiber t) HOLD);;
  go i t Top (t_cb_fiber t).

(** What thread [i] does next; nothing while a fiber's body runs. *)
Definition thread_step (i : nat) : sprog unit :=
  s ← gets id;
  match s_threads s !! i with
  | None => mret tt
  | Some t =>
      match t_pc t with
      | Top => step_top i t
      | Got ft tickle_me is_active => step_got i t ft tickle_me is_active
      | InTask _ | InCb _ | Done => mret tt
      | OutTask f => step_out_task i t f
      | AfterTask f => step_after_task i t f
      | OutCb f => step_out_cb i t f
      | AfterCb f => step_after_cb i t f
      | InIdle => step_in_idle i t
      | OutIdle => step_out_idle i t
      end
  end.

(** How a body gives up control: the yields, the end of [MainFunc], its
    exception handlers. *)
Inductive body_end : Type := YieldToReady | YieldToHold | Returned | Threw.
Definition body_fiber (e : body_end) (v : Fiber C) : Fiber C :=
  match e with
  | YieldToReady => mkFiber READY (f_cb v)
  | YieldToHold => mkFiber HOLD (f_cb v)
  | Returned => mkFiber TERM None
  | Threw => mkFiber EXCEPT (f_cb v)
  end.
Definition body_step (i : nat) (e : body_end) : sprog unit :=
  s ← gets id;
  match s_threads s !! i with
  | Some t =>
      match t_pc t with
      | InTask f => v ← fiber_at f; put_fiber f (body_fiber e v);; go i t (OutTask f) (t_cb_fiber t)
      | InCb f => v ← fiber_at f; put_fiber f (body_fiber e v);; go i t (OutCb f) (t_cb_fiber t)
      | _ => mret tt
      end
  | None => mret tt
  end.
End scheduler.
