(* ===== verification/SchedulerProps.v ===== *)
(** What the scheduler promises under any interleaving of its threads. *)

From stdpp Require Import base list gmap strings.
From S2P Require Import Prelude MachineInt Scheduler.
From Stdlib Require Import ZArith Lia.

(** * Taking a task *)

Section taking.
Context {C : Type}.
Implicit Types (q : list (FiberAndThread C)) (h : gmap nat (Fiber C)) (ft : FiberAndThread C).

(** A task thread [tid] may run now. *)
Definition for_other (tid : Z) ft : bool := negb (ft_thread ft =? -1)%Z && negb (ft_thread ft =? tid)%Z.
Definition executing h ft : bool :=
  match ft_fiber ft ≫= (h !!.) with Some v => bool_decide (f_state v = EXEC) | None => false end.

(** Every queued task has a fiber that exists, or a callback. *)
Definition task_ok h ft : Prop :=
  match ft_fiber ft with Some f => is_Some (h !! f) | None => is_Some (ft_cb ft) end.

Lemma take_task_spec tid h q : Forall (task_ok h) q ->
  exists r b, take_task tid h q = Ret (r, b) /\
    match r with
    | Some (ft, rest) => exists l1 l2, q = l1 ++ ft :: l2 /\ rest = l1 ++ l2 /\
        for_other tid ft = false /\ executing h ft = false /\
        Forall (fun x => for_other tid x = true \/ executing h x = true) l1 /\
        (b = true <-> Exists (fun x => for_other tid x = true) l1)
    | None => Forall (fun x => for_other tid x = true \/ executing h x = true) q /\
        (b = true <-> Exists (fun x => for_other tid x = true) q)
    end.
Proof.
  induction 1 as [|it q Hit Hq IH]; simpl.
  { exists None, false. split; [done|]. split; [done|]. by rewrite Exists_nil. }
  destruct IH as (r & b & E & Hr). fold (for_other tid it). rewrite E.
  assert (forall t : bool, (for_other tid it = true \/ executing h it = true) -> (t = true <-> for_other tid it = true) ->
    exists r' b', match r with
        | Some (ft, rest) => Ret (Some (ft, it :: rest), t || b)
        | None => Ret (None, t || b) end = Ret (r', b') /\
      match r' with
      | Some (ft, rest) => exists l1 l2, it :: q = l1 ++ ft :: l2 /\ rest = l1 ++ l2 /\
          for_other tid ft = false /\ executing h ft = false /\
          Forall (fun x => for_other tid x = true \/ executing h x = true) l1 /\
          (b' = true <-> Exists (fun x => for_other tid x = true) l1)
      | None => Forall (fun x => for_other tid x = true \/ executing h x = true) (it :: q) /\
          (b' = true <-> Exists (fun x => for_other tid x = true) (it :: q))
      end) as Hskip.
  { intros t Hs Ht. destruct r as [[ft rest]|].
    - destruct Hr as (l1 & l2 & -> & -> & H1 & H2 & H3 & H4). eexists _, _. split; [reflexivity|].
      exists (it :: l1), l2. split_and!; try done; [by constructor|].
      rewrite Exists_cons, orb_true_iff, Ht, H4. done.
    - destruct Hr as [H1 H2]. eexists _, _. split; [reflexivity|]. split; [by constructor|].
      rewrite Exists_cons, orb_true_iff, Ht, H2. done. }
  destruct (for_other tid it) eqn:Eo.
  { destruct (Hskip true) as (r' & b' & Er & Hr'); [by left|done|]. exists r', b'. split; [|done]. by destruct r as [[]|]. }
  unfold task_ok in Hit. destruct (ft_fiber it) as [f|] eqn:Ef.
  - destruct Hit as [v Hv]. rewrite Hv.
    assert (executing h it = bool_decide (f_state v = EXEC)) as Ex by (unfold executing; rewrite Ef; simpl; by rewrite Hv).
    destruct (bool_decide (f_state v = EXEC)).
    + destruct (Hskip false) as (r' & b' & Er & Hr'); [by right|done|]. exists r', b'. split; [|done]. by destruct r as [[]|].
    + eexists _, _. split; [by destruct (ft_cb it)|]. exists [], q. split_and!; try done. by rewrite Exists_nil.
  - destruct Hit as [c Hc]. rewrite Hc. eexists _, _. split; [done|]. exists [], q.
    split_and!; try done; [by unfold executing; rewrite Ef|by rewrite Exists_nil].
Qed.
End taking.

(** * The invariant *)

Section invariant.
Context {C : Type}.
Implicit Types (s : sched C) (t : thread C) (q : list (FiberAndThread C)) (h : gmap nat (Fiber C))
  (ft : FiberAndThread C) (f g : nat).

(** Threads that count as active, and as idle. *)
Definition busy (p : pc C) : nat :=
  match p with Got _ _ true | InTask _ | OutTask _ | InCb _ | OutCb _ => 1 | _ => 0 end.
Definition idling (p : pc C) : nat := match p with InIdle | OutIdle => 1 | _ => 0 end.

(** How often a fiber is held by a task, by a thread. *)
Definition holds (o : option nat) f : nat := if decide (o = Some f) then 1 else 0.
Definition occ_q f q : nat := sum_list_with (fun ft => holds (ft_fiber ft) f) q.
Definition occ_pc f (p : pc C) : nat :=
  match p with Got ft _ _ => holds (ft_fiber ft) f | InTask g | OutTask g | AfterTask g => holds (Some g) f | _ => 0 end.
Definition occ_t f t : nat := occ_pc f (t_pc t) + holds (t_cb_fiber t) f + holds (Some (t_idle_fiber t)) f.
Definition occ f s : nat := occ_q f (m_fibers s) + sum_list_with (occ_t f) (s_threads s).

Definition in_state h f (p : State -> Prop) : Prop := exists v, h !! f = Some v /\ p (f_state v).

Definition queued_ok h ft : Prop :=
  match ft_fiber ft with Some f => in_state h f (fun st => st <> EXEC) | None => is_Some (ft_cb ft) end.

Definition pc_ok h t : Prop :=
  match t_pc t with
  | Got ft _ true => queued_ok h ft
  | Got ft _ false => ft = reset_ft
  | InTask f => in_state h f (fun st => st = EXEC)
  | OutTask f | AfterTask f => in_state h f (fun st => st <> EXEC)
  | InCb f => t_cb_fiber t = Some f /\ in_state h f (fun st => st = EXEC)
  | OutCb f | AfterCb f => t_cb_fiber t = Some f /\ in_state h f (fun st => st <> EXEC)
  | _ => True
  end.
Definition runs_cb (p : pc C) : bool := match p with InCb _ | OutCb _ | AfterCb _ => true | _ => false end.
Definition runs_idle (p : pc C) : bool := match p with InIdle => true | _ => false end.

Record thread_ok h t : Prop := {
  th_pc : pc_ok h t;
  th_cb : forall f, t_cb_fiber t = Some f -> runs_cb (t_pc t) = false -> in_state h f (fun st => st = INIT);
  th_idle : in_state h (t_idle_fiber t) (fun st => if runs_idle (t_pc t) then st = EXEC else st <> EXEC)
}.

Record sched_ok s : Prop := {
  so_once : forall f, occ f s <= 1;
  so_queue : Forall (queued_ok (s_fibers s)) (m_fibers s);
  so_threads : Forall (thread_ok (s_fibers s)) (s_threads s);
  so_alloc : forall f, is_Some (s_fibers s !! f) -> f < s_alloc s;
  so_active : m_activeThreadCount s = Z.of_nat (sum_list_with (fun t => busy (t_pc t)) (s_threads s));
  so_idle : m_idleThreadCount s = Z.of_nat (sum_list_with (fun t => idling (t_pc t)) (s_threads s));
  so_small : (Z.of_nat (length (s_threads s)) < 2 ^ 63)%Z
}.

Lemma holds_eq f : holds (Some f) f = 1.
Proof. unfold holds. by rewrite decide_True. Qed.
Lemma holds_ne g f : g <> f -> holds (Some g) f = 0.
Proof. intros H. unfold holds. rewrite decide_False; [done|congruence]. Qed.
Lemma holds_none f : holds None f = 0.
Proof. done. Qed.
Lemma holds_pos o f : 0 < holds o f -> o = Some f.
Proof. unfold holds. case_decide; [done|lia]. Qed.

(** What a thread holds. *)
Lemma thread_ok_frame h h' t : (forall f, 0 < occ_t f t -> h' !! f = h !! f) -> thread_ok h t -> thread_ok h' t.
Proof.
  intros Hf [H1 H2 H3]. unfold in_state in *. split.
  - unfold pc_ok, queued_ok, in_state in *. unfold occ_t in Hf.
    destruct (t_pc t) as [|ft b []|f|f|f|f|f|f| | |] eqn:E; try done; simpl in Hf.
    + destruct (ft_fiber ft) as [f|] eqn:Ef; [|done]. rewrite Hf; [done|]. rewrite ?Ef, holds_eq. lia.
    + rewrite Hf; [done|]. rewrite holds_eq. lia.
    + rewrite Hf; [done|]. rewrite holds_eq. lia.
    + rewrite Hf; [done|]. rewrite holds_eq. lia.
    + destruct H1 as [E1 H1]. split; [done|]. rewrite Hf; [done|]. rewrite E1, holds_eq. lia.
    + destruct H1 as [E1 H1]. split; [done|]. rewrite Hf; [done|]. rewrite E1, holds_eq. lia.
    + destruct H1 as [E1 H1]. split; [done|]. rewrite Hf; [done|]. rewrite E1, holds_eq. lia.
  - intros f Hc Hr. unfold in_state. rewrite Hf; [by apply H2|]. unfold occ_t. rewrite Hc, holds_eq. lia.
  - unfold in_state. rewrite Hf; [done|]. unfold occ_t. rewrite holds_eq. lia.
Qed.

Lemma occ_q_elem f ft q : ft ∈ q -> ft_fiber ft = Some f -> 0 < occ_q f q.
Proof.
  intros Hin Hf. induction Hin as [x l|x y l Hin IH]; unfold occ_q in *; simpl.
  - rewrite Hf, holds_eq. lia.
  - specialize (IH Hf). lia.
Qed.

Lemma queue_frame h h' q : (forall f, 0 < occ_q f q -> h' !! f = h !! f) ->
  Forall (queued_ok h) q -> Forall (queued_ok h') q.
Proof.
  intros Hf Hq. rewrite Forall_forall in *. intros ft Hin. specialize (Hq ft Hin). unfold queued_ok, in_state in *.
  destruct (ft_fiber ft) as [f|] eqn:E; [|done]. rewrite Hf; [done|]. by eapply occ_q_elem.
Qed.

Lemma sum_with_elem {A} (w : A -> nat) (l : list A) i x : l !! i = Some x -> w x <= sum_list_with w l.
Proof.
  revert i. induction l as [|y l IH]; intros [|i] H; simpl in *; simplify_eq; [lia|]. specialize (IH i H). lia.
Qed.

Lemma sum_with_two {A} (w : A -> nat) (l : list A) i j x y : i <> j -> l !! i = Some x -> l !! j = Some y ->
  w x + w y <= sum_list_with w l.
Proof.
  revert i j. induction l as [|z l IH]; intros [|i] [|j] Hne Hi Hj; simpl in *; simplify_eq; try done.
  - pose proof (sum_with_elem w l j y Hj). lia.
  - pose proof (sum_with_elem w l i x Hi). lia.
  - specialize (IH i j ltac:(lia) Hi Hj). lia.
Qed.

(** A fiber that does not exist is held by nobody. *)
Lemma occ_q_new h q f : h !! f = None -> Forall (queued_ok h) q -> occ_q f q = 0.
Proof.
  intros Hf Hq. unfold occ_q. apply sum_list_with_zero. eapply Forall_impl; [exact Hq|]. intros ft Hft.
  unfold holds. case_decide as E; [|done]. unfold queued_ok in Hft. rewrite E in Hft.
  destruct Hft as (v & Hv & _). congruence.
Qed.

Lemma occ_t_new h t f : h !! f = None -> thread_ok h t -> occ_t f t = 0.
Proof.
  intros Hf [P1 P2 (v & Hv & _)]. unfold occ_t.
  assert (holds (Some (t_idle_fiber t)) f = 0) as -> by (apply holds_ne; intros <-; congruence).
  unfold pc_ok, queued_ok, in_state in *.
  assert (holds (t_cb_fiber t) f = 0) as ->.
  { unfold holds. case_decide as E; [|done]. destruct (runs_cb (t_pc t)) eqn:Er.
    - destruct (t_pc t) as [|ft b []|g|g|g|g|g|g| | |]; try done; destruct P1 as [E' (v' & Hv' & _)]; congruence.
    - destruct (P2 f E eq_refl) as (v' & Hv' & _). congruence. }
  rewrite !Nat.add_0_r. unfold occ_pc. destruct (t_pc t) as [|ft b []|g|g|g|g|g|g| | |]; try done.
  - unfold holds. case_decide as E; [|done]. rewrite E in P1. destruct P1 as (v' & Hv' & _). congruence.
  - by subst.
  - destruct P1 as (v' & Hv' & _). apply holds_ne. intros <-. congruence.
  - destruct P1 as (v' & Hv' & _). apply holds_ne. intros <-. congruence.
  - destruct P1 as (v' & Hv' & _). apply holds_ne. intros <-. congruence.
Qed.

(** A step of thread [i]: it changes only fibers it holds or makes, and the
    fibers it and the queue hold are among those they held. *)
Lemma sched_ok_update s s' i t t' : sched_ok s -> s_threads s !! i = Some t ->
  s_threads s' = <[i := t']> (s_threads s) ->
  (forall f, occ_q f (m_fibers s') + occ_t f t' <= occ_q f (m_fibers s) + occ_t f t \/
     s_fibers s !! f = None /\ occ_q f (m_fibers s') + occ_t f t' <= 1) ->
  (forall f, s_fibers s' !! f = s_fibers s !! f \/ 0 < occ_t f t \/ s_fibers s !! f = None) ->
  Forall (queued_ok (s_fibers s')) (m_fibers s') -> thread_ok (s_fibers s') t' ->
  (forall f, is_Some (s_fibers s' !! f) -> f < s_alloc s') ->
  (m_activeThreadCount s' = m_activeThreadCount s - Z.of_nat (busy (t_pc t)) + Z.of_nat (busy (t_pc t')))%Z ->
  (m_idleThreadCount s' = m_idleThreadCount s - Z.of_nat (idling (t_pc t)) + Z.of_nat (idling (t_pc t')))%Z ->
  sched_ok s'.
Proof.
  intros [H1 H2 H3 H4 H5 H6 H7] Hi Et Hocc Hh Hq Ht Ha Hac Hid.
  assert (forall f, s_fibers s !! f = None -> occ_q f (m_fibers s) = 0 /\
            forall j tj, s_threads s !! j = Some tj -> occ_t f tj = 0) as Hnew.
  { intros f Hf. split; [by eapply occ_q_new|]. intros j tj Hj.
    eapply occ_t_new; [done|]. by eapply (Forall_lookup_1 _ _ _ _ H3). }
  split.
  - intros f. pose proof (sum_list_with_insert (occ_t f) (s_threads s) i t' t Hi) as E. specialize (H1 f).
    unfold occ in *. rewrite Et. destruct (Hocc f) as [Hle|[Hf Hle]]; [lia|].
    destruct (Hnew f Hf) as [Hz1 Hz2]. pose proof (Hz2 i t Hi) as Hz3.
    assert (sum_list_with (occ_t f) (s_threads s) = 0) as Hz4.
    { apply sum_list_with_zero. apply Forall_lookup. intros j tj. apply Hz2. }
    lia.
  - done.
  - rewrite Et. apply Forall_lookup. intros j tj Hj. destruct (decide (j = i)) as [->|Hne].
    + rewrite list_lookup_insert_eq in Hj by (by eapply lookup_lt_Some). by simplify_eq.
    + rewrite list_lookup_insert_ne in Hj by done. eapply thread_ok_frame; [|by eapply Forall_lookup_1].
      intros f Hf. destruct (Hh f) as [E|[E|E]]; [done| |].
      * pose proof (sum_with_two (occ_t f) (s_threads s) i j t tj ltac:(done) Hi Hj). specialize (H1 f). unfold occ in H1. lia.
      * destruct (Hnew f E) as [_ Hz]. rewrite (Hz j tj Hj) in Hf. lia.
  - done.
  - pose proof (sum_list_with_insert (fun t => busy (t_pc t)) (s_threads s) i t' t Hi) as E. rewrite Et. lia.
  - pose proof (sum_list_with_insert (fun t => idling (t_pc t)) (s_threads s) i t' t Hi) as E. rewrite Et. lia.
  - rewrite Et, length_insert. done.
Qed.

Lemma counts_bounded (w : thread C -> nat) (l : list (thread C)) : (forall t, w t <= 1) -> sum_list_with w l <= length l.
Proof. intros H. induction l as [|x l IH]; simpl; [done|]. specialize (H x). lia. Qed.

Lemma active_range s i t : sched_ok s -> s_threads s !! i = Some t ->
  (Z.of_nat (busy (t_pc t)) <= m_activeThreadCount s < 2 ^ 63)%Z.
Proof.
  intros H Hi. rewrite (so_active s H). pose proof (so_small s H).
  pose proof (counts_bounded (fun t => busy (t_pc t)) (s_threads s)) as Hb.
  pose proof (sum_with_elem (fun t => busy (t_pc t)) (s_threads s) i t Hi) as He. simpl in He.
  assert (forall t : thread C, busy (t_pc t) <= 1) as H1 by (intros t0; destruct (t_pc t0) as [|? ? []|?|?|?|?|?|?| | |]; simpl; lia).
  specialize (Hb H1). lia.
Qed.

Lemma idle_range s i t : sched_ok s -> s_threads s !! i = Some t ->
  (Z.of_nat (idling (t_pc t)) <= m_idleThreadCount s < 2 ^ 63)%Z.
Proof.
  intros H Hi. rewrite (so_idle s H). pose proof (so_small s H).
  pose proof (counts_bounded (fun t => idling (t_pc t)) (s_threads s)) as Hb.
  pose proof (sum_with_elem (fun t => idling (t_pc t)) (s_threads s) i t Hi) as He. simpl in He.
  assert (forall t : thread C, idling (t_pc t) <= 1) as H1 by (intros t0; destruct (t_pc t0); simpl; lia).
  specialize (Hb H1). lia.
Qed.

Lemma fiber_at_run s f v : s_fibers s !! f = Some v -> fiber_at f s = (Ret v, s).
Proof. intros H. unfold fiber_at. by rewrite H. Qed.

Lemma set_state_run s f v st : s_fibers s !! f = Some v ->
  set_state f st s = (Ret tt, set_fibers (<[f := mkFiber st (f_cb v)]> (s_fibers s)) s).
Proof. intros H. unfold set_state. by run (fiber_at_run s f v H). Qed.

Lemma swapIn_run s f v : s_fibers s !! f = Some v -> f_state v <> EXEC ->
  swapIn f s = (Ret tt, set_fibers (<[f := mkFiber EXEC (f_cb v)]> (s_fibers s)) s).
Proof. intros H Hs. unfold swapIn. run (fiber_at_run s f v H). by rewrite bool_decide_false. Qed.

Lemma Fiber_reset_run s f v cb : s_fibers s !! f = Some v -> f_state v = TERM \/ f_state v = INIT \/ f_state v = EXCEPT ->
  Fiber_reset f cb s = (Ret tt, set_fibers (<[f := mkFiber INIT cb]> (s_fibers s)) s).
Proof. intros H Hs. unfold Fiber_reset. run (fiber_at_run s f v H). by rewrite bool_decide_true. Qed.

(** A schedule call appends; the call of [tickle] changes nothing else. *)
Definition set_tickles (n : nat) s : sched C :=
  mkSched (m_fibers s) (s_fibers s) (s_alloc s) (m_activeThreadCount s) (m_idleThreadCount s) (m_stopping s)
    (m_autoStop s) (s_threads s) n.

Lemma schedule_run s ft : (ft_fiber ft <> None \/ ft_cb ft <> None) ->
  exists n, schedule ft s = (Ret tt, set_tickles n (set_queue (m_fibers s ++ [ft]) s)).
Proof.
  intros H. unfold schedule, scheduleNoLock. rewrite bind_assoc. run_pure. unfold id. rewrite bind_assoc.
  erewrite bind_ret; [|destruct (ft_fiber ft), (ft_cb ft); (reflexivity || by destruct H)]. cbv beta. run_pure.
  case_bool_decide; [exists (S (s_tickles s))|exists (s_tickles s)]; done.
Qed.

Lemma tickle_run b s : exists n, (if b : bool then tickle else mret tt) s = (Ret tt, set_tickles n s).
Proof. destruct b; [exists (S (s_tickles s))|exists (s_tickles s)]; [done|by destruct s]. Qed.

(** ** Each step *)

Lemma insert_alloc s f v : sched_ok s -> is_Some (s_fibers s !! f) ->
  forall g, is_Some (<[f := v]> (s_fibers s) !! g) -> g < s_alloc s.
Proof.
  intros H Hf g Hg. apply (so_alloc s H). destruct (decide (g = f)) as [->|]; [done|].
  by rewrite lookup_insert_ne in Hg.
Qed.

Lemma queued_other s i t f v : sched_ok s -> s_threads s !! i = Some t -> 0 < occ_t f t ->
  Forall (queued_ok (<[f := v]> (s_fibers s))) (m_fibers s).
Proof.
  intros H Hi Hf. eapply queue_frame; [|apply H]. intros g Hg. rewrite lookup_insert_ne; [done|]. intros <-.
  pose proof (so_once s H f) as Ho. unfold occ in Ho. pose proof (sum_with_elem (occ_t f) (s_threads s) i t Hi). lia.
Qed.

Lemma step_top_ok s i t : sched_ok s -> s_threads s !! i = Some t -> t_pc t = Top ->
  exists s', step_top i t s = (Ret tt, s') /\ sched_ok s'.
Proof.
  intros H Hi Hp. unfold step_top. run_pure. unfold id.
  assert (Forall (task_ok (s_fibers s)) (m_fibers s)) as Hq.
  { eapply Forall_impl; [apply H|]. intros ft. unfold queued_ok, task_ok, in_state. destruct (ft_fiber ft); [|done].
    intros (v & -> & _). done. }
  destruct (take_task_spec (t_id t) (s_fibers s) (m_fibers s) Hq) as (r & b & E & Hr).
  erewrite bind_ret; [|rewrite E; reflexivity]. cbv beta match.
  pose proof (active_range s i t H Hi) as Hr1. pose proof (Forall_lookup_1 _ _ _ _ (so_threads s H) Hi) as [T1 T2 T3].
  destruct t as [id p cbf idl]. simpl in *. subst p.
  destruct r as [[ft rest]|].
  - destruct Hr as (l1 & l2 & Eq & -> & _ & Hx & _). pose proof (so_queue s H) as Hqo. rewrite Eq, Forall_app, Forall_cons in Hqo.
    unfold active_inc, go. run_pure. eexists. split; [reflexivity|].
    eapply (sched_ok_update s _ i _ _ H Hi); [reflexivity|..]; simpl.
    + intros g. left. rewrite Eq. unfold occ_t, occ_q. simpl. rewrite !sum_list_with_app. simpl. lia.
    + auto.
    + rewrite Forall_app. tauto.
    + split; simpl; [apply Hqo|done|done].
    + apply H.
    + rewrite wrap_id by (split; lia). lia.
    + lia.
  - unfold go. run_pure. eexists. split; [reflexivity|].
    eapply (sched_ok_update s _ i _ _ H Hi); [reflexivity|..]; simpl; try (apply H || auto || lia).
    by split.
Qed.

Lemma held_once s i t f : sched_ok s -> s_threads s !! i = Some t -> occ_t f t <= 1.
Proof.
  intros H Hi. pose proof (so_once s H f) as Ho. unfold occ in Ho.
  pose proof (sum_with_elem (occ_t f) (s_threads s) i t Hi). lia.
Qed.

Lemma in_state_ne h f g v P : in_state h g P -> g <> f -> in_state (<[f := v]> h) g P.
Proof. intros (x & Hx & Hp) Hne. exists x. by rewrite lookup_insert_ne. Qed.

Lemma in_state_eq h f v (P : State -> Prop) : P (f_state v) -> in_state (<[f := v]> h) f P.
Proof. intros Hp. exists v. by rewrite lookup_insert_eq. Qed.

(** A thread that changes the fiber of its place keeps its other two. *)
Lemma place_changed s i t p f v : sched_ok s -> s_threads s !! i = Some t -> occ_pc f (t_pc t) = 1 ->
  pc_ok (<[f := v]> (s_fibers s)) (mkThread (t_id t) p (t_cb_fiber t) (t_idle_fiber t)) ->
  runs_cb (t_pc t) = false -> runs_cb p = false -> runs_idle (t_pc t) = false -> runs_idle p = false ->
  thread_ok (<[f := v]> (s_fibers s)) (mkThread (t_id t) p (t_cb_fiber t) (t_idle_fiber t)).
Proof.
  intros H Hi Hf Hpc Hr Hr' Hd Hd'. pose proof (held_once s i t f H Hi) as Ho. unfold occ_t in Ho.
  destruct (Forall_lookup_1 _ _ _ _ (so_threads s H) Hi) as [T1 T2 T3]. split; simpl; [done| |].
  - intros g Hg _. apply in_state_ne; [by apply T2|]. intros ->. rewrite Hg, holds_eq in Ho. lia.
  - rewrite Hd'. rewrite Hd in T3. apply in_state_ne; [done|]. intros E. rewrite E, holds_eq in Ho. lia.
Qed.

(** The three ways a taken task is run, and the ways without one. *)
Section got.
Context (s : sched C) (i : nat) (t : thread C) (ft : FiberAndThread C) (b : bool).
Hypothesis H : sched_ok s.
Hypothesis Hi : s_threads s !! i = Some t.

Lemma got_fiber f v : t_pc t = Got ft b true -> ft_fiber ft = Some f -> s_fibers s !! f = Some v -> f_state v <> EXEC ->
  exists s', (swapIn f;; go i t (InTask f) (t_cb_fiber t)) s = (Ret tt, s') /\ sched_ok s'.
Proof.
  intros Hp Ef Hv Hne. run (swapIn_run s f v Hv Hne). unfold go. run_pure.
  assert (occ_pc f (t_pc t) = 1) as Ho1 by (rewrite Hp; simpl; by rewrite Ef, holds_eq).
  eexists. split; [reflexivity|]. eapply (sched_ok_update s _ i t _ H Hi); [reflexivity|..]; simpl.
  - intros g. left. unfold occ_t. rewrite Hp. simpl. rewrite Ef. lia.
  - intros g. destruct (decide (g = f)) as [->|]; [right; left; unfold occ_t; lia|left; by rewrite lookup_insert_ne].
  - eapply queued_other; [done|done|]. unfold occ_t. lia.
  - apply (place_changed s i t); try done; [by apply in_state_eq|by rewrite Hp|by rewrite Hp].
  - by eapply insert_alloc.
  - rewrite Hp. simpl. lia.
  - rewrite Hp. simpl. lia.
Qed.

Lemma got_cb_reuse f cb : t_pc t = Got ft b true -> t_cb_fiber t = Some f ->
  exists s', (Fiber_reset f (Some cb);; swapIn f;; go i t (InCb f) (Some f)) s = (Ret tt, s') /\ sched_ok s'.
Proof.
  intros Hp Ef. destruct (Forall_lookup_1 _ _ _ _ (so_threads s H) Hi) as [_ T2 T3]. rewrite Hp in T2, T3.
  destruct (T2 f Ef eq_refl) as (v & Hv & Hs). run (Fiber_reset_run s f v (Some cb) Hv ltac:(auto)).
  erewrite bind_ret; [|eapply (swapIn_run _ f (mkFiber INIT (Some cb))); [apply lookup_insert_eq|done]].
  cbv beta. unfold go. run_pure. cbn [s_fibers set_fibers].
  assert (0 < occ_t f t) as Ho1 by (unfold occ_t; rewrite Ef, holds_eq; lia).
  pose proof (held_once s i t f H Hi) as Ho2. unfold occ_t in Ho2. rewrite Ef, holds_eq in Ho2.
  eexists. split; [reflexivity|]. eapply (sched_ok_update s _ i t _ H Hi); [reflexivity|..]; simpl.
  - intros g. left. unfold occ_t. rewrite Ef, Hp. simpl. lia.
  - intros g. destruct (decide (g = f)) as [->|]; [auto|left; by rewrite !lookup_insert_ne].
  - rewrite insert_insert_eq. by eapply queued_other.
  - rewrite insert_insert_eq. split; simpl; [split; [done|by apply in_state_eq]|done|].
    apply in_state_ne; [done|]. intros E. rewrite E, holds_eq in Ho2. lia.
  - rewrite insert_insert_eq. by eapply insert_alloc.
  - rewrite Hp. simpl. lia.
  - rewrite Hp. simpl. lia.
Qed.

Lemma alloc_fresh : s_fibers s !! s_alloc s = None.
Proof.
  destruct (s_fibers s !! s_alloc s) eqn:E; [|done]. pose proof (so_alloc s H (s_alloc s) ltac:(by rewrite E)). lia.
Qed.

Lemma got_cb_new cb : t_pc t = Got ft b true -> t_cb_fiber t = None ->
  exists s', (f ← new_Fiber cb; swapIn f;; go i t (InCb f) (Some f)) s = (Ret tt, s') /\ sched_ok s'.
Proof.
  intros Hp Ef. destruct (Forall_lookup_1 _ _ _ _ (so_threads s H) Hi) as [_ _ T3]. rewrite Hp in T3.
  pose proof alloc_fresh as Hnew. pose proof (occ_q_new _ _ _ Hnew (so_queue s H)) as Hoq.
  unfold new_Fiber. erewrite bind_ret by reflexivity. cbv beta.
  erewrite bind_ret; [|eapply (swapIn_run _ (s_alloc s) (mkFiber INIT (Some cb))); [apply lookup_insert_eq|done]].
  cbv beta. unfold go. run_pure. cbn [s_fibers set_fibers].
  assert (t_idle_fiber t <> s_alloc s) as Hid by (destruct T3 as (vi & Hvi & _); intros E; congruence).
  eexists. split; [reflexivity|]. eapply (sched_ok_update s _ i t _ H Hi); [reflexivity|..]; simpl; rewrite ?insert_insert_eq.
  - intros g. destruct (decide (g = s_alloc s)) as [->|Hne].
    { right. split; [done|]. rewrite Hoq. unfold occ_t. simpl. rewrite holds_eq, holds_ne by done. lia. }
    left. unfold occ_t. simpl. rewrite (holds_ne (s_alloc s) g) by done. lia.
  - intros g. destruct (decide (g = s_alloc s)) as [->|]; [auto|left; by rewrite !lookup_insert_ne].
  - eapply queue_frame; [|apply H]. intros g Hg. rewrite lookup_insert_ne; [done|]. intros <-. lia.
  - split; simpl; [split; [done|by apply in_state_eq]|done|]. by apply in_state_ne.
  - intros g Hg. destruct (decide (g = s_alloc s)) as [->|]; [lia|].
    rewrite lookup_insert_ne in Hg by done. pose proof (so_alloc s H g Hg). lia.
  - rewrite Hp. simpl. lia.
  - rewrite Hp. simpl. lia.
Qed.

(** Going elsewhere with all fibers as they are. *)
Lemma go_only p : pc_ok (s_fibers s) (mkThread (t_id t) p (t_cb_fiber t) (t_idle_fiber t)) ->
  (forall f, occ_pc f p <= occ_pc f (t_pc t)) -> runs_cb (t_pc t) = runs_cb p -> runs_idle (t_pc t) = runs_idle p ->
  forall n m, (n = m_activeThreadCount s - Z.of_nat (busy (t_pc t)) + Z.of_nat (busy p))%Z ->
  (m = m_idleThreadCount s - Z.of_nat (idling (t_pc t)) + Z.of_nat (idling p))%Z ->
  sched_ok (set_threads (<[i := mkThread (t_id t) p (t_cb_fiber t) (t_idle_fiber t)]> (s_threads s))
    (set_idle m (set_active n s))).
Proof.
  intros Hpc Hocc Hr Hd n m Hn Hm. destruct (Forall_lookup_1 _ _ _ _ (so_threads s H) Hi) as [_ T2 T3].
  eapply (sched_ok_update s _ i t _ H Hi); [reflexivity|..]; simpl; try (apply H || auto).
  - intros g. left. unfold occ_t. simpl. specialize (Hocc g). lia.
  - rewrite Hr in T2. rewrite Hd in T3. split; [done|exact T2|exact T3].
Qed.

Lemma got_nothing : t_pc t = Got reset_ft b false ->
  exists s', (v ← fiber_at (t_idle_fiber t);
    if bool_decide (f_state v = TERM) then go i t Done (t_cb_fiber t) else
    idle_inc;; swapIn (t_idle_fiber t);; go i t InIdle (t_cb_fiber t)) s = (Ret tt, s') /\ sched_ok s'.
Proof.
  intros Hp. pose proof (idle_range s i t H Hi) as Hr2.
  destruct (Forall_lookup_1 _ _ _ _ (so_threads s H) Hi) as [_ T2 (vi & Hvi & Tvi)]. rewrite Hp in *. simpl in *.
  run (fiber_at_run s (t_idle_fiber t) vi Hvi). case_bool_decide as Et.
  - unfold go. run_pure. eexists. split; [reflexivity|].
    pose proof (go_only Done) as G. rewrite Hp in G. simpl in G.
    exact (G I ltac:(lia) eq_refl eq_refl (m_activeThreadCount s) (m_idleThreadCount s) ltac:(lia) ltac:(lia)).
  - unfold idle_inc, go. run_pure. erewrite bind_ret by (by eapply swapIn_run). cbv beta. run_pure.
    cbn [s_fibers set_idle]. eexists. split; [reflexivity|].
    assert (0 < occ_t (t_idle_fiber t) t) as Ho1 by (unfold occ_t; rewrite holds_eq; lia).
    pose proof (held_once s i t (t_idle_fiber t) H Hi) as Ho2. unfold occ_t in Ho2. rewrite holds_eq in Ho2.
    eapply (sched_ok_update s _ i t _ H Hi); [reflexivity|..]; simpl.
    + intros g. left. unfold occ_t. simpl. lia.
    + intros g. destruct (decide (g = t_idle_fiber t)) as [->|]; [auto|left; by rewrite !lookup_insert_ne].
    + by eapply queued_other.
    + split; simpl; [done| |by apply in_state_eq]. intros f Hf _. apply in_state_ne; [by apply (T2 f Hf)|].
      intros ->. rewrite Hf, holds_eq in Ho2. lia.
    + by eapply insert_alloc.
    + rewrite Hp. simpl. lia.
    + rewrite Hp. simpl in *. rewrite wrap_id by (split; lia). lia.
Qed.
End got.

Lemma runnable_run s ft : queued_ok (s_fibers s) ft ->
  exists o, runnable ft s = (Ret o, s) /\ forall f, o = Some f ->
    ft_fiber ft = Some f /\ exists v, s_fibers s !! f = Some v /\ f_state v <> EXEC.
Proof.
  intros Hq. unfold runnable, queued_ok in *. destruct (ft_fiber ft) as [f|] eqn:Ef; [|by exists None].
  destruct Hq as (v & Hv & Hne). run (fiber_at_run s f v Hv). eexists. split; [reflexivity|].
  destruct (ended _); intros g Hg; simplify_eq. eauto.
Qed.

Lemma step_got_ok s i t ft b act : sched_ok s -> s_threads s !! i = Some t -> t_pc t = Got ft b act ->
  exists s', step_got i t ft b act s = (Ret tt, s') /\ sched_ok s'.
Proof.
  intros H0 Hi0 Hp. unfold step_got. destruct (tickle_run b s) as [n En]. run En.
  assert (exists s1, set_tickles n s = s1 /\ sched_ok s1 /\ s_threads s1 !! i = Some t) as (s1 & -> & H & Hi)
    by (exists (set_tickles n s); destruct H0; by split_and!).
  clear s H0 Hi0 En n. rename s1 into s. pose proof (active_range s i t H Hi) as Hr1.
  pose proof (th_pc _ _ (Forall_lookup_1 _ _ _ _ (so_threads s H) Hi)) as T1. unfold pc_ok in T1. rewrite Hp in T1.
  destruct act.
  2: { subst ft. unfold runnable. simpl. run_pure. by eapply got_nothing. }
  destruct (runnable_run s ft T1) as (o & Eo & Ho). run Eo. destruct o as [f|].
  { destruct (Ho f eq_refl) as (Ef & v & Hv & Hne). by eapply got_fiber. }
  destruct (ft_cb ft) as [cb|].
  - destruct (t_cb_fiber t) as [f|] eqn:Ef; [|by eapply got_cb_new].
    rewrite bind_assoc. destruct (got_cb_reuse s i t ft b H Hi f cb Hp Ef) as (s' & E & H'). exists s'.
    split; [|done]. rewrite <- E. unfold mbind, prog_bind. by destruct (Fiber_reset f (Some cb) s) as [[] ?].
  - unfold active_dec, go. run_pure. eexists. split; [reflexivity|].
    pose proof (go_only s i t H Hi Top) as G. rewrite Hp in G, Hr1. simpl in G, Hr1.
    rewrite wrap_id by (split; lia).
    exact (G I ltac:(lia) eq_refl eq_refl (m_activeThreadCount s - 1)%Z (m_idleThreadCount s) ltac:(lia) ltac:(lia)).
Qed.

(** Behind [--m_activeThreadCount]. *)
Lemma dec_go_ok s i t p : sched_ok s -> s_threads s !! i = Some t -> busy (t_pc t) = 1 -> busy p = 0 ->
  pc_ok (s_fibers s) (mkThread (t_id t) p (t_cb_fiber t) (t_idle_fiber t)) ->
  (forall f, occ_pc f p <= occ_pc f (t_pc t)) -> runs_cb (t_pc t) = runs_cb p -> runs_idle (t_pc t) = runs_idle p ->
  idling (t_pc t) = idling p ->
  exists s', (active_dec;; go i t p (t_cb_fiber t)) s = (Ret tt, s') /\ sched_ok s'.
Proof.
  intros H Hi Hb Hb' Hpc Ho Hr Hd Hid. pose proof (active_range s i t H Hi) as Hra. unfold active_dec, go. run_pure.
  eexists. split; [reflexivity|]. rewrite wrap_id by (split; lia).
  apply (go_only s i t H Hi p Hpc Ho Hr Hd (m_activeThreadCount s - 1)%Z (m_idleThreadCount s)); lia.
Qed.

Lemma step_out_task_ok s i t f : sched_ok s -> s_threads s !! i = Some t -> t_pc t = OutTask f ->
  exists s', step_out_task i t f s = (Ret tt, s') /\ sched_ok s'.
Proof.
  intros H Hi Hp. pose proof (th_pc _ _ (Forall_lookup_1 _ _ _ _ (so_threads s H) Hi)) as T1. unfold pc_ok in T1.
  apply (dec_go_ok s i t (AfterTask f) H Hi); rewrite ?Hp in *; done.
Qed.

Lemma step_out_cb_ok s i t f : sched_ok s -> s_threads s !! i = Some t -> t_pc t = OutCb f ->
  exists s', step_out_cb i t f s = (Ret tt, s') /\ sched_ok s'.
Proof.
  intros H Hi Hp. pose proof (th_pc _ _ (Forall_lookup_1 _ _ _ _ (so_threads s H) Hi)) as T1. unfold pc_ok in T1.
  apply (dec_go_ok s i t (AfterCb f) H Hi); rewrite ?Hp in *; done.
Qed.

(** Behind the switch: the thread goes back to the top without the fiber [f]
    of its place, or with it as a callback fiber that was reset. *)
Section back.
Context (s : sched C) (i : nat) (t : thread C) (f : nat) (v : Fiber C) (cbf : option nat).
Hypothesis H : sched_ok s.
Hypothesis Hi : s_threads s !! i = Some t.
Hypothesis Hbusy : busy (t_pc t) = 0.
Hypothesis Hidle : idling (t_pc t) = 0.
Hypothesis Hni : runs_idle (t_pc t) = false.
Hypothesis Hv : s_fibers s !! f = Some v.
Hypothesis Hheld : occ_pc f (t_pc t) + holds (t_cb_fiber t) f = 1.
Hypothesis Hcbf : cbf = t_cb_fiber t \/ cbf = None.
Hypothesis Hcb : forall g, cbf = Some g -> g <> f -> in_state (s_fibers s) g (fun st => st = INIT).

Let t' : thread C := mkThread (t_id t) Top cbf (t_idle_fiber t).

Lemma back_idle : t_idle_fiber t <> f.
Proof.
  intros E. pose proof (held_once s i t f H Hi) as Ho. unfold occ_t in Ho. rewrite E, holds_eq in Ho. lia.
Qed.

Lemma back_occ g : occ_t g t' + (if decide (cbf = Some f) then 0 else holds (Some f) g) <= occ_t g t.
Proof.
  unfold occ_t, t'. simpl. destruct Hcbf as [-> | ->]; case_decide as E; try done; unfold holds in *;
    repeat case_decide; simplify_eq; try lia.
Qed.

Lemma back_thread v' : (cbf = Some f -> f_state v' = INIT) -> thread_ok (<[f := v']> (s_fibers s)) t'.
Proof.
  intros Hs. destruct (Forall_lookup_1 _ _ _ _ (so_threads s H) Hi) as [_ _ T3]. rewrite Hni in T3.
  split; simpl; [done| |apply in_state_ne; [done|apply back_idle]].
  intros g Hg _. destruct (decide (g = f)) as [->|Hne]; [by apply in_state_eq, Hs|].
  apply in_state_ne; [by apply Hcb|done].
Qed.

Lemma back_changed v' : (cbf = Some f -> f_state v' = INIT) ->
  sched_ok (set_threads (<[i := t']> (s_threads s)) (set_fibers (<[f := v']> (s_fibers s)) s)).
Proof.
  intros Hs. assert (0 < occ_t f t) as Hp by (unfold occ_t; lia).
  eapply (sched_ok_update s _ i t _ H Hi); [reflexivity|..]; simpl.
  - intros g. left. pose proof (back_occ g). lia.
  - intros g. destruct (decide (g = f)) as [->|]; [auto|left; by rewrite lookup_insert_ne].
  - by eapply queued_other.
  - by apply back_thread.
  - by eapply insert_alloc.
  - rewrite Hbusy. lia.
  - rewrite Hidle. lia.
Qed.

Lemma back_queued k : cbf <> Some f -> f_state v <> EXEC ->
  sched_ok (set_threads (<[i := t']> (s_threads s))
    (set_tickles k (set_queue (m_fibers s ++ [mkFT (Some f) None (-1)]) s))).
Proof.
  intros Hc Hst. eapply (sched_ok_update s _ i t _ H Hi); [reflexivity|..]; simpl; try (apply H || auto).
  - intros g. left. pose proof (back_occ g) as Ho. rewrite decide_False in Ho by done.
    unfold occ_q. rewrite sum_list_with_app. simpl. lia.
  - apply Forall_app. split; [apply H|]. constructor; [|done]. by exists v.
  - pose proof (back_thread v ltac:(done)) as Hb. by rewrite insert_id in Hb.
  - rewrite Hbusy. lia.
  - rewrite Hidle. lia.
Qed.
End back.

Lemma step_after_task_ok s i t f : sched_ok s -> s_threads s !! i = Some t -> t_pc t = AfterTask f ->
  exists s', step_after_task i t f s = (Ret tt, s') /\ sched_ok s'.
Proof.
  intros H Hi Hp. pose proof (held_once s i t f H Hi) as Ho.
  destruct (Forall_lookup_1 _ _ _ _ (so_threads s H) Hi) as [T1 T2 _]. unfold pc_ok in T1.
  unfold occ_t in Ho. rewrite Hp in T1, T2, Ho. simpl in Ho. rewrite holds_eq in Ho.
  destruct T1 as (v & Hv & Hne). unfold step_after_task.
  erewrite bind_ret by (by apply fiber_at_run). cbv beta.
  assert (t_cb_fiber t <> Some f) as Hncb by (intros E; rewrite E, holds_eq in Ho; lia).
  assert (holds (t_cb_fiber t) f = 0) as Hz by (unfold holds; by rewrite decide_False).
  assert (forall v', sched_ok (set_threads (<[i := mkThread (t_id t) Top (t_cb_fiber t) (t_idle_fiber t)]> (s_threads s))
    (set_fibers (<[f := v']> (s_fibers s)) s))) as Hch.
  { intros v'. apply (back_changed s i t f v (t_cb_fiber t) H Hi); rewrite ?Hp; simpl; rewrite ?holds_eq, ?Hz; auto.
    done. }
  destruct (f_state v) eqn:Est; try done.
  - erewrite bind_ret by (by apply set_state_run). cbv beta. unfold go. run_pure. eexists. split; [reflexivity|]. apply Hch.
  - erewrite bind_ret by (by apply set_state_run). cbv beta. unfold go. run_pure. eexists. split; [reflexivity|]. apply Hch.
  - unfold go. run_pure. eexists. split; [reflexivity|]. specialize (Hch v). by rewrite insert_id in Hch.
  - match goal with |- context [(schedule ?ft ≫= _) ?s0] => destruct (schedule_run s0 ft) as [k E]; [by left|]; run E end.
    unfold go. run_pure. eexists. split; [reflexivity|].
    eapply (back_queued s i t f v); rewrite ?Hp; simpl; rewrite ?holds_eq; eauto; try lia; congruence.
  - unfold go. run_pure. eexists. split; [reflexivity|]. specialize (Hch v). by rewrite insert_id in Hch.
Qed.

Lemma step_after_cb_ok s i t f : sched_ok s -> s_threads s !! i = Some t -> t_pc t = AfterCb f ->
  exists s', step_after_cb i t f s = (Ret tt, s') /\ sched_ok s'.
Proof.
  intros H Hi Hp.
  destruct (Forall_lookup_1 _ _ _ _ (so_threads s H) Hi) as [T1 _ _]. unfold pc_ok in T1.
  rewrite Hp in T1. destruct T1 as [Ecb (v & Hv & Hne)].
  unfold step_after_cb.
  erewrite bind_ret by (by apply fiber_at_run). cbv beta.
  assert (forall v' cbf, (cbf = t_cb_fiber t \/ cbf = None) -> (cbf = Some f -> f_state v' = INIT) ->
    sched_ok (set_threads (<[i := mkThread (t_id t) Top cbf (t_idle_fiber t)]> (s_threads s))
      (set_fibers (<[f := v']> (s_fibers s)) s))) as Hch.
  { intros v' cbf Hc Hs. eapply back_changed; rewrite ?Hp, ?Ecb; simpl; rewrite ?holds_eq; eauto.
    - by rewrite Ecb in Hc.
    - intros g Hg Hgf. destruct Hc as [-> | ->]; congruence. }
  destruct (f_state v) eqn:Est; try done.
  - erewrite bind_ret by (by apply set_state_run). cbv beta. unfold go. run_pure. eexists. split; [reflexivity|]. by apply Hch; auto.
  - erewrite bind_ret by (by apply set_state_run). cbv beta. unfold go. run_pure. eexists. split; [reflexivity|]. by apply Hch; auto.
  - erewrite bind_ret by (eapply Fiber_reset_run; [done|auto]). cbv beta. unfold go. run_pure.
    eexists. split; [reflexivity|]. by apply Hch; auto.
  - match goal with |- context [(schedule ?ft ≫= _) ?s0] => destruct (schedule_run s0 ft) as [k E]; [by left|]; run E end.
    unfold go. run_pure. eexists. split; [reflexivity|].
    eapply (back_queued s i t f v None); rewrite ?Hp, ?Ecb; simpl; rewrite ?holds_eq; eauto; congruence.
  - erewrite bind_ret by (eapply Fiber_reset_run; [done|auto]). cbv beta. unfold go. run_pure.
    eexists. split; [reflexivity|]. by apply Hch; auto.
Qed.

(** The idle fiber changes its state, or a body ends: the fiber of the place
    changes, the thread goes on. *)
Lemma idle_changed s i t p st m : sched_ok s -> s_threads s !! i = Some t ->
  occ_pc 0 (t_pc t) = 0 -> (forall f, occ_pc f p = 0 /\ occ_pc f (t_pc t) = 0) -> busy p = 0 -> busy (t_pc t) = 0 ->
  runs_cb p = false -> runs_cb (t_pc t) = false -> pc_ok (s_fibers s) (mkThread (t_id t) p (t_cb_fiber t) (t_idle_fiber t)) ->
  (if runs_idle p then st = EXEC else st <> EXEC) -> (match p with Top | OutIdle => True | _ => False end) ->
  (m = m_idleThreadCount s - Z.of_nat (idling (t_pc t)) + Z.of_nat (idling p))%Z ->
  forall v, s_fibers s !! t_idle_fiber t = Some v ->
  sched_ok (set_threads (<[i := mkThread (t_id t) p (t_cb_fiber t) (t_idle_fiber t)]> (s_threads s))
    (set_fibers (<[t_idle_fiber t := mkFiber st (f_cb v)]> (s_fibers s)) (set_idle m s))).
Proof.
  intros H Hi _ Hocc Hb1 Hb2 Hr1 Hr2 Hpc Hst Hpl Hm v Hv.
  destruct (Forall_lookup_1 _ _ _ _ (so_threads s H) Hi) as [_ T2 _].
  assert (0 < occ_t (t_idle_fiber t) t) as Ho1 by (unfold occ_t; rewrite holds_eq; lia).
  pose proof (held_once s i t (t_idle_fiber t) H Hi) as Ho2. unfold occ_t in Ho2. rewrite holds_eq in Ho2.
  eapply (sched_ok_update s _ i t _ H Hi); [reflexivity|..]; simpl.
  - intros g. left. unfold occ_t. simpl. destruct (Hocc g) as [-> ->]. lia.
  - intros g. destruct (decide (g = t_idle_fiber t)) as [->|]; [auto|left; by rewrite lookup_insert_ne].
  - by eapply queued_other.
  - split; simpl; [by destruct p| |by apply in_state_eq]. intros f Hf _. apply in_state_ne; [by apply T2|].
    intros ->. rewrite Hf, holds_eq in Ho2. lia.
  - by eapply insert_alloc.
  - rewrite Hb1, Hb2. lia.
  - lia.
Qed.

Lemma step_in_idle_ok s i t : sched_ok s -> s_threads s !! i = Some t -> t_pc t = InIdle ->
  exists s', step_in_idle i t s = (Ret tt, s') /\ sched_ok s'.
Proof.
  intros H Hi Hp. destruct (Forall_lookup_1 _ _ _ _ (so_threads s H) Hi) as [_ _ (v & Hv & _)].
  unfold step_in_idle. run_pure. unfold id. erewrite bind_ret by (by apply set_state_run). cbv beta. unfold go. run_pure.
  eexists. split; [reflexivity|].
  apply (idle_changed s i t OutIdle _ (m_idleThreadCount s) H Hi); rewrite ?Hp; simpl; try done; try lia.
  by destruct (stopping s).
Qed.

Lemma step_out_idle_ok s i t : sched_ok s -> s_threads s !! i = Some t -> t_pc t = OutIdle ->
  exists s', step_out_idle i t s = (Ret tt, s') /\ sched_ok s'.
Proof.
  intros H Hi Hp. pose proof (idle_range s i t H Hi) as Hr. rewrite Hp in Hr. simpl in Hr.
  destruct (Forall_lookup_1 _ _ _ _ (so_threads s H) Hi) as [_ _ (v & Hv & Hst)]. rewrite Hp in Hst. simpl in Hst.
  unfold step_out_idle, idle_dec. run_pure. rewrite wrap_id by (split; lia).
  erewrite bind_ret by (by apply fiber_at_run). cbv beta.
  assert (forall st, st <> EXEC -> sched_ok (set_threads (<[i := mkThread (t_id t) Top (t_cb_fiber t) (t_idle_fiber t)]> (s_threads s))
    (set_fibers (<[t_idle_fiber t := mkFiber st (f_cb v)]> (s_fibers s)) (set_idle (m_idleThreadCount s - 1) s)))) as Hch.
  { intros st Hs. apply (idle_changed s i t Top st _ H Hi); rewrite ?Hp; simpl; try done; lia. }
  destruct (ended (f_state v)).
  - unfold go. run_pure. eexists. split; [reflexivity|]. specialize (Hch (f_state v) Hst).
    rewrite insert_id in Hch; [done|]. by destruct v.
  - erewrite bind_ret by (by apply set_state_run). cbv beta. unfold go. run_pure. eexists. split; [reflexivity|]. by apply Hch.
Qed.

Lemma body_step_ok s i e : sched_ok s -> exists s', body_step i e s = (Ret tt, s') /\ sched_ok s'.
Proof.
  intros H. unfold body_step. run_pure. unfold id. destruct (s_threads s !! i) as [t|] eqn:Hi; [|by exists s].
  pose proof (Forall_lookup_1 _ _ _ _ (so_threads s H) Hi) as [T1 T2 T3]. unfold pc_ok in T1.
  assert (forall v : Fiber C, f_state (body_fiber e v) <> EXEC) as Hb by (intros v; by destruct e).
  destruct (t_pc t) as [| |f| | |f| | | | |] eqn:Hp; try (by exists s).
  - destruct T1 as (v & Hv & Hst). run (fiber_at_run s f v Hv). unfold put_fiber, go. run_pure.
    eexists. split; [reflexivity|].
    assert (occ_pc f (t_pc t) = 1) as Ho1 by (rewrite Hp; simpl; by rewrite holds_eq).
    eapply (sched_ok_update s _ i t _ H Hi); [reflexivity|..]; simpl; rewrite ?Hp; simpl; try lia.
    + intros g. left. unfold occ_t. rewrite Hp. simpl. lia.
    + intros g. destruct (decide (g = f)) as [->|]; [right; left; unfold occ_t; lia|left; by rewrite lookup_insert_ne].
    + eapply queued_other; [done|done|]. unfold occ_t. lia.
    + apply (place_changed s i t); try done; [by apply in_state_eq|by rewrite Hp|by rewrite Hp].
    + by eapply insert_alloc.
  - destruct T1 as [Ecb (v & Hv & Hst)]. run (fiber_at_run s f v Hv). unfold put_fiber, go. run_pure.
    eexists. split; [reflexivity|].
    assert (0 < occ_t f t) as Ho1 by (unfold occ_t; rewrite Ecb, holds_eq; lia).
    pose proof (held_once s i t f H Hi) as Ho2. unfold occ_t in Ho2. rewrite Ecb, holds_eq in Ho2.
    eapply (sched_ok_update s _ i t _ H Hi); [reflexivity|..]; simpl; rewrite ?Hp; simpl; try lia.
    + intros g. left. unfold occ_t. rewrite Hp. simpl. lia.
    + intros g. destruct (decide (g = f)) as [->|]; [auto|left; by rewrite lookup_insert_ne].
    + by eapply queued_other.
    + split; simpl; [split; [done|by apply in_state_eq]|done|]. apply in_state_ne; [done|].
      intros E. rewrite E, holds_eq in Ho2. lia.
    + by eapply insert_alloc.
Qed.

Lemma thread_step_ok s i : sched_ok s -> exists s', thread_step i s = (Ret tt, s') /\ sched_ok s'.
Proof.
  intros H. unfold thread_step. run_pure. unfold id. destruct (s_threads s !! i) as [t|] eqn:Hi; [|by exists s].
  destruct (t_pc t) eqn:Hp; eauto using step_top_ok, step_got_ok, step_out_task_ok, step_out_cb_ok,
    step_after_task_ok, step_after_cb_ok, step_in_idle_ok,
    step_out_idle_ok.
Qed.

(** ** What happens outside the threads *)

(** A call of [schedule] that keeps to the rules: the task has a callback, or
    a fiber that is not executing and that nobody holds. *)
Definition may_schedule s ft : Prop :=
  match ft_fiber ft with
  | Some f => in_state (s_fibers s) f (fun st => st <> EXEC) /\ occ f s = 0
  | None => is_Some (ft_cb ft)
  end.

Lemma schedule_ok s ft : sched_ok s -> may_schedule s ft ->
  exists n, schedule ft s = (Ret tt, set_tickles n (set_queue (m_fibers s ++ [ft]) s)) /\
    sched_ok (set_tickles n (set_queue (m_fibers s ++ [ft]) s)).
Proof.
  intros H Hm. unfold may_schedule in Hm.
  destruct (schedule_run s ft) as [n E]; [destruct (ft_fiber ft); [by left|right; by destruct Hm as [? ->]]|].
  exists n. split; [done|]. destruct H as [H1 H2 H3 H4 H5 H6 H7]. split; simpl; try done.
  - intros f. specialize (H1 f). unfold occ in *. simpl. unfold occ_q in *. rewrite sum_list_with_app. simpl.
    unfold holds at 2. case_decide as Ef; [|lia]. rewrite Ef in Hm. destruct Hm as [_ Hz]. unfold occ, occ_q in Hz. lia.
  - apply Forall_app. split; [done|]. constructor; [|done]. unfold queued_ok. destruct (ft_fiber ft); [apply Hm|done].
Qed.
End invariant.

(** * Events and reachable states *)

Inductive sched_ev (C : Type) : Type :=
| EvThread (i : nat)                       (* thread [i] goes on *)
| EvBody (i : nat) (e : body_end)          (* the body thread [i] runs gives up control *)
| EvSchedule (ft : FiberAndThread C)       (* somebody schedules a task *)
| EvNewFiber (cb : C)                      (* somebody makes a fiber *)
| EvStop.                                  (* somebody calls [stop] *)
Arguments EvThread {C}. Arguments EvBody {C}. Arguments EvSchedule {C}. Arguments EvNewFiber {C}. Arguments EvStop {C}.

Section events.
Context {C : Type}.
Implicit Types (s : sched C) (t : thread C) (e : sched_ev C) (ft : FiberAndThread C).

Definition sched_exec e : prog (sched C) unit :=
  match e with
  | EvThread i => thread_step i
  | EvBody i b => body_step i b
  | EvSchedule ft => schedule ft
  | EvNewFiber cb => new_Fiber cb;; mret tt
  | EvStop => request_stop
  end.
Definition ev_ok s e : Prop := match e with EvSchedule ft => may_schedule s ft | _ => True end.

Lemma new_Fiber_ok s cb : sched_ok s ->
  exists s', new_Fiber cb s = (Ret (s_alloc s), s') /\ sched_ok s' /\ s_threads s' = s_threads s /\
    m_fibers s' = m_fibers s /\ s_fibers s' = <[s_alloc s := mkFiber INIT (Some cb)]> (s_fibers s) /\
    (forall f, occ f s' = occ f s).
Proof.
  intros H. pose proof (alloc_fresh s H) as Hnew. eexists. split; [reflexivity|]. split; [|done].
  destruct H as [H1 H2 H3 H4 H5 H6 H7]. split; simpl; try done.
  - eapply queue_frame; [|done]. intros g Hg. rewrite lookup_insert_ne; [done|]. intros <-.
    rewrite (occ_q_new (s_fibers s)) in Hg by done. lia.
  - eapply Forall_impl; [exact H3|]. intros t Ht. eapply thread_ok_frame; [|done]. intros g Hg.
    rewrite lookup_insert_ne; [done|]. intros <-. rewrite (occ_t_new (s_fibers s)) in Hg by done. lia.
  - intros g Hg. destruct (decide (g = s_alloc s)) as [->|]; [lia|]. rewrite lookup_insert_ne in Hg by done.
    specialize (H4 g Hg). lia.
Qed.

Lemma sched_exec_ok s e : sched_ok s -> ev_ok s e -> exists s', sched_exec e s = (Ret tt, s') /\ sched_ok s'.
Proof.
  intros H He. destruct e as [i|i b|ft|cb|]; simpl.
  - by apply thread_step_ok.
  - by apply body_step_ok.
  - destruct (schedule_ok s ft H He) as [n [E H']]. eauto.
  - destruct (new_Fiber_ok s cb H) as (s' & E & H' & _). run E. eauto.
  - eexists. split; [reflexivity|]. destruct H. by split.
Qed.

Lemma empty_ok b : sched_ok (mkSched [] ∅ 0 0 0 b false [] 0 : sched C).
Proof. split; simpl; try done; intros f; [unfold occ; simpl; lia|]. intros [v Hv]. done. Qed.

Lemma start_threads_ok idle_cb ids s : sched_ok s ->
  (Z.of_nat (length (s_threads s) + length ids) < 2 ^ 63)%Z ->
  exists s', start_threads idle_cb ids s = (Ret tt, s') /\ sched_ok s' /\ m_stopping s' = m_stopping s /\
    t_id <$> s_threads s' = (t_id <$> s_threads s) ++ ids.
Proof.
  revert s. induction ids as [|id ids IH]; intros s H Hlen; simpl in *.
  { exists s. by rewrite app_nil_r. }
  destruct (new_Fiber_ok s idle_cb H) as (s1 & E & H1 & Et & Eq & Eh & Ho). unfold start_thread.
  pose proof (alloc_fresh s H) as Hnew.
  assert (m_stopping s1 = m_stopping s) as Est by (by injection E as <-).
  set (t := mkThread id Top None (s_alloc s) : thread C).
  assert (sched_ok (set_threads (s_threads s1 ++ [t]) s1)) as H2.
  { assert (forall f, sum_list_with (occ_t f) (s_threads s1 ++ [t]) = sum_list_with (occ_t f) (s_threads s) + holds (Some (s_alloc s)) f) as Hs.
    { intros f. rewrite Et, sum_list_with_app. simpl. unfold occ_t at 2. simpl. lia. }
    destruct H1 as [P1 P2 P3 P4 P5 P6 P7]. split; simpl; try done.
    - intros f. specialize (P1 f). unfold occ in *. simpl. rewrite Hs. rewrite Et in P1.
      destruct (decide (s_alloc s = f)) as [<-|Hne]; [|rewrite holds_ne by done; lia].
      rewrite holds_eq. assert (occ (s_alloc s) s = 0) as Hz.
      { unfold occ. rewrite (occ_q_new (s_fibers s)) by (done || apply H). simpl. apply sum_list_with_zero.
        eapply Forall_impl; [apply H|]. intros t0. by apply occ_t_new. }
      unfold occ in Hz. rewrite Eq in *. lia.
    - apply Forall_app. split; [done|]. constructor; [|done]. split; simpl; [done|done|]. rewrite Eh. by apply in_state_eq.
    - rewrite P5, sum_list_with_app. simpl. lia.
    - rewrite P6, sum_list_with_app. simpl. lia.
    - rewrite Et, length_app. simpl. lia. }
  destruct (IH (set_threads (s_threads s1 ++ [t]) s1) H2) as (s' & E' & H' & Es' & Eids).
  { simpl. rewrite Et, length_app. simpl. lia. }
  exists s'. split; [rewrite bind_assoc; run E; run_pure; exact E'|]. split; [done|]. split; [by rewrite Es'; simpl|].
  rewrite Eids. simpl. rewrite Et, fmap_app, <- app_assoc. done.
Qed.

(** A scheduler that was started, under events that keep to the rules. *)
Inductive sched_reachable (idle_cb : C) (ids : list Z) : sched C -> Prop :=
| sr_start s : start idle_cb ids new_Scheduler = (Ret tt, s) -> sched_reachable idle_cb ids s
| sr_step s e r s' : sched_reachable idle_cb ids s -> ev_ok s e -> sched_exec e s = (r, s') ->
    sched_reachable idle_cb ids s'.

Lemma sched_reachable_ok idle_cb ids s : (Z.of_nat (length ids) < 2 ^ 63)%Z ->
  sched_reachable idle_cb ids s -> sched_ok s.
Proof.
  intros Hlen. induction 1 as [s E|s e r s' Hr IH He E].
  - change (start_threads idle_cb ids (mkSched [] ∅ 0 0 0 false false [] 0) = (Ret tt, s)) in E.
    destruct (start_threads_ok idle_cb ids (mkSched [] ∅ 0 0 0 false false [] 0)) as (s1 & E1 & H1 & _).
    + apply empty_ok.
    + done.
    + rewrite E1 in E. by injection E as <-.
  - destruct (sched_exec_ok s e IH He) as (s1 & E1 & H1). congruence.
Qed.


(** The fiber whose body a thread runs. *)
Definition running (p : pc C) : option nat := match p with InTask f | InCb f => Some f | _ => None end.


(** Idling ends only when all work is done: the idle fiber of a thread
    terminates exactly when a stop was requested, no task is queued and
    every thread that took a task has counted itself off again; otherwise it
    holds and the thread looks for work again. *)
Theorem idle_ends_when_quiet idle_cb ids s i t : (Z.of_nat (length ids) < 2 ^ 63)%Z ->
  sched_reachable idle_cb ids s -> s_threads s !! i = Some t -> t_pc t = InIdle ->
  exists s', thread_step i s = (Ret tt, s') /\ m_fibers s' = m_fibers s /\
    (f_state <$> s_fibers s' !! t_idle_fiber t = Some TERM <->
       m_autoStop s = true /\ m_stopping s = true /\ m_fibers s = [] /\
       Forall (fun t' => busy (t_pc t') = 0) (s_threads s)) /\
    (f_state <$> s_fibers s' !! t_idle_fiber t <> Some TERM ->
       f_state <$> s_fibers s' !! t_idle_fiber t = Some HOLD).
Proof.
  intros Hlen Hr Hi Hp. pose proof (sched_reachable_ok idle_cb ids s Hlen Hr) as H.
  destruct (Forall_lookup_1 _ _ _ _ (so_threads s H) Hi) as [_ _ (v & Hv & _)].
  unfold thread_step. run_pure. unfold id. rewrite Hi, Hp. unfold step_in_idle. run_pure. unfold id.
  erewrite bind_ret by (by apply set_state_run). cbv beta. unfold go. run_pure.
  eexists. split; [reflexivity|]. simpl. split; [done|]. rewrite lookup_insert_eq. simpl.
  assert (Forall (fun t' : thread C => busy (t_pc t') = 0) (s_threads s) <-> m_activeThreadCount s = 0%Z) as Hq.
  { rewrite (so_active s H). split.
    - intros Hall. apply sum_list_with_zero in Hall. lia.
    - intros Hz. apply Forall_lookup. intros k tk Hk.
      pose proof (sum_with_elem (fun t => busy (t_pc t)) _ _ _ Hk). simpl in *. lia. }
  rewrite Hq. unfold stopping. destruct (m_autoStop s), (m_stopping s); simpl;
    try case_bool_decide; try destruct (Z.eqb_spec (m_activeThreadCount s) 0); simpl; split; naive_solver.
Qed.
End events.

(** * The queue *)

Section queue.
Context {C : Type}.
Implicit Types (s : sched C) (t : thread C) (ft : FiberAndThread C).

(** Code that leaves the queue as it is, whatever happens. *)
Definition keeps_queue {A} (m : prog (sched C) A) : Prop := forall s, m_fibers (post m s) = m_fibers s.

Lemma keeps_bind {A B} (m : prog (sched C) A) (k : A -> prog (sched C) B) :
  keeps_queue m -> (forall a, keeps_queue (k a)) -> keeps_queue (m ≫= k).
Proof.
  intros Hm Hk s. specialize (Hm s). unfold post, mbind, prog_bind in *. destruct (m s) as [[a|e|f] s']; simpl in *; try done.
  specialize (Hk a s'). unfold post in Hk. congruence.
Qed.
Lemma keeps_modify (f : sched C -> sched C) : (forall s, m_fibers (f s) = m_fibers s) -> keeps_queue (modify f).
Proof. by intros H s. Qed.
Lemma keeps_ret {A} (a : A) : keeps_queue (mret a).
Proof. by intros s. Qed.
Lemma keeps_gets {A} (f : sched C -> A) : keeps_queue (gets f).
Proof. by intros s. Qed.
Lemma keeps_crash {A} f : keeps_queue (crash f : prog (sched C) A).
Proof. by intros s. Qed.
Lemma keeps_fiber_at f : keeps_queue (fiber_at f).
Proof. intros s. unfold post, fiber_at. by destruct (s_fibers s !! f). Qed.
Lemma keeps_new cb : keeps_queue (new_Fiber cb).
Proof. by intros s. Qed.
Lemma keeps_if {A} (b : bool) (m k : prog (sched C) A) : keeps_queue m -> keeps_queue k -> keeps_queue (if b then m else k).
Proof. by destruct b. Qed.
Hint Resolve keeps_bind keeps_modify keeps_ret keeps_gets keeps_crash keeps_fiber_at keeps_new keeps_if : sherry.

Lemma keeps_go i t p o : keeps_queue (go i t p o).
Proof. by apply keeps_modify. Qed.
Lemma keeps_set_state f st : keeps_queue (set_state f st).
Proof. apply keeps_bind; [auto with sherry|]. intros v. by apply keeps_modify. Qed.
Lemma keeps_swapIn f : keeps_queue (swapIn f).
Proof. apply keeps_bind; [auto with sherry|]. intros v. apply keeps_if; [auto with sherry|]. by apply keeps_modify. Qed.
Lemma keeps_reset f cb : keeps_queue (Fiber_reset f cb).
Proof. apply keeps_bind; [auto with sherry|]. intros v. apply keeps_if; [|auto with sherry]. by apply keeps_modify. Qed.
Hint Resolve keeps_go keeps_set_state keeps_swapIn keeps_reset : sherry.

Lemma keeps_got i t ft b act : keeps_queue (step_got i t ft b act).
Proof.
  unfold step_got. apply keeps_bind; [apply keeps_if; [by apply keeps_modify|auto with sherry]|]. intros _.
  apply keeps_bind.
  { unfold runnable. destruct (ft_fiber ft); [|auto with sherry]. apply keeps_bind; auto with sherry. }
  intros [f|]; [apply keeps_bind; auto with sherry|]. destruct (ft_cb ft) as [cb|].
  - apply keeps_bind; [|intros f; apply keeps_bind; auto with sherry]. destruct (t_cb_fiber t); [|auto with sherry].
    apply keeps_bind; auto with sherry.
  - apply keeps_if; [apply keeps_bind; [by apply keeps_modify|auto with sherry]|].
    apply keeps_bind; [auto with sherry|]. intros v. apply keeps_if; [auto with sherry|].
    apply keeps_bind; [by apply keeps_modify|]. intros _. apply keeps_bind; auto with sherry.
Qed.

(** Putting a fiber back into the queue. *)
Lemma requeue_queue f s s' v (k : prog (sched C) unit) (m : State -> prog (sched C) unit) :
  s_fibers s !! f = Some v -> (forall st, st <> READY -> keeps_queue (m st)) -> keeps_queue k ->
  m READY = (schedule (mkFT (Some f) None (-1));; k) -> m (f_state v) s = (Ret tt, s') ->
  m_fibers s' = m_fibers s \/
  m_fibers s' = m_fibers s ++ [mkFT (Some f) None (-1)] /\ f_state <$> s_fibers s !! f = Some READY.
Proof.
  intros Hv Hm Hk Er E. rewrite Hv. simpl. destruct (decide (f_state v = READY)) as [Est|Hne].
  - right. split; [|by rewrite Est]. rewrite Est, Er in E.
    destruct (schedule_run s (mkFT (Some f) None (-1))) as [n En]; [by left|]. revert E. run En. intros E.
    match type of E with k ?s1 = _ => specialize (Hk s1) end. unfold post in Hk. by rewrite E in Hk.
  - left. specialize (Hm _ Hne s). unfold post in Hm. by rewrite E in Hm.
Qed.

Lemma after_task_queue i t f s s' : step_after_task i t f s = (Ret tt, s') -> m_fibers s' = m_fibers s \/
  m_fibers s' = m_fibers s ++ [mkFT (Some f) None (-1)] /\ f_state <$> s_fibers s !! f = Some READY.
Proof.
  unfold step_after_task.
  destruct (s_fibers s !! f) as [v|] eqn:Hv; [|unfold mbind, prog_bind, fiber_at; simpl; by rewrite Hv].
  erewrite bind_ret by (by apply fiber_at_run). cbv beta. rewrite <- Hv.
  apply (requeue_queue f s s' v (go i t Top (t_cb_fiber t)) (fun st => (match st with
    | READY => schedule (mkFT (Some f) None (-1)) | TERM | EXCEPT => mret tt | _ => set_state f HOLD end);;
    go i t Top (t_cb_fiber t)) Hv); [|auto with sherry|done].
  intros [] Hne; try done; apply keeps_bind; auto with sherry.
Qed.

Lemma after_cb_queue i t f s s' : step_after_cb i t f s = (Ret tt, s') -> m_fibers s' = m_fibers s \/
  m_fibers s' = m_fibers s ++ [mkFT (Some f) None (-1)] /\ f_state <$> s_fibers s !! f = Some READY.
Proof.
  unfold step_after_cb.
  destruct (s_fibers s !! f) as [v|] eqn:Hv; [|unfold mbind, prog_bind, fiber_at; simpl; by rewrite Hv].
  erewrite bind_ret by (by apply fiber_at_run). cbv beta. rewrite <- Hv.
  apply (requeue_queue f s s' v (go i t Top None) (fun st => match st with
    | READY => schedule (mkFT (Some f) None (-1));; go i t Top None
    | EXCEPT | TERM => Fiber_reset f None;; go i t Top (t_cb_fiber t)
    | _ => set_state f HOLD;; go i t Top None end) Hv); [|auto with sherry|done].
  intros [] Hne; try done; apply keeps_bind; auto with sherry.
Qed.

(** The task at the head of what thread [i] may run. *)
Definition took s s' (i : nat) : Prop :=
  exists t ft l1 l2 b, s_threads s !! i = Some t /\ t_pc t = Top /\ m_fibers s = l1 ++ ft :: l2 /\
    m_fibers s' = l1 ++ l2 /\ t_pc <$> s_threads s' !! i = Some (Got ft b true) /\
    for_other (t_id t) ft = false /\
    Forall (fun x => for_other (t_id t) x = true \/ executing (s_fibers s) x = true) l1.

Lemma took_or_kept s s' i t : sched_ok s -> s_threads s !! i = Some t -> t_pc t = Top ->
  step_top i t s = (Ret tt, s') -> m_fibers s' = m_fibers s \/
  (exists f, m_fibers s' = m_fibers s ++ [mkFT (Some f) None (-1)] /\ f_state <$> s_fibers s !! f = Some READY) \/
  took s s' i.
Proof.
  intros H Hi Hp. unfold step_top. run_pure. unfold id.
  assert (Forall (task_ok (s_fibers s)) (m_fibers s)) as Hq.
  { eapply Forall_impl; [apply H|]. intros ft. unfold queued_ok, task_ok, in_state. destruct (ft_fiber ft); [|done].
    intros (v & -> & _). done. }
  destruct (take_task_spec (t_id t) (s_fibers s) (m_fibers s) Hq) as (r & b & E & Hr).
  erewrite bind_ret; [|rewrite E; reflexivity]. cbv beta match. destruct r as [[ft rest]|].
  - destruct Hr as (l1 & l2 & Eq & -> & Hfo & _ & Hall & _). unfold active_inc, go. run_pure. intros [= <-].
    right. right. exists t, ft, l1, l2, b. split_and!; try done. simpl.
    rewrite list_lookup_insert_eq by (by eapply lookup_lt_Some). done.
  - unfold go. intros [= <-]. by left.
Qed.

(** No task is lost, doubled or overtaken. A step of a thread either
    leaves the queue alone, or puts the fiber it just ran, and which asked to
    run again, at its end, or takes exactly one task out - the first that is
    not for another thread and whose fiber is not executing - and then holds
    it, with the order of the others unchanged; a task scheduled from outside
    goes to the end; nothing else changes the queue. *)
Theorem queue_discipline idle_cb ids s e s' : (Z.of_nat (length ids) < 2 ^ 63)%Z ->
  sched_reachable idle_cb ids s -> ev_ok s e -> sched_exec e s = (Ret tt, s') ->
  match e with
  | EvThread i =>
      m_fibers s' = m_fibers s \/
      (exists f, m_fibers s' = m_fibers s ++ [mkFT (Some f) None (-1)] /\ f_state <$> s_fibers s !! f = Some READY) \/
      took s s' i
  | EvSchedule ft => m_fibers s' = m_fibers s ++ [ft]
  | _ => m_fibers s' = m_fibers s
  end.
Proof.
  intros Hlen Hr He E. pose proof (sched_reachable_ok idle_cb ids s Hlen Hr) as H. destruct e as [i|i b|ft|cb|]; simpl in E.
  - unfold thread_step in E. revert E. run_pure. unfold id. destruct (s_threads s !! i) as [t|] eqn:Hi; [|intros [= <-]; by left].
    assert (forall m, keeps_queue m -> m s = (Ret tt, s') -> m_fibers s' = m_fibers s) as Hk.
    { intros m K Em. specialize (K s). unfold post in K. by rewrite Em in K. }
    destruct (t_pc t) as [|ft b act|f|f|f|f|f|f| | |] eqn:Hp; intros E.
    + by apply (took_or_kept s s' i t).
    + left. by eapply Hk; [apply keeps_got|].
    + injection E as <-. by left.
    + left. by eapply Hk; [|exact E]; apply keeps_bind; [by apply keeps_modify|auto with sherry].
    + destruct (after_task_queue i t f s s' E) as [?|?]; eauto.
    + injection E as <-. by left.
    + left. by eapply Hk; [|exact E]; apply keeps_bind; [by apply keeps_modify|auto with sherry].
    + destruct (after_cb_queue i t f s s' E) as [?|?]; eauto.
    + left. eapply Hk; [|exact E]. apply keeps_bind; [auto with sherry|]. intros s0. apply keeps_bind; auto with sherry.
    + left. eapply Hk; [|exact E]. apply keeps_bind; [by apply keeps_modify|]. intros _.
      apply keeps_bind; [auto with sherry|]. intros v. apply keeps_bind; [apply keeps_if|]; auto with sherry.
    + injection E as <-. by left.
  - enough (keeps_queue (body_step i b : prog (sched C) unit)) as K by (specialize (K s); unfold post in K; by rewrite E in K).
    apply keeps_bind; [auto with sherry|]. intros s0. destruct (s_threads s0 !! i) as [t|]; [|auto with sherry].
    destruct (t_pc t); auto with sherry; (apply keeps_bind; [auto with sherry|]; intros v; apply keeps_bind;
      [by apply keeps_modify|auto with sherry]).
  - destruct (schedule_ok s ft H He) as [n [E' _]]. rewrite E in E'. by injection E' as ->.
  - by injection E as <-.
  - by injection E as <-.
Qed.
End queue.

(** * Runs *)

Section runs.
Context {C : Type}.

Fixpoint exec_all (es : list (sched_ev C)) (s : sched C) : sched C :=
  match es with [] => s | e :: es' => exec_all es' (post (sched_exec e) s) end.
Fixpoint all_ok (es : list (sched_ev C)) (s : sched C) : Prop :=
  match es with [] => True | e :: es' => ev_ok s e /\ all_ok es' (post (sched_exec e) s) end.

Lemma exec_all_reachable idle_cb ids es s : sched_reachable idle_cb ids s -> all_ok es s ->
  sched_reachable idle_cb ids (exec_all es s).
Proof.
  revert s. induction es as [|e es IH]; intros s Hr; simpl; [done|]. intros [He Hes]. apply IH; [|done].
  unfold post. destruct (sched_exec e s) as [r s'] eqn:E. by eapply sr_step.
Qed.
End runs.

(** Two workers; a callback is scheduled and the first takes it, while the
    second goes idle. *)
Definition two_workers : sched nat := post (start 0 [10; 11]%Z) new_Scheduler.
Definition busy_run : list (sched_ev nat) :=
  [EvSchedule (mkFT None (Some 7) (-1)); EvThread 0; EvThread 0; EvThread 1; EvThread 1].

Lemma two_workers_reachable : sched_reachable 0 [10; 11]%Z two_workers.
Proof. apply sr_start. vm_compute. reflexivity. Qed.

Lemma busy_run_reachable : sched_reachable 0 [10; 11]%Z (exec_all busy_run two_workers).
Proof. apply exec_all_reachable; [apply two_workers_reachable|]. simpl. split_and!; try done. by eexists. Qed.



Lemma idle_ends_when_quiet_witness : exists t s', s_threads (exec_all busy_run two_workers) !! 1 = Some t /\
  thread_step 1 (exec_all busy_run two_workers) = (Ret tt, s') /\ m_fibers s' = [].
Proof.
  eexists. destruct (idle_ends_when_quiet 0 [10; 11]%Z (exec_all busy_run two_workers) 1
    (mkThread 11 InIdle None 1) ltac:(vm_compute; reflexivity) busy_run_reachable
    ltac:(vm_compute; reflexivity) ltac:(vm_compute; reflexivity)) as (s' & E & Eq & _).
  exists s'. split; [vm_compute; reflexivity|]. split; [exact E|]. rewrite Eq. vm_compute. reflexivity.
Defined.

Lemma queue_discipline_witness :
  [mkFT None (Some 8) 11] = m_fibers (post (sched_exec (EvSchedule (mkFT None (Some 8) 11))) (exec_all busy_run two_workers)).
Proof.
  symmetry. etransitivity; [apply (queue_discipline 0 [10; 11]%Z (exec_all busy_run two_workers) (EvSchedule (mkFT None (Some 8) 11))
    (post (sched_exec (EvSchedule (mkFT None (Some 8) 11))) (exec_all busy_run two_workers))
    ltac:(vm_compute; reflexivity) busy_run_reachable ltac:(by eexists) ltac:(vm_compute; reflexivity))|].
  vm_compute. reflexivity.
Defined.

(** A fiber that was scheduled again while it was executing: the second worker
    resumes it after it gave up control with [YieldToHold] and before the
    first reads its state back, the first then finds EXEC and writes HOLD, and
    from there the fiber runs on two threads at once. *)
Definition early_resume : list (sched_ev nat) :=
  [EvNewFiber 5; EvSchedule (mkFT (Some 2) None (-1)); EvThread 0; EvThread 0;
   EvSchedule (mkFT (Some 2) None (-1)); EvBody 0 YieldToHold; EvThread 0;
   EvThread 1; EvThread 1; EvThread 0;
   EvSchedule (mkFT (Some 2) None (-1)); EvThread 0; EvThread 0].
Lemma early_resume_runs_twice : running <$> (t_pc <$> s_threads (exec_all early_resume two_workers)) = [Some 2; Some 2].
Proof. vm_compute. reflexivity. Qed.
