(* ===== verification/IOManager.v ===== *)
(** [sherry/iomanager.h], [sherry/iomanager.cc]: the epoll loop and the events
    it waits for.

    The vector [m_fdContexts] is a list of contexts (the constructor and
    [contextResize] leave no null pointer in it).  [m_pendingEventCount] is a
    64-bit counter.  What a call hands to a scheduler is appended to
    [m_scheduled] with the scheduler's id.  The kernel's interest list is
    [m_epoll]; [epoll_ctl] itself is the interface [Epoll].  The manager
    inherits from [TimerManager], which is the field [m_base].  Each
    operation is one critical section of its context's mutex. *)

From stdpp Require Import base list gmap strings.
From S2P Require Import Prelude MachineInt Timer.
From Stdlib Require Import ZArith Lia.

(** * epoll: what the code relies on *)

Inductive ctl : Type := EPOLL_CTL_ADD | EPOLL_CTL_MOD | EPOLL_CTL_DEL.

Definition EPOLLIN : Z := 0x1.
Definition EPOLLOUT : Z := 0x4.
Definition EPOLLERR : Z := 0x8.
Definition EPOLLHUP : Z := 0x10.
Definition EPOLLET : Z := 2 ^ 31.

(** [None] is a non-zero return value, which changes nothing.  A successful
    call has the documented effect: ADD registers a descriptor that was not
    registered, MOD and DEL change one that was. *)
Class Epoll : Type := {
  epoll_ctl : gmap nat Z -> ctl -> nat -> Z -> option (gmap nat Z);
  epoll_add : forall k fd ev k', epoll_ctl k EPOLL_CTL_ADD fd ev = Some k' ->
    k !! fd = None /\ k' = <[fd := ev]> k;
  epoll_mod : forall k fd ev k', epoll_ctl k EPOLL_CTL_MOD fd ev = Some k' ->
    is_Some (k !! fd) /\ k' = <[fd := ev]> k;
  epoll_del : forall k fd ev k', epoll_ctl k EPOLL_CTL_DEL fd ev = Some k' ->
    is_Some (k !! fd) /\ k' = delete fd k
}.

(** * State *)

Definition NONE : Z := 0x0.
Definition READ : Z := 0x1.
Definition WRITE : Z := 0x4.

Record EventContext (C : Type) : Type := mkEventContext {
  scheduler : option nat;
  fiber : option nat;
  cb : option (callback C)
}.
Arguments mkEventContext {C} scheduler fiber cb.
Arguments scheduler {C} e.
Arguments fiber {C} e.
Arguments cb {C} e.

Record FdContext (C : Type) : Type := mkFdContext {
  read : EventContext C;
  write : EventContext C;
  fd : nat;
  events : Z
}.
Arguments mkFdContext {C} read write fd events.
Arguments read {C} f.
Arguments write {C} f.
Arguments fd {C} f.
Arguments events {C} f.

Inductive task (C : Type) : Type :=
| TaskCb (c : callback C)
| TaskFiber (f : nat).
Arguments TaskCb {C} c.
Arguments TaskFiber {C} f.

Record IOManager (C : Type) : Type := mkIOManager {
  m_tickleFd : nat;
  m_pendingEventCount : Z;
  m_fdContexts : list (FdContext C);
  m_epoll : gmap nat Z;
  m_scheduled : list (nat * task C);
  m_base : TimerManager C
}.
Arguments mkIOManager {C} m_tickleFd m_pendingEventCount m_fdContexts m_epoll m_scheduled m_base.
Arguments m_tickleFd {C} i.
Arguments m_pendingEventCount {C} i.
Arguments m_fdContexts {C} i.
Arguments m_epoll {C} i.
Arguments m_scheduled {C} i.
Arguments m_base {C} i.

Section iomanager.
Context {C : Type} {E : Epoll}.
Abbreviation mgr := (IOManager C).
Abbreviation ectx := (EventContext C).
Abbreviation fctx := (FdContext C).

Definition no_context : ectx := mkEventContext None None None.
Definition new_FdContext (i : nat) : fctx := mkFdContext no_context no_context i NONE.

Definition with_contexts (l : list fctx) (s : mgr) : mgr :=
  mkIOManager (m_tickleFd s) (m_pendingEventCount s) l (m_epoll s) (m_scheduled s) (m_base s).
Definition with_pending (n : Z) (s : mgr) : mgr :=
  mkIOManager (m_tickleFd s) n (m_fdContexts s) (m_epoll s) (m_scheduled s) (m_base s).
Definition with_epoll (k : gmap nat Z) (s : mgr) : mgr :=
  mkIOManager (m_tickleFd s) (m_pendingEventCount s) (m_fdContexts s) k (m_scheduled s) (m_base s).
Definition with_base (b : TimerManager C) (s : mgr) : mgr :=
  mkIOManager (m_tickleFd s) (m_pendingEventCount s) (m_fdContexts s) (m_epoll s) (m_scheduled s) b.

(** [m_fdContexts[fd]], unchecked in the source. *)
Definition context_at (i : Z) : prog mgr fctx := fun s =>
  of_option OutOfRange (if (i <? 0)%Z then None else m_fdContexts s !! Z.to_nat i) s.
Definition put_context (i : Z) (c : fctx) : prog mgr unit :=
  modify (fun s => with_contexts (<[Z.to_nat i := c]> (m_fdContexts s)) s).

Definition pending_inc : prog mgr unit :=
  modify (fun s => with_pending (wrap 64 (m_pendingEventCount s + 1)) s).
Definition pending_dec : prog mgr unit :=
  modify (fun s => with_pending (wrap 64 (m_pendingEventCount s - 1)) s).

(** [schedule]: an empty function or fiber is not queued. *)
Definition schedule_on (sc : nat) (t : option (task C)) : prog mgr unit :=
  modify (fun s => mkIOManager (m_tickleFd s) (m_pendingEventCount s) (m_fdContexts s) (m_epoll s)
    (m_scheduled s ++ match t with Some t => [(sc, t)] | None => [] end) (m_base s)).

Definition call_epoll_ctl (op : ctl) (i : Z) (ev : Z) : prog mgr bool := fun s =>
  match epoll_ctl (m_epoll s) op (Z.to_nat i) ev with
  | Some k => (Ret true, with_epoll k s)
  | None => (Ret false, s)
  end.

(** * [FdContext] *)

Definition getContext (event : Z) (c : fctx) : outcome ectx :=
  if (event =? READ)%Z then Ret (read c)
  else if (event =? WRITE)%Z then Ret (write c)
  else Crash AssertFail.

Definition setContext (event : Z) (e : ectx) (c : fctx) : fctx :=
  if (event =? READ)%Z then mkFdContext e (write c) (fd c) (events c)
  else mkFdContext (read c) e (fd c) (events c).

Definition resetContext (e : ectx) : ectx := mkEventContext None None None.

Definition set_events (z : Z) (c : fctx) : fctx := mkFdContext (read c) (write c) (fd c) z.

Definition liftO {A} (o : outcome A) : prog mgr A := fun s => (o, s).

(** [schedule(&ctx.cb)] and [schedule(&ctx.fiber)] swap the value out of the
    context. *)
Definition triggerEvent (i : Z) (event : Z) : prog mgr unit :=
  c ← context_at i;
  if (Z.land (events c) event =? 0)%Z then crash AssertFail else
  let c1 := set_events (Z.land (events c) (Z.lnot event)) c in
  ctx ← liftO (getContext event c1);
  sc ← of_option NullDeref (scheduler ctx);
  match cb ctx with
  | Some f =>
      schedule_on sc (Some (TaskCb f));;
      put_context i (setContext event (mkEventContext None (fiber ctx) None) c1)
  | None =>
      schedule_on sc (TaskFiber <$> fiber ctx);;
      put_context i (setContext event (mkEventContext None None (cb ctx)) c1)
  end.

(** * [IOManager] *)

(** [m_fdContexts.resize(size)] drops what is beyond, and fills with fresh
    contexts. *)
Definition contextResize (size : nat) (s : mgr) : mgr :=
  let l := take size (m_fdContexts s) in
  with_contexts (l ++ (new_FdContext <$> seq (length l) (size - length l))) s.

(** The constructor, once the epoll and pipe descriptors are open and
    [tickleFd] is registered. *)
Definition new_IOManager (tickleFd : nat) (now : Z) : mgr :=
  contextResize 32 (mkIOManager tickleFd 0 [] {[tickleFd := Z.lor EPOLLIN EPOLLET]} []
                      (new_TimerManager now)).

(** [fd * 1.5] converted to [size_t]. *)
Definition grown_size (i : Z) : nat := Z.to_nat (i * 3 / 2).

(** [this_sched], [this_fiber]: [Scheduler::GetThis()] and [Fiber::GetThis()];
    [fiber_exec]: that fiber's state is [EXEC]. *)
Definition addEvent (this_sched this_fiber : nat) (fiber_exec : bool) (i : Z) (event : Z)
    (f : option (callback C)) : prog mgr Z :=
  if (i <? 1)%Z then mret (-1)%Z else
  s0 ← gets id;
  (if (i <? Z.of_nat (length (m_fdContexts s0)))%Z then mret tt
   else modify (contextResize (grown_size i)));;
  c ← context_at i;
  if negb (Z.land (events c) event =? 0)%Z then crash AssertFail else
  let op := if negb (events c =? 0)%Z then EPOLL_CTL_MOD else EPOLL_CTL_ADD in
  ok ← call_epoll_ctl op i (Z.lor (Z.lor EPOLLET (events c)) event);
  if negb ok then mret (-1)%Z else
  pending_inc;;
  let c1 := set_events (Z.lor (events c) event) c in
  put_context i c1;;
  ctx ← liftO (getContext event c1);
  match scheduler ctx, fiber ctx, cb ctx with
  | None, None, None =>
    match f with
    | Some g => put_context i (setContext event (mkEventContext (Some this_sched) None (Some g)) c1);; mret 0%Z
    | None =>
        put_context i (setContext event (mkEventContext (Some this_sched) (Some this_fiber) None) c1);;
        if fiber_exec then mret 0%Z else crash AssertFail
    end
  | _, _, _ => crash AssertFail
  end.

(** The part [delEvent] and [cancelEvent] share: the lookup, the test and the
    [epoll_ctl]; the context when they go on. *)
Definition unregister (i : Z) (event : Z) : prog mgr (option fctx) :=
  s ← gets id;
  if (Z.of_nat (length (m_fdContexts s)) <=? i)%Z then mret None else
  c ← context_at i;
  if (Z.land (events c) event =? 0)%Z then mret None else
  let new_events := Z.land (events c) (Z.lnot event) in
  let op := if negb (new_events =? 0)%Z then EPOLL_CTL_MOD else EPOLL_CTL_DEL in
  ok ← call_epoll_ctl op i (Z.lor EPOLLET new_events);
  mret (if (ok : bool) then Some c else None).

Definition delEvent (i : Z) (event : Z) : prog mgr bool :=
  r ← unregister i event;
  match r with
  | None => mret false
  | Some c =>
      pending_dec;;
      let c1 := set_events (Z.land (events c) (Z.lnot event)) c in
      put_context i c1;;
      ctx ← liftO (getContext event c1);
      put_context i (setContext event (resetContext ctx) c1);;
      mret true
  end.

Definition cancelEvent (i : Z) (event : Z) : prog mgr bool :=
  r ← unregister i event;
  match r with
  | None => mret false
  | Some _ => triggerEvent i event;; pending_dec;; mret true
  end.

(** [if(events & ev) { triggerEvent(ev); --m_pendingEventCount; }] *)
Definition trigger_if (b : bool) (i : Z) (event : Z) : prog mgr unit :=
  if b then triggerEvent i event;; pending_dec else mret tt.

Definition cancelAll (i : Z) : prog mgr bool :=
  s ← gets id;
  if (Z.of_nat (length (m_fdContexts s)) <=? i)%Z then mret false else
  c ← context_at i;
  if (events c =? 0)%Z then mret false else
  ok ← call_epoll_ctl EPOLL_CTL_DEL i 0;
  if negb ok then mret false else
  trigger_if (negb (Z.land (events c) READ =? 0)%Z) i READ;;
  c1 ← context_at i;
  trigger_if (negb (Z.land (events c1) WRITE =? 0)%Z) i WRITE;;
  c2 ← context_at i;
  if (events c2 =? 0)%Z then mret true else crash AssertFail.

(** ** The idle loop *)

(** What [epoll_wait] reported: the tickle pipe, or a context and its mask. *)
Inductive epoll_event : Type :=
| Tickled
| Ready (i : nat) (mask : Z).

Definition real_events (ev registered : Z) : Z :=
  let ev := if negb (Z.land ev (Z.lor EPOLLERR EPOLLHUP) =? 0)%Z
            then Z.lor ev (Z.land (Z.lor EPOLLIN EPOLLOUT) registered) else ev in
  Z.lor (if negb (Z.land ev EPOLLIN =? 0)%Z then READ else NONE)
        (if negb (Z.land ev EPOLLOUT =? 0)%Z then WRITE else NONE).

(** One turn of the loop over the reported events. *)
Definition handle_event (ev : epoll_event) : prog mgr unit :=
  match ev with
  | Tickled => mret tt
  | Ready n mask =>
    let i := Z.of_nat n in
    c ← context_at i;
    let real := real_events mask (events c) in
    if (Z.land (events c) real =? NONE)%Z then mret tt else
    let left_events := Z.land (events c) (Z.lnot real) in
    let op := if negb (left_events =? 0)%Z then EPOLL_CTL_MOD else EPOLL_CTL_DEL in
    ok ← call_epoll_ctl op (Z.of_nat (fd c)) (Z.lor EPOLLET left_events);
    if negb ok then mret tt else
    trigger_if (negb (Z.land real READ =? 0)%Z) i READ;;
    trigger_if (negb (Z.land real WRITE =? 0)%Z) i WRITE
  end.

Fixpoint handle_events (evs : list epoll_event) : prog mgr unit :=
  match evs with
  | [] => mret tt
  | ev :: rest => handle_event ev;; handle_events rest
  end.

(** The [int] handed to [epoll_wait] for the time [getNextTimer] gave. *)
Definition MAX_TIMEOUT : Z := 3000.
Definition idle_timeout (next_timeout : Z) : Z :=
  sint 32 (if (next_timeout =? 2 ^ 64 - 1)%Z then MAX_TIMEOUT
           else if (MAX_TIMEOUT <? sint 32 next_timeout)%Z then MAX_TIMEOUT else next_timeout).

Definition lift_base {A} (p : prog (TimerManager C) A) : prog mgr A := fun s =>
  let '(r, b) := p (m_base s) in (r, with_base b s).

(** [stopping(timeout)]; [sched_stopping] is [Scheduler::stopping()]. *)
Definition stopping (now : Z) (sched_stopping : bool) : prog mgr (bool * Z) :=
  timeout ← lift_base (getNextTimer now);
  s ← gets id;
  mret ((timeout =? 2 ^ 64 - 1)%Z && (m_pendingEventCount s =? 0)%Z && sched_stopping, timeout).

Fixpoint schedule_all (sc : nat) (cbs : list (option (callback C))) : prog mgr unit :=
  match cbs with
  | [] => mret tt
  | c :: rest => schedule_on sc (TaskCb <$> c);; schedule_all sc rest
  end.

(** One turn of [idle]: [now], [now'] are the clock before and after
    [epoll_wait], [wait] its answer; [true] when the loop ends. *)
Definition idle_turn (this_sched : nat) (now now' : Z) (addr : nat) (sched_stopping : bool)
    (wait : Z -> list epoll_event) : prog mgr bool :=
  st ← stopping now sched_stopping;
  if fst (st : bool * Z) then mret true else
  cbs ← lift_base (listExpiredCb addr now');
  schedule_all this_sched cbs;;
  handle_events (wait (idle_timeout (snd st)));;
  mret false.

End iomanager.
