(* ===== verification/IOManagerProps.v ===== *)
(** What the event manager promises: the contexts, the pending counter and
    the kernel's interest list always agree, every registered event is handed
    to its scheduler exactly once when it fires or is cancelled and never
    when it is deleted, and the wait of the idle loop is bounded. *)

From stdpp Require Import base list gmap strings.
From S2P Require Import Prelude MachineInt Timer TimerProps IOManager.
From Stdlib Require Import ZArith Lia.

Section invariant.
Context {C : Type} {E : Epoll}.
Implicit Types (s : IOManager C) (c : FdContext C) (e : EventContext C) (ev : Z).

Definition is_event ev : Prop := ev = READ \/ ev = WRITE.
Definition has c ev : bool := negb (Z.land (events c) ev =? 0)%Z.
Definition slot ev c : EventContext C := if (ev =? READ)%Z then read c else write c.

(** The task a context stands for. *)
Definition slot_task e : option (task C) :=
  match cb e with Some f => Some (TaskCb f) | None => TaskFiber <$> fiber e end.

Definition armed e : Prop :=
  is_Some (scheduler e) /\
  ((exists f, cb e = Some f /\ fiber e = None) \/ (exists f, cb e = None /\ fiber e = Some f)).
Definition slot_ok (b : bool) e : Prop := if b then armed e else e = no_context.

Definition events_ok (z : Z) : Prop := z = 0%Z \/ z = 1%Z \/ z = 4%Z \/ z = 5%Z.

Record ctx_ok (i : nat) c : Prop := {
  ok_fd : fd c = i;
  ok_events : events_ok (events c);
  ok_slots : forall ev, is_event ev -> slot_ok (has c ev) (slot ev c)
}.

(** How many events of a descriptor wait. *)
Definition waiting c : nat := (if has c READ then 1 else 0) + (if has c WRITE then 1 else 0).

(** What the kernel is asked to watch for a descriptor. *)
Definition interest c : option Z :=
  if (events c =? 0)%Z then None else Some (Z.lor EPOLLET (events c)).

Record io_wf s : Prop := {
  wf_size2 : 2 <= length (m_fdContexts s);
  wf_ctx : forall i c, m_fdContexts s !! i = Some c -> ctx_ok i c;
  wf_kernel : forall i c, m_fdContexts s !! i = Some c -> i <> m_tickleFd s -> m_epoll s !! i = interest c;
  wf_tickle : is_Some (m_epoll s !! m_tickleFd s) /\
    forall c, m_fdContexts s !! m_tickleFd s = Some c -> events c = 0%Z;
  wf_beyond : forall i, length (m_fdContexts s) <= i -> i <> m_tickleFd s -> m_epoll s !! i = None;
  wf_pending : m_pendingEventCount s = wrap 64 (Z.of_nat (sum_list_with waiting (m_fdContexts s)))
}.

(** An event taken out of a context. *)
Definition clear_event ev c : FdContext C :=
  setContext ev no_context (set_events (Z.land (events c) (Z.lnot ev)) c).

(** What firing an event of a context schedules. *)
Definition fired ev c : list (nat * task C) :=
  match scheduler (slot ev c), slot_task (slot ev c) with
  | Some sc, Some t => [(sc, t)]
  | _, _ => []
  end.

(** ** Facts about masks, by cases *)

Lemma getContext_slot ev c : is_event ev -> getContext ev c = Ret (slot ev c).
Proof. intros [-> | ->]; reflexivity. Qed.

Lemma slot_set_events ev z c : slot ev (set_events z c) = slot ev c.
Proof. unfold slot. by destruct (_ =? _)%Z. Qed.

Lemma clear_event_ok i ev c : is_event ev -> ctx_ok i c -> has c ev = true ->
  ctx_ok i (clear_event ev c) /\ S (waiting (clear_event ev c)) = waiting c /\
  events (clear_event ev c) = Z.land (events c) (Z.lnot ev) /\ has (clear_event ev c) ev = false.
Proof.
  intros Hev [Hfd Hz Hs] Hh. pose proof (Hs READ (or_introl eq_refl)) as Hr.
  pose proof (Hs WRITE (or_intror eq_refl)) as Hw. destruct c as [r w d z]. simpl in *.
  unfold clear_event, waiting, has, slot in *.
  destruct Hev as [-> | ->]; destruct Hz as [-> | [-> | [-> | ->]]]; try discriminate Hh; simpl in *;
    (split_and!; [split; [done|unfold events_ok; simpl; auto|]|reflexivity|reflexivity|reflexivity]);
    intros ev' [-> | ->]; unfold has, slot; simpl; done.
Qed.

(** ** The state after one context changed *)

Lemma io_wf_update s i c c' k n q b : io_wf s -> m_fdContexts s !! i = Some c -> ctx_ok i c' ->
  i <> m_tickleFd s -> k !! i = interest c' -> (forall j, j <> i -> k !! j = m_epoll s !! j) ->
  n = wrap 64 (m_pendingEventCount s + (Z.of_nat (waiting c') - Z.of_nat (waiting c))) ->
  io_wf (mkIOManager (m_tickleFd s) n (<[i := c']> (m_fdContexts s)) k q b).
Proof.
  intros H Hi Hc' Hne Hk Hother ->. destruct H. split; simpl.
  - by rewrite length_insert.
  - intros j d [(<- & <- & _)|[Hj Hd]]%list_lookup_insert_Some; auto.
  - intros j d [(<- & <- & _)|[Hj Hd]]%list_lookup_insert_Some Ht; [done|].
    rewrite Hother by congruence. auto.
  - rewrite (Hother (m_tickleFd s)) by done. split; [apply wf_tickle0|].
    intros d Hd. rewrite list_lookup_insert_ne in Hd by done. by apply wf_tickle0.
  - intros j Hj Ht. rewrite length_insert in Hj. rewrite Hother; [by apply wf_beyond0|].
    intros ->. apply lookup_lt_Some in Hi. lia.
  - pose proof (sum_list_with_insert waiting _ i c' c Hi) as Hsum. rewrite wf_pending0. unfold wrap.
    rewrite Zplus_mod_idemp_l. f_equal. lia.
Qed.

(** ** Symbolic runs *)

Lemma context_at_spec s i c : m_fdContexts s !! i = Some c -> context_at (Z.of_nat i) s = (Ret c, s).
Proof.
  intros H. unfold context_at. rewrite (proj2 (Z.ltb_ge _ _)) by lia. by rewrite Nat2Z.id, H.
Qed.

Lemma triggerEvent_spec s i c ev : m_fdContexts s !! i = Some c -> ctx_ok i c -> is_event ev ->
  has c ev = true ->
  triggerEvent (Z.of_nat i) ev s =
    (Ret tt, mkIOManager (m_tickleFd s) (m_pendingEventCount s) (<[i := clear_event ev c]> (m_fdContexts s))
               (m_epoll s) (m_scheduled s ++ fired ev c) (m_base s)).
Proof.
  intros Hi Hok Hev Hh. pose proof (ok_slots _ _ Hok ev Hev) as Hslot. rewrite Hh in Hslot.
  destruct Hslot as [[sc Hsc] Hcase]. unfold triggerEvent. run (context_at_spec s i c Hi).
  apply negb_true_iff in Hh. rewrite Hh. rewrite getContext_slot by done.
  unfold liftO. run_pure. rewrite slot_set_events, Hsc. run_pure.
  unfold fired, clear_event, slot_task. rewrite Hsc.
  destruct Hcase as [(f & Hcb & Hf)|(f & Hcb & Hf)]; rewrite Hcb, Hf; unfold schedule_on, put_context;
    run_pure; unfold modify, with_contexts; simpl; by rewrite Nat2Z.id.
Qed.

Lemma pending_dec_wrap s n : n = wrap 64 (m_pendingEventCount s - 1) ->
  pending_dec s = (Ret tt, with_pending n s).
Proof. by intros ->. Qed.

Lemma call_epoll_ctl_spec s op i ev :
  call_epoll_ctl op (Z.of_nat i) ev s =
    match epoll_ctl (m_epoll s) op i ev with
    | Some k => (Ret true, with_epoll k s)
    | None => (Ret false, s)
    end.
Proof. unfold call_epoll_ctl. by rewrite Nat2Z.id. Qed.

(** The operation chosen by the mask that is left. *)
Definition left_op (z : Z) : ctl := if negb (z =? 0)%Z then EPOLL_CTL_MOD else EPOLL_CTL_DEL.

Lemma left_op_effect k z i k' : epoll_ctl k (left_op z) i (Z.lor EPOLLET z) = Some k' ->
  k' !! i = (if (z =? 0)%Z then None else Some (Z.lor EPOLLET z)) /\
  forall j, j <> i -> k' !! j = k !! j.
Proof.
  unfold left_op. intros Hk. destruct (z =? 0)%Z; simpl in Hk.
  - apply epoll_del in Hk as [_ ->]. split; [apply lookup_delete_eq|]. intros j Hj. by apply lookup_delete_ne.
  - apply epoll_mod in Hk as [_ ->]. split; [apply lookup_insert_eq|]. intros j Hj. by apply lookup_insert_ne.
Qed.

Lemma has_not_tickle s i c ev : io_wf s -> m_fdContexts s !! i = Some c -> has c ev = true -> i <> m_tickleFd s.
Proof.
  intros H Hi Hh ->. destruct (wf_tickle s H) as [_ Ht]. unfold has in Hh. by rewrite (Ht c Hi) in Hh.
Qed.

Lemma unregister_spec s i c ev : m_fdContexts s !! i = Some c -> has c ev = true ->
  let z := Z.land (events c) (Z.lnot ev) in
  unregister (Z.of_nat i) ev s =
    match epoll_ctl (m_epoll s) (left_op z) i (Z.lor EPOLLET z) with
    | Some k => (Ret (Some c), with_epoll k s)
    | None => (Ret None, s)
    end.
Proof.
  intros Hi Hh z. unfold unregister. run_pure. unfold id. pose proof (lookup_lt_Some _ _ _ Hi).
  rewrite (proj2 (Z.leb_gt _ _)) by lia. run (context_at_spec s i c Hi).
  apply negb_true_iff in Hh. rewrite Hh. fold z (left_op z).
  unfold mbind, prog_bind. rewrite call_epoll_ctl_spec. by destruct (epoll_ctl _ _ _ _).
Qed.
End invariant.

(** * Firing a mask of events *)

Section firing.
Context {C : Type} {E : Epoll}.
Implicit Types (s : IOManager C) (c : FdContext C) (ev m : Z).

Definition bit m ev : bool := negb (Z.land m ev =? 0)%Z.
Definition bits m : nat := (if bit m READ then 1 else 0) + (if bit m WRITE then 1 else 0).

Definition clear_mask m c : FdContext C :=
  let c1 := if bit m READ then clear_event READ c else c in
  if bit m WRITE then clear_event WRITE c1 else c1.
Definition fired_mask m c : list (nat * task C) :=
  (if bit m READ then fired READ c else []) ++ (if bit m WRITE then fired WRITE c else []).

(** The state after the events of mask [m] of descriptor [i] fired. *)
Definition after_fire m i c (k : gmap nat Z) s : IOManager C :=
  mkIOManager (m_tickleFd s) (wrap 64 (m_pendingEventCount s - Z.of_nat (bits m)))
    (<[i := clear_mask m c]> (m_fdContexts s)) k (m_scheduled s ++ fired_mask m c) (m_base s).

Lemma trigger_if_spec s i c ev (b : bool) : m_fdContexts s !! i = Some c -> ctx_ok i c -> is_event ev ->
  (b = true -> has c ev = true) -> in_uint 64 (m_pendingEventCount s) ->
  trigger_if b (Z.of_nat i) ev s =
    (Ret tt, mkIOManager (m_tickleFd s) (wrap 64 (m_pendingEventCount s - (if b then 1 else 0)))
       (<[i := if b then clear_event ev c else c]> (m_fdContexts s)) (m_epoll s)
       (m_scheduled s ++ (if b then fired ev c else [])) (m_base s)).
Proof.
  intros Hi Hok Hev Hb H64. unfold trigger_if. destruct b.
  - run (triggerEvent_spec s i c ev Hi Hok Hev (Hb eq_refl)). reflexivity.
  - rewrite list_insert_id, app_nil_r, Z.sub_0_r, wrap_id by done. by destruct s.
Qed.

Lemma submask_has c m ev : is_event ev -> events_ok (events c) -> Z.land (events c) m = m ->
  bit m ev = true -> has c ev = true.
Proof.
  unfold bit, has. intros Hev Hz Hm Hb. rewrite <- Hm in Hb.
  destruct Hev as [-> | ->], Hz as [E0 | [E0 | [E0 | E0]]]; rewrite E0 in *; try reflexivity;
    rewrite <- Z.land_assoc, (Z.land_comm m), Z.land_assoc in Hb; simpl in Hb; done.
Qed.

Lemma fired_clear_other c : fired WRITE (clear_event READ c) = fired WRITE c.
Proof. reflexivity. Qed.

Lemma has_clear_read c : has (clear_event READ c) WRITE = has c WRITE.
Proof.
  unfold has. assert (Z.land (events (clear_event READ c)) WRITE = Z.land (events c) WRITE) as ->; [|done].
  unfold clear_event. simpl. rewrite <- Z.land_assoc. f_equal.
Qed.

Lemma fire_mask_spec s i c m : m_fdContexts s !! i = Some c -> ctx_ok i c -> Z.land (events c) m = m ->
  in_uint 64 (m_pendingEventCount s) ->
  (trigger_if (bit m READ) (Z.of_nat i) READ;; trigger_if (bit m WRITE) (Z.of_nat i) WRITE) s
    = (Ret tt, after_fire m i c (m_epoll s) s).
Proof.
  intros Hi Hok Hm H64. pose proof (ok_events _ _ Hok) as Hz.
  assert (is_event READ) as HR by by left. assert (is_event WRITE) as HW by by right.
  pose proof (submask_has c m READ HR Hz Hm) as Hhr. pose proof (submask_has c m WRITE HW Hz Hm) as Hhw.
  run (trigger_if_spec s i c READ (bit m READ) Hi Hok HR Hhr H64).
  set (c1 := if bit m READ then clear_event READ c else c).
  assert (ctx_ok i c1) as Hok1.
  { unfold c1. destruct (bit m READ); [|done]. by apply clear_event_ok; auto. }
  assert (has c1 WRITE = has c WRITE) as Hh1.
  { unfold c1. destruct (bit m READ); [apply has_clear_read|done]. }
  erewrite (trigger_if_spec _ i c1 WRITE (bit m WRITE)); simpl.
  - unfold after_fire, clear_mask, fired_mask. fold c1. rewrite list_insert_insert_eq, <- app_assoc. do 2 f_equal.
    + unfold wrap, bits. rewrite Zminus_mod_idemp_l. f_equal. destruct (bit m READ), (bit m WRITE); lia.
    + f_equal. f_equal. destruct (bit m WRITE); [|done]. unfold c1. by destruct (bit m READ).
  - apply list_lookup_insert_eq. by eapply lookup_lt_Some.
  - done.
  - done.
  - intros Hb. rewrite Hh1. auto.
  - apply wrap_range. lia.
Qed.

Lemma clear_mask_ok i c m : ctx_ok i c -> events_ok m -> Z.land (events c) m = m ->
  ctx_ok i (clear_mask m c) /\ waiting (clear_mask m c) + bits m = waiting c /\
  events (clear_mask m c) = Z.land (events c) (Z.lnot m).
Proof.
  intros Hok Hm Hsub. pose proof (ok_events _ _ Hok) as Hz.
  assert (is_event READ) as HR by by left. assert (is_event WRITE) as HW by by right.
  pose proof (submask_has c m READ HR Hz Hsub) as Hhr. pose proof (submask_has c m WRITE HW Hz Hsub) as Hhw.
  unfold clear_mask, bits. destruct Hm as [-> | [-> | [-> | ->]]]; simpl in *.
  - split_and!; [done|lia|by rewrite Z.land_m1_r].
  - destruct (clear_event_ok i READ c HR Hok (Hhr eq_refl)) as (H1 & H2 & H3 & _). split_and!; [done|lia|done].
  - destruct (clear_event_ok i WRITE c HW Hok (Hhw eq_refl)) as (H1 & H2 & H3 & _). split_and!; [done|lia|done].
  - destruct (clear_event_ok i READ c HR Hok (Hhr eq_refl)) as (H1 & H2 & H3 & _).
    destruct (clear_event_ok i WRITE (clear_event READ c) HW H1) as (H4 & H5 & H6 & _);
      [rewrite has_clear_read; auto|]. split_and!; [done|lia|].
    unfold clear_event. simpl. by rewrite <- Z.land_assoc.
Qed.

Lemma wf_pending_range s : io_wf s -> in_uint 64 (m_pendingEventCount s).
Proof. intros H. rewrite (wf_pending s H). apply wrap_range. lia. Qed.

Lemma wf_after_fire s i c m k : io_wf s -> m_fdContexts s !! i = Some c -> events_ok m ->
  Z.land (events c) m = m -> i <> m_tickleFd s ->
  k !! i = interest (clear_mask m c) -> (forall j, j <> i -> k !! j = m_epoll s !! j) ->
  io_wf (after_fire m i c k s).
Proof.
  intros H Hi Hm Hsub Hne Hk Hother.
  destruct (clear_mask_ok i c m (wf_ctx s H i c Hi) Hm Hsub) as (H1 & H2 & _).
  apply (io_wf_update s i c); try done. f_equal. lia.
Qed.

(** The mask the idle loop computes is one of the four. *)
Lemma real_events_ok mask z : events_ok (real_events mask z).
Proof. unfold real_events, events_ok. destruct (negb _), (negb _); simpl; auto. Qed.
End firing.

(** * The operations *)

Section operations.
Context {C : Type} {E : Epoll}.
Implicit Types (s : IOManager C) (c : FdContext C) (ev : Z).

(** The state after [delEvent]: the event is gone, nothing is scheduled. *)
Definition after_del ev i c (k : gmap nat Z) s : IOManager C :=
  mkIOManager (m_tickleFd s) (wrap 64 (m_pendingEventCount s - 1))
    (<[i := clear_event ev c]> (m_fdContexts s)) k (m_scheduled s) (m_base s).

Lemma clear_event_mask ev c : is_event ev ->
  clear_mask ev c = clear_event ev c /\ fired_mask ev c = fired ev c /\ bits ev = 1.
Proof.
  intros [-> | ->]; unfold clear_mask, fired_mask, bits; simpl; rewrite ?app_nil_r; auto.
Qed.

Lemma event_submask c ev : is_event ev -> events_ok (events c) -> has c ev = true ->
  Z.land (events c) ev = ev.
Proof.
  unfold has. intros [-> | ->] [E0 | [E0 | [E0 | E0]]] Hh; rewrite E0 in *; try done.
Qed.

Lemma interest_cleared i c m k k' : ctx_ok i c -> events_ok m -> Z.land (events c) m = m ->
  let z := Z.land (events c) (Z.lnot m) in
  epoll_ctl k (left_op z) i (Z.lor EPOLLET z) = Some k' ->
  k' !! i = interest (clear_mask m c) /\ forall j, j <> i -> k' !! j = k !! j.
Proof.
  intros Hok Hm Hsub z Hk. destruct (left_op_effect _ _ _ _ Hk) as [H1 H2]. split; [|done].
  unfold interest. destruct (clear_mask_ok i c m Hok Hm Hsub) as (_ & _ & ->). done.
Qed.

(** Removing one event that is registered: [epoll_ctl] decides. *)
Lemma withdraw_spec s i c ev : io_wf s -> m_fdContexts s !! i = Some c -> is_event ev -> has c ev = true ->
  let z := Z.land (events c) (Z.lnot ev) in
  match epoll_ctl (m_epoll s) (left_op z) i (Z.lor EPOLLET z) with
  | None => delEvent (Z.of_nat i) ev s = (Ret false, s) /\ cancelEvent (Z.of_nat i) ev s = (Ret false, s)
  | Some k =>
      delEvent (Z.of_nat i) ev s = (Ret true, after_del ev i c k s) /\ io_wf (after_del ev i c k s) /\
      cancelEvent (Z.of_nat i) ev s = (Ret true, after_fire ev i c k s) /\ io_wf (after_fire ev i c k s)
  end.
Proof.
  intros H Hi Hev Hh z. pose proof (wf_ctx s H i c Hi) as Hok. pose proof (ok_events _ _ Hok) as Hz.
  pose proof (event_submask c ev Hev Hz Hh) as Hsub. pose proof (has_not_tickle s i c ev H Hi Hh) as Hne.
  assert (events_ok ev) as Hm by (destruct Hev as [-> | ->]; unfold events_ok; auto).
  pose proof (unregister_spec s i c ev Hi Hh) as Hun. cbv zeta in Hun. fold z in Hun.
  destruct (clear_event_mask ev c Hev) as (Ec & Ef & Eb).
  destruct (epoll_ctl (m_epoll s) (left_op z) i (Z.lor EPOLLET z)) as [k|] eqn:Ek.
  2: { split; [unfold delEvent|unfold cancelEvent]; by run Hun. }
  destruct (interest_cleared i c ev (m_epoll s) k Hok Hm Hsub Ek) as [Hk1 Hk2].
  split_and!.
  - unfold delEvent. run Hun. unfold pending_dec, put_context, liftO. run_pure.
    rewrite getContext_slot by done. run_pure. unfold after_del, clear_event, with_contexts, with_pending. simpl.
    by rewrite Nat2Z.id, list_insert_insert_eq.
  - rewrite Ec in Hk1. destruct (clear_event_ok i ev c Hev Hok Hh) as (H1 & H2 & _).
    apply (io_wf_update s i c); try done. f_equal. lia.
  - unfold cancelEvent. run Hun. cbv match. run (triggerEvent_spec (with_epoll k s) i c ev Hi Hok Hev Hh).
    unfold after_fire. rewrite Ec, Ef, Eb. reflexivity.
  - by apply wf_after_fire.
Qed.

Lemma unregistered_spec s i c ev : m_fdContexts s !! i = Some c -> has c ev = false ->
  delEvent (Z.of_nat i) ev s = (Ret false, s) /\ cancelEvent (Z.of_nat i) ev s = (Ret false, s).
Proof.
  intros Hi Hh. assert (unregister (Z.of_nat i) ev s = (Ret None, s)) as Hun.
  { unfold unregister. run_pure. unfold id. pose proof (lookup_lt_Some _ _ _ Hi).
    rewrite (proj2 (Z.leb_gt _ _)) by lia. run (context_at_spec s i c Hi).
    apply negb_false_iff in Hh. by rewrite Hh. }
  split; [unfold delEvent|unfold cancelEvent]; by run Hun.
Qed.

Lemma clear_all i c : ctx_ok i c -> clear_mask (events c) c = new_FdContext i.
Proof.
  intros [Hfd Hz Hs]. pose proof (Hs READ (or_introl eq_refl)) as Hr.
  pose proof (Hs WRITE (or_intror eq_refl)) as Hw. destruct c as [r w d z]. simpl in *.
  unfold has, slot in *. simpl in *. subst d.
  destruct Hz as [-> | [-> | [-> | ->]]]; simpl in *; unfold new_FdContext; by subst.
Qed.

Lemma cancelAll_spec s i c : io_wf s -> m_fdContexts s !! i = Some c ->
  if (events c =? 0)%Z then cancelAll (Z.of_nat i) s = (Ret false, s) else
  match epoll_ctl (m_epoll s) EPOLL_CTL_DEL i 0 with
  | None => cancelAll (Z.of_nat i) s = (Ret false, s)
  | Some k => cancelAll (Z.of_nat i) s = (Ret true, after_fire (events c) i c k s) /\
              io_wf (after_fire (events c) i c k s)
  end.
Proof.
  intros H Hi. pose proof (wf_ctx s H i c Hi) as Hok. pose proof (ok_events _ _ Hok) as Hz.
  pose proof (lookup_lt_Some _ _ _ Hi) as Hlt. unfold cancelAll. run_pure. unfold id.
  rewrite (proj2 (Z.leb_gt _ _)) by lia. run (context_at_spec s i c Hi).
  destruct (events c =? 0)%Z eqn:E0; [done|].
  pose proof (call_epoll_ctl_spec s EPOLL_CTL_DEL i 0) as Rctl.
  assert (Z.land (events c) (events c) = events c) as Hsub by apply Z.land_diag.
  destruct (epoll_ctl (m_epoll s) EPOLL_CTL_DEL i 0) as [k|] eqn:Ek; run Rctl; [|done]. change (negb true) with false. cbv match.
  assert (i <> m_tickleFd s) as Hne.
  { intros ->. destruct (wf_tickle s H) as [_ Ht]. by rewrite (Ht c Hi) in E0. }
  apply epoll_del in Ek as [_ ->]. split.
  2: { apply wf_after_fire; try done.
       - rewrite lookup_delete_eq. unfold interest. by rewrite (clear_all i c Hok).
       - intros j Hj. by apply lookup_delete_ne. }
  set (s1 := with_epoll (delete i (m_epoll s)) s).
  pose proof (fire_mask_spec s1 i c (events c) Hi Hok Hsub (wf_pending_range s H)) as Hf.
  pose proof (trigger_if_spec s1 i c READ (has c READ) Hi Hok (or_introl eq_refl) (fun h => h)
    (wf_pending_range s H)) as R1.
  rewrite (bind_ret _ _ _ _ _ R1) in Hf. run R1. set (s2 := mkIOManager _ _ _ _ _ _) in *.
  set (c1 := if has c READ then clear_event READ c else c) in *.
  run (context_at_spec s2 i c1 (list_lookup_insert_eq _ _ _ Hlt)).
  assert (negb (Z.land (events c1) WRITE =? 0)%Z = bit (events c) WRITE) as ->.
  { unfold c1. destruct (has c READ); [apply has_clear_read|done]. }
  run Hf. set (s3 := after_fire _ _ _ _ _).
  run (context_at_spec s3 i (new_FdContext i)); [done|].
  simpl. rewrite (clear_all i c Hok). by apply list_lookup_insert_eq.
Qed.

(** [SYLAR_ASSERT(events & event)] *)
Lemma trigger_if_missing s i c ev : m_fdContexts s !! i = Some c -> has c ev = false ->
  trigger_if true (Z.of_nat i) ev s = (Crash AssertFail, s).
Proof.
  intros Hi Hh. unfold trigger_if, triggerEvent, mbind, prog_bind. rewrite (context_at_spec s i c Hi).
  apply negb_false_iff in Hh. by rewrite Hh.
Qed.

(** Firing more than is registered stops at the first event that is missing. *)
Lemma fire_too_much s i c m : m_fdContexts s !! i = Some c -> ctx_ok i c -> events_ok m ->
  in_uint 64 (m_pendingEventCount s) -> Z.land (events c) m <> 0%Z -> Z.land (events c) m <> m ->
  out (trigger_if (bit m READ) (Z.of_nat i) READ;; trigger_if (bit m WRITE) (Z.of_nat i) WRITE) s
    = Crash AssertFail.
Proof.
  intros Hi Hok Hm H64 Hne Hsub. pose proof (ok_events _ _ Hok) as Hz. unfold out.
  assert (m = 5%Z /\ (events c = 1%Z \/ events c = 4%Z)) as [-> Hev].
  { destruct Hz as [E0 | [E0 | [E0 | E0]]], Hm as [-> | [-> | [-> | ->]]]; rewrite E0 in *; simpl in *; auto; done. }
  change (bit 5 READ) with true. change (bit 5 WRITE) with true.
  destruct (has c READ) eqn:Hr.
  - run (trigger_if_spec s i c READ true Hi Hok (or_introl eq_refl) (fun _ => Hr) H64).
    erewrite trigger_if_missing; [done| |].
    + apply list_lookup_insert_eq. by eapply lookup_lt_Some.
    + rewrite has_clear_read. unfold has in *. destruct Hev as [E0|E0]; rewrite E0 in *; done.
  - unfold mbind, prog_bind. by rewrite (trigger_if_missing s i c READ Hi Hr).
Qed.

(** The outcome of one reported event: nothing waits for it, it fires exactly
    the reported events, or it reports more than waits. *)
Lemma handle_event_spec s i c mask : io_wf s -> m_fdContexts s !! i = Some c ->
  let real := real_events mask (events c) in
  let z := Z.land (events c) (Z.lnot real) in
  if (Z.land (events c) real =? 0)%Z then handle_event (Ready i mask) s = (Ret tt, s) else
  match epoll_ctl (m_epoll s) (left_op z) i (Z.lor EPOLLET z) with
  | None => handle_event (Ready i mask) s = (Ret tt, s)
  | Some k =>
      if (Z.land (events c) real =? real)%Z
      then handle_event (Ready i mask) s = (Ret tt, after_fire real i c k s) /\ io_wf (after_fire real i c k s)
      else out (handle_event (Ready i mask)) s = Crash AssertFail
  end.
Proof.
  intros H Hi real z. pose proof (wf_ctx s H i c Hi) as Hok. pose proof (ok_events _ _ Hok) as Hz.
  unfold handle_event, out. run (context_at_spec s i c Hi). fold real z (left_op z).
  change NONE with 0%Z. destruct (Z.land (events c) real =? 0)%Z eqn:E0; [done|].
  rewrite (ok_fd _ _ Hok). pose proof (call_epoll_ctl_spec s (left_op z) i (Z.lor EPOLLET z)) as Rctl.
  destruct (epoll_ctl _ _ i _) as [k|] eqn:Ek; run Rctl; [|done]. change (negb true) with false. cbv match.
  assert (events_ok real) as Hreal by apply real_events_ok. clearbody real.
  fold (bit real READ) (bit real WRITE).
  destruct (Z.eqb_spec (Z.land (events c) real) real) as [Hsub|Hsub].
  - rewrite (fire_mask_spec (with_epoll k s) i c real Hi Hok Hsub (wf_pending_range s H)).
    assert (i <> m_tickleFd s) as Hne.
    { intros ->. destruct (wf_tickle s H) as [_ Ht]. by rewrite (Ht c Hi) in E0. }
    destruct (interest_cleared i c real (m_epoll s) k Hok Hreal Hsub Ek) as [Hk1 Hk2].
    split; [done|]. by apply wf_after_fire.
  - apply Z.eqb_neq in E0.
    exact (fire_too_much (with_epoll k s) i c real Hi Hok Hreal (wf_pending_range s H) E0 Hsub).
Qed.
End operations.

(** * Registering *)

Section registering.
Context {C : Type} {E : Epoll}.
Implicit Types (s : IOManager C) (c : FdContext C) (e : EventContext C) (ev : Z).

Lemma fresh_context_ok i : ctx_ok i (new_FdContext (C := C) i) /\ waiting (new_FdContext (C := C) i) = 0.
Proof. split; [|reflexivity]. split; [done|by left|]. intros ev [-> | ->]; reflexivity. Qed.

Lemma contextResize_grow size s : length (m_fdContexts s) <= size ->
  m_fdContexts (contextResize size s) = m_fdContexts s ++
    (new_FdContext <$> seq (length (m_fdContexts s)) (size - length (m_fdContexts s))).
Proof. intros H. unfold contextResize. simpl. by rewrite take_ge by done. Qed.

Lemma wf_contextResize size s : io_wf s -> length (m_fdContexts s) <= size -> io_wf (contextResize size s).
Proof.
  intros H Hle. pose proof (contextResize_grow size s Hle) as Hg. destruct H.
  set (n := length (m_fdContexts s)) in *.
  assert (forall i c, m_fdContexts (contextResize size s) !! i = Some c ->
    m_fdContexts s !! i = Some c \/ n <= i /\ c = new_FdContext i) as Hlook.
  { intros i c Hi. rewrite Hg in Hi. apply lookup_app_Some in Hi as [?|[Hge Hi]]; [auto|right].
    apply list_lookup_fmap_Some in Hi as (j & -> & [Hj _]%lookup_seq). split; [done|]. f_equal. lia. }
  split; change (m_tickleFd (contextResize size s)) with (m_tickleFd s);
    change (m_epoll (contextResize size s)) with (m_epoll s);
    change (m_pendingEventCount (contextResize size s)) with (m_pendingEventCount s).
  - rewrite Hg, length_app. lia.
  - intros i c [Hi|[_ ->]]%Hlook; [auto|apply fresh_context_ok].
  - intros i c [Hi|[Hge ->]]%Hlook Ht; [auto|]. by apply wf_beyond0.
  - split; [apply wf_tickle0|]. intros c [Hi|[_ ->]]%Hlook; [by apply wf_tickle0|done].
  - intros i Hi. apply wf_beyond0. rewrite Hg, length_app in Hi. lia.
  - rewrite Hg, sum_list_with_app.
    rewrite (sum_list_with_zero waiting (_ <$> _)), Nat.add_0_r; [done|].
    apply Forall_fmap, Forall_forall. intros i _. apply fresh_context_ok.
Qed.

Definition add_op (z : Z) : ctl := if negb (z =? 0)%Z then EPOLL_CTL_MOD else EPOLL_CTL_ADD.

Definition after_add ev i c e (k : gmap nat Z) s : IOManager C :=
  mkIOManager (m_tickleFd s) (wrap 64 (m_pendingEventCount s + 1))
    (<[i := setContext ev e (set_events (Z.lor (events c) ev) c)]> (m_fdContexts s)) k
    (m_scheduled s) (m_base s).

Lemma added_ok i ev c e : is_event ev -> ctx_ok i c -> has c ev = false -> armed e ->
  let c' := setContext ev e (set_events (Z.lor (events c) ev) c) in
  ctx_ok i c' /\ waiting c' = S (waiting c) /\ interest c' = Some (Z.lor (Z.lor EPOLLET (events c)) ev).
Proof.
  intros Hev [Hfd Hz Hs] Hh He c'. pose proof (Hs READ (or_introl eq_refl)) as Hr.
  pose proof (Hs WRITE (or_intror eq_refl)) as Hw. destruct c as [r w d z]. simpl in *.
  unfold c', waiting, has, slot, interest in *.
  destruct Hev as [-> | ->]; destruct Hz as [-> | [-> | [-> | ->]]]; try discriminate Hh; simpl in *;
    (split_and!; [split; [done|unfold events_ok; simpl; auto|]|reflexivity|reflexivity]);
    intros ev' [-> | ->]; unfold has, slot; simpl; done.
Qed.

Lemma wf_after_add s i c ev e k : io_wf s -> m_fdContexts s !! i = Some c -> is_event ev ->
  has c ev = false -> armed e ->
  epoll_ctl (m_epoll s) (add_op (events c)) i (Z.lor (Z.lor EPOLLET (events c)) ev) = Some k ->
  io_wf (after_add ev i c e k s).
Proof.
  intros H Hi Hev Hh He Hk.
  destruct (added_ok i ev c e Hev (wf_ctx s H i c Hi) Hh He) as (H1 & H2 & H3).
  assert (i <> m_tickleFd s /\ k !! i = Some (Z.lor (Z.lor EPOLLET (events c)) ev) /\
          forall j, j <> i -> k !! j = m_epoll s !! j) as (Hne & Hki & Hother).
  { unfold add_op in Hk. destruct (events c =? 0)%Z eqn:E0; simpl in Hk.
    - apply epoll_add in Hk as [Hnone ->]. split_and!; [|apply lookup_insert_eq|].
      + intros ->. destruct (wf_tickle s H) as [[x Hx] _]. congruence.
      + intros j Hj. by apply lookup_insert_ne.
    - apply epoll_mod in Hk as [_ ->]. split_and!; [|apply lookup_insert_eq|].
      + intros ->. destruct (wf_tickle s H) as [_ Ht]. by rewrite (Ht c Hi) in E0.
      + intros j Hj. by apply lookup_insert_ne. }
  apply (io_wf_update s i c); try done; [congruence|]. f_equal. lia.
Qed.

(** The context the event goes to, created when the vector is too short. *)
Definition grow_for (i : Z) s : IOManager C :=
  if (i <? Z.of_nat (length (m_fdContexts s)))%Z then s else contextResize (grown_size i) s.

Lemma wf_grow_for i s : io_wf s -> (1 <= i)%Z ->
  io_wf (grow_for i s) /\ exists c, m_fdContexts (grow_for i s) !! Z.to_nat i = Some c.
Proof.
  intros H Hi. unfold grow_for. destruct (Z.ltb_spec i (Z.of_nat (length (m_fdContexts s)))) as [Hlt|Hge].
  - split; [done|]. apply lookup_lt_is_Some_2. lia.
  - pose proof (wf_size2 s H). unfold grown_size.
    assert (i + 1 <= i * 3 / 2)%Z by (apply Z.div_le_lower_bound; lia).
    split; [apply wf_contextResize; [done|lia]|]. apply lookup_lt_is_Some_2.
    rewrite contextResize_grow by lia. rewrite length_app, length_fmap, length_seq. lia.
Qed.

(** [addEvent] on every branch. *)
Lemma addEvent_spec s i ev sc fb fx f c : io_wf s -> (1 <= i)%Z -> is_event ev ->
  m_fdContexts (grow_for i s) !! Z.to_nat i = Some c ->
  let s1 := grow_for i s in
  let n := Z.to_nat i in
  let e := mkEventContext (Some sc) (match f with Some _ => None | None => Some fb end) f in
  if has c ev then addEvent sc fb fx i ev f s = (Crash AssertFail, s1) else
  match epoll_ctl (m_epoll s1) (add_op (events c)) n (Z.lor (Z.lor EPOLLET (events c)) ev) with
  | None => addEvent sc fb fx i ev f s = (Ret (-1)%Z, s1)
  | Some k =>
      io_wf (after_add ev n c e k s1) /\
      addEvent sc fb fx i ev f s =
        (match f with None => if fx then Ret 0%Z else Crash AssertFail | Some _ => Ret 0%Z end,
         after_add ev n c e k s1)
  end.
Proof.
  intros H Hi Hev Hc s1 n e. destruct (wf_grow_for i s H Hi) as [W1 _]. fold s1 in W1, Hc.
  pose proof (context_at_spec s1 n c Hc) as Rc. unfold n in Rc. rewrite Z2Nat.id in Rc by lia.
  assert ((if (i <? Z.of_nat (length (m_fdContexts s)))%Z then mret tt
           else modify (contextResize (grown_size i))) s = (Ret tt, s1)) as Rg
    by (unfold s1, grow_for; by destruct (_ <? _)%Z).
  pose proof (call_epoll_ctl_spec s1 (add_op (events c)) n (Z.lor (Z.lor EPOLLET (events c)) ev)) as Rctl.
  unfold n in Rctl. rewrite Z2Nat.id in Rctl by lia. fold n in Rctl.
  pose proof (ok_slots _ _ (wf_ctx s1 W1 n c Hc) ev Hev) as Hslot.
  assert (armed e) as He by (split; [by eexists|]; unfold e; destruct f; simpl; eauto).
  destruct (has c ev) eqn:Hh; [|destruct (epoll_ctl _ _ n _) as [k|] eqn:Ek; [split; [by apply wf_after_add|]|]].
  all: unfold addEvent; rewrite (proj2 (Z.ltb_ge _ _)) by lia.
  all: erewrite bind_ret by reflexivity; cbv beta; unfold id at 1; run Rg; run Rc; fold (has c ev); rewrite Hh.
  all: fold (add_op (events c)).
  { done. }
  2: { by run Rctl. }
  run Rctl. change (negb true) with false. cbv match. simpl in Hslot.
  unfold pending_inc, put_context, liftO. run_pure.
  rewrite getContext_slot by done. run_pure. rewrite slot_set_events, Hslot. simpl.
  unfold e, after_add. fold n. destruct f as [g|]; run_pure; unfold with_contexts; simpl;
    rewrite list_insert_insert_eq; [done|]. by destruct fx.
Qed.
End registering.

(** * Properties *)

Inductive io_op (C : Type) : Type :=
| AddEvent (sc fb : nat) (fiber_exec : bool) (i ev : Z) (f : option (callback C))
| DelEvent (i ev : Z)
| CancelEvent (i ev : Z)
| CancelAll (i : Z)
| HandleEvent (e : epoll_event).
Arguments AddEvent {C}. Arguments DelEvent {C}. Arguments CancelEvent {C}.
Arguments CancelAll {C}. Arguments HandleEvent {C}.

Section properties.
Context {C : Type} {E : Epoll}.
Implicit Types (s : IOManager C) (o : io_op C).

Definition io_exec o : prog (IOManager C) unit :=
  match o with
  | AddEvent sc fb fx i ev f => addEvent sc fb fx i ev f;; mret tt
  | DelEvent i ev => delEvent i ev;; mret tt
  | CancelEvent i ev => cancelEvent i ev;; mret tt
  | CancelAll i => cancelAll i;; mret tt
  | HandleEvent e => handle_event e
  end.

(** What the callers keep to: an event is READ or WRITE; it is not added
    twice; without a callback the caller is a running fiber; descriptors are
    not negative; a report names no event that was withdrawn meanwhile while
    another one still waits. *)
Definition io_allowed s o : Prop :=
  match o with
  | AddEvent _ _ fx i ev f => is_event ev /\ (f <> None \/ fx = true) /\
      forall c, m_fdContexts (grow_for i s) !! Z.to_nat i = Some c -> has c ev = false
  | DelEvent i ev | CancelEvent i ev => (0 <= i)%Z /\ is_event ev
  | CancelAll i => (0 <= i)%Z
  | HandleEvent Tickled => True
  | HandleEvent (Ready n mask) => exists c, m_fdContexts s !! n = Some c /\
      let real := real_events mask (events c) in
      Z.land (events c) real = 0%Z \/ Z.land (events c) real = real
  end.

Inductive io_reachable : IOManager C -> Prop :=
| io_new fd now : io_reachable (new_IOManager fd now)
| io_step s o r s' : io_reachable s -> io_allowed s o -> io_exec o s = (r, s') -> io_reachable s'.

Lemma wf_new_IOManager fd now : io_wf (new_IOManager (C := C) fd now).
Proof.
  assert (m_fdContexts (new_IOManager (C := C) fd now) = new_FdContext <$> seq 0 32) as Hc by reflexivity.
  assert (forall i c, m_fdContexts (new_IOManager (C := C) fd now) !! i = Some c -> c = new_FdContext i) as Hl.
  { intros i c Hi. rewrite Hc in Hi. apply list_lookup_fmap_Some in Hi as (j & -> & [Hj _]%lookup_seq). by subst. }
  split.
  - rewrite Hc. simpl. lia.
  - intros i c ->%Hl. apply fresh_context_ok.
  - intros i c ->%Hl Ht. simpl in *. by apply lookup_singleton_ne.
  - split; [exists (Z.lor EPOLLIN EPOLLET); apply lookup_singleton_eq|]. intros c ->%Hl. done.
  - intros i _ Ht. simpl in *. by apply lookup_singleton_ne.
  - rewrite Hc. reflexivity.
Qed.

Lemma out_of_contexts s i ev : (Z.of_nat (length (m_fdContexts s)) <= i)%Z ->
  delEvent i ev s = (Ret false, s) /\ cancelEvent i ev s = (Ret false, s) /\ cancelAll i s = (Ret false, s).
Proof.
  intros Hle. apply Z.leb_le in Hle.
  assert (unregister i ev s = (Ret None, s)) as Hun by (unfold unregister; run_pure; unfold id; by rewrite Hle).
  split_and!; [unfold delEvent; by run Hun|unfold cancelEvent; by run Hun|].
  unfold cancelAll. run_pure. unfold id. by rewrite Hle.
Qed.

(** A descriptor is beyond the vector or has a context. *)
Lemma context_cases s i : (0 <= i)%Z ->
  (Z.of_nat (length (m_fdContexts s)) <= i)%Z \/
  exists n c, i = Z.of_nat n /\ m_fdContexts s !! n = Some c.
Proof.
  intros Hi. destruct (Z.le_gt_cases (Z.of_nat (length (m_fdContexts s))) i); [by left|right].
  destruct (lookup_lt_is_Some_2 (m_fdContexts s) (Z.to_nat i)) as [c Hc]; [lia|].
  exists (Z.to_nat i), c. split; [lia|done].
Qed.

Lemma withdraw_ok s i ev : io_wf s -> (0 <= i)%Z -> is_event ev ->
  (exists b s', delEvent i ev s = (Ret b, s') /\ io_wf s') /\
  (exists b s', cancelEvent i ev s = (Ret b, s') /\ io_wf s').
Proof.
  intros H Hi Hev. destruct (context_cases s i Hi) as [Hout|(n & c & -> & Hc)].
  { destruct (out_of_contexts s i ev Hout) as (R1 & R2 & _). eauto 10. }
  destruct (has c ev) eqn:Hh.
  - pose proof (withdraw_spec s n c ev H Hc Hev Hh) as Hw. cbv zeta in Hw.
    destruct (epoll_ctl _ _ _ _) as [k|]; [destruct Hw as (R1 & W1 & R2 & W2)|destruct Hw as [R1 R2]]; eauto 10.
  - destruct (unregistered_spec s n c ev Hc Hh) as [R1 R2]. eauto 10.
Qed.

Lemma io_exec_ok o s : io_wf s -> io_allowed s o -> exists s', io_exec o s = (Ret tt, s') /\ io_wf s'.
Proof.
  intros H Ho. destruct o as [sc fb fx i ev f|i ev|i ev|i|[|n mask]]; simpl in *.
  - destruct Ho as (Hev & Hf & Hfree). destruct (Z.lt_ge_cases i 1) as [Hlt|Hge].
    { unfold addEvent. rewrite (proj2 (Z.ltb_lt _ _) Hlt). by exists s. }
    destruct (wf_grow_for i s H Hge) as [W1 [c Hc]].
    pose proof (addEvent_spec s i ev sc fb fx f c H Hge Hev Hc) as Hs. cbv zeta in Hs.
    rewrite (Hfree c Hc) in Hs. destruct (epoll_ctl _ _ _ _) as [k|].
    + destruct Hs as [W2 R]. eexists. split; [|exact W2].
      assert ((match f with None => if fx then Ret 0%Z else Crash AssertFail | Some _ => Ret 0%Z end) = Ret 0%Z) as Er
        by (destruct f; [done|]; by destruct Hf as [?| ->]).
      rewrite Er in R. by run R.
    + exists (grow_for i s). split; [by run Hs|done].
  - destruct Ho as [Hi Hev]. destruct (withdraw_ok s i ev H Hi Hev) as [(b & s' & R & W) _]. exists s'. by run R.
  - destruct Ho as [Hi Hev]. destruct (withdraw_ok s i ev H Hi Hev) as [_ (b & s' & R & W)]. exists s'. by run R.
  - destruct (context_cases s i Ho) as [Hout|(n & c & -> & Hc)].
    { destruct (out_of_contexts s i READ Hout) as (_ & _ & R). exists s. by run R. }
    pose proof (cancelAll_spec s n c H Hc) as Hs. destruct (_ =? _)%Z; [exists s; by run Hs|].
    destruct (epoll_ctl _ _ _ _) as [k|]; [destruct Hs as [R W]|exists s; by run Hs].
    eexists. by run R.
  - by exists s.
  - destruct Ho as (c & Hc & Hreal). pose proof (handle_event_spec s n c mask H Hc) as Hs. cbv zeta in *.
    destruct (Z.land (events c) (real_events mask (events c)) =? 0)%Z eqn:E0; [by exists s|].
    destruct (epoll_ctl _ _ _ _) as [k|]; [|by exists s].
    destruct Hreal as [Hz|Hr]; [by rewrite Hz in E0|]. rewrite Hr, Z.eqb_refl in Hs. eauto.
Qed.


(** Withdrawing a registered event. When the kernel refuses, nothing
    changes and the answer is [false]. Otherwise the event is cleared, one
    pending event less is counted, the other event of the descriptor stays,
    and: [delEvent] schedules nothing; [cancelEvent] hands exactly the
    registered callback or fiber to the scheduler that registered it. *)
Theorem withdraw_event s i c ev : io_wf s -> m_fdContexts s !! i = Some c -> is_event ev -> has c ev = true ->
  let z := Z.land (events c) (Z.lnot ev) in
  match epoll_ctl (m_epoll s) (left_op z) i (Z.lor EPOLLET z) with
  | None => delEvent (Z.of_nat i) ev s = (Ret false, s) /\ cancelEvent (Z.of_nat i) ev s = (Ret false, s)
  | Some k => exists sc t s1 s2,
      scheduler (slot ev c) = Some sc /\ slot_task (slot ev c) = Some t /\
      delEvent (Z.of_nat i) ev s = (Ret true, s1) /\ m_scheduled s1 = m_scheduled s /\
      cancelEvent (Z.of_nat i) ev s = (Ret true, s2) /\ m_scheduled s2 = m_scheduled s ++ [(sc, t)] /\
      m_fdContexts s1 = <[i := clear_event ev c]> (m_fdContexts s) /\ m_fdContexts s2 = m_fdContexts s1 /\
      m_epoll s1 = k /\ m_epoll s2 = k
  end.
Proof.
  intros H Hc Hev Hh z. pose proof (withdraw_spec s i c ev H Hc Hev Hh) as Hw. cbv zeta in Hw. fold z in Hw.
  destruct (epoll_ctl _ _ _ _) as [k|]; [|done]. destruct Hw as (R1 & _ & R2 & _).
  pose proof (ok_slots _ _ (wf_ctx s H i c Hc) ev Hev) as Hslot. rewrite Hh in Hslot.
  destruct Hslot as [[sc Hsc] Hcase]. destruct (clear_event_mask ev c Hev) as (Ec & Ef & _).
  assert (exists t, slot_task (slot ev c) = Some t) as [t Ht].
  { unfold slot_task. destruct Hcase as [(f & -> & _)|(f & -> & ->)]; simpl; eauto. }
  exists sc, t, (after_del ev i c k s), (after_fire ev i c k s). unfold after_fire. rewrite Ec, Ef. unfold fired.
  rewrite Hsc, Ht. unfold after_fire in R2. rewrite Ec, Ef in R2. unfold fired in R2. rewrite Hsc, Ht in R2.
  by split_and!.
Qed.

(** A reported event, on every branch. A mask that meets no registered
    event changes nothing, nor does a kernel that refuses the update; a mask
    within the registered events fires exactly those (read before write) and
    leaves the others registered; a mask that names a registered and an
    unregistered event (withdrawn by another thread after [epoll_wait]
    returned) aborts the process. *)
Theorem handle_event_branches s i c mask : io_wf s -> m_fdContexts s !! i = Some c ->
  let real := real_events mask (events c) in
  let z := Z.land (events c) (Z.lnot real) in
  let fires := negb (Z.land (events c) real =? 0)%Z in
  match epoll_ctl (m_epoll s) (left_op z) i (Z.lor EPOLLET z) with
  | Some k =>
      if fires then
        if (Z.land (events c) real =? real)%Z then
          exists s', handle_event (Ready i mask) s = (Ret tt, s') /\
            m_scheduled s' = m_scheduled s ++ fired_mask real c /\
            m_fdContexts s' = <[i := clear_mask real c]> (m_fdContexts s) /\
            events (clear_mask real c) = z /\ m_epoll s' = k /\
            m_pendingEventCount s' = wrap 64 (m_pendingEventCount s - Z.of_nat (bits real))
        else out (handle_event (Ready i mask)) s = Crash AssertFail
      else handle_event (Ready i mask) s = (Ret tt, s)
  | None => handle_event (Ready i mask) s = (Ret tt, s)
  end.
Proof.
  intros H Hc real z fires. pose proof (handle_event_spec s i c mask H Hc) as Hs. cbv zeta in Hs.
  fold real z in Hs. unfold fires. destruct (Z.land (events c) real =? 0)%Z; simpl.
  { by destruct (epoll_ctl _ _ _ _). }
  destruct (epoll_ctl _ _ _ _) as [k|]; [|done].
  destruct (Z.eqb_spec (Z.land (events c) real) real) as [Hsub|]; [|done]. destruct Hs as [R _].
  exists (after_fire real i c k s). split_and!; try done.
  apply (clear_mask_ok i); [by eapply wf_ctx|apply real_events_ok|done].
Qed.

(** [cancelAll] fires every waiting event of a descriptor (read first),
    leaves its context as a fresh one and the descriptor unwatched; it
    answers [false] and changes nothing when no event waits or the kernel
    refuses. *)
Theorem cancelAll_fires_all s i c : io_wf s -> m_fdContexts s !! i = Some c ->
  match epoll_ctl (m_epoll s) EPOLL_CTL_DEL i 0 with
  | Some k => if (events c =? 0)%Z then cancelAll (Z.of_nat i) s = (Ret false, s) else
      exists s', cancelAll (Z.of_nat i) s = (Ret true, s') /\ io_wf s' /\
        m_fdContexts s' = <[i := new_FdContext i]> (m_fdContexts s) /\
        m_scheduled s' = m_scheduled s ++ fired_mask (events c) c /\
        length (fired_mask (events c) c) = waiting c /\ m_epoll s' !! i = None
  | None => cancelAll (Z.of_nat i) s = (Ret false, s)
  end.
Proof.
  intros H Hc. pose proof (cancelAll_spec s i c H Hc) as Hs. pose proof (wf_ctx s H i c Hc) as Hok.
  destruct (events c =? 0)%Z; [by destruct (epoll_ctl _ _ _ _)|].
  destruct (epoll_ctl _ _ _ _) as [k|] eqn:Ek; [|done]. destruct Hs as [R W].
  eexists. split_and!; [exact R|exact W| |done| |].
  - simpl. by rewrite (clear_all i c Hok).
  - unfold fired_mask, waiting. change (bit (events c)) with (has c). rewrite length_app.
    assert (forall ev, is_event ev -> has c ev = true -> length (fired ev c) = 1) as Hone.
    { intros ev Hev Hh. pose proof (ok_slots _ _ Hok ev Hev) as Hsl. rewrite Hh in Hsl.
      destruct Hsl as [[sc Hsc] Hcase]. unfold fired, slot_task. rewrite Hsc.
      by destruct Hcase as [(f & -> & _)|(f & -> & ->)]. }
    destruct (has c READ) eqn:HR, (has c WRITE) eqn:HW; simpl;
      rewrite ?(Hone READ (or_introl eq_refl) HR), ?(Hone WRITE (or_intror eq_refl) HW); done.
  - apply epoll_del in Ek as [_ ->]. apply lookup_delete_eq.
Qed.
End properties.

(** * The idle loop *)

Section idle.
Context {C : Type} {E : Epoll}.
Implicit Types (s : IOManager C).

(** The time handed to [epoll_wait] is the time to the next timer, capped
    at three seconds, and three seconds when there is no timer, as long as
    the next timer is less than 2^31 ms away. *)
Theorem idle_timeout_bounded t : (0 <= t < 2 ^ 31)%Z ->
  idle_timeout t = Z.min t 3000 /\ (0 <= idle_timeout t <= 3000)%Z /\ idle_timeout (2 ^ 64 - 1) = 3000%Z.
Proof.
  intros Ht. assert (idle_timeout t = Z.min t 3000) as Heq.
  { unfold idle_timeout, MAX_TIMEOUT. rewrite (proj2 (Z.eqb_neq t (2 ^ 64 - 1))) by lia.
    rewrite (sint_id 32 t) by (lia || split; lia).
    destruct (Z.ltb_spec 3000 t); rewrite sint_id by (lia || split; lia); lia. }
  split_and!; [done|lia|lia|reflexivity].
Qed.

(** A timer 2^31 ms (25 days) ahead makes the wait negative, which blocks
    without a limit. *)
Lemma idle_timeout_negative : (idle_timeout (2 ^ 31) < 0)%Z.
Proof. vm_compute. reflexivity. Qed.

Lemma schedule_all_spec sc (cbs : list (option (callback C))) s :
  schedule_all sc cbs s = (Ret tt, mkIOManager (m_tickleFd s) (m_pendingEventCount s) (m_fdContexts s)
    (m_epoll s) (m_scheduled s ++ ((fun f => (sc, TaskCb f)) <$> omap id cbs)) (m_base s)).
Proof.
  revert s. induction cbs as [|[f|] cbs IH]; intros s; simpl.
  - rewrite app_nil_r. by destruct s.
  - unfold schedule_on. run_pure. rewrite IH. simpl. by rewrite <- app_assoc.
  - unfold schedule_on. run_pure. rewrite IH. simpl. by rewrite app_nil_r.
Qed.

(** A turn of the idle loop ends the loop exactly when no timer is left,
    no event waits and the scheduler has nothing to do. Otherwise it moves
    the callbacks of the timers that are due at the second look at the clock
    to the scheduler's queue, in deadline order and before any event of this
    turn, and leaves the events' side untouched when [epoll_wait] reported
    none. *)
Theorem idle_turn_schedules_due s sc now now' addr stop wait :
  timers_wf (m_base s) -> m_heap (m_base s) !! addr = None -> in_uint 64 now ->
  (forall a t, m_heap (m_base s) !! a = Some t -> in_uint 64 (m_next t) /\ now + 2 ^ 64 - 1 <> m_next t)%Z ->
  (forall t, wait t = []) ->
  if decide (m_timers (m_base s) = [] /\ m_pendingEventCount s = 0%Z /\ stop = true)
  then out (idle_turn sc now now' addr stop wait) s = Ret true
  else exists s', idle_turn sc now now' addr stop wait s = (Ret false, s') /\
    m_scheduled s' = m_scheduled s ++
      ((fun f => (sc, TaskCb f)) <$>
         omap (callback_of (m_heap (m_base s))) (expiring (m_base s) now')) /\
    m_fdContexts s' = m_fdContexts s /\ m_epoll s' = m_epoll s /\
    m_pendingEventCount s' = m_pendingEventCount s /\
    timers_wf (m_base s').
Proof.
  intros H Ha Hnow Hnext Hwait. unfold out, idle_turn.
  pose proof (getNextTimer_spec (m_base s) now H) as Rn. set (w := match m_timers _ with [] => _ | _ => _ end) in Rn.
  set (b1 := with_tickled false (m_base s)) in Rn.
  assert (stopping now stop s = (Ret ((w =? 2 ^ 64 - 1)%Z && (m_pendingEventCount s =? 0)%Z && stop, w),
            with_base b1 s)) as Rs.
  { unfold stopping, lift_base, mbind, prog_bind. by rewrite Rn. }
  assert ((w =? 2 ^ 64 - 1)%Z = bool_decide (m_timers (m_base s) = [])) as Ew.
  { unfold w. destruct (m_timers (m_base s)) as [|a l] eqn:El; [done|]. rewrite bool_decide_false by done.
    apply Z.eqb_neq. destruct (m_heap (m_base s) !! a) as [t|] eqn:Et; [|done].
    destruct (Hnext a t Et) as [Hr Hne]. destruct (_ <=? _)%Z; [done|]. lia. }
  rewrite Ew in Rs. destruct (decide _) as [(E1 & E2 & E3)|Hnot].
  { run Rs. by rewrite E1, E2, E3. }
  run Rs. cbn [fst snd].
  assert (bool_decide (m_timers (m_base s) = []) && (m_pendingEventCount s =? 0)%Z && stop = false) as ->.
  { destruct (m_timers (m_base s)); [|done]. destruct (Z.eqb_spec (m_pendingEventCount s) 0); [|done].
    destruct stop; [|done]. exfalso. auto. }
  destruct (listExpiredCb_spec b1 addr now') as (l & Rl & _); [split; apply H|done|].
  pose proof (wf_listExpired b1 addr now' ltac:(split; apply H) Ha) as Wl. unfold post in Wl. rewrite Rl in Wl.
  assert (lift_base (listExpiredCb addr now') (with_base b1 s) = (Ret (callback_of (m_heap b1) <$> expiring b1 now'),
    with_base (snd (listExpiredCb addr now' b1)) s)) as Rb by (unfold lift_base; simpl; by rewrite Rl).
  run Rb. run (schedule_all_spec sc (callback_of (m_heap b1) <$> expiring b1 now')
    (with_base (snd (listExpiredCb addr now' b1)) s)). rewrite Hwait. simpl handle_events. run_pure.
  eexists. split; [reflexivity|]. simpl. rewrite omap_id_fmap, Rl. by split_and!.
Qed.
End idle.

(** * Concrete instances *)

(** An epoll that does what the manual says. *)
Definition epoll_manual (k : gmap nat Z) (op : ctl) (i : nat) (ev : Z) : option (gmap nat Z) :=
  match op, k !! i with
  | EPOLL_CTL_ADD, None => Some (<[i := ev]> k)
  | EPOLL_CTL_MOD, Some _ => Some (<[i := ev]> k)
  | EPOLL_CTL_DEL, Some _ => Some (delete i k)
  | _, _ => None
  end.

#[export] Instance epoll_manual_ok : Epoll.
Proof.
  refine {| epoll_ctl := epoll_manual |}; intros k i ev k'; unfold epoll_manual;
    destruct (k !! i) eqn:Ei; intros Hk; simplify_eq; eauto.
Defined.

(** Descriptor 6: a callback for READ, and fiber 2 for WRITE. *)
Definition io_example : IOManager nat :=
  post (addEvent 0 1 true 6 READ (Some (Plain 7));; addEvent 0 2 true 6 WRITE None) (new_IOManager 3 100).

Lemma io_example_reachable : io_reachable io_example.
Proof.
  pose (s1 := post (io_exec (AddEvent 0 1 true 6 READ (Some (Plain 7)))) (new_IOManager 3 100)).
  apply (io_step s1 (AddEvent 0 2 true 6 WRITE None) (Ret tt)).
  - apply (io_step (new_IOManager 3 100) (AddEvent 0 1 true 6 READ (Some (Plain 7))) (Ret tt)).
    + apply io_new.
    + split_and!; [by left|by left|]. intros c Hc. vm_compute in Hc. by simplify_eq.
    + vm_compute. reflexivity.
  - split_and!; [by right|by right|]. intros c Hc. vm_compute in Hc. by simplify_eq.
  - vm_compute. reflexivity.
Qed.

Definition ctx_example : FdContext nat :=
  mkFdContext (mkEventContext (Some 0) None (Some (Plain 7))) (mkEventContext (Some 0) (Some 2) None) 6 5.

Lemma io_example_wf : io_wf io_example.
Proof.
  pose proof io_example_reachable as H. induction H as [fd now|s o r s' _ IH Ho Hx]; [apply wf_new_IOManager|].
  destruct (io_exec_ok o s IH Ho) as (s1 & R & W). congruence.
Qed.


Lemma withdraw_event_witness :
  exists s2, cancelEvent 6 READ io_example = (Ret true, s2) /\ m_scheduled s2 = [(0, TaskCb (Plain 7))].
Proof.
  destruct (withdraw_event io_example 6 ctx_example READ) as (sc & t & s1 & s2 & Hsc & Ht & _ & _ & R & Hq & _);
    [apply io_example_wf|reflexivity|by left|reflexivity|].
  exists s2. split; [exact R|]. rewrite Hq. vm_compute in Hsc, Ht |- *. by simplify_eq.
Defined.

Lemma handle_event_branches_witness :
  exists s', handle_event (Ready 6 EPOLLOUT) io_example = (Ret tt, s') /\ m_scheduled s' = [(0, TaskFiber 2)].
Proof.
  pose proof (handle_event_branches io_example 6 ctx_example EPOLLOUT io_example_wf eq_refl) as H.
  vm_compute epoll_ctl in H. vm_compute (negb _) in H. vm_compute (Z.eqb _ _) in H. cbv match in H.
  destruct H as (s' & R & Hq & _). exists s'. split; [exact R|]. rewrite Hq. reflexivity.
Defined.

Lemma cancelAll_fires_all_witness :
  exists s', cancelAll 6 io_example = (Ret true, s') /\
    m_scheduled s' = [(0, TaskCb (Plain 7)); (0, TaskFiber 2)].
Proof.
  pose proof (cancelAll_fires_all io_example 6 ctx_example io_example_wf eq_refl) as H.
  vm_compute epoll_ctl in H. vm_compute (Z.eqb _ _) in H. cbv match in H.
  destruct H as (s' & R & _ & _ & Hq & _). exists s'. split; [exact R|]. rewrite Hq. reflexivity.
Defined.

Lemma idle_timeout_bounded_witness : idle_timeout 50 = 50%Z.
Proof. apply (idle_timeout_bounded 50). lia. Defined.

(** A descriptor waits for WRITE only, and both events are reported. *)
Lemma stale_event_aborts :
  out (delEvent 6 READ;; handle_event (Ready 6 (Z.lor EPOLLIN EPOLLOUT))) io_example = Crash AssertFail.
Proof. vm_compute. reflexivity. Qed.

Lemma idle_turn_schedules_due_witness :
  let s := with_base example_mgr io_example in
  exists s', idle_turn 0 100 115 9 false (fun _ => []) s = (Ret false, s') /\
    m_scheduled s' = [(0, TaskCb (Plain 1))].
Proof.
  intros s. destruct (idle_turn_schedules_due s 0 100 115 9 false (fun _ => [])) as (s' & R & Hq & _).
  - apply reachable_wf, example_reachable.
  - reflexivity.
  - split; lia.
  - intros a t Ha. change (m_heap (m_base s)) with (m_heap example_mgr) in Ha.
    assert (m_next t = 110 \/ m_next t = 120)%Z as Hn.
    { assert (m_heap example_mgr = <[3 := new_Timer 100 20 (Some (Plain 2)) true]>
        (<[7 := new_Timer 100 10 (Some (Plain 1)) false]> ∅)) as Eh by reflexivity. rewrite Eh in Ha.
      apply lookup_insert_Some in Ha as [[_ <-]|[_ Ha]]; [by right|].
      apply lookup_insert_Some in Ha as [[_ <-]|[_ Ha]]; [by left|done]. }
    split; [split; lia|lia].
  - done.
  - exists s'. split; [exact R|]. rewrite Hq. reflexivity.
Defined.
