(* ===== verification/Hook.v ===== *)
(** [sherry/fd_manager.cc] and [sherry/hook.cc]: the table of descriptors and
    the system calls that are replaced inside fibers.

    The original functions ([read_f], [fcntl_f], ...) are the interface
    [Kernel]; every call of one is appended to [h_calls].  A hooked call that
    has to wait ends in [Blocked] where the source calls [YieldToHold], and
    [do_io_resume] is what follows when the fiber runs again.  A
    [std::shared_ptr<timer_info>] is an address of [h_infos]; it is gone when
    the call returns, so the weak pointer of a timer no longer locks. *)

From stdpp Require Import base list gmap strings.
From S2P Require Import Prelude MachineInt Timer IOManager.
From Stdlib Require Import ZArith Lia.
Local Open Scope Z_scope.

Inductive syscall : Type :=
| SysIo (name : string) (fd : Z) (args : list Z)
| SysConnect (fd : Z) (args : list Z)
| SysSocket (domain type protocol : Z)
| SysClose (fd : Z)
| SysFcntl (fd cmd arg : Z)
| SysIoctl (fd request arg : Z)
| SysGetsockopt (fd level optname : Z)
| SysSetsockopt (fd level optname : Z) (optval : list Z)
| SysSleep (name : string) (args : list Z).

(** The return value and the new [errno], if it is set; whether [fstat] works
    on a descriptor and says that it is a socket; the value [SO_ERROR] has. *)
Class Kernel (K : Type) : Type := {
  sys_call : syscall -> K -> Z * option Z * K;
  sys_fstat : Z -> K -> option bool;
  sys_so_error : Z -> K -> Z
}.

Definition EINTR : Z := 4.
Definition EBADF : Z := 9.
Definition EAGAIN : Z := 11.
Definition ETIMEDOUT : Z := 110.
Definition EINPROGRESS : Z := 115.
Definition F_GETFL : Z := 3.
Definition F_SETFL : Z := 4.
Definition O_NONBLOCK : Z := 2048.
Definition FIONBIO : Z := 21537.
Definition SOL_SOCKET : Z := 1.
Definition SO_ERROR : Z := 4.
Definition SO_RCVTIMEO : Z := 20.
Definition SO_SNDTIMEO : Z := 21.
Definition no_timeout : Z := 2 ^ 64 - 1.            (* [(uint64_t)-1] *)

(** * State *)

Record FdCtx : Type := mkFdCtx {
  m_isInit : bool;
  m_isSocket : bool;
  m_sysNonblock : bool;
  m_userNonblock : bool;
  m_isClosed : bool;
  m_fd : Z;
  m_recvTimeout : Z;
  m_sendTimeout : Z
}.

(** The functions timers are given: the lambda of [do_io] and
    [connect_with_timeout], and [bind(schedule, iom, fiber, -1)]. *)
Inductive hook_fn : Type :=
| HookTimeout (info : nat) (fd event : Z)
| HookResume (fiber : nat).

Record hworld (K : Type) : Type := mkHW {
  h_iom : option (IOManager hook_fn);              (* [IOManager::GetThis()] *)
  h_fds : list (option FdCtx);                     (* [FdManager::m_datas] *)
  h_infos : gmap nat Z;                            (* [timer_info::cancelled] *)
  h_errno : Z;
  h_k : K;
  h_calls : list syscall
}.
Arguments mkHW {K}. Arguments h_iom {K} h. Arguments h_fds {K} h. Arguments h_infos {K} h.
Arguments h_errno {K} h. Arguments h_k {K} h. Arguments h_calls {K} h.

Section hook.
Context {K : Type} {kern : Kernel K} {ep : Epoll}.
Abbreviation W := (hworld K).

Definition with_iom (i : option (IOManager hook_fn)) (s : W) : W := mkHW i (h_fds s) (h_infos s) (h_errno s) (h_k s) (h_calls s).
Definition with_fds (l : list (option FdCtx)) (s : W) : W := mkHW (h_iom s) l (h_infos s) (h_errno s) (h_k s) (h_calls s).
Definition with_infos (m : gmap nat Z) (s : W) : W := mkHW (h_iom s) (h_fds s) m (h_errno s) (h_k s) (h_calls s).
Definition set_errno (e : Z) : prog W unit :=
  modify (fun s => mkHW (h_iom s) (h_fds s) (h_infos s) e (h_k s) (h_calls s)).

Definition call (c : syscall) : prog W Z := fun s =>
  let '(r, e, k) := sys_call c (h_k s) in
  (Ret r, mkHW (h_iom s) (h_fds s) (h_infos s) (default (h_errno s) e) k (h_calls s ++ [c])).

Definition iom {A} (p : prog (IOManager hook_fn) A) : prog W A := fun s =>
  match h_iom s with
  | None => (Crash NullDeref, s)
  | Some i => let '(r, i') := p i in (r, with_iom (Some i') s)
  end.

(** * [FdCtx] *)

Definition has_bit (a b : Z) : bool := negb (Z.land a b =? 0).

(** [init], which the constructor calls. *)
Definition FdCtx_init (fd : Z) : prog W FdCtx :=
  s ← gets id;
  let '(isInit, isSocket) := match sys_fstat fd (h_k s) with None => (false, false) | Some b => (true, b) end in
  if isSocket : bool then
    flags ← call (SysFcntl fd F_GETFL 0);
    (if has_bit flags O_NONBLOCK then mret tt
     else call (SysFcntl fd F_SETFL (Z.lor flags O_NONBLOCK));; mret tt);;
    mret (mkFdCtx isInit true true false false fd no_timeout no_timeout)
  else mret (mkFdCtx isInit false false false false fd no_timeout no_timeout).
Definition new_FdCtx (fd : Z) : prog W FdCtx := FdCtx_init fd.

Definition setTimeout (type v : Z) (c : FdCtx) : FdCtx :=
  if type =? SO_RCVTIMEO
  then mkFdCtx (m_isInit c) (m_isSocket c) (m_sysNonblock c) (m_userNonblock c) (m_isClosed c) (m_fd c) v (m_sendTimeout c)
  else mkFdCtx (m_isInit c) (m_isSocket c) (m_sysNonblock c) (m_userNonblock c) (m_isClosed c) (m_fd c) (m_recvTimeout c) v.
Definition getTimeout (type : Z) (c : FdCtx) : Z :=
  if type =? SO_RCVTIMEO then m_recvTimeout c else m_sendTimeout c.
Definition setUserNonblock (v : bool) (c : FdCtx) : FdCtx :=
  mkFdCtx (m_isInit c) (m_isSocket c) (m_sysNonblock c) v (m_isClosed c) (m_fd c) (m_recvTimeout c) (m_sendTimeout c).

(** * [FdManager] *)

Definition new_FdManager : list (option FdCtx) := replicate 64 None.

(** [m_datas[fd]], unchecked in the source. *)
Definition datas_at (fd : Z) : prog W (option FdCtx) := fun s =>
  of_option OutOfRange (if fd <? 0 then None else h_fds s !! Z.to_nat fd) s.
Definition datas_put (fd : Z) (c : option FdCtx) : prog W unit := fun s =>
  if (fd <? 0) || (Z.of_nat (length (h_fds s)) <=? fd) then (Crash OutOfRange, s)
  else (Ret tt, with_fds (<[Z.to_nat fd := c]> (h_fds s)) s).
Definition datas_resize (n : nat) (s : W) : W :=
  with_fds (take n (h_fds s) ++ replicate (n - length (h_fds s)) None) s.

Definition fd_get (fd : Z) (auto_create : bool) : prog W (option FdCtx) :=
  if fd =? -1 then mret None else
  s ← gets id;
  let create :=
    ctx ← new_FdCtx fd;
    s ← gets id;
    (if Z.of_nat (length (h_fds s)) <=? fd then modify (datas_resize (grown_size fd)) else mret tt);;
    datas_put fd (Some ctx);;
    mret (Some ctx) in
  if Z.of_nat (length (h_fds s)) <=? fd then if negb auto_create then mret None else create
  else
    c ← datas_at fd;
    match c with
    | Some _ => mret c
    | None => if negb auto_create then mret c else create
    end.

Definition fd_del (fd : Z) : prog W unit :=
  s ← gets id;
  if Z.of_nat (length (h_fds s)) <=? fd then mret tt else datas_put fd None.

(** * [do_io] *)

Record io_frame : Type := mkFrame {
  fr_name : string;
  fr_fd : Z;
  fr_args : list Z;
  fr_event : Z;
  fr_to : Z;
  fr_info : nat
}.

Inductive io_result : Type :=
| Returned (n : Z)
| Blocked (fr : io_frame) (timer : option nat).

(** The call, repeated while it is interrupted. *)
Fixpoint retry_eintr (fuel : nat) (c : syscall) : prog W Z :=
  match fuel with
  | O => crash NoFuel
  | S fuel' =>
      n ← call c;
      s ← gets id;
      if (n =? -1) && (h_errno s =? EINTR) then retry_eintr fuel' c else mret n
  end.

Definition cancel_timer (timer : option nat) : prog W unit :=
  match timer with
  | None => mret tt
  | Some t => iom (lift_base (Timer_cancel t));; mret tt
  end.

(** [return] gives up the only strong pointer to the timer_info. *)
Definition io_return (fr : io_frame) (n : Z) : prog W io_result :=
  modify (fun s => with_infos (delete (fr_info fr) (h_infos s)) s);; mret (Returned n).

Section thread.
(** [t_hook_enable], the current scheduler and the current fiber. *)
Context (t_hook_enable : bool) (this_sched this_fiber : nat).

(** From the label [retry]; [now] and [addr] are for the timer it may add. *)
Definition do_io_retry (fuel : nat) (fr : io_frame) (now : Z) (addr : nat) : prog W io_result :=
  n ← retry_eintr fuel (SysIo (fr_name fr) (fr_fd fr) (fr_args fr));
  s ← gets id;
  if (n =? -1) && (h_errno s =? EAGAIN) then
    timer ← (if fr_to fr =? no_timeout then mret None else
      a ← iom (lift_base (addConditionTimer addr now (fr_to fr)
        (HookTimeout (fr_info fr) (fr_fd fr) (fr_event fr)) (fr_info fr) false));
      mret (Some a));
    rt ← iom (addEvent this_sched this_fiber true (fr_fd fr) (fr_event fr) None);
    if negb (rt =? 0) then cancel_timer timer;; io_return fr (-1)
    else mret (Blocked fr timer)
  else io_return fr n.

Definition do_io (fuel : nat) (name : string) (fd event timeout_so : Z) (args : list Z)
    (now : Z) (addr info : nat) : prog W io_result :=
  let fun_ := n ← call (SysIo name fd args); mret (Returned n) in
  if negb t_hook_enable then fun_ else
  ctx ← fd_get fd false;
  match ctx with
  | None => fun_
  | Some ctx =>
      if m_isClosed ctx then set_errno EBADF;; mret (Returned (-1)) else
      if negb (m_isSocket ctx) || m_userNonblock ctx then fun_ else
      modify (fun s => with_infos (<[info := 0]> (h_infos s)) s);;
      do_io_retry fuel (mkFrame name fd args event (getTimeout timeout_so ctx) info) now addr
  end.

(** Behind [YieldToHold]. *)
Definition do_io_resume (fuel : nat) (fr : io_frame) (timer : option nat) (now : Z) (addr : nat) : prog W io_result :=
  cancel_timer timer;;
  s ← gets id;
  cancelled ← of_option NullDeref (h_infos s !! fr_info fr);
  if negb (cancelled =? 0) then set_errno cancelled;; io_return fr (-1)
  else do_io_retry fuel fr now addr.

(** The function a timer of [do_io] calls. *)
Definition timeout_fn (info : nat) (fd event : Z) : prog W unit :=
  s ← gets id;
  match h_infos s !! info with
  | None => mret tt
  | Some cancelled =>
      if negb (cancelled =? 0) then mret tt else
      modify (fun s => with_infos (<[info := ETIMEDOUT]> (h_infos s)) s);;
      iom (cancelEvent fd event);;
      mret tt
  end.

Definition run_hook_fn (f : hook_fn) : prog W unit :=
  match f with
  | HookTimeout info fd event => timeout_fn info fd event
  | HookResume fiber => iom (schedule_on this_sched (Some (TaskFiber fiber)))
  end.

(** ** The hooked calls *)

Definition hook_read fuel fd args := do_io fuel "read" fd READ SO_RCVTIMEO args.
Definition hook_readv fuel fd args := do_io fuel "readv" fd READ SO_RCVTIMEO args.
Definition hook_recv fuel fd args := do_io fuel "recv" fd READ SO_RCVTIMEO args.
Definition hook_recvfrom fuel fd args := do_io fuel "recvfrom" fd READ SO_RCVTIMEO args.
Definition hook_recvmsg fuel fd args := do_io fuel "recvmsg" fd READ SO_RCVTIMEO args.
Definition hook_write fuel fd args := do_io fuel "write" fd WRITE SO_SNDTIMEO args.
Definition hook_writev fuel fd args := do_io fuel "writev" fd WRITE SO_SNDTIMEO args.
Definition hook_send fuel fd args := do_io fuel "send" fd WRITE SO_SNDTIMEO args.
Definition hook_sendto fuel fd args := do_io fuel "sendto" fd WRITE SO_SNDTIMEO args.
Definition hook_sendmsg fuel fd args := do_io fuel "sendmsg" fd WRITE SO_SNDTIMEO args.
Definition hook_sendfile fuel fd args := do_io fuel "sendfile" fd WRITE SO_SNDTIMEO args.

(** [accept]: a new descriptor gets its context. *)
Definition accept_done (r : io_result) : prog W io_result :=
  match r with
  | Returned fd => if 0 <=? fd then fd_get fd true;; mret r else mret r
  | _ => mret r
  end.
Definition hook_accept fuel fd args now addr info : prog W io_result :=
  do_io fuel "accept" fd READ SO_RCVTIMEO args now addr info ≫= accept_done.
Definition accept_resume fuel fr timer now addr : prog W io_result :=
  do_io_resume fuel fr timer now addr ≫= accept_done.

Definition hook_socket (domain type protocol : Z) : prog W Z :=
  fd ← call (SysSocket domain type protocol);
  if negb t_hook_enable then mret fd else
  if fd =? -1 then mret fd else fd_get fd true;; mret fd.

(** [sleep], [usleep], [nanosleep]: [None] when the fiber yields; they return
    0 when it is resumed.  The period is computed at the width of the source:
    [unsigned int], [useconds_t], [int]. *)
Definition sleep_for (addr : nat) (now ms : Z) : prog W (option Z) :=
  iom (lift_base (addTimer addr now ms (Some (Plain (HookResume this_fiber))) false));; mret None.
Definition hook_sleep (addr : nat) (now seconds : Z) : prog W (option Z) :=
  if negb t_hook_enable then n ← call (SysSleep "sleep" [seconds]); mret (Some n)
  else sleep_for addr now (wrap 32 (seconds * 1000)).
Definition hook_usleep (addr : nat) (now usec : Z) : prog W (option Z) :=
  if negb t_hook_enable then n ← call (SysSleep "usleep" [usec]); mret (Some n)
  else sleep_for addr now (usec / 1000).
Definition hook_nanosleep (addr : nat) (now tv_sec tv_nsec : Z) : prog W (option Z) :=
  if negb t_hook_enable then n ← call (SysSleep "nanosleep" [tv_sec; tv_nsec]); mret (Some n)
  else sleep_for addr now (wrap 64 (sint 32 (tv_sec * 1000 + Z.quot (Z.quot tv_nsec 1000) 1000))).

(** ** [connect_with_timeout] *)

(** Behind the wait, or when the event could not be added. *)
Definition connect_check (fd : Z) : prog W Z :=
  s ← gets id;
  r ← call (SysGetsockopt fd SOL_SOCKET SO_ERROR);
  if r =? -1 then mret (-1) else
  let error := sys_so_error fd (h_k s) in
  if error =? 0 then mret 0 else set_errno error;; mret (-1).
Definition connect_finish (fr : io_frame) (n : Z) : prog W io_result := io_return fr n.

Definition connect_with_timeout (fd : Z) (args : list Z) (timeout_ms now : Z) (addr info : nat) : prog W io_result :=
  let fun_ := n ← call (SysConnect fd args); mret (Returned n) in
  if negb t_hook_enable then fun_ else
  ctx ← fd_get fd false;
  match ctx with
  | None => set_errno EBADF;; mret (Returned (-1))
  | Some ctx =>
      if m_isClosed ctx then set_errno EBADF;; mret (Returned (-1)) else
      if negb (m_isSocket ctx) then fun_ else
      if m_userNonblock ctx then fun_ else
      n ← call (SysConnect fd args);
      s ← gets id;
      if n =? 0 then mret (Returned 0) else
      if negb (n =? -1) || negb (h_errno s =? EINPROGRESS) then mret (Returned n) else
      modify (fun s => with_infos (<[info := 0]> (h_infos s)) s);;
      let fr := mkFrame "connect" fd args WRITE timeout_ms info in
      timer ← (if timeout_ms =? no_timeout then mret None else
        a ← iom (lift_base (addConditionTimer addr now timeout_ms (HookTimeout info fd WRITE) info false));
        mret (Some a));
      rt ← iom (addEvent this_sched this_fiber true fd WRITE None);
      if rt =? 0 then mret (Blocked fr timer)
      else cancel_timer timer;; n ← connect_check fd; connect_finish fr n
  end.
Definition connect_resume (fr : io_frame) (timer : option nat) : prog W io_result :=
  cancel_timer timer;;
  s ← gets id;
  cancelled ← of_option NullDeref (h_infos s !! fr_info fr);
  if negb (cancelled =? 0) then set_errno cancelled;; connect_finish fr (-1)
  else n ← connect_check (fr_fd fr); connect_finish fr n.
(** [s_connect_timeout] *)
Definition hook_connect (s_connect_timeout : Z) (fd : Z) (args : list Z) (now : Z) (addr info : nat) : prog W io_result :=
  connect_with_timeout fd args s_connect_timeout now addr info.

(** ** Closing and options *)

Definition hook_close (fd : Z) : prog W Z :=
  if negb t_hook_enable then call (SysClose fd) else
  ctx ← fd_get fd false;
  (match ctx with
   | None => mret tt
   | Some _ =>
       s ← gets id;
       (match h_iom s with None => mret tt | Some _ => iom (cancelAll fd);; mret tt end);;
       fd_del fd
   end);;
  call (SysClose fd).

(** The condition under which the flag of the user is kept apart. *)
Definition managed (ctx : option FdCtx) : option FdCtx :=
  match ctx with
  | Some c => if m_isClosed c || negb (m_isSocket c) then None else Some c
  | None => None
  end.

(** The commands listed with an argument: [F_DUPFD], [F_DUPFD_CLOEXEC],
    [F_SETFD], [F_SETOWN], [F_SETSIG], [F_SETLEASE], [F_NOTIFY],
    [F_SETPIPE_SZ]; [F_SETLK], [F_SETLKW], [F_GETLK]; [F_GETOWN_EX],
    [F_SETOWN_EX].  The others are passed on without one. *)
Definition takes_arg (cmd : Z) : bool :=
  bool_decide (cmd ∈ [0; 1030; 2; 8; 10; 1024; 1026; 1031; 6; 7; 5; 16; 15]).
Definition hook_fcntl (fd cmd arg : Z) : prog W Z :=
  if cmd =? F_SETFL then
    ctx ← fd_get fd false;
    match managed ctx with
    | None => call (SysFcntl fd cmd arg)
    | Some c =>
        datas_put fd (Some (setUserNonblock (has_bit arg O_NONBLOCK) c));;
        call (SysFcntl fd cmd (if m_sysNonblock c then Z.lor arg O_NONBLOCK else Z.ldiff arg O_NONBLOCK))
    end
  else if cmd =? F_GETFL then
    flags ← call (SysFcntl fd cmd 0);
    ctx ← fd_get fd false;
    match managed ctx with
    | None => mret flags
    | Some c => mret (if m_userNonblock c then Z.lor flags O_NONBLOCK else Z.ldiff flags O_NONBLOCK)
    end
  else call (SysFcntl fd cmd (if takes_arg cmd then arg else 0)).

Definition hook_ioctl (d request arg : Z) : prog W Z :=
  if request =? FIONBIO then
    ctx ← fd_get d false;
    match managed ctx with
    | None => call (SysIoctl d request arg)
    | Some c =>
        datas_put d (Some (setUserNonblock (negb (arg =? 0)) c));;
        call (SysIoctl d request arg)
    end
  else call (SysIoctl d request arg).

Definition hook_getsockopt (fd level optname : Z) : prog W Z := call (SysGetsockopt fd level optname).

(** [optval] of the two timeouts is a [timeval]. *)
Definition hook_setsockopt (fd level optname : Z) (tv_sec tv_usec : Z) : prog W Z :=
  if negb t_hook_enable then call (SysSetsockopt fd level optname [tv_sec; tv_usec]) else
  (if (level =? SOL_SOCKET) && ((optname =? SO_RCVTIMEO) || (optname =? SO_SNDTIMEO)) then
     ctx ← fd_get fd false;
     match ctx with
     | None => mret tt
     | Some c => datas_put fd (Some (setTimeout optname (wrap 64 (tv_sec * 1000 + Z.quot tv_usec 1000)) c))
     end
   else mret tt);;
  call (SysSetsockopt fd level optname [tv_sec; tv_usec]).
End thread.
End hook.
