(* ===== verification/HookProps.v ===== *)
(** Hooked system calls: the table of descriptors, what passes through, and
    how a call that would block waits, times out and is resumed. *)

From stdpp Require Import base list gmap strings.
From S2P Require Import Prelude MachineInt Timer TimerProps IOManager IOManagerProps Hook.
From Stdlib Require Import ZArith Lia.
Local Open Scope Z_scope.

Section props.
Context {K : Type} {kern : Kernel K} {ep : Epoll}.
Implicit Types (s : hworld K) (c : FdCtx) (io : IOManager hook_fn).

(** * The table *)

(** What the table holds for a descriptor. *)
Definition entry s (fd : Z) : option FdCtx := mjoin (h_fds s !! Z.to_nat fd).

Lemma call_eq (x : syscall) s : exists n e k, sys_call x (h_k s) = (n, e, k) /\
  call x s = (Ret n, mkHW (h_iom s) (h_fds s) (h_infos s) (default (h_errno s) e) k (h_calls s ++ [x])).
Proof. unfold call. destruct (sys_call x (h_k s)) as [[n e] k]. eauto. Qed.

Lemma fd_get_found s fd : 0 <= fd -> fd_get fd false s = (Ret (entry s fd), s).
Proof.
  intros H. unfold fd_get, entry. rewrite (proj2 (Z.eqb_neq fd (-1))) by lia. run_pure. unfold id.
  destruct (Z.leb_spec (Z.of_nat (length (h_fds s))) fd) as [Hle|Hlt].
  - rewrite lookup_ge_None_2 by lia. done.
  - destruct (lookup_lt_is_Some_2 (h_fds s) (Z.to_nat fd)) as [o Ho]; [lia|]. 
    assert (datas_at fd s = (Ret o, s)) as Hd by (unfold datas_at; by rewrite (proj2 (Z.ltb_ge fd 0)), Ho by lia).
    run Hd. rewrite Ho. by destruct o.
Qed.

Lemma datas_put_run s fd o : 0 <= fd < Z.of_nat (length (h_fds s)) ->
  datas_put fd o s = (Ret tt, with_fds (<[Z.to_nat fd := o]> (h_fds s)) s).
Proof. intros H. unfold datas_put. by rewrite (proj2 (Z.ltb_ge fd 0)), (proj2 (Z.leb_gt _ fd)) by lia. Qed.

Lemma entry_put s fd fd' o : 0 <= fd < Z.of_nat (length (h_fds s)) -> 0 <= fd' ->
  entry (with_fds (<[Z.to_nat fd := o]> (h_fds s)) s) fd' = if decide (fd' = fd) then o else entry s fd'.
Proof.
  intros H H'. unfold entry. simpl. case_decide as E.
  - subst fd'. rewrite list_lookup_insert_eq by lia. done.
  - rewrite list_lookup_insert_ne by lia. done.
Qed.

Lemma entry_resize s n fd : (length (h_fds s) <= n)%nat -> entry (datas_resize n s) fd = entry s fd.
Proof.
  intros H. unfold entry, datas_resize. simpl. rewrite take_ge by lia.
  destruct (decide (Z.to_nat fd < length (h_fds s))%nat); [by rewrite lookup_app_l|].
  rewrite lookup_app_r, (lookup_ge_None_2 (h_fds s)) by lia.
  destruct (replicate _ _ !! _) eqn:E; [|done]. apply lookup_replicate in E as [-> _]. done.
Qed.

(** A new context: a descriptor that is a socket is switched to nonblocking. *)
Lemma new_FdCtx_run s fd : exists ctx k e calls,
  new_FdCtx fd s = (Ret ctx, mkHW (h_iom s) (h_fds s) (h_infos s) e k (h_calls s ++ calls)) /\
  m_fd ctx = fd /\ m_userNonblock ctx = false /\ m_isClosed ctx = false /\
  m_recvTimeout ctx = no_timeout /\ m_sendTimeout ctx = no_timeout /\
  m_sysNonblock ctx = m_isSocket ctx /\
  m_isSocket ctx = default false (sys_fstat fd (h_k s)) /\
  (m_isSocket ctx = false -> calls = []) /\
  (m_isSocket ctx = true -> let flags := fst (fst (sys_call (SysFcntl fd F_GETFL 0) (h_k s))) in
     calls = SysFcntl fd F_GETFL 0 :: (if has_bit flags O_NONBLOCK then [] else [SysFcntl fd F_SETFL (Z.lor flags O_NONBLOCK)])).
Proof.
  unfold new_FdCtx, FdCtx_init. run_pure. unfold id. destruct (sys_fstat fd (h_k s)) as [[]|] eqn:Ef.
  - destruct (call_eq (SysFcntl fd F_GETFL 0) s) as (n & e & k & Ek & E). run E. rewrite Ek. simpl fst.
    destruct (has_bit n O_NONBLOCK).
    + run_pure. eexists _, _, _, [SysFcntl fd F_GETFL 0]. split; [reflexivity|]. by split_and!.
    + rewrite bind_assoc.
      match goal with |- context [(call ?x ≫= _) ?s1] => destruct (call_eq x s1) as (n' & e' & k' & Ek' & E') end.
      run E'. run_pure. eexists _, _, _, [_; _]. split; [simpl; rewrite <- app_assoc; reflexivity|]. by split_and!.
  - run_pure. eexists _, (h_k s), (h_errno s), []. split; [rewrite app_nil_r; by destruct s|]. by split_and!.
  - run_pure. eexists _, (h_k s), (h_errno s), []. split; [rewrite app_nil_r; by destruct s|]. by split_and!.
Qed.

(** The table of descriptors. A lookup without [auto_create] changes
    nothing. [get(fd, true)] gives the context that is there, or makes one and
    enters it: whatever the size of the table, the entry fits, no other entry
    changes and a later lookup finds it; a new context of a socket has the
    descriptor switched to nonblocking, no timeouts, and the user's flag off.
    [del] removes exactly its entry. A negative descriptor other than -1
    accesses memory before the table. *)
Theorem fd_table s fd : (64 <= length (h_fds s))%nat ->
  (0 <= fd -> fd_get fd false s = (Ret (entry s fd), s)) /\
  (0 <= fd -> exists ctx s', fd_get fd true s = (Ret (Some ctx), s') /\
     (forall c, entry s fd = Some c -> ctx = c /\ s' = s) /\
     (64 <= length (h_fds s'))%nat /\ entry s' fd = Some ctx /\ (forall fd', 0 <= fd' -> fd' <> fd -> entry s' fd' = entry s fd') /\
     h_iom s' = h_iom s /\ h_infos s' = h_infos s /\
     (entry s fd = None -> m_fd ctx = fd /\ m_userNonblock ctx = false /\ m_isClosed ctx = false /\
        m_recvTimeout ctx = no_timeout /\ m_sendTimeout ctx = no_timeout /\ m_sysNonblock ctx = m_isSocket ctx)) /\
  (0 <= fd -> exists s', fd_del fd s = (Ret tt, s') /\ entry s' fd = None /\
     forall fd', 0 <= fd' -> fd' <> fd -> entry s' fd' = entry s fd') /\
  (fd < -1 -> forall b, fd_get fd b s = (Crash OutOfRange, s)).
Proof.
  intros Hl. split_and!.
  - apply fd_get_found.
  - intros Hfd. destruct (entry s fd) as [c0|] eqn:Ee.
    { exists c0, s. split_and!; try done; [|by intros ? [= <-]].
      unfold fd_get. rewrite (proj2 (Z.eqb_neq fd (-1))) by lia. run_pure. unfold id, entry in *.
      destruct (h_fds s !! Z.to_nat fd) as [o|] eqn:Ho; [|done]. simpl in Ee. subst o.
      pose proof (lookup_lt_Some _ _ _ Ho). rewrite (proj2 (Z.leb_gt _ fd)) by lia.
      assert (datas_at fd s = (Ret (Some c0), s)) as Hd by (unfold datas_at; by rewrite (proj2 (Z.ltb_ge fd 0)), Ho by lia).
      by run Hd. }
    destruct (new_FdCtx_run s fd) as (ctx & k & e & calls & E & F1 & F2 & F3 & F4 & F5 & F6 & _).
    set (s1 := mkHW (h_iom s) (h_fds s) (h_infos s) e k (h_calls s ++ calls)) in E.
    set (s2 := if Z.of_nat (length (h_fds s)) <=? fd then datas_resize (grown_size fd) s1 else s1).
    assert ((length (h_fds s) <= length (h_fds s2))%nat /\ fd < Z.of_nat (length (h_fds s2)) /\
      (forall fd', entry s2 fd' = entry s fd') /\ h_iom s2 = h_iom s /\ h_infos s2 = h_infos s) as (L1 & L2 & L3 & L4 & L5).
    { unfold s2. destruct (Z.leb_spec (Z.of_nat (length (h_fds s))) fd) as [Hle|]; [|by split_and!].
      assert (fd + 1 <= fd * 3 / 2) by (apply Z.div_le_lower_bound; lia).
      assert (length (h_fds (datas_resize (grown_size fd) s1)) = grown_size fd) as EL.
      { simpl. rewrite length_app, length_replicate, length_take. unfold grown_size. lia. }
      unfold grown_size in *. split_and!; try done; [lia|lia|].
      intros fd'. rewrite entry_resize; [done|]. simpl. lia. }
    exists ctx, (with_fds (<[Z.to_nat fd := Some ctx]> (h_fds s2)) s2).
    assert ((ctx ← new_FdCtx fd;
      s ← gets id;
      (if Z.of_nat (length (h_fds s)) <=? fd then modify (datas_resize (grown_size fd)) else mret tt);;
      datas_put fd (Some ctx);; mret (Some ctx)) s =
      (Ret (Some ctx), with_fds (<[Z.to_nat fd := Some ctx]> (h_fds s2)) s2)) as Hcreate.
    { run E. run_pure. unfold id. change (h_fds s1) with (h_fds s).
      assert ((if Z.of_nat (length (h_fds s)) <=? fd then modify (datas_resize (grown_size fd)) else mret tt) s1 = (Ret tt, s2))
        as Hrs by (unfold s2; by destruct (_ <=? _)).
      run Hrs. by run (datas_put_run s2 fd (Some ctx) (conj Hfd L2)). }
    clearbody s2. split_and!; try done.
    + unfold fd_get. rewrite (proj2 (Z.eqb_neq fd (-1))) by lia. erewrite bind_ret by reflexivity.
      cbv beta zeta. unfold id at 1 2. cbn [negb]. destruct (Z.leb_spec (Z.of_nat (length (h_fds s))) fd); [exact Hcreate|].
      unfold entry in Ee. destruct (lookup_lt_is_Some_2 (h_fds s) (Z.to_nat fd)) as [o Ho]; [lia|].
      rewrite Ho in Ee. simpl in Ee. subst o.
      assert (datas_at fd s = (Ret None, s)) as Hd by (unfold datas_at; by rewrite (proj2 (Z.ltb_ge fd 0)), Ho by lia).
      run Hd. exact Hcreate.
    + simpl. rewrite length_insert. lia.
    + rewrite entry_put by done. by rewrite decide_True.
    + intros fd' H' Hne. rewrite entry_put by done. by rewrite decide_False.
  - intros Hfd. unfold fd_del. run_pure. unfold id.
    destruct (Z.leb_spec (Z.of_nat (length (h_fds s))) fd).
    + exists s. split_and!; try done. unfold entry. by rewrite lookup_ge_None_2 by lia.
    + rewrite datas_put_run by lia. eexists. split; [reflexivity|].
      split; [|intros fd' H' Hne]; rewrite entry_put by lia; [by rewrite decide_True|by rewrite decide_False].
  - intros Hfd b. unfold fd_get. rewrite (proj2 (Z.eqb_neq fd (-1))) by lia. run_pure. unfold id.
    rewrite (proj2 (Z.leb_gt _ fd)) by lia.
    assert (datas_at fd s = (Crash OutOfRange, s)) as Hd by (unfold datas_at; by rewrite (proj2 (Z.ltb_lt fd 0)) by lia).
    by rewrite (bind_crash _ _ _ _ _ Hd).
Qed.

(** * The flag [O_NONBLOCK] *)

Lemma has_bit_lor a : has_bit (Z.lor a O_NONBLOCK) O_NONBLOCK = true.
Proof.
  unfold has_bit. rewrite Z.land_comm, Z.lor_comm, Z.land_lor_distr_r, Z.land_diag.
  destruct (Z.eqb_spec (Z.lor O_NONBLOCK (Z.land O_NONBLOCK a)) 0) as [E|]; [|done]. by apply Z.lor_eq_0_iff in E as [? _].
Qed.
Lemma has_bit_ldiff a : has_bit (Z.ldiff a O_NONBLOCK) O_NONBLOCK = false.
Proof. unfold has_bit. by rewrite Z.land_ldiff. Qed.

Lemma entry_range s fd c : 0 <= fd -> entry s fd = Some c -> 0 <= fd < Z.of_nat (length (h_fds s)).
Proof.
  intros H He. unfold entry in He. destruct (h_fds s !! Z.to_nat fd) eqn:E; [|done]. apply lookup_lt_Some in E. lia.
Qed.

(** A socket stays nonblocking underneath while its user sees the flag it
    set: [fcntl(F_SETFL, arg)] on a socket of the table records whether [arg]
    has O_NONBLOCK and hands the flags to the system with the bit the library
    needs; [fcntl(F_GETFL)] afterwards answers what the system says with the
    bit the user set. *)
Theorem fcntl_keeps_user_flag s fd arg c : 0 <= fd -> entry s fd = Some c -> m_isClosed c = false -> m_isSocket c = true ->
  exists r s1, hook_fcntl fd F_SETFL arg s = (Ret r, s1) /\
    h_calls s1 = h_calls s ++ [SysFcntl fd F_SETFL (if m_sysNonblock c then Z.lor arg O_NONBLOCK else Z.ldiff arg O_NONBLOCK)] /\
    entry s1 fd = Some (setUserNonblock (has_bit arg O_NONBLOCK) c) /\
    (forall fd', 0 <= fd' -> fd' <> fd -> entry s1 fd' = entry s fd') /\
    exists r2 s2, hook_fcntl fd F_GETFL 0 s1 = (Ret r2, s2) /\ h_calls s2 = h_calls s1 ++ [SysFcntl fd F_GETFL 0] /\
      has_bit r2 O_NONBLOCK = has_bit arg O_NONBLOCK /\
      Z.ldiff r2 O_NONBLOCK = Z.ldiff (fst (fst (sys_call (SysFcntl fd F_GETFL 0) (h_k s1)))) O_NONBLOCK.
Proof.
  intros Hfd He Hc Hs. pose proof (entry_range s fd c Hfd He) as Hr.
  unfold hook_fcntl at 1. change (F_SETFL =? F_SETFL) with true. cbv match. run (fd_get_found s fd Hfd). rewrite He.
  unfold managed at 1. rewrite Hc, Hs. cbn [orb negb].
  set (c' := setUserNonblock (has_bit arg O_NONBLOCK) c). run (datas_put_run s fd (Some c') Hr).
  set (s0 := with_fds _ s). match goal with |- context [call ?x s0] => destruct (call_eq x s0) as (n & e & k & Ek & ->) end.
  eexists _, _. split; [reflexivity|]. split; [done|].
  assert (forall fd', 0 <= fd' -> entry s0 fd' = if decide (fd' = fd) then Some c' else entry s fd') as Hent
    by (intros; by apply entry_put).
  split; [unfold entry in *; simpl; pose proof (Hent fd Hfd) as Hx; rewrite decide_True in Hx by done; exact Hx|].
  split; [intros fd' H' Hne; pose proof (Hent fd' H') as Hx; rewrite decide_False in Hx by done; exact Hx|].
  set (s1 := mkHW _ _ _ _ k _). unfold hook_fcntl. change (F_GETFL =? F_SETFL) with false. change (F_GETFL =? F_GETFL) with true.
  cbv match. destruct (call_eq (SysFcntl fd F_GETFL 0) s1) as (n2 & e2 & k2 & Ek2 & E2). run E2.
  set (s2 := mkHW (h_iom s1) _ _ _ k2 _). run (fd_get_found s2 fd Hfd).
  assert (entry s2 fd = Some c') as -> by (pose proof (Hent fd Hfd) as Hx; rewrite decide_True in Hx by done; exact Hx).
  unfold managed. change (m_isClosed c') with (m_isClosed c). change (m_isSocket c') with (m_isSocket c). rewrite Hc, Hs.
  cbn [orb negb]. change (m_userNonblock c') with (has_bit arg O_NONBLOCK).
  eexists _, s2. split; [reflexivity|]. split; [done|]. rewrite Ek2. simpl fst. destruct (has_bit arg O_NONBLOCK).
  - split; [apply has_bit_lor|]. apply Z.bits_inj'. intros i Hi. rewrite !Z.ldiff_spec, Z.lor_spec.
    by destruct (Z.testbit n2 i), (Z.testbit O_NONBLOCK i).
  - split; [apply has_bit_ldiff|]. apply Z.bits_inj'. intros i Hi. rewrite !Z.ldiff_spec.
    by destruct (Z.testbit n2 i), (Z.testbit O_NONBLOCK i).
Qed.

(** * Calls that pass through *)

(** When a hooked call is the plain call: with hooks disabled, on a
    descriptor the table does not know, on one that is no socket or that its
    user made nonblocking, the original function is called once with the same
    arguments, its answer is returned and nothing else changes; on a closed
    one nothing is called and the answer is -1 with EBADF. *)
Theorem do_io_direct en sc fb fuel name fd ev so args now addr info s : 0 <= fd ->
  (en = false \/ match entry s fd with
     | None => True
     | Some c => m_isClosed c = false /\ (m_isSocket c = false \/ m_userNonblock c = true) end ->
   exists n e k, sys_call (SysIo name fd args) (h_k s) = (n, e, k) /\
     do_io en sc fb fuel name fd ev so args now addr info s =
       (Ret (Returned n), mkHW (h_iom s) (h_fds s) (h_infos s) (default (h_errno s) e) k (h_calls s ++ [SysIo name fd args]))) /\
  (forall c, en = true -> entry s fd = Some c -> m_isClosed c = true ->
   do_io en sc fb fuel name fd ev so args now addr info s =
     (Ret (Returned (-1)), mkHW (h_iom s) (h_fds s) (h_infos s) EBADF (h_k s) (h_calls s))).
Proof.
  intros Hfd. split.
  - intros H. destruct (call_eq (SysIo name fd args) s) as (n & e & k & Ek & E). exists n, e, k. split; [done|].
    unfold do_io. destruct en; cbn [negb]; [|by run E]. run (fd_get_found s fd Hfd).
    destruct H as [?|H]; [done|]. destruct (entry s fd) as [c|]; [|by run E]. destruct H as [-> H].
    assert (negb (m_isSocket c) || m_userNonblock c = true) as -> by (destruct H as [-> | ->]; [done|apply orb_true_r]).
    by run E.
  - intros c -> He Hc. unfold do_io. cbn [negb]. run (fd_get_found s fd Hfd). by rewrite He, Hc.
Qed.

(** * Calls that wait *)

(** The original call was interrupted [m] times and then answered [n]. *)
Inductive attempts (x : syscall) : nat -> hworld K -> Z -> hworld K -> Prop :=
| attempts_last s n s' : call x s = (Ret n, s') -> (n =? -1) && (h_errno s' =? EINTR) = false -> attempts x 0 s n s'
| attempts_again m s s1 n s' : call x s = (Ret (-1), s1) -> h_errno s1 = EINTR -> attempts x m s1 n s' ->
    attempts x (S m) s n s'.

Lemma retry_eintr_run x m s n s' fuel : attempts x m s n s' -> (m < fuel)%nat -> retry_eintr fuel x s = (Ret n, s').
Proof.
  intros H. revert fuel. induction H as [s n s' E Hn|m s s1 n s' E He H IH]; intros [|fuel] Hf; try lia; cbn [retry_eintr].
  - run E. run_pure. unfold id. by rewrite Hn.
  - run E. run_pure. unfold id. rewrite He. simpl. apply IH. lia.
Qed.

Lemma attempts_frame x m s n s' : attempts x m s n s' ->
  h_iom s' = h_iom s /\ h_fds s' = h_fds s /\ h_infos s' = h_infos s /\ h_calls s' = h_calls s ++ replicate (S m) x.
Proof.
  assert (forall s n s', call x s = (Ret n, s') -> h_iom s' = h_iom s /\ h_fds s' = h_fds s /\ h_infos s' = h_infos s /\
    h_calls s' = h_calls s ++ [x]) as Hc.
  { intros s0 n0 s0' E. destruct (call_eq x s0) as (n1 & e & k & _ & E'). rewrite E in E'. by injection E' as _ ->. }
  induction 1 as [s n s' E _|m s s1 n s' E _ _ (I1 & I2 & I3 & I4)]; destruct (Hc _ _ _ E) as (E1 & E2 & E3 & E4).
  - done.
  - rewrite I1, I2, I3, I4, E1, E2, E3, E4. split_and!; try done. rewrite <- app_assoc. done.
Qed.

Lemma io_wf_base io b : io_wf io -> io_wf (with_base b io).
Proof. intros [H1 H2 H3 H4 H5 H6]. by split. Qed.
Lemma grow_base fd io : m_base (grow_for fd io) = m_base io /\ m_scheduled (grow_for fd io) = m_scheduled io.
Proof. unfold grow_for. by destruct (_ <? _). Qed.

(** A fiber waits in a call: its event is registered, the timer_info is
    untouched, and the timer, if the descriptor has a timeout, is armed. *)
Record waits (sc fb : nat) s (fr : io_frame) (timer : option nat) : Prop := {
  w_event : is_event (fr_event fr);
  w_info : h_infos s !! fr_info fr = Some 0;
  w_iom : exists io, h_iom s = Some io /\ io_wf io /\ timers_wf (m_base io) /\ 0 <= fr_fd fr /\
    (exists x, m_fdContexts io !! Z.to_nat (fr_fd fr) = Some x /\ has x (fr_event fr) = true /\
       slot (fr_event fr) x = mkEventContext (Some sc) (Some fb) None) /\
    (forall a, timer = Some a -> exists t, m_heap (m_base io) !! a = Some t)
}.

Lemma add_timer_run s io fr now addr : h_iom s = Some io -> timers_wf (m_base io) -> m_heap (m_base io) !! addr = None ->
  exists b, timers_wf b /\
    (if fr_to fr =? no_timeout then mret None else
      a ← iom (lift_base (addConditionTimer addr now (fr_to fr)
        (HookTimeout (fr_info fr) (fr_fd fr) (fr_event fr)) (fr_info fr) false));
      mret (Some a)) s =
    (Ret (if fr_to fr =? no_timeout then None else Some addr), with_iom (Some (with_base b io)) s) /\
    (if fr_to fr =? no_timeout then b = m_base io else
       m_heap b !! addr = Some (new_Timer now (fr_to fr)
         (Some (OnTimer (fr_info fr) (HookTimeout (fr_info fr) (fr_fd fr) (fr_event fr)))) false) /\ addr ∈ m_timers b).
Proof.
  intros Hi Hb Ha. destruct (fr_to fr =? no_timeout).
  - exists (m_base io). split; [done|]. split; [|done]. destruct io, s; simpl in *; by subst.
  - destruct (addTimer_spec (m_base io) addr now (fr_to fr)
      (Some (OnTimer (fr_info fr) (HookTimeout (fr_info fr) (fr_fd fr) (fr_event fr)))) false Hb Ha) as (l1 & l2 & El & E & W).
    unfold post in W. rewrite E in W. eexists. split; [exact W|]. split.
    + erewrite bind_ret; [reflexivity|]. unfold iom. rewrite Hi. unfold lift_base, addConditionTimer. by rewrite E.
    + simpl. rewrite lookup_insert_eq. split; [done|]. set_solver.
Qed.

(** What the frame of a call is. *)
Lemma do_io_enter sc fb fuel name fd ev so args now addr info s c : 0 <= fd -> entry s fd = Some c ->
  m_isClosed c = false -> m_isSocket c = true -> m_userNonblock c = false ->
  do_io true sc fb fuel name fd ev so args now addr info s =
  do_io_retry sc fb fuel (mkFrame name fd args ev (getTimeout so c) info) now addr
    (with_infos (<[info := 0]> (h_infos s)) s).
Proof.
  intros Hfd He Hc Hs Hu. unfold do_io. cbn [negb]. run (fd_get_found s fd Hfd). rewrite He, Hc, Hs, Hu. cbn [orb negb].
  by run_pure.
Qed.

(** A call that would block waits. On a socket of the table that is
    blocking for its user, when the system answers EAGAIN (after any number of
    interruptions): the fiber is registered for the event of the descriptor, a
    timer for the descriptor's timeout is armed if it has one, nothing is
    returned yet, and the managers stay consistent. When the event cannot be
    registered the call returns -1 and leaves no armed timer. *)
Theorem do_io_blocks sc fb fuel fr now addr m s s1 io : attempts (SysIo (fr_name fr) (fr_fd fr) (fr_args fr)) m s (-1) s1 ->
  (m < fuel)%nat -> h_errno s1 = EAGAIN -> h_infos s !! fr_info fr = Some 0 -> 1 <= fr_fd fr -> is_event (fr_event fr) ->
  h_iom s = Some io -> io_wf io -> timers_wf (m_base io) -> m_heap (m_base io) !! addr = None ->
  (forall x, m_fdContexts (grow_for (fr_fd fr) io) !! Z.to_nat (fr_fd fr) = Some x -> has x (fr_event fr) = false) ->
  exists r s2, do_io_retry sc fb fuel fr now addr s = (Ret r, s2) /\ h_calls s2 = h_calls s1 /\
    match r with
    | Blocked fr' timer => fr' = fr /\ waits sc fb s2 fr timer /\
        timer = (if fr_to fr =? no_timeout then None else Some addr) /\
        (forall io2, h_iom s2 = Some io2 -> m_scheduled io2 = m_scheduled io /\
          (timer = Some addr -> m_heap (m_base io2) !! addr = Some (new_Timer now (fr_to fr)
             (Some (OnTimer (fr_info fr) (HookTimeout (fr_info fr) (fr_fd fr) (fr_event fr)))) false)))
    | Returned n => n = -1 /\ h_infos s2 !! fr_info fr = None /\
        forall io2, h_iom s2 = Some io2 -> io_wf io2 /\ timers_wf (m_base io2) /\ m_scheduled io2 = m_scheduled io /\
          (forall t, m_heap (m_base io2) !! addr = Some t -> m_cb t = None)
    end.
Proof.
  intros Hat Hfuel He Hinfo Hfd Hev Hi Hw Ht Ha Hfree. destruct (attempts_frame _ _ _ _ _ Hat) as (F1 & F2 & F3 & F4).
  unfold do_io_retry. run (retry_eintr_run _ _ _ _ _ fuel Hat Hfuel). run_pure. unfold id. rewrite He. cbn [Z.eqb Pos.eqb andb EAGAIN].
  destruct (add_timer_run s1 io fr now addr) as (b & Wb & E & Hb); [congruence|done|done|]. run E.
  set (io1 := with_base b io). set (timer := if fr_to fr =? no_timeout then None else Some addr) in *.
  pose proof (io_wf_base io b Hw) as W1. fold io1 in W1. destruct (wf_grow_for (fr_fd fr) io1 W1 Hfd) as [W2 [c Hc]].
  pose proof (addEvent_spec io1 (fr_fd fr) (fr_event fr) sc fb true None c W1 Hfd Hev Hc) as HA. cbv zeta in HA.
  assert (has c (fr_event fr) = false) as Hh.
  { apply Hfree. unfold grow_for in Hc |- *. change (m_fdContexts io1) with (m_fdContexts io) in Hc.
    destruct (fr_fd fr <? Z.of_nat (length (m_fdContexts io))); exact Hc. }
  rewrite Hh in HA. destruct (grow_base (fr_fd fr) io1) as [Gb Gs].
  destruct (epoll_ctl _ _ _ _) as [k|].
  - destruct HA as [W3 R]. erewrite bind_ret; [|unfold iom; cbn [h_iom with_iom]; fold io1; rewrite R; reflexivity]. cbv beta.
    set (io2 := after_add _ _ _ _ _ _) in *. cbn [Z.eqb negb]. eexists _, _. split; [reflexivity|]. split; [done|].
    split; [done|]. split; [|split; [done|]].
    + split; [done|by rewrite <- F3 in Hinfo|]. exists io2. split_and!; try done; [by unfold io2; simpl; rewrite Gb|lia| |].
      * eexists. split; [unfold io2; simpl; rewrite list_lookup_insert_eq; [reflexivity|by eapply lookup_lt_Some]|].
        destruct (wf_ctx _ W2 _ _ Hc) as [_ Hz _]. unfold has, slot in *.
        destruct Hev as [Ev|Ev]; rewrite Ev in *; simpl in *; destruct Hz as [Hz|[Hz|[Hz|Hz]]]; rewrite Hz in *; done.
      * intros a Hta. unfold io2. simpl. rewrite Gb. unfold io1. simpl. unfold timer in Hta.
        destruct (fr_to fr =? no_timeout); [done|]. injection Hta as <-. destruct Hb as [-> _]. eauto.
    + intros io2' [= <-]. unfold io2. simpl. rewrite Gb, Gs. split; [done|]. intros Hta. unfold timer in Hta.
      destruct (fr_to fr =? no_timeout); [done|]. apply Hb.
  - erewrite bind_ret; [|unfold iom; cbn [h_iom with_iom]; fold io1; rewrite HA; reflexivity]. cbv beta. cbn [Z.eqb negb].
    set (io2 := grow_for (fr_fd fr) io1) in *.
    assert (exists io3 s3, cancel_timer timer (with_iom (Some io2) (with_iom (Some io1) s1)) = (Ret tt, s3) /\
      h_iom s3 = Some io3 /\ io_wf io3 /\ timers_wf (m_base io3) /\ m_scheduled io3 = m_scheduled io /\ h_calls s3 = h_calls s1 /\
      (forall t, m_heap (m_base io3) !! addr = Some t -> m_cb t = None)) as (io3 & s3 & E3 & S1 & S2 & S3 & S4 & S5 & S6).
    { unfold timer in *. destruct (fr_to fr =? no_timeout).
      - subst b. exists io2. eexists. split; [reflexivity|]. split_and!; try done; [by rewrite Gb|].
        rewrite Gb. unfold io1. simpl. intros t. by rewrite Ha.
      - destruct Hb as [Hb1 Hb2]. destruct (cancel_spec b addr _ Wb Hb1) as [Ec Wc]. unfold post in Wc. rewrite Ec in Wc.
        cbn [cancel_timer]. eexists _, _. split.
        { erewrite bind_ret; [reflexivity|]. unfold iom. cbn [h_iom with_iom]. unfold lift_base. rewrite Gb. unfold io1 at 1. simpl m_base.
          rewrite Ec. reflexivity. }
        split; [reflexivity|]. split_and!; try done; [by apply io_wf_base|].
        simpl. rewrite lookup_insert_eq. by intros t [= <-]. }
    run E3. unfold io_return. run_pure. eexists _, _. split; [reflexivity|]. split; [done|]. split; [done|].
    split; [simpl; apply lookup_delete_eq|]. cbn [h_iom with_infos]. rewrite S1. intros io2' [= <-]. done.
Qed.

Lemma cancel_timer_run s io timer : h_iom s = Some io -> io_wf io -> timers_wf (m_base io) ->
  (forall a, timer = Some a -> exists t, m_heap (m_base io) !! a = Some t) ->
  exists b, cancel_timer timer s = (Ret tt, with_iom (Some (with_base b io)) s) /\ timers_wf b /\
    forall a, timer = Some a -> exists t, m_heap b !! a = Some t /\ m_cb t = None.
Proof.
  intros Hi Hw Ht Ha. destruct timer as [a|]; cbn [cancel_timer].
  - destruct (Ha a eq_refl) as [t Hta]. destruct (cancel_spec _ a t Ht Hta) as [E W]. unfold post in W.
    destruct (Timer_cancel a (m_base io)) as [r b] eqn:Ec. exists b. assert (exists x, r = Ret x) as [x ->].
    { destruct (m_cb t); injection E as -> _; eauto. }
    split; [erewrite bind_ret; [reflexivity|]; unfold iom; rewrite Hi; unfold lift_base; by rewrite Ec|]. split; [done|].
    intros a' [= <-]. destruct (m_cb t) eqn:Em; injection E as _ ->.
    + simpl. rewrite lookup_insert_eq. eauto.
    + eauto.
  - exists (m_base io). split; [destruct s, io; simpl in *; by subst|]. done.
Qed.

(** C28: A call that waits ends when its timeout passes. When the timer's
    function runs, the fiber is handed to its scheduler exactly once; resumed,
    the call returns -1 with ETIMEDOUT without calling the original function
    again, its timer is disarmed, and the timer's function run once more does
    nothing. *)
Theorem do_io_times_out sc fb fuel fr timer now addr s io x k : waits sc fb s fr timer -> h_iom s = Some io ->
  m_fdContexts io !! Z.to_nat (fr_fd fr) = Some x ->
  (let z := Z.land (events x) (Z.lnot (fr_event fr)) in
   epoll_ctl (m_epoll io) (left_op z) (Z.to_nat (fr_fd fr)) (Z.lor EPOLLET z) = Some k) ->
  exists s2 io2 s3 io3, timeout_fn (fr_info fr) (fr_fd fr) (fr_event fr) s = (Ret tt, s2) /\
    h_iom s2 = Some io2 /\ m_scheduled io2 = m_scheduled io ++ [(sc, TaskFiber fb)] /\
    do_io_resume sc fb fuel fr timer now addr s2 = (Ret (Returned (-1)), s3) /\
    h_errno s3 = ETIMEDOUT /\ h_calls s3 = h_calls s /\ h_iom s3 = Some io3 /\ io_wf io3 /\ timers_wf (m_base io3) /\
    (forall a, timer = Some a -> exists t, m_heap (m_base io3) !! a = Some t /\ m_cb t = None) /\
    m_scheduled io3 = m_scheduled io2 /\
    timeout_fn (fr_info fr) (fr_fd fr) (fr_event fr) s3 = (Ret tt, s3).
Proof.
  intros [Hev Hinfo (io' & Hi' & Hw & Ht & Hfd & (x' & Hx' & Hh & Hslot) & Htm)] Hi Hx Hk.
  rewrite Hi in Hi'. injection Hi' as <-. rewrite Hx in Hx'. injection Hx' as <-.
  pose proof (withdraw_spec io _ x (fr_event fr) Hw Hx Hev Hh) as HW. cbv zeta in HW, Hk. rewrite Hk in HW.
  destruct HW as (_ & _ & R & W). rewrite Z2Nat.id in R by done. set (io2 := after_fire _ _ _ _ _) in *.
  assert (m_scheduled io2 = m_scheduled io ++ [(sc, TaskFiber fb)]) as Hsch.
  { unfold io2. simpl. destruct (clear_event_mask (fr_event fr) x Hev) as (_ & -> & _). unfold fired. by rewrite Hslot. }
  unfold timeout_fn at 1. run_pure. unfold id. rewrite Hinfo. cbn [Z.eqb negb]. run_pure.
  erewrite bind_ret; [|unfold iom; cbn [h_iom with_infos]; rewrite Hi, R; reflexivity]. cbv beta.
  set (s2 := with_iom (Some io2) _). exists s2, io2.
  destruct (cancel_timer_run s2 io2 timer eq_refl W) as (b & E & Wb & Hb); [exact Ht|exact Htm|].
  unfold do_io_resume. run E. run_pure. unfold id.
  set (s2' := with_iom (Some (with_base b io2)) s2).
  assert (h_infos s2' !! fr_info fr = Some ETIMEDOUT) as Hc by (simpl; apply lookup_insert_eq).
  erewrite (bind_ret (of_option _ _)); [|rewrite Hc; reflexivity]. cbv beta.
  cbn [Z.eqb Pos.eqb negb ETIMEDOUT]. unfold set_errno, io_return. run_pure. eexists _, (with_base b io2).
  split; [reflexivity|]. split; [reflexivity|]. split; [done|]. split; [reflexivity|].
  split_and!; try done; [by apply io_wf_base|].
  unfold timeout_fn. run_pure. unfold id. cbn [h_infos with_infos]. by rewrite lookup_delete_eq.
Qed.

(** A call that is resumed because its event fired tries again: its timer
    is disarmed first, so that it can no longer cancel anything, and then the
    original function is called as from the beginning. *)
Theorem do_io_retries sc fb fuel fr timer now addr s io : h_iom s = Some io -> io_wf io -> timers_wf (m_base io) ->
  h_infos s !! fr_info fr = Some 0 -> (forall a, timer = Some a -> exists t, m_heap (m_base io) !! a = Some t) ->
  exists b, do_io_resume sc fb fuel fr timer now addr s =
      do_io_retry sc fb fuel fr now addr (with_iom (Some (with_base b io)) s) /\
    timers_wf b /\ forall a, timer = Some a -> exists t, m_heap b !! a = Some t /\ m_cb t = None.
Proof.
  intros Hi Hw Ht Hinfo Htm. destruct (cancel_timer_run s io timer Hi Hw Ht Htm) as (b & E & Wb & Hb).
  exists b. split; [|done]. unfold do_io_resume. run E. run_pure. unfold id.
  erewrite (bind_ret (of_option _ _)); [|cbn [h_infos with_iom]; rewrite Hinfo; reflexivity]. done.
Qed.
End props.

(** * Concrete instances *)

(** A system whose first answer to an input or output call is EINTR, the
    second EAGAIN, and where all descriptors are sockets. *)
Definition toy_call (x : syscall) (k : nat) : Z * option Z * nat :=
  match x, k with
  | SysIo _ _ _, 0%nat => (-1, Some EINTR, 1%nat)
  | SysIo _ _ _, 1%nat => (-1, Some EAGAIN, 2%nat)
  | SysIo _ _ _, _ => (5, None, S k)
  | SysFcntl _ _ _, _ => (2, None, k)
  | _, _ => (0, None, k)
  end.
#[local] Instance toy_kernel : Kernel nat := {| sys_call := toy_call; sys_fstat := fun _ _ => Some true; sys_so_error := fun _ _ => 0 |}.

Definition toy_world : hworld nat := mkHW (Some (new_IOManager 3 100)) new_FdManager ∅ 0 0%nat [].
(** Descriptor 6 with a receive timeout of 5 ms. *)
Definition toy_socket : hworld nat :=
  post (fd_get 6 true;; hook_setsockopt true 6 SOL_SOCKET SO_RCVTIMEO 0 5000) toy_world.
Definition toy_frame : io_frame := mkFrame "recv" 6 [] READ 5 1.
Definition toy_entered : hworld nat := with_infos (<[1%nat := 0]> (h_infos toy_socket)) toy_socket.

Lemma toy_timers_wf : timers_wf (new_TimerManager (F := hook_fn) 100).
Proof. apply reachable_wf, reach_new. Qed.

Lemma fd_table_witness : exists ctx s', fd_get 200 true toy_world = (Ret (Some ctx), s') /\ entry s' 200 = Some ctx.
Proof.
  destruct (fd_table toy_world 200 ltac:(vm_compute; lia)) as (_ & H & _).
  destruct (H ltac:(lia)) as (ctx & s' & E & _ & _ & H' & _). exists ctx, s'. split; [exact E|exact H'].
Defined.

Lemma fcntl_keeps_user_flag_witness : exists r s1, hook_fcntl 6 F_SETFL 0 toy_socket = (Ret r, s1) /\
  exists r2 s2, hook_fcntl 6 F_GETFL 0 s1 = (Ret r2, s2) /\ has_bit r2 O_NONBLOCK = false.
Proof.
  destruct (fcntl_keeps_user_flag toy_socket 6 0 (mkFdCtx true true true false false 6 5 no_timeout))
    as (r & s1 & E & _ & _ & _ & r2 & s2 & E2 & _ & H & _); [lia|vm_compute; reflexivity..|].
  exists r, s1. split; [exact E|]. exists r2, s2. split; [exact E2|exact H].
Defined.

Lemma do_io_direct_witness : exists s', do_io true 0 1 9 "read" 7 READ SO_RCVTIMEO [] 100 9 1 toy_socket = (Ret (Returned (-1)), s').
Proof.
  destruct (do_io_direct true 0 1 9 "read" 7 READ SO_RCVTIMEO [] 100 9 1 toy_socket ltac:(lia)) as [H _].
  destruct H as (n & e & k & E & R); [right; vm_compute; exact I|]. vm_compute in E. injection E as <- _ _.
  eexists. exact R.
Defined.

Lemma do_io_blocks_witness : exists s2,
  do_io_retry 0 1 9 toy_frame 100 9 toy_entered = (Ret (Blocked toy_frame (Some 9%nat)), s2) /\
  waits 0 1 s2 toy_frame (Some 9%nat).
Proof.
  destruct (do_io_blocks 0 1 9 toy_frame 100 9 1 toy_entered (post (retry_eintr 9 (SysIo "recv" 6 [])) toy_entered) (new_IOManager 3 100))
    as (r & s2 & E & _ & H).
  - eapply attempts_again; [vm_compute; reflexivity|reflexivity|]. apply attempts_last; vm_compute; reflexivity.
  - lia.
  - vm_compute. reflexivity.
  - vm_compute. reflexivity.
  - simpl. lia.
  - by left.
  - vm_compute. reflexivity.
  - apply wf_new_IOManager.
  - apply toy_timers_wf.
  - vm_compute. reflexivity.
  - intros x Hx. vm_compute in Hx. injection Hx as <-. reflexivity.
  - assert (out (do_io_retry 0 1 9 toy_frame 100 9) toy_entered = Ret (Blocked toy_frame (Some 9%nat))) as Er
      by (vm_compute; reflexivity).
    unfold out in Er. rewrite E in Er. injection Er as ->. exists s2. split; [exact E|]. apply H.
Defined.

(** The state in which the fiber waits. *)
Definition toy_waiting : hworld nat := post (do_io_retry 0 1 9 toy_frame 100 9) toy_entered.
Definition toy_io : IOManager hook_fn :=
  post (addEvent 0 1 true 6 READ None)
    (with_base (post (addConditionTimer 9 100 5 (HookTimeout 1 6 READ) 1 false) (new_TimerManager 100)) (new_IOManager 3 100)).

Lemma toy_io_wf : io_wf toy_io /\ timers_wf (m_base toy_io).
Proof.
  destruct (addTimer_spec (new_TimerManager 100) 9 100 5 (Some (OnTimer 1 (HookTimeout 1 6 READ))) false toy_timers_wf eq_refl)
    as (l1 & l2 & _ & _ & W).
  set (io1 := with_base (post (addConditionTimer 9 100 5 (HookTimeout 1 6 READ) 1 false) (new_TimerManager 100)) (new_IOManager 3 100)).
  assert (io_wf io1) as W1 by (apply io_wf_base, wf_new_IOManager).
  destruct (io_exec_ok (AddEvent 0 1 true 6 READ None) io1 W1) as (s' & E & W').
  { split_and!; [by left|by right|]. intros c Hc. vm_compute in Hc. by simplify_eq. }
  assert (s' = toy_io) as ->.
  { simpl in E. destruct (addEvent 0 1 true 6 READ None io1) as [r s''] eqn:Ea.
    assert (toy_io = s'') as -> by (unfold toy_io; fold io1; unfold post; by rewrite Ea).
    unfold mbind, prog_bind in E. rewrite Ea in E. destruct r as [z|e|f]; [|done|done].
    unfold mret, prog_ret in E. congruence. }
  split; [done|]. exact W.
Qed.

Lemma toy_waits : waits 0 1 toy_waiting toy_frame (Some 9%nat).
Proof.
  split; [by left|vm_compute; reflexivity|]. exists toy_io. split; [vm_compute; reflexivity|].
  split; [apply toy_io_wf|]. split; [apply toy_io_wf|]. split; [simpl; lia|]. split.
  - eexists. split; [vm_compute; reflexivity|]. split; vm_compute; reflexivity.
  - intros a [= <-]. eexists. vm_compute. reflexivity.
Qed.

Lemma do_io_times_out_witness : exists s2 s3, timeout_fn 1 6 READ toy_waiting = (Ret tt, s2) /\
  do_io_resume 0 1 9 toy_frame (Some 9%nat) 200 10 s2 = (Ret (Returned (-1)), s3) /\ h_errno s3 = ETIMEDOUT.
Proof.
  destruct (do_io_times_out 0 1 9 toy_frame (Some 9%nat) 200 10 toy_waiting toy_io
    (mkFdContext (mkEventContext (Some 0%nat) (Some 1%nat) None) no_context 6 1)
    (delete 6%nat (m_epoll toy_io)) toy_waits) as (s2 & io2 & s3 & io3 & E1 & _ & _ & E2 & E3 & _);
    [vm_compute; reflexivity..|].
  exists s2, s3. split; [exact E1|]. split; [exact E2|exact E3].
Defined.

Lemma do_io_retries_witness : exists s', do_io_resume 0 1 9 toy_frame (Some 9%nat) 101 10 toy_waiting = (Ret (Returned 5), s').
Proof.
  destruct (do_io_retries 0 1 9 toy_frame (Some 9%nat) 101 10 toy_waiting toy_io) as (b & E & _);
    [vm_compute; reflexivity|apply toy_io_wf|apply toy_io_wf|vm_compute; reflexivity|
     intros a [= <-]; eexists; vm_compute; reflexivity|].
  rewrite E. eexists. vm_compute. reflexivity.
Defined.

(** [sleep(4320000)], fifty days, sets a timer of seven hours. *)
Lemma long_sleep_wraps : (io ← h_iom (post (hook_sleep true 1 9 100 4320000) toy_world); m_ms <$> m_heap (m_base io) !! 9%nat) = Some 25032704.
Proof. vm_compute. reflexivity. Qed.
