(* ===== verification/Socket.v ===== *)
(** [sherry/socket.h], [sherry/socket.cc] (class [Socket]; the rest of
    it, and the OpenSSL variant, are in [SslSocket]).

    The system calls are the interface [OS]. A socket is run in a state
    [sockst]: the object, the system, and two lists that record the
    descriptors [socket]/[accept] gave and [::close] got, in order. Log
    messages are left out. *)

From stdpp Require Import base list strings.
From coqutil Require Import Byte.
From S2P Require Import Prelude MachineInt Address Hook.
From Stdlib Require Import ZArith Lia.
Local Open Scope Z_scope.

Definition SOCK_STREAM : Z := 1.
Definition SOCK_DGRAM : Z := 2.
Definition SO_REUSEADDR : Z := 2.
Definition IPPROTO_TCP : Z := 6.
Definition TCP_NODELAY : Z := 1.
Definition SOMAXCONN : Z := 4096.

(** What the code calls of the system. [os_name peer fd] is [getpeername] or
    [getsockname] into an address of the family: the address and length it
    stores, if it succeeds; [os_fdctx fd] is [FdMgr::get(fd)]: whether the
    descriptor is known, is a socket and is open. *)
Class OS (W : Type) : Type := {
  os_socket : Z -> Z -> Z -> W -> Z * W;
  os_accept : Z -> W -> Z * W;
  os_bind : Z -> Address -> W -> Z * W;
  os_connect : Z -> Address -> option Z -> W -> Z * W;
  os_listen : Z -> Z -> W -> Z * W;
  os_close : Z -> W -> W;
  os_send : Z -> list byte -> W -> Z * W;
  os_recv : Z -> nat -> W -> (Z * list byte) * W;
  os_setsockopt : Z -> Z -> Z -> list Z -> W -> Z * W;
  os_name : bool -> Z -> Z -> W -> option (Address * Z) * W;
  os_fdctx : Z -> W -> bool
}.

Record Socket : Type := mkSocket {
  m_sock : Z;
  m_family : Z;
  m_type : Z;
  m_protocol : Z;
  m_isConnected : bool;
  m_localAddress : option Address;
  m_remoteAddress : option Address
}.

Record sockst (W : Type) : Type := mkSockst { sk : Socket; sk_os : W; sk_opened : list Z; sk_closed : list Z }.
Arguments mkSockst {W} sk sk_os sk_opened sk_closed. Arguments sk {W} s. Arguments sk_os {W} s.
Arguments sk_opened {W} s. Arguments sk_closed {W} s.

Definition new_Socket (family type protocol : Z) : Socket := mkSocket (-1) family type protocol false None None.

Section socket.
Context {W : Type} {os : OS W}.
Abbreviation M := (prog (sockst W)).

Definition upd (f : Socket -> Socket) : M unit := modify (fun s => mkSockst (f (sk s)) (sk_os s) (sk_opened s) (sk_closed s)).
Definition set_sock (v : Z) (k : Socket) : Socket := mkSocket v (m_family k) (m_type k) (m_protocol k) (m_isConnected k) (m_localAddress k) (m_remoteAddress k).
Definition set_connected (v : bool) (k : Socket) : Socket := mkSocket (m_sock k) (m_family k) (m_type k) (m_protocol k) v (m_localAddress k) (m_remoteAddress k).
Definition set_local (v : option Address) (k : Socket) : Socket := mkSocket (m_sock k) (m_family k) (m_type k) (m_protocol k) (m_isConnected k) v (m_remoteAddress k).
Definition set_remote (v : option Address) (k : Socket) : Socket := mkSocket (m_sock k) (m_family k) (m_type k) (m_protocol k) (m_isConnected k) (m_localAddress k) v.

(** A call of the system on the socket's descriptor. *)
Definition sys {A} (f : Z -> W -> A * W) : M A := fun s =>
  let '(a, w) := f (m_sock (sk s)) (sk_os s) in (Ret a, mkSockst (sk s) w (sk_opened s) (sk_closed s)).
Definition opened (fd : Z) : M unit :=
  modify (fun s => if fd =? -1 then s else mkSockst (sk s) (sk_os s) (sk_opened s ++ [fd]) (sk_closed s)).

Definition isValid (k : Socket) : bool := negb (m_sock k =? -1).
Definition isConnected (k : Socket) : bool := m_isConnected k.

Definition setOption (level option : Z) (value : list Z) : M bool :=
  rt ← sys (fun fd => os_setsockopt fd level option value);
  mret (rt =? 0).

(** [setRecvTimeout], [setSendTimeout]: a [timeval] of milliseconds. *)
Definition setRecvTimeout (v : Z) : M unit :=
  setOption SOL_SOCKET SO_RCVTIMEO [sint 32 (v ÷ 1000); sint 32 (Z.rem v 1000 * 1000)];; mret tt.
Definition setSendTimeout (v : Z) : M unit :=
  setOption SOL_SOCKET SO_SNDTIMEO [sint 32 (v ÷ 1000); sint 32 (Z.rem v 1000 * 1000)];; mret tt.

Definition initSock : M unit :=
  setOption SOL_SOCKET SO_REUSEADDR [1];;
  k ← gets sk;
  if m_type k =? SOCK_STREAM then setOption IPPROTO_TCP TCP_NODELAY [1];; mret tt else mret tt.

Definition newSock : M unit :=
  k ← gets sk;
  fd ← sys (fun _ => os_socket (m_family k) (m_type k) (m_protocol k));
  opened fd;;
  upd (set_sock fd);;
  if fd =? -1 then mret tt else initSock.

(** [getRemoteAddress], [getLocalAddress]: cached; the object is made by the
    family, and a Unix address takes the length the system gives. *)
Definition name_result (family : Z) (r : Address * Z) : Address :=
  if family =? AF_UNIX then setAddrLen (snd r) (fst r) else fst r.
Definition getRemoteAddress : M Address :=
  k ← gets sk;
  match m_remoteAddress k with
  | Some a => mret a
  | None =>
      r ← sys (fun fd => os_name true fd (m_family k));
      match r with
      | None => mret (new_UnknownAddress (m_family k))
      | Some x => upd (set_remote (Some (name_result (m_family k) x)));; mret (name_result (m_family k) x)
      end
  end.
Definition getLocalAddress : M Address :=
  k ← gets sk;
  match m_localAddress k with
  | Some a => mret a
  | None =>
      r ← sys (fun fd => os_name false fd (m_family k));
      match r with
      | None => mret (new_UnknownAddress (m_family k))
      | Some x => upd (set_local (Some (name_result (m_family k) x)));; mret (name_result (m_family k) x)
      end
  end.

Definition init (sock : Z) : M bool :=
  s ← gets id;
  if os_fdctx sock (sk_os s) then
    upd (set_sock sock);; upd (set_connected true);;
    initSock;; getLocalAddress;; getRemoteAddress;; mret true
  else mret false.

Definition close : M bool :=
  k ← gets sk;
  if negb (m_isConnected k) && (m_sock k =? -1) then mret true else
  upd (set_connected false);;
  (if m_sock k =? -1 then mret tt else
     modify (fun s => mkSockst (set_sock (-1) (sk s)) (os_close (m_sock k) (sk_os s)) (sk_opened s) (sk_closed s ++ [m_sock k])));;
  mret false.

(** [accept]: run on the listening socket; the new object has its own state,
    and is destroyed, without a descriptor, when [init] fails. *)
Definition accept : M (option Socket) :=
  k ← gets sk;
  newsock ← sys os_accept;
  opened newsock;;
  if newsock =? -1 then mret None else
  fun s =>
    let s0 := mkSockst (new_Socket (m_family k) (m_type k) (m_protocol k)) (sk_os s) (sk_opened s) (sk_closed s) in
    let '(r, s1) := init newsock s0 in
    match r with
    | Ret b => (Ret (if b then Some (sk s1) else None), mkSockst (sk s) (sk_os s1) (sk_opened s1) (sk_closed s1))
    | Throw e => (Throw e, s)
    | Crash f => (Crash f, s)
    end.

(** Makes the descriptor if there is none; whether there is one now. *)
Definition ensure_sock : M bool :=
  k ← gets sk;
  if isValid k then mret true else newSock;; k' ← gets sk; mret (isValid k').

Definition bind (addr : Address) : M bool :=
  valid ← ensure_sock;
  if negb valid then mret false else
  k ← gets sk;
  if negb (getFamily addr =? m_family k) then mret false else
  rt ← sys (fun fd => os_bind fd addr);
  if negb (rt =? 0) then mret false else
  getLocalAddress;; mret true.

Definition connect (addr : Address) (timeout_ms : Z) : M bool :=
  upd (set_remote (Some addr));;
  valid ← ensure_sock;
  if negb valid then mret false else
  k ← gets sk;
  if negb (getFamily addr =? m_family k) then mret false else
  rt ← sys (fun fd => os_connect fd addr (if timeout_ms =? no_timeout then None else Some timeout_ms));
  if negb (rt =? 0) then close;; mret false else
  upd (set_connected true);;
  getRemoteAddress;; getLocalAddress;; mret true.

Definition listen (backlog : Z) : M bool :=
  k ← gets sk;
  if negb (isValid k) then mret false else
  rt ← sys (fun fd => os_listen fd backlog);
  mret (rt =? 0).

(** [send]/[recv]; the variants on an [iovec] array move the same bytes
    through [sendmsg]/[recvmsg]. The [ssize_t] is returned as an [int]. *)
Definition send (data : list byte) : M Z :=
  k ← gets sk;
  if isConnected k then rt ← sys (fun fd => os_send fd data); mret (sint 32 rt) else mret (-1).
Definition recv (length : nat) : M (Z * list byte) :=
  k ← gets sk;
  if isConnected k then r ← sys (fun fd => os_recv fd length); mret (sint 32 (fst r), snd r) else mret (-1, []).

(** The factories: the object, and the descriptor for datagrams. *)
Definition CreateTCP (address : Address) : Socket := new_Socket (getFamily address) SOCK_STREAM 0.
Definition CreateTCPSocket : Socket := new_Socket AF_INET SOCK_STREAM 0.
Definition CreateUnixTCPSocket : Socket := new_Socket AF_UNIX SOCK_STREAM 0.
Definition CreateUnixUDPSocket : Socket := new_Socket AF_UNIX SOCK_DGRAM 0.
(** [CreateUDP], [CreateUDPSocket]: what they do after the constructor. *)
Definition CreateUDP_init : M unit := newSock;; upd (set_connected true).

(** The destructor. *)
Definition destroy : M unit := close;; mret tt.
End socket.
