(* ===== verification/SslSocket.v ===== *)
(** [sherry/socket.cc], the rest of it: the transfers of datagrams and files
    and the cancelling of class [Socket], and class [SSLSocket].

    [OSMore] and [SSL] are the calls of the system and of OpenSSL.  An [SSL*]
    is known by the descriptor it was given with [SSL_set_fd]; the state of an
    [SSLSocket] is that of its [Socket] and the two pointers.  [x_wire] records
    what each [SSL_write] sent, and on which descriptor. *)

From stdpp Require Import base list strings.
From coqutil Require Import Byte.
From S2P Require Import Prelude MachineInt Address Hook Socket.
From Stdlib Require Import ZArith Lia.
Local Open Scope Z_scope.

(** * Datagrams, files, cancelling *)

Class OSMore (W : Type) : Type := {
  os_sendto : Z -> list byte -> Address -> W -> Z * W;
  os_sendfile : Z -> Z -> Z -> nat -> W -> (Z * Z) * W;   (* the result, the new offset *)
  os_recvfrom : Z -> nat -> W -> (Z * list byte * option Address) * W;
  os_getsockopt : Z -> Z -> Z -> W -> (Z * Z) * W;
  os_errno : W -> Z;
  fd_getTimeout : Z -> Z -> W -> option Z;   (* [FdMgr::get(fd)], then [getTimeout] *)
  io_cancelEvent : Z -> Z -> W -> bool * W;
  io_cancelAll : Z -> W -> bool * W
}.
Definition SO_ERROR : Z := 4.
Definition READ : Z := 1.
Definition WRITE : Z := 4.

Section socket.
Context {W : Type} {os : OS W} {om : OSMore W}.
Abbreviation M := (prog (sockst W)).

Definition sendTo (data : list byte) (to : Address) : M Z :=
  k ← gets sk; if isConnected k then rt ← sys (fun fd => os_sendto fd data to); mret (sint 32 rt) else mret (-1).
Definition sendFile (fileFd offset : Z) (length : nat) : M (Z * Z) :=
  k ← gets sk;
  if isConnected k then r ← sys (fun fd => os_sendfile fd fileFd offset length); mret (sint 32 (fst r), snd r) else mret (-1, offset).
(** The address that is filled in, where the system gives one. *)
Definition recvFrom (length : nat) (from : Address) : M (Z * list byte * Address) :=
  k ← gets sk;
  if isConnected k then
    r ← sys (fun fd => os_recvfrom fd length);
    mret (sint 32 (fst (fst r)), snd (fst r), default from (snd r))
  else mret (-1, [], from).
(** [getOption], and [getError], which falls back on [errno]. *)
Definition getOption (level option : Z) : M (bool * Z) :=
  r ← sys (fun fd => os_getsockopt fd level option); mret (fst r =? 0, snd r).
Definition getError : M Z :=
  r ← getOption SOL_SOCKET SO_ERROR;
  if fst r : bool then mret (snd r) else s ← gets (fun s => s); mret (os_errno (sk_os s)).

(** Milliseconds; -1 for a descriptor [FdMgr] does not know. *)
Definition getSendTimeout : M Z :=
  r ← sys (fun fd w => (fd_getTimeout fd SO_SNDTIMEO w, w)); mret (default (-1) r).
Definition getRecvTimeout : M Z :=
  r ← sys (fun fd w => (fd_getTimeout fd SO_RCVTIMEO w, w)); mret (default (-1) r).

Definition cancelRead : M bool := sys (fun fd => io_cancelEvent fd READ).
Definition cancelWrite : M bool := sys (fun fd => io_cancelEvent fd WRITE).
Definition cancelAccept : M bool := sys (fun fd => io_cancelEvent fd READ).
Definition cancelAll : M bool := sys io_cancelAll.
End socket.

(** [operator<<] of an [int]; [dump], with the name of the class ([toString] of
    an address may abort). *)
Definition dec_int (n : Z) : string := if n <? 0 then "-" +:+ dec (- n) else dec n.
Definition dump_address (label : string) (a : option Address) : outcome string :=
  match a with
  | None => Ret ""
  | Some a => match toString a with Ret t => Ret (label +:+ t) | Throw e => Throw e | Crash f => Crash f end
  end.
Definition dump_as (class : string) (k : Socket) : outcome string :=
  match dump_address " local_address=" (m_localAddress k) with
  | Ret l =>
      match dump_address " remote_address=" (m_remoteAddress k) with
      | Ret r => Ret ("[" +:+ class +:+ " sock=" +:+ dec_int (m_sock k) +:+ " is_connected=" +:+ (if m_isConnected k then "1" else "0") +:+
          " family=" +:+ dec_int (m_family k) +:+ " type=" +:+ dec_int (m_type k) +:+ " protocol=" +:+ dec_int (m_protocol k) +:+ l +:+ r +:+ "]")
      | Throw e => Throw e
      | Crash f => Crash f
      end
  | Throw e => Throw e
  | Crash f => Crash f
  end.
Definition dump : Socket -> outcome string := dump_as "Socket".
Definition ssl_dump : Socket -> outcome string := dump_as "SSLSocket".

(** The factories of [SSLSocket]: the object has no context yet. *)
Definition ssl_CreateTCP (address : Address) : Socket := new_Socket (getFamily address) SOCK_STREAM 0.
Definition ssl_CreateTCPSocket : Socket := new_Socket AF_INET SOCK_STREAM 0.
Definition ssl_CreateTCPSocket6 : Socket := new_Socket AF_INET6 SOCK_STREAM 0.

(** * SSL sockets *)

(** [ssl_certificates]: the context after loading the two files, and whether
    each of the three calls gave 1. *)
Class SSL (W : Type) : Type := {
  ssl_connect : Z -> W -> Z * W;
  ssl_accept : Z -> W -> Z * W;
  ssl_write : Z -> list byte -> W -> Z * W;
  ssl_read : Z -> nat -> W -> (Z * list byte) * W;
  ssl_chain_file : string -> W -> Z * W;
  ssl_key_file : string -> W -> Z * W;
  ssl_check_key : W -> Z * W
}.

Record sslst (W : Type) : Type := mkSsl { x_socket : sockst W; x_ctx : bool; x_ssl : option Z; x_wire : list (Z * list byte) }.
Arguments mkSsl {W}. Arguments x_socket {W}. Arguments x_ctx {W}. Arguments x_ssl {W}. Arguments x_wire {W}.

Section ssl.
Context {W : Type} {os : OS W} {ssl : SSL W}.
Abbreviation M := (prog (sslst W)).

(** A member function of the base class. *)
Definition base {A} (m : prog (sockst W) A) : M A := fun s =>
  let '(o, k) := m (x_socket s) in (o, mkSsl k (x_ctx s) (x_ssl s) (x_wire s)).
Definition on_world {A} (f : W -> A * W) : M A := base (fun k => let '(a, w) := f (sk_os k) in (Ret a, mkSockst (sk k) w (sk_opened k) (sk_closed k))).
Definition set_ctx : M unit := modify (fun s => mkSsl (x_socket s) true (x_ssl s) (x_wire s)).
(** [m_ssl.reset(SSL_new(m_ctx.get()))] and [SSL_set_fd]: without a context
    [SSL_new] gives a null pointer, which [SSL_set_fd] dereferences. *)
Definition new_ssl : M Z :=
  s ← gets (fun s => s);
  if x_ctx s then
    let fd := m_sock (sk (x_socket s)) in
    modify (fun s => mkSsl (x_socket s) (x_ctx s) (Some fd) (x_wire s));; mret fd
  else crash NullDeref.

Definition ssl_bind (addr : Address) : M bool := base (bind addr).
Definition ssl_listen (backlog : Z) : M bool := base (listen backlog).
Definition ssl_close : M bool := base close.
Definition ssl_sock_connect (addr : Address) (timeout_ms : Z) : M bool :=
  v ← base (connect addr timeout_ms);
  if v : bool then set_ctx;; fd ← new_ssl; rt ← on_world (ssl_connect fd); mret (rt =? 1) else mret false.
Definition ssl_init (sock : Z) : M bool :=
  v ← base (init sock);
  if v : bool then fd ← new_ssl; rt ← on_world (ssl_accept fd); mret (rt =? 1) else mret false.
(** [accept]: the new object has the context of the listening one; it is gone,
    descriptor and all, when [init] fails. *)
Definition ssl_sock_accept : M (option (Socket * option Z)) :=
  k ← gets (fun s => sk (x_socket s));
  newsock ← base (sys os_accept);
  base (opened newsock);;
  if newsock =? -1 then mret None else
  fun s =>
    let k0 := x_socket s in
    let s0 := mkSsl (mkSockst (new_Socket (m_family k) (m_type k) (m_protocol k)) (sk_os k0) (sk_opened k0) (sk_closed k0)) (x_ctx s) None (x_wire s) in
    let '(r, s1) := ssl_init newsock s0 in
    let back (k1 : sockst W) := mkSsl (mkSockst (sk k0) (sk_os k1) (sk_opened k1) (sk_closed k1)) (x_ctx s) (x_ssl s) (x_wire s1) in
    match r with
    | Ret true => (Ret (Some (sk (x_socket s1), x_ssl s1)), back (x_socket s1))
    | Ret false => let '(_, k1) := destroy (x_socket s1) in (Ret None, back k1)
    | Throw e => (Throw e, back (x_socket s1))
    | Crash f => (Crash f, back (x_socket s1))
    end.

Definition write_one (fd : Z) (data : list byte) : M Z :=
  rt ← on_world (ssl_write fd data);
  modify (fun s => mkSsl (x_socket s) (x_ctx s) (x_ssl s) (x_wire s ++ [(fd, take (Z.to_nat rt) data)]));;
  mret rt.
Definition ssl_send (data : list byte) : M Z :=
  s ← gets (fun s => s); match x_ssl s with Some fd => write_one fd data | None => mret (-1) end.
Definition ssl_recv (length : nat) : M (Z * list byte) :=
  s ← gets (fun s => s); match x_ssl s with Some fd => on_world (ssl_read fd length) | None => mret (-1, []) end.
(** The loops over an [iovec] array. *)
Fixpoint send_iov (fd total : Z) (buffers : list (list byte)) : M Z :=
  match buffers with
  | [] => mret total
  | b :: rest =>
      tmp ← write_one fd b;
      if tmp <=? 0 then mret tmp else
      if negb (tmp =? sint 32 (Z.of_nat (length b))) then mret (sint 32 (total + tmp)) else send_iov fd (sint 32 (total + tmp)) rest
  end.
Definition ssl_sendv (buffers : list (list byte)) : M Z :=
  s ← gets (fun s => s); match x_ssl s with Some fd => send_iov fd 0 buffers | None => mret (-1) end.
Fixpoint recv_iov (fd total : Z) (sizes : list nat) (got : list (list byte)) : M (Z * list (list byte)) :=
  match sizes with
  | [] => mret (total, got)
  | n :: rest =>
      r ← on_world (ssl_read fd n);
      let '(tmp, data) := r in
      if tmp <=? 0 then mret (tmp, got) else
      if negb (tmp =? sint 32 (Z.of_nat n)) then mret (sint 32 (total + tmp), got ++ [data]) else recv_iov fd (sint 32 (total + tmp)) rest (got ++ [data])
  end.
Definition ssl_recvv (sizes : list nat) : M (Z * list (list byte)) :=
  s ← gets (fun s => s); match x_ssl s with Some fd => recv_iov fd 0 sizes [] | None => mret (-1, []) end.
(** [sendTo] and [recvFrom] assert that they are not called. *)
Definition ssl_sendTo (data : list byte) (to : Address) : M Z := crash AssertFail.
Definition ssl_recvFrom (length : nat) (from : Address) : M (Z * list byte) := crash AssertFail.

Definition loadCertificates (cert_file key_file : string) : M bool :=
  set_ctx;;
  a ← on_world (ssl_chain_file cert_file);
  if negb (a =? 1) then mret false else
  b ← on_world (ssl_key_file key_file);
  if negb (b =? 1) then mret false else
  c ← on_world ssl_check_key; mret (c =? 1).

(** * What is sent *)

(** OpenSSL writes some of the bytes, or none. *)
Hypothesis write_some : forall fd data w rt w', ssl_write fd data w = (rt, w') -> rt <= Z.of_nat (length data).

Lemma write_one_run fd data s : exists rt s', write_one fd data s = (Ret rt, s') /\ rt <= Z.of_nat (length data) /\
  x_wire s' = x_wire s ++ [(fd, take (Z.to_nat rt) data)] /\ x_ssl s' = x_ssl s.
Proof.
  unfold write_one, on_world, base, modify, mbind, prog_bind. destruct (ssl_write fd data (sk_os (x_socket s))) as [rt w] eqn:E. simpl.
  eexists rt, _. split; [reflexivity|]. split; [by eapply write_some|done].
Qed.
(** What a list of writes sent, in order. *)
Definition sent (l : list (Z * list byte)) : list byte := concat (l.*2).
Lemma sent_app l l' : sent (l ++ l') = sent l ++ sent l'.
Proof. unfold sent. by rewrite fmap_app, concat_app. Qed.

Lemma send_iov_sends fd buffers : forall s total, 0 <= total -> total + Z.of_nat (length (concat buffers)) < 2 ^ 31 ->
  exists rt s' l, send_iov fd total buffers s = (Ret rt, s') /\ x_wire s' = x_wire s ++ l /\
    sent l `prefix_of` concat buffers /\ (0 < rt \/ buffers = [] -> rt = total + Z.of_nat (length (sent l))) /\ Forall (fun e => e.1 = fd) l.
Proof.
  induction buffers as [|b buffers IH]; intros s total Ht Hb.
  - exists total, s, []. split_and!; [done|by rewrite app_nil_r|done|intros _; simpl; lia|done].
  - simpl in Hb. rewrite length_app in Hb.
    simpl. destruct (write_one_run fd b s) as (tmp & s1 & E1 & Hle & Hw1 & _). rewrite (bind_ret _ _ _ _ _ E1).
    destruct (Z.leb_spec tmp 0) as [H0|H0].
    + exists tmp, s1, [(fd, take (Z.to_nat tmp) b)]. replace (Z.to_nat tmp) with 0%nat in * by lia. split_and!; [done|done| |intros [?|?]; [lia|done]|by repeat constructor].
      unfold sent. simpl. by apply prefix_nil.
    + rewrite !sint_id by (split; lia). destruct (Z.eqb_spec tmp (Z.of_nat (length b))) as [Heq|Hne]; simpl negb; cbv iota.
      * destruct (IH s1 (total + tmp)) as (rt & s2 & l & E2 & Hw2 & Hp & Hr & Hf); [lia|lia|].
        assert (take (Z.to_nat tmp) b = b) as Htk by (apply take_ge; lia). rewrite Htk in Hw1.
        exists rt, s2, ((fd, b) :: l). split_and!; [done|by rewrite Hw2, Hw1, <- app_assoc| | |by constructor].
        -- unfold sent. csimpl. by apply prefix_app.
        -- intros Hrt. assert (0 < rt \/ buffers = []) as Hrt' by (destruct Hrt as [?|?]; [by left|done]). rewrite (Hr Hrt').
           unfold sent. csimpl. rewrite length_app. lia.
      * exists (total + tmp), s1, [(fd, take (Z.to_nat tmp) b)]. split_and!; [done|done| | |by repeat constructor].
        -- unfold sent. csimpl. rewrite app_nil_r. exists (drop (Z.to_nat tmp) b ++ concat buffers). by rewrite app_assoc, take_drop.
        -- intros _. unfold sent. csimpl. rewrite app_nil_r, length_take. lia.
Qed.

(** C29: what [SSLSocket::send] of an [iovec] array puts on the wire is a prefix
    of the buffers one after the other, on the descriptor of the handshake; and
    where it returns a positive number that is how much was sent. *)
Theorem ssl_sendv_prefix fd buffers s : x_ssl s = Some fd -> Z.of_nat (length (concat buffers)) < 2 ^ 31 ->
  exists rt s' l, ssl_sendv buffers s = (Ret rt, s') /\ x_wire s' = x_wire s ++ l /\ sent l `prefix_of` concat buffers /\
    Forall (fun e => e.1 = fd) l /\ (0 < rt -> rt = Z.of_nat (length (sent l))).
Proof.
  intros Hfd Hb. destruct (send_iov_sends fd buffers s 0) as (rt & s' & l & E & Hw & Hp & Hr & Hf); [done|lia|].
  exists rt, s', l. unfold ssl_sendv, gets, mbind, prog_bind. rewrite Hfd. split_and!; [done|done|done|done|]. intros Hrt. rewrite (Hr (or_introl Hrt)). lia.
Qed.
End ssl.

(** * On a concrete system *)

(** Descriptor 7 for every [socket] and [accept], no names, every other call
    succeeds; [t_hand] is what a handshake gives, [t_writes] and [t_reads] what
    the next writes and reads give. *)
Module Toy.
Record toy : Type := mkToy { t_hand : Z; t_writes : list Z; t_reads : list (Z * list byte) }.
Definition Address0 : Address := new_UnknownAddress AF_INET.
#[local] Instance toy_os : OS toy := {|
  os_socket _ _ _ w := (7, w); os_accept _ w := (7, w); os_bind _ _ w := (0, w); os_connect _ _ _ w := (0, w);
  os_listen _ _ w := (0, w); os_close _ w := w; os_send _ _ w := (-1, w); os_recv _ _ w := ((-1, []), w);
  os_setsockopt _ _ _ _ w := (0, w); os_name _ _ _ w := (None, w); os_fdctx _ _ := true |}.
#[local] Instance toy_ssl : SSL toy := {|
  ssl_connect _ w := (t_hand w, w); ssl_accept _ w := (t_hand w, w);
  ssl_write _ data w := match t_writes w with rt :: l => (Z.min rt (Z.of_nat (length data)), mkToy (t_hand w) l (t_reads w)) | [] => (-1, w) end;
  ssl_read _ n w := match t_reads w with r :: l => ((fst r, take n (snd r)), mkToy (t_hand w) (t_writes w) l) | [] => ((-1, []), w) end;
  ssl_chain_file _ w := (1, w); ssl_key_file _ w := (1, w); ssl_check_key w := (1, w) |}.
Definition fresh (w : toy) : sslst toy := mkSsl (mkSockst (new_Socket AF_INET SOCK_STREAM 0) w [] []) false None [].
Definition ready (w : toy) : sslst toy := snd (ssl_sock_connect Address0 no_timeout (fresh w)).
Definition ab : list byte := [Byte.x61; Byte.x62].
Definition cd : list byte := [Byte.x63; Byte.x64].

Lemma toy_some fd data w rt w' : ssl_write fd data w = (rt, w') -> rt <= Z.of_nat (length data).
Proof. simpl. destruct (t_writes w); intros [= <- <-]; lia. Qed.

Lemma ssl_sendv_prefix_witness : exists rt s' l, ssl_sendv [ab; cd] (ready (mkToy 1 [2; 1] [])) = (Ret rt, s') /\
  x_wire s' = [] ++ l /\ sent l `prefix_of` concat [ab; cd] /\ Forall (fun e => e.1 = 7) l /\ (0 < rt -> rt = Z.of_nat (length (sent l))).
Proof. apply (ssl_sendv_prefix toy_some 7 [ab; cd] (ready (mkToy 1 [2; 1] []))); [reflexivity|vm_compute; reflexivity]. Defined.

(** A short second write: three bytes. *)
Example short_write : fst (ssl_sendv [ab; cd] (ready (mkToy 1 [2; 1] []))) = Ret 3 /\
  sent (x_wire (snd (ssl_sendv [ab; cd] (ready (mkToy 1 [2; 1] []))))) = [Byte.x61; Byte.x62; Byte.x63].
Proof. by vm_compute. Qed.
(** The second write fails: [send] gives -1 although [ab] was sent. *)
Example sent_but_failed : fst (ssl_sendv [ab; cd] (ready (mkToy 1 [2; -1] []))) = Ret (-1) /\
  sent (x_wire (snd (ssl_sendv [ab; cd] (ready (mkToy 1 [2; -1] []))))) = ab.
Proof. by vm_compute. Qed.
(** The same of [recv]: the two bytes that were read are lost. *)
Example read_but_failed : fst (ssl_recvv [2%nat; 2%nat] (ready (mkToy 1 [] [(2, ab); (-1, [])]))) = Ret (-1, [ab]).
Proof. by vm_compute. Qed.
(** The handshake fails: [connect] gives false, the socket stays connected. *)
Example failed_handshake : let r := ssl_sock_connect Address0 no_timeout (fresh (mkToy (-1) [] [])) in
  fst r = Ret false /\ isConnected (sk (x_socket (snd r))) = true.
Proof. by vm_compute. Qed.
(** [close] keeps [m_ssl]: what is sent afterwards goes to the descriptor that
    was closed. *)
Example sent_after_close : let s := snd (ssl_close (ready (mkToy 1 [2] []))) in
  sk_closed (x_socket s) = [7] /\ fst (ssl_send ab s) = Ret 2 /\ x_wire (snd (ssl_send ab s)) = [(7, ab)].
Proof. by vm_compute. Qed.
(** [accept] on a socket without certificates. *)
Example accept_without_certificates : fst (ssl_sock_accept (fresh (mkToy 1 [] []))) = Crash NullDeref.
Proof. by vm_compute. Qed.
(** With certificates: the new socket; and none when its handshake fails, with
    the descriptor closed. *)
Example accept_with_certificates : let s := snd (loadCertificates "a" "b" (fresh (mkToy 1 [] []))) in
  let s' := snd (loadCertificates "a" "b" (fresh (mkToy 0 [] []))) in
  (match fst (ssl_sock_accept s) with Ret (Some (k, x)) => (m_sock k, x) | _ => (0, None) end) = (7, Some 7) /\
  fst (ssl_sock_accept s') = Ret None /\ sk_closed (x_socket (snd (ssl_sock_accept s'))) = [7].
Proof. by vm_compute. Qed.
Example dump_example : dump (sk (x_socket (fresh (mkToy 1 [] [])))) = Ret "[Socket sock=-1 is_connected=0 family=2 type=1 protocol=0]".
Proof. by vm_compute. Qed.
(** Datagrams. *)
Example datagrams_refused : fst (ssl_sendTo (W := toy) ab Address0 (fresh (mkToy 1 [] []))) = Crash AssertFail.
Proof. done. Qed.
End Toy.
