(* ===== verification/TcpServer.v ===== *)
(** [sherry/tcp_server.h], [sherry/tcp_server.cc], and what is shown of the
    sockets and the server together: which descriptors are open.

    A [Socket::ptr] is an index of [t_heap]: the list [m_sockets] and the
    tasks given to the accept worker share the objects. The tasks are the
    queue [t_tasks], run one turn of their loop at a time; [t_clients] are the
    connections given to the worker. *)

From stdpp Require Import base list sets strings.
From S2P Require Import Prelude MachineInt Address Hook Socket.
From Stdlib Require Import ZArith Lia.

Inductive atask : Type :=
| AcceptLoop (sock : nat)        (* [bind(&TcpServer::startAccept, this, sock)] *)
| CloseAll.                      (* the lambda of [stop] *)

Record TcpServer (W : Type) : Type := mkTcpServer {
  t_heap : list Socket;
  t_sockets : list nat;
  t_isStop : bool;
  t_recvTimeout : Z;
  t_tasks : list atask;
  t_clients : list Socket;
  t_os : W;
  t_opened : list Z;
  t_closed : list Z
}.
Arguments mkTcpServer {W}. Arguments t_heap {W} t. Arguments t_sockets {W} t. Arguments t_isStop {W} t.
Arguments t_recvTimeout {W} t. Arguments t_tasks {W} t. Arguments t_clients {W} t. Arguments t_os {W} t.
Arguments t_opened {W} t. Arguments t_closed {W} t.

Section server.
Context {W : Type} {os : OS W}.
Abbreviation S := (TcpServer W).

Definition new_TcpServer (read_timeout : Z) (w : W) : S := mkTcpServer [] [] true read_timeout [] [] w [] [].

Definition set_heap h (t : S) : S := mkTcpServer h (t_sockets t) (t_isStop t) (t_recvTimeout t) (t_tasks t) (t_clients t) (t_os t) (t_opened t) (t_closed t).
Definition set_sockets l (t : S) : S := mkTcpServer (t_heap t) l (t_isStop t) (t_recvTimeout t) (t_tasks t) (t_clients t) (t_os t) (t_opened t) (t_closed t).
Definition set_isStop b (t : S) : S := mkTcpServer (t_heap t) (t_sockets t) b (t_recvTimeout t) (t_tasks t) (t_clients t) (t_os t) (t_opened t) (t_closed t).
Definition set_tasks l (t : S) : S := mkTcpServer (t_heap t) (t_sockets t) (t_isStop t) (t_recvTimeout t) l (t_clients t) (t_os t) (t_opened t) (t_closed t).
Definition add_client c (t : S) : S := mkTcpServer (t_heap t) (t_sockets t) (t_isStop t) (t_recvTimeout t) (t_tasks t) (t_clients t ++ [c]) (t_os t) (t_opened t) (t_closed t).

(** A method of a socket that is not in the heap yet. *)
Definition on_object {A} (k : Socket) (p : prog (sockst W) A) : prog S (A * Socket) := fun t =>
  let '(r, s) := p (mkSockst k (t_os t) (t_opened t) (t_closed t)) in
  let t' := mkTcpServer (t_heap t) (t_sockets t) (t_isStop t) (t_recvTimeout t) (t_tasks t) (t_clients t) (sk_os s) (sk_opened s) (sk_closed s) in
  match r with Ret a => (Ret (a, sk s), t') | Throw e => (Throw e, t') | Crash f => (Crash f, t') end.

(** A method of the socket at a pointer. *)
Definition on_socket {A} (i : nat) (p : prog (sockst W) A) : prog S A :=
  t ← gets id;
  k ← of_option NullDeref (t_heap t !! i);
  r ← on_object k p;
  modify (fun t => set_heap (<[i := snd r]> (t_heap t)) t);;
  mret (fst r).

(** The last pointer to a socket goes away unless a task holds one. *)
Definition holds (i : nat) (a : atask) : bool := match a with AcceptLoop j => i =? j | CloseAll => false end.
Definition held (i : nat) (t : S) : bool := existsb (holds i) (t_tasks t).
Definition release (i : nat) : prog S unit :=
  t ← gets id; if held i t then mret tt else on_socket i destroy.
Fixpoint release_all (l : list nat) : prog S unit :=
  match l with [] => mret tt | i :: l' => release i;; release_all l' end.
Definition clear_sockets : prog S unit :=
  t ← gets id; modify (set_sockets []);; release_all (t_sockets t).

(** One address of the loop of [bind]: whether it is bound and listens. *)
Definition bind_one (addr : Address) : prog S bool :=
  r ← on_object (CreateTCP addr) (Socket.bind addr);
  if negb (fst r) then on_object (snd r) destroy;; mret false else
  r2 ← on_object (snd r) (listen SOMAXCONN);
  if negb (fst r2) then on_object (snd r2) destroy;; mret false else
  modify (fun t => set_sockets (t_sockets t ++ [length (t_heap t)]) (set_heap (t_heap t ++ [snd r2]) t));;
  mret true.
Fixpoint bind_loop (addrs fails : list Address) : prog S (list Address) :=
  match addrs with
  | [] => mret fails
  | addr :: addrs' => ok ← bind_one addr; bind_loop addrs' (if ok : bool then fails else fails ++ [addr])
  end.
Definition bind_all (addrs fails : list Address) : prog S (bool * list Address) :=
  fails' ← bind_loop addrs fails;
  match fails' with
  | [] => mret (true, fails')
  | _ => clear_sockets;; mret (false, fails')
  end.
Definition bind_addr (addr : Address) : prog S bool := r ← bind_all [addr] []; mret (fst r).

Definition start : prog S bool :=
  t ← gets id;
  if negb (t_isStop t) then mret true else
  modify (set_isStop false);;
  modify (fun t => set_tasks (t_tasks t ++ (AcceptLoop <$> t_sockets t)) t);;
  mret true.
Definition stop : prog S unit :=
  modify (set_isStop true);;
  modify (fun t => set_tasks (t_tasks t ++ [CloseAll]) t).

(** One turn of the loop of [startAccept]; [false]: the loop has ended. *)
Definition startAccept_turn (sock : nat) : prog S bool :=
  t ← gets id;
  if t_isStop t then mret false else
  client ← on_socket sock accept;
  match client with
  | Some c =>
      r ← on_object c (setRecvTimeout (t_recvTimeout t));
      modify (add_client (snd r));; mret true
  | None => mret true
  end.

Fixpoint close_each (l : list nat) : prog S unit :=
  match l with [] => mret tt | i :: l' => on_socket i close;; close_each l' end.

(** The accept worker takes its first task: an accept loop goes to the back of
    the queue after a turn, or ends and drops its pointer. *)
Definition run_task : prog S unit :=
  t ← gets id;
  match t_tasks t with
  | [] => mret tt
  | AcceptLoop i :: rest =>
      again ← startAccept_turn i;
      if again : bool then modify (fun t => set_tasks (rest ++ [AcceptLoop i]) t)
      else modify (set_tasks rest);;
           t' ← gets id; if decide (i ∈ t_sockets t') then mret tt else release i
  | CloseAll :: rest => modify (set_tasks rest);; close_each (t_sockets t);; clear_sockets
  end.

(** The destructor closes each socket and clears the list. *)
Definition destroy_server : prog S unit :=
  t ← gets id; close_each (t_sockets t);; clear_sockets.
End server.

(** * Which descriptors are open *)

Definition fds (k : Socket) : list Z := if (m_sock k =? -1)%Z then [] else [m_sock k].
Definition cnt (x : Z) (l : list Z) : nat := count_occ Z.eq_dec l x.

Lemma cnt_app x l k : cnt x (l ++ k) = cnt x l + cnt x k.
Proof. apply count_occ_app. Qed.

Lemma fds_closed k : m_sock k = (-1)%Z -> fds k = [].
Proof. intros H. unfold fds. by rewrite H. Qed.

Create HintDb sock discriminated.

Section methods.
Context {W : Type} {os : OS W}.
Abbreviation M := (prog (sockst W)).

(** Code that neither opens nor closes: it returns, on the same descriptor. *)
Definition quiet {A} (p : M A) : Prop := forall s, exists a s', p s = (Ret a, s') /\
  m_sock (sk s') = m_sock (sk s) /\ sk_opened s' = sk_opened s /\ sk_closed s' = sk_closed s.

(** Code that keeps the books: what is opened is closed or held afterwards. *)
Definition keeps {A} (p : M A) : Prop := forall s, exists a s', p s = (Ret a, s') /\
  forall x, cnt x (sk_opened s') + cnt x (sk_closed s) + cnt x (fds (sk s)) =
            cnt x (sk_opened s) + cnt x (sk_closed s') + cnt x (fds (sk s')).

Lemma quiet_bind {A B} (p : M A) (k : A -> M B) : quiet p -> (forall a, quiet (k a)) -> quiet (p ≫= k).
Proof.
  intros Hp Hk s. destruct (Hp s) as (a & s1 & E1 & H1 & H2 & H3). destruct (Hk a s1) as (b & s2 & E2 & H4 & H5 & H6).
  exists b, s2. rewrite (bind_ret _ _ _ _ _ E1). split_and!; [done|congruence..].
Qed.
Lemma quiet_ret {A} (a : A) : quiet (mret a).
Proof. intros s. by exists a, s. Qed.
Lemma quiet_gets {A} (f : sockst W -> A) : quiet (gets f).
Proof. intros s. by exists (f s), s. Qed.
Lemma quiet_upd f : (forall k, m_sock (f k) = m_sock k) -> quiet (upd f).
Proof. intros Hf s. eexists _, _. split; [reflexivity|]. simpl. by rewrite Hf. Qed.
Lemma sys_run {A} (f : Z -> W -> A * W) s a w : f (m_sock (sk s)) (sk_os s) = (a, w) ->
  sys f s = (Ret a, mkSockst (sk s) w (sk_opened s) (sk_closed s)).
Proof. intros H. unfold sys. by rewrite H. Qed.
Lemma quiet_sys {A} (f : Z -> W -> A * W) : quiet (sys f).
Proof. intros s. unfold sys. destruct (f _ _) as [a w]. by eexists _, _. Qed.

Lemma keeps_quiet {A} (p : M A) : quiet p -> keeps p.
Proof.
  intros Hp s. destruct (Hp s) as (a & s1 & E & H1 & H2 & H3). exists a, s1. split; [done|]. intros x.
  unfold fds. rewrite H1, H2, H3. lia.
Qed.
Lemma server_keeps_bind {A B} (p : M A) (k : A -> M B) : keeps p -> (forall a, keeps (k a)) -> keeps (p ≫= k).
Proof.
  intros Hp Hk s. destruct (Hp s) as (a & s1 & E1 & H1). destruct (Hk a s1) as (b & s2 & E2 & H2).
  exists b, s2. rewrite (bind_ret _ _ _ _ _ E1). split; [done|]. intros x. specialize (H1 x). specialize (H2 x). lia.
Qed.
End methods.

#[export] Hint Resolve quiet_ret quiet_gets quiet_sys : sock.
#[export] Hint Extern 1 (quiet (upd _)) => apply quiet_upd; done : sock.
Ltac quiet_tac :=
  repeat (match goal with
          | |- quiet (_ ≫= _) => apply quiet_bind; [|intros ?]
          | |- quiet (match ?x with _ => _ end) => destruct x
          end); eauto with sock.

Section methods_spec.
Context {W : Type} {os : OS W}.

Lemma quiet_setOption l o v : quiet (setOption l o v).
Proof. unfold setOption. quiet_tac. Qed.
Hint Resolve quiet_setOption : sock.
Lemma quiet_setRecvTimeout v : quiet (setRecvTimeout v).
Proof. unfold setRecvTimeout. quiet_tac. Qed.
Lemma quiet_initSock : quiet initSock.
Proof. unfold initSock. quiet_tac. Qed.
Lemma quiet_getRemoteAddress : quiet getRemoteAddress.
Proof. unfold getRemoteAddress. quiet_tac. Qed.
Lemma quiet_getLocalAddress : quiet getLocalAddress.
Proof. unfold getLocalAddress. quiet_tac. Qed.
Lemma quiet_listen b : quiet (listen b).
Proof. unfold listen. quiet_tac. Qed.
Lemma quiet_send d : quiet (send d).
Proof. unfold send. quiet_tac. Qed.
Lemma quiet_recv n : quiet (recv n).
Proof. unfold recv. quiet_tac. Qed.
Hint Resolve quiet_initSock quiet_getRemoteAddress quiet_getLocalAddress quiet_listen : sock.

(** [newSock] on a socket without a descriptor. *)
Lemma newSock_spec s : m_sock (sk s) = (-1)%Z -> exists s', newSock s = (Ret tt, s') /\ sk_closed s' = sk_closed s /\
  sk_opened s' = sk_opened s ++ fds (sk s').
Proof.
  intros Hs. unfold newSock. run_pure.
  destruct (os_socket (m_family (sk s)) (m_type (sk s)) (m_protocol (sk s)) (sk_os s)) as [fd w] eqn:E.
  run (sys_run (fun _ => os_socket (m_family (sk s)) (m_type (sk s)) (m_protocol (sk s))) s fd w E).
  unfold opened, upd. run_pure. destruct (Z.eqb_spec fd (-1)) as [->|Hne]; simpl.
  - eexists. split; [reflexivity|]. simpl. by rewrite app_nil_r.
  - destruct (quiet_initSock (mkSockst (set_sock fd (sk s)) w (sk_opened s ++ [fd]) (sk_closed s))) as ([] & s' & E1 & H1 & H2 & H3).
    exists s'. split; [done|]. simpl in *. unfold fds. rewrite H1, H2, H3.
    apply Z.eqb_neq in Hne. by rewrite Hne.
Qed.

Lemma keeps_ensure_sock : keeps ensure_sock.
Proof.
  intros s. unfold ensure_sock. run_pure. unfold isValid at 1. destruct (Z.eqb_spec (m_sock (sk s)) (-1)) as [Hs|Hs]; simpl.
  - destruct (newSock_spec s Hs) as (s' & E & Hc & Ho). run E. run_pure. eexists _, _. split; [reflexivity|].
    intros x. rewrite Hc, Ho, (fds_closed _ Hs), cnt_app. simpl. lia.
  - eexists _, _. split; [reflexivity|]. intros x. lia.
Qed.

Lemma close_spec s : exists b s', close s = (Ret b, s') /\ sk_opened s' = sk_opened s /\
  sk_closed s' = sk_closed s ++ fds (sk s) /\ m_sock (sk s') = (-1)%Z.
Proof.
  unfold close, upd, fds. run_pure. destruct (Z.eqb_spec (m_sock (sk s)) (-1)) as [Hs|Hs];
    destruct (m_isConnected (sk s)); simpl; run_pure; eexists _, _; (split; [reflexivity|]); simpl; rewrite ?app_nil_r; done.
Qed.
Lemma keeps_close : keeps close.
Proof.
  intros s. destruct (close_spec s) as (b & s' & E & Ho & Hc & Hs). exists b, s'. split; [done|]. intros x.
  rewrite Ho, Hc, (fds_closed _ Hs), cnt_app. simpl. lia.
Qed.
Lemma destroy_spec s : exists s', destroy s = (Ret tt, s') /\ sk_opened s' = sk_opened s /\
  sk_closed s' = sk_closed s ++ fds (sk s) /\ m_sock (sk s') = (-1)%Z.
Proof. destruct (close_spec s) as (b & s' & E & H). unfold destroy. run E. by exists s'. Qed.

(** A successful [bind] or [connect] leaves a descriptor. *)
Lemma keeps_bind_addr addr : keeps (Socket.bind addr).
Proof.
  unfold Socket.bind. apply server_keeps_bind; [apply keeps_ensure_sock|]. intros [|]; simpl; (apply keeps_quiet; quiet_tac).
Qed.
Lemma keeps_connect addr timeout_ms : keeps (connect addr timeout_ms).
Proof.
  unfold connect. apply server_keeps_bind; [apply keeps_quiet, quiet_upd; done|]. intros _.
  apply server_keeps_bind; [apply keeps_ensure_sock|]. intros [|]; simpl; [|apply keeps_quiet; quiet_tac].
  apply server_keeps_bind; [apply keeps_quiet; quiet_tac|]. intros k. destruct (negb _); [apply keeps_quiet; quiet_tac|].
  apply server_keeps_bind; [apply keeps_quiet; quiet_tac|]. intros rt. destruct (negb _).
  - apply server_keeps_bind; [apply keeps_close|]. intros _. apply keeps_quiet. quiet_tac.
  - apply keeps_quiet. quiet_tac.
Qed.

Lemma init_spec sock s : os_fdctx sock (sk_os s) = true -> sock <> (-1)%Z ->
  exists s', init sock s = (Ret true, s') /\ fds (sk s') = [sock] /\ sk_opened s' = sk_opened s /\ sk_closed s' = sk_closed s.
Proof.
  intros Hctx Hne. unfold init. run_pure. unfold id. rewrite Hctx. unfold upd at 1 2. run_pure. simpl.
  assert (quiet (initSock;; getLocalAddress;; getRemoteAddress;; mret true)) as Hq by quiet_tac.
  destruct (Hq (mkSockst (set_connected true (set_sock sock (sk s))) (sk_os s) (sk_opened s) (sk_closed s)))
    as (b & s' & E & H1 & H2 & H3).
  assert (b = true) as ->.
  { revert E. unfold mbind, prog_bind. destruct (initSock _) as [[]?]; try done. destruct (getLocalAddress _) as [[]?]; try done.
    destruct (getRemoteAddress _) as [[]?]; try done. intros [= ]. done. }
  exists s'. split; [exact E|]. unfold fds. rewrite H1, H2, H3. simpl. apply Z.eqb_neq in Hne. by rewrite Hne.
Qed.

(** The descriptor [accept] gave belongs to the new socket. *)
Lemma accept_spec s : (forall fd w, os_fdctx fd w = true) -> exists c s', accept s = (Ret c, s') /\ sk s' = sk s /\
  sk_closed s' = sk_closed s /\ sk_opened s' = sk_opened s ++ match c with Some k => fds k | None => [] end.
Proof.
  intros Hctx. unfold accept.
  destruct (os_accept (m_sock (sk s)) (sk_os s)) as [fd w] eqn:E.
  unfold mbind, prog_bind, gets. rewrite (sys_run os_accept s fd w E). unfold opened, modify. cbv beta.
  destruct (Z.eqb_spec fd (-1)) as [->|Hne]; simpl.
  - exists None. eexists. split; [reflexivity|]. simpl. by rewrite app_nil_r.
  - destruct (init_spec fd (mkSockst (new_Socket (m_family (sk s)) (m_type (sk s)) (m_protocol (sk s))) w (sk_opened s ++ [fd]) (sk_closed s))
      (Hctx _ _) Hne) as (s' & -> & Hf & Ho & Hc).
    eexists (Some _), _. split; [reflexivity|]. simpl in *. by rewrite Hf, Ho, Hc.
Qed.
End methods_spec.
#[export] Hint Resolve quiet_setRecvTimeout quiet_listen quiet_send quiet_recv : sock.

(** * The server *)

Definition open_fds (l : list Socket) : list Z := concat (fds <$> l).

Lemma cnt_open_fds x l : cnt x (open_fds l) = sum_list_with (fun k => cnt x (fds k)) l.
Proof. induction l as [|k l IH]; [done|]. unfold open_fds. rewrite fmap_cons. simpl. by rewrite cnt_app, <- IH. Qed.

Lemma open_fds_nil l : Forall (fun k => fds k = []) l -> open_fds l = [].
Proof. unfold open_fds. induction 1 as [|k l Hk _ IH]; [done|]. rewrite fmap_cons. simpl. by rewrite Hk, IH. Qed.

Inductive server_op : Type :=
| SrvBind (addrs : list Address)
| SrvStart
| SrvStop
| SrvRun               (* the accept worker takes a task *)
| SrvDestroy.

Section server_props.
Context {W : Type} {os : OS W}.
Implicit Types (t : TcpServer W) (P : nat -> Prop).

Definition server_exec (o : server_op) : prog (TcpServer W) unit :=
  match o with
  | SrvBind addrs => bind_all addrs [];; mret tt
  | SrvStart => start;; mret tt
  | SrvStop => stop
  | SrvRun => run_task
  | SrvDestroy => destroy_server
  end.
Fixpoint server_run (l : list server_op) : prog (TcpServer W) unit :=
  match l with [] => mret tt | o :: l' => server_exec o;; server_run l' end.

(** Every descriptor is closed or belongs to one object, and an open one to an
    object somebody can reach; [P] are the objects about to be dropped. *)
Record inv P t : Prop := {
  inv_books x : cnt x (t_opened t) = cnt x (t_closed t) + cnt x (open_fds (t_heap t)) + cnt x (open_fds (t_clients t));
  inv_sockets : Forall (fun i => i < length (t_heap t)) (t_sockets t);
  inv_tasks i : held i t = true -> i < length (t_heap t);
  inv_reach i k : t_heap t !! i = Some k -> m_sock k <> (-1)%Z -> i ∈ t_sockets t \/ held i t = true \/ P i
}.
Definition nothing (i : nat) : Prop := False.

(** What the methods of the objects leave alone. *)
Definition frame t t' : Prop :=
  t_sockets t' = t_sockets t /\ t_isStop t' = t_isStop t /\ t_tasks t' = t_tasks t /\ t_clients t' = t_clients t /\
  length (t_heap t') = length (t_heap t).

Lemma frame_trans t1 t2 t3 : frame t1 t2 -> frame t2 t3 -> frame t1 t3.
Proof. unfold frame. intuition congruence. Qed.

Lemma inv_mono P Q t : inv P t -> (forall i, P i -> Q i) -> inv Q t.
Proof. intros [] H. split; try done. naive_solver. Qed.

Lemma on_object_spec {A} k (p : prog (sockst W) A) t a s :
  p (mkSockst k (t_os t) (t_opened t) (t_closed t)) = (Ret a, s) ->
  on_object k p t = (Ret (a, sk s), mkTcpServer (t_heap t) (t_sockets t) (t_isStop t) (t_recvTimeout t) (t_tasks t)
    (t_clients t) (sk_os s) (sk_opened s) (sk_closed s)).
Proof. intros H. unfold on_object. by rewrite H. Qed.

Lemma on_socket_spec {A} i k (p : prog (sockst W) A) t a s : t_heap t !! i = Some k ->
  p (mkSockst k (t_os t) (t_opened t) (t_closed t)) = (Ret a, s) ->
  on_socket i p t = (Ret a, mkTcpServer (<[i := sk s]> (t_heap t)) (t_sockets t) (t_isStop t) (t_recvTimeout t) (t_tasks t)
    (t_clients t) (sk_os s) (sk_opened s) (sk_closed s)).
Proof.
  intros Hi H. unfold on_socket. run_pure. unfold id. rewrite Hi. cbn [of_option]. run_pure.
  run (on_object_spec k p t a s H). run_pure. done.
Qed.

(** Replacing an object by what a method made of it, with the books kept. *)
Lemma inv_insert P Q t i k k' w o c : inv P t -> t_heap t !! i = Some k ->
  (forall x, cnt x o + cnt x (t_closed t) + cnt x (fds k) = cnt x (t_opened t) + cnt x c + cnt x (fds k')) ->
  (m_sock k' = (-1)%Z \/ (m_sock k' = m_sock k /\ (P i -> Q i))) -> (forall j, j <> i -> P j -> Q j) ->
  let t' := mkTcpServer (<[i := k']> (t_heap t)) (t_sockets t) (t_isStop t) (t_recvTimeout t) (t_tasks t) (t_clients t) w o c in
  inv Q t' /\ frame t t'.
Proof.
  intros [Hb Hs Ht Hr] Hi Hx Hk HPQ t'. split; [split; simpl|].
  - intros x. specialize (Hb x). specialize (Hx x). rewrite cnt_open_fds in Hb |- *.
    pose proof (sum_list_with_insert (fun k => cnt x (fds k)) _ _ k' _ Hi). simpl in *. lia.
  - by rewrite length_insert.
  - rewrite length_insert. exact Ht.
  - intros j kj Hj Hne. destruct (decide (j = i)) as [->|Hji].
    + rewrite list_lookup_insert_eq in Hj by (by eapply lookup_lt_Some). simplify_eq. destruct Hk as [|[Hk HQ]]; [done|].
      rewrite Hk in Hne. destruct (Hr i k Hi Hne) as [|[|]]; auto.
    + rewrite list_lookup_insert_ne in Hj by done. destruct (Hr j kj Hj Hne) as [|[|]]; auto.
  - unfold frame. simpl. by rewrite length_insert.
Qed.

Lemma close_socket_ok P t i : inv P t -> i < length (t_heap t) ->
  exists b t', on_socket i close t = (Ret b, t') /\ inv (fun j => P j /\ j <> i) t' /\ frame t t' /\
    forall k, t_heap t' !! i = Some k -> m_sock k = (-1)%Z.
Proof.
  intros H Hi. destruct (lookup_lt_is_Some_2 _ _ Hi) as [k Hk].
  destruct (close_spec (mkSockst k (t_os t) (t_opened t) (t_closed t))) as (b & s & E & Ho & Hc & Hm).
  exists b. eexists. split; [exact (on_socket_spec i k close t b s Hk E)|].
  destruct (inv_insert P (fun j => P j /\ j <> i) t i k (sk s) (sk_os s) (sk_opened s) (sk_closed s) H Hk) as [H1 H2].
  - intros x. rewrite Ho, Hc, cnt_app, (fds_closed _ Hm). simpl. lia.
  - by left.
  - done.
  - split_and!; [done..|]. simpl. intros k'. rewrite list_lookup_insert_eq by done. by intros [= <-].
Qed.

Lemma destroy_socket_ok P t i : inv P t -> i < length (t_heap t) ->
  exists t', on_socket i destroy t = (Ret tt, t') /\ inv (fun j => P j /\ j <> i) t' /\ frame t t'.
Proof.
  intros H Hi. destruct (lookup_lt_is_Some_2 _ _ Hi) as [k Hk].
  destruct (destroy_spec (mkSockst k (t_os t) (t_opened t) (t_closed t))) as (s & E & Ho & Hc & Hm).
  eexists. split; [exact (on_socket_spec i k destroy t tt s Hk E)|].
  apply (inv_insert P (fun j => P j /\ j <> i) t i k (sk s)); try done; [|by left].
  intros x. rewrite Ho, Hc, cnt_app, (fds_closed _ Hm). simpl. lia.
Qed.

Lemma release_ok P t i : inv P t -> i < length (t_heap t) ->
  exists t', release i t = (Ret tt, t') /\ inv (fun j => P j /\ j <> i) t' /\ frame t t'.
Proof.
  intros H Hi. unfold release. run_pure. unfold id. destruct (held i t) eqn:E; [|by apply destroy_socket_ok].
  exists t. split_and!; [done| |done]. destruct H as [H1 H2 H3 H4]. split; try done.
  intros j k Hj Hm. destruct (decide (j = i)) as [->|]; [by right; left|]. destruct (H4 j k Hj Hm) as [|[|]]; auto.
Qed.

Lemma release_all_ok l P t : inv P t -> Forall (fun i => i < length (t_heap t)) l ->
  exists t', release_all l t = (Ret tt, t') /\ inv (fun j => P j /\ j ∉ l) t' /\ frame t t'.
Proof.
  revert P t. induction l as [|i l IH]; intros P t H Hl; simpl.
  - exists t. split_and!; [done| |done]. apply (inv_mono P); [done|]. set_solver.
  - apply Forall_cons in Hl as [Hi Hl]. destruct (release_ok P t i H Hi) as (t1 & E1 & H1 & F1). run E1.
    destruct (IH _ t1 H1) as (t2 & E2 & H2 & F2).
    { destruct F1 as (_ & _ & _ & _ & ->). done. }
    exists t2. split_and!; [done| |by eapply frame_trans]. eapply inv_mono; [exact H2|]. set_solver.
Qed.

Lemma clear_sockets_ok t : inv nothing t -> exists t', clear_sockets t = (Ret tt, t') /\ inv nothing t' /\
  t_sockets t' = [] /\ t_isStop t' = t_isStop t /\ t_tasks t' = t_tasks t /\ t_clients t' = t_clients t /\
  length (t_heap t') = length (t_heap t).
Proof.
  intros [H1 H2 H3 H4]. unfold clear_sockets. run_pure. unfold id.
  destruct (release_all_ok (t_sockets t) (fun j => j ∈ t_sockets t) (set_sockets [] t)) as (t' & -> & H & F).
  - split; try done. intros i k Hi Hm. right. destruct (H4 i k Hi Hm) as [|[|[]]]; auto.
  - done.
  - exists t'. split; [done|]. split; [eapply inv_mono; [exact H|]; intros i [? ?]; done|]. exact F.
Qed.

Lemma close_each_ok l t : inv nothing t -> Forall (fun i => i < length (t_heap t)) l ->
  exists t', close_each l t = (Ret tt, t') /\ inv nothing t' /\ frame t t'.
Proof.
  revert t. induction l as [|i l IH]; intros t H Hl; simpl; [by exists t|].
  apply Forall_cons in Hl as [Hi Hl]. destruct (close_socket_ok nothing t i H Hi) as (b & t1 & E1 & H1 & F1 & _). run E1.
  destruct (IH t1) as (t2 & E2 & H2 & F2).
  - eapply inv_mono; [exact H1|]. by intros j [].
  - by destruct F1 as (_ & _ & _ & _ & ->).
  - exists t2. split_and!; [done..|by eapply frame_trans].
Qed.

(** [Socket::bind] succeeds only on a descriptor. *)
Lemma bind_valid addr s s' : Socket.bind addr s = (Ret true, s') -> m_sock (sk s') <> (-1)%Z.
Proof.
  unfold Socket.bind. destruct (keeps_ensure_sock s) as (v & s1 & E & _). rewrite (bind_ret _ _ _ _ _ E).
  assert (v = isValid (sk s1)) as ->.
  { revert E. unfold ensure_sock. run_pure. destruct (isValid (sk s)) eqn:Ev.
    - intros [= <- <-]. done.
    - unfold mbind, prog_bind. destruct (newSock s) as [[]?]; try done. intros [= <- <-]. done. }
  destruct (isValid (sk s1)) eqn:Ev; [|by intros [= ]]. simpl.
  assert (forall p : prog (sockst W) bool, quiet p -> p s1 = (Ret true, s') -> m_sock (sk s') <> (-1)%Z) as Hq.
  { intros p Hp Ep. destruct (Hp s1) as (b & s2 & E2 & Hm & _). rewrite E2 in Ep. simplify_eq. rewrite Hm.
    unfold isValid in Ev. by apply negb_true_iff, Z.eqb_neq in Ev. }
  apply Hq. quiet_tac; apply quiet_getLocalAddress.
Qed.

(** An object of the loop of [bind] that is dropped. *)
Lemma drop_object_ok P t0 t k : inv P t0 -> frame t0 t -> t_heap t = t_heap t0 ->
  (forall x, cnt x (t_opened t) + cnt x (t_closed t0) = cnt x (t_opened t0) + cnt x (t_closed t) + cnt x (fds k)) ->
  exists k' t', on_object k destroy t = (Ret (tt, k'), t') /\ inv P t' /\ frame t0 t' /\ t_heap t' = t_heap t0.
Proof.
  intros [H1 H2 H3 H4] F Hh Hx.
  destruct (destroy_spec (mkSockst k (t_os t) (t_opened t) (t_closed t))) as (s & E & Ho & Hc & Hm).
  eexists _, _. split; [exact (on_object_spec k destroy t tt s E)|].
  destruct F as (F1 & F2 & F3 & F4 & F5). unfold held in H3, H4. rewrite <- F3 in H3, H4. rewrite <- F1 in H2, H4. rewrite <- Hh in H2, H3, H4.
  split_and!; try done. split; simpl; try done.
  intros x. specialize (H1 x). specialize (Hx x). rewrite Ho, Hc, cnt_app, Hh, F4. simpl in *. lia.
Qed.

Lemma bind_one_ok P t addr : inv P t -> exists b t', bind_one addr t = (Ret b, t') /\ inv P t' /\
  t_tasks t' = t_tasks t /\ t_isStop t' = t_isStop t /\ t_clients t' = t_clients t /\
  (if b : bool then (t_sockets t' = t_sockets t ++ [length (t_heap t)] /\
                     exists k, t_heap t' = t_heap t ++ [k] /\ m_sock k <> (-1)%Z)
   else (t_sockets t' = t_sockets t /\ t_heap t' = t_heap t)).
Proof.
  intros H. unfold bind_one.
  destruct (keeps_bind_addr addr (mkSockst (CreateTCP addr) (t_os t) (t_opened t) (t_closed t))) as (b & s & E & Hx).
  simpl in Hx. run (on_object_spec (CreateTCP addr) (Socket.bind addr) t b s E). cbn [fst snd].
  assert (forall x, cnt x (sk_opened s) + cnt x (t_closed t) = cnt x (t_opened t) + cnt x (sk_closed s) + cnt x (fds (sk s))) as Hx1
    by (intros x; specialize (Hx x); simpl in Hx; lia).
  destruct b; cbn [negb].
  - apply bind_valid in E. set (t1 := mkTcpServer _ _ _ _ _ _ _ _ _).
    destruct (quiet_listen SOMAXCONN (mkSockst (sk s) (t_os t1) (t_opened t1) (t_closed t1))) as (b & s2 & E2 & Q1 & Q2 & Q3).
    simpl in Q1, Q2, Q3. assert (fds (sk s2) = fds (sk s)) as Hf by (unfold fds; by rewrite Q1).
    run (on_object_spec (sk s) (listen SOMAXCONN) t1 b s2 E2). cbn [fst snd]. destruct b; cbn [negb].
    + run_pure. eexists true, _. split; [reflexivity|]. simpl. split_and!; try done; [|by exists (sk s2); rewrite Q1].
      destruct H as [H1 H2 H3 H4]. split; simpl.
      * intros x. specialize (H1 x). specialize (Hx1 x). rewrite Q2, Q3. unfold open_fds in *. rewrite fmap_app, concat_app, cnt_app.
        simpl. rewrite app_nil_r, Hf. lia.
      * rewrite length_app, Forall_app. simpl. split; [|by constructor; [lia|constructor]].
        eapply Forall_impl; [exact H2|]. simpl. lia.
      * intros i Hi. rewrite length_app. specialize (H3 i Hi). lia.
      * intros i k. rewrite lookup_app_Some. intros [Hi|[Hi Hk]] Hm.
        -- destruct (H4 i k Hi Hm) as [|[|]]; auto. left. apply elem_of_app. by left.
        -- apply list_lookup_singleton_Some in Hk as [Hk _]. left. apply elem_of_app. right. apply list_elem_of_singleton. lia.
    + destruct (drop_object_ok P t (mkTcpServer (t_heap t) (t_sockets t) (t_isStop t) (t_recvTimeout t) (t_tasks t) (t_clients t)
        (sk_os s2) (sk_opened s2) (sk_closed s2)) (sk s2)) as (k' & t' & E3 & H3 & F & Hh); try done.
      { intros x. simpl. rewrite Q2, Q3, Hf. apply Hx1. }
      run E3. destruct F as (F1 & F2 & F3 & F4 & F5). by exists false, t'.
  - destruct (drop_object_ok P t (mkTcpServer (t_heap t) (t_sockets t) (t_isStop t) (t_recvTimeout t) (t_tasks t) (t_clients t)
        (sk_os s) (sk_opened s) (sk_closed s)) (sk s)) as (k' & t' & E3 & H3 & F & Hh); try done.
    run E3. destruct F as (F1 & F2 & F3 & F4 & F5). by exists false, t'.
Qed.

(** The loop of [bind]: the addresses that failed are reported, and each of the
    others has a new socket. *)
Lemma bind_loop_ok addrs fails t : inv nothing t -> exists bad t', bind_loop addrs fails t = (Ret (fails ++ bad), t') /\
  inv nothing t' /\ t_tasks t' = t_tasks t /\ t_isStop t' = t_isStop t /\ t_clients t' = t_clients t /\
  exists new, t_heap t' = t_heap t ++ new /\ length new + length bad = length addrs /\
    t_sockets t' = t_sockets t ++ seq (length (t_heap t)) (length new) /\ Forall (fun k => m_sock k <> (-1)%Z) new.
Proof.
  revert fails t. induction addrs as [|a addrs IH]; intros fails t H; simpl.
  - exists [], t. rewrite app_nil_r. split_and!; try done. exists []. by rewrite !app_nil_r.
  - destruct (bind_one_ok nothing t a H) as (b & t1 & E1 & H1 & T1 & S1 & C1 & Hb). run E1.
    destruct (IH (if b then fails else fails ++ [a]) t1 H1) as (bad & t2 & E2 & H2 & T2 & S2 & C2 & new & Hn & Hl & Hs & Hv).
    destruct b.
    + destruct Hb as [Hs1 (k & Hh1 & Hk)]. exists bad, t2. split_and!; [done..|congruence|congruence|congruence|].
      exists (k :: new). rewrite Hn, Hs, Hs1, Hh1, length_app, <- !app_assoc. simpl.
      split_and!; [done|lia|do 2 f_equal; f_equal; lia|by constructor].
    + destruct Hb as [Hs1 Hh1]. exists (a :: bad), t2. rewrite E2, <- app_assoc.
      split_and!; [done..|congruence|congruence|congruence|]. exists new. rewrite Hn, Hs, Hs1, Hh1. simpl. split_and!; try done. lia.
Qed.
End server_props.

Section server_theorems.
Context {W : Type} {os : OS W}.
Implicit Types t : TcpServer W.

Lemma bind_all_ok addrs t : inv nothing t -> exists fails t', bind_all addrs [] t = (Ret (bool_decide (fails = []), fails), t') /\
  inv nothing t' /\
  (fails = [] -> exists new, t_heap t' = t_heap t ++ new /\ length new = length addrs /\
     t_sockets t' = t_sockets t ++ seq (length (t_heap t)) (length new) /\ Forall (fun k => m_sock k <> (-1)%Z) new) /\
  (fails <> [] -> t_sockets t' = [] /\ t_tasks t' = t_tasks t).
Proof.
  intros H. unfold bind_all. destruct (bind_loop_ok addrs [] t H) as (bad & t1 & E & H1 & T1 & S1 & C1 & new & Hn & Hl & Hs & Hv).
  run E. simpl. destruct bad as [|a bad].
  - exists [], t1. split_and!; try done. intros _. exists new. simpl in Hl. split_and!; [done|lia|done..].
  - destruct (clear_sockets_ok t1 H1) as (t2 & E2 & H2 & Hs2 & _ & T2 & _). run E2.
    exists (a :: bad), t2. split_and!; try done. intros _. split; [done|congruence].
Qed.

Lemma inv_frame_flags t b l : inv nothing t -> (forall i, existsb (holds i) l = true -> i < length (t_heap t)) ->
  (forall i, held i t = true -> i ∈ t_sockets t \/ existsb (holds i) l = true) -> inv nothing (set_tasks l (set_isStop b t)).
Proof.
  intros [H1 H2 H3 H4] Hl Hr. split; simpl; try done. intros i k Hi Hm. unfold held. simpl.
  destruct (H4 i k Hi Hm) as [|[Hh|[]]]; [by left|]. destruct (Hr i Hh); auto.
Qed.

Lemma existsb_holds_app i l k : existsb (holds i) (l ++ k) = existsb (holds i) l || existsb (holds i) k.
Proof. apply existsb_app. Qed.
Lemma holds_loops i l : existsb (holds i) (AcceptLoop <$> l) = true <-> i ∈ l.
Proof.
  induction l as [|j l IH]; simpl; [split; [done|set_solver]|].
  rewrite orb_true_iff, IH, Nat.eqb_eq, elem_of_cons. done.
Qed.

Lemma start_ok t : inv nothing t -> exists t', start t = (Ret true, t') /\ inv nothing t'.
Proof.
  intros H. unfold start. run_pure. unfold id. destruct (t_isStop t); simpl; [|by exists t]. run_pure.
  eexists. split; [reflexivity|]. simpl. apply (inv_frame_flags t false); [done|..].
  - intros i. rewrite existsb_holds_app, orb_true_iff, holds_loops. intros [Hi|Hi]; [by apply (inv_tasks _ _ H)|].
    exact (proj1 (Forall_forall _ _) (inv_sockets _ _ H) i Hi).
  - intros i Hi. right. rewrite existsb_holds_app. apply orb_true_iff. left. exact Hi.
Qed.
Lemma stop_ok t : inv nothing t -> exists t', stop t = (Ret tt, t') /\ inv nothing t'.
Proof.
  intros H. unfold stop. run_pure. eexists. split; [reflexivity|]. apply (inv_frame_flags t true); [done|..].
  - intros i. rewrite existsb_holds_app. simpl. rewrite orb_false_r. apply (inv_tasks _ _ H).
  - intros i Hi. right. rewrite existsb_holds_app. apply orb_true_iff. left. exact Hi.
Qed.
Lemma destroy_server_ok t : inv nothing t -> exists t', destroy_server t = (Ret tt, t') /\ inv nothing t' /\
  t_sockets t' = [] /\ t_tasks t' = t_tasks t.
Proof.
  intros H. unfold destroy_server. run_pure. unfold id.
  destruct (close_each_ok (t_sockets t) t H (inv_sockets _ _ H)) as (t1 & E1 & H1 & F1). run E1.
  destruct (clear_sockets_ok t1 H1) as (t2 & E2 & H2 & Hs2 & _ & T2 & _). exists t2. destruct F1 as (_ & _ & F & _). 
  split_and!; [done..|congruence].
Qed.

Hypothesis registered : forall fd (w : W), os_fdctx fd w = true.

Lemma startAccept_turn_ok t i : inv nothing t -> i < length (t_heap t) -> exists again t', startAccept_turn i t = (Ret again, t') /\
  inv nothing t' /\ t_sockets t' = t_sockets t /\ t_tasks t' = t_tasks t /\ length (t_heap t') = length (t_heap t).
Proof.
  intros H Hi. unfold startAccept_turn. run_pure. unfold id. destruct (t_isStop t); [by exists false, t|].
  destruct (lookup_lt_is_Some_2 _ _ Hi) as [k Hk].
  destruct (accept_spec (mkSockst k (t_os t) (t_opened t) (t_closed t)) registered) as (c & s & E & Hsk & Hc & Ho). simpl in *.
  run (on_socket_spec i k accept t c s Hk E). rewrite Hsk, (list_insert_id _ _ _ Hk). set (t1 := mkTcpServer _ _ _ _ _ _ _ _ _).
  destruct H as [H1 H2 H3 H4]. destruct c as [c|].
  - destruct (quiet_setRecvTimeout (t_recvTimeout t) (mkSockst c (t_os t1) (t_opened t1) (t_closed t1)))
      as ([] & s2 & E2 & Q1 & Q2 & Q3). simpl in *.
    run (on_object_spec c (setRecvTimeout (t_recvTimeout t)) t1 tt s2 E2). run_pure. eexists true, _. split; [reflexivity|].
    simpl. split_and!; try done. split; simpl; try done. intros x. specialize (H1 x).
    rewrite Q2, Q3, Ho, Hc, cnt_app. unfold open_fds in *. rewrite fmap_app, concat_app, cnt_app. simpl. rewrite app_nil_r.
    unfold fds at 4. rewrite Q1. fold (fds c). lia.
  - eexists true, t1. split_and!; try done. split; try done. intros x. simpl. rewrite Ho, Hc, app_nil_r. apply H1.
Qed.

Lemma run_task_ok t : inv nothing t -> exists t', run_task t = (Ret tt, t') /\ inv nothing t'.
Proof.
  intros H. unfold run_task. run_pure. unfold id. destruct (t_tasks t) as [|[i|] rest] eqn:ET; [by exists t|..].
  - assert (i < length (t_heap t)) as Hi. { apply (inv_tasks _ _ H). unfold held. rewrite ET. simpl. by rewrite Nat.eqb_refl. }
    destruct (startAccept_turn_ok t i H Hi) as (again & t1 & E1 & H1 & S1 & T1 & L1). run E1. rewrite ET in T1.
    destruct again.
    + eexists. split; [reflexivity|].
      assert (forall j, existsb (holds j) (rest ++ [AcceptLoop i]) = held j t1) as Hp.
      { intros j. rewrite existsb_holds_app. unfold held. rewrite T1. simpl. by rewrite orb_false_r, orb_comm. }
      apply (inv_frame_flags t1 (t_isStop t1)); [done|..].
      * intros j Hj. rewrite Hp in Hj. by apply (inv_tasks _ _ H1).
      * intros j Hj. right. by rewrite Hp.
    + run_pure. set (t2 := set_tasks rest t1).
      assert (inv (fun j => j = i) t2) as H2.
      { destruct H1 as [B1 B2 B3 B4]. split; simpl; try done.
        - intros j Hj. apply B3. unfold held in *. rewrite T1. simpl. simpl in Hj. rewrite Hj. by rewrite orb_true_r.
        - intros j k Hj Hm. destruct (B4 j k Hj Hm) as [|[Hh|[]]]; [by left|]. unfold held in *. rewrite T1 in Hh. simpl in *.
          apply orb_true_iff in Hh as [Hh%Nat.eqb_eq|]; auto. }
      destruct (decide _) as [Hin|Hin].
      * exists t2. split; [done|]. destruct H2 as [B1 B2 B3 B4]. split; try done.
        intros j k Hj Hm. destruct (B4 j k Hj Hm) as [|[| ->]]; auto.
      * destruct (release_ok _ t2 i H2) as (t3 & E3 & H3 & _); [simpl; lia|]. exists t3. split; [done|].
        eapply inv_mono; [exact H3|]. by intros j [].
  - run_pure. assert (inv nothing (set_tasks rest t)) as H1.
    { apply (inv_frame_flags t (t_isStop t)); [done|..].
      - intros j Hj. apply (inv_tasks _ _ H). unfold held. rewrite ET. exact Hj.
      - intros j Hj. right. unfold held in Hj. rewrite ET in Hj. exact Hj. }
    destruct (close_each_ok (t_sockets t) _ H1 (inv_sockets _ _ H)) as (t1 & E1 & H2 & _). run E1.
    destruct (clear_sockets_ok t1 H2) as (t2 & E2 & H3 & _). by exists t2.
Qed.

Lemma server_exec_ok o t : inv nothing t -> exists t', server_exec o t = (Ret tt, t') /\ inv nothing t'.
Proof.
  intros H. destruct o as [addrs| | | |]; simpl.
  - destruct (bind_all_ok addrs t H) as (fails & t' & E & H' & _). run E. by exists t'.
  - destruct (start_ok t H) as (t' & E & H'). run E. by exists t'.
  - by apply stop_ok.
  - by apply run_task_ok.
  - destruct (destroy_server_ok t H) as (t' & E & H' & _). by exists t'.
Qed.
End server_theorems.

(** C21: Descriptors of a server, after any sequence of [bind], [start], [stop],
    turns of the accept worker and the destructor: every call returns, every
    descriptor the system gave is closed or belongs to exactly one listening
    socket or client, an open listening socket is still in the list or held by
    an accept loop, and when both are gone everything but the clients is
    closed. It relies on [FdManager] knowing the descriptors [accept] gives,
    which is what the hooked [accept] does. *)
Theorem server_descriptors {W} {os : OS W} (read_timeout : Z) (w : W) (ops : list server_op) :
  (forall fd w, os_fdctx fd w = true) ->
  exists t, server_run ops (new_TcpServer read_timeout w) = (Ret tt, t) /\
    t_opened t ≡ₚ t_closed t ++ open_fds (t_heap t) ++ open_fds (t_clients t) /\
    (forall i k, t_heap t !! i = Some k -> m_sock k <> (-1)%Z -> i ∈ t_sockets t \/ held i t = true) /\
    (t_sockets t = [] -> t_tasks t = [] -> t_opened t ≡ₚ t_closed t ++ open_fds (t_clients t)).
Proof.
  intros Hreg. assert (exists t, server_run ops (new_TcpServer read_timeout w) = (Ret tt, t) /\ inv nothing t) as (t & E & H).
  { assert (inv nothing (new_TcpServer read_timeout w)) as H0 by (split; done). revert H0. generalize (new_TcpServer read_timeout w).
    induction ops as [|o ops IH]; intros t H; simpl; [by exists t|].
    destruct (server_exec_ok Hreg o t H) as (t1 & E1 & H1). run E1. by apply IH. }
  assert (t_opened t ≡ₚ t_closed t ++ open_fds (t_heap t) ++ open_fds (t_clients t)) as HP.
  { apply (Permutation_count_occ Z.eq_dec). intros x. rewrite !count_occ_app. pose proof (inv_books _ _ H x). unfold cnt in *. lia. }
  exists t. split_and!; [done..| |].
  - intros i k Hi Hm. destruct (inv_reach _ _ H i k Hi Hm) as [|[|[]]]; auto.
  - intros Hs Ht. rewrite HP. f_equiv. replace (open_fds (t_heap t)) with (@nil Z); [done|].
    symmetry. assert (Forall (fun k => fds k = []) (t_heap t)) as Hf.
    { apply Forall_lookup. intros i k Hi. destruct (decide (m_sock k = (-1)%Z)) as [|Hm]; [by apply fds_closed|].
      destruct (inv_reach _ _ H i k Hi Hm) as [Hin|[Hh|[]]].
      - rewrite Hs in Hin. set_solver.
      - unfold held in Hh. by rewrite Ht in Hh. }
    by apply open_fds_nil.
Qed.

(** [bind] of several addresses is all or nothing. It returns [true] exactly
    when no address failed; then each address has a new socket with a
    descriptor at the end of the list. Otherwise it reports the addresses
    that failed, the list is empty, and the only sockets still open are those
    a running accept loop holds. *)
Theorem bind_all_or_nothing {W} {os : OS W} (t : TcpServer W) (addrs : list Address) : inv nothing t ->
  exists fails t', bind_all addrs [] t = (Ret (bool_decide (fails = []), fails), t') /\ inv nothing t' /\
    (fails = [] -> exists new, t_heap t' = t_heap t ++ new /\ length new = length addrs /\
       t_sockets t' = t_sockets t ++ seq (length (t_heap t)) (length new) /\ Forall (fun k => m_sock k <> (-1)%Z) new) /\
    (fails <> [] -> t_sockets t' = [] /\ forall i k, t_heap t' !! i = Some k -> m_sock k <> (-1)%Z -> held i t' = true).
Proof.
  intros H. destruct (bind_all_ok addrs t H) as (fails & t' & E & H' & Hok & Hbad). exists fails, t'. split_and!; try done.
  intros Hf. destruct (Hbad Hf) as [Hs Ht]. split; [done|]. intros i k Hi Hm.
  destruct (inv_reach _ _ H' i k Hi Hm) as [Hin|[|[]]]; [|done]. rewrite Hs in Hin. set_solver.
Qed.

(** A system for examples: descriptors are numbered from 3, [bind] fails on
    port 0, and [known] are those of [FdManager]. *)
Definition example_os (known : Z -> bool) : OS Z := {|
  os_socket _ _ _ n := (n, n + 1)%Z;
  os_accept _ n := (n, n + 1)%Z;
  os_bind _ a n := (match a with IPv4Address s => if (IPv4_getPort s =? 0)%Z then -1 else 0 | _ => 0 end, n)%Z;
  os_connect _ _ _ n := (0, n)%Z;
  os_listen _ _ n := (0, n)%Z;
  os_close _ n := n;
  os_send _ d n := (Z.of_nat (length d), n);
  os_recv _ _ n := ((0%Z, []), n);
  os_setsockopt _ _ _ _ n := (0, n)%Z;
  os_name _ _ f n := (Some (new_UnknownAddress f, 16%Z), n);
  os_fdctx fd _ := known fd
|}.
Definition example_addr (port : Z) : Address := IPv4Address (IPv4_setPort port (new_IPv4Address 0 0)).

Lemma server_descriptors_witness :
  let ops := [SrvBind [example_addr 80; example_addr 81]; SrvStart; SrvRun; SrvRun; SrvStop; SrvRun; SrvRun; SrvRun] in
  let os := example_os (fun _ => true) in
  exists t, server_run ops (new_TcpServer 120000 3%Z) = (Ret tt, t) /\ t_opened t = [3; 4; 5; 6]%Z /\ t_closed t = [3; 4]%Z /\
    t_opened t ≡ₚ t_closed t ++ open_fds (t_clients t).
Proof.
  intros ops os. destruct (server_descriptors 120000 3%Z ops ltac:(done)) as (t & E & _ & _ & H). exists t. split; [exact E|].
  assert (Et : t = post (server_run ops) (new_TcpServer 120000 3%Z)) by (unfold post; by rewrite E). rewrite Et in H |- *.
  split_and!; [vm_compute; reflexivity..|]. apply H; vm_compute; reflexivity.
Defined.

Lemma bind_all_or_nothing_witness :
  let os := example_os (fun _ => true) in let t := new_TcpServer 120000 3%Z in
  inv nothing t /\ exists t', bind_all [example_addr 80; example_addr 0] [] t = (Ret (false, [example_addr 0]), t') /\
    t_sockets t' = [] /\ t_closed t' ≡ₚ [3; 4]%Z.
Proof.
  intros os t. assert (H : inv nothing t) by (split; done). split; [exact H|].
  destruct (bind_all_or_nothing t [example_addr 80; example_addr 0] H) as (fails & t' & E & _ & _ & Hbad).
  assert (Ef : Ret (bool_decide (fails = []), fails) = Ret (false, [example_addr 0])).
  { change (fst (Ret (bool_decide (fails = []), fails), t') = Ret (false, [example_addr 0])). rewrite <- E. vm_compute. reflexivity. }
  assert (fails = [example_addr 0]) as -> by congruence.
  destruct (Hbad ltac:(done)) as [Hs _]. exists t'. split_and!; [exact E|exact Hs|].
  assert (Et : t' = post (bind_all [example_addr 80; example_addr 0] []) t) by (unfold post; by rewrite E). rewrite Et.
  vm_compute. apply perm_swap.
Defined.

(** A descriptor [FdManager] does not know is neither closed nor kept. *)
Lemma accept_leaks : let os := example_os (fun fd => negb (fd =? 3)%Z) in
  let s := mkSockst (set_sock 9%Z CreateTCPSocket) 3%Z [9%Z] [] in
  exists s', accept s = (Ret None, s') /\ sk_opened s' = [9; 3]%Z /\ sk_closed s' = [] /\ m_sock (sk s') = 9%Z.
Proof. eexists. split; [vm_compute; reflexivity|]. vm_compute. done. Qed.
