(* ===== verification/Stream.v ===== *)
(** [sherry/stream.cc] and [sherry/socket_stream.cc]: streams of bytes.

    [Stream] is over the virtual [read] and [write]: [read n] gives its result
    and the bytes it stored, [write bs] its result. A buffer is the memory
    object it points into, and a position in it; pointers are computed modulo
    [2^64] and an access outside the object is a fault. [SocketStream] is the
    instance over [Socket]; a null [m_socket] is [None]. *)

From stdpp Require Import base list strings.
From coqutil Require Import Byte.
From S2P Require Import Prelude MachineInt ByteArray ByteArrayProps Address Socket.
From Stdlib Require Import ZArith Lia.
Local Open Scope Z_scope.

(** * [Stream] *)

Section stream.
Context {B W : Type}.
Variable read : Z -> prog W (Z * list B).       (* [read(void*, size_t)] *)
Variable write : list B -> prog W Z.            (* [write(const void*, size_t)] *)

(** Bytes stored at, and loaded from, an address of the object. *)
Definition mem_store (mem : list B) (addr : Z) (bs : list B) : outcome (list B) :=
  match bs with
  | [] => Ret mem
  | _ => if (0 <=? addr) && (addr + Z.of_nat (length bs) <=? Z.of_nat (length mem))
         then Ret (blit (Z.to_nat addr) bs mem) else Crash OutOfRange
  end.
Definition mem_load (mem : list B) (addr len : Z) : outcome (list B) :=
  if (0 <=? addr) && (addr + len <=? Z.of_nat (length mem))
  then Ret (slice (Z.to_nat addr) (Z.to_nat len) mem) else Crash OutOfRange.

(** [readFixSize(void*, size_t)]: the result and the object afterwards. The
    [int] of [read] is converted to [size_t]. *)
Fixpoint readFixSize_loop (fuel : nat) (mem : list B) (buffer length offset left : Z) : prog W (Z * list B) :=
  if left =? 0 then mret (sint 32 length, mem) else
  match fuel with
  | O => crash NoFuel
  | S fuel' =>
      r ← read left;
      match mem_store mem (wrap 64 (buffer + offset)) (snd r) with
      | Ret mem' =>
          let len := wrap 64 (fst r) in
          if len <=? 0 then mret (sint 32 len, mem')
          else readFixSize_loop fuel' mem' buffer length (wrap 64 (offset + len)) (wrap 64 (left - len))
      | Throw e => throw e
      | Crash f => crash f
      end
  end.
Definition readFixSize (fuel : nat) (mem : list B) (buffer length : Z) : prog W (Z * list B) :=
  readFixSize_loop fuel mem buffer length 0 length.

Fixpoint writeFixSize_loop (fuel : nat) (mem : list B) (buffer length offset left : Z) : prog W Z :=
  if left =? 0 then mret (sint 32 length) else
  match fuel with
  | O => crash NoFuel
  | S fuel' =>
      match mem_load mem (wrap 64 (buffer + offset)) left with
      | Ret bs =>
          rt ← write bs;
          let len := wrap 64 rt in
          if len <=? 0 then mret (sint 32 len)
          else writeFixSize_loop fuel' mem buffer length (wrap 64 (offset + len)) (wrap 64 (left - len))
      | Throw e => throw e
      | Crash f => crash f
      end
  end.
Definition writeFixSize (fuel : nat) (mem : list B) (buffer length : Z) : prog W Z :=
  writeFixSize_loop fuel mem buffer length 0 length.
End stream.

(** The variants on a [ByteArray]: [read(ba, length)] and [write(ba, length)]
    change the buffer and the stream. *)
Section stream_ba.
Context {W : Type}.
Variable read_ba write_ba : Z -> prog (ByteArray * W) Z.

Fixpoint readFixSize_ba_loop (fuel : nat) (length left : Z) : prog (ByteArray * W) Z :=
  if left =? 0 then mret (sint 32 length) else
  match fuel with
  | O => crash NoFuel
  | S fuel' =>
      rt ← read_ba length;
      let len := wrap 64 rt in
      if len <=? 0 then mret (sint 32 len) else readFixSize_ba_loop fuel' length (wrap 64 (left - len))
  end.
Definition readFixSize_ba (fuel : nat) (length : Z) : prog (ByteArray * W) Z := readFixSize_ba_loop fuel length length.

Fixpoint writeFixSize_ba_loop (fuel : nat) (length left : Z) : prog (ByteArray * W) Z :=
  if left =? 0 then mret (sint 32 length) else
  match fuel with
  | O => crash NoFuel
  | S fuel' =>
      rt ← write_ba left;
      let len := wrap 64 rt in
      if len <=? 0 then mret (sint 32 len) else writeFixSize_ba_loop fuel' length (wrap 64 (left - len))
  end.
Definition writeFixSize_ba (fuel : nat) (length : Z) : prog (ByteArray * W) Z := writeFixSize_ba_loop fuel length length.
End stream_ba.

(** * [SocketStream] *)

Section socket_stream.
Context {W : Type} {os : OS W} (alloc : nat -> nat -> byte).
Abbreviation SS := (option (sockst W)).         (* [m_socket] *)

Definition ss_isConnected (m : SS) : bool := match m with Some s => isConnected (sk s) | None => false end.
Definition ss_close : prog SS unit := fun m =>
  match m with
  | None => (Ret tt, None)
  | Some s => match close s with
              | (Ret _, s') => (Ret tt, Some s') | (Throw e, s') => (Throw e, Some s') | (Crash f, s') => (Crash f, Some s')
              end
  end.
(** A method of the socket, which is not null here. *)
Definition on_sock {A} (p : prog (sockst W) A) : prog SS A := fun m =>
  match m with None => (Crash NullDeref, None) | Some s => let '(r, s') := p s in (r, Some s') end.

Definition ss_read (length : Z) : prog SS (Z * list byte) :=
  m ← gets id; if negb (ss_isConnected m) then mret (-1, []) else on_sock (recv (Z.to_nat length)).
Definition ss_write (bs : list byte) : prog SS Z :=
  m ← gets id; if negb (ss_isConnected m) then mret (-1) else on_sock (send bs).

(** What [recvmsg] does with the bytes: the blocks in order. *)
Fixpoint scatter (l : list iovec) (bs : list byte) (nodes : list (list byte)) : list (list byte) :=
  match l with
  | [] => nodes
  | v :: l' =>
      scatter l' (drop (iov_len v) bs)
        (match nodes !! iov_node v with
         | Some node => <[iov_node v := blit (iov_off v) (take (iov_len v) bs) node]> nodes
         | None => nodes
         end)
  end.

Definition fst_of {A} (p : prog ByteArray A) : prog (ByteArray * SS) A := fun s =>
  let '(r, ba) := p (fst s) in (r, (ba, snd s)).
Definition snd_of {A} (p : prog SS A) : prog (ByteArray * SS) A := fun s =>
  let '(r, m) := p (snd s) in (r, (fst s, m)).

Definition ss_read_ba (length : Z) : prog (ByteArray * SS) Z :=
  s ← gets id;
  if negb (ss_isConnected (snd s)) then mret (-1) else
  iovs ← fst_of (getWriteBuffers alloc (Z.to_nat length));
  r ← snd_of (on_sock (recv (sum_list (iov_len <$> fst iovs))));
  fst_of (modify (fun ba => set_nodes (scatter (fst iovs) (snd r) (m_nodes ba)) ba));;
  ba ← gets fst;
  (if 0 <? fst r then fst_of (setPosition (m_position ba + Z.to_nat (fst r))) else mret tt);;
  mret (fst r).

Definition ss_write_ba (length : Z) : prog (ByteArray * SS) Z :=
  s ← gets id;
  if negb (ss_isConnected (snd s)) then mret (-1) else
  iovs ← fst_of (fun ba => (getReadBuffers (Z.to_nat length) ba, ba));
  ba ← gets fst;
  rt ← snd_of (on_sock (send (gather (m_nodes ba) (fst iovs))));
  (if 0 <? rt then fst_of (setPosition (m_position ba + Z.to_nat rt)) else mret tt);;
  mret rt.
End socket_stream.
