(* ===== verification/StreamProps.v ===== *)
(** What [readFixSize] and [writeFixSize] promise over a stream that delivers
    its bytes in order, what a failing [read] does to them, and that receiving
    into a [ByteArray] is writing the received bytes to it. *)

From stdpp Require Import base list strings.
From coqutil Require Import Byte.
From S2P Require Import Prelude MachineInt ByteArray ByteArrayProps Address Socket Stream.
From Stdlib Require Import ZArith Lia.
Local Open Scope Z_scope.

(** * Streams that deliver their bytes in order *)

(** [pending w] are the bytes still to come. A [read] of [n > 0] gives some of
    them, finds none left, or fails without taking any. *)
Class Source {B W : Type} (read : Z -> prog W (Z * list B)) : Type := {
  pending : W -> list B;
  src_read n w : 0 < n -> exists rt bs w', read n w = (Ret (rt, bs), w') /\
    ((0 < rt < 2 ^ 31 /\ rt = Z.of_nat (length bs) /\ rt <= n /\ pending w = bs ++ pending w') \/
     (rt = 0 /\ bs = [] /\ pending w = [] /\ pending w' = []) \/
     (- 2 ^ 31 <= rt < 0 /\ bs = [] /\ pending w' = pending w))
}.
(** [accepted w] are the bytes the other side was given. *)
Class Sink {B W : Type} (write : list B -> prog W Z) : Type := {
  accepted : W -> list B;
  snk_write bs w : bs <> [] -> exists rt w', write bs w = (Ret rt, w') /\
    ((0 < rt < 2 ^ 31 /\ rt <= Z.of_nat (length bs) /\ accepted w' = accepted w ++ take (Z.to_nat rt) bs) \/
     (- 2 ^ 31 <= rt <= 0 /\ accepted w' = accepted w))
}.
Definition never_fails {B W} (read : Z -> prog W (Z * list B)) : Prop :=
  forall n w rt bs w', read n w = (Ret (rt, bs), w') -> 0 <= rt.

Lemma mem_store_ok {B} (mem bs : list B) addr : 0 <= addr -> addr + Z.of_nat (length bs) <= Z.of_nat (length mem) ->
  mem_store mem addr bs = Ret (blit (Z.to_nat addr) bs mem).
Proof.
  intros H1 H2. unfold mem_store. destruct bs as [|b bs]; [by rewrite blit_nil|].
  rewrite (proj2 (Z.leb_le _ _)), (proj2 (Z.leb_le _ _)) by done. done.
Qed.

Section fix_size.
Context {B W : Type}.

Lemma readFixSize_loop_ok (read : Z -> prog W (Z * list B)) {src : Source read} fuel mem buffer length0 offset left w :
  never_fails read -> 0 <= buffer -> 0 <= offset -> 0 <= left -> (Z.to_nat left `min` length (pending w) < fuel)%nat ->
  buffer + offset + left <= Z.of_nat (length mem) -> Z.of_nat (length mem) < 2 ^ 63 ->
  let got := take (Z.to_nat left) (pending w) in
  exists w', readFixSize_loop read fuel mem buffer length0 offset left w =
    (Ret (if decide (Z.of_nat (length got) = left) then sint 32 length0 else 0, blit (Z.to_nat (buffer + offset)) got mem), w') /\
    pending w' = drop (Z.to_nat left) (pending w).
Proof.
  intros Hnf Hb. revert mem offset left w. induction fuel as [|fuel IH]; intros mem offset left w Ho Hl Hf Hfit Hm got; [lia|].
  cbn [readFixSize_loop]. destruct (Z.eqb_spec left 0) as [->|Hne].
  - exists w. unfold got. change (Z.to_nat 0) with 0%nat. by rewrite take_0, drop_0, blit_nil.
  - destruct (src_read left w ltac:(lia)) as (rt & bs & w1 & E & Hr). pose proof (Hnf _ _ _ _ _ E) as Hrt. run E. cbn [fst snd].
    rewrite !(wrap_id 64 (buffer + offset)) by (unfold in_uint; lia).
    destruct Hr as [(Hp & -> & Hle & Hpend)|[(-> & -> & Hpend & Hpend')|(Hneg & _)]]; [| |lia].
    + rewrite mem_store_ok by lia.
      rewrite (wrap_id 64 (Z.of_nat (length bs))), (proj2 (Z.leb_gt _ _)) by (unfold in_uint; lia).
      rewrite !wrap_id by (unfold in_uint; lia).
      assert (length (blit (Z.to_nat (buffer + offset)) bs mem) = length mem) as Hlen by (apply length_blit; lia).
      destruct (IH (blit (Z.to_nat (buffer + offset)) bs mem) (offset + Z.of_nat (length bs)) (left - Z.of_nat (length bs)) w1)
        as (w' & -> & Hw'); rewrite ?Hlen; try lia.
      { rewrite Hpend, length_app in Hf. lia. }
      assert (take (Z.to_nat left) (pending w) = bs ++ take (Z.to_nat (left - Z.of_nat (length bs))) (pending w1)) as Hgot.
      { rewrite Hpend, take_app, (take_ge bs) by lia. do 2 f_equal. lia. }
      exists w'. unfold got. rewrite Hgot, length_app. split.
      * do 2 f_equal. f_equal.
        -- destruct (decide (_ = left - _)), (decide (_ = left)); try done; lia.
        -- replace (Z.to_nat (buffer + (offset + Z.of_nat (length bs)))) with (Z.to_nat (buffer + offset) + length bs)%nat by lia.
           apply blit_blit. lia.
      * rewrite Hw', Hpend, drop_app, (drop_ge bs) by lia. simpl. f_equal. lia.
    + unfold got. rewrite Hpend, take_nil, drop_nil. exists w1. simpl. rewrite blit_nil, decide_False by (simpl; lia). done.
Qed.

Lemma mem_load_ok (mem : list B) addr len : 0 <= addr -> addr + len <= Z.of_nat (length mem) ->
  mem_load mem addr len = Ret (slice (Z.to_nat addr) (Z.to_nat len) mem).
Proof. intros H1 H2. unfold mem_load. rewrite (proj2 (Z.leb_le _ _)), (proj2 (Z.leb_le _ _)) by done. done. Qed.

(** Only the bytes of the buffer are ever given to [write], in order. *)
Lemma writeFixSize_loop_ok (write : list B -> prog W Z) {snk : Sink write} fuel mem buffer length0 offset left w :
  (forall bs w rt w', write bs w = (Ret rt, w') -> 0 <= rt) ->
  0 <= buffer -> 0 <= offset -> 0 <= left -> (Z.to_nat left < fuel)%nat ->
  buffer + offset + left <= Z.of_nat (length mem) -> Z.of_nat (length mem) < 2 ^ 63 ->
  exists n w', 0 <= n <= left /\ writeFixSize_loop write fuel mem buffer length0 offset left w =
    (Ret (if decide (n = left) then sint 32 length0 else 0), w') /\
    accepted w' = accepted w ++ slice (Z.to_nat (buffer + offset)) (Z.to_nat n) mem.
Proof.
  intros Hnf Hb. revert offset left w. induction fuel as [|fuel IH]; intros offset left w Ho Hl Hf Hfit Hm; [lia|].
  cbn [writeFixSize_loop]. destruct (Z.eqb_spec left 0) as [->|Hne].
  - exists 0, w. rewrite slice_0, app_nil_r. done.
  - rewrite !(wrap_id 64 (buffer + offset)) by (unfold in_uint; lia). rewrite mem_load_ok by lia.
    set (bs := slice _ _ mem). assert (length bs = Z.to_nat left) as Hbs by (apply length_slice; lia).
    destruct (snk_write bs w) as (rt & w1 & E & Hr). { intros H0. rewrite H0 in Hbs. simpl in Hbs. lia. }
    pose proof (Hnf _ _ _ _ E) as Hrt. run E. destruct Hr as [(Hp & Hle & Hacc)|(Hz & Hacc)].
    + rewrite (wrap_id 64 rt), (proj2 (Z.leb_gt _ _)) by (unfold in_uint; lia). rewrite !wrap_id by (unfold in_uint; lia).
      destruct (IH (offset + rt) (left - rt) w1) as (n & w' & Hn & -> & Hw'); try lia.
      exists (rt + n), w'. split; [lia|]. split.
      * do 2 f_equal. destruct (decide (n = _)), (decide (_ = left)); try done; lia.
      * rewrite Hw', Hacc, <- app_assoc. f_equal.
        replace (Z.to_nat (rt + n)) with (Z.to_nat rt + Z.to_nat n)%nat by lia. rewrite slice_split. f_equal.
        -- unfold bs, slice. rewrite take_take. f_equal. lia.
        -- f_equal. lia.
    + assert (rt = 0) as -> by lia. exists 0, w1. simpl. rewrite decide_False by lia. rewrite Hacc, app_nil_r. done.
Qed.
End fix_size.

(** ** A socket whose system delivers in order is such a stream *)
Class OSBytes (W : Type) {os : OS W} : Type := {
  os_pending : W -> list byte;
  os_accepted : W -> list byte;
  os_recv_ok fd n w : (0 < n)%nat -> exists rt bs w', os_recv fd n w = ((rt, bs), w') /\
    ((0 < rt < 2 ^ 31 /\ rt = Z.of_nat (length bs) /\ rt <= Z.of_nat n /\ os_pending w = bs ++ os_pending w') \/
     (rt = 0 /\ bs = [] /\ os_pending w = [] /\ os_pending w' = []) \/
     (- 2 ^ 31 <= rt < 0 /\ bs = [] /\ os_pending w' = os_pending w));
  os_send_ok fd bs w : bs <> [] -> exists rt w', os_send fd bs w = (rt, w') /\
    ((0 < rt < 2 ^ 31 /\ rt <= Z.of_nat (length bs) /\ os_accepted w' = os_accepted w ++ take (Z.to_nat rt) bs) \/
     (- 2 ^ 31 <= rt <= 0 /\ os_accepted w' = os_accepted w))
}.

Definition sock_bytes {W} (f : W -> list byte) (m : option (sockst W)) : list byte :=
  match m with Some s => f (sk_os s) | None => [] end.

#[export] Instance ss_source {W} {os : OS W} {ob : OSBytes W} : Source (ss_read (W := W)).
Proof.
  refine {| pending := sock_bytes os_pending |}. intros n [s|] Hn.
  - unfold ss_read. run_pure. unfold id. simpl. destruct (isConnected (sk s)) eqn:Ec; simpl.
    + destruct (os_recv_ok (m_sock (sk s)) (Z.to_nat n) (sk_os s) ltac:(lia)) as (rt & bs & w' & E & H).
      unfold recv. unfold mbind, prog_bind, gets. rewrite Ec. unfold sys. rewrite E. simpl.
      eexists _, _, _. split; [reflexivity|]. simpl.
      assert (sint 32 rt = rt) as -> by (apply sint_id; [lia|unfold in_sint; simpl; lia]).
      destruct H as [(? & ? & ? & ?)|[H|H]]; [left|by right; left|by right; right]. split_and!; try done; lia.
    + eexists _, _, _. split; [reflexivity|]. right. right. done.
  - eexists _, _, _. split; [reflexivity|]. right. right. done.
Defined.

#[export] Instance ss_sink {W} {os : OS W} {ob : OSBytes W} : Sink (ss_write (W := W)).
Proof.
  refine {| accepted := sock_bytes os_accepted |}. intros bs [s|] Hn.
  - unfold ss_write. run_pure. unfold id. simpl. destruct (isConnected (sk s)) eqn:Ec; simpl.
    + destruct (os_send_ok (m_sock (sk s)) bs (sk_os s) Hn) as (rt & w' & E & H).
      unfold send. unfold mbind, prog_bind, gets. rewrite Ec. unfold sys. rewrite E. simpl.
      eexists _, _. split; [reflexivity|]. simpl.
      assert (sint 32 rt = rt) as -> by (apply sint_id; [lia|unfold in_sint; simpl; lia]). done.
    + eexists _, _. split; [reflexivity|]. by right.
  - eexists _, _. split; [reflexivity|]. by right.
Defined.

(** A stream in memory for examples: two bytes at a time in, one out. *)
Definition list_read {B} (n : Z) : prog (list B) (Z * list B) := fun w =>
  let bs := take (Z.to_nat n `min` 2) w in (Ret (Z.of_nat (length bs), bs), drop (Z.to_nat n `min` 2) w).
#[export] Instance list_source {B} : Source (list_read (B := B)).
Proof.
  refine {| pending := id |}. intros n w Hn. eexists _, _, _. split; [reflexivity|]. unfold id.
  destruct w as [|b w]; [right; left; by rewrite take_nil, drop_nil|]. left. rewrite take_drop. rewrite length_take. simpl length.
  split_and!; lia || done.
Defined.

(** Reading a fixed number of bytes into a buffer, from a stream that
    delivers in order and does not fail: the loop ends, and if that many bytes
    come they are in the buffer, in order, nothing else has changed, and the
    stream stands behind them; the result is the length as an [int]. If the
    stream ends before, the result is 0 and the bytes that came are stored. *)
Theorem readFixSize_exact {B W} (read : Z -> prog W (Z * list B)) {src : Source read} fuel mem buffer length0 w :
  never_fails read -> 0 <= buffer -> 0 <= length0 -> buffer + length0 <= Z.of_nat (length mem) ->
  Z.of_nat (length mem) < 2 ^ 63 -> (Z.to_nat length0 `min` length (pending w) < fuel)%nat ->
  let got := take (Z.to_nat length0) (pending w) in
  exists w', readFixSize read fuel mem buffer length0 w =
    (Ret (if decide (Z.of_nat (length got) = length0) then sint 32 length0 else 0, blit (Z.to_nat buffer) got mem), w') /\
    pending w' = drop (Z.to_nat length0) (pending w).
Proof.
  intros Hnf Hb Hl Hfit Hm Hf got. unfold readFixSize.
  destruct (readFixSize_loop_ok read fuel mem buffer length0 0 length0 w Hnf Hb) as (w' & E & H); try lia.
  rewrite E. exists w'. split; [|done]. by rewrite Z.add_0_r.
Qed.

Lemma readFixSize_exact_witness :
  exists w', readFixSize list_read 9 [0; 0; 0; 0; 0]%nat 1 3 [7; 8; 9; 6]%nat = (Ret (3, [0; 7; 8; 9; 0]%nat), w') /\ w' = [6]%nat.
Proof.
  destruct (readFixSize_exact list_read 9 [0; 0; 0; 0; 0]%nat 1 3 [7; 8; 9; 6]%nat) as (w' & E & H); try (simpl; lia).
  - intros n w rt bs w1 [= <- _ _]. lia.
  - exists w'. split; [exact E|exact H].
Defined.

(** Writing a buffer to a stream that takes bytes in order and does not
    fail: the loop ends, what the stream has taken is a prefix of the buffer,
    and the result is the length exactly if it took all of it (0 otherwise). *)
Theorem writeFixSize_exact {B W} (write : list B -> prog W Z) {snk : Sink write} fuel mem buffer length0 w :
  (forall bs w rt w', write bs w = (Ret rt, w') -> 0 <= rt) -> 0 <= buffer -> 0 <= length0 ->
  buffer + length0 <= Z.of_nat (length mem) -> Z.of_nat (length mem) < 2 ^ 63 -> (Z.to_nat length0 < fuel)%nat ->
  exists n w', 0 <= n <= length0 /\ writeFixSize write fuel mem buffer length0 w =
    (Ret (if decide (n = length0) then sint 32 length0 else 0), w') /\
    accepted w' = accepted w ++ slice (Z.to_nat buffer) (Z.to_nat n) mem.
Proof.
  intros Hnf Hb Hl Hfit Hm Hf. unfold writeFixSize.
  destruct (writeFixSize_loop_ok write fuel mem buffer length0 0 length0 w Hnf Hb) as (n & w' & Hn & E & H); try lia.
  rewrite Z.add_0_r in H. by exists n, w'.
Qed.

Definition list_write {B} (bs : list B) : prog (list B) Z := fun w =>
  (Ret (Z.of_nat (length bs `min` 1)), w ++ take (length bs `min` 1) bs).
#[export] Instance list_sink {B} : Sink (list_write (B := B)).
Proof.
  refine {| accepted := id |}. intros bs w Hn. eexists _, _. split; [reflexivity|]. unfold id.
  destruct (decide (length bs `min` 1 = 0)%nat) as [->|]; [right; rewrite take_0, app_nil_r; split; [lia|done]|].
  left. rewrite Nat2Z.id. split_and!; lia || done.
Defined.

Lemma writeFixSize_exact_witness :
  exists n w', 0 <= n <= 2 /\ writeFixSize list_write 9 [5; 6; 7]%nat 1 2 [4]%nat = (Ret (if decide (n = 2) then sint 32 2 else 0), w') /\
    w' = [4]%nat ++ slice 1 (Z.to_nat n) [5; 6; 7]%nat.
Proof.
  destruct (writeFixSize_exact list_write 9 [5; 6; 7]%nat 1 2 [4]%nat) as (n & w' & Hn & E & H); try (simpl; lia).
  - intros bs w rt w' [= <- _]. lia.
  - exists n, w'. split; [exact Hn|]. split; [exact E|exact H].
Defined.

(** A [read] that fails with -1 does not end [readFixSize], because the
    result is converted to [size_t] before it is tested: the loop goes on one
    place to the left with one byte more to read, stores the bytes that come
    next over the byte before, and never ends while the stream keeps failing. *)
Theorem readFixSize_ignores_failure {B W} (read : Z -> prog W (Z * list B)) fuel (mem : list B) buffer length0 offset left w w1 :
  0 < left < 2 ^ 63 -> 0 < offset -> 0 <= buffer -> buffer + offset < 2 ^ 63 -> read left w = (Ret (-1, []), w1) ->
  readFixSize_loop read (S fuel) mem buffer length0 offset left w =
    readFixSize_loop read fuel mem buffer length0 (offset - 1) (left + 1) w1 /\
  (forall k bs w2, 0 < k -> k = Z.of_nat (length bs) -> k <= left -> buffer + offset - 1 + k <= Z.of_nat (length mem) ->
     read (left + 1) w1 = (Ret (k, bs), w2) ->
     readFixSize_loop read (S (S fuel)) mem buffer length0 offset left w =
       readFixSize_loop read fuel (blit (Z.to_nat (buffer + offset - 1)) bs mem) buffer length0 (offset - 1 + k) (left + 1 - k) w2) /\
  ((forall n, read n w1 = (Ret (-1, []), w1)) -> Z.of_nat fuel < 2 ^ 63 ->
     readFixSize_loop read (S fuel) mem buffer length0 offset left w = (Crash NoFuel, w1)).
Proof.
  intros Hl Ho Hb Hbo E.
  assert (forall fuel w w1 offset left, 0 < left -> left + 1 < 2 ^ 64 -> read left w = (Ret (-1, []), w1) ->
    readFixSize_loop read (S fuel) mem buffer length0 offset left w =
    readFixSize_loop read fuel mem buffer length0 (wrap 64 (offset - 1)) (left + 1) w1) as Hstep.
  { clear. intros fuel w w1 offset left Hl Hl' E. cbn [readFixSize_loop]. rewrite (proj2 (Z.eqb_neq _ _)) by lia. run E.
    cbn [fst snd mem_store]. change (wrap 64 (-1)) with (2 ^ 64 - 1). rewrite (proj2 (Z.leb_gt _ _)) by lia. f_equal.
    - unfold wrap. replace (offset + (2 ^ 64 - 1)) with (offset - 1 + 1 * 2 ^ 64) by lia. by rewrite Z.mod_add by lia.
    - unfold wrap. replace (left - (2 ^ 64 - 1)) with (left + 1 + (-1) * 2 ^ 64) by lia. rewrite Z.mod_add by lia.
      apply Z.mod_small. lia. }
  split_and!.
  - rewrite (Hstep _ w w1 offset left) by (exact E || lia). by rewrite wrap_id by (unfold in_uint; lia).
  - intros k bs w2 Hk Hkl Hkle Hfit E2. rewrite (Hstep _ w w1 offset left) by (exact E || lia).
    rewrite (wrap_id 64 (offset - 1)) by (unfold in_uint; lia).
    cbn [readFixSize_loop]. rewrite (proj2 (Z.eqb_neq _ _)) by lia. run E2. cbn [fst snd].
    rewrite (wrap_id 64 (buffer + (offset - 1))) by (unfold in_uint; lia). rewrite mem_store_ok by lia.
    rewrite (wrap_id 64 k), (proj2 (Z.leb_gt _ _)) by (unfold in_uint; lia). rewrite !wrap_id by (unfold in_uint; lia).
    do 2 f_equal. lia.
  - intros Hall Hf. rewrite (Hstep _ w w1 offset left) by (exact E || lia). clear E.
    assert (0 < left + 1 /\ left + 1 + Z.of_nat fuel < 2 ^ 64) as Hb2 by lia. revert Hb2.
    generalize (wrap 64 (offset - 1)), (left + 1). clear Hl Ho Hbo Hf. induction fuel as [|fuel IH]; intros o l Hb2.
    + cbn [readFixSize_loop]. by rewrite (proj2 (Z.eqb_neq _ _)) by lia.
    + rewrite (Hstep fuel w1 w1 o l) by (done || lia). apply IH. lia.
Qed.

(** Two bytes come, the stream fails once, two more come: the second byte is
    overwritten, and one byte more than asked for is taken from the stream. *)
Definition failing_read (n : Z) : prog (list (option (list nat))) (Z * list nat) := fun w =>
  match w with
  | [] => (Ret (0, []), [])
  | None :: w' => (Ret (-1, []), w')
  | Some bs :: w' => (Ret (Z.of_nat (length (take (Z.to_nat n) bs)), take (Z.to_nat n) bs), w')
  end.
Lemma readFixSize_ignores_failure_witness :
  let w := [None; Some [3; 4]; Some [5; 6]]%nat in
  out (readFixSize failing_read 9 [0; 0; 0; 0]%nat 0 4) (Some [1; 2]%nat :: w) = Ret (4, [1; 3; 4; 5]%nat) /\
  readFixSize_loop failing_read 8 [1; 2; 0; 0]%nat 0 4 2 2 w =
    readFixSize_loop failing_read 7 [1; 2; 0; 0]%nat 0 4 1 3 [Some [3; 4]; Some [5; 6]]%nat.
Proof.
  intros w. split; [vm_compute; reflexivity|].
  destruct (readFixSize_ignores_failure failing_read 7 [1; 2; 0; 0]%nat 0 4 2 2 w [Some [3; 4]; Some [5; 6]]%nat) as [H _];
    try lia; [reflexivity|]. exact H.
Defined.

(** * Receiving into and sending from a [ByteArray] *)

Local Open Scope nat_scope.

(** The views of [getWriteBuffers] put the bytes behind the position. *)
Lemma iov_loop_scatter b fuel nodes cur len npos l :
  blocks_of b nodes -> npos < b -> cur * b + npos + len <= length nodes * b ->
  iov_loop fuel nodes cur len npos (b - npos) = Ret l ->
  forall nodes' bs, blocks_of b nodes' -> length nodes' = length nodes -> length bs <= len ->
    concat (scatter l bs nodes') = blit (cur * b + npos) bs (concat nodes') /\
    blocks_of b (scatter l bs nodes') /\ length (scatter l bs nodes') = length nodes'.
Proof.
  intros Hbl. revert cur len npos l. induction fuel as [|fuel IH]; intros cur len npos l Hn Hfit El nodes' bs Hbl' Hlen Hbs.
  { destruct len as [|len]; [|done]. simpl in El. simplify_eq. destruct bs; [|simpl in Hbs; lia]. by rewrite blit_nil. }
  destruct len as [|len']; [simpl in El; simplify_eq; destruct bs; [|simpl in Hbs; lia]; by rewrite blit_nil|].
  cbn [iov_loop] in El. set (len := S len') in *. assert (cur < length nodes) as Hcur by nia.
  destruct (lookup_lt_is_Some_2 _ _ Hcur) as [node Hnode]. rewrite Hnode in El.
  destruct (lookup_lt_is_Some_2 nodes' cur) as [nd Hnd]; [lia|].
  destruct (Nat.leb_spec len (b - npos)) as [Hle|Hgt].
  - simplify_eq. cbn [scatter iov_node iov_len iov_off]. rewrite Hnd, take_ge by lia.
    split_and!; [apply (blit_concat b); done || lia|apply blocks_of_insert; done || lia|by rewrite length_insert].
  - assert (S cur < length nodes) as Hcur' by nia. destruct (lookup_lt_is_Some_2 _ _ Hcur') as [next Hnext].
    rewrite Hnext, (blocks_of_lookup _ _ _ _ Hbl Hnext) in El.
    destruct (iov_loop fuel nodes (S cur) (len - (b - npos)) 0 b) as [l'| |] eqn:E; try done. simplify_eq.
    cbn [scatter iov_node iov_len iov_off]. rewrite Hnd.
    assert (length (take (b - npos) bs) <= b - npos) as Ht by (rewrite length_take; lia).
    assert (blocks_of b (<[cur:=blit npos (take (b - npos) bs) nd]> nodes')) as Hbl2 by (apply blocks_of_insert; done || lia).
    assert (iov_loop fuel nodes (S cur) (len - (b - npos)) 0 (b - 0) = Ret l') as E' by (by rewrite Nat.sub_0_r).
    destruct (IH (S cur) (len - (b - npos)) 0 l' ltac:(lia) ltac:(lia) E' (<[cur:=blit npos (take (b - npos) bs) nd]> nodes')
                (drop (b - npos) bs)) as (H1 & H2 & H3); [done|by rewrite length_insert|rewrite length_drop; lia|].
    rewrite length_insert in H3. split_and!; [|done|lia].
    rewrite H1, (blit_concat b) by (done || lia).
    destruct (decide (length bs <= b - npos)) as [Hs|Hs].
    + rewrite drop_ge, blit_nil, take_ge by lia. done.
    + replace (S cur * b + 0) with (cur * b + npos + length (take (b - npos) bs)) by (rewrite length_take; lia).
      rewrite blit_blit, take_drop; [done|]. rewrite (length_concat_blocks b) by done. lia.
Qed.

Lemma setPosition_any ba v : wf ba -> v <= m_capacity ba ->
  let ba' := set_cur (v / m_baseSize ba) (set_size (m_size ba `max` v) (set_pos v ba)) in
  setPosition v ba = (Ret tt, ba') /\ wf ba'.
Proof.
  intros H Hv. destruct (decide (v <= m_size ba)) as [Hle|Hgt].
  - rewrite setPosition_ok by done. rewrite Nat.max_l by done. split; [done|]. destruct H. by split; simpl.
  - unfold setPosition. run_pure. unfold id. rewrite (proj2 (Nat.ltb_ge _ _)) by done. run_pure. simpl.
    rewrite (proj2 (Nat.ltb_lt _ _)) by lia. rewrite (seek_loop_spec (m_baseSize ba)); try apply H.
    2: { rewrite <- (wf_capacity _ H). done. }
    rewrite Nat.max_r by lia. split; [done|]. destruct H. by split; simpl.
Qed.

Section transfer.
Context {W : Type} {os : OS W} (alloc : nat -> nat -> byte).

Lemma recv_run s n rt bs (w' : W) : isConnected (sk s) = true -> os_recv (m_sock (sk s)) n (sk_os s) = ((rt, bs), w') ->
  on_sock (recv n) (Some s) = (Ret (sint 32 rt, bs), Some (mkSockst (sk s) w' (sk_opened s) (sk_closed s))).
Proof. intros Hc E. unfold on_sock, recv, mbind, prog_bind, gets. rewrite Hc. unfold sys. by rewrite E. Qed.
Lemma send_run s data rt (w' : W) : isConnected (sk s) = true -> os_send (m_sock (sk s)) data (sk_os s) = (rt, w') ->
  on_sock (send data) (Some s) = (Ret (sint 32 rt), Some (mkSockst (sk s) w' (sk_opened s) (sk_closed s))).
Proof. intros Hc E. unfold on_sock, send, mbind, prog_bind, gets. rewrite Hc. unfold sys. by rewrite E. Qed.

Lemma fst_of_run {A} (p : prog ByteArray A) ba m a ba' : p ba = (Ret a, ba') -> fst_of (W := W) p (ba, m) = (Ret a, (ba', m)).
Proof. intros E. unfold fst_of. simpl. by rewrite E. Qed.
Lemma snd_of_run {A} (p : prog (option (sockst W)) A) ba m a m' : p m = (Ret a, m') -> snd_of p (ba, m) = (Ret a, (ba, m')).
Proof. intros E. unfold snd_of. simpl. by rewrite E. Qed.

(** [getWriteBuffers] gives views of [len] cells, and the bytes scattered into
    them are a copy behind the position. *)
Lemma getWriteBuffers_scatter len ba : wf ba -> 0 < len -> exists l ba', getWriteBuffers alloc len ba = (Ret (l, len), ba') /\
  wf ba' /\ contents ba' = contents ba /\ m_position ba' = m_position ba /\ m_size ba' = m_size ba /\
  m_baseSize ba' = m_baseSize ba /\ m_position ba' + len <= m_capacity ba' /\ sum_list (iov_len <$> l) = len /\
  forall bs, length bs <= len ->
    concat (scatter l bs (m_nodes ba')) = blit (m_position ba) bs (concat (m_nodes ba')) /\
    wf (set_nodes (scatter l bs (m_nodes ba')) ba').
Proof.
  intros H Hlen. unfold getWriteBuffers. rewrite (proj2 (Nat.eqb_neq _ _)) by lia. run_pure. unfold id.
  destruct (addCapacity_spec alloc len ba H) as (H1 & Hc & Hp & Hsz & [Hb _] & Hcap & _).
  set (ba' := addCapacity alloc len ba) in *.
  destruct (iov_from_spec ba' len H1) as (l & El & _ & Hsum); [lia|lia|]. rewrite El.
  exists l, ba'. split_and!; try done; [lia|]. intros bs Hbs. unfold iov_from in El.
  destruct (wf_cur_node ba' H1) as (node & Hnode & Hnl); [lia|]. rewrite Hnode, Hnl in El.
  destruct (iov_loop _ _ _ _ _ _) as [l0| |] eqn:E0; [|done..]. injection El as ->.
  pose proof (pos_split _ H1) as Hps. pose proof (wf_base _ H1).
  assert (m_position ba' mod m_baseSize ba' < m_baseSize ba') as Hmod by (apply Nat.mod_upper_bound; lia).
  assert (m_cur ba' * m_baseSize ba' + m_position ba' mod m_baseSize ba' + len <= length (m_nodes ba') * m_baseSize ba') as Hfit
    by (rewrite <- Hps, <- (wf_capacity _ H1); lia).
  destruct (iov_loop_scatter _ _ _ _ _ _ _ (wf_blocks _ H1) Hmod Hfit E0 (m_nodes ba') bs (wf_blocks _ H1) eq_refl Hbs)
    as (A1 & A2 & A3).
  rewrite <- Hps, Hp in A1. split; [done|]. destruct H1. split; simpl; try done; [|by rewrite A3].
  intros A4. rewrite A4 in A3. simpl in A3. by destruct (m_nodes ba').
Qed.
End transfer.

(** C30: Receiving into a [ByteArray] is writing to it the bytes that were
    received, and sending from one hands the system the unread bytes and
    moves the position past those it took: over all block sizes, the buffer
    afterwards is the one the plain byte buffer of the specification has. *)
Theorem bytearray_transfer {W} {os : OS W} alloc len ba (s : sockst W) : wf ba -> isConnected (sk s) = true -> 0 < len ->
  (forall bs w', os_recv (m_sock (sk s)) len (sk_os s) = ((Z.of_nat (length bs), bs), w') ->
     0 < length bs <= len -> (Z.of_nat len < 2 ^ 31)%Z ->
     exists ba' m', ss_read_ba alloc (Z.of_nat len) (ba, Some s) = (Ret (Z.of_nat (length bs)), (ba', m')) /\ wf ba' /\
       spec_op (OpWrite bs) (abs ba) = Some (Ret [], abs ba')) /\
  (forall k w', let data := slice (m_position ba) (len `min` getReadSize ba) (contents ba) in
     os_send (m_sock (sk s)) data (sk_os s) = (Z.of_nat k, w') -> 0 < k <= length data -> (Z.of_nat (length data) < 2 ^ 31)%Z ->
     exists ba' m', ss_write_ba (Z.of_nat len) (ba, Some s) = (Ret (Z.of_nat k), (ba', m')) /\ wf ba' /\
       abs ba' = mkBuffer (contents ba) (m_position ba + k)).
Proof.
  intros H Hc Hlen. split.
  - intros bs w' E Hb H31. unfold ss_read_ba. run_pure. unfold id. cbn [ss_isConnected snd]. rewrite Hc. cbn [negb]. rewrite Nat2Z.id.
    destruct (getWriteBuffers_scatter alloc len ba H Hlen) as (l & ba1 & E1 & W1 & C1 & P1 & S1 & B1 & K1 & Hsum & Hsc).
    run (fst_of_run (W := W) _ ba (Some s) _ _ E1). cbn [fst snd]. unfold id in Hsum. rewrite Hsum.
    run (snd_of_run _ ba1 (Some s) _ _ (recv_run s len _ bs w' Hc E)). cbn [fst snd].
    destruct (Hsc bs ltac:(lia)) as [A1 W2]. set (ba2 := set_nodes _ ba1) in *.
    run (fst_of_run (W := W) (modify (fun ba => set_nodes (scatter l bs (m_nodes ba)) ba)) ba1
           (Some (mkSockst (sk s) w' (sk_opened s) (sk_closed s))) tt ba2 eq_refl). run_pure. cbn [fst snd].
    rewrite sint_id by (unfold in_sint; lia). rewrite (proj2 (Z.ltb_lt _ _)) by lia. rewrite Nat2Z.id.
    destruct (setPosition_any ba2 (m_position ba2 + length bs) W2 ltac:(simpl in *; lia)) as [E3 W3].
    run (fst_of_run (W := W) _ ba2 (Some (mkSockst (sk s) w' (sk_opened s) (sk_closed s))) _ _ E3).
    eexists _, _. split; [reflexivity|]. split; [exact W3|]. unfold spec_op, abs. cbn [b_data b_pos]. do 2 f_equal.
    unfold contents at 2. simpl. rewrite A1, P1, S1.
    rewrite take_blit; [by rewrite <- S1; fold (contents ba1); rewrite C1|apply H|..].
    + pose proof (wf_size _ W1). rewrite (wf_length _ W1). lia.
    + rewrite (wf_length _ W1). lia.
  - intros k w' data E Hk H31. unfold ss_write_ba. run_pure. unfold id. cbn [ss_isConnected snd]. rewrite Hc. cbn [negb]. rewrite Nat2Z.id.
    assert (exists l, getReadBuffers len ba = Ret (l, len `min` getReadSize ba) /\ gather (m_nodes ba) l = data) as (l & El & Hg).
    { unfold getReadBuffers. set (n := if getReadSize ba <? len then _ else _).
      assert (n = len `min` getReadSize ba) as Hn by (unfold n; destruct (Nat.ltb_spec (getReadSize ba) len); lia).
      assert (length data <= n) by (unfold data, slice; rewrite length_take; lia).
      rewrite <- Hn. destruct (Nat.eqb_spec n 0) as [Hn0|Hn0]; [lia|].
      assert (m_position ba + n <= m_size ba) as Hs by (unfold getReadSize in *; pose proof (wf_position _ H); lia).
      destruct (iov_from_spec ba n H) as (l & -> & Hgl & _); [lia|pose proof (wf_size _ H); lia|].
      exists l. split; [done|]. rewrite Hgl by (done || apply H). unfold data. rewrite <- Hn. by apply slice_contents. }
    assert ((fun ba : ByteArray => (getReadBuffers len ba, ba)) ba = (Ret (l, len `min` getReadSize ba), ba)) as Er by (by rewrite El).
    run (fst_of_run (W := W) (fun ba => (getReadBuffers len ba, ba)) ba (Some s) _ _ Er). run_pure. cbn [fst snd]. rewrite Hg.
    run (snd_of_run _ ba (Some s) _ _ (send_run s data _ w' Hc E)). rewrite sint_id by (unfold in_sint; lia).
    rewrite (proj2 (Z.ltb_lt _ _)) by lia. rewrite Nat2Z.id.
    assert (m_position ba + k <= m_size ba) as Hps.
    { unfold data, slice in Hk. rewrite length_take, length_drop, (length_contents _ H) in Hk. lia. }
    run (fst_of_run (W := W) _ ba (Some (mkSockst (sk s) w' (sk_opened s) (sk_closed s))) _ _ (setPosition_ok ba _ H Hps)).
    eexists _, _. split; [reflexivity|]. split; [by apply wf_setPosition|]. done.
Qed.

(** A system for examples: two bytes at a time from a list. *)
#[local] Instance pair_os : OS (list byte) := {|
  os_socket _ _ _ w := (-1, w)%Z; os_accept _ w := (-1, w)%Z; os_bind _ _ w := (0, w)%Z; os_connect _ _ _ w := (0, w)%Z;
  os_listen _ _ w := (0, w)%Z; os_close _ w := w;
  os_send _ d w := (Z.of_nat (length d `min` 2), w);
  os_recv _ n w := ((Z.of_nat (length (take (n `min` 2) w)), take (n `min` 2) w), drop (n `min` 2) w);
  os_setsockopt _ _ _ _ w := (0, w)%Z; os_name _ _ _ w := (None, w); os_fdctx _ _ := true
|}.
Definition pair_sock (w : list byte) : sockst (list byte) := mkSockst (set_connected true (set_sock 7%Z CreateTCPSocket)) w [7%Z] [].

Lemma bytearray_transfer_witness :
  let ba := new_ByteArray (fun _ _ => Byte.x00) 1 in
  exists ba' m', ss_read_ba (fun _ _ => Byte.x00) 3 (ba, Some (pair_sock [Byte.x01; Byte.x02; Byte.x03])) = (Ret 2%Z, (ba', m')) /\
    contents ba' = [Byte.x01; Byte.x02].
Proof.
  intros ba. assert (W0 : wf ba) by (apply wf_new; lia).
  destruct (bytearray_transfer (fun _ _ => Byte.x00) 3 ba (pair_sock [Byte.x01; Byte.x02; Byte.x03]) W0 eq_refl ltac:(lia)) as [H _].
  destruct (H [Byte.x01; Byte.x02] [Byte.x03] eq_refl ltac:(simpl; lia) ltac:(simpl; lia)) as (ba' & m' & E & _ & Es).
  exists ba', m'. split; [exact E|]. injection Es as Ec _. rewrite <- Ec. vm_compute. reflexivity.
Defined.

(** Asked for three bytes, [readFixSize] on a [ByteArray] asks for three again
    after it got two, takes four, and then reads on to the end of the stream. *)
Lemma readFixSize_ba_overreads :
  let r := readFixSize_ba (ss_read_ba (fun _ _ => Byte.x00)) 9 3
             (new_ByteArray (fun _ _ => Byte.x00) 8, Some (pair_sock [Byte.x01; Byte.x02; Byte.x03; Byte.x04; Byte.x05])) in
  fst r = Ret 0%Z /\ contents (fst (snd r)) = [Byte.x01; Byte.x02; Byte.x03; Byte.x04; Byte.x05].
Proof. vm_compute. done. Qed.
