(* ===== verification/Zlib.v ===== *)
(** [sherry/streams/zlib_stream.h], [zlib_stream.cc]: compression and
    decompression through a chain of output buffers.

    zlib is the interface [Zlib]: a call of [deflate] or [inflate] gets the
    input that is left, the room for output and the flush mode, and gives its
    result, the input it has left and the bytes it stored.  A buffer of
    [m_buffs] is the [iov_len] bytes that are in use.  [z_stream::avail_in] has
    32 bits, the length of a piece 64. *)

From stdpp Require Import base list strings.
From coqutil Require Import Byte.
From S2P Require Import Prelude MachineInt ByteArray ByteArrayProps.
From Stdlib Require Import ZArith Lia.
Local Open Scope Z_scope.

Inductive zlib_type : Type := ZLIB | DEFLATE | GZIP.
Inductive zlib_flush : Type := Z_NO_FLUSH | Z_FINISH.
Definition Z_OK : Z := 0.
Definition Z_STREAM_ERROR : Z := -2.
Definition DEFAULT_COMPRESSION : Z := -1.

(** What a call of [deflate] or [inflate] gives. *)
Record coded (St : Type) : Type := mkCoded { co_ret : Z; co_st : St; co_left : list byte; co_out : list byte }.
Arguments mkCoded {St}. Arguments co_ret {St} c. Arguments co_st {St} c. Arguments co_left {St} c. Arguments co_out {St} c.

Class Zlib (St : Type) : Type := {
  z_zero : St;                                            (* after [memset] *)
  deflateInit2 : Z -> Z -> Z -> Z -> St -> Z * St;        (* level, window bits, memory level, strategy *)
  inflateInit2 : Z -> St -> Z * St;
  deflate : St -> list byte -> Z -> zlib_flush -> coded St;
  inflate : St -> list byte -> Z -> zlib_flush -> coded St;
  deflateEnd : St -> St;
  inflateEnd : St -> St
}.

Record ZlibStream (St : Type) : Type := mkZlib {
  m_zstream : St; next_in : list byte; m_buffSize : Z; m_encode : bool; m_free : bool; m_buffs : list (list byte)
}.
Arguments mkZlib {St}. Arguments m_zstream {St} z. Arguments next_in {St} z. Arguments m_buffSize {St} z.
Arguments m_encode {St} z. Arguments m_free {St} z. Arguments m_buffs {St} z.

Section zlib.
Context {St : Type} {zl : Zlib St}.
Abbreviation ZS := (ZlibStream St).
Implicit Types (s : ZS) (v : list (list byte)).

Definition set_z (z : St) (input : list byte) (buffs : list (list byte)) s : ZS :=
  mkZlib z input (m_buffSize s) (m_encode s) (m_free s) buffs.

Definition new_ZlibStream (encode : bool) (buff_size : Z) : ZS := mkZlib z_zero [] buff_size encode true [].

Definition init (type : zlib_type) (level window_bits memlevel strategy : Z) : prog ZS Z := fun s =>
  if negb (((0 <=? level) && (level <=? 9)) || (level =? DEFAULT_COMPRESSION)) then (Crash AssertFail, s) else
  if negb ((8 <=? window_bits) && (window_bits <=? 15)) then (Crash AssertFail, s) else
  if negb ((1 <=? memlevel) && (memlevel <=? 9)) then (Crash AssertFail, s) else
  let window_bits := match type with DEFLATE => - window_bits | GZIP => window_bits + 16 | ZLIB => window_bits end in
  let '(ret, z) := if m_encode s then deflateInit2 level window_bits memlevel strategy z_zero else inflateInit2 window_bits z_zero in
  (Ret ret, set_z z (next_in s) (m_buffs s) s).

(** [Create]; [None] is the null pointer. *)
Definition Create (encode : bool) (buff_size : Z) (type : zlib_type) (level window_bits memlevel strategy : Z) : outcome (option ZS) :=
  let '(o, s) := init type level window_bits memlevel strategy (new_ZlibStream encode buff_size) in
  match o with
  | Ret rt => Ret (if rt =? Z_OK then Some s else None)
  | Throw e => Throw e
  | Crash f => Crash f
  end.
Definition CreateGzip (encode : bool) (buff_size : Z) : outcome (option ZS) := Create encode buff_size GZIP DEFAULT_COMPRESSION 15 8 0.
Definition CreateZlib (encode : bool) (buff_size : Z) : outcome (option ZS) := Create encode buff_size ZLIB DEFAULT_COMPRESSION 15 8 0.
Definition CreateDeflate (encode : bool) (buff_size : Z) : outcome (option ZS) := Create encode buff_size DEFLATE DEFAULT_COMPRESSION 15 8 0.

(** ** [encode] and [decode]: the same loops over [deflate] and [inflate] *)

(** The buffer to fill: the last one if it has room, else a new one; given as
    the buffers before it and its bytes. *)
Definition open_buff s : list (list byte) * list byte :=
  match last (m_buffs s) with
  | Some b => if Z.of_nat (length b) =? m_buffSize s then (m_buffs s, []) else (removelast (m_buffs s), b)
  | None => ([], [])
  end.

(** The [do ... while(avail_out == 0)] loop. *)
Fixpoint fill (run : St -> list byte -> Z -> zlib_flush -> coded St) (fuel : nat) (fl : zlib_flush) : prog ZS Z := fun s =>
  match fuel with
  | O => (Crash NoFuel, s)
  | S fuel' =>
      let '(full, b) := open_buff s in
      let avail_out := wrap 32 (m_buffSize s - Z.of_nat (length b)) in
      let r := run (m_zstream s) (next_in s) avail_out fl in
      if co_ret r =? Z_STREAM_ERROR then (Ret Z_STREAM_ERROR, set_z (co_st r) (co_left r) (full ++ [b]) s)
      else
        let s' := set_z (co_st r) (co_left r) (full ++ [b ++ co_out r]) s in
        if avail_out - Z.of_nat (length (co_out r)) =? 0 then fill run fuel' fl s' else (Ret Z_OK, s')
  end.

(** The loop over the pieces, and the end of the stream after [Z_FINISH]. *)
Fixpoint code (run : St -> list byte -> Z -> zlib_flush -> coded St) (end_ : St -> St) (fuel : nat) v (finish : bool) : prog ZS Z :=
  match v with
  | [] => mret Z_OK
  | p :: v' =>
      let fl := if finish then match v' with [] => Z_FINISH | _ => Z_NO_FLUSH end else Z_NO_FLUSH in
      modify (fun s => set_z (m_zstream s) (take (Z.to_nat (wrap 32 (Z.of_nat (length p)))) p) (m_buffs s) s);;
      ret ← fill run fuel fl;
      if ret =? Z_STREAM_ERROR then mret ret else
      match v' with
      | [] => (match fl with Z_FINISH => modify (fun s => set_z (end_ (m_zstream s)) (next_in s) (m_buffs s) s) | Z_NO_FLUSH => mret tt end);;
              mret Z_OK
      | _ => code run end_ fuel v' finish
      end
  end.
Definition encode (fuel : nat) v (finish : bool) : prog ZS Z := code deflate deflateEnd fuel v finish.
Definition decode (fuel : nat) v (finish : bool) : prog ZS Z := code inflate inflateEnd fuel v finish.
Definition code_one (fuel : nat) v (finish : bool) : prog ZS Z := fun s => if m_encode s then encode fuel v finish s else decode fuel v finish s.

Definition zread (length : Z) : prog ZS Z := throw "ZlibStream::read is invalid".
Definition write (fuel : nat) (buffer : list byte) : prog ZS Z := code_one fuel [buffer] false.
(** [write(ba, length)]: the unread bytes, the position stays. *)
Definition write_ba (fuel : nat) (ba : ByteArray) (length : nat) : prog ZS Z :=
  match getReadBuffers length ba with
  | Ret (buffers, _) => code_one fuel (iov_bytes (m_nodes ba) <$> buffers) false
  | Throw e => throw e
  | Crash f => crash f
  end.
Definition flush (fuel : nat) : prog ZS Z := code_one fuel [[]] true.
Definition close (fuel : nat) : prog ZS unit := flush fuel;; mret tt.
Definition getResult s : list byte := concat (m_buffs s).
(** [getByteArray()]: the buffers written to a new [ByteArray], read from its
    start. *)
Fixpoint write_all (alloc : nat -> nat -> byte) (l : list (list byte)) : prog ByteArray unit :=
  match l with [] => mret tt | b :: l' => ByteArray.write alloc b;; write_all alloc l' end.
Definition getByteArray (alloc : nat -> nat -> byte) s : outcome ByteArray :=
  let '(o, ba) := (write_all alloc (m_buffs s);; setPosition 0) (new_ByteArray alloc 4096) in
  match o with Ret _ => Ret ba | Throw e => Throw e | Crash f => Crash f end.
(** The destructor: how many buffers it frees, and the stream after its end. *)
Definition delete_ZlibStream s : nat * St :=
  (if m_free s then length (m_buffs s) else O, if m_encode s then deflateEnd (m_zstream s) else inflateEnd (m_zstream s)).
End zlib.

(** * What zlib documents of [deflate]

    [z_in] and [z_out] are the bytes counted by [total_in] and [total_out];
    [z_todo] bounds the output that is still to come (as [deflateBound] does);
    [z_expand] is the decompression of a complete stream.  A call compresses as
    much as it can and stops when the input is empty or the output full; with
    [Z_FINISH] and room left the stream is complete. *)
Class DeflateOk (St : Type) {zl : Zlib St} : Type := {
  z_ready : St -> Prop;
  z_done : St -> Prop;
  z_in : St -> list byte;
  z_out : St -> list byte;
  z_todo : St -> list byte -> zlib_flush -> nat;
  z_expand : list byte -> option (list byte);
  deflateInit2_ok level bits mem strategy st : deflateInit2 level bits mem strategy z_zero = (Z_OK, st) ->
    z_ready st /\ z_in st = [] /\ z_out st = [];
  deflate_ok st input room fl : z_ready st -> 0 < room -> let r := deflate st input room fl in
    co_ret r <> Z_STREAM_ERROR /\ z_ready (co_st r) /\
    Z.of_nat (length (co_out r)) <= room /\ z_out (co_st r) = z_out st ++ co_out r /\
    z_in (co_st r) ++ co_left r = z_in st ++ input /\
    (z_todo (co_st r) (co_left r) fl + length (co_out r) <= z_todo st input fl)%nat /\
    (Z.of_nat (length (co_out r)) < room -> co_left r = [] /\ (fl = Z_FINISH -> z_done (co_st r)));
  z_done_expand st : z_done st -> z_expand (z_out st) = Some (z_in st)
}.

Section zlib_props.
Context {St : Type} {zl : Zlib St} {ok : DeflateOk St}.
Abbreviation ZS := (ZlibStream St).
Implicit Types (s : ZS).

(** All buffers but the last are full, the last is not overfull, and together
    they hold the output. *)
Record zinv (size : Z) s : Prop := {
  zi_size : m_buffSize s = size; zi_enc : m_encode s = true; zi_ready : z_ready (m_zstream s);
  zi_out : getResult s = z_out (m_zstream s);
  zi_full : Forall (fun b => Z.of_nat (length b) = size) (removelast (m_buffs s));
  zi_last : forall b, last (m_buffs s) = Some b -> Z.of_nat (length b) <= size
}.

Lemma removelast_snoc {A} (l : list A) x : removelast (l ++ [x]) = l.
Proof. by rewrite removelast_app, app_nil_r. Qed.
Lemma last_split {A} (l : list A) x : last l = Some x -> l = removelast l ++ [x].
Proof. intros H. apply last_Some in H as [l' ->]. by rewrite removelast_snoc. Qed.

Lemma open_buff_spec size s full b : 0 < size -> zinv size s -> open_buff s = (full, b) ->
  concat full ++ b = getResult s /\ Forall (fun x => Z.of_nat (length x) = size) full /\ Z.of_nat (length b) < size.
Proof.
  intros Hs I. unfold open_buff, getResult. rewrite (zi_size _ _ I). destruct (last (m_buffs s)) as [c|] eqn:L.
  - pose proof (zi_last _ _ I c L) as Hc. pose proof (zi_full _ _ I) as F. pose proof (last_split _ _ L) as E.
    destruct (Z.eqb_spec (Z.of_nat (length c)) size) as [Hl|Hl]; intros [= <- <-].
    + rewrite app_nil_r. split_and!; [done| |simpl; lia]. rewrite E. apply Forall_app. split; [done|by constructor].
    + split_and!; [|done|lia]. rewrite E at 2. by rewrite concat_app; simpl; rewrite app_nil_r.
  - intros [= <- <-]. apply last_None in L. rewrite L. split_and!; [done|constructor|simpl; lia].
Qed.

Lemma fill_mono run fuel fl s x s' fuel' :
  fill run fuel fl s = (Ret x, s') -> (fuel <= fuel')%nat -> fill run fuel' fl s = (Ret x, s').
Proof.
  revert fuel' s; induction fuel as [|fuel IH]; intros fuel' s; [done|]. destruct fuel' as [|fuel']; [lia|].
  cbn [fill]. destruct (open_buff s) as [full b]. intros H L. case_match; [done|]. case_match; [|done]. apply IH; [done|lia].
Qed.

Lemma fill_spec size fl fuel s : 0 < size < 2 ^ 32 -> zinv size s ->
  (z_todo (m_zstream s) (next_in s) fl < fuel)%nat -> exists s',
    fill deflate fuel fl s = (Ret Z_OK, s') /\ zinv size s' /\ next_in s' = [] /\
    z_in (m_zstream s') = z_in (m_zstream s) ++ next_in s /\ (fl = Z_FINISH -> z_done (m_zstream s')).
Proof.
  intros Hs. revert s; induction fuel as [|fuel IH]; intros s I Hf; [lia|]. cbn [fill].
  destruct (open_buff s) as [full b] eqn:O. destruct (open_buff_spec size s full b) as (C & F & B); [lia|done..|].
  rewrite (zi_size _ _ I). set (room := wrap 32 (size - Z.of_nat (length b))).
  assert (room = size - Z.of_nat (length b)) as Hroom by (apply wrap_id; split; lia).
  destruct (deflate_ok (m_zstream s) (next_in s) room fl (zi_ready _ _ I)) as (R & Rd & Ln & Out & In & Td & Last); [lia|].
  set (r := deflate (m_zstream s) (next_in s) room fl) in *.
  rewrite (proj2 (Z.eqb_neq _ _) R). set (s1 := set_z (co_st r) (co_left r) (full ++ [b ++ co_out r]) s).
  assert (I1 : zinv size s1).
  { split; simpl; [apply I|apply I|done| | |].
    - unfold getResult. simpl. rewrite concat_app. simpl. rewrite app_nil_r, app_assoc, C, Out. f_equal. apply I.
    - by rewrite removelast_snoc.
    - intros c. rewrite last_snoc. intros [= <-]. rewrite length_app. lia. }
  destruct (Z.eqb_spec (room - Z.of_nat (length (co_out r))) 0) as [E|E].
  - destruct (IH s1 I1) as (s2 & -> & I2 & N2 & In2 & D2); [simpl; lia|].
    exists s2. split_and!; [done..| |done]. by rewrite In2.
  - destruct Last as [Hl Hd]; [lia|]. exists s1. split_and!; [done..| |done].
    simpl. by rewrite <- In, Hl, app_nil_r.
Qed.

(** The bytes of one piece are passed on whole if their number fits 32 bits. *)
Lemma take_piece (p : list byte) : Z.of_nat (length p) < 2 ^ 32 -> take (Z.to_nat (wrap 32 (Z.of_nat (length p)))) p = p.
Proof. intros H. rewrite wrap_id by (split; lia). by rewrite Nat2Z.id, take_ge. Qed.

Lemma write_runs size s w : 0 < size < 2 ^ 32 -> zinv size s -> Z.of_nat (length w) < 2 ^ 32 -> exists n s',
  zinv size s' /\ z_in (m_zstream s') = z_in (m_zstream s) ++ w /\
  forall fuel, (n <= fuel)%nat -> write fuel w s = (Ret Z_OK, s').
Proof.
  intros Hs I Hw. set (s0 := set_z (m_zstream s) w (m_buffs s) s).
  assert (I0 : zinv size s0) by by destruct I; split.
  destruct (fill_spec size Z_NO_FLUSH _ s0 Hs I0 (Nat.lt_succ_diag_r _)) as (s' & E & I' & _ & In & _).
  eexists _, s'. split_and!; [done..|]. intros fuel Hf.
  unfold write, code_one, encode. rewrite (zi_enc _ _ I). cbn [code]. rewrite take_piece by done. run_pure.
  run (fill_mono _ _ _ _ _ _ _ E Hf). done.
Qed.

Fixpoint writes (fuel : nat) (ws : list (list byte)) : prog ZS unit :=
  match ws with [] => mret tt | w :: l => write fuel w;; writes fuel l end.
Lemma writes_run size ws : 0 < size < 2 ^ 32 -> Forall (fun w => Z.of_nat (length w) < 2 ^ 32) ws ->
  forall s, zinv size s -> exists n s', zinv size s' /\ z_in (m_zstream s') = z_in (m_zstream s) ++ concat ws /\
    forall fuel, (n <= fuel)%nat -> writes fuel ws s = (Ret tt, s').
Proof.
  intros Hs. induction 1 as [|w ws Hw _ IH]; intros s I.
  { exists O, s. simpl. by rewrite app_nil_r. }
  destruct (write_runs size s w Hs I Hw) as (n1 & s1 & I1 & In1 & E1).
  destruct (IH s1 I1) as (n2 & s2 & I2 & In2 & E2). exists (n1 `max` n2)%nat, s2.
  split_and!; [done|by rewrite In2, In1, <- app_assoc|]. intros fuel Hf. cbn [writes].
  run (E1 fuel ltac:(lia)). apply E2. lia.
Qed.
Lemma flush_runs size s : 0 < size < 2 ^ 32 -> zinv size s -> exists n s',
  m_buffSize s' = size /\ z_expand (getResult s') = Some (z_in (m_zstream s)) /\
  Forall (fun b => Z.of_nat (length b) = size) (removelast (m_buffs s')) /\
  forall fuel, (n <= fuel)%nat -> flush fuel s = (Ret Z_OK, s').
Proof.
  intros Hs I. set (s0 := set_z (m_zstream s) [] (m_buffs s) s).
  assert (I0 : zinv size s0) by by destruct I; split.
  destruct (fill_spec size Z_FINISH _ s0 Hs I0 (Nat.lt_succ_diag_r _)) as (s' & E & I' & _ & In & D).
  eexists _, (set_z (deflateEnd (m_zstream s')) (next_in s') (m_buffs s') s'). split_and!; [apply I'| |apply I'|].
  - change (z_expand (getResult s') = Some (z_in (m_zstream s))).
    rewrite (zi_out _ _ I'), z_done_expand by auto. by rewrite In, app_nil_r.
  - intros fuel Hf. unfold flush, code_one, encode. rewrite (zi_enc _ _ I). cbn [code].
    rewrite take_piece by (simpl; lia). run_pure. by run (fill_mono _ _ _ _ _ _ _ E Hf).
Qed.

Lemma Create_encode size type level bits mem strategy s :
  Create true size type level bits mem strategy = Ret (Some s) -> zinv size s /\ z_in (m_zstream s) = [].
Proof.
  unfold Create, init. do 3 (destruct (negb _); [done|]). simpl. destruct deflateInit2 as [ret z] eqn:E. simpl.
  destruct (Z.eqb_spec ret Z_OK) as [->|]; [|done]. intros [= <-].
  destruct (deflateInit2_ok _ _ _ _ _ E) as (? & ? & Ho). split; [|done]. split; simpl; auto. done.
Qed.

(** [getByteArray] holds the same bytes, from its start. *)
Lemma write_all_spec alloc l : forall ba, wf ba -> m_position ba = m_size ba -> exists ba',
  write_all alloc l ba = (Ret tt, ba') /\ wf ba' /\ contents ba' = contents ba ++ concat l.
Proof.
  induction l as [|b l IH]; intros ba H P; simpl; [exists ba; by rewrite app_nil_r|].
  destruct (write_spec alloc b ba H) as (b1 & E1 & W1 & _ & C1 & P1).
  assert (C : contents b1 = contents ba ++ b).
  { rewrite C1, P, <- (length_contents _ H). unfold blit. rewrite take_ge, drop_ge by lia. by rewrite app_nil_r. }
  destruct (IH b1 W1) as (b2 & E2 & W2 & C2).
  { rewrite P1, P, <- (length_contents _ H), <- (length_contents _ W1), C, length_app. done. }
  exists b2. run E1. split_and!; [done..|]. by rewrite C2, C, <- app_assoc.
Qed.
Lemma getByteArray_spec alloc s : exists ba,
  getByteArray alloc s = Ret ba /\ wf ba /\ contents ba = getResult s /\ m_position ba = O.
Proof.
  destruct (write_all_spec alloc (m_buffs s) (new_ByteArray alloc 4096)) as (b1 & E1 & W1 & C1); [apply wf_new; lia|done|].
  unfold getByteArray. erewrite bind_ret by exact E1. rewrite setPosition_ok by (done || lia). eexists. split_and!; [done|apply wf_setPosition; [done|lia]|exact C1|done].
Qed.

(** C31: what is written to a compressing stream, in any pieces below 4 GB, and
    then flushed is a complete compressed stream of exactly these bytes,
    whatever the size of the output buffers; all of them but the last are
    full, [getByteArray] holds the same bytes, and the calls end.  (zlib behaves as documented.) *)
Theorem compress_roundtrip alloc size type level bits mem strategy s (ws : list (list byte)) :
  0 < size < 2 ^ 32 -> Create true size type level bits mem strategy = Ret (Some s) ->
  Forall (fun w => Z.of_nat (length w) < 2 ^ 32) ws ->
  exists n s', (forall fuel, (n <= fuel)%nat -> (writes fuel ws;; flush fuel) s = (Ret Z_OK, s')) /\
    z_expand (getResult s') = Some (concat ws) /\
    Forall (fun b => Z.of_nat (length b) = size) (removelast (m_buffs s')) /\
    (exists ba, getByteArray alloc s' = Ret ba /\ contents ba = getResult s' /\ m_position ba = O).
Proof.
  intros Hs E Hw. destruct (Create_encode _ _ _ _ _ _ _ E) as [I In].
  destruct (writes_run size ws Hs Hw s I) as (n1 & s1 & I1 & In1 & E1).
  destruct (flush_runs size s1 Hs I1) as (n2 & s2 & _ & X & F & E2).
  exists (n1 `max` n2)%nat, s2. split_and!; [|by rewrite X, In1, In|done|].
  2: { destruct (getByteArray_spec alloc s2) as (ba & ? & _ & ? & ?). eauto. }
  intros fuel Hf. run (E1 fuel ltac:(lia)). apply E2. lia.
Qed.
End zlib_props.

(** A codec that stores: it keeps what it has not put out yet. *)
Record stored : Type := mkStored { st_in : list byte; st_out : list byte; st_pending : list byte; st_end : bool }.
#[export] Instance stored_zlib : Zlib stored := {|
  z_zero := mkStored [] [] [] false;
  deflateInit2 _ _ _ _ z := (Z_OK, z);
  inflateInit2 _ z := (Z_OK, z);
  deflate z input room fl :=
    let p := st_pending z ++ input in let n := Z.to_nat room in
    mkCoded 0 (mkStored (st_in z ++ input) (st_out z ++ take n p) (drop n p) (st_end z)) [] (take n p);
  inflate z input room fl := mkCoded 0 z input [];
  deflateEnd z := z; inflateEnd z := z
|}.
#[export] Program Instance stored_ok : DeflateOk stored := {|
  z_ready z := st_in z = st_out z ++ st_pending z;
  z_done z := st_in z = st_out z;
  z_in := st_in; z_out := st_out;
  z_todo z input _ := (length (st_pending z) + length input)%nat;
  z_expand := Some
|}.
Next Obligation. intros ? ? ? ? st [= <-]. done. Qed.
Next Obligation.
  intros z input room fl H Hr. simpl in *. rewrite H. split_and!; try done.
  - rewrite <- !app_assoc. by rewrite take_drop.
  - rewrite length_take. lia.
  - by rewrite app_nil_r.
  - rewrite length_take, length_drop, length_app. lia.
  - rewrite length_take, length_app. intros L. split; [done|]. intros _. rewrite take_ge by (rewrite length_app; lia). by rewrite app_assoc.
Qed.
Next Obligation. intros z H. simpl in *. by rewrite H. Qed.

Lemma compress_roundtrip_witness : exists n s',
  (forall fuel, (n <= fuel)%nat -> (writes fuel [[Byte.x01; Byte.x02]; []; [Byte.x03]];; flush fuel)
     (new_ZlibStream (zl := stored_zlib) true 2) = (Ret Z_OK, s')) /\ getResult s' = [Byte.x01; Byte.x02; Byte.x03].
Proof.
  destruct (compress_roundtrip (ok := stored_ok) (fun _ _ => Byte.x00) 2 GZIP DEFAULT_COMPRESSION 15 8 0
              (new_ZlibStream true 2) [[Byte.x01; Byte.x02]; []; [Byte.x03]]) as (n & s' & E & X & _).
  - lia.
  - vm_compute. reflexivity.
  - repeat constructor; simpl; lia.
  - exists n, s'. split; [exact E|]. simpl in X. by injection X.
Defined.

(** ** Differences from what the code means *)
(** Of a piece of 4 GB or more only the length modulo [2^32] is passed on. *)
Lemma piece_truncated (p : list byte) :
  Z.of_nat (length (take (Z.to_nat (wrap 32 (Z.of_nat (length p)))) p)) = Z.of_nat (length p) mod 2 ^ 32.
Proof.
  rewrite length_take. unfold wrap.
  pose proof (Z.mod_pos_bound (Z.of_nat (length p)) (2 ^ 32) ltac:(lia)). pose proof (Z.mod_le (Z.of_nat (length p)) (2 ^ 32) ltac:(lia) ltac:(lia)). lia.
Qed.
(** An error of the data (any result but [Z_STREAM_ERROR]) is reported as success. *)
Lemma data_error_ignored {St} (run : St -> list byte -> Z -> zlib_flush -> coded St) fuel fl (s : ZlibStream St) :
  (forall st input room, co_ret (run st input room fl) = -3 /\ co_out (run st input room fl) = []) ->
  0 < m_buffSize s < 2 ^ 32 -> m_buffs s = [] -> out (fill run (S fuel) fl) s = Ret Z_OK.
Proof.
  intros H Hs Hb. unfold out. cbn [fill]. unfold open_buff. rewrite Hb. simpl. rewrite Z.sub_0_r, wrap_id by (split; lia).
  destruct (H (m_zstream s) (next_in s) (m_buffSize s)) as [-> ->]. simpl. by rewrite (proj2 (Z.eqb_neq _ _)) by lia.
Qed.
