(* ===== verification/Http.v ===== *)
(** [sherry/http/http.h], [sherry/http/http.cc]: methods, status codes, the
    case-insensitive header maps, requests and responses and how they are
    written out.

    A [std::string] is a [string] of bytes; [c_str] is what the C string
    functions see of it, up to the first NUL.  A [std::map] under
    [CaseInsensitiveLess] is the list of its entries in the map's order, with
    the spelling of the key it was first inserted with. *)

From stdpp Require Import base list gmap strings pretty.
From S2P Require Import Prelude MachineInt.
From Stdlib Require Import ZArith Lia Ascii String OrdersEx.
Local Open Scope string_scope.

(** * C strings *)

Fixpoint c_str (s : string) : string :=
  match s with
  | EmptyString => EmptyString
  | String a s' => if Ascii.eqb a zero then EmptyString else String a (c_str s')
  end.

Definition tolower (a : ascii) : ascii :=
  let n := nat_of_ascii a in if ((65 <=? n) && (n <=? 90))%nat then ascii_of_nat (n + 32) else a.

Fixpoint lower (s : string) : string :=
  match s with
  | EmptyString => EmptyString
  | String a s' => String (tolower a) (lower s')
  end.

(** What [strcasecmp] compares. *)
Definition fold_key (s : string) : string := lower (c_str s).
Definition strcasecmp (a b : string) : comparison := String.compare (fold_key a) (fold_key b).
Definition strcmp (a b : string) : comparison := String.compare (c_str a) (c_str b).
Definition strcaseeq (a b : string) : bool := match strcasecmp a b with Eq => true | _ => false end.

(** * Methods and status codes *)

Inductive HttpMethod : Type :=
  | DELETE | GET | HEAD | POST | PUT | CONNECT | OPTIONS | TRACE | COPY | LOCK | MKCOL | MOVE
  | PROPFIND | PROPPATCH | SEARCH | UNLOCK | BIND | REBIND | UNBIND | ACL | REPORT | MKACTIVITY
  | CHECKOUT | MERGE | MSEARCH | NOTIFY | SUBSCRIBE | UNSUBSCRIBE | PATCH | PURGE | MKCALENDAR
  | LINK | UNLINK | SOURCE | INVALID_METHOD.

Definition HTTP_METHOD_MAP : list (HttpMethod * string) := [
  (DELETE, "DELETE"); (GET, "GET"); (HEAD, "HEAD"); (POST, "POST"); (PUT, "PUT");
  (CONNECT, "CONNECT"); (OPTIONS, "OPTIONS"); (TRACE, "TRACE"); (COPY, "COPY"); (LOCK, "LOCK");
  (MKCOL, "MKCOL"); (MOVE, "MOVE"); (PROPFIND, "PROPFIND"); (PROPPATCH, "PROPPATCH");
  (SEARCH, "SEARCH"); (UNLOCK, "UNLOCK"); (BIND, "BIND"); (REBIND, "REBIND");
  (UNBIND, "UNBIND"); (ACL, "ACL"); (REPORT, "REPORT"); (MKACTIVITY, "MKACTIVITY");
  (CHECKOUT, "CHECKOUT"); (MERGE, "MERGE"); (MSEARCH, "M-SEARCH"); (NOTIFY, "NOTIFY");
  (SUBSCRIBE, "SUBSCRIBE"); (UNSUBSCRIBE, "UNSUBSCRIBE"); (PATCH, "PATCH"); (PURGE, "PURGE");
  (MKCALENDAR, "MKCALENDAR"); (LINK, "LINK"); (UNLINK, "UNLINK"); (SOURCE, "SOURCE")].

(** The enumerators other than [INVALID_METHOD] are numbered by the table. *)
Definition method_index (m : HttpMethod) : nat :=
  match m with
  | DELETE => 0 | GET => 1 | HEAD => 2 | POST => 3 | PUT => 4 | CONNECT => 5 | OPTIONS => 6
  | TRACE => 7 | COPY => 8 | LOCK => 9 | MKCOL => 10 | MOVE => 11 | PROPFIND => 12
  | PROPPATCH => 13 | SEARCH => 14 | UNLOCK => 15 | BIND => 16 | REBIND => 17 | UNBIND => 18
  | ACL => 19 | REPORT => 20 | MKACTIVITY => 21 | CHECKOUT => 22 | MERGE => 23 | MSEARCH => 24
  | NOTIFY => 25 | SUBSCRIBE => 26 | UNSUBSCRIBE => 27 | PATCH => 28 | PURGE => 29
  | MKCALENDAR => 30 | LINK => 31 | UNLINK => 32 | SOURCE => 33 | INVALID_METHOD => 34
  end.

Fixpoint first_method (p : string -> bool) (l : list (HttpMethod * string)) : HttpMethod :=
  match l with
  | [] => INVALID_METHOD
  | (m, name) :: l' => if p name then m else first_method p l'
  end.

Definition StringToHttpMethod (m : string) : HttpMethod :=
  first_method (fun name => match strcmp name m with Eq => true | _ => false end) HTTP_METHOD_MAP.

(** [strncmp(name, m, strlen(name)) == 0]: [name] begins the C string [m]. *)
Definition CharsToHttpMethod (m : string) : HttpMethod :=
  first_method (fun name => String.prefix name (c_str m)) HTTP_METHOD_MAP.

Definition HttpMethodToString (m : HttpMethod) : string :=
  match HTTP_METHOD_MAP !! method_index m with
  | Some (_, name) => name
  | None => "<unknown>"
  end.

Definition HTTP_STATUS_MAP : list (Z * string) := [
  (100, "Continue"); (101, "Switching Protocols"); (102, "Processing"); (200, "OK");
  (201, "Created"); (202, "Accepted"); (203, "Non-Authoritative Information");
  (204, "No Content"); (205, "Reset Content"); (206, "Partial Content"); (207, "Multi-Status");
  (208, "Already Reported"); (226, "IM Used"); (300, "Multiple Choices");
  (301, "Moved Permanently"); (302, "Found"); (303, "See Other"); (304, "Not Modified");
  (305, "Use Proxy"); (307, "Temporary Redirect"); (308, "Permanent Redirect");
  (400, "Bad Request"); (401, "Unauthorized"); (402, "Payment Required"); (403, "Forbidden");
  (404, "Not Found"); (405, "Method Not Allowed"); (406, "Not Acceptable");
  (407, "Proxy Authentication Required"); (408, "Request Timeout"); (409, "Conflict");
  (410, "Gone"); (411, "Length Required"); (412, "Precondition Failed");
  (413, "Payload Too Large"); (414, "URI Too Long"); (415, "Unsupported Media Type");
  (416, "Range Not Satisfiable"); (417, "Expectation Failed"); (421, "Misdirected Request");
  (422, "Unprocessable Entity"); (423, "Locked"); (424, "Failed Dependency");
  (426, "Upgrade Required"); (428, "Precondition Required"); (429, "Too Many Requests");
  (431, "Request Header Fields Too Large"); (451, "Unavailable For Legal Reasons");
  (500, "Internal Server Error"); (501, "Not Implemented"); (502, "Bad Gateway");
  (503, "Service Unavailable"); (504, "Gateway Timeout"); (505, "HTTP Version Not Supported");
  (506, "Variant Also Negotiates"); (507, "Insufficient Storage"); (508, "Loop Detected");
  (510, "Not Extended"); (511, "Network Authentication Required")]%Z.

Fixpoint status_text (s : Z) (l : list (Z * string)) : string :=
  match l with
  | [] => "<unknown>"
  | (code, msg) :: l' => if (s =? code)%Z then msg else status_text s l'
  end.
Definition HttpStatusToString (s : Z) : string := status_text s HTTP_STATUS_MAP.

(** * Header maps *)

Definition MapType : Type := list (string * string).

Definition CaseInsensitiveLess (lhs rhs : string) : bool :=
  match strcasecmp lhs rhs with Lt => true | _ => false end.

(** [std::map::find], [operator[]] followed by an assignment, [erase(key)]. *)
Fixpoint map_find (key : string) (m : MapType) : option string :=
  match m with
  | [] => None
  | (k, v) :: m' => if strcaseeq k key then Some v else map_find key m'
  end.

Fixpoint map_set (key val : string) (m : MapType) : MapType :=
  match m with
  | [] => [(key, val)]
  | (k, v) :: m' =>
    if CaseInsensitiveLess key k then (key, val) :: m
    else if CaseInsensitiveLess k key then (k, v) :: map_set key val m'
    else (k, val) :: m'
  end.

Definition map_erase (key : string) (m : MapType) : MapType :=
  List.filter (fun e => negb (strcaseeq (fst e) key)) m.

(** [checkGetAs] and [getAs]; [lexical_cast] is Boost's, [None] when it throws. *)
Definition checkGetAs {T} (lexical_cast : string -> option T) (m : MapType) (key : string) (def : T)
    : bool * T :=
  match map_find key m with
  | None => (false, def)
  | Some str => match lexical_cast str with Some t => (true, t) | None => (false, def) end
  end.

Definition getAs {T} (lexical_cast : string -> option T) (m : MapType) (key : string) (def : T) : T :=
  match map_find key m with
  | None => def
  | Some str => match lexical_cast str with Some t => t | None => def end
  end.

Definition find_or (key def : string) (m : MapType) : string :=
  match map_find key m with Some v => v | None => def end.

(** * Requests *)

Record HttpRequest : Type := mkHttpRequest {
  m_method : HttpMethod;
  m_version : Z;
  m_close : bool;
  m_path : string;
  m_query : string;
  m_fragment : string;
  m_body : string;
  m_headers : MapType;
  m_params : MapType;
  m_cookies : MapType
}.

Definition new_HttpRequest (version : Z) (close : bool) : HttpRequest :=
  mkHttpRequest GET version close "/" "" "" "" [] [] [].

Definition set_headers (h : MapType) (r : HttpRequest) : HttpRequest :=
  mkHttpRequest (m_method r) (m_version r) (m_close r) (m_path r) (m_query r) (m_fragment r) (m_body r)
    h (m_params r) (m_cookies r).
Definition set_params (h : MapType) (r : HttpRequest) : HttpRequest :=
  mkHttpRequest (m_method r) (m_version r) (m_close r) (m_path r) (m_query r) (m_fragment r) (m_body r)
    (m_headers r) h (m_cookies r).
Definition set_cookies (h : MapType) (r : HttpRequest) : HttpRequest :=
  mkHttpRequest (m_method r) (m_version r) (m_close r) (m_path r) (m_query r) (m_fragment r) (m_body r)
    (m_headers r) (m_params r) h.
Definition set_close (b : bool) (r : HttpRequest) : HttpRequest :=
  mkHttpRequest (m_method r) (m_version r) b (m_path r) (m_query r) (m_fragment r) (m_body r)
    (m_headers r) (m_params r) (m_cookies r).

Definition getHeader (key def : string) (r : HttpRequest) : string := find_or key def (m_headers r).
Definition getParam (key def : string) (r : HttpRequest) : string := find_or key def (m_params r).
Definition getCookie (key def : string) (r : HttpRequest) : string := find_or key def (m_cookies r).

Definition setHeader (key val : string) (r : HttpRequest) : HttpRequest :=
  set_headers (map_set key val (m_headers r)) r.
Definition setParam (key val : string) (r : HttpRequest) : HttpRequest :=
  set_params (map_set key val (m_params r)) r.
Definition setCookie (key val : string) (r : HttpRequest) : HttpRequest :=
  set_cookies (map_set key val (m_cookies r)) r.

Definition delHeader (key : string) (r : HttpRequest) : HttpRequest :=
  set_headers (map_erase key (m_headers r)) r.
Definition delParam (key : string) (r : HttpRequest) : HttpRequest :=
  set_params (map_erase key (m_params r)) r.
Definition delCookie (key : string) (r : HttpRequest) : HttpRequest :=
  set_cookies (map_erase key (m_cookies r)) r.

(** The answer, and what is stored through [val]. *)
Definition hasHeader (key : string) (r : HttpRequest) : bool * option string :=
  match map_find key (m_headers r) with None => (false, None) | Some v => (true, Some v) end.
Definition hasParam (key : string) (r : HttpRequest) : bool * option string :=
  match map_find key (m_params r) with None => (false, None) | Some v => (true, Some v) end.
Definition hasCookie (key : string) (r : HttpRequest) : bool * option string :=
  match map_find key (m_cookies r) with None => (false, None) | Some v => (true, Some v) end.

(** The typed getters; those for parameters and cookies read the headers. *)
Section typed_getters.
Context {T : Type} (lexical_cast : string -> option T).
Definition checkGetHeaderAs (key : string) (def : T) (r : HttpRequest) := checkGetAs lexical_cast (m_headers r) key def.
Definition getHeaderAs (key : string) (def : T) (r : HttpRequest) := getAs lexical_cast (m_headers r) key def.
Definition checkGetParamAs (key : string) (def : T) (r : HttpRequest) := checkGetAs lexical_cast (m_headers r) key def.
Definition getParamAs (key : string) (def : T) (r : HttpRequest) := getAs lexical_cast (m_headers r) key def.
Definition checkGetCookieAs (key : string) (def : T) (r : HttpRequest) := checkGetAs lexical_cast (m_headers r) key def.
Definition getCookieAs (key : string) (def : T) (r : HttpRequest) := getAs lexical_cast (m_headers r) key def.
End typed_getters.

Definition init (r : HttpRequest) : HttpRequest :=
  let conn := getHeader "connection" "" r in
  if negb (conn =? "") then set_close (negb (strcaseeq conn "keep-alive")) r else r.

(** ** Writing out *)

Definition CR : string := String "013" "".
Definition LF : string := String "010" "".
Definition CRLF : string := CR ++ LF.

Definition version_text (v : Z) : string := dec (Z.shiftr v 4) ++ "." ++ dec (Z.land v 0x0F).

(** The entries of a map, each with a separator and an end, [connection] left out. *)
Fixpoint header_lines (sep eol : string) (m : MapType) : string :=
  match m with
  | [] => ""
  | (k, v) :: m' =>
    if strcaseeq k "connection" then header_lines sep eol m'
    else k ++ sep ++ v ++ eol ++ header_lines sep eol m'
  end.

Definition body_text (length_name body : string) : string :=
  if negb (body =? "")
  then length_name ++ dec (Z.of_nat (String.length body)) ++ CRLF ++ CRLF ++ body
  else CRLF.

Definition dump (r : HttpRequest) : string :=
  HttpMethodToString (m_method r) ++ " " ++ m_path r
  ++ (if m_query r =? "" then "" else "?") ++ m_query r
  ++ (if m_fragment r =? "" then "" else "#") ++ m_fragment r
  ++ " HTTP/" ++ version_text (m_version r) ++ CRLF
  ++ "Connection: " ++ (if m_close r then "close" else "keep-alive") ++ CRLF
  ++ header_lines ":" CRLF (m_headers r)
  ++ body_text "Content-Length: " (m_body r).

(** * Responses *)

Record HttpResponse : Type := mkHttpResponse {
  r_status : Z;
  r_version : Z;
  r_close : bool;
  r_body : string;
  r_reason : string;
  r_headers : MapType;
  r_isSending : bool
}.

Definition new_HttpResponse (version : Z) (close : bool) : HttpResponse :=
  mkHttpResponse 200 version close "" "" [] false.

Definition r_setStatus (v : Z) (r : HttpResponse) : HttpResponse :=
  mkHttpResponse v (r_version r) (r_close r) (r_body r) (r_reason r) (r_headers r) (r_isSending r).
Definition r_setBody (v : string) (r : HttpResponse) : HttpResponse :=
  mkHttpResponse (r_status r) (r_version r) (r_close r) v (r_reason r) (r_headers r) (r_isSending r).
Definition r_setReason (v : string) (r : HttpResponse) : HttpResponse :=
  mkHttpResponse (r_status r) (r_version r) (r_close r) (r_body r) v (r_headers r) (r_isSending r).
Definition r_setIsSending (v : bool) (r : HttpResponse) : HttpResponse :=
  mkHttpResponse (r_status r) (r_version r) (r_close r) (r_body r) (r_reason r) (r_headers r) v.
Definition r_set_headers (h : MapType) (r : HttpResponse) : HttpResponse :=
  mkHttpResponse (r_status r) (r_version r) (r_close r) (r_body r) (r_reason r) h (r_isSending r).

Definition r_getHeader (key def : string) (r : HttpResponse) : string := find_or key def (r_headers r).
Definition r_setHeader (key val : string) (r : HttpResponse) : HttpResponse :=
  r_set_headers (map_set key val (r_headers r)) r.
Definition r_delHeader (key : string) (r : HttpResponse) : HttpResponse :=
  r_set_headers (map_erase key (r_headers r)) r.

(** Header lines end with LF CR. *)
Definition r_dump (r : HttpResponse) : string :=
  "HTTP/" ++ version_text (r_version r) ++ " " ++ dec (r_status r) ++ " "
  ++ (if r_reason r =? "" then HttpStatusToString (r_status r) else r_reason r) ++ CRLF
  ++ header_lines ": " (LF ++ CR) (r_headers r)
  ++ "connection: " ++ (if r_close r then "close" else "keep-alive") ++ CRLF
  ++ body_text "content-length: " (r_body r).
