(* ===== verification/HttpProps.v ===== *)
(** What the HTTP messages promise: method names round-trip, the header maps
    are finite maps over case-folded keys, and a message is written so that
    its body can be found again. *)

From stdpp Require Import base list gmap strings pretty sorting.
From S2P Require Import Prelude MachineInt Http.
From Stdlib Require Import ZArith Lia Ascii String OrdersEx.
Local Open Scope string_scope.

(** * Method names *)

Lemma first_method_found p l m : first_method p l = m -> m <> INVALID_METHOD ->
  exists name, (m, name) ∈ l /\ p name = true.
Proof.
  induction l as [|[m' name] l IH]; simpl; intros Hm Hne; [by subst|].
  destruct (p name) eqn:Ep.
  - subst. exists name. split; [set_solver|done].
  - destruct (IH Hm Hne) as (n & Hin & Hp). exists n. split; [set_solver|done].
Qed.

(** Every name of the table is a C string and is what its method prints as. *)
Lemma method_table_ok :
  Forall (fun e => HttpMethodToString (fst e) = snd e /\ c_str (snd e) = snd e) HTTP_METHOD_MAP.
Proof. repeat (constructor; [split; reflexivity|]). constructor. Qed.

(** Method names round-trip: each of the 34 methods is recognised from
    the name it prints as, both from a [std::string] and at the start of a
    character buffer; and a string recognised as a method is exactly that
    method's name (up to a NUL). *)
Theorem method_roundtrip m s : m <> INVALID_METHOD ->
  StringToHttpMethod (HttpMethodToString m) = m /\ CharsToHttpMethod (HttpMethodToString m) = m /\
  (StringToHttpMethod s = m -> c_str s = HttpMethodToString m).
Proof.
  intros Hne. split_and!.
  - destruct m; vm_compute; done.
  - destruct m; vm_compute; done.
  - intros Hm. destruct (first_method_found _ _ _ Hm Hne) as (name & Hin & Hp).
    pose proof (proj1 (Forall_forall _ _) method_table_ok _ Hin) as [H1 H2]. simpl in H1, H2.
    unfold strcmp in Hp. rewrite H2 in Hp. rewrite H1.
    destruct (String.compare name (c_str s)) eqn:E; try done. symmetry. by apply String.compare_eq_iff.
Qed.

Lemma method_roundtrip_witness : StringToHttpMethod (HttpMethodToString MSEARCH) = MSEARCH.
Proof. apply (method_roundtrip MSEARCH "M-SEARCH"). discriminate. Defined.

(** A name followed by anything counts as that method. *)
Lemma CharsToHttpMethod_prefix : CharsToHttpMethod "GETX" = GET /\ StringToHttpMethod "GETX" = INVALID_METHOD.
Proof. split; reflexivity. Qed.

(** * Header maps *)

Lemma compare_trans a b c : String.compare a b = Lt -> String.compare b c = Lt -> String.compare a c = Lt.
Proof. apply (StrictOrder_Transitive (R := String_as_OT.lt)). Qed.

Lemma compare_irrefl a : String.compare a a <> Lt.
Proof. apply (StrictOrder_Irreflexive (R := String_as_OT.lt)). Qed.

Lemma compare_refl a : String.compare a a = Eq.
Proof.
  pose proof (String.compare_antisym a a) as H. destruct (String.compare a a); done.
Qed.

Lemma strcaseeq_spec a b : strcaseeq a b = true <-> fold_key a = fold_key b.
Proof.
  unfold strcaseeq, strcasecmp. split.
  - intros H. apply String.compare_eq_iff. by destruct (String.compare _ _).
  - intros ->. by rewrite compare_refl.
Qed.

Lemma less_spec a b : CaseInsensitiveLess a b = true <-> String.compare (fold_key a) (fold_key b) = Lt.
Proof. unfold CaseInsensitiveLess, strcasecmp. destruct (String.compare _ _); done. Qed.

(** The three-way choice of [map_set]. *)
Lemma less_cases a b : CaseInsensitiveLess a b = false -> CaseInsensitiveLess b a = false ->
  fold_key a = fold_key b.
Proof.
  unfold CaseInsensitiveLess, strcasecmp. intros H1 H2.
  rewrite (String.compare_antisym (fold_key b)) in H2. apply String.compare_eq_iff.
  destruct (String.compare (fold_key a) (fold_key b)); done.
Qed.

Definition entry_less (a b : string * string) : Prop := CaseInsensitiveLess (fst a) (fst b) = true.

(** In the order of the comparator, no two keys equivalent. *)
Definition map_ok (m : MapType) : Prop := StronglySorted entry_less m.

Lemma entry_less_trans a b c : entry_less a b -> entry_less b c -> entry_less a c.
Proof. unfold entry_less. rewrite !less_spec. apply compare_trans. Qed.

(** The finite map over folded keys that an entry list stands for. *)
Definition map_abs (m : MapType) : gmap string string :=
  list_to_map ((fun e => (fold_key (fst e), snd e)) <$> m).

Lemma map_abs_cons k v m : map_abs ((k, v) :: m) = <[fold_key k := v]> (map_abs m).
Proof. done. Qed.

Lemma map_find_abs key m : map_find key m = map_abs m !! fold_key key.
Proof.
  induction m as [|[k v] m IH]; [done|]. rewrite map_abs_cons. simpl.
  destruct (strcaseeq k key) eqn:E.
  - apply strcaseeq_spec in E. by rewrite E, lookup_insert_eq.
  - rewrite lookup_insert_ne; [done|]. intros Hk. apply strcaseeq_spec in Hk. congruence.
Qed.

Lemma map_set_abs key val m : map_abs (map_set key val m) = <[fold_key key := val]> (map_abs m).
Proof.
  induction m as [|[k v] m IH]; [done|]. simpl.
  destruct (CaseInsensitiveLess key k) eqn:E1; [done|]. destruct (CaseInsensitiveLess k key) eqn:E2.
  - rewrite !map_abs_cons, IH. apply insert_insert_ne. intros Hk. apply less_spec in E2.
    rewrite Hk in E2. by apply compare_irrefl in E2.
  - rewrite !map_abs_cons, (less_cases key k E1 E2). by rewrite insert_insert_eq.
Qed.

Lemma map_erase_abs key m : map_abs (map_erase key m) = delete (fold_key key) (map_abs m).
Proof.
  induction m as [|[k v] m IH]; [symmetry; apply delete_empty|]. rewrite map_abs_cons. simpl.
  destruct (strcaseeq k key) eqn:E; simpl.
  - apply strcaseeq_spec in E. by rewrite E, delete_insert_eq.
  - rewrite map_abs_cons, delete_insert_ne; [by rewrite IH|]. intros Hk.
    symmetry in Hk. apply strcaseeq_spec in Hk. congruence.
Qed.

Lemma map_set_Forall (P : string * string -> Prop) key val m :
  (forall k v, P (k, v) -> P (k, val)) -> P (key, val) -> Forall P m -> Forall P (map_set key val m).
Proof.
  intros Hval Hkey. induction 1 as [|[k v] m Hx Hm IH]; simpl; [by constructor|].
  destruct (CaseInsensitiveLess key k); [by repeat constructor|].
  destruct (CaseInsensitiveLess k key); constructor; eauto.
Qed.

Lemma map_set_ok key val m : map_ok m -> map_ok (map_set key val m).
Proof.
  induction 1 as [|[k v] m Hs IH Hall]; simpl; [repeat constructor|].
  destruct (CaseInsensitiveLess key k) eqn:E1.
  - repeat constructor; [done|done|done|].
    eapply Forall_impl; [exact Hall|]. intros e. by apply entry_less_trans.
  - destruct (CaseInsensitiveLess k key) eqn:E2; constructor; try done.
    apply map_set_Forall; [done|done|done].
Qed.

Lemma map_erase_ok key m : map_ok m -> map_ok (map_erase key m).
Proof.
  induction 1 as [|[k v] m Hs IH Hall]; simpl; [constructor|].
  destruct (negb _); [|done]. constructor; [done|].
  rewrite Forall_forall in *. intros e He. apply Hall. unfold map_erase in He.
  apply list_elem_of_In, List.filter_In in He as [He _]. by apply list_elem_of_In.
Qed.

(** The header, parameter and cookie maps are finite maps over
    case-folded keys: setting, erasing and finding a key in any spelling are
    insert, delete and lookup of the folded key, and the entries stay in
    order without two spellings of one key. *)
Theorem header_map_refines key val m : map_ok m ->
  map_ok (map_set key val m) /\ map_ok (map_erase key m) /\
  map_abs (map_set key val m) = <[fold_key key := val]> (map_abs m) /\
  map_abs (map_erase key m) = delete (fold_key key) (map_abs m) /\
  map_find key m = map_abs m !! fold_key key.
Proof.
  intros H. split_and!; auto using map_set_ok, map_erase_ok, map_set_abs, map_erase_abs, map_find_abs.
Qed.

Lemma header_map_refines_witness :
  map_ok (map_set "HOST" "b" [("Host", "a")]).
Proof. apply (header_map_refines "HOST" "b" [("Host", "a")]). repeat constructor. Defined.

(** [HttpRequest::init]: the connection header, in any spelling of its
    name, decides whether the connection is closed after the request: closed
    unless its value is "keep-alive" in any case; without the header, or with
    an empty one, the flag stays. *)
Theorem init_connection r :
  init r = match map_abs (m_headers r) !! "connection" with
           | Some v => if decide (v = "") then r else set_close (negb (bool_decide (fold_key v = "keep-alive"))) r
           | None => r
           end.
Proof.
  unfold init, getHeader, find_or. rewrite map_find_abs. change (fold_key "connection") with "connection".
  destruct (map_abs (m_headers r) !! "connection") as [v|]; [|done].
  destruct (String.eqb_spec v "") as [->|Hv]; simpl; [done|]. rewrite decide_False by done. do 2 f_equal.
  destruct (strcaseeq v "keep-alive") eqn:E.
  - apply strcaseeq_spec in E. by rewrite bool_decide_true.
  - rewrite bool_decide_false; [done|]. intros Hf. change "keep-alive" with (fold_key "keep-alive") in Hf.
    apply strcaseeq_spec in Hf. congruence.
Qed.

(** * Writing out *)



(** Every written header line is complete. *)
Lemma header_lines_end sep eol m : header_lines sep eol m = "" \/
  exists l, header_lines sep eol m = l ++ eol.
Proof.
  induction m as [|[k v] m IH]; simpl; [by left|]. destruct (strcaseeq k "connection"); [done|].
  right. destruct IH as [-> | [l ->]].
  - exists (k ++ sep ++ v). by rewrite append_nil_r, !append_assoc.
  - exists (k ++ sep ++ v ++ eol ++ l). by rewrite !append_assoc.
Qed.

Lemma body_text_frame name body : exists head,
  (forall pre, exists h, (pre ++ CRLF) ++ body_text name body = h ++ CRLF ++ CRLF ++ body /\
     (body <> "" -> h = pre ++ CRLF ++ head) /\ (body = "" -> h = pre)) /\
  head = name ++ dec (Z.of_nat (String.length body)).
Proof.
  eexists. split; [|done]. intros pre. unfold body_text.
  destruct (String.eqb_spec body "") as [->|Hb]; simpl negb; cbv iota.
  - exists pre. rewrite append_nil_r, append_assoc. done.
  - exists (pre ++ CRLF ++ name ++ dec (Z.of_nat (String.length body))).
    rewrite !append_assoc. done.
Qed.

(** A request is written so that its body can be found: the text is a
    head, one blank line and exactly the body; with a body the head ends with
    the body's length, and the head begins with the request line. A response
    is framed the same way. *)
Theorem message_framing req rsp :
  (exists lines h, dump req = h ++ CRLF ++ CRLF ++ m_body req /\
     h = HttpMethodToString (m_method req) ++ " " ++ m_path req ++ lines ++
         (if decide (m_body req = "") then ""
          else CRLF ++ "Content-Length: " ++ dec (Z.of_nat (String.length (m_body req))))) /\
  (exists lines h, r_dump rsp = h ++ CRLF ++ CRLF ++ r_body rsp /\
     h = "HTTP/" ++ version_text (r_version rsp) ++ " " ++ dec (r_status rsp) ++ lines ++
         (if decide (r_body rsp = "") then ""
          else CRLF ++ "content-length: " ++ dec (Z.of_nat (String.length (r_body rsp))))).
Proof.
  split.
  - destruct (body_text_frame "Content-Length: " (m_body req)) as (head & Hframe & ->).
    unfold dump. set (q := (if m_query req =? "" then "" else "?") ++ m_query req ++
      (if m_fragment req =? "" then "" else "#") ++ m_fragment req ++
      " HTTP/" ++ version_text (m_version req) ++ CRLF ++ "Connection: " ++
      (if m_close req then "close" else "keep-alive")).
    destruct (header_lines_end ":" CRLF (m_headers req)) as [Eh | [l Eh]]; rewrite Eh.
    + destruct (Hframe (HttpMethodToString (m_method req) ++ " " ++ m_path req ++ q)) as (h & E & H1 & H2).
      exists q, h. split; [rewrite <- E; unfold q; rewrite !append_assoc; done|].
      destruct (decide (m_body req = "")); [rewrite H2|rewrite H1]; by rewrite ?append_nil_r, ?append_assoc.
    + destruct (Hframe (HttpMethodToString (m_method req) ++ " " ++ m_path req ++ q ++ CRLF ++ l)) as (h & E & H1 & H2).
      exists (q ++ CRLF ++ l), h. split; [rewrite <- E; unfold q; rewrite !append_assoc; done|].
      destruct (decide (m_body req = "")); [rewrite H2|rewrite H1]; by rewrite ?append_nil_r, ?append_assoc.
  - destruct (body_text_frame "content-length: " (r_body rsp)) as (head & Hframe & ->).
    unfold r_dump. set (q := " " ++ (if r_reason rsp =? "" then HttpStatusToString (r_status rsp) else r_reason rsp) ++
      CRLF ++ header_lines ": " (LF ++ CR) (r_headers rsp) ++ "connection: " ++
      (if r_close rsp then "close" else "keep-alive")).
    destruct (Hframe ("HTTP/" ++ version_text (r_version rsp) ++ " " ++ dec (r_status rsp) ++ q)) as (h & E & H1 & H2).
    exists q, h. split; [rewrite <- E; unfold q; rewrite !append_assoc; done|].
    destruct (decide (r_body rsp = "")); [rewrite H2|rewrite H1]; by rewrite ?append_nil_r, ?append_assoc.
Qed.

(** * Where the code does not do what it means to *)

(** Response header lines end with LF CR: no CR LF before the next line. *)
Lemma response_header_ending :
  r_dump (r_setHeader "Server" "x" (new_HttpResponse 0x11 true)) =
    "HTTP/1.1 200 OK" ++ CRLF ++ "Server: x" ++ LF ++ CR ++ "connection: close" ++ CRLF ++ CRLF.
Proof. reflexivity. Qed.

(** A parameter that is set is not found; a header of that name is. *)
Lemma getParamAs_reads_headers :
  getParamAs Some "id" "none" (setParam "id" "7" (new_HttpRequest 0x11 true)) = "none" /\
  getParamAs Some "id" "none" (setHeader "id" "7" (new_HttpRequest 0x11 true)) = "7" /\
  getCookieAs Some "id" "none" (setCookie "id" "7" (new_HttpRequest 0x11 true)) = "none".
Proof. split_and!; reflexivity. Qed.
