(* ===== verification/Servlet.v ===== *)
(** [sherry/http/servlet.h], [sherry/http/servlet.cc]: the servlets and their
    dispatch by path.

    [Sess] is the session's state.  A [Servlet::ptr] is an [option]: nothing
    keeps a caller from registering a null pointer, which [handle] tests for.
    [fnmatch] (with flags 0) is a parameter. *)

From stdpp Require Import base list gmap strings.
From S2P Require Import Prelude MachineInt Http HttpProps.
From Stdlib Require Import ZArith Lia Ascii String.
Local Open Scope string_scope.

(** [handle]: the result, the response and the session after it. *)
Definition handler (Sess : Type) : Type :=
  HttpRequest -> HttpResponse -> Sess -> Z * HttpResponse * Sess.

Inductive Servlet (Sess : Type) : Type :=
| FunctionServlet (m_cb : handler Sess)
| NotFoundServlet
| OtherServlet (name : string) (h : handler Sess).
Arguments FunctionServlet {Sess} m_cb.
Arguments NotFoundServlet {Sess}.
Arguments OtherServlet {Sess} name h.

Record ServletDispatch (Sess : Type) : Type := mkServletDispatch {
  m_datas : gmap string (option (Servlet Sess));
  m_globs : list (string * option (Servlet Sess));
  m_default : option (Servlet Sess)
}.
Arguments mkServletDispatch {Sess} m_datas m_globs m_default.
Arguments m_datas {Sess} s.
Arguments m_globs {Sess} s.
Arguments m_default {Sess} s.

Section servlet.
Context {Sess : Type}.
Abbreviation dispatch := (ServletDispatch Sess).
Abbreviation ptr := (option (Servlet Sess)).

Definition RSP_BODY : string :=
  "<html><head><title>404 Not Found" ++
  "</title></head><body><center><h1>404 Not Found</h1></center>" ++
  "<hr><center>sherry/1.0.0</center></body></html>".

Definition NotFound_handle : handler Sess := fun _ response session =>
  (0%Z, r_setBody RSP_BODY (r_setHeader "Content-Type" "text/html"
          (r_setHeader "Server" "sherry/1.0.0" (r_setStatus 404 response))), session).

(** The virtual call. *)
Definition servlet_handle (s : Servlet Sess) : handler Sess :=
  match s with
  | FunctionServlet cb => cb
  | NotFoundServlet => NotFound_handle
  | OtherServlet _ h => h
  end.

Definition new_ServletDispatch : dispatch := mkServletDispatch ∅ [] (Some NotFoundServlet).

Definition addServlet (uri : string) (slt : ptr) (d : dispatch) : dispatch :=
  mkServletDispatch (<[uri := slt]> (m_datas d)) (m_globs d) (m_default d).
Definition addServlet_cb (uri : string) (cb : handler Sess) (d : dispatch) : dispatch :=
  mkServletDispatch (<[uri := Some (FunctionServlet cb)]> (m_datas d)) (m_globs d) (m_default d).

(** The loops erase the first entry of that pattern and stop. *)
Fixpoint erase_first (uri : string) (l : list (string * ptr)) : list (string * ptr) :=
  match l with
  | [] => []
  | (u, s) :: l' => if u =? uri then l' else (u, s) :: erase_first uri l'
  end.

Definition addGlobServlet (uri : string) (slt : ptr) (d : dispatch) : dispatch :=
  mkServletDispatch (m_datas d) ((erase_first uri (m_globs d) ++ [(uri, slt)])%list) (m_default d).
Definition addGlobServlet_cb (uri : string) (cb : handler Sess) (d : dispatch) : dispatch :=
  addGlobServlet uri (Some (FunctionServlet cb)) d.

Definition delServlet (uri : string) (d : dispatch) : dispatch :=
  mkServletDispatch (delete uri (m_datas d)) (m_globs d) (m_default d).
Definition delGlobServlet (uri : string) (d : dispatch) : dispatch :=
  mkServletDispatch (m_datas d) (erase_first uri (m_globs d)) (m_default d).

Definition setDefault (v : ptr) (d : dispatch) : dispatch :=
  mkServletDispatch (m_datas d) (m_globs d) v.

Definition getServlet (uri : string) (d : dispatch) : ptr :=
  match m_datas d !! uri with Some s => s | None => None end.

(** The first entry that satisfies the test. *)
Fixpoint first_glob (p : string -> bool) (l : list (string * ptr)) : option ptr :=
  match l with
  | [] => None
  | (u, s) :: l' => if p u then Some s else first_glob p l'
  end.

Definition getGlobServlet (uri : string) (d : dispatch) : ptr :=
  match first_glob (fun u => u =? uri) (m_globs d) with Some s => s | None => None end.

Section matching.
Variable fnmatch : string -> string -> bool.   (* fnmatch(pattern, string, 0) == 0 *)

Definition getMatchedServlet (uri : string) (d : dispatch) : ptr :=
  match m_datas d !! uri with
  | Some s => s
  | None =>
    match first_glob (fun pattern => fnmatch (c_str pattern) (c_str uri)) (m_globs d) with
    | Some s => s
    | None => m_default d
    end
  end.

Definition handle (d : dispatch) : handler Sess := fun request response session =>
  match getMatchedServlet (m_path request) d with
  | Some slt => let '(_, rsp, ss) := servlet_handle slt request response session in (0%Z, rsp, ss)
  | None => (0%Z, response, session)
  end.
End matching.
End servlet.

(** * Properties *)

Inductive dispatch_op (Sess : Type) : Type :=
| OpAdd (uri : string) (slt : option (Servlet Sess))
| OpAddGlob (uri : string) (slt : option (Servlet Sess))
| OpDel (uri : string)
| OpDelGlob (uri : string)
| OpDefault (slt : option (Servlet Sess)).
Arguments OpAdd {Sess}. Arguments OpAddGlob {Sess}. Arguments OpDel {Sess}.
Arguments OpDelGlob {Sess}. Arguments OpDefault {Sess}.

Section props.
Context {Sess : Type} (fnmatch : string -> string -> bool).
Implicit Types (d : ServletDispatch Sess) (o : dispatch_op Sess).

Definition dispatch_exec o d : ServletDispatch Sess :=
  match o with
  | OpAdd uri slt => addServlet uri slt d
  | OpAddGlob uri slt => addGlobServlet uri slt d
  | OpDel uri => delServlet uri d
  | OpDelGlob uri => delGlobServlet uri d
  | OpDefault slt => setDefault slt d
  end.

(** At most one entry for a pattern. *)
Definition globs_ok d : Prop := NoDup ((m_globs d).*1).

Lemma erase_first_fst uri (l : list (string * option (Servlet Sess))) :
  NoDup (l.*1) -> (erase_first uri l).*1 = base.filter (fun u => u <> uri) (l.*1).
Proof.
  induction l as [|[u s] l IH]; intros Hnd; [done|]. simpl in *. apply NoDup_cons in Hnd as [Hu Hnd].
  destruct (String.eqb_spec u uri) as [->|Hne].
  - rewrite filter_cons_False by naive_solver. symmetry. apply filter_all.
    apply Forall_forall. intros x Hx ->. done.
  - rewrite filter_cons_True by done. simpl. f_equal. by apply IH.
Qed.

Lemma first_glob_app p (l1 l2 : list (string * option (Servlet Sess))) :
  first_glob p (l1 ++ l2)%list = match first_glob p l1 with Some s => Some s | None => first_glob p l2 end.
Proof. induction l1 as [|[u s] l1 IH]; [done|]. simpl. by destruct (p u). Qed.

Lemma first_glob_none p (l : list (string * option (Servlet Sess))) :
  first_glob p l = None <-> Forall (fun e => p (fst e) = false) l.
Proof.
  induction l as [|[u s] l IH]; simpl; [done|]. rewrite Forall_cons, <- IH. simpl.
  destruct (p u); naive_solver.
Qed.

Lemma globs_ok_exec o d : globs_ok d -> globs_ok (dispatch_exec o d).
Proof.
  unfold globs_ok. intros H. destruct o as [uri slt|uri slt|uri|uri|slt]; simpl; try done.
  - rewrite fmap_app, erase_first_fst by done. simpl. apply NoDup_app. split_and!.
    + by apply NoDup_filter.
    + intros x [Hx _]%list_elem_of_filter. set_solver.
    + apply NoDup_singleton.
  - rewrite erase_first_fst by done. by apply NoDup_filter.
Qed.

(** However servlets are added and removed, there is at most one glob
    entry for a pattern; adding a pattern again replaces its servlet and
    moves it behind all others, and deleting it leaves no entry. *)
Theorem glob_patterns_unique (os : list (dispatch_op Sess)) uri slt :
  let d := foldl (fun d o => dispatch_exec o d) new_ServletDispatch os in
  globs_ok d /\
  getGlobServlet uri (addGlobServlet uri slt d) = slt /\
  last (m_globs (addGlobServlet uri slt d)) = Some (uri, slt) /\
  getGlobServlet uri (delGlobServlet uri d) = None.
Proof.
  intros d. assert (globs_ok d) as H.
  { unfold d. assert (globs_ok (new_ServletDispatch (Sess := Sess))) as H0 by apply NoDup_nil_2.
    revert H0. generalize (new_ServletDispatch (Sess := Sess)).
    induction os as [|o os IH]; intros d0 H0; [done|]. simpl. apply IH. by apply globs_ok_exec. }
  assert (first_glob (fun u => u =? uri) (erase_first uri (m_globs d)) = None) as Hgone.
  { apply first_glob_none. apply Forall_forall. intros [u s] Hin. simpl. apply String.eqb_neq. intros ->.
    assert (uri ∈ (erase_first uri (m_globs d)).*1) as Hf by (apply list_elem_of_fmap; by exists (uri, s)).
    rewrite erase_first_fst in Hf by done. apply list_elem_of_filter in Hf as [? _]. done. }
  split_and!; [done| | |].
  - unfold getGlobServlet. simpl. rewrite first_glob_app, Hgone. simpl. by rewrite String.eqb_refl.
  - simpl. apply last_snoc.
  - unfold getGlobServlet. simpl. by rewrite Hgone.
Qed.

(** What dispatch promises: an exact registration wins; otherwise the glob
    pattern registered first (and not replaced since) among those that match;
    otherwise the default. *)
Definition dispatched d (uri : string) (s : option (Servlet Sess)) : Prop :=
  (m_datas d !! uri = Some s) \/
  (m_datas d !! uri = None /\ exists l1 p l2, m_globs d = (l1 ++ (p, s) :: l2)%list /\
     fnmatch (c_str p) (c_str uri) = true /\
     Forall (fun e => fnmatch (c_str (fst e)) (c_str uri) = false) l1) \/
  (m_datas d !! uri = None /\ Forall (fun e => fnmatch (c_str (fst e)) (c_str uri) = false) (m_globs d) /\
     s = m_default d).

Lemma first_glob_some p (l : list (string * option (Servlet Sess))) s : first_glob p l = Some s ->
  exists l1 u l2, l = (l1 ++ (u, s) :: l2)%list /\ p u = true /\ Forall (fun e => p (fst e) = false) l1.
Proof.
  induction l as [|[u s'] l IH]; simpl; [done|]. destruct (p u) eqn:Ep.
  - intros [= ->]. exists [], u, l. auto.
  - intros (l1 & u' & l2 & -> & Hp & Hall)%IH. exists ((u, s') :: l1), u', l2. auto.
Qed.

(** The servlet [getMatchedServlet] chooses is the one the rules of
    precedence name: exact path, then the earliest matching glob, then the
    default; the rules determine it, and [handle] runs it on the request. *)
Theorem dispatch_precedence d uri :
  dispatched d uri (getMatchedServlet fnmatch uri d) /\
  (forall s, dispatched d uri s -> s = getMatchedServlet fnmatch uri d) /\
  (forall req rsp ss, m_path req = uri ->
     handle fnmatch d req rsp ss =
       match getMatchedServlet fnmatch uri d with
       | Some slt => (0%Z, snd (fst (servlet_handle slt req rsp ss)), snd (servlet_handle slt req rsp ss))
       | None => (0%Z, rsp, ss)
       end).
Proof.
  split_and!.
  - unfold dispatched, getMatchedServlet. destruct (m_datas d !! uri) as [s|] eqn:E1; [by left|right].
    destruct (first_glob _ (m_globs d)) as [s|] eqn:E2.
    + left. apply first_glob_some in E2 as (l1 & p & l2 & E & Hp & Hall). split; [done|]. by exists l1, p, l2.
    + right. apply first_glob_none in E2. done.
  - intros s [H|[(H1 & l1 & p & l2 & E & Hp & Hall)|(H1 & Hall & ->)]]; unfold getMatchedServlet.
    + by rewrite H.
    + rewrite H1, E, first_glob_app, (proj2 (first_glob_none _ l1)) by done. simpl. by rewrite Hp.
    + by rewrite H1, (proj2 (first_glob_none _ _) Hall).
  - intros req rsp ss <-. unfold handle. destruct (getMatchedServlet fnmatch (m_path req) d) as [slt|]; [|done].
    by destruct (servlet_handle slt req rsp ss) as [[? ?] ?].
Qed.

(** A path nothing was registered for is answered with status 404, the
    fixed page as its body, its content type and the server's name, whatever
    the response held. *)
Theorem unmatched_is_404 req rsp ss :
  let '(r, rsp', ss') := handle fnmatch (new_ServletDispatch (Sess := Sess)) req rsp ss in
  r = 0%Z /\ ss' = ss /\ r_status rsp' = 404%Z /\ r_body rsp' = RSP_BODY /\
  r_getHeader "content-type" "" rsp' = "text/html" /\ r_getHeader "SERVER" "" rsp' = "sherry/1.0.0".
Proof.
  unfold handle, getMatchedServlet. simpl. rewrite lookup_empty. simpl. split_and!; try done.
  - unfold r_getHeader, find_or. simpl. rewrite map_find_abs, map_set_abs. by rewrite lookup_insert_eq.
  - unfold r_getHeader, find_or. simpl. rewrite map_find_abs, !map_set_abs.
    by rewrite lookup_insert_ne, lookup_insert_eq by (vm_compute; discriminate).
Qed.
End props.
