(* ===== verification/HttpSession.v ===== *)
(** [sherry/http/http_parser.cc], [http_session.cc], [http_server.cc]: reading a
    request from a connection, answering it, and the loop over a connection.

    The machines Ragel generates ([http_parser_execute] and its relatives) are
    the interface [HttpMachine]: a call gives the number of bytes it consumed
    and the callbacks it made, in order, or throws or aborts. A callback [(at, length)] gets the
    rest of the buffer from [at] on, as the source does. The stream under the
    session is [read], [write] and [close] over its state. Bytes are [ascii]. *)

From Stdlib Require Import ZArith Lia Ascii String.
From stdpp Require Import base list gmap strings.
From S2P Require Import Prelude MachineInt Http HttpProps Servlet Stream.
Local Open Scope Z_scope.

Abbreviation bytes := (list ascii).
Definition to_bytes (s : string) : bytes := list_ascii_of_string s.
Definition of_bytes (b : bytes) : string := string_of_list_ascii b.

(** * The parser *)

Inductive http_event : Type :=
| OnMethod (at_ : bytes) (length : nat)
| OnUri (at_ : bytes) (length : nat)
| OnFragment (at_ : bytes) (length : nat)
| OnPath (at_ : bytes) (length : nat)
| OnQuery (at_ : bytes) (length : nat)
| OnVersion (at_ : bytes) (length : nat)
| OnHeaderDone (at_ : bytes) (length : nat)
| OnField (field : bytes) (flen : nat) (value : bytes) (vlen : nat).

Class HttpMachine (M : Type) : Type := {
  hm_init : M;
  hm_execute : M -> bytes -> outcome (M * nat * list http_event);
  hm_finish : M -> Z;
  hm_has_error : M -> bool
}.

Record HttpRequestParser (M : Type) : Type := mkParser { m_parser : M; m_data : HttpRequest; m_error : Z }.
Arguments mkParser {M}. Arguments m_parser {M} h. Arguments m_data {M} h. Arguments m_error {M} h.

(** The setters of [HttpRequest] the callbacks use. *)
Definition setMethod (v : HttpMethod) (r : HttpRequest) : HttpRequest :=
  mkHttpRequest v (m_version r) (m_close r) (m_path r) (m_query r) (m_fragment r) (m_body r) (m_headers r) (m_params r) (m_cookies r).
Definition setVersion (v : Z) (r : HttpRequest) : HttpRequest :=
  mkHttpRequest (m_method r) v (m_close r) (m_path r) (m_query r) (m_fragment r) (m_body r) (m_headers r) (m_params r) (m_cookies r).
Definition setPath (v : string) (r : HttpRequest) : HttpRequest :=
  mkHttpRequest (m_method r) (m_version r) (m_close r) v (m_query r) (m_fragment r) (m_body r) (m_headers r) (m_params r) (m_cookies r).
Definition setQuery (v : string) (r : HttpRequest) : HttpRequest :=
  mkHttpRequest (m_method r) (m_version r) (m_close r) (m_path r) v (m_fragment r) (m_body r) (m_headers r) (m_params r) (m_cookies r).
Definition setFragment (v : string) (r : HttpRequest) : HttpRequest :=
  mkHttpRequest (m_method r) (m_version r) (m_close r) (m_path r) (m_query r) v (m_body r) (m_headers r) (m_params r) (m_cookies r).
Definition setBody (v : string) (r : HttpRequest) : HttpRequest :=
  mkHttpRequest (m_method r) (m_version r) (m_close r) (m_path r) (m_query r) (m_fragment r) v (m_headers r) (m_params r) (m_cookies r).

(** [strncmp(a, b, n) == 0]: [a] is followed by a NUL at the latest where the
    list ends. *)
Fixpoint strncmp_eq (a b : bytes) (n : nat) : bool :=
  match n with
  | O => true
  | S n' =>
      let x := default zero (head a) in let y := default zero (head b) in
      Ascii.eqb x y && (Ascii.eqb x zero || strncmp_eq (tail a) (tail b) n')
  end.

Section parser.
Context {M : Type} {hm : HttpMachine M}.
Abbreviation P := (HttpRequestParser M).

Definition upd_data (f : HttpRequest -> HttpRequest) (p : P) : P := mkParser (m_parser p) (f (m_data p)) (m_error p).
Definition setError (v : Z) (p : P) : P := mkParser (m_parser p) (m_data p) v.

Definition on_request_method (at_ : bytes) (length : nat) (p : P) : P :=
  match CharsToHttpMethod (of_bytes at_) with
  | INVALID_METHOD => setError 1000 p
  | m => upd_data (setMethod m) p
  end.
Definition on_request_uri (at_ : bytes) (length : nat) (p : P) : P := p.
Definition on_request_fragment (at_ : bytes) (length : nat) (p : P) : P := upd_data (setFragment (of_bytes (take length at_))) p.
Definition on_request_path (at_ : bytes) (length : nat) (p : P) : P := upd_data (setPath (of_bytes (take length at_))) p.
Definition on_request_query (at_ : bytes) (length : nat) (p : P) : P := upd_data (setQuery (of_bytes (take length at_))) p.
Definition on_request_version (at_ : bytes) (length : nat) (p : P) : P :=
  if strncmp_eq at_ (to_bytes "HTTP/1.1") length then upd_data (setVersion 0x11) p
  else if strncmp_eq at_ (to_bytes "HTTP/1.0") length then upd_data (setVersion 0x10) p
  else setError 1001 p.
Definition on_request_header_done (at_ : bytes) (length : nat) (p : P) : P := p.
Definition on_request_http_field (field : bytes) (flen : nat) (value : bytes) (vlen : nat) (p : P) : P :=
  if (flen =? 0)%nat then p
  else upd_data (setHeader (of_bytes (take flen field)) (of_bytes (take vlen value))) p.

(** The callbacks the constructor registers. *)
Definition on_event (e : http_event) (p : P) : P :=
  match e with
  | OnMethod a n => on_request_method a n p
  | OnUri a n => on_request_uri a n p
  | OnFragment a n => on_request_fragment a n p
  | OnPath a n => on_request_path a n p
  | OnQuery a n => on_request_query a n p
  | OnVersion a n => on_request_version a n p
  | OnHeaderDone a n => on_request_header_done a n p
  | OnField f fl v vl => on_request_http_field f fl v vl p
  end.

Definition new_HttpRequestParser : P := mkParser hm_init (new_HttpRequest 0x11 true) 0.

(** [execute]: the parser, the offset, and the bytes [memmove] leaves at the
    front of the buffer. *)
Definition execute (p : P) (data : bytes) : outcome (P * nat * bytes) :=
  '(m', offset, evs) ← hm_execute (m_parser p) data;
  let p1 := foldl (fun q e => on_event e q) p evs in
  Ret (mkParser m' (m_data p1) (m_error p1), offset, drop offset data).
Definition isFinished (p : P) : bool := negb (hm_finish (m_parser p) =? 0).
Definition hasError (p : P) : bool := negb (m_error p =? 0) || hm_has_error (m_parser p).
(** [getHeaderAs<uint64_t>] returned as a [uint32_t]. *)
Definition getContentLength (lexical_cast : string -> option Z) (p : P) : Z :=
  wrap 32 (getHeaderAs lexical_cast "content-length"%string 0 (m_data p)).
End parser.

(** * The session *)

Section session.
Context {M : Type} {hm : HttpMachine M} {W : Type}.
Variable read : Z -> prog W (Z * bytes).
Variable write : bytes -> prog W Z.
Variable close : prog W unit.
Variable lexical_cast : string -> option Z.      (* [boost::lexical_cast<uint64_t>] *)
Variable buff_size : Z.                          (* [GetHttpRequestBufferSize()] *)
Abbreviation P := (HttpRequestParser M).

Definition fail : prog W (option (P * bytes)) := close;; mret None.

(** The [do ... while(true)] loop; [data] are the first [offset] bytes of the
    buffer. *)
Fixpoint recv_head (fuel : nat) (parser : P) (data : bytes) : prog W (option (P * bytes)) :=
  match fuel with
  | O => crash NoFuel
  | S fuel' =>
      r ← read (wrap 64 (buff_size - Z.of_nat (length data)));
      if fst r <=? 0 then fail else
      '(parser', nparse, data') ← lift (execute parser (data ++ snd r));
      if hasError parser' then fail else
      if Z.of_nat (length data') =? sint 32 buff_size then fail else
      if isFinished parser' then mret (Some (parser', data')) else recv_head fuel' parser' data'
  end.

(** The body: what the buffer has of it, then the rest from the stream. *)
Definition recv_body (fuel : nat) (data : bytes) (length0 : Z) : prog W (option bytes) :=
  let offset := Z.of_nat (length data) in
  let body := replicate (Z.to_nat length0) zero in
  let '(body, len) := if offset <=? length0 then (blit 0 data body, offset)
                      else (blit 0 (take (Z.to_nat length0) data) body, length0) in
  if 0 <? length0 - offset then
    r ← readFixSize read fuel body len (length0 - offset);
    if fst r <=? 0 then close;; mret None else mret (Some (snd r))
  else mret (Some body).

Definition recvRequest (fuel : nat) : prog W (option HttpRequest) :=
  h ← recv_head fuel new_HttpRequestParser [];
  match h with
  | None => mret None
  | Some (parser, data) =>
      let length0 := getContentLength lexical_cast parser in
      if 0 <? length0 then
        b ← recv_body fuel data length0;
        match b with
        | None => mret None
        | Some body => mret (Some (Http.init (setBody (of_bytes body) (m_data parser))))
        end
      else mret (Some (Http.init (m_data parser)))
  end.

Definition sendResponse (fuel : nat) (rsp : HttpResponse) : prog W Z :=
  let data := to_bytes (r_dump rsp) in writeFixSize write fuel data 0 (Z.of_nat (length data)).

(** * The loop of the server over a connection: the requests it answered and
    their responses. [handle] is the dispatch of [m_dispatch]; the yield of a
    response that is still being sent lets other fibers run. *)
Variable handle : HttpRequest -> HttpResponse -> W -> Z * HttpResponse * W.
Variable m_isKeepalive : bool.

Definition dispatch (req : HttpRequest) (rsp : HttpResponse) : prog W HttpResponse := fun w =>
  let '(_, rsp', w') := handle req rsp w in (Ret rsp', w').

Fixpoint handleClient_loop (fuel : nat) : prog W (list (HttpRequest * HttpResponse)) :=
  match fuel with
  | O => crash NoFuel
  | S fuel' =>
      req ← recvRequest fuel;
      match req with
      | None => mret []
      | Some req =>
          rsp ← dispatch req (new_HttpResponse (m_version req) (m_close req || negb m_isKeepalive));
          sendResponse (S (length (to_bytes (r_dump rsp)))) rsp;;
          if negb m_isKeepalive || m_close req then mret [(req, rsp)]
          else rest ← handleClient_loop fuel'; mret ((req, rsp) :: rest)
      end
  end.
Definition handleClient (fuel : nat) : prog W (list (HttpRequest * HttpResponse)) :=
  tr ← handleClient_loop fuel; close;; mret tr.
End session.
