(* ===== verification/HttpSessionProps.v ===== *)
(** What a session gives its server: a request is framed by its header and its
    content length, a failed one closes the connection, and the loop over a
    connection answers each request once and in order. *)

From Stdlib Require Import ZArith Lia Ascii String.
From stdpp Require Import base list gmap strings.
From S2P Require Import Prelude MachineInt Http HttpProps Servlet Stream StreamProps HttpSession.
Local Open Scope Z_scope.

(** A machine that does not abort while it is not finished, and consumes at
    most what it is given; a callback of it may throw. *)
Class MachineOk {M} (hm : HttpMachine M) : Type := {
  hm_inv : M -> Prop;
  hm_inv_init : hm_inv hm_init;
  hm_consumes m data : hm_inv m -> Z.of_nat (length data) < 2 ^ 31 ->
    match hm_execute m data with
    | Ret (m', n, _) => (n <= length data)%nat /\ (hm_finish m' = 0 -> hm_inv m')
    | Throw _ => True
    | Crash _ => False
    end
}.
Definition machine_throws {M} {hm : HttpMachine M} {mok : MachineOk hm} (e : string) : Prop :=
  exists m data, hm_inv m /\ hm_execute m data = Throw e.

(** The two directions of a connection do not disturb each other. *)
Class Connection {W : Type} (read : Z -> prog W (Z * bytes)) (write : bytes -> prog W Z) (close : prog W unit) : Type := {
  conn_source :: Source read;
  conn_sink :: Sink write;
  read_accepted n w : accepted (post (read n) w) = accepted w;
  write_pending bs w : pending (post (write bs) w) = pending w;
  close_ok w : exists w', close w = (Ret tt, w') /\ accepted w' = accepted w
}.

Section consumed.
Context {M : Type} {hm : HttpMachine M}.

(** [p] is the parser after calls of [execute] that consumed [bs]. *)
Inductive consumed : bytes -> HttpRequestParser M -> Prop :=
| consumed_nothing : consumed [] new_HttpRequestParser
| consumed_more bs p data p' n rest : consumed bs p -> execute p data = Ret (p', n, rest) -> consumed (bs ++ take n data) p'.

Lemma execute_split {mok : MachineOk hm} p data : hm_inv (m_parser p) -> Z.of_nat (length data) < 2 ^ 31 ->
  (exists p' n, execute p data = Ret (p', n, drop n data) /\ (n <= length data)%nat /\ (isFinished p' = false -> hm_inv (m_parser p'))) \/
  (exists e, execute p data = Throw e /\ machine_throws e).
Proof.
  intros Hi Hl. unfold execute. pose proof (hm_consumes (m_parser p) data Hi Hl) as H.
  destruct (hm_execute (m_parser p) data) as [[[m' n] evs]|e|f] eqn:E; [|right|done].
  - left. destruct H as [Hn Hf]. eexists _, n. split_and!; [done|done|]. intros Hfin. apply Hf. unfold isFinished in Hfin. simpl in Hfin.
    by apply negb_false_iff, Z.eqb_eq in Hfin.
  - exists e. split; [done|]. by exists (m_parser p), data.
Qed.
End consumed.

Section session_props.
Context {M : Type} {hm : HttpMachine M} {mok : MachineOk hm} {W : Type}.
Context (read : Z -> prog W (Z * bytes)) (write : bytes -> prog W Z) (close : prog W unit) {conn : Connection read write close}.
Context (lexical_cast : string -> option Z) (buff_size : Z).
Hypothesis buff_size_ok : 0 < buff_size < 2 ^ 31.
Hypothesis reads : never_fails read.
Implicit Types (p : HttpRequestParser M) (data : bytes) (w : W).

Definition closed w : Prop := exists w1, close w1 = (Ret tt, w).

Lemma fail_run w : exists w', fail close w = (Ret (@None (HttpRequestParser M * bytes)), w') /\ closed w' /\ accepted w' = accepted w.
Proof. destruct (close_ok w) as (w' & E & Ha). unfold fail. run E. exists w'. split_and!; try done. by exists w. Qed.

Lemma recv_head_ok fuel p data hd w : (length (pending w) < fuel)%nat -> Z.of_nat (length data) < buff_size -> consumed hd p ->
  hm_inv (m_parser p) ->
  exists r w', recv_head read close buff_size fuel p data w = (r, w') /\ accepted w' = accepted w /\
    match r with
    | Ret None => closed w'
    | Ret (Some (p', data')) => exists hd', consumed (hd ++ hd') p' /\ data ++ pending w = hd' ++ data' ++ pending w' /\
        isFinished p' = true /\ hasError p' = false /\ Z.of_nat (length data') < buff_size /\
        (length (pending w') < length (pending w))%nat
    | Throw e => machine_throws e
    | Crash _ => False
    end.
Proof.
  revert p data hd w. induction fuel as [|fuel IH]; intros p data hd w Hf Hd Hp Hi; [lia|]. cbn [recv_head].
  rewrite wrap_id by (unfold in_uint; lia).
  destruct (src_read (buff_size - Z.of_nat (length data)) w ltac:(lia)) as (rt & bs & w1 & E & Hr).
  pose proof (reads _ _ _ _ _ E) as Hrt.
  assert (accepted w1 = accepted w) as Ha1. { rewrite <- (read_accepted (buff_size - Z.of_nat (length data)) w). unfold post. by rewrite E. }
  run E. cbn [fst snd].
  destruct Hr as [(Hpos & -> & Hle & Hpend)|[(-> & _)|(Hneg & _)]]; [| |lia].
  2: { simpl. destruct (fail_run w1) as (w' & Ef & Hc & Ha). exists (Ret None), w'. split_and!; [done|congruence|done]. }
  rewrite (proj2 (Z.leb_gt _ _)) by lia.
  destruct (execute_split p (data ++ bs) Hi) as [(p' & n & Ex & Hn & Hi')|(e & Ex & Ht)].
  { rewrite length_app. lia. }
  2: { exists (Throw e), w1. split_and!; [|done|done]. unfold mbind, prog_bind, lift. by rewrite Ex. }
  run (f_equal (fun o => (o, w1)) Ex). cbv iota beta. rewrite length_app in Hn.
  pose proof (consumed_more hd p (data ++ bs) _ _ _ Hp Ex) as Hp'.
  assert (length (pending w) = length bs + length (pending w1))%nat as Hlen by (by rewrite Hpend, length_app).
  destruct (hasError p') eqn:He; [|rewrite (sint_id 32 buff_size) by (unfold in_sint; lia); destruct (Z.eqb_spec (Z.of_nat (length (drop n (data ++ bs)))) buff_size) as [Hfull|Hfull]].
  1, 2: destruct (fail_run w1) as (w' & Ef & Hc & Ha); exists (Ret None), w'; split_and!; [done|congruence|done].
  rewrite length_drop, length_app in Hfull. assert (data ++ pending w = take n (data ++ bs) ++ drop n (data ++ bs) ++ pending w1) as Hsplit.
  { by rewrite app_assoc, take_drop, Hpend, app_assoc. }
  destruct (isFinished p') eqn:Hfin.
  - eexists (Ret (Some _)), w1. split; [reflexivity|]. split; [done|]. exists (take n (data ++ bs)). rewrite length_drop, length_app.
    split_and!; try done; lia.
  - destruct (IH p' (drop n (data ++ bs)) _ w1 ltac:(lia) ltac:(rewrite length_drop, length_app; lia) Hp' (Hi' eq_refl)) as (r & w' & Er & Ha & Hr).
    exists r, w'. split; [done|]. split; [congruence|]. destruct r as [[[p2 data2]|]| |]; try done.
    destruct Hr as (hd2 & H1 & H2 & H3 & H4 & H5 & H6). exists (take n (data ++ bs) ++ hd2). rewrite app_assoc.
    split_and!; try done; [|lia]. by rewrite Hsplit, <- !app_assoc, <- H2.
Qed.

Lemma readFixSize_loop_accepted fuel mem buffer l o left w :
  accepted (post (readFixSize_loop read fuel mem buffer l o left) w) = accepted w.
Proof.
  clear -conn. revert mem o left w. induction fuel as [|fuel IH]; intros mem o left v; cbn [readFixSize_loop]; destruct (left =? 0); try done.
  pose proof (read_accepted left v) as Hr. unfold post in *. unfold mbind, prog_bind. destruct (read left v) as [[[rt bs]| |] v1]; try done.
  cbn [fst snd] in *. destruct (mem_store _ _ _); try done. destruct (_ <=? 0); [done|]. by rewrite IH.
Qed.

(** The bytes of the body: exactly [length0], if they come. *)
Lemma recv_body_ok fuel data length0 w : (length (pending w) < fuel)%nat -> 0 < length0 < 2 ^ 32 ->
  Z.of_nat (length data) < 2 ^ 31 ->
  exists r w', recv_body read close fuel data length0 w = (Ret r, w') /\ accepted w' = accepted w /\
    match r with
    | None => closed w' /\ (Z.of_nat (length (data ++ pending w)) < length0 \/ 2 ^ 31 <= length0 - Z.of_nat (length data))
    | Some body => length0 <= Z.of_nat (length (data ++ pending w)) /\ body = take (Z.to_nat length0) (data ++ pending w) /\
        pending w' = drop (Z.to_nat length0 - length data) (pending w)
    end.
Proof.
  intros Hf Hl Hd. unfold recv_body. rewrite length_app.
  assert (length (replicate (Z.to_nat length0) zero) = Z.to_nat length0) as Hrep by apply length_replicate.
  destruct (Z.leb_spec (Z.of_nat (length data)) length0) as [Hle|Hgt].
  - destruct (Z.ltb_spec 0 (length0 - Z.of_nat (length data))) as [Hlt|Hge].
    + assert (length (blit 0 data (replicate (Z.to_nat length0) zero)) = Z.to_nat length0) as Hbl by (rewrite length_blit; lia).
      destruct (readFixSize_loop_ok read fuel (blit 0 data (replicate (Z.to_nat length0) zero)) (Z.of_nat (length data))
                  (length0 - Z.of_nat (length data)) 0 (length0 - Z.of_nat (length data)) w reads) as (w1 & E & Hp1); try lia.
      pose proof (readFixSize_loop_accepted fuel (blit 0 data (replicate (Z.to_nat length0) zero)) (Z.of_nat (length data))
                  (length0 - Z.of_nat (length data)) 0 (length0 - Z.of_nat (length data)) w) as Hacc. unfold post in Hacc. rewrite E in Hacc. simpl in Hacc.
      unfold readFixSize. run E. cbn [fst snd]. set (left := length0 - Z.of_nat (length data)) in *.
      set (got := take (Z.to_nat left) (pending w)) in *. assert (length got <= Z.to_nat left)%nat by (unfold got; rewrite length_take; lia).
      destruct (decide (Z.of_nat (length got) = left)) as [Hg|Hg].
      * destruct (decide (left < 2 ^ 31)) as [H31|H31].
        -- rewrite sint_id by (unfold in_sint; lia). rewrite (proj2 (Z.leb_gt _ _)) by lia. eexists (Some _), w1.
           split; [reflexivity|]. split; [done|]. assert (Z.to_nat left <= length (pending w))%nat by (unfold got in Hg; rewrite length_take in Hg; lia).
           split_and!; [lia| |rewrite Hp1; f_equal; lia].
           rewrite Z.add_0_r, Nat2Z.id. replace (length data) with (0 + length data)%nat by lia.
           rewrite blit_blit by lia. unfold blit. rewrite take_0, drop_ge, app_nil_r by (rewrite length_app, length_replicate; lia).
           simpl. rewrite take_app, take_ge by lia. f_equal. unfold got. f_equal. lia.
        -- assert (sint 32 left < 0) as Hneg.
           { replace (sint 32 left) with (left - 2 ^ 32); [lia|]. unfold sint.
             replace (left + 2 ^ (32 - 1)) with (left - 2 ^ 31 + 1 * 2 ^ 32) by lia. rewrite Z.mod_add by lia.
             rewrite Z.mod_small by lia. lia. }
           rewrite (proj2 (Z.leb_le _ _)) by lia. destruct (close_ok w1) as (w2 & E2 & Ha2). run E2.
           exists None, w2. split_and!; [done|congruence|by exists w1|]. right. unfold left in *. lia.
      * rewrite (proj2 (Z.leb_le _ _)) by lia. destruct (close_ok w1) as (w2 & E2 & Ha2). run E2.
        exists None, w2. split_and!; [done|congruence|by exists w1|]. left. unfold got in Hg. rewrite length_take in Hg. unfold left in *. lia.
    + eexists (Some _), w. split; [reflexivity|]. split; [done|]. replace length0 with (Z.of_nat (length data)) by lia. rewrite Nat2Z.id.
      split_and!; [lia| |by rewrite Nat.sub_diag].
      unfold blit. rewrite take_0, drop_ge, app_nil_r by (rewrite length_replicate; lia). by rewrite take_app_length.
  - rewrite (proj2 (Z.ltb_ge _ _)) by lia. eexists (Some _), w. split; [reflexivity|]. split; [done|]. split_and!; [lia| |].
    + unfold blit. rewrite take_0, drop_ge, app_nil_r by (rewrite length_replicate, length_take; lia). simpl. by rewrite take_app_le by lia.
    + by replace (Z.to_nat length0 - length data)%nat with 0%nat by lia.
Qed.

(** What a call of [recvRequest] is: see [recvRequest_frames]. *)
Definition framed w w' (req : HttpRequest) : Prop :=
  exists p hd mid, let length0 := getContentLength lexical_cast p in
    consumed hd p /\ isFinished p = true /\ hasError p = false /\
    pending w = hd ++ mid ++ pending w' /\ length0 <= Z.of_nat (length mid) /\
    Z.of_nat (length mid) < length0 `max` buff_size + 1 /\
    req = Http.init (if 0 <? length0 then setBody (of_bytes (take (Z.to_nat length0) mid)) (m_data p) else m_data p).

Lemma recvRequest_ok fuel w : (length (pending w) < fuel)%nat ->
  exists r w', recvRequest read close lexical_cast buff_size fuel w = (r, w') /\ accepted w' = accepted w /\
    match r with
    | Ret None => closed w'
    | Ret (Some req) => framed w w' req /\ (length (pending w') < length (pending w))%nat
    | Throw e => machine_throws e
    | Crash _ => False
    end.
Proof.
  intros Hf. unfold recvRequest.
  destruct (recv_head_ok fuel new_HttpRequestParser [] [] w Hf ltac:(simpl; lia) consumed_nothing hm_inv_init) as (r & w1 & E & Ha & Hr).
  destruct r as [r|e|f]; [|exists (Throw e), w1; split; [unfold mbind, prog_bind; by rewrite E|done]|done].
  run E. destruct r as [[p data]|]; [|by exists (Ret None), w1]. destruct Hr as (hd & Hp & Hpend & Hfin & Herr & Hd & Hlt). simpl in Hp, Hpend.
  set (length0 := getContentLength lexical_cast p).
  assert (0 <= length0 < 2 ^ 32) as Hl0 by (apply (wrap_range 32); lia).
  destruct (Z.ltb_spec 0 length0) as [Hl|Hl].
  - destruct (recv_body_ok fuel data length0 w1 ltac:(lia) ltac:(lia) ltac:(lia)) as (b & w2 & Eb & Ha2 & Hb). run Eb.
    destruct b as [body|]; [|exists (Ret None), w2; split_and!; [done|congruence|apply Hb]]. destruct Hb as (Hlen & -> & Hp2).
    eexists (Ret (Some _)), w2. split; [reflexivity|]. split; [congruence|]. rewrite length_app in Hlen.
    assert (length (pending w2) <= length (pending w1))%nat by (rewrite Hp2, length_drop; lia).
    split; [|lia]. exists p, hd, (data ++ take (Z.to_nat length0 - length data) (pending w1)). cbv zeta. fold length0.
    rewrite (proj2 (Z.ltb_lt _ _)) by done. rewrite length_app, length_take.
    split_and!; try done; [|lia|lia|].
    + by rewrite Hpend, Hp2, <- !app_assoc, take_drop.
    + by rewrite !take_app, take_take, Nat.min_id.
  - eexists (Ret (Some _)), w1. split; [reflexivity|]. split; [done|]. split; [|done]. exists p, hd, data. cbv zeta. fold length0.
    rewrite (proj2 (Z.ltb_ge _ _)) by lia. split_and!; try done; lia.
Qed.

(** ** Answering *)

Hypothesis writes : forall bs w rt w', bs <> [] -> write bs w = (Ret rt, w') -> 0 < rt.

Lemma writeFixSize_loop_all fuel mem length0 offset left w : 0 <= offset -> 0 <= left -> (Z.to_nat left < fuel)%nat ->
  offset + left <= Z.of_nat (length mem) -> Z.of_nat (length mem) < 2 ^ 63 ->
  exists w', writeFixSize_loop write fuel mem 0 length0 offset left w = (Ret (sint 32 length0), w') /\
    accepted w' = accepted w ++ slice (Z.to_nat offset) (Z.to_nat left) mem /\ pending w' = pending w.
Proof.
  revert offset left w. induction fuel as [|fuel IH]; intros offset left w Ho Hl Hf Hfit Hm; [lia|].
  cbn [writeFixSize_loop]. destruct (Z.eqb_spec left 0) as [->|Hne].
  - exists w. rewrite slice_0, app_nil_r. done.
  - rewrite wrap_id by (unfold in_uint; lia). rewrite mem_load_ok by lia. simpl (0 + offset).
    set (bs := slice _ _ mem). assert (length bs = Z.to_nat left) as Hbs by (apply length_slice; lia).
    assert (bs <> []) as Hbn. { intros H0. rewrite H0 in Hbs. simpl in Hbs. lia. }
    destruct (snk_write bs w Hbn) as (rt & w1 & E & Hr). pose proof (writes _ _ _ _ Hbn E) as Hrt.
    pose proof (write_pending bs w) as Hwp. unfold post in Hwp. rewrite E in Hwp. simpl in Hwp. run E.
    destruct Hr as [(Hp & Hle & Hacc)|(Hz & _)]; [|lia].
    rewrite (wrap_id 64 rt), (proj2 (Z.leb_gt _ _)) by (unfold in_uint; lia). rewrite !wrap_id by (unfold in_uint; lia).
    destruct (IH (offset + rt) (left - rt) w1) as (w' & E' & Hw' & Hp'); try lia. exists w'. split; [done|]. split; [|congruence].
    rewrite Hw', Hacc, <- app_assoc. f_equal. rewrite <- (take_drop (Z.to_nat rt) bs) at 2. f_equal.
    unfold bs, slice. rewrite skipn_firstn_comm, drop_drop. f_equal; [lia|f_equal; lia].
Qed.

Definition answer (rsp : HttpResponse) : bytes := to_bytes (r_dump rsp).

Lemma sendResponse_ok rsp w : Z.of_nat (length (answer rsp)) < 2 ^ 63 ->
  exists rt w', sendResponse write (S (length (answer rsp))) rsp w = (Ret rt, w') /\
    accepted w' = accepted w ++ answer rsp /\ pending w' = pending w.
Proof.
  intros H. unfold sendResponse, writeFixSize. fold (answer rsp).
  destruct (writeFixSize_loop_all (S (length (answer rsp))) (answer rsp) (Z.of_nat (length (answer rsp))) 0 (Z.of_nat (length (answer rsp))) w)
    as (w' & E & Ha & Hp); try lia.
  eexists _, w'. split; [exact E|]. split; [|done]. rewrite Ha, Nat2Z.id. change (Z.to_nat 0) with 0%nat. by rewrite slice_full.
Qed.

(** ** The loop over a connection *)

Variable handle : HttpRequest -> HttpResponse -> W -> Z * HttpResponse * W.
Variable m_isKeepalive : bool.
(** The servlets answer through the response, not through the session. *)
Hypothesis handle_quiet : forall req rsp w, let '(_, rsp', w') := handle req rsp w in
  accepted w' = accepted w /\ pending w' = pending w /\ Z.of_nat (length (answer rsp')) < 2 ^ 63.

Definition first_response (req : HttpRequest) : HttpResponse := new_HttpResponse (m_version req) (m_close req || negb m_isKeepalive).
(** The pairs of a connection: each request is followed by the next one only
    if the connection is kept alive. *)
Definition answered (req : HttpRequest) (rsp : HttpResponse) : Prop := exists w, rsp = snd (fst (handle req (first_response req) w)).
Fixpoint served (l : list (HttpRequest * HttpResponse)) : Prop :=
  match l with
  | [] => True
  | (req, rsp) :: l' => answered req rsp /\ (l' <> [] -> m_isKeepalive = true /\ m_close req = false) /\ served l'
  end.

Lemma handleClient_loop_ok fuel w : (length (pending w) < fuel)%nat ->
  exists o tr w', handleClient_loop read write close lexical_cast buff_size handle m_isKeepalive fuel w = (o, w') /\
    accepted w' = accepted w ++ concat ((fun e => answer (snd e)) <$> tr) /\ served tr /\
    match o with Ret tr' => tr' = tr | Throw e => machine_throws e | Crash _ => False end.
Proof.
  revert w. induction fuel as [|fuel IH]; intros w Hf; [lia|]. cbn [handleClient_loop].
  destruct (recvRequest_ok (S fuel) w Hf) as (r & w1 & E & Ha & Hr).
  destruct r as [r|e|f]; [|exists (Throw e), [], w1; split; [unfold mbind, prog_bind; by rewrite E|by rewrite app_nil_r]|done].
  run E. destruct r as [req|]; [|exists (Ret []), [], w1; simpl; rewrite app_nil_r; done]. destruct Hr as [_ Hlt].
  pose proof (handle_quiet req (first_response req) w1) as Hq. fold (first_response req).
  destruct (handle req (first_response req) w1) as [[z rsp] w2] eqn:Eh. destruct Hq as (Ha2 & Hp2 & Hlen).
  assert (dispatch handle req (first_response req) w1 = (Ret rsp, w2)) as Ed by (unfold dispatch; by rewrite Eh). run Ed.
  destruct (sendResponse_ok rsp w2 Hlen) as (rt & w3 & Es & Ha3 & Hp3). fold (answer rsp). run Es.
  assert (answered req rsp) as Hans by (exists w1; by rewrite Eh).
  destruct (negb m_isKeepalive || m_close req) eqn:Ek.
  - exists (Ret [(req, rsp)]), [(req, rsp)], w3. split_and!; [done| |done..]. rewrite Ha3, Ha2, Ha. simpl. by rewrite app_nil_r.
  - destruct (IH w3) as (o & tr & w4 & El & Ha4 & Htr & Ho); [rewrite Hp3, Hp2; lia|].
    assert (m_isKeepalive = true /\ m_close req = false) as Hk by (apply orb_false_iff in Ek as [Ek1%negb_false_iff Ek2]; done).
    exists (match o with Ret tr' => Ret ((req, rsp) :: tr') | Throw e => Throw e | Crash f => Crash f end), ((req, rsp) :: tr), w4. split_and!.
    + unfold mbind, prog_bind. rewrite El. by destruct o.
    + rewrite Ha4, Ha3, Ha2, Ha, <- app_assoc. done.
    + done.
    + destruct o; [by subst|done|done].
Qed.
End session_props.



(** A connection and a machine for examples: two bytes at a time come in, all
    that is written goes out; a head is a line, and says that three bytes
    follow. *)
Definition ex_read (n : Z) : prog (bytes * bytes) (Z * bytes) := fun w =>
  let bs := take (Z.to_nat n `min` 2) (fst w) in (Ret (Z.of_nat (length bs), bs), (drop (Z.to_nat n `min` 2) (fst w), snd w)).
Definition ex_write (bs : bytes) : prog (bytes * bytes) Z := fun w =>
  (Ret (Z.of_nat (length bs `min` 1000)), (fst w, snd w ++ take (length bs `min` 1000) bs)).
Definition ex_close : prog (bytes * bytes) unit := fun w => (Ret tt, w).

#[local] Instance ex_source : Source ex_read.
Proof.
  refine {| pending := fst |}. intros n [i o] Hn. eexists _, _, _. split; [reflexivity|]. simpl.
  destruct i as [|b i]; [right; left; by rewrite take_nil, drop_nil|]. left. rewrite take_drop, length_take. simpl length.
  split_and!; lia || done.
Defined.
#[local] Instance ex_sink : Sink ex_write.
Proof.
  refine {| accepted := snd |}. intros bs [i o] Hn. eexists _, _. split; [reflexivity|]. simpl. left. rewrite Nat2Z.id.
  destruct bs; [done|]. simpl length. split_and!; lia || done.
Defined.
#[local] Instance ex_connection : Connection ex_read ex_write ex_close.
Proof. split with ex_source ex_sink; [by intros n []|by intros bs []|]. intros w. by exists w. Defined.
(** One that gives as much as is asked for, up to a bound. *)
Definition full_read (n : Z) : prog (bytes * bytes) (Z * bytes) := fun w =>
  let bs := take (Z.to_nat (Z.min n 65536)) (fst w) in (Ret (Z.of_nat (length bs), bs), (drop (Z.to_nat (Z.min n 65536)) (fst w), snd w)).
#[local] Instance full_source : Source full_read.
Proof.
  refine {| pending := fst |}. intros n [i o] Hn. eexists _, _, _. split; [reflexivity|]. simpl.
  destruct i as [|b i]; [right; left; by rewrite take_nil, drop_nil|]. left. rewrite take_drop, length_take. simpl length.
  split_and!; lia || done.
Defined.
#[local] Instance full_connection : Connection full_read ex_write ex_close.
Proof. split with full_source ex_sink; [by intros n []|by intros bs []|]. intros w. by exists w. Defined.

Fixpoint ex_line (data : bytes) : option nat :=
  match data with [] => None | a :: d => if Ascii.eqb a "010" then Some 1%nat else S <$> ex_line d end.
#[local] Instance ex_machine : HttpMachine bool := {|
  hm_init := false;
  hm_execute m data := Ret match ex_line data with
    | Some n => (true, n, [OnPath data (n - 1); OnField (to_bytes "content-length") 14 (to_bytes "3") 1;
                         OnField (to_bytes "connection") 10 (to_bytes "keep-alive") 10])
    | None => (m, 0%nat, [])
    end;
  hm_finish m := if m then 1 else 0;
  hm_has_error _ := false
|}.
#[local] Instance ex_machine_ok : MachineOk ex_machine.
Proof.
  refine {| hm_inv _ := True |}; [done|]. intros m data _ _. simpl. destruct (ex_line data) as [n|] eqn:E; split; try done; [|lia].
  revert n E. induction data as [|a d IH]; intros n E; simpl in *; [done|]. destruct (Ascii.eqb a "010").
  - injection E as <-. lia.
  - destruct (ex_line d) as [k|]; [|done]. injection E as <-. specialize (IH k eq_refl). lia.
Defined.
Definition ex_cast (s : string) : option Z := if String.eqb s "3" then Some 3 else None.
Definition ex_state : bytes * bytes := (to_bytes "/a" ++ ["010"%char] ++ to_bytes "xyzw", []).



(** The same two requests, two bytes at a time and all at once: the bytes of
    the second that came with the first are lost. *)
Lemma pipelined_request_lost :
  let w := (to_bytes "/a" ++ ["010"%char] ++ to_bytes "xyz" ++ to_bytes "/b" ++ ["010"%char] ++ to_bytes "uvw", []) in
  let all_at_once (n : Z) : prog (bytes * bytes) (Z * bytes) := fun w => (Ret (Z.of_nat (length (fst w)), fst w), ([], snd w)) in
  let serve read := out (handleClient read ex_write ex_close ex_cast 64 (fun _ _ w => (0, new_HttpResponse 0x11 true, w)) true 20) w in
  (exists a b, serve ex_read = Ret [a; b]) /\ (exists a, serve all_at_once = Ret [a]).
Proof. split; [eexists _, _|eexists]; vm_compute; reflexivity. Qed.
