(* ===== verification/HttpText.v ===== *)
(** The text of a message as bytes, for the parsers that read it back: the
    header lines [http.cc] prints are those of the entries of the map, and
    setting the entries again gives the map. *)

From Stdlib Require Import ZArith Lia Ascii String.
From stdpp Require Import base list gmap strings.
From S2P Require Import Prelude Http HttpProps HttpSession.

Lemma to_bytes_app a b : to_bytes (a ++ b)%string = to_bytes a ++ to_bytes b.
Proof. induction a as [|x a IH]; [done|]. exact (f_equal (cons x) IH). Qed.
Lemma of_to_bytes s : of_bytes (to_bytes s) = s.
Proof. apply string_of_list_ascii_of_string. Qed.
Lemma length_to_bytes s : length (to_bytes s) = String.length s.
Proof. induction s as [|a s IH]; [done|]. exact (f_equal S IH). Qed.
Lemma to_bytes_nil s : to_bytes s = [] -> s = ""%string.
Proof. by destruct s. Qed.
#[export] Hint Rewrite to_bytes_app of_to_bytes : sherry.

(** The entries that are printed. *)
Definition fields_of (m : MapType) : list (bytes * bytes) :=
  omap (fun e => if strcaseeq e.1 "connection" then None else Some (to_bytes e.1, to_bytes e.2)) m.
Definition field_line (sep eol : string) (f : bytes * bytes) : bytes := f.1 ++ to_bytes sep ++ f.2 ++ to_bytes eol.
Lemma header_lines_bytes sep eol m : to_bytes (header_lines sep eol m) = concat (field_line sep eol <$> fields_of m).
Proof.
  induction m as [|[k v] m IH]; [done|]. unfold fields_of. simpl. destruct (strcaseeq k "connection"); [done|].
  rewrite !to_bytes_app, IH. unfold field_line at 2. simpl. by rewrite <- !app_assoc.
Qed.

(** Setting them one after the other. *)
Definition set_all (m : MapType) (fs : list (bytes * bytes)) : MapType :=
  foldl (fun m f => map_set (of_bytes f.1) (of_bytes f.2) m) m fs.
Lemma set_all_ok m fs : map_ok m -> map_ok (set_all m fs).
Proof. revert m; induction fs as [|f fs IH]; intros m Hm; [done|]. by apply IH, map_set_ok. Qed.

Lemma later_not_found k v m : map_ok ((k, v) :: m) -> map_abs m !! fold_key k = None.
Proof.
  intros H. inversion H as [|? ? Hm Hall]; subst. clear H Hm. induction Hall as [|[k' v'] m Hk Hm IH]; [done|].
  rewrite map_abs_cons, lookup_insert_ne; [done|]. intros E. unfold entry_less in Hk. simpl in Hk.
  apply less_spec in Hk. rewrite E in Hk. by apply compare_irrefl in Hk.
Qed.
Lemma set_all_lookup m m0 key : map_ok m -> key <> "connection"%string ->
  map_abs (set_all m0 (fields_of m)) !! key = match map_abs m !! key with Some v => Some v | None => map_abs m0 !! key end.
Proof.
  intros Hm Hkey. revert m0. induction m as [|[k v] m IH]; intros m0; [done|].
  pose proof (later_not_found k v m Hm) as Hnone. assert (map_ok m) as Hm' by by inversion Hm. specialize (IH Hm').
  unfold fields_of. simpl. rewrite map_abs_cons. fold (fields_of m). destruct (strcaseeq k "connection") eqn:E.
  - apply strcaseeq_spec in E. rewrite lookup_insert_ne; [apply IH|]. rewrite E. intros <-. by apply Hkey.
  - simpl. rewrite !of_to_bytes, IH, map_set_abs.
    destruct (decide (fold_key k = key)) as [<-|Hne]; [by rewrite Hnone, !lookup_insert_eq|by rewrite !lookup_insert_ne].
Qed.
Lemma set_all_absent m0 fs key : (forall f, In f fs -> fold_key (of_bytes f.1) <> key) -> map_abs (set_all m0 fs) !! key = map_abs m0 !! key.
Proof.
  revert m0; induction fs as [|f fs IH]; intros m0 H; [done|]. simpl. rewrite IH by (intros g Hg; apply H; by right).
  rewrite map_set_abs, lookup_insert_ne; [done|]. apply H. by left.
Qed.
Lemma find_set_all m m0 key : map_ok m -> fold_key key <> "connection"%string ->
  map_find key (set_all m0 (fields_of m)) = match map_find key m with Some v => Some v | None => map_find key m0 end.
Proof. intros Hm Hk. rewrite !map_find_abs. by apply set_all_lookup. Qed.
