(* ===== verification/Ragel.v ===== *)
(** What the three automata that Ragel generates have in common
    ([sherry/uri.rl.cc], [http/http11_parser.rl.cc],
    [http/httpclient_parser.rl.cc]): the shape of their tables, the loop over
    the buffer, the C functions their actions call, and how to reason about a
    run over input that is only known by classes of characters.

    A table gives, for a state and a character, the actions to run and the
    state that follows.  The loop stops at the end of the buffer, in the error
    state 0 with [p] still on the character that has no move, or just after a
    character whose action breaks out of the loop. *)

From Stdlib Require Import ZArith Lia Ascii String.
From stdpp Require Import base list strings pretty.
From S2P Require Import Prelude MachineInt.
Local Open Scope Z_scope.

Abbreviation bytes := (list ascii).

(** * C functions of the actions *)

(** [*p], a signed [char]. *)
Definition char (c : ascii) : Z := sint 8 (Z.of_N (N_of_ascii c)).

Definition is_space (c : ascii) : bool := let n := nat_of_ascii c in (n =? 32)%nat || ((9 <=? n) && (n <=? 13))%nat.
Fixpoint skip_space (s : bytes) : bytes := match s with c :: s' => if is_space c then skip_space s' else s | [] => [] end.
Definition digit_of (base : Z) (c : ascii) : option Z :=
  let n := Z.of_nat (nat_of_ascii c) in
  let d := if (48 <=? n) && (n <=? 57) then n - 48
           else if (97 <=? n) && (n <=? 122) then n - 87
           else if (65 <=? n) && (n <=? 90) then n - 55 else base in
  if d <? base then Some d else None.
Fixpoint digits_value (base acc : Z) (s : bytes) : Z :=
  match s with
  | c :: s' => match digit_of base c with Some d => digits_value base (acc * base + d) s' | None => acc end
  | [] => acc
  end.
(** [0x] before hexadecimal digits is skipped. *)
Definition skip_0x (base : Z) (s : bytes) : bytes :=
  match s with
  | z :: x :: d :: s' => if (base =? 16) && Ascii.eqb z "0" && (Ascii.eqb x "x" || Ascii.eqb x "X") && (if digit_of 16 d then true else false) then d :: s' else s
  | _ => s
  end.
(** [strtol(s, NULL, base)]: spaces, a sign, digits, the value clamped to a
    [long]. *)
Definition strtol (base : Z) (s : bytes) : Z :=
  match skip_space s with
  | c :: s' =>
      if Ascii.eqb c "-" then Z.max (- digits_value base 0 (skip_0x base s')) (- 2 ^ 63)
      else Z.min (digits_value base 0 (skip_0x base (if Ascii.eqb c "+" then s' else c :: s'))) (2 ^ 63 - 1)
  | [] => 0
  end.
Definition atoi (s : bytes) : Z := sint 32 (strtol 10 s).

(** [std::string(at, len)]: a length no string has throws. *)
Definition c_string (at_ : bytes) (len : Z) : outcome string :=
  if 2 ^ 63 - 1 <? len then Throw "basic_string::_M_create"
  else if Z.of_nat (length at_) <? len then Crash OutOfRange
  else Ret (string_of_list_ascii (take (Z.to_nat len) at_)).

(** * Characters and line ends of the HTTP grammars *)

Definition CRLF_ : bytes := ["013"; "010"]%char.
Definition LF_ : bytes := ["010"]%char.
Definition is_separator (c : ascii) : bool :=
  existsb (Nat.eqb (nat_of_ascii c)) [9; 32; 34; 40; 41; 44; 47; 58; 59; 60; 61; 62; 63; 64; 91; 92; 93; 123; 125]%nat.
(** [token]: printable and no separator; [clean]: no control character. *)
Definition is_token (c : ascii) : bool := let n := nat_of_ascii c in (33 <=? n)%nat && (n <=? 126)%nat && negb (is_separator c).
Definition is_clean (c : ascii) : bool := let n := nat_of_ascii c in (32 <=? n)%nat && negb (n =? 127)%nat.

(** * Tables *)

Record target (A : Type) : Type := mkTarget { t_actions : list A; t_state : Z }.
Arguments mkTarget {A}. Arguments t_actions {A}. Arguments t_state {A}.

(** [goto stN] runs no action, [goto trN] those of [trN]; an [if] and a
    [switch] without a matching case fall through to the next statement. *)
Definition st {A} (n : Z) : target A := mkTarget [] n.
Definition goto {A} (t : target A) : option (target A) := Some t.
Definition when {A} (b : bool) (o : option (target A)) : option (target A) := if b then o else None.
Definition or_else {A} (o k : option (target A)) : option (target A) := match o with Some t => Some t | None => k end.
Fixpoint switch {A} (c : Z) (cases : list (Z * target A)) : option (target A) :=
  match cases with
  | [] => None
  | (n, t) :: rest => if c =? n then goto t else switch c rest
  end.
Declare Scope ragel_scope.
Notation "o ||> k" := (or_else o k) (at level 70, right associativity) : ragel_scope.

(** * The loop

    [act a p s] is one action with [p] on a character: the new state of the
    parser, and whether it is an [fbreak], which sets [cs] to the state the
    label goes to. *)
Section loop.
Context {A S : Type}.
Variable table : Z -> Z -> option (target A).
Variable act : A -> Z -> S -> outcome (S * bool).

Fixpoint run_actions (l : list A) (p : Z) (s : S) : outcome (S * bool) :=
  match l with
  | [] => Ret (s, false)
  | a :: l' =>
      r ← act a p s;
      match r with
      | (s', false) => run_actions l' p s'
      | (s', true) => Ret (s', true)
      end
  end.

(** From state [cs] with [p] before [rest]: the parser, the state and [p]. *)
Fixpoint exec (rest : bytes) (p cs : Z) (s : S) : outcome (S * Z * Z) :=
  match rest with
  | [] => Ret (s, cs, p)
  | c :: rest' =>
      match table cs (char c) with
      | None => Ret (s, cs, p)
      | Some t =>
          r ← run_actions (t_actions t) p s;
          match r with
          | (s', true) => Ret (s', t_state t, p + 1)
          | (s', false) => if t_state t =? 0 then Ret (s', 0, p) else exec rest' (p + 1) (t_state t) s'
          end
      end
  end.
End loop.

(** * Facts about all characters, by trying them *)

Definition all_chars : list ascii := map ascii_of_nat (seq 0 256).
Lemma all_chars_elem c : In c all_chars.
Proof.
  rewrite <- (ascii_nat_embedding c). apply in_map, in_seq. pose proof (nat_ascii_bounded c). lia.
Qed.

(** ** Numbers that another character ends *)

Lemma digits_value_app b acc ds c rest : Forall (fun x => digit_of b x <> None) ds -> digit_of b c = None ->
  digits_value b acc (ds ++ c :: rest) = digits_value b acc ds.
Proof.
  revert acc; induction ds as [|x ds IH]; intros acc H Hc; simpl; [by rewrite Hc|].
  inversion H as [|? ? Hx Hds]; subst. destruct (digit_of b x); [by apply IH|done].
Qed.
Lemma digits_value_mono b acc ds : 0 <= acc -> 0 < b -> 0 <= digits_value b acc ds.
Proof.
  intros Ha Hb. revert acc Ha; induction ds as [|x ds IH]; intros acc Ha; simpl; [lia|].
  destruct (digit_of b x) as [d|] eqn:E; [|lia]. apply IH. unfold digit_of in E.
  repeat case_match; simplify_eq; lia.
Qed.
(** What [strtol] and [atoi] make of a number that another character ends. *)
Lemma strtol_digits b ds c rest : b = 10 \/ b = 16 -> ds <> [] -> Forall (fun x => digit_of b x <> None) ds -> digit_of b c = None ->
  (c <> "x"%char /\ c <> "X"%char) -> digits_value b 0 ds <= 2 ^ 63 - 1 -> strtol b (ds ++ c :: rest) = digits_value b 0 ds.
Proof.
  intros Hb Hne Hds Hc [Hx HX] Hl. destruct ds as [|d ds]; [done|]. inversion Hds as [|? ? Hd Hds']; subst.
  assert (is_space d = false /\ Ascii.eqb d "-" = false /\ Ascii.eqb d "+" = false /\ Ascii.eqb d "x" = false /\ Ascii.eqb d "X" = false) as Hf.
  { assert (forall x, digit_of b x <> None -> (negb (is_space x) && negb (Ascii.eqb x "-") && negb (Ascii.eqb x "+") && negb (Ascii.eqb x "x") && negb (Ascii.eqb x "X")) = true) as Hall.
    { intros x Hx'. assert (forallb (fun x => if digit_of b x then (negb (is_space x) && negb (Ascii.eqb x "-") && negb (Ascii.eqb x "+") && negb (Ascii.eqb x "x") && negb (Ascii.eqb x "X")) else true) all_chars = true) as Hv
        by (destruct Hb as [->| ->]; by vm_compute).
      rewrite forallb_forall in Hv. specialize (Hv x (all_chars_elem x)). by destruct (digit_of b x). }
    specialize (Hall d Hd). repeat (apply andb_true_iff in Hall as [Hall ?]). by rewrite !negb_true_iff in *. }
  destruct Hf as (Hs & Hm & Hp & H1 & H2). unfold strtol. cbn [skip_space app]. rewrite Hs, Hm, Hp.
  assert (forall l : bytes, match l with e :: _ => Ascii.eqb e "x" = false /\ Ascii.eqb e "X" = false | [] => True end -> skip_0x b (d :: l) = d :: l) as H0x.
  { intros [|e [|f l]] He; [done|done|]. destruct He as [E1 E2]. simpl. by rewrite E1, E2, andb_false_r. }
  rewrite H0x.
  - change (d :: ds ++ c :: rest) with ((d :: ds) ++ c :: rest). rewrite digits_value_app by done. lia.
  - destruct ds as [|e ds]; simpl; [by split; apply Ascii.eqb_neq|].
    inversion Hds' as [|? ? He _]; subst.
    assert (forallb (fun x => if digit_of b x then (negb (Ascii.eqb x "x") && negb (Ascii.eqb x "X")) else true) all_chars = true) as Hv
      by (destruct Hb as [->| ->]; by vm_compute).
    rewrite forallb_forall in Hv. specialize (Hv e (all_chars_elem e)). destruct (digit_of b e); [|done].
    apply andb_true_iff in Hv as [Hv1 Hv2]. by rewrite !negb_true_iff in *.
Qed.

(** The digits [operator<<] prints. *)
Lemma pretty_char_value x : (x < 10)%N -> digit_of 10 (pretty_N_char x) = Some (Z.of_N x).
Proof.
  intros Hx. assert (x = 0 \/ x = 1 \/ x = 2 \/ x = 3 \/ x = 4 \/ x = 5 \/ x = 6 \/ x = 7 \/ x = 8 \/ x = 9)%N as H by lia.
  destruct_or! H; subst; reflexivity.
Qed.
Lemma digits_value_pretty x s : (0 < x)%N ->
  digits_value 10 0 (list_ascii_of_string (pretty_N_go x s)) = digits_value 10 (Z.of_N x) (list_ascii_of_string s) /\
  (Forall (fun c => digit_of 10 c <> None) (list_ascii_of_string s) ->
   Forall (fun c => digit_of 10 c <> None) (list_ascii_of_string (pretty_N_go x s))) /\ pretty_N_go x s <> EmptyString.
Proof.
  revert s. induction (N.lt_wf_0 x) as [x _ IH]. intros s Hx. rewrite pretty_N_go_step by done.
  pose proof (pretty_char_value (x mod 10) ltac:(by apply N.mod_lt)) as Hv. pose proof (N.div_mod x 10 ltac:(lia)) as Hdm.
  destruct (N.eq_0_gt_0_cases (x / 10)) as [E0|Hq].
  - rewrite E0, pretty_N_go_0. simpl. rewrite Hv. split_and!; [f_equal; lia| |done]. intros Hs. constructor; [by rewrite Hv|done].
  - destruct (IH (x / 10)%N ltac:(by apply N.div_lt) (String (pretty_N_char (x mod 10)) s) Hq) as (E & HF & Hne).
    rewrite E. simpl. rewrite Hv. split_and!; [f_equal; lia| |done]. intros Hs. apply HF. constructor; [by rewrite Hv|done].
Qed.
Lemma dec_bytes n : 0 <= n -> list_ascii_of_string (dec n) <> [] /\
  Forall (fun c => digit_of 10 c <> None) (list_ascii_of_string (dec n)) /\ digits_value 10 0 (list_ascii_of_string (dec n)) = n.
Proof.
  intros Hn. unfold dec, pretty, pretty_N. case_decide as E.
  - replace n with 0 by lia. split_and!; [done|by repeat constructor|done].
  - destruct (digits_value_pretty (Z.to_N n) EmptyString ltac:(lia)) as (Ev & HF & Hne). split_and!; [|by apply HF|rewrite Ev; simpl; lia].
    by destruct (pretty_N_go _ _).
Qed.

(** ** Moves *)

(** From each of [states] every character of [P] has a move that [f] admits. *)
Definition moves {A} (table : Z -> Z -> option (target A)) (states : list Z) (P : ascii -> bool) (f : Z -> target A -> bool) : bool :=
  forallb (fun cs => forallb (fun c => if P c then match table cs (char c) with Some t => f cs t | None => false end else true) all_chars) states.
Lemma moves_spec {A} table states P (f : Z -> target A -> bool) : moves table states P f = true ->
  forall cs c, In cs states -> P c = true -> exists t, table cs (char c) = Some t /\ f cs t = true.
Proof.
  intros H cs c Hcs Hc. unfold moves in H. rewrite forallb_forall in H. specialize (H _ Hcs).
  rewrite forallb_forall in H. specialize (H _ (all_chars_elem c)). rewrite Hc in H.
  destruct (table _ _) as [t|]; [by exists t|done].
Qed.

Definition mem (n : Z) (l : list Z) : bool := existsb (Z.eqb n) l.
Lemma mem_In n l : mem n l = true <-> In n l.
Proof.
  unfold mem. rewrite existsb_exists. split.
  - intros (x & Hx & E). apply Z.eqb_eq in E. by subst.
  - intros H. exists n. by rewrite Z.eqb_refl.
Qed.

(** A table whose states are [1] to [n]. *)
Definition covers (n : Z) (states : list Z) : bool := forallb (fun i => mem (Z.of_nat i) states) (seq 1 (Z.to_nat n)).
Definition in_table (n cs : Z) : bool := (0 <=? cs) && (cs <=? n).
Lemma in_table_spec n states cs : covers n states = true -> in_table n cs = true -> cs = 0 \/ In cs states.
Proof.
  unfold covers, in_table. rewrite forallb_forall, andb_true_iff, !Z.leb_le. intros H [H0 H1].
  destruct (decide (cs = 0)); [by left|right]. apply mem_In. rewrite <- (Z2Nat.id cs) by done. apply H, in_seq. lia.
Qed.

Definition target_eqb {A} `{EqDecision A} (t u : target A) : bool :=
  (t_state t =? t_state u) && bool_decide (t_actions t = t_actions u).
Lemma target_eqb_eq {A} `{EqDecision A} (t u : target A) : target_eqb t u = true -> t = u.
Proof.
  destruct t, u. unfold target_eqb. simpl. intros [E1 E2]%andb_true_iff.
  apply Z.eqb_eq in E1. apply bool_decide_eq_true in E2. by subst.
Qed.

Local Arguments Z.eqb : simpl never.

(** * The actions of a path

    [walk] follows the table over some text and lists the actions it meets,
    each with the [p] it runs at; it fails in the error state. *)
Section walk.
Context {A S : Type} `{EqDecision A}.
Variable table : Z -> Z -> option (target A).
Implicit Types (b : bytes) (l : list (A * Z)).

Fixpoint walk (p cs : Z) (b : bytes) : option (list (A * Z) * Z) :=
  match b with
  | [] => Some ([], cs)
  | c :: b' =>
      match table cs (char c) with
      | None => None
      | Some t => if t_state t =? 0 then None else
                  '(l, cs') ← walk (p + 1) (t_state t) b'; Some (map (fun a => (a, p)) (t_actions t) ++ l, cs')
      end
  end.

Lemma walk_app p cs b1 b2 l1 cs1 l2 cs2 :
  walk p cs b1 = Some (l1, cs1) -> walk (p + Z.of_nat (length b1)) cs1 b2 = Some (l2, cs2) ->
  walk p cs (b1 ++ b2) = Some (l1 ++ l2, cs2).
Proof.
  revert p cs l1; induction b1 as [|c b1 IH]; intros p cs l1 H1 H2.
  - simpl in *. injection H1 as <- <-. by rewrite Z.add_0_r in H2.
  - simpl in *. destruct (table cs (char c)) as [t|]; [|done]. destruct (t_state t =? 0); [done|].
    destruct (walk (p + 1) _ b1) as [[l cs']|] eqn:E; [|done]. injection H1 as <- ->.
    rewrite (IH _ _ _ E) by (rewrite <- H2; f_equal; lia). simpl. by rewrite app_assoc.
Qed.

(** Where a path starts only moves its actions. *)
Lemma walk_shift p cs b : walk p cs b = (fun r => (map (fun x => (x.1, p + x.2)) r.1, r.2)) <$> walk 0 cs b.
Proof.
  enough (forall q, walk (p + q) cs b = (fun r => (map (fun x => (x.1, p + x.2)) r.1, r.2)) <$> walk q cs b) as H
    by (rewrite <- (H 0); by rewrite Z.add_0_r).
  revert cs; induction b as [|c b IH]; intros cs q; [done|]. simpl. destruct (table cs (char c)) as [t|]; [|done].
  destruct (t_state t =? 0); [done|]. rewrite <- Z.add_assoc, IH. destruct (walk (q + 1) _ b) as [[l cs']|]; [|done].
  simpl. by rewrite map_app, map_map.
Qed.

(** Text of a class that keeps the automaton in a set of states without an
    action. *)
Definition stays (Q : list Z) (P : ascii -> bool) : bool :=
  moves table Q P (fun _ t => negb (t_state t =? 0) && mem (t_state t) Q && match t_actions t with [] => true | _ => false end).
Lemma walk_stays Q P p cs b : stays Q P = true -> In cs Q -> Forall (fun c => P c = true) b ->
  exists cs', walk p cs b = Some ([], cs') /\ In cs' Q.
Proof.
  intros HQ Hcs Hb. revert p cs Hcs. induction Hb as [|c b Hc _ IH]; intros p cs Hcs; [by exists cs|].
  destruct (moves_spec _ _ _ _ HQ cs c Hcs Hc) as (t & Et & Ht). simpl. rewrite Et.
  apply andb_true_iff in Ht as [[H0 Hm]%andb_true_iff Ha]. apply negb_true_iff in H0. rewrite H0.
  apply mem_In in Hm. destruct (IH (p + 1) _ Hm) as (cs' & Ew & Hin). rewrite Ew. simpl.
  destruct (t_actions t); [|done]. by exists cs'.
Qed.
Lemma walk_loop n P p b : stays [n] P = true -> Forall (fun c => P c = true) b -> walk p n b = Some ([], n).
Proof. intros H Hb. destruct (walk_stays [n] P p n b H (or_introl eq_refl) Hb) as (cs' & E & [<-|[]]). done. Qed.

(** A character of a class on which every state of a set does the same. *)
Definition leaves (Q : list Z) (P : ascii -> bool) (u : target A) : bool := moves table Q P (fun _ t => target_eqb t u).
Lemma walk_leaves Q P u p cs c : leaves Q P u = true -> In cs Q -> P c = true -> t_state u <> 0 ->
  walk p cs [c] = Some (map (fun a => (a, p)) (t_actions u), t_state u).
Proof.
  intros H Hcs Hc Hu. destruct (moves_spec _ _ _ _ H cs c Hcs Hc) as (t & Et & ->%target_eqb_eq). simpl. rewrite Et.
  rewrite (proj2 (Z.eqb_neq _ _) Hu). simpl. by rewrite app_nil_r.
Qed.

Variable act : A -> Z -> S -> outcome (S * bool).

(** The actions of a path that does not leave the loop. *)
Fixpoint do_actions l (s : S) : outcome S :=
  match l with
  | [] => Ret s
  | (a, p) :: l' => '(s', brk) ← act a p s; match brk with false => do_actions l' s' | true => Throw "break" end
  end.
Lemma do_actions_app l1 l2 s : do_actions (l1 ++ l2) s = (s' ← do_actions l1 s; do_actions l2 s').
Proof.
  revert s; induction l1 as [|[a p] l1 IH]; intros s; [done|]. simpl.
  destruct (act a p s) as [[s' []]|e|f]; simpl; [done|apply IH|done|done].
Qed.
Lemma run_actions_do (al : list A) p s s' : do_actions (map (fun a => (a, p)) al) s = Ret s' -> run_actions act al p s = Ret (s', false).
Proof.
  revert s; induction al as [|a al IH]; intros s H; simpl in *; [by injection H as ->|].
  destruct (act a p s) as [[s1 []]|e|f]; simpl in *; [done|by apply IH|done|done].
Qed.

Lemma exec_walk b rest p cs l cs' s s' : walk p cs b = Some (l, cs') -> do_actions l s = Ret s' ->
  exec table act (b ++ rest) p cs s = exec table act rest (p + Z.of_nat (length b)) cs' s'.
Proof.
  revert p cs l s; induction b as [|c b IH]; intros p cs l s Hw Hd.
  - simpl in *. injection Hw as <- <-. injection Hd as ->. by rewrite Z.add_0_r.
  - simpl in *. destruct (table cs (char c)) as [t|]; [|done]. destruct (t_state t =? 0) eqn:E0; [done|].
    destruct (walk (p + 1) _ b) as [[l' cs1]|] eqn:E; [|done]. injection Hw as <- <-.
    rewrite do_actions_app in Hd. destruct (do_actions _ s) as [s1| |] eqn:Ea; [|done|done]. simpl in Hd.
    rewrite (run_actions_do _ _ _ _ Ea). simpl. rewrite (IH _ _ _ _ E Hd). f_equal. lia.
Qed.

Lemma exec_stop c rest p cs t s s' : table cs (char c) = Some t -> run_actions act (t_actions t) p s = Ret (s', true) ->
  exec table act (c :: rest) p cs s = Ret (s', t_state t, p + 1).
Proof. intros Et Er. simpl. rewrite Et, Er. done. Qed.

(** The loop ends at or after where it starts, within the text. *)
Lemma exec_bounds b p cs s s' cs' p' : exec table act b p cs s = Ret (s', cs', p') -> p <= p' <= p + Z.of_nat (length b).
Proof.
  revert p cs s; induction b as [|c b IH]; intros p cs s H; simpl in *; [injection H as _ _ <-; lia|].
  destruct (table cs (char c)) as [t|]; [|injection H as _ _ <-; lia].
  destruct (run_actions act (t_actions t) p s) as [[s1 []]|e|f]; simpl in H; [injection H as _ _ <-; lia| |done|done].
  destruct (t_state t =? 0); [injection H as _ _ <-; lia|]. apply IH in H. lia.
Qed.

(** An invariant of the loop: what holds of the parser at each state, and what
    then holds of the result. *)
Lemma exec_invariant (I : Z -> Z -> S -> Prop) (R : outcome (S * Z * Z) -> Prop) b p cs s :
  I p cs s ->
  (forall q cs s, p <= q <= p + Z.of_nat (length b) -> I q cs s -> R (Ret (s, cs, q))) ->
  (forall q cs s c t, p <= q < p + Z.of_nat (length b) -> I q cs s -> table cs (char c) = Some t ->
     match run_actions act (t_actions t) q s with
     | Ret (s', false) => if t_state t =? 0 then R (Ret (s', 0, q)) else I (q + 1) (t_state t) s'
     | Ret (s', true) => R (Ret (s', t_state t, q + 1))
     | Throw e => R (Throw e)
     | Crash f => R (Crash f)
     end) ->
  R (exec table act b p cs s).
Proof.
  revert p cs s; induction b as [|c b IH]; intros p cs s HI Hend Hstep.
  - apply Hend; [lia|done].
  - simpl. destruct (table cs (char c)) as [t|] eqn:Et; [|apply Hend; [lia|done]].
    specialize (Hstep p cs s c t ltac:(simpl; lia) HI Et) as H.
    destruct (run_actions act (t_actions t) p s) as [[s' []]|e|f]; simpl; [done| |done|done].
    destruct (t_state t =? 0) eqn:E; [done|].
    apply IH; [done|intros q cs1 s1 Hq; apply Hend; simpl; lia|].
    intros q cs1 s1 c1 t1 Hq. apply Hstep. simpl. lia.
Qed.
End walk.

(** * Text of a URI *)

(** [pchar] without escapes. *)
Definition is_pchar (c : ascii) : bool :=
  let n := nat_of_ascii c in
  ((48 <=? n) && (n <=? 57) || (65 <=? n) && (n <=? 90) || (97 <=? n) && (n <=? 122))%nat ||
  existsb (Ascii.eqb c) ["-"; "."; "_"; "~"; "!"; "$"; "&"; "'"; "("; ")"; "*"; "+"; ","; ";"; "="; ":"; "@"]%char.
Definition is_path_char (c : ascii) : bool := is_pchar c || Ascii.eqb c "/".
Definition is_query_char (c : ascii) : bool := is_pchar c || Ascii.eqb c "/" || Ascii.eqb c "?".
Definition is_xdigit (c : ascii) : bool := if digit_of 16 c then true else false.
Definition is_percent (c : ascii) : bool := Ascii.eqb c "%".
(** Characters of a class and escapes of two hexadecimal digits. *)
Fixpoint escaped (P : ascii -> bool) (b : bytes) : bool :=
  match b with
  | [] => true
  | c :: b1 => if P c then escaped P b1 else
      is_percent c && match b1 with x :: y :: b' => is_xdigit x && is_xdigit y && escaped P b' | _ => false end
  end.

Section escapes.
Context {A : Type} `{EqDecision A} (table : Z -> Z -> option (target A)) (P : ascii -> bool) (n n1 n2 : Z).
Hypothesis Hn : n <> 0 /\ n1 <> 0 /\ n2 <> 0.
Hypothesis loops : stays table [n] P = true.
Hypothesis escape1 : leaves table [n] is_percent (st n1) = true.
Hypothesis escape2 : leaves table [n1] is_xdigit (st n2) = true.
Hypothesis escape3 : leaves table [n2] is_xdigit (st n) = true.

Lemma walk_digits p x y : is_xdigit x = true -> is_xdigit y = true -> walk table p n1 [x; y] = Some ([], n).
Proof.
  intros Hx Hy. change [x; y] with ([x] ++ [y]). apply (walk_app _ _ _ [x] [y] [] n2 [] n).
  - by apply (walk_leaves table [n1] is_xdigit (st n2)); [| left | | apply Hn].
  - by apply (walk_leaves table [n2] is_xdigit (st n)); [| left | | apply Hn].
Qed.
Lemma walk_escaped k : forall b p, (length b <= k)%nat -> escaped P b = true -> walk table p n b = Some ([], n).
Proof.
  induction k as [|k IH]; intros [|c b] p Hk Hb; try done; simpl in Hk; [lia|]. simpl in Hb. destruct (P c) eqn:Hc.
  - change (c :: b) with ([c] ++ b). apply (walk_app _ _ _ [c] b [] n [] n).
    + by apply (walk_loop _ n P); [|constructor].
    + apply IH; [lia|done].
  - apply andb_true_iff in Hb as [Hp Hb]. destruct b as [|x [|y b]]; try done. apply andb_true_iff in Hb as [[Hx Hy]%andb_true_iff Hb].
    change (c :: x :: y :: b) with ([c] ++ [x; y] ++ b). apply (walk_app _ _ _ [c] _ [] n1 [] n).
    + by apply (walk_leaves table [n] is_percent (st n1)); [| left | | apply Hn].
    + apply (walk_app _ _ _ [x; y] b [] n [] n); [by apply walk_digits|]. apply IH; [simpl in Hk; lia|done].
Qed.

(** The same text entered from another state [e], with the actions of its
    first character. *)
Context (e : Z) (acts : list A) (P1 : ascii -> bool).
Hypothesis enter : leaves table [e] P1 (mkTarget acts n) = true.
Hypothesis enter_escape : leaves table [e] is_percent (mkTarget acts n1) = true.
Hypothesis no_percent : P "%"%char = false.
Lemma walk_enter b p : escaped P b = true -> match b with c :: _ => P1 c || is_percent c | [] => false end = true ->
  walk table p e b = Some (map (fun a => (a, p)) acts, n).
Proof.
  intros Hb Hc. destruct b as [|c b]; [done|]. simpl in Hb. rewrite <- (app_nil_r (map _ acts)). destruct (is_percent c) eqn:Hp.
  - apply Ascii.eqb_eq in Hp. subst c. rewrite no_percent in Hb. simpl in Hb. destruct b as [|x [|y b]]; try done.
    apply andb_true_iff in Hb as [[Hx Hy]%andb_true_iff Hb]. change ("%"%char :: x :: y :: b) with (["%"%char] ++ [x; y] ++ b).
    apply (walk_app _ _ _ ["%"%char] _ _ n1 [] n).
    + by apply (walk_leaves table [e] is_percent (mkTarget acts n1)); [| left | | apply Hn].
    + apply (walk_app _ _ _ [x; y] b [] n [] n); [by apply walk_digits|]. by apply (walk_escaped (length b)).
  - rewrite orb_false_r in Hc. destruct (P c); [|done]. change (c :: b) with ([c] ++ b). apply (walk_app _ _ _ [c] b _ n [] n).
    + by apply (walk_leaves table [e] P1 (mkTarget acts n)); [| left | | apply Hn].
    + by apply (walk_escaped (length b)).
Qed.
End escapes.
