(* ===== verification/HttpClientFsm.v ===== *)
(** The automaton of [sherry/http/httpclient_parser.rl.cc]: responses and the
    lines before a chunk.  [case_N] is the [case N] of the [switch] over [cs],
    [tr_K] the label [trK]: its actions, and the state it goes to. *)

From Stdlib Require Import ZArith.
From stdpp Require Import base list.
From S2P Require Import Prelude Ragel.
Local Open Scope Z_scope.
Local Open Scope ragel_scope.

(** The actions of the grammar, by the name it gives them. *)
Inductive action : Type :=
| Mark | StartField | WriteField | StartValue | WriteContentLen | WriteConnectionClose | WriteValue | ReasonPhrase | StatusCode | HttpVersion | ChunkSize | TransChunked | Done.
#[export] Instance action_eq_dec : EqDecision action.
Proof. solve_decision. Defined.

Definition tr_0 : target action := mkTarget [Mark] 2.
Definition tr_2 : target action := mkTarget [Mark] 8.
Definition tr_3 : target action := mkTarget [ChunkSize; Done] 120.
Definition tr_4 : target action := mkTarget [ChunkSize] 3.
Definition tr_6 : target action := mkTarget [ChunkSize] 4.
Definition tr_7 : target action := mkTarget [Done] 120.
Definition tr_8 : target action := mkTarget [StartField] 5.
Definition tr_9 : target action := mkTarget [WriteField; StartValue; WriteValue; Done] 120.
Definition tr_10 : target action := mkTarget [WriteField; StartValue; WriteValue] 3.
Definition tr_12 : target action := mkTarget [WriteField; StartValue; WriteValue] 4.
Definition tr_13 : target action := mkTarget [WriteField; StartValue] 6.
Definition tr_14 : target action := mkTarget [StartValue] 7.
Definition tr_15 : target action := mkTarget [WriteValue; Done] 120.
Definition tr_16 : target action := mkTarget [WriteValue] 3.
Definition tr_18 : target action := mkTarget [WriteValue] 4.
Definition tr_26 : target action := mkTarget [HttpVersion] 16.
Definition tr_27 : target action := mkTarget [Mark] 17.
Definition tr_28 : target action := mkTarget [StatusCode] 18.
Definition tr_30 : target action := mkTarget [Mark] 19.
Definition tr_32 : target action := mkTarget [ReasonPhrase] 20.
Definition tr_33 : target action := mkTarget [ReasonPhrase] 24.
Definition tr_35 : target action := mkTarget [StartField] 21.
Definition tr_36 : target action := mkTarget [StartField] 25.
Definition tr_37 : target action := mkTarget [StartField] 44.
Definition tr_39 : target action := mkTarget [WriteField] 22.
Definition tr_40 : target action := mkTarget [StartValue] 23.
Definition tr_41 : target action := mkTarget [StartValue] 22.
Definition tr_42 : target action := mkTarget [StartValue; WriteValue] 20.
Definition tr_43 : target action := mkTarget [StartValue; WriteValue] 24.
Definition tr_45 : target action := mkTarget [WriteValue] 20.
Definition tr_46 : target action := mkTarget [WriteValue] 24.
Definition tr_58 : target action := mkTarget [WriteField] 35.
Definition tr_59 : target action := mkTarget [StartValue] 35.
Definition tr_60 : target action := mkTarget [StartValue; WriteValue] 36.
Definition tr_61 : target action := mkTarget [StartValue; WriteValue] 95.
Definition tr_62 : target action := mkTarget [StartValue] 96.
Definition tr_64 : target action := mkTarget [Done] 122.
Definition tr_66 : target action := mkTarget [StartField] 90.
Definition tr_74 : target action := mkTarget [WriteConnectionClose; Done] 120.
Definition tr_75 : target action := mkTarget [WriteConnectionClose] 3.
Definition tr_76 : target action := mkTarget [WriteConnectionClose; StartField] 21.
Definition tr_77 : target action := mkTarget [WriteConnectionClose; StartField] 25.
Definition tr_78 : target action := mkTarget [WriteConnectionClose; StartField] 44.
Definition tr_95 : target action := mkTarget [WriteField] 61.
Definition tr_96 : target action := mkTarget [StartValue] 61.
Definition tr_97 : target action := mkTarget [StartValue; WriteValue] 62.
Definition tr_98 : target action := mkTarget [StartValue; WriteValue] 80.
Definition tr_99 : target action := mkTarget [StartValue] 81.
Definition tr_101 : target action := mkTarget [Done] 121.
Definition tr_103 : target action := mkTarget [StartValue; StartField] 73.
Definition tr_104 : target action := mkTarget [StartValue] 64.
Definition tr_111 : target action := mkTarget [WriteValue; TransChunked] 20.
Definition tr_112 : target action := mkTarget [WriteValue] 71.
Definition tr_113 : target action := mkTarget [TransChunked] 20.
Definition tr_136 : target action := mkTarget [WriteValue] 43.
Definition tr_137 : target action := mkTarget [WriteValue] 88.
Definition tr_148 : target action := mkTarget [WriteField] 112.
Definition tr_149 : target action := mkTarget [StartValue] 112.
Definition tr_150 : target action := mkTarget [StartValue; WriteValue] 113.
Definition tr_151 : target action := mkTarget [StartValue; WriteValue] 118.
Definition tr_152 : target action := mkTarget [StartValue] 119.
Definition tr_154 : target action := mkTarget [Done] 123.
Definition tr_156 : target action := mkTarget [StartValue; StartField] 117.
Definition tr_157 : target action := mkTarget [StartValue] 115.
Definition tr_158 : target action := mkTarget [WriteContentLen; WriteValue] 20.
Definition tr_159 : target action := mkTarget [WriteContentLen; WriteValue] 24.

Definition case_1 (c : Z) : option (target action) :=
  when (c =? 72) (goto tr_2) ||>
  (if c <? 65
   then when ((48 <=? c) && (c <=? 57)) (goto tr_0)
   else (if c >? 70
     then when ((97 <=? c) && (c <=? 102)) (goto tr_0)
     else goto tr_0)) ||>
  goto (st 0).
Definition case_2 (c : Z) : option (target action) :=
  switch c [(10, tr_3); (13, tr_4); (59, tr_6)] ||>
  (if c <? 65
   then when ((48 <=? c) && (c <=? 57)) (goto (st 2))
   else (if c >? 70
     then when ((97 <=? c) && (c <=? 102)) (goto (st 2))
     else goto (st 2))) ||>
  goto (st 0).
Definition case_3 (c : Z) : option (target action) :=
  when (c =? 10) (goto tr_7) ||>
  goto (st 0).
Definition case_4 (c : Z) : option (target action) :=
  switch c [(33, tr_8); (124, tr_8); (126, tr_8)] ||>
  (if c <? 45
   then (if c >? 39
     then when ((42 <=? c) && (c <=? 43)) (goto tr_8)
     else when (c >=? 35) (goto tr_8))
   else (if c >? 46
     then (if c <? 65
       then when ((48 <=? c) && (c <=? 57)) (goto tr_8)
       else (if c >? 90
         then when ((94 <=? c) && (c <=? 122)) (goto tr_8)
         else goto tr_8))
     else goto tr_8)) ||>
  goto (st 0).
Definition case_5 (c : Z) : option (target action) :=
  switch c [(10, tr_9); (13, tr_10); (33, st 5); (59, tr_12); (61, tr_13); (124, st 5); (126, st 5)] ||>
  (if c <? 45
   then (if c >? 39
     then when ((42 <=? c) && (c <=? 43)) (goto (st 5))
     else when (c >=? 35) (goto (st 5)))
   else (if c >? 46
     then (if c <? 65
       then when ((48 <=? c) && (c <=? 57)) (goto (st 5))
       else (if c >? 90
         then when ((94 <=? c) && (c <=? 122)) (goto (st 5))
         else goto (st 5)))
     else goto (st 5))) ||>
  goto (st 0).
Definition case_6 (c : Z) : option (target action) :=
  switch c [(33, tr_14); (124, tr_14); (126, tr_14)] ||>
  (if c <? 45
   then (if c >? 39
     then when ((42 <=? c) && (c <=? 43)) (goto tr_14)
     else when (c >=? 35) (goto tr_14))
   else (if c >? 46
     then (if c <? 65
       then when ((48 <=? c) && (c <=? 57)) (goto tr_14)
       else (if c >? 90
         then when ((94 <=? c) && (c <=? 122)) (goto tr_14)
         else goto tr_14))
     else goto tr_14)) ||>
  goto (st 0).
Definition case_7 (c : Z) : option (target action) :=
  switch c [(10, tr_15); (13, tr_16); (33, st 7); (59, tr_18); (124, st 7); (126, st 7)] ||>
  (if c <? 45
   then (if c >? 39
     then when ((42 <=? c) && (c <=? 43)) (goto (st 7))
     else when (c >=? 35) (goto (st 7)))
   else (if c >? 46
     then (if c <? 65
       then when ((48 <=? c) && (c <=? 57)) (goto (st 7))
       else (if c >? 90
         then when ((94 <=? c) && (c <=? 122)) (goto (st 7))
         else goto (st 7)))
     else goto (st 7))) ||>
  goto (st 0).
Definition case_8 (c : Z) : option (target action) :=
  when (c =? 84) (goto (st 9)) ||>
  goto (st 0).
Definition case_9 (c : Z) : option (target action) :=
  when (c =? 84) (goto (st 10)) ||>
  goto (st 0).
Definition case_10 (c : Z) : option (target action) :=
  when (c =? 80) (goto (st 11)) ||>
  goto (st 0).
Definition case_11 (c : Z) : option (target action) :=
  when (c =? 47) (goto (st 12)) ||>
  goto (st 0).
Definition case_12 (c : Z) : option (target action) :=
  when ((48 <=? c) && (c <=? 57)) (goto (st 13)) ||>
  goto (st 0).
Definition case_13 (c : Z) : option (target action) :=
  when (c =? 46) (goto (st 14)) ||>
  when ((48 <=? c) && (c <=? 57)) (goto (st 13)) ||>
  goto (st 0).
Definition case_14 (c : Z) : option (target action) :=
  when ((48 <=? c) && (c <=? 57)) (goto (st 15)) ||>
  goto (st 0).
Definition case_15 (c : Z) : option (target action) :=
  when (c =? 32) (goto tr_26) ||>
  when ((48 <=? c) && (c <=? 57)) (goto (st 15)) ||>
  goto (st 0).
Definition case_16 (c : Z) : option (target action) :=
  when ((48 <=? c) && (c <=? 57)) (goto tr_27) ||>
  goto (st 0).
Definition case_17 (c : Z) : option (target action) :=
  when (c =? 32) (goto tr_28) ||>
  when ((48 <=? c) && (c <=? 57)) (goto (st 17)) ||>
  goto (st 0).
Definition case_18 (c : Z) : option (target action) :=
  when (c =? 10) (goto (st 0)) ||>
  goto tr_30.
Definition case_19 (c : Z) : option (target action) :=
  switch c [(10, tr_32); (13, tr_33)] ||>
  goto (st 19).
Definition case_20 (c : Z) : option (target action) :=
  switch c [(10, tr_7); (13, st 3); (33, tr_35); (67, tr_36); (84, tr_37); (99, tr_36); (116, tr_37);
    (124, tr_35); (126, tr_35)] ||>
  (if c <? 45
   then (if c >? 39
     then when ((42 <=? c) && (c <=? 43)) (goto tr_35)
     else when (c >=? 35) (goto tr_35))
   else (if c >? 46
     then (if c <? 65
       then when ((48 <=? c) && (c <=? 57)) (goto tr_35)
       else (if c >? 90
         then when ((94 <=? c) && (c <=? 122)) (goto tr_35)
         else goto tr_35))
     else goto tr_35)) ||>
  goto (st 0).
Definition case_21 (c : Z) : option (target action) :=
  switch c [(33, st 21); (58, tr_39); (124, st 21); (126, st 21)] ||>
  (if c <? 45
   then (if c >? 39
     then when ((42 <=? c) && (c <=? 43)) (goto (st 21))
     else when (c >=? 35) (goto (st 21)))
   else (if c >? 46
     then (if c <? 65
       then when ((48 <=? c) && (c <=? 57)) (goto (st 21))
       else (if c >? 90
         then when ((94 <=? c) && (c <=? 122)) (goto (st 21))
         else goto (st 21)))
     else goto (st 21))) ||>
  goto (st 0).
Definition case_22 (c : Z) : option (target action) :=
  switch c [(10, tr_42); (13, tr_43); (32, tr_41)] ||>
  when ((9 <=? c) && (c <=? 12)) (goto tr_41) ||>
  goto tr_40.
Definition case_23 (c : Z) : option (target action) :=
  switch c [(10, tr_45); (13, tr_46)] ||>
  goto (st 23).
Definition case_24 (c : Z) : option (target action) :=
  when (c =? 10) (goto (st 20)) ||>
  goto (st 0).
Definition case_25 (c : Z) : option (target action) :=
  switch c [(33, st 21); (58, tr_39); (79, st 26); (111, st 26); (124, st 21); (126, st 21)] ||>
  (if c <? 45
   then (if c >? 39
     then when ((42 <=? c) && (c <=? 43)) (goto (st 21))
     else when (c >=? 35) (goto (st 21)))
   else (if c >? 46
     then (if c <? 65
       then when ((48 <=? c) && (c <=? 57)) (goto (st 21))
       else (if c >? 90
         then when ((94 <=? c) && (c <=? 122)) (goto (st 21))
         else goto (st 21)))
     else goto (st 21))) ||>
  goto (st 0).
Definition case_26 (c : Z) : option (target action) :=
  switch c [(33, st 21); (58, tr_39); (78, st 27); (110, st 27); (124, st 21); (126, st 21)] ||>
  (if c <? 45
   then (if c >? 39
     then when ((42 <=? c) && (c <=? 43)) (goto (st 21))
     else when (c >=? 35) (goto (st 21)))
   else (if c >? 46
     then (if c <? 65
       then when ((48 <=? c) && (c <=? 57)) (goto (st 21))
       else (if c >? 90
         then when ((94 <=? c) && (c <=? 122)) (goto (st 21))
         else goto (st 21)))
     else goto (st 21))) ||>
  goto (st 0).
Definition case_27 (c : Z) : option (target action) :=
  switch c [(33, st 21); (58, tr_39); (78, st 28); (84, st 101); (110, st 28); (116, st 101); (124, st 21);
    (126, st 21)] ||>
  (if c <? 45
   then (if c >? 39
     then when ((42 <=? c) && (c <=? 43)) (goto (st 21))
     else when (c >=? 35) (goto (st 21)))
   else (if c >? 46
     then (if c <? 65
       then when ((48 <=? c) && (c <=? 57)) (goto (st 21))
       else (if c >? 90
         then when ((94 <=? c) && (c <=? 122)) (goto (st 21))
         else goto (st 21)))
     else goto (st 21))) ||>
  goto (st 0).
Definition case_28 (c : Z) : option (target action) :=
  switch c [(33, st 21); (58, tr_39); (69, st 29); (101, st 29); (124, st 21); (126, st 21)] ||>
  (if c <? 45
   then (if c >? 39
     then when ((42 <=? c) && (c <=? 43)) (goto (st 21))
     else when (c >=? 35) (goto (st 21)))
   else (if c >? 46
     then (if c <? 65
       then when ((48 <=? c) && (c <=? 57)) (goto (st 21))
       else (if c >? 90
         then when ((94 <=? c) && (c <=? 122)) (goto (st 21))
         else goto (st 21)))
     else goto (st 21))) ||>
  goto (st 0).
Definition case_29 (c : Z) : option (target action) :=
  switch c [(33, st 21); (58, tr_39); (67, st 30); (99, st 30); (124, st 21); (126, st 21)] ||>
  (if c <? 45
   then (if c >? 39
     then when ((42 <=? c) && (c <=? 43)) (goto (st 21))
     else when (c >=? 35) (goto (st 21)))
   else (if c >? 46
     then (if c <? 65
       then when ((48 <=? c) && (c <=? 57)) (goto (st 21))
       else (if c >? 90
         then when ((94 <=? c) && (c <=? 122)) (goto (st 21))
         else goto (st 21)))
     else goto (st 21))) ||>
  goto (st 0).
Definition case_30 (c : Z) : option (target action) :=
  switch c [(33, st 21); (58, tr_39); (84, st 31); (116, st 31); (124, st 21); (126, st 21)] ||>
  (if c <? 45
   then (if c >? 39
     then when ((42 <=? c) && (c <=? 43)) (goto (st 21))
     else when (c >=? 35) (goto (st 21)))
   else (if c >? 46
     then (if c <? 65
       then when ((48 <=? c) && (c <=? 57)) (goto (st 21))
       else (if c >? 90
         then when ((94 <=? c) && (c <=? 122)) (goto (st 21))
         else goto (st 21)))
     else goto (st 21))) ||>
  goto (st 0).
Definition case_31 (c : Z) : option (target action) :=
  switch c [(33, st 21); (58, tr_39); (73, st 32); (105, st 32); (124, st 21); (126, st 21)] ||>
  (if c <? 45
   then (if c >? 39
     then when ((42 <=? c) && (c <=? 43)) (goto (st 21))
     else when (c >=? 35) (goto (st 21)))
   else (if c >? 46
     then (if c <? 65
       then when ((48 <=? c) && (c <=? 57)) (goto (st 21))
       else (if c >? 90
         then when ((94 <=? c) && (c <=? 122)) (goto (st 21))
         else goto (st 21)))
     else goto (st 21))) ||>
  goto (st 0).
Definition case_32 (c : Z) : option (target action) :=
  switch c [(33, st 21); (58, tr_39); (79, st 33); (111, st 33); (124, st 21); (126, st 21)] ||>
  (if c <? 45
   then (if c >? 39
     then when ((42 <=? c) && (c <=? 43)) (goto (st 21))
     else when (c >=? 35) (goto (st 21)))
   else (if c >? 46
     then (if c <? 65
       then when ((48 <=? c) && (c <=? 57)) (goto (st 21))
       else (if c >? 90
         then when ((94 <=? c) && (c <=? 122)) (goto (st 21))
         else goto (st 21)))
     else goto (st 21))) ||>
  goto (st 0).
Definition case_33 (c : Z) : option (target action) :=
  switch c [(33, st 21); (58, tr_39); (78, st 34); (110, st 34); (124, st 21); (126, st 21)] ||>
  (if c <? 45
   then (if c >? 39
     then when ((42 <=? c) && (c <=? 43)) (goto (st 21))
     else when (c >=? 35) (goto (st 21)))
   else (if c >? 46
     then (if c <? 65
       then when ((48 <=? c) && (c <=? 57)) (goto (st 21))
       else (if c >? 90
         then when ((94 <=? c) && (c <=? 122)) (goto (st 21))
         else goto (st 21)))
     else goto (st 21))) ||>
  goto (st 0).
Definition case_34 (c : Z) : option (target action) :=
  switch c [(33, st 21); (58, tr_58); (124, st 21); (126, st 21)] ||>
  (if c <? 45
   then (if c >? 39
     then when ((42 <=? c) && (c <=? 43)) (goto (st 21))
     else when (c >=? 35) (goto (st 21)))
   else (if c >? 46
     then (if c <? 65
       then when ((48 <=? c) && (c <=? 57)) (goto (st 21))
       else (if c >? 90
         then when ((94 <=? c) && (c <=? 122)) (goto (st 21))
         else goto (st 21)))
     else goto (st 21))) ||>
  goto (st 0).
Definition case_35 (c : Z) : option (target action) :=
  switch c [(10, tr_60); (13, tr_61); (32, tr_59); (67, tr_62); (99, tr_62)] ||>
  when ((9 <=? c) && (c <=? 12)) (goto tr_59) ||>
  goto tr_40.
Definition case_36 (c : Z) : option (target action) :=
  switch c [(10, tr_64); (13, st 89); (32, st 37); (33, tr_35); (67, tr_66); (84, tr_37); (99, tr_66);
    (116, tr_37); (124, tr_35); (126, tr_35)] ||>
  (if c <? 45
   then (if c <? 35
     then when ((9 <=? c) && (c <=? 12)) (goto (st 37))
     else (if c >? 39
       then when ((42 <=? c) && (c <=? 43)) (goto tr_35)
       else goto tr_35))
   else (if c >? 46
     then (if c <? 65
       then when ((48 <=? c) && (c <=? 57)) (goto tr_35)
       else (if c >? 90
         then when ((94 <=? c) && (c <=? 122)) (goto tr_35)
         else goto tr_35))
     else goto tr_35)) ||>
  goto (st 0).
Definition case_37 (c : Z) : option (target action) :=
  switch c [(32, st 37); (67, st 38); (99, st 38)] ||>
  when ((9 <=? c) && (c <=? 13)) (goto (st 37)) ||>
  goto (st 0).
Definition case_38 (c : Z) : option (target action) :=
  switch c [(76, st 39); (108, st 39)] ||>
  goto (st 0).
Definition case_39 (c : Z) : option (target action) :=
  switch c [(79, st 40); (111, st 40)] ||>
  goto (st 0).
Definition case_40 (c : Z) : option (target action) :=
  switch c [(83, st 41); (115, st 41)] ||>
  goto (st 0).
Definition case_41 (c : Z) : option (target action) :=
  switch c [(69, st 42); (101, st 42)] ||>
  goto (st 0).
Definition case_42 (c : Z) : option (target action) :=
  switch c [(10, st 43); (13, st 88)] ||>
  goto (st 0).
Definition case_43 (c : Z) : option (target action) :=
  switch c [(10, tr_74); (13, tr_75); (33, tr_76); (67, tr_77); (84, tr_78); (99, tr_77); (116, tr_78);
    (124, tr_76); (126, tr_76)] ||>
  (if c <? 45
   then (if c >? 39
     then when ((42 <=? c) && (c <=? 43)) (goto tr_76)
     else when (c >=? 35) (goto tr_76))
   else (if c >? 46
     then (if c <? 65
       then when ((48 <=? c) && (c <=? 57)) (goto tr_76)
       else (if c >? 90
         then when ((94 <=? c) && (c <=? 122)) (goto tr_76)
         else goto tr_76))
     else goto tr_76)) ||>
  goto (st 0).
Definition case_44 (c : Z) : option (target action) :=
  switch c [(33, st 21); (58, tr_39); (82, st 45); (114, st 45); (124, st 21); (126, st 21)] ||>
  (if c <? 45
   then (if c >? 39
     then when ((42 <=? c) && (c <=? 43)) (goto (st 21))
     else when (c >=? 35) (goto (st 21)))
   else (if c >? 46
     then (if c <? 65
       then when ((48 <=? c) && (c <=? 57)) (goto (st 21))
       else (if c >? 90
         then when ((94 <=? c) && (c <=? 122)) (goto (st 21))
         else goto (st 21)))
     else goto (st 21))) ||>
  goto (st 0).
Definition case_45 (c : Z) : option (target action) :=
  switch c [(33, st 21); (58, tr_39); (65, st 46); (97, st 46); (124, st 21); (126, st 21)] ||>
  (if c <? 45
   then (if c >? 39
     then when ((42 <=? c) && (c <=? 43)) (goto (st 21))
     else when (c >=? 35) (goto (st 21)))
   else (if c >? 46
     then (if c <? 66
       then when ((48 <=? c) && (c <=? 57)) (goto (st 21))
       else (if c >? 90
         then when ((94 <=? c) && (c <=? 122)) (goto (st 21))
         else goto (st 21)))
     else goto (st 21))) ||>
  goto (st 0).
Definition case_46 (c : Z) : option (target action) :=
  switch c [(33, st 21); (58, tr_39); (78, st 47); (110, st 47); (124, st 21); (126, st 21)] ||>
  (if c <? 45
   then (if c >? 39
     then when ((42 <=? c) && (c <=? 43)) (goto (st 21))
     else when (c >=? 35) (goto (st 21)))
   else (if c >? 46
     then (if c <? 65
       then when ((48 <=? c) && (c <=? 57)) (goto (st 21))
       else (if c >? 90
         then when ((94 <=? c) && (c <=? 122)) (goto (st 21))
         else goto (st 21)))
     else goto (st 21))) ||>
  goto (st 0).
Definition case_47 (c : Z) : option (target action) :=
  switch c [(33, st 21); (58, tr_39); (83, st 48); (115, st 48); (124, st 21); (126, st 21)] ||>
  (if c <? 45
   then (if c >? 39
     then when ((42 <=? c) && (c <=? 43)) (goto (st 21))
     else when (c >=? 35) (goto (st 21)))
   else (if c >? 46
     then (if c <? 65
       then when ((48 <=? c) && (c <=? 57)) (goto (st 21))
       else (if c >? 90
         then when ((94 <=? c) && (c <=? 122)) (goto (st 21))
         else goto (st 21)))
     else goto (st 21))) ||>
  goto (st 0).
Definition case_48 (c : Z) : option (target action) :=
  switch c [(33, st 21); (58, tr_39); (70, st 49); (102, st 49); (124, st 21); (126, st 21)] ||>
  (if c <? 45
   then (if c >? 39
     then when ((42 <=? c) && (c <=? 43)) (goto (st 21))
     else when (c >=? 35) (goto (st 21)))
   else (if c >? 46
     then (if c <? 65
       then when ((48 <=? c) && (c <=? 57)) (goto (st 21))
       else (if c >? 90
         then when ((94 <=? c) && (c <=? 122)) (goto (st 21))
         else goto (st 21)))
     else goto (st 21))) ||>
  goto (st 0).
Definition case_49 (c : Z) : option (target action) :=
  switch c [(33, st 21); (58, tr_39); (69, st 50); (101, st 50); (124, st 21); (126, st 21)] ||>
  (if c <? 45
   then (if c >? 39
     then when ((42 <=? c) && (c <=? 43)) (goto (st 21))
     else when (c >=? 35) (goto (st 21)))
   else (if c >? 46
     then (if c <? 65
       then when ((48 <=? c) && (c <=? 57)) (goto (st 21))
       else (if c >? 90
         then when ((94 <=? c) && (c <=? 122)) (goto (st 21))
         else goto (st 21)))
     else goto (st 21))) ||>
  goto (st 0).
Definition case_50 (c : Z) : option (target action) :=
  switch c [(33, st 21); (58, tr_39); (82, st 51); (114, st 51); (124, st 21); (126, st 21)] ||>
  (if c <? 45
   then (if c >? 39
     then when ((42 <=? c) && (c <=? 43)) (goto (st 21))
     else when (c >=? 35) (goto (st 21)))
   else (if c >? 46
     then (if c <? 65
       then when ((48 <=? c) && (c <=? 57)) (goto (st 21))
       else (if c >? 90
         then when ((94 <=? c) && (c <=? 122)) (goto (st 21))
         else goto (st 21)))
     else goto (st 21))) ||>
  goto (st 0).
Definition case_51 (c : Z) : option (target action) :=
  switch c [(33, st 21); (45, st 52); (46, st 21); (58, tr_39); (124, st 21); (126, st 21)] ||>
  (if c <? 48
   then (if c >? 39
     then when ((42 <=? c) && (c <=? 43)) (goto (st 21))
     else when (c >=? 35) (goto (st 21)))
   else (if c >? 57
     then (if c >? 90
       then when ((94 <=? c) && (c <=? 122)) (goto (st 21))
       else when (c >=? 65) (goto (st 21)))
     else goto (st 21))) ||>
  goto (st 0).
Definition case_52 (c : Z) : option (target action) :=
  switch c [(33, st 21); (58, tr_39); (69, st 53); (101, st 53); (124, st 21); (126, st 21)] ||>
  (if c <? 45
   then (if c >? 39
     then when ((42 <=? c) && (c <=? 43)) (goto (st 21))
     else when (c >=? 35) (goto (st 21)))
   else (if c >? 46
     then (if c <? 65
       then when ((48 <=? c) && (c <=? 57)) (goto (st 21))
       else (if c >? 90
         then when ((94 <=? c) && (c <=? 122)) (goto (st 21))
         else goto (st 21)))
     else goto (st 21))) ||>
  goto (st 0).
Definition case_53 (c : Z) : option (target action) :=
  switch c [(33, st 21); (58, tr_39); (78, st 54); (110, st 54); (124, st 21); (126, st 21)] ||>
  (if c <? 45
   then (if c >? 39
     then when ((42 <=? c) && (c <=? 43)) (goto (st 21))
     else when (c >=? 35) (goto (st 21)))
   else (if c >? 46
     then (if c <? 65
       then when ((48 <=? c) && (c <=? 57)) (goto (st 21))
       else (if c >? 90
         then when ((94 <=? c) && (c <=? 122)) (goto (st 21))
         else goto (st 21)))
     else goto (st 21))) ||>
  goto (st 0).
Definition case_54 (c : Z) : option (target action) :=
  switch c [(33, st 21); (58, tr_39); (67, st 55); (99, st 55); (124, st 21); (126, st 21)] ||>
  (if c <? 45
   then (if c >? 39
     then when ((42 <=? c) && (c <=? 43)) (goto (st 21))
     else when (c >=? 35) (goto (st 21)))
   else (if c >? 46
     then (if c <? 65
       then when ((48 <=? c) && (c <=? 57)) (goto (st 21))
       else (if c >? 90
         then when ((94 <=? c) && (c <=? 122)) (goto (st 21))
         else goto (st 21)))
     else goto (st 21))) ||>
  goto (st 0).
Definition case_55 (c : Z) : option (target action) :=
  switch c [(33, st 21); (58, tr_39); (79, st 56); (111, st 56); (124, st 21); (126, st 21)] ||>
  (if c <? 45
   then (if c >? 39
     then when ((42 <=? c) && (c <=? 43)) (goto (st 21))
     else when (c >=? 35) (goto (st 21)))
   else (if c >? 46
     then (if c <? 65
       then when ((48 <=? c) && (c <=? 57)) (goto (st 21))
       else (if c >? 90
         then when ((94 <=? c) && (c <=? 122)) (goto (st 21))
         else goto (st 21)))
     else goto (st 21))) ||>
  goto (st 0).
Definition case_56 (c : Z) : option (target action) :=
  switch c [(33, st 21); (58, tr_39); (68, st 57); (100, st 57); (124, st 21); (126, st 21)] ||>
  (if c <? 45
   then (if c >? 39
     then when ((42 <=? c) && (c <=? 43)) (goto (st 21))
     else when (c >=? 35) (goto (st 21)))
   else (if c >? 46
     then (if c <? 65
       then when ((48 <=? c) && (c <=? 57)) (goto (st 21))
       else (if c >? 90
         then when ((94 <=? c) && (c <=? 122)) (goto (st 21))
         else goto (st 21)))
     else goto (st 21))) ||>
  goto (st 0).
Definition case_57 (c : Z) : option (target action) :=
  switch c [(33, st 21); (58, tr_39); (73, st 58); (105, st 58); (124, st 21); (126, st 21)] ||>
  (if c <? 45
   then (if c >? 39
     then when ((42 <=? c) && (c <=? 43)) (goto (st 21))
     else when (c >=? 35) (goto (st 21)))
   else (if c >? 46
     then (if c <? 65
       then when ((48 <=? c) && (c <=? 57)) (goto (st 21))
       else (if c >? 90
         then when ((94 <=? c) && (c <=? 122)) (goto (st 21))
         else goto (st 21)))
     else goto (st 21))) ||>
  goto (st 0).
Definition case_58 (c : Z) : option (target action) :=
  switch c [(33, st 21); (58, tr_39); (78, st 59); (110, st 59); (124, st 21); (126, st 21)] ||>
  (if c <? 45
   then (if c >? 39
     then when ((42 <=? c) && (c <=? 43)) (goto (st 21))
     else when (c >=? 35) (goto (st 21)))
   else (if c >? 46
     then (if c <? 65
       then when ((48 <=? c) && (c <=? 57)) (goto (st 21))
       else (if c >? 90
         then when ((94 <=? c) && (c <=? 122)) (goto (st 21))
         else goto (st 21)))
     else goto (st 21))) ||>
  goto (st 0).
Definition case_59 (c : Z) : option (target action) :=
  switch c [(33, st 21); (58, tr_39); (71, st 60); (103, st 60); (124, st 21); (126, st 21)] ||>
  (if c <? 45
   then (if c >? 39
     then when ((42 <=? c) && (c <=? 43)) (goto (st 21))
     else when (c >=? 35) (goto (st 21)))
   else (if c >? 46
     then (if c <? 65
       then when ((48 <=? c) && (c <=? 57)) (goto (st 21))
       else (if c >? 90
         then when ((94 <=? c) && (c <=? 122)) (goto (st 21))
         else goto (st 21)))
     else goto (st 21))) ||>
  goto (st 0).
Definition case_60 (c : Z) : option (target action) :=
  switch c [(33, st 21); (58, tr_95); (124, st 21); (126, st 21)] ||>
  (if c <? 45
   then (if c >? 39
     then when ((42 <=? c) && (c <=? 43)) (goto (st 21))
     else when (c >=? 35) (goto (st 21)))
   else (if c >? 46
     then (if c <? 65
       then when ((48 <=? c) && (c <=? 57)) (goto (st 21))
       else (if c >? 90
         then when ((94 <=? c) && (c <=? 122)) (goto (st 21))
         else goto (st 21)))
     else goto (st 21))) ||>
  goto (st 0).
Definition case_61 (c : Z) : option (target action) :=
  switch c [(10, tr_97); (13, tr_98); (32, tr_96); (67, tr_99); (99, tr_99)] ||>
  when ((9 <=? c) && (c <=? 12)) (goto tr_96) ||>
  goto tr_40.
Definition case_62 (c : Z) : option (target action) :=
  switch c [(10, tr_101); (13, st 72); (32, st 63); (33, tr_35); (67, tr_103); (84, tr_37); (99, tr_103);
    (116, tr_37); (124, tr_35); (126, tr_35)] ||>
  (if c <? 45
   then (if c <? 35
     then when ((9 <=? c) && (c <=? 12)) (goto (st 63))
     else (if c >? 39
       then when ((42 <=? c) && (c <=? 43)) (goto tr_35)
       else goto tr_35))
   else (if c >? 46
     then (if c <? 65
       then when ((48 <=? c) && (c <=? 57)) (goto tr_35)
       else (if c >? 90
         then when ((94 <=? c) && (c <=? 122)) (goto tr_35)
         else goto tr_35))
     else goto tr_35)) ||>
  goto (st 0).
Definition case_63 (c : Z) : option (target action) :=
  switch c [(32, st 63); (67, tr_104); (99, tr_104)] ||>
  when ((9 <=? c) && (c <=? 13)) (goto (st 63)) ||>
  goto (st 0).
Definition case_64 (c : Z) : option (target action) :=
  switch c [(72, st 65); (104, st 65)] ||>
  goto (st 0).
Definition case_65 (c : Z) : option (target action) :=
  switch c [(85, st 66); (117, st 66)] ||>
  goto (st 0).
Definition case_66 (c : Z) : option (target action) :=
  switch c [(78, st 67); (110, st 67)] ||>
  goto (st 0).
Definition case_67 (c : Z) : option (target action) :=
  switch c [(75, st 68); (107, st 68)] ||>
  goto (st 0).
Definition case_68 (c : Z) : option (target action) :=
  switch c [(69, st 69); (101, st 69)] ||>
  goto (st 0).
Definition case_69 (c : Z) : option (target action) :=
  switch c [(68, st 70); (100, st 70)] ||>
  goto (st 0).
Definition case_70 (c : Z) : option (target action) :=
  switch c [(10, tr_111); (13, tr_112)] ||>
  goto (st 0).
Definition case_71 (c : Z) : option (target action) :=
  when (c =? 10) (goto tr_113) ||>
  goto (st 0).
Definition case_72 (c : Z) : option (target action) :=
  switch c [(10, tr_101); (32, st 63); (67, tr_104); (99, tr_104)] ||>
  when ((9 <=? c) && (c <=? 13)) (goto (st 63)) ||>
  goto (st 0).
Definition case_73 (c : Z) : option (target action) :=
  switch c [(33, st 21); (58, tr_39); (72, st 74); (79, st 26); (104, st 74); (111, st 26); (124, st 21);
    (126, st 21)] ||>
  (if c <? 45
   then (if c >? 39
     then when ((42 <=? c) && (c <=? 43)) (goto (st 21))
     else when (c >=? 35) (goto (st 21)))
   else (if c >? 46
     then (if c <? 65
       then when ((48 <=? c) && (c <=? 57)) (goto (st 21))
       else (if c >? 90
         then when ((94 <=? c) && (c <=? 122)) (goto (st 21))
         else goto (st 21)))
     else goto (st 21))) ||>
  goto (st 0).
Definition case_74 (c : Z) : option (target action) :=
  switch c [(33, st 21); (58, tr_39); (85, st 75); (117, st 75); (124, st 21); (126, st 21)] ||>
  (if c <? 45
   then (if c >? 39
     then when ((42 <=? c) && (c <=? 43)) (goto (st 21))
     else when (c >=? 35) (goto (st 21)))
   else (if c >? 46
     then (if c <? 65
       then when ((48 <=? c) && (c <=? 57)) (goto (st 21))
       else (if c >? 90
         then when ((94 <=? c) && (c <=? 122)) (goto (st 21))
         else goto (st 21)))
     else goto (st 21))) ||>
  goto (st 0).
Definition case_75 (c : Z) : option (target action) :=
  switch c [(33, st 21); (58, tr_39); (78, st 76); (110, st 76); (124, st 21); (126, st 21)] ||>
  (if c <? 45
   then (if c >? 39
     then when ((42 <=? c) && (c <=? 43)) (goto (st 21))
     else when (c >=? 35) (goto (st 21)))
   else (if c >? 46
     then (if c <? 65
       then when ((48 <=? c) && (c <=? 57)) (goto (st 21))
       else (if c >? 90
         then when ((94 <=? c) && (c <=? 122)) (goto (st 21))
         else goto (st 21)))
     else goto (st 21))) ||>
  goto (st 0).
Definition case_76 (c : Z) : option (target action) :=
  switch c [(33, st 21); (58, tr_39); (75, st 77); (107, st 77); (124, st 21); (126, st 21)] ||>
  (if c <? 45
   then (if c >? 39
     then when ((42 <=? c) && (c <=? 43)) (goto (st 21))
     else when (c >=? 35) (goto (st 21)))
   else (if c >? 46
     then (if c <? 65
       then when ((48 <=? c) && (c <=? 57)) (goto (st 21))
       else (if c >? 90
         then when ((94 <=? c) && (c <=? 122)) (goto (st 21))
         else goto (st 21)))
     else goto (st 21))) ||>
  goto (st 0).
Definition case_77 (c : Z) : option (target action) :=
  switch c [(33, st 21); (58, tr_39); (69, st 78); (101, st 78); (124, st 21); (126, st 21)] ||>
  (if c <? 45
   then (if c >? 39
     then when ((42 <=? c) && (c <=? 43)) (goto (st 21))
     else when (c >=? 35) (goto (st 21)))
   else (if c >? 46
     then (if c <? 65
       then when ((48 <=? c) && (c <=? 57)) (goto (st 21))
       else (if c >? 90
         then when ((94 <=? c) && (c <=? 122)) (goto (st 21))
         else goto (st 21)))
     else goto (st 21))) ||>
  goto (st 0).
Definition case_78 (c : Z) : option (target action) :=
  switch c [(33, st 21); (58, tr_39); (68, st 79); (100, st 79); (124, st 21); (126, st 21)] ||>
  (if c <? 45
   then (if c >? 39
     then when ((42 <=? c) && (c <=? 43)) (goto (st 21))
     else when (c >=? 35) (goto (st 21)))
   else (if c >? 46
     then (if c <? 65
       then when ((48 <=? c) && (c <=? 57)) (goto (st 21))
       else (if c >? 90
         then when ((94 <=? c) && (c <=? 122)) (goto (st 21))
         else goto (st 21)))
     else goto (st 21))) ||>
  goto (st 0).
Definition case_79 (c : Z) : option (target action) :=
  switch c [(10, tr_111); (13, tr_112); (33, st 21); (58, tr_39); (124, st 21); (126, st 21)] ||>
  (if c <? 45
   then (if c >? 39
     then when ((42 <=? c) && (c <=? 43)) (goto (st 21))
     else when (c >=? 35) (goto (st 21)))
   else (if c >? 46
     then (if c <? 65
       then when ((48 <=? c) && (c <=? 57)) (goto (st 21))
       else (if c >? 90
         then when ((94 <=? c) && (c <=? 122)) (goto (st 21))
         else goto (st 21)))
     else goto (st 21))) ||>
  goto (st 0).
Definition case_80 (c : Z) : option (target action) :=
  switch c [(10, st 62); (32, st 63); (67, tr_104); (99, tr_104)] ||>
  when ((9 <=? c) && (c <=? 13)) (goto (st 63)) ||>
  goto (st 0).
Definition case_81 (c : Z) : option (target action) :=
  switch c [(10, tr_45); (13, tr_46); (72, st 82); (104, st 82)] ||>
  goto (st 23).
Definition case_82 (c : Z) : option (target action) :=
  switch c [(10, tr_45); (13, tr_46); (85, st 83); (117, st 83)] ||>
  goto (st 23).
Definition case_83 (c : Z) : option (target action) :=
  switch c [(10, tr_45); (13, tr_46); (78, st 84); (110, st 84)] ||>
  goto (st 23).
Definition case_84 (c : Z) : option (target action) :=
  switch c [(10, tr_45); (13, tr_46); (75, st 85); (107, st 85)] ||>
  goto (st 23).
Definition case_85 (c : Z) : option (target action) :=
  switch c [(10, tr_45); (13, tr_46); (69, st 86); (101, st 86)] ||>
  goto (st 23).
Definition case_86 (c : Z) : option (target action) :=
  switch c [(10, tr_45); (13, tr_46); (68, st 87); (100, st 87)] ||>
  goto (st 23).
Definition case_87 (c : Z) : option (target action) :=
  switch c [(10, tr_111); (13, tr_112)] ||>
  goto (st 23).
Definition case_88 (c : Z) : option (target action) :=
  when (c =? 10) (goto (st 43)) ||>
  goto (st 0).
Definition case_89 (c : Z) : option (target action) :=
  switch c [(10, tr_64); (32, st 37); (67, st 38); (99, st 38)] ||>
  when ((9 <=? c) && (c <=? 13)) (goto (st 37)) ||>
  goto (st 0).
Definition case_90 (c : Z) : option (target action) :=
  switch c [(33, st 21); (58, tr_39); (76, st 91); (79, st 26); (108, st 91); (111, st 26); (124, st 21);
    (126, st 21)] ||>
  (if c <? 45
   then (if c >? 39
     then when ((42 <=? c) && (c <=? 43)) (goto (st 21))
     else when (c >=? 35) (goto (st 21)))
   else (if c >? 46
     then (if c <? 65
       then when ((48 <=? c) && (c <=? 57)) (goto (st 21))
       else (if c >? 90
         then when ((94 <=? c) && (c <=? 122)) (goto (st 21))
         else goto (st 21)))
     else goto (st 21))) ||>
  goto (st 0).
Definition case_91 (c : Z) : option (target action) :=
  switch c [(33, st 21); (58, tr_39); (79, st 92); (111, st 92); (124, st 21); (126, st 21)] ||>
  (if c <? 45
   then (if c >? 39
     then when ((42 <=? c) && (c <=? 43)) (goto (st 21))
     else when (c >=? 35) (goto (st 21)))
   else (if c >? 46
     then (if c <? 65
       then when ((48 <=? c) && (c <=? 57)) (goto (st 21))
       else (if c >? 90
         then when ((94 <=? c) && (c <=? 122)) (goto (st 21))
         else goto (st 21)))
     else goto (st 21))) ||>
  goto (st 0).
Definition case_92 (c : Z) : option (target action) :=
  switch c [(33, st 21); (58, tr_39); (83, st 93); (115, st 93); (124, st 21); (126, st 21)] ||>
  (if c <? 45
   then (if c >? 39
     then when ((42 <=? c) && (c <=? 43)) (goto (st 21))
     else when (c >=? 35) (goto (st 21)))
   else (if c >? 46
     then (if c <? 65
       then when ((48 <=? c) && (c <=? 57)) (goto (st 21))
       else (if c >? 90
         then when ((94 <=? c) && (c <=? 122)) (goto (st 21))
         else goto (st 21)))
     else goto (st 21))) ||>
  goto (st 0).
Definition case_93 (c : Z) : option (target action) :=
  switch c [(33, st 21); (58, tr_39); (69, st 94); (101, st 94); (124, st 21); (126, st 21)] ||>
  (if c <? 45
   then (if c >? 39
     then when ((42 <=? c) && (c <=? 43)) (goto (st 21))
     else when (c >=? 35) (goto (st 21)))
   else (if c >? 46
     then (if c <? 65
       then when ((48 <=? c) && (c <=? 57)) (goto (st 21))
       else (if c >? 90
         then when ((94 <=? c) && (c <=? 122)) (goto (st 21))
         else goto (st 21)))
     else goto (st 21))) ||>
  goto (st 0).
Definition case_94 (c : Z) : option (target action) :=
  switch c [(10, st 43); (13, st 88); (33, st 21); (58, tr_39); (124, st 21); (126, st 21)] ||>
  (if c <? 45
   then (if c >? 39
     then when ((42 <=? c) && (c <=? 43)) (goto (st 21))
     else when (c >=? 35) (goto (st 21)))
   else (if c >? 46
     then (if c <? 65
       then when ((48 <=? c) && (c <=? 57)) (goto (st 21))
       else (if c >? 90
         then when ((94 <=? c) && (c <=? 122)) (goto (st 21))
         else goto (st 21)))
     else goto (st 21))) ||>
  goto (st 0).
Definition case_95 (c : Z) : option (target action) :=
  switch c [(10, st 36); (32, st 37); (67, st 38); (99, st 38)] ||>
  when ((9 <=? c) && (c <=? 13)) (goto (st 37)) ||>
  goto (st 0).
Definition case_96 (c : Z) : option (target action) :=
  switch c [(10, tr_45); (13, tr_46); (76, st 97); (108, st 97)] ||>
  goto (st 23).
Definition case_97 (c : Z) : option (target action) :=
  switch c [(10, tr_45); (13, tr_46); (79, st 98); (111, st 98)] ||>
  goto (st 23).
Definition case_98 (c : Z) : option (target action) :=
  switch c [(10, tr_45); (13, tr_46); (83, st 99); (115, st 99)] ||>
  goto (st 23).
Definition case_99 (c : Z) : option (target action) :=
  switch c [(10, tr_45); (13, tr_46); (69, st 100); (101, st 100)] ||>
  goto (st 23).
Definition case_100 (c : Z) : option (target action) :=
  switch c [(10, tr_136); (13, tr_137)] ||>
  goto (st 23).
Definition case_101 (c : Z) : option (target action) :=
  switch c [(33, st 21); (58, tr_39); (69, st 102); (101, st 102); (124, st 21); (126, st 21)] ||>
  (if c <? 45
   then (if c >? 39
     then when ((42 <=? c) && (c <=? 43)) (goto (st 21))
     else when (c >=? 35) (goto (st 21)))
   else (if c >? 46
     then (if c <? 65
       then when ((48 <=? c) && (c <=? 57)) (goto (st 21))
       else (if c >? 90
         then when ((94 <=? c) && (c <=? 122)) (goto (st 21))
         else goto (st 21)))
     else goto (st 21))) ||>
  goto (st 0).
Definition case_102 (c : Z) : option (target action) :=
  switch c [(33, st 21); (58, tr_39); (78, st 103); (110, st 103); (124, st 21); (126, st 21)] ||>
  (if c <? 45
   then (if c >? 39
     then when ((42 <=? c) && (c <=? 43)) (goto (st 21))
     else when (c >=? 35) (goto (st 21)))
   else (if c >? 46
     then (if c <? 65
       then when ((48 <=? c) && (c <=? 57)) (goto (st 21))
       else (if c >? 90
         then when ((94 <=? c) && (c <=? 122)) (goto (st 21))
         else goto (st 21)))
     else goto (st 21))) ||>
  goto (st 0).
Definition case_103 (c : Z) : option (target action) :=
  switch c [(33, st 21); (58, tr_39); (84, st 104); (116, st 104); (124, st 21); (126, st 21)] ||>
  (if c <? 45
   then (if c >? 39
     then when ((42 <=? c) && (c <=? 43)) (goto (st 21))
     else when (c >=? 35) (goto (st 21)))
   else (if c >? 46
     then (if c <? 65
       then when ((48 <=? c) && (c <=? 57)) (goto (st 21))
       else (if c >? 90
         then when ((94 <=? c) && (c <=? 122)) (goto (st 21))
         else goto (st 21)))
     else goto (st 21))) ||>
  goto (st 0).
Definition case_104 (c : Z) : option (target action) :=
  switch c [(33, st 21); (45, st 105); (46, st 21); (58, tr_39); (124, st 21); (126, st 21)] ||>
  (if c <? 48
   then (if c >? 39
     then when ((42 <=? c) && (c <=? 43)) (goto (st 21))
     else when (c >=? 35) (goto (st 21)))
   else (if c >? 57
     then (if c >? 90
       then when ((94 <=? c) && (c <=? 122)) (goto (st 21))
       else when (c >=? 65) (goto (st 21)))
     else goto (st 21))) ||>
  goto (st 0).
Definition case_105 (c : Z) : option (target action) :=
  switch c [(33, st 21); (58, tr_39); (76, st 106); (108, st 106); (124, st 21); (126, st 21)] ||>
  (if c <? 45
   then (if c >? 39
     then when ((42 <=? c) && (c <=? 43)) (goto (st 21))
     else when (c >=? 35) (goto (st 21)))
   else (if c >? 46
     then (if c <? 65
       then when ((48 <=? c) && (c <=? 57)) (goto (st 21))
       else (if c >? 90
         then when ((94 <=? c) && (c <=? 122)) (goto (st 21))
         else goto (st 21)))
     else goto (st 21))) ||>
  goto (st 0).
Definition case_106 (c : Z) : option (target action) :=
  switch c [(33, st 21); (58, tr_39); (69, st 107); (101, st 107); (124, st 21); (126, st 21)] ||>
  (if c <? 45
   then (if c >? 39
     then when ((42 <=? c) && (c <=? 43)) (goto (st 21))
     else when (c >=? 35) (goto (st 21)))
   else (if c >? 46
     then (if c <? 65
       then when ((48 <=? c) && (c <=? 57)) (goto (st 21))
       else (if c >? 90
         then when ((94 <=? c) && (c <=? 122)) (goto (st 21))
         else goto (st 21)))
     else goto (st 21))) ||>
  goto (st 0).
Definition case_107 (c : Z) : option (target action) :=
  switch c [(33, st 21); (58, tr_39); (78, st 108); (110, st 108); (124, st 21); (126, st 21)] ||>
  (if c <? 45
   then (if c >? 39
     then when ((42 <=? c) && (c <=? 43)) (goto (st 21))
     else when (c >=? 35) (goto (st 21)))
   else (if c >? 46
     then (if c <? 65
       then when ((48 <=? c) && (c <=? 57)) (goto (st 21))
       else (if c >? 90
         then when ((94 <=? c) && (c <=? 122)) (goto (st 21))
         else goto (st 21)))
     else goto (st 21))) ||>
  goto (st 0).
Definition case_108 (c : Z) : option (target action) :=
  switch c [(33, st 21); (58, tr_39); (71, st 109); (103, st 109); (124, st 21); (126, st 21)] ||>
  (if c <? 45
   then (if c >? 39
     then when ((42 <=? c) && (c <=? 43)) (goto (st 21))
     else when (c >=? 35) (goto (st 21)))
   else (if c >? 46
     then (if c <? 65
       then when ((48 <=? c) && (c <=? 57)) (goto (st 21))
       else (if c >? 90
         then when ((94 <=? c) && (c <=? 122)) (goto (st 21))
         else goto (st 21)))
     else goto (st 21))) ||>
  goto (st 0).
Definition case_109 (c : Z) : option (target action) :=
  switch c [(33, st 21); (58, tr_39); (84, st 110); (116, st 110); (124, st 21); (126, st 21)] ||>
  (if c <? 45
   then (if c >? 39
     then when ((42 <=? c) && (c <=? 43)) (goto (st 21))
     else when (c >=? 35) (goto (st 21)))
   else (if c >? 46
     then (if c <? 65
       then when ((48 <=? c) && (c <=? 57)) (goto (st 21))
       else (if c >? 90
         then when ((94 <=? c) && (c <=? 122)) (goto (st 21))
         else goto (st 21)))
     else goto (st 21))) ||>
  goto (st 0).
Definition case_110 (c : Z) : option (target action) :=
  switch c [(33, st 21); (58, tr_39); (72, st 111); (104, st 111); (124, st 21); (126, st 21)] ||>
  (if c <? 45
   then (if c >? 39
     then when ((42 <=? c) && (c <=? 43)) (goto (st 21))
     else when (c >=? 35) (goto (st 21)))
   else (if c >? 46
     then (if c <? 65
       then when ((48 <=? c) && (c <=? 57)) (goto (st 21))
       else (if c >? 90
         then when ((94 <=? c) && (c <=? 122)) (goto (st 21))
         else goto (st 21)))
     else goto (st 21))) ||>
  goto (st 0).
Definition case_111 (c : Z) : option (target action) :=
  switch c [(33, st 21); (58, tr_148); (124, st 21); (126, st 21)] ||>
  (if c <? 45
   then (if c >? 39
     then when ((42 <=? c) && (c <=? 43)) (goto (st 21))
     else when (c >=? 35) (goto (st 21)))
   else (if c >? 46
     then (if c <? 65
       then when ((48 <=? c) && (c <=? 57)) (goto (st 21))
       else (if c >? 90
         then when ((94 <=? c) && (c <=? 122)) (goto (st 21))
         else goto (st 21)))
     else goto (st 21))) ||>
  goto (st 0).
Definition case_112 (c : Z) : option (target action) :=
  switch c [(10, tr_150); (13, tr_151); (32, tr_149)] ||>
  (if c >? 12
   then when ((48 <=? c) && (c <=? 57)) (goto tr_152)
   else when (c >=? 9) (goto tr_149)) ||>
  goto tr_40.
Definition case_113 (c : Z) : option (target action) :=
  switch c [(10, tr_154); (13, st 116); (32, st 114); (33, tr_35); (67, tr_36); (84, tr_37); (99, tr_36);
    (116, tr_37); (124, tr_35); (126, tr_35)] ||>
  (if c <? 45
   then (if c <? 35
     then when ((9 <=? c) && (c <=? 12)) (goto (st 114))
     else (if c >? 39
       then when ((42 <=? c) && (c <=? 43)) (goto tr_35)
       else goto tr_35))
   else (if c >? 46
     then (if c <? 65
       then when ((48 <=? c) && (c <=? 57)) (goto tr_156)
       else (if c >? 90
         then when ((94 <=? c) && (c <=? 122)) (goto tr_35)
         else goto tr_35))
     else goto tr_35)) ||>
  goto (st 0).
Definition case_114 (c : Z) : option (target action) :=
  when (c =? 32) (goto (st 114)) ||>
  (if c >? 13
   then when ((48 <=? c) && (c <=? 57)) (goto tr_157)
   else when (c >=? 9) (goto (st 114))) ||>
  goto (st 0).
Definition case_115 (c : Z) : option (target action) :=
  switch c [(10, tr_158); (13, tr_159)] ||>
  when ((48 <=? c) && (c <=? 57)) (goto (st 115)) ||>
  goto (st 0).
Definition case_116 (c : Z) : option (target action) :=
  switch c [(10, tr_154); (32, st 114)] ||>
  (if c >? 13
   then when ((48 <=? c) && (c <=? 57)) (goto tr_157)
   else when (c >=? 9) (goto (st 114))) ||>
  goto (st 0).
Definition case_117 (c : Z) : option (target action) :=
  switch c [(10, tr_158); (13, tr_159); (33, st 21); (58, tr_39); (124, st 21); (126, st 21)] ||>
  (if c <? 45
   then (if c >? 39
     then when ((42 <=? c) && (c <=? 43)) (goto (st 21))
     else when (c >=? 35) (goto (st 21)))
   else (if c >? 46
     then (if c <? 65
       then when ((48 <=? c) && (c <=? 57)) (goto (st 117))
       else (if c >? 90
         then when ((94 <=? c) && (c <=? 122)) (goto (st 21))
         else goto (st 21)))
     else goto (st 21))) ||>
  goto (st 0).
Definition case_118 (c : Z) : option (target action) :=
  switch c [(10, st 113); (32, st 114)] ||>
  (if c >? 13
   then when ((48 <=? c) && (c <=? 57)) (goto tr_157)
   else when (c >=? 9) (goto (st 114))) ||>
  goto (st 0).
Definition case_119 (c : Z) : option (target action) :=
  switch c [(10, tr_158); (13, tr_159)] ||>
  when ((48 <=? c) && (c <=? 57)) (goto (st 119)) ||>
  goto (st 23).
Definition case_120 (c : Z) : option (target action) :=
  goto (st 0).
Definition case_121 (c : Z) : option (target action) :=
  switch c [(32, st 63); (67, tr_104); (99, tr_104)] ||>
  when ((9 <=? c) && (c <=? 13)) (goto (st 63)) ||>
  goto (st 0).
Definition case_122 (c : Z) : option (target action) :=
  switch c [(32, st 37); (67, st 38); (99, st 38)] ||>
  when ((9 <=? c) && (c <=? 13)) (goto (st 37)) ||>
  goto (st 0).
Definition case_123 (c : Z) : option (target action) :=
  when (c =? 32) (goto (st 114)) ||>
  (if c >? 13
   then when ((48 <=? c) && (c <=? 57)) (goto tr_157)
   else when (c >=? 9) (goto (st 114))) ||>
  goto (st 0).

(** The [switch (cs)]: no case, no move. *)
Definition fsm (cs c : Z) : option (target action) :=
  match cs with
  | 1 => case_1 c | 2 => case_2 c | 3 => case_3 c | 4 => case_4 c | 5 => case_5 c | 6 => case_6 c | 7 => case_7 c
  | 8 => case_8 c | 9 => case_9 c | 10 => case_10 c | 11 => case_11 c | 12 => case_12 c | 13 => case_13 c
  | 14 => case_14 c | 15 => case_15 c | 16 => case_16 c | 17 => case_17 c | 18 => case_18 c | 19 => case_19 c
  | 20 => case_20 c | 21 => case_21 c | 22 => case_22 c | 23 => case_23 c | 24 => case_24 c | 25 => case_25 c
  | 26 => case_26 c | 27 => case_27 c | 28 => case_28 c | 29 => case_29 c | 30 => case_30 c | 31 => case_31 c
  | 32 => case_32 c | 33 => case_33 c | 34 => case_34 c | 35 => case_35 c | 36 => case_36 c | 37 => case_37 c
  | 38 => case_38 c | 39 => case_39 c | 40 => case_40 c | 41 => case_41 c | 42 => case_42 c | 43 => case_43 c
  | 44 => case_44 c | 45 => case_45 c | 46 => case_46 c | 47 => case_47 c | 48 => case_48 c | 49 => case_49 c
  | 50 => case_50 c | 51 => case_51 c | 52 => case_52 c | 53 => case_53 c | 54 => case_54 c | 55 => case_55 c
  | 56 => case_56 c | 57 => case_57 c | 58 => case_58 c | 59 => case_59 c | 60 => case_60 c | 61 => case_61 c
  | 62 => case_62 c | 63 => case_63 c | 64 => case_64 c | 65 => case_65 c | 66 => case_66 c | 67 => case_67 c
  | 68 => case_68 c | 69 => case_69 c | 70 => case_70 c | 71 => case_71 c | 72 => case_72 c | 73 => case_73 c
  | 74 => case_74 c | 75 => case_75 c | 76 => case_76 c | 77 => case_77 c | 78 => case_78 c | 79 => case_79 c
  | 80 => case_80 c | 81 => case_81 c | 82 => case_82 c | 83 => case_83 c | 84 => case_84 c | 85 => case_85 c
  | 86 => case_86 c | 87 => case_87 c | 88 => case_88 c | 89 => case_89 c | 90 => case_90 c | 91 => case_91 c
  | 92 => case_92 c | 93 => case_93 c | 94 => case_94 c | 95 => case_95 c | 96 => case_96 c | 97 => case_97 c
  | 98 => case_98 c | 99 => case_99 c | 100 => case_100 c | 101 => case_101 c | 102 => case_102 c
  | 103 => case_103 c | 104 => case_104 c | 105 => case_105 c | 106 => case_106 c | 107 => case_107 c
  | 108 => case_108 c | 109 => case_109 c | 110 => case_110 c | 111 => case_111 c | 112 => case_112 c
  | 113 => case_113 c | 114 => case_114 c | 115 => case_115 c | 116 => case_116 c | 117 => case_117 c
  | 118 => case_118 c | 119 => case_119 c | 120 => case_120 c | 121 => case_121 c | 122 => case_122 c
  | 123 => case_123 c
  | _ => None
  end.
(** The states of the table. *)
Definition states : list Z := [1; 2; 3; 4; 5; 6; 7; 8; 9; 10; 11; 12; 13; 14; 15; 16; 17; 18; 19; 20; 21; 22; 23;
  24; 25; 26; 27; 28; 29; 30; 31; 32; 33; 34; 35; 36; 37; 38; 39; 40; 41; 42; 43; 44; 45; 46; 47; 48; 49; 50; 51;
  52; 53; 54; 55; 56; 57; 58; 59; 60; 61; 62; 63; 64; 65; 66; 67; 68; 69; 70; 71; 72; 73; 74; 75; 76; 77; 78; 79;
  80; 81; 82; 83; 84; 85; 86; 87; 88; 89; 90; 91; 92; 93; 94; 95; 96; 97; 98; 99; 100; 101; 102; 103; 104; 105; 106;
  107; 108; 109; 110; 111; 112; 113; 114; 115; 116; 117; 118; 119; 120; 121; 122; 123].
