(* ===== verification/Http11Fsm.v ===== *)
(** The automaton of [sherry/http/http11_parser.rl.cc]: requests.  [case_N] is
    the [case N] of the [switch] over [cs], [tr_K] the label [trK]: its actions,
    and the state it goes to.  Three characters are only part of a URI where
    [parser->uri_relaxed]: [widen] moves them out of the range of [char], into
    [_widec]. *)

From Stdlib Require Import ZArith.
From stdpp Require Import base list.
From S2P Require Import Prelude Ragel.
Local Open Scope Z_scope.
Local Open Scope ragel_scope.

(** The actions of the grammar, by the name it gives them. *)
Inductive action : Type :=
| Mark | StartField | WriteField | StartValue | WriteValue | RequestMethod | RequestUri | Fragment | StartQuery | QueryString | HttpVersion | RequestPath | Done | Xml | Json.
#[export] Instance action_eq_dec : EqDecision action.
Proof. solve_decision. Defined.

Definition widen (uri_relaxed : bool) (c : Z) : Z :=
  let w := 128 + (c - -128) in if uri_relaxed then w + 256 else w.

Definition tr_0 : target action := mkTarget [Mark] 2.
Definition tr_2 : target action := mkTarget [Mark] 194.
Definition tr_3 : target action := mkTarget [Mark] 198.
Definition tr_4 : target action := mkTarget [RequestMethod] 3.
Definition tr_6 : target action := mkTarget [Mark; RequestPath; RequestUri] 4.
Definition tr_7 : target action := mkTarget [Mark] 19.
Definition tr_8 : target action := mkTarget [Mark; RequestPath; RequestUri] 20.
Definition tr_9 : target action := mkTarget [Mark] 24.
Definition tr_10 : target action := mkTarget [Mark] 33.
Definition tr_11 : target action := mkTarget [Mark; RequestPath] 29.
Definition tr_12 : target action := mkTarget [Mark] 173.
Definition tr_13 : target action := mkTarget [Mark] 5.
Definition tr_21 : target action := mkTarget [HttpVersion] 13.
Definition tr_22 : target action := mkTarget [HttpVersion] 17.
Definition tr_23 : target action := mkTarget [StartField] 14.
Definition tr_24 : target action := mkTarget [StartField; Done] 348.
Definition tr_25 : target action := mkTarget [StartField] 18.
Definition tr_27 : target action := mkTarget [WriteField] 15.
Definition tr_28 : target action := mkTarget [StartValue] 16.
Definition tr_29 : target action := mkTarget [StartValue] 15.
Definition tr_30 : target action := mkTarget [StartValue; WriteValue] 13.
Definition tr_31 : target action := mkTarget [StartValue; WriteValue] 17.
Definition tr_33 : target action := mkTarget [WriteValue] 13.
Definition tr_34 : target action := mkTarget [WriteValue] 17.
Definition tr_36 : target action := mkTarget [Done] 348.
Definition tr_37 : target action := mkTarget [RequestPath; RequestUri] 4.
Definition tr_39 : target action := mkTarget [RequestPath; RequestUri] 20.
Definition tr_42 : target action := mkTarget [RequestPath] 29.
Definition tr_43 : target action := mkTarget [Mark; Fragment] 4.
Definition tr_44 : target action := mkTarget [Mark] 21.
Definition tr_45 : target action := mkTarget [Mark] 22.
Definition tr_46 : target action := mkTarget [Fragment] 4.
Definition tr_53 : target action := mkTarget [StartQuery; QueryString; RequestUri] 4.
Definition tr_54 : target action := mkTarget [StartQuery] 30.
Definition tr_55 : target action := mkTarget [StartQuery; QueryString; RequestUri] 20.
Definition tr_56 : target action := mkTarget [StartQuery] 31.
Definition tr_57 : target action := mkTarget [QueryString; RequestUri] 4.
Definition tr_59 : target action := mkTarget [QueryString; RequestUri] 20.
Definition tr_203 : target action := mkTarget [Mark] 26.
Definition tr_204 : target action := mkTarget [Mark] 27.
Definition tr_224 : target action := mkTarget [RequestPath] 196.
Definition tr_227 : target action := mkTarget [Xml; Done] 349.
Definition tr_228 : target action := mkTarget [RequestPath] 199.
Definition tr_232 : target action := mkTarget [Mark] 200.
Definition tr_235 : target action := mkTarget [Json; Done] 349.

Definition case_1 (c : Z) : option (target action) :=
  switch c [(60, tr_2); (64, tr_3)] ||>
  (if c >? 57
   then when ((65 <=? c) && (c <=? 90)) (goto tr_0)
   else when (c >=? 48) (goto tr_0)) ||>
  goto (st 0).
Definition case_2 (c : Z) : option (target action) :=
  when (c =? 32) (goto tr_4) ||>
  (if c >? 57
   then when ((65 <=? c) && (c <=? 90)) (goto (st 175))
   else when (c >=? 48) (goto (st 175))) ||>
  goto (st 0).
Definition case_3 (uri_relaxed : bool) (c : Z) : option (target action) :=
  let c := (if c <? 123 then (if (94 <=? c) && (c <=? 94) then widen uri_relaxed c
              else c)
            else (if c >? 123 then (if (125 <=? c) && (c <=? 125) then widen uri_relaxed c
                else c)
              else widen uri_relaxed c)) in
  switch c [(32, tr_6); (33, tr_7); (35, tr_8); (37, tr_9); (47, tr_10); (59, tr_7); (61, tr_7); (63, tr_11);
    (64, tr_7); (95, tr_7); (126, tr_7); (606, tr_7); (635, tr_7); (637, tr_7)] ||>
  (if c <? 65
   then when ((36 <=? c) && (c <=? 57)) (goto tr_7)
   else (if c >? 90
     then when ((97 <=? c) && (c <=? 122)) (goto tr_12)
     else goto tr_12)) ||>
  goto (st 0).
Definition case_4 (c : Z) : option (target action) :=
  when (c =? 72) (goto tr_13) ||>
  goto (st 0).
Definition case_5 (c : Z) : option (target action) :=
  when (c =? 84) (goto (st 6)) ||>
  goto (st 0).
Definition case_6 (c : Z) : option (target action) :=
  when (c =? 84) (goto (st 7)) ||>
  goto (st 0).
Definition case_7 (c : Z) : option (target action) :=
  when (c =? 80) (goto (st 8)) ||>
  goto (st 0).
Definition case_8 (c : Z) : option (target action) :=
  when (c =? 47) (goto (st 9)) ||>
  goto (st 0).
Definition case_9 (c : Z) : option (target action) :=
  when (c =? 49) (goto (st 10)) ||>
  goto (st 0).
Definition case_10 (c : Z) : option (target action) :=
  when (c =? 46) (goto (st 11)) ||>
  goto (st 0).
Definition case_11 (c : Z) : option (target action) :=
  when ((48 <=? c) && (c <=? 49)) (goto (st 12)) ||>
  goto (st 0).
Definition case_12 (c : Z) : option (target action) :=
  switch c [(10, tr_21); (13, tr_22)] ||>
  goto (st 0).
Definition case_13 (c : Z) : option (target action) :=
  switch c [(10, tr_24); (13, tr_25); (33, tr_23); (124, tr_23); (126, tr_23)] ||>
  (if c <? 42
   then (if c <? 11
     then when ((1 <=? c) && (c <=? 8)) (goto tr_23)
     else (if c >? 31
       then when ((35 <=? c) && (c <=? 39)) (goto tr_23)
       else goto tr_23))
   else (if c >? 43
     then (if c <? 48
       then when ((45 <=? c) && (c <=? 46)) (goto tr_23)
       else (if c >? 57
         then (if c >? 90
           then when ((94 <=? c) && (c <=? 122)) (goto tr_23)
           else when (c >=? 65) (goto tr_23))
         else goto tr_23))
     else goto tr_23)) ||>
  goto (st 0).
Definition case_14 (c : Z) : option (target action) :=
  switch c [(33, st 14); (58, tr_27); (124, st 14); (126, st 14)] ||>
  (if c <? 42
   then (if c <? 10
     then when ((1 <=? c) && (c <=? 8)) (goto (st 14))
     else (if c >? 31
       then when ((35 <=? c) && (c <=? 39)) (goto (st 14))
       else goto (st 14)))
   else (if c >? 43
     then (if c <? 48
       then when ((45 <=? c) && (c <=? 46)) (goto (st 14))
       else (if c >? 57
         then (if c >? 90
           then when ((94 <=? c) && (c <=? 122)) (goto (st 14))
           else when (c >=? 65) (goto (st 14)))
         else goto (st 14)))
     else goto (st 14))) ||>
  goto (st 0).
Definition case_15 (c : Z) : option (target action) :=
  switch c [(0, st 0); (9, tr_29); (10, tr_30); (13, tr_31); (32, tr_29); (127, st 0)] ||>
  goto tr_28.
Definition case_16 (c : Z) : option (target action) :=
  switch c [(0, st 0); (10, tr_33); (13, tr_34); (127, st 0)] ||>
  goto (st 16).
Definition case_17 (c : Z) : option (target action) :=
  when (c =? 10) (goto (st 13)) ||>
  goto (st 0).
Definition case_18 (c : Z) : option (target action) :=
  switch c [(10, tr_36); (33, st 14); (58, tr_27); (124, st 14); (126, st 14)] ||>
  (if c <? 42
   then (if c <? 11
     then when ((1 <=? c) && (c <=? 8)) (goto (st 14))
     else (if c >? 31
       then when ((35 <=? c) && (c <=? 39)) (goto (st 14))
       else goto (st 14)))
   else (if c >? 43
     then (if c <? 48
       then when ((45 <=? c) && (c <=? 46)) (goto (st 14))
       else (if c >? 57
         then (if c >? 90
           then when ((94 <=? c) && (c <=? 122)) (goto (st 14))
           else when (c >=? 65) (goto (st 14)))
         else goto (st 14)))
     else goto (st 14))) ||>
  goto (st 0).
Definition case_19 (uri_relaxed : bool) (c : Z) : option (target action) :=
  let c := (if c <? 123 then (if (94 <=? c) && (c <=? 94) then widen uri_relaxed c
              else c)
            else (if c >? 123 then (if (125 <=? c) && (c <=? 125) then widen uri_relaxed c
                else c)
              else widen uri_relaxed c)) in
  switch c [(32, tr_37); (33, st 19); (35, tr_39); (37, st 24); (47, st 26); (59, st 19); (61, st 19);
    (63, tr_42); (95, st 19); (126, st 19); (606, st 19); (635, st 19); (637, st 19)] ||>
  (if c <? 64
   then when ((36 <=? c) && (c <=? 57)) (goto (st 19))
   else (if c >? 90
     then when ((97 <=? c) && (c <=? 122)) (goto (st 19))
     else goto (st 19))) ||>
  goto (st 0).
Definition case_20 (uri_relaxed : bool) (c : Z) : option (target action) :=
  let c := (if c <? 123 then (if (94 <=? c) && (c <=? 94) then widen uri_relaxed c
              else c)
            else (if c >? 123 then (if (125 <=? c) && (c <=? 125) then widen uri_relaxed c
                else c)
              else widen uri_relaxed c)) in
  switch c [(32, tr_43); (33, tr_44); (37, tr_45); (61, tr_44); (95, tr_44); (126, tr_44); (606, tr_44);
    (635, tr_44); (637, tr_44)] ||>
  (if c <? 63
   then when ((36 <=? c) && (c <=? 59)) (goto tr_44)
   else (if c >? 90
     then when ((97 <=? c) && (c <=? 122)) (goto tr_44)
     else goto tr_44)) ||>
  goto (st 0).
Definition case_21 (uri_relaxed : bool) (c : Z) : option (target action) :=
  let c := (if c <? 123 then (if (94 <=? c) && (c <=? 94) then widen uri_relaxed c
              else c)
            else (if c >? 123 then (if (125 <=? c) && (c <=? 125) then widen uri_relaxed c
                else c)
              else widen uri_relaxed c)) in
  switch c [(32, tr_46); (33, st 21); (37, st 22); (61, st 21); (95, st 21); (126, st 21); (606, st 21);
    (635, st 21); (637, st 21)] ||>
  (if c <? 63
   then when ((36 <=? c) && (c <=? 59)) (goto (st 21))
   else (if c >? 90
     then when ((97 <=? c) && (c <=? 122)) (goto (st 21))
     else goto (st 21))) ||>
  goto (st 0).
Definition case_22 (c : Z) : option (target action) :=
  (if c <? 65
   then when ((48 <=? c) && (c <=? 57)) (goto (st 23))
   else (if c >? 70
     then when ((97 <=? c) && (c <=? 102)) (goto (st 23))
     else goto (st 23))) ||>
  goto (st 0).
Definition case_23 (c : Z) : option (target action) :=
  (if c <? 65
   then when ((48 <=? c) && (c <=? 57)) (goto (st 21))
   else (if c >? 70
     then when ((97 <=? c) && (c <=? 102)) (goto (st 21))
     else goto (st 21))) ||>
  goto (st 0).
Definition case_24 (c : Z) : option (target action) :=
  (if c <? 65
   then when ((48 <=? c) && (c <=? 57)) (goto (st 25))
   else (if c >? 70
     then when ((97 <=? c) && (c <=? 102)) (goto (st 25))
     else goto (st 25))) ||>
  goto (st 0).
Definition case_25 (c : Z) : option (target action) :=
  (if c <? 65
   then when ((48 <=? c) && (c <=? 57)) (goto (st 19))
   else (if c >? 70
     then when ((97 <=? c) && (c <=? 102)) (goto (st 19))
     else goto (st 19))) ||>
  goto (st 0).
Definition case_26 (uri_relaxed : bool) (c : Z) : option (target action) :=
  let c := (if c <? 123 then (if (94 <=? c) && (c <=? 94) then widen uri_relaxed c
              else c)
            else (if c >? 123 then (if (125 <=? c) && (c <=? 125) then widen uri_relaxed c
                else c)
              else widen uri_relaxed c)) in
  switch c [(32, tr_37); (33, st 26); (35, tr_39); (37, st 27); (61, st 26); (63, tr_42); (95, st 26);
    (126, st 26); (606, st 26); (635, st 26); (637, st 26)] ||>
  (if c <? 64
   then when ((36 <=? c) && (c <=? 59)) (goto (st 26))
   else (if c >? 90
     then when ((97 <=? c) && (c <=? 122)) (goto (st 26))
     else goto (st 26))) ||>
  goto (st 0).
Definition case_27 (c : Z) : option (target action) :=
  (if c <? 65
   then when ((48 <=? c) && (c <=? 57)) (goto (st 28))
   else (if c >? 70
     then when ((97 <=? c) && (c <=? 102)) (goto (st 28))
     else goto (st 28))) ||>
  goto (st 0).
Definition case_28 (c : Z) : option (target action) :=
  (if c <? 65
   then when ((48 <=? c) && (c <=? 57)) (goto (st 26))
   else (if c >? 70
     then when ((97 <=? c) && (c <=? 102)) (goto (st 26))
     else goto (st 26))) ||>
  goto (st 0).
Definition case_29 (uri_relaxed : bool) (c : Z) : option (target action) :=
  let c := (if c <? 123 then (if (94 <=? c) && (c <=? 94) then widen uri_relaxed c
              else c)
            else (if c >? 123 then (if (125 <=? c) && (c <=? 125) then widen uri_relaxed c
                else c)
              else widen uri_relaxed c)) in
  switch c [(32, tr_53); (33, tr_54); (35, tr_55); (37, tr_56); (61, tr_54); (95, tr_54); (126, tr_54);
    (606, tr_54); (635, tr_54); (637, tr_54)] ||>
  (if c <? 63
   then when ((36 <=? c) && (c <=? 59)) (goto tr_54)
   else (if c >? 90
     then when ((97 <=? c) && (c <=? 122)) (goto tr_54)
     else goto tr_54)) ||>
  goto (st 0).
Definition case_30 (uri_relaxed : bool) (c : Z) : option (target action) :=
  let c := (if c <? 123 then (if (94 <=? c) && (c <=? 94) then widen uri_relaxed c
              else c)
            else (if c >? 123 then (if (125 <=? c) && (c <=? 125) then widen uri_relaxed c
                else c)
              else widen uri_relaxed c)) in
  switch c [(32, tr_57); (33, st 30); (35, tr_59); (37, st 31); (61, st 30); (95, st 30); (126, st 30);
    (606, st 30); (635, st 30); (637, st 30)] ||>
  (if c <? 63
   then when ((36 <=? c) && (c <=? 59)) (goto (st 30))
   else (if c >? 90
     then when ((97 <=? c) && (c <=? 122)) (goto (st 30))
     else goto (st 30))) ||>
  goto (st 0).
Definition case_31 (c : Z) : option (target action) :=
  (if c <? 65
   then when ((48 <=? c) && (c <=? 57)) (goto (st 32))
   else (if c >? 70
     then when ((97 <=? c) && (c <=? 102)) (goto (st 32))
     else goto (st 32))) ||>
  goto (st 0).
Definition case_32 (c : Z) : option (target action) :=
  (if c <? 65
   then when ((48 <=? c) && (c <=? 57)) (goto (st 30))
   else (if c >? 70
     then when ((97 <=? c) && (c <=? 102)) (goto (st 30))
     else goto (st 30))) ||>
  goto (st 0).
Definition case_33 (uri_relaxed : bool) (c : Z) : option (target action) :=
  let c := (if c <? 123 then (if (94 <=? c) && (c <=? 94) then widen uri_relaxed c
              else c)
            else (if c >? 123 then (if (125 <=? c) && (c <=? 125) then widen uri_relaxed c
                else c)
              else widen uri_relaxed c)) in
  switch c [(32, tr_37); (33, st 26); (35, tr_39); (37, st 27); (47, st 34); (61, st 26); (63, tr_42);
    (95, st 26); (126, st 26); (606, st 26); (635, st 26); (637, st 26)] ||>
  (if c <? 64
   then when ((36 <=? c) && (c <=? 59)) (goto (st 26))
   else (if c >? 90
     then when ((97 <=? c) && (c <=? 122)) (goto (st 26))
     else goto (st 26))) ||>
  goto (st 0).
Definition case_34 (uri_relaxed : bool) (c : Z) : option (target action) :=
  let c := (if c <? 123 then (if (94 <=? c) && (c <=? 94) then widen uri_relaxed c
              else c)
            else (if c >? 123 then (if (125 <=? c) && (c <=? 125) then widen uri_relaxed c
                else c)
              else widen uri_relaxed c)) in
  switch c [(32, tr_37); (33, st 35); (35, tr_39); (37, st 36); (47, st 26); (58, st 38); (61, st 35);
    (63, tr_42); (64, st 42); (91, st 47); (95, st 35); (126, st 35); (606, st 35); (635, st 35);
    (637, st 35)] ||>
  (if c <? 65
   then when ((36 <=? c) && (c <=? 59)) (goto (st 35))
   else (if c >? 90
     then when ((97 <=? c) && (c <=? 122)) (goto (st 35))
     else goto (st 35))) ||>
  goto (st 0).
Definition case_35 (uri_relaxed : bool) (c : Z) : option (target action) :=
  let c := (if c <? 123 then (if (94 <=? c) && (c <=? 94) then widen uri_relaxed c
              else c)
            else (if c >? 123 then (if (125 <=? c) && (c <=? 125) then widen uri_relaxed c
                else c)
              else widen uri_relaxed c)) in
  switch c [(32, tr_37); (33, st 35); (35, tr_39); (37, st 36); (47, st 26); (58, st 38); (61, st 35);
    (63, tr_42); (64, st 42); (95, st 35); (126, st 35); (606, st 35); (635, st 35); (637, st 35)] ||>
  (if c <? 65
   then when ((36 <=? c) && (c <=? 59)) (goto (st 35))
   else (if c >? 90
     then when ((97 <=? c) && (c <=? 122)) (goto (st 35))
     else goto (st 35))) ||>
  goto (st 0).
Definition case_36 (c : Z) : option (target action) :=
  (if c <? 65
   then when ((48 <=? c) && (c <=? 57)) (goto (st 37))
   else (if c >? 70
     then when ((97 <=? c) && (c <=? 102)) (goto (st 37))
     else goto (st 37))) ||>
  goto (st 0).
Definition case_37 (c : Z) : option (target action) :=
  (if c <? 65
   then when ((48 <=? c) && (c <=? 57)) (goto (st 35))
   else (if c >? 70
     then when ((97 <=? c) && (c <=? 102)) (goto (st 35))
     else goto (st 35))) ||>
  goto (st 0).
Definition case_38 (uri_relaxed : bool) (c : Z) : option (target action) :=
  let c := (if c <? 123 then (if (94 <=? c) && (c <=? 94) then widen uri_relaxed c
              else c)
            else (if c >? 123 then (if (125 <=? c) && (c <=? 125) then widen uri_relaxed c
                else c)
              else widen uri_relaxed c)) in
  switch c [(32, tr_37); (33, st 39); (35, tr_39); (37, st 40); (47, st 26); (61, st 39); (63, tr_42);
    (64, st 42); (95, st 39); (126, st 39); (606, st 39); (635, st 39); (637, st 39)] ||>
  (if c <? 58
   then (if c >? 46
     then when ((48 <=? c) && (c <=? 57)) (goto (st 38))
     else when (c >=? 36) (goto (st 39)))
   else (if c >? 59
     then (if c >? 90
       then when ((97 <=? c) && (c <=? 122)) (goto (st 39))
       else when (c >=? 65) (goto (st 39)))
     else goto (st 39))) ||>
  goto (st 0).
Definition case_39 (uri_relaxed : bool) (c : Z) : option (target action) :=
  let c := (if c <? 123 then (if (94 <=? c) && (c <=? 94) then widen uri_relaxed c
              else c)
            else (if c >? 123 then (if (125 <=? c) && (c <=? 125) then widen uri_relaxed c
                else c)
              else widen uri_relaxed c)) in
  switch c [(33, st 39); (37, st 40); (61, st 39); (64, st 42); (95, st 39); (126, st 39); (606, st 39);
    (635, st 39); (637, st 39)] ||>
  (if c <? 48
   then when ((36 <=? c) && (c <=? 46)) (goto (st 39))
   else (if c >? 59
     then (if c >? 90
       then when ((97 <=? c) && (c <=? 122)) (goto (st 39))
       else when (c >=? 65) (goto (st 39)))
     else goto (st 39))) ||>
  goto (st 0).
Definition case_40 (c : Z) : option (target action) :=
  (if c <? 65
   then when ((48 <=? c) && (c <=? 57)) (goto (st 41))
   else (if c >? 70
     then when ((97 <=? c) && (c <=? 102)) (goto (st 41))
     else goto (st 41))) ||>
  goto (st 0).
Definition case_41 (c : Z) : option (target action) :=
  (if c <? 65
   then when ((48 <=? c) && (c <=? 57)) (goto (st 39))
   else (if c >? 70
     then when ((97 <=? c) && (c <=? 102)) (goto (st 39))
     else goto (st 39))) ||>
  goto (st 0).
Definition case_42 (uri_relaxed : bool) (c : Z) : option (target action) :=
  let c := (if c <? 123 then (if (94 <=? c) && (c <=? 94) then widen uri_relaxed c
              else c)
            else (if c >? 123 then (if (125 <=? c) && (c <=? 125) then widen uri_relaxed c
                else c)
              else widen uri_relaxed c)) in
  switch c [(32, tr_37); (33, st 43); (35, tr_39); (37, st 44); (47, st 26); (58, st 46); (61, st 43);
    (63, tr_42); (91, st 47); (95, st 43); (126, st 43); (606, st 43); (635, st 43); (637, st 43)] ||>
  (if c <? 65
   then when ((36 <=? c) && (c <=? 59)) (goto (st 43))
   else (if c >? 90
     then when ((97 <=? c) && (c <=? 122)) (goto (st 43))
     else goto (st 43))) ||>
  goto (st 0).
Definition case_43 (uri_relaxed : bool) (c : Z) : option (target action) :=
  let c := (if c <? 123 then (if (94 <=? c) && (c <=? 94) then widen uri_relaxed c
              else c)
            else (if c >? 123 then (if (125 <=? c) && (c <=? 125) then widen uri_relaxed c
                else c)
              else widen uri_relaxed c)) in
  switch c [(32, tr_37); (33, st 43); (35, tr_39); (37, st 44); (47, st 26); (58, st 46); (61, st 43);
    (63, tr_42); (95, st 43); (126, st 43); (606, st 43); (635, st 43); (637, st 43)] ||>
  (if c <? 65
   then when ((36 <=? c) && (c <=? 59)) (goto (st 43))
   else (if c >? 90
     then when ((97 <=? c) && (c <=? 122)) (goto (st 43))
     else goto (st 43))) ||>
  goto (st 0).
Definition case_44 (c : Z) : option (target action) :=
  (if c <? 65
   then when ((48 <=? c) && (c <=? 57)) (goto (st 45))
   else (if c >? 70
     then when ((97 <=? c) && (c <=? 102)) (goto (st 45))
     else goto (st 45))) ||>
  goto (st 0).
Definition case_45 (c : Z) : option (target action) :=
  (if c <? 65
   then when ((48 <=? c) && (c <=? 57)) (goto (st 43))
   else (if c >? 70
     then when ((97 <=? c) && (c <=? 102)) (goto (st 43))
     else goto (st 43))) ||>
  goto (st 0).
Definition case_46 (c : Z) : option (target action) :=
  switch c [(32, tr_37); (35, tr_39); (47, st 26); (63, tr_42)] ||>
  when ((48 <=? c) && (c <=? 57)) (goto (st 46)) ||>
  goto (st 0).
Definition case_47 (c : Z) : option (target action) :=
  switch c [(6, st 48); (58, st 167); (118, st 169)] ||>
  (if c <? 65
   then when ((48 <=? c) && (c <=? 57)) (goto (st 91))
   else (if c >? 70
     then when ((97 <=? c) && (c <=? 102)) (goto (st 91))
     else goto (st 91))) ||>
  goto (st 0).
Definition case_48 (c : Z) : option (target action) :=
  (if c <? 65
   then when ((48 <=? c) && (c <=? 57)) (goto (st 49))
   else (if c >? 70
     then when ((97 <=? c) && (c <=? 102)) (goto (st 49))
     else goto (st 49))) ||>
  goto (st 0).
Definition case_49 (c : Z) : option (target action) :=
  when (c =? 58) (goto (st 53)) ||>
  (if c <? 65
   then when ((48 <=? c) && (c <=? 57)) (goto (st 50))
   else (if c >? 70
     then when ((97 <=? c) && (c <=? 102)) (goto (st 50))
     else goto (st 50))) ||>
  goto (st 0).
Definition case_50 (c : Z) : option (target action) :=
  when (c =? 58) (goto (st 53)) ||>
  (if c <? 65
   then when ((48 <=? c) && (c <=? 57)) (goto (st 51))
   else (if c >? 70
     then when ((97 <=? c) && (c <=? 102)) (goto (st 51))
     else goto (st 51))) ||>
  goto (st 0).
Definition case_51 (c : Z) : option (target action) :=
  when (c =? 58) (goto (st 53)) ||>
  (if c <? 65
   then when ((48 <=? c) && (c <=? 57)) (goto (st 52))
   else (if c >? 70
     then when ((97 <=? c) && (c <=? 102)) (goto (st 52))
     else goto (st 52))) ||>
  goto (st 0).
Definition case_52 (c : Z) : option (target action) :=
  when (c =? 58) (goto (st 53)) ||>
  goto (st 0).
Definition case_53 (c : Z) : option (target action) :=
  switch c [(49, st 84); (50, st 87)] ||>
  (if c <? 65
   then when ((48 <=? c) && (c <=? 57)) (goto (st 54))
   else (if c >? 70
     then when ((97 <=? c) && (c <=? 102)) (goto (st 90))
     else goto (st 90))) ||>
  goto (st 0).
Definition case_54 (c : Z) : option (target action) :=
  switch c [(46, st 55); (58, st 80)] ||>
  (if c <? 65
   then when ((48 <=? c) && (c <=? 57)) (goto (st 77))
   else (if c >? 70
     then when ((97 <=? c) && (c <=? 102)) (goto (st 77))
     else goto (st 77))) ||>
  goto (st 0).
Definition case_55 (c : Z) : option (target action) :=
  switch c [(49, st 72); (50, st 74)] ||>
  when ((48 <=? c) && (c <=? 57)) (goto (st 56)) ||>
  goto (st 0).
Definition case_56 (c : Z) : option (target action) :=
  when (c =? 46) (goto (st 57)) ||>
  goto (st 0).
Definition case_57 (c : Z) : option (target action) :=
  switch c [(49, st 67); (50, st 69)] ||>
  when ((48 <=? c) && (c <=? 57)) (goto (st 58)) ||>
  goto (st 0).
Definition case_58 (c : Z) : option (target action) :=
  when (c =? 46) (goto (st 59)) ||>
  goto (st 0).
Definition case_59 (c : Z) : option (target action) :=
  switch c [(49, st 62); (50, st 64)] ||>
  when ((48 <=? c) && (c <=? 57)) (goto (st 60)) ||>
  goto (st 0).
Definition case_60 (c : Z) : option (target action) :=
  when (c =? 93) (goto (st 61)) ||>
  goto (st 0).
Definition case_61 (c : Z) : option (target action) :=
  switch c [(32, tr_37); (35, tr_39); (47, st 26); (58, st 46); (63, tr_42)] ||>
  goto (st 0).
Definition case_62 (c : Z) : option (target action) :=
  when (c =? 93) (goto (st 61)) ||>
  when ((48 <=? c) && (c <=? 57)) (goto (st 63)) ||>
  goto (st 0).
Definition case_63 (c : Z) : option (target action) :=
  when (c =? 93) (goto (st 61)) ||>
  when ((48 <=? c) && (c <=? 57)) (goto (st 60)) ||>
  goto (st 0).
Definition case_64 (c : Z) : option (target action) :=
  switch c [(48, st 65); (53, st 66); (93, st 61)] ||>
  goto (st 0).
Definition case_65 (c : Z) : option (target action) :=
  when ((48 <=? c) && (c <=? 57)) (goto (st 60)) ||>
  goto (st 0).
Definition case_66 (c : Z) : option (target action) :=
  when (c =? 48) (goto (st 60)) ||>
  goto (st 0).
Definition case_67 (c : Z) : option (target action) :=
  when (c =? 46) (goto (st 59)) ||>
  when ((48 <=? c) && (c <=? 57)) (goto (st 68)) ||>
  goto (st 0).
Definition case_68 (c : Z) : option (target action) :=
  when (c =? 46) (goto (st 59)) ||>
  when ((48 <=? c) && (c <=? 57)) (goto (st 58)) ||>
  goto (st 0).
Definition case_69 (c : Z) : option (target action) :=
  switch c [(46, st 59); (48, st 70); (53, st 71)] ||>
  goto (st 0).
Definition case_70 (c : Z) : option (target action) :=
  when ((48 <=? c) && (c <=? 57)) (goto (st 58)) ||>
  goto (st 0).
Definition case_71 (c : Z) : option (target action) :=
  when (c =? 48) (goto (st 58)) ||>
  goto (st 0).
Definition case_72 (c : Z) : option (target action) :=
  when (c =? 46) (goto (st 57)) ||>
  when ((48 <=? c) && (c <=? 57)) (goto (st 73)) ||>
  goto (st 0).
Definition case_73 (c : Z) : option (target action) :=
  when (c =? 46) (goto (st 57)) ||>
  when ((48 <=? c) && (c <=? 57)) (goto (st 56)) ||>
  goto (st 0).
Definition case_74 (c : Z) : option (target action) :=
  switch c [(46, st 57); (48, st 75); (53, st 76)] ||>
  goto (st 0).
Definition case_75 (c : Z) : option (target action) :=
  when ((48 <=? c) && (c <=? 57)) (goto (st 56)) ||>
  goto (st 0).
Definition case_76 (c : Z) : option (target action) :=
  when (c =? 48) (goto (st 56)) ||>
  goto (st 0).
Definition case_77 (c : Z) : option (target action) :=
  when (c =? 58) (goto (st 80)) ||>
  (if c <? 65
   then when ((48 <=? c) && (c <=? 57)) (goto (st 78))
   else (if c >? 70
     then when ((97 <=? c) && (c <=? 102)) (goto (st 78))
     else goto (st 78))) ||>
  goto (st 0).
Definition case_78 (c : Z) : option (target action) :=
  when (c =? 58) (goto (st 80)) ||>
  (if c <? 65
   then when ((48 <=? c) && (c <=? 57)) (goto (st 79))
   else (if c >? 70
     then when ((97 <=? c) && (c <=? 102)) (goto (st 79))
     else goto (st 79))) ||>
  goto (st 0).
Definition case_79 (c : Z) : option (target action) :=
  when (c =? 58) (goto (st 80)) ||>
  goto (st 0).
Definition case_80 (c : Z) : option (target action) :=
  (if c <? 65
   then when ((48 <=? c) && (c <=? 57)) (goto (st 81))
   else (if c >? 70
     then when ((97 <=? c) && (c <=? 102)) (goto (st 81))
     else goto (st 81))) ||>
  goto (st 0).
Definition case_81 (c : Z) : option (target action) :=
  when (c =? 93) (goto (st 61)) ||>
  (if c <? 65
   then when ((48 <=? c) && (c <=? 57)) (goto (st 82))
   else (if c >? 70
     then when ((97 <=? c) && (c <=? 102)) (goto (st 82))
     else goto (st 82))) ||>
  goto (st 0).
Definition case_82 (c : Z) : option (target action) :=
  when (c =? 93) (goto (st 61)) ||>
  (if c <? 65
   then when ((48 <=? c) && (c <=? 57)) (goto (st 83))
   else (if c >? 70
     then when ((97 <=? c) && (c <=? 102)) (goto (st 83))
     else goto (st 83))) ||>
  goto (st 0).
Definition case_83 (c : Z) : option (target action) :=
  when (c =? 93) (goto (st 61)) ||>
  (if c <? 65
   then when ((48 <=? c) && (c <=? 57)) (goto (st 60))
   else (if c >? 70
     then when ((97 <=? c) && (c <=? 102)) (goto (st 60))
     else goto (st 60))) ||>
  goto (st 0).
Definition case_84 (c : Z) : option (target action) :=
  switch c [(46, st 55); (58, st 80)] ||>
  (if c <? 65
   then when ((48 <=? c) && (c <=? 57)) (goto (st 85))
   else (if c >? 70
     then when ((97 <=? c) && (c <=? 102)) (goto (st 77))
     else goto (st 77))) ||>
  goto (st 0).
Definition case_85 (c : Z) : option (target action) :=
  switch c [(46, st 55); (58, st 80)] ||>
  (if c <? 65
   then when ((48 <=? c) && (c <=? 57)) (goto (st 86))
   else (if c >? 70
     then when ((97 <=? c) && (c <=? 102)) (goto (st 78))
     else goto (st 78))) ||>
  goto (st 0).
Definition case_86 (c : Z) : option (target action) :=
  switch c [(46, st 55); (58, st 80)] ||>
  (if c <? 65
   then when ((48 <=? c) && (c <=? 57)) (goto (st 79))
   else (if c >? 70
     then when ((97 <=? c) && (c <=? 102)) (goto (st 79))
     else goto (st 79))) ||>
  goto (st 0).
Definition case_87 (c : Z) : option (target action) :=
  switch c [(46, st 55); (48, st 88); (53, st 89); (58, st 80)] ||>
  (if c <? 65
   then when ((49 <=? c) && (c <=? 57)) (goto (st 77))
   else (if c >? 70
     then when ((97 <=? c) && (c <=? 102)) (goto (st 77))
     else goto (st 77))) ||>
  goto (st 0).
Definition case_88 (c : Z) : option (target action) :=
  when (c =? 58) (goto (st 80)) ||>
  (if c <? 65
   then when ((48 <=? c) && (c <=? 57)) (goto (st 86))
   else (if c >? 70
     then when ((97 <=? c) && (c <=? 102)) (goto (st 78))
     else goto (st 78))) ||>
  goto (st 0).
Definition case_89 (c : Z) : option (target action) :=
  switch c [(48, st 86); (58, st 80)] ||>
  (if c <? 65
   then when ((49 <=? c) && (c <=? 57)) (goto (st 78))
   else (if c >? 70
     then when ((97 <=? c) && (c <=? 102)) (goto (st 78))
     else goto (st 78))) ||>
  goto (st 0).
Definition case_90 (c : Z) : option (target action) :=
  when (c =? 58) (goto (st 80)) ||>
  (if c <? 65
   then when ((48 <=? c) && (c <=? 57)) (goto (st 77))
   else (if c >? 70
     then when ((97 <=? c) && (c <=? 102)) (goto (st 77))
     else goto (st 77))) ||>
  goto (st 0).
Definition case_91 (c : Z) : option (target action) :=
  when (c =? 58) (goto (st 95)) ||>
  (if c <? 65
   then when ((48 <=? c) && (c <=? 57)) (goto (st 92))
   else (if c >? 70
     then when ((97 <=? c) && (c <=? 102)) (goto (st 92))
     else goto (st 92))) ||>
  goto (st 0).
Definition case_92 (c : Z) : option (target action) :=
  when (c =? 58) (goto (st 95)) ||>
  (if c <? 65
   then when ((48 <=? c) && (c <=? 57)) (goto (st 93))
   else (if c >? 70
     then when ((97 <=? c) && (c <=? 102)) (goto (st 93))
     else goto (st 93))) ||>
  goto (st 0).
Definition case_93 (c : Z) : option (target action) :=
  when (c =? 58) (goto (st 95)) ||>
  (if c <? 65
   then when ((48 <=? c) && (c <=? 57)) (goto (st 94))
   else (if c >? 70
     then when ((97 <=? c) && (c <=? 102)) (goto (st 94))
     else goto (st 94))) ||>
  goto (st 0).
Definition case_94 (c : Z) : option (target action) :=
  when (c =? 58) (goto (st 95)) ||>
  goto (st 0).
Definition case_95 (c : Z) : option (target action) :=
  when (c =? 58) (goto (st 166)) ||>
  (if c <? 65
   then when ((48 <=? c) && (c <=? 57)) (goto (st 96))
   else (if c >? 70
     then when ((97 <=? c) && (c <=? 102)) (goto (st 96))
     else goto (st 96))) ||>
  goto (st 0).
Definition case_96 (c : Z) : option (target action) :=
  when (c =? 58) (goto (st 100)) ||>
  (if c <? 65
   then when ((48 <=? c) && (c <=? 57)) (goto (st 97))
   else (if c >? 70
     then when ((97 <=? c) && (c <=? 102)) (goto (st 97))
     else goto (st 97))) ||>
  goto (st 0).
Definition case_97 (c : Z) : option (target action) :=
  when (c =? 58) (goto (st 100)) ||>
  (if c <? 65
   then when ((48 <=? c) && (c <=? 57)) (goto (st 98))
   else (if c >? 70
     then when ((97 <=? c) && (c <=? 102)) (goto (st 98))
     else goto (st 98))) ||>
  goto (st 0).
Definition case_98 (c : Z) : option (target action) :=
  when (c =? 58) (goto (st 100)) ||>
  (if c <? 65
   then when ((48 <=? c) && (c <=? 57)) (goto (st 99))
   else (if c >? 70
     then when ((97 <=? c) && (c <=? 102)) (goto (st 99))
     else goto (st 99))) ||>
  goto (st 0).
Definition case_99 (c : Z) : option (target action) :=
  when (c =? 58) (goto (st 100)) ||>
  goto (st 0).
Definition case_100 (c : Z) : option (target action) :=
  when (c =? 58) (goto (st 165)) ||>
  (if c <? 65
   then when ((48 <=? c) && (c <=? 57)) (goto (st 101))
   else (if c >? 70
     then when ((97 <=? c) && (c <=? 102)) (goto (st 101))
     else goto (st 101))) ||>
  goto (st 0).
Definition case_101 (c : Z) : option (target action) :=
  when (c =? 58) (goto (st 105)) ||>
  (if c <? 65
   then when ((48 <=? c) && (c <=? 57)) (goto (st 102))
   else (if c >? 70
     then when ((97 <=? c) && (c <=? 102)) (goto (st 102))
     else goto (st 102))) ||>
  goto (st 0).
Definition case_102 (c : Z) : option (target action) :=
  when (c =? 58) (goto (st 105)) ||>
  (if c <? 65
   then when ((48 <=? c) && (c <=? 57)) (goto (st 103))
   else (if c >? 70
     then when ((97 <=? c) && (c <=? 102)) (goto (st 103))
     else goto (st 103))) ||>
  goto (st 0).
Definition case_103 (c : Z) : option (target action) :=
  when (c =? 58) (goto (st 105)) ||>
  (if c <? 65
   then when ((48 <=? c) && (c <=? 57)) (goto (st 104))
   else (if c >? 70
     then when ((97 <=? c) && (c <=? 102)) (goto (st 104))
     else goto (st 104))) ||>
  goto (st 0).
Definition case_104 (c : Z) : option (target action) :=
  when (c =? 58) (goto (st 105)) ||>
  goto (st 0).
Definition case_105 (c : Z) : option (target action) :=
  when (c =? 58) (goto (st 164)) ||>
  (if c <? 65
   then when ((48 <=? c) && (c <=? 57)) (goto (st 106))
   else (if c >? 70
     then when ((97 <=? c) && (c <=? 102)) (goto (st 106))
     else goto (st 106))) ||>
  goto (st 0).
Definition case_106 (c : Z) : option (target action) :=
  when (c =? 58) (goto (st 110)) ||>
  (if c <? 65
   then when ((48 <=? c) && (c <=? 57)) (goto (st 107))
   else (if c >? 70
     then when ((97 <=? c) && (c <=? 102)) (goto (st 107))
     else goto (st 107))) ||>
  goto (st 0).
Definition case_107 (c : Z) : option (target action) :=
  when (c =? 58) (goto (st 110)) ||>
  (if c <? 65
   then when ((48 <=? c) && (c <=? 57)) (goto (st 108))
   else (if c >? 70
     then when ((97 <=? c) && (c <=? 102)) (goto (st 108))
     else goto (st 108))) ||>
  goto (st 0).
Definition case_108 (c : Z) : option (target action) :=
  when (c =? 58) (goto (st 110)) ||>
  (if c <? 65
   then when ((48 <=? c) && (c <=? 57)) (goto (st 109))
   else (if c >? 70
     then when ((97 <=? c) && (c <=? 102)) (goto (st 109))
     else goto (st 109))) ||>
  goto (st 0).
Definition case_109 (c : Z) : option (target action) :=
  when (c =? 58) (goto (st 110)) ||>
  goto (st 0).
Definition case_110 (c : Z) : option (target action) :=
  when (c =? 58) (goto (st 163)) ||>
  (if c <? 65
   then when ((48 <=? c) && (c <=? 57)) (goto (st 111))
   else (if c >? 70
     then when ((97 <=? c) && (c <=? 102)) (goto (st 111))
     else goto (st 111))) ||>
  goto (st 0).
Definition case_111 (c : Z) : option (target action) :=
  when (c =? 58) (goto (st 115)) ||>
  (if c <? 65
   then when ((48 <=? c) && (c <=? 57)) (goto (st 112))
   else (if c >? 70
     then when ((97 <=? c) && (c <=? 102)) (goto (st 112))
     else goto (st 112))) ||>
  goto (st 0).
Definition case_112 (c : Z) : option (target action) :=
  when (c =? 58) (goto (st 115)) ||>
  (if c <? 65
   then when ((48 <=? c) && (c <=? 57)) (goto (st 113))
   else (if c >? 70
     then when ((97 <=? c) && (c <=? 102)) (goto (st 113))
     else goto (st 113))) ||>
  goto (st 0).
Definition case_113 (c : Z) : option (target action) :=
  when (c =? 58) (goto (st 115)) ||>
  (if c <? 65
   then when ((48 <=? c) && (c <=? 57)) (goto (st 114))
   else (if c >? 70
     then when ((97 <=? c) && (c <=? 102)) (goto (st 114))
     else goto (st 114))) ||>
  goto (st 0).
Definition case_114 (c : Z) : option (target action) :=
  when (c =? 58) (goto (st 115)) ||>
  goto (st 0).
Definition case_115 (c : Z) : option (target action) :=
  when (c =? 58) (goto (st 151)) ||>
  (if c <? 65
   then when ((48 <=? c) && (c <=? 57)) (goto (st 116))
   else (if c >? 70
     then when ((97 <=? c) && (c <=? 102)) (goto (st 116))
     else goto (st 116))) ||>
  goto (st 0).
Definition case_116 (c : Z) : option (target action) :=
  when (c =? 58) (goto (st 120)) ||>
  (if c <? 65
   then when ((48 <=? c) && (c <=? 57)) (goto (st 117))
   else (if c >? 70
     then when ((97 <=? c) && (c <=? 102)) (goto (st 117))
     else goto (st 117))) ||>
  goto (st 0).
Definition case_117 (c : Z) : option (target action) :=
  when (c =? 58) (goto (st 120)) ||>
  (if c <? 65
   then when ((48 <=? c) && (c <=? 57)) (goto (st 118))
   else (if c >? 70
     then when ((97 <=? c) && (c <=? 102)) (goto (st 118))
     else goto (st 118))) ||>
  goto (st 0).
Definition case_118 (c : Z) : option (target action) :=
  when (c =? 58) (goto (st 120)) ||>
  (if c <? 65
   then when ((48 <=? c) && (c <=? 57)) (goto (st 119))
   else (if c >? 70
     then when ((97 <=? c) && (c <=? 102)) (goto (st 119))
     else goto (st 119))) ||>
  goto (st 0).
Definition case_119 (c : Z) : option (target action) :=
  when (c =? 58) (goto (st 120)) ||>
  goto (st 0).
Definition case_120 (c : Z) : option (target action) :=
  when (c =? 58) (goto (st 150)) ||>
  (if c <? 65
   then when ((48 <=? c) && (c <=? 57)) (goto (st 121))
   else (if c >? 70
     then when ((97 <=? c) && (c <=? 102)) (goto (st 121))
     else goto (st 121))) ||>
  goto (st 0).
Definition case_121 (c : Z) : option (target action) :=
  when (c =? 58) (goto (st 125)) ||>
  (if c <? 65
   then when ((48 <=? c) && (c <=? 57)) (goto (st 122))
   else (if c >? 70
     then when ((97 <=? c) && (c <=? 102)) (goto (st 122))
     else goto (st 122))) ||>
  goto (st 0).
Definition case_122 (c : Z) : option (target action) :=
  when (c =? 58) (goto (st 125)) ||>
  (if c <? 65
   then when ((48 <=? c) && (c <=? 57)) (goto (st 123))
   else (if c >? 70
     then when ((97 <=? c) && (c <=? 102)) (goto (st 123))
     else goto (st 123))) ||>
  goto (st 0).
Definition case_123 (c : Z) : option (target action) :=
  when (c =? 58) (goto (st 125)) ||>
  (if c <? 65
   then when ((48 <=? c) && (c <=? 57)) (goto (st 124))
   else (if c >? 70
     then when ((97 <=? c) && (c <=? 102)) (goto (st 124))
     else goto (st 124))) ||>
  goto (st 0).
Definition case_124 (c : Z) : option (target action) :=
  when (c =? 58) (goto (st 125)) ||>
  goto (st 0).
Definition case_125 (c : Z) : option (target action) :=
  when (c =? 58) (goto (st 126)) ||>
  (if c <? 65
   then when ((48 <=? c) && (c <=? 57)) (goto (st 121))
   else (if c >? 70
     then when ((97 <=? c) && (c <=? 102)) (goto (st 121))
     else goto (st 121))) ||>
  goto (st 0).
Definition case_126 (c : Z) : option (target action) :=
  switch c [(49, st 143); (50, st 146); (93, st 61)] ||>
  (if c <? 48
   then when ((2 <=? c) && (c <=? 3)) (goto (st 48))
   else (if c >? 57
     then (if c >? 70
       then when ((97 <=? c) && (c <=? 102)) (goto (st 149))
       else when (c >=? 65) (goto (st 149)))
     else goto (st 127))) ||>
  goto (st 0).
Definition case_127 (c : Z) : option (target action) :=
  switch c [(46, st 55); (58, st 131); (93, st 61)] ||>
  (if c <? 65
   then when ((48 <=? c) && (c <=? 57)) (goto (st 128))
   else (if c >? 70
     then when ((97 <=? c) && (c <=? 102)) (goto (st 128))
     else goto (st 128))) ||>
  goto (st 0).
Definition case_128 (c : Z) : option (target action) :=
  switch c [(58, st 131); (93, st 61)] ||>
  (if c <? 65
   then when ((48 <=? c) && (c <=? 57)) (goto (st 129))
   else (if c >? 70
     then when ((97 <=? c) && (c <=? 102)) (goto (st 129))
     else goto (st 129))) ||>
  goto (st 0).
Definition case_129 (c : Z) : option (target action) :=
  switch c [(58, st 131); (93, st 61)] ||>
  (if c <? 65
   then when ((48 <=? c) && (c <=? 57)) (goto (st 130))
   else (if c >? 70
     then when ((97 <=? c) && (c <=? 102)) (goto (st 130))
     else goto (st 130))) ||>
  goto (st 0).
Definition case_130 (c : Z) : option (target action) :=
  switch c [(58, st 131); (93, st 61)] ||>
  goto (st 0).
Definition case_131 (c : Z) : option (target action) :=
  switch c [(49, st 136); (50, st 139)] ||>
  (if c <? 65
   then when ((48 <=? c) && (c <=? 57)) (goto (st 132))
   else (if c >? 70
     then when ((97 <=? c) && (c <=? 102)) (goto (st 142))
     else goto (st 142))) ||>
  goto (st 0).
Definition case_132 (c : Z) : option (target action) :=
  switch c [(46, st 55); (58, st 80); (93, st 61)] ||>
  (if c <? 65
   then when ((48 <=? c) && (c <=? 57)) (goto (st 133))
   else (if c >? 70
     then when ((97 <=? c) && (c <=? 102)) (goto (st 133))
     else goto (st 133))) ||>
  goto (st 0).
Definition case_133 (c : Z) : option (target action) :=
  switch c [(58, st 80); (93, st 61)] ||>
  (if c <? 65
   then when ((48 <=? c) && (c <=? 57)) (goto (st 134))
   else (if c >? 70
     then when ((97 <=? c) && (c <=? 102)) (goto (st 134))
     else goto (st 134))) ||>
  goto (st 0).
Definition case_134 (c : Z) : option (target action) :=
  switch c [(58, st 80); (93, st 61)] ||>
  (if c <? 65
   then when ((48 <=? c) && (c <=? 57)) (goto (st 135))
   else (if c >? 70
     then when ((97 <=? c) && (c <=? 102)) (goto (st 135))
     else goto (st 135))) ||>
  goto (st 0).
Definition case_135 (c : Z) : option (target action) :=
  switch c [(58, st 80); (93, st 61)] ||>
  goto (st 0).
Definition case_136 (c : Z) : option (target action) :=
  switch c [(46, st 55); (58, st 80); (93, st 61)] ||>
  (if c <? 65
   then when ((48 <=? c) && (c <=? 57)) (goto (st 137))
   else (if c >? 70
     then when ((97 <=? c) && (c <=? 102)) (goto (st 133))
     else goto (st 133))) ||>
  goto (st 0).
Definition case_137 (c : Z) : option (target action) :=
  switch c [(46, st 55); (58, st 80); (93, st 61)] ||>
  (if c <? 65
   then when ((48 <=? c) && (c <=? 57)) (goto (st 138))
   else (if c >? 70
     then when ((97 <=? c) && (c <=? 102)) (goto (st 134))
     else goto (st 134))) ||>
  goto (st 0).
Definition case_138 (c : Z) : option (target action) :=
  switch c [(46, st 55); (58, st 80); (93, st 61)] ||>
  (if c <? 65
   then when ((48 <=? c) && (c <=? 57)) (goto (st 135))
   else (if c >? 70
     then when ((97 <=? c) && (c <=? 102)) (goto (st 135))
     else goto (st 135))) ||>
  goto (st 0).
Definition case_139 (c : Z) : option (target action) :=
  switch c [(46, st 55); (48, st 140); (53, st 141); (58, st 80); (93, st 61)] ||>
  (if c <? 65
   then when ((49 <=? c) && (c <=? 57)) (goto (st 133))
   else (if c >? 70
     then when ((97 <=? c) && (c <=? 102)) (goto (st 133))
     else goto (st 133))) ||>
  goto (st 0).
Definition case_140 (c : Z) : option (target action) :=
  switch c [(58, st 80); (93, st 61)] ||>
  (if c <? 65
   then when ((48 <=? c) && (c <=? 57)) (goto (st 138))
   else (if c >? 70
     then when ((97 <=? c) && (c <=? 102)) (goto (st 134))
     else goto (st 134))) ||>
  goto (st 0).
Definition case_141 (c : Z) : option (target action) :=
  switch c [(48, st 138); (58, st 80); (93, st 61)] ||>
  (if c <? 65
   then when ((49 <=? c) && (c <=? 57)) (goto (st 134))
   else (if c >? 70
     then when ((97 <=? c) && (c <=? 102)) (goto (st 134))
     else goto (st 134))) ||>
  goto (st 0).
Definition case_142 (c : Z) : option (target action) :=
  switch c [(58, st 80); (93, st 61)] ||>
  (if c <? 65
   then when ((48 <=? c) && (c <=? 57)) (goto (st 133))
   else (if c >? 70
     then when ((97 <=? c) && (c <=? 102)) (goto (st 133))
     else goto (st 133))) ||>
  goto (st 0).
Definition case_143 (c : Z) : option (target action) :=
  switch c [(46, st 55); (58, st 131); (93, st 61)] ||>
  (if c <? 65
   then when ((48 <=? c) && (c <=? 57)) (goto (st 144))
   else (if c >? 70
     then when ((97 <=? c) && (c <=? 102)) (goto (st 128))
     else goto (st 128))) ||>
  goto (st 0).
Definition case_144 (c : Z) : option (target action) :=
  switch c [(46, st 55); (58, st 131); (93, st 61)] ||>
  (if c <? 65
   then when ((48 <=? c) && (c <=? 57)) (goto (st 145))
   else (if c >? 70
     then when ((97 <=? c) && (c <=? 102)) (goto (st 129))
     else goto (st 129))) ||>
  goto (st 0).
Definition case_145 (c : Z) : option (target action) :=
  switch c [(46, st 55); (58, st 131); (93, st 61)] ||>
  (if c <? 65
   then when ((48 <=? c) && (c <=? 57)) (goto (st 130))
   else (if c >? 70
     then when ((97 <=? c) && (c <=? 102)) (goto (st 130))
     else goto (st 130))) ||>
  goto (st 0).
Definition case_146 (c : Z) : option (target action) :=
  switch c [(46, st 55); (48, st 147); (53, st 148); (58, st 131); (93, st 61)] ||>
  (if c <? 65
   then when ((49 <=? c) && (c <=? 57)) (goto (st 128))
   else (if c >? 70
     then when ((97 <=? c) && (c <=? 102)) (goto (st 128))
     else goto (st 128))) ||>
  goto (st 0).
Definition case_147 (c : Z) : option (target action) :=
  switch c [(58, st 131); (93, st 61)] ||>
  (if c <? 65
   then when ((48 <=? c) && (c <=? 57)) (goto (st 145))
   else (if c >? 70
     then when ((97 <=? c) && (c <=? 102)) (goto (st 129))
     else goto (st 129))) ||>
  goto (st 0).
Definition case_148 (c : Z) : option (target action) :=
  switch c [(48, st 145); (58, st 131); (93, st 61)] ||>
  (if c <? 65
   then when ((49 <=? c) && (c <=? 57)) (goto (st 129))
   else (if c >? 70
     then when ((97 <=? c) && (c <=? 102)) (goto (st 129))
     else goto (st 129))) ||>
  goto (st 0).
Definition case_149 (c : Z) : option (target action) :=
  switch c [(58, st 131); (93, st 61)] ||>
  (if c <? 65
   then when ((48 <=? c) && (c <=? 57)) (goto (st 128))
   else (if c >? 70
     then when ((97 <=? c) && (c <=? 102)) (goto (st 128))
     else goto (st 128))) ||>
  goto (st 0).
Definition case_150 (c : Z) : option (target action) :=
  switch c [(49, st 143); (50, st 146)] ||>
  (if c <? 48
   then when ((2 <=? c) && (c <=? 3)) (goto (st 48))
   else (if c >? 57
     then (if c >? 70
       then when ((97 <=? c) && (c <=? 102)) (goto (st 149))
       else when (c >=? 65) (goto (st 149)))
     else goto (st 127))) ||>
  goto (st 0).
Definition case_151 (c : Z) : option (target action) :=
  switch c [(49, st 156); (50, st 159)] ||>
  (if c <? 48
   then when ((2 <=? c) && (c <=? 3)) (goto (st 48))
   else (if c >? 57
     then (if c >? 70
       then when ((97 <=? c) && (c <=? 102)) (goto (st 162))
       else when (c >=? 65) (goto (st 162)))
     else goto (st 152))) ||>
  goto (st 0).
Definition case_152 (c : Z) : option (target action) :=
  switch c [(46, st 55); (58, st 131)] ||>
  (if c <? 65
   then when ((48 <=? c) && (c <=? 57)) (goto (st 153))
   else (if c >? 70
     then when ((97 <=? c) && (c <=? 102)) (goto (st 153))
     else goto (st 153))) ||>
  goto (st 0).
Definition case_153 (c : Z) : option (target action) :=
  when (c =? 58) (goto (st 131)) ||>
  (if c <? 65
   then when ((48 <=? c) && (c <=? 57)) (goto (st 154))
   else (if c >? 70
     then when ((97 <=? c) && (c <=? 102)) (goto (st 154))
     else goto (st 154))) ||>
  goto (st 0).
Definition case_154 (c : Z) : option (target action) :=
  when (c =? 58) (goto (st 131)) ||>
  (if c <? 65
   then when ((48 <=? c) && (c <=? 57)) (goto (st 155))
   else (if c >? 70
     then when ((97 <=? c) && (c <=? 102)) (goto (st 155))
     else goto (st 155))) ||>
  goto (st 0).
Definition case_155 (c : Z) : option (target action) :=
  when (c =? 58) (goto (st 131)) ||>
  goto (st 0).
Definition case_156 (c : Z) : option (target action) :=
  switch c [(46, st 55); (58, st 131)] ||>
  (if c <? 65
   then when ((48 <=? c) && (c <=? 57)) (goto (st 157))
   else (if c >? 70
     then when ((97 <=? c) && (c <=? 102)) (goto (st 153))
     else goto (st 153))) ||>
  goto (st 0).
Definition case_157 (c : Z) : option (target action) :=
  switch c [(46, st 55); (58, st 131)] ||>
  (if c <? 65
   then when ((48 <=? c) && (c <=? 57)) (goto (st 158))
   else (if c >? 70
     then when ((97 <=? c) && (c <=? 102)) (goto (st 154))
     else goto (st 154))) ||>
  goto (st 0).
Definition case_158 (c : Z) : option (target action) :=
  switch c [(46, st 55); (58, st 131)] ||>
  (if c <? 65
   then when ((48 <=? c) && (c <=? 57)) (goto (st 155))
   else (if c >? 70
     then when ((97 <=? c) && (c <=? 102)) (goto (st 155))
     else goto (st 155))) ||>
  goto (st 0).
Definition case_159 (c : Z) : option (target action) :=
  switch c [(46, st 55); (48, st 160); (53, st 161); (58, st 131)] ||>
  (if c <? 65
   then when ((49 <=? c) && (c <=? 57)) (goto (st 153))
   else (if c >? 70
     then when ((97 <=? c) && (c <=? 102)) (goto (st 153))
     else goto (st 153))) ||>
  goto (st 0).
Definition case_160 (c : Z) : option (target action) :=
  when (c =? 58) (goto (st 131)) ||>
  (if c <? 65
   then when ((48 <=? c) && (c <=? 57)) (goto (st 158))
   else (if c >? 70
     then when ((97 <=? c) && (c <=? 102)) (goto (st 154))
     else goto (st 154))) ||>
  goto (st 0).
Definition case_161 (c : Z) : option (target action) :=
  switch c [(48, st 158); (58, st 131)] ||>
  (if c <? 65
   then when ((49 <=? c) && (c <=? 57)) (goto (st 154))
   else (if c >? 70
     then when ((97 <=? c) && (c <=? 102)) (goto (st 154))
     else goto (st 154))) ||>
  goto (st 0).
Definition case_162 (c : Z) : option (target action) :=
  when (c =? 58) (goto (st 131)) ||>
  (if c <? 65
   then when ((48 <=? c) && (c <=? 57)) (goto (st 153))
   else (if c >? 70
     then when ((97 <=? c) && (c <=? 102)) (goto (st 153))
     else goto (st 153))) ||>
  goto (st 0).
Definition case_163 (c : Z) : option (target action) :=
  (if c <? 48
   then when ((2 <=? c) && (c <=? 3)) (goto (st 48))
   else (if c >? 57
     then (if c >? 70
       then when ((97 <=? c) && (c <=? 102)) (goto (st 49))
       else when (c >=? 65) (goto (st 49)))
     else goto (st 49))) ||>
  goto (st 0).
Definition case_164 (c : Z) : option (target action) :=
  when ((2 <=? c) && (c <=? 3)) (goto (st 48)) ||>
  goto (st 0).
Definition case_165 (c : Z) : option (target action) :=
  when (c =? 3) (goto (st 48)) ||>
  goto (st 0).
Definition case_166 (c : Z) : option (target action) :=
  when (c =? 4) (goto (st 48)) ||>
  goto (st 0).
Definition case_167 (c : Z) : option (target action) :=
  when (c =? 58) (goto (st 168)) ||>
  goto (st 0).
Definition case_168 (c : Z) : option (target action) :=
  switch c [(49, st 143); (50, st 146); (93, st 61)] ||>
  (if c <? 48
   then when ((2 <=? c) && (c <=? 5)) (goto (st 48))
   else (if c >? 57
     then (if c >? 70
       then when ((97 <=? c) && (c <=? 102)) (goto (st 149))
       else when (c >=? 65) (goto (st 149)))
     else goto (st 127))) ||>
  goto (st 0).
Definition case_169 (c : Z) : option (target action) :=
  (if c <? 65
   then when ((48 <=? c) && (c <=? 57)) (goto (st 170))
   else (if c >? 70
     then when ((97 <=? c) && (c <=? 102)) (goto (st 170))
     else goto (st 170))) ||>
  goto (st 0).
Definition case_170 (c : Z) : option (target action) :=
  when (c =? 46) (goto (st 171)) ||>
  (if c <? 65
   then when ((48 <=? c) && (c <=? 57)) (goto (st 170))
   else (if c >? 70
     then when ((97 <=? c) && (c <=? 102)) (goto (st 170))
     else goto (st 170))) ||>
  goto (st 0).
Definition case_171 (uri_relaxed : bool) (c : Z) : option (target action) :=
  let c := (if c <? 123 then (if (94 <=? c) && (c <=? 94) then widen uri_relaxed c
              else c)
            else (if c >? 123 then (if (125 <=? c) && (c <=? 125) then widen uri_relaxed c
                else c)
              else widen uri_relaxed c)) in
  switch c [(33, st 172); (36, st 172); (61, st 172); (95, st 172); (126, st 172); (606, st 172);
    (635, st 172); (637, st 172)] ||>
  (if c <? 48
   then when ((38 <=? c) && (c <=? 46)) (goto (st 172))
   else (if c >? 59
     then (if c >? 90
       then when ((97 <=? c) && (c <=? 122)) (goto (st 172))
       else when (c >=? 65) (goto (st 172)))
     else goto (st 172))) ||>
  goto (st 0).
Definition case_172 (uri_relaxed : bool) (c : Z) : option (target action) :=
  let c := (if c <? 123 then (if (94 <=? c) && (c <=? 94) then widen uri_relaxed c
              else c)
            else (if c >? 123 then (if (125 <=? c) && (c <=? 125) then widen uri_relaxed c
                else c)
              else widen uri_relaxed c)) in
  switch c [(33, st 172); (36, st 172); (61, st 172); (93, st 61); (95, st 172); (126, st 172); (606, st 172);
    (635, st 172); (637, st 172)] ||>
  (if c <? 48
   then when ((38 <=? c) && (c <=? 46)) (goto (st 172))
   else (if c >? 59
     then (if c >? 90
       then when ((97 <=? c) && (c <=? 122)) (goto (st 172))
       else when (c >=? 65) (goto (st 172)))
     else goto (st 172))) ||>
  goto (st 0).
Definition case_173 (uri_relaxed : bool) (c : Z) : option (target action) :=
  let c := (if c <? 123 then (if (94 <=? c) && (c <=? 94) then widen uri_relaxed c
              else c)
            else (if c >? 123 then (if (125 <=? c) && (c <=? 125) then widen uri_relaxed c
                else c)
              else widen uri_relaxed c)) in
  switch c [(32, tr_37); (33, st 19); (35, tr_39); (37, st 24); (43, st 173); (47, st 26); (58, st 174);
    (59, st 19); (61, st 19); (63, tr_42); (64, st 19); (95, st 19); (126, st 19); (606, st 19);
    (635, st 19); (637, st 19)] ||>
  (if c <? 45
   then when ((36 <=? c) && (c <=? 44)) (goto (st 19))
   else (if c >? 57
     then (if c >? 90
       then when ((97 <=? c) && (c <=? 122)) (goto (st 173))
       else when (c >=? 65) (goto (st 173)))
     else goto (st 173))) ||>
  goto (st 0).
Definition case_174 (uri_relaxed : bool) (c : Z) : option (target action) :=
  let c := (if c <? 123 then (if (94 <=? c) && (c <=? 94) then widen uri_relaxed c
              else c)
            else (if c >? 123 then (if (125 <=? c) && (c <=? 125) then widen uri_relaxed c
                else c)
              else widen uri_relaxed c)) in
  switch c [(32, tr_6); (33, tr_203); (35, tr_8); (37, tr_204); (47, tr_10); (61, tr_203); (63, tr_11);
    (95, tr_203); (126, tr_203); (606, tr_203); (635, tr_203); (637, tr_203)] ||>
  (if c <? 64
   then when ((36 <=? c) && (c <=? 59)) (goto tr_203)
   else (if c >? 90
     then when ((97 <=? c) && (c <=? 122)) (goto tr_203)
     else goto tr_203)) ||>
  goto (st 0).
Definition case_175 (c : Z) : option (target action) :=
  when (c =? 32) (goto tr_4) ||>
  (if c >? 57
   then when ((65 <=? c) && (c <=? 90)) (goto (st 176))
   else when (c >=? 48) (goto (st 176))) ||>
  goto (st 0).
Definition case_176 (c : Z) : option (target action) :=
  when (c =? 32) (goto tr_4) ||>
  (if c >? 57
   then when ((65 <=? c) && (c <=? 90)) (goto (st 177))
   else when (c >=? 48) (goto (st 177))) ||>
  goto (st 0).
Definition case_177 (c : Z) : option (target action) :=
  when (c =? 32) (goto tr_4) ||>
  (if c >? 57
   then when ((65 <=? c) && (c <=? 90)) (goto (st 178))
   else when (c >=? 48) (goto (st 178))) ||>
  goto (st 0).
Definition case_178 (c : Z) : option (target action) :=
  when (c =? 32) (goto tr_4) ||>
  (if c >? 57
   then when ((65 <=? c) && (c <=? 90)) (goto (st 179))
   else when (c >=? 48) (goto (st 179))) ||>
  goto (st 0).
Definition case_179 (c : Z) : option (target action) :=
  when (c =? 32) (goto tr_4) ||>
  (if c >? 57
   then when ((65 <=? c) && (c <=? 90)) (goto (st 180))
   else when (c >=? 48) (goto (st 180))) ||>
  goto (st 0).
Definition case_180 (c : Z) : option (target action) :=
  when (c =? 32) (goto tr_4) ||>
  (if c >? 57
   then when ((65 <=? c) && (c <=? 90)) (goto (st 181))
   else when (c >=? 48) (goto (st 181))) ||>
  goto (st 0).
Definition case_181 (c : Z) : option (target action) :=
  when (c =? 32) (goto tr_4) ||>
  (if c >? 57
   then when ((65 <=? c) && (c <=? 90)) (goto (st 182))
   else when (c >=? 48) (goto (st 182))) ||>
  goto (st 0).
Definition case_182 (c : Z) : option (target action) :=
  when (c =? 32) (goto tr_4) ||>
  (if c >? 57
   then when ((65 <=? c) && (c <=? 90)) (goto (st 183))
   else when (c >=? 48) (goto (st 183))) ||>
  goto (st 0).
Definition case_183 (c : Z) : option (target action) :=
  when (c =? 32) (goto tr_4) ||>
  (if c >? 57
   then when ((65 <=? c) && (c <=? 90)) (goto (st 184))
   else when (c >=? 48) (goto (st 184))) ||>
  goto (st 0).
Definition case_184 (c : Z) : option (target action) :=
  when (c =? 32) (goto tr_4) ||>
  (if c >? 57
   then when ((65 <=? c) && (c <=? 90)) (goto (st 185))
   else when (c >=? 48) (goto (st 185))) ||>
  goto (st 0).
Definition case_185 (c : Z) : option (target action) :=
  when (c =? 32) (goto tr_4) ||>
  (if c >? 57
   then when ((65 <=? c) && (c <=? 90)) (goto (st 186))
   else when (c >=? 48) (goto (st 186))) ||>
  goto (st 0).
Definition case_186 (c : Z) : option (target action) :=
  when (c =? 32) (goto tr_4) ||>
  (if c >? 57
   then when ((65 <=? c) && (c <=? 90)) (goto (st 187))
   else when (c >=? 48) (goto (st 187))) ||>
  goto (st 0).
Definition case_187 (c : Z) : option (target action) :=
  when (c =? 32) (goto tr_4) ||>
  (if c >? 57
   then when ((65 <=? c) && (c <=? 90)) (goto (st 188))
   else when (c >=? 48) (goto (st 188))) ||>
  goto (st 0).
Definition case_188 (c : Z) : option (target action) :=
  when (c =? 32) (goto tr_4) ||>
  (if c >? 57
   then when ((65 <=? c) && (c <=? 90)) (goto (st 189))
   else when (c >=? 48) (goto (st 189))) ||>
  goto (st 0).
Definition case_189 (c : Z) : option (target action) :=
  when (c =? 32) (goto tr_4) ||>
  (if c >? 57
   then when ((65 <=? c) && (c <=? 90)) (goto (st 190))
   else when (c >=? 48) (goto (st 190))) ||>
  goto (st 0).
Definition case_190 (c : Z) : option (target action) :=
  when (c =? 32) (goto tr_4) ||>
  (if c >? 57
   then when ((65 <=? c) && (c <=? 90)) (goto (st 191))
   else when (c >=? 48) (goto (st 191))) ||>
  goto (st 0).
Definition case_191 (c : Z) : option (target action) :=
  when (c =? 32) (goto tr_4) ||>
  (if c >? 57
   then when ((65 <=? c) && (c <=? 90)) (goto (st 192))
   else when (c >=? 48) (goto (st 192))) ||>
  goto (st 0).
Definition case_192 (c : Z) : option (target action) :=
  when (c =? 32) (goto tr_4) ||>
  (if c >? 57
   then when ((65 <=? c) && (c <=? 90)) (goto (st 193))
   else when (c >=? 48) (goto (st 193))) ||>
  goto (st 0).
Definition case_193 (c : Z) : option (target action) :=
  when (c =? 32) (goto tr_4) ||>
  goto (st 0).
Definition case_194 (c : Z) : option (target action) :=
  (if c <? 48
   then when ((45 <=? c) && (c <=? 46)) (goto (st 195))
   else (if c >? 57
     then (if c >? 90
       then when ((97 <=? c) && (c <=? 122)) (goto (st 195))
       else when (c >=? 65) (goto (st 195)))
     else goto (st 195))) ||>
  goto (st 0).
Definition case_195 (c : Z) : option (target action) :=
  switch c [(32, tr_224); (47, tr_224); (62, tr_224)] ||>
  (if c <? 45
   then when ((9 <=? c) && (c <=? 13)) (goto tr_224)
   else (if c >? 57
     then (if c >? 90
       then when ((97 <=? c) && (c <=? 122)) (goto (st 195))
       else when (c >=? 65) (goto (st 195)))
     else goto (st 195))) ||>
  goto (st 0).
Definition case_196 (c : Z) : option (target action) :=
  when (c =? 62) (goto (st 197)) ||>
  goto (st 196).
Definition case_197 (c : Z) : option (target action) :=
  switch c [(0, tr_227); (62, st 197)] ||>
  goto (st 196).
Definition case_198 (uri_relaxed : bool) (c : Z) : option (target action) :=
  let c := (if c <? 123 then (if (94 <=? c) && (c <=? 94) then widen uri_relaxed c
              else c)
            else (if c >? 123 then (if (125 <=? c) && (c <=? 125) then widen uri_relaxed c
                else c)
              else widen uri_relaxed c)) in
  switch c [(32, tr_228); (33, st 202); (37, st 203); (47, st 208); (59, st 202); (61, st 202); (95, st 202);
    (126, st 202); (606, st 202); (635, st 202); (637, st 202)] ||>
  (if c <? 64
   then when ((36 <=? c) && (c <=? 57)) (goto (st 202))
   else (if c >? 90
     then when ((97 <=? c) && (c <=? 122)) (goto (st 202))
     else goto (st 202))) ||>
  goto (st 0).
Definition case_199 (c : Z) : option (target action) :=
  when (c =? 123) (goto tr_232) ||>
  goto (st 0).
Definition case_200 (c : Z) : option (target action) :=
  when (c =? 125) (goto (st 201)) ||>
  goto (st 200).
Definition case_201 (c : Z) : option (target action) :=
  switch c [(0, tr_235); (125, st 201)] ||>
  goto (st 200).
Definition case_202 (uri_relaxed : bool) (c : Z) : option (target action) :=
  let c := (if c <? 123 then (if (94 <=? c) && (c <=? 94) then widen uri_relaxed c
              else c)
            else (if c >? 123 then (if (125 <=? c) && (c <=? 125) then widen uri_relaxed c
                else c)
              else widen uri_relaxed c)) in
  switch c [(32, tr_228); (33, st 202); (37, st 203); (47, st 205); (59, st 202); (61, st 202); (95, st 202);
    (126, st 202); (606, st 202); (635, st 202); (637, st 202)] ||>
  (if c <? 64
   then when ((36 <=? c) && (c <=? 57)) (goto (st 202))
   else (if c >? 90
     then when ((97 <=? c) && (c <=? 122)) (goto (st 202))
     else goto (st 202))) ||>
  goto (st 0).
Definition case_203 (c : Z) : option (target action) :=
  (if c <? 65
   then when ((48 <=? c) && (c <=? 57)) (goto (st 204))
   else (if c >? 70
     then when ((97 <=? c) && (c <=? 102)) (goto (st 204))
     else goto (st 204))) ||>
  goto (st 0).
Definition case_204 (c : Z) : option (target action) :=
  (if c <? 65
   then when ((48 <=? c) && (c <=? 57)) (goto (st 202))
   else (if c >? 70
     then when ((97 <=? c) && (c <=? 102)) (goto (st 202))
     else goto (st 202))) ||>
  goto (st 0).
Definition case_205 (uri_relaxed : bool) (c : Z) : option (target action) :=
  let c := (if c <? 123 then (if (94 <=? c) && (c <=? 94) then widen uri_relaxed c
              else c)
            else (if c >? 123 then (if (125 <=? c) && (c <=? 125) then widen uri_relaxed c
                else c)
              else widen uri_relaxed c)) in
  switch c [(32, tr_228); (33, st 205); (37, st 206); (61, st 205); (95, st 205); (126, st 205);
    (606, st 205); (635, st 205); (637, st 205)] ||>
  (if c <? 64
   then when ((36 <=? c) && (c <=? 59)) (goto (st 205))
   else (if c >? 90
     then when ((97 <=? c) && (c <=? 122)) (goto (st 205))
     else goto (st 205))) ||>
  goto (st 0).
Definition case_206 (c : Z) : option (target action) :=
  (if c <? 65
   then when ((48 <=? c) && (c <=? 57)) (goto (st 207))
   else (if c >? 70
     then when ((97 <=? c) && (c <=? 102)) (goto (st 207))
     else goto (st 207))) ||>
  goto (st 0).
Definition case_207 (c : Z) : option (target action) :=
  (if c <? 65
   then when ((48 <=? c) && (c <=? 57)) (goto (st 205))
   else (if c >? 70
     then when ((97 <=? c) && (c <=? 102)) (goto (st 205))
     else goto (st 205))) ||>
  goto (st 0).
Definition case_208 (uri_relaxed : bool) (c : Z) : option (target action) :=
  let c := (if c <? 123 then (if (94 <=? c) && (c <=? 94) then widen uri_relaxed c
              else c)
            else (if c >? 123 then (if (125 <=? c) && (c <=? 125) then widen uri_relaxed c
                else c)
              else widen uri_relaxed c)) in
  switch c [(32, tr_228); (33, st 205); (37, st 206); (47, st 209); (61, st 205); (95, st 205); (126, st 205);
    (606, st 205); (635, st 205); (637, st 205)] ||>
  (if c <? 64
   then when ((36 <=? c) && (c <=? 59)) (goto (st 205))
   else (if c >? 90
     then when ((97 <=? c) && (c <=? 122)) (goto (st 205))
     else goto (st 205))) ||>
  goto (st 0).
Definition case_209 (uri_relaxed : bool) (c : Z) : option (target action) :=
  let c := (if c <? 123 then (if (94 <=? c) && (c <=? 94) then widen uri_relaxed c
              else c)
            else (if c >? 123 then (if (125 <=? c) && (c <=? 125) then widen uri_relaxed c
                else c)
              else widen uri_relaxed c)) in
  switch c [(32, tr_228); (33, st 210); (37, st 211); (47, st 205); (58, st 213); (61, st 210); (64, st 217);
    (91, st 222); (95, st 210); (126, st 210); (606, st 210); (635, st 210); (637, st 210)] ||>
  (if c <? 65
   then when ((36 <=? c) && (c <=? 59)) (goto (st 210))
   else (if c >? 90
     then when ((97 <=? c) && (c <=? 122)) (goto (st 210))
     else goto (st 210))) ||>
  goto (st 0).
Definition case_210 (uri_relaxed : bool) (c : Z) : option (target action) :=
  let c := (if c <? 123 then (if (94 <=? c) && (c <=? 94) then widen uri_relaxed c
              else c)
            else (if c >? 123 then (if (125 <=? c) && (c <=? 125) then widen uri_relaxed c
                else c)
              else widen uri_relaxed c)) in
  switch c [(32, tr_228); (33, st 210); (37, st 211); (47, st 205); (58, st 213); (61, st 210); (64, st 217);
    (95, st 210); (126, st 210); (606, st 210); (635, st 210); (637, st 210)] ||>
  (if c <? 65
   then when ((36 <=? c) && (c <=? 59)) (goto (st 210))
   else (if c >? 90
     then when ((97 <=? c) && (c <=? 122)) (goto (st 210))
     else goto (st 210))) ||>
  goto (st 0).
Definition case_211 (c : Z) : option (target action) :=
  (if c <? 65
   then when ((48 <=? c) && (c <=? 57)) (goto (st 212))
   else (if c >? 70
     then when ((97 <=? c) && (c <=? 102)) (goto (st 212))
     else goto (st 212))) ||>
  goto (st 0).
Definition case_212 (c : Z) : option (target action) :=
  (if c <? 65
   then when ((48 <=? c) && (c <=? 57)) (goto (st 210))
   else (if c >? 70
     then when ((97 <=? c) && (c <=? 102)) (goto (st 210))
     else goto (st 210))) ||>
  goto (st 0).
Definition case_213 (uri_relaxed : bool) (c : Z) : option (target action) :=
  let c := (if c <? 123 then (if (94 <=? c) && (c <=? 94) then widen uri_relaxed c
              else c)
            else (if c >? 123 then (if (125 <=? c) && (c <=? 125) then widen uri_relaxed c
                else c)
              else widen uri_relaxed c)) in
  switch c [(32, tr_228); (33, st 214); (37, st 215); (47, st 205); (61, st 214); (64, st 217); (95, st 214);
    (126, st 214); (606, st 214); (635, st 214); (637, st 214)] ||>
  (if c <? 58
   then (if c >? 46
     then when ((48 <=? c) && (c <=? 57)) (goto (st 213))
     else when (c >=? 36) (goto (st 214)))
   else (if c >? 59
     then (if c >? 90
       then when ((97 <=? c) && (c <=? 122)) (goto (st 214))
       else when (c >=? 65) (goto (st 214)))
     else goto (st 214))) ||>
  goto (st 0).
Definition case_214 (uri_relaxed : bool) (c : Z) : option (target action) :=
  let c := (if c <? 123 then (if (94 <=? c) && (c <=? 94) then widen uri_relaxed c
              else c)
            else (if c >? 123 then (if (125 <=? c) && (c <=? 125) then widen uri_relaxed c
                else c)
              else widen uri_relaxed c)) in
  switch c [(33, st 214); (37, st 215); (61, st 214); (64, st 217); (95, st 214); (126, st 214);
    (606, st 214); (635, st 214); (637, st 214)] ||>
  (if c <? 48
   then when ((36 <=? c) && (c <=? 46)) (goto (st 214))
   else (if c >? 59
     then (if c >? 90
       then when ((97 <=? c) && (c <=? 122)) (goto (st 214))
       else when (c >=? 65) (goto (st 214)))
     else goto (st 214))) ||>
  goto (st 0).
Definition case_215 (c : Z) : option (target action) :=
  (if c <? 65
   then when ((48 <=? c) && (c <=? 57)) (goto (st 216))
   else (if c >? 70
     then when ((97 <=? c) && (c <=? 102)) (goto (st 216))
     else goto (st 216))) ||>
  goto (st 0).
Definition case_216 (c : Z) : option (target action) :=
  (if c <? 65
   then when ((48 <=? c) && (c <=? 57)) (goto (st 214))
   else (if c >? 70
     then when ((97 <=? c) && (c <=? 102)) (goto (st 214))
     else goto (st 214))) ||>
  goto (st 0).
Definition case_217 (uri_relaxed : bool) (c : Z) : option (target action) :=
  let c := (if c <? 123 then (if (94 <=? c) && (c <=? 94) then widen uri_relaxed c
              else c)
            else (if c >? 123 then (if (125 <=? c) && (c <=? 125) then widen uri_relaxed c
                else c)
              else widen uri_relaxed c)) in
  switch c [(32, tr_228); (33, st 218); (37, st 219); (47, st 205); (58, st 221); (61, st 218); (91, st 222);
    (95, st 218); (126, st 218); (606, st 218); (635, st 218); (637, st 218)] ||>
  (if c <? 65
   then when ((36 <=? c) && (c <=? 59)) (goto (st 218))
   else (if c >? 90
     then when ((97 <=? c) && (c <=? 122)) (goto (st 218))
     else goto (st 218))) ||>
  goto (st 0).
Definition case_218 (uri_relaxed : bool) (c : Z) : option (target action) :=
  let c := (if c <? 123 then (if (94 <=? c) && (c <=? 94) then widen uri_relaxed c
              else c)
            else (if c >? 123 then (if (125 <=? c) && (c <=? 125) then widen uri_relaxed c
                else c)
              else widen uri_relaxed c)) in
  switch c [(32, tr_228); (33, st 218); (37, st 219); (47, st 205); (58, st 221); (61, st 218); (95, st 218);
    (126, st 218); (606, st 218); (635, st 218); (637, st 218)] ||>
  (if c <? 65
   then when ((36 <=? c) && (c <=? 59)) (goto (st 218))
   else (if c >? 90
     then when ((97 <=? c) && (c <=? 122)) (goto (st 218))
     else goto (st 218))) ||>
  goto (st 0).
Definition case_219 (c : Z) : option (target action) :=
  (if c <? 65
   then when ((48 <=? c) && (c <=? 57)) (goto (st 220))
   else (if c >? 70
     then when ((97 <=? c) && (c <=? 102)) (goto (st 220))
     else goto (st 220))) ||>
  goto (st 0).
Definition case_220 (c : Z) : option (target action) :=
  (if c <? 65
   then when ((48 <=? c) && (c <=? 57)) (goto (st 218))
   else (if c >? 70
     then when ((97 <=? c) && (c <=? 102)) (goto (st 218))
     else goto (st 218))) ||>
  goto (st 0).
Definition case_221 (c : Z) : option (target action) :=
  switch c [(32, tr_228); (47, st 205)] ||>
  when ((48 <=? c) && (c <=? 57)) (goto (st 221)) ||>
  goto (st 0).
Definition case_222 (c : Z) : option (target action) :=
  switch c [(6, st 223); (58, st 342); (118, st 344)] ||>
  (if c <? 65
   then when ((48 <=? c) && (c <=? 57)) (goto (st 266))
   else (if c >? 70
     then when ((97 <=? c) && (c <=? 102)) (goto (st 266))
     else goto (st 266))) ||>
  goto (st 0).
Definition case_223 (c : Z) : option (target action) :=
  (if c <? 65
   then when ((48 <=? c) && (c <=? 57)) (goto (st 224))
   else (if c >? 70
     then when ((97 <=? c) && (c <=? 102)) (goto (st 224))
     else goto (st 224))) ||>
  goto (st 0).
Definition case_224 (c : Z) : option (target action) :=
  when (c =? 58) (goto (st 228)) ||>
  (if c <? 65
   then when ((48 <=? c) && (c <=? 57)) (goto (st 225))
   else (if c >? 70
     then when ((97 <=? c) && (c <=? 102)) (goto (st 225))
     else goto (st 225))) ||>
  goto (st 0).
Definition case_225 (c : Z) : option (target action) :=
  when (c =? 58) (goto (st 228)) ||>
  (if c <? 65
   then when ((48 <=? c) && (c <=? 57)) (goto (st 226))
   else (if c >? 70
     then when ((97 <=? c) && (c <=? 102)) (goto (st 226))
     else goto (st 226))) ||>
  goto (st 0).
Definition case_226 (c : Z) : option (target action) :=
  when (c =? 58) (goto (st 228)) ||>
  (if c <? 65
   then when ((48 <=? c) && (c <=? 57)) (goto (st 227))
   else (if c >? 70
     then when ((97 <=? c) && (c <=? 102)) (goto (st 227))
     else goto (st 227))) ||>
  goto (st 0).
Definition case_227 (c : Z) : option (target action) :=
  when (c =? 58) (goto (st 228)) ||>
  goto (st 0).
Definition case_228 (c : Z) : option (target action) :=
  switch c [(49, st 259); (50, st 262)] ||>
  (if c <? 65
   then when ((48 <=? c) && (c <=? 57)) (goto (st 229))
   else (if c >? 70
     then when ((97 <=? c) && (c <=? 102)) (goto (st 265))
     else goto (st 265))) ||>
  goto (st 0).
Definition case_229 (c : Z) : option (target action) :=
  switch c [(46, st 230); (58, st 255)] ||>
  (if c <? 65
   then when ((48 <=? c) && (c <=? 57)) (goto (st 252))
   else (if c >? 70
     then when ((97 <=? c) && (c <=? 102)) (goto (st 252))
     else goto (st 252))) ||>
  goto (st 0).
Definition case_230 (c : Z) : option (target action) :=
  switch c [(49, st 247); (50, st 249)] ||>
  when ((48 <=? c) && (c <=? 57)) (goto (st 231)) ||>
  goto (st 0).
Definition case_231 (c : Z) : option (target action) :=
  when (c =? 46) (goto (st 232)) ||>
  goto (st 0).
Definition case_232 (c : Z) : option (target action) :=
  switch c [(49, st 242); (50, st 244)] ||>
  when ((48 <=? c) && (c <=? 57)) (goto (st 233)) ||>
  goto (st 0).
Definition case_233 (c : Z) : option (target action) :=
  when (c =? 46) (goto (st 234)) ||>
  goto (st 0).
Definition case_234 (c : Z) : option (target action) :=
  switch c [(49, st 237); (50, st 239)] ||>
  when ((48 <=? c) && (c <=? 57)) (goto (st 235)) ||>
  goto (st 0).
Definition case_235 (c : Z) : option (target action) :=
  when (c =? 93) (goto (st 236)) ||>
  goto (st 0).
Definition case_236 (c : Z) : option (target action) :=
  switch c [(32, tr_228); (47, st 205); (58, st 221)] ||>
  goto (st 0).
Definition case_237 (c : Z) : option (target action) :=
  when (c =? 93) (goto (st 236)) ||>
  when ((48 <=? c) && (c <=? 57)) (goto (st 238)) ||>
  goto (st 0).
Definition case_238 (c : Z) : option (target action) :=
  when (c =? 93) (goto (st 236)) ||>
  when ((48 <=? c) && (c <=? 57)) (goto (st 235)) ||>
  goto (st 0).
Definition case_239 (c : Z) : option (target action) :=
  switch c [(48, st 240); (53, st 241); (93, st 236)] ||>
  goto (st 0).
Definition case_240 (c : Z) : option (target action) :=
  when ((48 <=? c) && (c <=? 57)) (goto (st 235)) ||>
  goto (st 0).
Definition case_241 (c : Z) : option (target action) :=
  when (c =? 48) (goto (st 235)) ||>
  goto (st 0).
Definition case_242 (c : Z) : option (target action) :=
  when (c =? 46) (goto (st 234)) ||>
  when ((48 <=? c) && (c <=? 57)) (goto (st 243)) ||>
  goto (st 0).
Definition case_243 (c : Z) : option (target action) :=
  when (c =? 46) (goto (st 234)) ||>
  when ((48 <=? c) && (c <=? 57)) (goto (st 233)) ||>
  goto (st 0).
Definition case_244 (c : Z) : option (target action) :=
  switch c [(46, st 234); (48, st 245); (53, st 246)] ||>
  goto (st 0).
Definition case_245 (c : Z) : option (target action) :=
  when ((48 <=? c) && (c <=? 57)) (goto (st 233)) ||>
  goto (st 0).
Definition case_246 (c : Z) : option (target action) :=
  when (c =? 48) (goto (st 233)) ||>
  goto (st 0).
Definition case_247 (c : Z) : option (target action) :=
  when (c =? 46) (goto (st 232)) ||>
  when ((48 <=? c) && (c <=? 57)) (goto (st 248)) ||>
  goto (st 0).
Definition case_248 (c : Z) : option (target action) :=
  when (c =? 46) (goto (st 232)) ||>
  when ((48 <=? c) && (c <=? 57)) (goto (st 231)) ||>
  goto (st 0).
Definition case_249 (c : Z) : option (target action) :=
  switch c [(46, st 232); (48, st 250); (53, st 251)] ||>
  goto (st 0).
Definition case_250 (c : Z) : option (target action) :=
  when ((48 <=? c) && (c <=? 57)) (goto (st 231)) ||>
  goto (st 0).
Definition case_251 (c : Z) : option (target action) :=
  when (c =? 48) (goto (st 231)) ||>
  goto (st 0).
Definition case_252 (c : Z) : option (target action) :=
  when (c =? 58) (goto (st 255)) ||>
  (if c <? 65
   then when ((48 <=? c) && (c <=? 57)) (goto (st 253))
   else (if c >? 70
     then when ((97 <=? c) && (c <=? 102)) (goto (st 253))
     else goto (st 253))) ||>
  goto (st 0).
Definition case_253 (c : Z) : option (target action) :=
  when (c =? 58) (goto (st 255)) ||>
  (if c <? 65
   then when ((48 <=? c) && (c <=? 57)) (goto (st 254))
   else (if c >? 70
     then when ((97 <=? c) && (c <=? 102)) (goto (st 254))
     else goto (st 254))) ||>
  goto (st 0).
Definition case_254 (c : Z) : option (target action) :=
  when (c =? 58) (goto (st 255)) ||>
  goto (st 0).
Definition case_255 (c : Z) : option (target action) :=
  (if c <? 65
   then when ((48 <=? c) && (c <=? 57)) (goto (st 256))
   else (if c >? 70
     then when ((97 <=? c) && (c <=? 102)) (goto (st 256))
     else goto (st 256))) ||>
  goto (st 0).
Definition case_256 (c : Z) : option (target action) :=
  when (c =? 93) (goto (st 236)) ||>
  (if c <? 65
   then when ((48 <=? c) && (c <=? 57)) (goto (st 257))
   else (if c >? 70
     then when ((97 <=? c) && (c <=? 102)) (goto (st 257))
     else goto (st 257))) ||>
  goto (st 0).
Definition case_257 (c : Z) : option (target action) :=
  when (c =? 93) (goto (st 236)) ||>
  (if c <? 65
   then when ((48 <=? c) && (c <=? 57)) (goto (st 258))
   else (if c >? 70
     then when ((97 <=? c) && (c <=? 102)) (goto (st 258))
     else goto (st 258))) ||>
  goto (st 0).
Definition case_258 (c : Z) : option (target action) :=
  when (c =? 93) (goto (st 236)) ||>
  (if c <? 65
   then when ((48 <=? c) && (c <=? 57)) (goto (st 235))
   else (if c >? 70
     then when ((97 <=? c) && (c <=? 102)) (goto (st 235))
     else goto (st 235))) ||>
  goto (st 0).
Definition case_259 (c : Z) : option (target action) :=
  switch c [(46, st 230); (58, st 255)] ||>
  (if c <? 65
   then when ((48 <=? c) && (c <=? 57)) (goto (st 260))
   else (if c >? 70
     then when ((97 <=? c) && (c <=? 102)) (goto (st 252))
     else goto (st 252))) ||>
  goto (st 0).
Definition case_260 (c : Z) : option (target action) :=
  switch c [(46, st 230); (58, st 255)] ||>
  (if c <? 65
   then when ((48 <=? c) && (c <=? 57)) (goto (st 261))
   else (if c >? 70
     then when ((97 <=? c) && (c <=? 102)) (goto (st 253))
     else goto (st 253))) ||>
  goto (st 0).
Definition case_261 (c : Z) : option (target action) :=
  switch c [(46, st 230); (58, st 255)] ||>
  (if c <? 65
   then when ((48 <=? c) && (c <=? 57)) (goto (st 254))
   else (if c >? 70
     then when ((97 <=? c) && (c <=? 102)) (goto (st 254))
     else goto (st 254))) ||>
  goto (st 0).
Definition case_262 (c : Z) : option (target action) :=
  switch c [(46, st 230); (48, st 263); (53, st 264); (58, st 255)] ||>
  (if c <? 65
   then when ((49 <=? c) && (c <=? 57)) (goto (st 252))
   else (if c >? 70
     then when ((97 <=? c) && (c <=? 102)) (goto (st 252))
     else goto (st 252))) ||>
  goto (st 0).
Definition case_263 (c : Z) : option (target action) :=
  when (c =? 58) (goto (st 255)) ||>
  (if c <? 65
   then when ((48 <=? c) && (c <=? 57)) (goto (st 261))
   else (if c >? 70
     then when ((97 <=? c) && (c <=? 102)) (goto (st 253))
     else goto (st 253))) ||>
  goto (st 0).
Definition case_264 (c : Z) : option (target action) :=
  switch c [(48, st 261); (58, st 255)] ||>
  (if c <? 65
   then when ((49 <=? c) && (c <=? 57)) (goto (st 253))
   else (if c >? 70
     then when ((97 <=? c) && (c <=? 102)) (goto (st 253))
     else goto (st 253))) ||>
  goto (st 0).
Definition case_265 (c : Z) : option (target action) :=
  when (c =? 58) (goto (st 255)) ||>
  (if c <? 65
   then when ((48 <=? c) && (c <=? 57)) (goto (st 252))
   else (if c >? 70
     then when ((97 <=? c) && (c <=? 102)) (goto (st 252))
     else goto (st 252))) ||>
  goto (st 0).
Definition case_266 (c : Z) : option (target action) :=
  when (c =? 58) (goto (st 270)) ||>
  (if c <? 65
   then when ((48 <=? c) && (c <=? 57)) (goto (st 267))
   else (if c >? 70
     then when ((97 <=? c) && (c <=? 102)) (goto (st 267))
     else goto (st 267))) ||>
  goto (st 0).
Definition case_267 (c : Z) : option (target action) :=
  when (c =? 58) (goto (st 270)) ||>
  (if c <? 65
   then when ((48 <=? c) && (c <=? 57)) (goto (st 268))
   else (if c >? 70
     then when ((97 <=? c) && (c <=? 102)) (goto (st 268))
     else goto (st 268))) ||>
  goto (st 0).
Definition case_268 (c : Z) : option (target action) :=
  when (c =? 58) (goto (st 270)) ||>
  (if c <? 65
   then when ((48 <=? c) && (c <=? 57)) (goto (st 269))
   else (if c >? 70
     then when ((97 <=? c) && (c <=? 102)) (goto (st 269))
     else goto (st 269))) ||>
  goto (st 0).
Definition case_269 (c : Z) : option (target action) :=
  when (c =? 58) (goto (st 270)) ||>
  goto (st 0).
Definition case_270 (c : Z) : option (target action) :=
  when (c =? 58) (goto (st 341)) ||>
  (if c <? 65
   then when ((48 <=? c) && (c <=? 57)) (goto (st 271))
   else (if c >? 70
     then when ((97 <=? c) && (c <=? 102)) (goto (st 271))
     else goto (st 271))) ||>
  goto (st 0).
Definition case_271 (c : Z) : option (target action) :=
  when (c =? 58) (goto (st 275)) ||>
  (if c <? 65
   then when ((48 <=? c) && (c <=? 57)) (goto (st 272))
   else (if c >? 70
     then when ((97 <=? c) && (c <=? 102)) (goto (st 272))
     else goto (st 272))) ||>
  goto (st 0).
Definition case_272 (c : Z) : option (target action) :=
  when (c =? 58) (goto (st 275)) ||>
  (if c <? 65
   then when ((48 <=? c) && (c <=? 57)) (goto (st 273))
   else (if c >? 70
     then when ((97 <=? c) && (c <=? 102)) (goto (st 273))
     else goto (st 273))) ||>
  goto (st 0).
Definition case_273 (c : Z) : option (target action) :=
  when (c =? 58) (goto (st 275)) ||>
  (if c <? 65
   then when ((48 <=? c) && (c <=? 57)) (goto (st 274))
   else (if c >? 70
     then when ((97 <=? c) && (c <=? 102)) (goto (st 274))
     else goto (st 274))) ||>
  goto (st 0).
Definition case_274 (c : Z) : option (target action) :=
  when (c =? 58) (goto (st 275)) ||>
  goto (st 0).
Definition case_275 (c : Z) : option (target action) :=
  when (c =? 58) (goto (st 340)) ||>
  (if c <? 65
   then when ((48 <=? c) && (c <=? 57)) (goto (st 276))
   else (if c >? 70
     then when ((97 <=? c) && (c <=? 102)) (goto (st 276))
     else goto (st 276))) ||>
  goto (st 0).
Definition case_276 (c : Z) : option (target action) :=
  when (c =? 58) (goto (st 280)) ||>
  (if c <? 65
   then when ((48 <=? c) && (c <=? 57)) (goto (st 277))
   else (if c >? 70
     then when ((97 <=? c) && (c <=? 102)) (goto (st 277))
     else goto (st 277))) ||>
  goto (st 0).
Definition case_277 (c : Z) : option (target action) :=
  when (c =? 58) (goto (st 280)) ||>
  (if c <? 65
   then when ((48 <=? c) && (c <=? 57)) (goto (st 278))
   else (if c >? 70
     then when ((97 <=? c) && (c <=? 102)) (goto (st 278))
     else goto (st 278))) ||>
  goto (st 0).
Definition case_278 (c : Z) : option (target action) :=
  when (c =? 58) (goto (st 280)) ||>
  (if c <? 65
   then when ((48 <=? c) && (c <=? 57)) (goto (st 279))
   else (if c >? 70
     then when ((97 <=? c) && (c <=? 102)) (goto (st 279))
     else goto (st 279))) ||>
  goto (st 0).
Definition case_279 (c : Z) : option (target action) :=
  when (c =? 58) (goto (st 280)) ||>
  goto (st 0).
Definition case_280 (c : Z) : option (target action) :=
  when (c =? 58) (goto (st 339)) ||>
  (if c <? 65
   then when ((48 <=? c) && (c <=? 57)) (goto (st 281))
   else (if c >? 70
     then when ((97 <=? c) && (c <=? 102)) (goto (st 281))
     else goto (st 281))) ||>
  goto (st 0).
Definition case_281 (c : Z) : option (target action) :=
  when (c =? 58) (goto (st 285)) ||>
  (if c <? 65
   then when ((48 <=? c) && (c <=? 57)) (goto (st 282))
   else (if c >? 70
     then when ((97 <=? c) && (c <=? 102)) (goto (st 282))
     else goto (st 282))) ||>
  goto (st 0).
Definition case_282 (c : Z) : option (target action) :=
  when (c =? 58) (goto (st 285)) ||>
  (if c <? 65
   then when ((48 <=? c) && (c <=? 57)) (goto (st 283))
   else (if c >? 70
     then when ((97 <=? c) && (c <=? 102)) (goto (st 283))
     else goto (st 283))) ||>
  goto (st 0).
Definition case_283 (c : Z) : option (target action) :=
  when (c =? 58) (goto (st 285)) ||>
  (if c <? 65
   then when ((48 <=? c) && (c <=? 57)) (goto (st 284))
   else (if c >? 70
     then when ((97 <=? c) && (c <=? 102)) (goto (st 284))
     else goto (st 284))) ||>
  goto (st 0).
Definition case_284 (c : Z) : option (target action) :=
  when (c =? 58) (goto (st 285)) ||>
  goto (st 0).
Definition case_285 (c : Z) : option (target action) :=
  when (c =? 58) (goto (st 338)) ||>
  (if c <? 65
   then when ((48 <=? c) && (c <=? 57)) (goto (st 286))
   else (if c >? 70
     then when ((97 <=? c) && (c <=? 102)) (goto (st 286))
     else goto (st 286))) ||>
  goto (st 0).
Definition case_286 (c : Z) : option (target action) :=
  when (c =? 58) (goto (st 290)) ||>
  (if c <? 65
   then when ((48 <=? c) && (c <=? 57)) (goto (st 287))
   else (if c >? 70
     then when ((97 <=? c) && (c <=? 102)) (goto (st 287))
     else goto (st 287))) ||>
  goto (st 0).
Definition case_287 (c : Z) : option (target action) :=
  when (c =? 58) (goto (st 290)) ||>
  (if c <? 65
   then when ((48 <=? c) && (c <=? 57)) (goto (st 288))
   else (if c >? 70
     then when ((97 <=? c) && (c <=? 102)) (goto (st 288))
     else goto (st 288))) ||>
  goto (st 0).
Definition case_288 (c : Z) : option (target action) :=
  when (c =? 58) (goto (st 290)) ||>
  (if c <? 65
   then when ((48 <=? c) && (c <=? 57)) (goto (st 289))
   else (if c >? 70
     then when ((97 <=? c) && (c <=? 102)) (goto (st 289))
     else goto (st 289))) ||>
  goto (st 0).
Definition case_289 (c : Z) : option (target action) :=
  when (c =? 58) (goto (st 290)) ||>
  goto (st 0).
Definition case_290 (c : Z) : option (target action) :=
  when (c =? 58) (goto (st 326)) ||>
  (if c <? 65
   then when ((48 <=? c) && (c <=? 57)) (goto (st 291))
   else (if c >? 70
     then when ((97 <=? c) && (c <=? 102)) (goto (st 291))
     else goto (st 291))) ||>
  goto (st 0).
Definition case_291 (c : Z) : option (target action) :=
  when (c =? 58) (goto (st 295)) ||>
  (if c <? 65
   then when ((48 <=? c) && (c <=? 57)) (goto (st 292))
   else (if c >? 70
     then when ((97 <=? c) && (c <=? 102)) (goto (st 292))
     else goto (st 292))) ||>
  goto (st 0).
Definition case_292 (c : Z) : option (target action) :=
  when (c =? 58) (goto (st 295)) ||>
  (if c <? 65
   then when ((48 <=? c) && (c <=? 57)) (goto (st 293))
   else (if c >? 70
     then when ((97 <=? c) && (c <=? 102)) (goto (st 293))
     else goto (st 293))) ||>
  goto (st 0).
Definition case_293 (c : Z) : option (target action) :=
  when (c =? 58) (goto (st 295)) ||>
  (if c <? 65
   then when ((48 <=? c) && (c <=? 57)) (goto (st 294))
   else (if c >? 70
     then when ((97 <=? c) && (c <=? 102)) (goto (st 294))
     else goto (st 294))) ||>
  goto (st 0).
Definition case_294 (c : Z) : option (target action) :=
  when (c =? 58) (goto (st 295)) ||>
  goto (st 0).
Definition case_295 (c : Z) : option (target action) :=
  when (c =? 58) (goto (st 325)) ||>
  (if c <? 65
   then when ((48 <=? c) && (c <=? 57)) (goto (st 296))
   else (if c >? 70
     then when ((97 <=? c) && (c <=? 102)) (goto (st 296))
     else goto (st 296))) ||>
  goto (st 0).
Definition case_296 (c : Z) : option (target action) :=
  when (c =? 58) (goto (st 300)) ||>
  (if c <? 65
   then when ((48 <=? c) && (c <=? 57)) (goto (st 297))
   else (if c >? 70
     then when ((97 <=? c) && (c <=? 102)) (goto (st 297))
     else goto (st 297))) ||>
  goto (st 0).
Definition case_297 (c : Z) : option (target action) :=
  when (c =? 58) (goto (st 300)) ||>
  (if c <? 65
   then when ((48 <=? c) && (c <=? 57)) (goto (st 298))
   else (if c >? 70
     then when ((97 <=? c) && (c <=? 102)) (goto (st 298))
     else goto (st 298))) ||>
  goto (st 0).
Definition case_298 (c : Z) : option (target action) :=
  when (c =? 58) (goto (st 300)) ||>
  (if c <? 65
   then when ((48 <=? c) && (c <=? 57)) (goto (st 299))
   else (if c >? 70
     then when ((97 <=? c) && (c <=? 102)) (goto (st 299))
     else goto (st 299))) ||>
  goto (st 0).
Definition case_299 (c : Z) : option (target action) :=
  when (c =? 58) (goto (st 300)) ||>
  goto (st 0).
Definition case_300 (c : Z) : option (target action) :=
  when (c =? 58) (goto (st 301)) ||>
  (if c <? 65
   then when ((48 <=? c) && (c <=? 57)) (goto (st 296))
   else (if c >? 70
     then when ((97 <=? c) && (c <=? 102)) (goto (st 296))
     else goto (st 296))) ||>
  goto (st 0).
Definition case_301 (c : Z) : option (target action) :=
  switch c [(49, st 318); (50, st 321); (93, st 236)] ||>
  (if c <? 48
   then when ((2 <=? c) && (c <=? 3)) (goto (st 223))
   else (if c >? 57
     then (if c >? 70
       then when ((97 <=? c) && (c <=? 102)) (goto (st 324))
       else when (c >=? 65) (goto (st 324)))
     else goto (st 302))) ||>
  goto (st 0).
Definition case_302 (c : Z) : option (target action) :=
  switch c [(46, st 230); (58, st 306); (93, st 236)] ||>
  (if c <? 65
   then when ((48 <=? c) && (c <=? 57)) (goto (st 303))
   else (if c >? 70
     then when ((97 <=? c) && (c <=? 102)) (goto (st 303))
     else goto (st 303))) ||>
  goto (st 0).
Definition case_303 (c : Z) : option (target action) :=
  switch c [(58, st 306); (93, st 236)] ||>
  (if c <? 65
   then when ((48 <=? c) && (c <=? 57)) (goto (st 304))
   else (if c >? 70
     then when ((97 <=? c) && (c <=? 102)) (goto (st 304))
     else goto (st 304))) ||>
  goto (st 0).
Definition case_304 (c : Z) : option (target action) :=
  switch c [(58, st 306); (93, st 236)] ||>
  (if c <? 65
   then when ((48 <=? c) && (c <=? 57)) (goto (st 305))
   else (if c >? 70
     then when ((97 <=? c) && (c <=? 102)) (goto (st 305))
     else goto (st 305))) ||>
  goto (st 0).
Definition case_305 (c : Z) : option (target action) :=
  switch c [(58, st 306); (93, st 236)] ||>
  goto (st 0).
Definition case_306 (c : Z) : option (target action) :=
  switch c [(49, st 311); (50, st 314)] ||>
  (if c <? 65
   then when ((48 <=? c) && (c <=? 57)) (goto (st 307))
   else (if c >? 70
     then when ((97 <=? c) && (c <=? 102)) (goto (st 317))
     else goto (st 317))) ||>
  goto (st 0).
Definition case_307 (c : Z) : option (target action) :=
  switch c [(46, st 230); (58, st 255); (93, st 236)] ||>
  (if c <? 65
   then when ((48 <=? c) && (c <=? 57)) (goto (st 308))
   else (if c >? 70
     then when ((97 <=? c) && (c <=? 102)) (goto (st 308))
     else goto (st 308))) ||>
  goto (st 0).
Definition case_308 (c : Z) : option (target action) :=
  switch c [(58, st 255); (93, st 236)] ||>
  (if c <? 65
   then when ((48 <=? c) && (c <=? 57)) (goto (st 309))
   else (if c >? 70
     then when ((97 <=? c) && (c <=? 102)) (goto (st 309))
     else goto (st 309))) ||>
  goto (st 0).
Definition case_309 (c : Z) : option (target action) :=
  switch c [(58, st 255); (93, st 236)] ||>
  (if c <? 65
   then when ((48 <=? c) && (c <=? 57)) (goto (st 310))
   else (if c >? 70
     then when ((97 <=? c) && (c <=? 102)) (goto (st 310))
     else goto (st 310))) ||>
  goto (st 0).
Definition case_310 (c : Z) : option (target action) :=
  switch c [(58, st 255); (93, st 236)] ||>
  goto (st 0).
Definition case_311 (c : Z) : option (target action) :=
  switch c [(46, st 230); (58, st 255); (93, st 236)] ||>
  (if c <? 65
   then when ((48 <=? c) && (c <=? 57)) (goto (st 312))
   else (if c >? 70
     then when ((97 <=? c) && (c <=? 102)) (goto (st 308))
     else goto (st 308))) ||>
  goto (st 0).
Definition case_312 (c : Z) : option (target action) :=
  switch c [(46, st 230); (58, st 255); (93, st 236)] ||>
  (if c <? 65
   then when ((48 <=? c) && (c <=? 57)) (goto (st 313))
   else (if c >? 70
     then when ((97 <=? c) && (c <=? 102)) (goto (st 309))
     else goto (st 309))) ||>
  goto (st 0).
Definition case_313 (c : Z) : option (target action) :=
  switch c [(46, st 230); (58, st 255); (93, st 236)] ||>
  (if c <? 65
   then when ((48 <=? c) && (c <=? 57)) (goto (st 310))
   else (if c >? 70
     then when ((97 <=? c) && (c <=? 102)) (goto (st 310))
     else goto (st 310))) ||>
  goto (st 0).
Definition case_314 (c : Z) : option (target action) :=
  switch c [(46, st 230); (48, st 315); (53, st 316); (58, st 255); (93, st 236)] ||>
  (if c <? 65
   then when ((49 <=? c) && (c <=? 57)) (goto (st 308))
   else (if c >? 70
     then when ((97 <=? c) && (c <=? 102)) (goto (st 308))
     else goto (st 308))) ||>
  goto (st 0).
Definition case_315 (c : Z) : option (target action) :=
  switch c [(58, st 255); (93, st 236)] ||>
  (if c <? 65
   then when ((48 <=? c) && (c <=? 57)) (goto (st 313))
   else (if c >? 70
     then when ((97 <=? c) && (c <=? 102)) (goto (st 309))
     else goto (st 309))) ||>
  goto (st 0).
Definition case_316 (c : Z) : option (target action) :=
  switch c [(48, st 313); (58, st 255); (93, st 236)] ||>
  (if c <? 65
   then when ((49 <=? c) && (c <=? 57)) (goto (st 309))
   else (if c >? 70
     then when ((97 <=? c) && (c <=? 102)) (goto (st 309))
     else goto (st 309))) ||>
  goto (st 0).
Definition case_317 (c : Z) : option (target action) :=
  switch c [(58, st 255); (93, st 236)] ||>
  (if c <? 65
   then when ((48 <=? c) && (c <=? 57)) (goto (st 308))
   else (if c >? 70
     then when ((97 <=? c) && (c <=? 102)) (goto (st 308))
     else goto (st 308))) ||>
  goto (st 0).
Definition case_318 (c : Z) : option (target action) :=
  switch c [(46, st 230); (58, st 306); (93, st 236)] ||>
  (if c <? 65
   then when ((48 <=? c) && (c <=? 57)) (goto (st 319))
   else (if c >? 70
     then when ((97 <=? c) && (c <=? 102)) (goto (st 303))
     else goto (st 303))) ||>
  goto (st 0).
Definition case_319 (c : Z) : option (target action) :=
  switch c [(46, st 230); (58, st 306); (93, st 236)] ||>
  (if c <? 65
   then when ((48 <=? c) && (c <=? 57)) (goto (st 320))
   else (if c >? 70
     then when ((97 <=? c) && (c <=? 102)) (goto (st 304))
     else goto (st 304))) ||>
  goto (st 0).
Definition case_320 (c : Z) : option (target action) :=
  switch c [(46, st 230); (58, st 306); (93, st 236)] ||>
  (if c <? 65
   then when ((48 <=? c) && (c <=? 57)) (goto (st 305))
   else (if c >? 70
     then when ((97 <=? c) && (c <=? 102)) (goto (st 305))
     else goto (st 305))) ||>
  goto (st 0).
Definition case_321 (c : Z) : option (target action) :=
  switch c [(46, st 230); (48, st 322); (53, st 323); (58, st 306); (93, st 236)] ||>
  (if c <? 65
   then when ((49 <=? c) && (c <=? 57)) (goto (st 303))
   else (if c >? 70
     then when ((97 <=? c) && (c <=? 102)) (goto (st 303))
     else goto (st 303))) ||>
  goto (st 0).
Definition case_322 (c : Z) : option (target action) :=
  switch c [(58, st 306); (93, st 236)] ||>
  (if c <? 65
   then when ((48 <=? c) && (c <=? 57)) (goto (st 320))
   else (if c >? 70
     then when ((97 <=? c) && (c <=? 102)) (goto (st 304))
     else goto (st 304))) ||>
  goto (st 0).
Definition case_323 (c : Z) : option (target action) :=
  switch c [(48, st 320); (58, st 306); (93, st 236)] ||>
  (if c <? 65
   then when ((49 <=? c) && (c <=? 57)) (goto (st 304))
   else (if c >? 70
     then when ((97 <=? c) && (c <=? 102)) (goto (st 304))
     else goto (st 304))) ||>
  goto (st 0).
Definition case_324 (c : Z) : option (target action) :=
  switch c [(58, st 306); (93, st 236)] ||>
  (if c <? 65
   then when ((48 <=? c) && (c <=? 57)) (goto (st 303))
   else (if c >? 70
     then when ((97 <=? c) && (c <=? 102)) (goto (st 303))
     else goto (st 303))) ||>
  goto (st 0).
Definition case_325 (c : Z) : option (target action) :=
  switch c [(49, st 318); (50, st 321)] ||>
  (if c <? 48
   then when ((2 <=? c) && (c <=? 3)) (goto (st 223))
   else (if c >? 57
     then (if c >? 70
       then when ((97 <=? c) && (c <=? 102)) (goto (st 324))
       else when (c >=? 65) (goto (st 324)))
     else goto (st 302))) ||>
  goto (st 0).
Definition case_326 (c : Z) : option (target action) :=
  switch c [(49, st 331); (50, st 334)] ||>
  (if c <? 48
   then when ((2 <=? c) && (c <=? 3)) (goto (st 223))
   else (if c >? 57
     then (if c >? 70
       then when ((97 <=? c) && (c <=? 102)) (goto (st 337))
       else when (c >=? 65) (goto (st 337)))
     else goto (st 327))) ||>
  goto (st 0).
Definition case_327 (c : Z) : option (target action) :=
  switch c [(46, st 230); (58, st 306)] ||>
  (if c <? 65
   then when ((48 <=? c) && (c <=? 57)) (goto (st 328))
   else (if c >? 70
     then when ((97 <=? c) && (c <=? 102)) (goto (st 328))
     else goto (st 328))) ||>
  goto (st 0).
Definition case_328 (c : Z) : option (target action) :=
  when (c =? 58) (goto (st 306)) ||>
  (if c <? 65
   then when ((48 <=? c) && (c <=? 57)) (goto (st 329))
   else (if c >? 70
     then when ((97 <=? c) && (c <=? 102)) (goto (st 329))
     else goto (st 329))) ||>
  goto (st 0).
Definition case_329 (c : Z) : option (target action) :=
  when (c =? 58) (goto (st 306)) ||>
  (if c <? 65
   then when ((48 <=? c) && (c <=? 57)) (goto (st 330))
   else (if c >? 70
     then when ((97 <=? c) && (c <=? 102)) (goto (st 330))
     else goto (st 330))) ||>
  goto (st 0).
Definition case_330 (c : Z) : option (target action) :=
  when (c =? 58) (goto (st 306)) ||>
  goto (st 0).
Definition case_331 (c : Z) : option (target action) :=
  switch c [(46, st 230); (58, st 306)] ||>
  (if c <? 65
   then when ((48 <=? c) && (c <=? 57)) (goto (st 332))
   else (if c >? 70
     then when ((97 <=? c) && (c <=? 102)) (goto (st 328))
     else goto (st 328))) ||>
  goto (st 0).
Definition case_332 (c : Z) : option (target action) :=
  switch c [(46, st 230); (58, st 306)] ||>
  (if c <? 65
   then when ((48 <=? c) && (c <=? 57)) (goto (st 333))
   else (if c >? 70
     then when ((97 <=? c) && (c <=? 102)) (goto (st 329))
     else goto (st 329))) ||>
  goto (st 0).
Definition case_333 (c : Z) : option (target action) :=
  switch c [(46, st 230); (58, st 306)] ||>
  (if c <? 65
   then when ((48 <=? c) && (c <=? 57)) (goto (st 330))
   else (if c >? 70
     then when ((97 <=? c) && (c <=? 102)) (goto (st 330))
     else goto (st 330))) ||>
  goto (st 0).
Definition case_334 (c : Z) : option (target action) :=
  switch c [(46, st 230); (48, st 335); (53, st 336); (58, st 306)] ||>
  (if c <? 65
   then when ((49 <=? c) && (c <=? 57)) (goto (st 328))
   else (if c >? 70
     then when ((97 <=? c) && (c <=? 102)) (goto (st 328))
     else goto (st 328))) ||>
  goto (st 0).
Definition case_335 (c : Z) : option (target action) :=
  when (c =? 58) (goto (st 306)) ||>
  (if c <? 65
   then when ((48 <=? c) && (c <=? 57)) (goto (st 333))
   else (if c >? 70
     then when ((97 <=? c) && (c <=? 102)) (goto (st 329))
     else goto (st 329))) ||>
  goto (st 0).
Definition case_336 (c : Z) : option (target action) :=
  switch c [(48, st 333); (58, st 306)] ||>
  (if c <? 65
   then when ((49 <=? c) && (c <=? 57)) (goto (st 329))
   else (if c >? 70
     then when ((97 <=? c) && (c <=? 102)) (goto (st 329))
     else goto (st 329))) ||>
  goto (st 0).
Definition case_337 (c : Z) : option (target action) :=
  when (c =? 58) (goto (st 306)) ||>
  (if c <? 65
   then when ((48 <=? c) && (c <=? 57)) (goto (st 328))
   else (if c >? 70
     then when ((97 <=? c) && (c <=? 102)) (goto (st 328))
     else goto (st 328))) ||>
  goto (st 0).
Definition case_338 (c : Z) : option (target action) :=
  (if c <? 48
   then when ((2 <=? c) && (c <=? 3)) (goto (st 223))
   else (if c >? 57
     then (if c >? 70
       then when ((97 <=? c) && (c <=? 102)) (goto (st 224))
       else when (c >=? 65) (goto (st 224)))
     else goto (st 224))) ||>
  goto (st 0).
Definition case_339 (c : Z) : option (target action) :=
  when ((2 <=? c) && (c <=? 3)) (goto (st 223)) ||>
  goto (st 0).
Definition case_340 (c : Z) : option (target action) :=
  when (c =? 3) (goto (st 223)) ||>
  goto (st 0).
Definition case_341 (c : Z) : option (target action) :=
  when (c =? 4) (goto (st 223)) ||>
  goto (st 0).
Definition case_342 (c : Z) : option (target action) :=
  when (c =? 58) (goto (st 343)) ||>
  goto (st 0).
Definition case_343 (c : Z) : option (target action) :=
  switch c [(49, st 318); (50, st 321); (93, st 236)] ||>
  (if c <? 48
   then when ((2 <=? c) && (c <=? 5)) (goto (st 223))
   else (if c >? 57
     then (if c >? 70
       then when ((97 <=? c) && (c <=? 102)) (goto (st 324))
       else when (c >=? 65) (goto (st 324)))
     else goto (st 302))) ||>
  goto (st 0).
Definition case_344 (c : Z) : option (target action) :=
  (if c <? 65
   then when ((48 <=? c) && (c <=? 57)) (goto (st 345))
   else (if c >? 70
     then when ((97 <=? c) && (c <=? 102)) (goto (st 345))
     else goto (st 345))) ||>
  goto (st 0).
Definition case_345 (c : Z) : option (target action) :=
  when (c =? 46) (goto (st 346)) ||>
  (if c <? 65
   then when ((48 <=? c) && (c <=? 57)) (goto (st 345))
   else (if c >? 70
     then when ((97 <=? c) && (c <=? 102)) (goto (st 345))
     else goto (st 345))) ||>
  goto (st 0).
Definition case_346 (uri_relaxed : bool) (c : Z) : option (target action) :=
  let c := (if c <? 123 then (if (94 <=? c) && (c <=? 94) then widen uri_relaxed c
              else c)
            else (if c >? 123 then (if (125 <=? c) && (c <=? 125) then widen uri_relaxed c
                else c)
              else widen uri_relaxed c)) in
  switch c [(33, st 347); (36, st 347); (61, st 347); (95, st 347); (126, st 347); (606, st 347);
    (635, st 347); (637, st 347)] ||>
  (if c <? 48
   then when ((38 <=? c) && (c <=? 46)) (goto (st 347))
   else (if c >? 59
     then (if c >? 90
       then when ((97 <=? c) && (c <=? 122)) (goto (st 347))
       else when (c >=? 65) (goto (st 347)))
     else goto (st 347))) ||>
  goto (st 0).
Definition case_347 (uri_relaxed : bool) (c : Z) : option (target action) :=
  let c := (if c <? 123 then (if (94 <=? c) && (c <=? 94) then widen uri_relaxed c
              else c)
            else (if c >? 123 then (if (125 <=? c) && (c <=? 125) then widen uri_relaxed c
                else c)
              else widen uri_relaxed c)) in
  switch c [(33, st 347); (36, st 347); (61, st 347); (93, st 236); (95, st 347); (126, st 347);
    (606, st 347); (635, st 347); (637, st 347)] ||>
  (if c <? 48
   then when ((38 <=? c) && (c <=? 46)) (goto (st 347))
   else (if c >? 59
     then (if c >? 90
       then when ((97 <=? c) && (c <=? 122)) (goto (st 347))
       else when (c >=? 65) (goto (st 347)))
     else goto (st 347))) ||>
  goto (st 0).
Definition case_348 (c : Z) : option (target action) :=
  switch c [(33, st 14); (58, tr_27); (124, st 14); (126, st 14)] ||>
  (if c <? 42
   then (if c <? 10
     then when ((1 <=? c) && (c <=? 8)) (goto (st 14))
     else (if c >? 31
       then when ((35 <=? c) && (c <=? 39)) (goto (st 14))
       else goto (st 14)))
   else (if c >? 43
     then (if c <? 48
       then when ((45 <=? c) && (c <=? 46)) (goto (st 14))
       else (if c >? 57
         then (if c >? 90
           then when ((94 <=? c) && (c <=? 122)) (goto (st 14))
           else when (c >=? 65) (goto (st 14)))
         else goto (st 14)))
     else goto (st 14))) ||>
  goto (st 0).
Definition case_349 (c : Z) : option (target action) :=
  goto (st 0).

(** The [switch (cs)]: no case, no move. *)
Definition fsm (uri_relaxed : bool) (cs c : Z) : option (target action) :=
  match cs with
  | 1 => case_1 c | 2 => case_2 c | 3 => case_3 uri_relaxed c | 4 => case_4 c | 5 => case_5 c | 6 => case_6 c
  | 7 => case_7 c | 8 => case_8 c | 9 => case_9 c | 10 => case_10 c | 11 => case_11 c | 12 => case_12 c
  | 13 => case_13 c | 14 => case_14 c | 15 => case_15 c | 16 => case_16 c | 17 => case_17 c | 18 => case_18 c
  | 19 => case_19 uri_relaxed c | 20 => case_20 uri_relaxed c | 21 => case_21 uri_relaxed c | 22 => case_22 c
  | 23 => case_23 c | 24 => case_24 c | 25 => case_25 c | 26 => case_26 uri_relaxed c | 27 => case_27 c
  | 28 => case_28 c | 29 => case_29 uri_relaxed c | 30 => case_30 uri_relaxed c | 31 => case_31 c | 32 => case_32 c
  | 33 => case_33 uri_relaxed c | 34 => case_34 uri_relaxed c | 35 => case_35 uri_relaxed c | 36 => case_36 c
  | 37 => case_37 c | 38 => case_38 uri_relaxed c | 39 => case_39 uri_relaxed c | 40 => case_40 c | 41 => case_41 c
  | 42 => case_42 uri_relaxed c | 43 => case_43 uri_relaxed c | 44 => case_44 c | 45 => case_45 c | 46 => case_46 c
  | 47 => case_47 c | 48 => case_48 c | 49 => case_49 c | 50 => case_50 c | 51 => case_51 c | 52 => case_52 c
  | 53 => case_53 c | 54 => case_54 c | 55 => case_55 c | 56 => case_56 c | 57 => case_57 c | 58 => case_58 c
  | 59 => case_59 c | 60 => case_60 c | 61 => case_61 c | 62 => case_62 c | 63 => case_63 c | 64 => case_64 c
  | 65 => case_65 c | 66 => case_66 c | 67 => case_67 c | 68 => case_68 c | 69 => case_69 c | 70 => case_70 c
  | 71 => case_71 c | 72 => case_72 c | 73 => case_73 c | 74 => case_74 c | 75 => case_75 c | 76 => case_76 c
  | 77 => case_77 c | 78 => case_78 c | 79 => case_79 c | 80 => case_80 c | 81 => case_81 c | 82 => case_82 c
  | 83 => case_83 c | 84 => case_84 c | 85 => case_85 c | 86 => case_86 c | 87 => case_87 c | 88 => case_88 c
  | 89 => case_89 c | 90 => case_90 c | 91 => case_91 c | 92 => case_92 c | 93 => case_93 c | 94 => case_94 c
  | 95 => case_95 c | 96 => case_96 c | 97 => case_97 c | 98 => case_98 c | 99 => case_99 c | 100 => case_100 c
  | 101 => case_101 c | 102 => case_102 c | 103 => case_103 c | 104 => case_104 c | 105 => case_105 c
  | 106 => case_106 c | 107 => case_107 c | 108 => case_108 c | 109 => case_109 c | 110 => case_110 c
  | 111 => case_111 c | 112 => case_112 c | 113 => case_113 c | 114 => case_114 c | 115 => case_115 c
  | 116 => case_116 c | 117 => case_117 c | 118 => case_118 c | 119 => case_119 c | 120 => case_120 c
  | 121 => case_121 c | 122 => case_122 c | 123 => case_123 c | 124 => case_124 c | 125 => case_125 c
  | 126 => case_126 c | 127 => case_127 c | 128 => case_128 c | 129 => case_129 c | 130 => case_130 c
  | 131 => case_131 c | 132 => case_132 c | 133 => case_133 c | 134 => case_134 c | 135 => case_135 c
  | 136 => case_136 c | 137 => case_137 c | 138 => case_138 c | 139 => case_139 c | 140 => case_140 c
  | 141 => case_141 c | 142 => case_142 c | 143 => case_143 c | 144 => case_144 c | 145 => case_145 c
  | 146 => case_146 c | 147 => case_147 c | 148 => case_148 c | 149 => case_149 c | 150 => case_150 c
  | 151 => case_151 c | 152 => case_152 c | 153 => case_153 c | 154 => case_154 c | 155 => case_155 c
  | 156 => case_156 c | 157 => case_157 c | 158 => case_158 c | 159 => case_159 c | 160 => case_160 c
  | 161 => case_161 c | 162 => case_162 c | 163 => case_163 c | 164 => case_164 c | 165 => case_165 c
  | 166 => case_166 c | 167 => case_167 c | 168 => case_168 c | 169 => case_169 c | 170 => case_170 c
  | 171 => case_171 uri_relaxed c | 172 => case_172 uri_relaxed c | 173 => case_173 uri_relaxed c
  | 174 => case_174 uri_relaxed c | 175 => case_175 c | 176 => case_176 c | 177 => case_177 c | 178 => case_178 c
  | 179 => case_179 c | 180 => case_180 c | 181 => case_181 c | 182 => case_182 c | 183 => case_183 c
  | 184 => case_184 c | 185 => case_185 c | 186 => case_186 c | 187 => case_187 c | 188 => case_188 c
  | 189 => case_189 c | 190 => case_190 c | 191 => case_191 c | 192 => case_192 c | 193 => case_193 c
  | 194 => case_194 c | 195 => case_195 c | 196 => case_196 c | 197 => case_197 c | 198 => case_198 uri_relaxed c
  | 199 => case_199 c | 200 => case_200 c | 201 => case_201 c | 202 => case_202 uri_relaxed c | 203 => case_203 c
  | 204 => case_204 c | 205 => case_205 uri_relaxed c | 206 => case_206 c | 207 => case_207 c
  | 208 => case_208 uri_relaxed c | 209 => case_209 uri_relaxed c | 210 => case_210 uri_relaxed c
  | 211 => case_211 c | 212 => case_212 c | 213 => case_213 uri_relaxed c | 214 => case_214 uri_relaxed c
  | 215 => case_215 c | 216 => case_216 c | 217 => case_217 uri_relaxed c | 218 => case_218 uri_relaxed c
  | 219 => case_219 c | 220 => case_220 c | 221 => case_221 c | 222 => case_222 c | 223 => case_223 c
  | 224 => case_224 c | 225 => case_225 c | 226 => case_226 c | 227 => case_227 c | 228 => case_228 c
  | 229 => case_229 c | 230 => case_230 c | 231 => case_231 c | 232 => case_232 c | 233 => case_233 c
  | 234 => case_234 c | 235 => case_235 c | 236 => case_236 c | 237 => case_237 c | 238 => case_238 c
  | 239 => case_239 c | 240 => case_240 c | 241 => case_241 c | 242 => case_242 c | 243 => case_243 c
  | 244 => case_244 c | 245 => case_245 c | 246 => case_246 c | 247 => case_247 c | 248 => case_248 c
  | 249 => case_249 c | 250 => case_250 c | 251 => case_251 c | 252 => case_252 c | 253 => case_253 c
  | 254 => case_254 c | 255 => case_255 c | 256 => case_256 c | 257 => case_257 c | 258 => case_258 c
  | 259 => case_259 c | 260 => case_260 c | 261 => case_261 c | 262 => case_262 c | 263 => case_263 c
  | 264 => case_264 c | 265 => case_265 c | 266 => case_266 c | 267 => case_267 c | 268 => case_268 c
  | 269 => case_269 c | 270 => case_270 c | 271 => case_271 c | 272 => case_272 c | 273 => case_273 c
  | 274 => case_274 c | 275 => case_275 c | 276 => case_276 c | 277 => case_277 c | 278 => case_278 c
  | 279 => case_279 c | 280 => case_280 c | 281 => case_281 c | 282 => case_282 c | 283 => case_283 c
  | 284 => case_284 c | 285 => case_285 c | 286 => case_286 c | 287 => case_287 c | 288 => case_288 c
  | 289 => case_289 c | 290 => case_290 c | 291 => case_291 c | 292 => case_292 c | 293 => case_293 c
  | 294 => case_294 c | 295 => case_295 c | 296 => case_296 c | 297 => case_297 c | 298 => case_298 c
  | 299 => case_299 c | 300 => case_300 c | 301 => case_301 c | 302 => case_302 c | 303 => case_303 c
  | 304 => case_304 c | 305 => case_305 c | 306 => case_306 c | 307 => case_307 c | 308 => case_308 c
  | 309 => case_309 c | 310 => case_310 c | 311 => case_311 c | 312 => case_312 c | 313 => case_313 c
  | 314 => case_314 c | 315 => case_315 c | 316 => case_316 c | 317 => case_317 c | 318 => case_318 c
  | 319 => case_319 c | 320 => case_320 c | 321 => case_321 c | 322 => case_322 c | 323 => case_323 c
  | 324 => case_324 c | 325 => case_325 c | 326 => case_326 c | 327 => case_327 c | 328 => case_328 c
  | 329 => case_329 c | 330 => case_330 c | 331 => case_331 c | 332 => case_332 c | 333 => case_333 c
  | 334 => case_334 c | 335 => case_335 c | 336 => case_336 c | 337 => case_337 c | 338 => case_338 c
  | 339 => case_339 c | 340 => case_340 c | 341 => case_341 c | 342 => case_342 c | 343 => case_343 c
  | 344 => case_344 c | 345 => case_345 c | 346 => case_346 uri_relaxed c | 347 => case_347 uri_relaxed c
  | 348 => case_348 c | 349 => case_349 c
  | _ => None
  end.
(** The states of the table. *)
Definition states : list Z := [1; 2; 3; 4; 5; 6; 7; 8; 9; 10; 11; 12; 13; 14; 15; 16; 17; 18; 19; 20; 21; 22; 23;
  24; 25; 26; 27; 28; 29; 30; 31; 32; 33; 34; 35; 36; 37; 38; 39; 40; 41; 42; 43; 44; 45; 46; 47; 48; 49; 50; 51;
  52; 53; 54; 55; 56; 57; 58; 59; 60; 61; 62; 63; 64; 65; 66; 67; 68; 69; 70; 71; 72; 73; 74; 75; 76; 77; 78; 79;
  80; 81; 82; 83; 84; 85; 86; 87; 88; 89; 90; 91; 92; 93; 94; 95; 96; 97; 98; 99; 100; 101; 102; 103; 104; 105; 106;
  107; 108; 109; 110; 111; 112; 113; 114; 115; 116; 117; 118; 119; 120; 121; 122; 123; 124; 125; 126; 127; 128; 129;
  130; 131; 132; 133; 134; 135; 136; 137; 138; 139; 140; 141; 142; 143; 144; 145; 146; 147; 148; 149; 150; 151; 152;
  153; 154; 155; 156; 157; 158; 159; 160; 161; 162; 163; 164; 165; 166; 167; 168; 169; 170; 171; 172; 173; 174; 175;
  176; 177; 178; 179; 180; 181; 182; 183; 184; 185; 186; 187; 188; 189; 190; 191; 192; 193; 194; 195; 196; 197; 198;
  199; 200; 201; 202; 203; 204; 205; 206; 207; 208; 209; 210; 211; 212; 213; 214; 215; 216; 217; 218; 219; 220; 221;
  222; 223; 224; 225; 226; 227; 228; 229; 230; 231; 232; 233; 234; 235; 236; 237; 238; 239; 240; 241; 242; 243; 244;
  245; 246; 247; 248; 249; 250; 251; 252; 253; 254; 255; 256; 257; 258; 259; 260; 261; 262; 263; 264; 265; 266; 267;
  268; 269; 270; 271; 272; 273; 274; 275; 276; 277; 278; 279; 280; 281; 282; 283; 284; 285; 286; 287; 288; 289; 290;
  291; 292; 293; 294; 295; 296; 297; 298; 299; 300; 301; 302; 303; 304; 305; 306; 307; 308; 309; 310; 311; 312; 313;
  314; 315; 316; 317; 318; 319; 320; 321; 322; 323; 324; 325; 326; 327; 328; 329; 330; 331; 332; 333; 334; 335; 336;
  337; 338; 339; 340; 341; 342; 343; 344; 345; 346; 347; 348; 349].
