(* ===== verification/UriFsm.v ===== *)
(** The automaton of [sherry/uri.rl.cc].  [case_N] is the [case N] of the
    [switch] over [cs], [tr_K] the label [trK]: its actions, and the state it
    goes to; [eof_actions] the actions that run where the text ends. *)

From Stdlib Require Import ZArith.
From stdpp Require Import base list.
From S2P Require Import Prelude Ragel.
Local Open Scope Z_scope.
Local Open Scope ragel_scope.

(** The actions of the grammar, by the name it gives them. *)
Inductive action : Type :=
| MarkU | MarkH | SaveScheme | SavePort | SaveUserinfo | SaveHost | SavePath | SaveQuery | SaveFragment.
#[export] Instance action_eq_dec : EqDecision action.
Proof. solve_decision. Defined.

Definition tr_38 : target action := mkTarget [SaveUserinfo] 469.
Definition tr_263 : target action := mkTarget [SaveUserinfo] 522.
Definition tr_461 : target action := mkTarget [MarkU] 508.
Definition tr_462 : target action := mkTarget [MarkU] 454.
Definition tr_463 : target action := mkTarget [MarkU] 1.
Definition tr_466 : target action := mkTarget [MarkU] 457.
Definition tr_467 : target action := mkTarget [MarkU; SaveQuery] 453.
Definition tr_468 : target action := mkTarget [MarkU] 7.
Definition tr_469 : target action := mkTarget [SaveQuery] 453.
Definition tr_472 : target action := mkTarget [MarkH] 9.
Definition tr_473 : target action := mkTarget [MarkH] 467.
Definition tr_474 : target action := mkTarget [MarkH; SaveHost] 453.
Definition tr_475 : target action := mkTarget [MarkH] 31.
Definition tr_476 : target action := mkTarget [MarkH; SaveHost] 455.
Definition tr_477 : target action := mkTarget [MarkH] 490.
Definition tr_478 : target action := mkTarget [MarkH] 504.
Definition tr_479 : target action := mkTarget [MarkH] 506.
Definition tr_480 : target action := mkTarget [MarkH] 505.
Definition tr_481 : target action := mkTarget [MarkH; SaveHost] 468.
Definition tr_482 : target action := mkTarget [MarkH; SaveHost] 456.
Definition tr_483 : target action := mkTarget [MarkH; SaveUserinfo] 469.
Definition tr_484 : target action := mkTarget [MarkH] 38.
Definition tr_485 : target action := mkTarget [SaveHost] 453.
Definition tr_486 : target action := mkTarget [SaveHost] 455.
Definition tr_487 : target action := mkTarget [SaveHost] 461.
Definition tr_488 : target action := mkTarget [SaveHost] 456.
Definition tr_489 : target action := mkTarget [MarkH; SavePort] 453.
Definition tr_490 : target action := mkTarget [MarkH; SavePort] 455.
Definition tr_491 : target action := mkTarget [MarkH] 462.
Definition tr_492 : target action := mkTarget [MarkH; SavePort] 456.
Definition tr_493 : target action := mkTarget [SavePort] 453.
Definition tr_494 : target action := mkTarget [SavePort] 455.
Definition tr_496 : target action := mkTarget [SavePort] 456.
Definition tr_499 : target action := mkTarget [SaveHost] 468.
Definition tr_500 : target action := mkTarget [MarkH] 489.
Definition tr_501 : target action := mkTarget [MarkH] 470.
Definition tr_502 : target action := mkTarget [MarkH] 36.
Definition tr_503 : target action := mkTarget [MarkH] 471.
Definition tr_504 : target action := mkTarget [MarkH] 485.
Definition tr_505 : target action := mkTarget [MarkH] 487.
Definition tr_506 : target action := mkTarget [MarkH] 486.
Definition tr_507 : target action := mkTarget [MarkH; SaveHost] 461.
Definition tr_543 : target action := mkTarget [SaveScheme] 509.
Definition tr_546 : target action := mkTarget [MarkH] 229.
Definition tr_547 : target action := mkTarget [MarkH] 520.
Definition tr_548 : target action := mkTarget [MarkH; SaveHost; SavePath] 453.
Definition tr_549 : target action := mkTarget [MarkH] 253.
Definition tr_550 : target action := mkTarget [MarkH; SaveHost] 513.
Definition tr_551 : target action := mkTarget [MarkH] 543.
Definition tr_552 : target action := mkTarget [MarkH] 557.
Definition tr_553 : target action := mkTarget [MarkH] 559.
Definition tr_554 : target action := mkTarget [MarkH] 558.
Definition tr_555 : target action := mkTarget [MarkH; SaveHost] 521.
Definition tr_556 : target action := mkTarget [MarkH; SaveHost; SavePath] 456.
Definition tr_557 : target action := mkTarget [MarkH; SaveUserinfo] 522.
Definition tr_558 : target action := mkTarget [MarkH] 260.
Definition tr_559 : target action := mkTarget [SaveHost; MarkH; SavePath] 453.
Definition tr_560 : target action := mkTarget [SaveHost; MarkH] 513.
Definition tr_561 : target action := mkTarget [SaveHost] 514.
Definition tr_562 : target action := mkTarget [SaveHost; MarkH; SavePath] 456.
Definition tr_563 : target action := mkTarget [SavePath] 453.
Definition tr_565 : target action := mkTarget [SavePath] 456.
Definition tr_566 : target action := mkTarget [MarkH; SavePort; SavePath] 453.
Definition tr_567 : target action := mkTarget [MarkH; SavePort] 513.
Definition tr_568 : target action := mkTarget [MarkH] 515.
Definition tr_569 : target action := mkTarget [MarkH; SavePort; SavePath] 456.
Definition tr_570 : target action := mkTarget [SavePort; MarkH; SavePath] 453.
Definition tr_571 : target action := mkTarget [SavePort; MarkH] 513.
Definition tr_573 : target action := mkTarget [SavePort; MarkH; SavePath] 456.
Definition tr_576 : target action := mkTarget [SaveHost] 521.
Definition tr_577 : target action := mkTarget [MarkH] 542.
Definition tr_578 : target action := mkTarget [MarkH] 523.
Definition tr_579 : target action := mkTarget [MarkH] 258.
Definition tr_580 : target action := mkTarget [MarkH] 524.
Definition tr_581 : target action := mkTarget [MarkH] 538.
Definition tr_582 : target action := mkTarget [MarkH] 540.
Definition tr_583 : target action := mkTarget [MarkH] 539.
Definition tr_584 : target action := mkTarget [MarkH; SaveHost] 514.

Definition case_1 (c : Z) : option (target action) :=
  (if c <? 65
   then when ((48 <=? c) && (c <=? 57)) (goto (st 2))
   else (if c >? 70
     then when ((97 <=? c) && (c <=? 102)) (goto (st 2))
     else goto (st 2))) ||>
  goto (st 0).
Definition case_2 (c : Z) : option (target action) :=
  (if c <? 65
   then when ((48 <=? c) && (c <=? 57)) (goto (st 454))
   else (if c >? 70
     then when ((97 <=? c) && (c <=? 102)) (goto (st 454))
     else goto (st 454))) ||>
  goto (st 0).
Definition case_3 (c : Z) : option (target action) :=
  (if c <? 65
   then when ((48 <=? c) && (c <=? 57)) (goto (st 4))
   else (if c >? 70
     then when ((97 <=? c) && (c <=? 102)) (goto (st 4))
     else goto (st 4))) ||>
  goto (st 0).
Definition case_4 (c : Z) : option (target action) :=
  (if c <? 65
   then when ((48 <=? c) && (c <=? 57)) (goto (st 452))
   else (if c >? 70
     then when ((97 <=? c) && (c <=? 102)) (goto (st 452))
     else goto (st 452))) ||>
  goto (st 0).
Definition case_5 (c : Z) : option (target action) :=
  (if c <? 65
   then when ((48 <=? c) && (c <=? 57)) (goto (st 6))
   else (if c >? 70
     then when ((97 <=? c) && (c <=? 102)) (goto (st 6))
     else goto (st 6))) ||>
  goto (st 0).
Definition case_6 (c : Z) : option (target action) :=
  (if c <? 65
   then when ((48 <=? c) && (c <=? 57)) (goto (st 455))
   else (if c >? 70
     then when ((97 <=? c) && (c <=? 102)) (goto (st 455))
     else goto (st 455))) ||>
  goto (st 0).
Definition case_7 (c : Z) : option (target action) :=
  (if c <? 65
   then when ((48 <=? c) && (c <=? 57)) (goto (st 8))
   else (if c >? 70
     then when ((97 <=? c) && (c <=? 102)) (goto (st 8))
     else goto (st 8))) ||>
  goto (st 0).
Definition case_8 (c : Z) : option (target action) :=
  (if c <? 65
   then when ((48 <=? c) && (c <=? 57)) (goto (st 457))
   else (if c >? 70
     then when ((97 <=? c) && (c <=? 102)) (goto (st 457))
     else goto (st 457))) ||>
  goto (st 0).
Definition case_9 (c : Z) : option (target action) :=
  when ((48 <=? c) && (c <=? 52)) (goto (st 10)) ||>
  goto (st 0).
Definition case_10 (c : Z) : option (target action) :=
  when ((48 <=? c) && (c <=? 57)) (goto (st 11)) ||>
  goto (st 0).
Definition case_11 (c : Z) : option (target action) :=
  when (c =? 46) (goto (st 12)) ||>
  goto (st 0).
Definition case_12 (c : Z) : option (target action) :=
  switch c [(2, st 13); (48, st 15); (49, st 27); (50, st 29)] ||>
  when ((51 <=? c) && (c <=? 57)) (goto (st 28)) ||>
  goto (st 0).
Definition case_13 (c : Z) : option (target action) :=
  when ((48 <=? c) && (c <=? 52)) (goto (st 14)) ||>
  goto (st 0).
Definition case_14 (c : Z) : option (target action) :=
  when ((48 <=? c) && (c <=? 57)) (goto (st 15)) ||>
  goto (st 0).
Definition case_15 (c : Z) : option (target action) :=
  when (c =? 46) (goto (st 16)) ||>
  goto (st 0).
Definition case_16 (c : Z) : option (target action) :=
  switch c [(2, st 17); (48, st 19); (49, st 23); (50, st 25)] ||>
  when ((51 <=? c) && (c <=? 57)) (goto (st 24)) ||>
  goto (st 0).
Definition case_17 (c : Z) : option (target action) :=
  when ((48 <=? c) && (c <=? 52)) (goto (st 18)) ||>
  goto (st 0).
Definition case_18 (c : Z) : option (target action) :=
  when ((48 <=? c) && (c <=? 57)) (goto (st 19)) ||>
  goto (st 0).
Definition case_19 (c : Z) : option (target action) :=
  when (c =? 46) (goto (st 20)) ||>
  goto (st 0).
Definition case_20 (c : Z) : option (target action) :=
  switch c [(2, st 21); (48, st 460); (49, st 463); (50, st 465)] ||>
  when ((51 <=? c) && (c <=? 57)) (goto (st 464)) ||>
  goto (st 0).
Definition case_21 (c : Z) : option (target action) :=
  when ((48 <=? c) && (c <=? 52)) (goto (st 22)) ||>
  goto (st 0).
Definition case_22 (c : Z) : option (target action) :=
  when ((48 <=? c) && (c <=? 57)) (goto (st 460)) ||>
  goto (st 0).
Definition case_23 (c : Z) : option (target action) :=
  when (c =? 46) (goto (st 20)) ||>
  when ((48 <=? c) && (c <=? 57)) (goto (st 24)) ||>
  goto (st 0).
Definition case_24 (c : Z) : option (target action) :=
  when (c =? 46) (goto (st 20)) ||>
  when ((48 <=? c) && (c <=? 57)) (goto (st 19)) ||>
  goto (st 0).
Definition case_25 (c : Z) : option (target action) :=
  switch c [(46, st 20); (53, st 26)] ||>
  when ((48 <=? c) && (c <=? 57)) (goto (st 19)) ||>
  goto (st 0).
Definition case_26 (c : Z) : option (target action) :=
  when (c =? 46) (goto (st 20)) ||>
  when ((48 <=? c) && (c <=? 53)) (goto (st 19)) ||>
  goto (st 0).
Definition case_27 (c : Z) : option (target action) :=
  when (c =? 46) (goto (st 16)) ||>
  when ((48 <=? c) && (c <=? 57)) (goto (st 28)) ||>
  goto (st 0).
Definition case_28 (c : Z) : option (target action) :=
  when (c =? 46) (goto (st 16)) ||>
  when ((48 <=? c) && (c <=? 57)) (goto (st 15)) ||>
  goto (st 0).
Definition case_29 (c : Z) : option (target action) :=
  switch c [(46, st 16); (53, st 30)] ||>
  when ((48 <=? c) && (c <=? 57)) (goto (st 15)) ||>
  goto (st 0).
Definition case_30 (c : Z) : option (target action) :=
  when (c =? 46) (goto (st 16)) ||>
  when ((48 <=? c) && (c <=? 53)) (goto (st 15)) ||>
  goto (st 0).
Definition case_31 (c : Z) : option (target action) :=
  (if c <? 65
   then when ((48 <=? c) && (c <=? 57)) (goto (st 32))
   else (if c >? 70
     then when ((97 <=? c) && (c <=? 102)) (goto (st 32))
     else goto (st 32))) ||>
  goto (st 0).
Definition case_32 (c : Z) : option (target action) :=
  (if c <? 65
   then when ((48 <=? c) && (c <=? 57)) (goto (st 467))
   else (if c >? 70
     then when ((97 <=? c) && (c <=? 102)) (goto (st 467))
     else goto (st 467))) ||>
  goto (st 0).
Definition case_33 (c : Z) : option (target action) :=
  switch c [(33, st 33); (37, st 34); (61, st 33); (64, tr_38); (95, st 33); (126, st 33)] ||>
  (if c <? 48
   then when ((36 <=? c) && (c <=? 46)) (goto (st 33))
   else (if c >? 59
     then (if c >? 90
       then when ((97 <=? c) && (c <=? 122)) (goto (st 33))
       else when (c >=? 65) (goto (st 33)))
     else goto (st 33))) ||>
  goto (st 0).
Definition case_34 (c : Z) : option (target action) :=
  (if c <? 65
   then when ((48 <=? c) && (c <=? 57)) (goto (st 35))
   else (if c >? 70
     then when ((97 <=? c) && (c <=? 102)) (goto (st 35))
     else goto (st 35))) ||>
  goto (st 0).
Definition case_35 (c : Z) : option (target action) :=
  (if c <? 65
   then when ((48 <=? c) && (c <=? 57)) (goto (st 33))
   else (if c >? 70
     then when ((97 <=? c) && (c <=? 102)) (goto (st 33))
     else goto (st 33))) ||>
  goto (st 0).
Definition case_36 (c : Z) : option (target action) :=
  (if c <? 65
   then when ((48 <=? c) && (c <=? 57)) (goto (st 37))
   else (if c >? 70
     then when ((97 <=? c) && (c <=? 102)) (goto (st 37))
     else goto (st 37))) ||>
  goto (st 0).
Definition case_37 (c : Z) : option (target action) :=
  (if c <? 65
   then when ((48 <=? c) && (c <=? 57)) (goto (st 470))
   else (if c >? 70
     then when ((97 <=? c) && (c <=? 102)) (goto (st 470))
     else goto (st 470))) ||>
  goto (st 0).
Definition case_38 (c : Z) : option (target action) :=
  switch c [(58, st 146); (118, st 225)] ||>
  (if c <? 65
   then when ((48 <=? c) && (c <=? 57)) (goto (st 39))
   else (if c >? 70
     then when ((97 <=? c) && (c <=? 102)) (goto (st 39))
     else goto (st 39))) ||>
  goto (st 0).
Definition case_39 (c : Z) : option (target action) :=
  when (c =? 58) (goto (st 43)) ||>
  (if c <? 65
   then when ((48 <=? c) && (c <=? 57)) (goto (st 40))
   else (if c >? 70
     then when ((97 <=? c) && (c <=? 102)) (goto (st 40))
     else goto (st 40))) ||>
  goto (st 0).
Definition case_40 (c : Z) : option (target action) :=
  when (c =? 58) (goto (st 43)) ||>
  (if c <? 65
   then when ((48 <=? c) && (c <=? 57)) (goto (st 41))
   else (if c >? 70
     then when ((97 <=? c) && (c <=? 102)) (goto (st 41))
     else goto (st 41))) ||>
  goto (st 0).
Definition case_41 (c : Z) : option (target action) :=
  when (c =? 58) (goto (st 43)) ||>
  (if c <? 65
   then when ((48 <=? c) && (c <=? 57)) (goto (st 42))
   else (if c >? 70
     then when ((97 <=? c) && (c <=? 102)) (goto (st 42))
     else goto (st 42))) ||>
  goto (st 0).
Definition case_42 (c : Z) : option (target action) :=
  when (c =? 58) (goto (st 43)) ||>
  goto (st 0).
Definition case_43 (c : Z) : option (target action) :=
  when (c =? 58) (goto (st 141)) ||>
  (if c <? 65
   then when ((48 <=? c) && (c <=? 57)) (goto (st 44))
   else (if c >? 70
     then when ((97 <=? c) && (c <=? 102)) (goto (st 44))
     else goto (st 44))) ||>
  goto (st 0).
Definition case_44 (c : Z) : option (target action) :=
  when (c =? 58) (goto (st 48)) ||>
  (if c <? 65
   then when ((48 <=? c) && (c <=? 57)) (goto (st 45))
   else (if c >? 70
     then when ((97 <=? c) && (c <=? 102)) (goto (st 45))
     else goto (st 45))) ||>
  goto (st 0).
Definition case_45 (c : Z) : option (target action) :=
  when (c =? 58) (goto (st 48)) ||>
  (if c <? 65
   then when ((48 <=? c) && (c <=? 57)) (goto (st 46))
   else (if c >? 70
     then when ((97 <=? c) && (c <=? 102)) (goto (st 46))
     else goto (st 46))) ||>
  goto (st 0).
Definition case_46 (c : Z) : option (target action) :=
  when (c =? 58) (goto (st 48)) ||>
  (if c <? 65
   then when ((48 <=? c) && (c <=? 57)) (goto (st 47))
   else (if c >? 70
     then when ((97 <=? c) && (c <=? 102)) (goto (st 47))
     else goto (st 47))) ||>
  goto (st 0).
Definition case_47 (c : Z) : option (target action) :=
  when (c =? 58) (goto (st 48)) ||>
  goto (st 0).
Definition case_48 (c : Z) : option (target action) :=
  when (c =? 58) (goto (st 136)) ||>
  (if c <? 65
   then when ((48 <=? c) && (c <=? 57)) (goto (st 49))
   else (if c >? 70
     then when ((97 <=? c) && (c <=? 102)) (goto (st 49))
     else goto (st 49))) ||>
  goto (st 0).
Definition case_49 (c : Z) : option (target action) :=
  when (c =? 58) (goto (st 53)) ||>
  (if c <? 65
   then when ((48 <=? c) && (c <=? 57)) (goto (st 50))
   else (if c >? 70
     then when ((97 <=? c) && (c <=? 102)) (goto (st 50))
     else goto (st 50))) ||>
  goto (st 0).
Definition case_50 (c : Z) : option (target action) :=
  when (c =? 58) (goto (st 53)) ||>
  (if c <? 65
   then when ((48 <=? c) && (c <=? 57)) (goto (st 51))
   else (if c >? 70
     then when ((97 <=? c) && (c <=? 102)) (goto (st 51))
     else goto (st 51))) ||>
  goto (st 0).
Definition case_51 (c : Z) : option (target action) :=
  when (c =? 58) (goto (st 53)) ||>
  (if c <? 65
   then when ((48 <=? c) && (c <=? 57)) (goto (st 52))
   else (if c >? 70
     then when ((97 <=? c) && (c <=? 102)) (goto (st 52))
     else goto (st 52))) ||>
  goto (st 0).
Definition case_52 (c : Z) : option (target action) :=
  when (c =? 58) (goto (st 53)) ||>
  goto (st 0).
Definition case_53 (c : Z) : option (target action) :=
  when (c =? 58) (goto (st 131)) ||>
  (if c <? 65
   then when ((48 <=? c) && (c <=? 57)) (goto (st 54))
   else (if c >? 70
     then when ((97 <=? c) && (c <=? 102)) (goto (st 54))
     else goto (st 54))) ||>
  goto (st 0).
Definition case_54 (c : Z) : option (target action) :=
  when (c =? 58) (goto (st 58)) ||>
  (if c <? 65
   then when ((48 <=? c) && (c <=? 57)) (goto (st 55))
   else (if c >? 70
     then when ((97 <=? c) && (c <=? 102)) (goto (st 55))
     else goto (st 55))) ||>
  goto (st 0).
Definition case_55 (c : Z) : option (target action) :=
  when (c =? 58) (goto (st 58)) ||>
  (if c <? 65
   then when ((48 <=? c) && (c <=? 57)) (goto (st 56))
   else (if c >? 70
     then when ((97 <=? c) && (c <=? 102)) (goto (st 56))
     else goto (st 56))) ||>
  goto (st 0).
Definition case_56 (c : Z) : option (target action) :=
  when (c =? 58) (goto (st 58)) ||>
  (if c <? 65
   then when ((48 <=? c) && (c <=? 57)) (goto (st 57))
   else (if c >? 70
     then when ((97 <=? c) && (c <=? 102)) (goto (st 57))
     else goto (st 57))) ||>
  goto (st 0).
Definition case_57 (c : Z) : option (target action) :=
  when (c =? 58) (goto (st 58)) ||>
  goto (st 0).
Definition case_58 (c : Z) : option (target action) :=
  when (c =? 58) (goto (st 126)) ||>
  (if c <? 65
   then when ((48 <=? c) && (c <=? 57)) (goto (st 59))
   else (if c >? 70
     then when ((97 <=? c) && (c <=? 102)) (goto (st 59))
     else goto (st 59))) ||>
  goto (st 0).
Definition case_59 (c : Z) : option (target action) :=
  when (c =? 58) (goto (st 63)) ||>
  (if c <? 65
   then when ((48 <=? c) && (c <=? 57)) (goto (st 60))
   else (if c >? 70
     then when ((97 <=? c) && (c <=? 102)) (goto (st 60))
     else goto (st 60))) ||>
  goto (st 0).
Definition case_60 (c : Z) : option (target action) :=
  when (c =? 58) (goto (st 63)) ||>
  (if c <? 65
   then when ((48 <=? c) && (c <=? 57)) (goto (st 61))
   else (if c >? 70
     then when ((97 <=? c) && (c <=? 102)) (goto (st 61))
     else goto (st 61))) ||>
  goto (st 0).
Definition case_61 (c : Z) : option (target action) :=
  when (c =? 58) (goto (st 63)) ||>
  (if c <? 65
   then when ((48 <=? c) && (c <=? 57)) (goto (st 62))
   else (if c >? 70
     then when ((97 <=? c) && (c <=? 102)) (goto (st 62))
     else goto (st 62))) ||>
  goto (st 0).
Definition case_62 (c : Z) : option (target action) :=
  when (c =? 58) (goto (st 63)) ||>
  goto (st 0).
Definition case_63 (c : Z) : option (target action) :=
  when (c =? 58) (goto (st 113)) ||>
  (if c <? 65
   then when ((48 <=? c) && (c <=? 57)) (goto (st 64))
   else (if c >? 70
     then when ((97 <=? c) && (c <=? 102)) (goto (st 64))
     else goto (st 64))) ||>
  goto (st 0).
Definition case_64 (c : Z) : option (target action) :=
  when (c =? 58) (goto (st 68)) ||>
  (if c <? 65
   then when ((48 <=? c) && (c <=? 57)) (goto (st 65))
   else (if c >? 70
     then when ((97 <=? c) && (c <=? 102)) (goto (st 65))
     else goto (st 65))) ||>
  goto (st 0).
Definition case_65 (c : Z) : option (target action) :=
  when (c =? 58) (goto (st 68)) ||>
  (if c <? 65
   then when ((48 <=? c) && (c <=? 57)) (goto (st 66))
   else (if c >? 70
     then when ((97 <=? c) && (c <=? 102)) (goto (st 66))
     else goto (st 66))) ||>
  goto (st 0).
Definition case_66 (c : Z) : option (target action) :=
  when (c =? 58) (goto (st 68)) ||>
  (if c <? 65
   then when ((48 <=? c) && (c <=? 57)) (goto (st 67))
   else (if c >? 70
     then when ((97 <=? c) && (c <=? 102)) (goto (st 67))
     else goto (st 67))) ||>
  goto (st 0).
Definition case_67 (c : Z) : option (target action) :=
  when (c =? 58) (goto (st 68)) ||>
  goto (st 0).
Definition case_68 (c : Z) : option (target action) :=
  switch c [(2, st 69); (48, st 96); (49, st 104); (50, st 107); (58, st 111)] ||>
  (if c <? 65
   then when ((51 <=? c) && (c <=? 57)) (goto (st 110))
   else (if c >? 70
     then when ((97 <=? c) && (c <=? 102)) (goto (st 112))
     else goto (st 112))) ||>
  goto (st 0).
Definition case_69 (c : Z) : option (target action) :=
  when ((48 <=? c) && (c <=? 52)) (goto (st 70)) ||>
  goto (st 0).
Definition case_70 (c : Z) : option (target action) :=
  when ((48 <=? c) && (c <=? 57)) (goto (st 71)) ||>
  goto (st 0).
Definition case_71 (c : Z) : option (target action) :=
  when (c =? 46) (goto (st 72)) ||>
  goto (st 0).
Definition case_72 (c : Z) : option (target action) :=
  switch c [(2, st 73); (48, st 75); (49, st 92); (50, st 94)] ||>
  when ((51 <=? c) && (c <=? 57)) (goto (st 93)) ||>
  goto (st 0).
Definition case_73 (c : Z) : option (target action) :=
  when ((48 <=? c) && (c <=? 52)) (goto (st 74)) ||>
  goto (st 0).
Definition case_74 (c : Z) : option (target action) :=
  when ((48 <=? c) && (c <=? 57)) (goto (st 75)) ||>
  goto (st 0).
Definition case_75 (c : Z) : option (target action) :=
  when (c =? 46) (goto (st 76)) ||>
  goto (st 0).
Definition case_76 (c : Z) : option (target action) :=
  switch c [(2, st 77); (48, st 79); (49, st 88); (50, st 90)] ||>
  when ((51 <=? c) && (c <=? 57)) (goto (st 89)) ||>
  goto (st 0).
Definition case_77 (c : Z) : option (target action) :=
  when ((48 <=? c) && (c <=? 52)) (goto (st 78)) ||>
  goto (st 0).
Definition case_78 (c : Z) : option (target action) :=
  when ((48 <=? c) && (c <=? 57)) (goto (st 79)) ||>
  goto (st 0).
Definition case_79 (c : Z) : option (target action) :=
  when (c =? 46) (goto (st 80)) ||>
  goto (st 0).
Definition case_80 (c : Z) : option (target action) :=
  switch c [(2, st 81); (48, st 83); (49, st 84); (50, st 86)] ||>
  when ((51 <=? c) && (c <=? 57)) (goto (st 85)) ||>
  goto (st 0).
Definition case_81 (c : Z) : option (target action) :=
  when ((48 <=? c) && (c <=? 52)) (goto (st 82)) ||>
  goto (st 0).
Definition case_82 (c : Z) : option (target action) :=
  when ((48 <=? c) && (c <=? 57)) (goto (st 83)) ||>
  goto (st 0).
Definition case_83 (c : Z) : option (target action) :=
  when (c =? 93) (goto (st 460)) ||>
  goto (st 0).
Definition case_84 (c : Z) : option (target action) :=
  when (c =? 93) (goto (st 460)) ||>
  when ((48 <=? c) && (c <=? 57)) (goto (st 85)) ||>
  goto (st 0).
Definition case_85 (c : Z) : option (target action) :=
  when (c =? 93) (goto (st 460)) ||>
  when ((48 <=? c) && (c <=? 57)) (goto (st 83)) ||>
  goto (st 0).
Definition case_86 (c : Z) : option (target action) :=
  switch c [(53, st 87); (93, st 460)] ||>
  when ((48 <=? c) && (c <=? 57)) (goto (st 83)) ||>
  goto (st 0).
Definition case_87 (c : Z) : option (target action) :=
  when (c =? 93) (goto (st 460)) ||>
  when ((48 <=? c) && (c <=? 53)) (goto (st 83)) ||>
  goto (st 0).
Definition case_88 (c : Z) : option (target action) :=
  when (c =? 46) (goto (st 80)) ||>
  when ((48 <=? c) && (c <=? 57)) (goto (st 89)) ||>
  goto (st 0).
Definition case_89 (c : Z) : option (target action) :=
  when (c =? 46) (goto (st 80)) ||>
  when ((48 <=? c) && (c <=? 57)) (goto (st 79)) ||>
  goto (st 0).
Definition case_90 (c : Z) : option (target action) :=
  switch c [(46, st 80); (53, st 91)] ||>
  when ((48 <=? c) && (c <=? 57)) (goto (st 79)) ||>
  goto (st 0).
Definition case_91 (c : Z) : option (target action) :=
  when (c =? 46) (goto (st 80)) ||>
  when ((48 <=? c) && (c <=? 53)) (goto (st 79)) ||>
  goto (st 0).
Definition case_92 (c : Z) : option (target action) :=
  when (c =? 46) (goto (st 76)) ||>
  when ((48 <=? c) && (c <=? 57)) (goto (st 93)) ||>
  goto (st 0).
Definition case_93 (c : Z) : option (target action) :=
  when (c =? 46) (goto (st 76)) ||>
  when ((48 <=? c) && (c <=? 57)) (goto (st 75)) ||>
  goto (st 0).
Definition case_94 (c : Z) : option (target action) :=
  switch c [(46, st 76); (53, st 95)] ||>
  when ((48 <=? c) && (c <=? 57)) (goto (st 75)) ||>
  goto (st 0).
Definition case_95 (c : Z) : option (target action) :=
  when (c =? 46) (goto (st 76)) ||>
  when ((48 <=? c) && (c <=? 53)) (goto (st 75)) ||>
  goto (st 0).
Definition case_96 (c : Z) : option (target action) :=
  switch c [(46, st 72); (58, st 100)] ||>
  (if c <? 65
   then when ((48 <=? c) && (c <=? 57)) (goto (st 97))
   else (if c >? 70
     then when ((97 <=? c) && (c <=? 102)) (goto (st 97))
     else goto (st 97))) ||>
  goto (st 0).
Definition case_97 (c : Z) : option (target action) :=
  when (c =? 58) (goto (st 100)) ||>
  (if c <? 65
   then when ((48 <=? c) && (c <=? 57)) (goto (st 98))
   else (if c >? 70
     then when ((97 <=? c) && (c <=? 102)) (goto (st 98))
     else goto (st 98))) ||>
  goto (st 0).
Definition case_98 (c : Z) : option (target action) :=
  when (c =? 58) (goto (st 100)) ||>
  (if c <? 65
   then when ((48 <=? c) && (c <=? 57)) (goto (st 99))
   else (if c >? 70
     then when ((97 <=? c) && (c <=? 102)) (goto (st 99))
     else goto (st 99))) ||>
  goto (st 0).
Definition case_99 (c : Z) : option (target action) :=
  when (c =? 58) (goto (st 100)) ||>
  goto (st 0).
Definition case_100 (c : Z) : option (target action) :=
  when (c =? 58) (goto (st 83)) ||>
  (if c <? 65
   then when ((48 <=? c) && (c <=? 57)) (goto (st 101))
   else (if c >? 70
     then when ((97 <=? c) && (c <=? 102)) (goto (st 101))
     else goto (st 101))) ||>
  goto (st 0).
Definition case_101 (c : Z) : option (target action) :=
  when (c =? 93) (goto (st 460)) ||>
  (if c <? 65
   then when ((48 <=? c) && (c <=? 57)) (goto (st 102))
   else (if c >? 70
     then when ((97 <=? c) && (c <=? 102)) (goto (st 102))
     else goto (st 102))) ||>
  goto (st 0).
Definition case_102 (c : Z) : option (target action) :=
  when (c =? 93) (goto (st 460)) ||>
  (if c <? 65
   then when ((48 <=? c) && (c <=? 57)) (goto (st 103))
   else (if c >? 70
     then when ((97 <=? c) && (c <=? 102)) (goto (st 103))
     else goto (st 103))) ||>
  goto (st 0).
Definition case_103 (c : Z) : option (target action) :=
  when (c =? 93) (goto (st 460)) ||>
  (if c <? 65
   then when ((48 <=? c) && (c <=? 57)) (goto (st 83))
   else (if c >? 70
     then when ((97 <=? c) && (c <=? 102)) (goto (st 83))
     else goto (st 83))) ||>
  goto (st 0).
Definition case_104 (c : Z) : option (target action) :=
  switch c [(46, st 72); (58, st 100)] ||>
  (if c <? 65
   then when ((48 <=? c) && (c <=? 57)) (goto (st 105))
   else (if c >? 70
     then when ((97 <=? c) && (c <=? 102)) (goto (st 97))
     else goto (st 97))) ||>
  goto (st 0).
Definition case_105 (c : Z) : option (target action) :=
  switch c [(46, st 72); (58, st 100)] ||>
  (if c <? 65
   then when ((48 <=? c) && (c <=? 57)) (goto (st 106))
   else (if c >? 70
     then when ((97 <=? c) && (c <=? 102)) (goto (st 98))
     else goto (st 98))) ||>
  goto (st 0).
Definition case_106 (c : Z) : option (target action) :=
  switch c [(46, st 72); (58, st 100)] ||>
  (if c <? 65
   then when ((48 <=? c) && (c <=? 57)) (goto (st 99))
   else (if c >? 70
     then when ((97 <=? c) && (c <=? 102)) (goto (st 99))
     else goto (st 99))) ||>
  goto (st 0).
Definition case_107 (c : Z) : option (target action) :=
  switch c [(46, st 72); (53, st 109); (58, st 100)] ||>
  (if c <? 65
   then when ((48 <=? c) && (c <=? 57)) (goto (st 108))
   else (if c >? 70
     then when ((97 <=? c) && (c <=? 102)) (goto (st 97))
     else goto (st 97))) ||>
  goto (st 0).
Definition case_108 (c : Z) : option (target action) :=
  switch c [(46, st 72); (58, st 100)] ||>
  (if c <? 65
   then when ((48 <=? c) && (c <=? 57)) (goto (st 98))
   else (if c >? 70
     then when ((97 <=? c) && (c <=? 102)) (goto (st 98))
     else goto (st 98))) ||>
  goto (st 0).
Definition case_109 (c : Z) : option (target action) :=
  switch c [(46, st 72); (58, st 100)] ||>
  (if c <? 54
   then when ((48 <=? c) && (c <=? 53)) (goto (st 106))
   else (if c >? 57
     then (if c >? 70
       then when ((97 <=? c) && (c <=? 102)) (goto (st 98))
       else when (c >=? 65) (goto (st 98)))
     else goto (st 98))) ||>
  goto (st 0).
Definition case_110 (c : Z) : option (target action) :=
  switch c [(46, st 72); (58, st 100)] ||>
  (if c <? 65
   then when ((48 <=? c) && (c <=? 57)) (goto (st 108))
   else (if c >? 70
     then when ((97 <=? c) && (c <=? 102)) (goto (st 97))
     else goto (st 97))) ||>
  goto (st 0).
Definition case_111 (c : Z) : option (target action) :=
  (if c <? 65
   then when ((48 <=? c) && (c <=? 57)) (goto (st 101))
   else (if c >? 70
     then when ((97 <=? c) && (c <=? 102)) (goto (st 101))
     else goto (st 101))) ||>
  goto (st 0).
Definition case_112 (c : Z) : option (target action) :=
  when (c =? 58) (goto (st 100)) ||>
  (if c <? 65
   then when ((48 <=? c) && (c <=? 57)) (goto (st 97))
   else (if c >? 70
     then when ((97 <=? c) && (c <=? 102)) (goto (st 97))
     else goto (st 97))) ||>
  goto (st 0).
Definition case_113 (c : Z) : option (target action) :=
  switch c [(2, st 69); (48, st 114); (49, st 118); (50, st 121)] ||>
  (if c <? 65
   then when ((51 <=? c) && (c <=? 57)) (goto (st 124))
   else (if c >? 70
     then when ((97 <=? c) && (c <=? 102)) (goto (st 125))
     else goto (st 125))) ||>
  goto (st 0).
Definition case_114 (c : Z) : option (target action) :=
  switch c [(46, st 72); (58, st 111)] ||>
  (if c <? 65
   then when ((48 <=? c) && (c <=? 57)) (goto (st 115))
   else (if c >? 70
     then when ((97 <=? c) && (c <=? 102)) (goto (st 115))
     else goto (st 115))) ||>
  goto (st 0).
Definition case_115 (c : Z) : option (target action) :=
  when (c =? 58) (goto (st 111)) ||>
  (if c <? 65
   then when ((48 <=? c) && (c <=? 57)) (goto (st 116))
   else (if c >? 70
     then when ((97 <=? c) && (c <=? 102)) (goto (st 116))
     else goto (st 116))) ||>
  goto (st 0).
Definition case_116 (c : Z) : option (target action) :=
  when (c =? 58) (goto (st 111)) ||>
  (if c <? 65
   then when ((48 <=? c) && (c <=? 57)) (goto (st 117))
   else (if c >? 70
     then when ((97 <=? c) && (c <=? 102)) (goto (st 117))
     else goto (st 117))) ||>
  goto (st 0).
Definition case_117 (c : Z) : option (target action) :=
  when (c =? 58) (goto (st 111)) ||>
  goto (st 0).
Definition case_118 (c : Z) : option (target action) :=
  switch c [(46, st 72); (58, st 111)] ||>
  (if c <? 65
   then when ((48 <=? c) && (c <=? 57)) (goto (st 119))
   else (if c >? 70
     then when ((97 <=? c) && (c <=? 102)) (goto (st 115))
     else goto (st 115))) ||>
  goto (st 0).
Definition case_119 (c : Z) : option (target action) :=
  switch c [(46, st 72); (58, st 111)] ||>
  (if c <? 65
   then when ((48 <=? c) && (c <=? 57)) (goto (st 120))
   else (if c >? 70
     then when ((97 <=? c) && (c <=? 102)) (goto (st 116))
     else goto (st 116))) ||>
  goto (st 0).
Definition case_120 (c : Z) : option (target action) :=
  switch c [(46, st 72); (58, st 111)] ||>
  (if c <? 65
   then when ((48 <=? c) && (c <=? 57)) (goto (st 117))
   else (if c >? 70
     then when ((97 <=? c) && (c <=? 102)) (goto (st 117))
     else goto (st 117))) ||>
  goto (st 0).
Definition case_121 (c : Z) : option (target action) :=
  switch c [(46, st 72); (53, st 123); (58, st 111)] ||>
  (if c <? 65
   then when ((48 <=? c) && (c <=? 57)) (goto (st 122))
   else (if c >? 70
     then when ((97 <=? c) && (c <=? 102)) (goto (st 115))
     else goto (st 115))) ||>
  goto (st 0).
Definition case_122 (c : Z) : option (target action) :=
  switch c [(46, st 72); (58, st 111)] ||>
  (if c <? 65
   then when ((48 <=? c) && (c <=? 57)) (goto (st 116))
   else (if c >? 70
     then when ((97 <=? c) && (c <=? 102)) (goto (st 116))
     else goto (st 116))) ||>
  goto (st 0).
Definition case_123 (c : Z) : option (target action) :=
  switch c [(46, st 72); (58, st 111)] ||>
  (if c <? 54
   then when ((48 <=? c) && (c <=? 53)) (goto (st 120))
   else (if c >? 57
     then (if c >? 70
       then when ((97 <=? c) && (c <=? 102)) (goto (st 116))
       else when (c >=? 65) (goto (st 116)))
     else goto (st 116))) ||>
  goto (st 0).
Definition case_124 (c : Z) : option (target action) :=
  switch c [(46, st 72); (58, st 111)] ||>
  (if c <? 65
   then when ((48 <=? c) && (c <=? 57)) (goto (st 122))
   else (if c >? 70
     then when ((97 <=? c) && (c <=? 102)) (goto (st 115))
     else goto (st 115))) ||>
  goto (st 0).
Definition case_125 (c : Z) : option (target action) :=
  when (c =? 58) (goto (st 111)) ||>
  (if c <? 65
   then when ((48 <=? c) && (c <=? 57)) (goto (st 115))
   else (if c >? 70
     then when ((97 <=? c) && (c <=? 102)) (goto (st 115))
     else goto (st 115))) ||>
  goto (st 0).
Definition case_126 (c : Z) : option (target action) :=
  (if c <? 65
   then when ((48 <=? c) && (c <=? 57)) (goto (st 127))
   else (if c >? 70
     then when ((97 <=? c) && (c <=? 102)) (goto (st 127))
     else goto (st 127))) ||>
  goto (st 0).
Definition case_127 (c : Z) : option (target action) :=
  when (c =? 58) (goto (st 113)) ||>
  (if c <? 65
   then when ((48 <=? c) && (c <=? 57)) (goto (st 128))
   else (if c >? 70
     then when ((97 <=? c) && (c <=? 102)) (goto (st 128))
     else goto (st 128))) ||>
  goto (st 0).
Definition case_128 (c : Z) : option (target action) :=
  when (c =? 58) (goto (st 113)) ||>
  (if c <? 65
   then when ((48 <=? c) && (c <=? 57)) (goto (st 129))
   else (if c >? 70
     then when ((97 <=? c) && (c <=? 102)) (goto (st 129))
     else goto (st 129))) ||>
  goto (st 0).
Definition case_129 (c : Z) : option (target action) :=
  when (c =? 58) (goto (st 113)) ||>
  (if c <? 65
   then when ((48 <=? c) && (c <=? 57)) (goto (st 130))
   else (if c >? 70
     then when ((97 <=? c) && (c <=? 102)) (goto (st 130))
     else goto (st 130))) ||>
  goto (st 0).
Definition case_130 (c : Z) : option (target action) :=
  when (c =? 58) (goto (st 113)) ||>
  goto (st 0).
Definition case_131 (c : Z) : option (target action) :=
  (if c <? 65
   then when ((48 <=? c) && (c <=? 57)) (goto (st 132))
   else (if c >? 70
     then when ((97 <=? c) && (c <=? 102)) (goto (st 132))
     else goto (st 132))) ||>
  goto (st 0).
Definition case_132 (c : Z) : option (target action) :=
  when (c =? 58) (goto (st 126)) ||>
  (if c <? 65
   then when ((48 <=? c) && (c <=? 57)) (goto (st 133))
   else (if c >? 70
     then when ((97 <=? c) && (c <=? 102)) (goto (st 133))
     else goto (st 133))) ||>
  goto (st 0).
Definition case_133 (c : Z) : option (target action) :=
  when (c =? 58) (goto (st 126)) ||>
  (if c <? 65
   then when ((48 <=? c) && (c <=? 57)) (goto (st 134))
   else (if c >? 70
     then when ((97 <=? c) && (c <=? 102)) (goto (st 134))
     else goto (st 134))) ||>
  goto (st 0).
Definition case_134 (c : Z) : option (target action) :=
  when (c =? 58) (goto (st 126)) ||>
  (if c <? 65
   then when ((48 <=? c) && (c <=? 57)) (goto (st 135))
   else (if c >? 70
     then when ((97 <=? c) && (c <=? 102)) (goto (st 135))
     else goto (st 135))) ||>
  goto (st 0).
Definition case_135 (c : Z) : option (target action) :=
  when (c =? 58) (goto (st 126)) ||>
  goto (st 0).
Definition case_136 (c : Z) : option (target action) :=
  (if c <? 65
   then when ((48 <=? c) && (c <=? 57)) (goto (st 137))
   else (if c >? 70
     then when ((97 <=? c) && (c <=? 102)) (goto (st 137))
     else goto (st 137))) ||>
  goto (st 0).
Definition case_137 (c : Z) : option (target action) :=
  when (c =? 58) (goto (st 131)) ||>
  (if c <? 65
   then when ((48 <=? c) && (c <=? 57)) (goto (st 138))
   else (if c >? 70
     then when ((97 <=? c) && (c <=? 102)) (goto (st 138))
     else goto (st 138))) ||>
  goto (st 0).
Definition case_138 (c : Z) : option (target action) :=
  when (c =? 58) (goto (st 131)) ||>
  (if c <? 65
   then when ((48 <=? c) && (c <=? 57)) (goto (st 139))
   else (if c >? 70
     then when ((97 <=? c) && (c <=? 102)) (goto (st 139))
     else goto (st 139))) ||>
  goto (st 0).
Definition case_139 (c : Z) : option (target action) :=
  when (c =? 58) (goto (st 131)) ||>
  (if c <? 65
   then when ((48 <=? c) && (c <=? 57)) (goto (st 140))
   else (if c >? 70
     then when ((97 <=? c) && (c <=? 102)) (goto (st 140))
     else goto (st 140))) ||>
  goto (st 0).
Definition case_140 (c : Z) : option (target action) :=
  when (c =? 58) (goto (st 131)) ||>
  goto (st 0).
Definition case_141 (c : Z) : option (target action) :=
  (if c <? 65
   then when ((48 <=? c) && (c <=? 57)) (goto (st 142))
   else (if c >? 70
     then when ((97 <=? c) && (c <=? 102)) (goto (st 142))
     else goto (st 142))) ||>
  goto (st 0).
Definition case_142 (c : Z) : option (target action) :=
  when (c =? 58) (goto (st 136)) ||>
  (if c <? 65
   then when ((48 <=? c) && (c <=? 57)) (goto (st 143))
   else (if c >? 70
     then when ((97 <=? c) && (c <=? 102)) (goto (st 143))
     else goto (st 143))) ||>
  goto (st 0).
Definition case_143 (c : Z) : option (target action) :=
  when (c =? 58) (goto (st 136)) ||>
  (if c <? 65
   then when ((48 <=? c) && (c <=? 57)) (goto (st 144))
   else (if c >? 70
     then when ((97 <=? c) && (c <=? 102)) (goto (st 144))
     else goto (st 144))) ||>
  goto (st 0).
Definition case_144 (c : Z) : option (target action) :=
  when (c =? 58) (goto (st 136)) ||>
  (if c <? 65
   then when ((48 <=? c) && (c <=? 57)) (goto (st 145))
   else (if c >? 70
     then when ((97 <=? c) && (c <=? 102)) (goto (st 145))
     else goto (st 145))) ||>
  goto (st 0).
Definition case_145 (c : Z) : option (target action) :=
  when (c =? 58) (goto (st 136)) ||>
  goto (st 0).
Definition case_146 (c : Z) : option (target action) :=
  when (c =? 58) (goto (st 147)) ||>
  goto (st 0).
Definition case_147 (c : Z) : option (target action) :=
  switch c [(2, st 69); (48, st 148); (49, st 217); (50, st 220); (93, st 460)] ||>
  (if c <? 65
   then when ((51 <=? c) && (c <=? 57)) (goto (st 223))
   else (if c >? 70
     then when ((97 <=? c) && (c <=? 102)) (goto (st 224))
     else goto (st 224))) ||>
  goto (st 0).
Definition case_148 (c : Z) : option (target action) :=
  switch c [(46, st 72); (58, st 152); (93, st 460)] ||>
  (if c <? 65
   then when ((48 <=? c) && (c <=? 57)) (goto (st 149))
   else (if c >? 70
     then when ((97 <=? c) && (c <=? 102)) (goto (st 149))
     else goto (st 149))) ||>
  goto (st 0).
Definition case_149 (c : Z) : option (target action) :=
  switch c [(58, st 152); (93, st 460)] ||>
  (if c <? 65
   then when ((48 <=? c) && (c <=? 57)) (goto (st 150))
   else (if c >? 70
     then when ((97 <=? c) && (c <=? 102)) (goto (st 150))
     else goto (st 150))) ||>
  goto (st 0).
Definition case_150 (c : Z) : option (target action) :=
  switch c [(58, st 152); (93, st 460)] ||>
  (if c <? 65
   then when ((48 <=? c) && (c <=? 57)) (goto (st 151))
   else (if c >? 70
     then when ((97 <=? c) && (c <=? 102)) (goto (st 151))
     else goto (st 151))) ||>
  goto (st 0).
Definition case_151 (c : Z) : option (target action) :=
  switch c [(58, st 152); (93, st 460)] ||>
  goto (st 0).
Definition case_152 (c : Z) : option (target action) :=
  switch c [(2, st 69); (48, st 153); (49, st 209); (50, st 212)] ||>
  (if c <? 65
   then when ((51 <=? c) && (c <=? 57)) (goto (st 215))
   else (if c >? 70
     then when ((97 <=? c) && (c <=? 102)) (goto (st 216))
     else goto (st 216))) ||>
  goto (st 0).
Definition case_153 (c : Z) : option (target action) :=
  switch c [(46, st 72); (58, st 157); (93, st 460)] ||>
  (if c <? 65
   then when ((48 <=? c) && (c <=? 57)) (goto (st 154))
   else (if c >? 70
     then when ((97 <=? c) && (c <=? 102)) (goto (st 154))
     else goto (st 154))) ||>
  goto (st 0).
Definition case_154 (c : Z) : option (target action) :=
  switch c [(58, st 157); (93, st 460)] ||>
  (if c <? 65
   then when ((48 <=? c) && (c <=? 57)) (goto (st 155))
   else (if c >? 70
     then when ((97 <=? c) && (c <=? 102)) (goto (st 155))
     else goto (st 155))) ||>
  goto (st 0).
Definition case_155 (c : Z) : option (target action) :=
  switch c [(58, st 157); (93, st 460)] ||>
  (if c <? 65
   then when ((48 <=? c) && (c <=? 57)) (goto (st 156))
   else (if c >? 70
     then when ((97 <=? c) && (c <=? 102)) (goto (st 156))
     else goto (st 156))) ||>
  goto (st 0).
Definition case_156 (c : Z) : option (target action) :=
  switch c [(58, st 157); (93, st 460)] ||>
  goto (st 0).
Definition case_157 (c : Z) : option (target action) :=
  switch c [(2, st 69); (48, st 158); (49, st 201); (50, st 204)] ||>
  (if c <? 65
   then when ((51 <=? c) && (c <=? 57)) (goto (st 207))
   else (if c >? 70
     then when ((97 <=? c) && (c <=? 102)) (goto (st 208))
     else goto (st 208))) ||>
  goto (st 0).
Definition case_158 (c : Z) : option (target action) :=
  switch c [(46, st 72); (58, st 162); (93, st 460)] ||>
  (if c <? 65
   then when ((48 <=? c) && (c <=? 57)) (goto (st 159))
   else (if c >? 70
     then when ((97 <=? c) && (c <=? 102)) (goto (st 159))
     else goto (st 159))) ||>
  goto (st 0).
Definition case_159 (c : Z) : option (target action) :=
  switch c [(58, st 162); (93, st 460)] ||>
  (if c <? 65
   then when ((48 <=? c) && (c <=? 57)) (goto (st 160))
   else (if c >? 70
     then when ((97 <=? c) && (c <=? 102)) (goto (st 160))
     else goto (st 160))) ||>
  goto (st 0).
Definition case_160 (c : Z) : option (target action) :=
  switch c [(58, st 162); (93, st 460)] ||>
  (if c <? 65
   then when ((48 <=? c) && (c <=? 57)) (goto (st 161))
   else (if c >? 70
     then when ((97 <=? c) && (c <=? 102)) (goto (st 161))
     else goto (st 161))) ||>
  goto (st 0).
Definition case_161 (c : Z) : option (target action) :=
  switch c [(58, st 162); (93, st 460)] ||>
  goto (st 0).
Definition case_162 (c : Z) : option (target action) :=
  switch c [(2, st 69); (48, st 163); (49, st 193); (50, st 196)] ||>
  (if c <? 65
   then when ((51 <=? c) && (c <=? 57)) (goto (st 199))
   else (if c >? 70
     then when ((97 <=? c) && (c <=? 102)) (goto (st 200))
     else goto (st 200))) ||>
  goto (st 0).
Definition case_163 (c : Z) : option (target action) :=
  switch c [(46, st 72); (58, st 167); (93, st 460)] ||>
  (if c <? 65
   then when ((48 <=? c) && (c <=? 57)) (goto (st 164))
   else (if c >? 70
     then when ((97 <=? c) && (c <=? 102)) (goto (st 164))
     else goto (st 164))) ||>
  goto (st 0).
Definition case_164 (c : Z) : option (target action) :=
  switch c [(58, st 167); (93, st 460)] ||>
  (if c <? 65
   then when ((48 <=? c) && (c <=? 57)) (goto (st 165))
   else (if c >? 70
     then when ((97 <=? c) && (c <=? 102)) (goto (st 165))
     else goto (st 165))) ||>
  goto (st 0).
Definition case_165 (c : Z) : option (target action) :=
  switch c [(58, st 167); (93, st 460)] ||>
  (if c <? 65
   then when ((48 <=? c) && (c <=? 57)) (goto (st 166))
   else (if c >? 70
     then when ((97 <=? c) && (c <=? 102)) (goto (st 166))
     else goto (st 166))) ||>
  goto (st 0).
Definition case_166 (c : Z) : option (target action) :=
  switch c [(58, st 167); (93, st 460)] ||>
  goto (st 0).
Definition case_167 (c : Z) : option (target action) :=
  switch c [(2, st 69); (48, st 168); (49, st 185); (50, st 188)] ||>
  (if c <? 65
   then when ((51 <=? c) && (c <=? 57)) (goto (st 191))
   else (if c >? 70
     then when ((97 <=? c) && (c <=? 102)) (goto (st 192))
     else goto (st 192))) ||>
  goto (st 0).
Definition case_168 (c : Z) : option (target action) :=
  switch c [(46, st 72); (58, st 172); (93, st 460)] ||>
  (if c <? 65
   then when ((48 <=? c) && (c <=? 57)) (goto (st 169))
   else (if c >? 70
     then when ((97 <=? c) && (c <=? 102)) (goto (st 169))
     else goto (st 169))) ||>
  goto (st 0).
Definition case_169 (c : Z) : option (target action) :=
  switch c [(58, st 172); (93, st 460)] ||>
  (if c <? 65
   then when ((48 <=? c) && (c <=? 57)) (goto (st 170))
   else (if c >? 70
     then when ((97 <=? c) && (c <=? 102)) (goto (st 170))
     else goto (st 170))) ||>
  goto (st 0).
Definition case_170 (c : Z) : option (target action) :=
  switch c [(58, st 172); (93, st 460)] ||>
  (if c <? 65
   then when ((48 <=? c) && (c <=? 57)) (goto (st 171))
   else (if c >? 70
     then when ((97 <=? c) && (c <=? 102)) (goto (st 171))
     else goto (st 171))) ||>
  goto (st 0).
Definition case_171 (c : Z) : option (target action) :=
  switch c [(58, st 172); (93, st 460)] ||>
  goto (st 0).
Definition case_172 (c : Z) : option (target action) :=
  switch c [(2, st 69); (48, st 173); (49, st 177); (50, st 180)] ||>
  (if c <? 65
   then when ((51 <=? c) && (c <=? 57)) (goto (st 183))
   else (if c >? 70
     then when ((97 <=? c) && (c <=? 102)) (goto (st 184))
     else goto (st 184))) ||>
  goto (st 0).
Definition case_173 (c : Z) : option (target action) :=
  switch c [(46, st 72); (58, st 111); (93, st 460)] ||>
  (if c <? 65
   then when ((48 <=? c) && (c <=? 57)) (goto (st 174))
   else (if c >? 70
     then when ((97 <=? c) && (c <=? 102)) (goto (st 174))
     else goto (st 174))) ||>
  goto (st 0).
Definition case_174 (c : Z) : option (target action) :=
  switch c [(58, st 111); (93, st 460)] ||>
  (if c <? 65
   then when ((48 <=? c) && (c <=? 57)) (goto (st 175))
   else (if c >? 70
     then when ((97 <=? c) && (c <=? 102)) (goto (st 175))
     else goto (st 175))) ||>
  goto (st 0).
Definition case_175 (c : Z) : option (target action) :=
  switch c [(58, st 111); (93, st 460)] ||>
  (if c <? 65
   then when ((48 <=? c) && (c <=? 57)) (goto (st 176))
   else (if c >? 70
     then when ((97 <=? c) && (c <=? 102)) (goto (st 176))
     else goto (st 176))) ||>
  goto (st 0).
Definition case_176 (c : Z) : option (target action) :=
  switch c [(58, st 111); (93, st 460)] ||>
  goto (st 0).
Definition case_177 (c : Z) : option (target action) :=
  switch c [(46, st 72); (58, st 111); (93, st 460)] ||>
  (if c <? 65
   then when ((48 <=? c) && (c <=? 57)) (goto (st 178))
   else (if c >? 70
     then when ((97 <=? c) && (c <=? 102)) (goto (st 174))
     else goto (st 174))) ||>
  goto (st 0).
Definition case_178 (c : Z) : option (target action) :=
  switch c [(46, st 72); (58, st 111); (93, st 460)] ||>
  (if c <? 65
   then when ((48 <=? c) && (c <=? 57)) (goto (st 179))
   else (if c >? 70
     then when ((97 <=? c) && (c <=? 102)) (goto (st 175))
     else goto (st 175))) ||>
  goto (st 0).
Definition case_179 (c : Z) : option (target action) :=
  switch c [(46, st 72); (58, st 111); (93, st 460)] ||>
  (if c <? 65
   then when ((48 <=? c) && (c <=? 57)) (goto (st 176))
   else (if c >? 70
     then when ((97 <=? c) && (c <=? 102)) (goto (st 176))
     else goto (st 176))) ||>
  goto (st 0).
Definition case_180 (c : Z) : option (target action) :=
  switch c [(46, st 72); (53, st 182); (58, st 111); (93, st 460)] ||>
  (if c <? 65
   then when ((48 <=? c) && (c <=? 57)) (goto (st 181))
   else (if c >? 70
     then when ((97 <=? c) && (c <=? 102)) (goto (st 174))
     else goto (st 174))) ||>
  goto (st 0).
Definition case_181 (c : Z) : option (target action) :=
  switch c [(46, st 72); (58, st 111); (93, st 460)] ||>
  (if c <? 65
   then when ((48 <=? c) && (c <=? 57)) (goto (st 175))
   else (if c >? 70
     then when ((97 <=? c) && (c <=? 102)) (goto (st 175))
     else goto (st 175))) ||>
  goto (st 0).
Definition case_182 (c : Z) : option (target action) :=
  switch c [(46, st 72); (58, st 111); (93, st 460)] ||>
  (if c <? 54
   then when ((48 <=? c) && (c <=? 53)) (goto (st 179))
   else (if c >? 57
     then (if c >? 70
       then when ((97 <=? c) && (c <=? 102)) (goto (st 175))
       else when (c >=? 65) (goto (st 175)))
     else goto (st 175))) ||>
  goto (st 0).
Definition case_183 (c : Z) : option (target action) :=
  switch c [(46, st 72); (58, st 111); (93, st 460)] ||>
  (if c <? 65
   then when ((48 <=? c) && (c <=? 57)) (goto (st 181))
   else (if c >? 70
     then when ((97 <=? c) && (c <=? 102)) (goto (st 174))
     else goto (st 174))) ||>
  goto (st 0).
Definition case_184 (c : Z) : option (target action) :=
  switch c [(58, st 111); (93, st 460)] ||>
  (if c <? 65
   then when ((48 <=? c) && (c <=? 57)) (goto (st 174))
   else (if c >? 70
     then when ((97 <=? c) && (c <=? 102)) (goto (st 174))
     else goto (st 174))) ||>
  goto (st 0).
Definition case_185 (c : Z) : option (target action) :=
  switch c [(46, st 72); (58, st 172); (93, st 460)] ||>
  (if c <? 65
   then when ((48 <=? c) && (c <=? 57)) (goto (st 186))
   else (if c >? 70
     then when ((97 <=? c) && (c <=? 102)) (goto (st 169))
     else goto (st 169))) ||>
  goto (st 0).
Definition case_186 (c : Z) : option (target action) :=
  switch c [(46, st 72); (58, st 172); (93, st 460)] ||>
  (if c <? 65
   then when ((48 <=? c) && (c <=? 57)) (goto (st 187))
   else (if c >? 70
     then when ((97 <=? c) && (c <=? 102)) (goto (st 170))
     else goto (st 170))) ||>
  goto (st 0).
Definition case_187 (c : Z) : option (target action) :=
  switch c [(46, st 72); (58, st 172); (93, st 460)] ||>
  (if c <? 65
   then when ((48 <=? c) && (c <=? 57)) (goto (st 171))
   else (if c >? 70
     then when ((97 <=? c) && (c <=? 102)) (goto (st 171))
     else goto (st 171))) ||>
  goto (st 0).
Definition case_188 (c : Z) : option (target action) :=
  switch c [(46, st 72); (53, st 190); (58, st 172); (93, st 460)] ||>
  (if c <? 65
   then when ((48 <=? c) && (c <=? 57)) (goto (st 189))
   else (if c >? 70
     then when ((97 <=? c) && (c <=? 102)) (goto (st 169))
     else goto (st 169))) ||>
  goto (st 0).
Definition case_189 (c : Z) : option (target action) :=
  switch c [(46, st 72); (58, st 172); (93, st 460)] ||>
  (if c <? 65
   then when ((48 <=? c) && (c <=? 57)) (goto (st 170))
   else (if c >? 70
     then when ((97 <=? c) && (c <=? 102)) (goto (st 170))
     else goto (st 170))) ||>
  goto (st 0).
Definition case_190 (c : Z) : option (target action) :=
  switch c [(46, st 72); (58, st 172); (93, st 460)] ||>
  (if c <? 54
   then when ((48 <=? c) && (c <=? 53)) (goto (st 187))
   else (if c >? 57
     then (if c >? 70
       then when ((97 <=? c) && (c <=? 102)) (goto (st 170))
       else when (c >=? 65) (goto (st 170)))
     else goto (st 170))) ||>
  goto (st 0).
Definition case_191 (c : Z) : option (target action) :=
  switch c [(46, st 72); (58, st 172); (93, st 460)] ||>
  (if c <? 65
   then when ((48 <=? c) && (c <=? 57)) (goto (st 189))
   else (if c >? 70
     then when ((97 <=? c) && (c <=? 102)) (goto (st 169))
     else goto (st 169))) ||>
  goto (st 0).
Definition case_192 (c : Z) : option (target action) :=
  switch c [(58, st 172); (93, st 460)] ||>
  (if c <? 65
   then when ((48 <=? c) && (c <=? 57)) (goto (st 169))
   else (if c >? 70
     then when ((97 <=? c) && (c <=? 102)) (goto (st 169))
     else goto (st 169))) ||>
  goto (st 0).
Definition case_193 (c : Z) : option (target action) :=
  switch c [(46, st 72); (58, st 167); (93, st 460)] ||>
  (if c <? 65
   then when ((48 <=? c) && (c <=? 57)) (goto (st 194))
   else (if c >? 70
     then when ((97 <=? c) && (c <=? 102)) (goto (st 164))
     else goto (st 164))) ||>
  goto (st 0).
Definition case_194 (c : Z) : option (target action) :=
  switch c [(46, st 72); (58, st 167); (93, st 460)] ||>
  (if c <? 65
   then when ((48 <=? c) && (c <=? 57)) (goto (st 195))
   else (if c >? 70
     then when ((97 <=? c) && (c <=? 102)) (goto (st 165))
     else goto (st 165))) ||>
  goto (st 0).
Definition case_195 (c : Z) : option (target action) :=
  switch c [(46, st 72); (58, st 167); (93, st 460)] ||>
  (if c <? 65
   then when ((48 <=? c) && (c <=? 57)) (goto (st 166))
   else (if c >? 70
     then when ((97 <=? c) && (c <=? 102)) (goto (st 166))
     else goto (st 166))) ||>
  goto (st 0).
Definition case_196 (c : Z) : option (target action) :=
  switch c [(46, st 72); (53, st 198); (58, st 167); (93, st 460)] ||>
  (if c <? 65
   then when ((48 <=? c) && (c <=? 57)) (goto (st 197))
   else (if c >? 70
     then when ((97 <=? c) && (c <=? 102)) (goto (st 164))
     else goto (st 164))) ||>
  goto (st 0).
Definition case_197 (c : Z) : option (target action) :=
  switch c [(46, st 72); (58, st 167); (93, st 460)] ||>
  (if c <? 65
   then when ((48 <=? c) && (c <=? 57)) (goto (st 165))
   else (if c >? 70
     then when ((97 <=? c) && (c <=? 102)) (goto (st 165))
     else goto (st 165))) ||>
  goto (st 0).
Definition case_198 (c : Z) : option (target action) :=
  switch c [(46, st 72); (58, st 167); (93, st 460)] ||>
  (if c <? 54
   then when ((48 <=? c) && (c <=? 53)) (goto (st 195))
   else (if c >? 57
     then (if c >? 70
       then when ((97 <=? c) && (c <=? 102)) (goto (st 165))
       else when (c >=? 65) (goto (st 165)))
     else goto (st 165))) ||>
  goto (st 0).
Definition case_199 (c : Z) : option (target action) :=
  switch c [(46, st 72); (58, st 167); (93, st 460)] ||>
  (if c <? 65
   then when ((48 <=? c) && (c <=? 57)) (goto (st 197))
   else (if c >? 70
     then when ((97 <=? c) && (c <=? 102)) (goto (st 164))
     else goto (st 164))) ||>
  goto (st 0).
Definition case_200 (c : Z) : option (target action) :=
  switch c [(58, st 167); (93, st 460)] ||>
  (if c <? 65
   then when ((48 <=? c) && (c <=? 57)) (goto (st 164))
   else (if c >? 70
     then when ((97 <=? c) && (c <=? 102)) (goto (st 164))
     else goto (st 164))) ||>
  goto (st 0).
Definition case_201 (c : Z) : option (target action) :=
  switch c [(46, st 72); (58, st 162); (93, st 460)] ||>
  (if c <? 65
   then when ((48 <=? c) && (c <=? 57)) (goto (st 202))
   else (if c >? 70
     then when ((97 <=? c) && (c <=? 102)) (goto (st 159))
     else goto (st 159))) ||>
  goto (st 0).
Definition case_202 (c : Z) : option (target action) :=
  switch c [(46, st 72); (58, st 162); (93, st 460)] ||>
  (if c <? 65
   then when ((48 <=? c) && (c <=? 57)) (goto (st 203))
   else (if c >? 70
     then when ((97 <=? c) && (c <=? 102)) (goto (st 160))
     else goto (st 160))) ||>
  goto (st 0).
Definition case_203 (c : Z) : option (target action) :=
  switch c [(46, st 72); (58, st 162); (93, st 460)] ||>
  (if c <? 65
   then when ((48 <=? c) && (c <=? 57)) (goto (st 161))
   else (if c >? 70
     then when ((97 <=? c) && (c <=? 102)) (goto (st 161))
     else goto (st 161))) ||>
  goto (st 0).
Definition case_204 (c : Z) : option (target action) :=
  switch c [(46, st 72); (53, st 206); (58, st 162); (93, st 460)] ||>
  (if c <? 65
   then when ((48 <=? c) && (c <=? 57)) (goto (st 205))
   else (if c >? 70
     then when ((97 <=? c) && (c <=? 102)) (goto (st 159))
     else goto (st 159))) ||>
  goto (st 0).
Definition case_205 (c : Z) : option (target action) :=
  switch c [(46, st 72); (58, st 162); (93, st 460)] ||>
  (if c <? 65
   then when ((48 <=? c) && (c <=? 57)) (goto (st 160))
   else (if c >? 70
     then when ((97 <=? c) && (c <=? 102)) (goto (st 160))
     else goto (st 160))) ||>
  goto (st 0).
Definition case_206 (c : Z) : option (target action) :=
  switch c [(46, st 72); (58, st 162); (93, st 460)] ||>
  (if c <? 54
   then when ((48 <=? c) && (c <=? 53)) (goto (st 203))
   else (if c >? 57
     then (if c >? 70
       then when ((97 <=? c) && (c <=? 102)) (goto (st 160))
       else when (c >=? 65) (goto (st 160)))
     else goto (st 160))) ||>
  goto (st 0).
Definition case_207 (c : Z) : option (target action) :=
  switch c [(46, st 72); (58, st 162); (93, st 460)] ||>
  (if c <? 65
   then when ((48 <=? c) && (c <=? 57)) (goto (st 205))
   else (if c >? 70
     then when ((97 <=? c) && (c <=? 102)) (goto (st 159))
     else goto (st 159))) ||>
  goto (st 0).
Definition case_208 (c : Z) : option (target action) :=
  switch c [(58, st 162); (93, st 460)] ||>
  (if c <? 65
   then when ((48 <=? c) && (c <=? 57)) (goto (st 159))
   else (if c >? 70
     then when ((97 <=? c) && (c <=? 102)) (goto (st 159))
     else goto (st 159))) ||>
  goto (st 0).
Definition case_209 (c : Z) : option (target action) :=
  switch c [(46, st 72); (58, st 157); (93, st 460)] ||>
  (if c <? 65
   then when ((48 <=? c) && (c <=? 57)) (goto (st 210))
   else (if c >? 70
     then when ((97 <=? c) && (c <=? 102)) (goto (st 154))
     else goto (st 154))) ||>
  goto (st 0).
Definition case_210 (c : Z) : option (target action) :=
  switch c [(46, st 72); (58, st 157); (93, st 460)] ||>
  (if c <? 65
   then when ((48 <=? c) && (c <=? 57)) (goto (st 211))
   else (if c >? 70
     then when ((97 <=? c) && (c <=? 102)) (goto (st 155))
     else goto (st 155))) ||>
  goto (st 0).
Definition case_211 (c : Z) : option (target action) :=
  switch c [(46, st 72); (58, st 157); (93, st 460)] ||>
  (if c <? 65
   then when ((48 <=? c) && (c <=? 57)) (goto (st 156))
   else (if c >? 70
     then when ((97 <=? c) && (c <=? 102)) (goto (st 156))
     else goto (st 156))) ||>
  goto (st 0).
Definition case_212 (c : Z) : option (target action) :=
  switch c [(46, st 72); (53, st 214); (58, st 157); (93, st 460)] ||>
  (if c <? 65
   then when ((48 <=? c) && (c <=? 57)) (goto (st 213))
   else (if c >? 70
     then when ((97 <=? c) && (c <=? 102)) (goto (st 154))
     else goto (st 154))) ||>
  goto (st 0).
Definition case_213 (c : Z) : option (target action) :=
  switch c [(46, st 72); (58, st 157); (93, st 460)] ||>
  (if c <? 65
   then when ((48 <=? c) && (c <=? 57)) (goto (st 155))
   else (if c >? 70
     then when ((97 <=? c) && (c <=? 102)) (goto (st 155))
     else goto (st 155))) ||>
  goto (st 0).
Definition case_214 (c : Z) : option (target action) :=
  switch c [(46, st 72); (58, st 157); (93, st 460)] ||>
  (if c <? 54
   then when ((48 <=? c) && (c <=? 53)) (goto (st 211))
   else (if c >? 57
     then (if c >? 70
       then when ((97 <=? c) && (c <=? 102)) (goto (st 155))
       else when (c >=? 65) (goto (st 155)))
     else goto (st 155))) ||>
  goto (st 0).
Definition case_215 (c : Z) : option (target action) :=
  switch c [(46, st 72); (58, st 157); (93, st 460)] ||>
  (if c <? 65
   then when ((48 <=? c) && (c <=? 57)) (goto (st 213))
   else (if c >? 70
     then when ((97 <=? c) && (c <=? 102)) (goto (st 154))
     else goto (st 154))) ||>
  goto (st 0).
Definition case_216 (c : Z) : option (target action) :=
  switch c [(58, st 157); (93, st 460)] ||>
  (if c <? 65
   then when ((48 <=? c) && (c <=? 57)) (goto (st 154))
   else (if c >? 70
     then when ((97 <=? c) && (c <=? 102)) (goto (st 154))
     else goto (st 154))) ||>
  goto (st 0).
Definition case_217 (c : Z) : option (target action) :=
  switch c [(46, st 72); (58, st 152); (93, st 460)] ||>
  (if c <? 65
   then when ((48 <=? c) && (c <=? 57)) (goto (st 218))
   else (if c >? 70
     then when ((97 <=? c) && (c <=? 102)) (goto (st 149))
     else goto (st 149))) ||>
  goto (st 0).
Definition case_218 (c : Z) : option (target action) :=
  switch c [(46, st 72); (58, st 152); (93, st 460)] ||>
  (if c <? 65
   then when ((48 <=? c) && (c <=? 57)) (goto (st 219))
   else (if c >? 70
     then when ((97 <=? c) && (c <=? 102)) (goto (st 150))
     else goto (st 150))) ||>
  goto (st 0).
Definition case_219 (c : Z) : option (target action) :=
  switch c [(46, st 72); (58, st 152); (93, st 460)] ||>
  (if c <? 65
   then when ((48 <=? c) && (c <=? 57)) (goto (st 151))
   else (if c >? 70
     then when ((97 <=? c) && (c <=? 102)) (goto (st 151))
     else goto (st 151))) ||>
  goto (st 0).
Definition case_220 (c : Z) : option (target action) :=
  switch c [(46, st 72); (53, st 222); (58, st 152); (93, st 460)] ||>
  (if c <? 65
   then when ((48 <=? c) && (c <=? 57)) (goto (st 221))
   else (if c >? 70
     then when ((97 <=? c) && (c <=? 102)) (goto (st 149))
     else goto (st 149))) ||>
  goto (st 0).
Definition case_221 (c : Z) : option (target action) :=
  switch c [(46, st 72); (58, st 152); (93, st 460)] ||>
  (if c <? 65
   then when ((48 <=? c) && (c <=? 57)) (goto (st 150))
   else (if c >? 70
     then when ((97 <=? c) && (c <=? 102)) (goto (st 150))
     else goto (st 150))) ||>
  goto (st 0).
Definition case_222 (c : Z) : option (target action) :=
  switch c [(46, st 72); (58, st 152); (93, st 460)] ||>
  (if c <? 54
   then when ((48 <=? c) && (c <=? 53)) (goto (st 219))
   else (if c >? 57
     then (if c >? 70
       then when ((97 <=? c) && (c <=? 102)) (goto (st 150))
       else when (c >=? 65) (goto (st 150)))
     else goto (st 150))) ||>
  goto (st 0).
Definition case_223 (c : Z) : option (target action) :=
  switch c [(46, st 72); (58, st 152); (93, st 460)] ||>
  (if c <? 65
   then when ((48 <=? c) && (c <=? 57)) (goto (st 221))
   else (if c >? 70
     then when ((97 <=? c) && (c <=? 102)) (goto (st 149))
     else goto (st 149))) ||>
  goto (st 0).
Definition case_224 (c : Z) : option (target action) :=
  switch c [(58, st 152); (93, st 460)] ||>
  (if c <? 65
   then when ((48 <=? c) && (c <=? 57)) (goto (st 149))
   else (if c >? 70
     then when ((97 <=? c) && (c <=? 102)) (goto (st 149))
     else goto (st 149))) ||>
  goto (st 0).
Definition case_225 (c : Z) : option (target action) :=
  (if c <? 65
   then when ((48 <=? c) && (c <=? 57)) (goto (st 226))
   else (if c >? 70
     then when ((97 <=? c) && (c <=? 102)) (goto (st 226))
     else goto (st 226))) ||>
  goto (st 0).
Definition case_226 (c : Z) : option (target action) :=
  when (c =? 46) (goto (st 227)) ||>
  (if c <? 65
   then when ((48 <=? c) && (c <=? 57)) (goto (st 226))
   else (if c >? 70
     then when ((97 <=? c) && (c <=? 102)) (goto (st 226))
     else goto (st 226))) ||>
  goto (st 0).
Definition case_227 (c : Z) : option (target action) :=
  switch c [(33, st 228); (36, st 228); (61, st 228); (95, st 228); (126, st 228)] ||>
  (if c <? 48
   then when ((38 <=? c) && (c <=? 46)) (goto (st 228))
   else (if c >? 59
     then (if c >? 90
       then when ((97 <=? c) && (c <=? 122)) (goto (st 228))
       else when (c >=? 65) (goto (st 228)))
     else goto (st 228))) ||>
  goto (st 0).
Definition case_228 (c : Z) : option (target action) :=
  switch c [(33, st 228); (36, st 228); (61, st 228); (93, st 460); (95, st 228); (126, st 228)] ||>
  (if c <? 48
   then when ((38 <=? c) && (c <=? 46)) (goto (st 228))
   else (if c >? 59
     then (if c >? 90
       then when ((97 <=? c) && (c <=? 122)) (goto (st 228))
       else when (c >=? 65) (goto (st 228)))
     else goto (st 228))) ||>
  goto (st 0).
Definition case_229 (c : Z) : option (target action) :=
  when ((48 <=? c) && (c <=? 52)) (goto (st 230)) ||>
  goto (st 0).
Definition case_230 (c : Z) : option (target action) :=
  when ((48 <=? c) && (c <=? 57)) (goto (st 231)) ||>
  goto (st 0).
Definition case_231 (c : Z) : option (target action) :=
  when (c =? 46) (goto (st 232)) ||>
  goto (st 0).
Definition case_232 (c : Z) : option (target action) :=
  switch c [(2, st 233); (48, st 235); (49, st 249); (50, st 251)] ||>
  when ((51 <=? c) && (c <=? 57)) (goto (st 250)) ||>
  goto (st 0).
Definition case_233 (c : Z) : option (target action) :=
  when ((48 <=? c) && (c <=? 52)) (goto (st 234)) ||>
  goto (st 0).
Definition case_234 (c : Z) : option (target action) :=
  when ((48 <=? c) && (c <=? 57)) (goto (st 235)) ||>
  goto (st 0).
Definition case_235 (c : Z) : option (target action) :=
  when (c =? 46) (goto (st 236)) ||>
  goto (st 0).
Definition case_236 (c : Z) : option (target action) :=
  switch c [(2, st 237); (48, st 239); (49, st 245); (50, st 247)] ||>
  when ((51 <=? c) && (c <=? 57)) (goto (st 246)) ||>
  goto (st 0).
Definition case_237 (c : Z) : option (target action) :=
  when ((48 <=? c) && (c <=? 52)) (goto (st 238)) ||>
  goto (st 0).
Definition case_238 (c : Z) : option (target action) :=
  when ((48 <=? c) && (c <=? 57)) (goto (st 239)) ||>
  goto (st 0).
Definition case_239 (c : Z) : option (target action) :=
  when (c =? 46) (goto (st 240)) ||>
  goto (st 0).
Definition case_240 (c : Z) : option (target action) :=
  switch c [(2, st 241); (48, st 512); (49, st 516); (50, st 518)] ||>
  when ((51 <=? c) && (c <=? 57)) (goto (st 517)) ||>
  goto (st 0).
Definition case_241 (c : Z) : option (target action) :=
  when ((48 <=? c) && (c <=? 52)) (goto (st 242)) ||>
  goto (st 0).
Definition case_242 (c : Z) : option (target action) :=
  when ((48 <=? c) && (c <=? 57)) (goto (st 512)) ||>
  goto (st 0).
Definition case_243 (c : Z) : option (target action) :=
  (if c <? 65
   then when ((48 <=? c) && (c <=? 57)) (goto (st 244))
   else (if c >? 70
     then when ((97 <=? c) && (c <=? 102)) (goto (st 244))
     else goto (st 244))) ||>
  goto (st 0).
Definition case_244 (c : Z) : option (target action) :=
  (if c <? 65
   then when ((48 <=? c) && (c <=? 57)) (goto (st 513))
   else (if c >? 70
     then when ((97 <=? c) && (c <=? 102)) (goto (st 513))
     else goto (st 513))) ||>
  goto (st 0).
Definition case_245 (c : Z) : option (target action) :=
  when (c =? 46) (goto (st 240)) ||>
  when ((48 <=? c) && (c <=? 57)) (goto (st 246)) ||>
  goto (st 0).
Definition case_246 (c : Z) : option (target action) :=
  when (c =? 46) (goto (st 240)) ||>
  when ((48 <=? c) && (c <=? 57)) (goto (st 239)) ||>
  goto (st 0).
Definition case_247 (c : Z) : option (target action) :=
  switch c [(46, st 240); (53, st 248)] ||>
  when ((48 <=? c) && (c <=? 57)) (goto (st 239)) ||>
  goto (st 0).
Definition case_248 (c : Z) : option (target action) :=
  when (c =? 46) (goto (st 240)) ||>
  when ((48 <=? c) && (c <=? 53)) (goto (st 239)) ||>
  goto (st 0).
Definition case_249 (c : Z) : option (target action) :=
  when (c =? 46) (goto (st 236)) ||>
  when ((48 <=? c) && (c <=? 57)) (goto (st 250)) ||>
  goto (st 0).
Definition case_250 (c : Z) : option (target action) :=
  when (c =? 46) (goto (st 236)) ||>
  when ((48 <=? c) && (c <=? 57)) (goto (st 235)) ||>
  goto (st 0).
Definition case_251 (c : Z) : option (target action) :=
  switch c [(46, st 236); (53, st 252)] ||>
  when ((48 <=? c) && (c <=? 57)) (goto (st 235)) ||>
  goto (st 0).
Definition case_252 (c : Z) : option (target action) :=
  when (c =? 46) (goto (st 236)) ||>
  when ((48 <=? c) && (c <=? 53)) (goto (st 235)) ||>
  goto (st 0).
Definition case_253 (c : Z) : option (target action) :=
  (if c <? 65
   then when ((48 <=? c) && (c <=? 57)) (goto (st 254))
   else (if c >? 70
     then when ((97 <=? c) && (c <=? 102)) (goto (st 254))
     else goto (st 254))) ||>
  goto (st 0).
Definition case_254 (c : Z) : option (target action) :=
  (if c <? 65
   then when ((48 <=? c) && (c <=? 57)) (goto (st 520))
   else (if c >? 70
     then when ((97 <=? c) && (c <=? 102)) (goto (st 520))
     else goto (st 520))) ||>
  goto (st 0).
Definition case_255 (c : Z) : option (target action) :=
  switch c [(33, st 255); (37, st 256); (61, st 255); (64, tr_263); (95, st 255); (126, st 255)] ||>
  (if c <? 48
   then when ((36 <=? c) && (c <=? 46)) (goto (st 255))
   else (if c >? 59
     then (if c >? 90
       then when ((97 <=? c) && (c <=? 122)) (goto (st 255))
       else when (c >=? 65) (goto (st 255)))
     else goto (st 255))) ||>
  goto (st 0).
Definition case_256 (c : Z) : option (target action) :=
  (if c <? 65
   then when ((48 <=? c) && (c <=? 57)) (goto (st 257))
   else (if c >? 70
     then when ((97 <=? c) && (c <=? 102)) (goto (st 257))
     else goto (st 257))) ||>
  goto (st 0).
Definition case_257 (c : Z) : option (target action) :=
  (if c <? 65
   then when ((48 <=? c) && (c <=? 57)) (goto (st 255))
   else (if c >? 70
     then when ((97 <=? c) && (c <=? 102)) (goto (st 255))
     else goto (st 255))) ||>
  goto (st 0).
Definition case_258 (c : Z) : option (target action) :=
  (if c <? 65
   then when ((48 <=? c) && (c <=? 57)) (goto (st 259))
   else (if c >? 70
     then when ((97 <=? c) && (c <=? 102)) (goto (st 259))
     else goto (st 259))) ||>
  goto (st 0).
Definition case_259 (c : Z) : option (target action) :=
  (if c <? 65
   then when ((48 <=? c) && (c <=? 57)) (goto (st 523))
   else (if c >? 70
     then when ((97 <=? c) && (c <=? 102)) (goto (st 523))
     else goto (st 523))) ||>
  goto (st 0).
Definition case_260 (c : Z) : option (target action) :=
  switch c [(58, st 368); (118, st 447)] ||>
  (if c <? 65
   then when ((48 <=? c) && (c <=? 57)) (goto (st 261))
   else (if c >? 70
     then when ((97 <=? c) && (c <=? 102)) (goto (st 261))
     else goto (st 261))) ||>
  goto (st 0).
Definition case_261 (c : Z) : option (target action) :=
  when (c =? 58) (goto (st 265)) ||>
  (if c <? 65
   then when ((48 <=? c) && (c <=? 57)) (goto (st 262))
   else (if c >? 70
     then when ((97 <=? c) && (c <=? 102)) (goto (st 262))
     else goto (st 262))) ||>
  goto (st 0).
Definition case_262 (c : Z) : option (target action) :=
  when (c =? 58) (goto (st 265)) ||>
  (if c <? 65
   then when ((48 <=? c) && (c <=? 57)) (goto (st 263))
   else (if c >? 70
     then when ((97 <=? c) && (c <=? 102)) (goto (st 263))
     else goto (st 263))) ||>
  goto (st 0).
Definition case_263 (c : Z) : option (target action) :=
  when (c =? 58) (goto (st 265)) ||>
  (if c <? 65
   then when ((48 <=? c) && (c <=? 57)) (goto (st 264))
   else (if c >? 70
     then when ((97 <=? c) && (c <=? 102)) (goto (st 264))
     else goto (st 264))) ||>
  goto (st 0).
Definition case_264 (c : Z) : option (target action) :=
  when (c =? 58) (goto (st 265)) ||>
  goto (st 0).
Definition case_265 (c : Z) : option (target action) :=
  when (c =? 58) (goto (st 363)) ||>
  (if c <? 65
   then when ((48 <=? c) && (c <=? 57)) (goto (st 266))
   else (if c >? 70
     then when ((97 <=? c) && (c <=? 102)) (goto (st 266))
     else goto (st 266))) ||>
  goto (st 0).
Definition case_266 (c : Z) : option (target action) :=
  when (c =? 58) (goto (st 270)) ||>
  (if c <? 65
   then when ((48 <=? c) && (c <=? 57)) (goto (st 267))
   else (if c >? 70
     then when ((97 <=? c) && (c <=? 102)) (goto (st 267))
     else goto (st 267))) ||>
  goto (st 0).
Definition case_267 (c : Z) : option (target action) :=
  when (c =? 58) (goto (st 270)) ||>
  (if c <? 65
   then when ((48 <=? c) && (c <=? 57)) (goto (st 268))
   else (if c >? 70
     then when ((97 <=? c) && (c <=? 102)) (goto (st 268))
     else goto (st 268))) ||>
  goto (st 0).
Definition case_268 (c : Z) : option (target action) :=
  when (c =? 58) (goto (st 270)) ||>
  (if c <? 65
   then when ((48 <=? c) && (c <=? 57)) (goto (st 269))
   else (if c >? 70
     then when ((97 <=? c) && (c <=? 102)) (goto (st 269))
     else goto (st 269))) ||>
  goto (st 0).
Definition case_269 (c : Z) : option (target action) :=
  when (c =? 58) (goto (st 270)) ||>
  goto (st 0).
Definition case_270 (c : Z) : option (target action) :=
  when (c =? 58) (goto (st 358)) ||>
  (if c <? 65
   then when ((48 <=? c) && (c <=? 57)) (goto (st 271))
   else (if c >? 70
     then when ((97 <=? c) && (c <=? 102)) (goto (st 271))
     else goto (st 271))) ||>
  goto (st 0).
Definition case_271 (c : Z) : option (target action) :=
  when (c =? 58) (goto (st 275)) ||>
  (if c <? 65
   then when ((48 <=? c) && (c <=? 57)) (goto (st 272))
   else (if c >? 70
     then when ((97 <=? c) && (c <=? 102)) (goto (st 272))
     else goto (st 272))) ||>
  goto (st 0).
Definition case_272 (c : Z) : option (target action) :=
  when (c =? 58) (goto (st 275)) ||>
  (if c <? 65
   then when ((48 <=? c) && (c <=? 57)) (goto (st 273))
   else (if c >? 70
     then when ((97 <=? c) && (c <=? 102)) (goto (st 273))
     else goto (st 273))) ||>
  goto (st 0).
Definition case_273 (c : Z) : option (target action) :=
  when (c =? 58) (goto (st 275)) ||>
  (if c <? 65
   then when ((48 <=? c) && (c <=? 57)) (goto (st 274))
   else (if c >? 70
     then when ((97 <=? c) && (c <=? 102)) (goto (st 274))
     else goto (st 274))) ||>
  goto (st 0).
Definition case_274 (c : Z) : option (target action) :=
  when (c =? 58) (goto (st 275)) ||>
  goto (st 0).
Definition case_275 (c : Z) : option (target action) :=
  when (c =? 58) (goto (st 353)) ||>
  (if c <? 65
   then when ((48 <=? c) && (c <=? 57)) (goto (st 276))
   else (if c >? 70
     then when ((97 <=? c) && (c <=? 102)) (goto (st 276))
     else goto (st 276))) ||>
  goto (st 0).
Definition case_276 (c : Z) : option (target action) :=
  when (c =? 58) (goto (st 280)) ||>
  (if c <? 65
   then when ((48 <=? c) && (c <=? 57)) (goto (st 277))
   else (if c >? 70
     then when ((97 <=? c) && (c <=? 102)) (goto (st 277))
     else goto (st 277))) ||>
  goto (st 0).
Definition case_277 (c : Z) : option (target action) :=
  when (c =? 58) (goto (st 280)) ||>
  (if c <? 65
   then when ((48 <=? c) && (c <=? 57)) (goto (st 278))
   else (if c >? 70
     then when ((97 <=? c) && (c <=? 102)) (goto (st 278))
     else goto (st 278))) ||>
  goto (st 0).
Definition case_278 (c : Z) : option (target action) :=
  when (c =? 58) (goto (st 280)) ||>
  (if c <? 65
   then when ((48 <=? c) && (c <=? 57)) (goto (st 279))
   else (if c >? 70
     then when ((97 <=? c) && (c <=? 102)) (goto (st 279))
     else goto (st 279))) ||>
  goto (st 0).
Definition case_279 (c : Z) : option (target action) :=
  when (c =? 58) (goto (st 280)) ||>
  goto (st 0).
Definition case_280 (c : Z) : option (target action) :=
  when (c =? 58) (goto (st 348)) ||>
  (if c <? 65
   then when ((48 <=? c) && (c <=? 57)) (goto (st 281))
   else (if c >? 70
     then when ((97 <=? c) && (c <=? 102)) (goto (st 281))
     else goto (st 281))) ||>
  goto (st 0).
Definition case_281 (c : Z) : option (target action) :=
  when (c =? 58) (goto (st 285)) ||>
  (if c <? 65
   then when ((48 <=? c) && (c <=? 57)) (goto (st 282))
   else (if c >? 70
     then when ((97 <=? c) && (c <=? 102)) (goto (st 282))
     else goto (st 282))) ||>
  goto (st 0).
Definition case_282 (c : Z) : option (target action) :=
  when (c =? 58) (goto (st 285)) ||>
  (if c <? 65
   then when ((48 <=? c) && (c <=? 57)) (goto (st 283))
   else (if c >? 70
     then when ((97 <=? c) && (c <=? 102)) (goto (st 283))
     else goto (st 283))) ||>
  goto (st 0).
Definition case_283 (c : Z) : option (target action) :=
  when (c =? 58) (goto (st 285)) ||>
  (if c <? 65
   then when ((48 <=? c) && (c <=? 57)) (goto (st 284))
   else (if c >? 70
     then when ((97 <=? c) && (c <=? 102)) (goto (st 284))
     else goto (st 284))) ||>
  goto (st 0).
Definition case_284 (c : Z) : option (target action) :=
  when (c =? 58) (goto (st 285)) ||>
  goto (st 0).
Definition case_285 (c : Z) : option (target action) :=
  when (c =? 58) (goto (st 335)) ||>
  (if c <? 65
   then when ((48 <=? c) && (c <=? 57)) (goto (st 286))
   else (if c >? 70
     then when ((97 <=? c) && (c <=? 102)) (goto (st 286))
     else goto (st 286))) ||>
  goto (st 0).
Definition case_286 (c : Z) : option (target action) :=
  when (c =? 58) (goto (st 290)) ||>
  (if c <? 65
   then when ((48 <=? c) && (c <=? 57)) (goto (st 287))
   else (if c >? 70
     then when ((97 <=? c) && (c <=? 102)) (goto (st 287))
     else goto (st 287))) ||>
  goto (st 0).
Definition case_287 (c : Z) : option (target action) :=
  when (c =? 58) (goto (st 290)) ||>
  (if c <? 65
   then when ((48 <=? c) && (c <=? 57)) (goto (st 288))
   else (if c >? 70
     then when ((97 <=? c) && (c <=? 102)) (goto (st 288))
     else goto (st 288))) ||>
  goto (st 0).
Definition case_288 (c : Z) : option (target action) :=
  when (c =? 58) (goto (st 290)) ||>
  (if c <? 65
   then when ((48 <=? c) && (c <=? 57)) (goto (st 289))
   else (if c >? 70
     then when ((97 <=? c) && (c <=? 102)) (goto (st 289))
     else goto (st 289))) ||>
  goto (st 0).
Definition case_289 (c : Z) : option (target action) :=
  when (c =? 58) (goto (st 290)) ||>
  goto (st 0).
Definition case_290 (c : Z) : option (target action) :=
  switch c [(2, st 291); (48, st 318); (49, st 326); (50, st 329); (58, st 333)] ||>
  (if c <? 65
   then when ((51 <=? c) && (c <=? 57)) (goto (st 332))
   else (if c >? 70
     then when ((97 <=? c) && (c <=? 102)) (goto (st 334))
     else goto (st 334))) ||>
  goto (st 0).
Definition case_291 (c : Z) : option (target action) :=
  when ((48 <=? c) && (c <=? 52)) (goto (st 292)) ||>
  goto (st 0).
Definition case_292 (c : Z) : option (target action) :=
  when ((48 <=? c) && (c <=? 57)) (goto (st 293)) ||>
  goto (st 0).
Definition case_293 (c : Z) : option (target action) :=
  when (c =? 46) (goto (st 294)) ||>
  goto (st 0).
Definition case_294 (c : Z) : option (target action) :=
  switch c [(2, st 295); (48, st 297); (49, st 314); (50, st 316)] ||>
  when ((51 <=? c) && (c <=? 57)) (goto (st 315)) ||>
  goto (st 0).
Definition case_295 (c : Z) : option (target action) :=
  when ((48 <=? c) && (c <=? 52)) (goto (st 296)) ||>
  goto (st 0).
Definition case_296 (c : Z) : option (target action) :=
  when ((48 <=? c) && (c <=? 57)) (goto (st 297)) ||>
  goto (st 0).
Definition case_297 (c : Z) : option (target action) :=
  when (c =? 46) (goto (st 298)) ||>
  goto (st 0).
Definition case_298 (c : Z) : option (target action) :=
  switch c [(2, st 299); (48, st 301); (49, st 310); (50, st 312)] ||>
  when ((51 <=? c) && (c <=? 57)) (goto (st 311)) ||>
  goto (st 0).
Definition case_299 (c : Z) : option (target action) :=
  when ((48 <=? c) && (c <=? 52)) (goto (st 300)) ||>
  goto (st 0).
Definition case_300 (c : Z) : option (target action) :=
  when ((48 <=? c) && (c <=? 57)) (goto (st 301)) ||>
  goto (st 0).
Definition case_301 (c : Z) : option (target action) :=
  when (c =? 46) (goto (st 302)) ||>
  goto (st 0).
Definition case_302 (c : Z) : option (target action) :=
  switch c [(2, st 303); (48, st 305); (49, st 306); (50, st 308)] ||>
  when ((51 <=? c) && (c <=? 57)) (goto (st 307)) ||>
  goto (st 0).
Definition case_303 (c : Z) : option (target action) :=
  when ((48 <=? c) && (c <=? 52)) (goto (st 304)) ||>
  goto (st 0).
Definition case_304 (c : Z) : option (target action) :=
  when ((48 <=? c) && (c <=? 57)) (goto (st 305)) ||>
  goto (st 0).
Definition case_305 (c : Z) : option (target action) :=
  when (c =? 93) (goto (st 512)) ||>
  goto (st 0).
Definition case_306 (c : Z) : option (target action) :=
  when (c =? 93) (goto (st 512)) ||>
  when ((48 <=? c) && (c <=? 57)) (goto (st 307)) ||>
  goto (st 0).
Definition case_307 (c : Z) : option (target action) :=
  when (c =? 93) (goto (st 512)) ||>
  when ((48 <=? c) && (c <=? 57)) (goto (st 305)) ||>
  goto (st 0).
Definition case_308 (c : Z) : option (target action) :=
  switch c [(53, st 309); (93, st 512)] ||>
  when ((48 <=? c) && (c <=? 57)) (goto (st 305)) ||>
  goto (st 0).
Definition case_309 (c : Z) : option (target action) :=
  when (c =? 93) (goto (st 512)) ||>
  when ((48 <=? c) && (c <=? 53)) (goto (st 305)) ||>
  goto (st 0).
Definition case_310 (c : Z) : option (target action) :=
  when (c =? 46) (goto (st 302)) ||>
  when ((48 <=? c) && (c <=? 57)) (goto (st 311)) ||>
  goto (st 0).
Definition case_311 (c : Z) : option (target action) :=
  when (c =? 46) (goto (st 302)) ||>
  when ((48 <=? c) && (c <=? 57)) (goto (st 301)) ||>
  goto (st 0).
Definition case_312 (c : Z) : option (target action) :=
  switch c [(46, st 302); (53, st 313)] ||>
  when ((48 <=? c) && (c <=? 57)) (goto (st 301)) ||>
  goto (st 0).
Definition case_313 (c : Z) : option (target action) :=
  when (c =? 46) (goto (st 302)) ||>
  when ((48 <=? c) && (c <=? 53)) (goto (st 301)) ||>
  goto (st 0).
Definition case_314 (c : Z) : option (target action) :=
  when (c =? 46) (goto (st 298)) ||>
  when ((48 <=? c) && (c <=? 57)) (goto (st 315)) ||>
  goto (st 0).
Definition case_315 (c : Z) : option (target action) :=
  when (c =? 46) (goto (st 298)) ||>
  when ((48 <=? c) && (c <=? 57)) (goto (st 297)) ||>
  goto (st 0).
Definition case_316 (c : Z) : option (target action) :=
  switch c [(46, st 298); (53, st 317)] ||>
  when ((48 <=? c) && (c <=? 57)) (goto (st 297)) ||>
  goto (st 0).
Definition case_317 (c : Z) : option (target action) :=
  when (c =? 46) (goto (st 298)) ||>
  when ((48 <=? c) && (c <=? 53)) (goto (st 297)) ||>
  goto (st 0).
Definition case_318 (c : Z) : option (target action) :=
  switch c [(46, st 294); (58, st 322)] ||>
  (if c <? 65
   then when ((48 <=? c) && (c <=? 57)) (goto (st 319))
   else (if c >? 70
     then when ((97 <=? c) && (c <=? 102)) (goto (st 319))
     else goto (st 319))) ||>
  goto (st 0).
Definition case_319 (c : Z) : option (target action) :=
  when (c =? 58) (goto (st 322)) ||>
  (if c <? 65
   then when ((48 <=? c) && (c <=? 57)) (goto (st 320))
   else (if c >? 70
     then when ((97 <=? c) && (c <=? 102)) (goto (st 320))
     else goto (st 320))) ||>
  goto (st 0).
Definition case_320 (c : Z) : option (target action) :=
  when (c =? 58) (goto (st 322)) ||>
  (if c <? 65
   then when ((48 <=? c) && (c <=? 57)) (goto (st 321))
   else (if c >? 70
     then when ((97 <=? c) && (c <=? 102)) (goto (st 321))
     else goto (st 321))) ||>
  goto (st 0).
Definition case_321 (c : Z) : option (target action) :=
  when (c =? 58) (goto (st 322)) ||>
  goto (st 0).
Definition case_322 (c : Z) : option (target action) :=
  when (c =? 58) (goto (st 305)) ||>
  (if c <? 65
   then when ((48 <=? c) && (c <=? 57)) (goto (st 323))
   else (if c >? 70
     then when ((97 <=? c) && (c <=? 102)) (goto (st 323))
     else goto (st 323))) ||>
  goto (st 0).
Definition case_323 (c : Z) : option (target action) :=
  when (c =? 93) (goto (st 512)) ||>
  (if c <? 65
   then when ((48 <=? c) && (c <=? 57)) (goto (st 324))
   else (if c >? 70
     then when ((97 <=? c) && (c <=? 102)) (goto (st 324))
     else goto (st 324))) ||>
  goto (st 0).
Definition case_324 (c : Z) : option (target action) :=
  when (c =? 93) (goto (st 512)) ||>
  (if c <? 65
   then when ((48 <=? c) && (c <=? 57)) (goto (st 325))
   else (if c >? 70
     then when ((97 <=? c) && (c <=? 102)) (goto (st 325))
     else goto (st 325))) ||>
  goto (st 0).
Definition case_325 (c : Z) : option (target action) :=
  when (c =? 93) (goto (st 512)) ||>
  (if c <? 65
   then when ((48 <=? c) && (c <=? 57)) (goto (st 305))
   else (if c >? 70
     then when ((97 <=? c) && (c <=? 102)) (goto (st 305))
     else goto (st 305))) ||>
  goto (st 0).
Definition case_326 (c : Z) : option (target action) :=
  switch c [(46, st 294); (58, st 322)] ||>
  (if c <? 65
   then when ((48 <=? c) && (c <=? 57)) (goto (st 327))
   else (if c >? 70
     then when ((97 <=? c) && (c <=? 102)) (goto (st 319))
     else goto (st 319))) ||>
  goto (st 0).
Definition case_327 (c : Z) : option (target action) :=
  switch c [(46, st 294); (58, st 322)] ||>
  (if c <? 65
   then when ((48 <=? c) && (c <=? 57)) (goto (st 328))
   else (if c >? 70
     then when ((97 <=? c) && (c <=? 102)) (goto (st 320))
     else goto (st 320))) ||>
  goto (st 0).
Definition case_328 (c : Z) : option (target action) :=
  switch c [(46, st 294); (58, st 322)] ||>
  (if c <? 65
   then when ((48 <=? c) && (c <=? 57)) (goto (st 321))
   else (if c >? 70
     then when ((97 <=? c) && (c <=? 102)) (goto (st 321))
     else goto (st 321))) ||>
  goto (st 0).
Definition case_329 (c : Z) : option (target action) :=
  switch c [(46, st 294); (53, st 331); (58, st 322)] ||>
  (if c <? 65
   then when ((48 <=? c) && (c <=? 57)) (goto (st 330))
   else (if c >? 70
     then when ((97 <=? c) && (c <=? 102)) (goto (st 319))
     else goto (st 319))) ||>
  goto (st 0).
Definition case_330 (c : Z) : option (target action) :=
  switch c [(46, st 294); (58, st 322)] ||>
  (if c <? 65
   then when ((48 <=? c) && (c <=? 57)) (goto (st 320))
   else (if c >? 70
     then when ((97 <=? c) && (c <=? 102)) (goto (st 320))
     else goto (st 320))) ||>
  goto (st 0).
Definition case_331 (c : Z) : option (target action) :=
  switch c [(46, st 294); (58, st 322)] ||>
  (if c <? 54
   then when ((48 <=? c) && (c <=? 53)) (goto (st 328))
   else (if c >? 57
     then (if c >? 70
       then when ((97 <=? c) && (c <=? 102)) (goto (st 320))
       else when (c >=? 65) (goto (st 320)))
     else goto (st 320))) ||>
  goto (st 0).
Definition case_332 (c : Z) : option (target action) :=
  switch c [(46, st 294); (58, st 322)] ||>
  (if c <? 65
   then when ((48 <=? c) && (c <=? 57)) (goto (st 330))
   else (if c >? 70
     then when ((97 <=? c) && (c <=? 102)) (goto (st 319))
     else goto (st 319))) ||>
  goto (st 0).
Definition case_333 (c : Z) : option (target action) :=
  (if c <? 65
   then when ((48 <=? c) && (c <=? 57)) (goto (st 323))
   else (if c >? 70
     then when ((97 <=? c) && (c <=? 102)) (goto (st 323))
     else goto (st 323))) ||>
  goto (st 0).
Definition case_334 (c : Z) : option (target action) :=
  when (c =? 58) (goto (st 322)) ||>
  (if c <? 65
   then when ((48 <=? c) && (c <=? 57)) (goto (st 319))
   else (if c >? 70
     then when ((97 <=? c) && (c <=? 102)) (goto (st 319))
     else goto (st 319))) ||>
  goto (st 0).
Definition case_335 (c : Z) : option (target action) :=
  switch c [(2, st 291); (48, st 336); (49, st 340); (50, st 343)] ||>
  (if c <? 65
   then when ((51 <=? c) && (c <=? 57)) (goto (st 346))
   else (if c >? 70
     then when ((97 <=? c) && (c <=? 102)) (goto (st 347))
     else goto (st 347))) ||>
  goto (st 0).
Definition case_336 (c : Z) : option (target action) :=
  switch c [(46, st 294); (58, st 333)] ||>
  (if c <? 65
   then when ((48 <=? c) && (c <=? 57)) (goto (st 337))
   else (if c >? 70
     then when ((97 <=? c) && (c <=? 102)) (goto (st 337))
     else goto (st 337))) ||>
  goto (st 0).
Definition case_337 (c : Z) : option (target action) :=
  when (c =? 58) (goto (st 333)) ||>
  (if c <? 65
   then when ((48 <=? c) && (c <=? 57)) (goto (st 338))
   else (if c >? 70
     then when ((97 <=? c) && (c <=? 102)) (goto (st 338))
     else goto (st 338))) ||>
  goto (st 0).
Definition case_338 (c : Z) : option (target action) :=
  when (c =? 58) (goto (st 333)) ||>
  (if c <? 65
   then when ((48 <=? c) && (c <=? 57)) (goto (st 339))
   else (if c >? 70
     then when ((97 <=? c) && (c <=? 102)) (goto (st 339))
     else goto (st 339))) ||>
  goto (st 0).
Definition case_339 (c : Z) : option (target action) :=
  when (c =? 58) (goto (st 333)) ||>
  goto (st 0).
Definition case_340 (c : Z) : option (target action) :=
  switch c [(46, st 294); (58, st 333)] ||>
  (if c <? 65
   then when ((48 <=? c) && (c <=? 57)) (goto (st 341))
   else (if c >? 70
     then when ((97 <=? c) && (c <=? 102)) (goto (st 337))
     else goto (st 337))) ||>
  goto (st 0).
Definition case_341 (c : Z) : option (target action) :=
  switch c [(46, st 294); (58, st 333)] ||>
  (if c <? 65
   then when ((48 <=? c) && (c <=? 57)) (goto (st 342))
   else (if c >? 70
     then when ((97 <=? c) && (c <=? 102)) (goto (st 338))
     else goto (st 338))) ||>
  goto (st 0).
Definition case_342 (c : Z) : option (target action) :=
  switch c [(46, st 294); (58, st 333)] ||>
  (if c <? 65
   then when ((48 <=? c) && (c <=? 57)) (goto (st 339))
   else (if c >? 70
     then when ((97 <=? c) && (c <=? 102)) (goto (st 339))
     else goto (st 339))) ||>
  goto (st 0).
Definition case_343 (c : Z) : option (target action) :=
  switch c [(46, st 294); (53, st 345); (58, st 333)] ||>
  (if c <? 65
   then when ((48 <=? c) && (c <=? 57)) (goto (st 344))
   else (if c >? 70
     then when ((97 <=? c) && (c <=? 102)) (goto (st 337))
     else goto (st 337))) ||>
  goto (st 0).
Definition case_344 (c : Z) : option (target action) :=
  switch c [(46, st 294); (58, st 333)] ||>
  (if c <? 65
   then when ((48 <=? c) && (c <=? 57)) (goto (st 338))
   else (if c >? 70
     then when ((97 <=? c) && (c <=? 102)) (goto (st 338))
     else goto (st 338))) ||>
  goto (st 0).
Definition case_345 (c : Z) : option (target action) :=
  switch c [(46, st 294); (58, st 333)] ||>
  (if c <? 54
   then when ((48 <=? c) && (c <=? 53)) (goto (st 342))
   else (if c >? 57
     then (if c >? 70
       then when ((97 <=? c) && (c <=? 102)) (goto (st 338))
       else when (c >=? 65) (goto (st 338)))
     else goto (st 338))) ||>
  goto (st 0).
Definition case_346 (c : Z) : option (target action) :=
  switch c [(46, st 294); (58, st 333)] ||>
  (if c <? 65
   then when ((48 <=? c) && (c <=? 57)) (goto (st 344))
   else (if c >? 70
     then when ((97 <=? c) && (c <=? 102)) (goto (st 337))
     else goto (st 337))) ||>
  goto (st 0).
Definition case_347 (c : Z) : option (target action) :=
  when (c =? 58) (goto (st 333)) ||>
  (if c <? 65
   then when ((48 <=? c) && (c <=? 57)) (goto (st 337))
   else (if c >? 70
     then when ((97 <=? c) && (c <=? 102)) (goto (st 337))
     else goto (st 337))) ||>
  goto (st 0).
Definition case_348 (c : Z) : option (target action) :=
  (if c <? 65
   then when ((48 <=? c) && (c <=? 57)) (goto (st 349))
   else (if c >? 70
     then when ((97 <=? c) && (c <=? 102)) (goto (st 349))
     else goto (st 349))) ||>
  goto (st 0).
Definition case_349 (c : Z) : option (target action) :=
  when (c =? 58) (goto (st 335)) ||>
  (if c <? 65
   then when ((48 <=? c) && (c <=? 57)) (goto (st 350))
   else (if c >? 70
     then when ((97 <=? c) && (c <=? 102)) (goto (st 350))
     else goto (st 350))) ||>
  goto (st 0).
Definition case_350 (c : Z) : option (target action) :=
  when (c =? 58) (goto (st 335)) ||>
  (if c <? 65
   then when ((48 <=? c) && (c <=? 57)) (goto (st 351))
   else (if c >? 70
     then when ((97 <=? c) && (c <=? 102)) (goto (st 351))
     else goto (st 351))) ||>
  goto (st 0).
Definition case_351 (c : Z) : option (target action) :=
  when (c =? 58) (goto (st 335)) ||>
  (if c <? 65
   then when ((48 <=? c) && (c <=? 57)) (goto (st 352))
   else (if c >? 70
     then when ((97 <=? c) && (c <=? 102)) (goto (st 352))
     else goto (st 352))) ||>
  goto (st 0).
Definition case_352 (c : Z) : option (target action) :=
  when (c =? 58) (goto (st 335)) ||>
  goto (st 0).
Definition case_353 (c : Z) : option (target action) :=
  (if c <? 65
   then when ((48 <=? c) && (c <=? 57)) (goto (st 354))
   else (if c >? 70
     then when ((97 <=? c) && (c <=? 102)) (goto (st 354))
     else goto (st 354))) ||>
  goto (st 0).
Definition case_354 (c : Z) : option (target action) :=
  when (c =? 58) (goto (st 348)) ||>
  (if c <? 65
   then when ((48 <=? c) && (c <=? 57)) (goto (st 355))
   else (if c >? 70
     then when ((97 <=? c) && (c <=? 102)) (goto (st 355))
     else goto (st 355))) ||>
  goto (st 0).
Definition case_355 (c : Z) : option (target action) :=
  when (c =? 58) (goto (st 348)) ||>
  (if c <? 65
   then when ((48 <=? c) && (c <=? 57)) (goto (st 356))
   else (if c >? 70
     then when ((97 <=? c) && (c <=? 102)) (goto (st 356))
     else goto (st 356))) ||>
  goto (st 0).
Definition case_356 (c : Z) : option (target action) :=
  when (c =? 58) (goto (st 348)) ||>
  (if c <? 65
   then when ((48 <=? c) && (c <=? 57)) (goto (st 357))
   else (if c >? 70
     then when ((97 <=? c) && (c <=? 102)) (goto (st 357))
     else goto (st 357))) ||>
  goto (st 0).
Definition case_357 (c : Z) : option (target action) :=
  when (c =? 58) (goto (st 348)) ||>
  goto (st 0).
Definition case_358 (c : Z) : option (target action) :=
  (if c <? 65
   then when ((48 <=? c) && (c <=? 57)) (goto (st 359))
   else (if c >? 70
     then when ((97 <=? c) && (c <=? 102)) (goto (st 359))
     else goto (st 359))) ||>
  goto (st 0).
Definition case_359 (c : Z) : option (target action) :=
  when (c =? 58) (goto (st 353)) ||>
  (if c <? 65
   then when ((48 <=? c) && (c <=? 57)) (goto (st 360))
   else (if c >? 70
     then when ((97 <=? c) && (c <=? 102)) (goto (st 360))
     else goto (st 360))) ||>
  goto (st 0).
Definition case_360 (c : Z) : option (target action) :=
  when (c =? 58) (goto (st 353)) ||>
  (if c <? 65
   then when ((48 <=? c) && (c <=? 57)) (goto (st 361))
   else (if c >? 70
     then when ((97 <=? c) && (c <=? 102)) (goto (st 361))
     else goto (st 361))) ||>
  goto (st 0).
Definition case_361 (c : Z) : option (target action) :=
  when (c =? 58) (goto (st 353)) ||>
  (if c <? 65
   then when ((48 <=? c) && (c <=? 57)) (goto (st 362))
   else (if c >? 70
     then when ((97 <=? c) && (c <=? 102)) (goto (st 362))
     else goto (st 362))) ||>
  goto (st 0).
Definition case_362 (c : Z) : option (target action) :=
  when (c =? 58) (goto (st 353)) ||>
  goto (st 0).
Definition case_363 (c : Z) : option (target action) :=
  (if c <? 65
   then when ((48 <=? c) && (c <=? 57)) (goto (st 364))
   else (if c >? 70
     then when ((97 <=? c) && (c <=? 102)) (goto (st 364))
     else goto (st 364))) ||>
  goto (st 0).
Definition case_364 (c : Z) : option (target action) :=
  when (c =? 58) (goto (st 358)) ||>
  (if c <? 65
   then when ((48 <=? c) && (c <=? 57)) (goto (st 365))
   else (if c >? 70
     then when ((97 <=? c) && (c <=? 102)) (goto (st 365))
     else goto (st 365))) ||>
  goto (st 0).
Definition case_365 (c : Z) : option (target action) :=
  when (c =? 58) (goto (st 358)) ||>
  (if c <? 65
   then when ((48 <=? c) && (c <=? 57)) (goto (st 366))
   else (if c >? 70
     then when ((97 <=? c) && (c <=? 102)) (goto (st 366))
     else goto (st 366))) ||>
  goto (st 0).
Definition case_366 (c : Z) : option (target action) :=
  when (c =? 58) (goto (st 358)) ||>
  (if c <? 65
   then when ((48 <=? c) && (c <=? 57)) (goto (st 367))
   else (if c >? 70
     then when ((97 <=? c) && (c <=? 102)) (goto (st 367))
     else goto (st 367))) ||>
  goto (st 0).
Definition case_367 (c : Z) : option (target action) :=
  when (c =? 58) (goto (st 358)) ||>
  goto (st 0).
Definition case_368 (c : Z) : option (target action) :=
  when (c =? 58) (goto (st 369)) ||>
  goto (st 0).
Definition case_369 (c : Z) : option (target action) :=
  switch c [(2, st 291); (48, st 370); (49, st 439); (50, st 442); (93, st 512)] ||>
  (if c <? 65
   then when ((51 <=? c) && (c <=? 57)) (goto (st 445))
   else (if c >? 70
     then when ((97 <=? c) && (c <=? 102)) (goto (st 446))
     else goto (st 446))) ||>
  goto (st 0).
Definition case_370 (c : Z) : option (target action) :=
  switch c [(46, st 294); (58, st 374); (93, st 512)] ||>
  (if c <? 65
   then when ((48 <=? c) && (c <=? 57)) (goto (st 371))
   else (if c >? 70
     then when ((97 <=? c) && (c <=? 102)) (goto (st 371))
     else goto (st 371))) ||>
  goto (st 0).
Definition case_371 (c : Z) : option (target action) :=
  switch c [(58, st 374); (93, st 512)] ||>
  (if c <? 65
   then when ((48 <=? c) && (c <=? 57)) (goto (st 372))
   else (if c >? 70
     then when ((97 <=? c) && (c <=? 102)) (goto (st 372))
     else goto (st 372))) ||>
  goto (st 0).
Definition case_372 (c : Z) : option (target action) :=
  switch c [(58, st 374); (93, st 512)] ||>
  (if c <? 65
   then when ((48 <=? c) && (c <=? 57)) (goto (st 373))
   else (if c >? 70
     then when ((97 <=? c) && (c <=? 102)) (goto (st 373))
     else goto (st 373))) ||>
  goto (st 0).
Definition case_373 (c : Z) : option (target action) :=
  switch c [(58, st 374); (93, st 512)] ||>
  goto (st 0).
Definition case_374 (c : Z) : option (target action) :=
  switch c [(2, st 291); (48, st 375); (49, st 431); (50, st 434)] ||>
  (if c <? 65
   then when ((51 <=? c) && (c <=? 57)) (goto (st 437))
   else (if c >? 70
     then when ((97 <=? c) && (c <=? 102)) (goto (st 438))
     else goto (st 438))) ||>
  goto (st 0).
Definition case_375 (c : Z) : option (target action) :=
  switch c [(46, st 294); (58, st 379); (93, st 512)] ||>
  (if c <? 65
   then when ((48 <=? c) && (c <=? 57)) (goto (st 376))
   else (if c >? 70
     then when ((97 <=? c) && (c <=? 102)) (goto (st 376))
     else goto (st 376))) ||>
  goto (st 0).
Definition case_376 (c : Z) : option (target action) :=
  switch c [(58, st 379); (93, st 512)] ||>
  (if c <? 65
   then when ((48 <=? c) && (c <=? 57)) (goto (st 377))
   else (if c >? 70
     then when ((97 <=? c) && (c <=? 102)) (goto (st 377))
     else goto (st 377))) ||>
  goto (st 0).
Definition case_377 (c : Z) : option (target action) :=
  switch c [(58, st 379); (93, st 512)] ||>
  (if c <? 65
   then when ((48 <=? c) && (c <=? 57)) (goto (st 378))
   else (if c >? 70
     then when ((97 <=? c) && (c <=? 102)) (goto (st 378))
     else goto (st 378))) ||>
  goto (st 0).
Definition case_378 (c : Z) : option (target action) :=
  switch c [(58, st 379); (93, st 512)] ||>
  goto (st 0).
Definition case_379 (c : Z) : option (target action) :=
  switch c [(2, st 291); (48, st 380); (49, st 423); (50, st 426)] ||>
  (if c <? 65
   then when ((51 <=? c) && (c <=? 57)) (goto (st 429))
   else (if c >? 70
     then when ((97 <=? c) && (c <=? 102)) (goto (st 430))
     else goto (st 430))) ||>
  goto (st 0).
Definition case_380 (c : Z) : option (target action) :=
  switch c [(46, st 294); (58, st 384); (93, st 512)] ||>
  (if c <? 65
   then when ((48 <=? c) && (c <=? 57)) (goto (st 381))
   else (if c >? 70
     then when ((97 <=? c) && (c <=? 102)) (goto (st 381))
     else goto (st 381))) ||>
  goto (st 0).
Definition case_381 (c : Z) : option (target action) :=
  switch c [(58, st 384); (93, st 512)] ||>
  (if c <? 65
   then when ((48 <=? c) && (c <=? 57)) (goto (st 382))
   else (if c >? 70
     then when ((97 <=? c) && (c <=? 102)) (goto (st 382))
     else goto (st 382))) ||>
  goto (st 0).
Definition case_382 (c : Z) : option (target action) :=
  switch c [(58, st 384); (93, st 512)] ||>
  (if c <? 65
   then when ((48 <=? c) && (c <=? 57)) (goto (st 383))
   else (if c >? 70
     then when ((97 <=? c) && (c <=? 102)) (goto (st 383))
     else goto (st 383))) ||>
  goto (st 0).
Definition case_383 (c : Z) : option (target action) :=
  switch c [(58, st 384); (93, st 512)] ||>
  goto (st 0).
Definition case_384 (c : Z) : option (target action) :=
  switch c [(2, st 291); (48, st 385); (49, st 415); (50, st 418)] ||>
  (if c <? 65
   then when ((51 <=? c) && (c <=? 57)) (goto (st 421))
   else (if c >? 70
     then when ((97 <=? c) && (c <=? 102)) (goto (st 422))
     else goto (st 422))) ||>
  goto (st 0).
Definition case_385 (c : Z) : option (target action) :=
  switch c [(46, st 294); (58, st 389); (93, st 512)] ||>
  (if c <? 65
   then when ((48 <=? c) && (c <=? 57)) (goto (st 386))
   else (if c >? 70
     then when ((97 <=? c) && (c <=? 102)) (goto (st 386))
     else goto (st 386))) ||>
  goto (st 0).
Definition case_386 (c : Z) : option (target action) :=
  switch c [(58, st 389); (93, st 512)] ||>
  (if c <? 65
   then when ((48 <=? c) && (c <=? 57)) (goto (st 387))
   else (if c >? 70
     then when ((97 <=? c) && (c <=? 102)) (goto (st 387))
     else goto (st 387))) ||>
  goto (st 0).
Definition case_387 (c : Z) : option (target action) :=
  switch c [(58, st 389); (93, st 512)] ||>
  (if c <? 65
   then when ((48 <=? c) && (c <=? 57)) (goto (st 388))
   else (if c >? 70
     then when ((97 <=? c) && (c <=? 102)) (goto (st 388))
     else goto (st 388))) ||>
  goto (st 0).
Definition case_388 (c : Z) : option (target action) :=
  switch c [(58, st 389); (93, st 512)] ||>
  goto (st 0).
Definition case_389 (c : Z) : option (target action) :=
  switch c [(2, st 291); (48, st 390); (49, st 407); (50, st 410)] ||>
  (if c <? 65
   then when ((51 <=? c) && (c <=? 57)) (goto (st 413))
   else (if c >? 70
     then when ((97 <=? c) && (c <=? 102)) (goto (st 414))
     else goto (st 414))) ||>
  goto (st 0).
Definition case_390 (c : Z) : option (target action) :=
  switch c [(46, st 294); (58, st 394); (93, st 512)] ||>
  (if c <? 65
   then when ((48 <=? c) && (c <=? 57)) (goto (st 391))
   else (if c >? 70
     then when ((97 <=? c) && (c <=? 102)) (goto (st 391))
     else goto (st 391))) ||>
  goto (st 0).
Definition case_391 (c : Z) : option (target action) :=
  switch c [(58, st 394); (93, st 512)] ||>
  (if c <? 65
   then when ((48 <=? c) && (c <=? 57)) (goto (st 392))
   else (if c >? 70
     then when ((97 <=? c) && (c <=? 102)) (goto (st 392))
     else goto (st 392))) ||>
  goto (st 0).
Definition case_392 (c : Z) : option (target action) :=
  switch c [(58, st 394); (93, st 512)] ||>
  (if c <? 65
   then when ((48 <=? c) && (c <=? 57)) (goto (st 393))
   else (if c >? 70
     then when ((97 <=? c) && (c <=? 102)) (goto (st 393))
     else goto (st 393))) ||>
  goto (st 0).
Definition case_393 (c : Z) : option (target action) :=
  switch c [(58, st 394); (93, st 512)] ||>
  goto (st 0).
Definition case_394 (c : Z) : option (target action) :=
  switch c [(2, st 291); (48, st 395); (49, st 399); (50, st 402)] ||>
  (if c <? 65
   then when ((51 <=? c) && (c <=? 57)) (goto (st 405))
   else (if c >? 70
     then when ((97 <=? c) && (c <=? 102)) (goto (st 406))
     else goto (st 406))) ||>
  goto (st 0).
Definition case_395 (c : Z) : option (target action) :=
  switch c [(46, st 294); (58, st 333); (93, st 512)] ||>
  (if c <? 65
   then when ((48 <=? c) && (c <=? 57)) (goto (st 396))
   else (if c >? 70
     then when ((97 <=? c) && (c <=? 102)) (goto (st 396))
     else goto (st 396))) ||>
  goto (st 0).
Definition case_396 (c : Z) : option (target action) :=
  switch c [(58, st 333); (93, st 512)] ||>
  (if c <? 65
   then when ((48 <=? c) && (c <=? 57)) (goto (st 397))
   else (if c >? 70
     then when ((97 <=? c) && (c <=? 102)) (goto (st 397))
     else goto (st 397))) ||>
  goto (st 0).
Definition case_397 (c : Z) : option (target action) :=
  switch c [(58, st 333); (93, st 512)] ||>
  (if c <? 65
   then when ((48 <=? c) && (c <=? 57)) (goto (st 398))
   else (if c >? 70
     then when ((97 <=? c) && (c <=? 102)) (goto (st 398))
     else goto (st 398))) ||>
  goto (st 0).
Definition case_398 (c : Z) : option (target action) :=
  switch c [(58, st 333); (93, st 512)] ||>
  goto (st 0).
Definition case_399 (c : Z) : option (target action) :=
  switch c [(46, st 294); (58, st 333); (93, st 512)] ||>
  (if c <? 65
   then when ((48 <=? c) && (c <=? 57)) (goto (st 400))
   else (if c >? 70
     then when ((97 <=? c) && (c <=? 102)) (goto (st 396))
     else goto (st 396))) ||>
  goto (st 0).
Definition case_400 (c : Z) : option (target action) :=
  switch c [(46, st 294); (58, st 333); (93, st 512)] ||>
  (if c <? 65
   then when ((48 <=? c) && (c <=? 57)) (goto (st 401))
   else (if c >? 70
     then when ((97 <=? c) && (c <=? 102)) (goto (st 397))
     else goto (st 397))) ||>
  goto (st 0).
Definition case_401 (c : Z) : option (target action) :=
  switch c [(46, st 294); (58, st 333); (93, st 512)] ||>
  (if c <? 65
   then when ((48 <=? c) && (c <=? 57)) (goto (st 398))
   else (if c >? 70
     then when ((97 <=? c) && (c <=? 102)) (goto (st 398))
     else goto (st 398))) ||>
  goto (st 0).
Definition case_402 (c : Z) : option (target action) :=
  switch c [(46, st 294); (53, st 404); (58, st 333); (93, st 512)] ||>
  (if c <? 65
   then when ((48 <=? c) && (c <=? 57)) (goto (st 403))
   else (if c >? 70
     then when ((97 <=? c) && (c <=? 102)) (goto (st 396))
     else goto (st 396))) ||>
  goto (st 0).
Definition case_403 (c : Z) : option (target action) :=
  switch c [(46, st 294); (58, st 333); (93, st 512)] ||>
  (if c <? 65
   then when ((48 <=? c) && (c <=? 57)) (goto (st 397))
   else (if c >? 70
     then when ((97 <=? c) && (c <=? 102)) (goto (st 397))
     else goto (st 397))) ||>
  goto (st 0).
Definition case_404 (c : Z) : option (target action) :=
  switch c [(46, st 294); (58, st 333); (93, st 512)] ||>
  (if c <? 54
   then when ((48 <=? c) && (c <=? 53)) (goto (st 401))
   else (if c >? 57
     then (if c >? 70
       then when ((97 <=? c) && (c <=? 102)) (goto (st 397))
       else when (c >=? 65) (goto (st 397)))
     else goto (st 397))) ||>
  goto (st 0).
Definition case_405 (c : Z) : option (target action) :=
  switch c [(46, st 294); (58, st 333); (93, st 512)] ||>
  (if c <? 65
   then when ((48 <=? c) && (c <=? 57)) (goto (st 403))
   else (if c >? 70
     then when ((97 <=? c) && (c <=? 102)) (goto (st 396))
     else goto (st 396))) ||>
  goto (st 0).
Definition case_406 (c : Z) : option (target action) :=
  switch c [(58, st 333); (93, st 512)] ||>
  (if c <? 65
   then when ((48 <=? c) && (c <=? 57)) (goto (st 396))
   else (if c >? 70
     then when ((97 <=? c) && (c <=? 102)) (goto (st 396))
     else goto (st 396))) ||>
  goto (st 0).
Definition case_407 (c : Z) : option (target action) :=
  switch c [(46, st 294); (58, st 394); (93, st 512)] ||>
  (if c <? 65
   then when ((48 <=? c) && (c <=? 57)) (goto (st 408))
   else (if c >? 70
     then when ((97 <=? c) && (c <=? 102)) (goto (st 391))
     else goto (st 391))) ||>
  goto (st 0).
Definition case_408 (c : Z) : option (target action) :=
  switch c [(46, st 294); (58, st 394); (93, st 512)] ||>
  (if c <? 65
   then when ((48 <=? c) && (c <=? 57)) (goto (st 409))
   else (if c >? 70
     then when ((97 <=? c) && (c <=? 102)) (goto (st 392))
     else goto (st 392))) ||>
  goto (st 0).
Definition case_409 (c : Z) : option (target action) :=
  switch c [(46, st 294); (58, st 394); (93, st 512)] ||>
  (if c <? 65
   then when ((48 <=? c) && (c <=? 57)) (goto (st 393))
   else (if c >? 70
     then when ((97 <=? c) && (c <=? 102)) (goto (st 393))
     else goto (st 393))) ||>
  goto (st 0).
Definition case_410 (c : Z) : option (target action) :=
  switch c [(46, st 294); (53, st 412); (58, st 394); (93, st 512)] ||>
  (if c <? 65
   then when ((48 <=? c) && (c <=? 57)) (goto (st 411))
   else (if c >? 70
     then when ((97 <=? c) && (c <=? 102)) (goto (st 391))
     else goto (st 391))) ||>
  goto (st 0).
Definition case_411 (c : Z) : option (target action) :=
  switch c [(46, st 294); (58, st 394); (93, st 512)] ||>
  (if c <? 65
   then when ((48 <=? c) && (c <=? 57)) (goto (st 392))
   else (if c >? 70
     then when ((97 <=? c) && (c <=? 102)) (goto (st 392))
     else goto (st 392))) ||>
  goto (st 0).
Definition case_412 (c : Z) : option (target action) :=
  switch c [(46, st 294); (58, st 394); (93, st 512)] ||>
  (if c <? 54
   then when ((48 <=? c) && (c <=? 53)) (goto (st 409))
   else (if c >? 57
     then (if c >? 70
       then when ((97 <=? c) && (c <=? 102)) (goto (st 392))
       else when (c >=? 65) (goto (st 392)))
     else goto (st 392))) ||>
  goto (st 0).
Definition case_413 (c : Z) : option (target action) :=
  switch c [(46, st 294); (58, st 394); (93, st 512)] ||>
  (if c <? 65
   then when ((48 <=? c) && (c <=? 57)) (goto (st 411))
   else (if c >? 70
     then when ((97 <=? c) && (c <=? 102)) (goto (st 391))
     else goto (st 391))) ||>
  goto (st 0).
Definition case_414 (c : Z) : option (target action) :=
  switch c [(58, st 394); (93, st 512)] ||>
  (if c <? 65
   then when ((48 <=? c) && (c <=? 57)) (goto (st 391))
   else (if c >? 70
     then when ((97 <=? c) && (c <=? 102)) (goto (st 391))
     else goto (st 391))) ||>
  goto (st 0).
Definition case_415 (c : Z) : option (target action) :=
  switch c [(46, st 294); (58, st 389); (93, st 512)] ||>
  (if c <? 65
   then when ((48 <=? c) && (c <=? 57)) (goto (st 416))
   else (if c >? 70
     then when ((97 <=? c) && (c <=? 102)) (goto (st 386))
     else goto (st 386))) ||>
  goto (st 0).
Definition case_416 (c : Z) : option (target action) :=
  switch c [(46, st 294); (58, st 389); (93, st 512)] ||>
  (if c <? 65
   then when ((48 <=? c) && (c <=? 57)) (goto (st 417))
   else (if c >? 70
     then when ((97 <=? c) && (c <=? 102)) (goto (st 387))
     else goto (st 387))) ||>
  goto (st 0).
Definition case_417 (c : Z) : option (target action) :=
  switch c [(46, st 294); (58, st 389); (93, st 512)] ||>
  (if c <? 65
   then when ((48 <=? c) && (c <=? 57)) (goto (st 388))
   else (if c >? 70
     then when ((97 <=? c) && (c <=? 102)) (goto (st 388))
     else goto (st 388))) ||>
  goto (st 0).
Definition case_418 (c : Z) : option (target action) :=
  switch c [(46, st 294); (53, st 420); (58, st 389); (93, st 512)] ||>
  (if c <? 65
   then when ((48 <=? c) && (c <=? 57)) (goto (st 419))
   else (if c >? 70
     then when ((97 <=? c) && (c <=? 102)) (goto (st 386))
     else goto (st 386))) ||>
  goto (st 0).
Definition case_419 (c : Z) : option (target action) :=
  switch c [(46, st 294); (58, st 389); (93, st 512)] ||>
  (if c <? 65
   then when ((48 <=? c) && (c <=? 57)) (goto (st 387))
   else (if c >? 70
     then when ((97 <=? c) && (c <=? 102)) (goto (st 387))
     else goto (st 387))) ||>
  goto (st 0).
Definition case_420 (c : Z) : option (target action) :=
  switch c [(46, st 294); (58, st 389); (93, st 512)] ||>
  (if c <? 54
   then when ((48 <=? c) && (c <=? 53)) (goto (st 417))
   else (if c >? 57
     then (if c >? 70
       then when ((97 <=? c) && (c <=? 102)) (goto (st 387))
       else when (c >=? 65) (goto (st 387)))
     else goto (st 387))) ||>
  goto (st 0).
Definition case_421 (c : Z) : option (target action) :=
  switch c [(46, st 294); (58, st 389); (93, st 512)] ||>
  (if c <? 65
   then when ((48 <=? c) && (c <=? 57)) (goto (st 419))
   else (if c >? 70
     then when ((97 <=? c) && (c <=? 102)) (goto (st 386))
     else goto (st 386))) ||>
  goto (st 0).
Definition case_422 (c : Z) : option (target action) :=
  switch c [(58, st 389); (93, st 512)] ||>
  (if c <? 65
   then when ((48 <=? c) && (c <=? 57)) (goto (st 386))
   else (if c >? 70
     then when ((97 <=? c) && (c <=? 102)) (goto (st 386))
     else goto (st 386))) ||>
  goto (st 0).
Definition case_423 (c : Z) : option (target action) :=
  switch c [(46, st 294); (58, st 384); (93, st 512)] ||>
  (if c <? 65
   then when ((48 <=? c) && (c <=? 57)) (goto (st 424))
   else (if c >? 70
     then when ((97 <=? c) && (c <=? 102)) (goto (st 381))
     else goto (st 381))) ||>
  goto (st 0).
Definition case_424 (c : Z) : option (target action) :=
  switch c [(46, st 294); (58, st 384); (93, st 512)] ||>
  (if c <? 65
   then when ((48 <=? c) && (c <=? 57)) (goto (st 425))
   else (if c >? 70
     then when ((97 <=? c) && (c <=? 102)) (goto (st 382))
     else goto (st 382))) ||>
  goto (st 0).
Definition case_425 (c : Z) : option (target action) :=
  switch c [(46, st 294); (58, st 384); (93, st 512)] ||>
  (if c <? 65
   then when ((48 <=? c) && (c <=? 57)) (goto (st 383))
   else (if c >? 70
     then when ((97 <=? c) && (c <=? 102)) (goto (st 383))
     else goto (st 383))) ||>
  goto (st 0).
Definition case_426 (c : Z) : option (target action) :=
  switch c [(46, st 294); (53, st 428); (58, st 384); (93, st 512)] ||>
  (if c <? 65
   then when ((48 <=? c) && (c <=? 57)) (goto (st 427))
   else (if c >? 70
     then when ((97 <=? c) && (c <=? 102)) (goto (st 381))
     else goto (st 381))) ||>
  goto (st 0).
Definition case_427 (c : Z) : option (target action) :=
  switch c [(46, st 294); (58, st 384); (93, st 512)] ||>
  (if c <? 65
   then when ((48 <=? c) && (c <=? 57)) (goto (st 382))
   else (if c >? 70
     then when ((97 <=? c) && (c <=? 102)) (goto (st 382))
     else goto (st 382))) ||>
  goto (st 0).
Definition case_428 (c : Z) : option (target action) :=
  switch c [(46, st 294); (58, st 384); (93, st 512)] ||>
  (if c <? 54
   then when ((48 <=? c) && (c <=? 53)) (goto (st 425))
   else (if c >? 57
     then (if c >? 70
       then when ((97 <=? c) && (c <=? 102)) (goto (st 382))
       else when (c >=? 65) (goto (st 382)))
     else goto (st 382))) ||>
  goto (st 0).
Definition case_429 (c : Z) : option (target action) :=
  switch c [(46, st 294); (58, st 384); (93, st 512)] ||>
  (if c <? 65
   then when ((48 <=? c) && (c <=? 57)) (goto (st 427))
   else (if c >? 70
     then when ((97 <=? c) && (c <=? 102)) (goto (st 381))
     else goto (st 381))) ||>
  goto (st 0).
Definition case_430 (c : Z) : option (target action) :=
  switch c [(58, st 384); (93, st 512)] ||>
  (if c <? 65
   then when ((48 <=? c) && (c <=? 57)) (goto (st 381))
   else (if c >? 70
     then when ((97 <=? c) && (c <=? 102)) (goto (st 381))
     else goto (st 381))) ||>
  goto (st 0).
Definition case_431 (c : Z) : option (target action) :=
  switch c [(46, st 294); (58, st 379); (93, st 512)] ||>
  (if c <? 65
   then when ((48 <=? c) && (c <=? 57)) (goto (st 432))
   else (if c >? 70
     then when ((97 <=? c) && (c <=? 102)) (goto (st 376))
     else goto (st 376))) ||>
  goto (st 0).
Definition case_432 (c : Z) : option (target action) :=
  switch c [(46, st 294); (58, st 379); (93, st 512)] ||>
  (if c <? 65
   then when ((48 <=? c) && (c <=? 57)) (goto (st 433))
   else (if c >? 70
     then when ((97 <=? c) && (c <=? 102)) (goto (st 377))
     else goto (st 377))) ||>
  goto (st 0).
Definition case_433 (c : Z) : option (target action) :=
  switch c [(46, st 294); (58, st 379); (93, st 512)] ||>
  (if c <? 65
   then when ((48 <=? c) && (c <=? 57)) (goto (st 378))
   else (if c >? 70
     then when ((97 <=? c) && (c <=? 102)) (goto (st 378))
     else goto (st 378))) ||>
  goto (st 0).
Definition case_434 (c : Z) : option (target action) :=
  switch c [(46, st 294); (53, st 436); (58, st 379); (93, st 512)] ||>
  (if c <? 65
   then when ((48 <=? c) && (c <=? 57)) (goto (st 435))
   else (if c >? 70
     then when ((97 <=? c) && (c <=? 102)) (goto (st 376))
     else goto (st 376))) ||>
  goto (st 0).
Definition case_435 (c : Z) : option (target action) :=
  switch c [(46, st 294); (58, st 379); (93, st 512)] ||>
  (if c <? 65
   then when ((48 <=? c) && (c <=? 57)) (goto (st 377))
   else (if c >? 70
     then when ((97 <=? c) && (c <=? 102)) (goto (st 377))
     else goto (st 377))) ||>
  goto (st 0).
Definition case_436 (c : Z) : option (target action) :=
  switch c [(46, st 294); (58, st 379); (93, st 512)] ||>
  (if c <? 54
   then when ((48 <=? c) && (c <=? 53)) (goto (st 433))
   else (if c >? 57
     then (if c >? 70
       then when ((97 <=? c) && (c <=? 102)) (goto (st 377))
       else when (c >=? 65) (goto (st 377)))
     else goto (st 377))) ||>
  goto (st 0).
Definition case_437 (c : Z) : option (target action) :=
  switch c [(46, st 294); (58, st 379); (93, st 512)] ||>
  (if c <? 65
   then when ((48 <=? c) && (c <=? 57)) (goto (st 435))
   else (if c >? 70
     then when ((97 <=? c) && (c <=? 102)) (goto (st 376))
     else goto (st 376))) ||>
  goto (st 0).
Definition case_438 (c : Z) : option (target action) :=
  switch c [(58, st 379); (93, st 512)] ||>
  (if c <? 65
   then when ((48 <=? c) && (c <=? 57)) (goto (st 376))
   else (if c >? 70
     then when ((97 <=? c) && (c <=? 102)) (goto (st 376))
     else goto (st 376))) ||>
  goto (st 0).
Definition case_439 (c : Z) : option (target action) :=
  switch c [(46, st 294); (58, st 374); (93, st 512)] ||>
  (if c <? 65
   then when ((48 <=? c) && (c <=? 57)) (goto (st 440))
   else (if c >? 70
     then when ((97 <=? c) && (c <=? 102)) (goto (st 371))
     else goto (st 371))) ||>
  goto (st 0).
Definition case_440 (c : Z) : option (target action) :=
  switch c [(46, st 294); (58, st 374); (93, st 512)] ||>
  (if c <? 65
   then when ((48 <=? c) && (c <=? 57)) (goto (st 441))
   else (if c >? 70
     then when ((97 <=? c) && (c <=? 102)) (goto (st 372))
     else goto (st 372))) ||>
  goto (st 0).
Definition case_441 (c : Z) : option (target action) :=
  switch c [(46, st 294); (58, st 374); (93, st 512)] ||>
  (if c <? 65
   then when ((48 <=? c) && (c <=? 57)) (goto (st 373))
   else (if c >? 70
     then when ((97 <=? c) && (c <=? 102)) (goto (st 373))
     else goto (st 373))) ||>
  goto (st 0).
Definition case_442 (c : Z) : option (target action) :=
  switch c [(46, st 294); (53, st 444); (58, st 374); (93, st 512)] ||>
  (if c <? 65
   then when ((48 <=? c) && (c <=? 57)) (goto (st 443))
   else (if c >? 70
     then when ((97 <=? c) && (c <=? 102)) (goto (st 371))
     else goto (st 371))) ||>
  goto (st 0).
Definition case_443 (c : Z) : option (target action) :=
  switch c [(46, st 294); (58, st 374); (93, st 512)] ||>
  (if c <? 65
   then when ((48 <=? c) && (c <=? 57)) (goto (st 372))
   else (if c >? 70
     then when ((97 <=? c) && (c <=? 102)) (goto (st 372))
     else goto (st 372))) ||>
  goto (st 0).
Definition case_444 (c : Z) : option (target action) :=
  switch c [(46, st 294); (58, st 374); (93, st 512)] ||>
  (if c <? 54
   then when ((48 <=? c) && (c <=? 53)) (goto (st 441))
   else (if c >? 57
     then (if c >? 70
       then when ((97 <=? c) && (c <=? 102)) (goto (st 372))
       else when (c >=? 65) (goto (st 372)))
     else goto (st 372))) ||>
  goto (st 0).
Definition case_445 (c : Z) : option (target action) :=
  switch c [(46, st 294); (58, st 374); (93, st 512)] ||>
  (if c <? 65
   then when ((48 <=? c) && (c <=? 57)) (goto (st 443))
   else (if c >? 70
     then when ((97 <=? c) && (c <=? 102)) (goto (st 371))
     else goto (st 371))) ||>
  goto (st 0).
Definition case_446 (c : Z) : option (target action) :=
  switch c [(58, st 374); (93, st 512)] ||>
  (if c <? 65
   then when ((48 <=? c) && (c <=? 57)) (goto (st 371))
   else (if c >? 70
     then when ((97 <=? c) && (c <=? 102)) (goto (st 371))
     else goto (st 371))) ||>
  goto (st 0).
Definition case_447 (c : Z) : option (target action) :=
  (if c <? 65
   then when ((48 <=? c) && (c <=? 57)) (goto (st 448))
   else (if c >? 70
     then when ((97 <=? c) && (c <=? 102)) (goto (st 448))
     else goto (st 448))) ||>
  goto (st 0).
Definition case_448 (c : Z) : option (target action) :=
  when (c =? 46) (goto (st 449)) ||>
  (if c <? 65
   then when ((48 <=? c) && (c <=? 57)) (goto (st 448))
   else (if c >? 70
     then when ((97 <=? c) && (c <=? 102)) (goto (st 448))
     else goto (st 448))) ||>
  goto (st 0).
Definition case_449 (c : Z) : option (target action) :=
  switch c [(33, st 450); (36, st 450); (61, st 450); (95, st 450); (126, st 450)] ||>
  (if c <? 48
   then when ((38 <=? c) && (c <=? 46)) (goto (st 450))
   else (if c >? 59
     then (if c >? 90
       then when ((97 <=? c) && (c <=? 122)) (goto (st 450))
       else when (c >=? 65) (goto (st 450)))
     else goto (st 450))) ||>
  goto (st 0).
Definition case_450 (c : Z) : option (target action) :=
  switch c [(33, st 450); (36, st 450); (61, st 450); (93, st 512); (95, st 450); (126, st 450)] ||>
  (if c <? 48
   then when ((38 <=? c) && (c <=? 46)) (goto (st 450))
   else (if c >? 59
     then (if c >? 90
       then when ((97 <=? c) && (c <=? 122)) (goto (st 450))
       else when (c >=? 65) (goto (st 450)))
     else goto (st 450))) ||>
  goto (st 0).
Definition case_451 (c : Z) : option (target action) :=
  switch c [(34, st 0); (35, st 453); (37, st 3); (47, st 458); (58, st 0); (60, st 0); (62, st 0);
    (63, st 456); (96, st 0); (127, st 0)] ||>
  (if c <? 91
   then (if c >? 32
     then when ((65 <=? c) && (c <=? 90)) (goto tr_461)
     else when (c >=? 0) (goto (st 0)))
   else (if c >? 94
     then (if c >? 122
       then when ((123 <=? c) && (c <=? 125)) (goto (st 0))
       else when (c >=? 97) (goto tr_461))
     else goto (st 0))) ||>
  goto (st 452).
Definition case_452 (c : Z) : option (target action) :=
  switch c [(34, st 0); (35, st 453); (37, st 3); (47, st 455); (58, st 0); (60, st 0); (62, st 0);
    (63, st 456); (96, st 0); (127, st 0)] ||>
  (if c <? 91
   then when ((0 <=? c) && (c <=? 32)) (goto (st 0))
   else (if c >? 94
     then when ((123 <=? c) && (c <=? 125)) (goto (st 0))
     else goto (st 0))) ||>
  goto (st 452).
Definition case_453 (c : Z) : option (target action) :=
  switch c [(37, tr_463); (60, st 0); (62, st 0); (96, st 0); (127, st 0)] ||>
  (if c <? 34
   then when ((0 <=? c) && (c <=? 32)) (goto (st 0))
   else (if c >? 35
     then (if c >? 94
       then when ((123 <=? c) && (c <=? 125)) (goto (st 0))
       else when (c >=? 91) (goto (st 0)))
     else goto (st 0))) ||>
  goto tr_462.
Definition case_454 (c : Z) : option (target action) :=
  switch c [(37, st 1); (60, st 0); (62, st 0); (96, st 0); (127, st 0)] ||>
  (if c <? 34
   then when ((0 <=? c) && (c <=? 32)) (goto (st 0))
   else (if c >? 35
     then (if c >? 94
       then when ((123 <=? c) && (c <=? 125)) (goto (st 0))
       else when (c >=? 91) (goto (st 0)))
     else goto (st 0))) ||>
  goto (st 454).
Definition case_455 (c : Z) : option (target action) :=
  switch c [(34, st 0); (35, st 453); (37, st 5); (60, st 0); (62, st 0); (63, st 456); (96, st 0);
    (127, st 0)] ||>
  (if c <? 91
   then when ((0 <=? c) && (c <=? 32)) (goto (st 0))
   else (if c >? 94
     then when ((123 <=? c) && (c <=? 125)) (goto (st 0))
     else goto (st 0))) ||>
  goto (st 455).
Definition case_456 (c : Z) : option (target action) :=
  switch c [(34, st 0); (35, tr_467); (37, tr_468); (60, st 0); (62, st 0); (96, st 0); (127, st 0)] ||>
  (if c <? 91
   then when ((0 <=? c) && (c <=? 32)) (goto (st 0))
   else (if c >? 94
     then when ((123 <=? c) && (c <=? 125)) (goto (st 0))
     else goto (st 0))) ||>
  goto tr_466.
Definition case_457 (c : Z) : option (target action) :=
  switch c [(34, st 0); (35, tr_469); (37, st 7); (60, st 0); (62, st 0); (96, st 0); (127, st 0)] ||>
  (if c <? 91
   then when ((0 <=? c) && (c <=? 32)) (goto (st 0))
   else (if c >? 94
     then when ((123 <=? c) && (c <=? 125)) (goto (st 0))
     else goto (st 0))) ||>
  goto (st 457).
Definition case_458 (c : Z) : option (target action) :=
  switch c [(34, st 0); (35, st 453); (37, st 5); (47, st 459); (60, st 0); (62, st 0); (63, st 456);
    (96, st 0); (127, st 0)] ||>
  (if c <? 91
   then when ((0 <=? c) && (c <=? 32)) (goto (st 0))
   else (if c >? 94
     then when ((123 <=? c) && (c <=? 125)) (goto (st 0))
     else goto (st 0))) ||>
  goto (st 455).
Definition case_459 (c : Z) : option (target action) :=
  switch c [(2, tr_472); (33, tr_473); (35, tr_474); (37, tr_475); (47, tr_476); (48, tr_477); (49, tr_478);
    (50, tr_479); (58, tr_481); (59, tr_473); (61, tr_473); (63, tr_482); (64, tr_483); (91, tr_484);
    (95, tr_473); (126, tr_473)] ||>
  (if c <? 51
   then when ((36 <=? c) && (c <=? 46)) (goto tr_473)
   else (if c >? 57
     then (if c >? 90
       then when ((97 <=? c) && (c <=? 122)) (goto tr_473)
       else when (c >=? 65) (goto tr_473))
     else goto tr_480)) ||>
  goto (st 0).
Definition case_460 (c : Z) : option (target action) :=
  switch c [(35, tr_485); (47, tr_486); (58, tr_487); (63, tr_488)] ||>
  goto (st 0).
Definition case_461 (c : Z) : option (target action) :=
  switch c [(35, tr_489); (47, tr_490); (63, tr_492)] ||>
  when ((48 <=? c) && (c <=? 57)) (goto tr_491) ||>
  goto (st 0).
Definition case_462 (c : Z) : option (target action) :=
  switch c [(35, tr_493); (47, tr_494); (63, tr_496)] ||>
  when ((48 <=? c) && (c <=? 57)) (goto (st 462)) ||>
  goto (st 0).
Definition case_463 (c : Z) : option (target action) :=
  switch c [(35, tr_485); (47, tr_486); (58, tr_487); (63, tr_488)] ||>
  when ((48 <=? c) && (c <=? 57)) (goto (st 464)) ||>
  goto (st 0).
Definition case_464 (c : Z) : option (target action) :=
  switch c [(35, tr_485); (47, tr_486); (58, tr_487); (63, tr_488)] ||>
  when ((48 <=? c) && (c <=? 57)) (goto (st 460)) ||>
  goto (st 0).
Definition case_465 (c : Z) : option (target action) :=
  switch c [(35, tr_485); (47, tr_486); (53, st 466); (58, tr_487); (63, tr_488)] ||>
  when ((48 <=? c) && (c <=? 57)) (goto (st 460)) ||>
  goto (st 0).
Definition case_466 (c : Z) : option (target action) :=
  switch c [(35, tr_485); (47, tr_486); (58, tr_487); (63, tr_488)] ||>
  when ((48 <=? c) && (c <=? 53)) (goto (st 460)) ||>
  goto (st 0).
Definition case_467 (c : Z) : option (target action) :=
  switch c [(33, st 467); (35, tr_485); (37, st 31); (47, tr_486); (58, tr_499); (61, st 467); (63, tr_488);
    (64, tr_38); (95, st 467); (126, st 467)] ||>
  (if c <? 65
   then when ((36 <=? c) && (c <=? 59)) (goto (st 467))
   else (if c >? 90
     then when ((97 <=? c) && (c <=? 122)) (goto (st 467))
     else goto (st 467))) ||>
  goto (st 0).
Definition case_468 (c : Z) : option (target action) :=
  switch c [(33, st 33); (35, tr_489); (37, st 34); (47, tr_490); (61, st 33); (63, tr_492); (64, tr_38);
    (95, st 33); (126, st 33)] ||>
  (if c <? 58
   then (if c >? 46
     then when ((48 <=? c) && (c <=? 57)) (goto tr_500)
     else when (c >=? 36) (goto (st 33)))
   else (if c >? 59
     then (if c >? 90
       then when ((97 <=? c) && (c <=? 122)) (goto (st 33))
       else when (c >=? 65) (goto (st 33)))
     else goto (st 33))) ||>
  goto (st 0).
Definition case_469 (c : Z) : option (target action) :=
  switch c [(2, tr_472); (33, tr_501); (35, tr_474); (37, tr_502); (47, tr_476); (48, tr_503); (49, tr_504);
    (50, tr_505); (58, tr_507); (59, tr_501); (61, tr_501); (63, tr_482); (91, tr_484); (95, tr_501);
    (126, tr_501)] ||>
  (if c <? 51
   then when ((36 <=? c) && (c <=? 46)) (goto tr_501)
   else (if c >? 57
     then (if c >? 90
       then when ((97 <=? c) && (c <=? 122)) (goto tr_501)
       else when (c >=? 65) (goto tr_501))
     else goto tr_506)) ||>
  goto (st 0).
Definition case_470 (c : Z) : option (target action) :=
  switch c [(33, st 470); (35, tr_485); (37, st 36); (47, tr_486); (58, tr_487); (61, st 470); (63, tr_488);
    (95, st 470); (126, st 470)] ||>
  (if c <? 65
   then when ((36 <=? c) && (c <=? 59)) (goto (st 470))
   else (if c >? 90
     then when ((97 <=? c) && (c <=? 122)) (goto (st 470))
     else goto (st 470))) ||>
  goto (st 0).
Definition case_471 (c : Z) : option (target action) :=
  switch c [(33, st 470); (35, tr_485); (37, st 36); (46, st 472); (47, tr_486); (58, tr_487); (61, st 470);
    (63, tr_488); (95, st 470); (126, st 470)] ||>
  (if c <? 65
   then when ((36 <=? c) && (c <=? 59)) (goto (st 470))
   else (if c >? 90
     then when ((97 <=? c) && (c <=? 122)) (goto (st 470))
     else goto (st 470))) ||>
  goto (st 0).
Definition case_472 (c : Z) : option (target action) :=
  switch c [(2, st 13); (33, st 470); (35, tr_485); (37, st 36); (47, tr_486); (48, st 473); (49, st 481);
    (50, st 483); (58, tr_487); (59, st 470); (61, st 470); (63, tr_488); (95, st 470); (126, st 470)] ||>
  (if c <? 51
   then when ((36 <=? c) && (c <=? 46)) (goto (st 470))
   else (if c >? 57
     then (if c >? 90
       then when ((97 <=? c) && (c <=? 122)) (goto (st 470))
       else when (c >=? 65) (goto (st 470)))
     else goto (st 482))) ||>
  goto (st 0).
Definition case_473 (c : Z) : option (target action) :=
  switch c [(33, st 470); (35, tr_485); (37, st 36); (46, st 474); (47, tr_486); (58, tr_487); (61, st 470);
    (63, tr_488); (95, st 470); (126, st 470)] ||>
  (if c <? 65
   then when ((36 <=? c) && (c <=? 59)) (goto (st 470))
   else (if c >? 90
     then when ((97 <=? c) && (c <=? 122)) (goto (st 470))
     else goto (st 470))) ||>
  goto (st 0).
Definition case_474 (c : Z) : option (target action) :=
  switch c [(2, st 17); (33, st 470); (35, tr_485); (37, st 36); (47, tr_486); (48, st 475); (49, st 477);
    (50, st 479); (58, tr_487); (59, st 470); (61, st 470); (63, tr_488); (95, st 470); (126, st 470)] ||>
  (if c <? 51
   then when ((36 <=? c) && (c <=? 46)) (goto (st 470))
   else (if c >? 57
     then (if c >? 90
       then when ((97 <=? c) && (c <=? 122)) (goto (st 470))
       else when (c >=? 65) (goto (st 470)))
     else goto (st 478))) ||>
  goto (st 0).
Definition case_475 (c : Z) : option (target action) :=
  switch c [(33, st 470); (35, tr_485); (37, st 36); (46, st 476); (47, tr_486); (58, tr_487); (61, st 470);
    (63, tr_488); (95, st 470); (126, st 470)] ||>
  (if c <? 65
   then when ((36 <=? c) && (c <=? 59)) (goto (st 470))
   else (if c >? 90
     then when ((97 <=? c) && (c <=? 122)) (goto (st 470))
     else goto (st 470))) ||>
  goto (st 0).
Definition case_476 (c : Z) : option (target action) :=
  switch c [(2, st 21); (33, st 470); (35, tr_485); (37, st 36); (47, tr_486); (58, tr_487); (61, st 470);
    (63, tr_488); (95, st 470); (126, st 470)] ||>
  (if c <? 65
   then when ((36 <=? c) && (c <=? 59)) (goto (st 470))
   else (if c >? 90
     then when ((97 <=? c) && (c <=? 122)) (goto (st 470))
     else goto (st 470))) ||>
  goto (st 0).
Definition case_477 (c : Z) : option (target action) :=
  switch c [(33, st 470); (35, tr_485); (37, st 36); (46, st 476); (47, tr_486); (58, tr_487); (59, st 470);
    (61, st 470); (63, tr_488); (95, st 470); (126, st 470)] ||>
  (if c <? 48
   then when ((36 <=? c) && (c <=? 45)) (goto (st 470))
   else (if c >? 57
     then (if c >? 90
       then when ((97 <=? c) && (c <=? 122)) (goto (st 470))
       else when (c >=? 65) (goto (st 470)))
     else goto (st 478))) ||>
  goto (st 0).
Definition case_478 (c : Z) : option (target action) :=
  switch c [(33, st 470); (35, tr_485); (37, st 36); (46, st 476); (47, tr_486); (58, tr_487); (59, st 470);
    (61, st 470); (63, tr_488); (95, st 470); (126, st 470)] ||>
  (if c <? 48
   then when ((36 <=? c) && (c <=? 45)) (goto (st 470))
   else (if c >? 57
     then (if c >? 90
       then when ((97 <=? c) && (c <=? 122)) (goto (st 470))
       else when (c >=? 65) (goto (st 470)))
     else goto (st 475))) ||>
  goto (st 0).
Definition case_479 (c : Z) : option (target action) :=
  switch c [(33, st 470); (35, tr_485); (37, st 36); (46, st 476); (47, tr_486); (53, st 480); (58, tr_487);
    (59, st 470); (61, st 470); (63, tr_488); (95, st 470); (126, st 470)] ||>
  (if c <? 48
   then when ((36 <=? c) && (c <=? 45)) (goto (st 470))
   else (if c >? 57
     then (if c >? 90
       then when ((97 <=? c) && (c <=? 122)) (goto (st 470))
       else when (c >=? 65) (goto (st 470)))
     else goto (st 475))) ||>
  goto (st 0).
Definition case_480 (c : Z) : option (target action) :=
  switch c [(33, st 470); (35, tr_485); (37, st 36); (46, st 476); (47, tr_486); (58, tr_487); (61, st 470);
    (63, tr_488); (95, st 470); (126, st 470)] ||>
  (if c <? 54
   then (if c >? 45
     then when ((48 <=? c) && (c <=? 53)) (goto (st 475))
     else when (c >=? 36) (goto (st 470)))
   else (if c >? 59
     then (if c >? 90
       then when ((97 <=? c) && (c <=? 122)) (goto (st 470))
       else when (c >=? 65) (goto (st 470)))
     else goto (st 470))) ||>
  goto (st 0).
Definition case_481 (c : Z) : option (target action) :=
  switch c [(33, st 470); (35, tr_485); (37, st 36); (46, st 474); (47, tr_486); (58, tr_487); (59, st 470);
    (61, st 470); (63, tr_488); (95, st 470); (126, st 470)] ||>
  (if c <? 48
   then when ((36 <=? c) && (c <=? 45)) (goto (st 470))
   else (if c >? 57
     then (if c >? 90
       then when ((97 <=? c) && (c <=? 122)) (goto (st 470))
       else when (c >=? 65) (goto (st 470)))
     else goto (st 482))) ||>
  goto (st 0).
Definition case_482 (c : Z) : option (target action) :=
  switch c [(33, st 470); (35, tr_485); (37, st 36); (46, st 474); (47, tr_486); (58, tr_487); (59, st 470);
    (61, st 470); (63, tr_488); (95, st 470); (126, st 470)] ||>
  (if c <? 48
   then when ((36 <=? c) && (c <=? 45)) (goto (st 470))
   else (if c >? 57
     then (if c >? 90
       then when ((97 <=? c) && (c <=? 122)) (goto (st 470))
       else when (c >=? 65) (goto (st 470)))
     else goto (st 473))) ||>
  goto (st 0).
Definition case_483 (c : Z) : option (target action) :=
  switch c [(33, st 470); (35, tr_485); (37, st 36); (46, st 474); (47, tr_486); (53, st 484); (58, tr_487);
    (59, st 470); (61, st 470); (63, tr_488); (95, st 470); (126, st 470)] ||>
  (if c <? 48
   then when ((36 <=? c) && (c <=? 45)) (goto (st 470))
   else (if c >? 57
     then (if c >? 90
       then when ((97 <=? c) && (c <=? 122)) (goto (st 470))
       else when (c >=? 65) (goto (st 470)))
     else goto (st 473))) ||>
  goto (st 0).
Definition case_484 (c : Z) : option (target action) :=
  switch c [(33, st 470); (35, tr_485); (37, st 36); (46, st 474); (47, tr_486); (58, tr_487); (61, st 470);
    (63, tr_488); (95, st 470); (126, st 470)] ||>
  (if c <? 54
   then (if c >? 45
     then when ((48 <=? c) && (c <=? 53)) (goto (st 473))
     else when (c >=? 36) (goto (st 470)))
   else (if c >? 59
     then (if c >? 90
       then when ((97 <=? c) && (c <=? 122)) (goto (st 470))
       else when (c >=? 65) (goto (st 470)))
     else goto (st 470))) ||>
  goto (st 0).
Definition case_485 (c : Z) : option (target action) :=
  switch c [(33, st 470); (35, tr_485); (37, st 36); (46, st 472); (47, tr_486); (58, tr_487); (59, st 470);
    (61, st 470); (63, tr_488); (95, st 470); (126, st 470)] ||>
  (if c <? 48
   then when ((36 <=? c) && (c <=? 45)) (goto (st 470))
   else (if c >? 57
     then (if c >? 90
       then when ((97 <=? c) && (c <=? 122)) (goto (st 470))
       else when (c >=? 65) (goto (st 470)))
     else goto (st 486))) ||>
  goto (st 0).
Definition case_486 (c : Z) : option (target action) :=
  switch c [(33, st 470); (35, tr_485); (37, st 36); (46, st 472); (47, tr_486); (58, tr_487); (59, st 470);
    (61, st 470); (63, tr_488); (95, st 470); (126, st 470)] ||>
  (if c <? 48
   then when ((36 <=? c) && (c <=? 45)) (goto (st 470))
   else (if c >? 57
     then (if c >? 90
       then when ((97 <=? c) && (c <=? 122)) (goto (st 470))
       else when (c >=? 65) (goto (st 470)))
     else goto (st 471))) ||>
  goto (st 0).
Definition case_487 (c : Z) : option (target action) :=
  switch c [(33, st 470); (35, tr_485); (37, st 36); (46, st 472); (47, tr_486); (53, st 488); (58, tr_487);
    (59, st 470); (61, st 470); (63, tr_488); (95, st 470); (126, st 470)] ||>
  (if c <? 48
   then when ((36 <=? c) && (c <=? 45)) (goto (st 470))
   else (if c >? 57
     then (if c >? 90
       then when ((97 <=? c) && (c <=? 122)) (goto (st 470))
       else when (c >=? 65) (goto (st 470)))
     else goto (st 471))) ||>
  goto (st 0).
Definition case_488 (c : Z) : option (target action) :=
  switch c [(33, st 470); (35, tr_485); (37, st 36); (46, st 472); (47, tr_486); (58, tr_487); (61, st 470);
    (63, tr_488); (95, st 470); (126, st 470)] ||>
  (if c <? 54
   then (if c >? 45
     then when ((48 <=? c) && (c <=? 53)) (goto (st 471))
     else when (c >=? 36) (goto (st 470)))
   else (if c >? 59
     then (if c >? 90
       then when ((97 <=? c) && (c <=? 122)) (goto (st 470))
       else when (c >=? 65) (goto (st 470)))
     else goto (st 470))) ||>
  goto (st 0).
Definition case_489 (c : Z) : option (target action) :=
  switch c [(33, st 33); (35, tr_493); (37, st 34); (47, tr_494); (61, st 33); (63, tr_496); (64, tr_38);
    (95, st 33); (126, st 33)] ||>
  (if c <? 58
   then (if c >? 46
     then when ((48 <=? c) && (c <=? 57)) (goto (st 489))
     else when (c >=? 36) (goto (st 33)))
   else (if c >? 59
     then (if c >? 90
       then when ((97 <=? c) && (c <=? 122)) (goto (st 33))
       else when (c >=? 65) (goto (st 33)))
     else goto (st 33))) ||>
  goto (st 0).
Definition case_490 (c : Z) : option (target action) :=
  switch c [(33, st 467); (35, tr_485); (37, st 31); (46, st 491); (47, tr_486); (58, tr_499); (61, st 467);
    (63, tr_488); (64, tr_38); (95, st 467); (126, st 467)] ||>
  (if c <? 65
   then when ((36 <=? c) && (c <=? 59)) (goto (st 467))
   else (if c >? 90
     then when ((97 <=? c) && (c <=? 122)) (goto (st 467))
     else goto (st 467))) ||>
  goto (st 0).
Definition case_491 (c : Z) : option (target action) :=
  switch c [(2, st 13); (33, st 467); (35, tr_485); (37, st 31); (47, tr_486); (48, st 492); (49, st 500);
    (50, st 502); (58, tr_499); (59, st 467); (61, st 467); (63, tr_488); (64, tr_38); (95, st 467);
    (126, st 467)] ||>
  (if c <? 51
   then when ((36 <=? c) && (c <=? 46)) (goto (st 467))
   else (if c >? 57
     then (if c >? 90
       then when ((97 <=? c) && (c <=? 122)) (goto (st 467))
       else when (c >=? 65) (goto (st 467)))
     else goto (st 501))) ||>
  goto (st 0).
Definition case_492 (c : Z) : option (target action) :=
  switch c [(33, st 467); (35, tr_485); (37, st 31); (46, st 493); (47, tr_486); (58, tr_499); (61, st 467);
    (63, tr_488); (64, tr_38); (95, st 467); (126, st 467)] ||>
  (if c <? 65
   then when ((36 <=? c) && (c <=? 59)) (goto (st 467))
   else (if c >? 90
     then when ((97 <=? c) && (c <=? 122)) (goto (st 467))
     else goto (st 467))) ||>
  goto (st 0).
Definition case_493 (c : Z) : option (target action) :=
  switch c [(2, st 17); (33, st 467); (35, tr_485); (37, st 31); (47, tr_486); (48, st 494); (49, st 496);
    (50, st 498); (58, tr_499); (59, st 467); (61, st 467); (63, tr_488); (64, tr_38); (95, st 467);
    (126, st 467)] ||>
  (if c <? 51
   then when ((36 <=? c) && (c <=? 46)) (goto (st 467))
   else (if c >? 57
     then (if c >? 90
       then when ((97 <=? c) && (c <=? 122)) (goto (st 467))
       else when (c >=? 65) (goto (st 467)))
     else goto (st 497))) ||>
  goto (st 0).
Definition case_494 (c : Z) : option (target action) :=
  switch c [(33, st 467); (35, tr_485); (37, st 31); (46, st 495); (47, tr_486); (58, tr_499); (61, st 467);
    (63, tr_488); (64, tr_38); (95, st 467); (126, st 467)] ||>
  (if c <? 65
   then when ((36 <=? c) && (c <=? 59)) (goto (st 467))
   else (if c >? 90
     then when ((97 <=? c) && (c <=? 122)) (goto (st 467))
     else goto (st 467))) ||>
  goto (st 0).
Definition case_495 (c : Z) : option (target action) :=
  switch c [(2, st 21); (33, st 467); (35, tr_485); (37, st 31); (47, tr_486); (58, tr_499); (61, st 467);
    (63, tr_488); (64, tr_38); (95, st 467); (126, st 467)] ||>
  (if c <? 65
   then when ((36 <=? c) && (c <=? 59)) (goto (st 467))
   else (if c >? 90
     then when ((97 <=? c) && (c <=? 122)) (goto (st 467))
     else goto (st 467))) ||>
  goto (st 0).
Definition case_496 (c : Z) : option (target action) :=
  switch c [(33, st 467); (35, tr_485); (37, st 31); (46, st 495); (47, tr_486); (58, tr_499); (59, st 467);
    (61, st 467); (63, tr_488); (64, tr_38); (95, st 467); (126, st 467)] ||>
  (if c <? 48
   then when ((36 <=? c) && (c <=? 45)) (goto (st 467))
   else (if c >? 57
     then (if c >? 90
       then when ((97 <=? c) && (c <=? 122)) (goto (st 467))
       else when (c >=? 65) (goto (st 467)))
     else goto (st 497))) ||>
  goto (st 0).
Definition case_497 (c : Z) : option (target action) :=
  switch c [(33, st 467); (35, tr_485); (37, st 31); (46, st 495); (47, tr_486); (58, tr_499); (59, st 467);
    (61, st 467); (63, tr_488); (64, tr_38); (95, st 467); (126, st 467)] ||>
  (if c <? 48
   then when ((36 <=? c) && (c <=? 45)) (goto (st 467))
   else (if c >? 57
     then (if c >? 90
       then when ((97 <=? c) && (c <=? 122)) (goto (st 467))
       else when (c >=? 65) (goto (st 467)))
     else goto (st 494))) ||>
  goto (st 0).
Definition case_498 (c : Z) : option (target action) :=
  switch c [(33, st 467); (35, tr_485); (37, st 31); (46, st 495); (47, tr_486); (53, st 499); (58, tr_499);
    (59, st 467); (61, st 467); (63, tr_488); (64, tr_38); (95, st 467); (126, st 467)] ||>
  (if c <? 48
   then when ((36 <=? c) && (c <=? 45)) (goto (st 467))
   else (if c >? 57
     then (if c >? 90
       then when ((97 <=? c) && (c <=? 122)) (goto (st 467))
       else when (c >=? 65) (goto (st 467)))
     else goto (st 494))) ||>
  goto (st 0).
Definition case_499 (c : Z) : option (target action) :=
  switch c [(33, st 467); (35, tr_485); (37, st 31); (46, st 495); (47, tr_486); (58, tr_499); (61, st 467);
    (63, tr_488); (64, tr_38); (95, st 467); (126, st 467)] ||>
  (if c <? 54
   then (if c >? 45
     then when ((48 <=? c) && (c <=? 53)) (goto (st 494))
     else when (c >=? 36) (goto (st 467)))
   else (if c >? 59
     then (if c >? 90
       then when ((97 <=? c) && (c <=? 122)) (goto (st 467))
       else when (c >=? 65) (goto (st 467)))
     else goto (st 467))) ||>
  goto (st 0).
Definition case_500 (c : Z) : option (target action) :=
  switch c [(33, st 467); (35, tr_485); (37, st 31); (46, st 493); (47, tr_486); (58, tr_499); (59, st 467);
    (61, st 467); (63, tr_488); (64, tr_38); (95, st 467); (126, st 467)] ||>
  (if c <? 48
   then when ((36 <=? c) && (c <=? 45)) (goto (st 467))
   else (if c >? 57
     then (if c >? 90
       then when ((97 <=? c) && (c <=? 122)) (goto (st 467))
       else when (c >=? 65) (goto (st 467)))
     else goto (st 501))) ||>
  goto (st 0).
Definition case_501 (c : Z) : option (target action) :=
  switch c [(33, st 467); (35, tr_485); (37, st 31); (46, st 493); (47, tr_486); (58, tr_499); (59, st 467);
    (61, st 467); (63, tr_488); (64, tr_38); (95, st 467); (126, st 467)] ||>
  (if c <? 48
   then when ((36 <=? c) && (c <=? 45)) (goto (st 467))
   else (if c >? 57
     then (if c >? 90
       then when ((97 <=? c) && (c <=? 122)) (goto (st 467))
       else when (c >=? 65) (goto (st 467)))
     else goto (st 492))) ||>
  goto (st 0).
Definition case_502 (c : Z) : option (target action) :=
  switch c [(33, st 467); (35, tr_485); (37, st 31); (46, st 493); (47, tr_486); (53, st 503); (58, tr_499);
    (59, st 467); (61, st 467); (63, tr_488); (64, tr_38); (95, st 467); (126, st 467)] ||>
  (if c <? 48
   then when ((36 <=? c) && (c <=? 45)) (goto (st 467))
   else (if c >? 57
     then (if c >? 90
       then when ((97 <=? c) && (c <=? 122)) (goto (st 467))
       else when (c >=? 65) (goto (st 467)))
     else goto (st 492))) ||>
  goto (st 0).
Definition case_503 (c : Z) : option (target action) :=
  switch c [(33, st 467); (35, tr_485); (37, st 31); (46, st 493); (47, tr_486); (58, tr_499); (61, st 467);
    (63, tr_488); (64, tr_38); (95, st 467); (126, st 467)] ||>
  (if c <? 54
   then (if c >? 45
     then when ((48 <=? c) && (c <=? 53)) (goto (st 492))
     else when (c >=? 36) (goto (st 467)))
   else (if c >? 59
     then (if c >? 90
       then when ((97 <=? c) && (c <=? 122)) (goto (st 467))
       else when (c >=? 65) (goto (st 467)))
     else goto (st 467))) ||>
  goto (st 0).
Definition case_504 (c : Z) : option (target action) :=
  switch c [(33, st 467); (35, tr_485); (37, st 31); (46, st 491); (47, tr_486); (58, tr_499); (59, st 467);
    (61, st 467); (63, tr_488); (64, tr_38); (95, st 467); (126, st 467)] ||>
  (if c <? 48
   then when ((36 <=? c) && (c <=? 45)) (goto (st 467))
   else (if c >? 57
     then (if c >? 90
       then when ((97 <=? c) && (c <=? 122)) (goto (st 467))
       else when (c >=? 65) (goto (st 467)))
     else goto (st 505))) ||>
  goto (st 0).
Definition case_505 (c : Z) : option (target action) :=
  switch c [(33, st 467); (35, tr_485); (37, st 31); (46, st 491); (47, tr_486); (58, tr_499); (59, st 467);
    (61, st 467); (63, tr_488); (64, tr_38); (95, st 467); (126, st 467)] ||>
  (if c <? 48
   then when ((36 <=? c) && (c <=? 45)) (goto (st 467))
   else (if c >? 57
     then (if c >? 90
       then when ((97 <=? c) && (c <=? 122)) (goto (st 467))
       else when (c >=? 65) (goto (st 467)))
     else goto (st 490))) ||>
  goto (st 0).
Definition case_506 (c : Z) : option (target action) :=
  switch c [(33, st 467); (35, tr_485); (37, st 31); (46, st 491); (47, tr_486); (53, st 507); (58, tr_499);
    (59, st 467); (61, st 467); (63, tr_488); (64, tr_38); (95, st 467); (126, st 467)] ||>
  (if c <? 48
   then when ((36 <=? c) && (c <=? 45)) (goto (st 467))
   else (if c >? 57
     then (if c >? 90
       then when ((97 <=? c) && (c <=? 122)) (goto (st 467))
       else when (c >=? 65) (goto (st 467)))
     else goto (st 490))) ||>
  goto (st 0).
Definition case_507 (c : Z) : option (target action) :=
  switch c [(33, st 467); (35, tr_485); (37, st 31); (46, st 491); (47, tr_486); (58, tr_499); (61, st 467);
    (63, tr_488); (64, tr_38); (95, st 467); (126, st 467)] ||>
  (if c <? 54
   then (if c >? 45
     then when ((48 <=? c) && (c <=? 53)) (goto (st 490))
     else when (c >=? 36) (goto (st 467)))
   else (if c >? 59
     then (if c >? 90
       then when ((97 <=? c) && (c <=? 122)) (goto (st 467))
       else when (c >=? 65) (goto (st 467)))
     else goto (st 467))) ||>
  goto (st 0).
Definition case_508 (c : Z) : option (target action) :=
  switch c [(34, st 0); (35, st 453); (37, st 3); (43, st 508); (47, st 455); (58, tr_543); (60, st 0);
    (62, st 0); (63, st 456); (96, st 0); (127, st 0)] ||>
  (if c <? 65
   then (if c >? 32
     then when ((45 <=? c) && (c <=? 57)) (goto (st 508))
     else when (c >=? 0) (goto (st 0)))
   else (if c >? 90
     then (if c <? 97
       then when ((91 <=? c) && (c <=? 94)) (goto (st 0))
       else (if c >? 122
         then when ((123 <=? c) && (c <=? 125)) (goto (st 0))
         else goto (st 508)))
     else goto (st 508))) ||>
  goto (st 452).
Definition case_509 (c : Z) : option (target action) :=
  switch c [(34, st 0); (35, st 453); (37, st 5); (47, st 510); (60, st 0); (62, st 0); (63, st 456);
    (96, st 0); (127, st 0)] ||>
  (if c <? 91
   then when ((0 <=? c) && (c <=? 32)) (goto (st 0))
   else (if c >? 94
     then when ((123 <=? c) && (c <=? 125)) (goto (st 0))
     else goto (st 0))) ||>
  goto (st 455).
Definition case_510 (c : Z) : option (target action) :=
  switch c [(34, st 0); (35, st 453); (37, st 5); (47, st 511); (60, st 0); (62, st 0); (63, st 456);
    (96, st 0); (127, st 0)] ||>
  (if c <? 91
   then when ((0 <=? c) && (c <=? 32)) (goto (st 0))
   else (if c >? 94
     then when ((123 <=? c) && (c <=? 125)) (goto (st 0))
     else goto (st 0))) ||>
  goto (st 455).
Definition case_511 (c : Z) : option (target action) :=
  switch c [(2, tr_546); (33, tr_547); (35, tr_548); (37, tr_549); (47, tr_550); (48, tr_551); (49, tr_552);
    (50, tr_553); (58, tr_555); (59, tr_547); (61, tr_547); (63, tr_556); (64, tr_557); (91, tr_558);
    (95, tr_547); (126, tr_547)] ||>
  (if c <? 51
   then when ((36 <=? c) && (c <=? 46)) (goto tr_547)
   else (if c >? 57
     then (if c >? 90
       then when ((97 <=? c) && (c <=? 122)) (goto tr_547)
       else when (c >=? 65) (goto tr_547))
     else goto tr_554)) ||>
  goto (st 0).
Definition case_512 (c : Z) : option (target action) :=
  switch c [(35, tr_559); (47, tr_560); (58, tr_561); (63, tr_562)] ||>
  goto (st 0).
Definition case_513 (c : Z) : option (target action) :=
  switch c [(34, st 0); (35, tr_563); (37, st 243); (60, st 0); (62, st 0); (63, tr_565); (96, st 0);
    (127, st 0)] ||>
  (if c <? 91
   then when ((0 <=? c) && (c <=? 32)) (goto (st 0))
   else (if c >? 94
     then when ((123 <=? c) && (c <=? 125)) (goto (st 0))
     else goto (st 0))) ||>
  goto (st 513).
Definition case_514 (c : Z) : option (target action) :=
  switch c [(35, tr_566); (47, tr_567); (63, tr_569)] ||>
  when ((48 <=? c) && (c <=? 57)) (goto tr_568) ||>
  goto (st 0).
Definition case_515 (c : Z) : option (target action) :=
  switch c [(35, tr_570); (47, tr_571); (63, tr_573)] ||>
  when ((48 <=? c) && (c <=? 57)) (goto (st 515)) ||>
  goto (st 0).
Definition case_516 (c : Z) : option (target action) :=
  switch c [(35, tr_559); (47, tr_560); (58, tr_561); (63, tr_562)] ||>
  when ((48 <=? c) && (c <=? 57)) (goto (st 517)) ||>
  goto (st 0).
Definition case_517 (c : Z) : option (target action) :=
  switch c [(35, tr_559); (47, tr_560); (58, tr_561); (63, tr_562)] ||>
  when ((48 <=? c) && (c <=? 57)) (goto (st 512)) ||>
  goto (st 0).
Definition case_518 (c : Z) : option (target action) :=
  switch c [(35, tr_559); (47, tr_560); (53, st 519); (58, tr_561); (63, tr_562)] ||>
  when ((48 <=? c) && (c <=? 57)) (goto (st 512)) ||>
  goto (st 0).
Definition case_519 (c : Z) : option (target action) :=
  switch c [(35, tr_559); (47, tr_560); (58, tr_561); (63, tr_562)] ||>
  when ((48 <=? c) && (c <=? 53)) (goto (st 512)) ||>
  goto (st 0).
Definition case_520 (c : Z) : option (target action) :=
  switch c [(33, st 520); (35, tr_559); (37, st 253); (47, tr_560); (58, tr_576); (61, st 520); (63, tr_562);
    (64, tr_263); (95, st 520); (126, st 520)] ||>
  (if c <? 65
   then when ((36 <=? c) && (c <=? 59)) (goto (st 520))
   else (if c >? 90
     then when ((97 <=? c) && (c <=? 122)) (goto (st 520))
     else goto (st 520))) ||>
  goto (st 0).
Definition case_521 (c : Z) : option (target action) :=
  switch c [(33, st 255); (35, tr_566); (37, st 256); (47, tr_567); (61, st 255); (63, tr_569); (64, tr_263);
    (95, st 255); (126, st 255)] ||>
  (if c <? 58
   then (if c >? 46
     then when ((48 <=? c) && (c <=? 57)) (goto tr_577)
     else when (c >=? 36) (goto (st 255)))
   else (if c >? 59
     then (if c >? 90
       then when ((97 <=? c) && (c <=? 122)) (goto (st 255))
       else when (c >=? 65) (goto (st 255)))
     else goto (st 255))) ||>
  goto (st 0).
Definition case_522 (c : Z) : option (target action) :=
  switch c [(2, tr_546); (33, tr_578); (35, tr_548); (37, tr_579); (47, tr_550); (48, tr_580); (49, tr_581);
    (50, tr_582); (58, tr_584); (59, tr_578); (61, tr_578); (63, tr_556); (91, tr_558); (95, tr_578);
    (126, tr_578)] ||>
  (if c <? 51
   then when ((36 <=? c) && (c <=? 46)) (goto tr_578)
   else (if c >? 57
     then (if c >? 90
       then when ((97 <=? c) && (c <=? 122)) (goto tr_578)
       else when (c >=? 65) (goto tr_578))
     else goto tr_583)) ||>
  goto (st 0).
Definition case_523 (c : Z) : option (target action) :=
  switch c [(33, st 523); (35, tr_559); (37, st 258); (47, tr_560); (58, tr_561); (61, st 523); (63, tr_562);
    (95, st 523); (126, st 523)] ||>
  (if c <? 65
   then when ((36 <=? c) && (c <=? 59)) (goto (st 523))
   else (if c >? 90
     then when ((97 <=? c) && (c <=? 122)) (goto (st 523))
     else goto (st 523))) ||>
  goto (st 0).
Definition case_524 (c : Z) : option (target action) :=
  switch c [(33, st 523); (35, tr_559); (37, st 258); (46, st 525); (47, tr_560); (58, tr_561); (61, st 523);
    (63, tr_562); (95, st 523); (126, st 523)] ||>
  (if c <? 65
   then when ((36 <=? c) && (c <=? 59)) (goto (st 523))
   else (if c >? 90
     then when ((97 <=? c) && (c <=? 122)) (goto (st 523))
     else goto (st 523))) ||>
  goto (st 0).
Definition case_525 (c : Z) : option (target action) :=
  switch c [(2, st 233); (33, st 523); (35, tr_559); (37, st 258); (47, tr_560); (48, st 526); (49, st 534);
    (50, st 536); (58, tr_561); (59, st 523); (61, st 523); (63, tr_562); (95, st 523); (126, st 523)] ||>
  (if c <? 51
   then when ((36 <=? c) && (c <=? 46)) (goto (st 523))
   else (if c >? 57
     then (if c >? 90
       then when ((97 <=? c) && (c <=? 122)) (goto (st 523))
       else when (c >=? 65) (goto (st 523)))
     else goto (st 535))) ||>
  goto (st 0).
Definition case_526 (c : Z) : option (target action) :=
  switch c [(33, st 523); (35, tr_559); (37, st 258); (46, st 527); (47, tr_560); (58, tr_561); (61, st 523);
    (63, tr_562); (95, st 523); (126, st 523)] ||>
  (if c <? 65
   then when ((36 <=? c) && (c <=? 59)) (goto (st 523))
   else (if c >? 90
     then when ((97 <=? c) && (c <=? 122)) (goto (st 523))
     else goto (st 523))) ||>
  goto (st 0).
Definition case_527 (c : Z) : option (target action) :=
  switch c [(2, st 237); (33, st 523); (35, tr_559); (37, st 258); (47, tr_560); (48, st 528); (49, st 530);
    (50, st 532); (58, tr_561); (59, st 523); (61, st 523); (63, tr_562); (95, st 523); (126, st 523)] ||>
  (if c <? 51
   then when ((36 <=? c) && (c <=? 46)) (goto (st 523))
   else (if c >? 57
     then (if c >? 90
       then when ((97 <=? c) && (c <=? 122)) (goto (st 523))
       else when (c >=? 65) (goto (st 523)))
     else goto (st 531))) ||>
  goto (st 0).
Definition case_528 (c : Z) : option (target action) :=
  switch c [(33, st 523); (35, tr_559); (37, st 258); (46, st 529); (47, tr_560); (58, tr_561); (61, st 523);
    (63, tr_562); (95, st 523); (126, st 523)] ||>
  (if c <? 65
   then when ((36 <=? c) && (c <=? 59)) (goto (st 523))
   else (if c >? 90
     then when ((97 <=? c) && (c <=? 122)) (goto (st 523))
     else goto (st 523))) ||>
  goto (st 0).
Definition case_529 (c : Z) : option (target action) :=
  switch c [(2, st 241); (33, st 523); (35, tr_559); (37, st 258); (47, tr_560); (58, tr_561); (61, st 523);
    (63, tr_562); (95, st 523); (126, st 523)] ||>
  (if c <? 65
   then when ((36 <=? c) && (c <=? 59)) (goto (st 523))
   else (if c >? 90
     then when ((97 <=? c) && (c <=? 122)) (goto (st 523))
     else goto (st 523))) ||>
  goto (st 0).
Definition case_530 (c : Z) : option (target action) :=
  switch c [(33, st 523); (35, tr_559); (37, st 258); (46, st 529); (47, tr_560); (58, tr_561); (59, st 523);
    (61, st 523); (63, tr_562); (95, st 523); (126, st 523)] ||>
  (if c <? 48
   then when ((36 <=? c) && (c <=? 45)) (goto (st 523))
   else (if c >? 57
     then (if c >? 90
       then when ((97 <=? c) && (c <=? 122)) (goto (st 523))
       else when (c >=? 65) (goto (st 523)))
     else goto (st 531))) ||>
  goto (st 0).
Definition case_531 (c : Z) : option (target action) :=
  switch c [(33, st 523); (35, tr_559); (37, st 258); (46, st 529); (47, tr_560); (58, tr_561); (59, st 523);
    (61, st 523); (63, tr_562); (95, st 523); (126, st 523)] ||>
  (if c <? 48
   then when ((36 <=? c) && (c <=? 45)) (goto (st 523))
   else (if c >? 57
     then (if c >? 90
       then when ((97 <=? c) && (c <=? 122)) (goto (st 523))
       else when (c >=? 65) (goto (st 523)))
     else goto (st 528))) ||>
  goto (st 0).
Definition case_532 (c : Z) : option (target action) :=
  switch c [(33, st 523); (35, tr_559); (37, st 258); (46, st 529); (47, tr_560); (53, st 533); (58, tr_561);
    (59, st 523); (61, st 523); (63, tr_562); (95, st 523); (126, st 523)] ||>
  (if c <? 48
   then when ((36 <=? c) && (c <=? 45)) (goto (st 523))
   else (if c >? 57
     then (if c >? 90
       then when ((97 <=? c) && (c <=? 122)) (goto (st 523))
       else when (c >=? 65) (goto (st 523)))
     else goto (st 528))) ||>
  goto (st 0).
Definition case_533 (c : Z) : option (target action) :=
  switch c [(33, st 523); (35, tr_559); (37, st 258); (46, st 529); (47, tr_560); (58, tr_561); (61, st 523);
    (63, tr_562); (95, st 523); (126, st 523)] ||>
  (if c <? 54
   then (if c >? 45
     then when ((48 <=? c) && (c <=? 53)) (goto (st 528))
     else when (c >=? 36) (goto (st 523)))
   else (if c >? 59
     then (if c >? 90
       then when ((97 <=? c) && (c <=? 122)) (goto (st 523))
       else when (c >=? 65) (goto (st 523)))
     else goto (st 523))) ||>
  goto (st 0).
Definition case_534 (c : Z) : option (target action) :=
  switch c [(33, st 523); (35, tr_559); (37, st 258); (46, st 527); (47, tr_560); (58, tr_561); (59, st 523);
    (61, st 523); (63, tr_562); (95, st 523); (126, st 523)] ||>
  (if c <? 48
   then when ((36 <=? c) && (c <=? 45)) (goto (st 523))
   else (if c >? 57
     then (if c >? 90
       then when ((97 <=? c) && (c <=? 122)) (goto (st 523))
       else when (c >=? 65) (goto (st 523)))
     else goto (st 535))) ||>
  goto (st 0).
Definition case_535 (c : Z) : option (target action) :=
  switch c [(33, st 523); (35, tr_559); (37, st 258); (46, st 527); (47, tr_560); (58, tr_561); (59, st 523);
    (61, st 523); (63, tr_562); (95, st 523); (126, st 523)] ||>
  (if c <? 48
   then when ((36 <=? c) && (c <=? 45)) (goto (st 523))
   else (if c >? 57
     then (if c >? 90
       then when ((97 <=? c) && (c <=? 122)) (goto (st 523))
       else when (c >=? 65) (goto (st 523)))
     else goto (st 526))) ||>
  goto (st 0).
Definition case_536 (c : Z) : option (target action) :=
  switch c [(33, st 523); (35, tr_559); (37, st 258); (46, st 527); (47, tr_560); (53, st 537); (58, tr_561);
    (59, st 523); (61, st 523); (63, tr_562); (95, st 523); (126, st 523)] ||>
  (if c <? 48
   then when ((36 <=? c) && (c <=? 45)) (goto (st 523))
   else (if c >? 57
     then (if c >? 90
       then when ((97 <=? c) && (c <=? 122)) (goto (st 523))
       else when (c >=? 65) (goto (st 523)))
     else goto (st 526))) ||>
  goto (st 0).
Definition case_537 (c : Z) : option (target action) :=
  switch c [(33, st 523); (35, tr_559); (37, st 258); (46, st 527); (47, tr_560); (58, tr_561); (61, st 523);
    (63, tr_562); (95, st 523); (126, st 523)] ||>
  (if c <? 54
   then (if c >? 45
     then when ((48 <=? c) && (c <=? 53)) (goto (st 526))
     else when (c >=? 36) (goto (st 523)))
   else (if c >? 59
     then (if c >? 90
       then when ((97 <=? c) && (c <=? 122)) (goto (st 523))
       else when (c >=? 65) (goto (st 523)))
     else goto (st 523))) ||>
  goto (st 0).
Definition case_538 (c : Z) : option (target action) :=
  switch c [(33, st 523); (35, tr_559); (37, st 258); (46, st 525); (47, tr_560); (58, tr_561); (59, st 523);
    (61, st 523); (63, tr_562); (95, st 523); (126, st 523)] ||>
  (if c <? 48
   then when ((36 <=? c) && (c <=? 45)) (goto (st 523))
   else (if c >? 57
     then (if c >? 90
       then when ((97 <=? c) && (c <=? 122)) (goto (st 523))
       else when (c >=? 65) (goto (st 523)))
     else goto (st 539))) ||>
  goto (st 0).
Definition case_539 (c : Z) : option (target action) :=
  switch c [(33, st 523); (35, tr_559); (37, st 258); (46, st 525); (47, tr_560); (58, tr_561); (59, st 523);
    (61, st 523); (63, tr_562); (95, st 523); (126, st 523)] ||>
  (if c <? 48
   then when ((36 <=? c) && (c <=? 45)) (goto (st 523))
   else (if c >? 57
     then (if c >? 90
       then when ((97 <=? c) && (c <=? 122)) (goto (st 523))
       else when (c >=? 65) (goto (st 523)))
     else goto (st 524))) ||>
  goto (st 0).
Definition case_540 (c : Z) : option (target action) :=
  switch c [(33, st 523); (35, tr_559); (37, st 258); (46, st 525); (47, tr_560); (53, st 541); (58, tr_561);
    (59, st 523); (61, st 523); (63, tr_562); (95, st 523); (126, st 523)] ||>
  (if c <? 48
   then when ((36 <=? c) && (c <=? 45)) (goto (st 523))
   else (if c >? 57
     then (if c >? 90
       then when ((97 <=? c) && (c <=? 122)) (goto (st 523))
       else when (c >=? 65) (goto (st 523)))
     else goto (st 524))) ||>
  goto (st 0).
Definition case_541 (c : Z) : option (target action) :=
  switch c [(33, st 523); (35, tr_559); (37, st 258); (46, st 525); (47, tr_560); (58, tr_561); (61, st 523);
    (63, tr_562); (95, st 523); (126, st 523)] ||>
  (if c <? 54
   then (if c >? 45
     then when ((48 <=? c) && (c <=? 53)) (goto (st 524))
     else when (c >=? 36) (goto (st 523)))
   else (if c >? 59
     then (if c >? 90
       then when ((97 <=? c) && (c <=? 122)) (goto (st 523))
       else when (c >=? 65) (goto (st 523)))
     else goto (st 523))) ||>
  goto (st 0).
Definition case_542 (c : Z) : option (target action) :=
  switch c [(33, st 255); (35, tr_570); (37, st 256); (47, tr_571); (61, st 255); (63, tr_573); (64, tr_263);
    (95, st 255); (126, st 255)] ||>
  (if c <? 58
   then (if c >? 46
     then when ((48 <=? c) && (c <=? 57)) (goto (st 542))
     else when (c >=? 36) (goto (st 255)))
   else (if c >? 59
     then (if c >? 90
       then when ((97 <=? c) && (c <=? 122)) (goto (st 255))
       else when (c >=? 65) (goto (st 255)))
     else goto (st 255))) ||>
  goto (st 0).
Definition case_543 (c : Z) : option (target action) :=
  switch c [(33, st 520); (35, tr_559); (37, st 253); (46, st 544); (47, tr_560); (58, tr_576); (61, st 520);
    (63, tr_562); (64, tr_263); (95, st 520); (126, st 520)] ||>
  (if c <? 65
   then when ((36 <=? c) && (c <=? 59)) (goto (st 520))
   else (if c >? 90
     then when ((97 <=? c) && (c <=? 122)) (goto (st 520))
     else goto (st 520))) ||>
  goto (st 0).
Definition case_544 (c : Z) : option (target action) :=
  switch c [(2, st 233); (33, st 520); (35, tr_559); (37, st 253); (47, tr_560); (48, st 545); (49, st 553);
    (50, st 555); (58, tr_576); (59, st 520); (61, st 520); (63, tr_562); (64, tr_263); (95, st 520);
    (126, st 520)] ||>
  (if c <? 51
   then when ((36 <=? c) && (c <=? 46)) (goto (st 520))
   else (if c >? 57
     then (if c >? 90
       then when ((97 <=? c) && (c <=? 122)) (goto (st 520))
       else when (c >=? 65) (goto (st 520)))
     else goto (st 554))) ||>
  goto (st 0).
Definition case_545 (c : Z) : option (target action) :=
  switch c [(33, st 520); (35, tr_559); (37, st 253); (46, st 546); (47, tr_560); (58, tr_576); (61, st 520);
    (63, tr_562); (64, tr_263); (95, st 520); (126, st 520)] ||>
  (if c <? 65
   then when ((36 <=? c) && (c <=? 59)) (goto (st 520))
   else (if c >? 90
     then when ((97 <=? c) && (c <=? 122)) (goto (st 520))
     else goto (st 520))) ||>
  goto (st 0).
Definition case_546 (c : Z) : option (target action) :=
  switch c [(2, st 237); (33, st 520); (35, tr_559); (37, st 253); (47, tr_560); (48, st 547); (49, st 549);
    (50, st 551); (58, tr_576); (59, st 520); (61, st 520); (63, tr_562); (64, tr_263); (95, st 520);
    (126, st 520)] ||>
  (if c <? 51
   then when ((36 <=? c) && (c <=? 46)) (goto (st 520))
   else (if c >? 57
     then (if c >? 90
       then when ((97 <=? c) && (c <=? 122)) (goto (st 520))
       else when (c >=? 65) (goto (st 520)))
     else goto (st 550))) ||>
  goto (st 0).
Definition case_547 (c : Z) : option (target action) :=
  switch c [(33, st 520); (35, tr_559); (37, st 253); (46, st 548); (47, tr_560); (58, tr_576); (61, st 520);
    (63, tr_562); (64, tr_263); (95, st 520); (126, st 520)] ||>
  (if c <? 65
   then when ((36 <=? c) && (c <=? 59)) (goto (st 520))
   else (if c >? 90
     then when ((97 <=? c) && (c <=? 122)) (goto (st 520))
     else goto (st 520))) ||>
  goto (st 0).
Definition case_548 (c : Z) : option (target action) :=
  switch c [(2, st 241); (33, st 520); (35, tr_559); (37, st 253); (47, tr_560); (58, tr_576); (61, st 520);
    (63, tr_562); (64, tr_263); (95, st 520); (126, st 520)] ||>
  (if c <? 65
   then when ((36 <=? c) && (c <=? 59)) (goto (st 520))
   else (if c >? 90
     then when ((97 <=? c) && (c <=? 122)) (goto (st 520))
     else goto (st 520))) ||>
  goto (st 0).
Definition case_549 (c : Z) : option (target action) :=
  switch c [(33, st 520); (35, tr_559); (37, st 253); (46, st 548); (47, tr_560); (58, tr_576); (59, st 520);
    (61, st 520); (63, tr_562); (64, tr_263); (95, st 520); (126, st 520)] ||>
  (if c <? 48
   then when ((36 <=? c) && (c <=? 45)) (goto (st 520))
   else (if c >? 57
     then (if c >? 90
       then when ((97 <=? c) && (c <=? 122)) (goto (st 520))
       else when (c >=? 65) (goto (st 520)))
     else goto (st 550))) ||>
  goto (st 0).
Definition case_550 (c : Z) : option (target action) :=
  switch c [(33, st 520); (35, tr_559); (37, st 253); (46, st 548); (47, tr_560); (58, tr_576); (59, st 520);
    (61, st 520); (63, tr_562); (64, tr_263); (95, st 520); (126, st 520)] ||>
  (if c <? 48
   then when ((36 <=? c) && (c <=? 45)) (goto (st 520))
   else (if c >? 57
     then (if c >? 90
       then when ((97 <=? c) && (c <=? 122)) (goto (st 520))
       else when (c >=? 65) (goto (st 520)))
     else goto (st 547))) ||>
  goto (st 0).
Definition case_551 (c : Z) : option (target action) :=
  switch c [(33, st 520); (35, tr_559); (37, st 253); (46, st 548); (47, tr_560); (53, st 552); (58, tr_576);
    (59, st 520); (61, st 520); (63, tr_562); (64, tr_263); (95, st 520); (126, st 520)] ||>
  (if c <? 48
   then when ((36 <=? c) && (c <=? 45)) (goto (st 520))
   else (if c >? 57
     then (if c >? 90
       then when ((97 <=? c) && (c <=? 122)) (goto (st 520))
       else when (c >=? 65) (goto (st 520)))
     else goto (st 547))) ||>
  goto (st 0).
Definition case_552 (c : Z) : option (target action) :=
  switch c [(33, st 520); (35, tr_559); (37, st 253); (46, st 548); (47, tr_560); (58, tr_576); (61, st 520);
    (63, tr_562); (64, tr_263); (95, st 520); (126, st 520)] ||>
  (if c <? 54
   then (if c >? 45
     then when ((48 <=? c) && (c <=? 53)) (goto (st 547))
     else when (c >=? 36) (goto (st 520)))
   else (if c >? 59
     then (if c >? 90
       then when ((97 <=? c) && (c <=? 122)) (goto (st 520))
       else when (c >=? 65) (goto (st 520)))
     else goto (st 520))) ||>
  goto (st 0).
Definition case_553 (c : Z) : option (target action) :=
  switch c [(33, st 520); (35, tr_559); (37, st 253); (46, st 546); (47, tr_560); (58, tr_576); (59, st 520);
    (61, st 520); (63, tr_562); (64, tr_263); (95, st 520); (126, st 520)] ||>
  (if c <? 48
   then when ((36 <=? c) && (c <=? 45)) (goto (st 520))
   else (if c >? 57
     then (if c >? 90
       then when ((97 <=? c) && (c <=? 122)) (goto (st 520))
       else when (c >=? 65) (goto (st 520)))
     else goto (st 554))) ||>
  goto (st 0).
Definition case_554 (c : Z) : option (target action) :=
  switch c [(33, st 520); (35, tr_559); (37, st 253); (46, st 546); (47, tr_560); (58, tr_576); (59, st 520);
    (61, st 520); (63, tr_562); (64, tr_263); (95, st 520); (126, st 520)] ||>
  (if c <? 48
   then when ((36 <=? c) && (c <=? 45)) (goto (st 520))
   else (if c >? 57
     then (if c >? 90
       then when ((97 <=? c) && (c <=? 122)) (goto (st 520))
       else when (c >=? 65) (goto (st 520)))
     else goto (st 545))) ||>
  goto (st 0).
Definition case_555 (c : Z) : option (target action) :=
  switch c [(33, st 520); (35, tr_559); (37, st 253); (46, st 546); (47, tr_560); (53, st 556); (58, tr_576);
    (59, st 520); (61, st 520); (63, tr_562); (64, tr_263); (95, st 520); (126, st 520)] ||>
  (if c <? 48
   then when ((36 <=? c) && (c <=? 45)) (goto (st 520))
   else (if c >? 57
     then (if c >? 90
       then when ((97 <=? c) && (c <=? 122)) (goto (st 520))
       else when (c >=? 65) (goto (st 520)))
     else goto (st 545))) ||>
  goto (st 0).
Definition case_556 (c : Z) : option (target action) :=
  switch c [(33, st 520); (35, tr_559); (37, st 253); (46, st 546); (47, tr_560); (58, tr_576); (61, st 520);
    (63, tr_562); (64, tr_263); (95, st 520); (126, st 520)] ||>
  (if c <? 54
   then (if c >? 45
     then when ((48 <=? c) && (c <=? 53)) (goto (st 545))
     else when (c >=? 36) (goto (st 520)))
   else (if c >? 59
     then (if c >? 90
       then when ((97 <=? c) && (c <=? 122)) (goto (st 520))
       else when (c >=? 65) (goto (st 520)))
     else goto (st 520))) ||>
  goto (st 0).
Definition case_557 (c : Z) : option (target action) :=
  switch c [(33, st 520); (35, tr_559); (37, st 253); (46, st 544); (47, tr_560); (58, tr_576); (59, st 520);
    (61, st 520); (63, tr_562); (64, tr_263); (95, st 520); (126, st 520)] ||>
  (if c <? 48
   then when ((36 <=? c) && (c <=? 45)) (goto (st 520))
   else (if c >? 57
     then (if c >? 90
       then when ((97 <=? c) && (c <=? 122)) (goto (st 520))
       else when (c >=? 65) (goto (st 520)))
     else goto (st 558))) ||>
  goto (st 0).
Definition case_558 (c : Z) : option (target action) :=
  switch c [(33, st 520); (35, tr_559); (37, st 253); (46, st 544); (47, tr_560); (58, tr_576); (59, st 520);
    (61, st 520); (63, tr_562); (64, tr_263); (95, st 520); (126, st 520)] ||>
  (if c <? 48
   then when ((36 <=? c) && (c <=? 45)) (goto (st 520))
   else (if c >? 57
     then (if c >? 90
       then when ((97 <=? c) && (c <=? 122)) (goto (st 520))
       else when (c >=? 65) (goto (st 520)))
     else goto (st 543))) ||>
  goto (st 0).
Definition case_559 (c : Z) : option (target action) :=
  switch c [(33, st 520); (35, tr_559); (37, st 253); (46, st 544); (47, tr_560); (53, st 560); (58, tr_576);
    (59, st 520); (61, st 520); (63, tr_562); (64, tr_263); (95, st 520); (126, st 520)] ||>
  (if c <? 48
   then when ((36 <=? c) && (c <=? 45)) (goto (st 520))
   else (if c >? 57
     then (if c >? 90
       then when ((97 <=? c) && (c <=? 122)) (goto (st 520))
       else when (c >=? 65) (goto (st 520)))
     else goto (st 543))) ||>
  goto (st 0).
Definition case_560 (c : Z) : option (target action) :=
  switch c [(33, st 520); (35, tr_559); (37, st 253); (46, st 544); (47, tr_560); (58, tr_576); (61, st 520);
    (63, tr_562); (64, tr_263); (95, st 520); (126, st 520)] ||>
  (if c <? 54
   then (if c >? 45
     then when ((48 <=? c) && (c <=? 53)) (goto (st 543))
     else when (c >=? 36) (goto (st 520)))
   else (if c >? 59
     then (if c >? 90
       then when ((97 <=? c) && (c <=? 122)) (goto (st 520))
       else when (c >=? 65) (goto (st 520)))
     else goto (st 520))) ||>
  goto (st 0).

(** The [switch (cs)]: no case, no move. *)
Definition fsm (cs c : Z) : option (target action) :=
  match cs with
  | 1 => case_1 c | 2 => case_2 c | 3 => case_3 c | 4 => case_4 c | 5 => case_5 c | 6 => case_6 c | 7 => case_7 c
  | 8 => case_8 c | 9 => case_9 c | 10 => case_10 c | 11 => case_11 c | 12 => case_12 c | 13 => case_13 c
  | 14 => case_14 c | 15 => case_15 c | 16 => case_16 c | 17 => case_17 c | 18 => case_18 c | 19 => case_19 c
  | 20 => case_20 c | 21 => case_21 c | 22 => case_22 c | 23 => case_23 c | 24 => case_24 c | 25 => case_25 c
  | 26 => case_26 c | 27 => case_27 c | 28 => case_28 c | 29 => case_29 c | 30 => case_30 c | 31 => case_31 c
  | 32 => case_32 c | 33 => case_33 c | 34 => case_34 c | 35 => case_35 c | 36 => case_36 c | 37 => case_37 c
  | 38 => case_38 c | 39 => case_39 c | 40 => case_40 c | 41 => case_41 c | 42 => case_42 c | 43 => case_43 c
  | 44 => case_44 c | 45 => case_45 c | 46 => case_46 c | 47 => case_47 c | 48 => case_48 c | 49 => case_49 c
  | 50 => case_50 c | 51 => case_51 c | 52 => case_52 c | 53 => case_53 c | 54 => case_54 c | 55 => case_55 c
  | 56 => case_56 c | 57 => case_57 c | 58 => case_58 c | 59 => case_59 c | 60 => case_60 c | 61 => case_61 c
  | 62 => case_62 c | 63 => case_63 c | 64 => case_64 c | 65 => case_65 c | 66 => case_66 c | 67 => case_67 c
  | 68 => case_68 c | 69 => case_69 c | 70 => case_70 c | 71 => case_71 c | 72 => case_72 c | 73 => case_73 c
  | 74 => case_74 c | 75 => case_75 c | 76 => case_76 c | 77 => case_77 c | 78 => case_78 c | 79 => case_79 c
  | 80 => case_80 c | 81 => case_81 c | 82 => case_82 c | 83 => case_83 c | 84 => case_84 c | 85 => case_85 c
  | 86 => case_86 c | 87 => case_87 c | 88 => case_88 c | 89 => case_89 c | 90 => case_90 c | 91 => case_91 c
  | 92 => case_92 c | 93 => case_93 c | 94 => case_94 c | 95 => case_95 c | 96 => case_96 c | 97 => case_97 c
  | 98 => case_98 c | 99 => case_99 c | 100 => case_100 c | 101 => case_101 c | 102 => case_102 c
  | 103 => case_103 c | 104 => case_104 c | 105 => case_105 c | 106 => case_106 c | 107 => case_107 c
  | 108 => case_108 c | 109 => case_109 c | 110 => case_110 c | 111 => case_111 c | 112 => case_112 c
  | 113 => case_113 c | 114 => case_114 c | 115 => case_115 c | 116 => case_116 c | 117 => case_117 c
  | 118 => case_118 c | 119 => case_119 c | 120 => case_120 c | 121 => case_121 c | 122 => case_122 c
  | 123 => case_123 c | 124 => case_124 c | 125 => case_125 c | 126 => case_126 c | 127 => case_127 c
  | 128 => case_128 c | 129 => case_129 c | 130 => case_130 c | 131 => case_131 c | 132 => case_132 c
  | 133 => case_133 c | 134 => case_134 c | 135 => case_135 c | 136 => case_136 c | 137 => case_137 c
  | 138 => case_138 c | 139 => case_139 c | 140 => case_140 c | 141 => case_141 c | 142 => case_142 c
  | 143 => case_143 c | 144 => case_144 c | 145 => case_145 c | 146 => case_146 c | 147 => case_147 c
  | 148 => case_148 c | 149 => case_149 c | 150 => case_150 c | 151 => case_151 c | 152 => case_152 c
  | 153 => case_153 c | 154 => case_154 c | 155 => case_155 c | 156 => case_156 c | 157 => case_157 c
  | 158 => case_158 c | 159 => case_159 c | 160 => case_160 c | 161 => case_161 c | 162 => case_162 c
  | 163 => case_163 c | 164 => case_164 c | 165 => case_165 c | 166 => case_166 c | 167 => case_167 c
  | 168 => case_168 c | 169 => case_169 c | 170 => case_170 c | 171 => case_171 c | 172 => case_172 c
  | 173 => case_173 c | 174 => case_174 c | 175 => case_175 c | 176 => case_176 c | 177 => case_177 c
  | 178 => case_178 c | 179 => case_179 c | 180 => case_180 c | 181 => case_181 c | 182 => case_182 c
  | 183 => case_183 c | 184 => case_184 c | 185 => case_185 c | 186 => case_186 c | 187 => case_187 c
  | 188 => case_188 c | 189 => case_189 c | 190 => case_190 c | 191 => case_191 c | 192 => case_192 c
  | 193 => case_193 c | 194 => case_194 c | 195 => case_195 c | 196 => case_196 c | 197 => case_197 c
  | 198 => case_198 c | 199 => case_199 c | 200 => case_200 c | 201 => case_201 c | 202 => case_202 c
  | 203 => case_203 c | 204 => case_204 c | 205 => case_205 c | 206 => case_206 c | 207 => case_207 c
  | 208 => case_208 c | 209 => case_209 c | 210 => case_210 c | 211 => case_211 c | 212 => case_212 c
  | 213 => case_213 c | 214 => case_214 c | 215 => case_215 c | 216 => case_216 c | 217 => case_217 c
  | 218 => case_218 c | 219 => case_219 c | 220 => case_220 c | 221 => case_221 c | 222 => case_222 c
  | 223 => case_223 c | 224 => case_224 c | 225 => case_225 c | 226 => case_226 c | 227 => case_227 c
  | 228 => case_228 c | 229 => case_229 c | 230 => case_230 c | 231 => case_231 c | 232 => case_232 c
  | 233 => case_233 c | 234 => case_234 c | 235 => case_235 c | 236 => case_236 c | 237 => case_237 c
  | 238 => case_238 c | 239 => case_239 c | 240 => case_240 c | 241 => case_241 c | 242 => case_242 c
  | 243 => case_243 c | 244 => case_244 c | 245 => case_245 c | 246 => case_246 c | 247 => case_247 c
  | 248 => case_248 c | 249 => case_249 c | 250 => case_250 c | 251 => case_251 c | 252 => case_252 c
  | 253 => case_253 c | 254 => case_254 c | 255 => case_255 c | 256 => case_256 c | 257 => case_257 c
  | 258 => case_258 c | 259 => case_259 c | 260 => case_260 c | 261 => case_261 c | 262 => case_262 c
  | 263 => case_263 c | 264 => case_264 c | 265 => case_265 c | 266 => case_266 c | 267 => case_267 c
  | 268 => case_268 c | 269 => case_269 c | 270 => case_270 c | 271 => case_271 c | 272 => case_272 c
  | 273 => case_273 c | 274 => case_274 c | 275 => case_275 c | 276 => case_276 c | 277 => case_277 c
  | 278 => case_278 c | 279 => case_279 c | 280 => case_280 c | 281 => case_281 c | 282 => case_282 c
  | 283 => case_283 c | 284 => case_284 c | 285 => case_285 c | 286 => case_286 c | 287 => case_287 c
  | 288 => case_288 c | 289 => case_289 c | 290 => case_290 c | 291 => case_291 c | 292 => case_292 c
  | 293 => case_293 c | 294 => case_294 c | 295 => case_295 c | 296 => case_296 c | 297 => case_297 c
  | 298 => case_298 c | 299 => case_299 c | 300 => case_300 c | 301 => case_301 c | 302 => case_302 c
  | 303 => case_303 c | 304 => case_304 c | 305 => case_305 c | 306 => case_306 c | 307 => case_307 c
  | 308 => case_308 c | 309 => case_309 c | 310 => case_310 c | 311 => case_311 c | 312 => case_312 c
  | 313 => case_313 c | 314 => case_314 c | 315 => case_315 c | 316 => case_316 c | 317 => case_317 c
  | 318 => case_318 c | 319 => case_319 c | 320 => case_320 c | 321 => case_321 c | 322 => case_322 c
  | 323 => case_323 c | 324 => case_324 c | 325 => case_325 c | 326 => case_326 c | 327 => case_327 c
  | 328 => case_328 c | 329 => case_329 c | 330 => case_330 c | 331 => case_331 c | 332 => case_332 c
  | 333 => case_333 c | 334 => case_334 c | 335 => case_335 c | 336 => case_336 c | 337 => case_337 c
  | 338 => case_338 c | 339 => case_339 c | 340 => case_340 c | 341 => case_341 c | 342 => case_342 c
  | 343 => case_343 c | 344 => case_344 c | 345 => case_345 c | 346 => case_346 c | 347 => case_347 c
  | 348 => case_348 c | 349 => case_349 c | 350 => case_350 c | 351 => case_351 c | 352 => case_352 c
  | 353 => case_353 c | 354 => case_354 c | 355 => case_355 c | 356 => case_356 c | 357 => case_357 c
  | 358 => case_358 c | 359 => case_359 c | 360 => case_360 c | 361 => case_361 c | 362 => case_362 c
  | 363 => case_363 c | 364 => case_364 c | 365 => case_365 c | 366 => case_366 c | 367 => case_367 c
  | 368 => case_368 c | 369 => case_369 c | 370 => case_370 c | 371 => case_371 c | 372 => case_372 c
  | 373 => case_373 c | 374 => case_374 c | 375 => case_375 c | 376 => case_376 c | 377 => case_377 c
  | 378 => case_378 c | 379 => case_379 c | 380 => case_380 c | 381 => case_381 c | 382 => case_382 c
  | 383 => case_383 c | 384 => case_384 c | 385 => case_385 c | 386 => case_386 c | 387 => case_387 c
  | 388 => case_388 c | 389 => case_389 c | 390 => case_390 c | 391 => case_391 c | 392 => case_392 c
  | 393 => case_393 c | 394 => case_394 c | 395 => case_395 c | 396 => case_396 c | 397 => case_397 c
  | 398 => case_398 c | 399 => case_399 c | 400 => case_400 c | 401 => case_401 c | 402 => case_402 c
  | 403 => case_403 c | 404 => case_404 c | 405 => case_405 c | 406 => case_406 c | 407 => case_407 c
  | 408 => case_408 c | 409 => case_409 c | 410 => case_410 c | 411 => case_411 c | 412 => case_412 c
  | 413 => case_413 c | 414 => case_414 c | 415 => case_415 c | 416 => case_416 c | 417 => case_417 c
  | 418 => case_418 c | 419 => case_419 c | 420 => case_420 c | 421 => case_421 c | 422 => case_422 c
  | 423 => case_423 c | 424 => case_424 c | 425 => case_425 c | 426 => case_426 c | 427 => case_427 c
  | 428 => case_428 c | 429 => case_429 c | 430 => case_430 c | 431 => case_431 c | 432 => case_432 c
  | 433 => case_433 c | 434 => case_434 c | 435 => case_435 c | 436 => case_436 c | 437 => case_437 c
  | 438 => case_438 c | 439 => case_439 c | 440 => case_440 c | 441 => case_441 c | 442 => case_442 c
  | 443 => case_443 c | 444 => case_444 c | 445 => case_445 c | 446 => case_446 c | 447 => case_447 c
  | 448 => case_448 c | 449 => case_449 c | 450 => case_450 c | 451 => case_451 c | 452 => case_452 c
  | 453 => case_453 c | 454 => case_454 c | 455 => case_455 c | 456 => case_456 c | 457 => case_457 c
  | 458 => case_458 c | 459 => case_459 c | 460 => case_460 c | 461 => case_461 c | 462 => case_462 c
  | 463 => case_463 c | 464 => case_464 c | 465 => case_465 c | 466 => case_466 c | 467 => case_467 c
  | 468 => case_468 c | 469 => case_469 c | 470 => case_470 c | 471 => case_471 c | 472 => case_472 c
  | 473 => case_473 c | 474 => case_474 c | 475 => case_475 c | 476 => case_476 c | 477 => case_477 c
  | 478 => case_478 c | 479 => case_479 c | 480 => case_480 c | 481 => case_481 c | 482 => case_482 c
  | 483 => case_483 c | 484 => case_484 c | 485 => case_485 c | 486 => case_486 c | 487 => case_487 c
  | 488 => case_488 c | 489 => case_489 c | 490 => case_490 c | 491 => case_491 c | 492 => case_492 c
  | 493 => case_493 c | 494 => case_494 c | 495 => case_495 c | 496 => case_496 c | 497 => case_497 c
  | 498 => case_498 c | 499 => case_499 c | 500 => case_500 c | 501 => case_501 c | 502 => case_502 c
  | 503 => case_503 c | 504 => case_504 c | 505 => case_505 c | 506 => case_506 c | 507 => case_507 c
  | 508 => case_508 c | 509 => case_509 c | 510 => case_510 c | 511 => case_511 c | 512 => case_512 c
  | 513 => case_513 c | 514 => case_514 c | 515 => case_515 c | 516 => case_516 c | 517 => case_517 c
  | 518 => case_518 c | 519 => case_519 c | 520 => case_520 c | 521 => case_521 c | 522 => case_522 c
  | 523 => case_523 c | 524 => case_524 c | 525 => case_525 c | 526 => case_526 c | 527 => case_527 c
  | 528 => case_528 c | 529 => case_529 c | 530 => case_530 c | 531 => case_531 c | 532 => case_532 c
  | 533 => case_533 c | 534 => case_534 c | 535 => case_535 c | 536 => case_536 c | 537 => case_537 c
  | 538 => case_538 c | 539 => case_539 c | 540 => case_540 c | 541 => case_541 c | 542 => case_542 c
  | 543 => case_543 c | 544 => case_544 c | 545 => case_545 c | 546 => case_546 c | 547 => case_547 c
  | 548 => case_548 c | 549 => case_549 c | 550 => case_550 c | 551 => case_551 c | 552 => case_552 c
  | 553 => case_553 c | 554 => case_554 c | 555 => case_555 c | 556 => case_556 c | 557 => case_557 c
  | 558 => case_558 c | 559 => case_559 c | 560 => case_560 c
  | _ => None
  end.
(** The states of the table. *)
Definition states : list Z := [1; 2; 3; 4; 5; 6; 7; 8; 9; 10; 11; 12; 13; 14; 15; 16; 17; 18; 19; 20; 21; 22; 23;
  24; 25; 26; 27; 28; 29; 30; 31; 32; 33; 34; 35; 36; 37; 38; 39; 40; 41; 42; 43; 44; 45; 46; 47; 48; 49; 50; 51;
  52; 53; 54; 55; 56; 57; 58; 59; 60; 61; 62; 63; 64; 65; 66; 67; 68; 69; 70; 71; 72; 73; 74; 75; 76; 77; 78; 79;
  80; 81; 82; 83; 84; 85; 86; 87; 88; 89; 90; 91; 92; 93; 94; 95; 96; 97; 98; 99; 100; 101; 102; 103; 104; 105; 106;
  107; 108; 109; 110; 111; 112; 113; 114; 115; 116; 117; 118; 119; 120; 121; 122; 123; 124; 125; 126; 127; 128; 129;
  130; 131; 132; 133; 134; 135; 136; 137; 138; 139; 140; 141; 142; 143; 144; 145; 146; 147; 148; 149; 150; 151; 152;
  153; 154; 155; 156; 157; 158; 159; 160; 161; 162; 163; 164; 165; 166; 167; 168; 169; 170; 171; 172; 173; 174; 175;
  176; 177; 178; 179; 180; 181; 182; 183; 184; 185; 186; 187; 188; 189; 190; 191; 192; 193; 194; 195; 196; 197; 198;
  199; 200; 201; 202; 203; 204; 205; 206; 207; 208; 209; 210; 211; 212; 213; 214; 215; 216; 217; 218; 219; 220; 221;
  222; 223; 224; 225; 226; 227; 228; 229; 230; 231; 232; 233; 234; 235; 236; 237; 238; 239; 240; 241; 242; 243; 244;
  245; 246; 247; 248; 249; 250; 251; 252; 253; 254; 255; 256; 257; 258; 259; 260; 261; 262; 263; 264; 265; 266; 267;
  268; 269; 270; 271; 272; 273; 274; 275; 276; 277; 278; 279; 280; 281; 282; 283; 284; 285; 286; 287; 288; 289; 290;
  291; 292; 293; 294; 295; 296; 297; 298; 299; 300; 301; 302; 303; 304; 305; 306; 307; 308; 309; 310; 311; 312; 313;
  314; 315; 316; 317; 318; 319; 320; 321; 322; 323; 324; 325; 326; 327; 328; 329; 330; 331; 332; 333; 334; 335; 336;
  337; 338; 339; 340; 341; 342; 343; 344; 345; 346; 347; 348; 349; 350; 351; 352; 353; 354; 355; 356; 357; 358; 359;
  360; 361; 362; 363; 364; 365; 366; 367; 368; 369; 370; 371; 372; 373; 374; 375; 376; 377; 378; 379; 380; 381; 382;
  383; 384; 385; 386; 387; 388; 389; 390; 391; 392; 393; 394; 395; 396; 397; 398; 399; 400; 401; 402; 403; 404; 405;
  406; 407; 408; 409; 410; 411; 412; 413; 414; 415; 416; 417; 418; 419; 420; 421; 422; 423; 424; 425; 426; 427; 428;
  429; 430; 431; 432; 433; 434; 435; 436; 437; 438; 439; 440; 441; 442; 443; 444; 445; 446; 447; 448; 449; 450; 451;
  452; 453; 454; 455; 456; 457; 458; 459; 460; 461; 462; 463; 464; 465; 466; 467; 468; 469; 470; 471; 472; 473; 474;
  475; 476; 477; 478; 479; 480; 481; 482; 483; 484; 485; 486; 487; 488; 489; 490; 491; 492; 493; 494; 495; 496; 497;
  498; 499; 500; 501; 502; 503; 504; 505; 506; 507; 508; 509; 510; 511; 512; 513; 514; 515; 516; 517; 518; 519; 520;
  521; 522; 523; 524; 525; 526; 527; 528; 529; 530; 531; 532; 533; 534; 535; 536; 537; 538; 539; 540; 541; 542; 543;
  544; 545; 546; 547; 548; 549; 550; 551; 552; 553; 554; 555; 556; 557; 558; 559; 560].

(** [if (p == eof)]: the actions of a state at the end of the text. *)
Definition eof_actions (cs : Z) : list action :=
  if decide (cs ∈ [462; 489]) then [SavePort] else
  if decide (cs ∈ [460; 463; 464; 465; 466; 467; 470; 471; 472; 473; 474; 475; 476; 477; 478; 479; 480; 481; 482;
    483; 484; 485; 486; 487; 488; 490; 491; 492; 493; 494; 495; 496; 497; 498; 499; 500; 501;
    502; 503; 504; 505; 506; 507]) then [SaveHost] else
  if decide (cs ∈ [513]) then [SavePath] else
  if decide (cs ∈ [457]) then [SaveQuery] else
  if decide (cs ∈ [454]) then [SaveFragment] else
  if decide (cs ∈ [456]) then [MarkU; SaveQuery] else
  if decide (cs ∈ [453]) then [MarkU; SaveFragment] else
  if decide (cs ∈ [461; 468]) then [MarkH; SavePort] else
  if decide (cs ∈ [459; 469]) then [MarkH; SaveHost] else
  if decide (cs ∈ [514; 521]) then [MarkH; SavePort; SavePath] else
  if decide (cs ∈ [511; 522]) then [MarkH; SaveHost; SavePath] else
  if decide (cs ∈ [515; 542]) then [SavePort; MarkH; SavePath] else
  if decide (cs ∈ [512; 516; 517; 518; 519; 520; 523; 524; 525; 526; 527; 528; 529; 530; 531; 532; 533; 534; 535;
    536; 537; 538; 539; 540; 541; 543; 544; 545; 546; 547; 548; 549; 550; 551; 552; 553; 554;
    555; 556; 557; 558; 559; 560]) then [SaveHost; MarkH; SavePath] else
  [].
