(* ===== verification/Automata.v ===== *)
(** The three generated automata as tables: whatever their actions do, a run
    that starts in a state of the table ends in a state of the table or in the
    error state, so that the next call, which starts where the last one
    stopped, has a move for every character. *)

From Stdlib Require Import ZArith Lia Ascii String.
From stdpp Require Import base list.
From S2P Require Import Prelude Ragel HttpClientFsm Http11Fsm UriFsm.
Local Open Scope Z_scope.

(** What a table must satisfy: a move for every character, to a state of the
    table or to the error. *)
Definition typed_table {A} (table : Z -> Z -> option (target A)) (states : list Z) : bool :=
  let n := Z.of_nat (length states) in
  covers n states && moves table states (fun _ => true) (fun _ t => in_table n (t_state t)).

Section typed.
Context {A S : Type} `{EqDecision A} (table : Z -> Z -> option (target A)) (states : list Z).
Hypothesis typed : typed_table table states = true.

Lemma typed_move cs c : In cs states -> exists t, table cs (char c) = Some t /\ (t_state t = 0 \/ In (t_state t) states).
Proof.
  intros H. unfold typed_table in typed. apply andb_true_iff in typed as [Hn Hm].
  destruct (moves_spec table states _ _ Hm cs c H eq_refl) as (t & Et & Ht). exists t. split; [done|]. by eapply in_table_spec.
Qed.
Lemma typed_run (act : A -> Z -> S -> outcome (S * bool)) b p cs s s' cs' p' :
  In cs states -> exec table act b p cs s = Ret (s', cs', p') -> cs' = 0 \/ In cs' states.
Proof.
  intros Hcs E. set (R := fun r : outcome (S * Z * Z) => match r with Ret (_, cs', _) => cs' = 0 \/ In cs' states | _ => True end).
  assert (R (exec table act b p cs s)) as HR; [|by rewrite E in HR].
  apply (exec_invariant table act (fun _ cs _ => In cs states)); [done|by right|].
  intros q cs1 s1 c t _ H1 Et. destruct (typed_move cs1 c H1) as (t' & Et' & Ht). rewrite Et in Et'. injection Et' as <-.
  destruct (run_actions act _ q s1) as [[s2 []]|e|f]; [exact Ht| |done|done].
  destruct (t_state t =? 0) eqn:E0; [by left|]. apply Z.eqb_neq in E0. by destruct Ht.
Qed.
(** A run stops before the end of the text only in the error state or where an
    action breaks out of it. *)
Lemma typed_run_stops (act : A -> Z -> S -> outcome (S * bool)) b p cs s s' cs' p' :
  (forall a q s r, act a q s = Ret r -> r.2 = false) ->
  In cs states -> exec table act b p cs s = Ret (s', cs', p') -> p' = p + Z.of_nat (length b) \/ cs' = 0.
Proof.
  intros Hact Hcs E. set (R := fun r : outcome (S * Z * Z) => match r with Ret (_, cs', p') => p' = p + Z.of_nat (length b) \/ cs' = 0 | _ => True end).
  assert (forall l q s r, run_actions act l q s = Ret r -> r.2 = false) as Hrun.
  { induction l as [|a l IH]; intros q s0 r; simpl; [by intros [= <-]|]. destruct (act a q s0) as [[s1 b1]|e|f] eqn:Ea; simpl; [|done|done].
    specialize (Hact _ _ _ _ Ea) as Hb. simpl in Hb. subst b1. apply IH. }
  clear Hact. revert p cs s Hcs E R. induction b as [|c b IH]; intros p cs s Hcs E R; simpl in E.
  - injection E as _ _ <-. left. simpl. lia.
  - destruct (typed_move cs c Hcs) as (t & Et & Ht). rewrite Et in E.
    destruct (run_actions act _ p s) as [[s1 b1]|e|f] eqn:Er; simpl in E; [|done|done].
    specialize (Hrun _ _ _ _ Er) as Hb. simpl in Hb. subst b1. destruct (t_state t =? 0) eqn:E0; [injection E as _ <- _; by right|].
    apply Z.eqb_neq in E0. destruct Ht as [Ht|Ht]; [done|]. destruct (IH _ _ _ Ht E) as [->|]; [left; simpl; lia|by right].
Qed.
End typed.

Lemma http11_typed ur : typed_table (Http11Fsm.fsm ur) Http11Fsm.states = true.
Proof. destruct ur; by vm_compute. Qed.
Lemma client_typed : typed_table HttpClientFsm.fsm HttpClientFsm.states = true.
Proof. by vm_compute. Qed.
Lemma uri_typed : typed_table UriFsm.fsm UriFsm.states = true.
Proof. by vm_compute. Qed.

