(* ===== verification/Uri.v ===== *)
(** [sherry/uri.rl.cc]: URIs.  [Create] is the automaton of [UriFsm] with its
    actions; a mark is an offset into the text, [None] for a null pointer.
    Printing and the defaults of port and path are the functions around it. *)

From Stdlib Require Import ZArith Lia Ascii String.
From stdpp Require Import base list strings.
From S2P Require Import Prelude MachineInt Ragel UriFsm HttpSession.
Local Open Scope Z_scope.

Record Uri : Type := mkUri {
  u_scheme : string; u_userinfo : string; u_host : string; u_path : string; u_query : string; u_fragment : string; u_port : Z
}.
Definition new_Uri : Uri := mkUri "" "" "" "" "" "" 0.
Definition setScheme (v : string) (u : Uri) : Uri := mkUri v (u_userinfo u) (u_host u) (u_path u) (u_query u) (u_fragment u) (u_port u).
Definition setUserinfo (v : string) (u : Uri) : Uri := mkUri (u_scheme u) v (u_host u) (u_path u) (u_query u) (u_fragment u) (u_port u).
Definition setHost (v : string) (u : Uri) : Uri := mkUri (u_scheme u) (u_userinfo u) v (u_path u) (u_query u) (u_fragment u) (u_port u).
Definition uri_setPath (v : string) (u : Uri) : Uri := mkUri (u_scheme u) (u_userinfo u) (u_host u) v (u_query u) (u_fragment u) (u_port u).
Definition uri_setQuery (v : string) (u : Uri) : Uri := mkUri (u_scheme u) (u_userinfo u) (u_host u) (u_path u) v (u_fragment u) (u_port u).
Definition uri_setFragment (v : string) (u : Uri) : Uri := mkUri (u_scheme u) (u_userinfo u) (u_host u) (u_path u) (u_query u) v (u_port u).
Definition uri_setPort (v : Z) (u : Uri) : Uri := mkUri (u_scheme u) (u_userinfo u) (u_host u) (u_path u) (u_query u) (u_fragment u) v.

Definition scheme_port (scheme : string) : option Z :=
  if String.eqb scheme "http" || String.eqb scheme "ws" then Some 80
  else if String.eqb scheme "https" || String.eqb scheme "wss" then Some 443 else None.
Definition isDefaultPort (u : Uri) : bool :=
  if u_port u =? 0 then true else match scheme_port (u_scheme u) with Some p => u_port u =? p | None => false end.
Definition uri_getPath (u : Uri) : string := if String.eqb (u_path u) "" then "/" else u_path u.
Definition uri_getPort (u : Uri) : Z := if negb (u_port u =? 0) then u_port u else default (u_port u) (scheme_port (u_scheme u)).
Definition to_string (n : Z) : string := if n <? 0 then ("-" ++ dec (- n))%string else dec n.
Definition uri_dump (u : Uri) : string :=
  (u_scheme u ++ "://" ++ u_userinfo u ++ (if String.eqb (u_userinfo u) "" then "" else "@") ++ u_host u
   ++ (if isDefaultPort u then "" else ":" ++ to_string (u_port u)) ++ uri_getPath u
   ++ (if String.eqb (u_query u) "" then "" else "?") ++ u_query u
   ++ (if String.eqb (u_fragment u) "" then "" else "#") ++ u_fragment u)%string.
Definition createAddress {A} (LookupAnyIPAddress : string -> option A) (setPort : Z -> A -> A) (u : Uri) : option A :=
  setPort (uri_getPort u) <$> LookupAnyIPAddress (u_host u).

(** * [Create] *)

Abbreviation ustate := (Uri * option Z)%type.

Section create.
Variable uristr : bytes.
Definition uri_parser_start : Z := 451.
Definition uri_parser_first_final : Z := 451.
Definition uri_parser_error : Z := 0.

(** [std::string(mark, p - mark)]: from a null pointer it throws. *)
Definition marked (mark : option Z) (p : Z) : outcome string :=
  match mark with
  | None => Throw "basic_string: construction from null is not valid"
  | Some m => Ret (of_bytes (slice (Z.to_nat m) (Z.to_nat (p - m)) uristr))
  end.

Definition act (a : action) (p : Z) (s : ustate) : outcome (ustate * bool) :=
  let '(uri, mark) := s in
  match a with
  | MarkU => Ret ((uri, Some p), false)
  | MarkH => Ret ((uri, Some p), false)
  | SaveScheme => v ← marked mark p; Ret ((setScheme v uri, None), false)
  | SavePort =>
      uri' ← (if decide (mark = Some p) then Ret uri
              else match mark with None => Crash NullDeref | Some m => Ret (uri_setPort (atoi (drop (Z.to_nat m) uristr)) uri) end);
      Ret ((uri', None), false)
  | SaveUserinfo =>
      uri' ← (match mark with None => Ret uri | Some _ => v ← marked mark p; Ret (setUserinfo v uri) end); Ret ((uri', None), false)
  | SaveHost =>
      uri' ← (match mark with None => Ret uri | Some _ => v ← marked mark p; Ret (setHost v uri) end); Ret ((uri', mark), false)
  | SavePath => v ← marked mark p; Ret ((uri_setPath v uri, None), false)
  | SaveQuery => v ← marked mark p; Ret ((uri_setQuery v uri, None), false)
  | SaveFragment => v ← marked mark p; Ret ((uri_setFragment v uri, None), false)
  end.
End create.

(** [Uri::Create]: null when the text is no URI. *)
Definition Create (uristr : string) : outcome (option Uri) :=
  let s := to_bytes uristr in
  '(u, cs, p) ← exec fsm (act s) s 0 uri_parser_start (new_Uri, None);
  '(u, _) ← (if p =? Z.of_nat (length s) then run_actions (act s) (eof_actions cs) p u else Ret (u, false));
  Ret (if cs =? uri_parser_error then None else if uri_parser_first_final <=? cs then Some u.1 else None).
