(* ===== verification/UriProps.v ===== *)
(** Facts about [Uri.Create]: what [Uri::toString] prints is read back, and
    how the parser can fail. *)

From Stdlib Require Import ZArith Lia Ascii String.
From stdpp Require Import base list strings.
From S2P Require Import Prelude MachineInt Ragel UriFsm HttpSession HttpText Uri.
Local Open Scope Z_scope.

(** * Addresses a URI can hold *)

Definition is_alpha (c : ascii) : bool := let n := nat_of_ascii c in ((65 <=? n) && (n <=? 90) || (97 <=? n) && (n <=? 122))%nat.
Definition is_decimal (c : ascii) : bool := if digit_of 10 c then true else false.
Definition is_scheme_char (c : ascii) : bool := is_alpha c || is_decimal c || existsb (Ascii.eqb c) ["+"; "-"; "."]%char.
(** [unreserved] and [sub_delims]. *)
Definition is_host_char (c : ascii) : bool := is_pchar c && negb (existsb (Ascii.eqb c) [":"; "@"]%char).
Definition chr (x c : ascii) : bool := Ascii.eqb c x.

Definition wf_path (path : string) : bool :=
  match to_bytes path with [] => true | c :: b => chr "/" c && escaped is_path_char b end.
Definition wf_uri (u : Uri) : bool :=
  match to_bytes (u_scheme u) with [] => false | c :: b => is_alpha c && forallb is_scheme_char b end &&
  forallb is_host_char (to_bytes (u_userinfo u)) &&
  negb (String.eqb (u_host u) "") && forallb is_host_char (to_bytes (u_host u)) &&
  wf_path (u_path u) && escaped is_query_char (to_bytes (u_query u)) && escaped is_query_char (to_bytes (u_fragment u)) &&
  (0 <=? u_port u) && (u_port u <? 2 ^ 31).
(** What is read back: a default port is not printed, an empty path is. *)
Definition normal (u : Uri) : Uri := uri_setPath (uri_getPath u) (uri_setPort (if isDefaultPort u then 0 else u_port u) u).

(** * Stages of the automaton *)

(** States that read the host (or what turns out to be the user) after "//",
    and those after the user. *)
Definition authority : list Z := 520 :: map Z.of_nat (seq 543 18).
Definition after_user : list Z := map Z.of_nat (seq 523 19).
Definition enters (e : Z) (P : ascii -> bool) (acts : list action) (Q : list Z) : bool :=
  moves fsm [e] P (fun _ t => bool_decide (t_actions t = acts) && negb (t_state t =? 0) && mem (t_state t) Q).
Lemma enters_spec e P acts Q p c b : enters e P acts Q = true -> stays fsm Q P = true -> P c = true -> Forall (fun c => P c = true) b ->
  exists cs, walk fsm p e (c :: b) = Some (map (fun a => (a, p)) acts, cs) /\ In cs Q.
Proof.
  intros He Hs Hc Hb. destruct (moves_spec _ _ _ _ He e c (or_introl eq_refl) Hc) as (t & Et & Ht).
  apply andb_true_iff in Ht as [[Ha H0]%andb_true_iff Hm]. apply bool_decide_eq_true in Ha. apply negb_true_iff in H0. apply mem_In in Hm.
  destruct (walk_stays fsm Q P (p + 1) _ b Hs Hm Hb) as (cs & Ew & Hcs). exists cs. split; [|done].
  simpl. rewrite Et, H0, Ew. simpl. by rewrite Ha, app_nil_r.
Qed.

Section stages.
Context (U : bytes).
(** The offset of what is left of the text. *)
Definition pos (rest : bytes) : Z := Z.of_nat (length U) - Z.of_nat (length rest).
Definition go (rest : bytes) (cs : Z) (s : ustate) : outcome (ustate * Z * Z) := exec fsm (act U) rest (pos rest) cs s.

Lemma pos_app seg rest : pos rest = pos (seg ++ rest) + Z.of_nat (length seg).
Proof. unfold pos. rewrite length_app. lia. Qed.
Lemma go_walk seg rest cs l cs' s s' :
  walk fsm (pos (seg ++ rest)) cs seg = Some (l, cs') -> do_actions (act U) l s = Ret s' -> go (seg ++ rest) cs s = go rest cs' s'.
Proof. intros Hw Hd. unfold go. by rewrite (exec_walk fsm (act U) seg rest _ cs l cs' s s' Hw Hd), <- pos_app. Qed.
Lemma go_char Q P u c rest cs s s' : leaves fsm Q P u = true -> In cs Q -> P c = true -> t_state u <> 0 ->
  do_actions (act U) (map (fun a => (a, pos (c :: rest))) (t_actions u)) s = Ret s' -> go (c :: rest) cs s = go rest (t_state u) s'.
Proof. intros Hl Hcs Hc Hu Hd. apply (go_walk [c] rest cs _ _ s s' (walk_leaves fsm Q P u _ cs c Hl Hcs Hc Hu) Hd). Qed.
Lemma marked_seg seg rest : (seg ++ rest) `suffix_of` U -> marked U (Some (pos (seg ++ rest))) (pos rest) = Ret (of_bytes seg).
Proof.
  intros [pre E]. unfold marked, pos. rewrite E, !length_app.
  match goal with |- Ret (of_bytes (slice ?n ?k _)) = _ => replace n with (length pre) by lia; replace k with (length seg) by lia end.
  unfold slice. by rewrite drop_app_length, take_app_length.
Qed.
Lemma suffix_tail seg rest : (seg ++ rest) `suffix_of` U -> rest `suffix_of` U.
Proof. intros [pre ->]. exists (pre ++ seg). by rewrite app_assoc. Qed.

(** The rest of the text takes the automaton from [cs] to the end, and the
    actions there leave the URI [u]. *)
Definition ends (rest : bytes) (cs : Z) (s : ustate) (u : Uri) : Prop := exists cs' s' m,
  go rest cs s = Ret (s', cs', Z.of_nat (length U)) /\ 451 <= cs' /\
  run_actions (act U) (eof_actions cs') (Z.of_nat (length U)) s' = Ret ((u, m), false).
Lemma ends_go rest cs s rest' cs' s' u : go rest cs s = go rest' cs' s' -> ends rest' cs' s' u -> ends rest cs s u.
Proof. unfold ends. intros ->. done. Qed.
Lemma ends_nil cs s u m : 451 <= cs -> run_actions (act U) (eof_actions cs) (pos []) s = Ret ((u, m), false) -> ends [] cs s u.
Proof. intros Hcs Hr. replace (pos []) with (Z.of_nat (length U)) in Hr by (unfold pos; simpl; lia). exists cs, s, m. by unfold go, pos; simpl; rewrite Z.sub_0_r. Qed.

(** An optional part after its separator. *)
Definition opt (sep : ascii) (seg : bytes) : bytes := match seg with [] => [] | _ => sep :: seg end.

Lemma escaped_head P b : escaped P b = true -> b <> [] -> match b with c :: _ => P c || is_percent c | [] => false end = true.
Proof. destruct b as [|c b]; [done|]. simpl. destruct (P c); [done|]. by intros [-> _]%andb_true_iff. Qed.
Lemma query_walk p b : escaped is_query_char b = true -> b <> [] ->
  walk fsm p 456 b = Some ([(MarkU, p)], 457) /\ walk fsm p 453 b = Some ([(MarkU, p)], 454).
Proof.
  intros Hb Hne. pose proof (escaped_head _ _ Hb Hne) as Hh. change [(MarkU, p)] with (map (fun a => (a, p)) [MarkU]). split.
  - by apply (walk_enter fsm is_query_char 457 7 8) with (P1 := is_query_char); [| vm_compute..| |].
  - by apply (walk_enter fsm is_query_char 454 1 2) with (P1 := is_query_char); [| vm_compute..| |].
Qed.

Lemma ends_fragment f u : escaped is_query_char f = true -> f <> [] -> f `suffix_of` U -> ends f 453 (u, None) (uri_setFragment (of_bytes f) u).
Proof.
  intros Hf Hne Hs. rewrite <- (app_nil_r f) at 1. eapply ends_go.
  { eapply (go_walk f []); [by apply query_walk|reflexivity]. }
  apply (ends_nil _ _ _ None); [lia|]. rewrite <- (app_nil_r f) in Hs. change (eof_actions 454) with [SaveFragment].
  cbn [run_actions act]. by rewrite (marked_seg f [] Hs).
Qed.
(** The fragment after a part whose end runs the action [save]. *)
Lemma ends_opt_fragment f cs save s u m : escaped is_query_char f = true -> opt "#" f `suffix_of` U ->
  leaves fsm [cs] (chr "#") (mkTarget [save] 453) = true -> eof_actions cs = [save] -> 451 <= cs ->
  act U save (pos (opt "#" f)) s = Ret ((u, None), false) -> u_fragment u = m -> m = ""%string ->
  ends (opt "#" f) cs s (uri_setFragment (of_bytes f) u).
Proof.
  intros Hf Hs Hl He Hcs Ha Hm ->. destruct f as [|c f].
  - apply (ends_nil _ _ _ None); [done|]. rewrite He. cbn [run_actions]. simpl opt in Ha. rewrite Ha. simpl. destruct u; simpl in *; by subst.
  - eapply ends_go.
    + eapply (go_char _ _ _ "#"%char (c :: f) cs _ (u, None) Hl); [by left|done|done|]. simpl map. cbn [do_actions].
      simpl opt in Ha. by rewrite Ha.
    + apply ends_fragment; [done|done|]. by apply (suffix_tail ["#"%char]).
Qed.

Lemma ends_query q f pth u : escaped is_query_char q = true -> escaped is_query_char f = true ->
  (pth ++ opt "?" q ++ opt "#" f) `suffix_of` U -> u_query u = ""%string -> u_fragment u = ""%string ->
  ends (opt "?" q ++ opt "#" f) 513 (u, Some (pos (pth ++ opt "?" q ++ opt "#" f)))
    (uri_setFragment (of_bytes f) (uri_setQuery (of_bytes q) (uri_setPath (of_bytes pth) u))).
Proof.
  intros Hq Hf Hs Hu1 Hu2. pose proof (marked_seg _ _ Hs) as Hm. pose proof (suffix_tail _ _ Hs) as Hs1. destruct q as [|c q].
  - replace (uri_setQuery (of_bytes []) _) with (uri_setPath (of_bytes pth) u) by (destruct u; simpl in *; by subst).
    simpl app in *. apply (ends_opt_fragment f 513 SavePath _ _ ""); [done|done|by vm_compute|done|lia| |done|done].
    cbn [act]. by rewrite Hm.
  - simpl opt in *. rewrite <- app_comm_cons in *. eapply ends_go.
    + eapply (go_char [513] (chr "?") (mkTarget [SavePath] 456) "?"%char); [by vm_compute|by left|done|done|].
      cbn [t_actions map do_actions act]. rewrite Hm. reflexivity.
    + eapply ends_go; [eapply (go_walk (c :: q)); [by apply query_walk|reflexivity]|].
      pose proof (suffix_tail ["?"%char] _ Hs1) as Hs2.
      apply (ends_opt_fragment f 457 SaveQuery _ _ ""); [done| |by vm_compute|done|lia| |by destruct u|done].
      * by apply (suffix_tail (c :: q)).
      * cbn [act]. by rewrite (marked_seg (c :: q) _ Hs2).
Qed.

(** The path, whose first character ends the host or the port. *)
Lemma ends_path Q save b q f cs s u m : escaped is_path_char b = true -> escaped is_query_char q = true -> escaped is_query_char f = true ->
  ("/"%char :: b ++ opt "?" q ++ opt "#" f) `suffix_of` U ->
  leaves fsm Q (chr "/") (mkTarget [save; MarkH] 513) = true -> In cs Q ->
  act U save (pos ("/"%char :: b ++ opt "?" q ++ opt "#" f)) s = Ret ((u, m), false) -> u_query u = ""%string -> u_fragment u = ""%string ->
  ends ("/"%char :: b ++ opt "?" q ++ opt "#" f) cs s
    (uri_setFragment (of_bytes f) (uri_setQuery (of_bytes q) (uri_setPath (of_bytes ("/"%char :: b)) u))).
Proof.
  intros Hb Hq Hf Hs Hl Hcs Ha Hu1 Hu2. eapply ends_go.
  - eapply (go_char _ _ _ "/"%char _ cs _ (u, Some (pos ("/"%char :: b ++ opt "?" q ++ opt "#" f))) Hl); [done|done|done|].
    cbn [t_actions map do_actions]. rewrite Ha. reflexivity.
  - cbn [t_state]. eapply ends_go; [eapply (go_walk b _ _ []); [|reflexivity]|].
    + by apply (walk_escaped fsm is_path_char 513 243 244) with (k := length b); [| vm_compute..| |].
    + by apply (ends_query q f ("/"%char :: b)).
Qed.

(** The port that is printed after the host, and its value. *)
Definition port_seg (ds : bytes) : bytes := opt ":" ds.
Definition port_of (ds : bytes) (n : Z) : Prop :=
  if decide (ds = []) then n = 0 else forallb is_decimal ds = true /\ digits_value 10 0 ds = n /\ n < 2 ^ 31.
Lemma save_port ds rest u n : ds <> [] -> port_of ds n -> (ds ++ "/"%char :: rest) `suffix_of` U ->
  act U SavePort (pos ("/"%char :: rest)) (u, Some (pos (ds ++ "/"%char :: rest))) = Ret ((uri_setPort n u, None), false).
Proof.
  intros Hne Hn [pre E]. unfold port_of in Hn. rewrite decide_False in Hn by done. destruct Hn as (Hd & Hv & Hl).
  assert (Forall (fun c => digit_of 10 c <> None) ds) as HF.
  { apply List.Forall_forall. intros c Hc. rewrite forallb_forall in Hd. specialize (Hd c Hc). unfold is_decimal in Hd. by destruct (digit_of 10 c). }
  cbn [act]. rewrite decide_False.
  - unfold pos at 1. rewrite E at 2. replace (Z.to_nat _) with (length pre) by (rewrite E, !length_app; lia).
    rewrite drop_app_length. unfold atoi. rewrite strtol_digits; [|by left|done|done|done|done|lia].
    pose proof (digits_value_mono 10 0 ds ltac:(lia) ltac:(lia)). rewrite Hv, sint_id; [done|lia|split; lia].
  - intros [= H]. unfold pos in H. rewrite length_app in H. destruct ds; [done|]. simpl in H. lia.
Qed.

Lemma same_port u : u_port u = 0 -> uri_setPort 0 u = u.
Proof. destruct u. simpl. by intros ->. Qed.

(** The host, read in one of [Q]: what follows it is the port or the path. *)
Definition host_states (Q : list Z) (p0 p1 : Z) : bool :=
  stays fsm Q is_host_char && leaves fsm Q (chr ":") (mkTarget [SaveHost] p0) && leaves fsm [p0] is_decimal (mkTarget [MarkH] p1) &&
  stays fsm [p1] is_decimal && leaves fsm [p1] (chr "/") (mkTarget [SavePort; MarkH] 513) && leaves fsm Q (chr "/") (mkTarget [SaveHost; MarkH] 513) &&
  negb (p0 =? 0) && negb (p1 =? 0).
Lemma ends_host e Q p0 p1 h ds n b q f u : enters e is_host_char [MarkH] Q = true -> host_states Q p0 p1 = true ->
  h <> [] -> Forall (fun c => is_host_char c = true) h -> port_of ds n ->
  escaped is_path_char b = true -> escaped is_query_char q = true -> escaped is_query_char f = true ->
  (h ++ port_seg ds ++ "/"%char :: b ++ opt "?" q ++ opt "#" f) `suffix_of` U ->
  u_port u = 0 -> u_query u = ""%string -> u_fragment u = ""%string ->
  ends (h ++ port_seg ds ++ "/"%char :: b ++ opt "?" q ++ opt "#" f) e (u, None)
    (uri_setFragment (of_bytes f) (uri_setQuery (of_bytes q) (uri_setPath (of_bytes ("/"%char :: b)) (uri_setPort n (setHost (of_bytes h) u))))).
Proof.
  intros He HQ Hne Hh Hn Hb Hq Hf Hs Hu0 Hu1 Hu2. unfold host_states in HQ. rewrite !andb_true_iff, !negb_true_iff, !Z.eqb_neq in HQ.
  destruct HQ as [[[[[[[H1 H2] H3] H4] H5] H6] Hp0] Hp1]. destruct h as [|c h]; [done|]. inversion Hh as [|? ? Hc Hh']; subst.
  set (tl := "/"%char :: b ++ opt "?" q ++ opt "#" f) in *.
  destruct (enters_spec e is_host_char [MarkH] Q (pos ((c :: h) ++ port_seg ds ++ tl)) c h He H1 Hc Hh') as (cs & Ew & Hcs).
  eapply ends_go; [eapply go_walk; [exact Ew|reflexivity]|].
  pose proof (marked_seg _ _ Hs) as Hm. pose proof (suffix_tail _ _ Hs) as Hs1. unfold port_of in Hn. destruct ds as [|d ds].
  - simpl in Hn. subst n. replace (uri_setPort 0 _) with (setHost (of_bytes (c :: h)) u) by (symmetry; by apply same_port).
    eapply (ends_path Q SaveHost); [done..|exact H6|done| |by destruct u|by destruct u]. cbn [act]. fold tl. simpl port_seg in Hm. simpl app in Hm |- *. by rewrite Hm.
  - change (port_seg (d :: ds) ++ tl) with (":"%char :: (d :: ds) ++ tl) in *. eapply ends_go.
    + eapply (go_char Q (chr ":") (mkTarget [SaveHost] p0)); [done|done|done|done|]. cbn [t_actions map do_actions act]. rewrite Hm. reflexivity.
    + pose proof (suffix_tail [":"%char] _ Hs1) as Hs2. simpl in Hn. destruct Hn as (Hd & Hv & Hl).
      pose proof Hd as [Hd0 Hds]%andb_true_iff. eapply ends_go.
      { eapply (go_char [p0] is_decimal (mkTarget [MarkH] p1) d); [done|by left|done|done|reflexivity]. }
      cbn [t_state]. eapply ends_go.
      { eapply (go_walk ds tl p1 []); [|reflexivity]. apply (walk_loop _ p1 is_decimal); [done|]. by apply List.Forall_forall, forallb_forall. }
      eapply (ends_path [p1] SavePort); [done..|by apply (suffix_tail (d :: ds))|done|by left| |by destruct u|by destruct u].
      apply (save_port (d :: ds)); [done| |done]. unfold port_of. by rewrite decide_False.
Qed.

(** The user, and the scheme before it. *)
Definition user_seg (ui : bytes) : bytes := match ui with [] => [] | _ => ui ++ ["@"%char] end.
Lemma ends_user ui h ds n b q f u : Forall (fun c => is_host_char c = true) ui ->
  h <> [] -> Forall (fun c => is_host_char c = true) h -> port_of ds n ->
  escaped is_path_char b = true -> escaped is_query_char q = true -> escaped is_query_char f = true ->
  (user_seg ui ++ h ++ port_seg ds ++ "/"%char :: b ++ opt "?" q ++ opt "#" f) `suffix_of` U ->
  u_userinfo u = ""%string -> u_port u = 0 -> u_query u = ""%string -> u_fragment u = ""%string ->
  ends (user_seg ui ++ h ++ port_seg ds ++ "/"%char :: b ++ opt "?" q ++ opt "#" f) 511 (u, None)
    (uri_setFragment (of_bytes f) (uri_setQuery (of_bytes q) (uri_setPath (of_bytes ("/"%char :: b)) (uri_setPort n (setHost (of_bytes h) (setUserinfo (of_bytes ui) u)))))).
Proof.
  intros Hui Hne Hh Hn Hb Hq Hf Hs Hu0 Hu1 Hu2 Hu3. destruct ui as [|c ui].
  - replace (setUserinfo _ u) with u by (destruct u; simpl in *; by subst).
    apply (ends_host 511 authority 521 542); [by vm_compute|by vm_compute|done..].
  - inversion Hui as [|? ? Hc Hui']; subst. change (user_seg (c :: ui)) with ((c :: ui) ++ ["@"%char]) in *. rewrite <- app_assoc in *.
    set (tl := h ++ port_seg ds ++ "/"%char :: b ++ opt "?" q ++ opt "#" f) in *.
    destruct (enters_spec 511 is_host_char [MarkH] authority (pos ((c :: ui) ++ ["@"%char] ++ tl)) c ui) as (cs & Ew & Hcs);
      [by vm_compute|by vm_compute|done|done|].
    eapply ends_go; [eapply go_walk; [exact Ew|reflexivity]|]. pose proof (marked_seg _ _ Hs) as Hm. eapply ends_go.
    { eapply (go_char authority (chr "@") (mkTarget [SaveUserinfo] 522) "@"%char tl); [by vm_compute|done|done|done|].
      cbn [t_actions map do_actions act]. change ("@"%char :: tl) with (["@"%char] ++ tl). rewrite Hm. reflexivity. }
    cbn [t_state]. unfold tl in *. apply (ends_host 522 after_user 514 515); [by vm_compute|by vm_compute|done|done|done|done|done|done| |by destruct u|by destruct u|by destruct u].
    by apply (suffix_tail ["@"%char]), (suffix_tail (c :: ui)).
Qed.

Lemma go_scheme c sch rest : is_alpha c = true -> Forall (fun c => is_scheme_char c = true) sch ->
  ((c :: sch) ++ to_bytes "://" ++ rest) `suffix_of` U ->
  go ((c :: sch) ++ to_bytes "://" ++ rest) 451 (new_Uri, None) = go rest 511 (setScheme (of_bytes (c :: sch)) new_Uri, None).
Proof.
  intros Hc Hsch Hs. pose proof (marked_seg _ _ Hs) as Hm. change ((c :: sch) ++ to_bytes "://" ++ rest) with ([c] ++ sch ++ to_bytes "://" ++ rest) in *.
  rewrite (go_walk [c] _ 451 [(MarkU, pos ([c] ++ sch ++ to_bytes "://" ++ rest))] 508 _ (new_Uri, Some (pos ([c] ++ sch ++ to_bytes "://" ++ rest)))); [| |done].
  2: { by apply (walk_leaves fsm [451] is_alpha (mkTarget [MarkU] 508)); [vm_compute|left| |]. }
  erewrite (go_walk sch _ 508 []); [|apply (walk_loop _ 508 is_scheme_char); [by vm_compute|done]|reflexivity].
  apply (go_walk (to_bytes "://") rest 508 [(SaveScheme, pos (to_bytes "://" ++ rest))] 511); [reflexivity|].
  cbn [do_actions act]. by rewrite Hm.
Qed.
End stages.

(** * Reading back what is printed *)

Lemma ends_Create str u : ends (to_bytes str) (to_bytes str) 451 (new_Uri, None) u -> Uri.Create str = Ret (Some u).
Proof.
  intros (cs & s & m & Eg & Hcs & Er). unfold go, pos in Eg. rewrite Z.sub_diag in Eg. unfold Uri.Create, uri_parser_start. rewrite Eg. simpl.
  rewrite Z.eqb_refl, Er. simpl. unfold uri_parser_error, uri_parser_first_final.
  by rewrite (proj2 (Z.eqb_neq _ _)), (proj2 (Z.leb_le _ _)) by lia.
Qed.
Lemma path_bytes u : wf_path (u_path u) = true -> exists b, to_bytes (uri_getPath u) = "/"%char :: b /\ escaped is_path_char b = true.
Proof.
  unfold wf_path, uri_getPath. destruct (u_path u) as [|c s]; simpl; [intros _; by exists []|].
  intros [Hc Hb]%andb_true_iff. apply Ascii.eqb_eq in Hc. subst c. by exists (to_bytes s).
Qed.
Lemma port_bytes u : 0 <= u_port u < 2 ^ 31 -> exists ds,
  to_bytes (if isDefaultPort u then "" else ":" ++ to_string (u_port u))%string = port_seg ds /\ port_of ds (if isDefaultPort u then 0 else u_port u).
Proof.
  intros Hp. destruct (isDefaultPort u); [by exists []|]. destruct (dec_bytes (u_port u)) as (Hne & HF & Hv); [lia|].
  exists (to_bytes (dec (u_port u))). unfold to_string. rewrite (proj2 (Z.ltb_ge _ _)) by lia. split.
  - change (to_bytes (":" ++ dec (u_port u))%string) with (":"%char :: to_bytes (dec (u_port u))). by destruct (to_bytes _) eqn:E.
  - unfold port_of. rewrite decide_False by done. split_and!; [|done|lia]. apply forallb_forall. intros c Hc.
    rewrite List.Forall_forall in HF. specialize (HF c Hc). unfold is_decimal. by destruct (digit_of 10 c).
Qed.


(** * Failing *)

(** In these states there may be no mark. *)
Definition unmarked : list Z := [3; 4; 5; 6; 243; 244; 451; 452; 453; 455; 456; 458; 459; 469; 509; 510; 511; 513; 522].
(** Whether there may be no mark after an action; [None] when the action must
    not run without one. *)
Definition abs_action (a : action) (nul : bool) : option bool :=
  match a with
  | MarkU | MarkH => Some false
  | SaveHost => Some nul
  | SaveUserinfo | SavePath => Some true
  | SaveScheme | SavePort | SaveQuery | SaveFragment => if nul then None else Some true
  end.
Fixpoint abs_actions (l : list action) (nul : bool) : option bool :=
  match l with [] => Some nul | a :: l' => nul' ← abs_action a nul; abs_actions l' nul' end.

Lemma uri_fsm_ordered cs c t : In cs states -> fsm cs (char c) = Some t ->
  exists nul, abs_actions (t_actions t) (mem cs unmarked) = Some nul /\
  (t_state t = 0 \/ In (t_state t) states /\ (mem (t_state t) unmarked = false -> nul = false)).
Proof.
  intros H Et. assert (forallb (fun cs => forallb (fun c => match fsm cs (char c) with None => true | Some t =>
    match abs_actions (t_actions t) (mem cs unmarked) with
    | Some nul => in_table 560 (t_state t) && ((t_state t =? 0) || implb nul (mem (t_state t) unmarked))
    | None => false end end) all_chars) states = true) as Hv by by vm_compute.
  rewrite forallb_forall in Hv. specialize (Hv _ H). rewrite forallb_forall in Hv. specialize (Hv c (all_chars_elem c)). rewrite Et in Hv.
  destruct (abs_actions _ _) as [nul|]; [|done]. exists nul. split; [done|].
  apply andb_true_iff in Hv as [H1 H2]. apply (in_table_spec 560 states _ eq_refl) in H1 as [H1|H1]; [by left|].
  apply orb_true_iff in H2 as [H2|H2]; [left; by apply Z.eqb_eq|right]. split; [done|]. intros E. rewrite E in H2. by destruct nul.
Qed.
Lemma uri_eof_ordered cs : In cs states -> exists nul, abs_actions (eof_actions cs) (mem cs unmarked) = Some nul.
Proof.
  intros H. assert (forallb (fun cs => match abs_actions (eof_actions cs) (mem cs unmarked) with Some _ => true | None => false end) states = true) as Hv
    by by vm_compute.
  rewrite forallb_forall in Hv. specialize (Hv _ H). destruct (abs_actions _ _) as [nul|]; [by exists nul|done].
Qed.

Definition null_string : string := "basic_string: construction from null is not valid".
Lemma run_actions_safe U l p nul nul' s : abs_actions l nul = Some nul' -> (nul = false -> s.2 <> None) ->
  match run_actions (act U) l p s with
  | Ret (s', brk) => brk = false /\ (nul' = false -> s'.2 <> None)
  | Throw e => e = null_string
  | Crash _ => False
  end.
Proof.
  revert nul s; induction l as [|a l IH]; intros nul s Ha Hs; simpl in *; [injection Ha as <-; done|].
  destruct (abs_action a nul) as [n1|] eqn:E; [|done]. destruct s as [u [m|]]; simpl in Hs.
  - destruct a; simpl in E |- *; repeat case_decide; simpl; apply (IH n1); try done; intros ->; try done;
      try (destruct nul; by simplify_eq).
  - assert (nul = true) as -> by (destruct nul; [done|by destruct Hs]).
    destruct a; simpl in E |- *; simplify_eq; simpl; try (apply (IH _ (_, _) Ha); done); done.
Qed.

(** C32: [Uri::Create] always comes to an end without a fault of its own: it
    gives a URI or null, or it throws what [std::string] throws of a null
    pointer; [atoi] is never given a null pointer. *)
Theorem Create_safe str : match Uri.Create str with Ret _ => True | Throw e => e = null_string | Crash _ => False end.
Proof.
  unfold Uri.Create. set (U := to_bytes str).
  assert (match exec fsm (act U) U 0 uri_parser_start (new_Uri, None) with
    | Ret (s, cs, p) => cs = 0 \/ In cs states /\ (mem cs unmarked = false -> s.2 <> None)
    | Throw e => e = null_string | Crash _ => False end) as H.
  { apply (exec_invariant fsm (act U) (fun _ cs s => In cs states /\ (mem cs unmarked = false -> s.2 <> None))).
    - split; [apply mem_In; by vm_compute|done].
    - auto.
    - intros q cs s c t _ [Hcs Hs] Et. destruct (uri_fsm_ordered cs c t Hcs Et) as (nul & Ha & Ht).
      pose proof (run_actions_safe U _ q _ _ s Ha Hs) as Hr. destruct (run_actions _ _ _ _) as [[s' brk]|e|f]; [|done|done].
      destruct Hr as [-> Hr]. destruct (t_state t =? 0) eqn:E; [by left|]. apply Z.eqb_neq in E. destruct Ht as [Ht|[Ht1 Ht2]]; [done|]. auto. }
  destruct (exec _ _ _ _ _ _) as [[[s cs] p]|e|f]; [|done|done]. simpl.
  destruct (p =? _); [|by destruct s]. destruct H as [->|[Hcs Hs]]; [by destruct s|]. destruct (uri_eof_ordered cs Hcs) as (nul & Ha).
  pose proof (run_actions_safe U _ p _ _ s Ha Hs) as Hr. by destruct (run_actions _ _ _ _) as [[[u m] brk]|e|f].
Qed.

(** What the grammar makes of a port that is not there, of a user with a
    password, and of a reference without a scheme or a host. *)
Example empty_port_throws : Uri.Create "http://h:" = Throw null_string /\ Uri.Create "http://h:/x" = Throw null_string.
Proof. split; by vm_compute. Qed.
Example password_for_user : Uri.Create "http://user:12@h/" = Ret (Some (mkUri "http" "12" "h" "/" "" "" 0)).
Proof. by vm_compute. Qed.
Example path_is_lost : Uri.Create "/ota/x" = Ret (Some new_Uri) /\ Uri.Create "http:/a" = Ret (Some (setScheme "http" new_Uri)).
Proof. split; by vm_compute. Qed.
