(* ===== verification/Http11Parser.v ===== *)
(** [sherry/http/http11_parser.rl.cc]: the actions of the automaton of
    [Http11Fsm] and the request parser they make, an instance of the interface
    [HttpMachine] of [HttpSession]; that it aborts on no input, and when it
    throws.

    [http_parser_init] sets neither [query_start] nor [uri_relaxed]: the first
    is shown to be written before it is read, the second is an argument. *)

From Stdlib Require Import ZArith Lia Ascii String.
From stdpp Require Import base list gmap strings.
From S2P Require Import Prelude MachineInt Ragel Http11Fsm Http HttpProps Servlet Stream StreamProps HttpSession HttpSessionProps.
Local Open Scope Z_scope.

(** * The parser *)

Record http_parser : Type := mkHttpParser {
  hp_cs : Z; hp_body_start : Z; hp_content_len : Z; hp_nread : Z; hp_mark : Z; hp_field_start : Z; hp_field_len : Z;
  hp_query_start : Z; hp_xml_sent : bool; hp_json_sent : bool
}.
Abbreviation pstate := (http_parser * list http_event)%type.

Definition http_parser_start : Z := 1.
Definition http_parser_first_final : Z := 348.
Definition http_parser_error : Z := 0.

Definition http_parser_init : http_parser := mkHttpParser http_parser_start 0 0 0 0 0 0 0 false false.
Definition http_parser_has_error (h : http_parser) : bool := hp_cs h =? http_parser_error.
Definition http_parser_is_finished (h : http_parser) : bool := http_parser_first_final <=? hp_cs h.
Definition http_parser_finish (h : http_parser) : Z :=
  if http_parser_has_error h then -1 else if http_parser_is_finished h then 1 else 0.

Definition set_cs (v : Z) (h : http_parser) : http_parser :=
  mkHttpParser v (hp_body_start h) (hp_content_len h) (hp_nread h) (hp_mark h) (hp_field_start h) (hp_field_len h) (hp_query_start h) (hp_xml_sent h) (hp_json_sent h).
Definition set_nread (v : Z) (h : http_parser) : http_parser :=
  mkHttpParser (hp_cs h) (hp_body_start h) (hp_content_len h) v (hp_mark h) (hp_field_start h) (hp_field_len h) (hp_query_start h) (hp_xml_sent h) (hp_json_sent h).
Definition set_mark (v : Z) (h : http_parser) : http_parser :=
  mkHttpParser (hp_cs h) (hp_body_start h) (hp_content_len h) (hp_nread h) v (hp_field_start h) (hp_field_len h) (hp_query_start h) (hp_xml_sent h) (hp_json_sent h).
Definition set_field_start (v : Z) (h : http_parser) : http_parser :=
  mkHttpParser (hp_cs h) (hp_body_start h) (hp_content_len h) (hp_nread h) (hp_mark h) v (hp_field_len h) (hp_query_start h) (hp_xml_sent h) (hp_json_sent h).
Definition set_field_len (v : Z) (h : http_parser) : http_parser :=
  mkHttpParser (hp_cs h) (hp_body_start h) (hp_content_len h) (hp_nread h) (hp_mark h) (hp_field_start h) v (hp_query_start h) (hp_xml_sent h) (hp_json_sent h).
Definition set_query_start (v : Z) (h : http_parser) : http_parser :=
  mkHttpParser (hp_cs h) (hp_body_start h) (hp_content_len h) (hp_nread h) (hp_mark h) (hp_field_start h) (hp_field_len h) v (hp_xml_sent h) (hp_json_sent h).
Definition set_body (start len : Z) (h : http_parser) : http_parser :=
  mkHttpParser (hp_cs h) start len (hp_nread h) (hp_mark h) (hp_field_start h) (hp_field_len h) (hp_query_start h) (hp_xml_sent h) (hp_json_sent h).
Definition set_xml_sent (h : http_parser) : http_parser :=
  mkHttpParser (hp_cs h) (hp_body_start h) (hp_content_len h) (hp_nread h) (hp_mark h) (hp_field_start h) (hp_field_len h) (hp_query_start h) true (hp_json_sent h).
Definition set_json_sent (h : http_parser) : http_parser :=
  mkHttpParser (hp_cs h) (hp_body_start h) (hp_content_len h) (hp_nread h) (hp_mark h) (hp_field_start h) (hp_field_len h) (hp_query_start h) (hp_xml_sent h) true.

Section actions.
Variable uri_relaxed : bool.
Variable buffer : bytes.

Definition LEN (at_ fpc : Z) : Z := wrap 64 (fpc - at_).
Definition PTR_TO (f : Z) : bytes := drop (Z.to_nat f) buffer.
Definition emit (e : http_event) (s : pstate) : pstate := (s.1, s.2 ++ [e]).
(** A callback that makes a string of what it is given. *)
Definition element (mk : bytes -> nat -> http_event) (f p : Z) (s : pstate) : outcome (pstate * bool) :=
  c_string (PTR_TO f) (LEN f p);; Ret (emit (mk (PTR_TO f) (Z.to_nat (LEN f p))) s, false).

Definition act (a : action) (p : Z) (s : pstate) : outcome (pstate * bool) :=
  let h := s.1 in
  let go := fun s : pstate => Ret (s, false) in
  match a with
  | Mark => go (set_mark p h, s.2)
  | StartField => go (set_field_start p h, s.2)
  | WriteField => go (set_field_len (LEN (hp_field_start h) p) h, s.2)
  | StartValue => go (set_mark p h, s.2)
  | WriteValue =>
      let '(f, v) := (PTR_TO (hp_field_start h), PTR_TO (hp_mark h)) in
      (if hp_field_len h =? 0 then Ret ""%string else c_string v (LEN (hp_mark h) p);; c_string f (hp_field_len h));;
      go (emit (OnField f (Z.to_nat (hp_field_len h)) v (Z.to_nat (LEN (hp_mark h) p))) s)
  | RequestMethod => go (emit (OnMethod (PTR_TO (hp_mark h)) (Z.to_nat (LEN (hp_mark h) p))) s)
  | RequestUri => go (emit (OnUri (PTR_TO (hp_mark h)) (Z.to_nat (LEN (hp_mark h) p))) s)
  | Fragment => element OnFragment (hp_mark h) p s
  | StartQuery => go (set_query_start p h, s.2)
  | QueryString => element OnQuery (hp_query_start h) p s
  | HttpVersion => go (emit (OnVersion (PTR_TO (hp_mark h)) (Z.to_nat (LEN (hp_mark h) p))) s)
  | RequestPath => element OnPath (hp_mark h) p s
  | Done =>
      Ret (if hp_xml_sent h || hp_json_sent h
           then (set_body (hp_mark h) (sint 32 (p - hp_mark h + 1)) h, s.2)
           else emit (OnHeaderDone (PTR_TO (p + 1)) (Z.to_nat (Z.of_nat (length buffer) - p - 1))) (set_body (p + 1) (hp_content_len h) h, s.2),
           true)
  | Xml => go (set_xml_sent h, s.2)
  | Json => go (set_json_sent h, s.2)
  end.
End actions.

(** [http_parser_execute(parser, buffer, len, 0)]: the parser, what it returns,
    the callbacks. *)
Definition http_parser_execute (uri_relaxed : bool) (parser : http_parser) (buffer : bytes) : outcome (http_parser * Z * list http_event) :=
  let len := Z.of_nat (length buffer) in
  if len =? 0 then Ret (parser, 0, []) else
  let h := set_field_start 0 (set_field_len 0 (set_mark 0 (set_nread 0 parser))) in
  if negb (len =? sint 32 len) then Crash AssertFail else
  '(h, evs, cs, p) ← exec (fsm uri_relaxed) (act buffer) buffer 0 (hp_cs h) (h, []);
  let h := if http_parser_has_error h then h else set_cs cs h in
  let h := set_nread (hp_nread h + p) h in
  if (hp_nread h <=? len) && (hp_body_start h <=? len) && (hp_mark h <? len) && (hp_field_len h <=? len) && (hp_field_start h <? len)
  then Ret (h, hp_nread h, evs) else Crash AssertFail.

#[export] Instance http11_machine (uri_relaxed : bool) : HttpMachine http_parser := {|
  hm_init := http_parser_init;
  hm_execute h data := '(h', n, evs) ← http_parser_execute uri_relaxed h data; Ret (h', Z.to_nat n, evs);
  hm_finish := http_parser_finish;
  hm_has_error := http_parser_has_error
|}.

(** * Safety *)

(** In these states a name has been started and not ended; in those a query
    has been started and not ended. *)
Definition field_open : list Z := [14; 18; 348].
Definition in_query : list Z := [30; 31; 32].
(** What the actions need and do, as far as names and queries go. *)
Definition abs_action (a : action) (fo q : bool) : option (bool * bool) :=
  match a with
  | StartField => Some (true, q)
  | WriteField => Some (false, q)
  | WriteValue => if fo then None else Some (fo, q)
  | StartQuery => Some (fo, true)
  | QueryString => if q then Some (fo, q) else None
  | _ => Some (fo, q)
  end.
Fixpoint abs_actions (l : list action) (fo q : bool) : option (bool * bool) :=
  match l with [] => Some (fo, q) | a :: l' => '(fo', q') ← abs_action a fo q; abs_actions l' fo' q' end.

(** The table runs them in an order that gives them what they need. *)
Lemma table_ordered ur cs c : In cs states -> exists t fo q, fsm ur cs (char c) = Some t /\
  abs_actions (t_actions t) (mem cs field_open) (mem cs in_query) = Some (fo, q) /\
  (t_state t = 0 \/ In (t_state t) states /\ (mem (t_state t) field_open = false -> fo = false) /\ (mem (t_state t) in_query = true -> q = true)).
Proof.
  intros H. destruct (moves_spec (fsm ur) states (fun _ => true) (fun cs t =>
    match abs_actions (t_actions t) (mem cs field_open) (mem cs in_query) with
    | Some (fo, q) => in_table 349 (t_state t) && ((t_state t =? 0) || implb fo (mem (t_state t) field_open) && implb (mem (t_state t) in_query) q)
    | None => false end) ltac:(destruct ur; by vm_compute) cs c H eq_refl) as (t & Et & Ht).
  exists t. destruct (abs_actions _ _ _) as [[fo q]|]; [|done]. exists fo, q. split_and!; [done|done|].
  apply andb_true_iff in Ht as [H1 Ht]. apply (in_table_spec 349 states _ eq_refl) in H1 as [H1|H1]; [by left|].
  apply orb_true_iff in Ht as [Ht|Ht]; [left; by apply Z.eqb_eq|right]. apply andb_true_iff in Ht as [H2 H3]. split_and!; [done| |].
  - intros E. rewrite E in H2. by destruct fo.
  - intros E. by rewrite E in H3.
Qed.

Lemma LEN_id a p : 0 <= a <= p -> p < 2 ^ 32 -> LEN a p = p - a.
Proof. intros Ha Hp. unfold LEN. apply wrap_id. split; [lia|]. change (2 ^ 64) with (2 ^ 32 * 2 ^ 32). nia. Qed.

Section safe.
Context (buffer : bytes) (stale : bool) (cs0 : Z).
Hypothesis buffer_small : Z.of_nat (length buffer) < 2 ^ 31.

(** The marks at a character: behind the buffer's start, not behind [p]; a
    query that was started in an earlier buffer is [stale]. *)
Definition marks (p : Z) (fo q : bool) (h : http_parser) : Prop :=
  0 <= hp_mark h <= p /\ 0 <= hp_field_start h <= p /\ 0 <= hp_field_len h <= p /\
  (fo = false -> hp_field_start h + hp_field_len h <= p) /\ 0 <= hp_query_start h < 2 ^ 31 /\ (q = true -> stale = true \/ hp_query_start h <= p) /\
  hp_body_start h = 0 /\ hp_nread h = 0 /\ hp_cs h = cs0.

Lemma c_string_at f len : 0 <= f -> 0 <= len -> f + len <= Z.of_nat (length buffer) ->
  c_string (PTR_TO buffer f) len = Ret (of_bytes (take (Z.to_nat len) (PTR_TO buffer f))).
Proof.
  intros Hf Hl H. unfold c_string, PTR_TO. rewrite length_drop. rewrite !(proj2 (Z.ltb_ge _ _)) by lia. done.
Qed.
Lemma element_ok mk f p s : 0 <= f <= p -> p <= Z.of_nat (length buffer) ->
  element buffer mk f p s = Ret (emit (mk (PTR_TO buffer f) (Z.to_nat (p - f))) s, false).
Proof. intros Hf Hp. unfold element. rewrite LEN_id, c_string_at by lia. done. Qed.
Lemma element_stale mk f p s : 0 <= p < f -> f < 2 ^ 31 -> element buffer mk f p s = Throw "basic_string::_M_create".
Proof.
  intros Hf Hp. unfold element, c_string, LEN, wrap.
  assert ((p - f) mod 2 ^ 64 = 2 ^ 64 + (p - f)) as ->.
  { rewrite <- (Z.mod_add _ 1) by done. rewrite Z.mod_small; [lia|]. change (2 ^ 64) with (2 ^ 32 * 2 ^ 32). nia. }
  rewrite (proj2 (Z.ltb_lt _ _)); [done|]. lia.
Qed.

Lemma act_safe a p fo q h evs fo' q' : 0 <= p < Z.of_nat (length buffer) -> marks p fo q h -> abs_action a fo q = Some (fo', q') ->
  match act buffer a p (h, evs) with
  | Ret ((h', _), false) => marks p fo' q' h'
  | Ret ((h', _), true) => marks p fo q (set_body 0 0 h') /\ 0 <= hp_body_start h' <= p + 1
  | Throw e => e = "basic_string::_M_create"%string /\ stale = true
  | Crash _ => False
  end.
Proof.
  intros Hp Hm Ha. pose proof Hm as (M1 & M2 & M3 & M4 & M5 & M6 & M7 & M8 & M9).
  destruct a; simpl in Ha; try (injection Ha as <- <-); unfold act; cbn [fst snd]; try (unfold marks in *; simpl; intuition lia).
  - rewrite LEN_id by lia. unfold marks. simpl. intuition lia.
  - destruct fo; [done|]. injection Ha as <- <-. rewrite LEN_id, !c_string_at by lia. by destruct (hp_field_len h =? 0).
  - rewrite element_ok by lia. done.
  - destruct q; [|done]. injection Ha as <- <-. destruct (Z.le_gt_cases (hp_query_start h) p) as [Hq|Hq].
    + rewrite element_ok by lia. done.
    + rewrite element_stale by lia. split; [done|]. destruct (M6 eq_refl); [done|lia].
  - rewrite element_ok by lia. done.
  - destruct (hp_xml_sent h || hp_json_sent h); unfold marks; simpl; intuition lia.
Qed.

Lemma actions_safe l p fo q h evs fo' q' : 0 <= p < Z.of_nat (length buffer) -> marks p fo q h -> abs_actions l fo q = Some (fo', q') ->
  match run_actions (act buffer) l p (h, evs) with
  | Ret ((h', _), false) => marks p fo' q' h'
  | Ret ((h', _), true) => exists fo q, marks p fo q (set_body 0 0 h') /\ 0 <= hp_body_start h' <= p + 1
  | Throw e => e = "basic_string::_M_create"%string /\ stale = true
  | Crash _ => False
  end.
Proof.
  revert fo q h evs; induction l as [|a l IH]; intros fo q h evs Hp Hm Hl; simpl in *; [by simplify_eq|].
  destruct (abs_action a fo q) as [[f1 q1]|] eqn:Ea; [|done]. pose proof (act_safe a p fo q h evs f1 q1 Hp Hm Ea) as H. simpl in Hl.
  destruct (act buffer a p (h, evs)) as [[[h' evs'] []]|e|f]; simpl; [by exists fo, q|by apply (IH f1 q1)|done|done].
Qed.
End safe.

(** Only [done] leaves the loop, and only to a final state. *)
Lemma breaks_done buffer l p s s' : run_actions (act buffer) l p s = Ret (s', true) -> In Done l.
Proof.
  revert s; induction l as [|a l IH]; intros s H; simpl in *; [done|].
  destruct (act buffer a p s) as [[s1 []]|e|f] eqn:E; simpl in H; try done; [|right; by apply (IH s1)]. left. destruct s as [h evs].
  destruct a; try done; unfold act, element in E; simpl in E; repeat (case_match; simplify_eq/=; try done).
  all: repeat match type of E with context [c_string ?a ?b] => destruct (c_string a b); simpl in E end; simplify_eq.
Qed.
Lemma done_final ur cs c t : In cs states -> fsm ur cs (char c) = Some t -> In Done (t_actions t) -> 348 <= t_state t.
Proof.
  intros H E Hd. destruct (moves_spec (fsm ur) states (fun _ => true) (fun cs t => implb (existsb (fun a => bool_decide (a = Done)) (t_actions t)) (348 <=? t_state t))
    ltac:(destruct ur; by vm_compute) cs c H eq_refl) as (t' & Et & Ht). rewrite E in Et. injection Et as <-.
  assert (existsb (fun a => bool_decide (a = Done)) (t_actions t) = true) as Hx.
  { apply existsb_exists. exists Done. split; [done|]. by apply bool_decide_eq_true. }
  rewrite Hx in Ht. by apply Z.leb_le in Ht.
Qed.

(** A parser that is not finished. *)
Definition hp_ok (h : http_parser) : Prop :=
  hp_body_start h = 0 /\ 0 <= hp_query_start h < 2 ^ 31 /\ (hp_cs h = 0 \/ In (hp_cs h) states).
Definition hp_result (len : Z) (cs0 : Z) (stale : bool) (o : outcome (pstate * Z * Z)) : Prop :=
  match o with
  | Ret ((h, _), cs, p) => 0 <= p <= len /\ hp_mark h < len /\ hp_field_start h < len /\ hp_field_len h <= len /\ hp_body_start h <= len /\
      hp_nread h = 0 /\ hp_cs h = cs0 /\ 0 <= hp_query_start h < 2 ^ 31 /\
      (hp_body_start h = 0 /\ (cs = 0 \/ In cs states) \/ 348 <= cs /\ cs0 <> 0)
  | Throw e => e = "basic_string::_M_create"%string /\ stale = true
  | Crash _ => False
  end.

Lemma zero_no_state : ~ In 0 states.
Proof. rewrite <- mem_In. by vm_compute. Qed.
#[local] Opaque states.
Lemma exec_safe ur buffer h : hp_ok h -> hp_mark h = 0 -> hp_field_start h = 0 -> hp_field_len h = 0 -> hp_nread h = 0 ->
  0 < Z.of_nat (length buffer) < 2 ^ 31 ->
  hp_result (Z.of_nat (length buffer)) (hp_cs h) (mem (hp_cs h) in_query) (exec (fsm ur) (act buffer) buffer 0 (hp_cs h) (h, [])).
Proof.
  intros (H1 & H2 & H3) Hm Hs Hl Hn Hlen. set (stale := mem (hp_cs h) in_query). destruct H3 as [H0|Hin].
  { destruct buffer as [|c b]; [simpl in Hlen; lia|]. cbn [exec]. rewrite H0. change (fsm ur 0 (char c)) with (@None (target action)). simpl in *.
    split_and!; try lia; done. }
  set (I := fun (q cs : Z) (s : pstate) => In cs states /\ marks stale (hp_cs h) q (mem cs field_open) (mem cs in_query) s.1 /\
              (hp_mark s.1 = 0 \/ hp_mark s.1 < q) /\ (hp_field_start s.1 = 0 \/ hp_field_start s.1 < q)).
  apply (exec_invariant (fsm ur) (act buffer) I).
  - split_and!; [done| |by left|by left]. unfold marks. simpl. rewrite Hm, Hs, Hl.
    split_and!; try lia; try done. intros Hq. left. exact Hq.
  - intros q cs [h1 evs] Hq (HI & (M1 & M2 & M3 & M4 & M5 & M6 & M7 & M8 & M9) & P1 & P2). simpl in *.
    split_and!; try lia; try done. left. auto.
  - intros q cs [h1 evs] c t Hq (HI & HM & P1 & P2) Et. simpl in HM, P1, P2.
    destruct (table_ordered ur cs c HI) as (t' & fo & qf & Et' & Ha & Hnext). rewrite Et in Et'. injection Et' as <-.
    pose proof (actions_safe buffer stale (hp_cs h) ltac:(lia) (t_actions t) q _ _ h1 evs fo qf ltac:(lia) HM Ha) as HA.
    destruct (run_actions (act buffer) (t_actions t) q (h1, evs)) as [[[h2 evs2] []]|e|f] eqn:Er; [| |done|done].
    + destruct HA as (fo2 & q2 & (M1 & M2 & M3 & M4 & M5 & M6 & M7 & M8 & M9) & HB). simpl in *. split_and!; try lia; try done.
      right. split; [apply breaks_done in Er; by eapply done_final|]. intros Hz. rewrite Hz in Hin. by apply zero_no_state in Hin.
    + destruct HA as (M1 & M2 & M3 & M4 & M5 & M6 & M7 & M8 & M9). destruct (Z.eqb_spec (t_state t) 0) as [E0|E0].
      * simpl. split_and!; try lia; done.
      * destruct Hnext as [Hx|(Hx & Hfo & Hqf)]; [done|]. unfold I, marks. cbn [fst]. split_and!; try lia; try done.
        -- intros E. specialize (M4 (Hfo E)). lia.
        -- intros E. destruct (M6 (Hqf E)); [by left|right; lia].
Qed.

(** See [http_parser_never_aborts]. *)
Lemma http_parser_execute_ok ur h data : hp_ok h -> Z.of_nat (length data) < 2 ^ 31 ->
  match http_parser_execute ur h data with
  | Ret (h', n, _) => 0 <= n <= Z.of_nat (length data) /\ (http_parser_is_finished h' = false -> hp_ok h')
  | Throw e => e = "basic_string::_M_create"%string /\ In (hp_cs h) in_query
  | Crash _ => False
  end.
Proof.
  intros Hok Hl. unfold http_parser_execute. destruct (Z.eqb_spec (Z.of_nat (length data)) 0) as [E0|E0]; [split; [lia|done]|].
  rewrite sint_id, Z.eqb_refl by (done || split; lia). cbn [negb].
  set (h0 := set_field_start 0 (set_field_len 0 (set_mark 0 (set_nread 0 h)))).
  pose proof (exec_safe ur data h0 Hok eq_refl eq_refl eq_refl eq_refl ltac:(lia)) as H.
  destruct (exec (fsm ur) (act data) data 0 (hp_cs h0) (h0, [])) as [[[[h1 evs] cs] p]|e|f]; [|destruct H as [-> H]; split; [done|by apply mem_In]|done].
  destruct H as (Hp & H1 & H2 & H3 & H4 & H5 & H6 & H7 & H8). unfold mbind, outcome_bind.
  assert (exists h2, (if http_parser_has_error h1 then h1 else set_cs cs h1) = h2 /\ hp_nread h2 = 0 /\ hp_body_start h2 = hp_body_start h1 /\
            hp_mark h2 = hp_mark h1 /\ hp_field_len h2 = hp_field_len h1 /\ hp_field_start h2 = hp_field_start h1 /\ hp_query_start h2 = hp_query_start h1 /\
            (hp_cs h1 = 0 /\ hp_cs h2 = 0 \/ hp_cs h2 = cs)) as (h2 & -> & E1 & E2 & E3 & E4 & E5 & E6 & E7).
  { eexists. split; [reflexivity|]. unfold http_parser_has_error. destruct (Z.eqb_spec (hp_cs h1) http_parser_error); split_and!; auto. }
  simpl. rewrite E1, E2, E3, E4, E5. rewrite !(proj2 (Z.leb_le _ _)), !(proj2 (Z.ltb_lt _ _)) by lia. simpl. split; [lia|].
  unfold http_parser_is_finished, hp_ok. simpl. rewrite E2, E6. intros Hf%Z.leb_gt. unfold http_parser_first_final in Hf.
  destruct H8 as [[HB HC]|[HC HZ]]; [|destruct E7 as [[E7 _]|E7]; [congruence|lia]].
  split_and!; [done|lia|lia|]. destruct E7 as [[_ ->]| ->]; [by left|done].
Qed.

Lemma http_parser_init_ok : hp_ok http_parser_init.
Proof. split_and!; try done. right. apply mem_In. by vm_compute. Qed.
