(* ===== verification/Http11Props.v ===== *)
(** Requests the parser of [Http11Parser] reads back: the text [HttpRequest::dump]
    prints is walked piece by piece through the automaton, the actions it lists
    are run, and the callbacks fill the request.  Then a session of the server
    over this parser, and what a request that comes in two reads does to it. *)

From Stdlib Require Import ZArith Lia Ascii String.
From stdpp Require Import base list gmap strings.
From S2P Require Import Prelude MachineInt Ragel Http11Fsm Http HttpProps Servlet Stream StreamProps HttpSession HttpSessionProps HttpText Http11Parser.
Local Open Scope Z_scope.

(** * The parser of a session *)

#[export] Instance http11_ok (ur : bool) : MachineOk (http11_machine ur).
Proof.
  refine {| hm_inv := hp_ok |}; [exact http_parser_init_ok|].
  intros m data Hok Hl. pose proof (http_parser_execute_ok ur m data Hok Hl) as H. simpl.
  destruct (http_parser_execute ur m data) as [[[h n] evs]|e|f]; simpl; [|done|done]. destruct H as [Hn Hf]. split; [lia|].
  intros Hz. apply Hf. unfold http_parser_finish in Hz. destruct (http_parser_has_error h); [done|]. by destruct (http_parser_is_finished h).
Defined.

(** What a session over it may throw. *)
Lemma http11_throws ur e : machine_throws (mok := http11_ok ur) e -> e = "basic_string::_M_create"%string.
Proof.
  intros (h & data & Hok & E). simpl in Hok, E. destruct (Z.lt_ge_cases (Z.of_nat (length data)) (2 ^ 31)) as [Hl|Hl].
  - pose proof (http_parser_execute_ok ur h data Hok Hl) as H. destruct (http_parser_execute ur h data) as [[[h' n] evs]|e'|f]; simpl in E; [done| |done].
    injection E as <-. apply H.
  - exfalso. unfold http_parser_execute in E. rewrite (proj2 (Z.eqb_neq _ 0)) in E by lia.
    assert (Z.of_nat (length data) <> sint 32 (Z.of_nat (length data))) as Hne.
    { pose proof (Z.mod_pos_bound (Z.of_nat (length data) + 2 ^ (32 - 1)) (2 ^ 32) ltac:(lia)). unfold sint. lia. }
    by rewrite (proj2 (Z.eqb_neq _ _) Hne) in E.
Qed.

(** C18: the request parser aborts on no input: from any parser that is not
    finished, on any buffer, no assertion of [http_parser_execute] fails and no
    callback is given bytes outside the buffer; it consumes at most the buffer.
    It throws only if the buffer begins in the middle of a query, whose start
    was counted in an earlier buffer; so never on a first read. *)
Theorem http_parser_never_aborts ur h data : hp_ok h -> Z.of_nat (length data) < 2 ^ 31 ->
  match http_parser_execute ur h data with
  | Ret (h', n, _) => 0 <= n <= Z.of_nat (length data) /\ (http_parser_is_finished h' = false -> hp_ok h')
  | Throw e => e = "basic_string::_M_create"%string /\ In (hp_cs h) in_query
  | Crash _ => False
  end /\
  exists h' n evs, http_parser_execute ur http_parser_init data = Ret (h', n, evs).
Proof.
  intros Hok Hl. split; [by apply http_parser_execute_ok|].
  pose proof (http_parser_execute_ok ur http_parser_init data http_parser_init_ok Hl) as H.
  destruct (http_parser_execute ur http_parser_init data) as [[[h' n] evs]|e|f]; [eauto| |done].
  destruct H as [_ H]. apply mem_In in H. by vm_compute in H.
Qed.

(** * The text of a request *)

(** What a request must be so that its first line is one: a method of letters,
    a path from the root that is no authority, escapes where they belong. *)
Definition path_ok (b : bytes) : Prop :=
  exists b', b = "/"%char :: b' /\ escaped is_path_char b' = true /\ match b' with c :: _ => Ascii.eqb c "/" = false | [] => True end.
Definition method_ok (m : HttpMethod) : Prop := m <> INVALID_METHOD /\ m <> MSEARCH.
Definition version_ok (v : Z) : Prop := v = 0x11 \/ v = 0x10.

Definition prefixed (c : ascii) (b : bytes) : bytes := match b with [] => [] | _ => c :: b end.
Definition request_line (m : HttpMethod) (path query fragment : bytes) (v : Z) : bytes :=
  to_bytes (HttpMethodToString m ++ " ") ++ path ++ prefixed "?" query ++ prefixed "#" fragment ++ to_bytes (" HTTP/" ++ version_text v) ++ CRLF_.

Section request_line.
Context (ur : bool).
Abbreviation walk := (walk (fsm ur)).

Lemma walk_method m : method_ok m ->
  walk 0 1 (to_bytes (HttpMethodToString m ++ " ")) = Some ([(Mark, 0); (RequestMethod, Z.of_nat (String.length (HttpMethodToString m)))], 3).
Proof. intros [H1 H2]. destruct m, ur; try done; by vm_compute. Qed.

Lemma walk_path p b : path_ok b -> exists s, walk p 3 b = Some ([(Mark, p)], s) /\ In s [33; 26].
Proof.
  intros (b' & -> & Hb & Hs). change ("/"%char :: b') with (["/"%char] ++ b').
  assert (walk p 3 ["/"%char] = Some ([(Mark, p)], 33)) as E by (by destruct ur). destruct b' as [|c b].
  - exists 33. rewrite app_nil_r. split; [done|by left].
  - exists 26. split; [|by right; left]. rewrite <- (app_nil_r [(Mark, p)]). apply (walk_app _ _ _ ["/"%char] _ _ _ _ _ E).
    apply (walk_enter (fsm ur) is_path_char 26 27 28 ltac:(done) ltac:(destruct ur; by vm_compute) ltac:(destruct ur; by vm_compute)
             ltac:(destruct ur; by vm_compute) ltac:(destruct ur; by vm_compute) 33 [] is_pchar ltac:(destruct ur; by vm_compute)
             ltac:(destruct ur; by vm_compute) eq_refl (c :: b)); [done|].
    simpl in Hb. unfold is_path_char in Hb at 1. rewrite Hs, orb_false_r in Hb. destruct (is_pchar c); [done|].
    by apply andb_true_iff in Hb as [-> _].
Qed.
(** The query, the fragment and the space before the version; the callbacks a
    part that is not there does not make are not made. *)
Definition rest_actions (p q f : Z) : list (action * Z) :=
  if q =? 0 then
    if f =? 0 then [(RequestPath, p); (RequestUri, p)]
    else [(RequestPath, p); (RequestUri, p); (Mark, p + 1); (Fragment, p + 1 + f)]
  else (RequestPath, p) :: (StartQuery, p + 1) :: (QueryString, p + 1 + q) :: (RequestUri, p + 1 + q) ::
    if f =? 0 then [] else [(Mark, p + 1 + q + 1); (Fragment, p + 1 + q + 1 + f)].

Lemma walk_fragment p b : b <> [] -> escaped is_query_char b = true ->
  walk p 20 (b ++ [" "%char]) = Some ([(Mark, p); (Fragment, p + Z.of_nat (length b))], 4).
Proof.
  intros Hne Hb. apply (walk_app _ _ _ b [" "%char] [(Mark, p)] 21); [|by destruct ur].
  apply (walk_enter (fsm ur) is_query_char 21 22 23 ltac:(done) ltac:(destruct ur; by vm_compute) ltac:(destruct ur; by vm_compute)
             ltac:(destruct ur; by vm_compute) ltac:(destruct ur; by vm_compute) 20 [Mark] is_query_char ltac:(destruct ur; by vm_compute)
             ltac:(destruct ur; by vm_compute) eq_refl b); [done|].
  destruct b as [|c b]; [done|]. simpl in Hb. destruct (is_query_char c); [done|]. by apply andb_true_iff in Hb as [-> _].
Qed.
Lemma walk_query p b : b <> [] -> escaped is_query_char b = true -> walk p 29 b = Some ([(StartQuery, p)], 30).
Proof.
  intros Hne Hb.
  apply (walk_enter (fsm ur) is_query_char 30 31 32 ltac:(done) ltac:(destruct ur; by vm_compute) ltac:(destruct ur; by vm_compute)
             ltac:(destruct ur; by vm_compute) ltac:(destruct ur; by vm_compute) 29 [StartQuery] is_query_char ltac:(destruct ur; by vm_compute)
             ltac:(destruct ur; by vm_compute) eq_refl b); [done|].
  destruct b as [|c b]; [done|]. simpl in Hb. destruct (is_query_char c); [done|]. by apply andb_true_iff in Hb as [-> _].
Qed.
Lemma walk_leave p s c : In s [33; 26] -> In c [" "; "?"; "#"]%char ->
  walk p s [c] = Some (if Ascii.eqb c "?" then ([(RequestPath, p)], 29) else ([(RequestPath, p); (RequestUri, p)], if Ascii.eqb c " " then 4 else 20)).
Proof. intros [<-|[<-|[]]] [<-|[<-|[<-|[]]]]; by destruct ur. Qed.

Lemma walk_rest p s q f : In s [33; 26] -> escaped is_query_char q = true -> escaped is_query_char f = true ->
  walk p s (prefixed "?" q ++ prefixed "#" f ++ [" "%char]) =
    Some (rest_actions p (Z.of_nat (length q)) (Z.of_nat (length f)), 4).
Proof.
  intros Hs Hq Hf. destruct q as [|c q]; [destruct f as [|d f]|].
  - exact (walk_leave p s " " Hs ltac:(by left)).
  - change (prefixed "?" [] ++ prefixed "#" (d :: f) ++ [" "%char]) with (["#"%char] ++ (d :: f) ++ [" "%char]).
    apply (walk_app _ p s ["#"%char] _ [_; _] 20 [_; _] 4 (walk_leave p s "#" Hs ltac:(by right; right; left))).
    by apply walk_fragment.
  - change (prefixed "?" (c :: q)) with (["?"%char] ++ c :: q). rewrite <- !app_assoc.
    assert (rest_actions p (Z.of_nat (length (c :: q))) (Z.of_nat (length f)) =
      [(RequestPath, p)] ++ [(StartQuery, p + 1)] ++ [(QueryString, p + 1 + Z.of_nat (length (c :: q))); (RequestUri, p + 1 + Z.of_nat (length (c :: q)))] ++
      if Z.of_nat (length f) =? 0 then [] else [(Mark, p + 1 + Z.of_nat (length (c :: q)) + 1); (Fragment, p + 1 + Z.of_nat (length (c :: q)) + 1 + Z.of_nat (length f))]) as -> by done.
    apply (walk_app _ p s ["?"%char] _ _ _ _ 4 (walk_leave p s "?" Hs ltac:(by right; left))).
    apply (walk_app _ _ 29 (c :: q) _ _ _ _ 4 (walk_query (p + 1) (c :: q) ltac:(done) Hq)).
    destruct f as [|d f]; [by destruct ur|].
    change (prefixed "#" (d :: f) ++ [" "%char]) with (["#"%char] ++ (d :: f) ++ [" "%char]).
    apply (walk_app _ _ 30 ["#"%char] _ [_; _] 20 [_; _] 4); [by destruct ur|]. by apply walk_fragment.
Qed.

Lemma walk_version p v : version_ok v -> walk p 4 (to_bytes ("HTTP/" ++ version_text v) ++ CRLF_) = Some ([(Mark, p); (HttpVersion, p + 8)], 13).
Proof.
  intros Hv. rewrite walk_shift, <- (Z.add_0_r p) at 1.
  assert (walk 0 4 (to_bytes ("HTTP/" ++ version_text v) ++ CRLF_) = Some ([(Mark, 0); (HttpVersion, 8)], 13)) as -> by (destruct Hv as [-> | ->], ur; by vm_compute).
  simpl. by rewrite Z.add_0_r.
Qed.
End request_line.

(** * What the pieces do to the request *)

Definition effect (evs : list http_event) (f : HttpRequest -> HttpRequest) : Prop :=
  forall p : HttpRequestParser http_parser, foldl (fun q e => on_event e q) p evs = upd_data f p.
Lemma effect_app e1 e2 f1 f2 : effect e1 f1 -> effect e2 f2 -> effect (e1 ++ e2) (fun r => f2 (f1 r)).
Proof. intros H1 H2 p. by rewrite foldl_app, H1, H2. Qed.
Definition keeps (h h' : http_parser) : Prop :=
  hp_cs h' = hp_cs h /\ hp_nread h' = hp_nread h /\ hp_xml_sent h' = hp_xml_sent h /\ hp_json_sent h' = hp_json_sent h.

Section pieces.
Context (buffer : bytes).
Hypothesis buffer_small : Z.of_nat (length buffer) < 2 ^ 31.

(** A piece of text whose actions only change the request. *)
Definition does (l : list (action * Z)) (f : HttpRequest -> HttpRequest) : Prop :=
  forall h evs, exists h' evs', do_actions (act buffer) l (h, evs) = Ret (h', evs ++ evs') /\ effect evs' f /\ keeps h h'.
Lemma does_app l1 l2 f1 f2 : does l1 f1 -> does l2 f2 -> does (l1 ++ l2) (fun r => f2 (f1 r)).
Proof.
  intros H1 H2 h evs. destruct (H1 h evs) as (h1 & e1 & E1 & F1 & K1). destruct (H2 h1 (evs ++ e1)) as (h2 & e2 & E2 & F2 & K2).
  exists h2, (e1 ++ e2). rewrite do_actions_app, E1. simpl. rewrite E2, <- app_assoc. split_and!; [done|by apply effect_app|].
  unfold keeps in *. intuition congruence.
Qed.
Lemma does_nothing : does [] (fun r => r).
Proof. intros h evs. exists h, []. rewrite app_nil_r. split_and!; [done|by intros []|done]. Qed.

Lemma PTR_TO_app pre x : buffer = pre ++ x -> PTR_TO buffer (Z.of_nat (length pre)) = x.
Proof. intros ->. unfold PTR_TO. by rewrite Nat2Z.id, drop_app_length. Qed.
Lemma span pre x post : buffer = pre ++ x ++ post -> let p := Z.of_nat (length pre) in
  0 <= p <= p + Z.of_nat (length x) /\ p + Z.of_nat (length x) <= Z.of_nat (length buffer) /\
  PTR_TO buffer p = x ++ post /\ Z.to_nat (p + Z.of_nat (length x) - p) = length x.
Proof. intros E p. split_and!; [lia|lia|rewrite E, !length_app; lia|by apply PTR_TO_app|lia]. Qed.

(** Marking the start of some text and handing it to a callback at its end. *)
Ltac piece E := destruct (span _ _ _ E) as (B1 & B2 & B3 & B4); intros h evs; eexists _, [_]; simpl; unfold emit; simpl;
  rewrite ?element_ok by (simpl; lia); rewrite ?LEN_id by lia; rewrite ?B3, ?B4; (split_and!; [reflexivity| |done]); intros p; simpl.
Lemma does_path pre x post : buffer = pre ++ x ++ post ->
  does [(Mark, Z.of_nat (length pre)); (RequestPath, Z.of_nat (length pre) + Z.of_nat (length x))] (setPath (of_bytes x)).
Proof. intros E. piece E. unfold on_request_path. by rewrite take_app_length. Qed.
Lemma does_fragment pre x post : buffer = pre ++ x ++ post ->
  does [(Mark, Z.of_nat (length pre)); (Fragment, Z.of_nat (length pre) + Z.of_nat (length x))] (setFragment (of_bytes x)).
Proof. intros E. piece E. unfold on_request_fragment. by rewrite take_app_length. Qed.
Lemma does_query pre x post : buffer = pre ++ x ++ post ->
  does [(StartQuery, Z.of_nat (length pre)); (QueryString, Z.of_nat (length pre) + Z.of_nat (length x))] (setQuery (of_bytes x)).
Proof. intros E. piece E. unfold on_request_query. by rewrite take_app_length. Qed.
Lemma does_uri p : does [(RequestUri, p)] (fun r => r).
Proof. intros h evs. eexists _, [_]. simpl. split_and!; [reflexivity|by intros []|done]. Qed.
Lemma does_method m post : buffer = to_bytes (HttpMethodToString m ++ " ") ++ post -> method_ok m ->
  does [(Mark, 0); (RequestMethod, Z.of_nat (String.length (HttpMethodToString m)))] (setMethod m).
Proof.
  intros E [H1 H2]. intros h evs. eexists _, [_]. simpl. split_and!; [reflexivity| |done]. intros p. simpl. unfold on_request_method.
  change (PTR_TO buffer 0) with buffer. rewrite E. destruct m; done.
Qed.
Lemma does_version pre v post : buffer = pre ++ to_bytes ("HTTP/" ++ version_text v) ++ post -> version_ok v ->
  does [(Mark, Z.of_nat (length pre)); (HttpVersion, Z.of_nat (length pre) + 8)] (setVersion v).
Proof.
  intros E Hv. assert (length (to_bytes ("HTTP/" ++ version_text v)) = 8%nat) as H8 by (by destruct Hv as [-> | ->]).
  destruct (span _ _ _ E) as (B1 & B2 & B3 & B4). rewrite H8 in *. change (Z.of_nat 8) with 8 in *. intros h evs. eexists _, [_]. simpl.
  rewrite B3, LEN_id by lia. rewrite B4.
  split_and!; [reflexivity| |done]. intros p. simpl. unfold on_request_version. destruct Hv as [-> | ->]; done.
Qed.

(** A header line: a name, a colon, perhaps a space, a value. *)
Definition is_value (c : ascii) : bool := negb (existsb (Nat.eqb (nat_of_ascii c)) [0; 10; 13; 127]%nat).
Definition value_ok (v : bytes) : Prop :=
  Forall (fun c => is_value c = true) v /\ match v with c :: _ => c <> " "%char /\ c <> "009"%char | [] => True end.
Definition field_ok (f : bytes * bytes) : Prop := f.1 <> [] /\ Forall (fun c => is_token c = true) f.1 /\ value_ok f.2.
Definition line (sp : bytes) (f : bytes * bytes) : bytes := f.1 ++ [":"%char] ++ sp ++ f.2 ++ CRLF_.
Definition line_actions (p : Z) (sp : bytes) (f : bytes * bytes) : list (action * Z) :=
  let n := p + Z.of_nat (length f.1) in
  [(StartField, p); (WriteField, n)] ++ imap (fun i _ => (StartValue, n + 1 + Z.of_nat i)) sp ++
  [(StartValue, n + 1 + Z.of_nat (length sp)); (WriteValue, n + 1 + Z.of_nat (length sp) + Z.of_nat (length f.2))].
Definition set_field (r : HttpRequest) (f : bytes * bytes) : HttpRequest := setHeader (of_bytes f.1) (of_bytes f.2) r.

Lemma does_line pre sp f post : buffer = pre ++ line sp f ++ post -> f.1 <> [] -> sp = [] \/ sp = [" "%char] ->
  does (line_actions (Z.of_nat (length pre)) sp f) (fun r => set_field r f).
Proof.
  intros E Hne Hsp. destruct f as [k v]. simpl in Hne. unfold line in E. simpl in E.
  assert (buffer = pre ++ k ++ [":"%char] ++ sp ++ v ++ CRLF_ ++ post) as E1 by (rewrite E; simpl; by rewrite <- !app_assoc; simpl; rewrite <- !app_assoc).
  assert (buffer = (pre ++ k ++ [":"%char] ++ sp) ++ v ++ CRLF_ ++ post) as E2 by (rewrite E1; by rewrite <- !app_assoc).
  destruct (span _ _ _ E1) as (B1 & B2 & B3 & B4). destruct (span _ _ _ E2) as (C1 & C2 & C3 & C4).
  replace (Z.of_nat (length (pre ++ k ++ [":"%char] ++ sp))) with (Z.of_nat (length pre) + Z.of_nat (length k) + 1 + Z.of_nat (length sp)) in * by (rewrite !length_app; simpl; lia).
  set (p := Z.of_nat (length pre)) in *. set (n := p + Z.of_nat (length k)) in *.
  intros h evs. exists (set_mark (n + 1 + Z.of_nat (length sp)) (set_field_len (Z.of_nat (length k)) (set_field_start p h))),
    [OnField (k ++ [":"%char] ++ sp ++ v ++ CRLF_ ++ post) (length k) (v ++ CRLF_ ++ post) (length v)].
  split_and!; [| |done].
  - assert (act buffer WriteValue (n + 1 + Z.of_nat (length sp) + Z.of_nat (length v)) (set_mark (n + 1 + Z.of_nat (length sp)) (set_field_len (Z.of_nat (length k)) (set_field_start p h)), evs) =
            Ret ((set_mark (n + 1 + Z.of_nat (length sp)) (set_field_len (Z.of_nat (length k)) (set_field_start p h)), evs ++ [OnField (k ++ [":"%char] ++ sp ++ v ++ CRLF_ ++ post) (length k) (v ++ CRLF_ ++ post) (length v)]), false)) as EV.
    { unfold act. cbn [fst snd hp_field_start hp_mark hp_field_len set_mark set_field_len set_field_start].
      rewrite LEN_id by lia. rewrite !c_string_at by lia. rewrite B3, C3, C4. destruct (_ =? 0); unfold emit; simpl; by rewrite ?Nat2Z.id. }
    assert (do_actions (act buffer) ([(StartField, p); (WriteField, n)] ++ imap (fun i _ => (StartValue, n + 1 + Z.of_nat i)) sp ++
              [(StartValue, n + 1 + Z.of_nat (length sp))]) (h, evs) = Ret (set_mark (n + 1 + Z.of_nat (length sp)) (set_field_len (Z.of_nat (length k)) (set_field_start p h)), evs)) as EM.
    { assert (LEN p n = Z.of_nat (length k)) as EL by (rewrite LEN_id by lia; lia).
      destruct Hsp as [-> | ->]; simpl; by rewrite EL. }
    unfold line_actions. cbn [fst snd]. fold n. change [?a; ?b] with ([a] ++ [b]) at 2. rewrite !app_assoc, do_actions_app, <- !app_assoc.
    fold n. rewrite EM. cbn [mbind outcome_bind do_actions]. rewrite EV. done.
  - intros q. simpl. unfold on_request_http_field. rewrite (proj2 (Nat.eqb_neq _ _)) by (destruct k; simpl; [done|lia]).
    unfold set_field. simpl. by rewrite !take_app_length.
Qed.
End pieces.

(** * A whole head *)

Section head.
Context (ur : bool).
Abbreviation walk := (walk (fsm ur)).

Lemma walk_value p v : value_ok v -> walk p 15 (v ++ CRLF_) = Some ([(StartValue, p); (WriteValue, p + Z.of_nat (length v))], 13).
Proof.
  intros [Hv Hs]. destruct v as [|c v].
  - rewrite Z.add_0_r. by destruct ur.
  - inversion Hv as [|? ? Hc Hv']; subst. change ((c :: v) ++ CRLF_) with ([c] ++ v ++ CRLF_).
    replace (p + Z.of_nat (length (c :: v))) with (p + 1 + Z.of_nat (length v)) by (simpl; lia).
    apply (walk_app _ p 15 [c] _ [(StartValue, p)] 16 [_]).
    + apply (walk_leaves (fsm ur) [15] (fun c => is_value c && negb (Ascii.eqb c " " || Ascii.eqb c "009")) (mkTarget [StartValue] 16));
        [destruct ur; by vm_compute|by left| |done]. rewrite Hc. simpl. destruct Hs as [H1%Ascii.eqb_neq H2%Ascii.eqb_neq]. by rewrite H1, H2.
    + apply (walk_app _ _ 16 v CRLF_ [] 16); [|by destruct ur].
      apply (walk_loop (fsm ur) 16 is_value); [destruct ur; by vm_compute|done].
Qed.
Lemma walk_line p sp f : field_ok f -> sp = [] \/ sp = [" "%char] -> walk p 13 (line sp f) = Some (line_actions p sp f, 13).
Proof.
  intros (Hne & Hk & Hv) Hsp. destruct f as [k v]. simpl in Hne, Hk, Hv. unfold line, line_actions. cbn [fst snd].
  destruct Hk as [|c k Hc Hk]; [done|]. change ((c :: k) ++ [":"%char] ++ sp ++ v ++ CRLF_) with ([c] ++ k ++ [":"%char] ++ sp ++ v ++ CRLF_).
  replace (p + Z.of_nat (length (c :: k))) with (p + 1 + Z.of_nat (length k)) by (simpl; lia).
  apply (walk_app _ p 13 [c] _ [(StartField, p)] 14 (_ :: _)).
  { apply (walk_leaves (fsm ur) [13] is_token (mkTarget [StartField] 14)); [destruct ur; by vm_compute|by left|done|done]. }
  apply (walk_app _ _ 14 k _ [] 14 (_ :: _)).
  { apply (walk_loop (fsm ur) 14 is_token); [destruct ur; by vm_compute|done]. }
  apply (walk_app _ _ 14 [":"%char] _ [(WriteField, _)] 15 _); [by destruct ur|].
  destruct Hsp as [-> | ->].
  - cbn [imap app length]. rewrite Z.add_0_r. by apply walk_value.
  - apply (walk_app _ _ 15 [" "%char] _ [(StartValue, _)] 15 [_; _]); [cbn [imap length]; rewrite Z.add_0_r; by destruct ur|].
    by apply walk_value.
Qed.

(** Header lines, each with or without a space after the colon. *)
Definition lines_text (ls : list (bytes * (bytes * bytes))) : bytes := concat ((fun l => line l.1 l.2) <$> ls).
Definition line_ok (l : bytes * (bytes * bytes)) : Prop := field_ok l.2 /\ (l.1 = [] \/ l.1 = [" "%char]).
Lemma lines_do buffer ls : Z.of_nat (length buffer) < 2 ^ 31 -> forall pre post, buffer = pre ++ lines_text ls ++ post -> Forall line_ok ls ->
  exists acts, walk (Z.of_nat (length pre)) 13 (lines_text ls) = Some (acts, 13) /\
    does buffer acts (fun r => foldl set_field r (snd <$> ls)).
Proof.
  intros Hb. induction ls as [|[sp f] ls IH]; intros pre post E Hls.
  - exists []. split; [done|]. apply does_nothing.
  - apply Forall_cons in Hls as [[Hf Hsp] Hls]. simpl in Hf, Hsp. unfold lines_text in *. simpl in E |- *. rewrite <- app_assoc in E.
    destruct (IH (pre ++ line sp f) post) as (acts & Ew & Hd); [by rewrite <- app_assoc|done|].
    exists (line_actions (Z.of_nat (length pre)) sp f ++ acts). split.
    + apply (walk_app _ _ 13 (line sp f) _ _ 13 acts 13); [by apply walk_line|]. rewrite <- Ew. f_equal. rewrite length_app. lia.
    + pose proof Hf as (Hne & _). exact (does_app buffer _ acts _ _ (does_line buffer Hb pre sp f _ E Hne Hsp) Hd).
Qed.

(** What the first line says. *)
Definition first_line (m : HttpMethod) (path query fragment : bytes) (v : Z) (r : HttpRequest) : HttpRequest :=
  let r := setPath (of_bytes path) (setMethod m r) in
  let r := match query with [] => r | _ => setQuery (of_bytes query) r end in
  setVersion v (match fragment with [] => r | _ => setFragment (of_bytes fragment) r end).

Lemma request_line_do buffer m path query fragment v post : Z.of_nat (length buffer) < 2 ^ 31 ->
  buffer = request_line m path query fragment v ++ post -> method_ok m -> path_ok path -> version_ok v ->
  escaped is_query_char query = true -> escaped is_query_char fragment = true ->
  exists acts, walk 0 1 (request_line m path query fragment v) = Some (acts, 13) /\ does buffer acts (first_line m path query fragment v).
Proof.
  intros Hb E Hm Hp Hv Hq Hf. set (mt := to_bytes (HttpMethodToString m ++ " ")).
  set (n := Z.of_nat (String.length (HttpMethodToString m))).
  assert (Z.of_nat (length mt) = n + 1) as Hmt by (unfold mt, n; rewrite length_to_bytes; clear -Hm; destruct m; done || by destruct Hm).
  assert (request_line m path query fragment v = mt ++ path ++ (prefixed "?" query ++ prefixed "#" fragment ++ [" "%char]) ++ to_bytes ("HTTP/" ++ version_text v) ++ CRLF_) as Er.
  { unfold request_line. fold mt. by rewrite <- !app_assoc. }
  rewrite Er in E |- *. destruct (walk_path ur (n + 1) path Hp) as (s & Ep & Hs).
  set (q := n + 1 + Z.of_nat (length path)).
  set (w := q + Z.of_nat (length (prefixed "?" query ++ prefixed "#" fragment ++ [" "%char]))).
  exists ([(Mark, 0); (RequestMethod, n)] ++ [(Mark, n + 1)] ++ rest_actions q (Z.of_nat (length query)) (Z.of_nat (length fragment)) ++ [(Mark, w); (HttpVersion, w + 8)]).
  split.
  - apply (walk_app _ 0 1 mt _ _ 3 _ 13 (walk_method ur m Hm)). rewrite Z.add_0_l, Hmt.
    apply (walk_app _ _ 3 path _ _ s _ 13 Ep). fold q. apply (walk_app _ q s _ _ _ 4 _ 13 (walk_rest ur q s query fragment Hs Hq Hf)). fold w.
    by apply walk_version.
  - assert (buffer = mt ++ path ++ prefixed "?" query ++ prefixed "#" fragment ++ [" "%char] ++ to_bytes ("HTTP/" ++ version_text v) ++ CRLF_ ++ post) as E1
      by (rewrite E, <- !app_assoc; done).
    assert (Z.of_nat (length mt) + Z.of_nat (length path) = q) as Eq by (unfold q; lia).
    pose proof (does_method buffer m _ E1 Hm) as D1. fold n in D1.
    pose proof (does_path buffer Hb mt path _ E1) as D2. rewrite Eq, Hmt in D2.
    assert (buffer = (mt ++ path ++ prefixed "?" query ++ prefixed "#" fragment ++ [" "%char]) ++ to_bytes ("HTTP/" ++ version_text v) ++ CRLF_ ++ post) as E2
      by (rewrite E1; by rewrite <- !app_assoc).
    pose proof (does_version buffer Hb _ v _ E2 Hv) as D5.
    replace (Z.of_nat (length (mt ++ path ++ prefixed "?" query ++ prefixed "#" fragment ++ [" "%char]))) with w in D5
      by (unfold w; rewrite (length_app mt), (length_app path); lia).
    assert (forall x f, does buffer x f -> does buffer ([(RequestUri, q)] ++ x) f) as DU
      by (intros x f Hx; exact (does_app buffer _ _ _ _ (does_uri buffer q) Hx)).
    unfold first_line, rest_actions. destruct query as [|c query]; [destruct fragment as [|d fragment]|].
    + exact (does_app buffer _ _ _ _ D1 (does_app buffer _ _ _ _ D2 (does_app buffer _ _ _ _ (does_uri buffer q) D5))).
    + pose proof (does_fragment buffer Hb (mt ++ path ++ ["#"%char]) (d :: fragment) _ ltac:(by rewrite E1, <- !app_assoc)) as D4.
      replace (Z.of_nat (length (mt ++ path ++ ["#"%char]))) with (q + 1) in D4 by (rewrite !length_app; simpl; lia).
      exact (does_app buffer _ _ _ _ D1 (does_app buffer _ _ _ _ D2 (does_app buffer _ _ _ _ (does_uri buffer q) (does_app buffer _ _ _ _ D4 D5)))).
    + pose proof (does_query buffer Hb (mt ++ path ++ ["?"%char]) (c :: query) _ ltac:(by rewrite E1, <- !app_assoc)) as D3.
      replace (Z.of_nat (length (mt ++ path ++ ["?"%char]))) with (q + 1) in D3 by (rewrite !length_app; simpl; lia).
      set (z := q + 1 + Z.of_nat (length (c :: query))) in *. pose proof (does_uri buffer z) as DZ. destruct fragment as [|d fragment].
      * exact (does_app buffer _ _ _ _ D1 (does_app buffer _ _ _ _ D2 (does_app buffer _ _ _ _ D3 (does_app buffer _ _ _ _ DZ D5)))).
      * pose proof (does_fragment buffer Hb (mt ++ path ++ ["?"%char] ++ (c :: query) ++ ["#"%char]) (d :: fragment) _ ltac:(by rewrite E1, <- !app_assoc)) as D4.
        replace (Z.of_nat (length (mt ++ path ++ ["?"%char] ++ (c :: query) ++ ["#"%char]))) with (z + 1) in D4 by (unfold z; rewrite !length_app; simpl; lia).
        exact (does_app buffer _ _ _ _ D1 (does_app buffer _ _ _ _ D2 (does_app buffer _ _ _ _ D3 (does_app buffer _ _ _ _ DZ (does_app buffer _ _ _ _ D4 D5))))).
Qed.
End head.

(** * Reading a request back *)

Section read_back.
Context (ur : bool).
#[local] Instance machine : HttpMachine http_parser := http11_machine ur.

Definition request_head (m : HttpMethod) (path query fragment : bytes) (v : Z) (ls : list (bytes * (bytes * bytes))) : bytes :=
  request_line m path query fragment v ++ lines_text ls ++ CRLF_.

Lemma head_exec m path query fragment v ls rest : let hd := request_head m path query fragment v ls in
  Z.of_nat (length (hd ++ rest)) < 2 ^ 31 -> method_ok m -> path_ok path -> version_ok v ->
  escaped is_query_char query = true -> escaped is_query_char fragment = true -> Forall line_ok ls ->
  exists h evs, exec (fsm ur) (act (hd ++ rest)) (hd ++ rest) 0 1 (http_parser_init, []) = Ret (h, evs, 348, Z.of_nat (length hd)) /\
    effect evs (fun r => foldl set_field (first_line m path query fragment v r) (snd <$> ls)) /\ hp_cs h = 1 /\ hp_nread h = 0.
Proof.
  intros hd Hl Hm Hp Hv Hq Hf Hls. set (rl := request_line m path query fragment v) in *. set (b := hd ++ rest) in *.
  assert (b = rl ++ lines_text ls ++ CRLF_ ++ rest) as Eb by (unfold b, hd, request_head; by rewrite <- !app_assoc).
  destruct (request_line_do ur b m path query fragment v _ Hl Eb Hm Hp Hv Hq Hf) as (a1 & W1 & D1).
  destruct (lines_do ur b ls Hl rl (CRLF_ ++ rest) Eb Hls) as (a2 & W2 & D2).
  destruct (does_app b _ _ _ _ D1 D2 http_parser_init []) as (h & evs & E & F & K1 & K2 & K3 & K4).
  assert (exec (fsm ur) (act b) b 0 1 (http_parser_init, []) = exec (fsm ur) (act b) ((rl ++ lines_text ls) ++ CRLF_ ++ rest) 0 1 (http_parser_init, [])) as ->
    by (f_equal; rewrite Eb; by rewrite <- app_assoc).
  rewrite (exec_walk (fsm ur) (act b) _ _ _ _ _ _ _ _ (walk_app _ _ _ _ _ _ _ _ _ W1 W2) E). rewrite Z.add_0_l, app_nil_l.
  change (CRLF_ ++ rest) with (["013"%char] ++ "010"%char :: rest). set (p := Z.of_nat (length (rl ++ lines_text ls))).
  rewrite (exec_walk (fsm ur) (act b) ["013"%char] _ p 13 [(StartField, p)] 18 (h, evs) (set_field_start p h, evs) ltac:(by destruct ur) eq_refl).
  assert (Z.of_nat (length hd) = p + 1 + 1) as -> by (unfold hd, request_head, p; fold rl; rewrite !length_app; simpl; lia).
  eexists _, (evs ++ [_]). rewrite (exec_stop (fsm ur) (act b) "010" rest _ 18 (mkTarget [Done] 348) _ _ ltac:(by destruct ur) eq_refl).
  simpl. rewrite K3, K4. simpl. split_and!; [reflexivity| |done|done].
  intros q. rewrite foldl_app, F. done.
Qed.

(** The parser after the whole head. *)
Lemma head_read m path query fragment v ls rest : let hd := request_head m path query fragment v ls in
  Z.of_nat (length (hd ++ rest)) < 2 ^ 31 -> method_ok m -> path_ok path -> version_ok v ->
  escaped is_query_char query = true -> escaped is_query_char fragment = true -> Forall line_ok ls ->
  exists p, execute new_HttpRequestParser (hd ++ rest) = Ret (p, length hd, rest) /\ isFinished p = true /\ hasError p = false /\
    m_data p = foldl set_field (first_line m path query fragment v (new_HttpRequest 0x11 true)) (snd <$> ls).
Proof.
  intros hd Hl Hm Hp Hv Hq Hf Hls. destruct (head_exec m path query fragment v ls rest Hl Hm Hp Hv Hq Hf Hls) as (h & evs & E & F & K1 & K2).
  fold hd in E. set (b := hd ++ rest) in *.
  pose proof (http_parser_execute_ok ur http_parser_init b http_parser_init_ok Hl) as Hok.
  assert (Z.of_nat (length b) <> 0) as Hne by (unfold b, hd, request_head; rewrite !length_app; simpl; lia).
  assert (http_parser_execute ur http_parser_init b = Ret (set_nread (Z.of_nat (length hd)) (set_cs 348 h), Z.of_nat (length hd), evs)) as Ex.
  { revert Hok. unfold http_parser_execute. rewrite (proj2 (Z.eqb_neq _ _) Hne). rewrite sint_id, Z.eqb_refl by (done || split; lia). cbn [negb].
    change (set_field_start 0 (set_field_len 0 (set_mark 0 (set_nread 0 http_parser_init)))) with http_parser_init.
    change (hp_cs http_parser_init) with 1. rewrite E. unfold mbind, outcome_bind, http_parser_has_error. rewrite K1. simpl. rewrite K2. simpl.
    by destruct (_ && _). }
  eexists. unfold execute. simpl. rewrite Ex. simpl. rewrite Nat2Z.id. unfold b. rewrite drop_app_length.
  split; [reflexivity|]. unfold isFinished, hasError. simpl. rewrite F. done.
Qed.
End read_back.

(** ** What [dump] prints *)

Definition len_of (body : string) : option Z := if String.eqb body "" then None else Some (Z.of_nat (String.length body)).
Definition connection_field (close : bool) : bytes * bytes := (to_bytes "Connection", to_bytes (if close then "close" else "keep-alive")).
Definition length_field (n : Z) : bytes * bytes := (to_bytes "Content-Length", to_bytes (dec n)).
Definition dump_lines (r : HttpRequest) : list (bytes * (bytes * bytes)) :=
  ([" "%char], connection_field (m_close r)) :: ((fun f => ([], f)) <$> fields_of (m_headers r)) ++
  match len_of (m_body r) with Some n => [([" "%char], length_field n)] | None => [] end.
Definition head_of (r : HttpRequest) : bytes :=
  request_head (m_method r) (to_bytes (m_path r)) (to_bytes (m_query r)) (to_bytes (m_fragment r)) (m_version r) (dump_lines r).

Lemma prefixed_text (c : ascii) (s : string) : to_bytes (if String.eqb s "" then "" else String c "") ++ to_bytes s = prefixed c (to_bytes s).
Proof. by destruct s. Qed.
Lemma dump_bytes r : to_bytes (dump r) = head_of r ++ to_bytes (m_body r).
Proof.
  unfold dump, head_of, request_head, request_line, body_text, dump_lines, lines_text, len_of. rewrite !to_bytes_app, header_lines_bytes.
  rewrite !(app_assoc (to_bytes (if String.eqb _ "" then "" else _))).
  rewrite (prefixed_text "?"), (prefixed_text "#").
  rewrite fmap_cons, fmap_app, <- list_fmap_compose. cbn [concat]. rewrite concat_app.
  change ((fun l => line l.1 l.2) ∘ (fun f => ([], f))) with (field_line ":" CRLF).
  destruct (String.eqb_spec (m_body r) "") as [->|Hb]; cbn [negb].
  - rewrite <- !app_assoc. unfold line. rewrite <- !app_assoc. done.
  - rewrite !to_bytes_app. rewrite <- !app_assoc. cbn [fmap list_fmap concat]. unfold line. cbn [fst snd]. rewrite <- !app_assoc. done.
Qed.

(** What a server can read: see [request_line]; and no header that says how
    long the body is besides the one that is printed. *)
Definition sendable (r : HttpRequest) : Prop :=
  method_ok (m_method r) /\ path_ok (to_bytes (m_path r)) /\ version_ok (m_version r) /\
  escaped is_query_char (to_bytes (m_query r)) = true /\ escaped is_query_char (to_bytes (m_fragment r)) = true /\
  Forall field_ok (fields_of (m_headers r)) /\ map_ok (m_headers r) /\ map_find "content-length" (m_headers r) = None.

Lemma dec_value n : 0 <= n -> value_ok (to_bytes (dec n)).
Proof.
  intros Hn. destruct (dec_bytes n Hn) as (_ & HF & _). assert (forall c, digit_of 10 c <> None -> is_value c = true /\ c <> " "%char /\ c <> "009"%char) as H.
  { intros c Hc. assert (forallb (fun c => if digit_of 10 c then is_value c && negb (Ascii.eqb c " ") && negb (Ascii.eqb c "009") else true) all_chars = true) as Hv by by vm_compute.
    rewrite forallb_forall in Hv. specialize (Hv c (all_chars_elem c)). destruct (digit_of 10 c); [|done].
    apply andb_true_iff in Hv as [[H1 H2%negb_true_iff]%andb_true_iff H3%negb_true_iff]. by apply Ascii.eqb_neq in H2, H3. }
  unfold to_bytes. split; [eapply Forall_impl; [exact HF|]; intros c Hc; by apply H|]. destruct HF as [|c l Hc _]; [done|]. by apply H.
Qed.
Lemma dump_lines_ok r : Forall field_ok (fields_of (m_headers r)) -> Forall line_ok (dump_lines r).
Proof.
  intros Hf. unfold dump_lines. constructor; [|apply Forall_app; split].
  - split; [|by right]. by destruct (m_close r); repeat constructor.
  - apply Forall_fmap. eapply Forall_impl; [exact Hf|]. intros f H. split; [done|by left].
  - unfold len_of. destruct (String.eqb _ _); [constructor|]. constructor; [|constructor]. split; [|by right].
    split_and!; [done|by repeat constructor|]. apply dec_value. lia.
Qed.

Lemma foldl_set_field fs r : foldl set_field r fs =
  mkHttpRequest (m_method r) (m_version r) (m_close r) (m_path r) (m_query r) (m_fragment r) (m_body r) (set_all (m_headers r) fs) (m_params r) (m_cookies r).
Proof. revert r; induction fs as [|f fs IH]; intros r; [by destruct r|]. simpl. rewrite IH. done. Qed.

(** The headers that arrive. *)
Lemma dumped_find r key : sendable r -> 
  map_find key (set_all [] (snd <$> dump_lines r)) =
    (if String.eqb (fold_key key) "content-length" then (fun n => dec n) <$> len_of (m_body r)
     else if String.eqb (fold_key key) "connection" then Some (if m_close r then "close" else "keep-alive")%string
     else map_find key (m_headers r)).
Proof.
  intros (_ & _ & _ & _ & _ & Hf & Hm & Hcl). rewrite !map_find_abs in *. unfold dump_lines. rewrite fmap_cons, fmap_app, <- list_fmap_compose.
  change (snd ∘ (fun f => ([], f))) with (@id (bytes * bytes)%type). rewrite list_fmap_id. unfold set_all. cbn [foldl fst snd]. rewrite foldl_app.
  fold (set_all (map_set (of_bytes (connection_field (m_close r)).1) (of_bytes (connection_field (m_close r)).2) []) (fields_of (m_headers r))).
  set (m0 := map_set _ _ []). set (m := set_all m0 _).
  assert (forall k, map_abs m0 !! k = if String.eqb k "connection" then Some (if m_close r then "close" else "keep-alive")%string else None) as E0.
  { intros k. unfold m0. rewrite map_set_abs. change (fold_key (of_bytes (connection_field (m_close r)).1)) with "connection"%string.
    cbn [snd connection_field]. rewrite of_to_bytes. destruct (String.eqb_spec k "connection") as [->|H]; [apply lookup_insert_eq|by rewrite lookup_insert_ne]. }
  assert (forall k, map_abs (foldl (fun m f => map_set (of_bytes f.1) (of_bytes f.2) m) m (snd <$> match len_of (m_body r) with Some n => [([" "%char], length_field n)] | None => [] end)) !! k =
          if String.eqb k "content-length" then match len_of (m_body r) with Some n => Some (dec n) | None => map_abs m !! k end else map_abs m !! k) as E.
  { intros k. destruct (len_of (m_body r)) as [n|]; [|by destruct (String.eqb k _)]. simpl. rewrite map_set_abs. 
    change (fold_key _) with "content-length"%string. rewrite of_to_bytes.
    destruct (String.eqb_spec k "content-length") as [->|H]; [apply lookup_insert_eq|by rewrite lookup_insert_ne]. }
  rewrite E. unfold m. destruct (String.eqb_spec (fold_key key) "content-length") as [->|H1].
  - destruct (len_of (m_body r)); [done|]. rewrite set_all_lookup, E0 by done. change (fold_key "content-length") with "content-length"%string in Hcl. by rewrite Hcl.
  - destruct (String.eqb_spec (fold_key key) "connection") as [->|H2].
    + rewrite set_all_absent, E0; [done|]. intros f Hin. clear -Hin. induction (m_headers r) as [|[k v] l IH]; [done|].
      unfold fields_of in Hin. simpl in Hin. destruct (strcaseeq k "connection") eqn:Ek; [by apply IH|]. destruct Hin as [<-|Hin]; [|by apply IH].
      simpl. rewrite of_to_bytes. intros Hk. by assert (strcaseeq k "connection" = true) by (by apply strcaseeq_spec); congruence.
    + rewrite set_all_lookup, E0 by done. rewrite (proj2 (String.eqb_neq _ _) H2). by destruct (map_abs (m_headers r) !! fold_key key).
Qed.

(** * From the client's text to the server's request *)

(** A part that is not there is empty in a new request. *)
Lemma first_line_sets m path query fragment v :
  first_line m (to_bytes path) (to_bytes query) (to_bytes fragment) v (new_HttpRequest 0x11 true) =
    setVersion v (setFragment fragment (setQuery query (setPath path (setMethod m (new_HttpRequest 0x11 true))))).
Proof. unfold first_line. rewrite !of_to_bytes. by destruct query, fragment. Qed.

Section received.
Context (ur : bool) {W : Type}.
Context (read : Z -> prog W (Z * bytes)) (write : bytes -> prog W Z) (close : prog W unit) {conn : Connection read write close}.
Context (lexical_cast : string -> option Z) (buff_size : Z).
Hypothesis buff_size_ok : 0 < buff_size < 2 ^ 31.
Hypothesis reads : never_fails read.
(** [boost::lexical_cast] reads back what [operator<<] printed. *)
Hypothesis cast_dec : forall n, 0 <= n < 2 ^ 64 -> lexical_cast (dec n) = Some n.
#[local] Instance hm : HttpMachine http_parser := http11_machine ur.

(** The head comes with the first read. *)
Lemma head_received r fuel w w1 data : sendable r -> (0 < fuel)%nat ->
  read buff_size w = (Ret (Z.of_nat (length (head_of r ++ data)), head_of r ++ data), w1) ->
  exists p, recv_head read close buff_size fuel new_HttpRequestParser [] w = (Ret (Some (p, data)), w1) /\
    pending w = head_of r ++ data ++ pending w1 /\ Z.of_nat (length data) < buff_size /\
    m_data p = foldl set_field (first_line (m_method r) (to_bytes (m_path r)) (to_bytes (m_query r)) (to_bytes (m_fragment r)) (m_version r) (new_HttpRequest 0x11 true))
                 (snd <$> dump_lines r).
Proof.
  intros (Hm & Hp & Hv & Hq & Hf & Hfs & _ & _) Hfuel Er. destruct fuel as [|fuel]; [lia|].
  assert (0 < length (head_of r))%nat as Hpos by (unfold head_of, request_head; rewrite !length_app; simpl; lia).
  destruct (src_read buff_size w ltac:(lia)) as (rt & bs & w' & Er' & Hr). rewrite Er in Er'. simplify_eq.
  destruct Hr as [(_ & _ & Hle & Hpend)|[(Hz & _)|(Hneg & _)]]; [|rewrite length_app in Hz; lia|lia].
  destruct (head_read ur (m_method r) (to_bytes (m_path r)) (to_bytes (m_query r)) (to_bytes (m_fragment r)) (m_version r) (dump_lines r) data)
    as (p & Ex & Hfin & Herr & Hd); try done; [fold (head_of r); lia|by apply dump_lines_ok|]. fold (head_of r) in Ex.
  exists p. rewrite length_app in Hle. split_and!; [|by rewrite Hpend, <- app_assoc|lia|done].
  cbn [recv_head length]. rewrite Z.sub_0_r, wrap_id by (unfold in_uint; lia). run Er. cbn [fst snd].
  rewrite (proj2 (Z.leb_gt _ _)) by (rewrite length_app; lia). rewrite app_nil_l.
  assert (HttpSession.hasError (hm := hm) p = false /\ isFinished (hm := hm) p = true) as [Herr' Hfin'] by done.
  run (f_equal (fun o => (o, w')) Ex). cbv iota beta. rewrite Herr'.
  rewrite sint_id by (split; lia). rewrite (proj2 (Z.eqb_neq _ _)) by lia. by rewrite Hfin'.
Qed.

(** C16: what the client prints, the server reads: if the head of a request
    comes with the first read, and however its body comes, the request the
    session gives has the same method, path, query, fragment, version, body and
    headers, and asks to close the connection as the client did; what follows
    the request stays in the stream.  (The parser is the generated automaton.) *)
Theorem request_received r fuel w w1 data more : sendable r -> Z.of_nat (String.length (m_body r)) < 2 ^ 31 ->
  read buff_size w = (Ret (Z.of_nat (length (head_of r ++ data)), head_of r ++ data), w1) ->
  data ++ pending w1 = to_bytes (m_body r) ++ more -> (length (pending w) < fuel)%nat -> (length data <= length (to_bytes (m_body r)))%nat ->
  exists req w', recvRequest read close lexical_cast buff_size fuel w = (Ret (Some req), w') /\ pending w' = more /\
    m_method req = m_method r /\ m_path req = m_path r /\ m_query req = m_query r /\ m_fragment req = m_fragment r /\
    m_version req = m_version r /\ m_body req = m_body r /\ m_close req = m_close r /\
    forall key d, fold_key key <> "connection"%string -> fold_key key <> "content-length"%string -> getHeader key d req = getHeader key d r.
Proof.
  intros Hr Hbl Er Hd Hfuel Hdl. destruct (head_received r fuel w w1 data Hr ltac:(lia) Er) as (p & Eh & Hpend & Hdb & Ep).
  rewrite foldl_set_field in Ep. set (r0 := first_line _ _ _ _ _ _) in Ep.
  assert (m_method r0 = m_method r /\ m_path r0 = m_path r /\ m_query r0 = m_query r /\ m_fragment r0 = m_fragment r /\ m_version r0 = m_version r /\
          m_body r0 = ""%string /\ m_headers r0 = []) as (R1 & R2 & R3 & R4 & R5 & R6 & R7).
  { unfold r0. rewrite first_line_sets. done. }
  rewrite R1, R2, R3, R4, R5, R6, R7 in Ep. pose proof (fun key => dumped_find r key Hr) as Hfind.
  set (hs := set_all [] (snd <$> dump_lines r)) in *. clearbody hs.
  assert (forall body, let req := Http.init (setBody body (m_data p)) in m_method req = m_method r /\ m_path req = m_path r /\ m_query req = m_query r /\
            m_fragment req = m_fragment r /\ m_version req = m_version r /\ m_body req = body /\ m_close req = m_close r /\
            forall key d, fold_key key <> "connection"%string -> fold_key key <> "content-length"%string -> getHeader key d req = getHeader key d r) as Hreq.
  { intros body req. assert (getHeader "connection" "" (setBody body (m_data p)) = if m_close r then "close" else "keep-alive")%string as Hc.
    { unfold getHeader, find_or. rewrite Ep. simpl. by rewrite Hfind. }
    unfold req, Http.init. rewrite Hc. rewrite Ep. destruct (m_close r); simpl.
    all: split_and!; try done; intros key d H1 H2; unfold getHeader, find_or; simpl; rewrite Hfind;
      apply String.eqb_neq in H1, H2; by rewrite H1, H2. }
  unfold recvRequest. run Eh. cbv iota beta.
  assert (getContentLength lexical_cast p = Z.of_nat (String.length (m_body r))) as ->.
  { unfold getContentLength, getHeaderAs, getAs. rewrite Ep. simpl. rewrite Hfind. simpl. unfold len_of.
    destruct (String.eqb_spec (m_body r) "") as [->|_]; [done|]. simpl. rewrite cast_dec by lia. apply wrap_id. split; [lia|]. change (2 ^ 32) with (2 * 2 ^ 31). lia. }
  pose proof (length_to_bytes (m_body r)) as Hlb. destruct (Z.ltb_spec 0 (Z.of_nat (String.length (m_body r)))) as [Hpos|Hz].
  - destruct (recv_body_ok read write close reads fuel data (Z.of_nat (String.length (m_body r))) w1) as (b & w2 & Eb & _ & Hb); [rewrite Hpend, !length_app in Hfuel; lia|lia|lia|].
    run Eb. rewrite Hd in Hb. destruct b as [body|]; [|destruct Hb as (_ & [Hb|Hb]); [rewrite length_app in Hb|]; lia]. destruct Hb as (_ & -> & Hp2).
    rewrite Nat2Z.id, <- Hlb, take_app_length, of_to_bytes in *. eexists _, w2. split; [reflexivity|]. split; [|apply Hreq].
    rewrite Hp2. assert (drop (length (to_bytes (m_body r))) (data ++ pending w1) = more) as Hm by (by rewrite Hd, drop_app_length). by rewrite drop_app_ge in Hm.
  - assert (m_body r = ""%string) as Hb by (destruct (m_body r); [done|simpl in Hz; lia]). eexists _, w1. split; [reflexivity|]. split.
    + rewrite Hb in Hd, Hdl. simpl in Hd, Hdl. destruct data; [done|simpl in Hdl; lia].
    + rewrite Hb. assert (setBody "" (m_data p) = m_data p) as <- by (by rewrite Ep). apply Hreq.
Qed.
End received.

#[local] Existing Instance full_connection.
Definition digits_cast (s : string) : option Z := Some (digits_value 10 0 (to_bytes s)).
Definition ex_req : HttpRequest :=
  setBody "xyz" (setHeader "Host" "dev-1" (setFragment "f" (setQuery "k=%20v" (setPath "/ota/query" (setMethod POST (new_HttpRequest 0x11 false)))))).
Lemma ex_sendable : sendable ex_req.
Proof.
  split_and!; try done; [|by left|repeat constructor; done|repeat constructor].
  exists (to_bytes "ota/query"). by split_and!.
Qed.
Lemma request_received_witness : exists req w',
  recvRequest (hm := http11_machine false) full_read ex_close digits_cast 93 200 (to_bytes (dump ex_req) ++ to_bytes "GET", []) = (Ret (Some req), w') /\
  fst w' = to_bytes "GET" /\ m_path req = "/ota/query"%string /\ m_query req = "k=%20v"%string /\ m_body req = "xyz"%string /\ getHeader "host" "" req = "dev-1"%string.
Proof.
  set (w := (to_bytes (dump ex_req) ++ to_bytes "GET", []) : bytes * bytes).
  destruct (request_received false full_read ex_write ex_close digits_cast 93 ltac:(lia)
    ltac:(intros n v rt bs v1 [= <- _ _]; lia) ltac:(intros n Hn; unfold digits_cast, to_bytes; f_equal; apply dec_bytes; lia)
    ex_req 200 w (to_bytes "yzGET", []) (to_bytes "x") (to_bytes "GET")) as (req & w' & E & Hp & _ & H1 & H2 & _ & _ & H3 & _ & Hh);
    [exact ex_sendable|reflexivity|vm_compute; reflexivity|reflexivity|vm_compute; lia|vm_compute; lia|].
  exists req, w'. split_and!; [exact E|exact Hp|exact H1|exact H2|exact H3|]. rewrite Hh by (vm_compute; congruence). reflexivity.
Defined.
Lemma http_parser_never_aborts_witness : hp_ok http_parser_init /\
  match http_parser_execute true http_parser_init (to_bytes "GET /a") with Ret (h, n, _) => n = 6 /\ hp_cs h = 26 | _ => False end.
Proof.
  split; [exact http_parser_init_ok|].
  destruct (http_parser_never_aborts true http_parser_init (to_bytes "GET /a") http_parser_init_ok ltac:(vm_compute; reflexivity)) as [H _].
  revert H. vm_compute. intros _. split; reflexivity.
Defined.

(** * Requests the code does not read as they are meant *)

(** A connection that gives one piece at a time. *)
Definition piece_read (n : Z) : prog (list bytes) (Z * bytes) := fun w =>
  match w with [] => (Ret (0, []), []) | b :: w' => (Ret (Z.of_nat (length b), b), w') end.
Abbreviation serve pieces := (out (recvRequest (hm := http11_machine false) piece_read (mret tt) digits_cast 4096 9) pieces).
(** A path that comes in two reads loses its first part; a method too, and the
    request is then refused; a query makes a callback throw. *)
Example split_path :
  match serve [to_bytes "GET /ota/no"; to_bytes "tify HTTP/1.1" ++ CRLF_ ++ CRLF_] with Ret (Some r) => m_path r = "tify"%string | _ => False end.
Proof. vm_compute. reflexivity. Qed.
Example split_method : serve [to_bytes "PO"; to_bytes "ST / HTTP/1.1" ++ CRLF_ ++ CRLF_] = Ret None.
Proof. vm_compute. reflexivity. Qed.
Example split_query : serve [to_bytes "GET /ota?name=d"; to_bytes "ev HTTP/1.1" ++ CRLF_ ++ CRLF_] = Throw "basic_string::_M_create".
Proof. vm_compute. reflexivity. Qed.
(** [(0 - 31)] is the character 0 without the character 31: every control
    character but NUL is part of a token, line ends included. *)
Example control_characters_in_name :
  match serve [to_bytes "GET / HTTP/1.1" ++ CRLF_ ++ to_bytes "junk" ++ CRLF_ ++ to_bytes "Host: h" ++ CRLF_ ++ CRLF_] with
  | Ret (Some r) => m_headers r = [(of_bytes (to_bytes "junk" ++ CRLF_ ++ to_bytes "Host"), "h"%string)] /\ getHeader "host" "none" r = "none"%string
  | _ => False
  end.
Proof. vm_compute. done. Qed.
(** The one method with a hyphen is in the table and not in the grammar. *)
Example msearch_refused : serve [to_bytes (dump (setMethod MSEARCH (new_HttpRequest 0x11 true)))] = Ret None.
Proof. vm_compute. reflexivity. Qed.
