(* ===== verification/HttpClient.v ===== *)
(** [sherry/http/http_parser.cc] (the response), the code around the generated
    machine in [httpclient_parser.rl.cc], and [http_connection.cc]: sending a
    request and receiving its response, by length or in chunks.

    The block Ragel generates is [cm_exec] of the interface [ClientMachine]: from
    the parser's fields and the buffer it gives the new fields, how far [p]
    moved, and the callbacks, or an exception of one.  Everything around it (the assertions, the count
    [nread], the checks) is as in the source.  Bytes are [ascii]. *)

From Stdlib Require Import ZArith Lia Ascii String.
From stdpp Require Import base list gmap strings.
From S2P Require Import Prelude MachineInt Ragel Http HttpProps Stream StreamProps HttpSession HttpSessionProps Zlib.
Local Open Scope Z_scope.

(** * The parser *)

Inductive client_event : Type :=
| OnReason (at_ : bytes) (length : nat)
| OnStatus (at_ : bytes) (length : nat)
| OnChunk (at_ : bytes) (length : nat)
| OnRspVersion (at_ : bytes) (length : nat)
| OnRspHeaderDone (at_ : bytes) (length : nat)
| OnRspField (field : bytes) (flen : nat) (value : bytes) (vlen : nat).

(** [struct httpclient_parser]; [cs] with the fields the code does not read. *)
Record httpclient_parser (M : Type) : Type := mkClient {
  cs : M; body_start : Z; content_len : Z; chunked : bool; chunks_done : bool;
  nread : Z; mark : Z; field_start : Z; field_len : Z
}.
Arguments mkClient {M}. Arguments cs {M} h. Arguments body_start {M} h. Arguments content_len {M} h. Arguments chunked {M} h.
Arguments chunks_done {M} h. Arguments nread {M} h. Arguments mark {M} h. Arguments field_start {M} h. Arguments field_len {M} h.

Class ClientMachine (M : Type) : Type := {
  cm_start : M;
  cm_error : M -> bool;                            (* [cs == httpclient_parser_error] *)
  cm_final : M -> bool;                            (* [cs == httpclient_parser_first_final] *)
  cm_exec : httpclient_parser M -> bytes -> outcome (httpclient_parser M * nat * list client_event)
}.

Record HttpResponseParser (M : Type) : Type := mkRspParser { rp_parser : httpclient_parser M; rp_data : HttpResponse; rp_error : Z }.
Arguments mkRspParser {M}. Arguments rp_parser {M} h. Arguments rp_data {M} h. Arguments rp_error {M} h.

Definition r_setVersion (v : Z) (r : HttpResponse) : HttpResponse :=
  mkHttpResponse (r_status r) v (r_close r) (r_body r) (r_reason r) (r_headers r) (r_isSending r).

Section parser.
Context {M : Type} {cm : ClientMachine M}.
Abbreviation RP := (HttpResponseParser M).

Definition httpclient_parser_init : httpclient_parser M := mkClient cm_start 0 (-1) false false 0 0 0 0.
Definition set_nread (n : Z) (h : httpclient_parser M) : httpclient_parser M :=
  mkClient (cs h) (body_start h) (content_len h) (chunked h) (chunks_done h) n (mark h) (field_start h) (field_len h).

(** What the function returns, the parser, the callbacks made. *)
Definition httpclient_parser_execute (parser : httpclient_parser M) (buffer : bytes) : outcome (Z * httpclient_parser M * list client_event) :=
  let len := Z.of_nat (length buffer) in
  '(h, p, evs) ← cm_exec parser buffer;
  let h := set_nread (nread parser + Z.of_nat p) h in
  if len <? nread h then Crash AssertFail else
  if len <? body_start h then Crash AssertFail else
  let ok := (mark h <? len) && (field_len h <=? len) && (field_start h <? len) in
  Ret (if ok then sint 32 (nread h) else -1, h, evs).
Definition httpclient_parser_has_error (h : httpclient_parser M) : bool := cm_error (cs h).
Definition httpclient_parser_is_finished (h : httpclient_parser M) : bool := cm_final (cs h).
Definition httpclient_parser_finish (h : httpclient_parser M) : Z :=
  if httpclient_parser_has_error h then -1 else if httpclient_parser_is_finished h then 1 else 0.

Definition upd_rsp (f : HttpResponse -> HttpResponse) (p : RP) : RP := mkRspParser (rp_parser p) (f (rp_data p)) (rp_error p).
Definition rsp_setError (v : Z) (p : RP) : RP := mkRspParser (rp_parser p) (rp_data p) v.
Definition on_response_reason (at_ : bytes) (length : nat) (p : RP) : RP := upd_rsp (r_setReason (of_bytes (take length at_))) p.
Definition on_response_staus (at_ : bytes) (length : nat) (p : RP) : RP := upd_rsp (r_setStatus (atoi at_)) p.
Definition on_response_chunk (at_ : bytes) (length : nat) (p : RP) : RP := p.
Definition on_response_version (at_ : bytes) (length : nat) (p : RP) : RP :=
  if strncmp_eq at_ (to_bytes "HTTP/1.1") length then upd_rsp (r_setVersion 0x11) p
  else if strncmp_eq at_ (to_bytes "HTTP/1.0") length then upd_rsp (r_setVersion 0x10) p
  else rsp_setError 1001 p.
Definition on_response_header_done (at_ : bytes) (length : nat) (p : RP) : RP := p.
Definition on_response_http_field (field : bytes) (flen : nat) (value : bytes) (vlen : nat) (p : RP) : RP :=
  if (flen =? 0)%nat then p else upd_rsp (r_setHeader (of_bytes (take flen field)) (of_bytes (take vlen value))) p.
(** The callbacks the constructor registers. *)
Definition on_response_event (e : client_event) (p : RP) : RP :=
  match e with
  | OnReason a n => on_response_reason a n p
  | OnStatus a n => on_response_staus a n p
  | OnChunk a n => on_response_chunk a n p
  | OnRspVersion a n => on_response_version a n p
  | OnRspHeaderDone a n => on_response_header_done a n p
  | OnRspField f fl v vl => on_response_http_field f fl v vl p
  end.
Definition new_HttpResponseParser : RP := mkRspParser httpclient_parser_init (new_HttpResponse 0x11 true) 0.

(** [execute(data, len, chunck)]: the parser, the offset, and the bytes at the
    front of the buffer.  The offset -1 of a failed check is a [size_t]: the
    [memmove] then starts before the buffer. *)
Definition rsp_execute (p : RP) (data : bytes) (chunck : bool) : outcome (RP * Z * bytes) :=
  let h := if chunck then httpclient_parser_init else rp_parser p in
  '(offset, h', evs) ← httpclient_parser_execute h data;
  if offset <? 0 then Crash OutOfRange else
  let p1 := foldl (fun q e => on_response_event e q) p evs in
  Ret (mkRspParser h' (rp_data p1) (rp_error p1), offset, drop (Z.to_nat offset) data).
Definition rsp_isFinished (p : RP) : bool := negb (httpclient_parser_finish (rp_parser p) =? 0).
Definition rsp_hasError (p : RP) : bool := negb (rp_error p =? 0) || httpclient_parser_has_error (rp_parser p).
Definition rsp_getContentLength (lexical_cast : string -> option Z) (p : RP) : Z :=
  wrap 32 (getAs lexical_cast (r_headers (rp_data p)) "content-length"%string 0).
End parser.

(** * The connection *)

Section connection.
Context {M : Type} {cm : ClientMachine M} {St : Type} {zl : Zlib St} {W : Type}.
Variable read : Z -> prog W (Z * bytes).
Variable write : bytes -> prog W Z.
Variable close : prog W unit.
Variable lexical_cast : string -> option Z.
Variable buff_size : Z.                            (* [GetHttpRequestBufferSize()] *)
Abbreviation RP := (HttpResponseParser M).

Definition conn_fail {A} : prog W (option A) := close;; mret None.

(** The loop over the head. *)
Fixpoint rsp_head (fuel : nat) (parser : RP) (data : bytes) : prog W (option (RP * bytes)) :=
  match fuel with
  | O => crash NoFuel
  | S fuel' =>
      r ← read (wrap 64 (buff_size - Z.of_nat (length data)));
      if fst r <=? 0 then conn_fail else
      '(parser', nparse, data') ← lift (rsp_execute parser (data ++ snd r) false);
      if rsp_hasError parser' then conn_fail else
      if Z.of_nat (length data') =? sint 32 buff_size then conn_fail else
      if rsp_isFinished parser' then mret (Some (parser', data')) else rsp_head fuel' parser' data'
  end.

(** The inner loop over the head of a chunk. *)
Fixpoint chunk_head (fuel : nat) (parser : RP) (data : bytes) (begin : bool) : prog W (option (RP * bytes)) :=
  match fuel with
  | O => crash NoFuel
  | S fuel' =>
      d ← (if negb begin || (length data =? 0)%nat then
             r ← read (wrap 64 (buff_size - Z.of_nat (length data)));
             if fst r <=? 0 then conn_fail else mret (Some (data ++ snd r))
           else mret (Some data));
      match d with
      | None => mret None
      | Some data =>
          '(parser', nparse, data') ← lift (rsp_execute parser data true);
          if rsp_hasError parser' then conn_fail else
          if Z.of_nat (length data') =? sint 32 buff_size then conn_fail else
          if rsp_isFinished parser' then mret (Some (parser', data')) else chunk_head fuel' parser' data' false
      end
  end.
(** [while(left > 0)]: the rest of a chunk that is not in the buffer. *)
Fixpoint chunk_rest (fuel : nat) (body : bytes) (left : Z) : prog W (option bytes) :=
  if left <=? 0 then mret (Some body) else
  match fuel with
  | O => crash NoFuel
  | S fuel' =>
      r ← read (if sint 32 buff_size <? left then sint 32 buff_size else left);
      if fst r <=? 0 then conn_fail else chunk_rest fuel' (body ++ snd r) (left - fst r)
  end.
(** The bytes of a chunk: the body and what is left in the buffer. An append
    or a resize to a negative size throws. *)
Definition chunk_data (fuel : nat) (len0 : Z) (body data : bytes) : prog W (option (bytes * bytes)) :=
  let len := Z.of_nat (length data) in
  if 2 ^ 31 - 2 <=? len0 then crash BadArith else
  if len0 + 2 <=? len then
    if len0 <? 0 then throw "basic_string::append"
    else mret (Some (body ++ take (Z.to_nat len0) data, drop (Z.to_nat len0 + 2) data))
  else
    r ← chunk_rest fuel (body ++ data) (len0 - len + 2);
    match r with
    | None => mret None
    | Some body' => if (length body' <? 2)%nat then throw "basic_string::resize"
                    else mret (Some (take (length body' - 2) body', []))
    end.
(** The loop over the chunks. *)
Fixpoint chunks (fuel : nat) (parser : RP) (body data : bytes) : prog W (option (RP * bytes)) :=
  match fuel with
  | O => crash NoFuel
  | S fuel' =>
      h ← chunk_head fuel parser data true;
      match h with
      | None => mret None
      | Some (parser', data') =>
          c ← chunk_data fuel (content_len (rp_parser parser')) body data';
          match c with
          | None => mret None
          | Some (body', data'') =>
              if chunks_done (rp_parser parser') then mret (Some (parser', body')) else chunks fuel' parser' body' data''
          end
      end
  end.

(** The decompression of a body. *)
Definition to_octets (b : bytes) : list Byte.byte := byte_of_ascii <$> b.
Definition of_octets (b : list Byte.byte) : bytes := ascii_of_byte <$> b.
Definition inflate_body (fuel : nat) (zs : outcome (option (ZlibStream St))) (body : bytes) : outcome bytes :=
  match zs with
  | Ret (Some z) =>
      match (Zlib.write fuel (to_octets body);; flush fuel) z with
      | (Ret _, z') => Ret (of_octets (getResult z'))
      | (Throw e, _) => Throw e
      | (Crash f, _) => Crash f
      end
  | Ret None => Crash NullDeref
  | Throw e => Throw e
  | Crash f => Crash f
  end.
Definition decode_body (fuel : nat) (encoding : string) (body : bytes) : outcome bytes :=
  if strcaseeq encoding "gzip" then inflate_body fuel (CreateGzip false 4096) body
  else if strcaseeq encoding "deflate" then inflate_body fuel (CreateDeflate false 4096) body
  else Ret body.

Definition finish_response (fuel : nat) (parser : RP) (body : bytes) : prog W (option HttpResponse) :=
  match body with
  | [] => mret (Some (rp_data parser))
  | _ => b ← lift (decode_body fuel (r_getHeader "content-encoding" "" (rp_data parser)) body);
         mret (Some (r_setBody (of_bytes b) (rp_data parser)))
  end.

Definition recvResponse (fuel : nat) : prog W (option HttpResponse) :=
  h ← rsp_head fuel new_HttpResponseParser [];
  match h with
  | None => mret None
  | Some (parser, data) =>
      if chunked (rp_parser parser) then
        c ← chunks fuel parser [] data;
        match c with None => mret None | Some (parser', body) => finish_response fuel parser' body end
      else
        let length0 := rsp_getContentLength lexical_cast parser in
        if 0 <? length0 then
          b ← recv_body read close fuel data length0;
          match b with None => mret None | Some body => finish_response fuel parser body end
        else finish_response fuel parser []
  end.

Definition sendRequest (fuel : nat) (req : HttpRequest) : prog W Z :=
  let data := to_bytes (dump req) in writeFixSize write fuel data 0 (Z.of_nat (length data)).
End connection.

(** * What receiving a response promises *)

(** The offsets the machine keeps lie in the buffer it was given. *)
Definition fits {M} (len : nat) (h : httpclient_parser M) : Prop :=
  body_start h <= Z.of_nat len /\ mark h < Z.of_nat len /\ field_len h <= Z.of_nat len /\ field_start h < Z.of_nat len.

Section exec.
Context {M : Type} {cm : ClientMachine M}.
Implicit Types (p : HttpResponseParser M) (h : httpclient_parser M) (data : bytes).

Definition after_events p h n evs : HttpResponseParser M :=
  let p1 := foldl (fun q e => on_response_event e q) p evs in mkRspParser (set_nread n h) (rp_data p1) (rp_error p1).
Lemma rsp_execute_run p data chunk h n evs :
  let h0 := if chunk : bool then httpclient_parser_init else rp_parser p in
  cm_exec h0 data = Ret (h, n, evs) -> fits (length data) h -> 0 <= nread h0 ->
  nread h0 + Z.of_nat n <= Z.of_nat (length data) -> Z.of_nat (length data) < 2 ^ 31 ->
  rsp_execute p data chunk = Ret (after_events p h (nread h0 + Z.of_nat n) evs, nread h0 + Z.of_nat n, drop (Z.to_nat (nread h0 + Z.of_nat n)) data).
Proof.
  intros h0 E (F1 & F2 & F3 & F4) H0 Hn Hl. unfold rsp_execute. fold h0. unfold httpclient_parser_execute. rewrite E. simpl.
  rewrite !(proj2 (Z.ltb_ge _ _)) by lia. rewrite !(proj2 (Z.ltb_lt _ _)), (proj2 (Z.leb_le _ _)) by lia. simpl.
  rewrite sint_id by (split; lia). unfold mbind, outcome_bind. simpl. rewrite (proj2 (Z.ltb_ge _ _)) by lia. done.
Qed.

(** The count of bytes is not reset between two calls on the same head: if the
    first call consumed some, the second one fails an assertion unless it
    leaves as many bytes unread, and then drops that many of them. *)
Lemma nread_accumulates p data h n evs :
  cm_exec (rp_parser p) data = Ret (h, n, evs) -> fits (length data) h -> 0 < nread (rp_parser p) -> Z.of_nat (length data) < 2 ^ 31 ->
  (Z.of_nat (length data) < nread (rp_parser p) + Z.of_nat n -> rsp_execute p data false = Crash AssertFail) /\
  (nread (rp_parser p) + Z.of_nat n <= Z.of_nat (length data) -> exists p',
     rsp_execute p data false = Ret (p', nread (rp_parser p) + Z.of_nat n, drop (Z.to_nat (nread (rp_parser p)) + n) data)).
Proof.
  intros E F H0 Hl. split.
  - intros Hn. unfold rsp_execute, httpclient_parser_execute. rewrite E. simpl. by rewrite (proj2 (Z.ltb_lt _ _)).
  - intros Hn. eexists. rewrite (rsp_execute_run p data false h n evs) by (done || lia). simpl.
    rewrite Z2Nat.inj_add, Nat2Z.id by lia. done.
Qed.
(** In chunks every call starts the machine anew, also in the middle of a line
    of which the earlier bytes are gone. *)
Lemma chunk_restarts p q data :
  match rsp_execute p data true, rsp_execute q data true with
  | Ret (p', n, d), Ret (q', m, e) => rp_parser p' = rp_parser q' /\ n = m /\ d = e
  | Throw e, Throw e' => e = e'
  | Crash f, Crash g => f = g
  | _, _ => False
  end.
Proof.
  unfold rsp_execute. simpl. unfold mbind, outcome_bind, httpclient_parser_execute.
  destruct (cm_exec _ _) as [[[h n] evs]|e|f]; [|done|done]. by repeat (case_match; simplify_eq/=).
Qed.
End exec.

(** What the grammar says of the line before a chunk. *)
Class ChunkMachine {M : Type} (cm : ClientMachine M) : Type := {
  chunk_line : nat -> bytes -> Prop;
  chunk_exec n line rest : chunk_line n line -> exists h evs,
    cm_exec httpclient_parser_init (line ++ rest) = Ret (h, length line, evs) /\
    cm_final (cs h) = true /\ cm_error (cs h) = false /\
    content_len h = Z.of_nat n /\ chunks_done h = (n =? 0)%nat /\ fits (length (line ++ rest)) h /\
    (forall p : HttpResponseParser M, foldl (fun q e => on_response_event e q) p evs = p);
  chunk_line_nonempty n line : chunk_line n line -> line <> []
}.

Section client_props.
Context {M : Type} {cm : ClientMachine M} {St : Type} {zl : Zlib St} {W : Type}.
Context (read : Z -> prog W (Z * bytes)) (write : bytes -> prog W Z) (close : prog W unit) {conn : Connection read write close}.
Context (lexical_cast : string -> option Z) (buff_size : Z).
Hypothesis buff_size_ok : 0 < buff_size < 2 ^ 31.
Hypothesis reads : never_fails read.
Implicit Types (p : HttpResponseParser M) (data body : bytes) (w : W).
Abbreviation closed := (closed close).

Lemma conn_fail_run {A} w : exists w', conn_fail close w = (Ret (@None A), w') /\ closed w'.
Proof. destruct (close_ok w) as (w' & E & _). unfold conn_fail. run E. exists w'. split; [done|]. by exists w. Qed.

Lemma chunk_rest_ok fuel body left w : (length (pending w) < fuel)%nat -> left < 2 ^ 31 ->
  exists r w', chunk_rest read close buff_size fuel body left w = (Ret r, w') /\
    match r with
    | None => closed w' /\ Z.of_nat (length (pending w)) < left
    | Some b => b = body ++ take (Z.to_nat left) (pending w) /\ pending w' = drop (Z.to_nat left) (pending w) /\
                left <= Z.of_nat (length (pending w))
    end.
Proof.
  revert body left w; induction fuel as [|fuel IH]; intros body left w Hf Hl; [lia|]. cbn [chunk_rest].
  destruct (Z.leb_spec left 0) as [Hle|Hgt].
  { exists (Some body), w. replace (Z.to_nat left) with 0%nat by lia. rewrite take_0, drop_0, app_nil_r. split_and!; try done. lia. }
  rewrite sint_id by (split; lia). set (m := if buff_size <? left then buff_size else left).
  assert (0 < m <= left) as Hm by (unfold m; destruct (Z.ltb_spec buff_size left); lia).
  destruct (src_read m w ltac:(lia)) as (rt & bs & w1 & E & Hr). pose proof (reads _ _ _ _ _ E) as Hrt. run E. cbn [fst snd].
  destruct Hr as [(Hpos & -> & Hle & Hpend)|[(-> & -> & Hp0 & _)|(Hneg & _)]]; [| |lia].
  - rewrite (proj2 (Z.leb_gt _ _)) by lia. rewrite Hpend, length_app in Hf.
    destruct (IH (body ++ bs) (left - Z.of_nat (length bs)) w1) as (r & w' & Er & Hr); [lia..|]. exists r, w'. split; [done|].
    rewrite Hpend, length_app. destruct r as [b|]; [|destruct Hr; split; [done|lia]]. destruct Hr as (-> & -> & Hlen).
    replace (Z.to_nat left) with (length bs + Z.to_nat (left - Z.of_nat (length bs)))%nat by lia.
    rewrite take_app_add, drop_app_add, app_assoc. split_and!; try done. lia.
  - simpl. destruct (conn_fail_run (A := bytes) w1) as (w' & Ef & Hc). exists None, w'. rewrite Hp0. split_and!; [done..|simpl; lia].
Qed.

(** The bytes of one chunk, however they arrive. *)
Lemma chunk_data_ok fuel n body data w : (length (pending w) < fuel)%nat -> Z.of_nat n < 2 ^ 31 - 2 ->
  exists r w', chunk_data read close buff_size fuel (Z.of_nat n) body data w = (Ret r, w') /\
    match r with
    | None => closed w' /\ (length (data ++ pending w) < n + 2)%nat
    | Some (body', data') => body' = body ++ take n (data ++ pending w) /\ data' ++ pending w' = drop (n + 2) (data ++ pending w) /\
        (n + 2 <= length (data ++ pending w))%nat /\ ((n + 2 <= length data)%nat -> w' = w /\ data' = drop (n + 2) data)
    end.
Proof.
  intros Hf Hn. unfold chunk_data. rewrite (proj2 (Z.leb_gt _ _)) by lia. rewrite length_app.
  destruct (Z.leb_spec (Z.of_nat n + 2) (Z.of_nat (length data))) as [H|H].
  - rewrite (proj2 (Z.ltb_ge _ _)) by lia. eexists (Some _), w. split; [reflexivity|]. rewrite Nat2Z.id.
    rewrite take_app_le, drop_app_le by lia. split_and!; try done. lia.
  - destruct (chunk_rest_ok fuel (body ++ data) (Z.of_nat n - Z.of_nat (length data) + 2) w Hf ltac:(lia)) as (r & w' & E & Hr). run E.
    destruct r as [b|]; [|exists None, w'; split_and!; [done|apply Hr|lia]]. destruct Hr as (-> & Hp & Hlen).
    set (k := Z.to_nat (Z.of_nat n - Z.of_nat (length data) + 2)) in *.
    assert (length (take k (pending w)) = k) as Hk by (rewrite length_take; lia).
    rewrite (proj2 (Nat.ltb_ge _ _)) by (rewrite !length_app; lia). eexists (Some _), w'. split; [reflexivity|]. split_and!; [|..|lia].
    + rewrite !length_app, <- app_assoc, Hk. rewrite take_app_ge by lia. f_equal.
      replace (length body + length data + k - 2 - length body)%nat with n by lia.
      rewrite !take_app. f_equal. rewrite take_take. f_equal. lia.
    + rewrite Hp. simpl. rewrite drop_app_ge by lia. f_equal. lia.
    + lia.
Qed.

Lemma chunk_head_line `{ck : !ChunkMachine cm} fuel p n line rest w : chunk_line n line -> rp_error p = 0 ->
  Z.of_nat (length (line ++ rest)) <= buff_size ->
  exists p', chunk_head read close buff_size (S fuel) p (line ++ rest) true w = (Ret (Some (p', rest)), w) /\
    rp_data p' = rp_data p /\ rp_error p' = 0 /\ content_len (rp_parser p') = Z.of_nat n /\ chunks_done (rp_parser p') = (n =? 0)%nat.
Proof.
  intros L He Hb. destruct (chunk_exec n line rest L) as (h & evs & E & Hf & Hne & Hc & Hd & Fi & Hev).
  pose proof (chunk_line_nonempty _ _ L) as Hn0. rewrite length_app in Hb.
  assert (length line <> 0)%nat as Hl0 by by destruct line.
  cbn [chunk_head]. rewrite (proj2 (Nat.eqb_neq _ _)) by (rewrite length_app; lia). cbn [negb orb]. run_pure. cbv iota.
  erewrite bind_ret. 2: { unfold lift. rewrite (rsp_execute_run p (line ++ rest) true h (length line) evs); try done; rewrite ?length_app; simpl; lia. }
  unfold after_events. rewrite Hev. simpl. rewrite Z.add_0_l, Nat2Z.id, drop_app_length.
  unfold rsp_hasError, rsp_isFinished, httpclient_parser_finish, httpclient_parser_has_error, httpclient_parser_is_finished. simpl.
  rewrite He, Hne, Hf. simpl. rewrite sint_id by (split; lia). rewrite (proj2 (Z.eqb_neq _ _)) by lia.
  eexists. split; [reflexivity|]. done.
Qed.

(** A body in chunks: each with its line and two bytes behind it; the last one
    is empty. *)
Inductive in_chunks `{ck : !ChunkMachine cm} : list bytes -> bytes -> Prop :=
| chunks_end line rest : chunk_line 0 line -> (2 <= length rest)%nat -> in_chunks [] (line ++ rest)
| chunks_more c line e l rest : chunk_line (length c) line -> c <> [] -> length e = 2%nat -> in_chunks l rest ->
    in_chunks (c :: l) (line ++ c ++ e ++ rest).

Lemma chunks_in_buffer `{ck : !ChunkMachine cm} l data : in_chunks l data -> forall fuel p body w, rp_error p = 0 ->
  Z.of_nat (length data) < buff_size -> buff_size < 2 ^ 31 - 2 -> (length l < fuel)%nat ->
  (length (pending w) < fuel - length l)%nat ->
  exists p', chunks read close buff_size fuel p body data w = (Ret (Some (p', body ++ concat l)), w) /\
    rp_data p' = rp_data p.
Proof.
  induction 1 as [line rest L Hr|c line e l rest L Hc He Hl IH]; intros fuel p body w Hp Hb Hb2 Hf Hw;
    (destruct fuel as [|fuel]; [lia|]); cbn [chunks].
  - destruct (chunk_head_line fuel p 0 line rest w L Hp ltac:(lia)) as (p' & E & Hd & He & Hcl & Hdn). run E. simpl.
    destruct (chunk_data_ok (S fuel) 0 body rest w ltac:(simpl in *; lia) ltac:(lia)) as (r & w' & Ec & Hr'). rewrite Hcl. run Ec.
    destruct r as [[b d]|]; [|rewrite length_app in Hr'; lia]. destruct Hr' as (-> & _ & _ & Hw'). destruct (Hw' Hr) as [-> _].
    rewrite Hdn. simpl. rewrite take_0. eauto.
  - destruct (chunk_head_line fuel p (length c) line (c ++ e ++ rest) w L Hp ltac:(lia)) as (p' & E & Hd & He' & Hcl & Hdn). run E. simpl.
    rewrite !length_app in Hb. simpl in Hf, Hw.
    destruct (chunk_data_ok (S fuel) (length c) body (c ++ e ++ rest) w ltac:(lia) ltac:(lia)) as (r & w' & Ec & Hr'). rewrite Hcl. run Ec.
    destruct r as [[b d]|]; [|rewrite !length_app in Hr'; lia]. destruct Hr' as (-> & _ & _ & Hw').
    destruct Hw' as [-> ->]; [rewrite !length_app; lia|]. rewrite Hdn, (proj2 (Nat.eqb_neq _ _)) by by destruct c.
    replace (length c + 2)%nat with (length (c ++ e)) by (rewrite length_app; lia).
    rewrite (app_assoc c e rest), drop_app_length, <- !app_assoc, take_app_length.
    destruct (IH fuel p' (body ++ c) w He' ltac:(lia) Hb2 ltac:(lia) ltac:(lia)) as (p2 & E2 & D2).
    exists p2. rewrite E2. simpl. rewrite <- app_assoc. split; [done|congruence].
Qed.

(** The first read brought the whole head [hd] of a response, and [data]. *)
Definition head_arrives (w w1 : W) (hd data : bytes) (p : HttpResponseParser M) : Prop :=
  exists h evs, read buff_size w = (Ret (Z.of_nat (length (hd ++ data)), hd ++ data), w1) /\ hd <> [] /\
    cm_exec httpclient_parser_init (hd ++ data) = Ret (h, length hd, evs) /\ fits (length (hd ++ data)) h /\
    p = after_events new_HttpResponseParser h (Z.of_nat (length hd)) evs /\
    rsp_isFinished p = true /\ rsp_hasError p = false.
Lemma rsp_head_run fuel w w1 hd data p : head_arrives w w1 hd data p ->
  rsp_head read close buff_size (S fuel) new_HttpResponseParser [] w = (Ret (Some (p, data)), w1) /\
  pending w = hd ++ data ++ pending w1 /\ Z.of_nat (length data) < buff_size.
Proof.
  intros (h & evs & R & Hne & E & Fi & Hp & Hfin & Herr). assert (length hd <> 0)%nat by by destruct hd.
  destruct (src_read buff_size w ltac:(lia)) as (rt & bs & w' & R' & Hr). rewrite R in R'. simplify_eq.
  rewrite length_app in *. destruct Hr as [(_ & _ & Hle & Hpend)|[(H0 & _)|(H0 & _)]]; [|lia..].
  split_and!; [|by rewrite Hpend, <- app_assoc|lia]. cbn [rsp_head length]. rewrite Z.sub_0_r, wrap_id by (split; lia).
  run R. cbn [fst snd app]. rewrite (proj2 (Z.leb_gt _ _)) by lia.
  erewrite bind_ret. 2: { unfold lift. rewrite (rsp_execute_run _ (hd ++ data) false h (length hd) evs); rewrite ?length_app; try done; simpl; lia. }
  simpl. rewrite Z.add_0_l, Nat2Z.id, drop_app_length. rewrite Herr. rewrite sint_id by (split; lia).
  rewrite (proj2 (Z.eqb_neq _ _)) by lia. by rewrite Hfin.
Qed.

Definition plain_body p : Prop :=
  strcaseeq (r_getHeader "content-encoding" "" (rp_data p)) "gzip" = false /\
  strcaseeq (r_getHeader "content-encoding" "" (rp_data p)) "deflate" = false.
Definition with_body p body : HttpResponse := match body with [] => rp_data p | _ => r_setBody (of_bytes body) (rp_data p) end.
Lemma finish_plain fuel p (q : HttpResponseParser M) body w : plain_body p -> rp_data q = rp_data p ->
  finish_response (zl := zl) fuel q body w = (Ret (Some (with_body p body)), w).
Proof.
  intros [H1 H2] E. unfold finish_response, decode_body, with_body. rewrite E, H1, H2. by destruct body.
Qed.

(** A response whose head comes with the first read is received right.  By
    length: the body is exactly the announced number of bytes after the head,
    whatever pieces they come in, the rest stays in the stream, and if the
    peer ends too early there is no response and the connection is closed.  In
    chunks that are in the buffer: the body is the chunks one after the other.
    Nothing crashes. *)
Theorem recvResponse_frames `{ck : !ChunkMachine cm} fuel w w1 hd data p : head_arrives w w1 hd data p -> plain_body p ->
  (length (pending w) < fuel)%nat ->
  let length0 := Z.to_nat (rsp_getContentLength lexical_cast p) in
  (chunked (rp_parser p) = false -> Z.of_nat length0 < 2 ^ 31 -> exists r w',
     recvResponse (zl := zl) read close lexical_cast buff_size fuel w = (Ret r, w') /\
     match r with
     | None => closed w' /\ (length (data ++ pending w1) < length0)%nat
     | Some rsp => rsp = with_body p (take length0 (data ++ pending w1)) /\ (length0 <= length (data ++ pending w1))%nat /\
                   pending w' = drop (length0 - length data) (pending w1)
     end) /\
  (chunked (rp_parser p) = true -> buff_size < 2 ^ 31 - 2 -> forall l, in_chunks l data -> (length l + length (pending w1) < fuel)%nat ->
     recvResponse (zl := zl) read close lexical_cast buff_size fuel w = (Ret (Some (with_body p (concat l))), w1)).
Proof.
  intros Hh Hpl Hf length0. destruct fuel as [|fuel]; [lia|].
  destruct (rsp_head_run fuel w w1 hd data p Hh) as (E & Hpend & Hd). rewrite Hpend, !length_app in Hf.
  assert (rp_error p = 0) as Herr.
  { destruct Hh as (h & evs & _ & _ & _ & _ & _ & _ & Hx). unfold rsp_hasError in Hx. by destruct (Z.eqb_spec (rp_error p) 0). }
  unfold recvResponse. split.
  - intros Hc Hl. run E. cbv iota beta. rewrite Hc. pose proof (wrap_range 32 (getAs lexical_cast (r_headers (rp_data p)) "content-length"%string 0) ltac:(lia)) as Hr.
    unfold in_uint in Hr. change (wrap 32 _) with (rsp_getContentLength lexical_cast p) in Hr. unfold length0 in *. clear length0.
    destruct (Z.ltb_spec 0 (rsp_getContentLength lexical_cast p)) as [Hpos|Hz].
    + destruct (recv_body_ok read write close reads (S fuel) data (rsp_getContentLength lexical_cast p) w1 ltac:(lia) ltac:(lia) ltac:(lia))
        as (r & w' & Eb & _ & Hb). run Eb. rewrite length_app in *.
      destruct r as [body|]; [|exists None, w'; split_and!; [done|apply Hb|lia]]. destruct Hb as (Hlen & -> & Hp').
      eexists (Some _), w'. split; [by apply finish_plain|]. split_and!; [done|lia|done].
    + replace (Z.to_nat (rsp_getContentLength lexical_cast p)) with 0%nat by lia. eexists (Some _), w1.
      split; [by apply (finish_plain _ p)|]. split_and!; [done|lia|done].
  - intros Hc Hb l Hl Hfl. run E. cbv iota beta. rewrite Hc. destruct (chunks_in_buffer l data Hl (S fuel) p [] w1) as (p' & Ec & Hd'); try done; try lia.
    run Ec. by apply finish_plain.
Qed.
End client_props.

(** * A machine for small examples: a head or a chunk line is two bytes, of
    which the second is a line feed. *)
#[local] Instance ex_client : ClientMachine nat := {|
  cm_start := 0%nat; cm_error m := (m =? 2)%nat; cm_final m := (m =? 1)%nat;
  cm_exec h data :=
    Ret match data with
    | a :: "010"%char :: _ =>
        if Ascii.eqb a "H" then (mkClient 1%nat 2 3 false false 0 0 0 0, 2%nat, [OnRspField (to_bytes "content-length") 14 (to_bytes "3") 1])
        else if Ascii.eqb a "C" then (mkClient 1%nat 2 (-1) true false 0 0 0 0, 2%nat, [])
        else let n := (nat_of_ascii a - 48)%nat in (mkClient 1%nat 2 (Z.of_nat n) true (n =? 0)%nat 0 0 0 0, 2%nat, [OnChunk data 1])
    | _ => (h, length data, [])
    end
|}.
#[local] Instance ex_chunks : ChunkMachine ex_client.
Proof.
  refine {| chunk_line n line := (n < 10)%nat /\ line = [ascii_of_nat (48 + n); "010"%char] |}.
  - intros n line rest [Hn ->]. do 10 (destruct n as [|n]; [eexists _, _; split; [reflexivity|]; unfold fits; simpl; split_and!; (done || lia)|]). lia.
  - by intros n line [_ ->].
Defined.
#[local] Existing Instance ex_connection.

Lemma recvResponse_frames_witness : exists rsp w',
  recvResponse (zl := stored_zlib) ex_read ex_close ex_cast 64 9 (to_bytes "H" ++ ["010"%char] ++ to_bytes "xyzw", []) = (Ret (Some rsp), w') /\
  r_body rsp = "xyz"%string.
Proof.
  set (w := (to_bytes "H" ++ ["010"%char] ++ to_bytes "xyzw", []) : bytes * bytes).
  destruct (recvResponse_frames (zl := stored_zlib) ex_read ex_write ex_close ex_cast 64 ltac:(lia)
    ltac:(intros n v rt bs v1 [= <- _ _]; lia) 9 w (to_bytes "xyzw", []) (to_bytes "H" ++ ["010"%char]) []
    (after_events new_HttpResponseParser (mkClient 1%nat 2 3 false false 0 0 0 0) 2 [OnRspField (to_bytes "content-length") 14 (to_bytes "3") 1]))
    as [H _].
  - eexists _, _. split_and!; [reflexivity|done|reflexivity| |reflexivity..]. repeat split; vm_compute; congruence.
  - by split.
  - vm_compute. lia.
  - destruct H as (r & w' & E & Hr); [reflexivity|by vm_compute|]. destruct r as [rsp|]; [|].
    2: { destruct Hr as [_ Hr]. vm_compute in Hr. lia. }
    exists rsp, w'. split; [exact E|]. destruct Hr as [-> _]. vm_compute. reflexivity.
Defined.

(** Chunks in the buffer, with text behind the last one. *)
Example chunked_response :
  let all_at_once (n : Z) : prog (bytes * bytes) (Z * bytes) := fun w => (Ret (Z.of_nat (length (fst w)), fst w), ([], snd w)) in
  let lf := ["010"%char] in let line s := to_bytes s ++ lf in
  (fun o => match o with Ret (Some rsp) => Some (r_body rsp) | _ => None end)
    (out (recvResponse (zl := stored_zlib) all_at_once ex_close ex_cast 64 9)
       (line "C" ++ line "2" ++ to_bytes "ab" ++ lf ++ lf ++ line "3" ++ to_bytes "cde" ++ lf ++ lf ++ line "0" ++ lf ++ lf, [])) = Some "abcde"%string.
Proof. vm_compute. reflexivity. Qed.
(** A head in two reads fails the assertion on [nread]. *)
Example split_head_aborts :
  let one_byte (n : Z) : prog (bytes * bytes) (Z * bytes) := fun w => (Ret (Z.of_nat (length (take 1 (fst w))), take 1 (fst w)), (drop 1 (fst w), snd w)) in
  out (recvResponse (zl := stored_zlib) one_byte ex_close ex_cast 64 9) (to_bytes "H" ++ ["010"%char] ++ to_bytes "xyzw", []) = Crash AssertFail.
Proof. vm_compute. reflexivity. Qed.
