(* ===== verification/HttpClientParser.v ===== *)
(** [sherry/http/httpclient_parser.rl.cc]: the actions of the automaton of
    [HttpClientFsm] and the parser they make, an instance of the interface
    [ClientMachine] of [HttpClient]; the lines before a chunk, which are what
    [ChunkMachine] promises; and the responses the parser reads back.

    [buffer + offset] is the rest of the buffer, which a NUL ends.  An offset of
    an earlier buffer may lie behind the present one: a length is then a
    [size_t] that wrapped around, which no string has. *)

From Stdlib Require Import ZArith Lia Ascii String.
From stdpp Require Import base list gmap strings.
From S2P Require Import Prelude MachineInt Ragel HttpClientFsm Http HttpProps Stream StreamProps HttpSession HttpSessionProps Zlib HttpClient.
Local Open Scope Z_scope.

(** * The parser *)

(** [cs], [close] and [status]: the last two are written, and nothing reads
    them. *)
Record client_cs : Type := mkCs { m_cs : Z; m_close : bool; m_status : Z }.
Abbreviation parser := (httpclient_parser client_cs).
Abbreviation pstate := (parser * list client_event)%type.

Definition httpclient_parser_start : Z := 1.
Definition httpclient_parser_first_final : Z := 120.
Definition httpclient_parser_error : Z := 0.

Definition set_cs (v : client_cs) (h : parser) : parser :=
  mkClient v (body_start h) (content_len h) (chunked h) (chunks_done h) (nread h) (mark h) (field_start h) (field_len h).
Definition set_mark (v : Z) (h : parser) : parser :=
  mkClient (cs h) (body_start h) (content_len h) (chunked h) (chunks_done h) (nread h) v (field_start h) (field_len h).
Definition set_field_start (v : Z) (h : parser) : parser :=
  mkClient (cs h) (body_start h) (content_len h) (chunked h) (chunks_done h) (nread h) (mark h) v (field_len h).
Definition set_field_len (v : Z) (h : parser) : parser :=
  mkClient (cs h) (body_start h) (content_len h) (chunked h) (chunks_done h) (nread h) (mark h) (field_start h) v.
Definition set_content_len (v : Z) (h : parser) : parser :=
  mkClient (cs h) (body_start h) v (chunked h) (chunks_done h) (nread h) (mark h) (field_start h) (field_len h).
Definition set_body_start (v : Z) (h : parser) : parser :=
  mkClient (cs h) v (content_len h) (chunked h) (chunks_done h) (nread h) (mark h) (field_start h) (field_len h).
Definition set_chunked (h : parser) : parser :=
  mkClient (cs h) (body_start h) (content_len h) true (chunks_done h) (nread h) (mark h) (field_start h) (field_len h).
Definition set_chunks_done (v : bool) (h : parser) : parser :=
  mkClient (cs h) (body_start h) (content_len h) (chunked h) v (nread h) (mark h) (field_start h) (field_len h).

Section actions.
(** [last_chunk] is not among the callbacks the constructor sets: whether its
    memory happens to hold a pointer that is not null. *)
Variable last_chunk : bool.
Variable buffer : bytes.

Definition LEN (at_ fpc : Z) : Z := wrap 64 (fpc - at_).
Definition PTR_TO (f : Z) : bytes := drop (Z.to_nat f) buffer.
(** Reading at an offset behind the buffer. *)
Definition within (f : Z) : outcome unit := if Z.of_nat (length buffer) <? f then Crash OutOfRange else Ret tt.
(** The length of a callback that stops at the NUL. *)
Definition up_to_NUL (f len : Z) : nat := Z.to_nat (Z.min len (Z.of_nat (length (PTR_TO f)) + 1)).
Definition emit (e : client_event) (s : pstate) : pstate := (s.1, s.2 ++ [e]).

Definition act (a : action) (p : Z) (s : pstate) : outcome (pstate * bool) :=
  let h := s.1 in
  let go := fun s : pstate => Ret (s, false) in
  match a with
  | Mark => go (set_mark p h, s.2)
  | StartField => go (set_field_start p h, s.2)
  | WriteField => go (set_field_len (LEN (field_start h) p) h, s.2)
  | StartValue => go (set_mark p h, s.2)
  | WriteContentLen => within (mark h);; go (set_content_len (sint 32 (strtol 10 (PTR_TO (mark h)))) h, s.2)
  | WriteConnectionClose => go (set_cs (mkCs (m_cs (cs h)) true (m_status (cs h))) h, s.2)
  | WriteValue =>
      let '(f, v) := (PTR_TO (field_start h), PTR_TO (mark h)) in
      (if field_len h =? 0 then Ret ""%string else c_string v (LEN (mark h) p);; c_string f (field_len h));;
      go (emit (OnRspField f (Z.to_nat (field_len h)) v (up_to_NUL (mark h) (LEN (mark h) p))) s)
  | ReasonPhrase =>
      c_string (PTR_TO (mark h)) (LEN (mark h) p);; go (emit (OnReason (PTR_TO (mark h)) (Z.to_nat (LEN (mark h) p))) s)
  | StatusCode =>
      within (mark h);;
      go (emit (OnStatus (PTR_TO (mark h)) (up_to_NUL (mark h) (LEN (mark h) p)))
            (set_cs (mkCs (m_cs (cs h)) (m_close (cs h)) (sint 32 (strtol 10 (PTR_TO (mark h))))) h, s.2))
  | HttpVersion =>
      within (mark h);;
      let n := up_to_NUL (mark h) (LEN (mark h) p) in
      (* the text of a version that is not known is logged *)
      (if strncmp_eq (PTR_TO (mark h)) (to_bytes "HTTP/1.1") n || strncmp_eq (PTR_TO (mark h)) (to_bytes "HTTP/1.0") n
       then Ret ""%string else c_string (PTR_TO (mark h)) (LEN (mark h) p));;
      go (emit (OnRspVersion (PTR_TO (mark h)) n) s)
  | ChunkSize =>
      within (mark h);;
      let h1 := set_content_len (sint 32 (strtol 16 (PTR_TO (mark h)))) (set_chunked h) in
      let h2 := set_chunks_done (content_len h1 <=? 0) h1 in
      if chunks_done h2 && last_chunk then Crash OutOfRange
      else go (emit (OnChunk (PTR_TO (mark h)) (up_to_NUL (mark h) (LEN (mark h) p))) (h2, s.2))
  | TransChunked => go (set_chunked h, s.2)
  | Done =>
      Ret (emit (OnRspHeaderDone (PTR_TO (p + 1)) (Z.to_nat (Z.of_nat (length buffer) - p - 1))) (set_body_start (p + 1) h, s.2),
           true)
  end.

(** The block Ragel generates, then [parser->cs = cs]. *)
Definition exec_block (h : parser) : outcome (parser * nat * list client_event) :=
  '(h', evs, cs', p) ← exec fsm act buffer 0 (m_cs (cs h)) (h, []);
  Ret (set_cs (mkCs cs' (m_close (cs h')) (m_status (cs h'))) h', Z.to_nat p, evs).
End actions.

#[export] Instance client_machine (last_chunk : bool) : ClientMachine client_cs := {|
  cm_start := mkCs httpclient_parser_start false 0;
  cm_error m := m_cs m =? httpclient_parser_error;
  cm_final m := m_cs m =? httpclient_parser_first_final;
  cm_exec h buffer := exec_block last_chunk buffer h
|}.

(** * The lines before a chunk *)

(** A size in hexadecimal and the end of the line. *)
Definition size_line (n : nat) (line : bytes) : Prop :=
  exists ds eol, ds <> [] /\ Forall (fun x => digit_of 16 x <> None) ds /\ digits_value 16 0 ds = Z.of_nat n /\
    Z.of_nat n < 2 ^ 31 /\ (eol = CRLF_ \/ eol = LF_) /\ line = ds ++ eol.

Section chunk.
Context (buffer : bytes).
Abbreviation run := (exec fsm (act false buffer)).

(** The parser when the line is over. *)
Definition sized (p : Z) (n : nat) (h : parser) : parser :=
  set_body_start p (set_chunks_done (n =? 0)%nat (set_content_len (Z.of_nat n) (set_chunked h))).

Lemma xdigit_spec x : digit_of 16 x <> None -> is_xdigit x = true.
Proof. unfold is_xdigit. by destruct (digit_of 16 x). Qed.
Lemma walk_size ds : ds <> [] -> Forall (fun x => digit_of 16 x <> None) ds -> walk fsm 0 1 ds = Some ([(Mark, 0)], 2).
Proof.
  intros Hne Hds. destruct ds as [|d ds]; [done|]. inversion Hds as [|? ? Hd Hds']; subst.
  change (d :: ds) with ([d] ++ ds).
  apply (walk_app fsm 0 1 [d] ds [(Mark, 0)] 2 [] 2).
  - apply (walk_leaves fsm [1] is_xdigit (mkTarget [Mark] 2)); [by vm_compute|by left|by apply xdigit_spec|done].
  - apply (walk_loop fsm 2 is_xdigit); [by vm_compute|]. eapply Forall_impl; [exact Hds'|]. intros x. apply xdigit_spec.
Qed.

Lemma act_ChunkSize ds c rest n p h evs : buffer = ds ++ c :: rest -> mark h = 0 -> p = Z.of_nat (length ds) ->
  ds <> [] -> Forall (fun x => digit_of 16 x <> None) ds -> digit_of 16 c = None -> c <> "x"%char /\ c <> "X"%char ->
  digits_value 16 0 ds = Z.of_nat n -> Z.of_nat n < 2 ^ 31 ->
  act false buffer ChunkSize p (h, evs) =
    Ret ((set_chunks_done (n =? 0)%nat (set_content_len (Z.of_nat n) (set_chunked h)), evs ++ [OnChunk buffer (up_to_NUL buffer 0 (LEN 0 p))]), false).
Proof.
  intros Eb Hm Hp Hne Hds Hc Hx Hv Hn. unfold act, within, emit. cbn [fst snd]. rewrite Hm.
  rewrite (proj2 (Z.ltb_ge _ _)) by lia. unfold mbind, outcome_bind. unfold PTR_TO. change (drop (Z.to_nat 0) buffer) with buffer.
  assert (strtol 16 buffer = Z.of_nat n) as -> by (rewrite Eb, strtol_digits by (auto || lia); done).
  rewrite sint_id by (split; lia). simpl. replace (Z.of_nat n <=? 0) with (n =? 0)%nat; [by rewrite andb_false_r|].
  destruct (Nat.eqb_spec n 0); symmetry; [apply Z.leb_le|apply Z.leb_gt]; lia.
Qed.

Lemma size_line_run n line rest h : size_line n line -> buffer = line ++ rest -> exists evs,
  run buffer 0 1 (h, []) = Ret (sized (Z.of_nat (length line)) n (set_mark 0 h), evs, 120, Z.of_nat (length line)) /\
  Forall (fun e => match e with OnChunk _ _ | OnRspHeaderDone _ _ => True | _ => False end) evs.
Proof.
  intros (ds & eol & Hne & Hds & Hv & Hn & He & ->) Eb.
  assert (run buffer 0 1 (h, []) = run (eol ++ rest) (Z.of_nat (length ds)) 2 (set_mark 0 h, [])) as ->.
  { rewrite Eb at 2. rewrite <- app_assoc, (exec_walk fsm (act false buffer) ds _ _ _ _ _ _ _ (walk_size ds Hne Hds) eq_refl). done. }
  destruct He as [-> | ->]; eexists; (split; [|shelve]).
  - replace (Z.of_nat (length (ds ++ CRLF_))) with (Z.of_nat (length ds) + 1 + 1) by (rewrite length_app; simpl; lia).
    pose proof (act_ChunkSize ds "013" ("010"%char :: rest) n _ (set_mark 0 h) [] ltac:(by rewrite Eb, <- app_assoc) eq_refl eq_refl
                  Hne Hds eq_refl ltac:(done) Hv Hn) as E.
    change (CRLF_ ++ rest) with (["013"%char] ++ "010"%char :: rest).
    erewrite (exec_walk fsm (act false buffer) ["013"%char] _ _ 2 [(ChunkSize, Z.of_nat (length ds))] 3); [|done|cbn [do_actions]; rewrite E; done].
    by rewrite (exec_stop fsm (act false buffer) "010" rest _ 3 tr_7 _ _ eq_refl eq_refl).
  - replace (Z.of_nat (length (ds ++ LF_))) with (Z.of_nat (length ds) + 1) by (rewrite length_app; simpl; lia).
    pose proof (act_ChunkSize ds "010" rest n _ (set_mark 0 h) [] ltac:(by rewrite Eb, <- app_assoc) eq_refl eq_refl
                  Hne Hds eq_refl ltac:(done) Hv Hn) as E.
    erewrite (exec_stop fsm (act false buffer) "010" rest _ 2 tr_3); [done|done|].
    cbn [t_actions tr_3 run_actions]. rewrite E. done.
  Unshelve. all: simpl; repeat constructor.
Qed.
End chunk.

#[export] Instance size_lines : ChunkMachine (client_machine false).
Proof.
  refine {| chunk_line := size_line |}.
  - intros n line rest L. pose proof L as (ds & eol & Hne & _ & _ & Hn & He & El).
    assert (0 < length line)%nat as Hlen by (rewrite El, length_app; destruct ds; simpl; [done|lia]).
    destruct (size_line_run (line ++ rest) n line rest (httpclient_parser_init (cm := client_machine false)) L eq_refl) as (evs & E & Hevs).
    exists (set_cs (mkCs 120 false 0) (sized (Z.of_nat (length line)) n (set_mark 0 (httpclient_parser_init (cm := client_machine false))))), evs. split.
    { match goal with |- _ = ?r => change (exec_block false (line ++ rest) (httpclient_parser_init (cm := client_machine false)) = r) end.
      unfold exec_block. change (m_cs (cs (httpclient_parser_init (cm := client_machine false)))) with 1. rewrite E. simpl. by rewrite Nat2Z.id. }
    split_and!; try done.
    + unfold fits. simpl. rewrite length_app. lia.
    + intros p. clear E. induction Hevs as [|e evs He' _ IH]; [done|]. simpl. by destruct e.
  - intros n line (ds & eol & Hne & _ & _ & _ & _ & ->). by destruct ds.
Defined.

(** What [size_line] asks for is what a server prints. *)
Lemma size_line_ff rest : exists h evs,
  exec_block false (to_bytes "ff" ++ CRLF_ ++ rest) (httpclient_parser_init (cm := client_machine false)) = Ret (h, 4%nat, evs) /\
  content_len h = 255.
Proof.
  destruct (chunk_exec (ChunkMachine := size_lines) 255 (to_bytes "ff" ++ CRLF_) rest) as (h & evs & E & _ & _ & Hc & _).
  - exists (to_bytes "ff"), CRLF_. split_and!; try done; [by repeat constructor|by left].
  - exists h, evs. by rewrite <- app_assoc in E.
Qed.
