(* ===== verification/HttpClientProps.v ===== *)
(** Responses the parser of [HttpClientParser] reads back: the text of a head is
    walked piece by piece through the automaton, the actions it lists are run,
    and the callbacks they make fill the response.  Then what becomes of the
    text this program's own server prints. *)

From Stdlib Require Import ZArith Lia Ascii String.
From stdpp Require Import base list gmap strings.
From S2P Require Import Prelude MachineInt Ragel HttpClientFsm Http HttpProps Stream StreamProps HttpSession HttpSessionProps HttpText Zlib HttpClient HttpClientParser.
Local Open Scope Z_scope.

(** * Names of header fields

    The automaton watches for three names; in the middle of one it has read
    that much of it, letter case aside. *)

Definition name_states : list (Z * bytes) :=
  let word n first w := imap (fun i s => (s, take (n + i) (to_bytes w))) first in
  word 1%nat [25; 26; 27; 28; 29; 30; 31; 32; 33; 34] "connection"%string ++
  word 4%nat [101; 102; 103; 104; 105; 106; 107; 108; 109; 110; 111] "content-length"%string ++
  word 1%nat ([44; 45; 46; 47; 48; 49; 50; 51; 52; 53; 54; 55; 56; 57; 58; 59; 60]) "transfer-encoding"%string.
(** The states where the whole of one of the names has been read. *)
Definition special_states : list Z := [34; 111; 60].
Definition special (k : bytes) : bool :=
  existsb (fun w => bool_decide (map tolower k = to_bytes w)) ["connection"; "content-length"; "transfer-encoding"]%string.

Definition in_word (s : Z) (w : bytes) : bool := (s =? 21) || existsb (fun x => (fst x =? s) && bool_decide (snd x = w)) name_states.
Lemma name_step (s : Z) (w : bytes) c : In (s, w) ((20, []) :: name_states) -> is_token c = true ->
  exists s', fsm s (char c) = Some (mkTarget (if s =? 20 then [StartField] else []) s') /\ in_word s' (w ++ [tolower c]) = true.
Proof.
  assert (forallb (fun x => forallb (fun c => if is_token c then
    match fsm (fst x) (char c) with
    | Some t => bool_decide (t_actions t = if fst x =? 20 then [StartField] else []) && in_word (t_state t) (snd x ++ [tolower c])
    | None => false end else true) all_chars) ((20, []) :: name_states) = true) as H by by vm_compute.
  intros Hs Hc. rewrite forallb_forall in H. specialize (H _ Hs). rewrite forallb_forall in H. specialize (H _ (all_chars_elem c)).
  rewrite Hc in H. simpl fst in H. simpl snd in H. destruct (fsm s (char c)) as [[a s']|]; [|done].
  cbn [t_actions t_state] in H. apply andb_true_iff in H as [->%bool_decide_eq_true H]. by exists s'.
Qed.
Lemma in_word_cases s w : in_word s w = true -> s = 21 \/ In (s, w) name_states.
Proof.
  unfold in_word. intros [H|H]%orb_true_iff; [left; by apply Z.eqb_eq|right].
  apply existsb_exists in H as ([a b] & Hin & [Ha%Z.eqb_eq Hb%bool_decide_eq_true]%andb_true_iff). simpl in *. by subst.
Qed.
Lemma name_states_ok s w : In (s, w) name_states -> s <> 0 /\ s <> 20 /\ s <> 21.
Proof.
  intros H. assert (forallb (fun x => negb (mem (fst x) [0; 20; 21])) name_states = true) as Hv by by vm_compute.
  rewrite forallb_forall in Hv. specialize (Hv _ H). simpl in Hv.
  repeat split; intros ->; by vm_compute in Hv.
Qed.

Definition tokens (k : bytes) : Prop := Forall (fun c => is_token c = true) k.
Lemma walk_name_rest p s w k : tokens k -> in_word s w = true ->
  exists s', walk fsm p s k = Some ([], s') /\ in_word s' (w ++ map tolower k) = true.
Proof.
  intros Hk. revert p s w. induction Hk as [|c k Hc Hk IH]; intros p s w Hs.
  - exists s. by rewrite app_nil_r.
  - destruct (in_word_cases s w Hs) as [->|Hin].
    + exists 21. split; [|done]. change (c :: k) with ([c] ++ k).
      apply (walk_loop fsm 21 is_token); [by vm_compute|by constructor].
    + destruct (name_step s w c (or_intror Hin) Hc) as (s1 & E & H1). pose proof (name_states_ok s w Hin) as (_ & H20 & _).
      rewrite (proj2 (Z.eqb_neq _ _) H20) in E.
      destruct (IH (p + 1) s1 _ H1) as (s' & Ew & H'). exists s'. simpl. rewrite E. cbn [t_state t_actions].
      assert (s1 <> 0) as H0 by (destruct (in_word_cases _ _ H1) as [->|Hi]; [done|by apply (name_states_ok _ _ Hi)]).
      rewrite (proj2 (Z.eqb_neq _ _) H0), Ew. by rewrite <- app_assoc in H'.
Qed.
(** A name that is none of the three ends where any header field does. *)
Lemma walk_name p k : k <> [] -> tokens k -> special k = false ->
  walk fsm p 20 (k ++ [":"%char]) = Some ([(StartField, p); (WriteField, p + Z.of_nat (length k))], 22).
Proof.
  intros Hne Hk Hsp. destruct Hk as [|c k Hc Hk]; [done|].
  destruct (name_step 20 [] c (or_introl eq_refl) Hc) as (s1 & E & H1). simpl in E.
  assert (s1 <> 0) as H0 by (destruct (in_word_cases _ _ H1) as [->|Hi]; [done|by apply (name_states_ok _ _ Hi)]).
  destruct (walk_name_rest (p + 1) s1 _ k Hk H1) as (s' & Ew & H').
  assert (walk fsm p 20 (c :: k) = Some ([(StartField, p)], s')) as E1.
  { simpl. rewrite E. cbn [t_state t_actions]. by rewrite (proj2 (Z.eqb_neq _ _) H0), Ew. }
  apply (walk_app fsm p 20 (c :: k) [":"%char] [(StartField, p)] s' [(WriteField, _)] 22 E1).
  apply (walk_leaves fsm (21 :: filter (fun s => mem s special_states = false) (fst <$> name_states)) (fun x => Ascii.eqb x ":") (mkTarget [WriteField] 22));
    [by vm_compute| |done|done].
  destruct (in_word_cases _ _ H') as [->|Hi]; [by left|right]. apply list_elem_of_In, list_elem_of_filter. split.
  - apply not_true_iff_false. intros Hm%mem_In.
    assert (forallb (fun x => implb (mem (fst x) special_states) (special (snd x))) name_states = true) as Hv by by vm_compute.
    rewrite forallb_forall in Hv. specialize (Hv _ Hi). simpl fst in Hv. simpl snd in Hv. apply mem_In in Hm. rewrite Hm in Hv.
    enough (special (c :: k) = true) by congruence. clear -Hv. unfold special in *. simpl in *.
    assert (forall a, tolower (tolower a) = tolower a) as Hid.
    { intros a. assert (forallb (fun a => Ascii.eqb (tolower (tolower a)) (tolower a)) all_chars = true) as Ht by by vm_compute.
      rewrite forallb_forall in Ht. apply Ascii.eqb_eq, Ht, all_chars_elem. }
    by rewrite Hid, map_map, (map_ext _ tolower Hid) in Hv.
  - apply list_elem_of_In. by apply in_map with (f := fst) in Hi.
Qed.

(** * Lines *)

Definition is_text (c : ascii) : bool := negb (Ascii.eqb c "013" || Ascii.eqb c "010").
Definition text (v : bytes) : Prop := Forall (fun c => is_text c = true) v.
Definition value_ok (v : bytes) : Prop := text v /\ match v with c :: _ => is_space c = false | [] => True end.
Definition field_ok (f : bytes * bytes) : Prop := f.1 <> [] /\ tokens f.1 /\ special f.1 = false /\ value_ok f.2.
(** A header line with the end [eol]. *)
Definition line (eol : bytes) (f : bytes * bytes) : bytes := f.1 ++ [":"; " "]%char ++ f.2 ++ eol.

Lemma walk_eol p eol : eol = CRLF_ \/ eol = LF_ -> forall s a, (s = 22 /\ a = [StartValue; WriteValue]) \/ (s = 23 /\ a = [WriteValue]) ->
  walk fsm p s eol = Some (map (fun x => (x, p)) a, 20).
Proof. by intros [-> | ->] s a [[-> ->]|[-> ->]]. Qed.
Lemma client_walk_value p v eol : value_ok v -> eol = CRLF_ \/ eol = LF_ ->
  walk fsm p 22 (" "%char :: v ++ eol) =
    Some ([(StartValue, p); (StartValue, p + 1); (WriteValue, p + 1 + Z.of_nat (length v))], 20).
Proof.
  intros [Hv Hs] He. apply (walk_app fsm p 22 [" "%char] (v ++ eol) [(StartValue, p)] 22 [_; _]); [done|]. simpl.
  destruct v as [|c v].
  - simpl. rewrite (walk_eol _ _ He 22 _ (or_introl (conj eq_refl eq_refl))). by rewrite Z.add_0_r.
  - inversion Hv as [|? ? Hc Hv']; subst.
    replace (p + 1 + Z.of_nat (length (c :: v))) with (p + 1 + 1 + Z.of_nat (length v)) by (simpl; lia). change ((c :: v) ++ eol) with ([c] ++ v ++ eol).
    apply (walk_app fsm _ 22 [c] (v ++ eol) [(StartValue, p + 1)] 23 [_]).
    + apply (walk_leaves fsm [22] (fun c => is_text c && negb (is_space c)) (mkTarget [StartValue] 23));
        [by vm_compute|by left| |done]. by rewrite Hc, Hs.
    + apply (walk_app fsm _ 23 v eol [] 23).
      * by apply (walk_loop fsm 23 is_text); [vm_compute|].
      * rewrite (walk_eol _ _ He 23 _ (or_intror (conj eq_refl eq_refl))). done.
Qed.
Definition line_actions (p : Z) (k v : bytes) : list (action * Z) :=
  let n := Z.of_nat (length k) in
  [(StartField, p); (WriteField, p + n); (StartValue, p + n + 1); (StartValue, p + n + 2);
   (WriteValue, p + n + 2 + Z.of_nat (length v))].
Lemma client_walk_line p f eol : field_ok f -> eol = CRLF_ \/ eol = LF_ -> walk fsm p 20 (line eol f) = Some (line_actions p f.1 f.2, 20).
Proof.
  intros (Hne & Hk & Hsp & Hv) He. destruct f as [k v]. unfold line. simpl fst in *. simpl snd in *.
  change (k ++ [":"; " "]%char ++ v ++ eol) with (k ++ [":"%char] ++ " "%char :: v ++ eol). rewrite app_assoc.
  rewrite (walk_app fsm p 20 _ _ _ _ _ _ (walk_name p k Hne Hk Hsp) (client_walk_value _ v eol Hv He)).
  rewrite length_app, Nat2Z.inj_add. unfold line_actions. simpl. by rewrite !Z.add_assoc, <- (Z.add_assoc _ 1 1).
Qed.

Lemma line_actions_shift p k v : line_actions p k v = map (fun x => (x.1, p + x.2)) (line_actions 0 k v).
Proof. unfold line_actions. cbn [map fst snd]. by rewrite !Z.add_assoc, !Z.add_0_r. Qed.

(** ** The lines the automaton knows by name *)

Definition connection_field (close : bool) : bytes * bytes :=
  (to_bytes "connection", to_bytes (if close then "close" else "keep-alive")).
Lemma walk_connection p close :
  walk fsm p 20 (line CRLF_ (connection_field close)) =
    Some (line_actions p (connection_field close).1 (connection_field close).2, if close then 43 else 20).
Proof. rewrite walk_shift, line_actions_shift. by destruct close. Qed.

Definition length_field (n : Z) : bytes * bytes := (to_bytes "content-length", to_bytes (dec n)).
(** After [connection: close] the first action of the next line notes it. *)
Definition noted (s : Z) (p : Z) : list (action * Z) := if s =? 43 then [(WriteConnectionClose, p)] else [].
Definition length_actions (s p : Z) (n : bytes) : list (action * Z) :=
  noted s p ++ [(StartField, p); (WriteField, p + 14); (StartValue, p + 15); (StartValue, p + 16);
    (WriteContentLen, p + 16 + Z.of_nat (length n)); (WriteValue, p + 16 + Z.of_nat (length n))].
Lemma walk_length p n s : 0 <= n -> s = 20 \/ s = 43 ->
  walk fsm p s (line CRLF_ (length_field n)) = Some (length_actions s p (to_bytes (dec n)), 20).
Proof.
  intros Hn Hs. destruct (dec_bytes n Hn) as (Hd & HF & _). unfold line, length_field. simpl fst. simpl snd.
  change (to_bytes (dec n)) with (list_ascii_of_string (dec n)).
  destruct (list_ascii_of_string (dec n)) as [|d ds]; [done|]. inversion HF as [|? ? Hd1 HF']; subst.
  assert (forall x, digit_of 10 x <> None -> (if digit_of 10 x then true else false) = true) as Hdig by (intros x; by destruct (digit_of 10 x)).
  assert (walk fsm p s (to_bytes "content-length: ") =
          Some (noted s p ++ [(StartField, p); (WriteField, p + 14); (StartValue, p + 15)], 112)) as E.
  { rewrite walk_shift, <- (Z.add_0_r p) at 1.
    assert (walk fsm 0 s (to_bytes "content-length: ") = Some (noted s 0 ++ [(StartField, 0); (WriteField, 14); (StartValue, 15)], 112)) as ->
      by (destruct Hs as [-> | ->]; by vm_compute).
    destruct Hs as [-> | ->]; simpl; by rewrite Z.add_0_r. }
  change (to_bytes "content-length" ++ [":"; " "]%char ++ (d :: ds) ++ CRLF_) with (to_bytes "content-length: " ++ [d] ++ ds ++ CRLF_).
  unfold length_actions. replace (p + 16 + Z.of_nat (length (d :: ds))) with (p + 16 + 1 + Z.of_nat (length ds)) by (simpl; lia).
  change (noted s p ++ [(StartField, p); (WriteField, p + 14); (StartValue, p + 15); (StartValue, p + 16);
    (WriteContentLen, p + 16 + 1 + Z.of_nat (length ds)); (WriteValue, p + 16 + 1 + Z.of_nat (length ds))])
    with (noted s p ++ [(StartField, p); (WriteField, p + 14); (StartValue, p + 15)] ++ [(StartValue, p + 16)] ++ [] ++ [
    (WriteContentLen, p + 16 + 1 + Z.of_nat (length ds)); (WriteValue, p + 16 + 1 + Z.of_nat (length ds))]).
  rewrite (app_assoc (noted s p)). apply (walk_app fsm p s (to_bytes "content-length: ") _ _ _ _ _ E). change (Z.of_nat (length (to_bytes "content-length: "))) with 16.
  apply (walk_app fsm (p + 16) 112 [d] (ds ++ CRLF_) [(StartValue, p + 16)] 119).
  { apply (walk_leaves fsm [112] (fun x => if digit_of 10 x then true else false) (mkTarget [StartValue] 119)); [by vm_compute|by left|by apply Hdig|done]. }
  apply (walk_app fsm _ 119 ds CRLF_ [] 119); [|done].
  apply (walk_loop fsm 119 (fun x => if digit_of 10 x then true else false)); [by vm_compute|]. by eapply Forall_impl.
Qed.

(** ** The status line *)

Definition version_ok (v : Z) : Prop := v = 0x11 \/ v = 0x10.
Definition status_line (v status : Z) (reason : bytes) : bytes :=
  to_bytes ("HTTP/" ++ version_text v ++ " ") ++ to_bytes (dec status) ++ [" "%char] ++ reason ++ CRLF_.
Definition status_actions (n r : Z) : list (action * Z) :=
  [(Mark, 0); (HttpVersion, 8); (Mark, 9); (StatusCode, 9 + n); (Mark, 10 + n); (ReasonPhrase, 10 + n + r)].
Lemma walk_status v status reason : version_ok v -> 0 <= status -> text reason -> reason <> [] ->
  walk fsm 0 1 (status_line v status reason) =
    Some (status_actions (Z.of_nat (length (to_bytes (dec status)))) (Z.of_nat (length reason)), 20).
Proof.
  intros Hv Hs Hr Hne. destruct (dec_bytes status Hs) as (Hd & HF & _). unfold status_line.
  change (to_bytes (dec status)) with (list_ascii_of_string (dec status)).
  destruct (list_ascii_of_string (dec status)) as [|d ds]; [done|]. inversion HF as [|? ? Hd1 HF']; subst.
  destruct reason as [|c reason]; [done|]. inversion Hr as [|? ? Hc Hr']; subst.
  assert (forall x, digit_of 10 x <> None -> (if digit_of 10 x then true else false) = true) as Hdig by (intros x; by destruct (digit_of 10 x)).
  apply (walk_app fsm 0 1 _ _ [(Mark, 0); (HttpVersion, 8)] 16 [_; _; _; _]); [by destruct Hv as [-> | ->]|].
  replace (0 + Z.of_nat (length (to_bytes ("HTTP/" ++ version_text v ++ " ")))) with 9 by (by destruct Hv as [-> | ->]).
  replace (Z.of_nat (length (d :: ds))) with (1 + Z.of_nat (length ds)) by (simpl; lia).
  replace (10 + (1 + Z.of_nat (length ds)) + Z.of_nat (length (c :: reason))) with (9 + 1 + Z.of_nat (length ds) + 1 + 1 + Z.of_nat (length reason)) by (simpl; lia).
  replace (10 + (1 + Z.of_nat (length ds))) with (9 + 1 + Z.of_nat (length ds) + 1) by lia. rewrite Z.add_assoc.
  apply (walk_app fsm 9 16 [d] _ [(Mark, 9)] 17 [_; _; _]).
  { apply (walk_leaves fsm [16] (fun x => if digit_of 10 x then true else false) (mkTarget [Mark] 17)); [by vm_compute|by left|by apply Hdig|done]. }
  apply (walk_app fsm _ 17 ds _ [] 17 [_; _; _]).
  { apply (walk_loop fsm 17 (fun x => if digit_of 10 x then true else false)); [by vm_compute|]. by eapply Forall_impl. }
  apply (walk_app fsm _ 17 [" "%char] _ [(StatusCode, _)] 18 [_; _]); [done|].
  apply (walk_app fsm _ 18 [c] _ [(Mark, _)] 19 [_]).
  { apply (walk_leaves fsm [18] is_text (mkTarget [Mark] 19)); [by vm_compute|by left|done|done]. }
  apply (walk_app fsm _ 19 reason CRLF_ [] 19 [_]); [by apply (walk_loop fsm 19 is_text); [vm_compute|]|done].
Qed.

Lemma client_LEN_id a p : 0 <= a <= p -> p < 2 ^ 32 -> LEN a p = p - a.
Proof. intros Ha Hp. unfold LEN. apply wrap_id. split; [lia|]. change (2 ^ 64) with (2 ^ 32 * 2 ^ 32). nia. Qed.

Section lines.
Context (last_chunk : bool) (buffer : bytes).
Hypothesis buffer_small : Z.of_nat (length buffer) < 2 ^ 31.
Abbreviation run := (exec fsm (act last_chunk buffer)).

Lemma c_string_ok x len : 0 <= len <= Z.of_nat (length x) -> Z.of_nat (length x) < 2 ^ 31 ->
  c_string x len = Ret (of_bytes (take (Z.to_nat len) x)).
Proof. intros H Hx. unfold c_string. rewrite !(proj2 (Z.ltb_ge _ _)) by lia. done. Qed.
Lemma client_PTR_TO_app pre x : buffer = pre ++ x -> PTR_TO buffer (Z.of_nat (length pre)) = x.
Proof. intros ->. unfold PTR_TO. by rewrite Nat2Z.id, drop_app_length. Qed.

Definition in_line (p : Z) (f : bytes * bytes) (h : parser) : parser :=
  set_mark (p + Z.of_nat (length f.1) + 2) (set_field_len (Z.of_nat (length f.1)) (set_field_start p h)).
Definition line_event (rest : bytes) (eol : bytes) (f : bytes * bytes) : client_event :=
  OnRspField (line eol f ++ rest) (length f.1) (f.2 ++ eol ++ rest) (length f.2).

(** The actions of a line, run: the marks, then the callback. *)
Lemma marks_do p (f : bytes * bytes) h evs : 0 <= p -> p + Z.of_nat (length f.1) < 2 ^ 32 -> let n := Z.of_nat (length f.1) in
  do_actions (act last_chunk buffer) [(StartField, p); (WriteField, p + n); (StartValue, p + n + 1); (StartValue, p + n + 2)] (h, evs) =
    Ret (in_line p f h, evs).
Proof. intros Hp Hl n. simpl. rewrite client_LEN_id by lia. unfold n. by replace (p + _ - p) with (Z.of_nat (length f.1)) by lia. Qed.
Lemma value_do pre rest f eol h evs : buffer = pre ++ line eol f ++ rest -> f.1 <> [] ->
  mark h = Z.of_nat (length pre) + Z.of_nat (length f.1) + 2 -> field_start h = Z.of_nat (length pre) -> field_len h = Z.of_nat (length f.1) ->
  act last_chunk buffer WriteValue (Z.of_nat (length pre) + Z.of_nat (length f.1) + 2 + Z.of_nat (length f.2)) (h, evs) =
    Ret ((h, evs ++ [line_event rest eol f]), false).
Proof.
  intros Eb Hne Hm Hs Hn. destruct f as [k v]. simpl fst in *. simpl snd in *. unfold act. cbn [fst snd]. rewrite Hm, Hs, Hn.
  assert (length buffer = length pre + length k + 2 + length v + length eol + length rest)%nat as Hl.
  { rewrite Eb. unfold line. rewrite !length_app. simpl. lia. }
  rewrite (client_PTR_TO_app pre (line eol (k, v) ++ rest)) by done.
  assert (PTR_TO buffer (Z.of_nat (length pre) + Z.of_nat (length k) + 2) = v ++ eol ++ rest) as Ev.
  { replace (Z.of_nat (length pre) + Z.of_nat (length k) + 2) with (Z.of_nat (length (pre ++ k ++ [":"; " "]%char))) by (rewrite !length_app; simpl; lia).
    apply client_PTR_TO_app. rewrite Eb. unfold line. by rewrite <- !app_assoc. }
  unfold up_to_NUL. rewrite Ev, client_LEN_id by lia. rewrite (proj2 (Z.eqb_neq _ 0)) by (destruct k; simpl; [done|lia]).
  rewrite !c_string_ok by (unfold line; rewrite ?length_app; simpl; lia). unfold mbind, outcome_bind, emit, line_event. simpl.
  rewrite Nat2Z.id, !length_app. by replace (Z.to_nat (Z.min _ _)) with (length v) by lia.
Qed.
Lemma line_do pre rest f eol h evs : buffer = pre ++ line eol f ++ rest -> f.1 <> [] ->
  do_actions (act last_chunk buffer) (line_actions (Z.of_nat (length pre)) f.1 f.2) (h, evs) =
    Ret (in_line (Z.of_nat (length pre)) f h, evs ++ [line_event rest eol f]).
Proof.
  intros Eb Hne. assert (length buffer = length pre + length f.1 + 2 + length f.2 + length eol + length rest)%nat as Hl.
  { rewrite Eb. unfold line. rewrite !length_app. simpl. lia. }
  unfold line_actions. change [?a; ?b; ?c; ?d; ?e] with ([a; b; c; d] ++ [e]).
  rewrite do_actions_app, marks_do by lia. cbn [do_actions mbind outcome_bind].
  by erewrite (value_do pre rest f eol).
Qed.
(** The line with the length. *)
Definition note (s : Z) (h : parser) : parser := if s =? 43 then set_cs (mkCs (m_cs (cs h)) true (m_status (cs h))) h else h.
Lemma noted_do s p h evs : do_actions (act last_chunk buffer) (noted s p) (h, evs) = Ret (note s h, evs).
Proof. unfold noted, note. by destruct (s =? 43). Qed.
Lemma length_do pre rest s n h evs : let f := length_field n in buffer = pre ++ line CRLF_ f ++ rest -> 0 <= n < 2 ^ 31 ->
  do_actions (act last_chunk buffer) (length_actions s (Z.of_nat (length pre)) (to_bytes (dec n))) (h, evs) =
    Ret (set_content_len n (in_line (Z.of_nat (length pre)) f (note s h)), evs ++ [line_event rest CRLF_ f]).
Proof.
  intros f Eb Hn. set (p := Z.of_nat (length pre)). set (ds := to_bytes (dec n)).
  assert (length buffer = length pre + 16 + length ds + 2 + length rest)%nat as Hl.
  { rewrite Eb. unfold line, f, length_field. simpl fst. simpl snd. fold ds. rewrite !length_app. simpl. lia. }
  unfold length_actions. rewrite do_actions_app, noted_do. unfold mbind at 1, outcome_bind at 1.
  change [?a; ?b; ?c; ?d; ?e; ?g] with ([a; b; c; d] ++ [e; g]).
  pose proof (marks_do p f (note s h) evs ltac:(lia) ltac:(unfold f; simpl; lia)) as Em. cbv zeta in Em.
  change (Z.of_nat (length f.1)) with 14 in Em. rewrite <- !Z.add_assoc in Em. change (14 + 1) with 15 in Em. change (14 + 2) with 16 in Em.
  rewrite do_actions_app, Em. cbn [do_actions mbind outcome_bind].
  assert (act last_chunk buffer WriteContentLen (p + 16 + Z.of_nat (length ds)) (in_line p f (note s h), evs) =
          Ret ((set_content_len n (in_line p f (note s h)), evs), false)) as E.
  { unfold act, within. cbn [fst snd]. change (mark (in_line p f (note s h))) with (p + 14 + 2).
    rewrite (proj2 (Z.ltb_ge _ _)) by lia. unfold mbind, outcome_bind.
    assert (PTR_TO buffer (p + 14 + 2) = ds ++ CRLF_ ++ rest) as ->.
    { replace (p + 14 + 2) with (Z.of_nat (length (pre ++ to_bytes "content-length" ++ [":"; " "]%char))) by (rewrite !length_app; simpl; lia).
      apply client_PTR_TO_app. rewrite Eb. unfold line. by rewrite <- !app_assoc. }
    destruct (dec_bytes n ltac:(lia)) as (Hd & HF & Ev).
    change (ds ++ CRLF_ ++ rest) with (ds ++ "013"%char :: LF_ ++ rest).
    rewrite strtol_digits; [|by left|done|done|done|done|unfold ds, to_bytes; lia].
    unfold ds, to_bytes. rewrite Ev, sint_id by (split; lia). done. }
  rewrite E. unfold mbind, outcome_bind. replace (p + 16) with (p + Z.of_nat (length f.1) + 2) by (unfold f; simpl; lia).
  by erewrite (value_do pre rest f CRLF_).
Qed.
Lemma line_run pre rest f eol s s' h evs : buffer = pre ++ line eol f ++ rest -> f.1 <> [] ->
  walk fsm (Z.of_nat (length pre)) s (line eol f) = Some (line_actions (Z.of_nat (length pre)) f.1 f.2, s') ->
  run (line eol f ++ rest) (Z.of_nat (length pre)) s (h, evs) =
  run rest (Z.of_nat (length (pre ++ line eol f))) s' (in_line (Z.of_nat (length pre)) f h, evs ++ [line_event rest eol f]).
Proof.
  intros Eb Hne Hw. rewrite (exec_walk fsm (act last_chunk buffer) _ _ _ _ _ _ _ _ Hw (line_do _ _ _ _ _ _ Eb Hne)).
  by rewrite length_app, Nat2Z.inj_add.
Qed.

(** The status line, run. *)
Definition after_digits (reason rest : bytes) : bytes := [" "%char] ++ reason ++ CRLF_ ++ rest.
Definition status_events (status : Z) (reason rest : bytes) : list client_event :=
  let ds := to_bytes (dec status) in
  [OnRspVersion buffer 8; OnStatus (ds ++ after_digits reason rest) (length ds); OnReason (reason ++ CRLF_ ++ rest) (length reason)].
Definition in_status (status : Z) (h : parser) : parser :=
  set_mark (10 + Z.of_nat (length (to_bytes (dec status)))) (set_cs (mkCs (m_cs (cs h)) (m_close (cs h)) status) h).

Lemma version_compared v x : version_ok v -> 
  strncmp_eq (to_bytes ("HTTP/" ++ version_text v ++ " ") ++ x) (to_bytes "HTTP/1.1") 8 = (v =? 0x11) /\
  strncmp_eq (to_bytes ("HTTP/" ++ version_text v ++ " ") ++ x) (to_bytes "HTTP/1.0") 8 = (v =? 0x10).
Proof. by intros [-> | ->]. Qed.
Lemma status_strtol status x : 0 <= status < 2 ^ 31 -> strtol 10 (to_bytes (dec status) ++ " "%char :: x) = status.
Proof.
  intros Hs. destruct (dec_bytes status ltac:(lia)) as (Hd & HF & Ev).
  rewrite strtol_digits; [done|by left|done|done|done|done|]. unfold to_bytes. lia.
Qed.

Lemma status_do v status reason rest h : buffer = status_line v status reason ++ rest ->
  version_ok v -> 0 <= status < 2 ^ 31 -> reason <> [] ->
  do_actions (act last_chunk buffer) (status_actions (Z.of_nat (length (to_bytes (dec status)))) (Z.of_nat (length reason))) (h, []) =
    Ret (in_status status h, status_events status reason rest).
Proof.
  intros Eb Hv Hs Hne. set (ds := to_bytes (dec status)). set (n := Z.of_nat (length ds)).
  set (pre := to_bytes ("HTTP/" ++ version_text v ++ " ")).
  assert (length pre = 9%nat) as Hp by (unfold pre; by destruct Hv as [-> | ->]).
  assert (length buffer = 9 + length ds + 1 + length reason + 2 + length rest)%nat as Hl.
  { rewrite Eb. unfold status_line. fold pre ds. rewrite !length_app, Hp. simpl. lia. }
  assert (PTR_TO buffer 9 = ds ++ after_digits reason rest) as E9.
  { change 9 with (Z.of_nat 9). rewrite <- Hp. apply client_PTR_TO_app. rewrite Eb. unfold status_line, after_digits. by rewrite <- !app_assoc. }
  assert (PTR_TO buffer (10 + n) = reason ++ CRLF_ ++ rest) as E10.
  { replace (10 + n) with (Z.of_nat (length (pre ++ ds ++ [" "%char]))) by (rewrite !length_app, Hp; simpl; lia).
    apply client_PTR_TO_app. rewrite Eb. unfold status_line. by rewrite <- !app_assoc. }
  assert (PTR_TO buffer 0 = buffer) as E0 by done.
  destruct (version_compared v (ds ++ after_digits reason rest) Hv) as [V1 V0].
  assert (pre ++ ds ++ after_digits reason rest = buffer) as Eb' by (rewrite Eb; unfold status_line, after_digits; by rewrite <- !app_assoc).
  fold pre in V1, V0. rewrite Eb' in V1, V0.
  unfold status_actions. cbn [do_actions]. unfold mbind, outcome_bind, act, within. cbn [fst snd mark set_mark set_cs cs m_cs m_close m_status].
  rewrite !(proj2 (Z.ltb_ge _ _)) by lia. unfold up_to_NUL. rewrite !client_LEN_id by lia. rewrite E0, E9, E10.
  replace (Z.to_nat (Z.min (8 - 0) (Z.of_nat (length buffer) + 1))) with 8%nat by lia. rewrite V1, V0.
  replace ((v =? 17) || (v =? 16)) with true by (by destruct Hv as [-> | ->]). unfold emit. cbn [fst snd].
  replace (9 + n - 9) with n by lia. replace (10 + n + Z.of_nat (length reason) - (10 + n)) with (Z.of_nat (length reason)) by lia.
  rewrite c_string_ok by (rewrite ?length_app; simpl; lia).
  assert (strtol 10 (ds ++ after_digits reason rest) = status) as -> by by apply status_strtol.
  rewrite sint_id by (split; lia). unfold n. rewrite Nat2Z.id, length_app.
  replace (Z.to_nat (Z.min _ _)) with (length ds) by lia. done.
Qed.

(** ** A whole head *)

(** The marks lie before [p]; the other fields are as they were. *)
Definition placed (p : Z) (h : parser) : Prop := 0 <= mark h <= p /\ 0 <= field_start h <= p /\ 0 <= field_len h <= p.
Definition same (h h' : parser) : Prop :=
  body_start h' = body_start h /\ chunked h' = chunked h /\ chunks_done h' = chunks_done h /\ nread h' = nread h.
Lemma client_same_trans h1 h2 h3 : same h1 h2 -> same h2 h3 -> same h1 h3.
Proof. unfold same. intuition congruence. Qed.
(** What callbacks do to the response. *)
Definition effect (evs : list client_event) (f : HttpResponse -> HttpResponse) : Prop :=
  forall p : HttpResponseParser client_cs, foldl (fun q e => on_response_event e q) p evs = upd_rsp f p.
Lemma client_effect_app e1 e2 f1 f2 : effect e1 f1 -> effect e2 f2 -> effect (e1 ++ e2) (fun r => f2 (f1 r)).
Proof. intros H1 H2 p. by rewrite foldl_app, H1, H2. Qed.
Definition set_field (r : HttpResponse) (f : bytes * bytes) : HttpResponse := r_setHeader (of_bytes f.1) (of_bytes f.2) r.
Lemma effect_field rest eol f : f.1 <> [] -> effect [line_event rest eol f] (fun r => set_field r f).
Proof.
  intros Hne p. unfold line_event. simpl. unfold on_response_http_field. destruct f as [k v]. simpl in *.
  rewrite (proj2 (Nat.eqb_neq _ _)) by (destruct k; simpl; [done|lia]). unfold line. simpl.
  by rewrite <- app_assoc, !take_app_length.
Qed.

Lemma fields_run fs : forall pre rest h evs, buffer = pre ++ concat (line CRLF_ <$> fs) ++ rest -> Forall field_ok fs ->
  placed (Z.of_nat (length pre)) h -> exists h' evs',
    run (concat (line CRLF_ <$> fs) ++ rest) (Z.of_nat (length pre)) 20 (h, evs) =
    run rest (Z.of_nat (length (pre ++ concat (line CRLF_ <$> fs)))) 20 (h', evs ++ evs') /\
    effect evs' (fun r => foldl set_field r fs) /\ same h h' /\ placed (Z.of_nat (length (pre ++ concat (line CRLF_ <$> fs)))) h'.
Proof.
  induction fs as [|f fs IH]; intros pre rest h evs Eb Hfs Hp.
  - exists h, []. simpl. rewrite !app_nil_r. split_and!; [done|by intros []|done|done].
  - apply Forall_cons in Hfs as [Hf Hfs]. pose proof Hf as (Hne & _). rewrite fmap_cons in *. simpl concat in *. rewrite <- app_assoc in Eb |- *.
    rewrite (line_run pre _ f CRLF_ 20 20) by (done || by apply client_walk_line; [|left]).
    destruct (IH (pre ++ line CRLF_ f) rest (in_line (Z.of_nat (length pre)) f h) (evs ++ [line_event (concat (line CRLF_ <$> fs) ++ rest) CRLF_ f]))
      as (h' & evs' & E & He & Hsame & Hpl); [by rewrite <- app_assoc|done| |].
    { unfold placed, line, in_line. simpl. rewrite !length_app. simpl. lia. }
    exists h', ([line_event (concat (line CRLF_ <$> fs) ++ rest) CRLF_ f] ++ evs'). rewrite E, <- !app_assoc. split_and!; [done| | |].
    + apply (client_effect_app _ _ (fun r => set_field r f) (fun r => foldl set_field r fs)); [by apply effect_field|done].
    + by eapply client_same_trans; [|exact Hsame].
    + by rewrite <- app_assoc in Hpl.
Qed.

Lemma effect_status v status reason rest : buffer = status_line v status reason ++ rest -> version_ok v -> 0 <= status < 2 ^ 31 ->
  effect (status_events status reason rest) (fun r => r_setReason (of_bytes reason) (r_setStatus status (r_setVersion v r))).
Proof.
  intros Eb Hv Hs p. unfold status_events. cbn [foldl on_response_event].
  assert (on_response_version buffer 8 p = upd_rsp (r_setVersion v) p) as ->.
  { unfold on_response_version. rewrite Eb. unfold status_line. rewrite <- app_assoc.
    destruct (version_compared v (((to_bytes (dec status)) ++ [" "%char] ++ reason ++ CRLF_) ++ rest) Hv) as [-> ->].
    by destruct Hv as [-> | ->]. }
  unfold on_response_staus, on_response_reason, atoi, after_digits. simpl ([" "%char] ++ _).
  rewrite status_strtol, sint_id by (done || split; lia). by rewrite take_app_length.
Qed.

Lemma end_run p s h evs rest : s = 20 \/ s = 43 -> run (CRLF_ ++ rest) p s (h, evs) =
  Ret (set_body_start (p + 2) (note s h), evs ++ [OnRspHeaderDone (PTR_TO buffer (p + 2)) (Z.to_nat (Z.of_nat (length buffer) - (p + 1) - 1))], 120, p + 2).
Proof.
  intros Hs. change (CRLF_ ++ rest) with (["013"%char] ++ ["010"%char] ++ rest).
  rewrite (exec_walk fsm (act last_chunk buffer) ["013"%char] _ p s (noted s p) 3 (h, evs) _
             ltac:(destruct Hs as [-> | ->]; done) (noted_do s p h evs)).
  rewrite (exec_stop fsm (act last_chunk buffer) "010" rest _ 3 tr_7 _ _ eq_refl eq_refl). simpl.
  change (Z.of_nat 1) with 1. by replace (p + 1 + 1) with (p + 2) by lia.
Qed.

Definition length_line (len : option Z) : list (bytes * bytes) := match len with Some n => [length_field n] | None => [] end.
Definition head_fields (fs : list (bytes * bytes)) (close : bool) (len : option Z) : list (bytes * bytes) :=
  fs ++ [connection_field close] ++ length_line len.
Definition head (v status : Z) (reason : bytes) (fields : list (bytes * bytes)) : bytes :=
  status_line v status reason ++ concat (line CRLF_ <$> fields) ++ CRLF_.
Definition received (v status : Z) (reason : bytes) (fields : list (bytes * bytes)) (r : HttpResponse) : HttpResponse :=
  foldl set_field (r_setReason (of_bytes reason) (r_setStatus status (r_setVersion v r))) fields.

(** The line with the length, if any, and the empty line. *)
Lemma tail_run pre rest s len h evs : buffer = pre ++ concat (line CRLF_ <$> length_line len) ++ CRLF_ ++ rest ->
  s = 20 \/ s = 43 -> (forall n, len = Some n -> 0 <= n < 2 ^ 31) -> placed (Z.of_nat (length pre)) h ->
  let p := Z.of_nat (length (pre ++ concat (line CRLF_ <$> length_line len) ++ CRLF_)) in exists h' evs',
    run (concat (line CRLF_ <$> length_line len) ++ CRLF_ ++ rest) (Z.of_nat (length pre)) s (h, evs) = Ret (h', evs ++ evs', 120, p) /\
    effect evs' (fun r => foldl set_field r (length_line len)) /\ placed (p - 2) h' /\ body_start h' = p /\ chunked h' = chunked h.
Proof.
  intros Eb Hs Hlen Hp p. assert (forall x, note s x = x \/ note s x = set_cs (mkCs (m_cs (cs x)) true (m_status (cs x))) x) as Hnote
    by (intros x; unfold note; destruct (s =? 43); auto).
  destruct len as [n|].
  - specialize (Hlen n eq_refl). change (concat (line CRLF_ <$> length_line (Some n))) with (line CRLF_ (length_field n) ++ []) in *.
    rewrite app_nil_r in *. change (length_line (Some n)) with [length_field n].
    rewrite (exec_walk fsm (act last_chunk buffer) _ _ _ _ _ _ _ _ (walk_length _ n s ltac:(lia) Hs) (length_do pre (CRLF_ ++ rest) s n h evs Eb Hlen)).
    replace (Z.of_nat (length pre) + Z.of_nat (length (line CRLF_ (length_field n)))) with (p - 2) by (unfold p; rewrite !length_app; simpl; lia).
    rewrite end_run by by left. replace (p - 2 + 2) with p by lia. eexists _, ([_] ++ [_]). rewrite <- app_assoc. split_and!; [done|..].
    + apply (client_effect_app [_] [_] (fun r => set_field r (length_field n)) (fun r => r)); [by apply effect_field|by intros []].
    + unfold placed, note, in_line, p, line. simpl. rewrite !length_app. simpl. rewrite !length_app. simpl. lia.
    + done.
    + simpl. by destruct (Hnote h) as [-> | ->].
  - change (concat (line CRLF_ <$> length_line None)) with (@nil ascii) in *. rewrite !app_nil_l in *.
    rewrite end_run by done. assert (Z.of_nat (length pre) + 2 = p) as Ep by (unfold p; rewrite length_app; simpl; lia). rewrite Ep.
    exists (set_body_start p (note s h)). eexists [_]. split_and!; [done|by intros []| |done|].
    + unfold placed in *. destruct (Hnote h) as [-> | ->]; simpl; lia.
    + simpl. by destruct (Hnote h) as [-> | ->].
Qed.

Lemma head_run v status reason fs close len rest h : let fields := head_fields fs close len in
  buffer = head v status reason fields ++ rest -> version_ok v -> 0 <= status < 2 ^ 31 -> text reason -> reason <> [] ->
  Forall field_ok fs -> (forall n, len = Some n -> 0 <= n < 2 ^ 31) -> placed 0 h -> chunked h = false -> exists h' evs,
    run buffer 0 1 (h, []) = Ret (h', evs, 120, Z.of_nat (length (head v status reason fields))) /\
    effect evs (received v status reason fields) /\
    placed (Z.of_nat (length (head v status reason fields)) - 2) h' /\
    body_start h' = Z.of_nat (length (head v status reason fields)) /\ chunked h' = false.
Proof.
  intros fields Eb Hv Hs Hr Hne Hfs Hlen Hp Hc. set (sl := status_line v status reason).
  set (fl := concat (line CRLF_ <$> fs)). set (cl := line CRLF_ (connection_field close)). set (ll := concat (line CRLF_ <$> length_line len)).
  assert (head v status reason fields = sl ++ fl ++ cl ++ ll ++ CRLF_) as Eh.
  { unfold head, fields, head_fields. fold sl. rewrite !fmap_app, !concat_app. fold fl ll.
    change (concat (line CRLF_ <$> [connection_field close])) with (cl ++ []). by rewrite app_nil_r, <- !app_assoc. }
  rewrite Eh in Eb |- *. rewrite <- !app_assoc in Eb.
  assert (run buffer 0 1 (h, []) = run (sl ++ fl ++ cl ++ ll ++ CRLF_ ++ rest) 0 1 (h, [])) as -> by (f_equal; exact Eb).
  rewrite (exec_walk fsm (act last_chunk buffer) _ _ _ _ _ _ _ _ (walk_status v status reason Hv ltac:(lia) Hr Hne)
                      (status_do v status reason _ h Eb Hv Hs Hne)).
  rewrite Z.add_0_l. fold sl.
  destruct (fields_run fs sl (cl ++ ll ++ CRLF_ ++ rest) (in_status status h) (status_events status reason (fl ++ cl ++ ll ++ CRLF_ ++ rest)))
    as (h1 & ev1 & E1 & F1 & S1 & P1); [done|done| |].
  { unfold placed, in_status, sl, status_line in *. cbn [mark field_start field_len set_mark set_cs].
    assert (length (to_bytes ("HTTP/" ++ version_text v ++ " ")) = 9%nat) as H9 by (by destruct Hv as [-> | ->]).
    rewrite !length_app, H9. destruct reason; [done|]. simpl. lia. }
  fold fl in E1, P1. rewrite E1.
  rewrite (line_run (sl ++ fl) (ll ++ CRLF_ ++ rest) (connection_field close) CRLF_ 20 (if close then 43 else 20));
    [|by rewrite Eb, <- !app_assoc|done|by rewrite walk_connection].
  fold cl. destruct (tail_run ((sl ++ fl) ++ cl) rest (if close then 43 else 20) len (in_line (Z.of_nat (length (sl ++ fl))) (connection_field close) h1)
    ((status_events status reason (fl ++ cl ++ ll ++ CRLF_ ++ rest) ++ ev1) ++ [line_event (ll ++ CRLF_ ++ rest) CRLF_ (connection_field close)]))
    as (h2 & ev2 & E2 & F2 & P2 & B2 & C2); [by rewrite Eb, <- !app_assoc|destruct close; auto|done| |].
  { unfold placed in *. unfold in_line, cl, line. simpl. rewrite !length_app in *. simpl. lia. }
  fold ll in E2, P2, B2. rewrite E2. rewrite <- !app_assoc in *. eexists h2, _. split_and!; [done| |done|done|].
  - unfold received, fields, head_fields. intros q.
    rewrite (client_effect_app _ _ _ _ (effect_status v status reason _ Eb Hv Hs) (client_effect_app _ _ _ _ F1 (client_effect_app _ _ _ _ (effect_field _ CRLF_ (connection_field close) ltac:(done)) F2))).
    unfold upd_rsp. f_equal. by rewrite !foldl_app.
  - rewrite C2. simpl. destruct S1 as (_ & -> & _). done.
Qed.
End lines.

(** * Responses of this program's server

    [printed] is [r_dump] with the line end of the header lines as an
    argument. *)

Definition reason_of (r : HttpResponse) : string := if String.eqb (r_reason r) "" then HttpStatusToString (r_status r) else r_reason r.
Definition printed (eol : string) (r : HttpResponse) : string :=
  ("HTTP/" ++ version_text (r_version r) ++ " " ++ dec (r_status r) ++ " " ++ reason_of r ++ CRLF
   ++ header_lines ": " eol (r_headers r)
   ++ "connection: " ++ (if r_close r then "close" else "keep-alive") ++ CRLF
   ++ body_text "content-length: " (r_body r))%string.
Lemma r_dump_printed r : r_dump r = printed (LF ++ CR) r.
Proof. done. Qed.

Definition len_of (body : string) : option Z := if String.eqb body "" then None else Some (Z.of_nat (String.length body)).
Definition fields (r : HttpResponse) : list (bytes * bytes) := head_fields (fields_of (r_headers r)) (r_close r) (len_of (r_body r)).
Definition head_of (r : HttpResponse) : bytes := head (r_version r) (r_status r) (to_bytes (reason_of r)) (fields r).

Lemma printed_bytes r : to_bytes (printed CRLF r) = head_of r ++ to_bytes (r_body r).
Proof.
  unfold printed, head_of, head, fields, head_fields, status_line, body_text, len_of. rewrite !fmap_app, !concat_app, !to_bytes_app, header_lines_bytes.
  change (field_line ": " CRLF) with (line CRLF_).
  change (concat (line CRLF_ <$> [connection_field (r_close r)])) with
    ((to_bytes "connection: " ++ to_bytes (if r_close r then "close" else "keep-alive") ++ to_bytes CRLF) ++ []).
  destruct (String.eqb_spec (r_body r) "") as [->|Hb]; cbn [negb].
  - by rewrite app_nil_r, <- !app_assoc.
  - change (concat (line CRLF_ <$> length_line (Some (Z.of_nat (String.length (r_body r)))))) with
      ((to_bytes "content-length: " ++ to_bytes (dec (Z.of_nat (String.length (r_body r)))) ++ to_bytes CRLF) ++ []).
    by rewrite !to_bytes_app, !app_nil_r, <- !app_assoc.
Qed.

(** What a client can read: one line per part, and no header that says how long
    the body is or how it is encoded besides the one that is printed. *)
Definition readable (r : HttpResponse) : Prop :=
  version_ok (r_version r) /\ 0 <= r_status r < 2 ^ 31 /\ text (to_bytes (reason_of r)) /\ reason_of r <> ""%string /\
  Forall field_ok (fields_of (r_headers r)) /\ map_ok (r_headers r).

#[local] Instance machine : ClientMachine client_cs := client_machine false.
Abbreviation fresh := (httpclient_parser_init (cm := machine)).

Lemma client_foldl_set_field fs r :
  r_headers (foldl set_field r fs) = set_all (r_headers r) fs /\ r_status (foldl set_field r fs) = r_status r /\
  r_version (foldl set_field r fs) = r_version r /\ r_reason (foldl set_field r fs) = r_reason r /\ r_body (foldl set_field r fs) = r_body r.
Proof. revert r; induction fs as [|f fs IH]; intros r; [done|]. simpl. by destruct (IH (set_field r f)) as (-> & -> & -> & -> & ->). Qed.

(** The parser takes the head, whatever follows it. *)
Lemma client_head_read r rest : readable r -> Z.of_nat (length (head_of r ++ rest)) < 2 ^ 31 -> (forall n, len_of (r_body r) = Some n -> n < 2 ^ 31) ->
  exists h evs, exec_block false (head_of r ++ rest) fresh = Ret (h, length (head_of r), evs) /\ fits (length (head_of r ++ rest)) h /\
    m_cs (cs h) = 120 /\ chunked h = false /\
    effect evs (received (r_version r) (r_status r) (to_bytes (reason_of r)) (fields r)).
Proof.
  intros (Hv & Hs & Ht & Hne & Hf & _) Hl Hlen.
  destruct (head_run false (head_of r ++ rest) Hl (r_version r) (r_status r) (to_bytes (reason_of r)) (fields_of (r_headers r)) (r_close r)
              (len_of (r_body r)) rest fresh eq_refl Hv Hs Ht) as (h & evs & E & Ef & Hp & Hb & Hc); try done.
  { intros E. by apply Hne, to_bytes_nil. }
  { intros n Hn. split; [|by apply Hlen]. unfold len_of in Hn. destruct (String.eqb _ _); simplify_eq. lia. }
  exists (set_cs (mkCs 120 (m_close (cs h)) (m_status (cs h))) h), evs. split_and!; [| |done|done|done].
  - unfold exec_block. change (m_cs (cs fresh)) with 1. rewrite E. simpl. by rewrite Nat2Z.id.
  - unfold fits, placed, head_of, fields in *. cbn [body_start mark field_len field_start set_cs]. rewrite length_app. lia.
Qed.

Lemma special_key k : tokens k -> special k = existsb (fun w => String.eqb (fold_key (of_bytes k)) w) ["connection"; "content-length"; "transfer-encoding"]%string.
Proof.
  intros Hk. assert (to_bytes (fold_key (of_bytes k)) = map tolower k) as E.
  { induction Hk as [|c k Hc _ IH]; [done|]. unfold fold_key. simpl. destruct (Ascii.eqb_spec c zero) as [->|_]; [done|]. simpl. by f_equal. }
  assert (forall w, bool_decide (map tolower k = to_bytes w) = String.eqb (fold_key (of_bytes k)) w) as H.
  { intros w. rewrite <- E. destruct (String.eqb_spec (fold_key (of_bytes k)) w) as [<-|Hne]; [by apply bool_decide_eq_true|].
    apply bool_decide_eq_false. intros Heq. apply Hne. by rewrite <- (of_to_bytes (fold_key _)), Heq, of_to_bytes. }
  unfold special. cbn [existsb]. by rewrite !H.
Qed.
Lemma fields_absent key m : Forall field_ok (fields_of m) -> In key ["connection"; "content-length"; "transfer-encoding"]%string ->
  forall f, In f (fields_of m) -> fold_key (of_bytes f.1) <> key.
Proof.
  intros Hf Hk f Hin. rewrite List.Forall_forall in Hf. destruct (Hf f Hin) as (_ & Ht & Hsp & _). rewrite special_key in Hsp by done.
  intros E. enough (existsb (fun w => String.eqb (fold_key (of_bytes f.1)) w) ["connection"; "content-length"; "transfer-encoding"]%string = true) by congruence.
  apply existsb_exists. exists key. split; [done|]. by apply String.eqb_eq.
Qed.

(** The headers that arrive: those of the response, its length, and whether it
    closes. *)
Lemma received_find r key : readable r -> 
  map_find key (set_all [] (fields r)) =
    (if String.eqb (fold_key key) "content-length" then (fun n => dec n) <$> len_of (r_body r)
     else if String.eqb (fold_key key) "connection" then Some (if r_close r then "close" else "keep-alive")%string
     else map_find key (r_headers r)).
Proof.
  intros (_ & _ & _ & _ & Hf & Hm). rewrite !map_find_abs. unfold fields, head_fields, set_all. rewrite !foldl_app.
  fold (set_all [] (fields_of (r_headers r))). set (m := set_all [] (fields_of (r_headers r))).
  assert (forall k, map_abs (foldl (fun m f => map_set (of_bytes f.1) (of_bytes f.2) m)
            (foldl (fun m f => map_set (of_bytes f.1) (of_bytes f.2) m) m [connection_field (r_close r)]) (length_line (len_of (r_body r)))) !! k =
          if String.eqb k "content-length" then match len_of (r_body r) with Some n => Some (dec n) | None => map_abs m !! k end
          else if String.eqb k "connection" then Some (if r_close r then "close" else "keep-alive")%string else map_abs m !! k) as E.
  { intros k. destruct (len_of (r_body r)) as [n|]; simpl; rewrite !map_set_abs, !of_to_bytes.
    - destruct (String.eqb_spec k "content-length") as [->|H1]; [by rewrite lookup_insert_eq|]. rewrite lookup_insert_ne by done.
      destruct (String.eqb_spec k "connection") as [->|H2]; [by rewrite lookup_insert_eq; destruct (r_close r)|]. by rewrite lookup_insert_ne.
    - destruct (String.eqb_spec k "content-length") as [->|H1]; [by rewrite lookup_insert_ne|].
      destruct (String.eqb_spec k "connection") as [->|H2]; [by rewrite lookup_insert_eq; destruct (r_close r)|]. by rewrite lookup_insert_ne. }
  rewrite E. destruct (String.eqb_spec (fold_key key) "content-length") as [->|H1].
  - destruct (len_of (r_body r)); [done|]. unfold m. rewrite set_all_absent; [done|]. apply fields_absent; [done|by right; left].
  - destruct (String.eqb_spec (fold_key key) "connection") as [_|H2]; [done|]. unfold m. rewrite set_all_lookup by done.
    by destruct (map_abs (r_headers r) !! fold_key key).
Qed.

(** The parser after the head, and the response it has made. *)
Lemma head_parsed r data : readable r -> Z.of_nat (length (head_of r ++ data)) < 2 ^ 31 -> (forall n, len_of (r_body r) = Some n -> n < 2 ^ 31) ->
  exists h evs, let p := after_events (new_HttpResponseParser (cm := machine)) h (Z.of_nat (length (head_of r))) evs in
    exec_block false (head_of r ++ data) fresh = Ret (h, length (head_of r), evs) /\ fits (length (head_of r ++ data)) h /\
    rsp_isFinished p = true /\ rsp_hasError p = false /\ chunked (rp_parser p) = false /\
    r_headers (rp_data p) = set_all [] (fields r) /\ r_status (rp_data p) = r_status r /\ r_version (rp_data p) = r_version r /\
    r_reason (rp_data p) = reason_of r /\ r_body (rp_data p) = ""%string.
Proof.
  intros Hr Hl Hlen. destruct (client_head_read r data Hr Hl Hlen) as (h & evs & E & Hfit & Hcs & Hch & Hev). exists h, evs. intros p.
  assert (rp_data p = received (r_version r) (r_status r) (to_bytes (reason_of r)) (fields r) (new_HttpResponse 0x11 true) /\ rp_error p = 0) as [Ep Hpe].
  { unfold p, after_events. simpl. by rewrite Hev. }
  unfold received in Ep. rewrite Ep.
  destruct (client_foldl_set_field (fields r) (r_setReason (of_bytes (to_bytes (reason_of r))) (r_setStatus (r_status r) (r_setVersion (r_version r) (new_HttpResponse 0x11 true)))))
    as (-> & -> & -> & -> & ->). split_and!; try done.
  - unfold rsp_isFinished, httpclient_parser_finish, httpclient_parser_has_error, httpclient_parser_is_finished. simpl. by rewrite Hcs.
  - unfold rsp_hasError, httpclient_parser_has_error. rewrite Hpe. simpl. by rewrite Hcs.
  - simpl. apply of_to_bytes.
Qed.

Section received.
Context {St : Type} {zl : Zlib St} {W : Type}.
Context (read : Z -> prog W (Z * bytes)) (write : bytes -> prog W Z) (close : prog W unit) {conn : Connection read write close}.
Context (lexical_cast : string -> option Z) (buff_size : Z).
Hypothesis buff_size_ok : 0 < buff_size < 2 ^ 31.
Hypothesis reads : never_fails read.
(** [boost::lexical_cast] reads back what [operator<<] printed. *)
Hypothesis cast_dec : forall n, 0 <= n < 2 ^ 64 -> lexical_cast (dec n) = Some n.

(** C17: a client reads back a response whose lines end with CRLF: if its head
    comes with the first read, and however the body comes, the client gets the
    status, version, reason, body and every header of the response, and leaves
    what follows it in the stream.  (The parser is the generated automaton.) *)
Theorem response_received r fuel w w1 data more : readable r -> map_find "content-encoding" (r_headers r) = None ->
  Z.of_nat (String.length (r_body r)) < 2 ^ 31 -> Z.of_nat (length (head_of r ++ data)) < 2 ^ 31 ->
  read buff_size w = (Ret (Z.of_nat (length (head_of r ++ data)), head_of r ++ data), w1) ->
  data ++ pending w1 = to_bytes (r_body r) ++ more -> (length (pending w) < fuel)%nat -> (length data <= length (to_bytes (r_body r)))%nat ->
  exists rsp w', recvResponse (zl := zl) read close lexical_cast buff_size fuel w = (Ret (Some rsp), w') /\ pending w' = more /\
    r_status rsp = r_status r /\ r_version rsp = r_version r /\ r_reason rsp = reason_of r /\ r_body rsp = r_body r /\
    forall key d, fold_key key <> "connection"%string -> fold_key key <> "content-length"%string -> r_getHeader key d rsp = r_getHeader key d r.
Proof.
  intros Hr Hce Hbl Hl Er Hd Hfuel Hdl.
  assert (forall n, len_of (r_body r) = Some n -> n < 2 ^ 31) as Hlen.
  { intros n. unfold len_of. destruct (String.eqb _ _); intros; simplify_eq. lia. }
  destruct (head_parsed r data Hr Hl Hlen) as (h & evs & E & Hfit & Hfin & Herr & Hch & Fh & Fs & Fv & Fr & Fb).
  set (p := after_events (new_HttpResponseParser (cm := machine)) h (Z.of_nat (length (head_of r))) evs) in *.
  assert (head_arrives (cm := machine) read buff_size w w1 (head_of r) data p) as Ha by (by exists h, evs).
  assert (plain_body p) as Hpl.
  { unfold plain_body, r_getHeader, find_or. rewrite Fh, received_find by done. simpl. by rewrite Hce. }
  assert (rsp_getContentLength lexical_cast p = Z.of_nat (String.length (r_body r))) as Hcl.
  { unfold rsp_getContentLength, getAs. rewrite Fh, received_find by done. simpl. unfold len_of.
    destruct (String.eqb_spec (r_body r) "") as [->|_]; [done|]. simpl. rewrite cast_dec by lia. apply wrap_id. split; [lia|]. change (2 ^ 32) with (2 * 2 ^ 31). lia. }
  destruct (recvResponse_frames (zl := zl) read write close lexical_cast buff_size buff_size_ok reads fuel w w1 (head_of r) data p Ha Hpl Hfuel) as [H _].
  rewrite Hcl, Nat2Z.id in H. rewrite Hd in H. destruct H as (rr & w' & E' & Hrr); [done|lia|].
  pose proof (length_to_bytes (r_body r)) as Hlb.
  destruct rr as [rsp|]; [|destruct Hrr as [_ Hlt]; rewrite length_app in Hlt; lia]. destruct Hrr as (-> & _ & Hpend).
  rewrite <- Hlb, take_app_length in *. eexists _, w'. split; [exact E'|]. split.
  { rewrite Hpend. assert (drop (length (to_bytes (r_body r))) (data ++ pending w1) = more) as Hm by (by rewrite Hd, drop_app_length).
    by rewrite drop_app_ge in Hm. }
  unfold with_body. destruct (to_bytes (r_body r)) as [|b body] eqn:Eb.
  - apply to_bytes_nil in Eb. split_and!; [done|done|done|congruence|]. intros key d H1 H2. unfold r_getHeader, find_or.
    rewrite Fh, received_find by done. apply String.eqb_neq in H1, H2. by rewrite H1, H2.
  - rewrite <- Eb, of_to_bytes. split_and!; [done..|]. intros key d H1 H2. unfold r_getHeader, find_or. cbn [r_headers r_setBody].
    rewrite Fh, received_find by done. apply String.eqb_neq in H1, H2. by rewrite H1, H2.
Qed.
End received.

(** ** What the server really prints *)

Lemma own_text r f fs : readable r -> fields_of (r_headers r) = f :: fs -> exists c rest, c <> "010"%char /\
  to_bytes (r_dump r) = status_line (r_version r) (r_status r) (to_bytes (reason_of r)) ++ line LF_ f ++ "013"%char :: c :: rest.
Proof.
  intros (_ & _ & _ & _ & Hf & _) E.
  assert (exists c rest, c <> "010"%char /\ concat (field_line ": " (LF ++ CR) <$> fs) ++ to_bytes ("connection: " ++ (if r_close r then "close" else "keep-alive") ++
           CRLF ++ body_text "content-length: " (r_body r)) = c :: rest) as (c & rest & Hc & Et).
  { rewrite E in Hf. apply Forall_cons in Hf as [_ Hf]. destruct Hf as [|g fs (Hne & Ht & _) _].
    - eexists "c"%char, _. split; [done|]. rewrite to_bytes_app. done.
    - destruct g as [k v]. simpl in Hne, Ht. destruct Ht as [|c k Hc _]; [done|]. eexists c, _. split; [|done]. by intros ->. }
  exists c, rest. split; [done|]. rewrite r_dump_printed. unfold printed, status_line. rewrite !to_bytes_app, header_lines_bytes, E.
  rewrite !to_bytes_app in Et. rewrite fmap_cons. cbn [concat]. rewrite <- !app_assoc, Et.
  unfold field_line, line. rewrite <- !app_assoc. done.
Qed.

(** A response with a header of its own is printed so that the parser of this
    program rejects it: the line ends with LF CR, the LF ends the line, and
    after CR only LF may follow. *)
Lemma own_headers_rejected r f fs : readable r -> fields_of (r_headers r) = f :: fs -> Z.of_nat (length (to_bytes (r_dump r))) < 2 ^ 31 ->
  exists p n rest, rsp_execute (cm := machine) new_HttpResponseParser (to_bytes (r_dump r)) false = Ret (p, n, rest) /\ rsp_hasError p = true.
Proof.
  intros Hr E Hl. pose proof Hr as (Hv & Hs & Ht & Hne & Hf & _). destruct (own_text r f fs Hr E) as (c & rest & Hc & Eb).
  set (b := to_bytes (r_dump r)) in *. set (sl := status_line (r_version r) (r_status r) (to_bytes (reason_of r))) in *.
  rewrite E in Hf. apply Forall_cons in Hf as [Hf _]. pose proof Hf as (Hk & _).
  assert (to_bytes (reason_of r) <> []) as Hne' by (intros ?%to_bytes_nil; done).
  assert (exists h evs p, exec fsm (act false b) b 0 1 (fresh, []) = Ret (h, evs, 0, p) /\ placed (Z.of_nat (length b) - 1) h /\ body_start h = 0 /\
            0 <= p <= Z.of_nat (length b)) as (h & evs & p & Ex & Hp & Hb & Hpp).
  { assert (exec fsm (act false b) b 0 1 (fresh, []) = exec fsm (act false b) (sl ++ line LF_ f ++ "013"%char :: c :: rest) 0 1 (fresh, [])) as -> by (f_equal; exact Eb).
    rewrite (exec_walk fsm (act false b) sl _ _ _ _ _ _ _ (walk_status _ _ _ Hv (proj1 Hs) Ht Hne') (status_do false b Hl _ _ _ _ _ Eb Hv Hs Hne')).
    rewrite Z.add_0_l. rewrite (line_run false b Hl sl _ f LF_ 20 20 _ _ Eb Hk (client_walk_line _ f LF_ Hf ltac:(by right))).
    change ("013"%char :: c :: rest) with (["013"%char] ++ c :: rest).
    rewrite (exec_walk fsm (act false b) ["013"%char] (c :: rest) _ 20 [] 3 _ _ eq_refl eq_refl). cbn [exec].
    destruct (moves_spec fsm [3] (fun x => negb (Ascii.eqb x "010")) (fun _ t => target_eqb t (st 0)) ltac:(by vm_compute) 3 c ltac:(by left)) as (t & Et & ->%target_eqb_eq).
    { by apply negb_true_iff, Ascii.eqb_neq. }
    rewrite Et. cbn [run_actions t_actions st t_state mbind outcome_bind]. simpl (0 =? 0). cbv iota. eexists _, _, _. split; [reflexivity|].
    assert (length b = length (sl ++ line LF_ f) + 2 + length rest /\ length (sl ++ line LF_ f) = length sl + length f.1 + length f.2 + 3)%nat as [L1 L2].
    { rewrite Eb. unfold line. rewrite !length_app. simpl. lia. }
    unfold placed, in_line. cbn [mark field_start field_len body_start set_mark set_field_len set_field_start length]. split_and!; (done || lia). }
  assert (exec_block false b fresh = Ret (set_cs (mkCs 0 (m_close (cs h)) (m_status (cs h))) h, Z.to_nat p, evs)) as Ee.
  { unfold exec_block. change (m_cs (cs fresh)) with 1. by rewrite Ex. }
  eexists _, _, _. rewrite (rsp_execute_run (cm := machine) new_HttpResponseParser b false _ (Z.to_nat p) evs Ee); [| |done| |done].
  - split; [done|]. unfold rsp_hasError, httpclient_parser_has_error. simpl. by rewrite orb_true_r.
  - unfold fits, placed in *. cbn [body_start mark field_start field_len set_cs]. rewrite Hb. lia.
  - cbn [nread rp_parser new_HttpResponseParser httpclient_parser_init]. lia.
Qed.

(** A response without one is printed as it should be. *)
Lemma no_headers_printed r : fields_of (r_headers r) = [] -> to_bytes (r_dump r) = head_of r ++ to_bytes (r_body r).
Proof. intros E. rewrite <- printed_bytes, r_dump_printed. unfold printed. rewrite !to_bytes_app, !header_lines_bytes, E. done. Qed.

#[local] Existing Instance full_connection.
Definition digits_cast (s : string) : option Z := Some (digits_value 10 0 (to_bytes s)).
Definition ex_rsp : HttpResponse := r_setBody "xyz" (r_setHeader "Content-Type" "text/plain" (new_HttpResponse 0x11 true)).
Lemma ex_readable : readable ex_rsp.
Proof.
  split_and!; [by left|done|done|by repeat constructor|done| |].
  - repeat constructor; done.
  - repeat constructor.
Qed.
Lemma response_received_witness : exists rsp w',
  recvResponse (cm := machine) (zl := stored_zlib) full_read ex_close digits_cast 84 200 (to_bytes (printed CRLF ex_rsp) ++ to_bytes "HTTP/", []) = (Ret (Some rsp), w') /\
  r_getHeader "content-type" "" rsp = "text/plain"%string /\ r_body rsp = "xyz"%string.
Proof.
  set (w := (to_bytes (printed CRLF ex_rsp) ++ to_bytes "HTTP/", []) : bytes * bytes).
  destruct (response_received (zl := stored_zlib) full_read ex_write ex_close digits_cast 84 ltac:(lia)
    ltac:(intros n v rt bs v1 [= <- _ _]; lia) ltac:(intros n Hn; unfold digits_cast, to_bytes; f_equal; apply dec_bytes; lia)
    ex_rsp 200 w (to_bytes "yzHTTP/", []) (to_bytes "x") (to_bytes "HTTP/")) as (rsp & w' & E & _ & _ & _ & _ & Hb & Hh);
    [exact ex_readable|reflexivity|reflexivity|reflexivity| |reflexivity|vm_compute; lia|vm_compute; lia|].
  - vm_compute. reflexivity.
  - exists rsp, w'. split_and!; [exact E| |exact Hb]. rewrite Hh by (vm_compute; congruence). reflexivity.
Defined.
(** The same response as it is printed is refused, and the connection closed. *)
Example own_response_refused :
  out (recvResponse (cm := machine) (zl := stored_zlib) full_read ex_close digits_cast 4096 200)
    (to_bytes (r_dump ex_rsp), []) = Ret None.
Proof. vm_compute. reflexivity. Qed.
(** The callback for the last chunk is never set: if the memory it occupies is
    not zero, the end of a chunked body calls through it. *)
Example last_chunk_called : exec_block true (to_bytes "0" ++ CRLF_) fresh = Crash OutOfRange.
Proof. reflexivity. Qed.
(** A head whose last header is a content length without digits ends in a state
    that is not the one [httpclient_parser_is_finished] looks for, though the
    end of the head was announced: the client goes on reading. *)
Example head_never_finished :
  match rsp_execute (cm := machine) new_HttpResponseParser (to_bytes "HTTP/1.1 200 OK" ++ CRLF_ ++ to_bytes "content-length:" ++ CRLF_ ++ CRLF_) false with
  | Ret (p, n, rest) => (rsp_isFinished p, rsp_hasError p, n, rest) = (false, false, 36, [])
  | _ => False
  end.
Proof. vm_compute. reflexivity. Qed.
