(* ===== verification/HttpBuffer.v ===== *)
(** [sherry/http/http_buffer.h], [sherry/http/http_buffer.cc]: the ring buffer.

    Indices are [int], sizes [size_t]; a [memcpy] outside either of its objects
    is a fault. A source pointer comes with the object it points to, which may
    be longer than the [len] bytes to be written. The mutex makes each method
    one step. *)

From Stdlib Require Import ZArith Lia Ascii.
From stdpp Require Import base list.
From S2P Require Import Prelude MachineInt.
Local Open Scope Z_scope.

Record HttpBuffer : Type := mkHttpBuffer {
  m_capacity : Z;
  m_size : Z;
  m_start_idx : Z;
  m_end_idx : Z;
  m_buffer : list ascii
}.

(** [new char[n]] holds [zero]s here; no byte is read before it is written. *)
Definition new_HttpBuffer (capacity : Z) : HttpBuffer :=
  mkHttpBuffer capacity 0 0 0 (replicate (Z.to_nat (capacity + 1)) zero).
Definition reset (b : HttpBuffer) : HttpBuffer := mkHttpBuffer (m_capacity b) 0 0 0 (m_buffer b).
Definition empty (b : HttpBuffer) : bool := m_start_idx b =? m_end_idx b.

(** [memcpy(dst + d, src + s, n)] *)
Definition memcpy (dst : list ascii) (d : Z) (src : list ascii) (s n : Z) : outcome (list ascii) :=
  if (0 <=? d) && (d + n <=? Z.of_nat (length dst)) && (0 <=? s) && (s + n <=? Z.of_nat (length src)) && (0 <=? n)
  then Ret (blit (Z.to_nat d) (slice (Z.to_nat s) (Z.to_nat n) src) dst) else Crash OutOfRange.

Definition lift {A} (o : outcome A) : prog HttpBuffer A := fun b => (o, b).
Definition set_mem (l : list ascii) : prog HttpBuffer unit :=
  modify (fun b => mkHttpBuffer (m_capacity b) (m_size b) (m_start_idx b) (m_end_idx b) l).
(** [m_end_idx = (m_end_idx + len) % (m_capacity + 1); m_size += len] *)
Definition grow (len : Z) : prog HttpBuffer unit :=
  modify (fun b => mkHttpBuffer (m_capacity b) (wrap 64 (m_size b + len)) (m_start_idx b)
                     (wrap 64 (m_end_idx b + len) mod (m_capacity b + 1)) (m_buffer b)).
(** [m_start_idx += size; m_start_idx %= (m_capacity + 1); m_size -= size] *)
Definition shrink (size : Z) : prog HttpBuffer unit :=
  modify (fun b => mkHttpBuffer (m_capacity b) (wrap 64 (m_size b - size))
                     (wrap 64 (m_start_idx b + size) mod (m_capacity b + 1)) (m_end_idx b) (m_buffer b)).

Definition write (buffer : list ascii) (len : Z) : prog HttpBuffer bool :=
  b ← gets id;
  if m_start_idx b <=? m_end_idx b then
    if wrap 64 (m_capacity b - m_size b) <? len then mret false else
    let left_available_size := m_start_idx b in
    let right_available_size := wrap 64 (m_capacity b + 1 - m_end_idx b) in
    if len <=? right_available_size then
      l ← lift (memcpy (m_buffer b) (m_end_idx b) buffer 0 len); set_mem l;; grow len;; mret true
    else
      l1 ← lift (memcpy (m_buffer b) (m_end_idx b) buffer 0 right_available_size); set_mem l1;;
      l2 ← lift (memcpy l1 0 buffer right_available_size left_available_size); set_mem l2;;
      grow len;; mret true
  else
    let available_size := m_start_idx b - m_end_idx b in
    if available_size <? len then mret false else
    l ← lift (memcpy (m_buffer b) (m_end_idx b) buffer 0 len); set_mem l;; grow len;; mret true.

(** A null pointer is [None]; [new char[size]] is a block of [size] cells. *)
Definition fresh (size : Z) : list ascii := replicate (Z.to_nat size) zero.

Definition read_by_size (size : Z) : prog HttpBuffer (option (list ascii)) :=
  b ← gets id;
  let ret := fresh size in
  if m_start_idx b <=? m_end_idx b then
    if m_end_idx b - m_start_idx b <? sint 32 size then mret None else
    r ← lift (memcpy ret 0 (m_buffer b) (m_start_idx b) size); shrink size;; mret (Some r)
  else
    let left_size := m_end_idx b in let right_size := wrap 64 (m_capacity b + 1 - m_start_idx b) in
    if wrap 64 (left_size + right_size) <? size then mret None else
    r1 ← lift (memcpy ret 0 (m_buffer b) (m_start_idx b) right_size);
    r2 ← lift (memcpy r1 right_size (m_buffer b) 0 left_size);
    shrink size;; mret (Some r2).

Definition read_by_end (idx : Z) : prog HttpBuffer (option (list ascii)) :=
  b ← gets id;
  let idx := if idx - 1 <? 0 then sint 32 (m_capacity b) else idx - 1 in
  let linear :=
    let size := wrap 64 (idx - m_start_idx b + 1) in
    r ← lift (memcpy (fresh size) 0 (m_buffer b) (m_start_idx b) size); shrink size;; mret (Some r) in
  if m_start_idx b <=? m_end_idx b then
    if (idx <? m_start_idx b) || (m_end_idx b <=? idx) then mret None else linear
  else
    if (m_end_idx b <=? idx) && (idx <? m_start_idx b) then mret None else
    if m_start_idx b <=? idx then linear else
    let right_size := sint 32 (m_capacity b + 1 - m_start_idx b) in let left_size := idx + 1 in
    let size := right_size + left_size in
    r1 ← lift (memcpy (fresh size) 0 (m_buffer b) (m_start_idx b) right_size);
    r2 ← lift (memcpy r1 right_size (m_buffer b) 0 left_size);
    shrink size;; mret (Some r2).

(** [m_buffer[idx]], checked. *)
Definition cell (b : HttpBuffer) (idx : Z) : outcome ascii :=
  if 0 <=? idx then match m_buffer b !! Z.to_nat idx with Some c => Ret c | None => Crash OutOfRange end else Crash OutOfRange.

(** [read_by_zero]: the scan for a NUL, at most once around, then the copy. *)
Fixpoint zero_scan (fuel : nat) (b : HttpBuffer) (idx : Z) : outcome (list ascii) :=
  if idx =? m_end_idx b then Ret [] else
  match fuel with
  | O => Crash NoFuel
  | S fuel' =>
      c ← cell b idx;
      if Ascii.eqb c zero then Ret [] else
      rest ← zero_scan fuel' b ((idx + 1) mod (m_capacity b + 1)); Ret (c :: rest)
  end.
Definition read_by_zero : prog HttpBuffer (list ascii) :=
  b ← gets id;
  s ← lift (zero_scan (length (m_buffer b)) b (m_start_idx b));
  let size := Z.of_nat (length s) in
  modify (fun b => mkHttpBuffer (m_capacity b) (wrap 64 (m_size b - size)) (m_start_idx b + (size + 1)) (m_end_idx b) (m_buffer b));;
  mret (s ++ [zero]).

(** [next(val, idx)]: the result, [val] and [idx] afterwards. *)
Definition next (val : ascii) (idx : Z) : prog HttpBuffer (bool * ascii * Z) :=
  b ← gets id;
  if m_start_idx b =? m_end_idx b then mret (false, val, idx) else
  if m_start_idx b <? m_end_idx b then
    if (idx <? m_start_idx b) || (m_end_idx b <=? idx) then mret (false, val, idx) else
    c ← lift (cell b (idx + 1)); mret (true, c, idx + 1)
  else
    if (m_end_idx b <=? idx) || (idx <? m_start_idx b) then mret (false, val, idx) else
    let idx := (idx + 1) mod (m_capacity b + 1) in
    c ← lift (cell b idx); mret (true, c, idx).

Definition get_available_size (b : HttpBuffer) : Z :=
  if m_start_idx b <=? m_end_idx b then wrap 64 (m_capacity b + 1 - m_start_idx b + m_end_idx b)
  else m_start_idx b - m_end_idx b.
Definition get_data_size (b : HttpBuffer) : Z := m_size b.
Definition get_val (idx : Z) : prog HttpBuffer ascii := b ← gets id; lift (cell b idx).
Definition set_val (v : ascii) (idx : Z) : prog HttpBuffer unit :=
  b ← gets id;
  if (0 <=? idx) && (idx <? Z.of_nat (length (m_buffer b))) then set_mem (<[Z.to_nat idx := v]> (m_buffer b)) else crash OutOfRange.
Definition get_last_idx : prog HttpBuffer Z :=
  b ← gets id;
  if m_end_idx b =? m_start_idx b then crash AssertFail
  else mret (if m_end_idx b - 1 <? 0 then sint 32 (m_capacity b) else m_end_idx b - 1).
(** [%] by a capacity of 0 is a fault. *)
Definition next_idx (idx : Z) : prog HttpBuffer Z :=
  b ← gets id; if m_capacity b =? 0 then crash BadArith else mret (sint 32 (wrap 64 (idx + 1) mod m_capacity b)).
Definition pre_idx (idx : Z) : prog HttpBuffer Z :=
  b ← gets id; mret (if idx - 1 <? 0 then sint 32 (m_capacity b - 1) else idx - 1).

(** * The queue of bytes it stands for *)

Section blits.
Context {A : Type}.
Implicit Types x l : list A.

Lemma take_blit_le n off x l : (n <= off)%nat -> (off <= length l)%nat -> take n (blit off x l) = take n l.
Proof. intros H1 H2. unfold blit. rewrite take_app_le by (rewrite length_take; lia). rewrite take_take. f_equal. lia. Qed.
Lemma take_blit_end off x l : (off <= length l)%nat -> take (off + length x) (blit off x l) = take off l ++ x.
Proof.
  intros H. unfold blit. rewrite app_assoc, take_app_le by (rewrite length_app, length_take; lia).
  apply take_ge. rewrite length_app, length_take. lia.
Qed.
Lemma drop_blit_ge n off x l : (off + length x <= n)%nat -> (off <= length l)%nat -> drop n (blit off x l) = drop n l.
Proof.
  intros H1 H2. unfold blit. rewrite app_assoc, drop_app_ge by (rewrite length_app, length_take; lia).
  rewrite drop_drop, length_app, length_take. f_equal. lia.
Qed.
Lemma drop_blit_le n off x l : (n <= off)%nat -> (off <= length l)%nat ->
  drop n (blit off x l) = drop n (take off l) ++ x ++ drop (off + length x) l.
Proof. intros H1 H2. unfold blit. rewrite drop_app_le by (rewrite length_take; lia). done. Qed.
End blits.

Definition contents (b : HttpBuffer) : list ascii :=
  let s := Z.to_nat (m_start_idx b) in let e := Z.to_nat (m_end_idx b) in
  if m_start_idx b <=? m_end_idx b then drop s (take e (m_buffer b)) else drop s (m_buffer b) ++ take e (m_buffer b).

Record ring (b : HttpBuffer) : Prop := {
  ring_capacity : 0 <= m_capacity b < 2 ^ 31 - 1;
  ring_cells : Z.of_nat (length (m_buffer b)) = m_capacity b + 1;
  ring_start : 0 <= m_start_idx b <= m_capacity b;
  ring_end : 0 <= m_end_idx b <= m_capacity b;
  ring_size : m_size b = Z.of_nat (length (contents b))
}.

Lemma length_ring b : 0 <= m_start_idx b <= m_capacity b -> 0 <= m_end_idx b <= m_capacity b ->
  Z.of_nat (length (m_buffer b)) = m_capacity b + 1 ->
  Z.of_nat (length (contents b)) = if m_start_idx b <=? m_end_idx b then m_end_idx b - m_start_idx b
                                   else m_capacity b + 1 - m_start_idx b + m_end_idx b.
Proof.
  intros Hs He Hl. unfold contents. destruct (Z.leb_spec (m_start_idx b) (m_end_idx b)).
  - rewrite length_drop, length_take. lia.
  - rewrite length_app, length_drop, length_take. lia.
Qed.

Lemma memcpy_ok dst d src s n : 0 <= d -> d + n <= Z.of_nat (length dst) -> 0 <= s -> s + n <= Z.of_nat (length src) -> 0 <= n ->
  memcpy dst d src s n = Ret (blit (Z.to_nat d) (slice (Z.to_nat s) (Z.to_nat n) src) dst).
Proof. intros. unfold memcpy. by rewrite !(proj2 (Z.leb_le _ _)) by done. Qed.

Lemma ring_new capacity : 0 <= capacity < 2 ^ 31 - 1 -> ring (new_HttpBuffer capacity) /\ contents (new_HttpBuffer capacity) = [].
Proof. intros H. split; [|done]. split; simpl; try lia. rewrite length_replicate. lia. Qed.

Lemma wrap_mod_lt x n : 0 <= x < n -> n < 2 ^ 63 -> wrap 64 x mod n = x.
Proof. intros H1 H2. rewrite wrap_id by (unfold in_uint; lia). apply Z.mod_small. lia. Qed.
Lemma wrap_mod_ge x n : 0 < n -> n <= x < 2 * n -> n < 2 ^ 62 -> wrap 64 x mod n = x - n.
Proof.
  intros H0 H1 H2. rewrite wrap_id by (unfold in_uint; lia). replace x with (x - n + 1 * n) at 1 by lia.
  rewrite Z.mod_add by lia. apply Z.mod_small. lia.
Qed.

(** What the ring is after a write. *)
Lemma ring_written b l len e' x : ring b -> length l = length (m_buffer b) -> len = Z.of_nat (length x) ->
  e' = wrap 64 (m_end_idx b + len) mod (m_capacity b + 1) -> Z.of_nat (length (contents b)) + len <= m_capacity b ->
  let b' := mkHttpBuffer (m_capacity b) (wrap 64 (m_size b + len)) (m_start_idx b) e' l in
  contents b' = contents b ++ x -> ring b'.
Proof.
  intros [Hc Hl Hs He Hz] Hll Hlen He' Hfit b' Hcont.
  assert (0 <= e' <= m_capacity b) as He'r by (subst e'; pose proof (Z.mod_pos_bound (wrap 64 (m_end_idx b + len)) (m_capacity b + 1)); lia).
  split; simpl; try done; [by rewrite Hll|]. rewrite Hcont, length_app, Hz, wrap_id by (unfold in_uint; lia). lia.
Qed.

(** A copy that stays before the end of the block. *)
Lemma contents_copy b x sz : ring b -> Z.of_nat (length (contents b)) + Z.of_nat (length x) <= m_capacity b ->
  m_end_idx b + Z.of_nat (length x) <= m_capacity b + 1 ->
  contents (mkHttpBuffer (m_capacity b) sz (m_start_idx b) (wrap 64 (m_end_idx b + Z.of_nat (length x)) mod (m_capacity b + 1))
              (blit (Z.to_nat (m_end_idx b)) x (m_buffer b))) = contents b ++ x.
Proof.
  intros [Hc Hl Hs He _] Hfit Hend. rewrite (length_ring b Hs He Hl) in Hfit. unfold contents. simpl.
  destruct (Z.leb_spec (m_start_idx b) (m_end_idx b)) as [Hse|Hse].
  - destruct (decide (m_end_idx b + Z.of_nat (length x) <= m_capacity b)) as [Hd|Hd].
    + rewrite wrap_mod_lt by lia. rewrite (proj2 (Z.leb_le _ _)) by lia.
      replace (Z.to_nat (m_end_idx b + Z.of_nat (length x))) with (Z.to_nat (m_end_idx b) + length x)%nat by lia.
      rewrite take_blit_end by lia. rewrite drop_app_le by (rewrite length_take; lia). done.
    + rewrite wrap_mod_ge by lia. rewrite (proj2 (Z.leb_gt _ _)) by lia.
      replace (Z.to_nat (m_end_idx b + Z.of_nat (length x) - (m_capacity b + 1))) with 0%nat by lia. rewrite take_0, app_nil_r.
      rewrite drop_blit_le by lia. rewrite (drop_ge (m_buffer b)) by lia. by rewrite app_nil_r.
  - rewrite wrap_mod_lt by lia. rewrite (proj2 (Z.leb_gt _ _)) by lia.
    replace (Z.to_nat (m_end_idx b + Z.of_nat (length x))) with (Z.to_nat (m_end_idx b) + length x)%nat by lia.
    rewrite take_blit_end, drop_blit_ge by lia. by rewrite app_assoc.
Qed.

(** A copy in two parts; the second one overwrites all cells before the start. *)
Lemma contents_copy2 b src len sz : ring b -> m_start_idx b <= m_end_idx b ->
  Z.of_nat (length (contents b)) + len <= m_capacity b -> m_capacity b + 1 - m_end_idx b < len ->
  let r := Z.to_nat (m_capacity b + 1 - m_end_idx b) in
  (r + Z.to_nat (m_start_idx b) <= length src)%nat ->
  contents (mkHttpBuffer (m_capacity b) sz (m_start_idx b) (wrap 64 (m_end_idx b + len) mod (m_capacity b + 1))
     (blit 0 (slice r (Z.to_nat (m_start_idx b)) src) (blit (Z.to_nat (m_end_idx b)) (slice 0 r src) (m_buffer b)))) =
  contents b ++ take (Z.to_nat len) src.
Proof.
  intros [Hc Hl Hs He _] Hse Hfit Hgt r Hobj. rewrite (length_ring b Hs He Hl), (proj2 (Z.leb_le _ _) Hse) in Hfit.
  assert (length (slice 0 r src) = r) as Hr1 by (apply length_slice; lia).
  assert (length (slice r (Z.to_nat (m_start_idx b)) src) = Z.to_nat (m_start_idx b)) as Hr2 by (apply length_slice; lia).
  unfold contents. simpl. rewrite (proj2 (Z.leb_le _ _) Hse). rewrite wrap_mod_ge by lia. rewrite (proj2 (Z.leb_gt _ _)) by lia.
  rewrite drop_blit_ge by lia. rewrite drop_blit_le by lia. rewrite (drop_ge (m_buffer b)) by lia. rewrite app_nil_r, <- app_assoc. f_equal.
  unfold blit at 1. rewrite take_0. cbn [app]. rewrite take_app_le by lia. unfold slice. rewrite drop_0, take_take.
  replace (Z.to_nat len) with (r + Z.to_nat (m_end_idx b + len - (m_capacity b + 1)))%nat by lia.
  rewrite <- (take_take_drop src r). do 2 f_equal. lia.
Qed.

Lemma write_ok b src len : ring b -> 0 <= len <= Z.of_nat (length src) -> Z.of_nat (length (contents b)) + len <= m_capacity b ->
  len + m_capacity b + 1 <= Z.of_nat (length src) \/ m_end_idx b + len <= m_capacity b + 1 ->
  exists b', write src len b = (Ret true, b') /\ ring b' /\ m_capacity b' = m_capacity b /\
    contents b' = contents b ++ take (Z.to_nat len) src.
Proof.
  intros H Hlen Hfit Hobj. pose proof H as [Hc Hl Hs He Hz]. pose proof (length_ring b Hs He Hl) as Hlc.
  assert (Z.of_nat (length (take (Z.to_nat len) src)) = len) as Hx by (rewrite length_take; lia).
  assert (Hcopy : m_end_idx b + len <= m_capacity b + 1 -> exists b', (l ← lift (memcpy (m_buffer b) (m_end_idx b) src 0 len);
    set_mem l;; grow len;; mret true) b = (Ret true, b') /\ ring b' /\ m_capacity b' = m_capacity b /\ contents b' = contents b ++ take (Z.to_nat len) src).
  { intros Hend. rewrite memcpy_ok by lia. unfold lift. run_pure. cbn [m_capacity m_size m_start_idx m_end_idx m_buffer]. eexists. split; [reflexivity|].
    change (slice (Z.to_nat 0) (Z.to_nat len) src) with (take (Z.to_nat len) src).
    pose proof (contents_copy b (take (Z.to_nat len) src) (wrap 64 (m_size b + len)) H ltac:(lia) ltac:(lia)) as Hcont.
    rewrite Hx in Hcont. split_and!; [|done|done]. by apply (ring_written b _ len _ (take (Z.to_nat len) src)); [|apply length_blit; lia|..]. }
  unfold write. run_pure. unfold id. rewrite Hz.
  destruct (Z.leb_spec (m_start_idx b) (m_end_idx b)) as [Hse|Hse].
  - rewrite (wrap_id 64 (m_capacity b - _)), (proj2 (Z.ltb_ge _ _)) by (unfold in_uint; lia).
    rewrite !(wrap_id 64 (m_capacity b + 1 - m_end_idx b)) by (unfold in_uint; lia).
    destruct (Z.leb_spec len (m_capacity b + 1 - m_end_idx b)) as [Hr|Hr]; [by apply Hcopy; lia|].
    destruct Hobj as [Hobj|?]; [|lia]. rewrite memcpy_ok by lia. unfold lift at 1. run_pure. cbn [m_capacity m_size m_start_idx m_end_idx m_buffer].
    set (r := Z.to_nat (m_capacity b + 1 - m_end_idx b)).
    assert (length (blit (Z.to_nat (m_end_idx b)) (slice (Z.to_nat 0) r src) (m_buffer b)) = length (m_buffer b)) as Hb1
      by (apply length_blit; rewrite length_slice by lia; lia).
    rewrite memcpy_ok by lia. run_pure. cbn [m_capacity m_size m_start_idx m_end_idx m_buffer]. fold r. eexists. split; [reflexivity|].
    pose proof (contents_copy2 b src len (wrap 64 (m_size b + len)) H Hse Hfit ltac:(lia) ltac:(lia)) as Hcont.
    split_and!; [|done|exact Hcont]. eapply (ring_written b _ len _ (take (Z.to_nat len) src)); try done.
    rewrite length_blit; [done|]. rewrite length_slice by lia. lia.
  - rewrite (proj2 (Z.ltb_ge _ _)) by lia. apply Hcopy. lia.
Qed.

(** Moving the start over the first bytes. *)
Lemma contents_shrink b k sz : ring b -> (k <= length (contents b))%nat ->
  contents (mkHttpBuffer (m_capacity b) sz (wrap 64 (m_start_idx b + Z.of_nat k) mod (m_capacity b + 1)) (m_end_idx b) (m_buffer b)) =
  drop k (contents b).
Proof.
  intros [Hc Hl Hs He _] Hk. pose proof (length_ring b Hs He Hl) as Hlc. unfold contents in *. simpl.
  destruct (Z.leb_spec (m_start_idx b) (m_end_idx b)) as [Hse|Hse].
  - rewrite wrap_mod_lt by lia. rewrite (proj2 (Z.leb_le _ _)) by lia. rewrite drop_drop. f_equal. lia.
  - destruct (decide (m_start_idx b + Z.of_nat k < m_capacity b + 1)) as [Hd|Hd].
    + rewrite wrap_mod_lt by lia. rewrite (proj2 (Z.leb_gt _ _)) by lia. rewrite drop_app_le by (rewrite length_drop; lia).
      rewrite drop_drop. do 2 f_equal. lia.
    + rewrite wrap_mod_ge by lia. rewrite (proj2 (Z.leb_le _ _)) by lia. rewrite drop_app_ge by (rewrite length_drop; lia).
      f_equal. rewrite length_drop. lia.
Qed.

Lemma ring_shrunk b k : ring b -> (k <= length (contents b))%nat ->
  let b' := mkHttpBuffer (m_capacity b) (wrap 64 (m_size b - Z.of_nat k))
    (wrap 64 (m_start_idx b + Z.of_nat k) mod (m_capacity b + 1)) (m_end_idx b) (m_buffer b) in
  ring b' /\ contents b' = drop k (contents b).
Proof.
  intros H Hk b'. pose proof (contents_shrink b k (wrap 64 (m_size b - Z.of_nat k)) H Hk) as Hcont. split; [|done].
  pose proof H as [Hc Hl Hs He Hz]. pose proof (length_ring b Hs He Hl) as Hlc.
  assert (length (contents b) <= length (m_buffer b))%nat by (destruct (Z.leb_spec (m_start_idx b) (m_end_idx b)); lia).
  split; try done; [simpl; pose proof (Z.mod_pos_bound (wrap 64 (m_start_idx b + Z.of_nat k)) (m_capacity b + 1)); lia|].
  fold b' in Hcont. rewrite Hcont. simpl. rewrite Hz, length_drop, wrap_id by (unfold in_uint; lia). lia.
Qed.

Lemma blit_fresh n (x : list ascii) : length x = n -> blit 0 x (replicate n zero) = x.
Proof. intros <-. unfold blit. rewrite take_0, drop_ge, app_nil_r by (rewrite length_replicate; lia). done. Qed.

(** The linear part of [read_by_end] and [read_by_size]. *)
Lemma read_linear b k : ring b -> (k <= length (contents b))%nat -> m_start_idx b + Z.of_nat k <= m_capacity b + 1 ->
  (m_start_idx b <= m_end_idx b -> m_start_idx b + Z.of_nat k <= m_end_idx b) ->
  exists b', (r ← lift (memcpy (fresh (Z.of_nat k)) 0 (m_buffer b) (m_start_idx b) (Z.of_nat k)); shrink (Z.of_nat k);; mret (Some r)) b =
    (Ret (Some (take k (contents b))), b') /\ ring b' /\ m_capacity b' = m_capacity b /\ contents b' = drop k (contents b).
Proof.
  intros H Hk Hfit Hlin. pose proof H as [Hc Hl Hs He Hz]. destruct (ring_shrunk b k H Hk) as [H' Hcont].
  unfold fresh. rewrite Nat2Z.id. rewrite memcpy_ok by (rewrite ?length_replicate; lia). unfold lift. run_pure. eexists.
  split; [|split_and!; [exact H'|done|exact Hcont]]. do 3 f_equal. rewrite Nat2Z.id. change (Z.to_nat 0) with 0%nat.
  rewrite blit_fresh by (apply length_slice; lia). unfold slice, contents.
  destruct (Z.leb_spec (m_start_idx b) (m_end_idx b)) as [Hse|Hse].
  - rewrite skipn_firstn_comm, take_take. f_equal. lia.
  - rewrite take_app_le by (rewrite length_drop; lia). done.
Qed.

Lemma read_by_end_ok b k : ring b -> (0 < k <= length (contents b))%nat ->
  exists b', read_by_end ((m_start_idx b + Z.of_nat k) mod (m_capacity b + 1)) b = (Ret (Some (take k (contents b))), b') /\
    ring b' /\ m_capacity b' = m_capacity b /\ contents b' = drop k (contents b).
Proof.
  intros H Hk. pose proof H as [Hc Hl Hs He Hz]. pose proof (length_ring b Hs He Hl) as Hlc.
  unfold read_by_end. run_pure. unfold id. rewrite (sint_id 32 (m_capacity b)) by (unfold in_sint; lia).
  assert (forall idx, idx = m_start_idx b + Z.of_nat k - 1 -> wrap 64 (idx - m_start_idx b + 1) = Z.of_nat k) as Hsz.
  { intros idx ->. rewrite wrap_id; [lia|unfold in_uint; destruct (Z.leb_spec (m_start_idx b) (m_end_idx b)); lia]. }
  destruct (decide (m_start_idx b + Z.of_nat k <= m_capacity b + 1)) as [Hlin|Hwr].
  - assert ((if (m_start_idx b + Z.of_nat k) mod (m_capacity b + 1) - 1 <? 0 then m_capacity b
             else (m_start_idx b + Z.of_nat k) mod (m_capacity b + 1) - 1) = m_start_idx b + Z.of_nat k - 1) as ->.
    { destruct (decide (m_start_idx b + Z.of_nat k = m_capacity b + 1)) as [E|E].
      - rewrite E, Z.mod_same by lia. simpl. lia.
      - rewrite Z.mod_small by lia. rewrite (proj2 (Z.ltb_ge _ _)) by lia. done. }
    rewrite Hsz by done. destruct (Z.leb_spec (m_start_idx b) (m_end_idx b)) as [Hse|Hse].
    + rewrite (proj2 (Z.ltb_ge _ _)), (proj2 (Z.leb_gt _ _)) by lia. simpl. apply read_linear; lia || done.
    + rewrite (proj2 (Z.leb_le (m_end_idx b) _)) by lia. rewrite (proj2 (Z.ltb_ge (m_start_idx b + Z.of_nat k - 1) (m_start_idx b))) by lia.
      rewrite (proj2 (Z.leb_le (m_start_idx b) _)) by lia. simpl. apply read_linear; lia || done.
  - destruct (Z.leb_spec (m_start_idx b) (m_end_idx b)) as [Hse|Hse]; [lia|].
    assert ((m_start_idx b + Z.of_nat k) mod (m_capacity b + 1) = m_start_idx b + Z.of_nat k - (m_capacity b + 1)) as ->.
    { rewrite <- (wrap_mod_ge (m_start_idx b + Z.of_nat k) (m_capacity b + 1)) by lia. by rewrite wrap_id by (unfold in_uint; lia). }
    set (left_ := m_start_idx b + Z.of_nat k - (m_capacity b + 1)). assert (left_ = m_start_idx b + Z.of_nat k - (m_capacity b + 1)) as Hleft by done.
    rewrite (proj2 (Z.ltb_ge (left_ - 1) 0)) by lia. rewrite (proj2 (Z.leb_gt (m_end_idx b) (left_ - 1))) by lia.
    rewrite (proj2 (Z.leb_gt (m_start_idx b) (left_ - 1))) by lia. cbn [andb].
    rewrite (sint_id 32 (m_capacity b + 1 - m_start_idx b)) by (unfold in_sint; lia).
    set (right := m_capacity b + 1 - m_start_idx b). assert (right = m_capacity b + 1 - m_start_idx b) as Hright by done.
    replace (left_ - 1 + 1) with left_ by lia. replace (right + left_) with (Z.of_nat k) by lia.
    destruct (ring_shrunk b k H ltac:(lia)) as [H' Hcont].
    assert (length (slice (Z.to_nat (m_start_idx b)) (Z.to_nat right) (m_buffer b)) = Z.to_nat right) as Hs1 by (apply length_slice; lia).
    assert (length (slice (Z.to_nat 0) (Z.to_nat left_) (m_buffer b)) = Z.to_nat left_) as Hs2 by (apply length_slice; lia).
    unfold fresh. rewrite Nat2Z.id. rewrite memcpy_ok by (rewrite ?length_replicate; lia). unfold lift at 1. run_pure.
    assert (length (blit (Z.to_nat 0) (slice (Z.to_nat (m_start_idx b)) (Z.to_nat right) (m_buffer b)) (replicate k zero)) = k) as Hb1
      by (rewrite length_blit; rewrite length_replicate; lia).
    rewrite memcpy_ok by lia. run_pure.
    eexists. split; [|split_and!; [exact H'|done|exact Hcont]]. do 3 f_equal.
    replace (Z.to_nat right) with (Z.to_nat 0 + length (slice (Z.to_nat (m_start_idx b)) (Z.to_nat right) (m_buffer b)))%nat at 1 by lia.
    rewrite blit_blit by lia. change (Z.to_nat 0) with 0%nat in Hs2 |- *. rewrite blit_fresh by (rewrite length_app; lia).
    unfold contents. rewrite (proj2 (Z.leb_gt _ _) Hse). rewrite take_app, (take_ge (drop _ _)) by (rewrite length_drop; lia).
    unfold slice. rewrite drop_0, (take_ge (drop _ _)) by (rewrite length_drop; lia). f_equal. rewrite take_take, length_drop. f_equal. lia.
Qed.

(** ** Sequences of writes and reads *)

Inductive qop : Type :=
| QWrite (bs : list ascii)
| QRead (k : nat).

(** A queue that holds at most [cap] bytes. Nothing is promised for a write
    that needs exactly one byte more than there is room for, and for a read of
    nothing or of more than there is. *)
Definition spec_qop (cap : Z) (o : qop) (q : list ascii) : option ((bool + list ascii) * list ascii) :=
  match o with
  | QWrite bs =>
      let n := Z.of_nat (length q + length bs) in
      if n <=? cap then Some (inl true, q ++ bs) else if cap + 1 <? n then Some (inl false, q) else None
  | QRead k => if (0 <? k)%nat && (k <=? length q)%nat then Some (inr (take k q), drop k q) else None
  end.
(** [slack] is what follows the bytes in the caller's object. *)
Definition impl_qop (slack : list ascii) (o : qop) : prog HttpBuffer (bool + list ascii) :=
  match o with
  | QWrite bs => ok ← write (bs ++ slack) (Z.of_nat (length bs)); mret (inl ok)
  | QRead k =>
      b ← gets id;
      r ← read_by_end ((m_start_idx b + Z.of_nat k) mod (m_capacity b + 1));
      match r with Some x => mret (inr x) | None => crash NullDeref end
  end.
Fixpoint spec_qrun (cap : Z) (os : list qop) (q : list ascii) : option (list (bool + list ascii) * list ascii) :=
  match os with
  | [] => Some ([], q)
  | o :: os' => '(r, q1) ← spec_qop cap o q; '(rs, q2) ← spec_qrun cap os' q1; Some (r :: rs, q2)
  end.
Fixpoint impl_qrun (slack : list ascii) (os : list qop) : prog HttpBuffer (list (bool + list ascii)) :=
  match os with
  | [] => mret []
  | o :: os' => r ← impl_qop slack o; rs ← impl_qrun slack os'; mret (r :: rs)
  end.

Lemma write_refused b src len : ring b -> 0 <= len < 2 ^ 63 -> m_capacity b + 1 < Z.of_nat (length (contents b)) + len ->
  write src len b = (Ret false, b).
Proof.
  intros [Hc Hl Hs He Hz] Hlen Hn. pose proof (length_ring b Hs He Hl) as Hlc. unfold write. run_pure. unfold id. rewrite Hz.
  destruct (Z.leb_spec (m_start_idx b) (m_end_idx b)) as [Hse|Hse].
  - rewrite wrap_id by (unfold in_uint; lia). rewrite (proj2 (Z.ltb_lt _ _)) by lia. done.
  - rewrite (proj2 (Z.ltb_lt _ _)) by lia. done.
Qed.

Lemma qop_simulation slack o b r q' : ring b -> m_capacity b + 1 <= Z.of_nat (length slack) ->
  (forall bs, o = QWrite bs -> Z.of_nat (length bs) < 2 ^ 63) ->
  spec_qop (m_capacity b) o (contents b) = Some (r, q') ->
  exists b', impl_qop slack o b = (Ret r, b') /\ ring b' /\ m_capacity b' = m_capacity b /\ contents b' = q'.
Proof.
  intros H Hsl Hsz Hs. destruct o as [bs|k]; simpl in Hs |- *.
  - specialize (Hsz bs eq_refl). destruct (Z.leb_spec (Z.of_nat (length (contents b) + length bs)) (m_capacity b)) as [Hle|Hgt].
    + simplify_eq. destruct (write_ok b (bs ++ slack) (Z.of_nat (length bs)) H) as (b' & E & H' & Hc & Hcont);
        [rewrite length_app; lia|lia|rewrite length_app; lia|].
      run E. exists b'. rewrite Hcont, Nat2Z.id, take_app_length. done.
    + destruct (Z.ltb_spec (m_capacity b + 1) (Z.of_nat (length (contents b) + length bs))) as [Hgt2|]; [|done]. simplify_eq.
      run (write_refused b (bs ++ slack) (Z.of_nat (length bs)) H ltac:(lia) ltac:(lia)). by exists b.
  - destruct (_ && _) eqn:Ek; [|done]. apply andb_true_iff in Ek as [Hk1%Nat.ltb_lt Hk2%Nat.leb_le]. simplify_eq.
    run_pure. unfold id. destruct (read_by_end_ok b k H ltac:(lia)) as (b' & E & H'). run E. by exists b'.
Qed.



(** * Where it is not a queue *)

(** A write that goes around the end copies [m_start_idx] bytes for its second
    part, however few are left: with an object of exactly [len] bytes it always
    reads past it. *)
Lemma write_overreads b src : ring b -> m_start_idx b <= m_end_idx b ->
  let len := Z.of_nat (length src) in
  Z.of_nat (length (contents b)) + len <= m_capacity b -> m_capacity b + 1 - m_end_idx b < len ->
  out (write src len) b = Crash OutOfRange.
Proof.
  intros H Hse len Hfit Hgt. pose proof H as [Hc Hl Hs He Hz]. pose proof (length_ring b Hs He Hl) as Hlc.
  rewrite (proj2 (Z.leb_le _ _) Hse) in Hlc. unfold out, write. run_pure. unfold id. rewrite Hz, (proj2 (Z.leb_le _ _) Hse).
  rewrite (wrap_id 64 (m_capacity b - _)), (proj2 (Z.ltb_ge _ _)) by (unfold in_uint; lia).
  rewrite !(wrap_id 64 (m_capacity b + 1 - m_end_idx b)) by (unfold in_uint; lia). rewrite (proj2 (Z.leb_gt _ _)) by lia.
  rewrite memcpy_ok by lia. unfold lift at 1. run_pure. unfold mbind, prog_bind, lift, memcpy.
  rewrite (proj2 (Z.leb_gt (m_capacity b + 1 - m_end_idx b + m_start_idx b) (Z.of_nat (length src)))) by lia. by rewrite !andb_false_r.
Qed.

(** [next] gives nothing while the data goes around the end. *)
Lemma next_wrapped b val idx : m_end_idx b < m_start_idx b -> next val idx b = (Ret (false, val, idx), b).
Proof.
  intros H. unfold next. run_pure. unfold id. rewrite (proj2 (Z.eqb_neq _ _)), (proj2 (Z.ltb_ge (m_start_idx b) _)) by lia.
  destruct (Z.leb_spec (m_end_idx b) idx); [done|]. by rewrite (proj2 (Z.ltb_lt idx (m_start_idx b))) by lia.
Qed.

(** A ring of capacity 3 in which two bytes lie around the end. *)
Definition wrapped_ring : HttpBuffer := mkHttpBuffer 3 2 3 1 ["b"; "0"; "0"; "a"]%char.

(** A write of exactly one byte more than fits is taken and makes it empty. *)
Lemma write_fills_to_empty : ring wrapped_ring /\
  exists b', write ["c"; "d"]%char 2 wrapped_ring = (Ret true, b') /\ m_size b' = 4 /\ contents b' = [] /\ empty b' = true.
Proof. split; [by split|]. eexists. split; [vm_compute; reflexivity|]. done. Qed.
(** [read_by_size] of less than all of it writes past the block it allocated. *)
Lemma read_by_size_overflows : out (read_by_size 1) wrapped_ring = Crash OutOfRange.
Proof. reflexivity. Qed.
(** [read_by_zero] takes one byte more than it counts and leaves the block. *)
Lemma read_by_zero_leaves : exists b', read_by_zero wrapped_ring = (Ret ["a"; "b"; zero]%char, b') /\ m_start_idx b' = 6 /\ m_size b' = 0.
Proof. eexists. split; [vm_compute; reflexivity|]. done. Qed.
(** The free space it reports grows with the data; [next_idx] and [pre_idx]
    leave out the last cell. *)
Lemma index_arithmetic : get_available_size (mkHttpBuffer 3 2 0 2 ["a"; "b"; "0"; "0"]%char) = 6 /\
  out (next_idx 2) wrapped_ring = Ret 0 /\ out (pre_idx 0) wrapped_ring = Ret 2.
Proof. done. Qed.
