(* ===== verification/HttpPool.v ===== *)
(** [sherry/http/http_connection.cc]: the requests the client builds, a request
    over a new connection, and the connection pool.

    A connection is an object of [p_heap]; [m_conns] are the pointers the pool
    keeps, [p_out] those its clients hold, each through a [shared_ptr] whose
    deleter is [ReleasePtr]. What happens on the network (whether an address
    is found, a connection is made, the peer closes, what sending and
    receiving give) and the clock are arguments. Deleting an object that does
    not exist is a fault. *)

From Stdlib Require Import ZArith Lia String.
From stdpp Require Import base list gmap strings.
From S2P Require Import Prelude MachineInt Http HttpProps StreamProps HttpSession HttpSessionProps Uri Zlib HttpClient.
Local Open Scope Z_scope.

(** * Building a request *)

(** The loop over the caller's headers: the request, and whether a host was
    given. *)
Fixpoint add_headers (headers : list (string * string)) (has_host : bool) (req : HttpRequest) : HttpRequest * bool :=
  match headers with
  | [] => (req, has_host)
  | (k, v) :: rest =>
      if strcaseeq k "connection" then
        add_headers rest has_host (if strcaseeq v "keep-alive" then set_close false req else req)
      else
        let has_host' := if negb has_host && strcaseeq k "host" then negb (String.eqb v "") else has_host in
        add_headers rest has_host' (setHeader k v req)
  end.

(** [HttpConnection::DoRequest(method, uri, ...)] up to the request. *)
Definition DoRequest_build (method : HttpMethod) (uri : Uri)
    (headers : list (string * string)) (body : string) : HttpRequest :=
  let req := setMethod method (setFragment (u_fragment uri) (setQuery (u_query uri) (setPath (uri_getPath uri) (new_HttpRequest 0x11 true)))) in
  let '(req, has_host) := add_headers headers false req in
  setBody body (if has_host : bool then req else setHeader "Host" (u_host uri) req).
(** [HttpConnectionPool::doRequest(method, url, ...)] up to the request. *)
Definition doRequest_build (m_host m_vhost : string) (method : HttpMethod) (url : string)
    (headers : list (string * string)) (body : string) : HttpRequest :=
  let req := set_close false (setMethod method (setPath url (new_HttpRequest 0x11 true))) in
  let '(req, has_host) := add_headers headers false req in
  setBody body (if has_host : bool then req else setHeader "Host" (if String.eqb m_vhost "" then m_host else m_vhost) req).
(** The path of the [doGet]/[doPost]/[doRequest] on a [Uri]. *)
Definition uri_path (u : Uri) : string :=
  (uri_getPath u ++ (if String.eqb (u_query u) "" then "" else "?") ++ u_query u
   ++ (if String.eqb (u_fragment u) "" then "" else "#") ++ u_fragment u)%string.

Inductive Error : Type :=
| OK | INVALID_URL | INVALID_HOST | CONNECT_FAIL | SEND_CLOSE_BY_PEER | SEND_SOCKET_ERROR | TIMEOUT
| CREATE_SOCKET_ERROR | POOL_GET_CONNECTION | POOL_INVALID_CONNECTION.

(** * A request over a new connection

    [socket] is what [CreateTCP] gives for the address (null in [None]), a
    state of the stream; [connect] its result and the state afterwards. *)
Section do_request.
Context {M : Type} {cm : ClientMachine M} {St : Type} {zl : Zlib St} {W A : Type}.
Variable read : Z -> prog W (Z * bytes).
Variable write : bytes -> prog W Z.
Variable close : prog W unit.
Variable lexical_cast : string -> option Z.
Variable buff_size : Z.
Variable LookupAnyIPAddress : string -> option A.
Variable setPort : Z -> A -> A.
Variable socket : bool -> A -> option W.
Variable connect : A -> prog W bool.

Definition exchange (fuel : nat) (req : HttpRequest) : prog W (Error * option HttpResponse) :=
  rt ← sendRequest write (S (length (to_bytes (dump req)))) req;
  if rt =? 0 then mret (SEND_CLOSE_BY_PEER, None) else
  if rt <? 0 then mret (SEND_SOCKET_ERROR, None) else
  rsp ← recvResponse (zl := zl) read close lexical_cast buff_size fuel;
  match rsp with None => mret (TIMEOUT, None) | Some x => mret (OK, Some x) end.
Definition DoRequest_req (fuel : nat) (req : HttpRequest) (uri : Uri) : outcome (Error * option HttpResponse) :=
  match createAddress LookupAnyIPAddress setPort uri with
  | None => Ret (INVALID_HOST, None)
  | Some addr =>
      match socket (String.eqb (u_scheme uri) "https") addr with
      | None => Ret (CREATE_SOCKET_ERROR, None)
      | Some w => out (c ← connect addr; if negb c then mret (CONNECT_FAIL, None) else exchange fuel req) w
      end
  end.
Definition DoRequest (fuel : nat) (method : HttpMethod) (url : string) (headers : list (string * string)) (body : string)
    : outcome (Error * option HttpResponse) :=
  uri ← Uri.Create url;
  match uri with
  | None => Ret (INVALID_URL, None)
  | Some uri => DoRequest_req fuel (DoRequest_build method uri headers body) uri
  end.
Definition DoGet (fuel : nat) (url : string) (headers : list (string * string)) (body : string) := DoRequest fuel GET url headers body.
Definition DoPost (fuel : nat) (url : string) (headers : list (string * string)) (body : string) := DoRequest fuel POST url headers body.

(** On a connection that takes what it is given, the peer gets the whole text
    of the request before the response is awaited. *)
Lemma exchange_sends {conn : Connection read write close} fuel req w :
  (forall bs w rt w', bs <> [] -> write bs w = (Ret rt, w') -> 0 < rt) ->
  to_bytes (dump req) <> [] -> Z.of_nat (length (to_bytes (dump req))) < 2 ^ 31 -> exists w1,
    accepted w1 = accepted w ++ to_bytes (dump req) /\ pending w1 = pending w /\
    exchange fuel req w = (rsp ← recvResponse (zl := zl) read close lexical_cast buff_size fuel;
                           match rsp with None => mret (TIMEOUT, None) | Some x => mret (OK, Some x) end) w1.
Proof.
  intros Hw Hne Hl. assert (length (to_bytes (dump req)) <> 0%nat) by by destruct (to_bytes _).
  destruct (writeFixSize_loop_all read write close Hw (S (length (to_bytes (dump req)))) (to_bytes (dump req))
              (Z.of_nat (length (to_bytes (dump req)))) 0 (Z.of_nat (length (to_bytes (dump req)))) w) as (w1 & E & Ha & Hp); [lia..|].
  exists w1. split_and!; [|done|].
  - by rewrite Ha, Nat2Z.id, slice_full.
  - unfold exchange, sendRequest, Stream.writeFixSize. run E. rewrite sint_id by (split; lia).
    rewrite (proj2 (Z.eqb_neq _ _)), (proj2 (Z.ltb_ge _ _)) by lia. done.
Qed.
End do_request.

(** * The pool *)

Record HttpConnection : Type := mkConn { c_createTime : Z; c_request : Z; c_connected : bool }.
Record HttpConnectionPool : Type := mkPool {
  m_maxSize : Z; m_maxAliveTime : Z; m_maxRequest : Z;
  m_conns : list nat;
  m_total : Z;
  p_heap : gmap nat HttpConnection;
  p_out : list nat
}.
Abbreviation Pl := HttpConnectionPool.
Definition new_pool (max_size max_alive_time max_request : Z) : Pl := mkPool max_size max_alive_time max_request [] 0 ∅ [].

Definition upd_pool (conns : list nat) (total : Z) (heap : gmap nat HttpConnection) (o : list nat) (p : Pl) : Pl :=
  mkPool (m_maxSize p) (m_maxAliveTime p) (m_maxRequest p) conns total heap o.

(** The [while] loop: the connections that are thrown away, the one that is
    taken, and those left. *)
Fixpoint take_valid (maxAlive now_ms : Z) (heap : gmap nat HttpConnection) (conns : list nat)
    : outcome (list nat * option nat * list nat) :=
  match conns with
  | [] => Ret ([], None, [])
  | a :: rest =>
      match heap !! a with
      | None => Crash NullDeref
      | Some conn =>
          if negb (c_connected conn) || (now_ms <? wrap 64 (c_createTime conn + maxAlive)) then
            r ← take_valid maxAlive now_ms heap rest;
            Ret (a :: fst (fst r), snd (fst r), snd r)
          else Ret ([], Some a, rest)
      end
  end.

Definition delete_conn (a : nat) : prog Pl unit := fun p =>
  match p_heap p !! a with
  | None => (Crash NullDeref, p)
  | Some _ => (Ret tt, upd_pool (m_conns p) (m_total p) (delete a (p_heap p)) (p_out p) p)
  end.
Fixpoint delete_conns (l : list nat) : prog Pl unit :=
  match l with [] => mret tt | a :: l' => delete_conn a;; delete_conns l' end.

(** [getConnection]: [reachable] is whether an address is found and the
    connection made; [fresh_addr] is where [new] puts the object. *)
Definition fresh_addr (p : Pl) : nat := fresh (dom (p_heap p)).
Definition getConnection (now_ms : Z) (reachable : bool) : prog Pl (option nat) :=
  p ← gets id;
  match take_valid (m_maxAliveTime p) now_ms (p_heap p) (m_conns p) with
  | Ret (invalid_conns, ptr, rest) =>
      modify (fun p => upd_pool rest (m_total p) (p_heap p) (p_out p) p);;
      delete_conns invalid_conns;;
      modify (fun p => upd_pool (m_conns p) (sint 32 (m_total p - Z.of_nat (length invalid_conns))) (p_heap p) (p_out p) p);;
      match ptr with
      | Some a => modify (fun p => upd_pool (m_conns p) (m_total p) (p_heap p) (a :: p_out p) p);; mret (Some a)
      | None =>
          if reachable then
            p ← gets id;
            let a := fresh_addr p in
            modify (fun p => upd_pool (m_conns p) (sint 32 (m_total p + 1)) (<[a := mkConn 0 0 true]> (p_heap p)) (a :: p_out p) p);;
            mret (Some a)
          else mret None
      end
  | Throw e => throw e
  | Crash f => crash f
  end.

(** [ReleasePtr], when the last [shared_ptr] to a connection goes. *)
Definition ReleasePtr (now_ms : Z) (a : nat) : prog Pl unit :=
  p ← gets id;
  match p_heap p !! a with
  | None => crash NullDeref
  | Some conn0 =>
      let conn := mkConn (c_createTime conn0) (wrap 64 (c_request conn0 + 1)) (c_connected conn0) in
      modify (fun p => upd_pool (m_conns p) (m_total p) (<[a := conn]> (p_heap p)) (base.filter (fun b => b <> a) (p_out p)) p);;
      if negb (c_connected conn) || (now_ms <=? wrap 64 (c_createTime conn + m_maxAliveTime p)) || (m_maxRequest p <=? c_request conn)
      then delete_conn a;; modify (fun p => upd_pool (m_conns p) (sint 32 (m_total p - 1)) (p_heap p) (p_out p) p)
      else modify (fun p => upd_pool (m_conns p ++ [a]) (m_total p) (p_heap p) (p_out p) p)
  end.

(** The connection of a pointer is lost. *)
Definition peer_close (a : nat) : prog Pl unit := modify (fun p => upd_pool (m_conns p) (m_total p)
  (alter (fun c => mkConn (c_createTime c) (c_request c) false) a (p_heap p)) (p_out p) p).

(** [doRequest(req, timeout_ms)]: [rt] is what sending gives, [rsp] what
    receiving gives; failing to receive closes the connection. The pointer is
    released at the end. *)
Definition doRequest (now_ms later_ms : Z) (reachable : bool) (rt : Z) (rsp : option HttpResponse)
    : prog Pl (Error * option HttpResponse) :=
  c ← getConnection now_ms reachable;
  match c with
  | None => mret (POOL_GET_CONNECTION, None)
  | Some a =>
      r ← (if rt =? 0 then mret (SEND_CLOSE_BY_PEER, None) else
           if rt <? 0 then mret (SEND_SOCKET_ERROR, None) else
           match rsp with
           | None => peer_close a;; mret (TIMEOUT, None)
           | Some x => mret (OK, Some x)
           end);
      ReleasePtr later_ms a;; mret r
  end.

(** * What the pool promises *)

Inductive pool_op : Type :=
| PoolGet (now_ms : Z) (reachable : bool)
| PoolRelease (now_ms : Z) (a : nat)
| PoolPeerClose (a : nat)
| PoolRequest (now_ms later_ms : Z) (reachable : bool) (rt : Z) (rsp : option HttpResponse).

(** Only a pointer that is held is released. *)
Definition pool_exec (o : pool_op) : prog Pl unit :=
  match o with
  | PoolGet now r => getConnection now r;; mret tt
  | PoolRelease now a => p ← gets id; if decide (a ∈ p_out p) then ReleasePtr now a else mret tt
  | PoolPeerClose a => peer_close a
  | PoolRequest now later r rt rsp => doRequest now later r rt rsp;; mret tt
  end.
Fixpoint pool_run (l : list pool_op) : prog Pl unit :=
  match l with [] => mret tt | o :: l' => pool_exec o;; pool_run l' end.

(** Every live connection is idle in the pool or held by one client; [m_total]
    counts them; an idle one has served fewer requests than the limit. *)
Record pool_ok (p : Pl) : Prop := {
  pool_ptrs : NoDup (m_conns p ++ p_out p);
  pool_live a : a ∈ m_conns p ++ p_out p <-> is_Some (p_heap p !! a);
  pool_total : m_total p = sint 32 (Z.of_nat (length (m_conns p ++ p_out p)));
  pool_idle a c : a ∈ m_conns p -> p_heap p !! a = Some c -> c_request c < m_maxRequest p
}.

Lemma sint_add32 x y : sint 32 (sint 32 x + y) = sint 32 (x + y).
Proof.
  unfold sint. replace ((x + 2 ^ (32 - 1)) mod 2 ^ 32 - 2 ^ (32 - 1) + y + 2 ^ (32 - 1)) with ((x + 2 ^ (32 - 1)) mod 2 ^ 32 + y) by lia.
  rewrite Zplus_mod_idemp_l. do 2 f_equal. lia.
Qed.

Lemma take_valid_spec maxAlive now heap conns : (forall a, a ∈ conns -> is_Some (heap !! a)) ->
  exists bad ptr rest, take_valid maxAlive now heap conns = Ret (bad, ptr, rest) /\ conns = bad ++ option_list ptr ++ rest /\
    (ptr = None -> rest = []) /\ (forall a c, ptr = Some a -> heap !! a = Some c -> c_connected c = true).
Proof.
  induction conns as [|a conns IH]; intros Hl; simpl; [by exists [], None, []|].
  destruct (Hl a ltac:(left)) as [c Hc]. rewrite Hc. destruct (negb (c_connected c) || _) eqn:E.
  - destruct IH as (bad & ptr & rest & -> & -> & Hn & Hs); [intros b Hb; apply Hl; by right|]. by exists (a :: bad), ptr, rest.
  - exists [], (Some a), conns. split_and!; try done. intros ? c' [= <-] Hc'. apply orb_false_iff in E as [E _].
    rewrite Hc in Hc'. simplify_eq. by destruct (c_connected c').
Qed.

Lemma delete_conns_spec l p : NoDup l -> (forall a, a ∈ l -> is_Some (p_heap p !! a)) ->
  exists h, delete_conns l p = (Ret tt, upd_pool (m_conns p) (m_total p) h (p_out p) p) /\
    forall b, h !! b = if decide (b ∈ l) then None else p_heap p !! b.
Proof.
  revert p. induction l as [|a l IH]; intros p Hnd Hl; simpl.
  - exists (p_heap p). split; [by destruct p|]. intros b. by destruct (decide (b ∈ [])) as [Hb|]; [set_solver|].
  - apply NoDup_cons in Hnd as [Ha Hnd]. destruct (Hl a ltac:(left)) as [c Hc].
    assert (delete_conn a p = (Ret tt, upd_pool (m_conns p) (m_total p) (delete a (p_heap p)) (p_out p) p)) as E
      by (unfold delete_conn; by rewrite Hc). run E.
    destruct (IH (upd_pool (m_conns p) (m_total p) (delete a (p_heap p)) (p_out p) p)) as (h & -> & Hh); [done|..].
    { intros b Hb. simpl. rewrite lookup_delete_ne by set_solver. apply Hl. by right. }
    exists h. split; [done|]. intros b. rewrite Hh. simpl. destruct (decide (b = a)) as [->|].
    + rewrite lookup_delete_eq. by destruct (decide (a ∈ l)), (decide (a ∈ a :: l)); try set_solver.
    + rewrite lookup_delete_ne by done. by destruct (decide (b ∈ l)), (decide (b ∈ a :: l)); try set_solver.
Qed.

(** A connection it hands out was not in use, and is connected. *)
Lemma getConnection_ok now r p : pool_ok p -> exists o p', getConnection now r p = (Ret o, p') /\ pool_ok p' /\
  (forall a, o = Some a -> a ∉ p_out p /\ p_out p' = a :: p_out p /\ exists c, p_heap p' !! a = Some c /\ c_connected c = true) /\
  (o = None -> r = false /\ p_out p' = p_out p /\ m_conns p' = []).
Proof.
  intros [Hnd Hlive Htot Hidle]. unfold getConnection. run_pure. unfold id.
  destruct (take_valid_spec (m_maxAliveTime p) now (p_heap p) (m_conns p)) as (bad & ptr & rest & -> & Hsplit & Hn & Hs).
  { intros a Ha. apply Hlive. set_solver. }
  run_pure. set (p1 := upd_pool rest _ _ _ _). rewrite Hsplit in Hnd, Hlive, Htot.
  assert (NoDup (option_list ptr ++ rest ++ p_out p) /\ NoDup bad /\ (forall a, a ∈ bad -> a ∉ option_list ptr ++ rest ++ p_out p)) as (Hnd2 & Hndb & Hbad).
  { rewrite <- !app_assoc in Hnd. apply NoDup_app in Hnd as (? & ? & ?). split_and!; try done. }
  destruct (delete_conns_spec bad p1) as (h & E & Hh); [done|intros a Ha; apply Hlive; set_solver|]. run E. run_pure. simpl.
  assert (sint 32 (m_total p - Z.of_nat (length bad)) = sint 32 (Z.of_nat (length (option_list ptr ++ rest ++ p_out p)))) as Ht.
  { rewrite Htot. rewrite <- Z.add_opp_r, sint_add32. f_equal. rewrite !length_app. lia. }
  assert (forall b, b ∈ option_list ptr ++ rest ++ p_out p <-> is_Some (h !! b)) as Hlv.
  { intros b. rewrite Hh. simpl. destruct (decide (b ∈ bad)) as [Hb|Hb]; [split; [by intros ?%(Hbad b Hb)|by intros []]|].
    rewrite <- Hlive. set_solver. }
  assert (forall b c, b ∈ rest -> h !! b = Some c -> c_request c < m_maxRequest p) as Hid.
  { intros b c Hb Hc. rewrite Hh in Hc. destruct (decide (b ∈ bad)); [done|]. apply (Hidle b c); [rewrite Hsplit; set_solver|done]. }
  destruct ptr as [a|]; simpl in *.
  - eexists _, _. split; [reflexivity|]. simpl. split.
    + split; simpl; [..|done].
      * rewrite <- Permutation_middle. done.
      * intros b. rewrite <- Hlv. set_solver.
      * rewrite Ht. simpl. rewrite !length_app. simpl. do 2 f_equal. lia.
    + split; [|done]. intros ? [= <-]. apply NoDup_cons in Hnd2 as [Hna _]. split_and!; [set_solver|done|].
      destruct (proj1 (Hlv a) ltac:(left)) as [c Hc]. exists c. split; [done|]. rewrite Hh in Hc. destruct (decide (a ∈ bad)); [done|].
      by apply (Hs a).
  - rewrite (Hn eq_refl) in *. destruct r.
    + eexists _, _. split; [reflexivity|]. simpl. set (p2 := upd_pool _ _ h _ _). set (a := fresh_addr p2).
      assert (h !! a = None) as Ha. { apply not_elem_of_dom. apply (is_fresh (dom h)). }
      assert (a ∉ p_out p) as Hao. { intros Hin. destruct (proj1 (Hlv a) Hin) as [c Hc]. congruence. }
      split; [split; simpl|].
      * by apply NoDup_cons.
      * intros b. rewrite elem_of_cons, Hlv. destruct (decide (b = a)) as [->|]; [rewrite lookup_insert_eq; naive_solver|].
        rewrite lookup_insert_ne by done. naive_solver.
      * rewrite Ht, sint_add32. f_equal. simpl. lia.
      * intros b c Hb. set_solver.
      * split; [|done]. intros ? [= <-]. split_and!; [done..|]. exists (mkConn 0 0 true). by rewrite lookup_insert_eq.
    + eexists _, _. split; [reflexivity|]. simpl. split; [split; simpl; try done|]. split; done.
Qed.

Lemma ReleasePtr_ok now a p : pool_ok p -> a ∈ p_out p -> exists p', ReleasePtr now a p = (Ret tt, p') /\ pool_ok p' /\
  p_out p' = base.filter (fun b => b <> a) (p_out p) /\ a ∉ p_out p'.
Proof.
  intros [Hnd Hlive Htot Hidle] Ha. destruct (proj1 (Hlive a)) as [c Hc]; [set_solver|]. unfold ReleasePtr. run_pure. unfold id. rewrite Hc.
  apply NoDup_app in Hnd as (Hnd1 & Hdis & Hnd2).
  assert (p_out p ≡ₚ a :: base.filter (fun b => b <> a) (p_out p)) as Hperm.
  { clear -Ha Hnd2. apply NoDup_Permutation; [done|constructor; [rewrite list_elem_of_filter; naive_solver|by apply NoDup_filter]|].
    intros x. rewrite elem_of_cons, list_elem_of_filter. destruct (decide (x = a)); naive_solver. }
  set (rest := base.filter (fun b => b <> a) (p_out p)) in *. assert (a ∉ rest) as Har by (unfold rest; rewrite list_elem_of_filter; naive_solver).
  assert (NoDup (m_conns p ++ rest)) as Hndr.
  { apply NoDup_app. split_and!; [done| |by apply NoDup_filter]. intros b Hb Hr. apply (Hdis b Hb). unfold rest in Hr. apply list_elem_of_filter in Hr. naive_solver. }
  assert (a ∉ m_conns p) as Hac by (intros Hin; by apply (Hdis a Hin)).
  assert (length (m_conns p ++ p_out p) = S (length (m_conns p ++ rest))) as Hlen by (rewrite !length_app, Hperm; simpl; lia).
  assert (forall b, b ∈ p_out p <-> b = a \/ b ∈ rest) as Hin by (intros b; unfold rest; rewrite list_elem_of_filter; destruct (decide (b = a)); naive_solver).
  assert (base.filter (fun b => b <> a) (p_out p) = rest) as Hrest by done. clearbody rest. run_pure. rewrite !Hrest. cbn [c_createTime c_request c_connected]. destruct (_ || _) eqn:E.
  - unfold delete_conn at 1. unfold mbind at 1, prog_bind at 1. simpl. rewrite lookup_insert_eq. eexists. split; [reflexivity|]. simpl.
    split; [|done]. split; simpl; try done.
    + intros b. rewrite delete_insert_eq. destruct (decide (b = a)) as [->|Hne].
      * rewrite lookup_delete_eq. split; [set_solver|by intros []].
      * rewrite lookup_delete_ne by done. rewrite <- Hlive, !elem_of_app, Hin. tauto.
    + rewrite Htot, <- Z.add_opp_r, sint_add32, Hlen. f_equal. lia.
    + intros b c' Hb. rewrite delete_insert_eq. destruct (decide (b = a)) as [->|]; [done|]. rewrite lookup_delete_ne by done. by apply Hidle.
  - eexists. split; [reflexivity|]. simpl. split; [|done]. apply orb_false_iff in E as [_ E%Z.leb_gt]. split; simpl.
    + rewrite <- app_assoc. simpl. rewrite <- Permutation_middle. apply NoDup_cons. split; [set_solver|done].
    + intros b. destruct (decide (b = a)) as [->|Hne]; [rewrite lookup_insert_eq; split; [done|set_solver]|].
      rewrite lookup_insert_ne by done. rewrite <- Hlive, !elem_of_app, Hin, list_elem_of_singleton. tauto.
    + rewrite Htot, Hlen, !length_app. simpl. do 2 f_equal. lia.
    + intros b c' Hb. destruct (decide (b = a)) as [->|]; [rewrite lookup_insert_eq; by intros [= <-]|].
      rewrite lookup_insert_ne by done. apply Hidle. set_solver.
Qed.

Lemma peer_close_ok a p : pool_ok p -> exists p', peer_close a p = (Ret tt, p') /\ pool_ok p' /\ p_out p' = p_out p.
Proof.
  intros [Hnd Hlive Htot Hidle]. eexists. split; [reflexivity|]. split; [|done]. split; simpl; try done.
  - intros b. rewrite Hlive. destruct (decide (b = a)) as [->|]; [rewrite lookup_alter_eq|by rewrite lookup_alter_ne].
    destruct (p_heap p !! a); simpl; split; intros [? ?]; try done; eauto.
  - intros b c Hb. destruct (decide (b = a)) as [->|]; [|rewrite lookup_alter_ne by done; by apply Hidle].
    rewrite lookup_alter_eq. destruct (p_heap p !! a) as [c0|] eqn:E; [|done]. simpl. intros [= <-]. simpl. by apply (Hidle a c0).
Qed.

Lemma doRequest_ok now later r rt rsp p : pool_ok p ->
  exists res p', doRequest now later r rt rsp p = (Ret res, p') /\ pool_ok p' /\ p_out p' = p_out p /\
    (res = (POOL_GET_CONNECTION, None) /\ r = false \/
     res = (if rt =? 0 then (SEND_CLOSE_BY_PEER, None) else if rt <? 0 then (SEND_SOCKET_ERROR, None)
            else match rsp with None => (TIMEOUT, None) | Some x => (OK, Some x) end)).
Proof.
  intros H. unfold doRequest. destruct (getConnection_ok now r p H) as (o & p1 & E1 & H1 & Hs & Hn). run E1.
  destruct o as [a|]; [|destruct (Hn eq_refl) as (-> & Ho & _); exists (POOL_GET_CONNECTION, None), p1; split_and!; try done; by left].
  destruct (Hs a eq_refl) as (Hna & Ho & _).
  set (res := if rt =? 0 then (SEND_CLOSE_BY_PEER, None) else if rt <? 0 then (SEND_SOCKET_ERROR, None)
              else match rsp with None => (TIMEOUT, None) | Some x => (OK, Some x) end).
  assert (exists p2, (if rt =? 0 then mret (SEND_CLOSE_BY_PEER, None) else if rt <? 0 then mret (SEND_SOCKET_ERROR, None) else
    match rsp with None => peer_close a;; mret (TIMEOUT, None) | Some x => mret (OK, Some x) end) p1 = (Ret res, p2) /\
    pool_ok p2 /\ p_out p2 = p_out p1) as (p2 & E2 & H2 & Ho2).
  { unfold res. destruct (rt =? 0); [by exists p1|]. destruct (rt <? 0); [by exists p1|]. destruct rsp; [by exists p1|].
    destruct (peer_close_ok a p1 H1) as (p2 & E & ?). run E. by exists p2. }
  run E2. destruct (ReleasePtr_ok later a p2 H2) as (p3 & E3 & H3 & Ho3 & _); [rewrite Ho2, Ho; left|]. run E3.
  exists res, p3. split_and!; [done..| |by right]. rewrite Ho3, Ho2, Ho, filter_cons_False by naive_solver.
  apply filter_all, Forall_forall. intros b Hb ->. done.
Qed.

Lemma pool_exec_ok o p : pool_ok p -> exists p', pool_exec o p = (Ret tt, p') /\ pool_ok p'.
Proof.
  intros H. destruct o as [now r|now a|a|now later r rt rsp]; simpl.
  - destruct (getConnection_ok now r p H) as (o & p' & E & H' & _). run E. by exists p'.
  - run_pure. unfold id. destruct (decide _) as [Ha|]; [|by exists p]. destruct (ReleasePtr_ok now a p H Ha) as (p' & E & H' & _). by exists p'.
  - destruct (peer_close_ok a p H) as (p' & E & H' & _). by exists p'.
  - destruct (doRequest_ok now later r rt rsp p H) as (res & p' & E & H' & _). run E. by exists p'.
Qed.

Lemma pool_run_ok l p : pool_ok p -> exists p', pool_run l p = (Ret tt, p') /\ pool_ok p'.
Proof.
  revert p. induction l as [|o l IH]; intros p H; simpl; [by exists p|].
  destruct (pool_exec_ok o p H) as (p1 & E & H1). run E. by apply IH.
Qed.
Lemma pool_ok_new s t r : pool_ok (new_pool s t r).
Proof. split; simpl; [constructor| |done|set_solver]. intros a. rewrite lookup_empty. split; [set_solver|by intros []]. Qed.

(** C20: The connection pool, after any sequence of calls that take, release and
    lose connections and make requests: no call touches a deleted connection;
    every live connection is idle or held by exactly one client; [m_total] is
    their number (as an [int32_t]); an idle connection has served fewer
    requests than the limit; and the next connection handed out is connected
    and was not in use. *)
Theorem pool_consistent max_size max_alive max_request (ops : list pool_op) (now : Z) (r : bool) :
  exists p, pool_run ops (new_pool max_size max_alive max_request) = (Ret tt, p) /\ pool_ok p /\
    exists o p', getConnection now r p = (Ret o, p') /\ pool_ok p' /\
      (forall a, o = Some a -> a ∉ p_out p /\ p_out p' = a :: p_out p /\ exists c, p_heap p' !! a = Some c /\ c_connected c = true) /\
      (o = None -> r = false).
Proof.
  destruct (pool_run_ok ops _ (pool_ok_new max_size max_alive max_request)) as (p & E & H). exists p. split_and!; [done..|].
  destruct (getConnection_ok now r p H) as (o & p' & E' & H' & Hs & Hn). exists o, p'. split_and!; try done. intros Ho. by apply Hn.
Qed.

(** A connection's creation time is never set, so the age limit of 32 bits of
    milliseconds is always in the past: a connection does not grow too old. *)
Lemma age_limit_never_applies maxAlive now heap conns : 0 <= maxAlive < 2 ^ 32 -> 2 ^ 32 <= now ->
  (forall a, a ∈ conns -> exists c, heap !! a = Some c /\ c_createTime c = 0 /\ c_connected c = true) ->
  take_valid maxAlive now heap conns = match conns with [] => Ret ([], None, []) | a :: rest => Ret ([], Some a, rest) end.
Proof.
  intros Hm Hn Hl. destruct conns as [|a rest]; [done|]. simpl. destruct (Hl a ltac:(left)) as (c & -> & -> & ->). simpl.
  rewrite wrap_id by (unfold in_uint; lia). by rewrite (proj2 (Z.ltb_ge _ _)) by lia.
Qed.

(** A request always names the host: the one of the pool (its virtual host, if
    it has one) unless the caller names one. *)
Lemma add_headers_no_host headers req : Forall (fun h => strcaseeq (fst h) "host" = false) headers ->
  snd (add_headers headers false req) = false.
Proof.
  intros H. revert req. induction H as [|[k v] headers Hk _ IH]; intros req; [done|]. simpl in *. rewrite Hk.
  destruct (strcaseeq k "connection"); apply IH.
Qed.
Lemma pool_request_host host vhost method url headers body : Forall (fun h => strcaseeq (fst h) "host" = false) headers ->
  getHeader "host" "" (doRequest_build host vhost method url headers body) = (if String.eqb vhost "" then host else vhost).
Proof.
  intros H. unfold doRequest_build. pose proof (add_headers_no_host headers
    (set_close false (setMethod method (setPath url (new_HttpRequest 0x11 true)))) H) as Hn.
  destruct (add_headers headers false _) as [req b]. simpl in Hn. subst b. unfold getHeader, find_or, setBody, setHeader, set_headers. simpl.
  rewrite map_find_abs, map_set_abs. change (fold_key "Host") with (fold_key "host"). by rewrite lookup_insert_eq.
Qed.
