(* ===== verification/Log.v ===== *)
(** [sherry/log.h], [sherry/log.cc]: levels, patterns, formatting, loggers and
    appenders.

    A position in the pattern is the suffix that starts there. Loggers and
    appenders are shared objects at addresses; what an appender writes is
    appended to [g_out], with the appender's address. [strftime] of the local
    time is an argument. *)

From Stdlib Require Import ZArith Lia Ascii String.
From stdpp Require Import base list gmap strings.
From S2P Require Import Prelude MachineInt StrUtil.

Definition of_str (s : str) : string := string_of_list_ascii s.
Definition str_of (s : string) : str := list_ascii_of_string s.

(** * Levels *)

Inductive Level : Type := UNKNOW | DEBUG | INFO | WARN | ERROR | FATAL.
#[export] Instance level_eq_dec : EqDecision Level.
Proof. solve_decision. Defined.
Definition level_num (l : Level) : nat :=
  match l with UNKNOW => 0 | DEBUG => 1 | INFO => 2 | WARN => 3 | ERROR => 4 | FATAL => 5 end.
Definition level_le (a b : Level) : bool := level_num a <=? level_num b.

Definition ToString (level : Level) : string :=
  match level with
  | DEBUG => "DEBUG" | INFO => "INFO" | WARN => "WARN" | ERROR => "ERROR" | FATAL => "FATAL" | UNKNOW => "UNKNOW"
  end.
Definition FromString (s : string) : Level :=
  if (s =? "debug")%string then DEBUG else if (s =? "info")%string then INFO else if (s =? "warn")%string then WARN else
  if (s =? "error")%string then ERROR else if (s =? "fatal")%string then FATAL else
  if (s =? "DEBUG")%string then DEBUG else if (s =? "INFO")%string then INFO else if (s =? "WARN")%string then WARN else
  if (s =? "ERROR")%string then ERROR else if (s =? "FATAL")%string then FATAL else UNKNOW.

(** * Patterns *)

Inductive FormatItem : Type :=
| MessageItem | LevelItem | ElapseItem | NameItem | NewLineItem | DateTimeItem (format : str) | FilenameItem | LineItem
| TabItem | FiberIdItem | ThreadIdItem | ThreadNameItem | StringItem (s : str).

Definition isalpha (c : ascii) : bool :=
  let n := nat_of_ascii c in ((65 <=? n) && (n <=? 90)) || ((97 <=? n) && (n <=? 122)).
Definition name_char (c : ascii) : bool := isalpha c || Ascii.eqb c "}" || Ascii.eqb c "{".

(** The inner loop, from [s] on, the [k]-th character behind the percent sign;
    [body] is all that is behind it. The result is [n] (as [k]), [fmt_status],
    [str] and [fmt]. *)
Fixpoint scan (body s : str) (k fmt_status fmt_begin : nat) (name fmt : str) : nat * nat * str * str :=
  match s with
  | [] => (k, fmt_status, name, fmt)
  | c :: s' =>
      if negb (name_char c) then (k, fmt_status, name, fmt) else
      if (fmt_status =? 0) && Ascii.eqb c "{" then scan body s' (S k) 1 k (take k body) fmt else
      if (fmt_status =? 1) && Ascii.eqb c "}" then (k, 2, name, slice (S fmt_begin) (k - fmt_begin - 1) body) else
      scan body s' (S k) fmt_status fmt_begin name fmt
  end.

(** An entry of [vec]: the text, the format and the kind. *)
Abbreviation entry := (str * str * bool)%type.
Definition flush (nstr : str) (vec : list entry) : list entry :=
  match nstr with [] => vec | _ => vec ++ [(nstr, [], false)] end.

Definition PATTERN_ERROR : str := str_of "<<pattrn_error>>".
(** The loop over the pattern: [vec] and [m_error]. *)
Fixpoint init_loop (fuel : nat) (rest nstr : str) (vec : list entry) (m_error : bool) : outcome (list entry * bool) :=
  match rest with
  | [] => Ret (flush nstr vec, m_error)
  | c :: body =>
      match fuel with
      | O => Crash NoFuel
      | S fuel' =>
          if negb (Ascii.eqb c "%") then init_loop fuel' body (nstr ++ [c]) vec m_error else
          if match body with p :: _ => Ascii.eqb p "%" | [] => false end
          then init_loop fuel' body (nstr ++ ["%"%char]) vec m_error else
          let '(k, fmt_status, name, fmt) := scan body body 0 0 0 [] [] in
          match fmt_status with
          | 0 => init_loop fuel' (drop k body) [] (flush nstr vec ++ [(take k body, fmt, true)]) m_error
          | 1 => init_loop fuel' body nstr (vec ++ [(PATTERN_ERROR, fmt, false)]) true
          | _ => init_loop fuel' (drop k body) [] (flush nstr vec ++ [(name, fmt, true)]) m_error
          end
      end
  end.

(** [s_format_items] *)
Definition format_item (name fmt : str) : option FormatItem :=
  match of_str name with
  | "m"%string => Some MessageItem | "p"%string => Some LevelItem | "r"%string => Some ElapseItem | "c"%string => Some NameItem
  | "n"%string => Some NewLineItem | "d"%string => Some (DateTimeItem (match fmt with [] => str_of "%Y-%m-%d %H:%M:%S" | _ => fmt end))
  | "f"%string => Some FilenameItem | "l"%string => Some LineItem | "T"%string => Some TabItem | "F"%string => Some FiberIdItem
  | "t"%string => Some ThreadIdItem | "N"%string => Some ThreadNameItem | _ => None
  end.
Definition item_of (e : entry) : FormatItem * bool :=
  let '(name, fmt, is_item) := e in
  if is_item : bool then
    match format_item name fmt with
    | None => (StringItem (str_of "<<error_format %" ++ name ++ str_of ">>"), true)
    | Some it => (it, false)
    end
  else (StringItem name, false).

Record LogFormatter : Type := mkFormatter { m_pattern : str; m_items : list FormatItem; m_error : bool }.
Definition new_LogFormatter (pattern : str) : outcome LogFormatter :=
  r ← init_loop (length pattern) pattern [] [] false;
  Ret (mkFormatter pattern (fst <$> (item_of <$> fst r)) (snd r || existsb snd (item_of <$> fst r))).

Record LogEvent : Type := mkEvent {
  e_file : str; e_line : Z; e_elapse : Z; e_threadId : Z; e_fiberId : Z; e_time : Z; e_threadName : str; e_content : str; e_logger : str
}.

(** [operator<<] of a signed number. *)
Definition dec_signed (n : Z) : str := if (n <? 0)%Z then "-"%char :: str_of (dec (- n)) else str_of (dec n).

Section format.
Variable strftime : str -> Z -> str.

Definition item_text (level : Level) (event : LogEvent) (it : FormatItem) : str :=
  match it with
  | MessageItem => e_content event
  | LevelItem => str_of (ToString level)
  | ElapseItem => dec_signed (e_elapse event)
  | NameItem => e_logger event
  | NewLineItem => ["010"%char]
  | DateTimeItem f => strftime f (e_time event)
  | FilenameItem => e_file event
  | LineItem => dec_signed (e_line event)
  | TabItem => ["009"%char]
  | FiberIdItem => dec_signed (e_fiberId event)
  | ThreadIdItem => dec_signed (e_threadId event)
  | ThreadNameItem => e_threadName event
  | StringItem s => s
  end.
Definition format (f : LogFormatter) (level : Level) (event : LogEvent) : str := concat (item_text level event <$> m_items f).
End format.

(** * Loggers and appenders *)

Record LogAppender : Type := mkAppender { a_level : Level; a_formatter : option LogFormatter; a_hasFormatter : bool }.
Record Logger : Type := mkLogger {
  l_name : string; l_level : Level; l_appenders : list nat; l_formatter : option LogFormatter; l_root : option nat
}.
Record logs : Type := mkLogs {
  g_appenders : gmap nat LogAppender;
  g_loggers : gmap nat Logger;
  g_names : gmap string nat;            (* [LoggerManager::m_loggers] *)
  g_root : nat;                         (* [LoggerManager::m_root] *)
  g_out : list (nat * str)
}.

Definition set_appender (a : nat) (v : LogAppender) (s : logs) : logs :=
  mkLogs (<[a := v]> (g_appenders s)) (g_loggers s) (g_names s) (g_root s) (g_out s).
Definition set_logger (l : nat) (v : Logger) (s : logs) : logs :=
  mkLogs (g_appenders s) (<[l := v]> (g_loggers s)) (g_names s) (g_root s) (g_out s).
Definition get_appender (a : nat) : prog logs LogAppender := fun s => of_option NullDeref (g_appenders s !! a) s.
Definition get_logger (l : nat) : prog logs Logger := fun s => of_option NullDeref (g_loggers s !! l) s.

Definition LogAppender_setFormatter (a : nat) (val : option LogFormatter) : prog logs unit :=
  ap ← get_appender a;
  modify (set_appender a (mkAppender (a_level ap) val (match val with Some _ => true | None => false end))).

Fixpoint pass_formatter (f : option LogFormatter) (l : list nat) : prog logs unit :=
  match l with
  | [] => mret tt
  | a :: l' =>
      ap ← get_appender a;
      (if a_hasFormatter ap then mret tt else modify (set_appender a (mkAppender (a_level ap) f (a_hasFormatter ap))));;
      pass_formatter f l'
  end.
Definition Logger_setFormatter (l : nat) (val : option LogFormatter) : prog logs unit :=
  lg ← get_logger l;
  modify (set_logger l (mkLogger (l_name lg) (l_level lg) (l_appenders lg) val (l_root lg)));;
  pass_formatter val (l_appenders lg).
Definition Logger_setFormatter_pattern (l : nat) (val : str) : prog logs unit := fun s =>
  match new_LogFormatter val with
  | Ret f => if m_error f then (Ret tt, s) else Logger_setFormatter l (Some f) s
  | Throw e => (Throw e, s)
  | Crash f => (Crash f, s)
  end.

Definition addAppender (l a : nat) : prog logs unit :=
  ap ← get_appender a;
  lg ← get_logger l;
  (match a_formatter ap with
   | Some _ => mret tt
   | None => modify (set_appender a (mkAppender (a_level ap) (l_formatter lg) (a_hasFormatter ap)))
   end);;
  modify (set_logger l (mkLogger (l_name lg) (l_level lg) (l_appenders lg ++ [a]) (l_formatter lg) (l_root lg))).
(** The loop of [delAppender] erases at its first turn, whatever it is given. *)
Definition delAppender (l a : nat) : prog logs unit :=
  lg ← get_logger l;
  modify (set_logger l (mkLogger (l_name lg) (l_level lg) (tail (l_appenders lg)) (l_formatter lg) (l_root lg))).
Definition clearAppenders (l : nat) : prog logs unit :=
  lg ← get_logger l;
  modify (set_logger l (mkLogger (l_name lg) (l_level lg) [] (l_formatter lg) (l_root lg))).

Section logging.
Variable strftime : str -> Z -> str.

(** [StdoutLogAppender::log]; [FileLogAppender::log] does the same with its
    file, which it reopens when the second has changed. *)
Definition appender_log (a : nat) (level : Level) (event : LogEvent) : prog logs unit :=
  ap ← get_appender a;
  if level_le (a_level ap) level then
    match a_formatter ap with
    | None => crash NullDeref
    | Some f => modify (fun s => mkLogs (g_appenders s) (g_loggers s) (g_names s) (g_root s)
                                   (g_out s ++ [(a, format strftime f level event)]))
    end
  else mret tt.
Fixpoint log_all (l : list nat) (level : Level) (event : LogEvent) : prog logs unit :=
  match l with [] => mret tt | a :: l' => appender_log a level event;; log_all l' level event end.

(** [Logger::log]; a logger without appenders hands the event to its root. *)
Fixpoint log (fuel : nat) (l : nat) (level : Level) (event : LogEvent) : prog logs unit :=
  lg ← get_logger l;
  if level_le (l_level lg) level then
    match l_appenders lg with
    | [] => match l_root lg with
            | None => mret tt
            | Some r => match fuel with O => crash NoFuel | S fuel' => log fuel' r level event end
            end
    | aps => log_all aps level event
    end
  else mret tt.
End logging.

(** [Logger(name)] and [LoggerManager::getLogger(name)]. *)
Definition DEFAULT_PATTERN : str := str_of "%d%T%t%T%N%T%F%T[%p]%T[%c]%T%f:%l%T%m%n".
Definition new_Logger (name : string) : outcome Logger :=
  f ← new_LogFormatter DEFAULT_PATTERN; Ret (mkLogger name DEBUG [] (Some f) None).
Definition getLogger (name : string) : prog logs nat := fun s =>
  match g_names s !! name with
  | Some l => (Ret l, s)
  | None =>
      match new_Logger name with
      | Ret lg =>
          let l := fresh (dom (g_loggers s)) in
          (Ret l, mkLogs (g_appenders s) (<[l := mkLogger (l_name lg) (l_level lg) (l_appenders lg) (l_formatter lg) (Some (g_root s))]> (g_loggers s))
                    (<[name := l]> (g_names s)) (g_root s) (g_out s))
      | Throw e => (Throw e, s)
      | Crash f => (Crash f, s)
      end
  end.

(** * Patterns are read back as they are written *)

Inductive unit_ : Type :=
| Lit (s : str)
| Item (c : ascii) (it : FormatItem).

Definition print_unit (u : unit_) : str := match u with Lit s => s | Item c _ => ["%"%char; c] end.
Definition print (us : list unit_) : str := concat (print_unit <$> us).
Definition unit_item (u : unit_) : FormatItem := match u with Lit s => StringItem s | Item _ it => it end.

(** A literal has no percent sign and is not next to another; what follows an
    item must not be read as part of its name. *)
Fixpoint pattern_ok (us : list unit_) : Prop :=
  match us with
  | [] => True
  | Lit s :: us' => s <> [] /\ Forall (fun c => c <> "%"%char) s /\ (match us' with Lit _ :: _ => False | _ => True end) /\ pattern_ok us'
  | Item c it :: us' =>
      isalpha c = true /\ format_item [c] [] = Some it /\
      (match us' with Lit (a :: _) :: _ => name_char a = false | _ => True end) /\ pattern_ok us'
  end.

Definition unit_entry (u : unit_) : entry := match u with Lit s => (s, [], false) | Item c _ => ([c], [], true) end.

Lemma print_cons u us : print (u :: us) = print_unit u ++ print us.
Proof. done. Qed.

Lemma isalpha_not_percent c : isalpha c = true -> c <> "%"%char.
Proof. intros H ->. done. Qed.
Lemma isalpha_not_brace c : isalpha c = true -> Ascii.eqb c "{" = false /\ Ascii.eqb c "}" = false.
Proof. intros H. split; apply Ascii.eqb_neq; intros ->; done. Qed.

(** A literal is collected. *)
Lemma init_loop_lit s fuel rest nstr vec err : Forall (fun c => c <> "%"%char) s ->
  init_loop (length s + fuel) (s ++ rest) nstr vec err = init_loop fuel rest (nstr ++ s) vec err.
Proof.
  intros H. revert nstr. induction H as [|c s Hc _ IH]; intros nstr; simpl; [by rewrite app_nil_r|].
  rewrite (proj2 (Ascii.eqb_neq _ _) Hc). simpl. by rewrite IH, <- app_assoc.
Qed.

(** An item ends where its letter does. *)
Lemma scan_item c rest : isalpha c = true -> match rest with a :: _ => name_char a = false | [] => True end ->
  scan (c :: rest) (c :: rest) 0 0 0 [] [] = (1, 0, [], []).
Proof.
  intros Hc Hr. destruct (isalpha_not_brace c Hc) as [H1 H2]. simpl. unfold name_char. rewrite Hc, H1, H2. simpl.
  destruct rest as [|a rest]; [done|]. simpl. by rewrite Hr.
Qed.
Lemma init_loop_item c rest fuel nstr vec err : isalpha c = true -> match rest with a :: _ => name_char a = false | [] => True end ->
  init_loop (S fuel) ("%"%char :: c :: rest) nstr vec err = init_loop fuel rest [] (flush nstr vec ++ [([c], [], true)]) err.
Proof.
  intros Hc Hr. pose proof (isalpha_not_percent c Hc) as Hp. cbn [init_loop]. rewrite Ascii.eqb_refl. cbn [negb].
  rewrite (proj2 (Ascii.eqb_neq _ _) Hp). by rewrite scan_item.
Qed.

Lemma print_after_item us : pattern_ok us -> match us with Lit (a :: _) :: _ => name_char a = false | _ => True end ->
  match print us with a :: _ => name_char a = false | [] => True end.
Proof. destruct us as [|[[|a s]|c it] us]; simpl; try done. naive_solver. Qed.

Lemma init_loop_units us fuel nstr vec err : pattern_ok us -> length (print us) <= fuel ->
  nstr = [] \/ match us with Lit _ :: _ => False | _ => True end ->
  init_loop fuel (print us) nstr vec err = Ret (flush nstr vec ++ (unit_entry <$> us), err).
Proof.
  revert fuel nstr vec. induction us as [|u us IH]; intros fuel nstr vec Hok Hf Hn; [destruct fuel; simpl; by rewrite app_nil_r|].
  rewrite print_cons in Hf |- *. rewrite length_app in Hf. destruct u as [s|c it]; simpl print_unit in *.
  - destruct Hok as (Hne & Hs & Hadj & Hok). destruct Hn as [->|[]].
    replace fuel with (length s + (fuel - length s)) by lia. rewrite init_loop_lit by done. rewrite IH by (done || lia || by right).
    destruct s; [done|]. simpl. by rewrite <- app_assoc.
  - destruct Hok as (Hc & Hit & Hafter & Hok). simpl in Hf. destruct fuel as [|fuel]; [lia|]. simpl app.
    rewrite init_loop_item by (done || by apply print_after_item). rewrite IH by (done || lia || by left). simpl. by rewrite <- app_assoc.
Qed.

(** A pattern is read back as it is written: the items of a formatter made
    from a sequence of literals (without percent signs) and items (a percent
    sign and one of the known letters, not followed by a letter or brace) are
    exactly that sequence, without error, so that an event is formatted as the
    literals and the items' texts in order. *)
Theorem pattern_roundtrip us : pattern_ok us ->
  new_LogFormatter (print us) = Ret (mkFormatter (print us) (unit_item <$> us) false) /\
  forall strftime level event f, new_LogFormatter (print us) = Ret f ->
    format strftime f level event = concat ((fun u => item_text strftime level event (unit_item u)) <$> us).
Proof.
  intros H. assert (new_LogFormatter (print us) = Ret (mkFormatter (print us) (unit_item <$> us) false)) as E.
  { unfold new_LogFormatter. rewrite init_loop_units by (done || by left). simpl.
    assert ((item_of <$> (unit_entry <$> us)) = (fun u => (unit_item u, false)) <$> us) as ->.
    { clear -H. induction us as [|[s|c it] us IH]; [done|..]; rewrite !fmap_cons; simpl in H.
      - destruct H as (_ & _ & _ & H). by rewrite (IH H).
      - destruct H as (_ & Hit & _ & H). rewrite (IH H). simpl. by rewrite Hit. }
    rewrite <- list_fmap_compose. do 2 f_equal. induction us as [|u us IH]; [done|]. simpl. apply IH.
    destruct u; naive_solver. }
  split; [done|]. intros strftime level event f Hf. rewrite E in Hf. injection Hf as <-. unfold format. simpl. by rewrite <- list_fmap_compose.
Qed.

Lemma pattern_roundtrip_witness :
  let us := [Lit (str_of "["); Item "p" LevelItem; Lit (str_of "] "); Item "m" MessageItem; Item "n" NewLineItem] in
  print us = str_of "[%p] %m%n" /\ exists f, new_LogFormatter (print us) = Ret f /\ m_error f = false /\
    format (fun _ _ => []) f WARN (mkEvent [] 0 0 0 0 0 [] (str_of "low") []) = str_of "[WARN] low" ++ ["010"%char].
Proof.
  intros us. split; [reflexivity|]. destruct (pattern_roundtrip us) as [E Hf].
  - repeat split; try done; repeat constructor; done.
  - eexists. split; [exact E|]. split; [reflexivity|]. rewrite (Hf (fun _ _ => []) WARN _ _ E). reflexivity.
Defined.

(** Two percent signs are not one: the second one starts an item. A format in
    braces leaves its closing brace in the text, and one with other characters
    than letters is an error. *)
Lemma pattern_defects :
  (exists f, new_LogFormatter (str_of "100%%m") = Ret f /\ m_items f = [StringItem (str_of "100%"); MessageItem]) /\
  (exists f, new_LogFormatter (str_of "%d{H}") = Ret f /\ m_items f = [DateTimeItem (str_of "H"); StringItem (str_of "}")]) /\
  (exists f, new_LogFormatter (str_of "%d{%H}") = Ret f /\ m_error f = true).
Proof. split_and!; eexists; (split; [vm_compute; reflexivity|reflexivity]). Qed.
Lemma default_pattern_ok : exists f, new_LogFormatter DEFAULT_PATTERN = Ret f /\ m_error f = false /\ length (m_items f) = 22.
Proof. eexists. split; [vm_compute; reflexivity|]. done. Qed.

Lemma level_roundtrip l : FromString (ToString l) = l.
Proof. by destruct l. Qed.

(** * Logging *)

Definition formatted (s : logs) (a : nat) : Prop := exists ap f, g_appenders s !! a = Some ap /\ a_formatter ap = Some f.
Record logs_ok (s : logs) : Prop := {
  ok_logger l lg : g_loggers s !! l = Some lg ->
    is_Some (l_formatter lg) /\ (forall a, a ∈ l_appenders lg -> formatted s a) /\ (l_root lg = None \/ l_root lg = Some (g_root s));
  ok_root : exists lg, g_loggers s !! g_root s = Some lg /\ l_root lg = None;
  ok_names n l : g_names s !! n = Some l -> is_Some (g_loggers s !! l)
}.

Lemma formatted_set_appender s a v b : formatted s b -> is_Some (a_formatter v) -> formatted (set_appender a v s) b.
Proof.
  intros (ap & f & Hb & Hf) [g Hg]. unfold formatted. simpl. destruct (decide (b = a)) as [->|].
  - exists v, g. by rewrite lookup_insert_eq.
  - exists ap, f. by rewrite lookup_insert_ne.
Qed.
Lemma logs_ok_set_appender s a v : logs_ok s -> is_Some (a_formatter v) -> logs_ok (set_appender a v s).
Proof.
  intros [H1 H2 H3] Hv. split; simpl; try done. intros l lg Hl. destruct (H1 l lg Hl) as (Hf & Ha & Hr). split_and!; try done.
  intros b Hb. apply formatted_set_appender; [by apply Ha|done].
Qed.
Lemma logs_ok_set_logger s l lg lg' : logs_ok s -> g_loggers s !! l = Some lg -> is_Some (l_formatter lg') ->
  (forall a, a ∈ l_appenders lg' -> formatted s a) -> l_root lg' = l_root lg -> logs_ok (set_logger l lg' s).
Proof.
  intros [H1 (rg & Hrg & Hrr) H3] Hl Hf Ha Hr. split; simpl.
  - intros k lk. destruct (decide (k = l)) as [->|]; [rewrite lookup_insert_eq|rewrite lookup_insert_ne by done; apply H1].
    intros [= <-]. destruct (H1 l lg Hl) as (_ & _ & Hroot). rewrite Hr. done.
  - destruct (decide (l = g_root s)) as [El|]; [|exists rg; by rewrite lookup_insert_ne].
    exists lg'. subst l. rewrite lookup_insert_eq, Hr. split; [done|]. congruence.
  - intros n k Hk. destruct (decide (k = l)) as [->|]; [by rewrite lookup_insert_eq|rewrite lookup_insert_ne by done; by eapply H3].
Qed.

Lemma pass_formatter_ok f l s : logs_ok s -> is_Some f -> (forall a, a ∈ l -> formatted s a) ->
  exists s', pass_formatter f l s = (Ret tt, s') /\ logs_ok s' /\ g_loggers s' = g_loggers s.
Proof.
  intros H Hf. revert s H. induction l as [|a l IH]; intros s H Hl; simpl; [by exists s|].
  destruct (Hl a ltac:(left)) as (ap & fa & Ha & Hfa).
  assert (get_appender a s = (Ret ap, s)) as E by (unfold get_appender; by rewrite Ha). run E.
  destruct (a_hasFormatter ap); run_pure.
  - apply IH; [done|]. intros b Hb. apply Hl. by right.
  - destruct (IH (set_appender a (mkAppender (a_level ap) f false) s)) as (s' & -> & H' & Hg).
    + by apply logs_ok_set_appender.
    + intros b Hb. apply formatted_set_appender; [apply Hl; by right|done].
    + by exists s'.
Qed.

Section deliver.
Variable strftime : str -> Z -> str.

(** What the appenders of a list write of an event. *)
Definition texts (s : logs) (level : Level) (event : LogEvent) (l : list nat) : list (nat * str) :=
  omap (fun a => ap ← g_appenders s !! a; f ← a_formatter ap;
                 if level_le (a_level ap) level then Some (a, format strftime f level event) else None) l.
Definition write_out (o : list (nat * str)) (s : logs) : logs := mkLogs (g_appenders s) (g_loggers s) (g_names s) (g_root s) (g_out s ++ o).

Lemma log_all_run l level event s : (forall a, a ∈ l -> formatted s a) ->
  log_all strftime l level event s = (Ret tt, write_out (texts s level event l) s).
Proof.
  intros Hl. unfold write_out. revert s Hl. induction l as [|a l IH]; intros s Hl; simpl; [rewrite app_nil_r; by destruct s|].
  destruct (Hl a ltac:(left)) as (ap & f & Ha & Hf). assert (get_appender a s = (Ret ap, s)) as E by (unfold get_appender; by rewrite Ha).
  assert (forall o, (forall b, b ∈ l -> formatted (write_out o s) b)) as Hl' by (intros o b Hb; apply (Hl b); by right).
  rewrite Ha. cbn [mbind option_bind]. rewrite Hf. unfold appender_log. rewrite bind_assoc. run E. rewrite Hf.
  destruct (level_le (a_level ap) level); run_pure.
  - rewrite IH by (apply (Hl' [(a, format strftime f level event)])). simpl. by rewrite <- app_assoc.
  - apply IH. intros b Hb. apply Hl. by right.
Qed.

(** The appenders an event of a logger goes to. *)
Definition targets (s : logs) (l : nat) (level : Level) : list nat :=
  match g_loggers s !! l with
  | None => []
  | Some lg =>
      if level_le (l_level lg) level then
        match l_appenders lg, l_root lg with
        | [], Some r => match g_loggers s !! r with
                        | Some rg => if level_le (l_level rg) level then l_appenders rg else []
                        | None => []
                        end
        | aps, _ => aps
        end
      else []
  end.

Lemma write_out_nil s : write_out [] s = s.
Proof. unfold write_out. rewrite app_nil_r. by destruct s. Qed.

Lemma log_run s l lg level event : logs_ok s -> g_loggers s !! l = Some lg ->
  log strftime 1 l level event s = (Ret tt, write_out (texts s level event (targets s l level)) s).
Proof.
  intros H Hl. assert (get_logger l s = (Ret lg, s)) as E by (unfold get_logger; by rewrite Hl). unfold targets. rewrite Hl.
  destruct (ok_logger _ H l lg Hl) as (_ & Ha & Hr). cbn [log]. run E.
  destruct (level_le (l_level lg) level); [|by rewrite write_out_nil].
  destruct (l_appenders lg) as [|a aps] eqn:Eaps; [|by rewrite log_all_run].
  destruct Hr as [->| ->]; [by rewrite write_out_nil|]. destruct (ok_root _ H) as (rg & Hrg & Hrr).
  assert (get_logger (g_root s) s = (Ret rg, s)) as E2 by (unfold get_logger; by rewrite Hrg). run E2. rewrite Hrg.
  destruct (level_le (l_level rg) level); [|by rewrite write_out_nil]. destruct (ok_logger _ H _ rg Hrg) as (_ & Hra & _).
  destruct (l_appenders rg) as [|b bs] eqn:Eb; [rewrite Hrr; by rewrite write_out_nil|]. by rewrite log_all_run.
Qed.

Inductive log_op : Type :=
| LogNewAppender (a : nat) (level : Level)
| LogAdd (l a : nat)
| LogDel (l a : nat)
| LogClear (l : nat)
| LogPattern (l : nat) (pattern : str)
| LogAppenderFormat (a : nat) (f : LogFormatter)
| LogGet (name : string)
| LogWrite (l : nat) (level : Level) (event : LogEvent).

(** Calls are on objects that exist. *)
Definition log_exec (o : log_op) : prog logs unit := fun s =>
  match o with
  | LogNewAppender a level => match g_appenders s !! a with Some _ => (Ret tt, s) | None => (Ret tt, set_appender a (mkAppender level None false) s) end
  | LogAdd l a => match g_loggers s !! l, g_appenders s !! a with Some _, Some _ => addAppender l a s | _, _ => (Ret tt, s) end
  | LogDel l a => match g_loggers s !! l with Some _ => delAppender l a s | None => (Ret tt, s) end
  | LogClear l => match g_loggers s !! l with Some _ => clearAppenders l s | None => (Ret tt, s) end
  | LogPattern l p => match g_loggers s !! l with Some _ => Logger_setFormatter_pattern l p s | None => (Ret tt, s) end
  | LogAppenderFormat a f => match g_appenders s !! a with Some _ => LogAppender_setFormatter a (Some f) s | None => (Ret tt, s) end
  | LogGet name => (getLogger name;; mret tt) s
  | LogWrite l level event => match g_loggers s !! l with Some _ => log strftime 1 l level event s | None => (Ret tt, s) end
  end.
Fixpoint log_exec_all (l : list log_op) : prog logs unit :=
  match l with [] => mret tt | o :: l' => log_exec o;; log_exec_all l' end.
End deliver.

Lemma new_Logger_ok name : exists f, new_Logger name = Ret (mkLogger name DEBUG [] (Some f) None).
Proof. destruct default_pattern_ok as (f & E & _). exists f. unfold new_Logger. by rewrite E. Qed.

(** Formatters can always be made: the loop over the pattern ends. *)
Lemma scan_k body s k st fb nm fm : k <= fst (fst (fst (scan body s k st fb nm fm))).
Proof.
  revert k st fb nm. induction s as [|c s IH]; intros k st fb nm; simpl; [done|].
  destruct (negb (name_char c)); [done|]. destruct (_ && _); [etransitivity; [|apply IH]; lia|].
  destruct (_ && _); [done|]. etransitivity; [|apply IH]. lia.
Qed.
Lemma init_loop_ends fuel rest nstr vec err : length rest <= fuel -> exists r, init_loop fuel rest nstr vec err = Ret r.
Proof.
  revert rest nstr vec err. induction fuel as [|fuel IH]; intros [|c body] nstr vec err Hf; simpl in Hf; try lia;
    [by eexists|by eexists|]. cbn [init_loop]. destruct (negb _); [apply IH; lia|]. destruct (match body with [] => _ | _ => _ end); [apply IH; lia|].
  destruct (scan body body 0 0 0 [] []) as [[[k st] nm] fm]. destruct st as [|[|st]]; apply IH; rewrite ?length_drop; lia.
Qed.
Lemma new_LogFormatter_total p : exists f, new_LogFormatter p = Ret f /\ m_pattern f = p.
Proof. unfold new_LogFormatter. destruct (init_loop_ends (length p) p [] [] false) as [r ->]; [done|]. simpl. by eexists. Qed.

Lemma addAppender_ok s l a lg ap : logs_ok s -> g_loggers s !! l = Some lg -> g_appenders s !! a = Some ap ->
  exists s', addAppender l a s = (Ret tt, s') /\ logs_ok s'.
Proof.
  intros H El Ea.
  unfold addAppender, get_appender, get_logger. unfold mbind, prog_bind. rewrite Ea. simpl. rewrite El. simpl.
  destruct (ok_logger _ H l lg El) as ([f Hf] & Ha & Hr). destruct (a_formatter ap) as [fa|] eqn:Efa.
  + eexists. split; [reflexivity|]. apply (logs_ok_set_logger s l lg); try done. simpl. intros b. rewrite elem_of_app, list_elem_of_singleton.
    intros [Hb| ->]; [by apply Ha|]. by exists ap, fa.
  + eexists. split; [reflexivity|]. apply (logs_ok_set_logger _ l lg); try done; simpl.
    * apply logs_ok_set_appender; [done|]. by rewrite Hf.
    * intros b. rewrite elem_of_app, list_elem_of_singleton. intros [Hb| ->].
      -- apply formatted_set_appender; [by apply Ha|]. by rewrite Hf.
      -- eexists _, f. simpl. by rewrite lookup_insert_eq.
Qed.
Lemma getLogger_ok s name : logs_ok s -> exists l s', getLogger name s = (Ret l, s') /\ logs_ok s'.
Proof.
  intros H.
  unfold getLogger. destruct (g_names s !! name) as [l|] eqn:En; [by exists l, s|].
  destruct (new_Logger_ok name) as (f & ->). eexists _, _. split; [reflexivity|].
  destruct H as [H1 (rg & Hrg & Hrr) H3]. set (l := fresh (dom (g_loggers s))).
  assert (g_loggers s !! l = None) as Hl by (apply not_elem_of_dom; apply is_fresh). split; simpl.
  + intros k lk. destruct (decide (k = l)) as [->|]; [rewrite lookup_insert_eq|rewrite lookup_insert_ne by done; apply H1].
    intros [= <-]. simpl. split_and!; [done|set_solver|by right].
  + exists rg. by rewrite lookup_insert_ne by congruence.
  + intros n k Hk. destruct (decide (k = l)) as [->|Hkl]; [by rewrite lookup_insert_eq|]. rewrite lookup_insert_ne by done.
    destruct (decide (n = name)) as [->|]; [rewrite lookup_insert_eq in Hk; congruence|]. rewrite lookup_insert_ne in Hk by done. by apply (H3 n).
Qed.

Lemma log_exec_ok strftime o s : logs_ok s -> exists s', log_exec strftime o s = (Ret tt, s') /\ logs_ok s'.
Proof.
  intros H. destruct o as [a level|l a|l a|l|l p|a f|name|l level event]; cbn [log_exec].
  - destruct (g_appenders s !! a) as [ap|] eqn:Ea; [by exists s|]. eexists. split; [reflexivity|].
    destruct H as [H1 H2 H3]. split; simpl; try done. intros l lg Hl. destruct (H1 l lg Hl) as (Hf & Ha & Hr). split_and!; try done.
    intros b Hb. destruct (Ha b Hb) as (ap & f & Hap & Hfb). exists ap, f. simpl. rewrite lookup_insert_ne by congruence. done.
  - destruct (g_loggers s !! l) as [lg|] eqn:El; [|by exists s]. destruct (g_appenders s !! a) as [ap|] eqn:Ea; [|by exists s].
    by apply (addAppender_ok s l a lg ap).
  - destruct (g_loggers s !! l) as [lg|] eqn:El; [|by exists s]. unfold delAppender, get_logger, mbind, prog_bind. rewrite El. simpl.
    eexists. split; [reflexivity|]. destruct (ok_logger _ H l lg El) as (Hf & Ha & Hr). apply (logs_ok_set_logger s l lg); try done.
    simpl. intros b Hb. apply Ha. destruct (l_appenders lg); [done|]. by right.
  - destruct (g_loggers s !! l) as [lg|] eqn:El; [|by exists s]. unfold clearAppenders, get_logger, mbind, prog_bind. rewrite El. simpl.
    eexists. split; [reflexivity|]. destruct (ok_logger _ H l lg El) as (Hf & _). apply (logs_ok_set_logger s l lg); try done. simpl. set_solver.
  - destruct (g_loggers s !! l) as [lg|] eqn:El; [|by exists s]. unfold Logger_setFormatter_pattern.
    destruct (new_LogFormatter_total p) as (f & -> & _). destruct (m_error f); [by exists s|].
    unfold Logger_setFormatter, get_logger. unfold mbind, prog_bind. rewrite El. simpl.
    destruct (ok_logger _ H l lg El) as (Hf & Ha & Hr).
    destruct (pass_formatter_ok (Some f) (l_appenders lg) (set_logger l (mkLogger (l_name lg) (l_level lg) (l_appenders lg) (Some f) (l_root lg)) s))
      as (s' & -> & H' & _); [by apply (logs_ok_set_logger s l lg)|done|exact Ha|by exists s'].
  - destruct (g_appenders s !! a) as [ap|] eqn:Ea; [|by exists s]. unfold LogAppender_setFormatter, get_appender, mbind, prog_bind. rewrite Ea. simpl.
    eexists. split; [reflexivity|]. by apply logs_ok_set_appender.
  - destruct (getLogger_ok s name H) as (l & s' & E & H'). run E. by exists s'.
  - destruct (g_loggers s !! l) as [lg|] eqn:El; [|by exists s]. rewrite (log_run strftime s l lg level event H El).
    eexists. split; [reflexivity|]. destruct H as [H1 H2 H3]. by split.
Qed.

(** [LoggerManager()]: the root logger with an appender to the console. *)
Definition new_logs (level : Level) (f : LogFormatter) : logs :=
  mkLogs {[ 0 := mkAppender level (Some f) false ]} {[ 0 := mkLogger "root" DEBUG [0] (Some f) None ]} {[ "root"%string := 0 ]} 0 [].

(** Logging never dereferences a missing formatter and loses nothing: after
    any sequence of calls that make and configure loggers and appenders and
    log events, an event logged at a level the logger admits is written once
    by each of its appenders that admits the level, or by those of the root if
    it has none, in order, in the appender's format; nothing else is written. *)
Theorem log_delivers strftime level0 f0 (ops : list log_op) l level event :
  exists s, log_exec_all strftime ops (new_logs level0 f0) = (Ret tt, s) /\
    forall lg, g_loggers s !! l = Some lg ->
      exists s', log strftime 1 l level event s = (Ret tt, s') /\
        g_out s' = g_out s ++ texts strftime s level event (targets s l level) /\
        Forall (fun a => exists ap f, g_appenders s !! a = Some ap /\ a_formatter ap = Some f) (targets s l level).
Proof.
  assert (logs_ok (new_logs level0 f0)) as H0.
  { split; simpl.
    - intros k lg [<- <-]%lookup_singleton_Some. simpl. split_and!; [done| |by left]. intros a ->%list_elem_of_singleton.
      eexists _, f0. simpl. by rewrite lookup_singleton_eq.
    - eexists. by rewrite lookup_singleton_eq.
    - intros n k [_ <-]%lookup_singleton_Some. by rewrite lookup_singleton_eq. }
  assert (exists s, log_exec_all strftime ops (new_logs level0 f0) = (Ret tt, s) /\ logs_ok s) as (s & E & H).
  { revert H0. generalize (new_logs level0 f0). induction ops as [|o ops IH]; intros s H; simpl; [by exists s|].
    destruct (log_exec_ok strftime o s H) as (s1 & E1 & H1). run E1. by apply IH. }
  exists s. split; [done|]. intros lg Hl. rewrite (log_run strftime s l lg level event H Hl). eexists. split; [reflexivity|]. split; [done|].
  unfold targets. rewrite Hl. destruct (ok_logger _ H l lg Hl) as (_ & Ha & Hr). destruct (level_le _ _); [|done].
  destruct (l_appenders lg) as [|a aps] eqn:Ea; [|apply Forall_forall; intros b Hb; by apply Ha].
  destruct (l_root lg) as [r|] eqn:Er; [|done]. destruct (g_loggers s !! r) as [rg|] eqn:Erg; [|done]. destruct (level_le _ _); [|done].
  destruct (ok_logger _ H r rg Erg) as (_ & Hra & _). apply Forall_forall. intros b Hb. by apply Hra.
Qed.

Lemma log_delivers_witness :
  let f0 := mkFormatter [] [MessageItem] false in
  exists s, log_exec_all (fun _ _ => []) [LogGet "ota"; LogNewAppender 7 ERROR; LogAdd 0 7] (new_logs DEBUG f0) = (Ret tt, s) /\
    exists s', log (fun _ _ => []) 1 1 INFO (mkEvent [] 0 0 0 0 0 [] (str_of "hi") []) s = (Ret tt, s') /\ g_out s' = [(0, str_of "hi")].
Proof.
  intros f0. destruct (log_delivers (fun _ _ => []) DEBUG f0 [LogGet "ota"; LogNewAppender 7 ERROR; LogAdd 0 7] 1 INFO
    (mkEvent [] 0 0 0 0 0 [] (str_of "hi") [])) as (s & E & H).
  exists s. split; [exact E|].
  assert (Es : s = snd (log_exec_all (fun _ _ => []) [LogGet "ota"; LogNewAppender 7 ERROR; LogAdd 0 7] (new_logs DEBUG f0))) by (by rewrite E).
  assert (exists lg, g_loggers s !! 1 = Some lg) as [lg Hlg] by (rewrite Es; eexists; vm_compute; reflexivity).
  destruct (H lg Hlg) as (s' & E' & Ho & _). exists s'. split; [exact E'|]. rewrite Ho, Es. vm_compute. reflexivity.
Defined.

(** [delAppender] removes the first appender, not the one it is given. *)
Lemma delAppender_removes_first : let f := mkFormatter [] [] false in
  let s := mkLogs {[ 5 := mkAppender DEBUG (Some f) true; 6 := mkAppender DEBUG (Some f) true ]}
             {[ 0 := mkLogger "x" DEBUG [5; 6] (Some f) None ]} ∅ 0 [] in
  exists s', delAppender 0 6 s = (Ret tt, s') /\ l_appenders <$> g_loggers s' !! 0 = Some [6].
Proof. eexists. split; [vm_compute; reflexivity|]. reflexivity. Qed.
