(* ===== verification/Config.v ===== *)
(** [sherry/config.h] (class [ConfigVar] and the registry) and [sherry/config.cc].

    Variables are shared objects at addresses, found by name; [v_type] stands
    for the template argument that [dynamic_pointer_cast] compares, and each
    type has its own counter of listener ids, taken not to overflow. What a
    listener is called with is recorded in [c_calls], in order. Conversions
    from text (the [LexicalCast] of a type; [None] is an exception, which is
    caught) and the printing of a YAML node are arguments; the node is the
    tree of the YAML library. *)

From Stdlib Require Import ZArith Lia Ascii String.
From stdpp Require Import base list gmap strings sorting.
From S2P Require Import Prelude MachineInt Http.

Inductive Node : Type :=
| Scalar (s : string)
| Map (l : list (string * Node))
| Sequence (l : list Node)
| Null.

(** [name.find_first_not_of(chars) == npos] *)
Definition lower_dot_digit (last : nat) (c : ascii) : bool :=
  let n := nat_of_ascii c in ((97 <=? n) && (n <=? 122)) || Ascii.eqb c "." || Ascii.eqb c "_" || ((48 <=? n) && (n <=? last)).
Fixpoint all_chars (p : ascii -> bool) (s : string) : bool :=
  match s with EmptyString => true | String c s' => p c && all_chars p s' end.
(** The two character sets: that of [ListAllMember] has no 9. *)
Definition list_name_ok (s : string) : bool := all_chars (lower_dot_digit 56) s.
Definition lookup_name_ok (s : string) : bool := all_chars (lower_dot_digit 57) s.

Section config.
Context {V : Type} `{EqDecision V}.

Record ConfigVar : Type := mkVar { v_type : nat; v_val : V; v_cbs : list nat }.
Record config : Type := mkConfig {
  c_vars : gmap nat ConfigVar;
  c_datas : gmap string nat;                       (* [GetDatas()] *)
  c_next : gmap nat nat;                           (* [s_fun_id], by type *)
  c_calls : list (nat * nat * V * V)               (* variable, listener, old, new *)
}.
Definition set_var (a : nat) (v : ConfigVar) (s : config) : config := mkConfig (<[a := v]> (c_vars s)) (c_datas s) (c_next s) (c_calls s).
Definition get_var (a : nat) : prog config ConfigVar := fun s => of_option NullDeref (c_vars s !! a) s.

Definition getValue (a : nat) : prog config V := v ← get_var a; mret (v_val v).
Definition setValue (a : nat) (val : V) : prog config unit :=
  v ← get_var a;
  if decide (val = v_val v) then mret tt else
  modify (fun s => mkConfig (c_vars s) (c_datas s) (c_next s) (c_calls s ++ ((fun cb => (a, cb, v_val v, val)) <$> v_cbs v)));;
  modify (set_var a (mkVar (v_type v) val (v_cbs v))).
(** Ids grow, so the map of listeners is in the order they were added. *)
Definition addListener (a : nat) : prog config nat :=
  v ← get_var a;
  s ← gets id;
  let key := S (default 0 (c_next s !! v_type v)) in
  modify (fun s => mkConfig (<[a := mkVar (v_type v) (v_val v) (v_cbs v ++ [key])]> (c_vars s)) (c_datas s) (<[v_type v := key]> (c_next s)) (c_calls s));;
  mret key.
Definition delListener (a key : nat) : prog config unit :=
  v ← get_var a; modify (set_var a (mkVar (v_type v) (v_val v) (base.filter (fun k => k <> key) (v_cbs v)))).
Definition clearListener (a : nat) : prog config unit :=
  v ← get_var a; modify (set_var a (mkVar (v_type v) (v_val v) [])).
(** The listener itself is its id; [None] is the empty function. *)
Definition getListener (a key : nat) : prog config (option nat) :=
  v ← get_var a; mret (if decide (key ∈ v_cbs v) then Some key else None).

Variable from_str : nat -> string -> option V.
Variable to_str : nat -> V -> option string.
Variable emit : Node -> string.                    (* [ss << node] *)

(** [toString]: the exception is caught. *)
Definition toString (a : nat) : prog config string := v ← get_var a; mret (default ""%string (to_str (v_type v) (v_val v))).
(** [fromString]: the exception is caught; the result is always false. *)
Definition fromString (a : nat) (val : string) : prog config bool :=
  v ← get_var a;
  match from_str (v_type v) val with
  | None => mret false
  | Some x => setValue a x;; mret false
  end.

(** [Lookup<T>(name, default)]; [None] is the null pointer. *)
Definition Lookup (type : nat) (name : string) (default_value : V) : prog config (option nat) := fun s =>
  let create :=
    if negb (lookup_name_ok name) then (Throw name, s) else
    let a := fresh (dom (c_vars s)) in
    (Ret (Some a), mkConfig (<[a := mkVar type default_value []]> (c_vars s)) (<[name := a]> (c_datas s)) (c_next s) (c_calls s)) in
  match c_datas s !! name with
  | Some a => match c_vars s !! a with
              | None => (Crash NullDeref, s)
              | Some v => if v_type v =? type then create else (Ret None, s)
              end
  | None => create
  end.
(** [Lookup<T>(name)] *)
Definition Lookup_get (type : nat) (name : string) : prog config (option nat) := fun s =>
  match c_datas s !! name with
  | None => (Ret None, s)
  | Some a => match c_vars s !! a with
              | None => (Crash NullDeref, s)
              | Some v => (Ret (if v_type v =? type then Some a else None), s)
              end
  end.
Definition LookupBase (name : string) : prog config (option nat) := gets (fun s => c_datas s !! name).

(** [Vist]: the variables the callback gets, in the order of the names. *)
Definition Vist : prog config (list nat) :=
  gets (fun s => snd <$> merge_sort (fun x y => String.le (fst x) (fst y)) (map_to_list (c_datas s))).

Definition extend (prefix k : string) : string := if String.eqb prefix "" then k else prefix +:+ "." +:+ k.
(** [ListAllMember]: what is appended to [output]. *)
Fixpoint ListAllMember (prefix : string) (node : Node) : list (string * Node) :=
  if negb (list_name_ok prefix) then [] else
  (prefix, node) ::
  match node with
  | Map l =>
      (fix go (l : list (string * Node)) : list (string * Node) :=
         match l with
         | [] => []
         | (k, n) :: l' => ListAllMember (extend prefix k) n ++ go l'
         end) l
  | _ => []
  end.

Definition node_text (n : Node) : string := match n with Scalar s => s | _ => emit n end.
Definition load_one (e : string * Node) : prog config unit :=
  if String.eqb (fst e) "" then mret tt else
  var ← LookupBase (lower (fst e));
  match var with
  | None => mret tt
  | Some a => fromString a (node_text (snd e));; mret tt
  end.
Fixpoint load_all (l : list (string * Node)) : prog config unit :=
  match l with [] => mret tt | e :: l' => load_one e;; load_all l' end.
Definition LoadFromYaml (root : Node) : prog config unit := load_all (ListAllMember "" root).

(** ** The state of the registry *)
Inductive config_op : Type :=
| OpLookup (type : nat) (name : string) (d : V)
| OpSet (a : nat) (v : V)
| OpAdd (a : nat)
| OpDel (a key : nat)
| OpClear (a : nat)
| OpFrom (a : nat) (t : string)
| OpLoad (root : Node).
Definition exec_op (o : config_op) : prog config unit :=
  match o with
  | OpLookup t n d => Lookup t n d;; mret tt
  | OpSet a v => setValue a v
  | OpAdd a => addListener a;; mret tt
  | OpDel a k => delListener a k
  | OpClear a => clearListener a
  | OpFrom a t => fromString a t;; mret tt
  | OpLoad root => LoadFromYaml root
  end.
Definition no_config : config := mkConfig ∅ ∅ ∅ [].
Definition after_ops (ops : list config_op) : config := foldl (fun s o => post (exec_op o) s) no_config ops.

(** Every registered pointer leads to a variable. *)
Definition cfg_ok (s : config) : Prop := forall name a, c_datas s !! name = Some a -> is_Some (c_vars s !! a).
Definition grows (s s' : config) : Prop := c_datas s' = c_datas s /\ forall a, is_Some (c_vars s !! a) -> is_Some (c_vars s' !! a).

Lemma grows_refl s : grows s s. Proof. by split. Qed.
Lemma grows_trans s1 s2 s3 : grows s1 s2 -> grows s2 s3 -> grows s1 s3.
Proof. intros [D1 V1] [D2 V2]. split; [by rewrite D2|auto]. Qed.
Lemma cfg_ok_grows s s' : grows s s' -> cfg_ok s -> cfg_ok s'.
Proof. intros [D Vs] H n a. rewrite D. eauto. Qed.
Lemma grows_var a v s ne cs : grows s (mkConfig (<[a := v]> (c_vars s)) (c_datas s) ne cs).
Proof. split; [done|]. intros b Hb. simpl. destruct (decide (a = b)) as [->|]; simplify_map_eq; eauto. Qed.

(** One assignment, and one text. *)
Definition assign (a : nat) (v : ConfigVar) (val : V) (s : config) : config :=
  if decide (val = v_val v) then s else
  mkConfig (<[a := mkVar (v_type v) val (v_cbs v)]> (c_vars s)) (c_datas s) (c_next s)
           (c_calls s ++ ((fun cb => (a, cb, v_val v, val)) <$> v_cbs v)).
Lemma setValue_run a v val s : c_vars s !! a = Some v -> setValue a val s = (Ret tt, assign a v val s).
Proof.
  intros H. unfold setValue. erewrite bind_ret by (unfold get_var; by rewrite H). unfold assign.
  by case_decide.
Qed.
Lemma fromString_run a v t s : c_vars s !! a = Some v ->
  fromString a t s = (Ret false, match from_str (v_type v) t with Some x => assign a v x s | None => s end).
Proof.
  intros H. unfold fromString. erewrite bind_ret by (unfold get_var; by rewrite H).
  destruct from_str; [|done]. by erewrite bind_ret by by apply setValue_run.
Qed.
Lemma get_var_none a s : c_vars s !! a = None -> get_var a s = (Crash NullDeref, s).
Proof. intros H. unfold get_var. by rewrite H. Qed.
Lemma assign_grows a v x s : grows s (assign a v x s).
Proof. unfold assign. case_decide; [apply grows_refl|apply grows_var]. Qed.
Lemma fromString_grows a t s : grows s (post (fromString a t) s).
Proof.
  destruct (c_vars s !! a) as [v|] eqn:E; unfold post.
  - rewrite (fromString_run a v) by done. simpl. destruct from_str; [apply assign_grows|apply grows_refl].
  - unfold fromString. erewrite bind_crash by by apply get_var_none. apply grows_refl.
Qed.
Lemma load_one_grows e s : grows s (post (load_one e) s).
Proof.
  unfold load_one. destruct String.eqb; [apply grows_refl|]. unfold post, LookupBase. run_pure.
  destruct (c_datas s !! _) as [a|]; [|apply grows_refl].
  pose proof (fromString_grows a (node_text (snd e)) s) as G. revert G. unfold post, mbind, prog_bind.
  by destruct fromString as [[] ?].
Qed.
Lemma load_all_grows l s : grows s (post (load_all l) s).
Proof.
  revert s; induction l as [|e l IH]; intros s; [apply grows_refl|].
  pose proof (load_one_grows e s) as G. revert G. unfold post. cbn [load_all]. unfold mbind, prog_bind.
  destruct (load_one e s) as [[] s1]; try done. intros G. eapply grows_trans; [exact G|apply IH].
Qed.
Lemma Lookup_ok t n d s : cfg_ok s -> cfg_ok (post (Lookup t n d) s).
Proof.
  intros H. unfold post, Lookup.
  assert (C : cfg_ok (mkConfig (<[fresh (dom (c_vars s)) := mkVar t d []]> (c_vars s))
                 (<[n := fresh (dom (c_vars s))]> (c_datas s)) (c_next s) (c_calls s))).
  { intros m a. simpl. destruct (decide (n = m)) as [->|]; simplify_map_eq; [intros [= <-]; simplify_map_eq; eauto|].
    intros E. destruct (decide (fresh (dom (c_vars s)) = a)) as [->|]; simplify_map_eq; eauto. }
  repeat case_match; simpl; auto.
Qed.
Lemma exec_op_ok o s : cfg_ok s -> cfg_ok (post (exec_op o) s).
Proof.
  intros H. assert (G : grows s (post (exec_op o) s) -> cfg_ok (post (exec_op o) s)) by eauto using cfg_ok_grows.
  destruct o; simpl in *.
  - pose proof (Lookup_ok type name d s H) as P. revert P. unfold post, mbind, prog_bind. by destruct Lookup as [[] ?].
  - apply G. unfold post. destruct (c_vars s !! a) as [w|] eqn:E; [rewrite (setValue_run a w) by done; apply assign_grows|].
    unfold setValue. erewrite bind_crash by by apply get_var_none. apply grows_refl.
  - apply G. unfold post, addListener, mbind, prog_bind, get_var. destruct (c_vars s !! a); [apply grows_var|apply grows_refl].
  - apply G. unfold post, delListener, mbind, prog_bind, get_var. destruct (c_vars s !! a); [apply grows_var|apply grows_refl].
  - apply G. unfold post, clearListener, mbind, prog_bind, get_var. destruct (c_vars s !! a); [apply grows_var|apply grows_refl].
  - apply G. pose proof (fromString_grows a t s) as P. revert P. unfold post, mbind, prog_bind. by destruct fromString as [[] ?].
  - apply G, load_all_grows.
Qed.
Lemma after_ops_ok ops : cfg_ok (after_ops ops).
Proof.
  unfold after_ops. assert (H : cfg_ok no_config) by by intros n a. revert H. generalize no_config.
  induction ops as [|o ops IH]; intros s H; simpl; [done|]. apply IH. by apply exec_op_ok.
Qed.

(** ** Loading a document *)
(** The texts the entries [l] give the variable at [a], in order. *)
Definition texts_for (datas : gmap string nat) (a : nat) (l : list (string * Node)) : list string :=
  omap (fun e => if negb (String.eqb (fst e) "") && bool_decide (datas !! lower (fst e) = Some a)
                 then Some (node_text (snd e)) else None) l.
(** The changes a variable makes when it is assigned [l] in order. *)
Fixpoint transitions (v : V) (l : list V) : list (V * V) :=
  match l with [] => [] | x :: l' => if decide (x = v) then transitions v l' else (v, x) :: transitions x l' end.
Definition calls_of (a : nat) (s : config) : list (nat * nat * V * V) := base.filter (fun c => fst (fst (fst c)) = a) (c_calls s).
Definition notified (a : nat) (v : ConfigVar) (l : list V) : list (nat * nat * V * V) :=
  transitions (v_val v) l ≫= fun '(x, y) => (fun cb => (a, cb, x, y)) <$> v_cbs v.
(** What [l], the values assigned in order, does to the variable at [a]. *)
Definition assigned (a : nat) (l : list V) (s s' : config) : Prop :=
  forall v, c_vars s !! a = Some v ->
    c_vars s' !! a = Some (mkVar (v_type v) (default (v_val v) (last l)) (v_cbs v)) /\
    calls_of a s' = calls_of a s ++ notified a v l.

Lemma assigned_nil a s : assigned a [] s s.
Proof. intros [t x c] H. rewrite H. unfold notified. by rewrite app_nil_r. Qed.
Lemma filter_calls_same a (l : list nat) x y :
  base.filter (fun c : nat * nat * V * V => fst (fst (fst c)) = a) ((fun cb => (a, cb, x, y)) <$> l) = (fun cb => (a, cb, x, y)) <$> l.
Proof. induction l; csimpl; [done|]. rewrite filter_cons_True by done. by f_equal. Qed.
Lemma filter_calls_other a b (l : list nat) x y : b <> a ->
  base.filter (fun c : nat * nat * V * V => fst (fst (fst c)) = a) ((fun cb => (b, cb, x, y)) <$> l) = [].
Proof. intros N. induction l; csimpl; [done|]. by rewrite filter_cons_False. Qed.
Lemma assign_self a v x s : c_vars s !! a = Some v -> assigned a [x] s (assign a v x s).
Proof.
  intros H v' E. assert (v' = v) as -> by congruence. unfold assign, notified, calls_of. simpl. case_decide as D.
  - subst x. rewrite H, app_nil_r. by destruct v.
  - simpl. simplify_map_eq. by rewrite filter_app, filter_calls_same, app_nil_r.
Qed.
Lemma assign_other a b v x s : b <> a -> assigned a [] s (assign b v x s).
Proof.
  intros N v' E. unfold assign, notified, calls_of. simpl. rewrite app_nil_r.
  case_decide; simpl; [|simplify_map_eq; rewrite filter_app, filter_calls_other, app_nil_r by done]; rewrite ?E; by destruct v'.
Qed.
Lemma transitions_app v l1 l2 : transitions v (l1 ++ l2) = transitions v l1 ++ transitions (default v (last l1)) l2.
Proof.
  revert v; induction l1 as [|x l1 IH]; intros v; [done|]. simpl.
  rewrite last_cons. case_decide as D; rewrite IH; subst; destruct (last l1); done.
Qed.
Lemma assigned_trans a l1 l2 s1 s2 s3 : assigned a l1 s1 s2 -> assigned a l2 s2 s3 -> assigned a (l1 ++ l2) s1 s3.
Proof.
  intros H1 H2 v E. destruct (H1 v E) as [E1 C1]. destruct (H2 _ E1) as [E2 C2]. simpl in *. split.
  - rewrite E2, last_app. by destruct (last l2).
  - rewrite C2, C1. unfold notified. simpl. by rewrite transitions_app, bind_app, app_assoc.
Qed.
Lemma load_one_run e s : cfg_ok s -> exists s', load_one e s = (Ret tt, s') /\ c_datas s' = c_datas s /\
  forall a v, c_vars s !! a = Some v -> assigned a (omap (from_str (v_type v)) (texts_for (c_datas s) a [e])) s s'.
Proof.
  intros H. unfold load_one, texts_for. csimpl. destruct String.eqb; simpl.
  { exists s. split_and!; [done..|]. intros. apply assigned_nil. }
  unfold LookupBase. run_pure. destruct (c_datas s !! lower (fst e)) as [b|] eqn:D.
  2: { exists s. split_and!; [done..|]. intros a v E. rewrite bool_decide_false by done. apply assigned_nil. }
  destruct (H _ _ D) as [w W]. erewrite bind_ret by by apply fromString_run.
  eexists. split_and!; [done|by destruct from_str; [apply assign_grows|]|]. intros a v E.
  case_bool_decide as B; simplify_eq/=.
  - destruct from_str; [by apply assign_self|apply assigned_nil].
  - destruct from_str; [apply assign_other; congruence|apply assigned_nil].
Qed.
Lemma texts_for_cons datas a e l : texts_for datas a (e :: l) = texts_for datas a [e] ++ texts_for datas a l.
Proof. unfold texts_for. csimpl. by destruct (_ && _). Qed.
Lemma load_all_run l s : cfg_ok s -> exists s', load_all l s = (Ret tt, s') /\ c_datas s' = c_datas s /\
  forall a v, c_vars s !! a = Some v -> assigned a (omap (from_str (v_type v)) (texts_for (c_datas s) a l)) s s'.
Proof.
  revert s; induction l as [|e l IH]; intros s H; cbn [load_all].
  { exists s. split_and!; [done..|]. intros. apply assigned_nil. }
  destruct (load_one_run e s H) as (s1 & R1 & D1 & A1).
  assert (H1 : cfg_ok s1). { pose proof (load_one_grows e s) as G. unfold post in G. rewrite R1 in G. eauto using cfg_ok_grows. }
  destruct (IH s1 H1) as (s2 & R2 & D2 & A2).
  exists s2. split_and!; [by erewrite bind_ret by exact R1|congruence|]. intros a v E.
  rewrite texts_for_cons, omap_app.
  specialize (A1 a v E). destruct (A1 v E) as [E1 _]. specialize (A2 a _ E1). simpl in A2. rewrite D1 in A2.
  exact (assigned_trans _ _ _ _ _ _ A1 A2).
Qed.

(** loading a document into any registry the program can have built ends
    normally and registers nothing.  Each variable takes the value of the
    last text given under one of its names that its type accepts, and keeps
    its own if there is none; texts that do not convert change nothing.  Its
    listeners are called once per actual change, each with the value before
    and after, in the order of the document, and no other listener is. *)
Theorem load_sets_named (ops : list config_op) (root : Node) : exists s',
  LoadFromYaml root (after_ops ops) = (Ret tt, s') /\ c_datas s' = c_datas (after_ops ops) /\
  forall a v, c_vars (after_ops ops) !! a = Some v ->
    let given := omap (from_str (v_type v)) (texts_for (c_datas (after_ops ops)) a (ListAllMember "" root)) in
    c_vars s' !! a = Some (mkVar (v_type v) (default (v_val v) (last given)) (v_cbs v)) /\
    calls_of a s' = calls_of a (after_ops ops) ++ notified a v given.
Proof.
  destruct (load_all_run (ListAllMember "" root) _ (after_ops_ok ops)) as (s' & R & D & A).
  exists s'. split_and!; [done..|]. intros a v E. exact (A a v E v E).
Qed.
End config.
Arguments ConfigVar V : clear implicits. Arguments config V : clear implicits.

(** ** The names of a document *)
Inductive at_path : Node -> list string -> Node -> Prop :=
| at_here n : at_path n [] n
| at_key l k n p n' : (k, n) ∈ l -> at_path n p n' -> at_path (Map l) (k :: p) n'.

Lemma all_chars_app p a b : all_chars p (a +:+ b) = all_chars p a && all_chars p b.
Proof. induction a as [|c a IH]; simpl; [done|]. change (String.app a b) with (a +:+ b). by rewrite IH, andb_assoc. Qed.
Lemma extend_ok prefix k : list_name_ok (extend prefix k) -> list_name_ok prefix.
Proof.
  unfold extend, list_name_ok. destruct (String.eqb_spec prefix "") as [->|]; [done|].
  rewrite all_chars_app. intros [? _]%andb_True. done.
Qed.
Lemma foldl_extend_ok p prefix : list_name_ok (foldl extend prefix p) -> list_name_ok prefix.
Proof. revert prefix; induction p as [|k p IH]; intros prefix; simpl; [done|]. eauto using extend_ok. Qed.
Lemma ListAllMember_map prefix l : list_name_ok prefix ->
  ListAllMember prefix (Map l) = (prefix, Map l) :: (l ≫= fun e => ListAllMember (extend prefix (fst e)) (snd e)).
Proof.
  intros H. simpl. apply Is_true_true in H. rewrite H. simpl. f_equal.
  induction l as [|[k n] l IH]; csimpl; [done|]. by rewrite IH.
Qed.
Lemma Node_map_ind (P : Node -> Prop) (Hs : forall t, P (Scalar t)) (Hq : forall l, P (Sequence l)) (Hn : P Null)
  (Hm : forall l, Forall (fun e => P (snd e)) l -> P (Map l)) : forall n, P n.
Proof.
  fix IH 1. intros [t|l|l|]; [apply Hs|apply Hm|apply Hq|apply Hn].
  induction l as [|[k n] l IHl]; [constructor|constructor; [apply IH|exact IHl]].
Qed.
Lemma ListAllMember_sound key n : forall node prefix, (key, n) ∈ ListAllMember prefix node ->
  exists p, at_path node p n /\ key = foldl extend prefix p /\ list_name_ok key.
Proof.
  assert (Here : forall node prefix, list_name_ok prefix -> (key, n) = (prefix, node) ->
    exists p, at_path node p n /\ key = foldl extend prefix p /\ list_name_ok key).
  { intros node prefix O [= -> ->]. exists []. split_and!; [constructor|done..]. }
  induction node as [t|l| |l IH] using Node_map_ind; intros prefix;
    (destruct (list_name_ok prefix) eqn:O; [|simpl; rewrite O; simpl; by rewrite elem_of_nil]);
    [simpl; rewrite O; intros ?%list_elem_of_singleton; apply Here; [by rewrite O|done]..|].
  rewrite ListAllMember_map by by rewrite O. rewrite elem_of_cons. intros [E|E]; [by apply Here; [rewrite O|]|].
  apply list_elem_of_bind in E as ([k m] & E & Hl). rewrite Forall_forall in IH.
  destruct (IH _ Hl _ E) as (p & ? & ? & ?). exists (k :: p). split_and!; [by econstructor|done..].
Qed.
Lemma ListAllMember_complete node p n : at_path node p n -> forall prefix,
  list_name_ok (foldl extend prefix p) -> (foldl extend prefix p, n) ∈ ListAllMember prefix node.
Proof.
  induction 1 as [n|l k n p n' Hin Hp IH]; intros prefix O.
  - apply Is_true_true in O. simpl in O. destruct n; simpl; rewrite O; simpl; left.
  - rewrite ListAllMember_map by by eapply (foldl_extend_ok (k :: p)). right. simpl.
    apply list_elem_of_bind. exists (k, n). auto.
Qed.
(** the entries of a document are its nodes, each under the names of the
    maps on the way to it joined by dots, except where that name has another
    character than lower case letters, digits up to 8, dot and underscore. *)
Theorem document_entries root key n :
  (key, n) ∈ ListAllMember "" root <-> exists p, at_path root p n /\ key = foldl extend "" p /\ list_name_ok key.
Proof.
  split; [apply ListAllMember_sound|]. intros (p & H & -> & O). by apply ListAllMember_complete.
Qed.

(** ** Differences from what the code means *)
(** Looking up an existing variable of the same type replaces it: the caller
    gets a new one with the default value, and the old one, which earlier
    callers hold, is no longer registered. *)
Example lookup_replaces :
  out (a ← Lookup (V := Z) 0 "tcp.timeout" 5%Z; setValue (default 0 a) 7%Z;;
       b ← Lookup 0 "tcp.timeout" 9%Z; x ← getValue (default 0 a); y ← getValue (default 0 b);
       mret (bool_decide (a = b), x, y)) no_config = Ret (false, 7%Z, 9%Z).
Proof. vm_compute. reflexivity. Qed.
(** A name with a 9 can be registered, but a document never sets it. *)
Example nine_never_loads :
  lookup_name_ok "port9" = true /\ ListAllMember "" (Map [("port9", Scalar "1")]) = [("", Map [("port9", Scalar "1")])].
Proof. vm_compute. done. Qed.
(** [fromString] says false also when the value was set. *)
Lemma fromString_false {V} `{EqDecision V} (from_str : nat -> string -> option V) a v t s :
  c_vars s !! a = Some v -> out (fromString from_str a t) s = Ret false.
Proof. intros H. unfold out. by erewrite fromString_run. Qed.
