(* ===== verification/Redis.v ===== *)
(** [sherry/db/redis_util.cc], [sherry/hash.h] and [RedisUtil::Cmd] of
    [sherry/db/redis.cc]: the keys the OTA service uses and the helpers it
    reads and writes them with.

    The Redis server and the connection pools are the interface
    [RedisServer]: whether a pool hands out a connection, and what a command
    (its arguments, as hiredis splits the format) answers.  What the theorems
    that follow a value through Redis rely on is [RedisLaws]. *)

From stdpp Require Import base list gmap strings pretty.
From S2P Require Import Prelude MachineInt Http HttpProps.
From Stdlib Require Import ZArith Lia Ascii String.
Local Open Scope string_scope.

(** * Replies and the server *)

Inductive reply : Type :=
| REDIS_REPLY_STRING (str : string)
| REDIS_REPLY_ARRAY (element : list reply)
| REDIS_REPLY_INTEGER (integer : Z)
| REDIS_REPLY_NIL
| REDIS_REPLY_STATUS (str : string)
| REDIS_REPLY_ERROR (str : string).

Class RedisServer (R : Type) : Type := {
  rds_get : string -> R -> bool;
  rds_cmd : string -> list string -> R -> option reply * R
}.

(** A reply that is there and is no error. *)
Definition good (r : option reply) : bool :=
  match r with None | Some (REDIS_REPLY_ERROR _) => false | Some _ => true end.

(** What Redis documents of the commands used here, for the keys and the
    lists of one server.  Of a command whose reply is missing or an error,
    only that it leaves other keys alone. *)
Class RedisLaws (R : Type) `{!RedisServer R} : Type := {
  kv : R -> gmap string string;
  lists : R -> gmap string (list string);
  law_frame : forall p c k rest s r s', rds_cmd p (c :: k :: rest) s = (r, s') ->
    forall k', k' <> k -> kv s' !! k' = kv s !! k' /\ lists s' !! k' = lists s !! k';
  law_get : forall p k s r s', rds_cmd p ["GET"; k] s = (r, s') -> good r = true ->
    kv s' = kv s /\ lists s' = lists s /\
    r = Some (match kv s !! k with Some v => REDIS_REPLY_STRING v | None => REDIS_REPLY_NIL end);
  law_set : forall p k v s r s', rds_cmd p ["SET"; k; v] s = (r, s') -> good r = true ->
    kv s' = <[k := v]> (kv s) /\ lists s' = lists s;
  law_setex : forall p k v n s r s', rds_cmd p ["SET"; k; v; "EX"; n] s = (r, s') -> good r = true ->
    kv s' = <[k := v]> (kv s) /\ lists s' = lists s;
  law_del : forall p k s r s', rds_cmd p ["DEL"; k] s = (r, s') -> good r = true ->
    kv s' = delete k (kv s) /\ lists s' = lists s /\
    r = Some (REDIS_REPLY_INTEGER (match kv s !! k with Some _ => 1 | None => 0 end));
  law_exists : forall p k s r s', rds_cmd p ["EXISTS"; k] s = (r, s') -> good r = true ->
    kv s' = kv s /\ lists s' = lists s /\
    r = Some (REDIS_REPLY_INTEGER (match kv s !! k with Some _ => 1 | None => 0 end));
  law_lpush : forall p k v s r s', rds_cmd p ["LPUSH"; k; v] s = (r, s') -> good r = true ->
    kv s' = kv s /\ lists s' = <[k := v :: default [] (lists s !! k)]> (lists s) /\
    r = Some (REDIS_REPLY_INTEGER (Z.of_nat (S (List.length (default [] (lists s !! k))))));
  law_brpop : forall p k s r s', rds_cmd p ["BRPOP"; k; "0"] s = (r, s') -> good r = true ->
    kv s' = kv s /\
    (r = Some REDIS_REPLY_NIL /\ lists s' = lists s /\ default [] (lists s !! k) = [] \/
     exists l v, lists s !! k = Some (l ++ [v])%list /\
       default [] (lists s' !! k) = l /\
       r = Some (REDIS_REPLY_ARRAY [REDIS_REPLY_STRING k; REDIS_REPLY_STRING v]))
}.

(** * Keys: [OTAHash] *)

Definition ota_redis_key_prefix : string := "ota:device:".

Definition get_device_group_hash (task : string) (group_id : Z) : string :=
  ota_redis_key_prefix ++ task ++ ":" ++ dec group_id.
Definition get_device_id_hash (task : string) (group_id device_id : Z) : string :=
  ota_redis_key_prefix ++ task ++ ":" ++ dec group_id ++ ":" ++ dec device_id.
Definition get_device_group_id_timestamp_hash (task : string) (group_id device_id us : Z) : string :=
  ota_redis_key_prefix ++ task ++ ":" ++ dec group_id ++ ":" ++ dec device_id ++ ":" ++ dec us.
Definition get_device_group_mudule_hash (task : string) (group_id : Z) (name : string) : string :=
  ota_redis_key_prefix ++ task ++ ":" ++ dec group_id ++ ":" ++ name.
Definition get_device_mudule_hash (task : string) (group_id device_id : Z) (name : string) : string :=
  ota_redis_key_prefix ++ task ++ ":" ++ dec group_id ++ ":" ++ dec device_id ++ ":" ++ name.
Definition get_device_mudule_action_hash (task : string) (group_id device_id : Z) (action : string) : string :=
  ota_redis_key_prefix ++ task ++ ":" ++ dec group_id ++ ":" ++ dec device_id ++ ":" ++ action.
Definition get_device_message_queue_hash (task : string) (group_id : Z) : string :=
  ota_redis_key_prefix ++ task ++ ":" ++ dec group_id ++ ":" ++ "message".
Definition get_message_queue_hash : string := ota_redis_key_prefix ++ "message".

(** * The helpers *)

Section redis_util.
Context {R : Type} `{!RedisServer R}.

(** [RedisUtil::Cmd]: no pool, no reply. *)
Definition Cmd (name : string) (args : list string) : prog R (option reply) := fun s =>
  if rds_get name s then let '(r, s') := rds_cmd name args s in (Ret r, s') else (Ret None, s).

(** [!reply || reply->type == REDIS_REPLY_ERROR] *)
Definition bad (r : option reply) : bool := negb (good r).

Definition redis_set_key_value (pool key value : string) (expire_seconds : Z) : prog R Z :=
  r ← (if (0 <? expire_seconds)%Z
       then Cmd pool ["SET"; c_str key; c_str value; "EX"; dec expire_seconds]
       else Cmd pool ["SET"; c_str key; c_str value]);
  mret (if bad r then 0%Z else 1%Z).

Definition redis_del_key (pool key : string) : prog R Z :=
  r ← Cmd pool ["DEL"; c_str key];
  mret (if bad r then 0%Z
        else match r with
             | Some (REDIS_REPLY_INTEGER n) => if (0 <? n)%Z then 1%Z else 0%Z
             | _ => 0%Z
             end).

Definition redis_reset_value (pool key value : string) (expire_seconds : Z) : prog R Z :=
  redis_del_key pool key;; redis_set_key_value pool key value expire_seconds.

(** The result and, when it is 1, the value. *)
Definition redis_get_key_value (pool key : string) : prog R (Z * option string) :=
  r ← Cmd pool ["GET"; c_str key];
  mret (match r with
        | Some (REDIS_REPLY_STRING str) => (1%Z, Some str)
        | _ => (0%Z, None)
        end).

Definition redis_key_exists (pool key : string) : prog R Z :=
  r ← Cmd pool ["EXISTS"; c_str key];
  mret (match r with
        | Some (REDIS_REPLY_INTEGER n) => if (0 <? n)%Z then 1%Z else 0%Z
        | _ => 0%Z
        end).

(** [%d] of a possibly negative number. *)
Definition dec_int (n : Z) : string := if (n <? 0)%Z then "-" ++ dec (- n) else dec n.

Definition redis_set_expire (pool key : string) (expire_seconds : Z) : prog R Z :=
  r ← Cmd pool ["EXPIRE"; c_str key; dec_int expire_seconds];
  mret (match r with
        | Some (REDIS_REPLY_INTEGER n) => if (n =? 1)%Z then 1%Z else 0%Z
        | _ => 0%Z
        end).

Definition redis_safe_set_key_value (pool key value : string) (expire_seconds : Z) : prog R Z :=
  e ← redis_key_exists pool key;
  if (e =? 1)%Z then redis_reset_value pool key value expire_seconds
  else redis_set_key_value pool key value expire_seconds.

(** -1: no value; 0: an error; 1: found. The response is the second result. *)
Definition redis_query_by_http (pool key : string) (rsp : HttpResponse) : prog R (Z * HttpResponse) :=
  r ← Cmd pool ["GET"; c_str key];
  mret (match r with
        | None => (0%Z, r_setStatus 500 rsp)
        | Some (REDIS_REPLY_STRING str) => (1%Z, r_setBody (c_str str) (r_setStatus 200 rsp))
        | Some REDIS_REPLY_NIL => ((-1)%Z, r_setStatus 200 rsp)
        | Some (REDIS_REPLY_ERROR _) => (0%Z, r_setStatus 500 rsp)
        | Some _ => (0%Z, rsp)
        end).

Definition redis_push_message_queue_by_http (pool key value : string) (rsp : HttpResponse)
    : prog R (Z * HttpResponse) :=
  r ← Cmd pool ["LPUSH"; c_str key; c_str value];
  mret (match r with
        | Some (REDIS_REPLY_INTEGER _) =>
            (1%Z, r_setBody "task submits successfully." (r_setStatus 200 rsp))
        | _ => (0%Z, r_setStatus 500 rsp)
        end).
End redis_util.

(** * Properties *)

(** ** Keys *)

Fixpoint str_all (p : ascii -> bool) (s : string) : bool :=
  match s with EmptyString => true | String a s' => p a && str_all p s' end.

Lemma str_all_app p (a b : string) : str_all p (a ++ b) = str_all p a && str_all p b.
Proof.
  induction a as [|x a IH]; [done|].
  change (p x && str_all p (a ++ b) = (p x && str_all p a) && str_all p b). rewrite IH. by rewrite andb_assoc.
Qed.

Definition is_digit (a : ascii) : bool := ((48 <=? nat_of_ascii a) && (nat_of_ascii a <=? 57))%nat.

Lemma pretty_N_char_digit x : is_digit (pretty_N_char x) = true.
Proof. unfold pretty_N_char. repeat case_match; reflexivity. Qed.

Lemma pretty_N_go_digits x s : str_all is_digit s = true -> str_all is_digit (pretty_N_go x s) = true.
Proof.
  revert s. induction (N.lt_wf_0 x) as [x _ IH]. intros s Hs.
  destruct (decide (0 < x)%N) as [Hx|Hx].
  - rewrite pretty_N_go_step by done. apply IH; [by apply N.div_lt|]. simpl. by rewrite pretty_N_char_digit.
  - by replace x with 0%N by lia.
Qed.

Lemma dec_digits n : str_all is_digit (dec n) = true.
Proof.
  unfold dec, pretty, pretty_N. case_decide; [done|]. by apply pretty_N_go_digits.
Qed.

Lemma str_all_impl (p q : ascii -> bool) s : (forall a, p a = true -> q a = true) ->
  str_all p s = true -> str_all q s = true.
Proof.
  intros Hpq. induction s as [|a s IH]; [done|]. simpl. rewrite !andb_true_iff. naive_solver.
Qed.

Definition no_char (c : ascii) : string -> bool := str_all (fun a => negb (Ascii.eqb a c)).

Lemma dec_no_char c n : is_digit c = false -> no_char c (dec n) = true.
Proof.
  intros Hc. apply (str_all_impl is_digit); [|apply dec_digits]. intros a Ha.
  destruct (Ascii.eqb_spec a c) as [->|]; [congruence|done].
Qed.

(** A text up to the first separator determines both parts. *)
Lemma split_at_char c (a b x y : string) : no_char c a = true -> no_char c b = true ->
  a ++ String c x = b ++ String c y -> a = b /\ x = y.
Proof.
  revert b. induction a as [|u a IH]; intros [|v b] Ha Hb E.
  - by injection E.
  - change (String c x = String v (b ++ String c y)) in E. injection E as -> _.
    unfold no_char in Hb. simpl in Hb. by rewrite Ascii.eqb_refl in Hb.
  - change (String u (a ++ String c x) = String c y) in E. injection E as -> _.
    unfold no_char in Ha. simpl in Ha. by rewrite Ascii.eqb_refl in Ha.
  - change (String u (a ++ String c x) = String v (b ++ String c y)) in E. injection E as -> E.
    unfold no_char in *. simpl in Ha, Hb. apply andb_true_iff in Ha as [_ Ha], Hb as [_ Hb].
    destruct (IH b Ha Hb E) as [-> ->]. done.
Qed.

Lemma append_inj_l (a x y : string) : a ++ x = a ++ y -> x = y.
Proof.
  induction a as [|u a IH]; [done|]. change (String u (a ++ x) = String u (a ++ y) -> x = y).
  intros [= E]. auto.
Qed.

Lemma dec_inj m n : (0 <= m)%Z -> (0 <= n)%Z -> dec m = dec n -> m = n.
Proof. intros Hm Hn E. unfold dec in E. apply (inj pretty) in E. lia. Qed.

(** Different modules never share a key: for one task, the key
    determines the device type and the module name, whatever characters the
    name has. *)
Theorem module_key_injective task g1 g2 n1 n2 : (0 <= g1)%Z -> (0 <= g2)%Z ->
  get_device_group_mudule_hash task g1 n1 = get_device_group_mudule_hash task g2 n2 ->
  g1 = g2 /\ n1 = n2.
Proof.
  intros H1 H2 E. unfold get_device_group_mudule_hash in E.
  do 3 apply append_inj_l in E. apply (split_at_char ":") in E as [Eg En];
    [|by apply dec_no_char|by apply dec_no_char].
  split; [by apply dec_inj|done].
Qed.

Lemma module_key_injective_witness : (7 = 7)%Z /\ "a:b" = "a:b".
Proof. apply (module_key_injective "notify" 7 7 "a:b" "a:b"); [lia|lia|reflexivity]. Defined.

(** ** Values *)

(** A server in memory, with the pools that are connected to it. *)
Record memory : Type := mkMemory {
  mem_pools : list string;
  mem_kv : gmap string string;
  mem_lists : gmap string (list string)
}.

Definition memory_cmd (args : list string) (s : memory) : option reply * memory :=
  let err := (Some (REDIS_REPLY_ERROR "ERR unknown command"), s) in
  let set k v := (Some (REDIS_REPLY_STATUS "OK"), mkMemory (mem_pools s) (<[k := v]> (mem_kv s)) (mem_lists s)) in
  match args with
  | [c; k] =>
      let n := REDIS_REPLY_INTEGER (match mem_kv s !! k with Some _ => 1 | None => 0 end) in
      if c =? "GET"
      then (Some (match mem_kv s !! k with Some v => REDIS_REPLY_STRING v | None => REDIS_REPLY_NIL end), s)
      else if c =? "DEL" then (Some n, mkMemory (mem_pools s) (delete k (mem_kv s)) (mem_lists s))
      else if c =? "EXISTS" then (Some n, s) else err
  | [c; k; v] =>
      let l := v :: default [] (mem_lists s !! k) in
      if c =? "SET" then set k v
      else if c =? "LPUSH"
      then (Some (REDIS_REPLY_INTEGER (Z.of_nat (List.length l))),
            mkMemory (mem_pools s) (mem_kv s) (<[k := l]> (mem_lists s)))
      else if (c =? "BRPOP") && (v =? "0") then
        match reverse (default [] (mem_lists s !! k)) with
        | x :: l' => (Some (REDIS_REPLY_ARRAY [REDIS_REPLY_STRING k; REDIS_REPLY_STRING x]),
                      mkMemory (mem_pools s) (mem_kv s) (<[k := reverse l']> (mem_lists s)))
        | [] => (Some REDIS_REPLY_NIL, s)
        end
      else err
  | [c; k; v; ex; _] => if (c =? "SET") && (ex =? "EX") then set k v else err
  | _ => err
  end.

#[export] Instance memory_server : RedisServer memory := {|
  rds_get name s := bool_decide (name ∈ mem_pools s);
  rds_cmd _ := memory_cmd
|}.

#[export] Instance memory_laws : RedisLaws memory.
Proof.
  refine {| kv := mem_kv; lists := mem_lists |}.
  - intros p c k rest s r s' H k' Hk. simpl in H. unfold memory_cmd in H.
    repeat case_match; simplify_eq; simpl; rewrite ?lookup_insert_ne, ?lookup_delete_ne by done; done.
  - intros p k s r s' [= <- <-] _. done.
  - intros p k v s r s' [= <- <-] _. done.
  - intros p k v n s r s' [= <- <-] _. done.
  - intros p k s r s' [= <- <-] _. done.
  - intros p k s r s' [= <- <-] _. done.
  - intros p k v s r s' [= <- <-] _. simpl. done.
  - intros p k s r s' H _. simpl in H. destruct (reverse _) as [|x l'] eqn:E; injection H as <- <-.
    + split; [done|]. left. split_and!; [done|done|]. apply (f_equal reverse) in E. by rewrite reverse_involutive in E.
    + split; [done|]. right. exists (reverse l'), x. simpl. rewrite lookup_insert_eq. split_and!; [|done..].
      apply (f_equal reverse) in E. rewrite reverse_involutive, reverse_cons in E.
      destruct (mem_lists s !! k); simpl in E; [by rewrite E|]. by destruct (reverse l').
Defined.

Section values.
Context {R : Type} `{!RedisServer R, !RedisLaws R}.
Implicit Types (s : R).

Lemma Cmd_cases name c k rest s r s' : Cmd name (c :: k :: rest) s = (Ret r, s') ->
  (r = None /\ s' = s) \/ rds_cmd name (c :: k :: rest) s = (r, s').
Proof.
  unfold Cmd. destruct (rds_get name s); [|intros [= <- <-]; by left].
  destruct (rds_cmd _ _ _) as [r0 s0]. intros [= <- <-]. by right.
Qed.

Lemma Cmd_total name args s : exists r s', Cmd name args s = (Ret r, s').
Proof. unfold Cmd. destruct (rds_get name s); [|eauto]. destruct (rds_cmd _ _ _). eauto. Qed.

(** Other keys survive any command. *)
Definition others_kept k s s' : Prop :=
  forall k', k' <> k -> kv s' !! k' = kv s !! k' /\ lists s' !! k' = lists s !! k'.

Lemma Cmd_frame name c k rest s r s' : Cmd name (c :: k :: rest) s = (Ret r, s') -> others_kept k s s'.
Proof. intros [[-> ->]|H]%Cmd_cases; [done|]. intros k' Hk. by eapply law_frame. Qed.

Lemma others_kept_trans k s1 s2 s3 : others_kept k s1 s2 -> others_kept k s2 s3 -> others_kept k s1 s3.
Proof. intros H1 H2 k' Hk. destruct (H1 k' Hk), (H2 k' Hk). split; congruence. Qed.

Lemma set_key_value_spec pool key value e s :
  exists z s', redis_set_key_value pool key value e s = (Ret z, s') /\ (z = 0%Z \/ z = 1%Z) /\
    others_kept (c_str key) s s' /\ (z = 1%Z -> kv s' !! c_str key = Some (c_str value)).
Proof.
  unfold redis_set_key_value.
  assert (exists r s', (if (0 <? e)%Z then Cmd pool ["SET"; c_str key; c_str value; "EX"; dec e]
            else Cmd pool ["SET"; c_str key; c_str value]) s = (Ret r, s') /\ others_kept (c_str key) s s' /\
            (good r = true -> kv s' !! c_str key = Some (c_str value))) as (r & s' & E & Hf & Hg).
  { destruct (0 <? e)%Z.
    - destruct (Cmd_total pool ["SET"; c_str key; c_str value; "EX"; dec e] s) as (r & s' & E).
      exists r, s'. split_and!; [done|by eapply Cmd_frame|]. intros Hg.
      apply Cmd_cases in E as [[-> _]|E]; [done|]. destruct (law_setex _ _ _ _ _ _ _ E Hg) as [-> _].
      apply lookup_insert_eq.
    - destruct (Cmd_total pool ["SET"; c_str key; c_str value] s) as (r & s' & E).
      exists r, s'. split_and!; [done|by eapply Cmd_frame|]. intros Hg.
      apply Cmd_cases in E as [[-> _]|E]; [done|]. destruct (law_set _ _ _ _ _ _ E Hg) as [-> _].
      apply lookup_insert_eq. }
  run E. eexists _, s'. split; [reflexivity|]. unfold bad. destruct (good r); simpl; split_and!; auto; done.
Qed.

Lemma del_key_spec pool key s : exists z s', redis_del_key pool key s = (Ret z, s') /\
  (z = 0%Z \/ z = 1%Z) /\ others_kept (c_str key) s s' /\ (z = 1%Z -> kv s' !! c_str key = None).
Proof.
  unfold redis_del_key. destruct (Cmd_total pool ["DEL"; c_str key] s) as (r & s' & E). run E.
  eexists _, s'. split; [reflexivity|]. split_and!; [|by eapply Cmd_frame|].
  - destruct (bad r); [auto|]. destruct r as [[]|]; auto. destruct (_ <? _)%Z; auto.
  - unfold bad. destruct (good r) eqn:Hg; simpl; [|done]. intros _.
    apply Cmd_cases in E as [[-> _]|E]; [done|]. destruct (law_del _ _ _ _ _ E Hg) as [-> _].
    apply lookup_delete_eq.
Qed.

Lemma safe_set_spec pool key value e s :
  exists z s', redis_safe_set_key_value pool key value e s = (Ret z, s') /\ (z = 0%Z \/ z = 1%Z) /\
    others_kept (c_str key) s s' /\ (z = 1%Z -> kv s' !! c_str key = Some (c_str value)).
Proof.
  unfold redis_safe_set_key_value, redis_key_exists.
  destruct (Cmd_total pool ["EXISTS"; c_str key] s) as (r & s1 & E).
  pose proof (Cmd_frame _ _ _ _ _ _ _ E) as Hf1. rewrite bind_assoc. run E. run_pure.
  assert (forall z, exists z' s', (if (z =? 1)%Z then redis_reset_value pool key value e
      else redis_set_key_value pool key value e) s1 = (Ret z', s') /\ (z' = 0%Z \/ z' = 1%Z) /\
      others_kept (c_str key) s1 s' /\ (z' = 1%Z -> kv s' !! c_str key = Some (c_str value))) as Hset.
  { intros z. destruct (z =? 1)%Z; [|apply set_key_value_spec].
    unfold redis_reset_value. destruct (del_key_spec pool key s1) as (z1 & s2 & E2 & _ & Hf2 & _).
    destruct (set_key_value_spec pool key value e s2) as (z3 & s3 & E3 & H1 & Hf3 & H3).
    exists z3, s3. run E2. split_and!; [done|done|by eapply others_kept_trans|done]. }
  match goal with |- context [(if (?z =? 1)%Z then _ else _) s1] => destruct (Hset z) as (z' & s' & -> & Hz & Hf & Hv) end.
  exists z', s'. split_and!; [done|done|by eapply others_kept_trans|done].
Qed.

(** [redis_safe_set_key_value] always answers 0 or 1; after a 1 the key
    holds the value, after any answer every other key and list is as before,
    and reading the key back gives the value whenever Redis answers at all. *)
Theorem safe_set_then_get pool key value e s :
  exists z s', redis_safe_set_key_value pool key value e s = (Ret z, s') /\ (z = 0%Z \/ z = 1%Z) /\
    others_kept (c_str key) s s' /\
    (z = 1%Z -> kv s' !! c_str key = Some (c_str value) /\
       forall pool' r s'', redis_get_key_value pool' key s' = (Ret r, s'') ->
         r = (1%Z, Some (c_str value)) \/ r = (0%Z, None)).
Proof.
  destruct (safe_set_spec pool key value e s) as (z & s' & E & Hz & Hf & Hv). exists z, s'. split_and!; [done..|].
  intros H1. split; [auto|]. intros pool' r' s'' Hget. unfold redis_get_key_value in Hget.
  destruct (Cmd_total pool' ["GET"; c_str key] s') as (r0 & s0 & E0). revert Hget. run E0. intros [= <- <-].
  apply Cmd_cases in E0 as [[-> ->]|E0]; [by right|]. destruct (good r0) eqn:Hg.
  - destruct (law_get _ _ _ _ _ E0 Hg) as (_ & _ & ->). rewrite (Hv H1). by left.
  - destruct r0 as [[]|]; try done; by right.
Qed.
End values.

Lemma safe_set_then_get_witness :
  exists s', redis_safe_set_key_value "pool" "k" "v" 60 (mkMemory ["pool"] {["k" := "old"]} ∅) = (Ret 1%Z, s') /\
    kv s' !! "k" = Some "v".
Proof.
  destruct (safe_set_then_get "pool" "k" "v" 60 (mkMemory ["pool"] {["k" := "old"]} ∅))
    as (z & s' & E & _ & _ & Hv).
  assert (z = 1%Z) as -> by (vm_compute in E; by injection E).
  exists s'. split; [exact E|]. apply Hv. reflexivity.
Defined.
