(* ===== verification/FoxThread.v ===== *)
(** [sherry/db/fox_thread.cc]: the event threads, a pool of them, and the
    manager that knows them by name.

    A callback is a number, a null [std::function] is [None].  [t_pipe] are the
    bytes in the socket pair, which holds [pipe_size] of them; a call of
    [dispatch] pushes under the lock and sends without it, so [t_sending] are
    the callers in between.  [t_loop] is whether [event_base_loop] runs,
    [t_batch] what is left of the list that [read_cb] took.  [t_pushed] and
    [t_done] are records of what was pushed and run. *)

From Stdlib Require Import ZArith Lia Ascii String.
From stdpp Require Import base list gmap strings.
From S2P Require Import Prelude MachineInt.
Local Open Scope Z_scope.

Abbreviation callback := nat.

(** * A thread *)

Record FoxThread : Type := mkThread {
  t_thread : bool;                   (* [m_thread != NULL] *)
  t_start : bool;
  t_loop : bool;
  t_callbacks : list (option callback);
  t_batch : list (option callback);
  t_taken : Z;                       (* [callbacks.size()] of the batch *)
  t_working : bool;
  t_total : Z;
  t_pipe : nat;
  t_sending : nat;
  t_pushed : list (option callback);
  t_done : list callback
}.
Definition new_FoxThread : FoxThread := mkThread false false false [] [] 0 false 0 0 0 [] [].

Section thread.
(** How many bytes fit into the socket pair. *)
Variable pipe_size : nat.
Abbreviation T := FoxThread.

Definition set_queue (cbs pushed : list (option callback)) (sending : nat) (t : T) : T :=
  mkThread (t_thread t) (t_start t) (t_loop t) cbs (t_batch t) (t_taken t) (t_working t) (t_total t) (t_pipe t) sending pushed (t_done t).
Definition set_pipe (n sending : nat) (t : T) : T :=
  mkThread (t_thread t) (t_start t) (t_loop t) (t_callbacks t) (t_batch t) (t_taken t) (t_working t) (t_total t) n sending (t_pushed t) (t_done t).
Definition set_batch (cbs batch : list (option callback)) (taken : Z) (working : bool) (total : Z) (done : list callback) (t : T) : T :=
  mkThread (t_thread t) (t_start t) (t_loop t) cbs batch taken working total (t_pipe t) (t_sending t) (t_pushed t) done.
Definition set_running (thread start loop : bool) (t : T) : T :=
  mkThread thread start loop (t_callbacks t) (t_batch t) (t_taken t) (t_working t) (t_total t) (t_pipe t) (t_sending t) (t_pushed t) (t_done t).

(** [send(m_write, &cmd, 1, 0)] on the nonblocking socket. *)
Definition send (t : T) : bool * nat := if (t_pipe t <? pipe_size)%nat then (true, S (t_pipe t)) else (false, t_pipe t).

(** [dispatch] and [batchDispatch], under the lock and after it. *)
Definition dispatch_push (cbs : list callback) : prog T unit :=
  modify (fun t => set_queue (t_callbacks t ++ (Some <$> cbs)) (t_pushed t ++ (Some <$> cbs)) (S (t_sending t)) t).
Definition dispatch_send : prog T bool := fun t =>
  let '(ok, n) := send t in (Ret ok, set_pipe n (pred (t_sending t)) t).
Definition dispatch (cb : callback) : prog T bool := dispatch_push [cb];; dispatch_send.
Definition batchDispatch (cbs : list callback) : prog T bool := dispatch_push cbs;; dispatch_send.
Definition broadcast (cb : callback) : prog T unit := dispatch cb;; mret tt.

Definition stop : prog T unit :=
  modify (fun t => set_queue (t_callbacks t ++ [None]) (t_pushed t ++ [None]) (t_sending t) t);;
  t ← gets (fun t => t);
  if t_thread t then modify (fun t => set_pipe (snd (send t)) (t_sending t) t) else mret tt.

(** [start] and [thread_cb] up to the loop. *)
Definition start : prog T unit :=
  t ← gets (fun t => t);
  if t_thread t then throw "FoxThread is running" else modify (set_running true true true).
Definition isStart (t : T) : bool := t_start t.

(** [read_cb]: the list is taken, then each callback runs (an exception is
    caught and logged), then the count. *)
Definition read_cb_take : prog T unit :=
  modify (fun t => let t := set_pipe (t_pipe t - Nat.min 4096 (t_pipe t)) (t_sending t) t in
    set_batch [] (t_callbacks t) (Z.of_nat (length (t_callbacks t))) true (t_total t) (t_done t) t).
Definition read_cb_end : prog T unit :=
  modify (fun t => set_batch (t_callbacks t) [] 0 false (wrap 64 (t_total t + t_taken t)) (t_done t) t).
Definition read_cb_run : prog T unit :=
  t ← gets (fun t => t);
  match t_batch t with
  | [] => read_cb_end
  | Some cb :: rest => modify (set_batch (t_callbacks t) rest (t_taken t) (t_working t) (t_total t) (t_done t ++ [cb]))
  | None :: _ => modify (set_running (t_thread t) false false);; read_cb_end
  end.
(** [join] comes back once the loop has ended. *)
Definition join : prog T unit :=
  t ← gets (fun t => t);
  if t_thread t then if t_loop t then crash NoFuel else modify (set_running false (t_start t) false) else mret tt.
(** [~FoxThread] closes both ends of the pair before it stops the thread, so
    that the thread only finishes the list it has taken. *)
Fixpoint finish_batch (n : nat) : prog T unit :=
  match n with O => mret tt | S n' => t ← gets (fun t => t); if t_working t then read_cb_run;; finish_batch n' else mret tt end.
Definition delete_FoxThread : prog T unit :=
  modify (fun t => set_pipe 0 (t_sending t) t);;
  modify (fun t => set_queue (t_callbacks t ++ [None]) (t_pushed t ++ [None]) (t_sending t) t);;
  t ← gets (fun t => t);
  finish_batch (S (length (t_batch t)));; join.
(** The thread by itself: what the loop does next. *)
Definition thread_step : prog T unit :=
  t ← gets (fun t => t);
  if t_working t then read_cb_run
  else if t_loop t && (0 <? t_pipe t)%nat then read_cb_take else mret tt.
Fixpoint thread_run (n : nat) : prog T unit := match n with O => mret tt | S n' => thread_step;; thread_run n' end.

(** * What callers and the thread do, in any order *)

Inductive thread_op : Type := OPush (cbs : list callback) | OSend | OStop | OStart | OStep.
Definition op_exec (o : thread_op) : prog T unit :=
  t ← gets (fun t => t);
  match o with
  | OPush cbs => dispatch_push cbs
  | OSend => if (0 <? t_sending t)%nat then dispatch_send;; mret tt else mret tt
  | OStop => if t_thread t then stop else mret tt
  | OStart => if t_thread t then mret tt else start
  | OStep => thread_step
  end.
Fixpoint op_run (ops : list thread_op) : prog T unit := match ops with [] => mret tt | o :: ops' => op_exec o;; op_run ops' end.

(** The callbacks before the first null one. *)
Fixpoint before_stop (l : list (option callback)) : list callback :=
  match l with Some cb :: l' => cb :: before_stop l' | _ => [] end.

(** Nothing pushed is lost or turned around: what has run, what is being run
    and what waits are what was pushed; and whatever waits will be noticed. *)
Record thread_ok (t : T) : Prop := {
  ok_order : t_loop t = true \/ t_thread t = false -> t_pushed t = (Some <$> t_done t) ++ t_batch t ++ t_callbacks t;
  ok_ended : t_thread t = true -> t_loop t = false -> exists rest, t_pushed t = (Some <$> t_done t) ++ None :: rest;
  ok_wake : t_callbacks t = [] \/ (0 < t_pipe t)%nat \/ (0 < t_sending t)%nat;
  ok_batch : t_working t = false -> t_batch t = [];
  ok_loop : t_working t = true -> t_loop t = true;
  ok_thread : t_loop t = true -> t_thread t = true;
  ok_before : t_thread t = false -> t_done t = []
}.
Hypothesis pipe_some : (0 < pipe_size)%nat.

Lemma send_wakes t : (0 < (send t).2)%nat.
Proof. unfold send. destruct (Nat.ltb_spec (t_pipe t) pipe_size); simpl; lia. Qed.

Lemma fox_step_ok t : thread_ok t -> exists t', thread_step t = (Ret tt, t') /\ thread_ok t'.
Proof.
  intros Hok. pose proof Hok as [Ho He Hw Hb Hl Ht Hd]. unfold thread_step, gets, mbind, prog_bind. destruct (t_working t) eqn:Ew.
  - assert (t_loop t = true) as El by auto. assert (t_thread t = true) as Et by auto. specialize (Ho (or_introl El)).
    unfold read_cb_run, gets, modify, mbind, prog_bind, read_cb_end, modify. destruct (t_batch t) as [|[cb|] rest] eqn:Eb; eexists; (split; [reflexivity|]).
    + split; simpl; try done; congruence.
    + split; simpl; try done; try congruence. intros _. rewrite Ho, fmap_app. simpl. by rewrite <- !app_assoc.
    + split; simpl; try done; try congruence; [intros [?|?]; congruence|]. intros _ _. rewrite Ho. by exists (rest ++ t_callbacks t).
  - destruct (t_loop t && _) eqn:E; [|by exists t]. apply andb_true_iff in E as [El Ep]. unfold read_cb_take, modify. eexists. split; [reflexivity|].
    specialize (Ho (or_introl El)). rewrite (Hb eq_refl) in Ho. split; simpl; try done; try congruence; [|by left]. intros _. rewrite Ho. by rewrite app_nil_r.
Qed.

Lemma pushed_ok t cbs n m : thread_ok t -> (0 < n)%nat \/ (0 < m)%nat ->
  thread_ok (set_pipe n m (set_queue (t_callbacks t ++ cbs) (t_pushed t ++ cbs) (t_sending t) t)).
Proof.
  intros [Ho He Hw Hb Hl Ht Hd] Hn. split; simpl; try done; [| |tauto].
  - intros H. by rewrite (Ho H), <- !app_assoc.
  - intros H1 H2. destruct (He H1 H2) as (rest & ->). exists (rest ++ cbs). by rewrite <- app_assoc.
Qed.
Lemma op_exec_ok o t : thread_ok t -> exists t', op_exec o t = (Ret tt, t') /\ thread_ok t'.
Proof.
  intros Hok. pose proof Hok as [Ho He Hw Hb Hl Ht Hd]. unfold op_exec, gets, mbind, prog_bind. destruct o as [cbs| | | |].
  - eexists. split; [reflexivity|]. apply (pushed_ok t (Some <$> cbs) (t_pipe t) (S (t_sending t)) Hok). right. lia.
  - destruct (Nat.ltb_spec 0 (t_sending t)) as [Hs|Hs]; [|by exists t]. unfold dispatch_send, mbind, prog_bind. pose proof (send_wakes t) as Hse.
    destruct (send t) as [b n]. eexists. split; [reflexivity|]. split; simpl; try done. by right; left.
  - destruct (t_thread t) eqn:Et; [|by exists t]. unfold stop, modify, gets, mbind, prog_bind. simpl. rewrite Et. eexists. split; [reflexivity|].
    apply (pushed_ok t [None] _ (t_sending t) Hok). left. exact (send_wakes t).
  - destruct (t_thread t) eqn:Et; [by exists t|]. unfold start, gets, modify, mbind, prog_bind. rewrite Et. eexists. split; [reflexivity|].
    split; simpl; try done. intros _. apply Ho. by right.
  - by apply fox_step_ok.
Qed.
Lemma op_run_ok ops t : thread_ok t -> exists t', op_run ops t = (Ret tt, t') /\ thread_ok t'.
Proof.
  revert t; induction ops as [|o ops IH]; intros t Hok; [by exists t|]. destruct (op_exec_ok o t Hok) as (t1 & E1 & Hok1).
  destruct (IH t1 Hok1) as (t2 & E2 & Hok2). exists t2. simpl. by rewrite (bind_ret _ _ _ _ _ E1).
Qed.
Lemma new_thread_ok : thread_ok new_FoxThread.
Proof. split; simpl; try done. by left. Qed.

Lemma before_stop_some l l' : before_stop ((Some <$> l) ++ l') = l ++ before_stop l'.
Proof. induction l as [|x l IH]; [done|]. csimpl. by rewrite <- IH. Qed.

(** What is left for the thread to do on its own. *)
Definition left_over (t : T) : nat :=
  if t_loop t then (if t_working t then S (length (t_batch t)) else 0) + length (t_callbacks t) + 2 * t_pipe t else 0.
Lemma thread_over t : thread_ok t -> t_thread t = true -> left_over t = 0%nat -> t_done t = before_stop (t_pushed t).
Proof.
  intros [Ho He Hw Hb Hl Ht Hd] Hth H. unfold left_over in H. destruct (t_loop t) eqn:El.
  - destruct (t_working t); [lia|]. destruct (t_callbacks t); [|simpl in H; lia]. rewrite Ho by by left. rewrite Hb by done.
    rewrite before_stop_some. simpl. by rewrite app_nil_r.
  - destruct He as (rest & ->); [done|done|]. rewrite before_stop_some. simpl. by rewrite app_nil_r.
Qed.
Lemma thread_progress t : thread_ok t -> t_sending t = 0%nat -> t_thread t = true -> exists t', thread_step t = (Ret tt, t') /\ thread_ok t' /\
  t_sending t' = 0%nat /\ t_thread t' = true /\ t_pushed t' = t_pushed t /\ (left_over t' <= pred (left_over t))%nat.
Proof.
  intros Hok Hs Hth. destruct (fox_step_ok t Hok) as (t' & E & Hok'). exists t'. split; [done|]. split; [done|].
  pose proof Hok as [Ho He Hw Hb Hl Ht Hd]. unfold left_over. revert E. unfold thread_step, gets, mbind, prog_bind. destruct (t_working t) eqn:Ew.
  - rewrite (Hl eq_refl). unfold read_cb_run, gets, modify, mbind, prog_bind, read_cb_end, modify.
    destruct (t_batch t) as [|[cb|] rest] eqn:Eb; intros [= <-]; simpl; rewrite ?Ew, ?(Hl eq_refl); split_and!; try done; simpl; lia.
  - destruct (t_loop t) eqn:El; simpl; [|intros [= <-]; rewrite El; split_and!; done].
    destruct (Nat.ltb_spec 0 (t_pipe t)) as [Hp|Hp].
    + unfold read_cb_take, modify. assert (1 <= Nat.min 4096 (t_pipe t))%nat as Hmin by lia. revert Hmin. generalize (Nat.min 4096 (t_pipe t)).
      intros k Hk [= <-]. cbn [t_sending t_thread t_pushed t_loop t_working t_batch t_callbacks t_pipe set_batch set_pipe]. rewrite El.
      split_and!; [done|done|done|]. cbn [length]. lia.
    + intros [= <-]. split_and!; [done|done|done|]. rewrite El, Ew. destruct Hw as [->|[?|?]]; simpl; lia.
Qed.

Lemma thread_run_over n : forall t, thread_ok t -> t_sending t = 0%nat -> t_thread t = true -> (left_over t <= n)%nat -> exists t', thread_run n t = (Ret tt, t') /\
  thread_ok t' /\ t_pushed t' = t_pushed t /\ t_done t' = before_stop (t_pushed t).
Proof.
  induction n as [|n IH]; intros t Hok Hs Hth Hn.
  - exists t. split_and!; [done|done|done|]. apply thread_over; [done|done|lia].
  - destruct (thread_progress t Hok Hs Hth) as (t1 & E1 & Hok1 & Hs1 & Hth1 & Hp1 & Hl1). destruct (IH t1 Hok1 Hs1 Hth1) as (t2 & E2 & Hok2 & Hp2 & Hd2); [lia|].
    exists t2. simpl. rewrite (bind_ret _ _ _ _ _ E1). split_and!; [done|done|congruence|congruence].
Qed.

(** C38: an event thread loses no callback: after any calls of [dispatch],
    [batchDispatch], [stop] and [start] and any steps of the thread, however
    they interleave, what has run is the start of what was pushed, in order;
    and once no caller is between pushing and sending, the thread alone runs,
    within as many steps as it has work left, exactly the callbacks that were
    pushed before the first [stop]. *)
Theorem fox_thread_runs_all ops : exists t, op_run ops new_FoxThread = (Ret tt, t) /\
  (exists l, t_pushed t = (Some <$> t_done t) ++ l) /\
  (t_sending t = 0%nat -> t_thread t = true -> forall n, (left_over t <= n)%nat -> exists t',
     thread_run n t = (Ret tt, t') /\ t_pushed t' = t_pushed t /\ t_done t' = before_stop (t_pushed t)).
Proof.
  destruct (op_run_ok ops new_FoxThread new_thread_ok) as (t & E & Hok). exists t. split_and!; [done| |].
  - destruct (t_loop t) eqn:El; [eexists; by apply Hok; left|]. destruct (t_thread t) eqn:Et; [|eexists; by apply Hok; right].
    destruct (ok_ended _ Hok Et El) as (rest & Hr). by exists (None :: rest).
  - intros Hs Ht n Hn. destruct (thread_run_over n t Hok Hs Ht Hn) as (t' & E' & _ & Hp & Hd). by exists t'.
Qed.
End thread.

(** * A pool of threads

    [p_lent] are the threads that a callback in their queue keeps out of
    [m_freeFoxThreads], through the [shared_ptr] bound to [wrapcb]; the last
    copy of it calls [releaseFoxThread].  [p_asked] and [p_given] record the
    callbacks that were dispatched and those given to a thread. *)

Record FoxThreadPool : Type := mkPool {
  p_size : Z; p_cur : Z; p_advance : bool; p_start : bool;
  p_callbacks : list callback; p_threads : list FoxThread; p_free : list nat; p_total : Z;
  p_lent : list nat; p_asked : list callback; p_given : list callback
}.
Definition new_FoxThreadPool (size : Z) (advance : bool) : FoxThreadPool :=
  mkPool size 0 advance false [] (replicate (Z.to_nat size) new_FoxThread) [] 0 [] [] [].

Section pool.
Variable pipe_size : nat.
Abbreviation P := FoxThreadPool.

Definition p_queues (cbs : list callback) (free lent : list nat) (asked given : list callback) (p : P) : P :=
  mkPool (p_size p) (p_cur p) (p_advance p) (p_start p) cbs (p_threads p) free (p_total p) lent asked given.
Definition p_set_threads (l : list FoxThread) (p : P) : P :=
  mkPool (p_size p) (p_cur p) (p_advance p) (p_start p) (p_callbacks p) l (p_free p) (p_total p) (p_lent p) (p_asked p) (p_given p).
Definition p_counts (cur total : Z) (start : bool) (p : P) : P :=
  mkPool (p_size p) cur (p_advance p) start (p_callbacks p) (p_threads p) (p_free p) total (p_lent p) (p_asked p) (p_given p).

(** A member function of [m_threads[i]]. *)
Definition on_thread {A} (i : nat) (m : prog FoxThread A) : prog P A := fun p =>
  match p_threads p !! i with
  | Some t => let '(o, t') := m t in (o, p_set_threads (<[i := t']> (p_threads p)) p)
  | None => (Crash OutOfRange, p)
  end.
(** For each of the threads. *)
Fixpoint each_thread (l : list nat) (m : prog FoxThread unit) (after : nat -> prog P unit) : prog P unit :=
  match l with [] => mret tt | i :: l' => on_thread i m;; after i;; each_thread l' m after end.
Definition indices (p : P) : list nat := seq 0 (Z.to_nat (p_size p)).

(** [check]: the loop; where a thread is not started the last pointer to it
    goes away at the end of the turn, so that [releaseFoxThread] calls [check]
    before the next turn. *)
Fixpoint check (fuel : nat) : prog P unit :=
  match fuel with
  | O => crash NoFuel
  | S f =>
      p ← gets (fun p => p);
      if negb (p_start p) then mret tt else
      match p_free p, p_callbacks p with
      | i :: free, cb :: cbs =>
          modify (p_queues cbs free (p_lent p) (p_asked p) (p_given p));;
          started ← on_thread i (gets isStart);
          if started : bool then
            on_thread i (dispatch pipe_size cb);;
            modify (fun p => p_queues (p_callbacks p) (p_free p) (p_lent p ++ [i]) (p_asked p) (p_given p ++ [cb]) p);;
            check f
          else
            modify (fun p => p_queues (cb :: p_callbacks p) (p_free p) (p_lent p) (p_asked p) (p_given p) p);;
            modify (fun p => p_queues (p_callbacks p) (p_free p ++ [i]) (p_lent p) (p_asked p) (p_given p) p);;
            check f;; check f
      | _, _ => mret tt
      end
  end.
(** Fuel for every callback that waits. *)
Definition check_all : prog P unit := p ← gets (fun p => p); check (S (length (p_callbacks p))).
Definition releaseFoxThread (i : nat) : prog P unit :=
  modify (fun p => p_queues (p_callbacks p) (p_free p ++ [i]) (base.filter (fun x => x <> i) (p_lent p)) (p_asked p) (p_given p) p);; check_all.

(** [m_threads[m_cur++ % m_size]]. *)
Definition next_thread : prog P nat :=
  p ← gets (fun p => p);
  if p_size p =? 0 then crash BadArith
  else modify (p_counts (wrap 32 (p_cur p + 1)) (p_total p) (p_start p));; mret (Z.to_nat (p_cur p mod p_size p)).
Definition getRandFoxThread : prog P nat := next_thread.
Definition add_total (n : Z) : prog P unit := modify (fun p => p_counts (p_cur p) (wrap 64 (p_total p + n)) (p_start p) p).
Definition ask (cbs : list callback) : prog P unit :=
  modify (fun p => p_queues (p_callbacks p ++ cbs) (p_free p) (p_lent p) (p_asked p ++ cbs) (p_given p) p).

Definition pool_dispatch (cb : callback) : prog P bool :=
  add_total 1;;
  p ← gets (fun p => p);
  if negb (p_advance p) then i ← next_thread; on_thread i (dispatch pipe_size cb)
  else ask [cb];; check_all;; mret true.
Fixpoint round_robin (cbs : list callback) : prog P unit :=
  match cbs with [] => mret tt | cb :: cbs' => i ← next_thread; on_thread i (dispatch pipe_size cb);; round_robin cbs' end.
Definition pool_batchDispatch (cbs : list callback) : prog P bool :=
  add_total (Z.of_nat (length cbs));;
  p ← gets (fun p => p);
  if negb (p_advance p) then round_robin cbs;; mret true else ask cbs;; check_all;; mret true.
Definition pool_dispatch_id (id : Z) (cb : callback) : prog P bool :=
  add_total 1;;
  p ← gets (fun p => p);
  if p_size p =? 0 then crash BadArith else on_thread (Z.to_nat (id mod p_size p)) (dispatch pipe_size cb).
Definition pool_broadcast (cb : callback) : prog P unit :=
  p ← gets (fun p => p); each_thread (seq 0 (length (p_threads p))) (dispatch pipe_size cb;; mret tt) (fun _ => mret tt).
Definition pool_start : prog P unit :=
  p ← gets (fun p => p);
  each_thread (indices p) start (fun i => modify (fun p => p_queues (p_callbacks p) (p_free p ++ [i]) (p_lent p) (p_asked p) (p_given p) p));;
  modify (fun p => p_counts (p_cur p) (p_total p) true p);; check_all.
Definition pool_stop : prog P unit :=
  p ← gets (fun p => p);
  each_thread (indices p) (stop pipe_size) (fun _ => mret tt);; modify (fun p => p_counts (p_cur p) (p_total p) false p).
Definition pool_join : prog P unit := p ← gets (fun p => p); each_thread (indices p) join (fun _ => mret tt).

(** * What the pool promises *)

(** A thread is free or kept by one callback; callbacks are given out in the
    order they came; and none waits while a thread is free. *)
Record pool_ok (p : P) : Prop := {
  ok_threads : NoDup (p_free p ++ p_lent p);
  ok_range : forall i, i ∈ p_free p ++ p_lent p -> exists t, p_threads p !! i = Some t /\ t_start t = true;
  ok_fifo : p_asked p = p_given p ++ p_callbacks p;
  ok_busy : p_free p = [] \/ p_callbacks p = [];
  ok_running : p_start p = true /\ p_advance p = true
}.

Lemma dispatch_started cb t : exists b t', dispatch pipe_size cb t = (Ret b, t') /\ t_start t' = t_start t.
Proof. unfold dispatch, dispatch_push, dispatch_send, modify, mbind, prog_bind. destruct (send _ _) as [b n]. by eexists _, _. Qed.

(** [check] with every thread started: as many callbacks as there are free
    threads are given out. *)
Lemma check_gives fuel : forall p, p_start p = true -> (length (p_callbacks p) < fuel)%nat ->
  NoDup (p_free p ++ p_lent p) -> (forall i, i ∈ p_free p ++ p_lent p -> exists t, p_threads p !! i = Some t /\ t_start t = true) ->
  p_asked p = p_given p ++ p_callbacks p -> p_advance p = true ->
  exists p', check fuel p = (Ret tt, p') /\ pool_ok p' /\ p_asked p' = p_asked p /\ p_total p' = p_total p /\ p_size p' = p_size p /\ length (p_threads p') = length (p_threads p).
Proof.
  induction fuel as [|f IH]; intros p Hst Hf Hnd Hr Hq Ha; [lia|]. simpl. unfold gets, modify, mbind, prog_bind. rewrite Hst. cbn [negb].
  destruct (p_free p) as [|i free] eqn:Efree; [|destruct (p_callbacks p) as [|cb cbs] eqn:Ecbs].
  1,2: exists p; split_and!; try done; split; rewrite ?Efree, ?Ecbs; try done; by (left + right).
  destruct (Hr i) as (t & Et & Hs); [by left|]. unfold on_thread. cbn [p_threads p_queues]. rewrite Et. unfold isStart. rewrite Hs. cbv beta iota.
  cbn [p_threads p_set_threads]. rewrite list_lookup_insert_eq by by eapply lookup_lt_Some.
  destruct (dispatch_started cb t) as (b & t' & Ed & Hs'). rewrite Ed. rewrite list_insert_insert_eq.
  match goal with |- context [check f ?x] => set (p1 := x) end.
  destruct (IH p1) as (p' & E & Hok & Hq' & Ht' & Hz' & Hl'); try done.
  - simpl. simpl in Hf. lia.
  - simpl. rewrite app_assoc. csimpl in Hnd. apply NoDup_cons in Hnd as [Hi Hnd]. apply NoDup_app. split_and!; [done| |apply NoDup_singleton].
    intros x Hx Hxi. apply list_elem_of_singleton in Hxi. by rewrite Hxi in Hx.
  - simpl. intros j Hj. destruct (decide (j = i)) as [->|Hne].
    + exists t'. split; [by apply list_lookup_insert_eq; eapply lookup_lt_Some|congruence].
    + rewrite list_lookup_insert_ne by done. apply Hr. set_solver.
  - simpl. rewrite <- app_assoc. by rewrite Hq.
  - exists p'. split_and!; [done|done|by rewrite Hq'|by rewrite Ht'|by rewrite Hz'|]. rewrite Hl'. simpl. by rewrite length_insert.
Qed.

(** Callers of [dispatch] and [batchDispatch], and the last pointer to a thread
    that goes away, in any order. *)
Inductive pool_op : Type := PDispatch (cb : callback) | PBatch (cbs : list callback) | PRelease (i : nat).
Definition pool_exec (o : pool_op) : prog P unit :=
  match o with
  | PDispatch cb => pool_dispatch cb;; mret tt
  | PBatch cbs => pool_batchDispatch cbs;; mret tt
  | PRelease i => p ← gets (fun p => p); if decide (i ∈ p_lent p) then releaseFoxThread i else mret tt
  end.
Fixpoint pool_run (ops : list pool_op) : prog P unit := match ops with [] => mret tt | o :: ops' => pool_exec o;; pool_run ops' end.
Definition asked_of (o : pool_op) : list callback := match o with PDispatch cb => [cb] | PBatch cbs => cbs | PRelease _ => [] end.

Lemma asking_ok cbs n p : pool_ok p -> exists p', (add_total n;; p ← gets (fun p => p); if negb (p_advance p) then crash (A := bool) NoFuel else ask cbs;; check_all;; mret true) p = (Ret true, p') /\
  pool_ok p' /\ p_asked p' = p_asked p ++ cbs.
Proof.
  intros [H1 H2 H3 H4 [H5 H6]]. unfold add_total, ask, check_all, gets, modify, mbind, prog_bind, mret, prog_ret. cbn [p_advance p_counts]. rewrite H6. cbn [negb].
  match goal with |- context [check _ ?x] => set (p1 := x) end.
  destruct (check_gives (S (length (p_callbacks p1))) p1) as (p' & E & Hok & Hq & _); [done|lia|done|done|by simpl; rewrite H3, <- app_assoc|done|].
  exists p'. by rewrite E.
Qed.
Lemma fox_pool_exec_ok o p : pool_ok p -> exists p', pool_exec o p = (Ret tt, p') /\ pool_ok p' /\ p_asked p' = p_asked p ++ asked_of o.
Proof.
  intros Hok. pose proof Hok as [H1 H2 H3 H4 [H5 H6]]. destruct o as [cb|cbs|i]; simpl.
  - destruct (asking_ok [cb] 1 p Hok) as (p' & E & Hok' & Hq). exists p'. split_and!; [|done|done].
    revert E. unfold pool_dispatch, add_total, gets, modify, mbind, prog_bind. cbn [p_advance p_counts]. rewrite H6. cbn [negb]. by intros ->.
  - destruct (asking_ok cbs (Z.of_nat (length cbs)) p Hok) as (p' & E & Hok' & Hq). exists p'. split_and!; [|done|done].
    revert E. unfold pool_batchDispatch, add_total, gets, modify, mbind, prog_bind. cbn [p_advance p_counts]. rewrite H6. cbn [negb]. by intros ->.
  - unfold gets, mbind, prog_bind. rewrite app_nil_r. case_decide as Hi; [|by exists p]. unfold releaseFoxThread, check_all, modify, gets, mbind, prog_bind.
    match goal with |- context [check _ ?x] => set (p1 := x) end.
    destruct (check_gives (S (length (p_callbacks p1))) p1) as (p' & E & Hok' & Hq & _); [done|lia| | |done|done|by exists p'].
    + simpl. apply NoDup_app in H1 as (N1 & N2 & N3). rewrite <- app_assoc. apply NoDup_app. split_and!; [done| |].
      * intros x Hx [->|[_ Hx2]%list_elem_of_filter]%elem_of_cons; [by apply (N2 i)|by apply (N2 x)].
      * simpl. apply NoDup_cons. split; [by intros [? _]%list_elem_of_filter|by apply NoDup_filter].
    + simpl. intros j Hj. apply H2. rewrite !elem_of_app, list_elem_of_singleton, list_elem_of_filter in Hj. apply elem_of_app. naive_solver.
Qed.

(** a started pool that hands out its threads: after any calls and
    releases, in any order, each thread is free or kept by one callback, the
    callbacks have gone to threads in the order they were dispatched, and none
    waits while a thread is free. *)
Theorem fox_pool_schedules ops : forall p, pool_ok p -> exists p', pool_run ops p = (Ret tt, p') /\ pool_ok p' /\
  p_asked p' = p_asked p ++ concat (asked_of <$> ops) /\ p_given p' ++ p_callbacks p' = p_asked p'.
Proof.
  induction ops as [|o ops IH]; intros p Hok.
  - exists p. split_and!; [done|done|by rewrite app_nil_r|symmetry; apply Hok].
  - destruct (fox_pool_exec_ok o p Hok) as (p1 & E1 & Hok1 & Q1). destruct (IH p1 Hok1) as (p2 & E2 & Hok2 & Q2 & G2). exists p2.
    simpl. rewrite (bind_ret _ _ _ _ _ E1). split_and!; [done|done| |done]. rewrite Q2, Q1, <- app_assoc. done.
Qed.

(** Where a free thread is not started, [check] and [releaseFoxThread] call
    each other for ever. *)
Lemma check_recurses fuel : forall p i free cb cbs, p_start p = true -> p_free p = i :: free -> p_callbacks p = cb :: cbs ->
  (forall j, j ∈ p_free p -> exists t, p_threads p !! j = Some t /\ t_start t = false) -> exists p', check fuel p = (Crash NoFuel, p').
Proof.
  induction fuel as [|f IH]; intros p i free cb cbs Hst Hf Hc Hs; [by exists p|]. simpl. unfold gets, modify, mbind, prog_bind. rewrite Hst, Hf, Hc. cbn [negb].
  destruct (Hs i) as (t & Et & Ht); [rewrite Hf; by left|]. unfold on_thread. cbn [p_threads p_queues]. rewrite Et. unfold isStart. rewrite Ht. cbv beta iota.
  match goal with |- context [check f ?x] => set (p1 := x) end.
  assert (exists i1 free1, p_free p1 = i1 :: free1) as (i1 & free1 & Ef) by (simpl; destruct free; by eexists _, _).
  destruct (IH p1 i1 free1 cb cbs) as (p' & E); [done|done|done| |rewrite E; by exists p'].
  intros j Hj. simpl in Hj. destruct (Hs j) as (tj & Ej & Hj'); [rewrite Hf; set_solver|]. simpl. destruct (decide (j = i)) as [->|Hne].
  - exists t. split; [|done]. apply list_lookup_insert_eq. by eapply lookup_lt_Some.
  - exists tj. by rewrite list_lookup_insert_ne.
Qed.
End pool.

(** * The manager *)

(** [GetParamValue]: the default when the key is missing or does not parse. *)
Fixpoint GetParamValue (lexical_cast : string -> option Z) (m : list (string * string)) (k : string) (def : Z) : Z :=
  match m with
  | [] => def
  | (k', v) :: m' => if String.eqb k' k then default def (lexical_cast v) else GetParamValue lexical_cast m' k def
  end.

Inductive IFoxThread : Type := IThread (t : FoxThread) | IPool (p : FoxThreadPool).
Abbreviation FoxThreadManager := (gmap string IFoxThread).

Section manager.
Variable pipe_size : nat.
Abbreviation Mg := FoxThreadManager.

(** A virtual member of the object [name] refers to; [SYLAR_ASSERT(ti)]. *)
Definition on_named {A} (name : string) (f : prog FoxThread A) (g : prog FoxThreadPool A) : prog Mg A := fun m =>
  match m !! name with
  | None => (Crash AssertFail, m)
  | Some (IThread t) => let '(o, t') := f t in (o, <[name := IThread t']> m)
  | Some (IPool p) => let '(o, p') := g p in (o, <[name := IPool p']> m)
  end.
Definition mgr_get (name : string) (m : Mg) : option IFoxThread := m !! name.
Definition mgr_add (name : string) (t : IFoxThread) : prog Mg unit := modify (<[name := t]>).
Definition mgr_dispatch (name : string) (cb : callback) : prog Mg unit := on_named name (dispatch pipe_size cb) (pool_dispatch pipe_size cb);; mret tt.
Definition mgr_dispatch_id (name : string) (id : Z) (cb : callback) : prog Mg unit :=
  on_named name (dispatch pipe_size cb) (pool_dispatch_id pipe_size id cb);; mret tt.
Definition mgr_batchDispatch (name : string) (cbs : list callback) : prog Mg unit :=
  on_named name (batchDispatch pipe_size cbs) (pool_batchDispatch pipe_size cbs);; mret tt.
Definition mgr_broadcast (name : string) (cb : callback) : prog Mg unit := on_named name (broadcast pipe_size cb) (pool_broadcast pipe_size cb).

Fixpoint mgr_init (lexical_cast : string -> option Z) (config : list (string * list (string * string))) : prog Mg unit :=
  match config with
  | [] => mret tt
  | (name, conf) :: rest =>
      let num := GetParamValue lexical_cast conf "num" 0 in
      let advance := GetParamValue lexical_cast conf "advance" 0 in
      (if num <=? 0 then mret tt
       else if num =? 1 then mgr_add name (IThread new_FoxThread)
       else mgr_add name (IPool (new_FoxThreadPool num (negb (advance =? 0)))));;
      mgr_init lexical_cast rest
  end.
(** [start] and [stop] go through the map in the order of [names], its keys. *)
Fixpoint mgr_start (names : list string) : prog Mg unit :=
  match names with [] => mret tt | n :: rest => on_named n start (pool_start pipe_size);; mgr_start rest end.
Fixpoint mgr_each (names : list string) (f : prog FoxThread unit) (g : prog FoxThreadPool unit) : prog Mg unit :=
  match names with [] => mret tt | n :: rest => on_named n f g;; mgr_each rest f g end.
Definition mgr_stop (names : list string) : prog Mg unit :=
  mgr_each names (stop pipe_size) (pool_stop pipe_size);; mgr_each names join pool_join.

(** Nothing is dispatched under a name that was not configured. *)
Lemma unknown_name_aborts name cb m : m !! name = None -> mgr_dispatch name cb m = (Crash AssertFail, m).
Proof. intros E. unfold mgr_dispatch, on_named, mbind, prog_bind. by rewrite E. Qed.
(** Two or more threads make a pool, one a thread, fewer nothing. *)
Lemma mgr_init_entry lexical_cast name conf rest m : exists m', mgr_init lexical_cast ((name, conf) :: rest) m = mgr_init lexical_cast rest m' /\
  (forall n, n <> name -> m' !! n = m !! n) /\
  let num := GetParamValue lexical_cast conf "num" 0 in
  m' !! name = if num <=? 0 then m !! name else Some (if num =? 1 then IThread new_FoxThread
    else IPool (new_FoxThreadPool num (negb (GetParamValue lexical_cast conf "advance" 0 =? 0)))).
Proof.
  simpl. unfold mgr_add, modify, mbind, prog_bind. destruct (_ <=? 0); [by exists m|].
  destruct (_ =? 1); eexists; (split; [reflexivity|]); (split; [intros n Hn; by rewrite lookup_insert_ne|by rewrite lookup_insert_eq]).
Qed.
End manager.

(** * Examples *)

Definition ex_pool : FoxThreadPool := post (pool_start 8) (new_FoxThreadPool 2 true).
Lemma fox_pool_schedules_witness : pool_ok ex_pool /\ exists p, pool_run 8 [PDispatch 1; PBatch [2; 3; 4]; PRelease 1]%nat ex_pool = (Ret tt, p) /\
  p_given p = [1; 2; 3]%nat /\ p_callbacks p = [4]%nat.
Proof.
  assert (pool_ok ex_pool) as Hok.
  { let v := eval vm_compute in ex_pool in change ex_pool with v. split; simpl.
    - apply NoDup_cons. split; [by intros ?%list_elem_of_singleton|apply NoDup_singleton].
    - intros i Hi. apply elem_of_cons in Hi as [->|Hi]; [by eexists|]. apply list_elem_of_singleton in Hi as ->. by eexists.
    - done.
    - by right.
    - done. }
  split; [exact Hok|]. destruct (fox_pool_schedules 8 [PDispatch 1; PBatch [2; 3; 4]; PRelease 1]%nat ex_pool Hok) as (p & E & _). exists p.
  split; [exact E|]. vm_compute in E. injection E as <-. split; reflexivity.
Defined.
Lemma fox_thread_runs_all_witness : exists t', thread_run 20 (post (op_run 8 [OStart; OPush [1; 2]; OPush [3]; OSend; OStep; OStop; OPush [4]; OSend; OSend]%nat) new_FoxThread) = (Ret tt, t') /\
  t_done t' = [1; 2; 3]%nat.
Proof.
  destruct (fox_thread_runs_all 8 ltac:(lia) [OStart; OPush [1; 2]; OPush [3]; OSend; OStep; OStop; OPush [4]; OSend; OSend]%nat) as (t & E & _ & H).
  vm_compute in E. injection E as <-. destruct (H eq_refl eq_refl 20%nat) as (t' & E' & _ & Hd); [vm_compute; lia|]. exists t'. split; [exact E'|exact Hd].
Defined.
(** A stop before the start ends the thread at its first wake-up: what is
    dispatched then does not run. *)
Example stop_before_start :
  let t := post (stop 8;; start;; dispatch 8 7;; thread_run 4) new_FoxThread in t_done t = [] /\ t_loop t = false.
Proof. split; reflexivity. Qed.
(** Deleting a running thread waits for ever: nothing can wake it. *)
Example delete_running_hangs : out (start;; delete_FoxThread) new_FoxThread = Crash NoFuel.
Proof. reflexivity. Qed.
(** A callback that [dispatch] reports as refused is run all the same. *)
Example refused_dispatch_runs :
  let m := (start;; dispatch 1 5;; b ← dispatch 1 6; thread_run 4;; mret b) in
  out m new_FoxThread = Ret false /\ t_done (post m new_FoxThread) = [5; 6]%nat.
Proof. split; reflexivity. Qed.
