(* ===== verification/FoxRedis.v ===== *)
(** [sherry/db/redis.cc]: the asynchronous connections [FoxRedis] and
    [FoxRedisCluster], which run a command for a fiber on an event thread.

    A command is known by a number.  Its [FCtx] is on the stack of the calling
    fiber, from [cmd] until the fiber runs again; its [Ctx] is an object of the
    event thread.  The fiber is resumed once it is in [f_sched].  [f_pending]
    are the commands hiredis has accepted and not yet called back, [f_live] the
    contexts it has not freed.  Every use of an [FCtx], a [Ctx] or a context that
    is gone is a fault.  [f_answers] is a record of what hiredis called back. *)

From stdpp Require Import base list gmap strings.
From S2P Require Import Prelude MachineInt Redis.
From Stdlib Require Import ZArith Lia.

Inductive STATUS : Type := UNCONNECTED | CONNECTING | CONNECTED.
#[export] Instance STATUS_eq_dec : EqDecision STATUS.
Proof. solve_decision. Defined.

Record FCtx : Type := mkFCtx { fc_fiber : bool; fc_rpy : option reply }.
(** [c_armed]: the timer [ev] has not fired yet. *)
Record Ctx : Type := mkCtx { c_timeout : bool; c_fctx : nat; c_armed : bool }.
(** A callback hiredis has to call: [CmdCb] with its [privdata], or [OnAuthCb]. *)
Inductive fox_callback : Type := CbCmd (privdata : option nat) | CbAuth.
Inductive fox_task : Type := TaskPcmd (id : nat) | TaskPinit.

Record fox : Type := mkFox {
  f_status : STATUS;
  f_context : option nat;                          (* [m_context] *)
  f_live : gset nat;
  f_event : bool;                                  (* [m_event != nullptr] *)
  f_ctxs : gmap nat Ctx;
  f_ctxCount : Z;
  f_next : nat;
  f_fctxs : gmap nat FCtx;
  f_tasks : list fox_task;                         (* dispatched to [m_thread] *)
  f_pending : list fox_callback;
  f_sched : list nat;
  f_answers : list (nat * reply);
  f_done : list (nat * option reply)
}.
(** A connection as its constructor leaves it. *)
Definition new_fox : fox := mkFox UNCONNECTED None ∅ false ∅ 0 0 ∅ [] [] [] [] [].

Definition set_status (v : STATUS) (s : fox) : fox :=
  mkFox v (f_context s) (f_live s) (f_event s) (f_ctxs s) (f_ctxCount s) (f_next s) (f_fctxs s) (f_tasks s) (f_pending s) (f_sched s) (f_answers s) (f_done s).
Definition set_context (c : option nat) (live : gset nat) (s : fox) : fox :=
  mkFox (f_status s) c live (f_event s) (f_ctxs s) (f_ctxCount s) (f_next s) (f_fctxs s) (f_tasks s) (f_pending s) (f_sched s) (f_answers s) (f_done s).
Definition set_event (s : fox) : fox :=
  mkFox (f_status s) (f_context s) (f_live s) true (f_ctxs s) (f_ctxCount s) (f_next s) (f_fctxs s) (f_tasks s) (f_pending s) (f_sched s) (f_answers s) (f_done s).
Definition set_ctxs (m : gmap nat Ctx) (n : Z) (s : fox) : fox :=
  mkFox (f_status s) (f_context s) (f_live s) (f_event s) m n (f_next s) (f_fctxs s) (f_tasks s) (f_pending s) (f_sched s) (f_answers s) (f_done s).
Definition set_fctxs (m : gmap nat FCtx) (sched : list nat) (s : fox) : fox :=
  mkFox (f_status s) (f_context s) (f_live s) (f_event s) (f_ctxs s) (f_ctxCount s) (f_next s) m (f_tasks s) (f_pending s) sched (f_answers s) (f_done s).
Definition set_next (n : nat) (s : fox) : fox :=
  mkFox (f_status s) (f_context s) (f_live s) (f_event s) (f_ctxs s) (f_ctxCount s) n (f_fctxs s) (f_tasks s) (f_pending s) (f_sched s) (f_answers s) (f_done s).
Definition set_tasks (l : list fox_task) (s : fox) : fox :=
  mkFox (f_status s) (f_context s) (f_live s) (f_event s) (f_ctxs s) (f_ctxCount s) (f_next s) (f_fctxs s) l (f_pending s) (f_sched s) (f_answers s) (f_done s).
Definition set_pending (l : list fox_callback) (s : fox) : fox :=
  mkFox (f_status s) (f_context s) (f_live s) (f_event s) (f_ctxs s) (f_ctxCount s) (f_next s) (f_fctxs s) (f_tasks s) l (f_sched s) (f_answers s) (f_done s).
Definition set_ghost (a : list (nat * reply)) (d : list (nat * option reply)) (s : fox) : fox :=
  mkFox (f_status s) (f_context s) (f_live s) (f_event s) (f_ctxs s) (f_ctxCount s) (f_next s) (f_fctxs s) (f_tasks s) (f_pending s) (f_sched s) a d.

(** [RedisReplyClone] *)
Fixpoint RedisReplyClone (r : reply) : reply :=
  match r with
  | REDIS_REPLY_INTEGER n => REDIS_REPLY_INTEGER n
  | REDIS_REPLY_ARRAY l => REDIS_REPLY_ARRAY (RedisReplyClone <$> l)
  | REDIS_REPLY_ERROR s => REDIS_REPLY_ERROR s
  | REDIS_REPLY_STATUS s => REDIS_REPLY_STATUS s
  | REDIS_REPLY_STRING s => REDIS_REPLY_STRING s
  | REDIS_REPLY_NIL => REDIS_REPLY_NIL
  end.

Lemma reply_list_ind (P : reply -> Prop) (Hs : forall s, P (REDIS_REPLY_STRING s)) (Hi : forall n, P (REDIS_REPLY_INTEGER n))
  (Hn : P REDIS_REPLY_NIL) (Ht : forall s, P (REDIS_REPLY_STATUS s)) (He : forall s, P (REDIS_REPLY_ERROR s))
  (Ha : forall l, Forall P l -> P (REDIS_REPLY_ARRAY l)) : forall r, P r.
Proof.
  fix IH 1. intros [s|l|n| |s|s]; [apply Hs|apply Ha|apply Hi|apply Hn|apply Ht|apply He].
  induction l as [|r l IHl]; [constructor|constructor; [apply IH|exact IHl]].
Qed.
(** The clone is the whole reply. *)
Lemma clone_same r : RedisReplyClone r = r.
Proof. induction r as [| | | | |l IH] using reply_list_ind; simpl; try done. f_equal. induction IH as [|r l Hr _ IHl]; csimpl; [done|]. by rewrite Hr, IHl. Qed.

Section fox_redis.
(** [FoxRedisCluster] where the two classes differ. *)
Variable cluster : bool.

Definition get_fctx (id : nat) : prog fox FCtx := fun s => of_option NullDeref (f_fctxs s !! id) s.
Definition get_ctx (a : nat) : prog fox Ctx := fun s => of_option NullDeref (f_ctxs s !! a) s.

(** [scheduler->schedule(&fctx->fiber)] takes the fiber out of [*fctx]. *)
Definition wake (id : nat) (rpy : option reply) : prog fox unit :=
  fc ← get_fctx id;
  if fc_fiber fc then
    modify (fun s => set_fctxs (<[id := mkFCtx false (match rpy with Some r => Some r | None => fc_rpy fc end)]> (f_fctxs s)) (f_sched s ++ [id]) s)
  else mret tt.

(** A command given to hiredis on [m_context]; [accept] is whether it takes it. *)
Definition redisAsyncCommand (accept : bool) (cb : fox_callback) : prog fox unit := fun s =>
  match f_context s with
  | Some c => if decide (c ∈ f_live s) then (Ret tt, if accept then set_pending (f_pending s ++ [cb]) s else s)
              else (Crash NullDeref, s)
  | None => (Crash NullDeref, s)
  end.

Definition TimeCb (accept : bool) : prog fox unit := if cluster then mret tt else redisAsyncCommand accept (CbCmd None).

(** What [redisAsyncConnect] gives. *)
Inductive conn_result : Type := ConnNull | ConnErr | ConnOk.
Definition pinit (r : conn_result) (accept : bool) : prog fox bool :=
  s ← gets (fun s => s);
  if negb (bool_decide (f_status s = UNCONNECTED)) then mret true else
  match r with
  | ConnNull => if cluster then crash NullDeref else mret false
  | ConnErr => mret false
  | ConnOk =>
      modify (set_status (if cluster then CONNECTED else CONNECTING));;
      modify (fun s => let c := fresh (f_live s) in set_context (Some c) ({[c]} ∪ f_live s) s);;
      if cluster then
        s ← gets (fun s => s); if f_event s then mret true else modify set_event;; TimeCb accept;; mret true
      else modify set_event;; TimeCb accept;; mret true
  end.
(** [init()], on the event thread or from another one. *)
Definition init (on_thread : bool) (r : conn_result) (accept : bool) : prog fox bool :=
  if on_thread then pinit r accept else modify (fun s => set_tasks (f_tasks s ++ [TaskPinit]) s);; mret true.

(** [Ctx::Ctx], [Ctx::init] and [~Ctx]. *)
Definition new_Ctx (id : nat) : prog fox nat := fun s =>
  let a := fresh (dom (f_ctxs s)) in
  (Ret a, set_ctxs (<[a := mkCtx false id true]> (f_ctxs s)) (sint 32 (f_ctxCount s + 1)) s).
Definition delete_Ctx (a : nat) : prog fox unit :=
  get_ctx a;; modify (fun s => set_ctxs (delete a (f_ctxs s)) (sint 32 (f_ctxCount s - 1)) s).

(** [cmd(...)] up to [YieldToHold]; a command that cannot be formatted is not
    run at all. *)
Definition cmd_begin (formatted : bool) : prog fox (option nat) :=
  if negb formatted then mret None else
  s ← gets (fun s => s);
  let id := f_next s in
  modify (fun s => set_next (S id) (set_fctxs (<[id := mkFCtx true None]> (f_fctxs s)) (f_sched s) s));;
  modify (fun s => set_tasks (f_tasks s ++ [TaskPcmd id]) s);;
  mret (Some id).
(** The rest of [cmd], when the fiber runs again. *)
Definition cmd_end (id : nat) : prog fox (option reply) :=
  fc ← get_fctx id;
  modify (fun s => set_fctxs (delete id (f_fctxs s)) (base.filter (fun i => i <> id) (f_sched s)) s);;
  modify (fun s => set_ghost (f_answers s) (f_done s ++ [(id, fc_rpy fc)]) s);;
  mret (fc_rpy fc).

Definition pcmd (id : nat) (r : conn_result) (accept : bool) : prog fox unit :=
  s ← gets (fun s => s);
  if bool_decide (f_status s = UNCONNECTED) || (cluster && negb (bool_decide (f_status s = CONNECTED))) then
    get_fctx id;; init true r accept;; wake id None
  else
    a ← new_Ctx id;
    get_fctx id;;
    redisAsyncCommand accept (CbCmd (Some a)).

(** [CmdCb]: [err] is [ac->err]. *)
Definition CmdCb (privdata : option nat) (err : bool) (r : option reply) : prog fox unit :=
  match privdata with
  | None => if cluster then crash NullDeref else mret tt
  | Some a =>
      ctx ← get_ctx a;
      if c_timeout ctx then delete_Ctx a else
      wake (c_fctx ctx) (if err then None else if good r then RedisReplyClone <$> r else None);;
      delete_Ctx a
  end.

(** [Ctx::EventCb]: the timer of a command. *)
Definition EventCb (a : nat) : prog fox unit :=
  ctx ← get_ctx a;
  modify (fun s => set_ctxs (<[a := mkCtx true (c_fctx ctx) false]> (f_ctxs s)) (f_ctxCount s) s);;
  wake (c_fctx ctx) None.

(** [OnAuthCb] only logs. *)
Definition OnAuthCb : prog fox unit := mret tt.

(** [ConnectCb], with the "auth" command that it sends if there is a password
    (its callback only logs). *)
Definition ConnectCb (ok passwd accept : bool) : prog fox unit :=
  if ok then
    (if cluster then mret tt else modify (set_status CONNECTED));;
    (if passwd then redisAsyncCommand accept CbAuth else mret tt)
  else if cluster then mret tt else modify (set_status UNCONNECTED).
Definition DisconnectCb : prog fox unit := if cluster then mret tt else modify (set_status UNCONNECTED).
End fox_redis.

(** The members of [FoxRedisCluster]. *)
Definition FoxRedisCluster_CmdCb := CmdCb true.
Definition FoxRedisCluster_TimeCb := TimeCb true.
Definition FoxRedisCluster_init := init true.
Definition FoxRedisCluster_pinit := pinit true.
Definition FoxRedisCluster_pcmd := pcmd true.
Definition FoxRedisCluster_ConnectCb := ConnectCb true.
Definition FoxRedisCluster_DisconnectCb := DisconnectCb true.

(** * The connection, its event thread and its callers together

    What hiredis and libevent document: a callback is called once for each
    accepted command, a timer fires once; a context is freed after its
    callbacks, when the connect callback reported a failure or after the
    disconnect callback (a cluster context is not freed with one of its
    connections). *)

Inductive fox_step : Type :=
| SCmd (formatted : bool)
| STask (r : conn_result) (accept : bool)
| SReply (k : nat) (err : bool) (r : option reply)
| STimeout (a : nat)
| SConnect (ok passwd accept : bool)
| SDisconnect
| STime (accept : bool)
| SResume (id : nat).

Section steps.
Variable cluster : bool.
Implicit Types (s : fox).

Definition free_context : prog fox unit := modify (fun s =>
  if cluster then s else set_context (f_context s) (f_live s ∖ default ∅ (singleton <$> f_context s)) s).
(** The answer of hiredis to the command of a [Ctx]. *)
Definition note_answer (cb : fox_callback) (err : bool) (r : option reply) s : fox :=
  match cb, err, r with
  | CbCmd (Some a), false, Some x =>
      match f_ctxs s !! a with Some ctx => set_ghost (f_answers s ++ [(c_fctx ctx, x)]) (f_done s) s | None => s end
  | _, _, _ => s
  end.
Definition fox_exec (st : fox_step) : prog fox unit := fun s =>
  match st with
  | SCmd f => (cmd_begin f;; mret tt) s
  | STask r accept =>
      match f_tasks s with
      | [] => (Ret tt, s)
      | TaskPcmd id :: l => pcmd cluster id r accept (set_tasks l s)
      | TaskPinit :: l => (pinit cluster r accept;; mret tt) (set_tasks l s)
      end
  | SReply k err r =>
      match f_pending s !! k with
      | None => (Ret tt, s)
      | Some cb =>
          let s' := note_answer cb err r (set_pending (delete k (f_pending s)) s) in
          match cb with CbCmd p => CmdCb cluster p err r s' | CbAuth => OnAuthCb s' end
      end
  | STimeout a => EventCb a s
  | SConnect ok passwd accept => (ConnectCb cluster ok passwd accept;; if ok then mret tt else free_context) s
  | SDisconnect => (DisconnectCb cluster;; free_context) s
  | STime accept => TimeCb cluster accept s
  | SResume id => (cmd_end id;; mret tt) s
  end.
Definition live_context s : bool := match f_context s with Some c => bool_decide (c ∈ f_live s) | None => false end.
Definition enabled (st : fox_step) s : bool :=
  match st with
  | SCmd _ => true
  | STask r _ => negb (cluster && match r with ConnNull => true | _ => false end)
  | SReply k _ _ => (k <? length (f_pending s))%nat
  | STimeout a => match f_ctxs s !! a with Some ctx => c_armed ctx | None => false end
  | SConnect ok _ _ => live_context s && (ok || cluster || bool_decide (length (f_pending s) = 0%nat))
  | SDisconnect => live_context s && (cluster || bool_decide (length (f_pending s) = 0%nat))
  | STime _ => f_event s && (cluster || negb (bool_decide (f_status s = UNCONNECTED)))
  | SResume id => bool_decide (id ∈ f_sched s)
  end.

(** States reached by enabled steps that all returned. *)
Inductive fox_reach : fox -> Prop :=
| fox_start : fox_reach new_fox
| fox_more s st s' : fox_reach s -> enabled st s = true -> fox_exec st s = (Ret tt, s') -> fox_reach s'.

(** ** The invariant *)

Definition pcmd_id (t : fox_task) : option nat := match t with TaskPcmd id => Some id | TaskPinit => None end.
Definition ctx_of (cb : fox_callback) : option nat := match cb with CbCmd p => p | CbAuth => None end.
Definition holds (ctxs : gmap nat Ctx) (id : nat) : Prop := exists a x, ctxs !! a = Some x /\ c_timeout x = false /\ c_fctx x = id.

(** The commands; [cur] is one that the event thread is about to hand on. *)
Record cmds_ok (cur : option nat) s : Prop := {
  i_armed a x : f_ctxs s !! a = Some x -> c_armed x = negb (c_timeout x);
  i_task id : TaskPcmd id ∈ f_tasks s -> f_fctxs s !! id = Some (mkFCtx true None) /\ cur <> Some id /\ ~ holds (f_ctxs s) id;
  i_ctx id : holds (f_ctxs s) id -> f_fctxs s !! id = Some (mkFCtx true None) /\ cur <> Some id;
  i_cur id : cur = Some id -> f_fctxs s !! id = Some (mkFCtx true None);
  i_wait id fc : f_fctxs s !! id = Some fc -> fc_fiber fc = true -> TaskPcmd id ∈ f_tasks s \/ holds (f_ctxs s) id \/ cur = Some id;
  i_tasks : NoDup (omap pcmd_id (f_tasks s));
  i_ctxs a b x y : f_ctxs s !! a = Some x -> f_ctxs s !! b = Some y -> c_timeout x = false -> c_timeout y = false -> c_fctx x = c_fctx y -> a = b;
  i_nodup : NoDup (f_sched s);
  i_sched id : id ∈ f_sched s <-> exists fc, f_fctxs s !! id = Some fc /\ fc_fiber fc = false;
  i_rpy id fc r : f_fctxs s !! id = Some fc -> fc_rpy fc = Some r -> (id, r) ∈ f_answers s;
  i_next id : is_Some (f_fctxs s !! id) -> (id < f_next s)%nat;
  i_done id o : (id, o) ∈ f_done s -> (id < f_next s)%nat /\ f_fctxs s !! id = None /\ forall r, o = Some r -> (id, r) ∈ f_answers s;
  i_once : NoDup (f_done s).*1;
  i_all id : (id < f_next s)%nat -> is_Some (f_fctxs s !! id) \/ id ∈ (f_done s).*1
}.
(** The objects of the event thread. *)
Record ctxs_ok s : Prop := {
  j_count : f_ctxCount s = sint 32 (Z.of_nat (size (f_ctxs s)));
  j_pend : NoDup (omap ctx_of (f_pending s));
  j_live a : a ∈ omap ctx_of (f_pending s) -> is_Some (f_ctxs s !! a);
  j_ping : cluster = true -> CbCmd None ∉ f_pending s;
  j_conn : f_status s <> UNCONNECTED -> live_context s = true
}.
Definition fox_ok s : Prop := cmds_ok None s /\ ctxs_ok s.

Lemma elem_pcmd id (l : list fox_task) : id ∈ omap pcmd_id l <-> TaskPcmd id ∈ l.
Proof.
  rewrite list_elem_of_omap. split; [|by exists (TaskPcmd id)]. intros ([i|] & H & E); simpl in E; by simplify_eq.
Qed.

Lemma pop_task id l s : cmds_ok None s -> f_tasks s = TaskPcmd id :: l -> cmds_ok (Some id) (set_tasks l s).
Proof.
  intros I T. destruct I as [I1 I2 I3 I4 I5 I6 I7 I8 I9 I10 I11 I12 I13 I14]. rewrite T in *. csimpl in I6.
  apply NoDup_cons in I6 as [Hn I6]. rewrite elem_pcmd in Hn. destruct (I2 id) as (F & _ & Hh); [left|].
  split; simpl; try done.
  - intros i Hi. destruct (I2 i) as (? & _ & ?); [by right|]. split_and!; try done. congruence.
  - intros i Hi. destruct (I3 i Hi) as [? _]. split; [done|]. congruence.
  - intros i [= <-]. done.
  - intros i fc H1 H2. destruct (I5 i fc H1 H2) as [[[= ->]|Hi]%elem_of_cons|[Hi|?]]; [auto..|done].
Qed.
Lemma pop_pinit l s : cmds_ok None s -> f_tasks s = TaskPinit :: l -> cmds_ok None (set_tasks l s).
Proof.
  intros [I1 I2 I3 I4 I5 I6 I7 I8 I9 I10 I11 I12 I13 I14] T. rewrite T in *. csimpl in I6. split; simpl; try done.
  - intros i Hi. apply I2. by right.
  - intros i fc H1 H2. destruct (I5 i fc H1 H2) as [[?|Hi]%elem_of_cons|[Hi|?]]; [done|auto..].
Qed.
(** Handing the current command to the scheduler. *)
Definition woken (id : nat) (rpy : option reply) s : fox :=
  set_fctxs (<[id := mkFCtx false rpy]> (f_fctxs s)) (f_sched s ++ [id]) s.
Lemma wake_run id rpy s : f_fctxs s !! id = Some (mkFCtx true None) -> wake id rpy s = (Ret tt, woken id rpy s).
Proof. intros H. unfold wake. erewrite bind_ret by (unfold get_fctx; by rewrite H). unfold woken. by destruct rpy. Qed.
Lemma wake_ok id rpy s : cmds_ok (Some id) s -> (forall r, rpy = Some r -> (id, r) ∈ f_answers s) -> cmds_ok None (woken id rpy s).
Proof.
  intros [I1 I2 I3 I4 I5 I6 I7 I8 I9 I10 I11 I12 I13 I14] Ha. pose proof (I4 id eq_refl) as F.
  assert (Hs : id ∉ f_sched s). { rewrite I9. intros (fc & E & Hf). by rewrite F in E; simplify_eq. }
  split; simpl; try done.
  - intros i Hi. destruct (I2 i Hi) as (? & Hne & ?). rewrite lookup_insert_ne by congruence. done.
  - intros i Hi. destruct (I3 i Hi) as (? & Hne). rewrite lookup_insert_ne by congruence. done.
  - intros i fc. destruct (decide (id = i)) as [->|Hne]; [rewrite lookup_insert_eq|rewrite lookup_insert_ne by done]; [by intros [= <-]|].
    intros H1 H2. destruct (I5 i fc H1 H2) as [?|[?|?]]; [auto..|congruence].
  - apply NoDup_app. split_and!; [done| |apply NoDup_singleton]. intros i Hi ->%list_elem_of_singleton. done.
  - intros i. rewrite elem_of_app, list_elem_of_singleton, I9. destruct (decide (id = i)) as [->|Hne].
    + rewrite lookup_insert_eq. split; [intros _; by eexists|]. intros _. by right.
    + rewrite lookup_insert_ne by done. split; [intros [?|?]; [done|congruence]|by left].
  - intros i fc r. destruct (decide (id = i)) as [->|Hne]; [rewrite lookup_insert_eq|rewrite lookup_insert_ne by done]; [|apply I10].
    intros [= <-]. simpl. auto.
  - intros i. destruct (decide (id = i)) as [->|Hne]; [rewrite lookup_insert_eq|rewrite lookup_insert_ne by done]; [|apply I11]. intros _. apply I11. by rewrite F.
  - intros i o Ho. destruct (I12 i o Ho) as (? & Hn & ?). rewrite lookup_insert_ne; [done|]. congruence.
  - intros i Hi. destruct (I14 i Hi) as [?|?]; [|by right]. left. destruct (decide (id = i)) as [->|Hne]; [by rewrite lookup_insert_eq|by rewrite lookup_insert_ne].
Qed.
(** A [Ctx] takes over the current command. *)
Lemma take_ctx id a n s : cmds_ok (Some id) s -> f_ctxs s !! a = None ->
  cmds_ok None (set_ctxs (<[a := mkCtx false id true]> (f_ctxs s)) n s).
Proof.
  intros [I1 I2 I3 I4 I5 I6 I7 I8 I9 I10 I11 I12 I13 I14] Hf. pose proof (I4 id eq_refl) as F.
  assert (Hh : forall i, holds (<[a := mkCtx false id true]> (f_ctxs s)) i <-> i = id \/ holds (f_ctxs s) i).
  { intros i. split.
    - intros (b & x & H & Ht & Hc). destruct (decide (a = b)) as [->|Hne].
      + rewrite lookup_insert_eq in H. simplify_eq. by left.
      + rewrite lookup_insert_ne in H by done. right. by exists b, x.
    - intros [->|(b & x & H & Ht & Hc)]; [exists a; eexists; by rewrite lookup_insert_eq|].
      exists b, x. rewrite lookup_insert_ne by congruence. done. }
  split; simpl; try done.
  - intros b x. destruct (decide (a = b)) as [->|Hne]; [rewrite lookup_insert_eq; by intros [= <-]|rewrite lookup_insert_ne by done; apply I1].
  - intros i Hi. destruct (I2 i Hi) as (? & Hne & ?). rewrite Hh. split_and!; [done..|]. intros [->|?]; done.
  - intros i. rewrite Hh. intros [->|Hi]; [done|]. split; [|done]. by apply I3.
  - intros i fc H1 H2. rewrite Hh. destruct (I5 i fc H1 H2) as [?|[?|[= <-]]]; auto.
  - intros b c x y. destruct (decide (a = b)) as [<-|Hb], (decide (a = c)) as [<-|Hc]; rewrite ?lookup_insert_eq, ?lookup_insert_ne by done; [done|..|apply I7].
    + intros [= <-] Hy _ Ht Heq. simpl in Heq. destruct (I3 id) as [_ Hn]; [by exists c, y|done].
    + intros Hx [= <-] Ht _ Heq. simpl in Heq. destruct (I3 id) as [_ Hn]; [by exists b, x|done].
Qed.
(** A [Ctx] gives its command back: it times out, or it is deleted. *)
Lemma release_ctx a x (ctxs : gmap nat Ctx) n s : cmds_ok None s -> f_ctxs s !! a = Some x -> c_timeout x = false ->
  (forall b, b <> a -> ctxs !! b = f_ctxs s !! b) -> (forall y, ctxs !! a = Some y -> c_timeout y = true /\ c_armed y = false) ->
  cmds_ok (Some (c_fctx x)) (set_ctxs ctxs n s).
Proof.
  intros [I1 I2 I3 I4 I5 I6 I7 I8 I9 I10 I11 I12 I13 I14] Hx Ht Ho Ha.
  destruct (I3 (c_fctx x)) as [F _]; [by exists a, x|].
  assert (Hh : forall i, holds ctxs i <-> holds (f_ctxs s) i /\ i <> c_fctx x).
  { intros i. split.
    - intros (b & y & H & Hy & Hc). destruct (decide (b = a)) as [->|Hne]; [destruct (Ha y H); congruence|]. rewrite Ho in H by done.
      split; [by exists b, y|]. intros ->. destruct Hne. eauto.
    - intros [(b & y & H & Hy & Hc) Hne]. exists b, y. rewrite Ho; [done|]. intros ->. congruence. }
  split; simpl; try done.
  - intros b y H. destruct (decide (b = a)) as [->|Hne]; [by destruct (Ha y H) as [-> ->]|]. rewrite Ho in H by done. eauto.
  - intros i Hi. destruct (I2 i Hi) as (? & _ & Hn). rewrite Hh. split_and!; [done| |by intros [? _]]. intros [= <-]. destruct Hn. by exists a, x.
  - intros i [Hi Hne]%Hh. destruct (I3 i Hi). split; [done|congruence].
  - by intros i [= <-].
  - intros i fc H1 H2. rewrite Hh. destruct (decide (i = c_fctx x)) as [->|Hne]; [by right; right|].
    destruct (I5 i fc H1 H2) as [?|[?|?]]; [auto..|done].
  - intros b c y z Hy Hz Ty Tz E. destruct (decide (b = a)) as [->|Hb]; [destruct (Ha y Hy); congruence|].
    destruct (decide (c = a)) as [->|Hc]; [destruct (Ha z Hz); congruence|]. rewrite Ho in Hy, Hz by done. eauto.
Qed.
Definition same_cmds s s' : Prop :=
  f_ctxs s' = f_ctxs s /\ f_fctxs s' = f_fctxs s /\ f_tasks s' = f_tasks s /\ f_sched s' = f_sched s /\
  f_answers s' = f_answers s /\ f_done s' = f_done s /\ f_next s' = f_next s.
Lemma cmds_frame cur s s' : same_cmds s s' -> cmds_ok cur s -> cmds_ok cur s'.
Proof. intros (E1 & E2 & E3 & E4 & E5 & E6 & E7) I. split; rewrite ?E1, ?E2, ?E3, ?E4, ?E5, ?E6, ?E7; apply I. Qed.
Lemma same_trans s1 s2 s3 : same_cmds s1 s2 -> same_cmds s2 s3 -> same_cmds s1 s3.
Proof. unfold same_cmds. intuition congruence. Qed.

(** ** Commands given to hiredis *)
Lemma async_ok accept cb s : ctxs_ok s -> live_context s = true -> (cluster = true -> cb <> CbCmd None) ->
  (forall a, ctx_of cb = Some a -> is_Some (f_ctxs s !! a) /\ a ∉ omap ctx_of (f_pending s)) ->
  exists s', redisAsyncCommand accept cb s = (Ret tt, s') /\ ctxs_ok s' /\ same_cmds s s'.
Proof.
  intros [J1 J2 J3 J4 J5] Hl Hc Ha. unfold redisAsyncCommand. unfold live_context in Hl.
  destruct (f_context s) as [c|] eqn:Ec; [|done]. rewrite decide_True by by apply bool_decide_eq_true in Hl.
  eexists. split; [done|]. destruct accept; [|by split].
  split; [|done]. split; simpl; try done.
  - rewrite omap_app. csimpl. destruct (ctx_of cb) as [a|] eqn:E; [|by rewrite app_nil_r]. apply NoDup_app.
    split_and!; [done| |apply NoDup_singleton]. intros b Hb ->%list_elem_of_singleton. by destruct (Ha a eq_refl).
  - intros a. rewrite omap_app, elem_of_app. intros [H|H]; [auto|]. csimpl in H. destruct (ctx_of cb) as [b|]; [|by apply elem_of_nil in H].
    apply list_elem_of_singleton in H as ->. by apply Ha.
  - intros Hcl. rewrite elem_of_app, list_elem_of_singleton. intros [H|H]; [by apply J4|]. by apply (Hc Hcl).
Qed.
Lemma time_ok accept s : ctxs_ok s -> (cluster = true \/ live_context s = true) ->
  exists s', TimeCb cluster accept s = (Ret tt, s') /\ ctxs_ok s' /\ same_cmds s s'.
Proof.
  intros J H. unfold TimeCb. destruct cluster eqn:E; [by exists s|]. destruct H as [|H]; [done|]. apply async_ok; try done. by rewrite E.
Qed.
Lemma pinit_ok r accept s : ctxs_ok s -> enabled (STask r accept) s = true ->
  exists b s', pinit cluster r accept s = (Ret b, s') /\ ctxs_ok s' /\ same_cmds s s'.
Proof.
  intros J He. unfold pinit. run_pure. destruct (bool_decide (f_status s = UNCONNECTED)) eqn:Es; simpl; [|by eexists _, s].
  unfold enabled in He. destruct r.
  - destruct cluster; [done|]. by eexists _, s.
  - by eexists _, s.
  - run_pure. set (s1 := set_context _ _ _).
    assert (J1 : ctxs_ok s1 /\ live_context s1 = true /\ same_cmds s s1).
    { destruct J as [J1 J2 J3 J4 J5]. assert (live_context s1 = true) as Hl by (unfold live_context; simpl; apply bool_decide_eq_true; set_solver).
      split_and!; done. }
    destruct J1 as (J1 & Hl & S1).
    assert (J2 : ctxs_ok (set_event s1)) by (destruct J1; split; done).
    destruct (time_ok accept (set_event s1) J2 ltac:(by right)) as (s2 & E2 & J3 & S2).
    assert (S3 : same_cmds s s2) by by eapply same_trans.
    destruct cluster; [|run_pure; run E2; by eexists _, s2]. run_pure. simpl.
    destruct (f_event s); [by eexists _, s1|]. injection E2 as <-. by eexists _, (set_event s1).
Qed.

Lemma fresh_ctx s : f_ctxs s !! fresh (dom (f_ctxs s)) = None.
Proof. apply not_elem_of_dom, is_fresh. Qed.
Lemma sint_shift n d : sint 32 (sint 32 n + d) = sint 32 (n + d).
Proof.
  unfold sint. f_equal. replace ((n + 2 ^ (32 - 1)) mod 2 ^ 32 - 2 ^ (32 - 1) + d + 2 ^ (32 - 1))%Z with ((n + 2 ^ (32 - 1)) mod 2 ^ 32 + d)%Z by lia.
  rewrite Zplus_mod_idemp_l. f_equal. lia.
Qed.

(** ** The steps *)
Lemma pcmd_ok id r accept s : cmds_ok (Some id) s -> ctxs_ok s -> enabled (STask r accept) s = true ->
  exists s', pcmd cluster id r accept s = (Ret tt, s') /\ fox_ok s'.
Proof.
  intros I J He. pose proof (i_cur _ _ I id eq_refl) as F. unfold pcmd. run_pure. destruct (_ || _) eqn:Hst.
  - erewrite bind_ret by (unfold get_fctx; by rewrite F). unfold init.
    destruct (pinit_ok r accept s J He) as (b & s1 & E & J1 & S1). run E.
    pose proof (cmds_frame _ _ _ S1 I) as I1. pose proof (i_cur _ _ I1 id eq_refl) as F1.
    rewrite wake_run by done. eexists. split; [done|]. split; [by apply wake_ok|]. destruct J1. by split.
  - apply orb_false_iff in Hst as [Hst _]. apply bool_decide_eq_false in Hst.
    unfold new_Ctx. run_pure. set (a := fresh (dom (f_ctxs s))). set (s1 := set_ctxs _ _ s).
    erewrite bind_ret by (unfold get_fctx; simpl; by rewrite F).
    assert (J1 : ctxs_ok s1).
    { destruct J as [J1 J2 J3 J4 J5]. split; simpl; try done.
      - rewrite map_size_insert_None by apply fresh_ctx. rewrite J1, sint_shift. f_equal. lia.
      - intros b Hb. destruct (decide (a = b)) as [<-|Hne]; [by rewrite lookup_insert_eq|]. rewrite lookup_insert_ne by done. auto. }
    destruct (async_ok accept (CbCmd (Some a)) s1 J1) as (s2 & E2 & J2 & S2).
    + by apply J.
    + done.
    + intros b [= <-]. simpl. rewrite lookup_insert_eq. split; [done|]. intros Hin. apply (j_live _ J) in Hin.
      unfold a in Hin. rewrite fresh_ctx in Hin. by destruct Hin.
    + exists s2. split; [done|]. split; [|done]. eapply cmds_frame; [exact S2|]. apply take_ctx; [done|apply fresh_ctx].
Qed.

Lemma delete_timed a x n s : cmds_ok None s -> f_ctxs s !! a = Some x -> c_timeout x = true -> cmds_ok None (set_ctxs (delete a (f_ctxs s)) n s).
Proof.
  intros [I1 I2 I3 I4 I5 I6 I7 I8 I9 I10 I11 I12 I13 I14] Hx Ht.
  assert (Hh : forall i, holds (delete a (f_ctxs s)) i <-> holds (f_ctxs s) i).
  { intros i. split; intros (b & y & H & Hy & Hc).
    - apply lookup_delete_Some in H as [_ H]. by exists b, y.
    - exists b, y. rewrite lookup_delete_ne; [done|]. intros ->. congruence. }
  split; simpl; try done.
  - intros b y [_ H]%lookup_delete_Some. eauto.
  - intros i Hi. rewrite Hh. auto.
  - intros i. rewrite Hh. auto.
  - intros i fc H1 H2. rewrite Hh. eauto.
  - intros b c y z [_ Hy]%lookup_delete_Some [_ Hz]%lookup_delete_Some. eauto.
Qed.
(** The callbacks still to come without the [k]-th. *)
Lemma pending_delete k cb s : ctxs_ok s -> f_pending s !! k = Some cb -> forall s', f_pending s' = delete k (f_pending s) ->
  f_ctxs s' = f_ctxs s -> f_ctxCount s' = f_ctxCount s -> f_status s' = f_status s -> live_context s' = live_context s ->
  ctxs_ok s' /\ forall a, ctx_of cb = Some a -> a ∉ omap ctx_of (f_pending s').
Proof.
  intros [J1 J2 J3 J4 J5] Hk s' E1 E2 E3 E4 E5. apply list_elem_of_split_length in Hk as (l1 & l2 & Hp & ->).
  rewrite Hp in *. rewrite delete_middle in E1. rewrite omap_app in *. csimpl in *. split; [|].
  - split; rewrite ?E1, ?E2, ?E3, ?E4, ?E5, ?omap_app; try done.
    + destruct (ctx_of cb); [|done]. apply NoDup_app in J2 as (N1 & N2 & [_ N3]%NoDup_cons). apply NoDup_app. split_and!; [done| |done].
      intros a Ha Hb. apply (N2 a Ha). by right.
    + intros a Ha. apply J3. apply elem_of_app in Ha as [Ha|Ha]; apply elem_of_app; [by left|]. right. destruct (ctx_of cb); [by right|done].
    + intros Hc Hin. apply (J4 Hc). apply elem_of_app in Hin as [?|?]; apply elem_of_app; [by left|right; by right].
  - intros a Ha. rewrite Ha in J2. rewrite E1, omap_app, elem_of_app. apply NoDup_app in J2 as (N1 & N2 & [N3 N4]%NoDup_cons).
    intros [H|H]; [|done]. apply (N2 a H). left.
Qed.
Lemma ctxs_delete a x s : ctxs_ok s -> f_ctxs s !! a = Some x -> a ∉ omap ctx_of (f_pending s) ->
  ctxs_ok (set_ctxs (delete a (f_ctxs s)) (sint 32 (f_ctxCount s - 1)) s).
Proof.
  intros [J1 J2 J3 J4 J5] Hx Hn. split; simpl; try done.
  - rewrite map_size_delete_Some by by eexists. assert (size (f_ctxs s) <> 0%nat) by (apply (map_size_ne_0_lookup_2 _ a); by eexists).
    rewrite J1. unfold Z.sub at 1. rewrite sint_shift. f_equal. lia.
  - intros b Hb. rewrite lookup_delete_ne; [auto|]. by intros ->.
Qed.
Lemma cmds_answers cur l s : cmds_ok cur s -> cmds_ok cur (set_ghost (f_answers s ++ l) (f_done s) s).
Proof.
  intros [I1 I2 I3 I4 I5 I6 I7 I8 I9 I10 I11 I12 I13 I14]. split; simpl; try done.
  - intros i fc r H1 H2. apply elem_of_app. left. eauto.
  - intros i o H. destruct (I12 i o H) as (? & ? & Hr). split_and!; [done..|]. intros r ->. apply elem_of_app. left. auto.
Qed.
Lemma note_answer_ok cb err r s : cmds_ok None s -> cmds_ok None (note_answer cb err r s).
Proof. intros I. unfold note_answer. repeat case_match; try done. by apply cmds_answers. Qed.
Lemma note_answer_same cb err r s : f_pending (note_answer cb err r s) = f_pending s /\ f_ctxs (note_answer cb err r s) = f_ctxs s /\
  f_ctxCount (note_answer cb err r s) = f_ctxCount s /\ f_status (note_answer cb err r s) = f_status s /\
  live_context (note_answer cb err r s) = live_context s.
Proof. unfold note_answer. by repeat case_match. Qed.
Lemma note_answer_in a x r s : f_ctxs s !! a = Some x -> (c_fctx x, r) ∈ f_answers (note_answer (CbCmd (Some a)) false (Some r) s).
Proof. intros H. simpl. rewrite H. simpl. apply elem_of_app. right. left. Qed.

Lemma delete_Ctx_run a x s : f_ctxs s !! a = Some x ->
  delete_Ctx a s = (Ret tt, set_ctxs (delete a (f_ctxs s)) (sint 32 (f_ctxCount s - 1)) s).
Proof. intros H. unfold delete_Ctx. by erewrite bind_ret by (unfold get_ctx; by rewrite H). Qed.

Lemma CmdCb_ok a x err r s : cmds_ok None s -> ctxs_ok s -> f_ctxs s !! a = Some x -> a ∉ omap ctx_of (f_pending s) ->
  (forall y, err = false -> r = Some y -> (c_fctx x, y) ∈ f_answers s) ->
  exists s', CmdCb cluster (Some a) err r s = (Ret tt, s') /\ fox_ok s'.
Proof.
  intros I J Hx Hn Ha. unfold CmdCb. erewrite bind_ret by (unfold get_ctx; by rewrite Hx).
  pose proof (ctxs_delete a x s J Hx Hn) as J1. destruct (c_timeout x) eqn:Ht.
  - rewrite (delete_Ctx_run a x) by done. eexists. split; [done|]. split; [by eapply delete_timed|done].
  - destruct (i_ctx _ _ I (c_fctx x)) as [F _]; [by exists a, x|]. set (rpy := if err then None else _).
    run (wake_run (c_fctx x) rpy s F). rewrite (delete_Ctx_run a x) by done. eexists. split; [done|].
    split; [|by destruct J1; split].
    apply (cmds_frame None (woken (c_fctx x) rpy (set_ctxs (delete a (f_ctxs s)) (sint 32 (f_ctxCount s - 1)) s))); [done|]. apply wake_ok.
    + apply (release_ctx a x _ _ s I Hx Ht); [intros; by rewrite lookup_delete_ne|intros y; by rewrite lookup_delete_eq].
    + intros y. unfold rpy. destruct err; [done|]. destruct r as [r|]; simpl; [|done].
      rewrite clone_same. case_match; [|done]. intros [= <-]. simpl. auto.
Qed.
Lemma reply_ok k err r s : fox_ok s -> exists s', fox_exec (SReply k err r) s = (Ret tt, s') /\ fox_ok s'.
Proof.
  intros [I J]. simpl. destruct (f_pending s !! k) as [cb|] eqn:Hk; [|by exists s].
  set (s1 := note_answer cb err r (set_pending (delete k (f_pending s)) s)).
  destruct (note_answer_same cb err r (set_pending (delete k (f_pending s)) s)) as (E1 & E2 & E3 & E4 & E5).
  destruct (pending_delete k cb s J Hk s1 E1 E2 E3 E4 E5) as [J1 Hn].
  assert (I1 : cmds_ok None s1) by by apply note_answer_ok, (cmds_frame None s).
  destruct cb as [[a|]|].
  - assert (a ∈ omap ctx_of (f_pending s)) as Hin. { apply list_elem_of_omap. exists (CbCmd (Some a)). split; [|done]. by eapply list_elem_of_lookup_2. }
    destruct (j_live _ J a Hin) as [x Hx]. apply (CmdCb_ok a x); try done; [unfold s1; by rewrite E2|by apply Hn|].
    intros y -> ->. by apply note_answer_in.
  - unfold CmdCb. destruct cluster eqn:Ec; [|by exists s1]. destruct (j_ping _ J Ec). by eapply list_elem_of_lookup_2.
  - by exists s1.
Qed.
Lemma timeout_ok a s : fox_ok s -> enabled (STimeout a) s = true -> exists s', fox_exec (STimeout a) s = (Ret tt, s') /\ fox_ok s'.
Proof.
  intros [I J] He. simpl in He. destruct (f_ctxs s !! a) as [x|] eqn:Hx; [|done]. pose proof (i_armed _ _ I a x Hx) as Har.
  rewrite He in Har. destruct (c_timeout x) eqn:Ht; [done|]. destruct (i_ctx _ _ I (c_fctx x)) as [F _]; [by exists a, x|].
  simpl. unfold EventCb. erewrite bind_ret by (unfold get_ctx; by rewrite Hx). run_pure. rewrite wake_run by done. eexists. split; [done|].
  split.
  - apply wake_ok; [|done]. apply (release_ctx a x _ _ s I Hx Ht); [intros; by rewrite lookup_insert_ne|intros y; rewrite lookup_insert_eq; by intros [= <-]].
  - destruct J as [J1 J2 J3 J4 J5]. split; simpl; try done.
    + by rewrite map_size_insert_Some by by eexists.
    + intros b Hb. destruct (decide (a = b)) as [<-|]; [by rewrite lookup_insert_eq|]. rewrite lookup_insert_ne by done. auto.
Qed.
Lemma connect_ok ok passwd accept s : fox_ok s -> enabled (SConnect ok passwd accept) s = true ->
  exists s', fox_exec (SConnect ok passwd accept) s = (Ret tt, s') /\ fox_ok s'.
Proof.
  intros [I J] He. simpl in He. apply andb_true_iff in He as [Hl He]. simpl. unfold ConnectCb. destruct ok; simpl.
  - set (s1 := if cluster then s else set_status CONNECTED s).
    assert (Hs1 : (if cluster then mret tt else modify (set_status CONNECTED)) s = (Ret tt, s1)) by (unfold s1; by destruct cluster).
    assert (J1 : ctxs_ok s1 /\ live_context s1 = true /\ same_cmds s s1) by (unfold s1; destruct cluster; split_and!; try done; destruct J; by split).
    destruct J1 as (J1 & Hl1 & S1). rewrite bind_assoc. run Hs1. destruct passwd; [|exists s1; split; [done|]; split; [by eapply cmds_frame|done]].
    destruct (async_ok accept CbAuth s1 J1 Hl1) as (s2 & E2 & J2 & S2); [done..|]. run E2. exists s2. split; [done|].
    split; [|done]. eapply cmds_frame; [|exact I]. by eapply same_trans.
  - unfold free_context. destruct cluster eqn:Ec; [by exists s|]. run_pure. eexists. split; [done|].
    split; [by eapply cmds_frame; [|exact I]|]. destruct J. by split.
Qed.
Lemma disconnect_ok s : fox_ok s -> exists s', fox_exec SDisconnect s = (Ret tt, s') /\ fox_ok s'.
Proof.
  intros [I J]. simpl. unfold DisconnectCb, free_context. destruct cluster eqn:Ec; [by exists s|]. run_pure. eexists. split; [done|].
  split; [by eapply cmds_frame; [|exact I]|]. destruct J. by split.
Qed.
Lemma cmd_ok f s : fox_ok s -> exists s', fox_exec (SCmd f) s = (Ret tt, s') /\ fox_ok s'.
Proof.
  intros [I J]. simpl. unfold cmd_begin. destruct f; simpl; [|by exists s]. run_pure. eexists. split; [done|].
  split; [|by destruct J; split]. destruct I as [I1 I2 I3 I4 I5 I6 I7 I8 I9 I10 I11 I12 I13 I14]. set (id := f_next s).
  assert (Hf : f_fctxs s !! id = None). { destruct (f_fctxs s !! id) eqn:E; [|done]. assert (id < id)%nat; [|lia]. apply I11. by eexists. }
  assert (Hh : ~ holds (f_ctxs s) id). { intros H. destruct (I3 _ H). congruence. }
  assert (Ht : TaskPcmd id ∉ f_tasks s). { intros H. destruct (I2 _ H). congruence. }
  assert (Old : forall i, is_Some (f_fctxs s !! i) -> id <> i) by (intros i [? ?] ->; congruence).
  split; simpl; try done.
  - intros i. rewrite elem_of_app, list_elem_of_singleton. intros [Hi|[= ->]]; [|by rewrite lookup_insert_eq].
    destruct (I2 i Hi) as (F & ? & ?). rewrite lookup_insert_ne by (apply Old; by eexists). done.
  - intros i Hi. destruct (I3 i Hi) as [F ?]. rewrite lookup_insert_ne by (apply Old; by eexists). done.
  - intros i fc. destruct (decide (id = i)) as [<-|Hne]; [intros _ _; left; apply elem_of_app; right; left|].
    rewrite lookup_insert_ne by done. intros H1 H2. destruct (I5 i fc H1 H2) as [?|[?|?]]; [left; apply elem_of_app; by left|by auto|done].
  - rewrite omap_app. csimpl. apply NoDup_app. split_and!; [done| |apply NoDup_singleton].
    intros i Hi%elem_pcmd ->%list_elem_of_singleton. done.
  - intros i. rewrite I9. destruct (decide (id = i)) as [<-|Hne]; [|by rewrite lookup_insert_ne]. rewrite lookup_insert_eq, Hf.
    split; intros (fc & E & Hfc); by simplify_eq.
  - intros i fc r. destruct (decide (id = i)) as [<-|Hne]; [rewrite lookup_insert_eq; by intros [= <-]|rewrite lookup_insert_ne by done; apply I10].
  - intros i. destruct (decide (id = i)) as [<-|Hne]; [intros _; lia|]. rewrite lookup_insert_ne by done. intros H. specialize (I11 i H). lia.
  - intros i o Ho. destruct (I12 i o Ho) as (Hlt & Hn & ?). rewrite lookup_insert_ne by (unfold id; lia). split_and!; [lia|done..].
  - intros i Hi. destruct (decide (id = i)) as [<-|Hne]; [left; by rewrite lookup_insert_eq|]. rewrite lookup_insert_ne by done. apply I14. unfold id in *. lia.
Qed.
Lemma resume_ok id s : fox_ok s -> id ∈ f_sched s -> exists s', fox_exec (SResume id) s = (Ret tt, s') /\ fox_ok s'.
Proof.
  intros [I J] Hid. pose proof I as [I1 I2 I3 I4 I5 I6 I7 I8 I9 I10 I11 I12 I13 I14]. destruct (proj1 (I9 id) Hid) as (fc & F & Hfc).
  simpl. unfold cmd_end. rewrite bind_assoc. erewrite bind_ret by (unfold get_fctx; by rewrite F). run_pure. eexists. split; [done|].
  split; [|by destruct J; split]. assert (Hd : id ∉ (f_done s).*1).
  { intros ([i o] & -> & Ho)%list_elem_of_fmap. destruct (I12 _ _ Ho) as (_ & Hn & _). simpl in *. congruence. }
  split; simpl; try done.
  - intros i Hi. destruct (I2 i Hi) as (Fi & ? & ?). rewrite lookup_delete_ne; [done|]. intros <-. by simplify_eq.
  - intros i Hi. destruct (I3 i Hi) as (Fi & ?). rewrite lookup_delete_ne; [done|]. intros <-. by simplify_eq.
  - intros i x [_ H]%lookup_delete_Some. eauto.
  - by apply NoDup_filter.
  - intros i. rewrite list_elem_of_filter, I9. split.
    + intros (Hne & x & Hx & ?). exists x. by rewrite lookup_delete_ne.
    + intros (x & [Hne Hx]%lookup_delete_Some & ?). split; [done|]. by exists x.
  - intros i x r [_ H]%lookup_delete_Some. eauto.
  - intros i [x [_ H]%lookup_delete_Some]. apply I11. by eexists.
  - intros i o. rewrite elem_of_app, list_elem_of_singleton. intros [Ho|[= -> ->]].
    + destruct (I12 i o Ho) as (? & Hn & ?). split_and!; [done| |done]. apply lookup_delete_None. by right.
    + rewrite lookup_delete_eq. split_and!; [apply I11; by eexists|done|]. intros r Hr. eauto.
  - rewrite fmap_app. apply NoDup_app. split_and!; [done| |apply NoDup_singleton]. intros i Hi ->%list_elem_of_singleton. done.
  - intros i Hi. rewrite fmap_app, elem_of_app. destruct (decide (id = i)) as [<-|Hne]; [right; right; left|].
    rewrite lookup_delete_ne by done. destruct (I14 i Hi); auto.
Qed.
Lemma step_ok st s : fox_ok s -> enabled st s = true -> exists s', fox_exec st s = (Ret tt, s') /\ fox_ok s'.
Proof.
  intros H He. destruct st.
  - by apply cmd_ok.
  - destruct H as [I J]. simpl. destruct (f_tasks s) as [|[id|] l] eqn:T; [by exists s|..].
    + apply pcmd_ok; [by apply pop_task|by destruct J; split|done].
    + destruct (pinit_ok r accept (set_tasks l s)) as (b & s' & E & J' & S'); [by destruct J; split|done|].
      run E. exists s'. split; [done|]. split; [|done]. eapply cmds_frame; [exact S'|]. by apply pop_pinit.
  - by apply reply_ok.
  - by apply timeout_ok.
  - by apply connect_ok.
  - by apply disconnect_ok.
  - destruct H as [I J]. simpl in He. apply andb_true_iff in He as [_ He].
    destruct (time_ok accept s J) as (s' & E & J' & S').
    { apply orb_true_iff in He as [?|He]; [by left|]. right. apply J. by destruct (decide (f_status s = UNCONNECTED)) as [E|E]; [rewrite bool_decide_true in He|]. }
    exists s'. split; [done|]. split; [|done]. by eapply cmds_frame.
  - simpl in He. apply bool_decide_eq_true in He. by apply resume_ok.
Qed.
Lemma new_fox_ok : fox_ok new_fox.
Proof.
  split; split; simpl; try done; try apply NoDup_nil_2; try (intros id; (by intros ?%elem_of_nil) || (by intros (? & ? & ? & _))).
  - intros id. split; [by intros ?%elem_of_nil|by intros (? & ? & _)].
  - by intros id [? ?].
  - by intros id o ?%elem_of_nil.
  - lia.
Qed.
Lemma reach_ok s : fox_reach s -> fox_ok s.
Proof.
  induction 1 as [|s st s' _ IH He E]; [apply new_fox_ok|]. destruct (step_ok st s IH He) as (s2 & E2 & ?). congruence.
Qed.

End steps.

(** A command that times out before the connection answers, and one that is
    answered: the first returns nothing, the second the reply. *)
Fixpoint fox_run (cluster : bool) (l : list fox_step) (s : fox) : outcome fox :=
  match l with
  | [] => Ret s
  | st :: l' => if enabled cluster st s then match fox_exec cluster st s with (Ret _, s') => fox_run cluster l' s' | (Throw e, _) => Throw e | (Crash f, _) => Crash f end
                else Throw "not enabled"
  end.
Lemma fox_run_reach cluster l s s' : fox_reach cluster s -> fox_run cluster l s = Ret s' -> fox_reach cluster s'.
Proof.
  revert s; induction l as [|st l IH]; intros s R; simpl; [by intros [= <-]|]. destruct (enabled cluster st s) eqn:He; [|done].
  destruct (fox_exec cluster st s) as [[[]| |] s1] eqn:E; try done. intros H. eapply IH; [|exact H]. by eapply fox_more.
Qed.
(** Connect by a first command, then two commands at once; the second reply
    comes too late. *)
Definition fox_example : list fox_step :=
  [SCmd true; STask ConnOk true; SConnect true false true; SResume 0; SReply 0 false (Some (REDIS_REPLY_STATUS "PONG"));
   SCmd true; SCmd true; STask ConnErr true; STask ConnErr true; SReply 0 false (Some (REDIS_REPLY_STRING "v")); STimeout 1;
   SReply 0 false (Some (REDIS_REPLY_STRING "w")); SResume 2; SResume 1].

(** ** Differences from what the code means *)
(** After a disconnection the ping timer still uses the context that hiredis
    has freed. *)
Example ping_after_disconnect :
  match fox_run false [SCmd true; STask ConnOk true; SConnect true false true; SReply 0 true None; SDisconnect] new_fox with
  | Ret s => f_event s = true /\ out (TimeCb false true) s = Crash NullDeref
  | _ => False
  end.
Proof. vm_compute. done. Qed.
(** A cluster connection dereferences the result of the connect call before
    it tests it. *)
Lemma cluster_connect_null accept s : f_status s = UNCONNECTED -> out (pinit true ConnNull accept) s = Crash NullDeref.
Proof. intros H. unfold pinit, out. run_pure. rewrite H. done. Qed.
(** A command that hiredis refuses is answered by its timeout, but its [Ctx] is
    never deleted. *)
Example refused_command_leaks :
  match fox_run false [SCmd true; STask ConnOk true; SConnect true false true; SResume 0; SCmd true; STask ConnErr false; STimeout 0; SResume 1;
                       SReply 0 true None; SDisconnect] new_fox with
  | Ret s => f_done s = [(0%nat, None); (1%nat, None)] /\ f_pending s = [] /\ f_ctxCount s = 1%Z
  | _ => False
  end.
Proof. vm_compute. done. Qed.
