(* ===== verification/RedisPool.v ===== *)
(** [sherry/db/redis.cc]: the synchronous connections [Redis] and
    [RedisCluster] (one record, with a flag where the classes differ), the
    pools of [RedisManager] and the commands of [RedisUtil].

    hiredis is the class [Hiredis] over a state of the world; a context is a
    number, [None] a null pointer.  [rm_datas] are the lists of the pools and
    [rm_heap] the connections.  [get] takes a connection from its list under
    the lock and tests it without: the two are separate steps, and
    [rm_checking] and [rm_out] record which connections are under test and
    which a client holds.  The replies of "auth" have a text whenever they are
    a status. *)

From Stdlib Require Import ZArith Lia Ascii String.
From stdpp Require Import base list gmap strings.
From S2P Require Import Prelude MachineInt Ragel Address Http Redis.
Local Open Scope Z_scope.

(** * hiredis *)

(** [cluster] selects the functions of hiredis-vip.  [redisGetReply] gives a
    reply (perhaps null) in [Some], or fails. *)
Class Hiredis (W : Type) : Type := {
  redisConnectWithTimeout : bool -> string -> Z -> Z * Z -> W -> option nat * W;
  redisSetTimeout : nat -> Z * Z -> W -> W;
  redisReconnect : nat -> W -> Z * W;
  redisvCommand : bool -> nat -> list string -> W -> option reply * W;
  redisvAppendCommand : bool -> nat -> list string -> W -> Z * W;
  redisGetReply : bool -> nat -> W -> option (option reply) * W
}.

(** * Configuration *)

Fixpoint find_value (key : string) (m : list (string * string)) : option string :=
  match m with [] => None | (k, v) :: m' => if String.eqb k key then Some v else find_value key m' end.
Definition get_value (m : list (string * string)) (key def : string) : string := default def (find_value key m).

(** [strtoull(s, nullptr, 10)] and [TypeUtil::Atoi]. *)
Definition strtoull (s : bytes) : Z :=
  let value := fun ds => Z.min (digits_value 10 0 ds) (2 ^ 64 - 1) in
  match skip_space s with
  | c :: s' => if Ascii.eqb c "-" then wrap 64 (- value s') else value (if Ascii.eqb c "+" then s' else c :: s')
  | [] => 0
  end.
Definition Atoi (str : string) : Z := if String.eqb str "" then 0 else sint 64 (strtoull (list_ascii_of_string (c_str str))).

(** * Connections *)

Record ISyncRedis : Type := mkSyncRedis {
  r_cluster : bool; m_name : string; m_passwd : string; m_logEnable : bool;
  m_host : string; m_port : Z; m_connectMs : Z; m_cmdTimeout : Z * Z; m_context : option nat; m_lastActiveTime : Z
}.
Abbreviation Rd := ISyncRedis.
Definition upd_connect (host : string) (port ms : Z) (r : Rd) : Rd :=
  mkSyncRedis (r_cluster r) (m_name r) (m_passwd r) (m_logEnable r) host port ms (m_cmdTimeout r) (m_context r) (m_lastActiveTime r).
Definition upd_context (timeout : Z * Z) (c : option nat) (r : Rd) : Rd :=
  mkSyncRedis (r_cluster r) (m_name r) (m_passwd r) (m_logEnable r) (m_host r) (m_port r) (m_connectMs r) timeout c (m_lastActiveTime r).
Definition setName (v : string) (r : Rd) : Rd :=
  mkSyncRedis (r_cluster r) v (m_passwd r) (m_logEnable r) (m_host r) (m_port r) (m_connectMs r) (m_cmdTimeout r) (m_context r) (m_lastActiveTime r).
Definition setLastActiveTime (v : Z) (r : Rd) : Rd :=
  mkSyncRedis (r_cluster r) (m_name r) (m_passwd r) (m_logEnable r) (m_host r) (m_port r) (m_connectMs r) (m_cmdTimeout r) (m_context r) v.

(** [Redis(conf)] and [RedisCluster(conf)]. *)
Definition timeout_of (conf : list (string * string)) : Z * Z :=
  let tmp := get_value conf "timeout_com" "" in
  let tmp := if String.eqb tmp "" then get_value conf "timeout" "" else tmp in
  let v := wrap 64 (Atoi tmp) in
  (v / 1000, v mod 1000 * 1000).
Definition new_Redis (cluster : bool) (conf : list (string * string)) : Rd :=
  let tmp := get_value conf "host" "" in
  let log := negb (Atoi (get_value conf "log_enable" "1") =? 0) in
  if cluster then mkSyncRedis true "" (get_value conf "passwd" "") log tmp 0 0 (timeout_of conf) None 0
  else
    let '(host, port) := match find_char ":"%char tmp with
                         | Some pos => (stake pos tmp, sdrop (S pos) tmp)
                         | None => (tmp, tmp)
                         end in
    mkSyncRedis false "" (get_value conf "passwd" "") log host (wrap 32 (Atoi port)) 0 (timeout_of conf) None 0.

Section redis.
Context {W : Type} {hr : Hiredis W}.

(** A call of hiredis on [m_context.get()], which it dereferences. *)
Definition on_context {A} (r : Rd) (f : nat -> W -> A * W) : prog W A := fun w =>
  match m_context r with Some c => let '(a, w') := f c w in (Ret a, w') | None => (Crash NullDeref, w) end.

Definition setTimeout (v : Z) (r : Rd) : prog W (bool * Rd) :=
  if r_cluster r then mret (true, r) else
  let tv := (v / 1000, v mod 1000 * 1000) in
  on_context r (fun c w => (tt, redisSetTimeout c tv w));;
  mret (true, upd_context tv (m_context r) r).

(** [connect(ip, port, ms)]: the result and the connection. *)
Definition connect (ip : string) (port ms : Z) (r : Rd) : prog W (bool * Rd) :=
  let r := upd_connect ip (wrap 32 port) (wrap 32 ms) r in
  match m_context r with Some _ => mret (true, r) | None =>
    let tv := (Z.quot (sint 32 ms) 1000, sint 32 (Z.rem (sint 32 ms) 1000 * 1000)) in
    c ← (fun w => let '(c, w') := redisConnectWithTimeout (r_cluster r) ip port tv w in (Ret c, w'));
    match c with
    | None => mret (false, r)
    | Some c =>
        let r := upd_context (m_cmdTimeout r) (Some c) r in
        '(_, r) ← (if negb (r_cluster r) && (negb (fst (m_cmdTimeout r) =? 0) || negb (snd (m_cmdTimeout r) =? 0))
                   then setTimeout (wrap 64 (fst (m_cmdTimeout r) * 1000 + snd (m_cmdTimeout r) / 1000)) r else mret (true, r));
        if negb (String.eqb (m_passwd r) "") then
          rep ← on_context r (fun c => redisvCommand (r_cluster r) c ["auth"; c_str (m_passwd r)]%string);
          mret (match rep with Some (REDIS_REPLY_STATUS str) => String.eqb str "OK" | _ => false end, r)
        else mret (true, r)
    end
  end.
Definition connect_default (r : Rd) : prog W (bool * Rd) := connect (m_host r) (sint 32 (m_port r)) 50 r.

(** [reconnect()] converts what [redisReconnect] returns to [bool]. *)
Definition reconnect (r : Rd) : prog W bool :=
  if r_cluster r then mret true else rt ← on_context r redisReconnect; mret (negb (rt =? 0)).

(** [cmd]: null for no reply and for an error. *)
Definition cmd (args : list string) (r : Rd) : prog W (option reply) :=
  rep ← on_context r (fun c => redisvCommand (r_cluster r) c args);
  mret (if good rep then rep else None).
Definition getReply (r : Rd) : prog W (option reply) :=
  rep ← on_context r (redisGetReply (r_cluster r)); mret (default None rep).
Definition appendCmd (args : list string) (r : Rd) : prog W Z :=
  on_context r (fun c => redisvAppendCommand (r_cluster r) c args).
End redis.

(** * The pools *)

(** An asynchronous connection is only passed on here. *)
Inductive conn : Type := CSync (r : ISyncRedis) | CFox (cluster : bool) (name : string).
Definition getName (c : conn) : string := match c with CSync r => m_name r | CFox _ n => n end.
Definition is_sync (c : conn) : bool := match c with CSync _ => true | CFox _ _ => false end.

Record RedisManager (W : Type) : Type := mkManager {
  rm_datas : gmap string (list nat);
  rm_heap : gmap nat conn;
  rm_checking : list (nat * string);
  rm_out : list nat;
  rm_world : W
}.
Arguments mkManager {W}. Arguments rm_datas {W}. Arguments rm_heap {W}. Arguments rm_checking {W}. Arguments rm_out {W}. Arguments rm_world {W}.

Section manager.
Context {W : Type} {hr : Hiredis W}.
Abbreviation M := (RedisManager W).
Abbreviation conf_map := (list (string * list (string * string))).

Definition pool (n : string) (s : M) : list nat := default [] (rm_datas s !! n).
Definition set_pool (n : string) (l : list nat) (s : M) : M :=
  mkManager (<[n := l]> (rm_datas s)) (rm_heap s) (rm_checking s) (rm_out s) (rm_world s).
Definition push_back (n : string) (r : nat) (s : M) : M := set_pool n (pool n s ++ [r]) s.
Definition set_conn (r : nat) (c : conn) (s : M) : M :=
  mkManager (rm_datas s) (<[r := c]> (rm_heap s)) (rm_checking s) (rm_out s) (rm_world s).
Definition set_checking (l : list (nat * string)) (s : M) : M := mkManager (rm_datas s) (rm_heap s) l (rm_out s) (rm_world s).
Definition set_out (l : list nat) (s : M) : M := mkManager (rm_datas s) (rm_heap s) (rm_checking s) l (rm_world s).
Definition obj (r : nat) : prog M conn := fun s => of_option NullDeref (rm_heap s !! r) s.
(** Code that works on the world only. *)
Definition world {A} (m : prog W A) : prog M A := fun s =>
  let '(a, w) := m (rm_world s) in (a, mkManager (rm_datas s) (rm_heap s) (rm_checking s) (rm_out s) w).

(** [get(name)] under the lock: nothing, an asynchronous connection, or a
    synchronous one that is still to be tested. *)
Inductive taken : Type := Nothing | Shared (r : nat) | Taken (r : nat).
Definition get_take (name : string) : prog M taken :=
  s ← gets (fun s => s);
  match pool name s with
  | [] => mret Nothing
  | r :: rest =>
      modify (set_pool name rest);;
      c ← obj r;
      if is_sync c then modify (fun s => set_checking (rm_checking s ++ [(r, name)]) s);; mret (Taken r)
      else modify (push_back name r);; mret (Shared r)
  end.

(** The rest of [get], with the time it reads. *)
Definition checked (r : nat) : prog M unit := modify (fun s => set_checking (base.filter (fun x => fst x <> r) (rm_checking s)) s).
Definition get_check (r : nat) (name : string) (now : Z) : prog M (option nat) :=
  c ← obj r;
  match c with
  | CFox _ _ => crash NullDeref
  | CSync rr =>
      alive ← (if 30 <? wrap 64 (now - m_lastActiveTime rr) then
                 rep ← world (cmd ["ping"%string] rr);
                 match rep with Some _ => mret true | None => world (reconnect rr) end
               else mret true);
      checked r;;
      if negb alive then modify (push_back name r);; mret None
      else modify (set_conn r (CSync (setLastActiveTime (wrap 64 now) rr)));;
           modify (fun s => set_out (rm_out s ++ [r]) s);; mret (Some r)
  end.
Definition get (name : string) (now : Z) : prog M (option nat) :=
  t ← get_take name;
  match t with Nothing => mret None | Shared r => mret (Some r) | Taken r => get_check r name now end.

(** [freeRedis], the deleter of what [get] gives. *)
Definition freeRedis (r : nat) : prog M unit :=
  c ← obj r;
  modify (push_back (getName c) r);;
  modify (fun s => set_out (base.filter (fun x => x <> r) (rm_out s)) s).

(** [init]: a connection of one of the types, or none; [fox] is what
    [FoxThreadMgr::dispatch] does with the task that makes an asynchronous one
    (it aborts when there is no thread "redis"). *)
Definition new_conn (fox : outcome unit) (type name : string) (conf : list (string * string)) (now : Z) : prog M unit :=
  let add (c : conn) : prog M unit := modify (fun s =>
    let r := fresh (dom (rm_heap s)) in push_back name r (set_conn r c s)) in
  if String.eqb type "redis" || String.eqb type "redis_cluster" then
    '(_, r) ← world (connect_default (new_Redis (String.eqb type "redis_cluster") conf));
    add (CSync (setName name (setLastActiveTime now r)))
  else if String.eqb type "fox_redis" || String.eqb type "fox_redis_cluster" then
    lift fox;; add (CFox (String.eqb type "fox_redis_cluster") name)
  else mret tt.
Fixpoint new_conns (fox : outcome unit) (n : nat) (type name : string) (conf : list (string * string)) (now : Z) : prog M unit :=
  match n with O => mret tt | S n' => new_conn fox type name conf now;; new_conns fox n' type name conf now end.
(** The loop over the pools; [done] and [total] are the counters. *)
Fixpoint init_pools (fox : outcome unit) (config : conf_map) (now done total : Z) : prog M (Z * Z) :=
  match config with
  | [] => mret (done, total)
  | (name, conf) :: rest =>
      let type := get_value conf "type" "" in
      let n := Atoi (get_value conf "pool" "") in
      new_conns fox (Z.to_nat n) type name conf now;;
      init_pools fox rest now (wrap 64 (done + Z.max 0 n)) (wrap 64 (total + n))
  end.
(** [while(done != total) usleep(5000)] does not end when they differ. *)
Definition init (fox : outcome unit) (config : conf_map) (now : Z) : prog M unit :=
  '(done, total) ← init_pools fox config now 0 0;
  if done =? total then mret tt else crash NoFuel.
Definition new_RedisManager (w : W) : M := mkManager ∅ ∅ [] [] w.

(** * [RedisUtil] *)

(** [RedisUtil::Cmd]: the connection goes back when [cmd] is over; [fox] is
    what the asynchronous connection answers. *)
Definition Cmd (fox : nat -> list string -> option reply) (name : string) (args : list string) (now : Z) : prog M (option reply) :=
  t ← get name now;
  match t with
  | None => mret None
  | Some r =>
      c ← obj r;
      match c with
      | CSync rr => rep ← world (cmd args rr); freeRedis r;; mret rep
      | CFox _ _ => mret (fox r args)
      end
  end.
Fixpoint TryCmd (fox : nat -> list string -> option reply) (name : string) (count : nat) (args : list string) (now : Z) : prog M (option reply) :=
  match count with
  | O => mret None
  | S n => rep ← Cmd fox name args now; match rep with Some _ => mret rep | None => TryCmd fox name n args now end
  end.
End manager.

(** * The pools lose no connection and lend none twice *)

Section invariant.
Context {W : Type} {hr : Hiredis W}.
Abbreviation M := (RedisManager W).
Implicit Types (s : M) (r : nat) (n : string).

(** A connection is in the list of its own name, under test, or held by one
    client; the synchronous ones have a context. *)
Record mgr_ok (s : M) : Prop := {
  ok_pool : forall n r, r ∈ pool n s -> exists c, rm_heap s !! r = Some c /\ getName c = n;
  ok_nodup : forall n, NoDup (pool n s);
  ok_busy : NoDup ((rm_checking s).*1 ++ rm_out s);
  ok_checking : forall r n, (r, n) ∈ rm_checking s -> exists c, rm_heap s !! r = Some (CSync c) /\ m_name c = n /\ r ∉ pool n s;
  ok_out : forall r, r ∈ rm_out s -> exists c, rm_heap s !! r = Some (CSync c) /\ r ∉ pool (m_name c) s;
  ok_kept : forall r c, rm_heap s !! r = Some c -> r ∈ pool (getName c) s \/ r ∈ (rm_checking s).*1 \/ r ∈ rm_out s;
  ok_context : forall r c, rm_heap s !! r = Some (CSync c) -> m_context c <> None
}.

(** The steps of the callers, in any order: a [get] is its two steps. *)
Inductive mgr_op : Type := OTake (name : string) | OCheck (r : nat) (name : string) (now : Z) | OFree (r : nat).
Definition mgr_exec (o : mgr_op) : prog M unit :=
  match o with
  | OTake n => get_take n;; mret tt
  | OCheck r n now => s ← gets (fun s => s); if decide ((r, n) ∈ rm_checking s) then get_check r n now;; mret tt else mret tt
  | OFree r => s ← gets (fun s => s); if decide (r ∈ rm_out s) then freeRedis r else mret tt
  end.
Fixpoint mgr_run (ops : list mgr_op) : prog M unit :=
  match ops with [] => mret tt | o :: ops' => mgr_exec o;; mgr_run ops' end.
(** The same connections under the same names. *)
Definition same_conns (s s' : M) : Prop := forall r, getName <$> rm_heap s' !! r = getName <$> rm_heap s !! r.

Lemma pool_set n l m s : pool m (set_pool n l s) = if decide (m = n) then l else pool m s.
Proof. unfold pool, set_pool. simpl. destruct (decide (m = n)) as [->|Hne]; [by rewrite lookup_insert_eq|by rewrite lookup_insert_ne]. Qed.
Lemma pool_heap s s' n : rm_datas s' = rm_datas s -> pool n s' = pool n s.
Proof. unfold pool. by intros ->. Qed.

Lemma obj_run r c s : rm_heap s !! r = Some c -> obj r s = (Ret c, s).
Proof. unfold obj. by intros ->. Qed.

Lemma filter_checked_NoDup r (l : list (nat * string)) : NoDup l.*1 -> NoDup (base.filter (fun x => x.1 <> r) l).*1.
Proof.
  induction l as [|[a b] l IH]; [done|]. csimpl. intros [Ha Hl]%NoDup_cons. destruct (decide (a <> r)) as [Hd|Hd].
  - rewrite filter_cons_True by done. csimpl. apply NoDup_cons. split; [|by apply IH].
    intros (x & -> & [_ Hx]%list_elem_of_filter)%list_elem_of_fmap. apply Ha, list_elem_of_fmap. by exists x.
  - rewrite filter_cons_False by done. by apply IH.
Qed.
Lemma elem_checked r x (l : list (nat * string)) : x ∈ (base.filter (fun x => x.1 <> r) l).*1 <-> x ∈ l.*1 /\ x <> r.
Proof.
  rewrite !list_elem_of_fmap. split.
  - intros (y & -> & [Hy Hin]%list_elem_of_filter). split; [by exists y|done].
  - intros [(y & -> & Hin) Hne]. exists y. split; [done|]. by apply list_elem_of_filter.
Qed.

(** A caller that holds [r] puts it back. *)
Lemma put_back s r c : mgr_ok s -> rm_heap s !! r = Some c -> r ∉ pool (getName c) s ->
  mgr_ok (set_checking (base.filter (fun x => x.1 <> r) (rm_checking s)) (set_out (base.filter (fun x => x <> r) (rm_out s)) (push_back (getName c) r s))).
Proof.
  intros [H1 H2 H3 H4 H5 H6 H7] Hr Hn.
  assert (forall m, pool m (set_checking (base.filter (fun x => x.1 <> r) (rm_checking s)) (set_out (base.filter (fun x => x <> r) (rm_out s)) (push_back (getName c) r s))) =
            if decide (m = getName c) then pool (getName c) s ++ [r] else pool m s) as Hp by (intros m; apply pool_set).
  assert (forall r', r' <> r -> r' ∈ (rm_checking s).*1 -> r' ∈ (base.filter (fun x => x.1 <> r) (rm_checking s)).*1) as Hc.
  { intros r' Hne (x & -> & Hx)%list_elem_of_fmap. apply list_elem_of_fmap. exists x. split; [done|]. by apply list_elem_of_filter. }
  split; cbn [rm_heap rm_checking rm_out set_checking set_out push_back set_pool].
  - intros m r'. rewrite Hp. case_decide; [|apply H1]. subst m. rewrite elem_of_app, list_elem_of_singleton. intros [Hin| ->]; [by apply H1|by exists c].
  - intros m. rewrite Hp. case_decide; [|apply H2]. apply NoDup_app. split_and!; [apply H2| |apply NoDup_singleton].
    intros x Hx Hr'. apply list_elem_of_singleton in Hr'. by subst.
  - apply NoDup_app in H3 as (N1 & N2 & N3). apply NoDup_app. split_and!.
    + by apply filter_checked_NoDup.
    + intros x (y & -> & [_ Hy]%list_elem_of_filter)%list_elem_of_fmap [_ Ho]%list_elem_of_filter.
      apply (N2 y.1); [apply list_elem_of_fmap; by exists y|done].
    + by apply NoDup_filter.
  - intros r' m [Hne Hin]%list_elem_of_filter. destruct (H4 r' m Hin) as (c' & E & Em & Hnp). exists c'. split_and!; [done|done|].
    rewrite Hp. case_decide as Eq; [|done]. rewrite elem_of_app, list_elem_of_singleton. intros [Hx| ->]; [by rewrite <- Eq in Hx|by apply Hne].
  - intros r' [Hne Hin]%list_elem_of_filter. destruct (H5 r' Hin) as (c' & E & Hnp). exists c'. split; [done|].
    rewrite Hp. case_decide as Em; [|done]. rewrite elem_of_app, list_elem_of_singleton. intros [Hx| ->]; [by rewrite <- Em in Hx|done].
  - intros r' c' E. rewrite Hp. destruct (decide (r' = r)) as [->|Hne].
    + assert (c' = c) as -> by congruence. left. rewrite decide_True by done. apply elem_of_app. right. by left.
    + destruct (H6 r' c' E) as [Hx|[Hx|Hx]].
      * left. case_decide as Em; [|done]. apply elem_of_app. left. by rewrite <- Em.
      * right. left. by apply Hc.
      * right. right. by apply list_elem_of_filter.
  - done.
Qed.

Lemma mgr_ok_ext s s' : rm_datas s' = rm_datas s -> rm_heap s' = rm_heap s -> rm_checking s' = rm_checking s -> rm_out s' = rm_out s ->
  mgr_ok s -> mgr_ok s'.
Proof.
  intros E1 E2 E3 E4 [H1 H2 H3 H4 H5 H6 H7]. assert (forall n, pool n s' = pool n s) as Hp by (intros n; by apply pool_heap).
  split; rewrite ?E2, ?E3, ?E4; [intros n r| |done|intros r n Hin|intros r Hin|intros r c Hc|exact H7]; rewrite ?Hp; [apply H1|intros n; rewrite Hp; apply H2|by apply H4| |by apply H6].
  destruct (H5 r Hin) as (c & E & Hn). exists c. by rewrite Hp.
Qed.

Lemma take_shared s n r rest k : mgr_ok s -> pool n s = r :: rest -> rm_heap s !! r = Some (CFox k n) -> mgr_ok (push_back n r (set_pool n rest s)).
Proof.
  intros [H1 H2 H3 H4 H5 H6 H7] Hp Hr.
  assert (forall m, pool m (push_back n r (set_pool n rest s)) = if decide (m = n) then rest ++ [r] else pool m s) as Hpl.
  { intros m. unfold push_back. rewrite !pool_set. by repeat case_decide. }
  assert (forall m x, x ∈ pool m (push_back n r (set_pool n rest s)) <-> x ∈ pool m s) as Hm.
  { intros m x. rewrite Hpl. case_decide; [|done]. subst m. rewrite Hp. set_solver. }
  split; cbn [rm_heap rm_checking rm_out push_back set_pool]; try done.
  - intros m x Hx. by apply H1, Hm.
  - intros m. rewrite Hpl. case_decide; [|done]. subst m. specialize (H2 n). rewrite Hp in H2. apply NoDup_cons in H2 as [Ha Hb]. apply NoDup_app. split_and!; [done| |apply NoDup_singleton].
    intros x Hx Hxr. apply list_elem_of_singleton in Hxr. by subst.
  - intros x m Hin. destruct (H4 x m Hin) as (c & E & En & Hn). exists c. by rewrite Hm.
  - intros x Hin. destruct (H5 x Hin) as (c & E & Hn). exists c. by rewrite Hm.
  - intros x c E. rewrite Hm. by apply H6.
Qed.

Lemma take_sync s n r rest c : mgr_ok s -> pool n s = r :: rest -> rm_heap s !! r = Some (CSync c) ->
  mgr_ok (set_checking (rm_checking s ++ [(r, n)]) (set_pool n rest s)) /\ r ∉ (rm_checking s).*1 /\ r ∉ rm_out s.
Proof.
  intros [H1 H2 H3 H4 H5 H6 H7] Hp Hr. set (s' := set_checking _ _).
  assert (forall m, pool m s' = if decide (m = n) then rest else pool m s) as Hm by (intros m; apply pool_set).
  pose proof (H2 n) as Hnd. rewrite Hp in Hnd. apply NoDup_cons in Hnd as [Ha Hb].
  assert (r ∈ pool n s) as Hin by (rewrite Hp; by left). destruct (H1 _ _ Hin) as (c' & E & En). rewrite Hr in E. injection E as <-. simpl in En.
  assert (r ∉ (rm_checking s).*1) as Hc.
  { intros ((x & m) & -> & Hx)%list_elem_of_fmap. simpl in *. destruct (H4 _ _ Hx) as (c2 & E2 & E3 & Hn2). rewrite Hr in E2. injection E2 as <-.
    rewrite <- E3, En in Hn2. done. }
  assert (r ∉ rm_out s) as Ho.
  { intros Hx. destruct (H5 _ Hx) as (c2 & E2 & Hn2). rewrite Hr in E2. injection E2 as <-. by rewrite En in Hn2. }
  split; [|done]. split; cbn [rm_heap rm_checking rm_out s' set_checking set_pool].
  - intros m x. rewrite Hm. case_decide; [|apply H1]. subst m. intros Hx. apply H1. rewrite Hp. by right.
  - intros m. rewrite Hm. case_decide; [done|apply H2].
  - rewrite fmap_app. csimpl. apply NoDup_app in H3 as (N1 & N2 & N3). rewrite <- app_assoc. apply NoDup_app. split_and!; [done| |by apply NoDup_cons].
    intros x Hx [->|Hx2]%elem_of_cons; [done|by apply (N2 x)].
  - intros x m. rewrite elem_of_app, list_elem_of_singleton. intros [Hx|[= -> ->]].
    + destruct (H4 x m Hx) as (c2 & E2 & E3 & Hn2). exists c2. split_and!; [done|done|]. rewrite Hm. case_decide as Em; [|done].
      intros Hx2. apply Hn2. rewrite Em, Hp. by right.
    + exists c. split_and!; [done|done|]. by rewrite Hm, decide_True.
  - intros x Hx. destruct (H5 x Hx) as (c2 & E2 & Hn2). exists c2. split; [done|]. rewrite Hm. case_decide as Em; [|done].
    intros Hx2. apply Hn2. rewrite Em, Hp. by right.
  - intros x c2 E2. rewrite Hm. rewrite fmap_app, elem_of_app. csimpl. rewrite list_elem_of_singleton. destruct (H6 x c2 E2) as [Hx|[Hx|Hx]]; [|by auto..].
    case_decide as Em; [|by left]. rewrite Em, Hp in Hx. apply elem_of_cons in Hx as [->|Hx]; [by right; left; right|by left].
  - done.
Qed.

Lemma lend s r n c t : mgr_ok s -> (r, n) ∈ rm_checking s -> rm_heap s !! r = Some (CSync c) ->
  mgr_ok (set_out (rm_out s ++ [r]) (set_conn r (CSync (setLastActiveTime t c)) (set_checking (base.filter (fun x => x.1 <> r) (rm_checking s)) s))).
Proof.
  intros [H1 H2 H3 H4 H5 H6 H7] Hin Hr. set (s' := set_out _ _). destruct (H4 r n Hin) as (c0 & E0 & En & Hnp). rewrite Hr in E0. injection E0 as <-.
  assert (forall m, pool m s' = pool m s) as Hp by done.
  assert (forall x c', rm_heap s' !! x = Some c' -> exists c0, rm_heap s !! x = Some c0 /\ getName c' = getName c0) as Hh.
  { intros x c' E. simpl in E. destruct (decide (x = r)) as [->|Hne].
    - rewrite lookup_insert_eq in E. injection E as <-. by exists (CSync c).
    - rewrite lookup_insert_ne in E by done. by exists c'. }
  assert (forall x c0, rm_heap s !! x = Some (CSync c0) -> exists c', rm_heap s' !! x = Some (CSync c') /\ m_name c' = m_name c0) as Hs.
  { intros x c0 E. simpl. destruct (decide (x = r)) as [->|Hne].
    - rewrite lookup_insert_eq. rewrite Hr in E. injection E as <-. by eexists.
    - rewrite lookup_insert_ne by done. by exists c0. }
  assert (r ∈ (rm_checking s).*1) as Hrc by (apply list_elem_of_fmap; by exists (r, n)).
  apply NoDup_app in H3 as (N1 & N2 & N3). split; cbn [rm_checking rm_out s' set_checking set_out set_conn].
  - intros m x Hx. destruct (H1 m x Hx) as (c1 & E1 & <-). simpl. destruct (decide (x = r)) as [->|Hne].
    + rewrite lookup_insert_eq. rewrite Hr in E1. injection E1 as <-. by eexists.
    + rewrite lookup_insert_ne by done. by exists c1.
  - done.
  - apply NoDup_app. split_and!; [by apply filter_checked_NoDup| |].
    + intros x [Hx Hne]%elem_checked Ho. apply elem_of_app in Ho as [Ho|Ho%list_elem_of_singleton]; [by apply (N2 x)|done].
    + apply NoDup_app. split_and!; [done| |apply NoDup_singleton]. intros x Hx Hx2. apply list_elem_of_singleton in Hx2 as ->. by apply (N2 r).
  - intros x m [_ Hx]%list_elem_of_filter. destruct (H4 x m Hx) as (c1 & E1 & Em & Hn). destruct (Hs x c1 E1) as (c2 & E2 & Em2). exists c2. by rewrite Em2.
  - intros x [Hx|Hx%list_elem_of_singleton]%elem_of_app.
    + destruct (H5 x Hx) as (c1 & E1 & Hn). destruct (Hs x c1 E1) as (c2 & E2 & Em2). exists c2. by rewrite Em2.
    + subst x. destruct (Hs r c Hr) as (c2 & E2 & Em2). exists c2. by rewrite Em2, En.
  - intros x c' E. destruct (Hh x c' E) as (c1 & E1 & ->). rewrite Hp, elem_checked, elem_of_app, list_elem_of_singleton.
    destruct (H6 x c1 E1) as [Hx|[Hx|Hx]]; [by left| |by right; right; left]. destruct (decide (x = r)); [by right; right; right|by right; left].
  - intros x c' E. simpl in E. destruct (decide (x = r)) as [->|Hne].
    + rewrite lookup_insert_eq in E. injection E as <-. exact (H7 r c Hr).
    + rewrite lookup_insert_ne in E by done. by apply (H7 x).
Qed.

(** Testing a connection gives an answer, and changes only the world. *)
Lemma test_runs (c : ISyncRedis) now s : m_context c <> None -> exists b w,
  (if 30 <? wrap 64 (now - m_lastActiveTime c) then
     rep ← world (cmd ["ping"%string] c); match rep with Some _ => mret true | None => world (reconnect c) end
   else mret true) s = (Ret b, mkManager (rm_datas s) (rm_heap s) (rm_checking s) (rm_out s) w).
Proof.
  intros Hc. destruct (m_context c) as [k|] eqn:E; [|done]. destruct (30 <? _); [|by exists true, (rm_world s); destruct s].
  unfold world, cmd, on_context, mbind, prog_bind. rewrite E. destruct (redisvCommand _ _ _ _) as [rep w1]. simpl.
  destruct (good rep); [destruct rep|]; [by eexists _, _| |]; unfold reconnect, on_context, mbind, prog_bind; rewrite E;
    (destruct (r_cluster c); [by eexists _, _|]; destruct (redisReconnect k _) as [rt w2]; by eexists _, _).
Qed.

Lemma same_refl s : same_conns s s.
Proof. done. Qed.

Lemma get_take_ok n s : mgr_ok s -> exists t s', get_take n s = (Ret t, s') /\ mgr_ok s' /\ rm_heap s' = rm_heap s /\
  match t with
  | Nothing => s' = s /\ pool n s = []
  | Shared r => exists rest k, pool n s = r :: rest /\ rm_heap s !! r = Some (CFox k n)
  | Taken r => exists rest, pool n s = r :: rest /\ (r, n) ∈ rm_checking s' /\ r ∉ (rm_checking s).*1 /\ r ∉ rm_out s
  end.
Proof.
  intros Hok. unfold get_take, gets, mbind, prog_bind. destruct (pool n s) as [|r rest] eqn:Hp; [by exists Nothing, s|].
  destruct (ok_pool _ Hok n r) as (c & Hr & Hn); [rewrite Hp; by left|]. unfold modify. rewrite (obj_run r c) by done.
  destruct c as [c|k m]; simpl in Hn; cbn [is_sync].
  - destruct (take_sync s n r rest c Hok Hp Hr) as (Hok' & Hc & Ho). eexists (Taken r), _. split; [reflexivity|]. split_and!; [done|done|].
    exists rest. split_and!; [done| |done|done]. simpl. apply elem_of_app. right. by left.
  - subst m. eexists (Shared r), _. split; [reflexivity|]. split_and!; [by eapply take_shared|done|]. by exists rest, k.
Qed.

Lemma get_check_ok r n now s : mgr_ok s -> (r, n) ∈ rm_checking s -> exists o s', get_check r n now s = (Ret o, s') /\ mgr_ok s' /\ same_conns s s' /\
  match o with Some r' => r' = r /\ rm_out s' = rm_out s ++ [r] | None => rm_out s' = rm_out s /\ pool n s' = pool n s ++ [r] end.
Proof.
  intros Hok Hin. destruct (ok_checking _ Hok r n Hin) as (c & Hr & Hn & Hnp). pose proof (ok_context _ Hok r c Hr) as Hctx.
  destruct (test_runs c now s Hctx) as (b & w & Et). unfold get_check. rewrite (bind_ret _ _ _ _ _ (obj_run r (CSync c) s Hr)).
  rewrite (bind_ret _ _ _ _ _ Et). clear Et. set (s1 := mkManager _ _ _ _ w). assert (mgr_ok s1) as Hok1 by by apply (mgr_ok_ext s).
  unfold checked, modify, mbind, prog_bind. destruct b; simpl.
  - eexists (Some r), _. split; [reflexivity|]. split_and!; [exact (lend s1 r n c _ Hok1 Hin Hr)| |done|done].
    intros x. simpl. destruct (decide (x = r)) as [->|Hne]; [by rewrite lookup_insert_eq, Hr|by rewrite lookup_insert_ne].
  - eexists None, _. split; [reflexivity|]. split_and!; [|done|done|by unfold push_back; rewrite pool_set, decide_True].
    eapply (mgr_ok_ext _ _ _ _ _ _ (put_back s1 r (CSync c) Hok1 Hr ltac:(by simpl; rewrite Hn))). Unshelve. all: simpl; rewrite ?Hn; try done.
    symmetry. apply filter_all, Forall_forall. intros x Hx ->. pose proof (ok_busy _ Hok) as (_ & Hb & _)%NoDup_app.
    apply (Hb r); [apply list_elem_of_fmap; by exists (r, n)|done].
Qed.

Lemma freeRedis_ok r s : mgr_ok s -> r ∈ rm_out s -> exists s', freeRedis r s = (Ret tt, s') /\ mgr_ok s' /\ rm_heap s' = rm_heap s.
Proof.
  intros Hok Hin. destruct (ok_out _ Hok r Hin) as (c & Hr & Hn). eexists. unfold freeRedis. rewrite (bind_ret _ _ _ _ _ (obj_run r (CSync c) s Hr)).
  unfold modify, mbind, prog_bind. split; [reflexivity|]. split; [|done].
  eapply (mgr_ok_ext _ _ _ _ _ _ (put_back s r (CSync c) Hok Hr Hn)). Unshelve. all: simpl; try done.
  symmetry. apply filter_all, Forall_forall. intros [x m] Hx Hxr. simpl in Hxr. subst x. pose proof (ok_busy _ Hok) as (_ & Hb & _)%NoDup_app.
  apply (Hb r); [apply list_elem_of_fmap; by exists (r, m)|done].
Qed.

Lemma pools_exec_ok o s : mgr_ok s -> exists s', mgr_exec o s = (Ret tt, s') /\ mgr_ok s' /\ same_conns s s'.
Proof.
  intros Hok. destruct o as [n|r n now|r]; simpl; unfold gets; unfold mbind at 1, prog_bind at 1.
  - destruct (get_take_ok n s Hok) as (t & s' & E & Hok' & Hh & _). exists s'. rewrite E. split_and!; [done|done|]. intros x. by rewrite Hh.
  - case_decide as Hin; [|by exists s]. destruct (get_check_ok r n now s Hok Hin) as (o & s' & E & Hok' & Hs & _). exists s'.
    unfold mbind, prog_bind. by rewrite E.
  - case_decide as Hin; [|by exists s]. destruct (freeRedis_ok r s Hok Hin) as (s' & E & Hok' & Hh). exists s'. split_and!; [done|done|]. intros x. by rewrite Hh.
Qed.
Lemma mgr_run_pools ops s : mgr_ok s -> exists s', mgr_run ops s = (Ret tt, s') /\ mgr_ok s' /\ same_conns s s'.
Proof.
  revert s; induction ops as [|o ops IH]; intros s Hok; [by exists s|]. destruct (pools_exec_ok o s Hok) as (s1 & E1 & Hok1 & Hs1).
  destruct (IH s1 Hok1) as (s2 & E2 & Hok2 & Hs2). exists s2. simpl. rewrite (bind_ret _ _ _ _ _ E1). split_and!; [done|done|].
  intros r. by rewrite Hs2.
Qed.

(** C39: [RedisManager] keeps its connections: after any steps of its callers,
    interleaved in any way, every connection is in the list of its own name,
    under test, or with one client, and is still the connection it was; and a
    call of [get] comes back, with a synchronous connection that no one else
    has or an asynchronous one that stays in its list. *)
Theorem redis_pools_consistent s ops : mgr_ok s -> exists s', mgr_run ops s = (Ret tt, s') /\ mgr_ok s' /\ same_conns s s' /\
  forall n now, exists o s2, get n now s' = (Ret o, s2) /\ mgr_ok s2 /\
    match o with
    | Some r => r ∈ pool n s' /\ (r ∈ rm_out s2 /\ r ∉ pool n s2 /\ r ∉ rm_out s' /\ r ∉ (rm_checking s').*1 \/ r ∈ pool n s2 /\ exists k, rm_heap s' !! r = Some (CFox k n))
    | None => True
    end.
Proof.
  intros Hok. destruct (mgr_run_pools ops s Hok) as (s' & E & Hok' & Hs). exists s'. split_and!; [done|done|done|]. intros n now.
  destruct (get_take_ok n s' Hok') as (t & s1 & Et & Hok1 & Hh & Ht). unfold get. destruct t as [|r|r].
  - exists None, s1. by rewrite (bind_ret _ _ _ _ _ Et).
  - destruct Ht as (rest & k & Hp & Hk). exists (Some r), s1. rewrite (bind_ret _ _ _ _ _ Et). split_and!; [done|done|rewrite Hp; by left|].
    right. split; [|by exists k]. destruct (ok_kept _ Hok1 r (CFox k n)) as [Hx|[Hx|Hx]]; [by rewrite Hh|done| |].
    + apply list_elem_of_fmap in Hx as ([x m] & -> & Hx). destruct (ok_checking _ Hok1 x m Hx) as (c & Ec & _). simpl in Hk. rewrite Hh in Ec. congruence.
    + destruct (ok_out _ Hok1 r Hx) as (c & Ec & _). rewrite Hh in Ec. congruence.
  - destruct Ht as (rest & Hp & Hin & Hc & Ho). destruct (get_check_ok r n now s1 Hok1 Hin) as (o & s2 & E2 & Hok2 & _ & H2).
    exists o, s2. rewrite (bind_ret _ _ _ _ _ Et). split_and!; [done|done|]. destruct o as [r'|]; [|done]. destruct H2 as [-> H2].
    split; [rewrite Hp; by left|]. left. assert (r ∈ rm_out s2) as Hr2 by (rewrite H2; apply elem_of_app; right; by left).
    split_and!; [done| |done|done]. intros Hx. destruct (ok_out _ Hok2 r Hr2) as (c & Ec & Hn). destruct (ok_pool _ Hok2 n r Hx) as (c' & Ec' & En).
    rewrite Ec in Ec'. injection Ec' as <-. simpl in En. by rewrite En in Hn.
Qed.

(** A connection that answered lately runs the command and goes to the end of
    its list. *)
Lemma Cmd_rotates fox n args now s r rest c k : mgr_ok s -> pool n s = r :: rest -> rm_heap s !! r = Some (CSync c) ->
  m_context c = Some k -> (30 <? wrap 64 (now - m_lastActiveTime c)) = false ->
  exists s', Cmd fox n args now s = (Ret (let rep := (redisvCommand (r_cluster c) k args (rm_world s)).1 in if good rep then rep else None), s') /\
    mgr_ok s' /\ pool n s' = rest ++ [r] /\ rm_world s' = (redisvCommand (r_cluster c) k args (rm_world s)).2.
Proof.
  intros Hok Hp Hr Hk Ht. destruct (take_sync s n r rest c Hok Hp Hr) as (Hok1 & Hc & Ho). set (s1 := set_checking _ _) in *.
  assert ((r, n) ∈ rm_checking s1) as Hin by (simpl; apply elem_of_app; right; by left).
  assert (m_name c = n) as Hn by (destruct (ok_checking _ Hok1 r n Hin) as (c' & E & En & _); simpl in E; congruence).
  assert (get_take n s = (Ret (Taken r), s1)) as Et.
  { unfold get_take, gets, mbind, prog_bind. rewrite Hp. unfold modify. by rewrite (obj_run r (CSync c)). }
  set (s2 := set_out (rm_out s1 ++ [r]) (set_conn r (CSync (setLastActiveTime (wrap 64 now) c)) (set_checking (base.filter (fun x => x.1 <> r) (rm_checking s1)) s1))).
  assert (get_check r n now s1 = (Ret (Some r), s2)) as Eg.
  { unfold get_check. rewrite (bind_ret _ _ _ _ _ (obj_run r (CSync c) s1 Hr)). rewrite Ht. reflexivity. }
  assert (mgr_ok s2) as Hok2 by exact (lend s1 r n c (wrap 64 now) Hok1 Hin Hr).
  set (c2 := setLastActiveTime (wrap 64 now) c) in *.
  assert (rm_heap s2 !! r = Some (CSync c2)) as Hr2 by (simpl; by rewrite lookup_insert_eq).
  destruct (redisvCommand (r_cluster c) k args (rm_world s)) as [rep w] eqn:Er.
  set (s3 := mkManager (rm_datas s2) (rm_heap s2) (rm_checking s2) (rm_out s2) w).
  assert (mgr_ok s3) as Hok3 by by apply (mgr_ok_ext s2).
  destruct (freeRedis_ok r s3 Hok3) as (s4 & E4 & Hok4 & _); [simpl; apply elem_of_app; right; by left|]. exists s4.
  assert (s4 = set_out (base.filter (fun x => x <> r) (rm_out s3)) (push_back n r s3)) as E4'.
  { unfold freeRedis in E4. rewrite (bind_ret _ _ _ _ _ (obj_run r (CSync c2) s3 Hr2)) in E4. unfold modify, mbind, prog_bind in E4. simpl getName in E4.
    rewrite Hn in E4. by injection E4. }
  split_and!; [|done| |by rewrite E4'].
  - unfold Cmd, get. assert ((t ← get_take n; match t with Nothing => mret None | Shared r => mret (Some r) | Taken r => get_check r n now end) s = (Ret (Some r), s2)) as E2
      by by rewrite (bind_ret _ _ _ _ _ Et).
    rewrite (bind_ret _ _ _ _ _ E2), (bind_ret _ _ _ _ _ (obj_run r (CSync c2) s2 Hr2)).
    assert (world (cmd args c2) s2 = (Ret (if good rep then rep else None), s3)) as Ew.
    { unfold world, cmd, on_context, mbind, prog_bind. cbn [m_context r_cluster c2 setLastActiveTime]. rewrite Hk. change (rm_world s2) with (rm_world s). by rewrite Er. }
    by rewrite (bind_ret _ _ _ _ _ Ew), (bind_ret _ _ _ _ _ E4).
  - rewrite E4'. change (pool n (push_back n r s3) = rest ++ [r]). unfold push_back. rewrite pool_set, decide_True by done. f_equal.
    change (pool n (set_pool n rest s) = rest). by rewrite pool_set, decide_True.
Qed.
End invariant.

(** * Starting *)

Section start.
Context {W : Type} {hr : Hiredis W}.
Abbreviation M := (RedisManager W).
Implicit Types (s : M) (n : string).
(** hiredis gives a context, with the error in it if there is one; it is null
    only when memory runs out. *)
Hypothesis context_made : forall cl ip port tv w, exists c w', redisConnectWithTimeout cl ip port tv w = (Some c, w').

Lemma connect_runs (r : ISyncRedis) w : exists b r' w', connect_default r w = (Ret (b, r'), w') /\ m_context r' <> None.
Proof.
  unfold connect_default, connect. set (r1 := upd_connect _ _ _ r). destruct (m_context r1) as [k|] eqn:Ek; [exists true, r1, w; by rewrite Ek|].
  match goal with |- context [redisConnectWithTimeout ?a ?b ?c ?d] => destruct (context_made a b c d w) as (k & w1 & E) end.
  unfold mbind, prog_bind. rewrite E. set (r2 := upd_context _ (Some k) r1).
  assert (m_context r2 = Some k) as E2 by done.
  match goal with |- context [if ?b then setTimeout ?v r2 else _] => assert (exists r3 w2, (if b then setTimeout v r2 else mret (true, r2)) w1 = (Ret (true, r3), w2) /\ m_context r3 = Some k) as (r3 & w2 & E3 & E3c) end.
  { case_match; [|by exists r2, w1]. unfold setTimeout, on_context, mbind, prog_bind. destruct (r_cluster r2); [by exists r2, w1|]. rewrite E2. by eexists _, _. }
  rewrite E3. cbv beta iota. destruct (String.eqb (m_passwd r3) ""); cbn [negb]; [exists true, r3, w2; split; [reflexivity|by rewrite E3c]|].
  unfold on_context, mbind, prog_bind. rewrite E3c. destruct (redisvCommand _ k _ w2) as [rep w3]. eexists _, r3, w3. split; [reflexivity|by rewrite E3c].
Qed.

(** A new connection at the end of the list of its name. *)
Definition added n r c s : M := push_back n r (set_conn r c s).
Lemma pool_added_ok n c s : mgr_ok s -> getName c = n -> (forall k, c = CSync k -> m_context k <> None) -> mgr_ok (added n (fresh (dom (rm_heap s))) c s).
Proof.
  intros [H1 H2 H3 H4 H5 H6 H7] Hn Hctx. set (r := fresh (dom (rm_heap s))).
  assert (rm_heap s !! r = None) as Hr by apply not_elem_of_dom, is_fresh. set (s' := added n r c s).
  assert (forall m, pool m s' = if decide (m = n) then pool n s ++ [r] else pool m s) as Hp by (intros m; exact (pool_set n (pool n s ++ [r]) m (set_conn r c s))).
  assert (forall x c', rm_heap s !! x = Some c' -> x <> r /\ rm_heap s' !! x = Some c') as Hold.
  { intros x c' E. assert (x <> r) by congruence. split; [done|]. simpl. by rewrite lookup_insert_ne. }
  assert (forall m, r ∉ pool m s) as Hfresh by (intros m Hx; destruct (H1 m r Hx) as (? & ? & ?); congruence).
  split; cbn [rm_checking rm_out s' added push_back set_pool set_conn].
  - intros m x. rewrite Hp. case_decide as Eq; [|intros Hx; destruct (H1 m x Hx) as (c' & E & En); exists c'; split; [by apply Hold|done]].
    rewrite elem_of_app, list_elem_of_singleton. intros [Hx| ->].
    + destruct (H1 n x Hx) as (c' & E & En). exists c'. split; [by apply Hold|congruence].
    + exists c. simpl. rewrite lookup_insert_eq. split; [done|congruence].
  - intros m. rewrite Hp. case_decide; [|apply H2]. apply NoDup_app. split_and!; [apply H2| |apply NoDup_singleton].
    intros x Hx Hxr. apply list_elem_of_singleton in Hxr. rewrite Hxr in Hx. by apply (Hfresh n).
  - done.
  - intros x m Hx. destruct (H4 x m Hx) as (c' & E & Em & Hnp). exists c'. destruct (Hold _ _ E) as [Hne E']. split_and!; [done|done|].
    rewrite Hp. case_decide as Eq; [|done]. rewrite elem_of_app, list_elem_of_singleton. intros [Hx2|Hx2]; [by rewrite <- Eq in Hx2|done].
  - intros x Hx. destruct (H5 x Hx) as (c' & E & Hnp). exists c'. destruct (Hold _ _ E) as [Hne E']. split; [done|].
    rewrite Hp. case_decide as Eq; [|done]. rewrite elem_of_app, list_elem_of_singleton. intros [Hx2|Hx2]; [by rewrite <- Eq in Hx2|done].
  - intros x c' E. rewrite Hp. simpl in E. destruct (decide (x = r)) as [->|Hne].
    + rewrite lookup_insert_eq in E. injection E as <-. left. rewrite decide_True by done. apply elem_of_app. right. by left.
    + rewrite lookup_insert_ne in E by done. destruct (H6 x c' E) as [Hx|Hx]; [left|by right]. case_decide as Eq; [|done].
      apply elem_of_app. left. by rewrite <- Eq.
  - intros x c' E. simpl in E. destruct (decide (x = r)) as [->|Hne]; [rewrite lookup_insert_eq in E; simplify_eq; by apply Hctx|].
    rewrite lookup_insert_ne in E by done. by apply (H7 x).
Qed.

Definition known (type : string) : bool := existsb (String.eqb type) ["redis"; "redis_cluster"; "fox_redis"; "fox_redis_cluster"]%string.
(** [k] connections more in the pool [n]. *)
Definition grown (n : string) (k : nat) (s s' : M) : Prop :=
  mgr_ok s' /\ rm_checking s' = rm_checking s /\ rm_out s' = rm_out s /\
  forall m, length (pool m s') = if decide (m = n) then (k + length (pool n s))%nat else length (pool m s).
Lemma grown_one n c s w : mgr_ok s -> getName c = n -> (forall k, c = CSync k -> m_context k <> None) ->
  let s1 := mkManager (rm_datas s) (rm_heap s) (rm_checking s) (rm_out s) w in grown n 1 s (added n (fresh (dom (rm_heap s1))) c s1).
Proof.
  intros Hok Hn Hc s1. split_and!; [apply pool_added_ok; [by apply (mgr_ok_ext s)|done|done]|done|done|]. intros m. unfold added, push_back. rewrite pool_set.
  case_decide; [|done]. rewrite length_app. simpl. rewrite Nat.add_comm. done.
Qed.
Lemma new_conn_ok type n conf now s : mgr_ok s -> exists s', new_conn (Ret tt) type n conf now s = (Ret tt, s') /\ grown n (if known type then 1 else 0) s s'.
Proof.
  intros Hok. unfold new_conn, known. cbn [existsb]. rewrite !orb_false_r, orb_assoc.
  destruct (String.eqb type "redis" || String.eqb type "redis_cluster") eqn:E1; cbn [orb].
  - destruct (connect_runs (new_Redis (String.eqb type "redis_cluster") conf) (rm_world s)) as (b & r & w & E & Hc).
    unfold world, modify, mbind, prog_bind. rewrite E. eexists. split; [reflexivity|].
    eapply (grown_one n (CSync (setName n (setLastActiveTime now r)))); [done|done|]. intros k [= <-]. done.
  - destruct (String.eqb type "fox_redis" || String.eqb type "fox_redis_cluster") eqn:E2.
    + unfold lift, modify, mbind, prog_bind. eexists. split; [reflexivity|]. destruct s. by eapply (grown_one n (CFox _ n)).
    + exists s. split; [done|]. split_and!; [done..|]. intros m. by case_decide; subst.
Qed.
Lemma new_conns_ok type n conf now k : forall s, mgr_ok s -> exists s', new_conns (Ret tt) k type n conf now s = (Ret tt, s') /\ grown n (if known type then k else 0) s s'.
Proof.
  induction k as [|k IH]; intros s Hok.
  - exists s. split; [done|]. split_and!; [done..|]. intros m. destruct (known type); by case_decide; subst.
  - destruct (new_conn_ok type n conf now s Hok) as (s1 & E1 & Hok1 & C1 & O1 & L1). destruct (IH s1 Hok1) as (s2 & E2 & Hok2 & C2 & O2 & L2).
    exists s2. simpl. rewrite (bind_ret _ _ _ _ _ E1). split; [done|]. split_and!; [done|congruence|congruence|].
    intros m. rewrite L2. case_decide; rewrite L1; [|by rewrite decide_False]. rewrite decide_True by done. destruct (known type); simpl; lia.
Qed.

Definition pool_size (conf : list (string * string)) : Z := Atoi (get_value conf "pool" "").
Definition conns_of (conf : list (string * string)) : nat := if known (get_value conf "type" "") then Z.to_nat (pool_size conf) else 0.
Lemma init_pools_ok config now : forall s dn, mgr_ok s -> NoDup config.*1 -> Forall (fun e => 0 <= pool_size e.2) config ->
  exists s' d, init_pools (Ret tt) config now dn dn s = (Ret (d, d), s') /\ mgr_ok s' /\ rm_checking s' = rm_checking s /\ rm_out s' = rm_out s /\
    (forall n conf, (n, conf) ∈ config -> length (pool n s') = (conns_of conf + length (pool n s))%nat) /\
    (forall n, n ∉ config.*1 -> length (pool n s') = length (pool n s)).
Proof.
  induction config as [|[n conf] config IH]; intros s dn Hok Hnd Hpos.
  - exists s, dn. split_and!; try done. intros n conf Hin. by apply elem_of_nil in Hin.
  - csimpl in Hnd. apply NoDup_cons in Hnd as [Hn Hnd]. apply Forall_cons in Hpos as [Hp Hpos]. simpl in Hp.
    destruct (new_conns_ok (get_value conf "type" "") n conf now (Z.to_nat (pool_size conf)) s Hok) as (s1 & E1 & Hok1 & C1 & O1 & L1).
    destruct (IH s1 (wrap 64 (dn + pool_size conf)) Hok1 Hnd Hpos) as (s2 & d & E2 & Hok2 & C2 & O2 & L2 & K2). exists s2, d.
    split_and!; [|done|congruence|congruence| |].
    + simpl. fold (pool_size conf). rewrite (bind_ret _ _ _ _ _ E1). rewrite Z.max_r by done. exact E2.
    + intros m cf [[= -> ->]|Hin]%elem_of_cons.
      * rewrite K2 by done. rewrite L1, decide_True by done. done.
      * rewrite (L2 _ _ Hin), L1. rewrite decide_False; [done|]. intros ->. apply Hn, list_elem_of_fmap. by exists (n, cf).
    + intros m Hm. csimpl in Hm. rewrite not_elem_of_cons in Hm. rewrite K2 by apply Hm. rewrite L1, decide_False by apply Hm. done.
Qed.
Lemma new_pools_ok w : mgr_ok (new_RedisManager (W := W) w).
Proof.
  split; simpl; try done; intros.
  - by apply elem_of_nil in H.
  - apply NoDup_nil_2.
  - by apply NoDup_nil_2.
  - by apply elem_of_nil in H.
  - by apply elem_of_nil in H.
Qed.

(** starting the manager ends when no pool is configured with a negative
    size, and leaves in each pool as many connections as the configuration
    says, none of them lent, all with a context. *)
Theorem init_fills_pools w config now : NoDup config.*1 -> Forall (fun e => 0 <= pool_size e.2) config ->
  exists s, init (Ret tt) config now (new_RedisManager w) = (Ret tt, s) /\ mgr_ok s /\ rm_checking s = [] /\ rm_out s = [] /\
    forall n conf, (n, conf) ∈ config -> length (pool n s) = conns_of conf.
Proof.
  intros Hnd Hpos. destruct (init_pools_ok config now (new_RedisManager w) 0 (new_pools_ok w) Hnd Hpos) as (s & d & E & Hok & C & O & L & _).
  exists s. unfold init. rewrite (bind_ret _ _ _ _ _ E). rewrite Z.eqb_refl. split_and!; [done|done|done|done|].
  intros n conf Hin. rewrite (L n conf Hin). unfold pool, new_RedisManager. simpl. rewrite lookup_empty. simpl. lia.
Qed.
End start.

(** * A server that counts its connections, and answers as told *)

(** The state: how many contexts there are, whether commands are answered,
    and what [redisReconnect] returns. *)
#[local] Instance ex_hiredis : Hiredis (nat * bool * Z) := {|
  redisConnectWithTimeout _ _ _ _ w := let '(n, up, rc) := w in (Some n, (S n, up, rc));
  redisSetTimeout _ _ w := w;
  redisReconnect _ w := let '(n, up, rc) := w in (rc, w);
  redisvCommand _ _ args w := let '(n, up, rc) := w in (if up : bool then Some (REDIS_REPLY_STATUS "OK"%string) else None, w);
  redisvAppendCommand _ _ _ w := (0, w);
  redisGetReply _ _ w := (Some None, w)
|}.
Definition ex_conf : list (string * list (string * string)) :=
  [("local", [("host", "127.0.0.1:6379"); ("pool", "2"); ("type", "redis")]); ("fox", [("pool", "1"); ("type", "fox_redis")])]%string.
Definition ex_started : RedisManager (nat * bool * Z) := post (init (Ret tt) ex_conf 100) (new_RedisManager (0%nat, true, 0)).

Lemma ex_context_made : forall (cl : bool) (ip : string) (port : Z) (tv : Z * Z) (w : nat * bool * Z), exists c w', redisConnectWithTimeout cl ip port tv w = (Some c, w').
Proof. intros cl ip port tv [[n up] rc]. by eexists _, _. Qed.
Lemma init_fills_pools_witness : exists s, init (Ret tt) ex_conf 100 (new_RedisManager (0%nat, true, 0)) = (Ret tt, s) /\
  length (pool "local" s) = 2%nat /\ length (pool "fox" s) = 1%nat.
Proof.
  destruct (init_fills_pools ex_context_made (0%nat, true, 0) ex_conf 100) as (s & E & _ & _ & _ & L).
  - apply NoDup_cons. split; [intros H; apply list_elem_of_singleton in H; discriminate|apply NoDup_singleton].
  - apply Forall_cons. split; [vm_compute; discriminate|]. apply Forall_cons. split; [vm_compute; discriminate|constructor].
  - exists s. split; [exact E|]. split; [rewrite (L "local"%string _ (list_elem_of_here _ _)); vm_compute; reflexivity|].
    rewrite (L "fox"%string _ (list_elem_of_further _ _ _ (list_elem_of_here _ _))). vm_compute. reflexivity.
Defined.
Lemma redis_pools_consistent_witness : mgr_ok ex_started /\ exists s' o s2,
  mgr_run [OTake "local"; OTake "local"; OCheck 0 "local" 120; OFree 0] ex_started = (Ret tt, s') /\ get "local" 130 s' = (Ret o, s2) /\ mgr_ok s2.
Proof.
  assert (mgr_ok ex_started) as Hok.
  { destruct (init_fills_pools ex_context_made (0%nat, true, 0) ex_conf 100) as (s & E & Hok & _).
    - apply NoDup_cons. split; [intros H; apply list_elem_of_singleton in H; discriminate|apply NoDup_singleton].
    - apply Forall_cons. split; [vm_compute; discriminate|]. apply Forall_cons. split; [vm_compute; discriminate|constructor].
    - unfold ex_started, post. rewrite E. exact Hok. }
  split; [exact Hok|].
  destruct (redis_pools_consistent ex_started [OTake "local"; OTake "local"; OCheck 0 "local" 120; OFree 0]%string Hok) as (s' & E & _ & _ & H).
  destruct (H "local"%string 130) as (o & s2 & E2 & Hok2 & _). exists s', o, s2. auto.
Defined.

(** [redisReconnect] returns 0 for success, and [reconnect] makes that
    [false]: of two connections that do not answer, the one that could be
    opened again is refused and the one that could not is handed out. *)
Example reconnect_inverted :
  let s rc := post (init (Ret tt) ex_conf 100) (new_RedisManager (0%nat, false, rc)) in
  out (get "local" 131) (s 0) = Ret None /\ out (get "local" 131) (s (-1)) = Ret (Some 0%nat).
Proof. split; by vm_compute. Qed.
(** A pool of negative size is counted into [total] but makes no connection:
    the wait at the end of [init] never ends. *)
Example negative_pool_hangs : out (init (Ret tt) [("local", [("pool", "-1")])]%string 100) (new_RedisManager (0%nat, true, 0)) = Crash NoFuel.
Proof. by vm_compute. Qed.
(** [connect] after a failed "auth" finds the context and reports success. *)
Example connect_after_failed_auth :
  let r := new_Redis false [("host", "h:1"); ("passwd", "p")]%string in
  match connect_default r (0%nat, false, 0) with
  | (Ret (ok, r'), w) => ok = false /\ out (connect_default r') w = Ret (true, r')
  | _ => False
  end.
Proof. vm_compute. split; reflexivity. Qed.
(** Without a colon the host is also read as the port. *)
Example host_read_as_port : m_port (new_Redis false [("host", "10.0.0.1")]%string) = 10.
Proof. by vm_compute. Qed.
