(* ===== verification/OtaHttp.v ===== *)
(** [sherry/ota_http_manager.cc]: the HTTP side of the OTA service.

    A handler runs over the Redis server, the response and the transfer it
    starts ([hstate]).  nlohmann::json is the interface [Json]; the file
    system is the argument [open_file]; the session's socket only matters as
    where a started transfer goes. *)

From stdpp Require Import base list gmap strings pretty.
From S2P Require Import Prelude MachineInt Http HttpProps Servlet Redis.
From Stdlib Require Import ZArith Lia Ascii String.
Local Open Scope string_scope.

(** * What is used of nlohmann::json

    [parse], the conversions and [dump] throw: [None].  [json_dump] is the
    text of an object with the given fields. *)
Inductive jval : Type := JStr (s : string) | JNum (n : Z).

Class Json : Type := {
  json : Type;
  json_parse : string -> option json;
  json_contains : string -> json -> bool;
  json_uint16 : string -> json -> option Z;
  json_string : string -> json -> option string;
  json_dump : list (string * jval) -> option string
}.

(** The text of the object whose only field is "msg". *)
Definition dump_msg `{!Json} (m : string) : option string := json_dump [("msg", JStr m)].

(** A transfer [sendFile] works off: the file's descriptor, the offset and the
    bytes left. *)
Record transfer : Type := mkTransfer { t_fd : Z; t_offset : Z; t_left : Z }.

Record hstate (R : Type) : Type := mkHstate {
  h_redis : R;
  h_rsp : HttpResponse;
  h_transfer : option transfer
}.
Arguments mkHstate {R} h_redis h_rsp h_transfer.
Arguments h_redis {R} h.
Arguments h_rsp {R} h.
Arguments h_transfer {R} h.

Record OTAHttpManager : Type := mkOTAHttpManager {
  m_redis_pool_name : string;
  m_file_prev_path : string;
  m_ota_html_content : string
}.

(** [std::stoi] in base ten: leading white space, an optional sign, digits;
    throws without digits and outside [int]. *)
Definition is_space (a : ascii) : bool :=
  let n := nat_of_ascii a in ((n =? 32) || ((9 <=? n) && (n <=? 13)))%nat.
Fixpoint skip_space (s : string) : string :=
  match s with String a s' => if is_space a then skip_space s' else s | EmptyString => s end.
Fixpoint digits (s : string) (acc : option Z) : option Z :=
  match s with
  | String a s' =>
      if is_digit a
      then digits s' (Some (10 * default 0 acc + (Z.of_nat (nat_of_ascii a) - 48)))%Z
      else acc
  | EmptyString => acc
  end.
Definition stoi (s : string) : outcome Z :=
  let '(neg, ds) := match skip_space (c_str s) with
                    | String a r =>
                        if Ascii.eqb a "-" then (true, r)
                        else if Ascii.eqb a "+" then (false, r) else (false, String a r)
                    | EmptyString => (false, EmptyString)
                    end in
  match digits ds None with
  | None => Throw "stoi"
  | Some n => let v := if (neg : bool) then (- n)%Z else n in
              if bool_decide (in_sint 32 v) then Ret v else Throw "stoi"
  end.

Section ota_http.
Context {R : Type} `{!RedisServer R} `{!Json}.
Variable open_file : string -> option (Z * option Z).  (* open: a descriptor, and fstat's size *)
Abbreviation handlerM := (prog (hstate R)).

Definition set_rsp (f : HttpResponse -> HttpResponse) : handlerM unit :=
  modify (fun h => mkHstate (h_redis h) (f (h_rsp h)) (h_transfer h)).

(** A call that only uses Redis, and one that also writes the response. *)
Definition on_redis {A} (p : prog R A) : handlerM A := fun h =>
  let '(a, r) := p (h_redis h) in (a, mkHstate r (h_rsp h) (h_transfer h)).
Definition on_redis_rsp (p : HttpResponse -> prog R (Z * HttpResponse)) : handlerM Z := fun h =>
  match p (h_rsp h) (h_redis h) with
  | (Ret (z, rsp), r) => (Ret z, mkHstate r rsp (h_transfer h))
  | (Throw e, r) => (Throw e, mkHstate r (h_rsp h) (h_transfer h))
  | (Crash f, r) => (Crash f, mkHstate r (h_rsp h) (h_transfer h))
  end.

(** [try { m } catch (const std::exception&) { k }] *)
Definition try_catch {A} (m k : handlerM A) : handlerM A := fun h =>
  match m h with
  | (Throw _, h') => k h'
  | r => r
  end.

Definition or_throw {A} (o : option A) : handlerM A :=
  match o with Some a => mret a | None => throw "json" end.

Definition setHttpResponse (status : Z) (msg : string) : handlerM unit :=
  body ← or_throw (dump_msg msg);
  set_rsp (r_setBody body);; set_rsp (r_setStatus status).

Definition set_options : handlerM unit :=
  set_rsp (r_setStatus 200);;
  set_rsp (r_setHeader "Access-Control-Allow-Origin" "*");;
  set_rsp (r_setHeader "Access-Control-Allow-Methods" "POST, GET, OPTIONS");;
  set_rsp (r_setHeader "Access-Control-Allow-Headers" "Content-Type").

Definition set_server_error : handlerM unit :=
  set_rsp (r_setBody "server error");; set_rsp (r_setStatus 500).

Definition bad_request (msg : string) : handlerM Z :=
  set_rsp (r_setBody msg);; set_rsp (r_setStatus 400);; mret 0%Z.

Definition is_options (req : HttpRequest) : bool :=
  match m_method req with OPTIONS => true | _ => false end.

(** [OTANotifier::get_notify_message] fills the message and succeeds. *)
Definition get_notify_message_ok : bool := true.

Definition published_text (device_type : Z) (name version : string) : string :=
  "device_type = " ++ dec device_type ++ ", name = " ++ name ++ ", version = " ++ version
  ++ ", has been published.".

Definition ota_notify (m : OTAHttpManager) (device_type : Z) (name version command : string) : handlerM Z :=
  if negb get_notify_message_ok then
    setHttpResponse 404 "get notify message error";; mret 0%Z
  else
  let key := get_device_group_mudule_hash "notify" device_type name in
  reply ← on_redis (Cmd (m_redis_pool_name m) ["GET"; c_str key]);
  if bad reply then setHttpResponse 500 "system error.";; mret 0%Z else
  let same := match reply with
              | Some (REDIS_REPLY_STRING str) => match strcmp str version with Eq => true | _ => false end
              | _ => false
              end in
  if same then setHttpResponse 200 (published_text device_type name version);; mret 1%Z
  else on_redis_rsp (redis_push_message_queue_by_http (m_redis_pool_name m) get_message_queue_hash command).

Definition stop_text (device_type : Z) (name current version : string) : string :=
  "device_type = " ++ dec device_type ++ ", name = " ++ name ++ ", current version = " ++ current
  ++ ", need-stoping version = " ++ version.

(** The pool's name is missing: the format is taken for it. *)
Definition ota_stop_notify (m : OTAHttpManager) (device_type : Z) (name version command : string) : handlerM Z :=
  let key := get_device_group_mudule_hash "stop_notify" device_type name in
  reply ← on_redis (Cmd "GET %s" [c_str key]);
  if bad reply then setHttpResponse 500 "system error.";; mret 0%Z else
  match reply with
  | Some (REDIS_REPLY_STRING str) =>
      match strcmp str version with
      | Eq => on_redis_rsp (redis_push_message_queue_by_http (m_redis_pool_name m) get_message_queue_hash command)
      | _ => setHttpResponse 204 (stop_text device_type name (c_str str) version);; mret 0%Z
      end
  | _ => setHttpResponse 500 "unknown error.";; mret 0%Z
  end.

(** The common front of [handle_notify] and [handle_stop_notify]. *)
Definition with_command (act : Z -> string -> string -> string -> handlerM Z) (req : HttpRequest) : handlerM Z :=
  if is_options req then set_options;; mret 0%Z else
  let req_body := m_body req in
  try_catch
    (j ← or_throw (json_parse req_body);
     if negb (json_contains "device_type" j && json_contains "version" j && json_contains "name" j)
     then bad_request "request error: missing required fields"
     else
       device_type ← or_throw (json_uint16 "device_type" j);
       name ← or_throw (json_string "name" j);
       version ← or_throw (json_string "version" j);
       act device_type name version req_body)
    (bad_request "request error: invalid JSON").

Definition handle_notify (m : OTAHttpManager) : HttpRequest -> handlerM Z := with_command (ota_notify m).
Definition handle_stop_notify (m : OTAHttpManager) : HttpRequest -> handlerM Z :=
  with_command (ota_stop_notify m).

(** The common body of the two queries. *)
Definition query_with (m : OTAHttpManager) (task missing : string) (after : handlerM unit) (req : HttpRequest)
    : handlerM Z :=
  if is_options req then set_options;; mret 0%Z else
  try_catch
    (j ← or_throw (json_parse (m_body req));
     if negb (json_contains "device_type" j && json_contains "name" j)
     then bad_request "request error: missing required fields"
     else
       device_type ← or_throw (json_uint16 "device_type" j);
       name ← or_throw (json_string "name" j);
       ret ← on_redis_rsp (redis_query_by_http (m_redis_pool_name m)
               (get_device_group_mudule_hash task device_type name));
       (if (ret =? -1)%Z then set_rsp (r_setBody missing) else mret tt);;
       after;;
       mret ret)
    (bad_request "request error: invalid JSON").

Definition handle_query (m : OTAHttpManager) : HttpRequest -> handlerM Z :=
  query_with m "query" "device not exists." (set_rsp (r_setHeader "Content-Type" "application/json")).
Definition handle_query_download (m : OTAHttpManager) : HttpRequest -> handlerM Z :=
  query_with m "query_download" "device is not downloading." (mret tt).

Definition handle_ota_page (m : OTAHttpManager) (req : HttpRequest) : handlerM Z :=
  if is_options req then set_options;; mret 0%Z else
  if m_ota_html_content m =? "" then
    set_rsp (r_setStatus 404);; set_rsp (r_setBody "OTA page not available");; mret 0%Z
  else
    set_rsp (r_setStatus 200);; set_rsp (r_setHeader "Content-Type" "text/html");;
    set_rsp (r_setBody (m_ota_html_content m));; mret 0%Z.

Definition set_ota_html (html : string) (m : OTAHttpManager) : OTAHttpManager :=
  mkOTAHttpManager (m_redis_pool_name m) (m_file_prev_path m) html.

(** ** File download *)

(** The text from an index to the next slash (or the end), and the rest. *)
Fixpoint until_slash (s : string) : string * string :=
  match s with
  | EmptyString => ("", "")
  | String a s' => if Ascii.eqb a "/" then ("", s)
                   else let '(p, r) := until_slash s' in (String a p, r)
  end.

Definition FileDetail_MD5 : string := "ed076287532e86365e841e92bfc50d8c".

(** A descriptor and the size, or [-1]. *)
Definition getFileDetail (file_path : string) : option (Z * Z) :=
  match open_file (c_str file_path) with
  | Some (fd, Some size) => if (fd <? 0)%Z then None else Some (fd, size)
  | _ => None
  end.

Definition download_name (device_type : Z) (name version : string) : string :=
  "ota_" ++ dec device_type ++ "_" ++ version ++ "_" ++ name ++ ".jpg".

Definition set_close_rsp (r : HttpResponse) : HttpResponse :=
  mkHttpResponse (r_status r) (r_version r) true (r_body r) (r_reason r) (r_headers r) (r_isSending r).

Definition ota_file_download (m : OTAHttpManager) (device_type : Z) (name version : string) : handlerM unit :=
  let file_name := download_name device_type name version in
  let file_path := m_file_prev_path m ++ file_name in
  match getFileDetail file_path with
  | None => set_rsp (r_setStatus 404);; set_rsp (r_setBody "no file.")
  | Some (fd, file_size) =>
      set_rsp (r_setIsSending true);;
      set_rsp (r_setStatus 200);;
      set_rsp (r_setHeader "Content-Length" (dec file_size));;
      set_rsp (r_setHeader "X-Content-MD5" FileDetail_MD5);;
      set_rsp (r_setHeader "Content-Disposition" ("attachment; filename=" ++ file_name));;
      set_rsp (r_setHeader "Content-Type" "image/jpeg");;
      set_rsp set_close_rsp;;
      modify (fun h => mkHstate (h_redis h) (h_rsp h) (Some (mkTransfer fd 0 file_size)))
  end.

Definition bad_uri : handlerM Z :=
  set_rsp (r_setStatus 400);; set_rsp (r_setBody "request error: invalid URI format");; mret 0%Z.

(** [idx = 19]: behind "/ota/file_download/"; [substring 19] is empty for a
    shorter path, as [idx >= uri.size()] is then at once. *)
Definition handle_file_download (m : OTAHttpManager) (req : HttpRequest) : handlerM Z :=
  if is_options req then set_options;; mret 0%Z else
  let uri := m_path req in
  let '(t, rest1) := until_slash (substring 19 (String.length uri) uri) in
  match rest1 with
  | EmptyString => bad_uri
  | String _ s1 =>
    v ← (fun h => (stoi t, h));
    let device_type := wrap 16 v in
    let '(name, rest2) := until_slash s1 in
    match rest2 with
    | EmptyString => bad_uri
    | String _ s2 =>
      let '(version, rest3) := until_slash s2 in
      match rest3 with
      | String _ _ => bad_uri
      | EmptyString => ota_file_download m device_type name version;; mret 0%Z
      end
    end
  end.
End ota_http.

(** ** [sendFile]: one call, with the answer [rt] of [sendfile] *)

Inductive send_result : Type :=
| SendFailed                       (* the error is logged, nothing is scheduled *)
| SendDone (t : transfer)          (* the waiting fiber is scheduled *)
| SendAgain (t : transfer).        (* WRITE is registered again *)

Definition sendFile (rt : Z) (t : transfer) : send_result :=
  if (rt =? -1)%Z then SendFailed else
  let t' := mkTransfer (t_fd t) (t_offset t + rt) (wrap 64 (t_left t - rt)) in
  if (t_left t' =? 0)%Z then SendDone t' else SendAgain t'.

(** The calls the events make, until the transfer ends. *)
Fixpoint send_all (rts : list Z) (t : transfer) : send_result :=
  match rts with
  | [] => SendAgain t
  | rt :: rts' => match sendFile rt t with SendAgain t' => send_all rts' t' | r => r end
  end.

(** * Routes *)

Section routes.
Context {R : Type} `{!RedisServer R} `{!Json}.
Variable open_file : string -> option (Z * option Z).

(** The session a servlet sees: Redis, the started transfer, and whether an
    exception left the handler. *)
Definition ota_session : Type := R * option transfer * option string.

Definition as_handler (h : HttpRequest -> prog (hstate R) Z) : handler ota_session :=
  fun req rsp '(r, t, x) =>
    match h req (mkHstate r rsp t) with
    | (Ret z, s) => (z, h_rsp s, (h_redis s, h_transfer s, x))
    | (Throw e, s) => (0%Z, h_rsp s, (h_redis s, h_transfer s, Some e))
    | (Crash _, s) => (0%Z, h_rsp s, (h_redis s, h_transfer s, Some "crash"))
    end.

Definition register_routes (m : OTAHttpManager) (sd : ServletDispatch ota_session) : ServletDispatch ota_session :=
  addServlet_cb "/ota/" (as_handler (handle_ota_page m))
  (addGlobServlet_cb "/ota/file_download/*" (as_handler (handle_file_download open_file m))
  (addServlet_cb "/ota/query_download" (as_handler (handle_query_download m))
  (addServlet_cb "/ota/query" (as_handler (handle_query m))
  (addServlet_cb "/ota/notify" (as_handler (handle_notify m)) sd)))).
End routes.
