(* ===== verification/OtaHttpProps.v ===== *)
(** What the HTTP side of the OTA service promises. *)

From stdpp Require Import base list gmap strings pretty.
From S2P Require Import Prelude MachineInt Http HttpProps Servlet Redis OtaHttp.
From Stdlib Require Import ZArith Lia Ascii String.
Local Open Scope string_scope.

(** * Numbers in paths *)

Lemma char_value x : (x < 10)%N ->
  is_digit (pretty_N_char x) = true /\ (Z.of_nat (nat_of_ascii (pretty_N_char x)) - 48 = Z.of_N x)%Z.
Proof.
  intros Hx. assert (x = 0 \/ x = 1 \/ x = 2 \/ x = 3 \/ x = 4 \/ x = 5 \/ x = 6 \/ x = 7 \/ x = 8 \/ x = 9)%N as H by lia.
  destruct_or! H; subst; split; reflexivity.
Qed.

Lemma digits_step a s acc : is_digit a = true ->
  digits (String a s) acc = digits s (Some (10 * default 0 acc + (Z.of_nat (nat_of_ascii a) - 48))%Z).
Proof. intros H. simpl. by rewrite H. Qed.

Lemma digits_pretty_go x s : (0 < x)%N -> digits (pretty_N_go x s) None = digits s (Some (Z.of_N x)).
Proof.
  revert s. induction (N.lt_wf_0 x) as [x _ IH]. intros s Hx.
  rewrite pretty_N_go_step by done.
  destruct (char_value (x mod 10)) as [Hd Hv]; [by apply N.mod_lt|].
  pose proof (N.div_mod x 10 ltac:(lia)) as Hdm.
  destruct (N.eq_0_gt_0_cases (x / 10)) as [E0|Hq].
  - rewrite E0, pretty_N_go_0. rewrite E0 in Hdm. rewrite digits_step by done. do 2 f_equal. simpl. lia.
  - rewrite IH by (done || by apply N.div_lt). rewrite digits_step by done. do 2 f_equal. simpl. lia.
Qed.

Lemma digits_dec n : (0 <= n)%Z -> digits (dec n) None = Some n.
Proof.
  intros Hn. unfold dec, pretty, pretty_N. case_decide as E.
  - replace n with 0%Z by lia. reflexivity.
  - rewrite digits_pretty_go by lia. simpl. f_equal. lia.
Qed.

Lemma dec_nonempty n : (0 <= n)%Z -> exists a s, dec n = String a s /\ is_digit a = true.
Proof.
  intros Hn. pose proof (digits_dec n Hn) as Hd. pose proof (dec_digits n) as Ha.
  destruct (dec n) as [|a s]; [done|]. exists a, s. simpl in Ha. apply andb_true_iff in Ha as [Ha _]. done.
Qed.

Lemma c_str_no_nul s : no_char zero s = true -> c_str s = s.
Proof.
  induction s as [|a s IH]; [done|]. unfold no_char. simpl. intros [Ha Hs]%andb_true_iff.
  apply negb_true_iff in Ha. rewrite Ha. f_equal. by apply IH.
Qed.

Lemma digit_plain a : is_digit a = true ->
  is_space a = false /\ Ascii.eqb a "-" = false /\ Ascii.eqb a "+" = false.
Proof.
  intros Ha. unfold is_digit in Ha. apply andb_true_iff in Ha as [H1%Nat.leb_le H2%Nat.leb_le]. split_and!.
  - unfold is_space. apply orb_false_iff. split; [apply Nat.eqb_neq; lia|].
    apply andb_false_iff. right. apply Nat.leb_gt. lia.
  - apply Ascii.eqb_neq. intros ->. vm_compute in H1. lia.
  - apply Ascii.eqb_neq. intros ->. vm_compute in H1. lia.
Qed.

(** [std::stoi] reads back what [operator<<] wrote. *)
Lemma stoi_dec n : (0 <= n < 2 ^ 31)%Z -> stoi (dec n) = Ret n.
Proof.
  intros Hn. destruct (dec_nonempty n ltac:(lia)) as (a & s & Ed & Ha). unfold stoi.
  rewrite c_str_no_nul by (by apply dec_no_char). rewrite Ed. simpl.
  destruct (digit_plain a Ha) as (Hs & Hm & Hp). rewrite Hs, Hm, Hp, <- Ed, digits_dec by lia.
  rewrite bool_decide_true; [done|]. split; lia.
Qed.

(** * Paths *)

Lemma until_slash_spec s : let '(p, r) := until_slash s in
  s = p ++ r /\ no_char "/" p = true /\ (r = "" \/ exists r', r = String "/" r').
Proof.
  induction s as [|a s IH]; [simpl; split_and!; auto|]. simpl. destruct (Ascii.eqb_spec a "/") as [->|Hne].
  - split_and!; [done|done|eauto].
  - destruct (until_slash s) as [p r]. destruct IH as (-> & Hp & Hr). split_and!; [done| |done].
    unfold no_char. simpl. apply Ascii.eqb_neq in Hne. by rewrite Hne.
Qed.

Lemma until_slash_end p : no_char "/" p = true -> until_slash p = (p, "").
Proof.
  induction p as [|a p IH]; [done|]. unfold no_char. simpl. intros [Ha Hp]%andb_true_iff.
  apply negb_true_iff in Ha. rewrite Ha. by rewrite (IH Hp).
Qed.

Lemma until_slash_app p r : no_char "/" p = true -> until_slash (p ++ String "/" r) = (p, String "/" r).
Proof.
  induction p as [|a p IH]; [done|]. unfold no_char. simpl. intros [Ha Hp]%andb_true_iff.
  apply negb_true_iff in Ha. change ((String a p) ++ String "/" r) with (String a (p ++ String "/" r)).
  simpl. rewrite Ha. by rewrite (IH Hp).
Qed.

Lemma substring_all s n : String.length s <= n -> substring 0 n s = s.
Proof.
  revert n. induction s as [|a s IH]; intros [|n] Hn; simpl in *; try done; try lia. f_equal. apply IH. lia.
Qed.

Lemma length_append (a b : string) : String.length (a ++ b) = String.length a + String.length b.
Proof. induction a as [|x a IH]; [done|]. exact (f_equal S IH). Qed.

Lemma substring_skip (p s : string) n : String.length s <= n -> substring (String.length p) n (p ++ s) = s.
Proof.
  intros Hn. induction p as [|a p IH]; [by apply substring_all|]. exact IH.
Qed.

Lemma download_name_no_slash dt name version : no_char "/" name = true -> no_char "/" version = true ->
  no_char "/" (download_name dt name version) = true.
Proof.
  intros Hn Hv. unfold download_name. unfold no_char in *. rewrite !str_all_app, Hn, Hv.
  pose proof (dec_no_char "/" dt eq_refl) as Hd. unfold no_char in Hd. by rewrite Hd.
Qed.

Lemma r_getHeader_set k k' d v r : r_getHeader k d (r_setHeader k' v r) =
  if String.eqb (fold_key k') (fold_key k) then v else r_getHeader k d r.
Proof.
  unfold r_getHeader, find_or. simpl. rewrite !map_find_abs, map_set_abs.
  destruct (String.eqb_spec (fold_key k') (fold_key k)) as [->|Hne];
    [by rewrite lookup_insert_eq|by rewrite lookup_insert_ne].
Qed.

(** * Downloads *)

Section downloads.
Context {R : Type} (open_file : string -> option (Z * option Z)).
Implicit Types (h : hstate R) (m : OTAHttpManager).

(** C8: A download never leaves the download directory. Every GET of any
    path either is refused with status 400, or ends in the exception of
    [std::stoi], or looks for exactly one file: the directory prefix followed
    by a name that starts with "ota_" and contains no slash, built from the
    device type (modulo 2^16), version and name of the path. *)
Theorem download_stays_in_directory m req h : m_method req <> OPTIONS ->
  (exists h', handle_file_download open_file m req h = (Ret 0%Z, h') /\
     r_status (h_rsp h') = 400%Z /\ h_transfer h' = h_transfer h) \/
  handle_file_download open_file m req h = (Throw "stoi", h) \/
  (exists dt name version, in_uint 16 dt /\
     no_char "/" (download_name dt name version) = true /\
     handle_file_download open_file m req h =
       (ota_file_download open_file m dt name version;; mret 0%Z) h).
Proof.
  intros Ho. unfold handle_file_download.
  assert (is_options req = false) as -> by (unfold is_options; by destruct (m_method req)).
  assert (forall h0, exists h', bad_uri h0 = (Ret 0%Z, h') /\ r_status (h_rsp h') = 400%Z /\
            h_transfer h' = h_transfer h0) as Hbad by (intros h0; eexists; split_and!; reflexivity).
  pose proof (until_slash_spec (substring 19 (String.length (m_path req)) (m_path req))) as H1.
  destruct (until_slash (substring 19 _ _)) as [t rest1].
  destruct H1 as (_ & _ & [-> | [s1 ->]]); [left; apply Hbad|].
  unfold mbind at 1, prog_bind at 1.
  destruct (stoi t) as [v|e|f] eqn:Es.
  2: { right. left. unfold stoi in Es. repeat case_match; by simplify_eq. }
  2: { unfold stoi in Es. repeat case_match; by simplify_eq. }
  pose proof (until_slash_spec s1) as H2. destruct (until_slash s1) as [name rest2].
  destruct H2 as (_ & Hn & [-> | [s2 ->]]); [left; apply Hbad|].
  pose proof (until_slash_spec s2) as H3. destruct (until_slash s2) as [version rest3].
  destruct H3 as (_ & Hv & [-> | [s3 ->]]); [|left; apply Hbad].
  right. right. exists (wrap 16 v), name, version. split_and!; [apply wrap_range; lia| |done].
  by apply download_name_no_slash.
Qed.

(** A path written from a device type below 2^16, a name and a version
    without slashes is taken apart into exactly these. *)
Theorem download_path_roundtrip m req h dt name version : m_method req <> OPTIONS ->
  in_uint 16 dt -> no_char "/" name = true -> no_char "/" version = true ->
  m_path req = "/ota/file_download/" ++ dec dt ++ "/" ++ name ++ "/" ++ version ->
  handle_file_download open_file m req h = (ota_file_download open_file m dt name version;; mret 0%Z) h.
Proof.
  intros Ho [Hd1 Hd2] Hn Hv Hp. unfold handle_file_download.
  assert (is_options req = false) as -> by (unfold is_options; by destruct (m_method req)).
  rewrite Hp. change 19 with (String.length "/ota/file_download/").
  rewrite substring_skip by (rewrite !length_append; lia).
  change (dec dt ++ "/" ++ name ++ "/" ++ version)
    with (dec dt ++ String "/" (name ++ String "/" version)).
  rewrite until_slash_app by (by apply dec_no_char).
  unfold mbind at 1, prog_bind at 1. rewrite stoi_dec by lia.
  rewrite until_slash_app by done. rewrite until_slash_end by done.
  by rewrite wrap_id by (split; lia).
Qed.

(** The answer of a download. Without the file: status 404 and no
    transfer. With it: status 200, a Content-Length that is the file's size,
    the connection closed afterwards, and a transfer of the whole file from
    its start. *)
Theorem download_answer m dt name version h :
  exists h', ota_file_download open_file m dt name version h = (Ret tt, h') /\ h_redis h' = h_redis h /\
    match getFileDetail open_file (m_file_prev_path m ++ download_name dt name version) with
    | None => r_status (h_rsp h') = 404%Z /\ h_transfer h' = h_transfer h
    | Some (fd, size) =>
        r_status (h_rsp h') = 200%Z /\ r_getHeader "content-length" "" (h_rsp h') = dec size /\
        r_close (h_rsp h') = true /\ r_isSending (h_rsp h') = true /\
        h_transfer h' = Some (mkTransfer fd 0 size)
    end.
Proof.
  unfold ota_file_download. destruct (getFileDetail _ _) as [[fd size]|]; unfold set_rsp; run_pure;
    eexists; (split; [reflexivity|]); split_and!; try reflexivity.
  cbn [h_rsp]. change (r_getHeader "content-length" "" (set_close_rsp ?r)) with (r_getHeader "content-length" "" r).
  by rewrite !r_getHeader_set.
Qed.
End downloads.

Definition total (rts : list Z) : Z := foldr Z.add 0%Z rts.


(** * Requests that name a device *)

Section requests.
Context {R : Type} `{!RedisServer R} `{!Json}.
Implicit Types (h : hstate R) (m : OTAHttpManager) (req : HttpRequest).

Lemma not_options req : m_method req <> OPTIONS -> is_options req = false.
Proof. unfold is_options. by destruct (m_method req). Qed.

(** A field that is missing or has the wrong type. *)
Definition lacks (j : json) (fields : list string) : Prop :=
  (exists f, f ∈ fields /\ json_contains f j = false) \/
  json_uint16 "device_type" j = None \/ (exists f, f ∈ fields /\ f <> "device_type" /\ json_string f j = None).

Definition malformed (fields : list string) req : Prop :=
  json_parse (m_body req) = None \/ exists j, json_parse (m_body req) = Some j /\ lacks j fields.

(** What a refused request leaves: status 400, everything else but the
    response untouched. *)
Definition refused (r : outcome Z * hstate R) h : Prop :=
  exists h', r = (Ret 0%Z, h') /\ r_status (h_rsp h') = 400%Z /\ h_redis h' = h_redis h /\
    h_transfer h' = h_transfer h.

Lemma bad_request_refused msg h : refused (bad_request msg h) h.
Proof. eexists. split; [reflexivity|]. by split_and!. Qed.

Lemma caught_refused e msg h h' : h_redis h' = h_redis h -> h_transfer h' = h_transfer h ->
  refused (try_catch (fun _ => (Throw e, h')) (bad_request msg) h) h.
Proof.
  intros H1 H2. eexists. split; [reflexivity|]. simpl. by split_and!.
Qed.

Lemma with_command_refused act req h : m_method req <> OPTIONS ->
  malformed ["device_type"; "version"; "name"] req -> refused (with_command act req h) h.
Proof.
  intros Ho Hm. unfold with_command. rewrite not_options by done.
  destruct Hm as [Hp|(j & Hp & Hl)]; unfold try_catch, mbind, prog_bind; rewrite Hp; simpl.
  { by eapply (caught_refused "json"). }
  destruct (negb _) eqn:E; [by eapply bad_request_refused|].
  apply negb_false_iff, andb_true_iff in E as [[E1 E2]%andb_true_iff E3].
  destruct Hl as [(f & Hf & Hc)|[Hu|(f & Hf & Hd & Hs)]].
  - exfalso. rewrite !elem_of_cons, elem_of_nil in Hf. destruct_or! Hf; subst; congruence || done.
  - rewrite Hu. simpl. by eapply (caught_refused "json").
  - destruct (json_uint16 "device_type" j); simpl; [|by eapply (caught_refused "json")].
    rewrite !elem_of_cons, elem_of_nil in Hf. destruct_or! Hf; subst; try done.
    + destruct (json_string "name" j); simpl; [|by eapply (caught_refused "json")].
      rewrite Hs. by eapply (caught_refused "json").
    + rewrite Hs. by eapply (caught_refused "json").
Qed.

Lemma query_with_refused m task missing after req h : m_method req <> OPTIONS ->
  malformed ["device_type"; "name"] req -> refused (query_with m task missing after req h) h.
Proof.
  intros Ho Hm. unfold query_with. rewrite not_options by done.
  destruct Hm as [Hp|(j & Hp & Hl)]; unfold try_catch, mbind, prog_bind; rewrite Hp; simpl.
  { by eapply (caught_refused "json"). }
  destruct (negb _) eqn:E; [by eapply bad_request_refused|].
  apply negb_false_iff, andb_true_iff in E as [E1 E2].
  destruct Hl as [(f & Hf & Hc)|[Hu|(f & Hf & Hd & Hs)]].
  - exfalso. rewrite !elem_of_cons, elem_of_nil in Hf. destruct_or! Hf; subst; congruence || done.
  - rewrite Hu. simpl. by eapply (caught_refused "json").
  - destruct (json_uint16 "device_type" j); simpl; [|by eapply (caught_refused "json")].
    rewrite !elem_of_cons, elem_of_nil in Hf. destruct_or! Hf; subst; try done.
    rewrite Hs. by eapply (caught_refused "json").
Qed.

(** C36: A malformed request is refused before anything happens: when the
    body is no JSON, or a required field is missing or of the wrong type,
    each of the four JSON handlers answers with status 400 and neither
    touches Redis nor starts a transfer. *)
Theorem malformed_requests_refused m req h : m_method req <> OPTIONS ->
  (malformed ["device_type"; "version"; "name"] req ->
     refused (handle_notify m req h) h /\ refused (handle_stop_notify m req h) h) /\
  (malformed ["device_type"; "name"] req ->
     refused (handle_query m req h) h /\ refused (handle_query_download m req h) h).
Proof.
  intros Ho. split; intros Hm; split.
  - exact (with_command_refused _ req h Ho Hm).
  - exact (with_command_refused _ req h Ho Hm).
  - exact (query_with_refused m _ _ _ req h Ho Hm).
  - exact (query_with_refused m _ _ _ req h Ho Hm).
Qed.

(** ** With a Redis that keeps its word *)

Context `{!RedisLaws R}.

Lemma setHttpResponse_ok status msg h : is_Some (dump_msg msg) ->
  exists body, setHttpResponse status msg h =
    (Ret tt, mkHstate (h_redis h) (r_setStatus status (r_setBody body (h_rsp h))) (h_transfer h)).
Proof. intros [body Hb]. exists body. unfold setHttpResponse, or_throw. rewrite Hb. reflexivity. Qed.

(** C34: A valid notify request queues its command exactly when the version
    is not the one already published for the module: with that version
    recorded, the answer is 200 and the queue is untouched; otherwise the
    command is put at the head of the message queue and the answer is 200;
    when Redis fails, the answer is 500. *)
Theorem notify_queues_once m dt name version command h :
  is_Some (dump_msg "system error.") -> is_Some (dump_msg (published_text dt name version)) ->
  let key := c_str (get_device_group_mudule_hash "notify" dt name) in
  let published := exists v, kv (h_redis h) !! key = Some v /\ c_str v = c_str version in
  let queue := lists (h_redis h) !! get_message_queue_hash in
  exists z h', ota_notify m dt name version command h = (Ret z, h') /\ h_transfer h' = h_transfer h /\
    (z = 0%Z /\ r_status (h_rsp h') = 500%Z \/
     z = 1%Z /\ r_status (h_rsp h') = 200%Z /\ published /\ lists (h_redis h') = lists (h_redis h) \/
     z = 1%Z /\ r_status (h_rsp h') = 200%Z /\ ~ published /\
       lists (h_redis h') !! get_message_queue_hash = Some (c_str command :: default [] queue)).
Proof.
  intros Hsys Hpub key published queue. unfold ota_notify.
  change (negb get_notify_message_ok) with false. cbv match zeta. fold key.
  destruct (Cmd_total (m_redis_pool_name m) ["GET"; key] (h_redis h)) as (r & s1 & E1).
  assert (on_redis (Cmd (m_redis_pool_name m) ["GET"; key]) h = (Ret r, mkHstate s1 (h_rsp h) (h_transfer h))) as R1
    by (unfold on_redis; by rewrite E1).
  run R1. unfold bad. destruct (good r) eqn:Hg; cbv beta match delta [negb].
  2: { destruct (setHttpResponse_ok 500 "system error." (mkHstate s1 (h_rsp h) (h_transfer h)) Hsys) as [b Rb].
       run Rb. eexists _, _. split; [reflexivity|]. split; [done|]. by left. }
  apply Cmd_cases in E1 as [[-> _]|E1]; [done|]. destruct (law_get _ _ _ _ _ E1 Hg) as (Hkv & Hls & ->).
  match goal with |- context [if ?b then _ else on_redis_rsp _] => set (same := b) end.
  assert (same = true <-> published) as Hsame.
  { unfold same, published. destruct (kv (h_redis h) !! key) as [v|]; [|split; [done|intros (v & ? & _); done]].
    unfold strcmp. split.
    - intros Hc. exists v. split; [done|]. apply String.compare_eq_iff. by destruct (String.compare _ _).
    - intros (v' & [= <-] & ->). by rewrite compare_refl. }
  destruct same.
  - destruct (setHttpResponse_ok 200 (published_text dt name version) (mkHstate s1 (h_rsp h) (h_transfer h)) Hpub) as [b Rb].
    run Rb. eexists _, _. split; [reflexivity|]. split; [done|]. right. left. simpl. rewrite Hls. naive_solver.
  - assert (~ published) as Hnp by (intros Hp; apply Hsame in Hp; done).
    unfold on_redis_rsp, redis_push_message_queue_by_http. cbn [h_redis h_rsp h_transfer].
    destruct (Cmd_total (m_redis_pool_name m) ["LPUSH"; c_str get_message_queue_hash; c_str command] s1) as (r2 & s2 & E2).
    unfold mbind, prog_bind. rewrite E2.
    destruct (match r2 with Some (REDIS_REPLY_INTEGER _) => true | _ => false end) eqn:Hi.
    + destruct r2 as [[| |n| | |]|]; try done. eexists _, _. split; [reflexivity|]. split; [done|].
      right. right. simpl. apply Cmd_cases in E2 as [[? _]|E2]; [done|].
      destruct (law_lpush _ _ _ _ _ _ E2 eq_refl) as (_ & -> & _). rewrite Hls. split_and!; try done.
      apply lookup_insert_eq.
    + destruct r2 as [[| |n| | |]|]; try done; eexists _, _; (split; [reflexivity|]); (split; [done|]); by left.
Qed.

(** What a query of a key leaves, before the handler completes the answer. *)
Lemma query_by_http_run pool key h :
  exists z h', on_redis_rsp (redis_query_by_http pool key) h = (Ret z, h') /\ h_transfer h' = h_transfer h /\
    (z = 0%Z /\ r_status (h_rsp h') = 500%Z \/
     kv (h_redis h') = kv (h_redis h) /\ lists (h_redis h') = lists (h_redis h) /\
     r_status (h_rsp h') = 200%Z /\
     match kv (h_redis h) !! c_str key with
     | Some v => z = 1%Z /\ r_body (h_rsp h') = c_str v
     | None => z = (-1)%Z
     end).
Proof.
  unfold on_redis_rsp, redis_query_by_http.
  destruct (Cmd_total pool ["GET"; c_str key] (h_redis h)) as (r & s1 & E1). run E1. destruct (good r) eqn:Hg.
  - apply Cmd_cases in E1 as [[-> _]|E1]; [done|]. destruct (law_get _ _ _ _ _ E1 Hg) as (Hkv & Hls & ->).
    destruct (kv (h_redis h) !! c_str key) as [v|]; eexists _, _; (split; [reflexivity|]); (split; [done|]);
      right; simpl; auto.
  - destruct r as [[]|]; try done; eexists _, _; (split; [reflexivity|]); (split; [done|]); by left.
Qed.

(** A valid query answers with what Redis holds for the device's module:
    its value with status 200, the fixed text with status 200 when there is
    none, status 500 when Redis fails; keys and lists are only read. *)
Theorem query_reports_value m req h j dt name : m_method req <> OPTIONS ->
  json_parse (m_body req) = Some j -> json_contains "device_type" j = true -> json_contains "name" j = true ->
  json_uint16 "device_type" j = Some dt -> json_string "name" j = Some name ->
  let key := c_str (get_device_group_mudule_hash "query" dt name) in
  exists z h', handle_query m req h = (Ret z, h') /\ h_transfer h' = h_transfer h /\
    (z = 0%Z /\ r_status (h_rsp h') = 500%Z \/
     kv (h_redis h') = kv (h_redis h) /\ lists (h_redis h') = lists (h_redis h) /\
     r_status (h_rsp h') = 200%Z /\
     match kv (h_redis h) !! key with
     | Some v => z = 1%Z /\ r_body (h_rsp h') = c_str v
     | None => z = (-1)%Z /\ r_body (h_rsp h') = "device not exists."
     end).
Proof.
  intros Ho Hp Hc1 Hc2 Hu Hs key. unfold handle_query, query_with. rewrite not_options by done.
  unfold try_catch. rewrite Hp. unfold or_throw at 1. run_pure. rewrite Hc1, Hc2. cbv beta match delta [negb andb].
  rewrite Hu, Hs. unfold or_throw. run_pure.
  destruct (query_by_http_run (m_redis_pool_name m) (get_device_group_mudule_hash "query" dt name) h)
    as (z & h1 & E & Ht & Hr).
  run E. fold key in Hr. destruct Hr as [[-> Hr]|(H1 & H2 & H3 & H4)].
  - eexists _, _. split; [reflexivity|]. split; [done|]. by left.
  - destruct (kv (h_redis h) !! key) as [v|]; [destruct H4 as [-> H4]|subst z];
      (eexists _, _; split; [reflexivity|]; split; [done|]; by right).
Qed.
End requests.

(** * Routes *)

Section routing.
Context {R : Type} `{!RedisServer R} `{!Json}.
Variable fnmatch : string -> string -> bool.
Variable open_file : string -> option (Z * option Z).
Implicit Types (m : OTAHttpManager) (req : HttpRequest).

Definition route_pattern : string := "/ota/file_download/*".

(** The handler a path leads to on a fresh server; [None]: the 404 page. *)
Definition route m (path : string) : option (HttpRequest -> prog (hstate R) Z) :=
  if path =? "/ota/notify" then Some (handle_notify m)
  else if path =? "/ota/query" then Some (handle_query m)
  else if path =? "/ota/query_download" then Some (handle_query_download m)
  else if path =? "/ota/" then Some (handle_ota_page m)
  else if fnmatch route_pattern (c_str path) then Some (handle_file_download open_file m)
  else None.

(** The registered routes are exactly these: the four fixed paths go to
    their handlers, any other path that matches the download pattern to the
    download handler, and every other path, "/ota/stop_notify" among them
    when it does not match, gets the 404 page. *)
Theorem routes_dispatch m req rsp ss :
  handle fnmatch (register_routes open_file m new_ServletDispatch) req rsp ss =
    match route m (m_path req) with
    | Some h => let '(_, rsp', ss') := as_handler h req rsp ss in (0%Z, rsp', ss')
    | None => NotFound_handle req rsp ss
    end.
Proof.
  unfold handle, getMatchedServlet, route, register_routes. cbn [m_datas m_globs m_default addServlet_cb
    addGlobServlet_cb addGlobServlet new_ServletDispatch erase_first app first_glob].
  destruct (String.eqb_spec (m_path req) "/ota/notify") as [->|H1];
    [by rewrite !lookup_insert_ne, lookup_insert_eq by done|].
  destruct (String.eqb_spec (m_path req) "/ota/query") as [->|H2];
    [by rewrite !lookup_insert_ne, lookup_insert_eq by done|].
  destruct (String.eqb_spec (m_path req) "/ota/query_download") as [->|H3];
    [by rewrite !lookup_insert_ne, lookup_insert_eq by done|].
  destruct (String.eqb_spec (m_path req) "/ota/") as [->|H4];
    [by rewrite lookup_insert_eq|].
  rewrite !lookup_insert_ne, lookup_empty by done.
  change (c_str "/ota/file_download/*") with route_pattern.
  by destruct (fnmatch route_pattern (c_str (m_path req))).
Qed.

(** A preflight request is answered alike by every handler: status 200
    and the three access-control headers, Redis and transfers untouched. *)
Theorem preflight_answer m req (h : hstate R) hd : is_options req = true ->
  hd ∈ [handle_notify m; handle_stop_notify m; handle_query m; handle_query_download m; handle_ota_page m;
        handle_file_download open_file m] ->
  exists h', hd req h = (Ret 0%Z, h') /\ h_redis h' = h_redis h /\ h_transfer h' = h_transfer h /\
    r_status (h_rsp h') = 200%Z /\ r_body (h_rsp h') = r_body (h_rsp h) /\
    r_getHeader "access-control-allow-origin" "" (h_rsp h') = "*" /\
    r_getHeader "access-control-allow-methods" "" (h_rsp h') = "POST, GET, OPTIONS" /\
    r_getHeader "access-control-allow-headers" "" (h_rsp h') = "Content-Type".
Proof.
  intros Ho Hin.
  assert (hd req h = (set_options;; mret 0%Z) h) as ->.
  { rewrite !elem_of_cons, elem_of_nil in Hin. destruct_or! Hin; try done; subst hd;
      unfold handle_notify, handle_stop_notify, handle_query, handle_query_download, with_command, query_with,
        handle_ota_page, handle_file_download; by rewrite Ho. }
  unfold set_options, set_rsp. rewrite !bind_assoc. run_pure. eexists. split; [reflexivity|].
  split_and!; try reflexivity; cbn [h_rsp]; by rewrite !r_getHeader_set.
Qed.

(** The pool [ota_stop_notify] asks for is the text of the format: without a
    pool of that name, every stop request fails with status 500. *)
Lemma stop_notify_always_fails m dt name version command (h : hstate R) :
  rds_get "GET %s" (h_redis h) = false -> is_Some (dump_msg "system error.") ->
  exists h', ota_stop_notify m dt name version command h = (Ret 0%Z, h') /\ h_redis h' = h_redis h /\
    r_status (h_rsp h') = 500%Z.
Proof.
  intros Hp [b Hb]. unfold ota_stop_notify.
  assert (on_redis (Cmd "GET %s" [c_str (get_device_group_mudule_hash "stop_notify" dt name)]) h = (Ret None, h)) as E
    by (unfold on_redis, Cmd; rewrite Hp; by destruct h).
  run E. unfold setHttpResponse, or_throw. change (bad None) with true. cbv match. rewrite Hb.
  by eexists.
Qed.
End routing.

(** * Concrete requests *)

(** A JSON library that knows two documents. *)
Definition toy_field (k : string) (j : bool) : bool :=
  j && ((k =? "device_type") || (k =? "name") || (k =? "version") || (k =? "command")).
Definition toy_json : Json := {|
  json := bool;
  json_parse s := if s =? "full" then Some true else if s =? "empty" then Some false else None;
  json_contains := toy_field;
  json_uint16 k j := if toy_field k j then Some 7%Z else None;
  json_string k j := if toy_field k j then Some (if k =? "version" then "1.0" else if k =? "command" then "notify" else "app") else None;
  json_dump l := Some (foldr (fun '(k, v) t => k ++ ":" ++ match v with JStr x => x | JNum n => dec n end ++ t) "" l)
|}.

#[local] Existing Instance toy_json.

Definition toy_manager : OTAHttpManager := mkOTAHttpManager "pool" "/srv/" "".
Definition toy_redis : memory :=
  mkMemory ["pool"] {[ "ota:device:query:7:app" := "up"; "ota:device:notify:7:app" := "0.9" ]} ∅.
Definition toy_state : hstate memory := mkHstate toy_redis (new_HttpResponse 17 true) None.
Definition toy_request (meth : HttpMethod) (path body : string) : HttpRequest :=
  let r := new_HttpRequest 17 true in
  mkHttpRequest meth (m_version r) (m_close r) path (m_query r) (m_fragment r) body
    (m_headers r) (m_params r) (m_cookies r).
Definition toy_open (p : string) : option (Z * option Z) :=
  if p =? "/srv/ota_7_1.0_app.jpg" then Some (5, Some 100)%Z else None.

Lemma download_stays_in_directory_witness :
  exists dt name version, in_uint 16 dt /\ no_char "/" (download_name dt name version) = true /\
    handle_file_download toy_open toy_manager (toy_request GET "/ota/file_download/65543/app/1.0" "") toy_state =
      (ota_file_download toy_open toy_manager dt name version;; mret 0%Z) toy_state.
Proof.
  destruct (download_stays_in_directory toy_open toy_manager
    (toy_request GET "/ota/file_download/65543/app/1.0" "") toy_state) as [(h' & E & H & _)|[E|H]]; [done| | |exact H].
  - exfalso. vm_compute in E. injection E as <-. vm_compute in H. discriminate H.
  - exfalso. vm_compute in E. discriminate E.
Defined.

Lemma download_path_roundtrip_witness :
  handle_file_download toy_open toy_manager (toy_request GET "/ota/file_download/7/app/1.0" "") toy_state =
    (ota_file_download toy_open toy_manager 7 "app" "1.0";; mret 0%Z) toy_state.
Proof. apply (download_path_roundtrip toy_open); [done|split; lia|reflexivity..]. Defined.


Lemma malformed_requests_refused_witness :
  refused (handle_notify toy_manager (toy_request POST "/ota/notify" "empty") toy_state) toy_state /\
  refused (handle_query toy_manager (toy_request POST "/ota/query" "{") toy_state) toy_state.
Proof.
  split.
  - refine (proj1 (proj1 (malformed_requests_refused toy_manager (toy_request POST "/ota/notify" "empty")
      toy_state _) _)); [done|].
    right. exists false. split; [reflexivity|]. left. exists "name". split; [set_solver|reflexivity].
  - refine (proj1 (proj2 (malformed_requests_refused toy_manager (toy_request POST "/ota/query" "{")
      toy_state _) _)); [done|]. by left.
Defined.

Lemma notify_queues_once_witness : exists h',
  ota_notify toy_manager 7 "app" "1.0" "cmd" toy_state = (Ret 1%Z, h') /\
  lists (h_redis h') !! get_message_queue_hash = Some ["cmd"].
Proof.
  destruct (notify_queues_once toy_manager 7 "app" "1.0" "cmd" toy_state ltac:(by eexists) ltac:(by eexists))
    as (z & h' & E & _ & H).
  exists h'. vm_compute in E. injection E as <- <-. split; [reflexivity|].
  destruct H as [[H _]|[(_ & _ & (v & Hv & Hc) & _)|(_ & _ & _ & H)]]; [discriminate H| |exact H].
  exfalso. vm_compute in Hv. injection Hv as <-. vm_compute in Hc. discriminate Hc.
Defined.

Lemma query_reports_value_witness : exists h',
  handle_query toy_manager (toy_request POST "/ota/query" "full") toy_state = (Ret 1%Z, h') /\
  r_body (h_rsp h') = "up" /\ r_status (h_rsp h') = 200%Z.
Proof.
  destruct (query_reports_value toy_manager (toy_request POST "/ota/query" "full") toy_state (true : @json toy_json) 7 "app")
    as (z & h' & E & _ & H); [done|reflexivity..|].
  exists h'. vm_compute in E. injection E as <- <-. split; [reflexivity|].
  destruct H as [[H _]|(_ & _ & H1 & H2)]; [discriminate H|]. split; [|exact H1].
  vm_compute in H2. vm_compute. exact (proj2 H2).
Defined.

Lemma preflight_answer_witness : exists h',
  handle_query toy_manager (toy_request OPTIONS "/ota/query" "") toy_state = (Ret 0%Z, h') /\
  r_status (h_rsp h') = 200%Z.
Proof.
  destruct (preflight_answer toy_open toy_manager (toy_request OPTIONS "/ota/query" "") toy_state
    (handle_query toy_manager)) as (h' & E & _ & _ & H & _); [reflexivity|by apply (list_elem_of_lookup_2 _ 2)|]. by exists h'.
Defined.
