(* ===== verification/Mqtt.v ===== *)
(** [sherry/mqtt_client.cc], [sherry/mqtt_listener.h], [MqttAddress] of
    [sherry/address.cc] and [sherry/ota_client_callback.cc]: the wrapper
    around the Paho client, the manager of such clients and the table of
    message callbacks.

    Paho's [async_client] is the interface [Paho]; a call of it that throws
    [mqtt::exception] is the result [false].  [m_client] is a raw pointer:
    [None] is a pointer to a deleted client. *)

From stdpp Require Import base list gmap strings pretty.
From S2P Require Import Prelude MachineInt Http HttpProps Redis.
From Stdlib Require Import ZArith Lia String.
Local Open Scope string_scope.

Record connect_options : Type := mkConnOpts {
  keep_alive_interval : Z;
  automatic_reconnect : bool;
  clean_session : bool;
  user_name : string;
  password : string;
  connect_timeout : Z
}.

Class Paho (P : Type) : Type := {
  p_new : string -> string -> P;                       (* server address, client id *)
  p_connected : P -> bool;
  p_connect : option connect_options -> P -> bool * P;
  p_subscribe : string -> Z -> P -> bool * P;
  p_publish : string -> string -> Z -> bool -> P -> bool * P;
  p_unsubscribe : string -> P -> bool * P;
  p_disconnect : option Z -> P -> bool * P             (* with a timeout or without *)
}.

(** * [MqttAddress] *)

Record MqttAddress : Type := mkMqttAddress {
  a_port : Z; a_protocol : string; a_host : string; m_MqttAddress : string
}.
Definition addr_text (protocol host : string) (port : Z) : string :=
  protocol ++ "://" ++ host ++ ":" ++ dec_int port.
Definition new_MqttAddress (protocol : string) (port : Z) (host : string) : MqttAddress :=
  mkMqttAddress port protocol host (addr_text protocol host port).
Definition setAddr (protocol : string) (port : Z) (host : string) (a : MqttAddress) : MqttAddress :=
  mkMqttAddress port protocol host (addr_text protocol host port).
Definition updateAddr (a : MqttAddress) : MqttAddress :=
  mkMqttAddress (a_port a) (a_protocol a) (a_host a) (addr_text (a_protocol a) (a_host a) (a_port a)).
Definition setProtocol (protocol : string) (a : MqttAddress) : MqttAddress :=
  updateAddr (mkMqttAddress (a_port a) protocol (a_host a) (m_MqttAddress a)).
Definition setHost (host : string) (a : MqttAddress) : MqttAddress :=
  updateAddr (mkMqttAddress (a_port a) (a_protocol a) host (m_MqttAddress a)).
Definition setPort (port : Z) (a : MqttAddress) : MqttAddress :=
  updateAddr (mkMqttAddress port (a_protocol a) (a_host a) (m_MqttAddress a)).

(** * [MqttClient] *)

(** [m_listener]: the topic and whether a callback is set; there is one
    listener for all actions of a client. *)
Record MqttClient (P : Type) : Type := mkMqttClient {
  m_port : Z;
  m_isconnected : bool;
  m_protocol : string;
  m_host : string;
  m_client_id : string;
  m_serverAddress : MqttAddress;
  m_client : option P;
  m_connOpts : connect_options;
  m_listener : string * bool
}.
Arguments mkMqttClient {P}.
Arguments m_port {P}. Arguments m_isconnected {P}. Arguments m_protocol {P}. Arguments m_host {P}.
Arguments m_client_id {P}. Arguments m_serverAddress {P}. Arguments m_client {P}.
Arguments m_connOpts {P}. Arguments m_listener {P}.

Section mqtt.
Context {P : Type} `{!Paho P}.
Abbreviation client := (MqttClient P).
Abbreviation mprog := (prog (MqttClient P)).

(** Paho's defaults. *)
Definition default_connOpts : connect_options := mkConnOpts 60 false true "" "" 30.

(** [junk] is what the storage of [m_isconnected] held: the constructor does
    not initialise it. *)
Definition new_MqttClient (junk : bool) (protocol : string) (port : Z) (host client_id : string) : client :=
  let addr := new_MqttAddress protocol port host in
  mkMqttClient port junk protocol host client_id addr (Some (p_new (m_MqttAddress addr) client_id))
    default_connOpts ("", false).

Definition put_client (p : option P) (c : client) : client :=
  mkMqttClient (m_port c) (m_isconnected c) (m_protocol c) (m_host c) (m_client_id c) (m_serverAddress c)
    p (m_connOpts c) (m_listener c).
Definition set_isconnected (v : bool) (c : client) : client :=
  mkMqttClient (m_port c) v (m_protocol c) (m_host c) (m_client_id c) (m_serverAddress c)
    (m_client c) (m_connOpts c) (m_listener c).
Definition set_topic_cb (topic : string) (c : client) : client :=
  mkMqttClient (m_port c) (m_isconnected c) (m_protocol c) (m_host c) (m_client_id c) (m_serverAddress c)
    (m_client c) (m_connOpts c) (topic, true).
Definition set_connOpts (o : connect_options) (c : client) : client :=
  mkMqttClient (m_port c) (m_isconnected c) (m_protocol c) (m_host c) (m_client_id c) (m_serverAddress c)
    (m_client c) o (m_listener c).

(** The object behind [m_client], and a call of it. *)
Definition paho : mprog P := fun c => of_option NullDeref (m_client c) c.
Definition call (f : P -> bool * P) : mprog bool :=
  p ← paho;
  let '(ok, p') := f p in
  modify (put_client (Some p'));; mret ok.

(** Called with [cli = m_client]. The new client goes to the parameter, that
    is, nowhere; waiting for the disconnect is part of the call. *)
Definition CreateMqttClient : mprog unit :=
  p ← paho;
  if p_connected p then
    ok ← call (p_disconnect None);
    if (ok : bool) then modify (put_client None) else throw "mqtt"
  else mret tt.

Definition set_port (v : Z) : mprog unit :=
  modify (fun c => mkMqttClient v (m_isconnected c) (m_protocol c) (m_host c) (m_client_id c)
    (setPort v (m_serverAddress c)) (m_client c) (m_connOpts c) (m_listener c));;
  CreateMqttClient.

Definition set_serverAddr (protocol : string) (port : Z) (host : string) : mprog unit :=
  modify (fun c => mkMqttClient port (m_isconnected c) protocol host (m_client_id c)
    (setAddr protocol port host (m_serverAddress c)) (m_client c) (m_connOpts c) (m_listener c));;
  CreateMqttClient.

Definition connect (use_opts : bool) : mprog unit :=
  p ← paho;
  if p_connected p then crash AssertFail else
  opts ← gets m_connOpts;
  ok ← call (p_connect (if use_opts then Some opts else None));
  if (ok : bool) then modify (set_isconnected true) else mret tt.

Definition assert_connected : mprog unit :=
  p ← paho; c ← gets id;
  if p_connected p && m_isconnected c then mret tt else crash AssertFail.

Definition clamp_qos (qos : Z) : Z := if (qos <? 0)%Z || (2 <? qos)%Z then 1%Z else qos.

Definition subscribe (topic : string) (qos : Z) (callback : bool) : mprog unit :=
  assert_connected;;
  ok ← call (p_subscribe topic (clamp_qos qos));
  if (ok : bool) && callback then modify (set_topic_cb topic) else mret tt.

(** The result of these is what the callback is called with at once. *)
Definition publish (topic payload : string) (qos : Z) (retained callback : bool) : mprog (list (string * Z)) :=
  assert_connected;;
  ok ← call (p_publish topic payload (clamp_qos qos) retained);
  if (ok : bool) then
    (if callback then modify (set_topic_cb topic) else mret tt);; mret []
  else mret (if callback then [(topic, -1)%Z] else []).

Definition disconnect (callback : bool) (timeout : Z) : mprog (list Z) :=
  p ← paho;
  if negb (p_connected p) then mret (if callback then [0%Z] else []) else
  ok ← call (p_disconnect (if (timeout <=? 0)%Z then None else Some timeout));
  mret (if negb ok && callback then [(-1)%Z] else []).

Definition unsubscribe (topic : string) (callback : bool) : mprog (list (string * Z)) :=
  p ← paho;
  if negb (p_connected p) then mret [] else
  ok ← call (p_unsubscribe topic);
  mret (if negb ok && callback then [(topic, -1)%Z] else []).

(** Paho's callbacks. *)
Definition connected : mprog unit := modify (set_isconnected true).
Definition connection_lost : mprog unit := modify (set_isconnected false).

(** What the listener's callback is called with when an action ends. *)
Definition on_success (c : client) : list (string * Z) :=
  let '(topic, cb) := m_listener c in if (cb : bool) then [(topic, 0)%Z] else [].
Definition on_failure (c : client) : list (string * Z) :=
  let '(topic, cb) := m_listener c in if (cb : bool) then [(topic, -1)%Z] else [].
End mqtt.

(** * [MqttClientManager] *)

(** Clients by device type; [refs] counts the owners besides the map. *)
Record MqttClientManager : Type := mkClientManager {
  cm_clients : gmap Z nat;
  cm_client_num : Z;
  cm_client_id : Z
}.

(** The client a type gets (by the number of its creation), [None]: null. *)
Definition get_client (device_type : Z) (m : MqttClientManager) : option nat * MqttClientManager :=
  if (device_type <? 0)%Z then (None, m) else
  match cm_clients m !! device_type with
  | Some c => (Some c, m)
  | None =>
      let c := Z.to_nat (cm_client_id m) in
      (Some c, mkClientManager (<[device_type := c]> (cm_clients m)) (cm_client_num m + 1) (cm_client_id m + 1))
  end.

(** [use_count] of the local copy: the map's, its own and the others. *)
Definition delete_client (refs : nat -> nat) (device_type : Z) (m : MqttClientManager) : MqttClientManager :=
  match cm_clients m !! device_type with
  | None => m
  | Some cli =>
      if (1 <? 1 + 1 + refs cli)%nat then m
      else mkClientManager (delete device_type (cm_clients m)) (cm_client_num m - 1) (cm_client_id m)
  end.

(** * [OTAClientCallbackManager] *)

Definition CallbackFunc (R : Type) : Type := string -> string -> prog R unit.

Record OTAClientCallbackManager (R : Type) : Type := mkCallbackManager {
  m_callbacks : gmap string (option (CallbackFunc R));
  m_default_callback : option (CallbackFunc R)
}.
Arguments mkCallbackManager {R}.
Arguments m_callbacks {R}.
Arguments m_default_callback {R}.

Section callbacks.
Context {R : Type}.

Definition new_CallbackManager : OTAClientCallbackManager R := mkCallbackManager ∅ None.
Definition set_default_callback (v : option (CallbackFunc R)) (m : OTAClientCallbackManager R) :=
  mkCallbackManager (m_callbacks m) v.
Definition regist_callback (topic : string) (cb : option (CallbackFunc R)) (m : OTAClientCallbackManager R) :=
  mkCallbackManager (<[topic := cb]> (m_callbacks m)) (m_default_callback m).

(** The exceptions of a callback are logged. *)
Definition on_message (m : OTAClientCallbackManager R) (topic payload : string) : prog R unit := fun s =>
  match m_callbacks m !! topic with
  | Some (Some cb) => match cb topic payload s with (Throw _, s') => (Ret tt, s') | r => r end
  | _ => (Ret tt, s)
  end.

Lemma on_message_hit m topic payload (cb : CallbackFunc R) s s' : m_callbacks m !! topic = Some (Some cb) ->
  cb topic payload s = (Ret tt, s') -> on_message m topic payload s = (Ret tt, s').
Proof.
  intros H Hcb. etrans; [exact (f_equal (fun o => match o with
    | Some (Some cb) => match cb topic payload s with (Throw _, s') => (Ret tt, s') | r => r end
    | _ => (Ret tt, s) end) H)|]. simpl. by rewrite Hcb.
Qed.

(** [MqttClient::message_arrived] *)
Definition message_arrived (m_cbmgr : option (OTAClientCallbackManager R)) (topic payload : string) : prog R unit :=
  match m_cbmgr with Some m => on_message m topic payload | None => mret tt end.
End callbacks.

(** * Properties *)

(** What Paho documents: after a successful [connect] the client is
    connected; a completed [disconnect] leaves it disconnected. *)
Class PahoLaws (P : Type) `{!Paho P} : Prop := {
  law_connect : forall o p p', p_connect o p = (true, p') -> p_connected p' = true;
  law_disconnect : forall t p p', p_disconnect t p = (true, p') -> p_connected p' = false
}.

Section mqtt_props.
Context {P : Type} `{!Paho P}.
Implicit Types (c : MqttClient P) (p : P).

Lemma call_run f c p : m_client c = Some p ->
  call f c = (Ret (fst (f p)), put_client (Some (snd (f p))) c).
Proof.
  intros Hc. unfold call, paho. assert (of_option NullDeref (m_client c) c = (Ret p, c)) as E by (by rewrite Hc).
  erewrite bind_ret by exact E. by destruct (f p).
Qed.

Lemma assert_connected_run c p : m_client c = Some p ->
  assert_connected c = if p_connected p && m_isconnected c then (Ret tt, c) else (Crash AssertFail, c).
Proof.
  intros Hc. unfold assert_connected, paho.
  assert (of_option NullDeref (m_client c) c = (Ret p, c)) as E by (by rewrite Hc).
  erewrite bind_ret by exact E. run_pure. unfold id. by destruct (p_connected p && m_isconnected c).
Qed.

(** [publish] on a live client, on every branch: unless both Paho and
    the flag say connected it aborts; otherwise exactly one message goes out,
    with its topic, payload and retained flag and a QoS of 0, 1 or 2 (the one
    asked for when it is one), and a refusal by Paho is reported to the
    callback as -1. *)
Theorem publish_behaviour topic payload qos retained cb c p : m_client c = Some p ->
  let q := clamp_qos qos in
  let '(ok, p') := p_publish topic payload q retained p in
  (0 <= q <= 2)%Z /\ ((0 <= qos <= 2)%Z -> q = qos) /\
  if p_connected p && m_isconnected c
  then exists c', publish topic payload qos retained cb c =
         (Ret (if negb ok && cb then [(topic, -1)%Z] else []), c') /\
         m_client c' = Some p' /\ m_isconnected c' = m_isconnected c /\
         m_listener c' = if ok && cb then (topic, true) else m_listener c
  else publish topic payload qos retained cb c = (Crash AssertFail, c).
Proof.
  intros Hc q. destruct (p_publish topic payload q retained p) as [ok p'] eqn:Ep. split; [|split].
  - unfold q, clamp_qos. destruct (Z.ltb_spec qos 0), (Z.ltb_spec 2 qos); simpl; lia.
  - unfold q, clamp_qos. destruct (Z.ltb_spec qos 0), (Z.ltb_spec 2 qos); simpl; lia.
  - unfold publish. pose proof (assert_connected_run c p Hc) as Ha.
    destruct (p_connected p && m_isconnected c); [|by erewrite bind_crash by exact Ha].
    run Ha. pose proof (call_run (p_publish topic payload q retained) c p Hc) as Hr. rewrite Ep in Hr. run Hr.
    destruct ok, cb; simpl; (eexists; split; [reflexivity|done]).
Qed.

Lemma connect_connects `{!PahoLaws P} opts c p : m_client c = Some p -> p_connected p = false ->
  exists c', connect opts c = (Ret tt, c') /\ exists p', m_client c' = Some p' /\
    (m_isconnected c' = true /\ p_connected p' = true \/ m_isconnected c' = m_isconnected c).
Proof.
  intros Hc Hd. unfold connect, paho. assert (of_option NullDeref (m_client c) c = (Ret p, c)) as E by (by rewrite Hc).
  erewrite bind_ret by exact E. rewrite Hd. run_pure.
  run (call_run (p_connect (if opts then Some (m_connOpts c) else None)) c p Hc).
  destruct (p_connect _ p) as [[] p'] eqn:Ep; simpl.
  - eexists. split; [reflexivity|]. exists p'. split; [done|]. left. split; [done|]. by eapply law_connect.
  - eexists. split; [reflexivity|]. exists p'. split; [done|]. by right.
Qed.

(** A requested disconnect leaves the flag set, so the next [publish]
    aborts instead of reconnecting. *)
Lemma publish_after_disconnect_aborts `{!PahoLaws P} topic payload c p p' :
  m_client c = Some p -> p_connected p = true -> m_isconnected c = true -> p_disconnect None p = (true, p') ->
  exists c', disconnect false (-1) c = (Ret [], c') /\ m_isconnected c' = true /\
    publish topic payload 1 true false c' = (Crash AssertFail, c').
Proof.
  intros Hc Hp Hi Hd. unfold disconnect, paho.
  assert (of_option NullDeref (m_client c) c = (Ret p, c)) as E by (by rewrite Hc).
  eexists. split; [erewrite bind_ret by exact E; rewrite Hp; change (negb true) with false; cbv match;
    run (call_run (p_disconnect None) c p Hc); rewrite Hd; reflexivity|]. split; [done|].
  unfold publish. erewrite bind_crash; [reflexivity|].
  erewrite assert_connected_run by reflexivity. simpl. by rewrite (law_disconnect _ _ _ Hd).
Qed.

(** Changing the port of a connected client leaves it without a client. *)
Lemma set_port_dangles v c p p' : m_client c = Some p -> p_connected p = true ->
  p_disconnect None p = (true, p') -> m_client (post (set_port v) c) = None.
Proof.
  intros Hc Hp Hd. unfold post, set_port, CreateMqttClient, call, paho. unfold mbind, prog_bind, modify, mret, prog_ret.
  simpl. rewrite Hc. simpl. rewrite Hp. simpl. by rewrite Hd.
Qed.
End mqtt_props.

(** The local copy counts as an owner: no client is ever deleted. *)
Lemma delete_client_never refs dt m : delete_client refs dt m = m.
Proof. unfold delete_client. by destruct (cm_clients m !! dt). Qed.

(** A Paho client that accepts everything and logs what it was given. *)
Record toy_paho : Type := mkToyPaho { tp_connected : bool; tp_log : list (string * string * Z * bool) }.
#[export] Instance toy_paho_paho : Paho toy_paho := {|
  p_new _ _ := mkToyPaho false [];
  p_connected := tp_connected;
  p_connect _ p := (true, mkToyPaho true (tp_log p));
  p_subscribe _ _ p := (true, p);
  p_publish t m q r p := (true, mkToyPaho (tp_connected p) (tp_log p ++ [(t, m, q, r)])%list);
  p_unsubscribe _ p := (true, p);
  p_disconnect _ p := (true, mkToyPaho false (tp_log p))
|}.
#[export] Instance toy_paho_laws : PahoLaws toy_paho.
Proof. split; [intros o p p'|intros t p p']; simpl; by intros [= <-]. Qed.

Lemma publish_behaviour_witness :
  exists c', publish "t" "m" 7 true false
      (set_isconnected true (put_client (Some (mkToyPaho true [])) (new_MqttClient false "tcp" 1883 "h" "7"))) =
    (Ret [], c') /\ m_client c' = Some (mkToyPaho true [("t", "m", 1%Z, true)]).
Proof.
  destruct (publish_behaviour "t" "m" 7 true false
    (set_isconnected true (put_client (Some (mkToyPaho true [])) (new_MqttClient false "tcp" 1883 "h" "7")))
    (mkToyPaho true []) eq_refl) as (_ & _ & c' & E & H & _).
  exists c'. split; [exact E|exact H].
Defined.
