(* ===== verification/OtaMqtt.v ===== *)
(** [sherry/ota_notifier.cc], [sherry/ota/ota_device.cc],
    [sherry/ota_mqtt_manager.cc] and [sherry/ota_command_dispatcher.cc]: the
    MQTT side of the OTA service.

    The objects the parts share are held by address in a [world]: MQTT
    clients, notifiers, the timers of [m_timer_mgr] (a timer's function is the
    address of the notifier whose [publish_once] it calls), the callback
    table, Redis, the manager, and the commands scheduled on
    [m_command_ioMgr].  A pointer to a destroyed object is an address without
    one.  [w_alloc] is the next unused address, [w_now] the clock. *)

From stdpp Require Import base list gmap strings pretty.
From S2P Require Import Prelude MachineInt Http HttpProps Redis OtaHttp Timer TimerProps Mqtt.
From Stdlib Require Import ZArith Lia String.
Local Open Scope string_scope.

(** * Data *)

Record OTAMessage : Type := mkOTAMessage {
  o_name : string;
  o_version : string;
  o_time : string;
  o_file_name : string;
  o_file_size : Z;
  o_url_path : string;
  o_md5_value : string;
  o_launch_mode : Z;
  o_upgrade_mode : Z
}.
Definition new_OTAMessage : OTAMessage := mkOTAMessage "" "" "" "" 0 "" "" 0 1.

Record OTANotifier : Type := mkOTANotifier {
  n_timer_mgr : bool;            (* m_timer_mgr is not null *)
  n_topic : string;
  n_client : option nat;
  n_timer : option nat;
  n_msg : OTAMessage;
  n_interval_ms : Z
}.

Record OTADevice : Type := mkOTADevice {
  d_device_type : Z;
  d_is_running : bool;
  d_client : nat;
  d_sub_topics : list string;
  d_sub_qos : list Z;
  d_notifier : option nat
}.

Record OTAMqttManager : Type := mkOTAMqttManager {
  g_running : bool;
  g_device_counts : Z;
  g_devices : gmap Z OTADevice;
  g_redis_pool_name : string;
  g_redis_mq_pool_name : string
}.

Record world (R P : Type) : Type := mkWorld {
  w_redis : R;
  w_cbmgr : OTAClientCallbackManager R;
  w_clients : gmap nat (MqttClient P);
  w_notifiers : gmap nat OTANotifier;
  w_timers : TimerManager nat;
  w_mgr : OTAMqttManager;
  w_scheduled : list string;
  w_alloc : nat;
  w_now : Z
}.
Arguments mkWorld {R P}.
Arguments w_redis {R P}. Arguments w_cbmgr {R P}. Arguments w_clients {R P}. Arguments w_notifiers {R P}.
Arguments w_timers {R P}. Arguments w_mgr {R P}. Arguments w_scheduled {R P}. Arguments w_alloc {R P}.
Arguments w_now {R P}.

Section ota_mqtt.
Context {R P : Type} `{!RedisServer R, !Json, !Paho P}.
Variable time_string : Z -> string.     (* getCurrentTimeString: the clock as local time *)
Variable junk : bool.                   (* uninitialised storage *)
Abbreviation W := (world R P).
Abbreviation wprog := (prog (world R P)).

Definition set_redis (r : R) (w : W) : W :=
  mkWorld r (w_cbmgr w) (w_clients w) (w_notifiers w) (w_timers w) (w_mgr w) (w_scheduled w) (w_alloc w) (w_now w).
Definition set_cbmgr (c : OTAClientCallbackManager R) (w : W) : W :=
  mkWorld (w_redis w) c (w_clients w) (w_notifiers w) (w_timers w) (w_mgr w) (w_scheduled w) (w_alloc w) (w_now w).
Definition set_clients (c : gmap nat (MqttClient P)) (w : W) : W :=
  mkWorld (w_redis w) (w_cbmgr w) c (w_notifiers w) (w_timers w) (w_mgr w) (w_scheduled w) (w_alloc w) (w_now w).
Definition set_notifiers (n : gmap nat OTANotifier) (w : W) : W :=
  mkWorld (w_redis w) (w_cbmgr w) (w_clients w) n (w_timers w) (w_mgr w) (w_scheduled w) (w_alloc w) (w_now w).
Definition set_timers (t : TimerManager nat) (w : W) : W :=
  mkWorld (w_redis w) (w_cbmgr w) (w_clients w) (w_notifiers w) t (w_mgr w) (w_scheduled w) (w_alloc w) (w_now w).
Definition set_mgr (m : OTAMqttManager) (w : W) : W :=
  mkWorld (w_redis w) (w_cbmgr w) (w_clients w) (w_notifiers w) (w_timers w) m (w_scheduled w) (w_alloc w) (w_now w).
Definition set_scheduled (l : list string) (w : W) : W :=
  mkWorld (w_redis w) (w_cbmgr w) (w_clients w) (w_notifiers w) (w_timers w) (w_mgr w) l (w_alloc w) (w_now w).

(** [new]: an address nothing uses. *)
Definition set_alloc (a : nat) (w : W) : W :=
  mkWorld (w_redis w) (w_cbmgr w) (w_clients w) (w_notifiers w) (w_timers w) (w_mgr w) (w_scheduled w) a (w_now w).
Definition alloc : wprog nat := fun w => (Ret (w_alloc w), set_alloc (S (w_alloc w)) w).

(** Calls into one part of the world. *)
Definition redis_do {A} (p : prog R A) : wprog A := fun w =>
  let '(a, r) := p (w_redis w) in (a, set_redis r w).
Definition timers_do {A} (p : prog (TimerManager nat) A) : wprog A := fun w =>
  let '(a, t) := p (w_timers w) in (a, set_timers t w).
Definition client_do {A} (c : nat) (p : prog (MqttClient P) A) : wprog A := fun w =>
  match w_clients w !! c with
  | None => (Crash NullDeref, w)
  | Some cl => let '(a, cl') := p cl in (a, set_clients (<[c := cl']> (w_clients w)) w)
  end.
Definition notifier (n : nat) : wprog OTANotifier := fun w => of_option NullDeref (w_notifiers w !! n) w.
Definition put_notifier (n : nat) (v : OTANotifier) : wprog unit :=
  modify (fun w => set_notifiers (<[n := v]> (w_notifiers w)) w).

(** [try { m } catch (const std::exception&) {}] *)
Definition catching (m : wprog unit) : wprog unit := fun w =>
  match m w with (Throw _, w') => (Ret tt, w') | r => r end.

(** * The notifier *)

Definition to_json (m : OTAMessage) : option string :=
  json_dump [("name", JStr (o_name m)); ("version", JStr (o_version m)); ("file_name", JStr (o_file_name m));
             ("file_size", JNum (o_file_size m)); ("url_path", JStr (o_url_path m));
             ("md5_value", JStr (o_md5_value m)); ("launch_mode", JNum (o_launch_mode m));
             ("upgrade_mode", JNum (o_upgrade_mode m)); ("time", JStr (o_time m))].

Definition get_notify_message (now : Z) (name version : string) : bool * OTAMessage :=
  (true, mkOTAMessage name version (time_string now) "agsspds_20241110.zip" 6773120
           "http://127.0.0.1:18882/download/ota/agsspds" "ed076287532e86365e841e92bfc50d8c" 0 1).

Definition set_message (this : nat) (msg : OTAMessage) : wprog unit :=
  n ← notifier this;
  put_notifier this (mkOTANotifier (n_timer_mgr n) (n_topic n) (n_client n) (n_timer n) msg (n_interval_ms n)).

Definition put_timer (this : nat) (t : option nat) : wprog unit :=
  n ← notifier this;
  put_notifier this (mkOTANotifier (n_timer_mgr n) (n_topic n) (n_client n) t (n_msg n) (n_interval_ms n)).

Definition notifier_start (this : nat) : wprog unit :=
  n ← notifier this;
  if negb (n_timer_mgr n) then crash AssertFail else
  addr ← alloc;
  now ← gets w_now;
  t ← timers_do (addTimer addr now (n_interval_ms n) (Some (Plain this)) true);
  put_timer this (Some t).

Definition notifier_stop (this : nat) : wprog unit :=
  n ← notifier this;
  match n_timer n with
  | None => mret tt
  | Some t => timers_do (Timer_cancel t);; put_timer this None
  end.

Definition publish_once (this : nat) : wprog unit :=
  n ← notifier this;
  match n_client n with
  | None => mret tt
  | Some c =>
      up ← client_do c (gets m_isconnected);
      (if (up : bool) then mret tt else client_do c (connect true));;
      n ← notifier this;
      payload ← match to_json (n_msg n) with Some s => mret s | None => throw "json" end;
      client_do c (publish (n_topic n) payload 1 true false);;
      mret tt
  end.

(** * The device *)

(** The function the constructor registers for a topic. *)
Definition store_callback (redis_pool_name redis_key : string) (redis_expire_second : Z) : CallbackFunc R :=
  fun _ payload => redis_safe_set_key_value redis_pool_name redis_key payload redis_expire_second;; mret tt.

Fixpoint regist_all (i : nat) (topics redis_keys : list string) (expires : list Z) (pool : string) : wprog unit :=
  match topics with
  | [] => mret tt
  | topic :: rest =>
      redis_key ← of_option OutOfRange (redis_keys !! i);
      redis_expire_second ← of_option OutOfRange (expires !! i);
      modify (fun w => set_cbmgr (regist_callback topic (Some (store_callback pool redis_key redis_expire_second))
                                    (w_cbmgr w)) w);;
      regist_all (S i) rest redis_keys expires pool
  end.

Definition new_OTADevice (device_type port : Z) (protocol host : string) (sub_topics : list string)
    (sub_qos : list Z) (redis_keys : list string) (redis_expire_seconds : list Z) (redis_pool_name : string)
    : wprog OTADevice :=
  c ← alloc;
  modify (fun w => set_clients (<[c := new_MqttClient junk protocol port host (dec device_type)]> (w_clients w)) w);;
  regist_all 0 sub_topics redis_keys redis_expire_seconds redis_pool_name;;
  mret (mkOTADevice device_type false c sub_topics sub_qos None).

Fixpoint subscribe_all (c : nat) (i : nat) (topics : list string) (qos : list Z) : wprog unit :=
  match topics with
  | [] => mret tt
  | topic :: rest =>
      q ← of_option OutOfRange (qos !! i);
      client_do c (subscribe topic q true);;
      subscribe_all c (S i) rest qos
  end.

Definition with_running (b : bool) (d : OTADevice) : OTADevice :=
  mkOTADevice (d_device_type d) b (d_client d) (d_sub_topics d) (d_sub_qos d) (d_notifier d).
Definition with_notifier (n : option nat) (d : OTADevice) : OTADevice :=
  mkOTADevice (d_device_type d) (d_is_running d) (d_client d) (d_sub_topics d) (d_sub_qos d) n.

Definition device_start (d : OTADevice) : wprog OTADevice :=
  client_do (d_client d) (connect true);;
  up ← client_do (d_client d) (gets m_isconnected);
  if negb up then mret d else
  subscribe_all (d_client d) 0 (d_sub_topics d) (d_sub_qos d);;
  mret (with_running true d).

Definition device_stop (d : OTADevice) : wprog OTADevice :=
  client_do (d_client d) (disconnect false (-1));;
  mret (with_running false d).

Definition notify_topic (device_type : Z) (name : string) : string :=
  "/ota/" ++ dec device_type ++ "/" ++ name ++ "/notify".

(** [reply->type == REDIS_REPLY_STRING && reply->str && reply->str[0] != 0] *)
Definition has_version (r : option reply) : bool :=
  match r with Some (REDIS_REPLY_STRING str) => negb (c_str str =? "") | _ => false end.

(** The result and the device after it.  The pool's name is missing in the
    call that deletes the key. *)
Definition device_ota_notify (d : OTADevice) (name version redis_pool_name : string) : wprog (Z * OTADevice) :=
  now ← gets w_now;
  let '(ok, msg) := get_notify_message now name version in
  if negb ok then mret (0%Z, d) else
  let topic := notify_topic (d_device_type d) name in
  let key := get_device_group_mudule_hash "notify" (d_device_type d) name in
  reply ← redis_do (Cmd redis_pool_name ["GET"; c_str key]);
  if bad reply then mret (0%Z, d) else
  (if has_version reply then
     (match d_notifier d with Some n => notifier_stop n | None => mret tt end);;
     redis_do (Cmd "DEL %s" [c_str key]);; mret tt
   else mret tt);;
  n ← match d_notifier d with
      | Some n => mret n
      | None =>
          n ← alloc;
          put_notifier n (mkOTANotifier true topic (Some (d_client d)) None new_OTAMessage 10000);;
          mret n
      end;
  reply3 ← redis_do (Cmd redis_pool_name ["SET"; c_str key; c_str version]);
  if bad reply3 then
    modify (fun w => set_notifiers (delete n (w_notifiers w)) w);;
    mret (0%Z, with_notifier None d)
  else
  set_message n msg;;
  notifier_start n;;
  mret (1%Z, with_notifier (Some n) d).

Definition device_ota_stop_notify (d : OTADevice) (name version redis_pool_name : string) : wprog Z :=
  (match d_notifier d with Some n => notifier_stop n | None => mret tt end);;
  let key := get_device_group_mudule_hash "notify" (d_device_type d) name in
  reply ← redis_do (Cmd redis_pool_name ["DEL"; c_str key]);
  mret (if bad reply then 0%Z else 1%Z).

(** * The manager *)

Definition with_devices (counts : Z) (ds : gmap Z OTADevice) (m : OTAMqttManager) : OTAMqttManager :=
  mkOTAMqttManager (g_running m) counts ds (g_redis_pool_name m) (g_redis_mq_pool_name m).
Definition set_running (b : bool) (m : OTAMqttManager) : OTAMqttManager :=
  mkOTAMqttManager b (g_device_counts m) (g_devices m) (g_redis_pool_name m) (g_redis_mq_pool_name m).
Definition mgr_do (f : OTAMqttManager -> OTAMqttManager) : wprog unit := modify (fun w => set_mgr (f (w_mgr w)) w).
Definition put_device (dt : Z) (d : OTADevice) : wprog unit :=
  mgr_do (fun m => with_devices (g_device_counts m) (<[dt := d]> (g_devices m)) m).

Record MqttDeviceConfig : Type := mkMqttDeviceConfig {
  cfg_device_type : Z;
  cfg_protocol : string;
  cfg_host : string;
  cfg_port : Z;
  cfg_sub_topics : list string;
  cfg_sub_qos : list Z;
  cfg_redis_keys : list string;
  cfg_expire_seconds : list Z
}.

Definition add_device (c : MqttDeviceConfig) : wprog bool :=
  m ← gets w_mgr;
  match g_devices m !! cfg_device_type c with
  | Some _ => mret false
  | None =>
      mgr_do (fun m => with_devices (wrap 64 (g_device_counts m + 1)) (g_devices m) m);;
      d ← new_OTADevice (cfg_device_type c) (cfg_port c) (cfg_protocol c) (cfg_host c) (cfg_sub_topics c)
            (cfg_sub_qos c) (cfg_redis_keys c) (cfg_expire_seconds c) (g_redis_pool_name m);
      put_device (cfg_device_type c) d;;
      mret true
  end.

Fixpoint add_all (cs : list MqttDeviceConfig) : wprog unit :=
  match cs with [] => mret tt | c :: cs' => add_device c;; add_all cs' end.

(** The constructor; [devices] is the configuration's value when there is one. *)
Definition new_OTAMqttManager (pool mq_pool : string) (devices : option (list MqttDeviceConfig)) : wprog unit :=
  mgr_do (fun _ => mkOTAMqttManager false 0 ∅ pool mq_pool);;
  match devices with Some cs => add_all cs | None => mret tt end.

(** [remove_device] is two critical sections: the test under the read lock,
    the removal under the write lock. Destroying the device destroys its
    notifier and the client. *)
Definition remove_check (dt : Z) : wprog bool :=
  m ← gets w_mgr; mret (match g_devices m !! dt with Some _ => true | None => false end).
Definition remove_commit (dt : Z) : wprog unit :=
  m ← gets w_mgr;
  (match g_devices m !! dt with
   | Some d =>
       modify (fun w => set_clients (delete (d_client d) (w_clients w)) w);;
       match d_notifier d with
       | Some n => modify (fun w => set_notifiers (delete n (w_notifiers w)) w)
       | None => mret tt
       end
   | None => mret tt
   end);;
  mgr_do (fun m => with_devices (wrap 64 (g_device_counts m - 1)) (delete dt (g_devices m)) m).
Definition remove_device (dt : Z) : wprog bool :=
  ok ← remove_check dt;
  if (ok : bool) then remove_commit dt;; mret true else mret false.

Definition check_device (dt : Z) (m : OTAMqttManager) : bool :=
  match g_devices m !! dt with Some _ => true | None => false end.

(** The loops over the devices; the table's order is not specified, here it
    is the order of [map_to_list]. *)
Fixpoint each_device (f : OTADevice -> wprog OTADevice) (l : list (Z * OTADevice)) : wprog unit :=
  match l with
  | [] => mret tt
  | (dt, d) :: l' => d' ← f d; put_device dt d';; each_device f l'
  end.

(** [start] behind the creation of the consumer thread; [stop] before the
    join. *)
Definition manager_start : wprog unit :=
  m ← gets w_mgr;
  each_device device_start (map_to_list (g_devices m));;
  mgr_do (set_running true).
Definition manager_stop : wprog unit :=
  mgr_do (set_running false);;
  m ← gets w_mgr;
  each_device device_stop (map_to_list (g_devices m)).

Definition ota_notify (dt : Z) (name version : string) : wprog Z :=
  m ← gets w_mgr;
  match g_devices m !! dt with
  | None => mret 0%Z
  | Some d =>
      '(z, d') ← device_ota_notify d name version (g_redis_pool_name m);
      put_device dt d';;
      mret z
  end.

Definition ota_stop_notify (dt : Z) (name version : string) : wprog Z :=
  m ← gets w_mgr;
  match g_devices m !! dt with
  | None => mret 0%Z
  | Some d => device_ota_stop_notify d name version (g_redis_pool_name m)
  end.

(** * The command dispatcher *)

(** [command_json[key]] of a const object: a missing key fails an assertion. *)
Definition at_uint16 (key : string) (j : json) : wprog Z :=
  if json_contains key j
  then match json_uint16 key j with Some v => mret v | None => throw "json" end
  else crash AssertFail.
Definition at_string (key : string) (j : json) : wprog string :=
  if json_contains key j
  then match json_string key j with Some v => mret v | None => throw "json" end
  else crash AssertFail.

Definition cmd_handle_notify (j : json) : wprog unit :=
  catching (dt ← at_uint16 "device_type" j; name ← at_string "name" j; version ← at_string "version" j;
            ota_notify dt name version;; mret tt).
Definition cmd_handle_stop_notify (j : json) : wprog unit :=
  catching (dt ← at_uint16 "device_type" j; name ← at_string "name" j; version ← at_string "version" j;
            ota_stop_notify dt name version;; mret tt).

(** [m_command_handlers.find] *)
Definition command_handler (command_type : string) : option (json -> wprog unit) :=
  if command_type =? "notify" then Some cmd_handle_notify
  else if command_type =? "stop_notify" then Some cmd_handle_stop_notify
  else None.

(** [cmd["command"]] adds a null to an object without that key, and a null
    does not convert to a string. *)
Definition dispatch (command_json : string) : wprog unit :=
  catching (
    cmd ← match json_parse command_json with Some j => mret j | None => throw "parse_error" end;
    command_type ← match json_string "command" cmd with Some s => mret s | None => throw "type_error" end;
    match command_handler command_type with
    | None => mret tt
    | Some h => h cmd
    end).

(** * The consumer of the message queue *)

Definition REDIS_MESSAGE_QUEUE_MAX_ERROR_COUNT : Z := 10.

Definition redis_message_queue_thread_command_dispatch (command : string) : wprog unit :=
  modify (fun w => set_scheduled (w_scheduled w ++ [command])%list w).

(** One round: the new error count. *)
Definition consume (error_cnt : Z) : wprog Z :=
  m ← gets w_mgr;
  reply ← redis_do (Cmd (g_redis_mq_pool_name m) ["BRPOP"; c_str get_message_queue_hash; "0"]);
  match reply with
  | Some (REDIS_REPLY_ARRAY [_; REDIS_REPLY_STRING str]) =>
      redis_message_queue_thread_command_dispatch (c_str str);; mret 0%Z
  | Some REDIS_REPLY_NIL => mret 0%Z
  | _ => mret (wrap 64 (error_cnt + 1))
  end.

Inductive consumer : Type :=
| Looping (error_cnt : Z)
| Exited.

(** One turn of the [while]. *)
Definition consumer_turn (error_cnt : Z) : wprog consumer :=
  m ← gets w_mgr;
  if negb (g_running m) then mret Exited else
  e ← consume error_cnt;
  mret (if (REDIS_MESSAGE_QUEUE_MAX_ERROR_COUNT <? e)%Z then Exited else Looping e).

(** The loop, for [fuel] turns of a thread nothing else interferes with. *)
Fixpoint redis_message_queue_thread_run (fuel : nat) (error_cnt : Z) : wprog consumer :=
  match fuel with
  | 0 => mret (Looping error_cnt)
  | S f =>
      c ← consumer_turn error_cnt;
      match c with Exited => mret Exited | Looping e => redis_message_queue_thread_run f e end
  end.

(** A worker of [m_command_ioMgr] takes some scheduled command and runs it. *)
Definition run_command (i : nat) : wprog unit :=
  l ← gets w_scheduled;
  match l !! i with
  | None => mret tt
  | Some c => modify (set_scheduled (delete i l));; dispatch c
  end.

(** The timer thread: which notifiers' [publish_once] is due. *)
Definition timer_tick : wprog (list nat) :=
  addr ← alloc;
  now ← gets w_now;
  cbs ← timers_do (listExpiredCb addr now);
  mret (flat_map (fun c => match c with Some (Plain n) => [n] | _ => [] end) cbs).
End ota_mqtt.
