(* ===== verification/OtaMqttProps.v ===== *)
(** What the MQTT side of the OTA service promises, alone and together with
    the HTTP side. *)

From stdpp Require Import base list gmap strings pretty.
From S2P Require Import Prelude MachineInt Http HttpProps Redis OtaHttp OtaHttpProps Timer TimerProps Mqtt OtaMqtt.
From Stdlib Require Import ZArith Lia String.
Local Open Scope string_scope.

(** * A Redis that answers *)

(** The commands the service uses. *)
Inductive used : list string -> Prop :=
| used_get k : used ["GET"; k]
| used_set k v : used ["SET"; k; v]
| used_setex k v n : used ["SET"; k; v; "EX"; n]
| used_del k : used ["DEL"; k]
| used_exists k : used ["EXISTS"; k]
| used_lpush k v : used ["LPUSH"; k; v]
| used_brpop k : used ["BRPOP"; k; "0"].

(** [up]: the pools have their connections and Redis answers, no pool is
    named like a command's format; it stays so. *)
Class Healthy (R : Type) `{!RedisServer R} (pools : list string) : Type := {
  up : R -> Prop;
  up_get : forall s pool, up s -> pool ∈ pools -> rds_get pool s = true;
  up_stray : forall s, up s -> rds_get "DEL %s" s = false;
  up_cmd : forall s pool args r s', up s -> pool ∈ pools -> used args -> rds_cmd pool args s = (r, s') ->
    good r = true /\ up s'
}.

#[export] Instance memory_healthy pools : Healthy memory pools.
Proof.
  refine {| up s := pools ⊆ mem_pools s /\ "DEL %s" ∉ mem_pools s |}.
  - intros s pool [H _] Hp. simpl. apply bool_decide_eq_true. by apply H.
  - intros s [_ H]. simpl. by apply bool_decide_eq_false.
  - intros s pool args r s' H _ U E. simpl in E. unfold memory_cmd in E.
    destruct U; simpl in E; repeat case_match; simplify_eq; simpl; done.
Defined.

Section healthy.
Context {R : Type} `{!RedisServer R, !RedisLaws R} {pools : list string} `{!Healthy R pools}.

Lemma Cmd_up pool args s : pool ∈ pools -> up s -> used args ->
  exists r s', Cmd pool args s = (Ret r, s') /\ rds_cmd pool args s = (r, s') /\ good r = true /\ up s'.
Proof.
  intros Hp H U. unfold Cmd. rewrite up_get by done. destruct (rds_cmd pool args s) as [r s'] eqn:E.
  destruct (up_cmd s pool args r s' H Hp U E). by exists r, s'.
Qed.

Lemma safe_set_up pool key value e s : pool ∈ pools -> up s ->
  exists s', redis_safe_set_key_value pool key value e s = (Ret 1%Z, s') /\ up s' /\
    kv s' !! c_str key = Some (c_str value).
Proof.
  intros Hp H. unfold redis_safe_set_key_value, redis_key_exists.
  destruct (Cmd_up pool ["EXISTS"; c_str key] s Hp H) as (r & s1 & E & _ & _ & H1); [constructor|].
  rewrite bind_assoc. run E. run_pure.
  assert (forall s0, up s0 -> exists s', redis_set_key_value pool key value e s0 = (Ret 1%Z, s') /\ up s' /\
      kv s' !! c_str key = Some (c_str value)) as Hset.
  { intros s0 H0. unfold redis_set_key_value. destruct (0 <? e)%Z.
    - destruct (Cmd_up pool ["SET"; c_str key; c_str value; "EX"; dec e] s0 Hp H0) as (r0 & s2 & E0 & Er & Hg & H2); [constructor|].
      run E0. exists s2. unfold bad. rewrite Hg. split_and!; [done|done|].
      destruct (law_setex _ _ _ _ _ _ _ Er Hg) as [-> _]. apply lookup_insert_eq.
    - destruct (Cmd_up pool ["SET"; c_str key; c_str value] s0 Hp H0) as (r0 & s2 & E0 & Er & Hg & H2); [constructor|].
      run E0. exists s2. unfold bad. rewrite Hg. split_and!; [done|done|].
      destruct (law_set _ _ _ _ _ _ Er Hg) as [-> _]. apply lookup_insert_eq. }
  destruct (_ =? 1)%Z; [|by apply Hset]. unfold redis_reset_value, redis_del_key.
  destruct (Cmd_up pool ["DEL"; c_str key] s1 Hp H1) as (r2 & s2 & E2 & _ & _ & H2); [constructor|].
  rewrite bind_assoc. run E2. run_pure. by apply Hset.
Qed.
End healthy.

(** * The heaps of timers and notifiers *)

Record heaps_ok (T : TimerManager nat) (N : gmap nat OTANotifier) (next : nat) : Prop := {
  hp_timers : timers_wf T;
  hp_timer_addr : forall a, is_Some (m_heap T !! a) -> a < next;
  hp_notifier_addr : forall a, is_Some (N !! a) -> a < next;
  hp_manager : forall a n, N !! a = Some n -> n_timer_mgr n = true;
  hp_timer : forall a n t, N !! a = Some n -> n_timer n = Some t -> is_Some (m_heap T !! t)
}.

(** The timer at [x] is in the set and will call [cb]. *)
Definition armed (T : TimerManager nat) (x : nat) (cb : callback nat) : Prop :=
  x ∈ m_timers T /\ exists tm, m_heap T !! x = Some tm /\ m_cb tm = Some cb.

Definition n_with_timer (t : option nat) (n : OTANotifier) : OTANotifier :=
  mkOTANotifier (n_timer_mgr n) (n_topic n) (n_client n) t (n_msg n) (n_interval_ms n).
Definition n_with_msg (m : OTAMessage) (n : OTANotifier) : OTANotifier :=
  mkOTANotifier (n_timer_mgr n) (n_topic n) (n_client n) (n_timer n) m (n_interval_ms n).

Section notifiers.
Context {R P : Type} `{!RedisServer R} {HJson : Json} `{!Paho P}.
Implicit Types (w : world R P).

Lemma fresh_timer T N next : heaps_ok T N next -> m_heap T !! next = None.
Proof.
  intros H. destruct (m_heap T !! next) eqn:E; [|done].
  pose proof (hp_timer_addr T N next H next ltac:(by rewrite E)). lia.
Qed.

Lemma fresh_notifier T N next : heaps_ok T N next -> N !! next = None.
Proof.
  intros H. destruct (N !! next) eqn:E; [|done].
  pose proof (hp_notifier_addr T N next H next ltac:(by rewrite E)). lia.
Qed.

(** Changes that keep the heaps in order. *)
Lemma heaps_put T N next a n n' : heaps_ok T N next -> N !! a = Some n -> n_timer_mgr n' = n_timer_mgr n ->
  (n_timer n' = n_timer n \/ n_timer n' = None) -> heaps_ok T (<[a := n']> N) next.
Proof.
  intros [H1 H2 H3 H4 H5] Ha Hm Ht. split; [done|done| | |].
  - intros b Hb. destruct (decide (b = a)) as [->|]; [apply H3; by rewrite Ha|].
    rewrite lookup_insert_ne in Hb by done. auto.
  - intros b n0 [[<- <-]|[_ Hb]]%lookup_insert_Some; [rewrite Hm; eauto|eauto].
  - intros b n0 t [[<- <-]|[_ Hb]]%lookup_insert_Some Et; [|eauto].
    destruct Ht as [Ht|Ht]; rewrite Ht in Et; [eauto|done].
Qed.

Lemma heaps_new T N next n : heaps_ok T N next -> n_timer_mgr n = true -> n_timer n = None ->
  heaps_ok T (<[next := n]> N) (S next).
Proof.
  intros [H1 H2 H3 H4 H5] Hm Ht. split; [done| | | |].
  - intros a Ha. specialize (H2 a Ha). lia.
  - intros a Ha. destruct (decide (a = next)) as [->|]; [lia|].
    rewrite lookup_insert_ne in Ha by done. specialize (H3 a Ha). lia.
  - intros b n0 [[<- <-]|[_ Hb]]%lookup_insert_Some; eauto.
  - intros b n0 t [[<- <-]|[_ Hb]]%lookup_insert_Some Et; [congruence|eauto].
Qed.

Lemma heaps_delete T N next a : heaps_ok T N next -> heaps_ok T (delete a N) next.
Proof.
  intros [H1 H2 H3 H4 H5]. split; [done|done| | |].
  - intros b [n [_ Hb]%lookup_delete_Some]. apply H3. by rewrite Hb.
  - intros b n [_ Hb]%lookup_delete_Some. eauto.
  - intros b n t [_ Hb]%lookup_delete_Some. eauto.
Qed.

Lemma heaps_more T N next next' : next <= next' -> heaps_ok T N next -> heaps_ok T N next'.
Proof.
  intros Hle [H1 H2 H3 H4 H5]. split; [done| | |done|done]; intros a Ha.
  - specialize (H2 a Ha). lia.
  - specialize (H3 a Ha). lia.
Qed.

Lemma notifier_run w a n : w_notifiers w !! a = Some n -> notifier a w = (Ret n, w).
Proof. intros H. unfold notifier. by rewrite H. Qed.

Lemma set_message_run w a n msg : w_notifiers w !! a = Some n ->
  set_message a msg w = (Ret tt, set_notifiers (<[a := n_with_msg msg n]> (w_notifiers w)) w).
Proof. intros H. unfold set_message. by run (notifier_run w a n H). Qed.

Lemma put_timer_run w a n t : w_notifiers w !! a = Some n ->
  put_timer a t w = (Ret tt, set_notifiers (<[a := n_with_timer t n]> (w_notifiers w)) w).
Proof. intros H. unfold put_timer. by run (notifier_run w a n H). Qed.

(** [start] arms a new recurring timer for this notifier. *)
Lemma notifier_start_run w a n : heaps_ok (w_timers w) (w_notifiers w) (w_alloc w) ->
  w_notifiers w !! a = Some n ->
  let t := w_alloc w in
  exists T, notifier_start a w =
      (Ret tt, set_notifiers (<[a := n_with_timer (Some t) n]> (w_notifiers w)) (set_timers T (set_alloc (S t) w))) /\
    heaps_ok T (<[a := n_with_timer (Some t) n]> (w_notifiers w)) (S t) /\
    m_heap T = <[t := new_Timer (w_now w) (n_interval_ms n) (Some (Plain a)) true]> (m_heap (w_timers w)) /\
    (forall x cb, armed T x cb <-> armed (w_timers w) x cb \/ x = t /\ cb = Plain a).
Proof.
  intros H Ha t. pose proof (fresh_timer _ _ _ H) as Hf. fold t in Hf.
  destruct (addTimer_spec (w_timers w) t (w_now w) (n_interval_ms n) (Some (Plain a)) true (hp_timers _ _ _ H) Hf)
    as (l1 & l2 & El & ER & Wf). unfold post in Wf. rewrite ER in Wf. simpl in Wf.
  set (T := mkTimerManager _ _ _ _ _) in ER, Wf. exists T. unfold notifier_start.
  run (notifier_run w a n Ha). rewrite (hp_manager _ _ _ H a n Ha). change (negb true) with false. cbv match.
  unfold alloc. erewrite bind_ret by reflexivity. cbv beta. run_pure. cbn [w_now set_alloc]. fold t.
  erewrite bind_ret; [|unfold timers_do; cbn [w_timers set_alloc]; by rewrite ER]. cbv beta.
  rewrite (put_timer_run _ a n) by done. split_and!; [done| |done|].
  - destruct H as [H1 H2 H3 H4 H5]. split; [done| | | |].
    + intros b Hb. unfold T in Hb. simpl in Hb. destruct (decide (b = t)) as [->|]; [lia|].
      rewrite lookup_insert_ne in Hb by done. specialize (H2 b Hb). lia.
    + intros b Hb. destruct (decide (b = a)) as [->|].
      * specialize (H3 a ltac:(by rewrite Ha)). lia.
      * rewrite lookup_insert_ne in Hb by done. specialize (H3 b Hb). lia.
    + intros b n0 [[<- <-]|[_ Hb]]%lookup_insert_Some; [exact (H4 a n Ha)|eauto].
    + intros b n0 t0 [[<- <-]|[_ Hb]]%lookup_insert_Some Et; simpl in *.
      * injection Et as <-. by rewrite lookup_insert_eq.
      * destruct (decide (t0 = t)) as [->|]; [by rewrite lookup_insert_eq|]. rewrite lookup_insert_ne by done. eauto.
  - intros x cb. unfold armed, T. simpl. rewrite El, !elem_of_app, elem_of_cons.
    destruct (decide (x = t)) as [->|Hx].
    + rewrite lookup_insert_eq. split; [intros [_ (tm & [= <-] & [= <-])]; by right|].
      intros [[_ (tm & Htm & _)]|[_ ->]]; [congruence|]. split; [auto|]. by eexists.
    + rewrite lookup_insert_ne by done. naive_solver.
Qed.

(** [stop] disarms the notifier's timer and no other. *)
Lemma cancel_armed T t tm : timers_wf T -> m_heap T !! t = Some tm ->
  exists T' b, Timer_cancel t T = (Ret b, T') /\ timers_wf T' /\
    (forall x, is_Some (m_heap T' !! x) <-> is_Some (m_heap T !! x)) /\
    (forall x cb, armed T' x cb <-> armed T x cb /\ x <> t).
Proof.
  intros Wf Ht. destruct (cancel_spec T t tm Wf Ht) as [ER Wf']. unfold post in Wf'. rewrite ER in Wf'.
  unfold armed. destruct (m_cb tm) as [cb|] eqn:Ecb; eexists _, _; (split; [exact ER|]); simpl in *.
  - split_and!; [done| |].
    + intros x. destruct (decide (x = t)) as [->|]; [rewrite lookup_insert_eq, Ht; by split|].
      by rewrite lookup_insert_ne.
    + intros x c. rewrite list_elem_of_filter. destruct (decide (x = t)) as [->|Hx]; [naive_solver|].
      rewrite lookup_insert_ne by done. naive_solver.
  - split_and!; [done|done|]. intros x c. split; [|naive_solver]. intros [Hx (tm' & Htm & Hc)].
    split; [eauto|]. intros ->. congruence.
Qed.

Lemma notifier_stop_run w a n : heaps_ok (w_timers w) (w_notifiers w) (w_alloc w) ->
  w_notifiers w !! a = Some n ->
  exists T, notifier_stop a w =
      (Ret tt, set_notifiers (<[a := n_with_timer None n]> (w_notifiers w)) (set_timers T w)) /\
    heaps_ok T (<[a := n_with_timer None n]> (w_notifiers w)) (w_alloc w) /\
    (forall x cb, armed T x cb <-> armed (w_timers w) x cb /\ n_timer n <> Some x).
Proof.
  intros H Ha. unfold notifier_stop. destruct (n_timer n) as [t|] eqn:Et.
  - destruct (hp_timer _ _ _ H a n t Ha Et) as [tm Htm].
    destruct (cancel_armed (w_timers w) t tm (hp_timers _ _ _ H) Htm) as (T & b & Ec & HW & Hd & Harm).
    exists T. run (notifier_run w a n Ha). rewrite Et.
    erewrite bind_ret; [|unfold timers_do; by rewrite Ec]. cbv beta.
    rewrite (put_timer_run _ a n) by done. split_and!; [done| |].
    + apply (heaps_put T _ _ a n); [|done|done|by right]. destruct H as [H1 H2 H3 H4 H5].
      split; [done| |done|done|]; [|intros x n0 t0 Hx Hn; apply Hd; eauto]. intros x Hx. by apply H2, Hd.
    + intros x cb. rewrite Harm. naive_solver.
  - exists (w_timers w). run (notifier_run w a n Ha). rewrite Et.
    assert (n_with_timer None n = n) as -> by (destruct n; simpl in *; by subst). rewrite insert_id by done.
    split_and!; [by destruct w|done|naive_solver].
Qed.
End notifiers.

(** * Notifying a device *)

(** What these operations leave alone. *)
Record rest_kept {R P} (w w' : world R P) : Prop := {
  rk_cbmgr : w_cbmgr w' = w_cbmgr w;
  rk_clients : w_clients w' = w_clients w;
  rk_mgr : w_mgr w' = w_mgr w;
  rk_scheduled : w_scheduled w' = w_scheduled w;
  rk_now : w_now w' = w_now w;
  rk_alloc : w_alloc w <= w_alloc w'
}.

Section notify.
Context {R P : Type} `{!RedisServer R, !RedisLaws R} {HJson : Json} `{!Paho P}.
Variable time_string : Z -> string.
Implicit Types (w : world R P) (d : OTADevice).

Abbreviation wok w := (heaps_ok (w_timers w) (w_notifiers w) (w_alloc w)).

Lemma redis_do_run {A} (p : prog R A) w a s : p (w_redis w) = (Ret a, s) -> redis_do p w = (Ret a, set_redis s w).
Proof. intros E. unfold redis_do. by rewrite E. Qed.

Definition notify_key d (name : string) : string := c_str (get_device_group_mudule_hash "notify" (d_device_type d) name).

(** A version is on record for the module. *)
Definition published w d name : Prop :=
  exists v, kv (w_redis w) !! notify_key d name = Some v /\ c_str v <> "".

Definition old_timer w d : option nat := d_notifier d ≫= fun n => w_notifiers w !! n ≫= n_timer.

(** Before the new version is stored: the running notification of a published
    version is stopped. *)
Definition notify_clear d (name : string) (reply : option reply) : prog (world R P) unit :=
  if has_version reply then
    (match d_notifier d with Some n => notifier_stop n | None => mret tt end);;
    redis_do (Cmd "DEL %s" [notify_key d name]);; mret tt
  else mret tt.

(** The tactic that closes the frame. *)
Ltac kept := split; simpl; (done || lia).

Lemma stop_if_any d w : wok w -> (forall n, d_notifier d = Some n -> is_Some (w_notifiers w !! n)) ->
  exists w0, match d_notifier d with Some n => notifier_stop n | None => mret tt end w = (Ret tt, w0) /\
    wok w0 /\ rest_kept w w0 /\ w_redis w0 = w_redis w /\ w_alloc w0 = w_alloc w /\
    (forall n, d_notifier d <> Some n -> w_notifiers w0 !! n = w_notifiers w !! n) /\
    (forall n, is_Some (w_notifiers w0 !! n) <-> is_Some (w_notifiers w !! n)) /\
    (forall x cb, armed (w_timers w0) x cb <-> armed (w_timers w) x cb /\ old_timer w d <> Some x).
Proof.
  intros H Hd. unfold old_timer. destruct (d_notifier d) as [n|].
  - destruct (Hd n eq_refl) as [nf Hnf]. destruct (notifier_stop_run w n nf H Hnf) as (T & E & H' & Harm).
    eexists. split; [exact E|]. simpl. rewrite Hnf. simpl. split_and!; try done; try kept.
    + intros m Hm. rewrite lookup_insert_ne; [done|congruence].
    + intros m. destruct (decide (m = n)) as [->|]; [rewrite lookup_insert_eq, Hnf; by split|].
      by rewrite lookup_insert_ne.
  - exists w. split_and!; try done; try kept; naive_solver.
Qed.

Lemma notify_clear_run d name reply w : wok w ->
  (forall n, d_notifier d = Some n -> is_Some (w_notifiers w !! n)) ->
  exists w1, notify_clear d name reply w = (Ret tt, w1) /\ wok w1 /\ rest_kept w w1 /\ w_alloc w1 = w_alloc w /\
    (forall n, d_notifier d <> Some n -> w_notifiers w1 !! n = w_notifiers w !! n) /\
    (forall n, is_Some (w_notifiers w1 !! n) <-> is_Some (w_notifiers w !! n)) /\
    (forall x cb, armed (w_timers w1) x cb <->
       armed (w_timers w) x cb /\ (has_version reply = true -> old_timer w d <> Some x)) /\
    (rds_get "DEL %s" (w_redis w) = false -> w_redis w1 = w_redis w).
Proof.
  intros H Hd. unfold notify_clear. destruct (has_version reply).
  2: { exists w. split_and!; try done; try kept; naive_solver. }
  destruct (stop_if_any d w H Hd) as (w0 & E0 & H0 & K0 & Er & Ea & Hn & Hdom & Harm).
  run E0. destruct (Cmd_total "DEL %s" [notify_key d name] (w_redis w0)) as (r & s & Ec).
  run (redis_do_run _ w0 r s Ec). exists (set_redis s w0). destruct K0 as [K1 K2 K3 K4 K5 K6].
  split; [done|]. split; [done|]. split; [by split|]. do 3 (split; [done|]). split.
  - intros x cb. simpl. rewrite Harm. split; intros [H1 H2]; (split; [done|]); auto.
  - intros Hs. rewrite <- Er in Hs. unfold Cmd in Ec. rewrite Hs in Ec. by injection Ec as _ <-.
Qed.

(** The rest: store the version, then start the notification. *)
Definition notify_publish d (n : nat) (name version pool : string) (msg : OTAMessage) : prog (world R P) (Z * OTADevice) :=
  reply3 ← redis_do (Cmd pool ["SET"; notify_key d name; c_str version]);
  if bad reply3 then
    modify (fun w => set_notifiers (delete n (w_notifiers w)) w);;
    mret (0%Z, with_notifier None d)
  else
  set_message n msg;;
  notifier_start n;;
  mret (1%Z, with_notifier (Some n) d).

(** What a successful notification leaves: the version on record, and a timer
    that publishes the message every interval from now on. *)
Definition notifying w w' d (n : nat) (name version : string) (msg : OTAMessage) : Prop :=
  kv (w_redis w') !! notify_key d name = Some (c_str version) /\
  exists nf t, w_notifiers w' !! n = Some nf /\ n_msg nf = msg /\ n_timer nf = Some t /\
    m_heap (w_timers w') !! t = Some (new_Timer (w_now w) (n_interval_ms nf) (Some (Plain n)) true) /\
    (forall x cb, armed (w_timers w') x cb <-> armed (w_timers w) x cb \/ x = t /\ cb = Plain n).

Lemma notify_publish_run d n nf name version pool msg w : wok w -> w_notifiers w !! n = Some nf ->
  exists z d' w', notify_publish d n name version pool msg w = (Ret (z, d'), w') /\ wok w' /\ rest_kept w w' /\
    (forall m, m <> n -> w_notifiers w' !! m = w_notifiers w !! m) /\
    (z = 0%Z /\ d' = with_notifier None d \/
     z = 1%Z /\ d' = with_notifier (Some n) d /\ notifying w w' d n name version msg /\
       exists nf', w_notifiers w' !! n = Some nf' /\ n_interval_ms nf' = n_interval_ms nf /\ n_topic nf' = n_topic nf) /\
    (forall pools (H : Healthy R pools), pool ∈ pools -> up (w_redis w) -> z = 1%Z /\ up (w_redis w')).
Proof.
  intros H Hn. unfold notify_publish.
  destruct (Cmd_total pool ["SET"; notify_key d name; c_str version] (w_redis w)) as (r & s & Ec).
  run (redis_do_run _ w r s Ec). unfold bad. destruct (good r) eqn:Hg; cbv beta match delta [negb].
  - set (w1 := set_redis s w). run (set_message_run w1 n nf msg Hn).
    set (N1 := <[n := n_with_msg msg nf]> (w_notifiers w1)).
    destruct (notifier_start_run (set_notifiers N1 w1) n (n_with_msg msg nf)) as (T & E & HT & Hh & Harm).
    { apply (heaps_put _ _ _ n nf); [done|done|done|by left]. }
    { apply lookup_insert_eq. }
    run E. eexists _, _, _. split; [reflexivity|]. split; [done|]. split; [kept|]. split.
    { intros m Hm. simpl. unfold N1. by rewrite !lookup_insert_ne by done. }
    split.
    + right. split; [done|]. split; [done|]. split.
      * split.
        { simpl. apply Cmd_cases in Ec as [[-> _]|Ec]; [done|]. destruct (law_set _ _ _ _ _ _ Ec Hg) as [-> _].
          apply lookup_insert_eq. }
        eexists _, _. split; [apply lookup_insert_eq|]. split; [done|]. split; [done|]. split; [|exact Harm].
        simpl. rewrite Hh. apply lookup_insert_eq.
      * eexists. split; [apply lookup_insert_eq|done].
    + intros pools Hl Hin Hup. split; [done|]. simpl.
      destruct (Cmd_up pool _ _ Hin Hup (used_set (notify_key d name) (c_str version))) as (r' & s' & Ec' & _ & _ & Hu).
      rewrite Ec in Ec'. by injection Ec' as _ ->.
  - run_pure. eexists _, _, _. split; [reflexivity|]. split; [by apply heaps_delete|]. split; [kept|]. split.
    { intros m Hm. simpl. by rewrite lookup_delete_ne. }
    split; [by left|]. intros pools Hl Hin Hup.
    destruct (Cmd_up pool _ _ Hin Hup (used_set (notify_key d name) (c_str version))) as (r' & s' & Ec' & _ & Hg' & _).
    rewrite Ec in Ec'. injection Ec' as -> _. congruence.
Qed.

(** The device's notifier, made when there is none. *)
Definition notify_create d (name : string) : prog (world R P) nat :=
  match d_notifier d with
  | Some n => mret n
  | None =>
      n ← alloc;
      put_notifier n (mkOTANotifier true (notify_topic (d_device_type d) name) (Some (d_client d)) None
                        new_OTAMessage 10000);;
      mret n
  end.

Lemma notify_create_run d name w : wok w ->
  (forall n, d_notifier d = Some n -> is_Some (w_notifiers w !! n)) ->
  exists n nf w1, notify_create d name w = (Ret n, w1) /\ wok w1 /\ rest_kept w w1 /\
    w_notifiers w1 !! n = Some nf /\ w_redis w1 = w_redis w /\ w_timers w1 = w_timers w /\
    (d_notifier d = Some n /\ w1 = w \/
     d_notifier d = None /\ n = w_alloc w /\ n_topic nf = notify_topic (d_device_type d) name /\ n_interval_ms nf = 10000%Z) /\
    (forall m, m <> n -> w_notifiers w1 !! m = w_notifiers w !! m).
Proof.
  intros H Hd. unfold notify_create. destruct (d_notifier d) as [n|].
  - destruct (Hd n eq_refl) as [nf Hnf]. exists n, nf, w. do 2 (split; [done|]). split; [kept|].
    do 3 (split; [done|]). split; [by left|done].
  - eexists _, _, _. split; [reflexivity|]. split; [by apply heaps_new|]. split; [kept|].
    split; [apply lookup_insert_eq|]. do 2 (split; [done|]). split; [by right|].
    intros m Hm. simpl. by rewrite lookup_insert_ne.
Qed.

Lemma device_ota_notify_unfold d name version pool w : device_ota_notify time_string d name version pool w =
  (reply ← redis_do (Cmd pool ["GET"; notify_key d name]);
   if bad reply then mret (0%Z, d) else
   notify_clear d name reply;;
   n ← notify_create d name;
   notify_publish d n name version pool (snd (get_notify_message time_string (w_now w) name version))) w.
Proof. reflexivity. Qed.

(** What a successful [ota_notify] leaves. *)
Definition announced w w' d d' (name version : string) : Prop :=
  kv (w_redis w') !! notify_key d name = Some (c_str version) /\
  exists n nf t, d_notifier d' = Some n /\ w_notifiers w' !! n = Some nf /\
    n_msg nf = snd (get_notify_message time_string (w_now w) name version) /\ n_timer nf = Some t /\
    m_heap (w_timers w') !! t = Some (new_Timer (w_now w) (n_interval_ms nf) (Some (Plain n)) true) /\
    (d_notifier d = None -> n_topic nf = notify_topic (d_device_type d) name /\ n_interval_ms nf = 10000%Z) /\
    (forall x cb, armed (w_timers w') x cb <->
       x = t /\ cb = Plain n \/ armed (w_timers w) x cb /\ (published w d name -> old_timer w d <> Some x)).

Lemma rest_kept_trans w1 w2 w3 : rest_kept w1 w2 -> rest_kept w2 w3 -> rest_kept w1 w3.
Proof. intros [] []. split; [congruence..|lia]. Qed.

Lemma with_notifier_id d : with_notifier (d_notifier d) d = d.
Proof. by destruct d. Qed.

Lemma device_ota_notify_run d name version pool w : wok w ->
  (forall n, d_notifier d = Some n -> is_Some (w_notifiers w !! n)) ->
  exists z d' w', device_ota_notify time_string d name version pool w = (Ret (z, d'), w') /\
    wok w' /\ rest_kept w w' /\ d' = with_notifier (d_notifier d') d /\
    (d_notifier d' = None \/ d_notifier d' = d_notifier d \/
     d_notifier d = None /\ d_notifier d' = Some (w_alloc w)) /\
    (forall n, d_notifier d' = Some n -> is_Some (w_notifiers w' !! n)) /\
    (forall m, d_notifier d <> Some m -> m < w_alloc w -> w_notifiers w' !! m = w_notifiers w !! m) /\
    (z = 0%Z \/ z = 1%Z /\ announced w w' d d' name version) /\
    (forall pools (H : Healthy R pools), pool ∈ pools -> up (w_redis w) -> z = 1%Z /\ up (w_redis w')).
Proof.
  intros H Hd. rewrite device_ota_notify_unfold. set (msg := snd _).
  destruct (Cmd_total pool ["GET"; notify_key d name] (w_redis w)) as (r & s & Ec).
  run (redis_do_run _ w r s Ec). unfold bad. destruct (good r) eqn:Hg; cbv beta match delta [negb].
  2: { eexists _, _, _. split; [reflexivity|]. split; [done|]. split; [kept|].
       split; [by rewrite with_notifier_id|]. split; [auto|]. split; [done|]. split; [done|]. split; [by left|].
       intros pools Hl Hin Hup. destruct (Cmd_up pool _ _ Hin Hup (used_get (notify_key d name))) as (r' & s' & Ec' & _ & Hg' & _).
       rewrite Ec in Ec'. injection Ec' as -> _. congruence. }
  assert (has_version r = true <-> published w d name) as Hpub.
  { apply Cmd_cases in Ec as [[-> _]|Ec]; [done|]. destruct (law_get _ _ _ _ _ Ec Hg) as (_ & _ & ->).
    unfold published, has_version. destruct (kv _ !! _) as [v|]; [|split; [done|intros (v & ? & _); done]].
    rewrite negb_true_iff, String.eqb_neq. naive_solver. }
  set (w0 := set_redis s w).
  destruct (notify_clear_run d name r w0) as (w1 & E1 & H1 & K1 & Ea1 & Hn1 & Hdom1 & Harm1 & Hr1); [done|done|].
  run E1. destruct (notify_create_run d name w1) as (n & nf & w2 & E2 & H2 & K2 & Hnf & Hr2 & Ht2 & Hwho & Hn2);
    [done|intros m Hm; apply Hdom1; by apply Hd|].
  run E2. destruct (notify_publish_run d n nf name version pool msg w2 H2 Hnf)
    as (z & d' & w' & E3 & H3 & K3 & Hn3 & Hz & Hup3).
  exists z, d', w'. split; [exact E3|]. split; [done|].
  assert (rest_kept w w') as K.
  { eapply rest_kept_trans; [|exact K3]. eapply rest_kept_trans; [|exact K2].
    by eapply (rest_kept_trans w w0 w1); [kept|]. }
  split; [exact K|].
  assert (forall m, d_notifier d <> Some m -> m < w_alloc w -> w_notifiers w' !! m = w_notifiers w !! m) as Hoth.
  { intros m Hm Hlt. assert (m <> n) as Hne.
    { destruct Hwho as [[Hw _]|(_ & -> & _)]; [congruence|]. rewrite Ea1. simpl. lia. }
    rewrite Hn3, Hn2 by done. by apply (Hn1 m). }
  assert (forall pools (Hl : Healthy R pools), pool ∈ pools -> up (w_redis w) -> z = 1%Z /\ up (w_redis w')) as Hhealth.
  { intros pools Hl Hin Hup. apply (Hup3 pools Hl Hin). rewrite Hr2.
    destruct (Cmd_up pool _ _ Hin Hup (used_get (notify_key d name))) as (r' & s' & Ec' & _ & _ & Hu).
    rewrite Ec in Ec'. injection Ec' as _ <-. rewrite Hr1; [done|]. by apply up_stray. }
  destruct Hz as [[-> ->]|(-> & -> & [Hkv (nf' & t & Hnf' & Hmsg & Ht & Hheap & Harm)] & (nf'' & Hnf'' & Hi & Htop))].
  - split; [done|]. split; [by left|]. split; [done|]. split; [done|]. split; [by left|done].
  - split; [done|]. split.
    { destruct Hwho as [[Hw _]|(Hw & -> & _)]; simpl; rewrite Hw; [auto|]. right. right. by rewrite Ea1. }
    split; [intros m [= <-]; by rewrite Hnf'|]. split; [done|]. split; [|done]. right. split; [done|].
    split; [done|]. rewrite Hnf' in Hnf''. injection Hnf'' as <-.
    assert (w_now w2 = w_now w) as Hnow.
    { rewrite (rk_now _ _ K2), (rk_now _ _ K1). done. }
    exists n, nf', t. split; [done|]. split; [done|]. split; [done|]. split; [done|].
    rewrite Hnow in Hheap. split; [done|]. split.
    { intros Hnone. destruct Hwho as [[Hw _]|(_ & _ & Htp & Hiv)]; [congruence|]. split; congruence. }
    intros x cb. rewrite Harm, Ht2, Harm1, Hpub. simpl. unfold old_timer. simpl. naive_solver.
Qed.

Lemma device_ota_stop_notify_run d name version pool w : wok w ->
  (forall n, d_notifier d = Some n -> is_Some (w_notifiers w !! n)) ->
  exists z w', device_ota_stop_notify d name version pool w = (Ret z, w') /\ wok w' /\ rest_kept w w' /\
    (forall n, d_notifier d <> Some n -> w_notifiers w' !! n = w_notifiers w !! n) /\
    (forall n, is_Some (w_notifiers w' !! n) <-> is_Some (w_notifiers w !! n)) /\
    (forall x cb, armed (w_timers w') x cb <-> armed (w_timers w) x cb /\ old_timer w d <> Some x) /\
    (z = 0%Z \/ z = 1%Z /\ kv (w_redis w') !! notify_key d name = None) /\
    (forall pools (H : Healthy R pools), pool ∈ pools -> up (w_redis w) -> z = 1%Z).
Proof.
  intros H Hd. unfold device_ota_stop_notify. fold (notify_key d name).
  destruct (stop_if_any d w H Hd) as (w0 & E0 & H0 & K0 & Er & _ & Hn & Hdom & Harm).
  run E0. destruct (Cmd_total pool ["DEL"; notify_key d name] (w_redis w0)) as (r & s & Ec).
  run (redis_do_run _ w0 r s Ec). eexists _, _. split; [reflexivity|]. split; [done|].
  split; [destruct K0 as [K1 K2 K3 K4 K5 K6]; by split|]. do 3 (split; [done|]). unfold bad.
  destruct (good r) eqn:Hg; simpl; (split; [|intros pools Hl Hin Hup; try done]).
  - right. split; [done|]. apply Cmd_cases in Ec as [[-> _]|Ec]; [done|].
    destruct (law_del _ _ _ _ _ Ec Hg) as [-> _]. apply lookup_delete_eq.
  - by left.
  - rewrite <- Er in Hup. destruct (Cmd_up pool _ _ Hin Hup (used_del (notify_key d name))) as (r' & s' & Ec' & _ & Hg' & _).
    rewrite Ec in Ec'. injection Ec' as -> _. congruence.
Qed.
End notify.

(** * The manager *)

Definition config_ok (c : MqttDeviceConfig) : Prop :=
  in_uint 16 (cfg_device_type c) /\
  List.length (cfg_sub_topics c) <= List.length (cfg_redis_keys c) /\
  List.length (cfg_sub_topics c) <= List.length (cfg_expire_seconds c).

(** Between two operations: the heaps are in order, every device's notifier
    is alive and no other device's, and the count is the number of devices. *)
Record manager_ok {R P} (w : world R P) : Prop := {
  mg_heaps : heaps_ok (w_timers w) (w_notifiers w) (w_alloc w);
  mg_owned : forall dt d n, g_devices (w_mgr w) !! dt = Some d -> d_notifier d = Some n ->
    is_Some (w_notifiers w !! n);
  mg_unique : forall dt dt' d d' n, g_devices (w_mgr w) !! dt = Some d -> g_devices (w_mgr w) !! dt' = Some d' ->
    d_notifier d = Some n -> d_notifier d' = Some n -> dt = dt';
  mg_count : g_device_counts (w_mgr w) = Z.of_nat (size (g_devices (w_mgr w)));
  mg_typed : forall dt d, g_devices (w_mgr w) !! dt = Some d -> d_device_type d = dt;
  mg_types : forall dt, is_Some (g_devices (w_mgr w) !! dt) -> in_uint 16 dt
}.

Lemma map_size_16 {A} (m : gmap Z A) : (forall k, is_Some (m !! k) -> in_uint 16 k) ->
  (Z.of_nat (size m) <= 2 ^ 16)%Z.
Proof.
  intros H. assert (dom m ⊆ list_to_set (C := gset Z) (seqZ 0 (2 ^ 16))) as Hsub.
  { intros k Hk%elem_of_dom%H. rewrite elem_of_list_to_set, elem_of_seqZ. unfold in_uint in Hk. lia. }
  apply subseteq_size in Hsub. rewrite size_dom in Hsub.
  rewrite size_list_to_set, length_seqZ in Hsub by apply NoDup_seqZ. lia.
Qed.

Inductive mgr_op : Type :=
| MAdd (c : MqttDeviceConfig)
| MRemove (dt : Z)
| MNotify (dt : Z) (name version : string)
| MStopNotify (dt : Z) (name version : string)
| MConsume (error_cnt : Z)
| MTick
| MClock (now : Z).

Section manager.
Context {R P : Type} `{!RedisServer R, !RedisLaws R} {HJson : Json} `{!Paho P}.
Variable time_string : Z -> string.
Variable junk : bool.
Implicit Types (w : world R P) (o : mgr_op).

Definition set_now (now : Z) w : world R P :=
  mkWorld (w_redis w) (w_cbmgr w) (w_clients w) (w_notifiers w) (w_timers w) (w_mgr w) (w_scheduled w) (w_alloc w) now.

Definition mgr_exec o : prog (world R P) unit :=
  match o with
  | MAdd c => add_device junk c;; mret tt
  | MRemove dt => remove_device dt;; mret tt
  | MNotify dt name version => ota_notify time_string dt name version;; mret tt
  | MStopNotify dt name version => ota_stop_notify dt name version;; mret tt
  | MConsume e => consume e;; mret tt
  | MTick => timer_tick;; mret tt
  | MClock now => modify (set_now now)
  end.

Definition mgr_op_ok o : Prop := match o with MAdd c => config_ok c | _ => True end.

(** ** Registration of the callbacks *)

Lemma regist_all_run i topics keys expires pool w :
  i + List.length topics <= List.length keys -> i + List.length topics <= List.length expires -> NoDup topics ->
  exists c, regist_all i topics keys expires pool w = (Ret tt, set_cbmgr c w) /\
    (forall t, t ∉ topics -> m_callbacks c !! t = m_callbacks (w_cbmgr w) !! t) /\
    (forall j t, topics !! j = Some t -> exists k e, keys !! (i + j) = Some k /\ expires !! (i + j) = Some e /\
       m_callbacks c !! t = Some (Some (store_callback pool k e))).
Proof.
  revert i w. induction topics as [|t topics IH]; intros i w Hk He Hnd; simpl in *.
  { exists (w_cbmgr w). split_and!; [by destruct w|done|done]. }
  apply NoDup_cons in Hnd as [Ht Hnd].
  destruct (lookup_lt_is_Some_2 keys i) as [k Ek]; [lia|].
  destruct (lookup_lt_is_Some_2 expires i) as [e Ee]; [lia|].
  rewrite Ek, Ee. unfold of_option. run_pure.
  destruct (IH (S i) (set_cbmgr (regist_callback t (Some (store_callback pool k e)) (w_cbmgr w)) w))
    as (c & E & Hout & Hin); [lia|lia|done|].
  exists c. split; [exact E|]. split.
  - intros x [Hx Hx']%not_elem_of_cons. rewrite Hout by done. simpl. by rewrite lookup_insert_ne.
  - intros [|j] x Hj.
    + injection Hj as <-. exists k, e. rewrite Nat.add_0_r, Hout by done. simpl. by rewrite lookup_insert_eq.
    + rewrite <- Nat.add_succ_comm. by apply Hin.
Qed.

Lemma regist_all_total i topics keys expires pool w :
  i + List.length topics <= List.length keys -> i + List.length topics <= List.length expires ->
  exists c, regist_all i topics keys expires pool w = (Ret tt, set_cbmgr c w).
Proof.
  revert i w. induction topics as [|t topics IH]; intros i w Hk He; simpl in *.
  { exists (w_cbmgr w). by destruct w. }
  destruct (lookup_lt_is_Some_2 keys i) as [k Ek]; [lia|].
  destruct (lookup_lt_is_Some_2 expires i) as [e Ee]; [lia|].
  rewrite Ek, Ee. unfold of_option. run_pure.
  destruct (IH (S i) (set_cbmgr (regist_callback t (Some (store_callback pool k e)) (w_cbmgr w)) w)) as (c & E); [lia|lia|].
  exists c. exact E.
Qed.

(** ** Every operation keeps the manager in order *)

Lemma add_device_run c w : config_ok c ->
  exists w', add_device junk c w = (Ret (negb (check_device (cfg_device_type c) (w_mgr w))), w') /\
    w_timers w' = w_timers w /\ w_notifiers w' = w_notifiers w /\ w_alloc w <= w_alloc w' /\
    w_mgr w' = if check_device (cfg_device_type c) (w_mgr w) then w_mgr w else
      with_devices (wrap 64 (g_device_counts (w_mgr w) + 1))
        (<[cfg_device_type c := mkOTADevice (cfg_device_type c) false (w_alloc w) (cfg_sub_topics c) (cfg_sub_qos c) None]>
          (g_devices (w_mgr w))) (w_mgr w).
Proof.
  intros (_ & Hk & He). unfold add_device, check_device. run_pure.
  destruct (g_devices (w_mgr w) !! cfg_device_type c); [by exists w|].
  unfold mgr_do. run_pure. unfold new_OTADevice. rewrite bind_assoc. unfold alloc. erewrite bind_ret by reflexivity.
  cbv beta. rewrite bind_assoc. run_pure.
  match goal with |- context [regist_all 0 _ _ _ _ ≫= _] => rewrite bind_assoc end.
  edestruct (regist_all_total 0 (cfg_sub_topics c) (cfg_redis_keys c) (cfg_expire_seconds c)
    (g_redis_pool_name (w_mgr w))) as [cb E]; [done|done|].
  run E. run_pure. unfold put_device, mgr_do. run_pure. eexists. split; [reflexivity|]. simpl. auto.
Qed.

Lemma remove_device_run dt w :
  exists w', remove_device dt w = (Ret (check_device dt (w_mgr w)), w') /\
    w_timers w' = w_timers w /\ w_alloc w' = w_alloc w /\
    match g_devices (w_mgr w) !! dt with
    | None => w' = w
    | Some d =>
        w_mgr w' = with_devices (wrap 64 (g_device_counts (w_mgr w) - 1)) (delete dt (g_devices (w_mgr w))) (w_mgr w) /\
        w_notifiers w' = match d_notifier d with Some n => delete n (w_notifiers w) | None => w_notifiers w end
    end.
Proof.
  unfold remove_device, remove_check, check_device. rewrite bind_assoc. run_pure.
  destruct (g_devices (w_mgr w) !! dt) as [d|] eqn:E; [|by exists w].
  unfold remove_commit. rewrite bind_assoc. run_pure. rewrite E.
  rewrite !bind_assoc. run_pure. destruct (d_notifier d) as [n|]; unfold mgr_do; run_pure;
    (eexists; split; [reflexivity|]); simpl; auto.
Qed.

Lemma mgr_exec_add c w : config_ok c -> manager_ok w ->
  exists w', mgr_exec (MAdd c) w = (Ret tt, w') /\ manager_ok w'.
Proof.
  intros Hc H. destruct (add_device_run c w Hc) as (w' & E & ET & EN & Ea & Em). exists w'. simpl. split; [by run E|].
  destruct H as [H1 H2 H3 H4 H6 H5]. unfold check_device in Em.
  destruct (g_devices (w_mgr w) !! cfg_device_type c) eqn:Eg; split; rewrite ?ET, ?EN, ?Em; simpl; try done;
    try by eapply heaps_more.
  - intros dt d n [[<- <-]|[_ Hd]]%lookup_insert_Some Hn; [done|eauto].
  - intros dt dt' d d' n [[<- <-]|[_ Hd]]%lookup_insert_Some [[<- <-]|[_ Hd']]%lookup_insert_Some Hn Hn';
      [done|done|done|eauto].
  - rewrite map_size_insert_None by done. rewrite H4. pose proof (map_size_16 _ H5). rewrite wrap_id by (split; lia). lia.
  - intros dt d [[<- <-]|[_ Hd]]%lookup_insert_Some; [done|eauto].
  - intros dt Hdt. destruct (decide (dt = cfg_device_type c)) as [->|]; [apply Hc|].
    rewrite lookup_insert_ne in Hdt by done. eauto.
Qed.

Lemma mgr_exec_remove dt w : manager_ok w ->
  exists w', mgr_exec (MRemove dt) w = (Ret tt, w') /\ manager_ok w'.
Proof.
  intros H. destruct (remove_device_run dt w) as (w' & E & ET & Ea & Em). exists w'. simpl. split; [by run E|].
  destruct (g_devices (w_mgr w) !! dt) as [d|] eqn:Eg; [|by subst]. destruct Em as [Em EN].
  destruct H as [H1 H2 H3 H4 H6 H5]. split; rewrite ?ET, ?EN, ?Em, ?Ea; simpl.
  - destruct (d_notifier d); [by apply heaps_delete|done].
  - intros dt' d' n [Hne Hd']%lookup_delete_Some Hn.
    destruct (d_notifier d) as [m|] eqn:Ed; [|eauto]. rewrite lookup_delete_ne; [eauto|]. intros ->.
    apply Hne. by eapply H3.
  - intros dt1 dt2 d1 d2 n [_ Hd1]%lookup_delete_Some [_ Hd2]%lookup_delete_Some. eauto.
  - rewrite map_size_delete, Eg, H4. pose proof (map_size_16 _ H5).
    assert (size (g_devices (w_mgr w)) <> 0) as Hs.
    { intros E0%map_size_empty_inv. by rewrite E0 in Eg. }
    rewrite wrap_id by (split; lia). simpl. lia.
  - intros dt' d' [_ Hd']%lookup_delete_Some. eauto.
  - intros dt' [d' [_ Hd']%lookup_delete_Some]. eauto.
Qed.

(** Writing back a device whose notifier is its own. *)
Lemma manager_put_device w w' dt d d' : manager_ok w -> g_devices (w_mgr w) !! dt = Some d ->
  heaps_ok (w_timers w') (w_notifiers w') (w_alloc w') -> d_device_type d' = d_device_type d ->
  w_mgr w' = with_devices (g_device_counts (w_mgr w)) (<[dt := d']> (g_devices (w_mgr w))) (w_mgr w) ->
  (d_notifier d' = None \/ d_notifier d' = d_notifier d \/ d_notifier d = None /\ d_notifier d' = Some (w_alloc w)) ->
  (forall n, d_notifier d' = Some n -> is_Some (w_notifiers w' !! n)) ->
  (forall n, d_notifier d <> Some n -> n < w_alloc w -> w_notifiers w' !! n = w_notifiers w !! n) ->
  manager_ok w'.
Proof.
  intros [H1 H2 H3 H4 H6 H5] Hd Hh Hty Em Hwho Hown Hoth.
  assert (forall dt0 d0 n, dt0 <> dt -> g_devices (w_mgr w) !! dt0 = Some d0 -> d_notifier d0 = Some n ->
            d_notifier d' <> Some n /\ d_notifier d <> Some n /\ n < w_alloc w) as Hdiff.
  { intros dt0 d0 n Hne Hd0 Hn. pose proof (hp_notifier_addr _ _ _ H1 n (H2 dt0 d0 n Hd0 Hn)) as Hlt.
    assert (d_notifier d <> Some n) by (intros E; apply Hne; by eapply H3).
    split; [|done]. destruct Hwho as [->|[->|[_ ->]]]; [done|done|]. intros [= E]. lia. }
  split; [done| | | | |]; rewrite Em; simpl.
  - intros dt0 d0 n [[<- <-]|[Hne Hd0]]%lookup_insert_Some Hn; [by apply Hown|].
    destruct (Hdiff dt0 d0 n) as (_ & ? & ?); [done..|]. rewrite Hoth by done. eauto.
  - intros dt1 dt2 d1 d2 n [[<- <-]|[Hne1 Hd1]]%lookup_insert_Some [[<- <-]|[Hne2 Hd2]]%lookup_insert_Some Hn1 Hn2;
      [done| | |eauto].
    + by destruct (Hdiff dt2 d2 n) as [? _].
    + by destruct (Hdiff dt1 d1 n) as [? _].
  - rewrite map_size_insert_Some by (by rewrite Hd). done.
  - intros dt0 d0 [[<- <-]|[_ Hd0]]%lookup_insert_Some; [rewrite Hty; eauto|eauto].
  - intros dt0 Hdt0. destruct (decide (dt0 = dt)) as [->|]; [apply H5; by rewrite Hd|].
    rewrite lookup_insert_ne in Hdt0 by done. eauto.
Qed.

Lemma mgr_exec_notify dt name version w : manager_ok w ->
  exists w', mgr_exec (MNotify dt name version) w = (Ret tt, w') /\ manager_ok w'.
Proof.
  intros H. simpl. unfold ota_notify. rewrite bind_assoc. run_pure.
  destruct (g_devices (w_mgr w) !! dt) as [d|] eqn:Eg; [|by exists w].
  destruct (device_ota_notify_run time_string d name version (g_redis_pool_name (w_mgr w)) w)
    as (z & d' & w' & E & Hh & K & Ed & Hwho & Hown & Hoth & _); [apply H|intros n; by eapply mg_owned|].
  rewrite bind_assoc. run E. unfold put_device, mgr_do. rewrite bind_assoc. run_pure. eexists. split; [reflexivity|].
  eapply (manager_put_device w _ dt d d'); try done; [by rewrite Ed|]. simpl. by rewrite (rk_mgr _ _ K).
Qed.

Lemma manager_ok_frame w w' : manager_ok w -> heaps_ok (w_timers w') (w_notifiers w') (w_alloc w') ->
  w_mgr w' = w_mgr w -> (forall n, is_Some (w_notifiers w !! n) -> is_Some (w_notifiers w' !! n)) -> manager_ok w'.
Proof. intros [H1 H2 H3 H4 H6 H5] Hh Em Hn. split; [done|..]; rewrite Em; eauto. Qed.

Lemma mgr_exec_stop dt name version w : manager_ok w ->
  exists w', mgr_exec (MStopNotify dt name version) w = (Ret tt, w') /\ manager_ok w'.
Proof.
  intros H. simpl. unfold ota_stop_notify. rewrite bind_assoc. run_pure.
  destruct (g_devices (w_mgr w) !! dt) as [d|] eqn:Eg; [|by exists w].
  destruct (device_ota_stop_notify_run d name version (g_redis_pool_name (w_mgr w)) w)
    as (z & w' & E & Hh & K & _ & Hdom & _); [apply H|intros n; by eapply mg_owned|].
  run E. eexists. split; [reflexivity|]. eapply manager_ok_frame; [done|done|apply K|]. intros n. apply Hdom.
Qed.

Lemma mgr_exec_tick w : manager_ok w -> exists w', mgr_exec MTick w = (Ret tt, w') /\ manager_ok w'.
Proof.
  intros H. simpl. unfold timer_tick, alloc. rewrite bind_assoc. erewrite bind_ret by reflexivity. cbv beta.
  rewrite bind_assoc. run_pure. pose proof (mg_heaps w H) as Hh. pose proof (fresh_timer _ _ _ Hh) as Hf.
  destruct (listExpiredCb_spec (w_timers w) (w_alloc w) (w_now w) (hp_timers _ _ _ Hh) Hf) as (l & ER & _).
  pose proof (wf_listExpired (w_timers w) (w_alloc w) (w_now w) (hp_timers _ _ _ Hh) Hf) as WT.
  unfold post in WT. rewrite ER in WT. simpl in WT. set (T := mkTimerManager _ _ _ _ _) in ER, WT.
  rewrite bind_assoc. erewrite bind_ret; [|unfold timers_do; simpl; by rewrite ER]. run_pure.
  eexists. split; [reflexivity|]. apply (manager_ok_frame w); [done| |done|done]. simpl.
  assert (forall a, is_Some (m_heap T !! a) <-> is_Some (m_heap (w_timers w) !! a)) as Hdom.
  { intros a. apply rearm_all_dom. }
  destruct Hh as [H1 H2 H3 H4 H5]. split; [done| | |done|].
  - intros a Ha%Hdom. specialize (H2 a Ha). lia.
  - intros a Ha. specialize (H3 a Ha). lia.
  - intros a n t Ha Ht. apply Hdom. eauto.
Qed.

Lemma mgr_exec_consume e w : manager_ok w -> exists w', mgr_exec (MConsume e) w = (Ret tt, w') /\ manager_ok w'.
Proof.
  intros H. simpl. unfold consume. rewrite bind_assoc. run_pure.
  destruct (Cmd_total (g_redis_mq_pool_name (w_mgr w)) ["BRPOP"; c_str get_message_queue_hash; "0"] (w_redis w))
    as (r & s & Ec).
  rewrite bind_assoc. run (redis_do_run _ w r s Ec).
  assert (forall w1, w_mgr w1 = w_mgr w -> w_timers w1 = w_timers w -> w_notifiers w1 = w_notifiers w ->
            w_alloc w1 = w_alloc w -> manager_ok w1) as Hf.
  { intros w1 E1 E2 E3 E4. eapply manager_ok_frame; [exact H|rewrite E2, E3, E4; apply H|done|by rewrite E3]. }
  repeat case_match; eexists; (split; [reflexivity|]); by apply Hf.
Qed.

Lemma mgr_exec_ok o w : mgr_op_ok o -> manager_ok w -> exists w', mgr_exec o w = (Ret tt, w') /\ manager_ok w'.
Proof.
  intros Ho H. destruct o; eauto using mgr_exec_add, mgr_exec_remove, mgr_exec_notify, mgr_exec_stop,
    mgr_exec_consume, mgr_exec_tick.
  eexists. split; [reflexivity|]. eapply manager_ok_frame; [exact H|apply H|done|done].
Qed.
End manager.
