(* ===== verification/OtaSystem.v ===== *)
(** The OTA service as a whole: the manager under any sequence of
    operations, the consumer of the message queue, and the ways through
    several components - from an HTTP request over Redis to a device, and
    from a device's message over Redis to an HTTP answer. *)

From stdpp Require Import base list gmap strings pretty.
From S2P Require Import Prelude MachineInt Http HttpProps Redis OtaHttp OtaHttpProps Timer TimerProps Mqtt OtaMqtt OtaMqttProps.
From Stdlib Require Import ZArith Lia String.
Local Open Scope string_scope.

Section system.
Context {R P : Type} `{!RedisServer R, !RedisLaws R} {HJson : Json} `{!Paho P}.
Variable time_string : Z -> string.
Variable junk : bool.
Implicit Types (w : world R P) (d : OTADevice).

(** * Any sequence of operations *)

Fixpoint mgr_run (os : list mgr_op) : prog (world R P) unit :=
  match os with [] => mret tt | o :: os' => mgr_exec time_string junk o;; mgr_run os' end.

Lemma mgr_run_ok os w : Forall mgr_op_ok os -> manager_ok w ->
  exists w', mgr_run os w = (Ret tt, w') /\ manager_ok w'.
Proof.
  intros Hos. revert w. induction Hos as [|o os Ho Hos IH]; intros w H; simpl; [by exists w|].
  destruct (mgr_exec_ok time_string junk o w Ho H) as (w1 & E & H1). run E. by apply IH.
Qed.

Lemma add_all_ok cs w : Forall config_ok cs -> manager_ok w ->
  exists w', add_all junk cs w = (Ret tt, w') /\ manager_ok w'.
Proof.
  intros Hcs. revert w. induction Hcs as [|c cs Hc Hcs IH]; intros w H; simpl; [by exists w|].
  destruct (add_device_run junk c w Hc) as (w1 & E & _).
  destruct (mgr_exec_add time_string junk c w Hc H) as (w2 & E2 & H2).
  assert (w2 = w1) as ->.
  { revert E2. unfold mgr_exec. run E. intros E2. injection E2 as ->. reflexivity. }
  run E. by apply IH.
Qed.

Lemma new_manager_ok pool mq w : heaps_ok (w_timers w) (w_notifiers w) (w_alloc w) ->
  manager_ok (set_mgr (mkOTAMqttManager false 0 ∅ pool mq) w).
Proof. intros H. split; [exact H|..]; simpl; try done. intros dt [d Hd]. done. Qed.


(** * Notify and stop *)

(** Notifying a device while Redis answers: the call succeeds, the version
    is on record under the module's key, the device's notifier carries the
    message of that version and one new recurring timer publishes it; a
    timer of a version published before is disarmed, every other timer stays
    armed; no other device and no client changes. *)
Theorem notify_announces pools (Hl : Healthy R pools) dt d name version w :
  manager_ok w -> g_devices (w_mgr w) !! dt = Some d -> g_redis_pool_name (w_mgr w) ∈ pools -> up (w_redis w) ->
  exists d' w', ota_notify time_string dt name version w = (Ret 1%Z, w') /\ manager_ok w' /\ up (w_redis w') /\
    announced time_string w w' d d' name version /\
    g_devices (w_mgr w') = <[dt := d']> (g_devices (w_mgr w)) /\ w_clients w' = w_clients w.
Proof.
  intros H Hd Hp Hup.
  destruct (device_ota_notify_run time_string d name version (g_redis_pool_name (w_mgr w)) w)
    as (z & d' & w1 & E & Hh & K & Ed & Hwho & Hown & Hoth & Hz & Hup1); [apply H|intros n; by eapply mg_owned|].
  destruct (Hup1 pools Hl Hp Hup) as [-> Hu]. destruct Hz as [Hz|[_ Hann]]; [done|].
  exists d'. unfold ota_notify. run_pure. rewrite Hd. run E. unfold put_device, mgr_do. run_pure.
  eexists. split; [reflexivity|]. split_and!; [|done|done|by simpl; rewrite (rk_mgr _ _ K)|apply K].
  eapply (manager_put_device w _ dt d d'); try done; [by rewrite Ed|]. simpl. by rewrite (rk_mgr _ _ K).
Qed.

(** Stopping a device's notification silences it: when its notifier has
    no other timer armed than the one it remembers, no armed timer calls it
    any more, every timer of the others stays armed, and while Redis answers
    the module's key is gone. *)
Theorem stop_silences dt d n name version w :
  manager_ok w -> g_devices (w_mgr w) !! dt = Some d -> d_notifier d = Some n ->
  (forall x, armed (w_timers w) x (Plain n) -> old_timer w d = Some x) ->
  exists z w', ota_stop_notify dt name version w = (Ret z, w') /\ manager_ok w' /\
    (forall x, ~ armed (w_timers w') x (Plain n)) /\
    (forall x cb, armed (w_timers w) x cb -> old_timer w d <> Some x -> armed (w_timers w') x cb) /\
    (z = 0%Z \/ z = 1%Z /\ kv (w_redis w') !! notify_key d name = None) /\
    (forall pools (Hl : Healthy R pools), g_redis_pool_name (w_mgr w) ∈ pools -> up (w_redis w) -> z = 1%Z).
Proof.
  intros H Hd Hn Hown.
  destruct (device_ota_stop_notify_run d name version (g_redis_pool_name (w_mgr w)) w)
    as (z & w' & E & Hh & K & _ & Hdom & Harm & Hz & Hup); [apply H|intros m; by eapply mg_owned|].
  exists z, w'. unfold ota_stop_notify. run_pure. rewrite Hd. split; [exact E|]. split_and!; [| | |done|done].
  - eapply manager_ok_frame; [done|done|apply K|]. intros m. apply Hdom.
  - intros x [Ha Hne]%Harm. by apply Hne, Hown.
  - intros x cb Ha Hne. by apply Harm.
Qed.

(** * The consumer *)

Definition queue (r : R) : list string := default [] (lists r !! get_message_queue_hash).

Lemma consume_up pools (Hl : Healthy R pools) e w : g_redis_mq_pool_name (w_mgr w) ∈ pools -> up (w_redis w) ->
  exists s, up s /\ kv s = kv (w_redis w) /\
    (queue (w_redis w) = [] /\ queue s = [] /\ consume e w = (Ret 0%Z, set_redis s w) \/
     exists l v, queue (w_redis w) = (l ++ [v])%list /\ queue s = l /\
       consume e w = (Ret 0%Z, set_scheduled (w_scheduled w ++ [c_str v])%list (set_redis s w))).
Proof.
  intros Hp Hup. unfold consume. run_pure. change (c_str get_message_queue_hash) with get_message_queue_hash.
  destruct (Cmd_up _ _ _ Hp Hup (used_brpop get_message_queue_hash)) as (r & s & Ec & Er & Hg & Hu).
  exists s. destruct (law_brpop _ _ _ _ _ Er Hg) as (Hkv & Hq). split; [done|]. split; [done|].
  run (redis_do_run _ w r s Ec). unfold queue. destruct Hq as [(-> & -> & Hq)|(l & v & Hq & <- & ->)].
  - left. done.
  - right. exists (default [] (lists s !! get_message_queue_hash)), v. rewrite Hq. done.
Qed.

Lemma consumer_idle pools (Hl : Healthy R pools) k e w :
  g_redis_mq_pool_name (w_mgr w) ∈ pools -> up (w_redis w) -> g_running (w_mgr w) = true -> queue (w_redis w) = [] ->
  exists w', redis_message_queue_thread_run (S k) e w = (Ret (Looping 0), w') /\ w_scheduled w' = w_scheduled w /\
    queue (w_redis w') = [] /\ kv (w_redis w') = kv (w_redis w) /\ w_mgr w' = w_mgr w.
Proof.
  revert e w. induction k as [|k IH]; intros e w Hp Hup Hrun Hq;
    cbn [redis_message_queue_thread_run]; unfold consumer_turn; rewrite bind_assoc; run_pure; rewrite Hrun;
    change (negb true) with false; cbv match;
    destruct (consume_up pools Hl e w Hp Hup) as (s & Hu & Hkv & [(_ & Hq' & E)|(l & v & Hq' & _)]);
    [|rewrite Hq in Hq'; by destruct l| |rewrite Hq in Hq'; by destruct l];
    rewrite bind_assoc; run E; run_pure.
  - eexists. split; [reflexivity|]. done.
  - destruct (IH 0%Z (set_redis s w)) as (w' & E' & H1 & H2 & H3 & H4); [done..|].
    exists w'. split; [exact E'|]. simpl in H3. split_and!; [done|done|congruence|done].
Qed.

(** C10: The consumer takes the commands in the order they were queued and
    loses none: with the service running and Redis answering, after as many
    turns as there are commands (and any number more) every command has been
    scheduled, oldest first, behind those scheduled before, the queue is
    empty, and the thread still runs with no error counted. *)
Theorem consumer_drains_queue pools (Hl : Healthy R pools) more e w :
  g_redis_mq_pool_name (w_mgr w) ∈ pools -> up (w_redis w) -> g_running (w_mgr w) = true ->
  exists w', redis_message_queue_thread_run (List.length (queue (w_redis w)) + S more) e w = (Ret (Looping 0), w') /\
    w_scheduled w' = (w_scheduled w ++ (c_str <$> reverse (queue (w_redis w))))%list /\
    queue (w_redis w') = [] /\ kv (w_redis w') = kv (w_redis w) /\ w_mgr w' = w_mgr w.
Proof.
  intros Hp Hup Hrun.
  remember (queue (w_redis w)) as q eqn:Eq. revert e w Eq Hp Hup Hrun.
  induction q as [|v l IH] using rev_ind; intros e w Eq Hp Hup Hrun.
  { destruct (consumer_idle pools Hl more e w) as (w' & E & H1 & H2); [done..|]. exists w'. simpl. rewrite app_nil_r. done. }
  rewrite length_app. simpl List.length. rewrite Nat.add_1_r. cbn [Nat.add redis_message_queue_thread_run].
  unfold consumer_turn. rewrite bind_assoc. run_pure. rewrite Hrun. change (negb true) with false. cbv match.
  destruct (consume_up pools Hl e w Hp Hup) as (s & Hu & Hkv & [(Hq' & _)|(l' & v' & Hq' & Hs & E)]).
  { rewrite <- Eq in Hq'. by destruct l. }
  rewrite <- Eq in Hq'. apply app_inj_tail in Hq' as [<- <-]. rewrite bind_assoc. run E. run_pure.
  destruct (IH 0%Z (set_scheduled (w_scheduled w ++ [c_str v])%list (set_redis s w))) as (w' & E' & H1 & H2 & H3 & H4);
    [done..|].
  exists w'. split; [exact E'|]. split_and!; [|done|simpl in H3; congruence|done].
  rewrite H1, reverse_snoc. simpl. by rewrite <- app_assoc.
Qed.

(** The consumer gives up after eleven failed rounds, not before: without
    a connection it keeps running for ten rounds, counting them, and exits in
    the eleventh; when the service is not running it exits at once. Neither
    takes a command or changes anything. *)
Theorem consumer_gives_up w more :
  (g_running (w_mgr w) = false -> forall e, redis_message_queue_thread_run (S more) e w = (Ret Exited, w)) /\
  (g_running (w_mgr w) = true -> rds_get (g_redis_mq_pool_name (w_mgr w)) (w_redis w) = false ->
     (forall n, n <= 10 -> redis_message_queue_thread_run n 0 w = (Ret (Looping (Z.of_nat n)), w)) /\
     redis_message_queue_thread_run (11 + more) 0 w = (Ret Exited, w)).
Proof.
  split.
  - intros Hr e. cbn [redis_message_queue_thread_run]. unfold consumer_turn. rewrite bind_assoc. run_pure.
    rewrite Hr. done.
  - intros Hr Hg.
    assert (forall e, (0 <= e <= 10)%Z -> consumer_turn e w =
      (Ret (if (10 <? e + 1)%Z then Exited else Looping (e + 1)), w)) as Hturn.
    { intros e He. unfold consumer_turn. run_pure. rewrite Hr. change (negb true) with false. cbv match.
      assert (consume e w = (Ret (e + 1)%Z, w)) as E; [|by run E].
      unfold consume. run_pure.
      erewrite bind_ret; [|unfold redis_do, Cmd; rewrite Hg; reflexivity]. cbv beta.
      rewrite wrap_id by (split; lia). by destruct w. }
    assert (forall n e, (0 <= e)%Z -> (e + Z.of_nat n <= 10)%Z -> forall f,
      redis_message_queue_thread_run (n + f) e w = redis_message_queue_thread_run f (e + Z.of_nat n) w) as Hrun.
    { induction n as [|n IH]; intros e He Hle f; [by rewrite Z.add_0_r|]. cbn [Nat.add redis_message_queue_thread_run].
      run (Hturn e ltac:(lia)). destruct (Z.ltb_spec 10 (e + 1)); [lia|]. rewrite IH by lia.
      by replace (e + 1 + Z.of_nat n)%Z with (e + Z.of_nat (S n))%Z by lia. }
    split.
    + intros n Hn. pose proof (Hrun n 0%Z ltac:(lia) ltac:(lia) 0) as E. by rewrite Nat.add_0_r in E.
    + change (11 + more) with (10 + (1 + more)). rewrite (Hrun 10 0%Z) by lia.
      cbn [Nat.add redis_message_queue_thread_run]. by run (Hturn 10%Z ltac:(lia)).
Qed.

(** * From an HTTP request to the device *)

(** A JSON document that asks to notify a module. *)
Record asks_notify (j : json) (dt : Z) (name version : string) : Prop := {
  an_fields : json_contains "device_type" j = true /\ json_contains "version" j = true /\ json_contains "name" j = true;
  an_type : json_uint16 "device_type" j = Some dt;
  an_name : json_string "name" j = Some name;
  an_version : json_string "version" j = Some version
}.

Lemma c_str_idem s : c_str (c_str s) = c_str s.
Proof. induction s as [|a s IH]; [done|]. simpl. destruct (Ascii.eqb a _) eqn:E; simpl; [done|]. by rewrite E, IH. Qed.

Lemma http_notify_up pools (Hl : Healthy R pools) m req rsp j dt name version r :
  m_method req <> OPTIONS -> json_parse (m_body req) = Some j -> asks_notify j dt name version ->
  m_redis_pool_name m ∈ pools -> up r ->
  (forall v, kv r !! c_str (get_device_group_mudule_hash "notify" dt name) = Some v -> c_str v <> c_str version) ->
  exists h, handle_notify m req (mkHstate r rsp None) = (Ret 1%Z, h) /\ r_status (h_rsp h) = 200%Z /\
    up (h_redis h) /\ kv (h_redis h) = kv r /\ queue (h_redis h) = c_str (m_body req) :: queue r.
Proof.
  intros Ho Hj [(H1 & H2 & H3) Hdt Hn Hv] Hp Hup Hnew. unfold handle_notify, with_command.
  rewrite not_options by done. unfold try_catch. rewrite Hj. unfold or_throw at 1. run_pure. rewrite H1, H2, H3.
  cbv beta match delta [negb andb]. rewrite Hdt, Hn, Hv. unfold or_throw. run_pure.
  unfold OtaHttp.ota_notify. change (negb get_notify_message_ok) with false. cbv match zeta.
  destruct (Cmd_up _ _ _ Hp Hup (used_get (c_str (get_device_group_mudule_hash "notify" dt name))))
    as (r1 & s1 & Ec & Er & Hg & Hu). destruct (law_get _ _ _ _ _ Er Hg) as (Hkv & Hls & ->).
  erewrite bind_ret; [|unfold on_redis; cbn [h_redis]; rewrite Ec; reflexivity]. cbv beta.
  change (c_str get_message_queue_hash) with get_message_queue_hash.
  destruct (Cmd_up _ _ _ Hp Hu (used_lpush get_message_queue_hash (c_str (m_body req))))
    as (r2 & s2 & Ec2 & Er2 & Hg2 & Hu2). destruct (law_lpush _ _ _ _ _ _ Er2 Hg2) as (Hkv2 & Hls2 & ->).
  unfold bad. rewrite Hg. cbv beta match delta [negb].
  match goal with |- context [if ?b then _ else on_redis_rsp _] => assert (b = false) as -> end.
  { destruct (kv r !! _) as [v|] eqn:Ev; [|done]. unfold strcmp.
    destruct (String.compare (c_str v) (c_str version)) eqn:Ecmp; [|done|done].
    apply String.compare_eq_iff in Ecmp. by destruct (Hnew v eq_refl). }
  unfold on_redis_rsp, redis_push_message_queue_by_http. cbn [h_redis h_rsp h_transfer].
  change (c_str get_message_queue_hash) with get_message_queue_hash.
  erewrite bind_ret by exact Ec2. eexists. split; [reflexivity|]. split_and!; [done|done|simpl; congruence|].
  unfold queue. simpl. rewrite Hls2, lookup_insert_eq. simpl. by rewrite Hls.
Qed.

Lemma announced_ext w1 w w2 d d' name version : kv (w_redis w1) = kv (w_redis w) -> w_timers w1 = w_timers w ->
  w_notifiers w1 = w_notifiers w -> w_now w1 = w_now w ->
  announced time_string w1 w2 d d' name version -> announced time_string w w2 d d' name version.
Proof.
  intros E1 E2 E3 E4. unfold announced, published, old_timer. by rewrite E1, E2, E3, E4.
Qed.

Lemma dispatch_notify j dt d name version w w' z command : json_parse command = Some j ->
  json_string "command" j = Some "notify" -> asks_notify j dt name version ->
  ota_notify time_string dt name version w = (Ret z, w') -> dispatch time_string command w = (Ret tt, w').
Proof.
  intros Hj Hc [(H1 & H2 & H3) Hdt Hn Hv] E. unfold dispatch, catching. rewrite Hj. run_pure. rewrite Hc. run_pure.
  unfold command_handler. change ("notify" =? "notify") with true. cbv match.
  unfold cmd_handle_notify, catching, at_uint16, at_string. rewrite H1, H2, H3, Hdt, Hn, Hv. run_pure. by run E.
Qed.

(** C2: A notify request reaches the device. While Redis answers and the
    service runs, a valid request (with its "command" set to notify, for a
    registered device and a version not yet published) is answered with
    status 200; the consumer's next turn takes it from the queue and
    schedules it; the worker that runs it stores the version and starts the
    device's notification with the message of that version, exactly as
    [ota_notify] promises, and leaves every other device alone. *)
Theorem notify_end_to_end pools (Hl : Healthy R pools) m req rsp j dt d name version e w :
  m_method req <> OPTIONS -> json_parse (m_body req) = Some j -> c_str (m_body req) = m_body req ->
  json_string "command" j = Some "notify" -> asks_notify j dt name version ->
  manager_ok w -> g_devices (w_mgr w) !! dt = Some d -> g_running (w_mgr w) = true ->
  m_redis_pool_name m ∈ pools -> g_redis_pool_name (w_mgr w) ∈ pools -> g_redis_mq_pool_name (w_mgr w) ∈ pools ->
  up (w_redis w) -> queue (w_redis w) = [] ->
  (forall v, kv (w_redis w) !! notify_key d name = Some v -> c_str v <> c_str version) ->
  exists h w1 w2 d',
    handle_notify m req (mkHstate (w_redis w) rsp None) = (Ret 1%Z, h) /\ r_status (h_rsp h) = 200%Z /\
    consumer_turn e (set_redis (h_redis h) w) = (Ret (Looping 0), w1) /\
    run_command time_string (List.length (w_scheduled w)) w1 = (Ret tt, w2) /\
    w_scheduled w2 = w_scheduled w /\ queue (w_redis w1) = [] /\ manager_ok w2 /\
    g_devices (w_mgr w2) = <[dt := d']> (g_devices (w_mgr w)) /\ announced time_string w w2 d d' name version.
Proof.
  intros Ho Hj Hnul Hcmd Hask H Hd Hrun Hp1 Hp2 Hp3 Hup Hq Hnew.
  assert (d_device_type d = dt) as Hdt by (by eapply mg_typed).
  destruct (http_notify_up pools Hl m req rsp j dt name version (w_redis w)) as (h & Eh & Hst & Hu1 & Hkv1 & Hq1);
    [done..|intros v Hv; apply Hnew; unfold notify_key; by rewrite Hdt|].
  rewrite Hq, Hnul in Hq1. set (w0 := set_redis (h_redis h) w).
  destruct (consume_up pools Hl e w0 Hp3 Hu1) as (s & Hu & Hkv & [(Hq0 & _)|(l & v & Hq0 & Hqs & Ec)]);
    change (w_redis w0) with (h_redis h) in Hq0; rewrite Hq1 in Hq0; [done|].
  apply (app_inj_tail [] l) in Hq0 as [<- <-].
  set (w1 := set_scheduled (w_scheduled w0 ++ [c_str (m_body req)])%list (set_redis s w0)) in Ec.
  set (w1' := set_scheduled (w_scheduled w) w1).
  assert (manager_ok w1') as H1 by (eapply manager_ok_frame; [exact H|apply H|done|done]).
  destruct (device_ota_notify_run time_string d name version (g_redis_pool_name (w_mgr w)) w1')
    as (z & d' & w2 & E & Hh & K & Ed & Hwho & Hown & Hoth & Hz & Hup1);
    [apply H1|intros n; by eapply (mg_owned w1' H1)|].
  destruct (Hup1 pools Hl Hp2 Hu) as [-> _]. destruct Hz as [Hz|[_ Hann]]; [done|].
  set (w3 := set_mgr (with_devices (g_device_counts (w_mgr w2)) (<[dt := d']> (g_devices (w_mgr w2))) (w_mgr w2)) w2).
  assert (ota_notify time_string dt name version w1' = (Ret 1%Z, w3)) as En.
  { unfold ota_notify. run_pure. simpl. rewrite Hd. by run E. }
  exists h, w1, w3, d'. split; [exact Eh|]. split; [done|]. split.
  { unfold consumer_turn. run_pure. simpl. rewrite Hrun. change (negb true) with false. cbv match. by run Ec. }
  split.
  { unfold run_command. run_pure. simpl. rewrite list_lookup_middle by done. run_pure.
    rewrite delete_middle, app_nil_r. rewrite Hnul. exact (dispatch_notify j dt d name version w1' w3 1 _ Hj Hcmd Hask En). }
  split; [exact (rk_scheduled _ _ K)|]. split; [done|]. split.
  { eapply (manager_put_device w1' _ dt d d'); try done; [by rewrite Ed|]. simpl. by rewrite (rk_mgr _ _ K). }
  split; [simpl; by rewrite (rk_mgr _ _ K)|].
  apply (announced_ext w1' w); try done. simpl. by rewrite Hkv.
Qed.

(** A command without its "command" field, which the HTTP side accepts, is
    dropped by the dispatcher. *)
Lemma command_without_type_dropped j command w : json_parse command = Some j -> json_string "command" j = None ->
  dispatch time_string command w = (Ret tt, w).
Proof. intros Hj Hc. unfold dispatch, catching. rewrite Hj. run_pure. by rewrite Hc. Qed.

(** A queued command that lacks a field aborts the process. *)
Lemma command_without_field_aborts j command w : json_parse command = Some j ->
  json_string "command" j = Some "notify" -> json_contains "device_type" j = false ->
  dispatch time_string command w = (Crash AssertFail, w).
Proof.
  intros Hj Hc Hd. unfold dispatch, catching. rewrite Hj. run_pure. rewrite Hc. run_pure.
  unfold command_handler. change ("notify" =? "notify") with true. cbv match.
  unfold cmd_handle_notify, catching, at_uint16. rewrite Hd. done.
Qed.

(** * From a device's message to an HTTP answer *)

Lemma http_query_up pools (Hl : Healthy R pools) m req rsp j dt name v r :
  m_method req <> OPTIONS -> json_parse (m_body req) = Some j ->
  json_contains "device_type" j = true -> json_contains "name" j = true ->
  json_uint16 "device_type" j = Some dt -> json_string "name" j = Some name ->
  m_redis_pool_name m ∈ pools -> up r -> kv r !! c_str (get_device_group_mudule_hash "query" dt name) = Some v ->
  exists h, handle_query m req (mkHstate r rsp None) = (Ret 1%Z, h) /\ r_status (h_rsp h) = 200%Z /\
    r_body (h_rsp h) = c_str v.
Proof.
  intros Ho Hp Hc1 Hc2 Hu Hs Hin Hup Hv. unfold handle_query, query_with. rewrite not_options by done.
  unfold try_catch. rewrite Hp. unfold or_throw at 1. run_pure. rewrite Hc1, Hc2. cbv beta match delta [negb andb].
  rewrite Hu, Hs. unfold or_throw. run_pure.
  destruct (Cmd_up _ _ _ Hin Hup (used_get (c_str (get_device_group_mudule_hash "query" dt name))))
    as (r1 & s1 & Ec & Er & Hg & _). destruct (law_get _ _ _ _ _ Er Hg) as (_ & _ & E1). rewrite Hv in E1. subst r1.
  erewrite bind_ret; [|unfold on_redis_rsp, redis_query_by_http; cbn [h_redis h_rsp];
    erewrite bind_ret by exact Ec; reflexivity].
  cbv beta. change ((1 =? -1)%Z) with false. cbv match. unfold set_rsp. run_pure.
  eexists. split; [reflexivity|]. done.
Qed.

(** C9: What a device reports is what a query answers. After a device is
    added whose configuration maps a topic to a module's query key, a
    message that arrives on that topic is stored in Redis, and a query for
    the module is then answered with status 200 and the message's text. *)
Theorem reported_state_is_queried pools (Hl : Healthy R pools) c i topic payload m req rsp j dt name w :
  config_ok c -> NoDup (cfg_sub_topics c) -> g_devices (w_mgr w) !! cfg_device_type c = None ->
  cfg_sub_topics c !! i = Some topic ->
  cfg_redis_keys c !! i = Some (get_device_group_mudule_hash "query" dt name) ->
  m_method req <> OPTIONS -> json_parse (m_body req) = Some j ->
  json_contains "device_type" j = true -> json_contains "name" j = true ->
  json_uint16 "device_type" j = Some dt -> json_string "name" j = Some name ->
  m_redis_pool_name m ∈ pools -> g_redis_pool_name (w_mgr w) ∈ pools -> up (w_redis w) ->
  exists w' r h, add_device junk c w = (Ret true, w') /\
    message_arrived (Some (w_cbmgr w')) topic payload (w_redis w') = (Ret tt, r) /\
    handle_query m req (mkHstate r rsp None) = (Ret 1%Z, h) /\
    r_status (h_rsp h) = 200%Z /\ r_body (h_rsp h) = c_str payload.
Proof.
  intros (_ & Hk & He) Hnd Hnew Ht Hkey Ho Hj Hc1 Hc2 Hdt Hn Hp1 Hp2 Hup.
  unfold add_device. run_pure. rewrite Hnew. unfold mgr_do. run_pure. unfold new_OTADevice, alloc.
  rewrite bind_assoc. erewrite bind_ret by reflexivity. cbv beta. rewrite bind_assoc. run_pure.
  match goal with |- context [regist_all 0 _ _ _ _ ≫= _] => rewrite bind_assoc end.
  match goal with |- context [(regist_all 0 _ _ _ _ ≫= _) ?w0] =>
    destruct (regist_all_run 0 (cfg_sub_topics c) (cfg_redis_keys c) (cfg_expire_seconds c)
      (g_redis_pool_name (w_mgr w)) w0) as (cb & E & _ & Hcb); [done|done|done|] end.
  destruct (Hcb i topic Ht) as (k & e & Hk' & _ & Hcb'). simpl in Hk'. rewrite Hkey in Hk'. injection Hk' as <-.
  destruct (safe_set_up (g_redis_pool_name (w_mgr w)) (get_device_group_mudule_hash "query" dt name) payload e
    (w_redis w) Hp2 Hup) as (r & Es & Hu & Hv).
  destruct (http_query_up pools Hl m req rsp j dt name (c_str payload) r) as (h & Eq & Hst & Hb); [done..|].
  eexists _, r, h. split; [run E; run_pure; unfold put_device, mgr_do; run_pure; reflexivity|].
  split; [|split_and!; [done|done|by rewrite Hb, c_str_idem]].
  eapply on_message_hit; [exact Hcb'|]. unfold store_callback. by erewrite bind_ret by exact Es.
Qed.

(** * What a firing timer sends *)

(** A firing timer publishes the notifier's current message: with the
    client connected, exactly one message goes to Paho, on the notifier's
    topic, retained, with QoS 1 and the JSON text of the message last set;
    nothing else changes. *)
Theorem publish_once_sends n nf c cl p payload w :
  w_notifiers w !! n = Some nf -> n_client nf = Some c -> w_clients w !! c = Some cl ->
  m_isconnected cl = true -> m_client cl = Some p -> p_connected p = true -> to_json (n_msg nf) = Some payload ->
  publish_once n w =
    (Ret tt, set_clients (<[c := put_client (Some (snd (p_publish (n_topic nf) payload 1 true p))) cl]> (w_clients w)) w).
Proof.
  intros Hn Hc Hcl Hup Hp Hconn Hj. unfold publish_once. run (notifier_run w n nf Hn). rewrite Hc.
  assert (client_do c (gets m_isconnected) w = (Ret true, w)) as E1.
  { unfold client_do. rewrite Hcl. simpl. rewrite Hup, insert_id by done. by destruct w. }
  run E1. run_pure. run (notifier_run w n nf Hn). rewrite Hj. run_pure.
  assert (client_do c (publish (n_topic nf) payload 1 true false) w =
    (Ret [], set_clients (<[c := put_client (Some (snd (p_publish (n_topic nf) payload 1 true p))) cl]> (w_clients w)) w)) as E2.
  { unfold client_do. rewrite Hcl. unfold publish.
    erewrite bind_ret; [|erewrite assert_connected_run by exact Hp; by rewrite Hconn, Hup]. cbv beta.
    erewrite bind_ret by (apply call_run; exact Hp). cbv beta. change (clamp_qos 1) with 1%Z.
    by destruct (p_publish (n_topic nf) payload 1 true p) as [[] ?]. }
  by run E2.
Qed.
End system.

(** * A concrete service *)

#[local] Existing Instance toy_json.

Definition ex_time (_ : Z) : string := "now".
Definition ex_config : MqttDeviceConfig :=
  mkMqttDeviceConfig 7 "tcp" "broker" 1883 ["ota/7/app/response"] [1%Z] [get_device_group_mudule_hash "query" 7 "app"] [60%Z].
Definition ex_start : world memory toy_paho :=
  mkWorld (mkMemory ["pool"; "mq"] ∅ ∅) new_CallbackManager ∅ ∅ (new_TimerManager 100)
    (mkOTAMqttManager false 0 ∅ "" "") [] 0 100.
Definition ex_built : world memory toy_paho :=
  post (new_OTAMqttManager false "pool" "mq" (Some [ex_config])) ex_start.
Definition ex_world : world memory toy_paho := set_mgr (set_running true (w_mgr ex_built)) ex_built.
Definition ex_device : OTADevice := mkOTADevice 7 false 0 ["ota/7/app/response"] [1%Z] None.
Definition ex_notified : world memory toy_paho := post (ota_notify ex_time 7 "app" "1.0") ex_world.
Definition ex_http : OTAHttpManager := mkOTAHttpManager "pool" "/srv/" "".

Lemma ex_heaps : heaps_ok (w_timers ex_start) (w_notifiers ex_start) (w_alloc ex_start).
Proof.
  split; simpl; try (intros ? [? H]; done); try done.
  split; [|intros a t H; done]. split; [constructor|]. intros a Ha. by apply not_elem_of_nil in Ha.
Qed.

Lemma ex_config_ok : config_ok ex_config.
Proof. split; [unfold in_uint; simpl; lia|]. split; simpl; lia. Qed.

Lemma ex_world_ok : manager_ok ex_world.
Proof.
  destruct (add_all_ok ex_time false [ex_config] (set_mgr (mkOTAMqttManager false 0 ∅ "pool" "mq") ex_start))
    as (w & E & H); [by repeat constructor; apply ex_config_ok|apply new_manager_ok, ex_heaps|].
  assert (ex_built = w) as <-.
  { unfold ex_built, post. change (new_OTAMqttManager _ _ _ _ _) with
      (add_all false [ex_config] (set_mgr (mkOTAMqttManager false 0 ∅ "pool" "mq") ex_start)). by rewrite E. }
  destruct H as [H1 H2 H3 H4 H5 H6]. by split.
Qed.

Lemma ex_up : up (Healthy := memory_healthy ["pool"; "mq"]) (w_redis ex_world).
Proof. split; [done|]. vm_compute. intros H. repeat (apply elem_of_cons in H as [H|H]; [discriminate H|]). by apply not_elem_of_nil in H. Qed.


Lemma notify_announces_witness :
  exists d' w', ota_notify ex_time 7 "app" "1.0" ex_world = (Ret 1%Z, w') /\
    announced ex_time ex_world w' ex_device d' "app" "1.0".
Proof.
  destruct (notify_announces ex_time ["pool"; "mq"] _ 7 ex_device "app" "1.0" ex_world) as (d' & w' & E & _ & _ & H & _);
    [apply ex_world_ok|reflexivity|constructor|apply ex_up|]. by exists d', w'.
Defined.

Lemma stop_silences_witness :
  exists z w', ota_stop_notify 7 "app" "1.0" ex_notified = (Ret z, w') /\ forall x, ~ armed (w_timers w') x (Plain 1).
Proof.
  destruct (stop_silences 7 (with_notifier (Some 1) ex_device) 1 "app" "1.0" ex_notified) as (z & w' & E & _ & H & _).
  - destruct (mgr_exec_notify ex_time false 7 "app" "1.0" ex_world ex_world_ok) as (w & E & H).
    assert (ex_notified = w) as ->; [|exact H].
    unfold ex_notified, post. unfold mgr_exec, mbind, prog_bind in E.
    destruct (ota_notify ex_time 7 "app" "1.0" ex_world) as [[] ?]; by injection E.
  - vm_compute. reflexivity.
  - reflexivity.
  - intros x [Hx _]. vm_compute in Hx. apply list_elem_of_singleton in Hx as ->. vm_compute. reflexivity.
  - by exists z, w'.
Defined.

Definition ex_queued : world memory toy_paho :=
  set_redis (mkMemory ["pool"; "mq"] ∅ {[get_message_queue_hash := ["b"; "a"]]}) ex_world.

Lemma ex_queued_up : up (Healthy := memory_healthy ["pool"; "mq"]) (w_redis ex_queued).
Proof. apply ex_up. Qed.

Lemma consumer_drains_queue_witness :
  exists w', redis_message_queue_thread_run 3 5 ex_queued = (Ret (Looping 0), w') /\ w_scheduled w' = ["a"; "b"].
Proof.
  destruct (consumer_drains_queue ["pool"; "mq"] _ 0 5 ex_queued) as (w' & E & H & _);
    [by do 2 constructor|apply ex_queued_up|reflexivity|]. by exists w'.
Defined.

Lemma consumer_gives_up_witness :
  redis_message_queue_thread_run 11 0 (set_redis (mkMemory ["pool"] ∅ ∅) ex_world) =
    (Ret Exited, set_redis (mkMemory ["pool"] ∅ ∅) ex_world).
Proof.
  destruct (consumer_gives_up (set_redis (mkMemory ["pool"] ∅ ∅) ex_world) 0) as [_ H]. apply H; reflexivity.
Defined.

Definition ex_request : HttpRequest := toy_request POST "/ota/notify" "full".

Lemma ex_asks : asks_notify (true : @json toy_json) 7 "app" "1.0".
Proof. by split. Qed.

Lemma notify_end_to_end_witness :
  exists h w1 w2 d', handle_notify ex_http ex_request (mkHstate (w_redis ex_world) (new_HttpResponse 17 true) None) = (Ret 1%Z, h) /\
    consumer_turn 0 (set_redis (h_redis h) ex_world) = (Ret (Looping 0), w1) /\
    run_command ex_time 0 w1 = (Ret tt, w2) /\ announced ex_time ex_world w2 ex_device d' "app" "1.0".
Proof.
  destruct (notify_end_to_end ex_time ["pool"; "mq"] _ ex_http ex_request (new_HttpResponse 17 true)
    (true : @json toy_json) 7 ex_device "app" "1.0" 0 ex_world)
    as (h & w1 & w2 & d' & E1 & _ & E2 & E3 & _ & _ & _ & _ & H);
    [done|reflexivity|reflexivity|reflexivity|apply ex_asks|apply ex_world_ok|reflexivity|reflexivity|constructor
    |constructor|by do 2 constructor|apply ex_up|reflexivity|intros v Hv; discriminate Hv|].
  exists h, w1, w2, d'. split_and!; [exact E1|exact E2|exact E3|exact H].
Defined.

Definition ex_empty : world memory toy_paho := set_mgr (mkOTAMqttManager true 0 ∅ "pool" "mq") ex_start.

Lemma reported_state_is_queried_witness :
  exists w' r h, add_device false ex_config ex_empty = (Ret true, w') /\
    message_arrived (Some (w_cbmgr w')) "ota/7/app/response" "ready" (w_redis w') = (Ret tt, r) /\
    handle_query ex_http ex_request (mkHstate r (new_HttpResponse 17 true) None) = (Ret 1%Z, h) /\
    r_status (h_rsp h) = 200%Z /\ r_body (h_rsp h) = "ready".
Proof.
  apply (reported_state_is_queried false ["pool"; "mq"] (memory_healthy _) ex_config 0 "ota/7/app/response" "ready"
    ex_http ex_request (new_HttpResponse 17 true) (true : @json toy_json) 7 "app" ex_empty);
    [apply ex_config_ok|apply NoDup_singleton|reflexivity|reflexivity|reflexivity|done|reflexivity..|constructor
    |constructor|apply ex_up].
Defined.

Definition ex_client : MqttClient toy_paho :=
  set_isconnected true (put_client (Some (mkToyPaho true [])) (new_MqttClient false "tcp" 1883 "broker" "7")).
Definition ex_publishing : world memory toy_paho :=
  set_notifiers {[1 := mkOTANotifier true "t" (Some 0) None new_OTAMessage 10000]} (set_clients {[0 := ex_client]} ex_start).

Lemma publish_once_sends_witness : exists w', publish_once 1 ex_publishing = (Ret tt, w') /\
  (w_clients w' !! 0 ≫= m_client) = Some (mkToyPaho true [("t", default "" (to_json new_OTAMessage), 1%Z, true)]).
Proof.
  eexists. split.
  - apply (publish_once_sends 1 (mkOTANotifier true "t" (Some 0) None new_OTAMessage 10000) 0 ex_client (mkToyPaho true [])
      (default "" (to_json new_OTAMessage))); reflexivity.
  - reflexivity.
Defined.

(** ** What the code does not guard against *)

(** Removing a device leaves the timer of its notifier armed: when it fires,
    the notifier it calls is gone. *)
Lemma removed_device_timer_dangles :
  let w := post (mgr_run ex_time false [MNotify 7 "app" "1.0"; MRemove 7; MClock 20000]) ex_world in
  out timer_tick w = Ret [1] /\ out (publish_once 1) w = Crash NullDeref.
Proof. vm_compute. done. Qed.

(** Notifying a second module of a device leaves the first module's timer
    armed, and both publish the second module's message on the first one's
    topic. *)
Lemma second_module_shares_notifier :
  let w := post (mgr_run ex_time false [MNotify 7 "app" "1.0"; MNotify 7 "gps" "2.0"]) ex_world in
  m_timers (w_timers w) = [2; 3] /\
  (fun n => (n_topic n, o_name (n_msg n))) <$> w_notifiers w !! 1 = Some ("/ota/7/app/notify", "gps").
Proof. vm_compute. done. Qed.

(** Two threads that remove the same device both pass the test and the count
    drops below zero. *)
Lemma remove_race :
  out (ok1 ← remove_check 7; ok2 ← remove_check 7; remove_commit 7;; remove_commit 7;; mret (ok1, ok2)) ex_world =
    Ret (true, true) /\
  g_device_counts (w_mgr (post (remove_commit 7;; remove_commit 7) ex_world)) = (2 ^ 64 - 1)%Z.
Proof. vm_compute. done. Qed.
