(* ===== verification/OtaResponder.v ===== *)
(** [sherry/ota_query_responder.cc], [sherry/ota_subscribe_download.cc],
    [sherry/ota/ota_servlet.cc] and [FormatOtaPrex] of [sherry/util.cc]: the
    objects that ask a device, subscribe to its answers and store them.

    They share the clients of a [MqttClientManager]; the state is the manager
    and the clients by the number of their creation.  Log messages, and the
    callbacks that only log, are left out. *)

From stdpp Require Import base list gmap strings pretty.
From S2P Require Import Prelude MachineInt Http Redis OtaHttp Mqtt.
From Stdlib Require Import ZArith Lia String.
Local Open Scope string_scope.

Definition FormatOtaPrex (device_type device_no : Z) : string :=
  "/ota/" ++ dec (wrap 16 device_type) ++ (if (wrap 32 device_no =? 0)%Z then "" else "/" ++ dec (wrap 32 device_no)).

Record rworld (P : Type) : Type := mkRWorld { rw_mgr : MqttClientManager; rw_clients : gmap nat (MqttClient P) }.
Arguments mkRWorld {P}. Arguments rw_mgr {P}. Arguments rw_clients {P}.

Section responder.
Context {P : Type} `{!Json, !Paho P}.
Variables (m_protocol m_host : string) (m_port : Z).   (* the manager's server *)
Variable junk : bool.                                  (* uninitialised storage *)
Variable time : string.                                (* getCurrentTimeString *)
Abbreviation rprog := (prog (rworld P)).

(** [MqttClientManager::get_client], with the object it makes. *)
Definition get_client_object (device_type : Z) : rprog (option nat) := fun w =>
  let '(c, m) := get_client device_type (rw_mgr w) in
  let cs := match c with
            | Some c => if bool_decide (is_Some (cm_clients (rw_mgr w) !! device_type)) then rw_clients w
                        else <[c := new_MqttClient junk m_protocol m_port m_host (dec (cm_client_id (rw_mgr w)))]> (rw_clients w)
            | None => rw_clients w
            end in
  (Ret c, mkRWorld m cs).
(** A call through a shared pointer. *)
Definition on_client {A} (c : option nat) (p : prog (MqttClient P) A) : rprog A := fun w =>
  match c ≫= fun c => cl ← rw_clients w !! c; Some (c, cl) with
  | None => (Crash NullDeref, w)
  | Some (c, cl) => let '(a, cl') := p cl in (a, mkRWorld (rw_mgr w) (<[c := cl']> (rw_clients w)))
  end.
Definition get_isconnected (c : option nat) : rprog bool := on_client c (gets m_isconnected).
(** [if(!get_isconnected()) connect(true);], and whether it is up then. *)
Definition ensure_connected (c : option nat) : rprog bool :=
  up ← get_isconnected c;
  (if (up : bool) then mret tt else on_client c (connect true));;
  get_isconnected c.

(** * [OTAQueryResponder] *)

(** [q_manager]: whether the pointer to the manager is set. *)
Record OTAQueryResponder : Type := mkResponder { q_device_type : Z; q_device_no : Z; q_manager : bool; q_client : option nat }.

Definition new_OTAQueryResponder (device_type device_no : Z) (cli_mgr : bool) : rprog OTAQueryResponder :=
  if negb cli_mgr then crash NullDeref else
  c ← get_client_object device_type;
  mret (mkResponder device_type device_no cli_mgr c).

Definition format_payload (action : string) : rprog string :=
  match json_dump [("action", JStr action); ("time", JStr time)] with Some s => mret s | None => throw "json" end.

(** The block under the write lock, without a client: what the manager gives
    is not stored, [m_client] is read again. *)
Definition without_client (q : OTAQueryResponder) (act : option nat -> rprog unit) : rprog unit :=
  if negb (q_manager q) then mret tt else
  get_client_object (q_device_type q);;
  match q_client q with
  | None => mret tt
  | Some c =>
      on_client (Some c) (connect true);;
      up ← get_isconnected (Some c);
      if (up : bool) then act (Some c) else mret tt
  end.
Definition with_client (q : OTAQueryResponder) (act : option nat -> rprog unit) : rprog unit :=
  match q_client q with
  | Some c => up ← ensure_connected (Some c); if (up : bool) then act (Some c) else mret tt
  | None => without_client q act
  end.

Definition query_topic (q : OTAQueryResponder) : string := FormatOtaPrex (q_device_type q) (q_device_no q) ++ "/query/".
Definition send_query (topic payload : string) (qos : Z) (retain : bool) (c : option nat) : rprog unit :=
  on_client c (publish topic payload qos retain false);; mret tt.
Definition publish_query (action : string) (qos : Z) (retain : bool) (q : OTAQueryResponder) : rprog unit :=
  payload ← format_payload action;
  with_client q (send_query (query_topic q) payload qos retain).

Definition subscribe_responder (sub_topic : string) (qos : Z) (q : OTAQueryResponder) : rprog unit :=
  with_client q (fun c => on_client c (subscribe sub_topic qos true)).

(** Here an unconnected client is connected instead of unsubscribed. *)
Definition subscribe_on_success (pub_topic sub_topic : string) (q : OTAQueryResponder) : rprog unit :=
  match q_client q with
  | Some c =>
      up ← get_isconnected (Some c);
      ok ← (if (up : bool) then on_client (Some c) (unsubscribe sub_topic false);; mret true
            else on_client (Some c) (connect true);; get_isconnected (Some c));
      if (ok : bool) then send_query pub_topic "" 1 false (Some c) else mret tt
  | None => without_client q (send_query pub_topic "" 1 false)
  end.

(** * [OTASubscribeDownload] *)

(** [m_callback_manager] is kept and never used. *)
Record OTASubscribeDownload : Type := mkDownload { s_topic : string; s_device_type : Z; s_device_no : Z; s_manager : bool; s_client : option nat }.
Definition new_OTASubscribeDownload (topic : string) (device_type device_no : Z) (cli_mgr : bool) : rprog OTASubscribeDownload :=
  if negb cli_mgr then crash NullDeref else
  c ← get_client_object device_type;
  mret (mkDownload topic device_type device_no cli_mgr c).
(** Here the manager's client is stored, and used without a test for null. *)
Definition subscribe_download (topic : string) (qos : Z) (s : OTASubscribeDownload) : rprog OTASubscribeDownload :=
  match s_client s with
  | Some c =>
      up ← ensure_connected (Some c);
      (if (up : bool) then on_client (Some c) (subscribe topic qos true) else mret tt);; mret s
  | None =>
      if negb (s_manager s) then mret s else
      c ← get_client_object (s_device_type s);
      let s' := mkDownload (s_topic s) (s_device_type s) (s_device_no s) (s_manager s) c in
      up ← ensure_connected c;
      (if (up : bool) then on_client c (subscribe topic qos true) else mret tt);; mret s'
  end.
(** The callback of the subscription: a failure subscribes again. *)
Definition download_result (topic : string) (res : Z) (s : OTASubscribeDownload) : rprog unit :=
  if (res =? -1)%Z then on_client (s_client s) (subscribe topic 1 false) else mret tt.

(** * What is sent *)

Lemma on_client_run {A} c cl (p : prog (MqttClient P) A) a cl' w : rw_clients w !! c = Some cl -> p cl = (a, cl') ->
  on_client (Some c) p w = (a, mkRWorld (rw_mgr w) (<[c := cl']> (rw_clients w))).
Proof. intros Hc Hp. unfold on_client. simpl. rewrite Hc. simpl. by rewrite Hp. Qed.

Lemma get_isconnected_run c cl w : rw_clients w !! c = Some cl -> get_isconnected (Some c) w = (Ret (m_isconnected cl), w).
Proof.
  intros Hc. unfold get_isconnected. erewrite on_client_run; [|done|reflexivity]. destruct w as [m cs]. simpl in *.
  by rewrite insert_id.
Qed.

Lemma connect_run cl p opts : m_client cl = Some p ->
  connect opts cl = if p_connected p then (Crash AssertFail, cl) else
    let '(ok, p') := p_connect (if opts then Some (m_connOpts cl) else None) p in
    (Ret tt, if ok then set_isconnected true (put_client (Some p') cl) else put_client (Some p') cl).
Proof.
  intros Hp. unfold connect. unfold paho at 1.
  assert (of_option NullDeref (m_client cl) cl = (Ret p, cl)) as E by (by rewrite Hp). erewrite bind_ret by exact E.
  destruct (p_connected p); [done|]. run_pure. run (call_run (p_connect (if opts then Some (m_connOpts cl) else None)) cl p Hp).
  by destruct (p_connect _ p) as [[] p'].
Qed.

(** What a query does to the client: nothing when the broker refuses. *)
Definition queried (topic payload : string) (qos : Z) (retain : bool) (p : P) (o : connect_options) : P :=
  if p_connected p then snd (p_publish topic payload (clamp_qos qos) retain p) else
  let '(ok, p') := p_connect (Some o) p in
  if ok then snd (p_publish topic payload (clamp_qos qos) retain p') else p'.

Lemma send_query_run topic payload qos retain c cl p w : rw_clients w !! c = Some cl -> m_client cl = Some p ->
  p_connected p = true -> m_isconnected cl = true ->
  exists w' cl', send_query topic payload qos retain (Some c) w = (Ret tt, w') /\
    rw_clients w' = <[c := cl']> (rw_clients w) /\ rw_mgr w' = rw_mgr w /\
    m_client cl' = Some (snd (p_publish topic payload (clamp_qos qos) retain p)) /\ m_isconnected cl' = true.
Proof.
  intros Hc Hp Hup Hi. pose proof (publish_behaviour topic payload qos retain false cl p Hp) as Hb. cbv zeta in Hb.
  destruct (p_publish topic payload (clamp_qos qos) retain p) as [ok p'] eqn:Ep. destruct Hb as (_ & _ & Hb). rewrite Hup, Hi in Hb.
  destruct Hb as (cl' & E & Hp' & Hi' & _). exists (mkRWorld (rw_mgr w) (<[c := cl']> (rw_clients w))), cl'. split_and!; [|reflexivity|reflexivity|done|done].
  unfold send_query. erewrite bind_ret; [reflexivity|]. by eapply on_client_run.
Qed.

(** C40: a query, when the broker and the flag of the client agree, is
    published once on the topic of the device - after a connection when there
    is none, and not at all when the connection is refused; other clients are
    left alone.  When they disagree the process aborts. *)
Theorem query_published `{!PahoLaws P} q action qos retain c cl p payload w :
  q_client q = Some c -> rw_clients w !! c = Some cl -> m_client cl = Some p ->
  json_dump [("action", JStr action); ("time", JStr time)] = Some payload ->
  if Bool.eqb (p_connected p) (m_isconnected cl) then
    exists w' cl', publish_query action qos retain q w = (Ret tt, w') /\ rw_mgr w' = rw_mgr w /\
      rw_clients w' = <[c := cl']> (rw_clients w) /\
      m_client cl' = Some (queried (query_topic q) payload qos retain p (m_connOpts cl))
  else out (publish_query action qos retain q) w = Crash AssertFail.
Proof.
  intros Hq Hc Hp Hj. unfold out, publish_query, format_payload, with_client. rewrite Hj, Hq. run_pure.
  unfold ensure_connected. rewrite !bind_assoc. run (get_isconnected_run c cl w Hc).
  destruct (m_isconnected cl) eqn:Hi; simpl Bool.eqb.
  - rewrite bind_assoc. run_pure. run (get_isconnected_run c cl w Hc). rewrite Hi. destruct (p_connected p) eqn:Hup; simpl.
    + destruct (send_query_run (query_topic q) payload qos retain c cl p w) as (w' & cl' & E & H1 & H2 & H3 & _); [done..|].
      exists w', cl'. unfold queried. by rewrite Hup.
    + unfold send_query. erewrite bind_crash; [reflexivity|]. eapply on_client_run; [done|]. unfold publish.
      erewrite bind_crash; [reflexivity|]. rewrite (assert_connected_run cl p Hp), Hup, Hi. reflexivity.
  - pose proof (connect_run cl p true Hp) as E. destruct (p_connected p) eqn:Hup; simpl.
    + rewrite bind_assoc. erewrite bind_crash; [reflexivity|]. by eapply on_client_run.
    + destruct (p_connect (Some (m_connOpts cl)) p) as [ok p'] eqn:Ec. rewrite bind_assoc.
      erewrite bind_ret by (eapply on_client_run; [exact Hc|exact E]). cbv beta.
      erewrite bind_ret; [|apply get_isconnected_run; apply lookup_insert_eq]. cbv beta.
      unfold queried. rewrite Hup, Ec. destruct ok; simpl m_isconnected.
      * destruct (send_query_run (query_topic q) payload qos retain c (set_isconnected true (put_client (Some p') cl)) p'
          (mkRWorld (rw_mgr w) (<[c := set_isconnected true (put_client (Some p') cl)]> (rw_clients w)))) as (w' & cl' & E' & H1 & H2 & H3 & _);
          [apply lookup_insert_eq|done|by eapply law_connect|done|].
        exists w', cl'. split_and!; [exact E'|exact H2| |exact H3]. rewrite H1. simpl. by rewrite insert_insert_eq.
      * change (m_isconnected (put_client (Some p') cl)) with (m_isconnected cl). rewrite Hi.
        exists (mkRWorld (rw_mgr w) (<[c := put_client (Some p') cl]> (rw_clients w))), (put_client (Some p') cl). done.
Qed.

(** The numbers of the clients there are. *)
Definition numbered (w : rworld P) : Prop := forall c, is_Some (rw_clients w !! c) -> (c < Z.to_nat (cm_client_id (rw_mgr w)))%nat.

(** Without a client nothing is sent: the client the manager gives is not
    stored, and the responder keeps its null pointer. *)
Lemma query_without_client q action qos retain w : q_client q = None -> numbered w ->
  (exists payload, json_dump [("action", JStr action); ("time", JStr time)] = Some payload) ->
  exists w', publish_query action qos retain q w = (Ret tt, w') /\ forall c cl, rw_clients w !! c = Some cl -> rw_clients w' !! c = Some cl.
Proof.
  intros Hq Hn [payload Hj]. unfold publish_query, format_payload, with_client, without_client. rewrite Hj, Hq. run_pure.
  destruct (q_manager q); simpl; [|by eexists]. unfold get_client_object, get_client, mbind, prog_bind.
  destruct (q_device_type q <? 0)%Z; [by eexists|]. destruct (cm_clients (rw_mgr w) !! q_device_type q) as [c0|] eqn:E; simpl; [by eexists|].
  eexists. split; [reflexivity|]. intros c cl Hc. simpl.
  rewrite lookup_insert_ne; [done|]. intros <-. assert (is_Some (rw_clients w !! Z.to_nat (cm_client_id (rw_mgr w)))) as Hs by eauto. apply Hn in Hs. lia.
Qed.
End responder.

(** * [OTAServletManager] *)

Section servlets.
Context {R : Type} `{!RedisServer R, !RedisLaws R}.

(** [m_cb_mgr] may be null. *)
Definition add_servlet (m_redis_pool_name topic redis_key : string) (expire_seconds : Z)
    : prog (option (OTAClientCallbackManager R)) unit := fun m =>
  match m with
  | None => (Crash NullDeref, None)
  | Some m => (Ret tt, Some (regist_callback topic
      (Some (fun _ payload => redis_safe_set_key_value m_redis_pool_name redis_key payload expire_seconds;; mret tt)) m))
  end.

(** What arrives on a topic with a servlet is stored under its key, or the
    store failed; no other key changes. *)
Lemma servlet_stores pool topic key e m m' payload s : add_servlet pool topic key e (Some m) = (Ret tt, Some m') ->
  exists z s', redis_safe_set_key_value pool key payload e s = (Ret z, s') /\ on_message m' topic payload s = (Ret tt, s') /\
    others_kept (c_str key) s s' /\ (z = 1%Z -> kv s' !! c_str key = Some (c_str payload)).
Proof.
  intros [= <-]. destruct (safe_set_spec pool key payload e s) as (z & s' & E & _ & Hk & Hv).
  exists z, s'. split_and!; [done| |done|done]. eapply on_message_hit; [apply lookup_insert_eq|]. cbv beta. by run E.
Qed.
End servlets.

(** * On a concrete broker *)

Module Toy.
#[local] Instance action_json : Json := {|
  json := unit; json_parse _ := None; json_contains _ _ := false; json_uint16 _ _ := None; json_string _ _ := None;
  json_dump l := match l with (_, JStr a) :: _ => Some a | _ => None end |}.
Definition empty_world : rworld toy_paho := mkRWorld (mkClientManager ∅ 0 0) ∅.
Definition make (device_type : Z) : prog (rworld toy_paho) OTAQueryResponder := new_OTAQueryResponder "tcp" "h" 1883 false device_type 0 true.
Definition logs (w : rworld toy_paho) : list (list (string * string * Z * bool)) :=
  (fun kc => match m_client kc.2 with Some p => tp_log p | None => [] end) <$> map_to_list (rw_clients w).
Definition query (q : OTAQueryResponder) : prog (rworld toy_paho) unit := publish_query "tcp" "h" 1883 false "now" "getVersion" 1 true q.

Example a_query : logs (post (q ← make 1; query q) empty_world) = [[("/ota/1/query/", "getVersion", 1%Z, true)]].
Proof. by vm_compute. Qed.
(** A responder without a client: the manager makes one, which is not used. *)
Example unused_client : logs (post (query (mkResponder 1 0 true None)) empty_world) = [[]].
Proof. by vm_compute. Qed.
(** A device number above 16 bits shares the topic of another type. *)
Example type_wraps : logs (post (q ← make 65537; query q) empty_world) = [[("/ota/1/query/", "getVersion", 1%Z, true)]].
Proof. by vm_compute. Qed.
(** A negative device type: the query responder keeps silent, the download
    subscription aborts. *)
Example negative_type : logs (post (q ← make (-1); query q) empty_world) = [] /\
  out (s ← new_OTASubscribeDownload "tcp" "h" 1883 false "t" (-1) 0 true; subscribe_download "tcp" "h" 1883 false "t" 1 s) empty_world = Crash NullDeref.
Proof. by vm_compute. Qed.
(** A subscription that failed since the connection was lost is tried again,
    and aborts. *)
Example retry_aborts :
  out (s ← new_OTASubscribeDownload "tcp" "h" 1883 false "t" 1 0 true; s ← subscribe_download "tcp" "h" 1883 false "t" 1 s;
       on_client (s_client s) connection_lost;; download_result "t" (-1) s) empty_world = Crash AssertFail.
Proof. by vm_compute. Qed.
Definition ready : rworld toy_paho := post (make 1) empty_world.
Lemma query_published_witness :
  exists w' cl', publish_query "tcp" "h" 1883 false "now" "getVersion" 1 true (mkResponder 1 0 true (Some 0%nat)) ready = (Ret tt, w') /\
    rw_mgr w' = rw_mgr ready /\ rw_clients w' = <[0%nat := cl']> (rw_clients ready) /\
    m_client cl' = Some (mkToyPaho true [("/ota/1/query/", "getVersion", 1%Z, true)]).
Proof.
  exact (query_published "tcp" "h" 1883 false "now" (mkResponder 1 0 true (Some 0%nat)) "getVersion" 1 true 0
    (new_MqttClient false "tcp" 1883 "h" "0") (mkToyPaho false []) "getVersion" ready eq_refl eq_refl eq_refl eq_refl).
Defined.
End Toy.
