(* ===== verification/Thread.v ===== *)
(** [sherry/thread.h] and [sherry/thread.cc]: the locks with their guards, the
    semaphore, and the life of a [Thread] - its creator and the new thread
    taking turns in any order.

    A lock is an instance of [Lockable]: an attempt to take it, which says
    whether it succeeded, and [unlock].  What pthread documents of a mutex, a
    spin lock and a read-write lock is their instance; [CASLock] is the code's
    own loop.  [LockLaws] is what a lock promises, and the guards' theorem is
    proved against it. *)

From stdpp Require Import base list strings.
From S2P Require Import Prelude.
From Stdlib Require Import ZArith Lia.

(** * Locks *)

Inductive mode : Type := Read | Write.
#[export] Instance mode_eq_dec : EqDecision mode.
Proof. solve_decision. Defined.

Class Lockable (L : Type) : Type := {
  fresh_lock : L;
  try_lock : mode -> L -> bool * L;   (* one attempt; [Read] is [rdlock] *)
  unlock : L -> L;
  has_rdlock : bool
}.

(** [Mutex] and [Spinlock]. *)
Record Mutex : Type := mkMutex { m_taken : bool }.
#[export] Instance Mutex_lock : Lockable Mutex := {|
  fresh_lock := mkMutex false;
  try_lock _ l := if m_taken l then (false, l) else (true, mkMutex true);
  unlock _ := mkMutex false;
  has_rdlock := false |}.

(** [RWMutex] *)
Record RWMutex : Type := mkRWMutex { rw_writer : bool; rw_readers : nat }.
#[export] Instance RWMutex_lock : Lockable RWMutex := {|
  fresh_lock := mkRWMutex false 0;
  try_lock m l := match m with
    | Read => if rw_writer l then (false, l) else (true, mkRWMutex false (S (rw_readers l)))
    | Write => if rw_writer l || negb (rw_readers l =? 0) then (false, l) else (true, mkRWMutex true 0)
    end;
  unlock l := if rw_writer l then mkRWMutex false (rw_readers l) else mkRWMutex false (pred (rw_readers l));
  has_rdlock := true |}.

(** [CASLock]: a turn of the loop sets the flag and looks at what it was. *)
Record CASLock : Type := mkCAS { cas_flag : bool }.
Definition test_and_set (l : CASLock) : bool * CASLock := (cas_flag l, mkCAS true).
#[export] Instance CASLock_lock : Lockable CASLock := {|
  fresh_lock := mkCAS false;
  try_lock _ l := let '(old, l') := test_and_set l in (negb old, l');
  unlock _ := mkCAS false;
  has_rdlock := false |}.

(** [NullMutex]; the guards of [NullRWMutex] are of this type too. *)
Inductive NullMutex : Type := mkNull.
#[export] Instance NullMutex_lock : Lockable NullMutex := {|
  fresh_lock := mkNull; try_lock _ l := (true, l); unlock l := l; has_rdlock := false |}.

(** What a lock promises: the number of writers and of readers that hold it. *)
Class LockLaws (L : Type) `{!Lockable L} : Type := {
  view : L -> nat * nat;
  law_fresh : view fresh_lock = (0, 0);
  law_busy : forall m l l', try_lock m l = (false, l') -> view l' = view l /\ view l <> (0, 0);
  law_write : forall l l', try_lock Write l = (true, l') -> view l = (0, 0) /\ view l' = (1, 0);
  law_read : has_rdlock = true -> forall l l', try_lock Read l = (true, l') ->
    exists n, view l = (0, n) /\ view l' = (0, S n);
  law_unlock_write : forall l, view l = (1, 0) -> view (unlock l) = (0, 0);
  law_unlock_read : forall l n, view l = (0, S n) -> view (unlock l) = (0, n)
}.

#[export] Program Instance Mutex_laws : LockLaws Mutex := {| view l := (if m_taken l then 1 else 0, 0) |}.
Next Obligation. done. Qed.
Next Obligation. intros m [[]] l' [= <-]. done. Qed.
Next Obligation. intros [[]] l' [= <-]. done. Qed.
Next Obligation. done. Qed.
Next Obligation. by intros [[]]. Qed.
Next Obligation. by intros [[]]. Qed.

#[export] Program Instance CASLock_laws : LockLaws CASLock := {| view l := (if cas_flag l then 1 else 0, 0) |}.
Next Obligation. done. Qed.
Next Obligation. intros m [[]] l' [= <-]. done. Qed.
Next Obligation. intros [[]] l' [= <-]. done. Qed.
Next Obligation. done. Qed.
Next Obligation. by intros [[]]. Qed.
Next Obligation. by intros [[]]. Qed.

#[export] Program Instance RWMutex_laws : LockLaws RWMutex :=
  {| view l := if rw_writer l then (1, rw_readers l) else (0, rw_readers l) |}.
Next Obligation. done. Qed.
Next Obligation. by intros [] [[] [|n]] l' [= <-]. Qed.
Next Obligation. by intros [[] [|n]] l' [= <-]. Qed.
Next Obligation. intros _ [[] n] l' [= <-]. by exists n. Qed.
Next Obligation. by intros [[] n]; simpl; intros [= ->]. Qed.
Next Obligation. by intros [[] n] k; simpl; intros [= ->]. Qed.

(** * Guards: [ScopedLockImpl], [ReadScopedLockImpl], [WriteScopedLockImpl] *)

Section guards.
Context {L : Type} `{!Lockable L}.

(** Where a thread is with its guard: there is none; in [lock] of the mutex;
    the guard is there, with [m_locked]. *)
Inductive place : Type :=
| Outside
| Waiting (m : mode)
| Inside (m : mode) (m_locked : bool).

Record system : Type := mkSystem { s_lock : L; s_threads : list place }.

Inductive event : Type :=
| Construct (i : nat) (m : mode)   (* the constructor, up to the mutex *)
| Try (i : nat)                    (* an attempt inside [lock] of the mutex *)
| Lock (i : nat)
| Unlock (i : nat)
| Destroy (i : nat).

(** [unlock()] of the guard. *)
Definition guard_unlock (m_locked : bool) (l : L) : L := if m_locked then unlock l else l.
Definition put (i : nat) (p : place) (l : L) (s : system) : system := mkSystem l (<[i := p]> (s_threads s)).

Definition step (e : event) (s : system) : system :=
  match e with
  | Construct i m =>
      match s_threads s !! i, m with
      | Some Outside, Write => put i (Waiting Write) (s_lock s) s
      | Some Outside, Read => if has_rdlock then put i (Waiting Read) (s_lock s) s else s
      | _, _ => s
      end
  | Try i =>
      match s_threads s !! i with
      | Some (Waiting m) => let '(ok, l) := try_lock m (s_lock s) in put i (if (ok : bool) then Inside m true else Waiting m) l s
      | _ => s
      end
  | Lock i => match s_threads s !! i with Some (Inside m false) => put i (Waiting m) (s_lock s) s | _ => s end
  | Unlock i => match s_threads s !! i with Some (Inside m b) => put i (Inside m false) (guard_unlock b (s_lock s)) s | _ => s end
  | Destroy i => match s_threads s !! i with Some (Inside m b) => put i Outside (guard_unlock b (s_lock s)) s | _ => s end
  end.
Definition run_events (es : list event) (s : system) : system := foldl (fun s e => step e s) s es.
Definition init (n : nat) : system := mkSystem fresh_lock (replicate n Outside).

Definition holds (m : mode) (p : place) : nat := match p with Inside m' true => if decide (m = m') then 1 else 0 | _ => 0 end.
Definition holders (m : mode) (s : system) : nat := sum_list (holds m <$> s_threads s).

Lemma holders_put i p q l m s : s_threads s !! i = Some p -> holders m (put i q l s) + holds m p = holders m s + holds m q.
Proof.
  unfold holders, put. simpl. destruct s as [l0 ps]. simpl. clear. revert i. induction ps as [|x ps IH]; intros [|i] H; simplify_eq/=; [lia|].
  specialize (IH i H). lia.
Qed.

Context `{!LockLaws L}.

(** The lock knows its holders; no read lock where there is none. *)
Definition lock_ok (s : system) : Prop :=
  view (s_lock s) = (holders Write s, holders Read s) /\ holders Write s <= 1 /\ (holders Write s = 1 -> holders Read s = 0) /\
  (has_rdlock = false -> forall i m, s_threads s !! i = Some (Waiting m) \/ (exists b, s_threads s !! i = Some (Inside m b)) -> m = Write).

Lemma sum_ge {A} (f : A -> nat) l i x : l !! i = Some x -> f x <= sum_list (f <$> l).
Proof. revert i. induction l as [|y l IH]; intros [|i] H; simplify_eq/=; [lia|]. specialize (IH i H). lia. Qed.
Lemma sum_zero {A} (f : A -> nat) l : (forall j p, l !! j = Some p -> f p = 0) -> sum_list (f <$> l) = 0.
Proof. induction l as [|x l IH]; intros H; csimpl; [done|]. rewrite (H 0 x eq_refl). apply IH. intros j p Hp. by apply (H (S j)). Qed.
Lemma sum_ge2 {A} (f : A -> nat) l i j x y : i <> j -> l !! i = Some x -> l !! j = Some y -> f x + f y <= sum_list (f <$> l).
Proof.
  revert i j. induction l as [|z l IH]; intros [|i] [|j] Hij Hi Hj; simplify_eq/=; [..|specialize (IH i j ltac:(congruence) Hi Hj); lia].
  - pose proof (sum_ge f l j y Hj). lia.
  - pose proof (sum_ge f l i x Hi). lia.
Qed.

Lemma put_ok i p q l s : lock_ok s -> s_threads s !! i = Some p ->
  (has_rdlock = false -> q = Waiting Write \/ (exists b, q = Inside Write b) \/ q = Outside) ->
  (forall w r, w + holds Write p = holders Write s + holds Write q -> r + holds Read p = holders Read s + holds Read q ->
     view l = (w, r) /\ w <= 1 /\ (w = 1 -> r = 0)) -> lock_ok (put i q l s).
Proof.
  intros (_ & _ & _ & Hm) Hp Hq Hv. destruct (Hv _ _ (holders_put i p q l Write s Hp) (holders_put i p q l Read s Hp)) as (H1 & H2 & H3).
  split_and!; [exact H1|done|done|]. intros Hr j m. unfold put. simpl. destruct (decide (j = i)) as [->|Hne].
  - rewrite list_lookup_insert_eq by (by eapply lookup_lt_Some). specialize (Hq Hr). intros [[= ->]|[b [= ->]]]; destruct Hq as [?|[[??]|?]]; congruence.
  - rewrite list_lookup_insert_ne by done. by apply Hm.
Qed.

(** Releasing what a guard holds. *)
Lemma guard_release_ok i m b q s : lock_ok s -> s_threads s !! i = Some (Inside m b) -> q = Inside m false \/ q = Outside ->
  lock_ok (put i q (guard_unlock b (s_lock s)) s).
Proof.
  intros Hok Hi Hq. assert (forall m', holds m' q = 0) as Hq0 by (by destruct Hq as [->| ->]).
  pose proof Hok as (Hv & Hw & Hr & Hm). apply (put_ok i (Inside m b)); [done..| |].
  - intros Hrd. destruct Hq as [->| ->]; [|auto]. specialize (Hm Hrd i m (or_intror (ex_intro _ b Hi))) as ->. right; left. by exists false.
  - intros w r. rewrite !Hq0. destruct b; simpl guard_unlock; simpl holds; [|rewrite Hv; intros; split_and!; [f_equal; lia|lia..]].
    pose proof (sum_ge (holds m) _ i _ Hi) as Hge. fold (holders m s) in Hge. simpl in Hge. rewrite decide_True in Hge by done.
    destruct m; simpl; intros H1 H2.
    + destruct (holders Read s) as [|n] eqn:En; [lia|]. assert (holders Write s = 0) as E0 by (destruct (decide (holders Write s = 1)) as [E1|]; [apply Hr in E1; lia|lia]).
      rewrite E0 in Hv, H1. rewrite (law_unlock_read _ _ Hv). split_and!; [f_equal; lia|lia..].
    + assert (holders Write s = 1) as E1 by lia. specialize (Hr E1). rewrite E1, Hr in Hv. rewrite (law_unlock_write _ Hv).
      split_and!; [f_equal; lia|lia..].
Qed.

Lemma lock_ok_step e s : lock_ok s -> lock_ok (step e s).
Proof.
  intros Hok. pose proof Hok as (Hv & Hw & Hr & Hm). destruct e as [i m|i|i|i|i]; simpl; destruct (s_threads s !! i) as [[|m'|m' b]|] eqn:Hi; try done.
  - assert (forall m0, (has_rdlock = false -> m0 = Write) -> lock_ok (put i (Waiting m0) (s_lock s) s)) as H.
    { intros m0 H0. apply (put_ok i Outside); [done..| |].
      - intros Hrd. rewrite (H0 Hrd). auto.
      - intros w r. simpl. rewrite Hv. intros. split_and!; [f_equal; lia|lia..]. }
    destruct m; [|by apply H]. destruct has_rdlock eqn:Hrd; [by apply H|done].
  - destruct (try_lock m' (s_lock s)) as [ok l] eqn:Et. apply (put_ok i (Waiting m')); [done..| |].
    + intros Hrd. specialize (Hm Hrd i m' (or_introl Hi)) as ->. destruct ok; [|auto]. right; left. by exists true.
    + intros w r. destruct ok.
      * destruct m'.
        -- destruct has_rdlock eqn:Hrd; [|by specialize (Hm eq_refl i Read (or_introl Hi))].
           destruct (law_read Hrd _ _ Et) as (n & E1 & E2). rewrite E1 in Hv. injection Hv as E3 E4. rewrite E2. simpl. intros.
           split_and!; [f_equal; lia|lia..].
        -- destruct (law_write _ _ Et) as [E1 E2]. rewrite E1 in Hv. injection Hv as E3 E4. rewrite E2. simpl. intros.
           split_and!; [f_equal; lia|lia..].
      * destruct (law_busy _ _ _ Et) as [E1 _]. rewrite E1, Hv. simpl. intros. split_and!; [f_equal; lia|lia..].
  - destruct b; [done|]. apply (put_ok i (Inside m' false)); [done..| |].
    + intros Hrd. specialize (Hm Hrd i m' (or_intror (ex_intro _ false Hi))) as ->. auto.
    + intros w r. simpl. rewrite Hv. intros. split_and!; [f_equal; lia|lia..].
  - apply (guard_release_ok i m' b); auto.
  - apply (guard_release_ok i m' b); auto.
Qed.

Lemma holders_init m n : holders m (init n) = 0.
Proof. unfold holders, init. simpl. induction n; simpl; [done|]. by destruct m. Qed.
Lemma lock_ok_run es : forall s, lock_ok s -> lock_ok (run_events es s).
Proof. induction es as [|e es IH]; intros s Hs; simpl; [done|]. by apply IH, lock_ok_step. Qed.
Lemma lock_ok_init n : lock_ok (init n).
Proof.
  split_and!; [by rewrite !holders_init, <- law_fresh|rewrite holders_init; lia..|].
  intros _ i m Hi. simpl in Hi. destruct Hi as [H|[b H]]; by apply lookup_replicate in H as [? _].
Qed.

Lemma lock_free_tries i m s : lock_ok s -> s_threads s !! i = Some (Waiting m) -> holders Write s = 0 -> holders Read s = 0 ->
  exists l, try_lock m (s_lock s) = (true, l).
Proof.
  intros (Hv & _) Hi Hw Hr. destruct (try_lock m (s_lock s)) as [[] l] eqn:Et; [by exists l|].
  destruct (law_busy _ _ _ Et) as [_ E]. by rewrite Hw, Hr in Hv.
Qed.

(** C25: any number of threads that use a lock only through guards: whatever
    the order of their constructors, [lock], [unlock] and destructors, a guard
    that writes excludes every other; when no guard holds the lock the next
    attempt takes it; and when all guards are gone the lock is as new. *)
Theorem locks_exclude n es : let s := run_events es (init n) in
  (forall i j m, i <> j -> s_threads s !! i = Some (Inside Write true) -> s_threads s !! j = Some (Inside m true) -> False) /\
  (forall i m, (forall j m', s_threads s !! j <> Some (Inside m' true)) -> s_threads s !! i = Some (Waiting m) ->
     s_threads (step (Try i) s) !! i = Some (Inside m true)) /\
  (Forall (fun p => p = Outside) (s_threads s) -> view (s_lock s) = (0, 0)).
Proof.
  intros s. assert (lock_ok s) as Hok by (apply lock_ok_run, lock_ok_init). pose proof Hok as (Hv & Hw & Hr & _). split_and!.
  - intros i j m Hij Hi Hj. pose proof (sum_ge2 (holds Write) _ i j _ _ Hij Hi Hj) as H2. pose proof (sum_ge (holds m) _ j _ Hj) as H1.
    fold (holders Write s) in H2. fold (holders m s) in H1. destruct m; simpl in *; lia.
  - intros i m Hno Hi. assert (forall m', holders m' s = 0) as H0.
    { intros m'. unfold holders. apply sum_zero. intros j p Hp. destruct p as [| |m0 []]; try done. by destruct (Hno j m0). }
    destruct (lock_free_tries i m s Hok Hi (H0 Write) (H0 Read)) as [l El]. simpl. rewrite Hi, El. simpl.
    apply list_lookup_insert_eq. by eapply lookup_lt_Some.
  - intros Hall. rewrite Hv. assert (forall m, holders m s = 0) as H0; [|by rewrite !H0].
    intros m. unfold holders. apply sum_zero. intros j p Hp. by rewrite (proj1 (Forall_lookup _ _) Hall j p Hp).
Qed.
End guards.
Arguments system L : clear implicits.

(** Two threads with guards of one lock. *)
Definition contend : list event := [Construct 0 Write; Construct 1 Write; Try 0; Try 1; Unlock 0; Try 1; Lock 0; Try 0].
Lemma locks_exclude_witness : let s := run_events contend (init (L := CASLock) 2) in
  s_threads s = [Waiting Write; Inside Write true] /\ s_threads (step (Try 0) (step (Unlock 1) s)) !! 0 = Some (Inside Write true).
Proof.
  split; [reflexivity|]. destruct (locks_exclude (L := CASLock) 2 (contend ++ [Unlock 1])) as (_ & H & _).
  apply (H 0 Write); [|reflexivity]. intros [|[|[|j]]] m'; vm_compute; discriminate.
Defined.
Example readers_share : s_threads (run_events [Construct 0 Read; Construct 1 Read; Construct 2 Write; Try 0; Try 1; Try 2] (init (L := RWMutex) 3)) =
  [Inside Read true; Inside Read true; Waiting Write].
Proof. done. Qed.
(** [NullMutex] keeps nobody out. *)
Example null_mutex_shares : s_threads (run_events [Construct 0 Write; Construct 1 Write; Try 0; Try 1] (init (L := NullMutex) 2)) =
  [Inside Write true; Inside Write true].
Proof. done. Qed.

(** * [Thread] *)

(** A callback is the names it gives to [Thread::SetName] while it runs; an
    empty [std::function] is [None].  [m_thread] is whether there is a handle,
    [m_semaphore] the count. *)
Record Thread : Type := mkThread { m_id : Z; m_thread : bool; m_cb : option (list string); m_name : string; m_semaphore : nat }.
Definition new_Thread (cb : option (list string)) (name : string) : Thread :=
  mkThread (-1) false cb (if String.eqb name "" then "UNKNOW" else name) 0.

(** What the creator does with the object after the constructor. *)
Inductive use : Type := Join | Delete.
Inductive creator : Type := Creating | Waits | Has (uses : list use) | Failed.
(** Where [run] is: its lines in order, then the callback, whose names are
    left. *)
Inductive runner : Type :=
| NotBorn | SetThis | SetsName | SetsId | SetsOsName | Swaps | Notifies (cb : option (list string))
| Calls (cb : option (list string)) | Runs (names : list string) | Ended.

#[export] Instance creator_eq_dec : EqDecision creator.
Proof. assert (EqDecision use) by solve_decision. solve_decision. Defined.
#[export] Instance runner_eq_dec : EqDecision runner.
Proof. solve_decision. Defined.

(** [w_object]: [None] when the object is deleted. [w_this], [w_name]: the
    thread-local [t_thread] and [t_thread_name] of the new thread; [w_os_name]
    the name the system shows; [w_calls] how often the callback was called. *)
Record world : Type := mkWorld {
  w_object : option Thread; w_creator : creator; w_runner : runner;
  w_this : bool; w_name : string; w_os_name : string; w_calls : nat
}.

Section threads.
Variable tid : Z.            (* what [GetThreadId] gives in the new thread *)
Variable uses : list use.    (* what the creator does *)
Variable created : bool.     (* whether [pthread_create] succeeds *)

Definition start_world (cb : option (list string)) (name : string) : world :=
  mkWorld (Some (new_Thread cb name)) Creating NotBorn false "UNKNOW" "" 0.

Definition set_object (o : option Thread) (w : world) : world :=
  mkWorld o (w_creator w) (w_runner w) (w_this w) (w_name w) (w_os_name w) (w_calls w).
Definition set_creator (c : creator) (w : world) : world :=
  mkWorld (w_object w) c (w_runner w) (w_this w) (w_name w) (w_os_name w) (w_calls w).
Definition set_runner (r : runner) (w : world) : world :=
  mkWorld (w_object w) (w_creator w) r (w_this w) (w_name w) (w_os_name w) (w_calls w).
Definition set_names (this : bool) (name os : string) (w : world) : world :=
  mkWorld (w_object w) (w_creator w) (w_runner w) this name os (w_calls w).
Definition called (w : world) : world :=
  mkWorld (w_object w) (w_creator w) (w_runner w) (w_this w) (w_name w) (w_os_name w) (S (w_calls w)).

(** An access of the object; there may be none any more. *)
Definition touch {A} (f : Thread -> A * Thread) : prog world A := fun w =>
  match w_object w with
  | None => (Crash OutOfRange, w)
  | Some o => let '(a, o') := f o in (Ret a, set_object (Some o') w)
  end.
Definition with_name (name : string) (o : Thread) : Thread := mkThread (m_id o) (m_thread o) (m_cb o) name (m_semaphore o).
Definition with_id (id : Z) (o : Thread) : Thread := mkThread id (m_thread o) (m_cb o) (m_name o) (m_semaphore o).
Definition with_cb (cb : option (list string)) (o : Thread) : Thread := mkThread (m_id o) (m_thread o) cb (m_name o) (m_semaphore o).
Definition with_handle (b : bool) (o : Thread) : Thread := mkThread (m_id o) b (m_cb o) (m_name o) (m_semaphore o).
Definition with_count (n : nat) (o : Thread) : Thread := mkThread (m_id o) (m_thread o) (m_cb o) (m_name o) n.

(** [Semaphore] *)
Definition notify (o : Thread) : Thread := with_count (S (m_semaphore o)) o.

(** [Thread::SetName] in the new thread. *)
Definition SetName (name : string) : prog world unit :=
  this ← gets w_this;
  (if (this : bool) then touch (fun o => (tt, with_name name o)) else mret tt);;
  modify (fun w => set_names (w_this w) name (w_os_name w) w).

(** [Thread::run], one line at a time. *)
Definition run_step : prog world unit := fun w =>
  match w_runner w with
  | NotBorn | Ended => (Ret tt, w)
  | SetThis => (modify (fun w => set_names true (w_name w) (w_os_name w) w);; modify (set_runner SetsName)) w
  | SetsName => (n ← touch (fun o => (m_name o, o)); SetName n;; modify (set_runner SetsId)) w
  | SetsId => (touch (fun o => (tt, with_id tid o));; modify (set_runner SetsOsName)) w
  | SetsOsName =>
      (n ← touch (fun o => (m_name o, o));
       modify (fun w => set_names (w_this w) (w_name w) (String.substring 0 15 n) w);; modify (set_runner Swaps)) w
  | Swaps => (cb ← touch (fun o => (m_cb o, with_cb None o)); modify (set_runner (Notifies cb))) w
  | Notifies cb => (touch (fun o => (tt, notify o));; modify (set_runner (Calls cb))) w
  | Calls None => (Throw "bad_function_call", w)   (* out of the thread: the process ends *)
  | Calls (Some names) => (modify called;; modify (set_runner (Runs names))) w
  | Runs [] => (modify (set_runner Ended)) w
  | Runs (name :: names) => (SetName name;; modify (set_runner (Runs names))) w
  end.

(** The creator's turn; a wait that has to wait changes nothing. *)
Definition creator_step : prog world unit := fun w =>
  match w_creator w with
  | Creating =>
      if negb created then (modify (set_object None);; modify (set_creator Failed)) w else
      (touch (fun o => (tt, with_handle true o));; modify (set_runner SetThis);; modify (set_creator Waits)) w
  | Waits =>
      (n ← touch (fun o => (m_semaphore o, with_count (pred (m_semaphore o)) o));
       if (n =? 0)%nat then mret tt else modify (set_creator (Has uses))) w
  | Has [] | Failed => (Ret tt, w)
  | Has (Join :: us) =>
      (handle ← touch (fun o => (m_thread o, o));
       if (handle : bool) then
         r ← gets w_runner;
         match r with Ended => touch (fun o => (tt, with_handle false o));; modify (set_creator (Has us)) | _ => mret tt end
       else modify (set_creator (Has us))) w
  | Has (Delete :: us) => (touch (fun o => (tt, o));; modify (set_object None);; modify (set_creator (Has us))) w
  end.
(** [sem_wait] that a signal interrupts: [wait] throws out of the constructor,
    and the members are destroyed. *)
Definition interrupted : prog world unit := fun w =>
  match w_creator w with Waits => (modify (set_object None);; modify (set_creator Failed)) w | _ => (Ret tt, w) end.

Inductive turn : Type := Creator | Runner | Signal.
Definition take_turn (t : turn) : prog world unit :=
  match t with Creator => creator_step | Runner => run_step | Signal => interrupted end.
Fixpoint play (ts : list turn) : prog world unit :=
  match ts with [] => mret tt | t :: ts => take_turn t;; play ts end.
End threads.

(** ** What holds in every order of turns *)

Section lifecycle.
Variables (tid : Z) (uses : list use) (names : list string) (name : string).
Abbreviation given := (m_name (new_Thread (Some names) name)).

Definition stage (r : runner) : nat := match r with
  | NotBorn => 0 | SetThis => 1 | SetsName => 2 | SetsId => 3 | SetsOsName => 4 | Swaps => 5
  | Notifies _ => 6 | Calls _ => 7 | Runs _ => 8 | Ended => 9 end.

(** [Delete] comes last. *)
Fixpoint uses_ok (us : list use) : bool := match us with
  | [] => true | Join :: us => uses_ok us | Delete :: us => match us with [] => true | _ => false end end.
Definition creator_ok (w : world) (o : Thread) : Prop := match w_creator w with
  | Creating => stage (w_runner w) = 0 /\ m_semaphore o = 0
  | Waits => 1 <= stage (w_runner w) /\ m_semaphore o = (if 7 <=? stage (w_runner w) then 1 else 0) /\ m_thread o = true
  | Has us => 7 <= stage (w_runner w) /\ m_semaphore o = 0 /\ uses_ok us = true /\ (m_thread o = false -> stage (w_runner w) = 9) /\
      (Join ∈ uses -> Join ∈ us \/ stage (w_runner w) = 9)
  | Failed => False
  end.
Definition object_ok (w : world) : Prop := match w_object w with
  | Some o => (4 <= stage (w_runner w) -> m_id o = tid) /\ m_cb o = (if 6 <=? stage (w_runner w) then None else Some names) /\
      (stage (w_runner w) <= 7 -> m_name o = given) /\ creator_ok w o
  | None => w_creator w = Has [] /\ 7 <= stage (w_runner w) /\ (Join ∈ uses -> stage (w_runner w) = 9)
  end.
Definition runner_ok (w : world) : Prop :=
  (2 <= stage (w_runner w) -> w_this w = true) /\ (3 <= stage (w_runner w) <= 7 -> w_name w = given) /\
  (5 <= stage (w_runner w) -> w_os_name w = String.substring 0 15 given) /\
  w_calls w = (if 8 <=? stage (w_runner w) then 1 else 0) /\
  match w_runner w with Notifies cb | Calls cb => cb = Some names | Runs ns => names = [] -> ns = [] | _ => True end.
Definition inv (w : world) : Prop := object_ok w /\ runner_ok w.

Hypothesis Huses : uses_ok uses = true.
Hypothesis Hnames : names = [] \/ Join ∈ uses.

Ltac turn_done := match goal with
  | |- exists w', _ /\ _ => eexists; split; [reflexivity|]; try (split; [|reflexivity]); split;
      [unfold object_ok, creator_ok|unfold runner_ok]; simpl in *;
      repeat match goal with H : ?a <= ?b -> _ |- _ => specialize (H ltac:(lia)) | H : _ /\ _ |- _ => destruct H end;
      subst; intuition (try done; try lia; auto)
  end.

Lemma run_step_ok w : inv w -> exists w', run_step tid w = (Ret tt, w') /\ inv w' /\ w_creator w' = w_creator w.
Proof.
  intros [Ho (Ht & Hn & Hos & Hc & Hr)]. destruct w as [o c r this nm os calls]. unfold object_ok, creator_ok in Ho. simpl in *.
  destruct r as [| | | | | |cb|cb|[|n ns]|]; simpl in *.
  1, 11: by eexists; split_and!; [reflexivity|split; [exact Ho|done]|done].
  all: try (assert (this = true) as -> by (apply Ht; lia)).
  1-6: destruct o as [[id h cb0 mn sem]|]; [|destruct Ho as (_ & ? & _); lia]; simpl in Ho.
  1-6: destruct c; turn_done.
  - subst cb. destruct o as [[id h cb0 mn sem]|]; simpl in Ho; destruct c; turn_done.
  - destruct o as [[id h cb0 mn sem]|]; simpl in Ho; destruct c; turn_done.
  - destruct o as [[id h cb0 mn sem]|]; simpl in Ho.
    + destruct c; turn_done.
    + exfalso. destruct Ho as (_ & _ & Hj). destruct Hnames as [H0|H0]; [by specialize (Hr H0)|by specialize (Hj H0)].
Qed.

Lemma creator_step_ok w : inv w -> exists w', creator_step uses true w = (Ret tt, w') /\ inv w'.
Proof.
  intros [Ho (Ht & Hn & Hos & Hc & Hr)]. destruct w as [o c r this nm os calls]. unfold object_ok, creator_ok in Ho. simpl in *.
  assert (forall w, w = mkWorld o c r this nm os calls -> inv w) as Hsame by (intros w ->; by split).
  destruct c as [| |us|].
  - destruct o as [[id h cb0 mn sem]|]; [|by destruct Ho]. destruct r; simpl in Ho; try (destruct Ho as (_ & _ & _ & ? & _); lia). turn_done.
  - destruct o as [[id h cb0 mn sem]|]; [|by destruct Ho]. simpl in Ho. destruct Ho as (Hid & Hcb & Hmn & H1 & -> & ->).
    destruct r as [| | | | | |cb|cb|ns|]; simpl in *; turn_done.
  - destruct us as [|[|] us]; [by eexists; split; [reflexivity|by apply Hsame]| |];
      (destruct o as [[id h cb0 mn sem]|]; [|by destruct Ho]); simpl in Ho; destruct Ho as (Hid & Hcb & Hmn & H7 & -> & Hu & Hh & Hj).
    + destruct h; [destruct r as [| | | | | |cb|cb|ns|]; simpl in *; try lia; turn_done|]. turn_done.
    + destruct us as [|]; [|done].
      assert (Join ∈ uses -> stage r = 9) by (intros H; destruct (Hj H) as [H1|?]; [by apply list_elem_of_singleton in H1|done]). turn_done.
  - destruct o; [by destruct Ho as (_ & _ & _ & [])|by destruct Ho].
Qed.

(** A turn of the creator or of the new thread. *)
Abbreviation taking := (take_turn tid uses true).
Lemma play_ok ts : forall w, Forall (fun t => t <> Signal) ts -> inv w -> exists w', play tid uses true ts w = (Ret tt, w') /\ inv w'.
Proof.
  induction ts as [|t ts IH]; intros w Hts Hw; [by exists w|]. apply Forall_cons in Hts as [Ht Hts].
  assert (exists w1, taking t w = (Ret tt, w1) /\ inv w1) as (w1 & E & H1).
  { destruct t; [by apply creator_step_ok| |done]. destruct (run_step_ok w Hw) as (w1 & E & H1 & _). by exists w1. }
  destruct (IH w1 Hts H1) as (w' & E' & H'). exists w'. split; [|done]. simpl. by run E.
Qed.
Lemma play_app ts ts' w w' : play tid uses true ts w = (Ret tt, w') -> play tid uses true (ts ++ ts') w = play tid uses true ts' w'.
Proof.
  revert w. induction ts as [|t ts IH]; intros w; simpl; [by intros [= ->]|].
  unfold mbind, prog_bind. destruct (taking t w) as [[[]| |] w1]; [apply IH|done|done].
Qed.

Lemma start_inv : inv (start_world (Some names) name).
Proof. split; [unfold object_ok, creator_ok|unfold runner_ok]; simpl; split_and!; try done; lia. Qed.

(** What is left to do. *)
Definition runner_left (r : runner) : nat := match r with Runs ns => S (length ns) | Ended => 0 | r => 11 + length names - stage r end.
Definition creator_left (c : creator) : nat := match c with Creating => 2 + length uses | Waits => 1 + length uses | Has us => length us | Failed => 0 end.
Definition left_over (w : world) : nat := runner_left (w_runner w) + creator_left (w_creator w).
Definition finished (w : world) : Prop := w_runner w = Ended /\ w_creator w = Has [].

Lemma run_step_advances w w' : inv w -> w_runner w <> NotBorn -> w_runner w <> Ended -> run_step tid w = (Ret tt, w') ->
  runner_left (w_runner w') < runner_left (w_runner w).
Proof.
  intros [_ (Ht & _ & _ & _ & Hr)] H0 H1. destruct w as [o c r this nm os calls]. simpl in *.
  destruct r as [| | | | | |cb|cb|[|n ns]|]; simpl in *; try done; try (assert (this = true) as -> by (apply Ht; lia)); subst;
    try (destruct o as [[id h cb0 mn sem]|]); cbv -[lt length Nat.add Nat.sub String.substring]; intros [= <-]; lia.
Qed.
Lemma turn_advances w : inv w -> finished w \/ exists t w', t <> Signal /\ taking t w = (Ret tt, w') /\ inv w' /\ left_over w' < left_over w.
Proof.
  intros Hw. destruct (creator_step_ok w Hw) as (wc & Ec & Hc). destruct (run_step_ok w Hw) as (wr & Er & Hr & Hcr).
  pose proof (run_step_advances w wr Hw) as Hadv. pose proof Hw as [Ho _]. destruct w as [o c r this nm os calls]. unfold object_ok, creator_ok in Ho. simpl in *.
  destruct (decide (c = Creating)) as [->|H0]; [|destruct (decide (r = Ended)) as [->|H1]].
  - right. exists Creator, wc. split_and!; [done..|]. destruct o as [[id h cb0 mn sem]|]; [|by destruct Ho].
    destruct Ho as (_ & _ & _ & Hs & _). destruct r; try done. revert Ec. cbv -[lt length Nat.add Nat.sub]. intros [= <-]. lia.
  - destruct c as [| |us|]; [done| | |].
    + right. exists Creator, wc. split_and!; [done..|]. destruct o as [[id h cb0 mn sem]|]; [|by destruct Ho].
      destruct Ho as (_ & _ & _ & _ & Hs & _). simpl in Hs. subst sem. revert Ec. cbv -[lt length Nat.add Nat.sub]. intros [= <-]. lia.
    + destruct us as [|u us]; [by left|]. right. exists Creator, wc. split_and!; [done..|].
      destruct o as [[id h cb0 mn sem]|]; [|by destruct Ho]. destruct u, h; revert Ec; cbv -[lt length Nat.add Nat.sub]; intros [= <-]; unfold left_over; simpl; lia.
    + destruct o; [by destruct Ho as (_ & _ & _ & [])|by destruct Ho].
  - right. exists Runner, wr. split_and!; [done..|]. unfold left_over. simpl. rewrite Hcr. apply Nat.add_lt_mono_r. apply Hadv; [|done|done].
    intros ->. destruct o as [[id h cb0 mn sem]|]; [|destruct Ho as (_ & Hs & _); simpl in Hs; lia].
    destruct Ho as (_ & _ & _ & Ho). destruct c; [done|destruct Ho as (Hs & _); simpl in Hs; lia..|done].
Qed.
Lemma can_finish w : inv w -> exists ts w', Forall (fun t => t <> Signal) ts /\ play tid uses true ts w = (Ret tt, w') /\ inv w' /\ finished w'.
Proof.
  remember (left_over w) as n eqn:En. revert w En. induction n as [n IH] using lt_wf_ind. intros w -> Hw.
  destruct (turn_advances w Hw) as [Hf|(t & w1 & Ht & E & H1 & Hlt)]; [by exists [], w|].
  destruct (IH _ Hlt w1 eq_refl H1) as (ts & w' & Hts & E' & H'). exists (t :: ts), w'. split_and!; [by constructor| |apply H'..].
  simpl. by run E.
Qed.

End lifecycle.


(** The object is deleted and the callback renames the thread: [SetName]
    writes to the deleted object through [t_thread]. *)
Example rename_after_delete : out (play 7 [Delete] true (Creator :: replicate 6 Runner ++ [Creator; Creator; Runner; Runner]))
  (start_world (Some ["a"]) "w") = Crash OutOfRange.
Proof. done. Qed.
(** A signal during the wait: the constructor throws, and the new thread goes
    on with an object that is gone. *)
Example interrupted_constructor : out (play 7 [] true [Creator; Signal; Runner; Runner]) (start_world (Some []) "w") = Crash OutOfRange.
Proof. done. Qed.
(** An empty function is not refused; it ends the process in the new thread. *)
Example empty_function : out (play 7 [] true (Creator :: replicate 7 Runner)) (start_world None "w") = Throw "bad_function_call".
Proof. done. Qed.
(** [pthread_create] fails: no thread, and the constructor throws. *)
Example not_created : let w := post (play 7 [Join] false [Creator; Runner; Creator]) (start_world (Some []) "w") in
  w_creator w = Failed /\ w_runner w = NotBorn /\ w_object w = None.
Proof. done. Qed.
